(* ===== verification/_CoqProject ===== *)
-Q . S2P
Prelude.v
Types.v
CString.v
Machine.v
Concrete.v
Metadata.v
Utils.v
HwEp.v
SndCard.v
SndCardProps.v
SndCardRefs.v
Device.v
Gsl.v
GraphModule.v
Graph.v
GraphSpec.v
GraphLegs.v
GraphProps.v
Session.v
SessionSpec.v
SessionStart.v
SessionPrepare.v
Agm.v
SessionProps.v
SessionLocks.v
SessionOpen.v
SessionAttach.v
Plugin.v
PcmPlugin.v
PcmProps.v
PcmSession.v
ComprPlugin.v
ComprProps.v
ComprSession.v
MixerPlugin.v
MixerCtl.v
MixerProps.v
MixerOpen.v
MixerSession.v
MixerCalls.v
MixerInv.v
Parcel.v
BinderState.v
DeathNotifier.v
AgmService.v
BpAgmService.v
AgmClient.v
AgmCalls.v
Service.v
ServiceSteps.v
ServiceSessions.v
ServiceCalls.v
ServiceProps.v
BinderRules.v
BinderProps.v
BinderSession.v
BinderMemory.v
BinderWitness.v
Hidl.v
HwServer.v
HwClient.v
HwProps.v
HwSession.v
HwWitness.v
Dbus.v
DbusServer.v
DbusClient.v
DbusProps.v
DbusSession.v
DbusEvents.v
DbusWitness.v
