(* ===== verification/Prelude.v ===== *)
(** * Audio Graph Manager (AGM): verification development

    The Audio Graph Manager (src/service) lets audio clients play and record
    through an audio DSP.  A client opens a _session_ (front end), attaches
    _audio interfaces_ (back ends, each a PCM _device_), and gives both key
    vectors, the _metadata_.  The service merges the metadata, opens the graph
    that the Graph Service Layer (GSL) finds for it, configures the modules of
    the graph from the client's stream and the device's hardware end point, and
    takes session, devices and graph together through open, prepare, start, stop
    and close.  Around the service the repository has its clients: plug-ins that
    make it look like an ALSA PCM, compress device or mixer (src/plugins), the
    parser of the sound card definitions they read (src/snd_parser), and the
    connections that put service and client into two processes (src/ipc).  This
    library is a shallow embedding of that code, and the theorems that make it correct.

    ** How C becomes Rocq

    A C function is a function into the state monad [M world] of this file:
    [Ret a w] for a function that returned [a] and left the process [w],
    [Crash] for undefined behaviour (NULL or dangling pointer, an access out of
    bounds, a mutex taken twice by the thread that holds it, a division by zero, a loop or a
    wait that does not end, a library that ends the process).  Error codes are ordinary results.  A pointer to a device, session, interface or graph is its
    position in the table that owns it ([Machine.world]); [None] is NULL; a freed
    graph leaves an empty slot, so a dangling pointer is a [Crash].  [goto]
    labels become the branches they jump to.  Integers are [Z]: [u32] and [s32]
    write out the conversions between [uint32_t] and [int], [ALIGN_PAYLOAD] and
    the payload sizes wrap like [size_t] with 64 bits.

    Code outside the repository (GSL, tinyalsa, sysfs, /proc, the clients'
    callbacks) is the oracle [Machine.Env]: its answer may depend on everything
    asked before, so a theorem quantified over [Env] holds for every behaviour of
    that code, and every call is logged in [w_trace].  Whether the n-th [calloc]
    succeeds is an argument of the environment too.  Constants of headers that are not
    in the repository are fields of [Machine.Consts]; [GraphModule.ConstsOk]
    states what the code relies on of them (sizes of the SPF structures, the
    number of OSAL error codes, distinct tags).  [Concrete] has one environment
    that satisfies it, on which every theorem with a hypothesis is applied.

    The other programs have their own states over that of the service: [SndCard.snd_state] (the
    cards in memory, the reference-counted list), [Plugin.host] (service, cards, and the
    instance of a plug-in), [BinderState.sys], [Hidl.hsys] and [Dbus.dsys] (service, server and client process).  What
    they need from outside (the XML library, tinyalsa and ALSA, the memory shared
    with the DSP, Binder's parcels) are the classes [SndEnv], [PlugEnv], [Alsa], [Compr], [Mixer], [Parcel],
    [Binder], [HwBinder], [DBus]; [ParcelLaws] states what the code relies on of parcels.

    ** The files

    - [Prelude]: the monad, [wp]/[wlp] (total and partial weakest
      preconditions) with loop rules, the classes [Keeps] (an observation that
      does not change) and [Steps] (a frame preorder) with the hint databases and
      tactics that prove them, 32-bit integers, error numbers.
    - [Types]: the structures and enumerations of service/inc.
    - [Machine]: constants, outside calls, the process state, mutexes, pointers.
    - [Concrete]: a concrete environment.
    - [Metadata]: metadata.c.  [remove_dup] is the in-place triple loop of
      [metadata_remove_dup], proved equal to keeping the first entry per key;
      [metadata_merge] is proved to concatenate and keep the first entry, so that
      earlier arguments win; [metadata_copy] decodes what [encode_metadata]
      writes, and is shown to read past a truncated buffer, whose size it ignores.
    - [Utils]: utils.c, the conversion of OSAL status codes.
    - [HwEp]: device_hw_ep.c.  [endpoint_name] is the reference printer of back-end
      names; parsing is its inverse, and accepted names determine all fields.
    - [Device]: device.c.  [dev_trans] is the specification of a reference-counted
      PCM; the five operations refine it, paired clients keep [dev_inv], and
      the number of open PCMs is exactly the number of devices in use.  Start-up
      retries at most [MAX_RETRY] times.
    - [Gsl]: the GSL calls, and the rule that they change nothing but the log.
    - [GraphModule]: graph_module.c.  The configure functions, safe on every
      input within the limits of the client's types ([run_configure_safe]), the
      payloads they build, and the overflow outside these limits: every write to a
      payload is compared with the size it was allocated with.
    - [Graph]: the operations of graph.c; [GraphSpec], [GraphLegs]: their
      specifications.  [graph_frame] is the frame of an operation, [graph_trans]
      the state machine of a graph object, [prepared_spec], [open_outcome] and
      [added_spec] the outcomes of prepare, open and add; [GraphProps]: the
      theorems.
    - [Session]: the operations of session_obj.c.  [SessionSpec]: [dev_run], the
      run of one device operation over the devices of a session, the loops over
      the interfaces against it, and stop and close; [SessionStart] and
      [SessionPrepare]: start with its [unwind] label, and prepare.
      [SessionProps], [SessionLocks]: the theorems.  [SessionOpen]: opening, with the
      invariant [opening] that is kept from the first interface to the last and back.
      [SessionAttach]: attaching an interface to a session that is open, by the same lemmas,
      and detaching one.
    - [Agm]: the client interface of agm.c.
    - [Service]: what every call of the service keeps, [svc_step], and its invariant
      [svc_ok]; [ServiceSteps], [ServiceSessions]: each operation is such a step;
      [ServiceCalls]: so is every call of [Agm] and every event ([api_op]), and any
      sequence of them ([serves]); [ServiceProps]: the theorems.
    - [CString]: strings of C, [snprintf] into a buffer of a given size.
    - [SndCard]: snd-card-parser.c over the events of the XML library;
      [SndCardProps]: what reading a definition stores, [SndCardRefs]: the
      handles of cards, the queries on nodes.
    - [Plugin]: what the three plug-ins run on.  [PcmPlugin]: agm_pcm_plugin.c, with
      [PcmProps] (the position shared with the DSP, the boundary) and [PcmSession] (room,
      opening, configuration).  [ComprPlugin]: agm_compress_plugin.c, with
      [ComprProps] (accounting, codec configuration) and [ComprSession] (draining,
      overruns, opening).  [MixerPlugin], [MixerCtl]: agm_mixer_plugin.c, discovery
      and controls, handlers and events; [MixerProps], [MixerOpen], [MixerSession],
      [MixerCalls], [MixerInv]: the controls that are made, opening and closing, what
      the controls do, the queues of events, the tables.
    - [Parcel]: arguments and results between two processes.  [BinderState], [DeathNotifier],
      [AgmService], [BpAgmService], [AgmClient]: src/ipc/SwBinders, from the client
      library ([AgmClient.agm_session_open]) through the proxy
      ([BpAgmService.ipc_agm_session_open]), [onTransact] and the server wrapper
      ([AgmService.ipc_agm_session_open]) to the service ([Agm.agm_session_open]).
      [AgmCalls]: the calls a client can make.  [BinderRules], [BinderProps], [BinderSession],
      [BinderMemory], [BinderWitness]: the theorems about them.
    - [Hidl], [HwServer], [HwClient]: src/ipc/HwBinders, the same way through the
      vectors of HIDL and the class [AGM] of the server.  [HwProps], [HwSession],
      [HwWitness]: the theorems about them.
    - [Dbus], [DbusServer], [DbusClient]: src/ipc/DBus, over typed values: objects with
      interfaces, the two tables of methods ([agm_dbus_module_methods]) and their handlers
      ([DbusServer.ipc_agm_session_open]), the client library over GDBus, events as signals.
      [DbusProps], [DbusSession], [DbusEvents], [DbusWitness]: the theorems about them.  The
      server compiles only where [size_t] has 32 bits, and there it has 32.

    ** What the theorems show

    Each component has its functional theorems on every branch (errors included),
    and where it keeps state a refinement or an invariant: [device_ops_refine],
    [graph_ops_refine], [session_stop_correct], [session_start_correct] and
    [session_close_correct] say that an operation makes exactly one transition of
    an abstract machine and leaves the rest of the process alone; [session_open_correct] says
    that opening is all or nothing: the graph with every interface that waited and one
    reference on the device for each, or no interface, no reference and no graph;
    [session_attach_correct] says the same of one interface more, and [session_detach_correct]
    what becomes of leg, device and interface when one leaves;
    [amp_events_refine] gives such a machine for the mixer's events; [compr_accounting], [amp_tables_well_formed] and
    [snd_card_handles_valid] are invariants over any sequence of calls.  So is
    [service_invariant], of the service from [agm_init] on, whatever is called with
    whatever arguments and whatever GSL answers; [session_handle_stable] says that a
    handle goes on naming its session.
    [binder_transparent] says that a call through Binder is the call of the service,
    [client_death] that the sessions of a client that dies are closed; [hw_transparent] and
    [hw_client_death] say the same of hwbinder, with its exceptions, and
    [hw_callback_lifetime] what a callback goes through.  For D-Bus, [dbus_transparent] says
    what a call is, [dbus_open_names] that opening keeps the tables of both ends
    consistent ([dbus_wf], which [dbus_start] establishes) and gives a handle for the right session,
    [dbus_signature_checked] that every handler checks the signature of its
    entry, [dbus_register_cb] and [dbus_events] what becomes of callbacks and events.  [wp] theorems
    state that the code returns ([amp_open_controls] of the opening of a mixer, too); [wlp] is used
    where memory may run out at a place the code does not check.  A specification of a
    graph or device operation ([graph_trans], [dev_calls]) holds the calls made to GSL and
    tinyalsa with their answers, so that it says what is called, and what becomes of a
    refusal; the calls through Binder, hwbinder and D-Bus give the bytes of a read.  Some theorems describe behaviour that
    is not what the code means to do ([device_get_obj_off_by_one],
    [metadata_copy_overread], [pcm_payload_overflow], [acdb_files_collected],
    [register_for_events_overflow], [aif_obj_get_correct],
    [reminder_failure_status], [failed_open_dangles], [failed_loopback_leaks], [attach_twice],
    [attach_unwind_keeps_state], [lock_order_inversion], [compr_write_overrun],
    [amp_read_event_second], [binder_register_cb], [binder_out_of_memory], [hw_event_config_crash], [hw_buf_info_descriptors],
    [dbus_close_crashes], [dbus_write_crashes] and others).

    ** Bounds and fuel

    Loops are structural: over the interfaces of a session, the modules of a
    graph, the entries of a table or a directory.  The only loop of the code
    without such a bound, [device_init], runs [MAX_RETRY] times, the fuel of
    [device_init_loop].  [remove_dup] has the live count as fuel for its two outer
    loops, which is enough because each step shortens the live part of the array
    or moves right.  Of the plug-ins, [boundary_loop] has fuel 32: each step doubles a positive
    number that stays below 2^31 ([pcm_boundary]); the reads of the shared position retry as
    often as the code does; a wait takes what other threads do meanwhile as an
    argument, and a drain returns only when one of them signals its condition ([wait_eos]).  The walks over nodes of a card, entries of an array of controls, clients and
    handles are structural.

    ** What is not modelled

    - What ties libdbus to the main loop of GLib (the watches and timeouts of agm-dbus-utils.cpp);
      libdbus and GLib themselves, their own checks of object paths and of the size of
      messages included; [server_message_handler] has no result in C, and is taken to say
      that the call was handled.  A crash of the client or of the server ends both here.
    - The main functions of the daemons, the
      macros of Binder's interfaces, hwbinder's declarations of methods, the list macros of
      agm_list.h (lists are Rocq lists in list order) and the test programs.
    - Threads: the model is one thread's view.  Mutexes are tracked, so that
      taking one twice, releasing one that is not held and the order of
      acquisition are visible; the interleaving of two threads is not.  The ATS
      thread of [agm_init] is one outside call.  A callback that changes the
      callback list while it is walked is not represented.
    - Heap addresses: structures are values.  Freed memory is an empty slot for
      graphs and devices; a stale pointer in the static table [hw_ep_module]
      (its [gkv] after the module that shared it is freed) reads the old value.
    - Wake-ups of a condition variable that nobody signalled.
    - Logging, [atoi] beyond the range of [int], and [metadata_print].  The mutexes of the
      plug-ins: each of their operations is one step.

    Modelled without a functional theorem of their own: attaching an interface to a session that
    is prepared, stopped or started, which goes on with [session_prepare] and [session_start],
    and opening with a loopback or an echo reference already set; [service_invariant] covers both. *)

From stdpp Require Export base list option sets.
From Stdlib Require Export ZArith Lia Bool.
#[export] Set Default Goal Selector "!".
Open Scope Z_scope.

(** ** A state monad whose computations may crash

    [M S A] is a computation on a state [S].  [Ret] is a C function that
    returned; [Crash] is undefined behaviour (a NULL or dangling pointer
    dereferenced, an array read out of its bounds, a mutex taken twice by one
    thread, an integer divided by zero), a process ended by a library that refuses
    its arguments ([Aborted]), or a loop that is proved never to end and
    a wait that nobody ends ([Diverges]).  There is no other way for a computation to fail: the error
    codes of the program are ordinary results. *)

Inductive crash : Type :=
  | NullDeref
  | OutOfBounds
  | DanglingPtr
  | SelfDeadlock
  | DivByZero
  | Diverges
  | Aborted.

Inductive outcome (S A : Type) : Type :=
  | Ret (a : A) (s : S)
  | Crash (why : crash).
Arguments Ret {S A} a s.
Arguments Crash {S A} why.

Definition M (S A : Type) : Type := S -> outcome S A.

Definition ret {S A} (a : A) : M S A := fun s => Ret a s.
Definition crash_with {S A} (why : crash) : M S A := fun _ => Crash why.
Definition gets {S A} (f : S -> A) : M S A := fun s => Ret (f s) s.
Definition modify {S} (f : S -> S) : M S unit := fun s => Ret tt (f s).
Definition bind {S A B} (m : M S A) (k : A -> M S B) : M S B :=
  fun s => match m s with
           | Ret a s' => k a s'
           | Crash why => Crash why
           end.

Lemma bind_ret_l {S A B} (a : A) (k : A -> M S B) : bind (ret a) k = k a.
Proof. reflexivity. Qed.

Lemma bind_run {S A B} (m : M S A) (k : A -> M S B) s a s' :
  m s = Ret a s' -> bind m k s = k a s'.
Proof. unfold bind. by intros ->. Qed.

Declare Scope agm_scope.
Delimit Scope agm_scope with agm.
Notation "'let!' x := m 'in' k" := (bind m (fun x => k))
  (at level 10, x pattern, m at level 200, k at level 200,
   format "'[v' 'let!'  x  :=  m  'in' '/' k ']'") : agm_scope.
Notation "'do!' m ';' k" := (bind m (fun _ => k))
  (at level 10, m at level 100, k at level 200,
   format "'[v' 'do!'  m  ';' '/' k ']'") : agm_scope.
Open Scope agm_scope.

(** The value of an option, or undefined behaviour. *)
Definition the {S A} (why : crash) (o : option A) : M S A :=
  match o with
  | Some a => ret a
  | None => crash_with why
  end.

(** [list_for_each] over an index range: the body returns [Some a] to leave
    the loop (a [goto] or a [break] that carries [a]) and [None] to go on. *)
Fixpoint for_idx {S A} (ix : list nat) (body : nat -> M S (option A))
  : M S (option A) :=
  match ix with
  | [] => ret None
  | i :: ix' =>
      let! r := body i in
      match r with
      | Some a => ret (Some a)
      | None => for_idx ix' body
      end
  end.

(** A loop that is never left early. *)
Fixpoint for_all {S} (ix : list nat) (body : nat -> M S unit) : M S unit :=
  match ix with
  | [] => ret tt
  | i :: ix' => do! body i ; for_all ix' body
  end.

(** A loop over an index range that carries a local variable. *)
Fixpoint for_fold {S A} (ix : list nat) (body : nat -> A -> M S A) (acc : A) : M S A :=
  match ix with
  | [] => ret acc
  | i :: ix' => let! acc := body i acc in for_fold ix' body acc
  end.

(** ** Weakest preconditions

    [wpg u m Q s]: running [m] from [s] either returns with [Q] or crashes,
    and a crash is acceptable when [u] holds.  [wp] is the total reading (no
    crash at all), [wlp] the partial one. *)

Definition wpg {S A} (u : Prop) (m : M S A) (Q : A -> S -> Prop) (s : S) : Prop :=
  match m s with
  | Ret a s' => Q a s'
  | Crash _ => u
  end.

Abbreviation wp := (wpg False).
Abbreviation wlp := (wpg True).

(** The function at the head of an application. *)
Ltac head_of t := lazymatch t with ?f _ => head_of f | _ => t end.

Section WP.
Context {S : Type} (u : Prop).

Lemma wpg_ret {A} (a : A) (Q : A -> S -> Prop) s : Q a s -> wpg u (ret a) Q s.
Proof. exact id. Qed.

Lemma wpg_bind {A B} (m : M S A) (k : A -> M S B) Q s :
  wpg u m (fun a s' => wpg u (k a) Q s') s -> wpg u (bind m k) Q s.
Proof. unfold wpg, bind. by destruct (m s). Qed.

Lemma wpg_gets {A} (f : S -> A) (Q : A -> S -> Prop) s :
  Q (f s) s -> wpg u (gets f) Q s.
Proof. exact id. Qed.

Lemma wpg_modify (f : S -> S) (Q : unit -> S -> Prop) s :
  Q tt (f s) -> wpg u (modify f) Q s.
Proof. exact id. Qed.

Lemma wpg_crash {A} why (Q : A -> S -> Prop) s : u -> wpg u (crash_with why) Q s.
Proof. exact id. Qed.

Lemma wpg_mono {A} (m : M S A) (Q Q' : A -> S -> Prop) s :
  wpg u m Q s -> (forall a s', Q a s' -> Q' a s') -> wpg u m Q' s.
Proof. unfold wpg. destruct (m s); auto. Qed.

Lemma wpg_the {A} why (o : option A) (Q : A -> S -> Prop) s :
  match o with Some a => Q a s | None => u end -> wpg u (the why o) Q s.
Proof. by destruct o. Qed.

(** The invariant rule of the two loops. *)
Lemma wpg_for_idx {A} (ix : list nat) (body : nat -> M S (option A))
    (J : S -> Prop) (Q : option A -> S -> Prop) s :
  J s ->
  (forall i s, i ∈ ix -> J s ->
     wpg u (body i) (fun r s' => match r with
                                 | Some a => Q (Some a) s'
                                 | None => J s'
                                 end) s) ->
  (forall s, J s -> Q None s) ->
  wpg u (for_idx ix body) Q s.
Proof.
  revert s. induction ix as [|i ix IH]; intros s HJ Hb Hq; [by apply Hq|].
  apply wpg_bind. eapply wpg_mono.
  { apply Hb; [constructor | exact HJ]. }
  intros [a|] s' H; [exact H|].
  apply IH; [exact H| |exact Hq].
  intros; apply Hb; [by constructor | done].
Qed.

(** The same over [a], ..., [a + n - 1], with an invariant that counts. *)
Lemma wpg_for_seq {A} a n (body : nat -> M S (option A))
    (J : nat -> S -> Prop) (Q : option A -> S -> Prop) s :
  J a s ->
  (forall k s, (a <= k < a + n)%nat -> J k s ->
     wpg u (body k) (fun r s' => match r with
                                 | Some x => Q (Some x) s'
                                 | None => J (Datatypes.S k) s'
                                 end) s) ->
  (forall s, J (a + n)%nat s -> Q None s) ->
  wpg u (for_idx (seq a n) body) Q s.
Proof.
  revert a s. induction n as [|n IH]; intros a s HJ Hb Hq; cbn [seq for_idx].
  { apply wpg_ret, Hq. by rewrite Nat.add_0_r. }
  apply wpg_bind. eapply wpg_mono; [apply Hb; [lia|exact HJ]|].
  intros [x|] s' H; [exact H|]. apply IH; [exact H| |].
  - intros k s'' Hk. apply Hb. lia.
  - intros s'' H''. apply Hq. by rewrite Nat.add_succ_r.
Qed.

Lemma wpg_for_fold {A} a n (body : nat -> A -> M S A)
    (J : nat -> A -> S -> Prop) (Q : A -> S -> Prop) acc s :
  J a acc s ->
  (forall k acc s, (a <= k < a + n)%nat -> J k acc s ->
     wpg u (body k acc) (fun acc s' => J (Datatypes.S k) acc s') s) ->
  (forall acc s, J (a + n)%nat acc s -> Q acc s) ->
  wpg u (for_fold (seq a n) body acc) Q s.
Proof.
  revert a acc s. induction n as [|n IH]; intros a acc s HJ Hb Hq; cbn [seq for_fold].
  { apply wpg_ret, Hq. by rewrite Nat.add_0_r. }
  apply wpg_bind. eapply wpg_mono; [apply Hb; [lia|exact HJ]|].
  intros acc' s' H. apply IH; [exact H| |].
  - intros k acc'' s'' Hk. apply Hb. lia.
  - intros acc'' s'' H''. apply Hq. by rewrite Nat.add_succ_r.
Qed.

Lemma wpg_for_all (ix : list nat) (body : nat -> M S unit)
    (J : S -> Prop) (Q : unit -> S -> Prop) s :
  J s ->
  (forall i s, i ∈ ix -> J s -> wpg u (body i) (fun _ s' => J s') s) ->
  (forall s, J s -> Q tt s) ->
  wpg u (for_all ix body) Q s.
Proof.
  revert s. induction ix as [|i ix IH]; intros s HJ Hb Hq; [by apply Hq|].
  apply wpg_bind. eapply wpg_mono.
  { apply Hb; [constructor | exact HJ]. }
  intros [] s' H.
  apply IH; [exact H| |exact Hq].
  intros; apply Hb; [by constructor | done].
Qed.
End WP.

Lemma wlp_run {S A} (m : M S A) Q s a s' :
  wlp m Q s -> m s = Ret a s' -> Q a s'.
Proof. unfold wpg. intros H E. by rewrite E in H. Qed.

Lemma run_wlp {S A} (m : M S A) (Q : A -> S -> Prop) s :
  (forall a s', m s = Ret a s' -> Q a s') -> wlp m Q s.
Proof. unfold wpg. intros H. destruct (m s); auto. Qed.

Lemma wlp_any {S A} (m : M S A) (Q : A -> S -> Prop) s : (forall a s', Q a s') -> wlp m Q s.
Proof. intros HQ. apply run_wlp. intros. apply HQ. Qed.

Lemma wp_run {S A} (m : M S A) Q s :
  wp m Q s -> exists a s', m s = Ret a s' /\ Q a s'.
Proof. unfold wpg. destruct (m s); [eauto | done]. Qed.

Lemma wp_wpg {S A} (u : Prop) (m : M S A) Q s : wp m Q s -> wpg u m Q s.
Proof. unfold wpg. by destruct (m s). Qed.

Lemma wp_wlp {S A} (m : M S A) Q s : wp m Q s -> wlp m Q s.
Proof. unfold wpg. by destruct (m s). Qed.

(** ** Preserved observations

    [Keeps f m]: whatever [m] does, the observation [f] of the state is the
    same afterwards.  The instances decompose a computation along its
    structure; [keeps] runs them. *)

Class Keeps {S B A} (f : S -> B) (m : M S A) : Prop :=
  keeps : forall s a s', m s = Ret a s' -> f s' = f s.

Section KeepsRules.
Context {S B : Type} (f : S -> B).

Lemma keeps_wlp {A} (m : M S A) s : Keeps f m -> wlp m (fun _ s' => f s' = f s) s.
Proof. intros H. apply run_wlp. intros; by eapply H. Qed.

Lemma Keeps_ret {A} (a : A) : Keeps f (ret a).
Proof. by intros s a' s' [= _ ->]. Qed.

Lemma Keeps_gets {A} (g : S -> A) : Keeps f (gets g).
Proof. by intros s a' s' [= _ ->]. Qed.

Lemma Keeps_crash {A} why : Keeps f (crash_with (A:=A) why).
Proof. by intros s a' s' H. Qed.

Lemma Keeps_modify (g : S -> S) : (forall s, f (g s) = f s) -> Keeps f (modify g).
Proof. intros H s a' s' [= _ <-]. apply H. Qed.

Lemma Keeps_the {A} why (o : option A) : Keeps f (the why o).
Proof. destruct o; [apply Keeps_ret | apply Keeps_crash]. Qed.

Lemma Keeps_bind {A A'} (m : M S A) (k : A -> M S A') :
  Keeps f m -> (forall a, Keeps f (k a)) -> Keeps f (bind m k).
Proof.
  intros Hm Hk s a s' H. unfold bind in H.
  destruct (m s) as [b s1|] eqn:E; [|done].
  rewrite (Hk b _ _ _ H). by eapply Hm.
Qed.

Lemma Keeps_for_idx {A} ix (body : nat -> M S (option A)) :
  (forall i, Keeps f (body i)) -> Keeps f (for_idx ix body).
Proof.
  intros H. induction ix as [|i ix IH]; [apply Keeps_ret|].
  apply Keeps_bind; [apply H|]. intros [a|]; [apply Keeps_ret | exact IH].
Qed.

Lemma Keeps_for_fold {A} ix (body : nat -> A -> M S A) :
  (forall i a, Keeps f (body i a)) -> forall acc, Keeps f (for_fold ix body acc).
Proof.
  intros H. induction ix as [|i ix IH]; intros acc; [apply Keeps_ret|].
  apply Keeps_bind; [apply H|]. intros a. exact (IH a).
Qed.

Lemma Keeps_for_all ix (body : nat -> M S unit) :
  (forall i, Keeps f (body i)) -> Keeps f (for_all ix body).
Proof.
  intros H. induction ix as [|i ix IH]; [apply Keeps_ret|].
  apply Keeps_bind; [apply H|]. intros _. exact IH.
Qed.
End KeepsRules.

Create HintDb keeps discriminated.

(** Proves [Keeps f m] along the structure of [m], with the hints for the
    functions [m] calls. *)
Ltac keeps_step :=
  lazymatch goal with
  | |- Keeps _ (ret _) => apply Keeps_ret
  | |- Keeps _ (gets _) => apply Keeps_gets
  | |- Keeps _ (crash_with _) => apply Keeps_crash
  | |- Keeps _ (the _ _) => apply Keeps_the
  | |- Keeps _ (modify _) => apply Keeps_modify; intros; reflexivity
  | |- Keeps _ (bind _ _) => apply Keeps_bind; [|intros ?]
  | |- Keeps _ (for_idx _ _) => apply Keeps_for_idx; intros ?
  | |- Keeps _ (for_fold _ _ _) => apply Keeps_for_fold; intros ? ?
  | |- Keeps _ (for_all _ _) => apply Keeps_for_all; intros ?
  | |- Keeps _ (if ?b then _ else _) => destruct b
  | |- Keeps _ (match ?x with _ => _ end) => destruct x
  | |- Keeps _ _ => solve [eauto with keeps typeclass_instances]
  end.
Ltac keeps_tac := intros; repeat keeps_step.

(** ** Bounded changes

    [Steps R m]: every run of [m] relates its initial and final state by the
    preorder [R], the frame of the computation. *)

Class Steps {S A} (R : S -> S -> Prop) (m : M S A) : Prop :=
  steps : forall s a s', m s = Ret a s' -> R s s'.

Section StepsRules.
Context {S : Type} (R : S -> S -> Prop) `{!PreOrder R}.

Lemma Steps_ret {A} (a : A) : Steps R (ret a).
Proof. by intros s a' s' [= _ ->]. Qed.

Lemma Steps_gets {A} (g : S -> A) : Steps R (gets g).
Proof. by intros s a' s' [= _ ->]. Qed.

Lemma Steps_crash {A} why : Steps R (crash_with (A:=A) why).
Proof. by intros s a' s' H. Qed.

Lemma Steps_modify (g : S -> S) : (forall s, R s (g s)) -> Steps R (modify g).
Proof. intros H s a' s' [= _ <-]. apply H. Qed.

Lemma Steps_the {A} why (o : option A) : Steps R (the why o).
Proof. destruct o; [apply Steps_ret | apply Steps_crash]. Qed.

Lemma Steps_bind {A A'} (m : M S A) (k : A -> M S A') :
  Steps R m -> (forall a, Steps R (k a)) -> Steps R (bind m k).
Proof.
  intros Hm Hk s a s' H. unfold bind in H.
  destruct (m s) as [b s1|] eqn:E; [|done].
  transitivity s1; [by eapply Hm | by eapply Hk].
Qed.

Lemma Steps_for_idx {A} ix (body : nat -> M S (option A)) :
  (forall i, Steps R (body i)) -> Steps R (for_idx ix body).
Proof.
  intros H. induction ix as [|i ix IH]; [apply Steps_ret|].
  apply Steps_bind; [apply H|]. intros [a|]; [apply Steps_ret | exact IH].
Qed.

Lemma Steps_for_fold {A} ix (body : nat -> A -> M S A) :
  (forall i a, Steps R (body i a)) -> forall acc, Steps R (for_fold ix body acc).
Proof.
  intros H. induction ix as [|i ix IH]; intros acc; [apply Steps_ret|].
  apply Steps_bind; [apply H|]. intros a. exact (IH a).
Qed.

Lemma Steps_for_all ix (body : nat -> M S unit) :
  (forall i, Steps R (body i)) -> Steps R (for_all ix body).
Proof.
  intros H. induction ix as [|i ix IH]; [apply Steps_ret|].
  apply Steps_bind; [apply H|]. intros _. exact IH.
Qed.

(** The frame next to a postcondition. *)
Lemma wpg_frame {A} (m : M S A) (u : Prop) (Q : A -> S -> Prop) s :
  Steps R m -> wpg u m (fun a s' => R s s' -> Q a s') s -> wpg u m Q s.
Proof.
  intros Hm. unfold wpg. destruct (m s) as [a s'|] eqn:E; [|done].
  intros HQ. apply HQ. by eapply Hm.
Qed.

(** A framed computation that cannot crash, or may. *)
Lemma wpg_steps {A} (m : M S A) (u : Prop) (Q : A -> S -> Prop) s :
  Steps R m -> u \/ wp m (fun _ _ => True) s ->
  (forall a s', R s s' -> Q a s') -> wpg u m Q s.
Proof.
  intros Hm Hs HQ. unfold wpg in *. destruct (m s) as [a s'|] eqn:E.
  - apply HQ. by eapply Hm.
  - by destruct Hs.
Qed.
End StepsRules.

Create HintDb steps discriminated.

(** Proves [Steps R m] along the structure of [m]; the hints hold the
    primitive steps and the functions already framed. *)
Ltac steps_step :=
  lazymatch goal with
  | |- Steps _ (ret _) => apply Steps_ret; apply _
  | |- Steps _ (gets _) => apply Steps_gets; apply _
  | |- Steps _ (crash_with _) => apply Steps_crash
  | |- Steps _ (the _ _) => apply Steps_the; apply _
  | |- Steps _ (bind _ _) => apply Steps_bind; [apply _| |intros ?]
  | |- Steps _ (for_idx _ _) => apply Steps_for_idx; [apply _|intros ?]
  | |- Steps _ (for_fold _ _ _) => apply Steps_for_fold; [apply _|intros ? ?]
  | |- Steps _ (for_all _ _) => apply Steps_for_all; [apply _|intros ?]
  | |- Steps _ (if ?b then _ else _) => destruct b
  | |- Steps _ (match ?x with _ => _ end) => destruct x
  | |- Steps _ (let _ := _ in _) => cbv zeta
  | |- Steps _ _ => solve [eauto with steps typeclass_instances]
  end.
Ltac steps_tac := intros; repeat steps_step.

(** Instantiates the result and the final state of a concrete run. *)
Ltac exists_run t :=
  let r := eval vm_compute in t in
  lazymatch r with
  | Ret (Some ?a) ?s => exists a, s
  | Ret ?a ?s => exists a, s
  end.

(** ** Integers *)

(** The value of an [int] stored in, or passed as, a [uint32_t]. *)
Definition u32 (z : Z) : Z := z mod 2 ^ 32.

(** The value of a 32-bit word read as an [int]. *)
Definition s32 (z : Z) : Z := (z + 2 ^ 31) mod 2 ^ 32 - 2 ^ 31.

Definition nz (z : Z) : bool := negb (z =? 0).

Lemma nz_true z : nz z = true <-> z <> 0.
Proof. unfold nz. rewrite negb_true_iff, Z.eqb_neq. done. Qed.

Lemma nz_false z : nz z = false <-> z = 0.
Proof. unfold nz. rewrite negb_false_iff, Z.eqb_eq. done. Qed.

(** Turns the boolean tests among the hypotheses into arithmetic. *)
Ltac bool_hyps :=
  repeat match goal with
  | H : negb _ = true |- _ => apply negb_true_iff in H
  | H : negb _ = false |- _ => apply negb_false_iff in H
  | H : nz _ = true |- _ => apply nz_true in H
  | H : nz _ = false |- _ => apply nz_false in H
  | H : (_ =? _) = true |- _ => apply Z.eqb_eq in H
  | H : (_ =? _) = false |- _ => apply Z.eqb_neq in H
  | H : (_ <? _) = true |- _ => apply Z.ltb_lt in H
  | H : (_ <? _) = false |- _ => apply Z.ltb_ge in H
  | H : (_ <=? _) = true |- _ => apply Z.leb_le in H
  | H : (_ <=? _) = false |- _ => apply Z.leb_gt in H
  | H : (_ && _) = true |- _ => apply andb_true_iff in H as [? ?]
  | H : (_ || _) = false |- _ => apply orb_false_iff in H as [? ?]
  end.

Lemma u32_small z : 0 <= z < 2 ^ 32 -> u32 z = z.
Proof. apply Z.mod_small. Qed.

Lemma u32_range z : 0 <= u32 z < 2 ^ 32.
Proof. apply Z.mod_pos_bound. lia. Qed.

Lemma s32_range z : - 2 ^ 31 <= s32 z < 2 ^ 31.
Proof. unfold s32. pose proof (Z.mod_pos_bound (z + 2 ^ 31) (2 ^ 32)). lia. Qed.

Lemma s32_small z : - 2 ^ 31 <= z < 2 ^ 31 -> s32 z = z.
Proof. intros H. unfold s32. rewrite Z.mod_small; lia. Qed.

Lemma u32_s32 z : u32 (s32 z) = u32 z.
Proof.
  unfold u32, s32. rewrite Zminus_mod_idemp_l. f_equal. lia.
Qed.

Lemma s32_zero z : s32 z = 0 <-> u32 z = 0.
Proof.
  rewrite <- (u32_s32 z). pose proof (s32_range z). unfold u32. split; [by intros ->|].
  intros E. apply Z.mod_divide in E as [k E]; lia.
Qed.

(** Two words side by side. *)
Lemma lor_concat hi lo k : 0 <= k -> 0 <= lo < 2 ^ k -> Z.lor (Z.shiftl hi k) lo = hi * 2 ^ k + lo.
Proof.
  intros Hk Hlo. rewrite <- Z.shiftl_mul_pow2 by done.
  rewrite Z.add_nocarry_lxor; [|].
  - symmetry. apply Z.lxor_lor. apply Z.bits_inj_0. intros n.
    rewrite Z.land_spec. destruct (Z.lt_ge_cases n k).
    + by rewrite Z.shiftl_spec_low.
    + rewrite andb_comm. destruct (Z.eq_dec lo 0) as [->|]; [by rewrite Z.bits_0|].
      rewrite Z.bits_above_log2; [done|lia|]. apply Z.log2_lt_pow2; [lia|].
      eapply Z.lt_le_trans; [apply Hlo|]. by apply Z.pow_le_mono_r.
  - apply Z.bits_inj_0. intros n.
    rewrite Z.land_spec. destruct (Z.lt_ge_cases n k).
    + by rewrite Z.shiftl_spec_low.
    + rewrite andb_comm. destruct (Z.eq_dec lo 0) as [->|]; [by rewrite Z.bits_0|].
      rewrite Z.bits_above_log2; [done|lia|]. apply Z.log2_lt_pow2; [lia|].
      eapply Z.lt_le_trans; [apply Hlo|]. by apply Z.pow_le_mono_r.
Qed.

(** ** Linux error numbers (asm-generic/errno) *)
Definition EPERM := 1.
Definition EIO := 5.
Definition EAGAIN := 11.
Definition ENOMEM := 12.
Definition EBUSY := 16.
Definition ENODEV := 19.
Definition EINVAL := 22.
Definition ENOSPC := 28.
Definition EPIPE := 32.
Definition ENOSYS := 38.
Definition EBADR := 53.
Definition ENODATA := 61.
Definition EADV := 68.
Definition ENOPROTOOPT := 92.
Definition EOPNOTSUPP := 95.
Definition ETIMEDOUT := 110.
Definition EALREADY := 114.
Definition EINPROGRESS := 115.
Definition ECANCELED := 125.
Definition ENOTRECOVERABLE := 131.
