(* ===== verification/Types.v ===== *)
(** * The data of the service

    The structures and enumerations of [service/inc]: key vectors and
    metadata ([agm_priv.h]), client configuration ([agm_api.h]), devices
    ([device.h]), modules and graphs ([graph_module.h], [graph.h]), audio
    interfaces and sessions ([session_obj.h]).

    Enumerations that a client passes as an [int] (formats, data modes,
    directions) are integers, because any value can arrive and the code has
    [default] branches for the others; states that only the service writes
    are inductive types.  A pointer to a device, a session or a graph is the
    index of the object in the table that owns it ([Machine.world]); [None]
    is NULL.  A heap array is an [option (list _)], [None] being NULL, next to
    the element count that the structure keeps for it. *)

From S2P Require Export Prelude.
From stdpp Require Export strings.
Open Scope Z_scope.
#[export] Set Default Goal Selector "!".

(** ** Key vectors and metadata (agm_priv.h) *)


(** [struct agm_key_value] *)
Record key_value : Type := KV {
  kv_key : Z;
  kv_val : Z
}.
Definition set_kv_val (v : Z) (r : key_value) : key_value :=
  KV (kv_key r) v.

(** [struct agm_key_vector_gsl]: a count and a heap array. *)
Record key_vector : Type := KVec {
  num_kvs : nat;
  kv : option (list key_value)
}.

(** [struct sg_prop] *)
Record sg_prop : Type := SgProp {
  prop_id : Z;
  num_values : nat;
  values : option (list Z)
}.

(** [struct agm_meta_data_gsl] *)
Record meta_data : Type := Meta {
  gkv : key_vector;
  ckv : key_vector;
  sg_props : sg_prop
}.
Definition set_gkv (v : key_vector) (r : meta_data) : meta_data :=
  Meta v (ckv r) (sg_props r).
Definition set_ckv (v : key_vector) (r : meta_data) : meta_data :=
  Meta (gkv r) v (sg_props r).
Definition set_sg_props (v : sg_prop) (r : meta_data) : meta_data :=
  Meta (gkv r) (ckv r) v.

(** What [memset] and [calloc] leave: zero counts and NULL arrays. *)
Definition kvec_zero : key_vector := KVec 0 None.
Definition meta_zero : meta_data := Meta kvec_zero kvec_zero (SgProp 0 0 None).

#[export] Instance key_value_eq_dec : EqDecision key_value.
Proof. solve_decision. Defined.

(** ** Client configuration (agm_api.h) *)

Definition AGM_FORMAT_INVALID := 0.
Definition AGM_FORMAT_PCM_S8 := 1.
Definition AGM_FORMAT_PCM_S16_LE := 2.
Definition AGM_FORMAT_PCM_S24_LE := 3.
Definition AGM_FORMAT_PCM_S24_3LE := 4.
Definition AGM_FORMAT_PCM_S32_LE := 5.
Definition AGM_FORMAT_MP3 := 6.
Definition AGM_FORMAT_AAC := 7.
Definition AGM_FORMAT_FLAC := 8.
Definition AGM_FORMAT_ALAC := 9.
Definition AGM_FORMAT_APE := 10.
Definition AGM_FORMAT_WMASTD := 11.
Definition AGM_FORMAT_WMAPRO := 12.
Definition AGM_FORMAT_VORBIS := 13.

Definition AGM_DATA_FORMAT_FIXED_POINT := 1.
Definition AGM_DATA_FORMAT_RAW_COMPRESSED := 6.

Definition AGM_DATA_BLOCKING := 1.
Definition AGM_DATA_NON_BLOCKING := 2.
Definition AGM_DATA_PUSH_PULL := 3.

(** [enum direction]; a session that was never configured holds 0. *)
Definition RX := 1.
Definition TX := 2.

Definition DATA_BUF := 1.
Definition POS_BUF := 2.

Definition AGM_EVENT_DATA_PATH := 1.
Definition AGM_EVENT_MODULE := 2.
Definition AGM_EVENT_EOS_RENDERED := 0.
Definition AGM_EVENT_READ_DONE := 1.
Definition AGM_EVENT_WRITE_DONE := 2.


(** [struct agm_media_config] *)
Record media_config : Type := MediaConfig {
  mc_rate : Z;
  mc_channels : Z;
  mc_format : Z;
  mc_data_format : Z
}.

(** [struct agm_session_config]; the [codec] union is its bytes. *)
Record session_config : Type := SessionConfig {
  sc_dir : Z;
  sc_is_hostless : bool;
  sc_start_threshold : Z;
  sc_stop_threshold : Z;
  sc_codec : list Z;
  sc_data_mode : Z
}.

(** [struct agm_buffer_config] *)
Record buffer_config : Type := BufferConfig {
  bc_count : Z;
  bc_size : Z
}.

(** [struct agm_event_cb_params] (and [struct gsl_event_cb_params], which has the same fields); the payload size is the length of the payload. *)
Record event_params : Type := EventParams {
  ev_source_module_id : Z;
  ev_event_id : Z;
  ev_payload : list Z
}.

(** [struct agm_event_reg_cfg] *)
Record event_reg_cfg : Type := EventRegCfg {
  er_module_instance_id : Z;
  er_event_id : Z;
  er_payload : list Z;
  er_is_register : Z
}.

(** [struct agm_buf_info] *)
Record buf_info : Type := BufInfo {
  data_buf_fd : Z;
  data_buf_size : Z;
  pos_buf_fd : Z;
  pos_buf_size : Z
}.
Definition set_data_buf_fd (v : Z) (r : buf_info) : buf_info :=
  BufInfo v (data_buf_size r) (pos_buf_fd r) (pos_buf_size r).
Definition set_data_buf_size (v : Z) (r : buf_info) : buf_info :=
  BufInfo (data_buf_fd r) v (pos_buf_fd r) (pos_buf_size r).
Definition set_pos_buf_fd (v : Z) (r : buf_info) : buf_info :=
  BufInfo (data_buf_fd r) (data_buf_size r) v (pos_buf_size r).
Definition set_pos_buf_size (v : Z) (r : buf_info) : buf_info :=
  BufInfo (data_buf_fd r) (data_buf_size r) (pos_buf_fd r) v.

Definition media_zero : media_config := MediaConfig 0 0 0 0.
Definition session_config_zero : session_config := SessionConfig 0 false 0 0 (replicate 32 0) 0.
Definition buffer_zero : buffer_config := BufferConfig 0 0.

(** ** Devices (device.h) *)

Definition CODEC_DMA := 0.
Definition MI2S := 1.
Definition TDM := 2.
Definition AUXPCM := 3.
Definition SLIMBUS := 4.
Definition DISPLAY_PORT := 5.
Definition USB_AUDIO := 6.
Definition PCM_RT_PROXY := 7.

Definition AUDIO_OUTPUT := 1.
Definition AUDIO_INPUT := 2.

(** [enum device_state], in its numeric order. *)
Inductive device_state := DEV_CLOSED | DEV_OPENED | DEV_PREPARED | DEV_STARTED | DEV_STOPPED.

Definition device_state_num (s : device_state) : Z :=
  match s with
  | DEV_CLOSED => 0 | DEV_OPENED => 1 | DEV_PREPARED => 2
  | DEV_STARTED => 3 | DEV_STOPPED => 4
  end.

#[export] Instance device_state_eq_dec : EqDecision device_state.
Proof. solve_decision. Defined.


(** [struct refcount] *)
Record refcount : Type := Refcount {
  rc_open : Z;
  rc_prepare : Z;
  rc_start : Z
}.
Definition set_rc_open (v : Z) (r : refcount) : refcount :=
  Refcount v (rc_prepare r) (rc_start r).
Definition set_rc_prepare (v : Z) (r : refcount) : refcount :=
  Refcount (rc_open r) v (rc_start r).
Definition set_rc_start (v : Z) (r : refcount) : refcount :=
  Refcount (rc_open r) (rc_prepare r) v.

(** [hw_ep_info_t].  The union [hw_ep_config] is two words: [lpaif_type] and [intf_idx] of the codec-dma/I2S/TDM view; [dev_id] of the slimbus and of the proxy view is the first word. *)
Record hw_ep_info : Type := HwEpInfo {
  ep_intf : Z;
  ep_dir : Z;
  ep_word0 : Z;
  ep_word1 : Z
}.
Definition set_ep_intf (v : Z) (r : hw_ep_info) : hw_ep_info :=
  HwEpInfo v (ep_dir r) (ep_word0 r) (ep_word1 r).
Definition set_ep_dir (v : Z) (r : hw_ep_info) : hw_ep_info :=
  HwEpInfo (ep_intf r) v (ep_word0 r) (ep_word1 r).
Definition set_ep_word0 (v : Z) (r : hw_ep_info) : hw_ep_info :=
  HwEpInfo (ep_intf r) (ep_dir r) v (ep_word1 r).
Definition set_ep_word1 (v : Z) (r : hw_ep_info) : hw_ep_info :=
  HwEpInfo (ep_intf r) (ep_dir r) (ep_word0 r) v.

Definition ep_lpaif_type := ep_word0.
Definition ep_intf_idx := ep_word1.
Definition ep_dev_id := ep_word0.
Definition hw_ep_zero : hw_ep_info := HwEpInfo 0 0 0 0.


(** [struct device_obj]; [dev_pcm] is the [struct pcm] pointer of tinyalsa.  [params_size] is the length of [params]. *)
Record device_obj : Type := DeviceObj {
  dev_name : string;
  dev_card_id : Z;
  dev_hw_ep : hw_ep_info;
  dev_pcm_id : Z;
  dev_pcm : Z;
  dev_pcm_flags : Z;
  dev_media : media_config;
  dev_meta : meta_data;
  dev_refcnt : refcount;
  dev_state : device_state;
  dev_params : option (list Z)
}.
Definition set_dev_name (v : string) (r : device_obj) : device_obj :=
  DeviceObj v (dev_card_id r) (dev_hw_ep r) (dev_pcm_id r) (dev_pcm r) (dev_pcm_flags r) (dev_media r) (dev_meta r) (dev_refcnt r) (dev_state r) (dev_params r).
Definition set_dev_card_id (v : Z) (r : device_obj) : device_obj :=
  DeviceObj (dev_name r) v (dev_hw_ep r) (dev_pcm_id r) (dev_pcm r) (dev_pcm_flags r) (dev_media r) (dev_meta r) (dev_refcnt r) (dev_state r) (dev_params r).
Definition set_dev_hw_ep (v : hw_ep_info) (r : device_obj) : device_obj :=
  DeviceObj (dev_name r) (dev_card_id r) v (dev_pcm_id r) (dev_pcm r) (dev_pcm_flags r) (dev_media r) (dev_meta r) (dev_refcnt r) (dev_state r) (dev_params r).
Definition set_dev_pcm_id (v : Z) (r : device_obj) : device_obj :=
  DeviceObj (dev_name r) (dev_card_id r) (dev_hw_ep r) v (dev_pcm r) (dev_pcm_flags r) (dev_media r) (dev_meta r) (dev_refcnt r) (dev_state r) (dev_params r).
Definition set_dev_pcm (v : Z) (r : device_obj) : device_obj :=
  DeviceObj (dev_name r) (dev_card_id r) (dev_hw_ep r) (dev_pcm_id r) v (dev_pcm_flags r) (dev_media r) (dev_meta r) (dev_refcnt r) (dev_state r) (dev_params r).
Definition set_dev_pcm_flags (v : Z) (r : device_obj) : device_obj :=
  DeviceObj (dev_name r) (dev_card_id r) (dev_hw_ep r) (dev_pcm_id r) (dev_pcm r) v (dev_media r) (dev_meta r) (dev_refcnt r) (dev_state r) (dev_params r).
Definition set_dev_media (v : media_config) (r : device_obj) : device_obj :=
  DeviceObj (dev_name r) (dev_card_id r) (dev_hw_ep r) (dev_pcm_id r) (dev_pcm r) (dev_pcm_flags r) v (dev_meta r) (dev_refcnt r) (dev_state r) (dev_params r).
Definition set_dev_meta (v : meta_data) (r : device_obj) : device_obj :=
  DeviceObj (dev_name r) (dev_card_id r) (dev_hw_ep r) (dev_pcm_id r) (dev_pcm r) (dev_pcm_flags r) (dev_media r) v (dev_refcnt r) (dev_state r) (dev_params r).
Definition set_dev_refcnt (v : refcount) (r : device_obj) : device_obj :=
  DeviceObj (dev_name r) (dev_card_id r) (dev_hw_ep r) (dev_pcm_id r) (dev_pcm r) (dev_pcm_flags r) (dev_media r) (dev_meta r) v (dev_state r) (dev_params r).
Definition set_dev_state (v : device_state) (r : device_obj) : device_obj :=
  DeviceObj (dev_name r) (dev_card_id r) (dev_hw_ep r) (dev_pcm_id r) (dev_pcm r) (dev_pcm_flags r) (dev_media r) (dev_meta r) (dev_refcnt r) v (dev_params r).
Definition set_dev_params (v : option (list Z)) (r : device_obj) : device_obj :=
  DeviceObj (dev_name r) (dev_card_id r) (dev_hw_ep r) (dev_pcm_id r) (dev_pcm r) (dev_pcm_flags r) (dev_media r) (dev_meta r) (dev_refcnt r) (dev_state r) v.

Definition device_zero : device_obj :=
  DeviceObj EmptyString 0 hw_ep_zero 0 0 0 media_zero meta_zero (Refcount 0 0 0) DEV_CLOSED None.

(** ** Modules and graphs (graph_module.h, graph.h) *)

(** [graph_state_t]: one bit per state. *)
Definition OPENED := 0x01.
Definition PREPARED := 0x10.
Definition STARTED := 0x100.
Definition STOPPED := 0x1000.

(** The functions that [module_info.configure] points to. *)
Inductive configure_fn :=
  | fn_configure_output_media_format
  | fn_configure_placeholder_dec
  | fn_configure_shared_mem_ep
  | fn_configure_spr
  | fn_configure_hw_ep.


(** [struct module_info] *)
Record module_info : Type := ModuleInfo {
  mod_tag : Z;
  mod_mid : Z;
  mod_miid : Z;
  mod_is_configured : bool;
  mod_dev : option nat;
  mod_gkv : option key_vector;
  mod_configure : option configure_fn
}.
Definition set_mod_mid (v : Z) (r : module_info) : module_info :=
  ModuleInfo (mod_tag r) v (mod_miid r) (mod_is_configured r) (mod_dev r) (mod_gkv r) (mod_configure r).
Definition set_mod_miid (v : Z) (r : module_info) : module_info :=
  ModuleInfo (mod_tag r) (mod_mid r) v (mod_is_configured r) (mod_dev r) (mod_gkv r) (mod_configure r).
Definition set_mod_is_configured (v : bool) (r : module_info) : module_info :=
  ModuleInfo (mod_tag r) (mod_mid r) (mod_miid r) v (mod_dev r) (mod_gkv r) (mod_configure r).
Definition set_mod_dev (v : option nat) (r : module_info) : module_info :=
  ModuleInfo (mod_tag r) (mod_mid r) (mod_miid r) (mod_is_configured r) v (mod_gkv r) (mod_configure r).
Definition set_mod_gkv (v : option key_vector) (r : module_info) : module_info :=
  ModuleInfo (mod_tag r) (mod_mid r) (mod_miid r) (mod_is_configured r) (mod_dev r) v (mod_configure r).

(** [struct gsl_cmd_configure_read_write_params], as [configure_buffer_params] fills it. *)
Record rw_params : Type := RwParams {
  rw_buff_size : Z;
  rw_num_buffs : Z;
  rw_start_threshold : Z;
  rw_stop_threshold : Z;
  rw_shmem_ep_tag : Z;
  rw_attributes : Z
}.

Definition rw_zero : rw_params := RwParams 0 0 0 0 0 0.


(** [struct graph_obj].  The only event callback of the program is [graph_event_cb], so [gr_cb] is [None] before [graph_register_cb] and [Some client_data] after. *)
Record graph_obj : Type := GraphObj {
  gr_state : Z;
  gr_handle : Z;
  gr_mods : list module_info;
  gr_buf_config : rw_params;
  gr_cb : option Z;
  gr_sess : option nat;
  gr_spr_miid : Z;
  gr_timestamp : Z;
  gr_buf_done : bool
}.
Definition set_gr_state (v : Z) (r : graph_obj) : graph_obj :=
  GraphObj v (gr_handle r) (gr_mods r) (gr_buf_config r) (gr_cb r) (gr_sess r) (gr_spr_miid r) (gr_timestamp r) (gr_buf_done r).
Definition set_gr_handle (v : Z) (r : graph_obj) : graph_obj :=
  GraphObj (gr_state r) v (gr_mods r) (gr_buf_config r) (gr_cb r) (gr_sess r) (gr_spr_miid r) (gr_timestamp r) (gr_buf_done r).
Definition set_gr_mods (v : list module_info) (r : graph_obj) : graph_obj :=
  GraphObj (gr_state r) (gr_handle r) v (gr_buf_config r) (gr_cb r) (gr_sess r) (gr_spr_miid r) (gr_timestamp r) (gr_buf_done r).
Definition set_gr_buf_config (v : rw_params) (r : graph_obj) : graph_obj :=
  GraphObj (gr_state r) (gr_handle r) (gr_mods r) v (gr_cb r) (gr_sess r) (gr_spr_miid r) (gr_timestamp r) (gr_buf_done r).
Definition set_gr_cb (v : option Z) (r : graph_obj) : graph_obj :=
  GraphObj (gr_state r) (gr_handle r) (gr_mods r) (gr_buf_config r) v (gr_sess r) (gr_spr_miid r) (gr_timestamp r) (gr_buf_done r).
Definition set_gr_sess (v : option nat) (r : graph_obj) : graph_obj :=
  GraphObj (gr_state r) (gr_handle r) (gr_mods r) (gr_buf_config r) (gr_cb r) v (gr_spr_miid r) (gr_timestamp r) (gr_buf_done r).
Definition set_gr_spr_miid (v : Z) (r : graph_obj) : graph_obj :=
  GraphObj (gr_state r) (gr_handle r) (gr_mods r) (gr_buf_config r) (gr_cb r) (gr_sess r) v (gr_timestamp r) (gr_buf_done r).
Definition set_gr_timestamp (v : Z) (r : graph_obj) : graph_obj :=
  GraphObj (gr_state r) (gr_handle r) (gr_mods r) (gr_buf_config r) (gr_cb r) (gr_sess r) (gr_spr_miid r) v (gr_buf_done r).
Definition set_gr_buf_done (v : bool) (r : graph_obj) : graph_obj :=
  GraphObj (gr_state r) (gr_handle r) (gr_mods r) (gr_buf_config r) (gr_cb r) (gr_sess r) (gr_spr_miid r) (gr_timestamp r) v.

Definition graph_zero : graph_obj := GraphObj 0 0 [] rw_zero None None 0 0 false.

(** ** Audio interfaces and sessions (session_obj.h) *)

(** [enum aif_state], in its numeric order. *)
Inductive aif_state := AIF_CLOSED | AIF_CLOSE | AIF_OPEN | AIF_OPENED | AIF_STOPPED | AIF_PREPARED | AIF_STARTED.

Definition aif_state_num (s : aif_state) : Z :=
  match s with
  | AIF_CLOSED => 0 | AIF_CLOSE => 1 | AIF_OPEN => 2 | AIF_OPENED => 3
  | AIF_STOPPED => 4 | AIF_PREPARED => 5 | AIF_STARTED => 6
  end.

#[export] Instance aif_state_eq_dec : EqDecision aif_state.
Proof. solve_decision. Defined.

(** [enum session_state] *)
Inductive session_state := SESSION_CLOSED | SESSION_OPENED | SESSION_PREPARED | SESSION_STARTED | SESSION_STOPPED.

#[export] Instance session_state_eq_dec : EqDecision session_state.
Proof. solve_decision. Defined.


(** [struct aif] *)
Record aif : Type := Aif {
  aif_id : Z;
  aif_dev : option nat;
  aif_st : aif_state;
  aif_meta : meta_data;
  aif_params : option (list Z)
}.
Definition set_aif_id (v : Z) (r : aif) : aif :=
  Aif v (aif_dev r) (aif_st r) (aif_meta r) (aif_params r).
Definition set_aif_dev (v : option nat) (r : aif) : aif :=
  Aif (aif_id r) v (aif_st r) (aif_meta r) (aif_params r).
Definition set_aif_st (v : aif_state) (r : aif) : aif :=
  Aif (aif_id r) (aif_dev r) v (aif_meta r) (aif_params r).
Definition set_aif_meta (v : meta_data) (r : aif) : aif :=
  Aif (aif_id r) (aif_dev r) (aif_st r) v (aif_params r).
Definition set_aif_params (v : option (list Z)) (r : aif) : aif :=
  Aif (aif_id r) (aif_dev r) (aif_st r) (aif_meta r) v.

Definition aif_zero : aif := Aif 0 None AIF_CLOSED meta_zero None.


(** [struct session_cb]; the client's function and data pointers are numbers, 0 being NULL. *)
Record session_cb : Type := SessionCb {
  cb_fn : Z;
  cb_evt_type : Z;
  cb_client_data : Z
}.

(** [struct session_obj] *)
Record session_obj : Type := SessionObj {
  ses_id : Z;
  ses_state : session_state;
  ses_meta : meta_data;
  ses_aifs : list aif;
  ses_cbs : list session_cb;
  ses_graph : option nat;
  ses_stream : session_config;
  ses_media : media_config;
  ses_buffer : buffer_config;
  ses_params : option (list Z);
  ses_lb_id : Z;
  ses_lb_state : bool;
  ses_ec_id : Z;
  ses_ec_state : bool
}.
Definition set_ses_state (v : session_state) (r : session_obj) : session_obj :=
  SessionObj (ses_id r) v (ses_meta r) (ses_aifs r) (ses_cbs r) (ses_graph r) (ses_stream r) (ses_media r) (ses_buffer r) (ses_params r) (ses_lb_id r) (ses_lb_state r) (ses_ec_id r) (ses_ec_state r).
Definition set_ses_meta (v : meta_data) (r : session_obj) : session_obj :=
  SessionObj (ses_id r) (ses_state r) v (ses_aifs r) (ses_cbs r) (ses_graph r) (ses_stream r) (ses_media r) (ses_buffer r) (ses_params r) (ses_lb_id r) (ses_lb_state r) (ses_ec_id r) (ses_ec_state r).
Definition set_ses_aifs (v : list aif) (r : session_obj) : session_obj :=
  SessionObj (ses_id r) (ses_state r) (ses_meta r) v (ses_cbs r) (ses_graph r) (ses_stream r) (ses_media r) (ses_buffer r) (ses_params r) (ses_lb_id r) (ses_lb_state r) (ses_ec_id r) (ses_ec_state r).
Definition set_ses_cbs (v : list session_cb) (r : session_obj) : session_obj :=
  SessionObj (ses_id r) (ses_state r) (ses_meta r) (ses_aifs r) v (ses_graph r) (ses_stream r) (ses_media r) (ses_buffer r) (ses_params r) (ses_lb_id r) (ses_lb_state r) (ses_ec_id r) (ses_ec_state r).
Definition set_ses_graph (v : option nat) (r : session_obj) : session_obj :=
  SessionObj (ses_id r) (ses_state r) (ses_meta r) (ses_aifs r) (ses_cbs r) v (ses_stream r) (ses_media r) (ses_buffer r) (ses_params r) (ses_lb_id r) (ses_lb_state r) (ses_ec_id r) (ses_ec_state r).
Definition set_ses_stream (v : session_config) (r : session_obj) : session_obj :=
  SessionObj (ses_id r) (ses_state r) (ses_meta r) (ses_aifs r) (ses_cbs r) (ses_graph r) v (ses_media r) (ses_buffer r) (ses_params r) (ses_lb_id r) (ses_lb_state r) (ses_ec_id r) (ses_ec_state r).
Definition set_ses_media (v : media_config) (r : session_obj) : session_obj :=
  SessionObj (ses_id r) (ses_state r) (ses_meta r) (ses_aifs r) (ses_cbs r) (ses_graph r) (ses_stream r) v (ses_buffer r) (ses_params r) (ses_lb_id r) (ses_lb_state r) (ses_ec_id r) (ses_ec_state r).
Definition set_ses_buffer (v : buffer_config) (r : session_obj) : session_obj :=
  SessionObj (ses_id r) (ses_state r) (ses_meta r) (ses_aifs r) (ses_cbs r) (ses_graph r) (ses_stream r) (ses_media r) v (ses_params r) (ses_lb_id r) (ses_lb_state r) (ses_ec_id r) (ses_ec_state r).
Definition set_ses_params (v : option (list Z)) (r : session_obj) : session_obj :=
  SessionObj (ses_id r) (ses_state r) (ses_meta r) (ses_aifs r) (ses_cbs r) (ses_graph r) (ses_stream r) (ses_media r) (ses_buffer r) v (ses_lb_id r) (ses_lb_state r) (ses_ec_id r) (ses_ec_state r).
Definition set_ses_lb_id (v : Z) (r : session_obj) : session_obj :=
  SessionObj (ses_id r) (ses_state r) (ses_meta r) (ses_aifs r) (ses_cbs r) (ses_graph r) (ses_stream r) (ses_media r) (ses_buffer r) (ses_params r) v (ses_lb_state r) (ses_ec_id r) (ses_ec_state r).
Definition set_ses_lb_state (v : bool) (r : session_obj) : session_obj :=
  SessionObj (ses_id r) (ses_state r) (ses_meta r) (ses_aifs r) (ses_cbs r) (ses_graph r) (ses_stream r) (ses_media r) (ses_buffer r) (ses_params r) (ses_lb_id r) v (ses_ec_id r) (ses_ec_state r).
Definition set_ses_ec_id (v : Z) (r : session_obj) : session_obj :=
  SessionObj (ses_id r) (ses_state r) (ses_meta r) (ses_aifs r) (ses_cbs r) (ses_graph r) (ses_stream r) (ses_media r) (ses_buffer r) (ses_params r) (ses_lb_id r) (ses_lb_state r) v (ses_ec_state r).
Definition set_ses_ec_state (v : bool) (r : session_obj) : session_obj :=
  SessionObj (ses_id r) (ses_state r) (ses_meta r) (ses_aifs r) (ses_cbs r) (ses_graph r) (ses_stream r) (ses_media r) (ses_buffer r) (ses_params r) (ses_lb_id r) (ses_lb_state r) (ses_ec_id r) v.

(** The object [session_obj_create] allocates. *)
Definition session_zero (session_id : Z) : session_obj :=
  SessionObj session_id SESSION_CLOSED meta_zero [] [] None
    session_config_zero media_zero buffer_zero None 0 false 0 false.

