(* ===== verification/CString.v ===== *)
(** * C strings

    The functions of <string.h> and <stdlib.h> the program uses on strings that
    do not contain NUL: a [char *] is a [string]. *)

From S2P Require Export Types.
From Stdlib Require Export Ascii.
Open Scope Z_scope.
#[export] Set Default Goal Selector "!".

Definition is_space (c : ascii) : bool :=
  let n := N_of_ascii c in (N.eqb n 32 || (N.leb 9 n && N.leb n 13))%bool.

Definition is_digit (c : ascii) : bool :=
  let n := N_of_ascii c in (N.leb 48 n && N.leb n 57)%bool.

Definition digit_val (c : ascii) : Z := Z.of_N (N_of_ascii c) - 48.

Fixpoint skip_spaces (s : string) : string :=
  match s with
  | String c s' => if is_space c then skip_spaces s' else s
  | EmptyString => EmptyString
  end.

Definition dash : ascii := "-"%char.

Fixpoint digits_val (acc : Z) (s : string) : Z :=
  match s with
  | String c s' => if is_digit c then digits_val (acc * 10 + digit_val c) s' else acc
  | EmptyString => acc
  end.

Definition atoi (s : string) : Z :=
  match skip_spaces s with
  | String c s' =>
      if Ascii.eqb c dash then - digits_val 0 s'
      else if Ascii.eqb c "+"%char then digits_val 0 s'
      else digits_val 0 (String c s')
  | EmptyString => 0
  end.

(** [strstr(buffer, sub) != NULL] *)
Fixpoint strstr (sub buffer : string) : bool :=
  String.prefix sub buffer ||
  match buffer with
  | EmptyString => false
  | String _ r => strstr sub r
  end.

Notation "s1 =s? s2" := (String.eqb s1 s2%string) (at level 70) : agm_scope.

(** [!strncmp(s, t, strlen(s))] *)
Definition strncmp_eq (s t : string) : bool := String.prefix s t.

(** The tokens [strtok_r] finds one after the other: the maximal runs of
    characters outside [delim]. *)
Definition is_delim (delim : string) (c : ascii) : bool :=
  strstr (String c EmptyString) delim.

Fixpoint tokens_from (delim acc s : string) : list string :=
  let here := if acc =s? EmptyString then [] else [acc] in
  match s with
  | EmptyString => here
  | String c s' =>
      if is_delim delim c then here ++ tokens_from delim EmptyString s'
      else tokens_from delim (acc ++ String c EmptyString)%string s'
  end.

Definition tokens (delim s : string) : list string := tokens_from delim EmptyString s.

(** [s[strlen(s) - 1] = 0] for a non-empty [s]. *)
Fixpoint drop_last (s : string) : string :=
  match s with
  | EmptyString | String _ EmptyString => EmptyString
  | String c s' => String c (drop_last s')
  end.
