(* ===== verification/Machine.v ===== *)
(** * The machine the service runs on

    The state of the process ([world]), the code outside the repository as an
    oracle ([Env]), and the primitive steps the C code is made of: reading and
    writing an object through a pointer, allocating, locking, calling out.

    Everything the service calls but does not define (the Graph Service
    Layer [gsl_*], tinyalsa [pcm_*], sysfs, /proc, ATS, the clients'
    callbacks) is an [ext_call].  [env_answer] gives its result from the whole
    history of calls, so a theorem that quantifies over [Env] holds for every
    behaviour of that code; every call is recorded in [w_trace] with its
    answer.  [env_alloc n] says whether the [n]-th [calloc] succeeds.

    Mutexes are modelled as one thread sees them: taking a mutex this thread
    already holds is a crash, releasing one it does not hold is recorded in
    [w_bad_unlock], and every acquisition is recorded in [w_acq] with the set
    of mutexes held at that moment. *)

From S2P Require Export Types.
Open Scope Z_scope.
#[export] Set Default Goal Selector "!".

(** ** Constants of headers outside the repository

    kvh2xml.h, ar_osal_error.h, gsl_intf.h, the SPF parameter headers and
    tinyalsa: their values are not in the sources, so they are fields. *)
Class Consts : Type := {
  AR_ETIMEOUT : Z;
  LPAIF : Z; LPAIF_RXTX : Z; LPAIF_WSA : Z; LPAIF_VA : Z; LPAIF_AXI : Z;
  PCM_FORMAT_S32_LE : Z; PCM_FORMAT_S8 : Z; PCM_FORMAT_S24_3LE : Z; PCM_FORMAT_S24_LE : Z; PCM_FORMAT_S16_LE : Z;
  PCM_OUT : Z; PCM_IN : Z;
  SHMEM_ENDPOINT : Z; STREAM_PCM_ENCODER : Z; STREAM_PCM_DECODER : Z; TAG_STREAM_PLACEHOLDER_DECODER : Z;
  STREAM_PCM_CONVERTER : Z; STREAM_INPUT_MEDIA_FORMAT : Z; TAG_PAUSE : Z;
  DEVICE_HW_ENDPOINT_RX : Z; DEVICE_HW_ENDPOINT_TX : Z;
  CHANNELS : Z; MEDIA_FMT_ID : Z;
  MEDIA_FMT_PCM : Z; MEDIA_FMT_MP3 : Z; MEDIA_FMT_AAC : Z; MEDIA_FMT_FLAC : Z; MEDIA_FMT_ALAC : Z; MEDIA_FMT_APE : Z;
  MEDIA_FMT_WMASTD : Z; MEDIA_FMT_WMAPRO : Z; MEDIA_FMT_VORBIS : Z;
  MEDIA_FMT_ID_PCM : Z; MEDIA_FMT_ID_MP3 : Z; MEDIA_FMT_ID_AAC : Z; MEDIA_FMT_ID_FLAC : Z; MEDIA_FMT_ID_ALAC : Z;
  MEDIA_FMT_ID_WMASTD : Z; MEDIA_FMT_ID_WMAPRO : Z;
  PARAM_ID_HW_EP_MF_CFG : Z; PARAM_ID_PCM_OUTPUT_FORMAT_CFG : Z; PARAM_ID_MEDIA_FORMAT : Z;
  PARAM_ID_SPR_DELAY_PATH_END : Z; PARAM_ID_SPR_SESSION_TIME : Z;
  PCM_LITTLE_ENDIAN : Z; PCM_LSB_ALIGNED : Z; PCM_DEINTERLEAVED_UNPACKED : Z; PCM_INTERLEAVED : Z;
  PCM_CHANNEL_C : Z; PCM_CHANNEL_L : Z; PCM_CHANNEL_R : Z; PCM_CHANNEL_LB : Z; PCM_CHANNEL_RB : Z;
  PCM_CHANNEL_LFE : Z; PCM_CHANNEL_CS : Z; PCM_CHANNEL_LS : Z; PCM_CHANNEL_RS : Z;
  SB_MAX_CHAN_CNT : Z;
  GSL_DATA_MODE_BLOCKING : Z; GSL_DATA_MODE_NON_BLOCKING : Z; GSL_DATA_MODE_PUSH_PULL : Z;
  sizeof_apm_module_param_data_t : Z; sizeof_media_format_t : Z; sizeof_param_id_hw_ep_mf_t : Z;
  sizeof_codec_dma_intf_cfg : Z; sizeof_i2s_intf_cfg : Z; sizeof_tdm_intf_cfg : Z; sizeof_hw_pcm_intf_cfg : Z;
  sizeof_slimbus_cfg : Z; sizeof_pcm_output_format_cfg : Z; sizeof_media_fmt_pcm : Z;
  sizeof_media_fmt_aac : Z; sizeof_media_fmt_flac : Z; sizeof_media_fmt_alac : Z; sizeof_media_fmt_ape : Z;
  sizeof_media_fmt_wmastd : Z; sizeof_media_fmt_wmapro : Z;
  sizeof_spr_delay_path_end : Z; sizeof_spr_session_time : Z;
  sizeof_gsl_cmd_register_custom_event : Z; sizeof_apm_module_register_events_t : Z;
  GSL_MAX_NUM_OF_ACDB_FILES : Z; sizeof_acdb_fileName : Z; sizeof_delta_fileName : Z;
  ACDB_PATH : string; ACDB_DELTA_FILE_PATH : string
}.

(** ** Calls that leave the service *)

(** [struct pcm_config], as [device_open] fills it. *)
Record pcm_config : Type := PcmConfig {
  pc_channels : Z; pc_rate : Z; pc_format : Z; pc_period_size : Z;
  pc_period_count : Z; pc_start_threshold : Z; pc_stop_threshold : Z
}.

(** [struct apm_module_param_data_t] *)
Record param_header : Type := ParamHeader {
  ph_miid : Z; ph_param_id : Z; ph_error_code : Z; ph_param_size : Z
}.

(** [struct media_format_t] without its payload. *)
Record media_hdr : Type := MediaHdr {
  mh_data_format : Z; mh_fmt_id : Z; mh_payload_size : Z
}.

(** [struct payload_pcm_output_format_cfg_t] and, with a sample rate,
    [struct payload_media_fmt_pcm_t]. *)
Record pcm_fmt : Type := PcmFmt {
  pf_endianness : Z; pf_bit_width : Z; pf_alignment : Z; pf_bits_per_sample : Z;
  pf_q_factor : Z; pf_num_channels : Z; pf_channel_map : list Z
}.

(** What follows the header in a payload the service builds. *)
Inductive param_body : Type :=
  | BodyNone
  | BodyHwEpMf (sample_rate bit_width num_channels data_format : Z)
  | BodyPcmOutput (h : media_hdr) (f : pcm_fmt) (interleaved : Z)
  | BodyPcmMedia (h : media_hdr) (f : pcm_fmt) (sample_rate : Z)
  | BodyCompressed (h : media_hdr) (codec : list Z)
  | BodySprDelay (hwep_miid : Z)
  | BodySprSessionTime.

(** A [gsl_set_custom_config] payload: a client's blob, a parameter the
    service builds, or calibration data GSL returned with some fields
    overwritten. *)
Inductive payload : Type :=
  | PayRaw (bytes : list Z)
  | PayParam (h : param_header) (b : param_body)
  | PayTaggedIntf (data : list Z) (lpaif_type intf_idx : Z)
  | PayTaggedSlim (data : list Z) (dev_id : Z).

(** [enum gsl_cmd_id] with the structure passed along. *)
Inductive gsl_cmd : Type :=
  | GSL_CMD_PREPARE
  | GSL_CMD_START
  | GSL_CMD_STOP (props : option (list key_value * Z * list Z))
  | GSL_CMD_EOS
  | GSL_CMD_ADD_GRAPH (gkvs ckvs : list key_value)
  | GSL_CMD_CHANGE_GRAPH (gkvs ckvs : list key_value)
  | GSL_CMD_REMOVE_GRAPH (gkvs : list key_value)
  | GSL_CMD_CONFIGURE_WRITE_PARAMS (cfg : rw_params)
  | GSL_CMD_CONFIGURE_READ_PARAMS (cfg : rw_params)
  | GSL_CMD_REGISTER_CUSTOM_EVENT (cfg : event_reg_cfg).

Inductive shmem_cmd : Type :=
  | GSL_CMD_GET_WRITE_BUFF_INFO
  | GSL_CMD_GET_READ_BUFF_INFO
  | GSL_CMD_GET_WRITE_POS_BUFF_INFO
  | GSL_CMD_GET_READ_POS_BUFF_INFO.

Inductive ext_call : Type :=
  | PcmOpen (card device flags : Z) (cfg : pcm_config)
  | PcmIsReady (pcm : Z)
  | PcmPrepare (pcm : Z)
  | PcmStop (pcm : Z)
  | PcmClose (pcm : Z)
  | SysfsOpen
  | SysfsWrite (fd pcm_id state : Z)
  | SysfsClose (fd : Z)
  | ReadPcmFile
  | SleepSecs (n : Z)
  | ReadAcdbDir
  | GslInit (acdb_files : list string)
  | GslDeinit
  | GslOpen (gkvs ckvs : list key_value)
  | GslClose (handle : Z)
  | GslIoctl (handle : Z) (cmd : gsl_cmd)
  | GslShmemIoctl (handle : Z) (cmd : shmem_cmd)
  | GslRegisterEventCb (handle : Z) (graph : nat)
  | GslSetCustomConfig (handle : Z) (p : payload)
  | GslGetCustomConfig (handle : Z) (p : payload)
  | GslGetSprSessionTime (handle : Z) (p : payload)
  | GslSetConfig (handle : Z) (gkvs : option (list key_value)) (tag : Z) (tkvs : list key_value)
  | GslSetCal (handle : Z) (gkvs ckvs : list key_value)
  | GslWrite (handle : Z) (tag : Z) (data : list Z)
  | GslRead (handle : Z) (tag : Z) (size : Z)
  | GslGetTagsSize (gkvs : list key_value)
  | GslGetTags (gkvs : list key_value) (size : Z)
  | GslGetTagsRaw (gkvs : list key_value) (size : option Z)
  | GslGetTaggedModuleInfo (gkvs : list key_value) (tag : Z)
  | GslGetTaggedData (gkvs : option (list key_value)) (tag : Z) (tkvs : list key_value) (size : Z)
  | ClientCb (cb session_id : Z) (ev : event_params) (client_data : Z)
  | AtsThread
  | AtsDeinit.

(** What each call gives back.  A tag entry is a tag id with its modules, a
    module being [(module_id, module_iid)]. *)
Definition ext_ans (c : ext_call) : Type :=
  match c with
  | ReadPcmFile | ReadAcdbDir => option (list string)
  | SysfsWrite _ _ _ | SysfsClose _ | SleepSecs _ | GslDeinit | AtsDeinit
  | ClientCb _ _ _ _ => unit
  | GslOpen _ _ | GslGetTagsSize _ | GslWrite _ _ _ => Z * Z
  | GslShmemIoctl _ _ => Z * (Z * option Z)
  | GslGetCustomConfig _ _ => Z * list Z
  | GslGetSprSessionTime _ _ => Z * (Z * Z)
  | GslRead _ _ _ => Z * (Z * Z * list Z)
  | GslGetTags _ _ => Z * list (Z * list (Z * Z))
  | GslGetTagsRaw _ _ => Z * (list Z * Z)
  | GslGetTaggedModuleInfo _ _ => Z * list (Z * Z)
  | GslGetTaggedData _ _ _ _ => Z * list Z
  | _ => Z
  end.

Inductive event : Type := Ev (c : ext_call) (a : ext_ans c).

Definition call_of (e : event) : ext_call := match e with Ev c _ => c end.

Class Env : Type := {
  env_consts :: Consts;
  env_answer : list event -> forall c : ext_call, ext_ans c;
  env_alloc : nat -> bool
}.

(** ** Mutexes *)
Inductive lock : Type :=
  | LPool | LSess (i : nat) | LSessCb (i : nat) | LDev (i : nat) | LGraph (g : nat).

#[export] Instance lock_eq_dec : EqDecision lock.
Proof. solve_decision. Defined.

(** ** The state of the process

    [w_devs] is [device_list] with [w_num_intfs = num_audio_intfs];
    [w_pool] is [sess_pool->session_list] in its order, [None] when there is
    no pool; [w_graphs] holds every graph object ever allocated, [None] once
    freed; [w_stream_mods] and [w_hw_mods] are the two static module tables,
    which the code writes to; [w_trace] has the newest call first. *)
Record world : Type := World {
  w_devs : list (option device_obj);
  w_num_intfs : Z;
  w_sysfs_fd : Z;
  w_pool : option (list session_obj);
  w_graphs : list (option graph_obj);
  w_stream_mods : list module_info;
  w_hw_mods : list module_info;
  w_allocs : nat;
  w_trace : list event;
  w_held : list lock;
  w_acq : list (lock * list lock);
  w_bad_unlock : list lock;
  w_agm_initialized : bool
}.

Definition set_w_devs (v : list (option device_obj)) (w : world) : world :=
  World v (w_num_intfs w) (w_sysfs_fd w) (w_pool w) (w_graphs w) (w_stream_mods w) (w_hw_mods w) (w_allocs w) (w_trace w) (w_held w) (w_acq w) (w_bad_unlock w) (w_agm_initialized w).
Definition set_w_num_intfs (v : Z) (w : world) : world :=
  World (w_devs w) v (w_sysfs_fd w) (w_pool w) (w_graphs w) (w_stream_mods w) (w_hw_mods w) (w_allocs w) (w_trace w) (w_held w) (w_acq w) (w_bad_unlock w) (w_agm_initialized w).
Definition set_w_sysfs_fd (v : Z) (w : world) : world :=
  World (w_devs w) (w_num_intfs w) v (w_pool w) (w_graphs w) (w_stream_mods w) (w_hw_mods w) (w_allocs w) (w_trace w) (w_held w) (w_acq w) (w_bad_unlock w) (w_agm_initialized w).
Definition set_w_pool (v : option (list session_obj)) (w : world) : world :=
  World (w_devs w) (w_num_intfs w) (w_sysfs_fd w) v (w_graphs w) (w_stream_mods w) (w_hw_mods w) (w_allocs w) (w_trace w) (w_held w) (w_acq w) (w_bad_unlock w) (w_agm_initialized w).
Definition set_w_graphs (v : list (option graph_obj)) (w : world) : world :=
  World (w_devs w) (w_num_intfs w) (w_sysfs_fd w) (w_pool w) v (w_stream_mods w) (w_hw_mods w) (w_allocs w) (w_trace w) (w_held w) (w_acq w) (w_bad_unlock w) (w_agm_initialized w).
Definition set_w_stream_mods (v : list module_info) (w : world) : world :=
  World (w_devs w) (w_num_intfs w) (w_sysfs_fd w) (w_pool w) (w_graphs w) v (w_hw_mods w) (w_allocs w) (w_trace w) (w_held w) (w_acq w) (w_bad_unlock w) (w_agm_initialized w).
Definition set_w_hw_mods (v : list module_info) (w : world) : world :=
  World (w_devs w) (w_num_intfs w) (w_sysfs_fd w) (w_pool w) (w_graphs w) (w_stream_mods w) v (w_allocs w) (w_trace w) (w_held w) (w_acq w) (w_bad_unlock w) (w_agm_initialized w).
Definition set_w_allocs (v : nat) (w : world) : world :=
  World (w_devs w) (w_num_intfs w) (w_sysfs_fd w) (w_pool w) (w_graphs w) (w_stream_mods w) (w_hw_mods w) v (w_trace w) (w_held w) (w_acq w) (w_bad_unlock w) (w_agm_initialized w).
Definition set_w_trace (v : list event) (w : world) : world :=
  World (w_devs w) (w_num_intfs w) (w_sysfs_fd w) (w_pool w) (w_graphs w) (w_stream_mods w) (w_hw_mods w) (w_allocs w) v (w_held w) (w_acq w) (w_bad_unlock w) (w_agm_initialized w).
Definition set_w_held (v : list lock) (w : world) : world :=
  World (w_devs w) (w_num_intfs w) (w_sysfs_fd w) (w_pool w) (w_graphs w) (w_stream_mods w) (w_hw_mods w) (w_allocs w) (w_trace w) v (w_acq w) (w_bad_unlock w) (w_agm_initialized w).
Definition set_w_acq (v : list (lock * list lock)) (w : world) : world :=
  World (w_devs w) (w_num_intfs w) (w_sysfs_fd w) (w_pool w) (w_graphs w) (w_stream_mods w) (w_hw_mods w) (w_allocs w) (w_trace w) (w_held w) v (w_bad_unlock w) (w_agm_initialized w).
Definition set_w_bad_unlock (v : list lock) (w : world) : world :=
  World (w_devs w) (w_num_intfs w) (w_sysfs_fd w) (w_pool w) (w_graphs w) (w_stream_mods w) (w_hw_mods w) (w_allocs w) (w_trace w) (w_held w) (w_acq w) v (w_agm_initialized w).
Definition set_w_agm_initialized (v : bool) (w : world) : world :=
  World (w_devs w) (w_num_intfs w) (w_sysfs_fd w) (w_pool w) (w_graphs w) (w_stream_mods w) (w_hw_mods w) (w_allocs w) (w_trace w) (w_held w) (w_acq w) (w_bad_unlock w) v.

Abbreviation AGM := (M world).

(** ** Primitive steps *)
Section Primitives.
Context `{Env}.

Definition ext (c : ext_call) : AGM (ext_ans c) := fun w =>
  let a := env_answer (w_trace w) c in
  Ret a (set_w_trace (Ev c a :: w_trace w) w).

Definition calloc : AGM bool := fun w =>
  Ret (env_alloc (w_allocs w)) (set_w_allocs (S (w_allocs w)) w).

Definition mutex_lock (l : lock) : AGM unit := fun w =>
  if bool_decide (l ∈ w_held w) then Crash SelfDeadlock
  else Ret tt (set_w_held (l :: w_held w)
                 (set_w_acq ((l, w_held w) :: w_acq w) w)).

Definition mutex_unlock (l : lock) : AGM unit := fun w =>
  if bool_decide (l ∈ w_held w)
  then Ret tt (set_w_held (remove lock_eq_dec l (w_held w)) w)
  else Ret tt (set_w_bad_unlock (l :: w_bad_unlock w) w).

(** A critical section: lock, the body with its [goto done]s, unlock. *)
Definition with_lock {A} (l : lock) (body : AGM A) : AGM A :=
  do! mutex_lock l ;
  let! r := body in
  do! mutex_unlock l ;
  ret r.

(** An object through its pointer. *)
Definition cell {A} (l : list (option A)) (i : nat) : A + crash :=
  match l !! i with
  | Some (Some a) => inl a
  | Some None => inr DanglingPtr
  | None => inr OutOfBounds
  end.

Definition read_dev (i : nat) : AGM device_obj := fun w =>
  match cell (w_devs w) i with
  | inl d => Ret d w
  | inr why => Crash why
  end.

Definition upd_dev (i : nat) (f : device_obj -> device_obj) : AGM unit :=
  let! d := read_dev i in
  modify (fun w => set_w_devs (<[i := Some (f d)]> (w_devs w)) w).

Definition read_graph (g : nat) : AGM graph_obj := fun w =>
  match cell (w_graphs w) g with
  | inl d => Ret d w
  | inr why => Crash why
  end.

Definition upd_graph (g : nat) (f : graph_obj -> graph_obj) : AGM unit :=
  let! d := read_graph g in
  modify (fun w => set_w_graphs (<[g := Some (f d)]> (w_graphs w)) w).

Definition new_graph (o : graph_obj) : AGM nat := fun w =>
  Ret (length (w_graphs w)) (set_w_graphs (w_graphs w ++ [Some o]) w).

Definition free_graph (g : nat) : AGM unit :=
  do! read_graph g ;
  modify (fun w => set_w_graphs (<[g := None]> (w_graphs w)) w).

Definition read_pool : AGM (list session_obj) :=
  let! p := gets w_pool in the DanglingPtr p.

Definition read_sess (i : nat) : AGM session_obj :=
  let! p := read_pool in the OutOfBounds (p !! i).

Definition upd_sess (i : nat) (f : session_obj -> session_obj) : AGM unit :=
  let! p := read_pool in
  let! s := the OutOfBounds (p !! i) in
  modify (fun w => set_w_pool (Some (<[i := f s]> p)) w).

(** The [j]-th interface of the pool of session [i]. *)
Definition read_aif (i j : nat) : AGM aif :=
  let! s := read_sess i in the OutOfBounds (ses_aifs s !! j).

Definition upd_aif (i j : nat) (f : aif -> aif) : AGM unit :=
  let! s := read_sess i in
  let! a := the OutOfBounds (ses_aifs s !! j) in
  upd_sess i (set_ses_aifs (<[j := f a]> (ses_aifs s))).
End Primitives.

(** ** Reasoning about the primitive steps *)

#[export] Hint Extern 0 (Keeps _ (modify _)) =>
  (apply Keeps_modify; intros; reflexivity) : keeps.

Section PrimitiveRules.
Context `{Env} {B : Type} (f : world -> B).

Lemma Keeps_ext c : (forall w t, f (set_w_trace t w) = f w) -> Keeps f (ext c).
Proof. intros Hf w a w' [= _ <-]. apply Hf. Qed.

Lemma Keeps_calloc : (forall w n, f (set_w_allocs n w) = f w) -> Keeps f calloc.
Proof. intros Hf w a w' [= _ <-]. apply Hf. Qed.

Lemma Keeps_lock l :
  (forall w h a, f (set_w_held h (set_w_acq a w)) = f w) -> Keeps f (mutex_lock l).
Proof.
  intros Hf w a w'. unfold mutex_lock. case_bool_decide; [done|].
  intros [= _ <-]. apply Hf.
Qed.

Lemma Keeps_unlock l :
  (forall w h, f (set_w_held h w) = f w) ->
  (forall w b, f (set_w_bad_unlock b w) = f w) -> Keeps f (mutex_unlock l).
Proof.
  intros Hf Hg w a w'. unfold mutex_unlock.
  case_bool_decide; intros [= _ <-]; auto.
Qed.

Lemma Keeps_with_lock {A} l (body : AGM A) :
  (forall w h a, f (set_w_held h (set_w_acq a w)) = f w) ->
  (forall w h, f (set_w_held h w) = f w) ->
  (forall w b, f (set_w_bad_unlock b w) = f w) -> Keeps f body -> Keeps f (with_lock l body).
Proof.
  intros H1 H2 H3 Hb. unfold with_lock.
  apply Keeps_bind; [by apply Keeps_lock|intros _]. apply Keeps_bind; [done|intros r].
  apply Keeps_bind; [by apply Keeps_unlock|intros _]. apply Keeps_ret.
Qed.

Lemma Keeps_read_dev i : Keeps f (read_dev i).
Proof. intros w a w'. unfold read_dev. destruct (cell _ _); congruence. Qed.

Lemma Keeps_read_graph g : Keeps f (read_graph g).
Proof. intros w a w'. unfold read_graph. destruct (cell _ _); congruence. Qed.

Lemma Keeps_upd_dev i g : (forall w v, f (set_w_devs v w) = f w) -> Keeps f (upd_dev i g).
Proof.
  intros Hf. unfold upd_dev. apply Keeps_bind; [apply Keeps_read_dev|].
  intros d. by apply Keeps_modify.
Qed.

Lemma Keeps_upd_graph i g :
  (forall w v, f (set_w_graphs v w) = f w) -> Keeps f (upd_graph i g).
Proof.
  intros Hf. unfold upd_graph. apply Keeps_bind; [apply Keeps_read_graph|].
  intros d. by apply Keeps_modify.
Qed.

Lemma Keeps_free_graph i :
  (forall w v, f (set_w_graphs v w) = f w) -> Keeps f (free_graph i).
Proof.
  intros Hf. unfold free_graph. apply Keeps_bind; [apply Keeps_read_graph|].
  intros d. by apply Keeps_modify.
Qed.

Lemma Keeps_new_graph o :
  (forall w v, f (set_w_graphs v w) = f w) -> Keeps f (new_graph o).
Proof. intros Hf w a w' [= _ <-]. apply Hf. Qed.

Lemma Keeps_read_pool : Keeps f read_pool.
Proof. unfold read_pool. keeps_tac. Qed.

Lemma Keeps_read_sess i : Keeps f (read_sess i).
Proof. unfold read_sess. apply Keeps_bind; [apply Keeps_read_pool|]. keeps_tac. Qed.

Lemma Keeps_read_aif i j : Keeps f (read_aif i j).
Proof. unfold read_aif. apply Keeps_bind; [apply Keeps_read_sess|]. keeps_tac. Qed.

Lemma Keeps_upd_sess i g : (forall w v, f (set_w_pool v w) = f w) -> Keeps f (upd_sess i g).
Proof.
  intros Hf. unfold upd_sess. apply Keeps_bind; [apply Keeps_read_pool|].
  intros p. apply Keeps_bind; [apply Keeps_the|]. intros s. by apply Keeps_modify.
Qed.

Lemma Keeps_upd_aif i j g : (forall w v, f (set_w_pool v w) = f w) -> Keeps f (upd_aif i j g).
Proof.
  intros Hf. unfold upd_aif. apply Keeps_bind; [apply Keeps_read_sess|].
  intros p. apply Keeps_bind; [apply Keeps_the|]. intros s. by apply Keeps_upd_sess.
Qed.
End PrimitiveRules.

#[export] Hint Resolve Keeps_read_dev Keeps_read_graph Keeps_read_pool Keeps_read_sess
  Keeps_read_aif : keeps.
#[export] Hint Extern 0 (Keeps _ (ext _)) => (apply Keeps_ext; intros; reflexivity) : keeps.
#[export] Hint Extern 0 (Keeps _ calloc) => (apply Keeps_calloc; intros; reflexivity) : keeps.
#[export] Hint Extern 0 (Keeps _ (mutex_lock _)) => (apply Keeps_lock; intros; reflexivity) : keeps.
#[export] Hint Extern 0 (Keeps _ (mutex_unlock _)) =>
  (apply Keeps_unlock; intros; reflexivity) : keeps.
#[export] Hint Extern 0 (Keeps _ (with_lock _ _)) =>
  (apply Keeps_with_lock; [intros; reflexivity..|keeps_tac]) : keeps.
#[export] Hint Extern 0 (Keeps _ (upd_dev _ _)) => (apply Keeps_upd_dev; intros; reflexivity) : keeps.
#[export] Hint Extern 0 (Keeps _ (upd_graph _ _)) => (apply Keeps_upd_graph; intros; reflexivity) : keeps.
#[export] Hint Extern 0 (Keeps _ (free_graph _)) => (apply Keeps_free_graph; intros; reflexivity) : keeps.
#[export] Hint Extern 0 (Keeps _ (new_graph _)) => (apply Keeps_new_graph; intros; reflexivity) : keeps.
#[export] Hint Extern 0 (Keeps _ (upd_sess _ _)) => (apply Keeps_upd_sess; intros; reflexivity) : keeps.
#[export] Hint Extern 0 (Keeps _ (upd_aif _ _ _)) => (apply Keeps_upd_aif; intros; reflexivity) : keeps.

Section PrimitiveWp.
Context `{Env} (u : Prop).

Lemma wpg_ext c Q w :
  (forall a, a = env_answer (w_trace w) c -> Q a (set_w_trace (Ev c a :: w_trace w) w)) ->
  wpg u (ext c) Q w.
Proof. intros HQ. by apply HQ. Qed.

Lemma wpg_calloc Q w :
  (forall b, b = env_alloc (w_allocs w) -> Q b (set_w_allocs (S (w_allocs w)) w)) ->
  wpg u calloc Q w.
Proof. intros HQ. by apply HQ. Qed.

Lemma wpg_mutex_lock l Q w :
  l ∉ w_held w ->
  Q tt (set_w_held (l :: w_held w) (set_w_acq ((l, w_held w) :: w_acq w) w)) ->
  wpg u (mutex_lock l) Q w.
Proof. intros Hl HQ. unfold wpg, mutex_lock. by rewrite bool_decide_false. Qed.

Lemma wlp_mutex_lock l Q w :
  Q tt (set_w_held (l :: w_held w) (set_w_acq ((l, w_held w) :: w_acq w) w)) ->
  wlp (mutex_lock l) Q w.
Proof. intros HQ. unfold wpg, mutex_lock. by case_bool_decide. Qed.

Lemma wpg_mutex_unlock l Q w :
  l ∈ w_held w -> Q tt (set_w_held (remove lock_eq_dec l (w_held w)) w) ->
  wpg u (mutex_unlock l) Q w.
Proof. intros Hl HQ. unfold wpg, mutex_unlock. by rewrite bool_decide_true. Qed.

(** Releasing the mutex taken last. *)
Lemma remove_lock_head l h : l ∉ h -> remove lock_eq_dec l (l :: h) = h.
Proof.
  intros Hl. simpl. destruct (lock_eq_dec l l) as [_|]; [|done].
  apply notin_remove. by rewrite <- list_elem_of_In.
Qed.

Lemma wpg_unlock_head l h Q w :
  w_held w = l :: h -> l ∉ h -> Q tt (set_w_held h w) -> wpg u (mutex_unlock l) Q w.
Proof.
  intros E Hl HQ. apply wpg_mutex_unlock; rewrite E; [constructor|].
  by rewrite remove_lock_head.
Qed.

Lemma wpg_with_lock {A} l (body : AGM A) Q w :
  l ∉ w_held w ->
  wpg u body (fun r w' => w_held w' = l :: w_held w /\ Q r (set_w_held (w_held w) w'))
    (set_w_held (l :: w_held w) (set_w_acq ((l, w_held w) :: w_acq w) w)) ->
  wpg u (with_lock l body) Q w.
Proof.
  intros Hl Hb. apply wpg_bind, wpg_mutex_lock; [done|].
  apply wpg_bind. eapply wpg_mono; [exact Hb|]. intros r w' [Hh HQ].
  by apply wpg_bind, (wpg_unlock_head _ _ _ _ Hh Hl).
Qed.

Lemma wpg_read_dev i d Q w :
  w_devs w !! i = Some (Some d) -> Q d w -> wpg u (read_dev i) Q w.
Proof. intros E HQ. unfold wpg, read_dev, cell. by rewrite E. Qed.

Lemma wlp_read_dev i Q w :
  (forall d, w_devs w !! i = Some (Some d) -> Q d w) -> wlp (read_dev i) Q w.
Proof. intros HQ. unfold wpg, read_dev, cell. destruct (w_devs w !! i) as [[d|]|]; auto. Qed.

Lemma wpg_upd_dev i d f Q w :
  w_devs w !! i = Some (Some d) ->
  Q tt (set_w_devs (<[i := Some (f d)]> (w_devs w)) w) -> wpg u (upd_dev i f) Q w.
Proof. intros E HQ. apply wpg_bind, (wpg_read_dev _ _ _ _ E). exact HQ. Qed.

Lemma wpg_read_graph i d Q w :
  w_graphs w !! i = Some (Some d) -> Q d w -> wpg u (read_graph i) Q w.
Proof. intros E HQ. unfold wpg, read_graph, cell. by rewrite E. Qed.

Lemma wlp_read_graph i Q w :
  (forall d, w_graphs w !! i = Some (Some d) -> Q d w) -> wlp (read_graph i) Q w.
Proof. intros HQ. unfold wpg, read_graph, cell. destruct (w_graphs w !! i) as [[d|]|]; auto. Qed.

Lemma wpg_upd_graph i d f Q w :
  w_graphs w !! i = Some (Some d) ->
  Q tt (set_w_graphs (<[i := Some (f d)]> (w_graphs w)) w) -> wpg u (upd_graph i f) Q w.
Proof. intros E HQ. apply wpg_bind, (wpg_read_graph _ _ _ _ E). exact HQ. Qed.

Lemma wpg_free_graph i d Q w :
  w_graphs w !! i = Some (Some d) ->
  Q tt (set_w_graphs (<[i := None]> (w_graphs w)) w) -> wpg u (free_graph i) Q w.
Proof. intros E HQ. apply wpg_bind, (wpg_read_graph _ _ _ _ E). exact HQ. Qed.

Lemma wpg_read_sess i p s Q w :
  w_pool w = Some p -> p !! i = Some s -> Q s w -> wpg u (read_sess i) Q w.
Proof.
  intros Ep Es HQ. unfold wpg, read_sess, read_pool, bind, gets. rewrite Ep. simpl.
  by rewrite Es.
Qed.

Lemma wlp_read_sess i Q w :
  (forall p s, w_pool w = Some p -> p !! i = Some s -> Q s w) -> wlp (read_sess i) Q w.
Proof.
  intros HQ. unfold wpg, read_sess, read_pool, bind, gets.
  destruct (w_pool w) as [p|] eqn:Ep; simpl; [|done].
  destruct (p !! i) as [s|] eqn:Es; simpl; [|done]. by eapply HQ.
Qed.

Lemma wpg_upd_sess i p s f Q w :
  w_pool w = Some p -> p !! i = Some s ->
  Q tt (set_w_pool (Some (<[i := f s]> p)) w) -> wpg u (upd_sess i f) Q w.
Proof.
  intros Ep Es HQ. unfold wpg, upd_sess, read_pool, bind, gets. rewrite Ep. simpl.
  by rewrite Es.
Qed.

Lemma wpg_read_aif i j p s a Q w :
  w_pool w = Some p -> p !! i = Some s -> ses_aifs s !! j = Some a ->
  Q a w -> wpg u (read_aif i j) Q w.
Proof.
  intros Ep Es Ea HQ. apply wpg_bind, (wpg_read_sess _ _ _ _ _ Ep Es).
  by rewrite Ea.
Qed.

Lemma wpg_upd_aif i j p s a f Q w :
  w_pool w = Some p -> p !! i = Some s -> ses_aifs s !! j = Some a ->
  Q tt (set_w_pool (Some (<[i := set_ses_aifs (<[j := f a]> (ses_aifs s)) s]> p)) w) ->
  wpg u (upd_aif i j f) Q w.
Proof.
  intros Ep Es Ea HQ. apply wpg_bind, (wpg_read_sess _ _ _ _ _ Ep Es).
  rewrite Ea. apply (wpg_upd_sess _ _ _ _ _ _ Ep Es HQ).
Qed.
End PrimitiveWp.

(** One step of symbolic execution towards [wpg u m Q w]. *)
Ltac wsimp := cbn [w_num_intfs w_devs w_sysfs_fd w_pool w_graphs w_stream_mods w_hw_mods w_allocs w_trace w_held w_acq w_bad_unlock w_agm_initialized set_w_num_intfs set_w_devs set_w_sysfs_fd set_w_pool set_w_graphs set_w_stream_mods set_w_hw_mods set_w_allocs set_w_trace set_w_held set_w_acq set_w_bad_unlock set_w_agm_initialized].
Ltac wsimp_in H := cbn [w_num_intfs w_devs w_sysfs_fd w_pool w_graphs w_stream_mods w_hw_mods w_allocs w_trace w_held w_acq w_bad_unlock w_agm_initialized set_w_num_intfs set_w_devs set_w_sysfs_fd set_w_pool set_w_graphs set_w_stream_mods set_w_hw_mods set_w_allocs set_w_trace set_w_held set_w_acq set_w_bad_unlock set_w_agm_initialized] in H.

Ltac wp_held := wsimp; first [done | by constructor | set_solver].

(** A live cell, looked up through earlier updates. *)
Ltac cell_lookup :=
  wsimp;
  first [ eassumption
        | rewrite list_lookup_insert_eq;
          [reflexivity | rewrite ?length_insert; by eapply lookup_lt_Some] ].

Ltac wp_step :=
  lazymatch goal with
  | |- wpg _ (bind _ _) _ _ => apply wpg_bind
  | |- wpg _ (ret _) _ _ => apply wpg_ret
  | |- wpg _ (gets _) _ _ => apply wpg_gets; wsimp
  | |- wpg _ (modify _) _ _ => apply wpg_modify; wsimp
  | |- wpg _ (the _ _) _ _ => apply wpg_the
  | |- wpg _ (crash_with _) _ _ => apply wpg_crash
  | |- wpg ?u (ext ?c) ?Q ?w => refine (wpg_ext u c Q w _); cbn [ext_ans]; intros ? _; wsimp
  | |- wpg _ calloc _ _ => apply wpg_calloc; intros ? _; wsimp
  | |- wpg _ (mutex_lock _) _ _ => apply wpg_mutex_lock; [wp_held|wsimp]
  | |- wpg _ (mutex_unlock _) _ _ =>
      first [ eapply wpg_unlock_head; [wsimp; reflexivity|wp_held|wsimp]
            | apply wpg_mutex_unlock; [wp_held|wsimp] ]
  | |- wpg _ (with_lock _ _) _ _ => apply wpg_with_lock; [wp_held|wsimp]
  | |- wpg _ (if ?b then _ else _) _ _ => destruct b eqn:?
  | |- wpg _ (read_dev _) _ _ => eapply wpg_read_dev; [cell_lookup|wsimp]
  | |- wpg _ (upd_dev _ _) _ _ => eapply wpg_upd_dev; [cell_lookup|wsimp]
  | |- wpg _ (read_graph _) _ _ => eapply wpg_read_graph; [cell_lookup|wsimp]
  | |- wpg _ (upd_graph _ _) _ _ => eapply wpg_upd_graph; [cell_lookup|wsimp]
  | |- wpg _ (let _ := _ in _) _ _ => cbv zeta
  end.
Ltac wp_steps := repeat wp_step.

(** The state fields that device operations do not touch. *)
Record same_but_devs (w w' : world) : Prop := SameButDevs {
  sbd_num : w_num_intfs w' = w_num_intfs w;
  sbd_pool : w_pool w' = w_pool w;
  sbd_graphs : w_graphs w' = w_graphs w;
  sbd_stream : w_stream_mods w' = w_stream_mods w;
  sbd_hw : w_hw_mods w' = w_hw_mods w;
  sbd_allocs : w_allocs w' = w_allocs w;
  sbd_held : w_held w' = w_held w;
  sbd_bad : w_bad_unlock w' = w_bad_unlock w;
  sbd_init : w_agm_initialized w' = w_agm_initialized w
}.

#[export] Instance same_but_devs_preorder : PreOrder same_but_devs.
Proof.
  split; [by intros w; split|].
  intros w1 w2 w3 [] []. split; congruence.
Qed.
