(* ===== verification/Concrete.v ===== *)
(** * A concrete environment

    One instantiation of [Machine.Env], used where a theorem is applied to a
    concrete input: distinct values for the constants, and outside code that
    succeeds, except where an override [ov] says otherwise. *)

From S2P Require Export Machine.
Open Scope Z_scope.
#[export] Set Default Goal Selector "!".

Definition demo_consts : Consts := {|
  AR_ETIMEOUT := 21;
  LPAIF := 101;
  LPAIF_RXTX := 102;
  LPAIF_WSA := 103;
  LPAIF_VA := 104;
  LPAIF_AXI := 105;
  PCM_FORMAT_S32_LE := 106;
  PCM_FORMAT_S8 := 107;
  PCM_FORMAT_S24_3LE := 108;
  PCM_FORMAT_S24_LE := 109;
  PCM_FORMAT_S16_LE := 110;
  PCM_OUT := 0;
  PCM_IN := 268435456;
  SHMEM_ENDPOINT := 113;
  STREAM_PCM_ENCODER := 114;
  STREAM_PCM_DECODER := 115;
  TAG_STREAM_PLACEHOLDER_DECODER := 116;
  STREAM_PCM_CONVERTER := 117;
  STREAM_INPUT_MEDIA_FORMAT := 118;
  TAG_PAUSE := 119;
  DEVICE_HW_ENDPOINT_RX := 120;
  DEVICE_HW_ENDPOINT_TX := 121;
  CHANNELS := 122;
  MEDIA_FMT_ID := 123;
  MEDIA_FMT_PCM := 124;
  MEDIA_FMT_MP3 := 125;
  MEDIA_FMT_AAC := 126;
  MEDIA_FMT_FLAC := 127;
  MEDIA_FMT_ALAC := 128;
  MEDIA_FMT_APE := 129;
  MEDIA_FMT_WMASTD := 130;
  MEDIA_FMT_WMAPRO := 131;
  MEDIA_FMT_VORBIS := 132;
  MEDIA_FMT_ID_PCM := 133;
  MEDIA_FMT_ID_MP3 := 134;
  MEDIA_FMT_ID_AAC := 135;
  MEDIA_FMT_ID_FLAC := 136;
  MEDIA_FMT_ID_ALAC := 137;
  MEDIA_FMT_ID_WMASTD := 138;
  MEDIA_FMT_ID_WMAPRO := 139;
  PARAM_ID_HW_EP_MF_CFG := 140;
  PARAM_ID_PCM_OUTPUT_FORMAT_CFG := 141;
  PARAM_ID_MEDIA_FORMAT := 142;
  PARAM_ID_SPR_DELAY_PATH_END := 143;
  PARAM_ID_SPR_SESSION_TIME := 144;
  PCM_LITTLE_ENDIAN := 145;
  PCM_LSB_ALIGNED := 146;
  PCM_DEINTERLEAVED_UNPACKED := 147;
  PCM_INTERLEAVED := 148;
  PCM_CHANNEL_C := 149;
  PCM_CHANNEL_L := 150;
  PCM_CHANNEL_R := 151;
  PCM_CHANNEL_LB := 152;
  PCM_CHANNEL_RB := 153;
  PCM_CHANNEL_LFE := 154;
  PCM_CHANNEL_CS := 155;
  PCM_CHANNEL_LS := 156;
  PCM_CHANNEL_RS := 157;
  SB_MAX_CHAN_CNT := 8;
  GSL_DATA_MODE_BLOCKING := 159;
  GSL_DATA_MODE_NON_BLOCKING := 160;
  GSL_DATA_MODE_PUSH_PULL := 161;
  sizeof_apm_module_param_data_t := 20;
  sizeof_media_format_t := 24;
  sizeof_param_id_hw_ep_mf_t := 28;
  sizeof_codec_dma_intf_cfg := 12;
  sizeof_i2s_intf_cfg := 16;
  sizeof_tdm_intf_cfg := 20;
  sizeof_hw_pcm_intf_cfg := 24;
  sizeof_slimbus_cfg := 28;
  sizeof_pcm_output_format_cfg := 12;
  sizeof_media_fmt_pcm := 16;
  sizeof_media_fmt_aac := 20;
  sizeof_media_fmt_flac := 24;
  sizeof_media_fmt_alac := 28;
  sizeof_media_fmt_ape := 12;
  sizeof_media_fmt_wmastd := 16;
  sizeof_media_fmt_wmapro := 20;
  sizeof_spr_delay_path_end := 24;
  sizeof_spr_session_time := 28;
  sizeof_gsl_cmd_register_custom_event := 16;
  sizeof_apm_module_register_events_t := 16;
  GSL_MAX_NUM_OF_ACDB_FILES := 20;
  sizeof_acdb_fileName := 256;
  sizeof_delta_fileName := 256;
  ACDB_PATH := "/etc/acdbdata";
  ACDB_DELTA_FILE_PATH := "/data/acdbdata/delta"
|}.

(** Four playback or capture back ends in the format of /proc/asound/pcm. *)
Definition demo_pcm_lines : list string := [
  "00-00: CODEC_DMA-LPAIF_WSA-RX-0 : playback 1"%string;
  "00-01: CODEC_DMA-LPAIF_VA-TX-1 : capture 1"%string;
  "00-02: SLIM-DEV1-RX-0 : playback 1"%string;
  "00-03: TDM-LPAIF-TX-PRIMARY : capture 1"%string ].

(** The tags of a playback graph: decoder, shared memory, pause, RX endpoint. *)
Definition demo_tags : list (Z * list (Z * Z)) :=
  let K := demo_consts in
  [ (STREAM_PCM_DECODER, [(10, 11)]); (STREAM_INPUT_MEDIA_FORMAT, [(20, 21)]);
    (TAG_PAUSE, [(30, 31)]); (DEVICE_HW_ENDPOINT_RX, [(40, 41)]) ].

(** Outside code that succeeds; a handle is derived from the number of calls. *)
Definition demo_answer (h : list event) (c : ext_call) : ext_ans c :=
  let fresh := 1 + Z.of_nat (length h) in
  match c with
  | ReadPcmFile => Some demo_pcm_lines
  | ReadAcdbDir => Some ["main.acdb"%string; "readme"%string]
  | PcmOpen _ _ _ _ => fresh
  | PcmIsReady _ => 1
  | SysfsOpen => 3
  | GslOpen _ _ => (0, fresh)
  | GslGetTagsSize _ => (0, 64)
  | GslGetTags _ _ => (0, demo_tags)
  | GslGetTagsRaw _ _ => (0, ([], 64))
  | GslGetTaggedModuleInfo _ _ => (0, [(40, 41)])
  | GslGetTaggedData _ _ _ _ => (0, [])
  | GslShmemIoctl _ _ => (0, (4096, Some 7))
  | GslGetCustomConfig _ _ => (0, [])
  | GslGetSprSessionTime _ _ => (0, (1, 2))
  | GslWrite _ _ data => (0, Z.of_nat (length data))
  | GslRead _ _ size => (0, (size, 1000, replicate (Z.to_nat size) 7))
  | SysfsWrite _ _ _ | SysfsClose _ | SleepSecs _ | GslDeinit | AtsDeinit
  | ClientCb _ _ _ _ => tt
  | _ => 0
  end.

Definition demo_env (ov : list event -> forall c, option (ext_ans c)) (al : nat -> bool) : Env := {|
  env_consts := demo_consts;
  env_answer h c := match ov h c with Some a => a | None => demo_answer h c end;
  env_alloc := al
|}.

(** Everything succeeds. *)
Definition ok_env : Env := demo_env (fun _ _ => None) (fun _ => true).

(** The process before [agm_init]; the module tables are filled by the
    components that own them. *)
Definition empty_world : world :=
  World [] 0 (-1) None [] [] [] 0 [] [] [] [] false.
