(* ===== verification/Metadata.v ===== *)
(** * Metadata: key vectors merged, copied and updated (service/src/metadata.c)

    [metadata_remove_dup] is the triple loop of the code over an array and a
    live count; [keep_first] is the specification it is proved equal to.
    [metadata_copy] decodes the byte layout documented at the top of
    metadata.c, [encode_metadata] being the writer of that layout. *)

From S2P Require Export Machine Concrete.
Open Scope Z_scope.
#[export] Set Default Goal Selector "!".

(** ** Removing duplicates in place *)
Section RemoveDup.
Context {A : Type} (key : A -> Z).

(** [for (k = j; k < count-1; k++) a[k] = a[k+1];] with [n = count-1-j]
    iterations left. *)
Fixpoint shift_down (n k : nat) (a : list A) : list A :=
  match n with
  | O => a
  | S n' =>
      match a !! S k with
      | Some x => shift_down n' (S k) (<[k := x]> a)
      | None => a
      end
  end.

(** [for (j = ...; j < count; j++)]: [count] shrinks, or [j] grows. *)
Fixpoint dup_inner (fuel : nat) (a : list A) (i j count : nat) : list A * nat :=
  match fuel with
  | O => (a, count)
  | S fuel' =>
      if bool_decide (j < count)%nat then
        match a !! i, a !! j with
        | Some x, Some y =>
            if key x =? key y
            then dup_inner fuel' (shift_down (count - 1 - j) j a) i j (count - 1)
            else dup_inner fuel' a i (S j) count
        | _, _ => (a, count)
        end
      else (a, count)
  end.

(** [for (i = 0; i < count; i++)] *)
Fixpoint dup_outer (fuel : nat) (a : list A) (i count : nat) : list A * nat :=
  match fuel with
  | O => (a, count)
  | S fuel' =>
      if bool_decide (i < count)%nat then
        let '(a', count') := dup_inner count a i (S i) count in
        dup_outer fuel' a' (S i) count'
      else (a, count)
  end.

(** The array and the count that the three loops leave. *)
Definition remove_dup (a : list A) (count : nat) : list A * nat :=
  dup_outer count a 0 count.

(** *** Specification: keep the first element of every key. *)
Fixpoint keep_first (seen : list Z) (l : list A) : list A :=
  match l with
  | [] => []
  | x :: r =>
      if existsb (Z.eqb (key x)) seen then keep_first seen r
      else x :: keep_first (key x :: seen) r
  end.

Lemma length_shift_down n : forall k a, length (shift_down n k a) = length a.
Proof.
  induction n as [|n IH]; intros k a; simpl; [done|].
  destruct (a !! S k); [|done]. by rewrite IH, length_insert.
Qed.

Lemma shift_down_lookup n : forall k a i, (k + n < length a)%nat ->
  shift_down n k a !! i =
    if bool_decide (k <= i < k + n)%nat then a !! S i else a !! i.
Proof.
  induction n as [|n IH]; intros k a i Hk; simpl.
  { case_bool_decide; [lia|done]. }
  destruct (lookup_lt_is_Some_2 a (S k)) as [x Hx]; [lia|]. rewrite Hx.
  rewrite IH by (rewrite length_insert; lia).
  repeat case_bool_decide; try lia.
  - rewrite list_lookup_insert_ne by lia. done.
  - replace i with k by lia. rewrite list_lookup_insert_eq by lia. done.
  - rewrite list_lookup_insert_ne by lia. done.
Qed.

(** One removal: the live part loses its element [j]. *)
Lemma shift_down_delete a j count : (j < count <= length a)%nat ->
  take (count - 1) (shift_down (count - 1 - j) j a) = delete j (take count a).
Proof.
  intros Hj. apply list_eq. intros i.
  destruct (decide (i < count - 1)%nat) as [Hi|Hi].
  - rewrite lookup_take_lt, shift_down_lookup by lia.
    destruct (decide (i < j)%nat) as [Hij|Hij].
    + rewrite bool_decide_false, list_lookup_delete_lt, lookup_take_lt by lia. done.
    + rewrite bool_decide_true, list_lookup_delete_ge, lookup_take_lt by lia. done.
  - rewrite lookup_take_ge by lia. symmetry.
    rewrite list_lookup_delete_ge, lookup_take_ge by lia. done.
Qed.

Definition other (x : A) : A -> bool := fun y => negb (key x =? key y).

(** The middle loop removes from the live part, from [j] on, what has the
    key of element [i]. *)
Lemma dup_inner_spec fuel : forall a i j count x,
  (i < j)%nat -> (j <= count <= length a)%nat -> (count - j <= fuel)%nat ->
  a !! i = Some x ->
  let '(a', count') := dup_inner fuel a i j count in
  length a' = length a /\ (j <= count' <= count)%nat /\
  take count' a' =
    take j (take count a) ++ List.filter (other x) (drop j (take count a)).
Proof.
  induction fuel as [|fuel IH]; intros a i j count x Hij Hj Hf Hx; cbn [dup_inner].
  { replace j with count by lia. split_and!; [done|lia|lia|].
    rewrite take_take, Nat.min_id, drop_ge, app_nil_r by (rewrite length_take; lia). done. }
  case_bool_decide as Hjc.
  2:{ replace j with count by lia. split_and!; [done|lia|lia|].
      rewrite take_take, Nat.min_id, drop_ge, app_nil_r by (rewrite length_take; lia). done. }
  rewrite Hx. destruct (lookup_lt_is_Some_2 a j) as [y Hy]; [lia|]. rewrite Hy.
  assert (Hd : drop j (take count a) = y :: drop (S j) (take count a)).
  { apply drop_S. rewrite lookup_take_lt by lia. done. }
  rewrite Hd. cbn [List.filter]. unfold other at 1.
  destruct (key x =? key y) eqn:E; cbn [negb].
  - specialize (IH (shift_down (count - 1 - j) j a) i j (count - 1)%nat x).
    rewrite length_shift_down in IH.
    assert (Hx' : shift_down (count - 1 - j) j a !! i = Some x).
    { rewrite shift_down_lookup, bool_decide_false by lia. done. }
    destruct (dup_inner _ _ _ _ _) as [a' c'].
    destruct IH as (Hl & Hc & Heq); [lia|lia|lia|done|].
    split_and!; [done|lia|lia|]. rewrite Heq, shift_down_delete by lia.
    assert (Htk : take j (delete j (take count a)) = take j (take count a)).
    { rewrite delete_take_drop, take_app_le by (rewrite length_take, length_take; lia).
      rewrite take_take. f_equal. lia. }
    assert (Hdr : drop j (delete j (take count a)) = drop (S j) (take count a)).
    { rewrite delete_take_drop, drop_app_ge by (rewrite length_take, length_take; lia).
      rewrite length_take_le by (rewrite length_take; lia).
      by rewrite Nat.sub_diag, drop_0. }
    by rewrite Htk, Hdr.
  - specialize (IH a i (S j) count x).
    destruct (dup_inner _ _ _ _ _) as [a' c'].
    destruct IH as (Hl & Hc & Heq); [lia|lia|lia|done|].
    split_and!; [done|lia|lia|]. rewrite Heq.
    rewrite (take_S_r _ _ y) by (rewrite lookup_take_lt by lia; done).
    by rewrite <- app_assoc.
Qed.

(** The three loops on the live list. *)
Fixpoint nub (fuel : nat) (l : list A) : list A :=
  match fuel, l with
  | S fuel', x :: r => x :: nub fuel' (List.filter (other x) r)
  | _, _ => []
  end.

Lemma dup_outer_spec fuel : forall a i count,
  (count <= length a)%nat -> (i <= count)%nat -> (count - i <= fuel)%nat ->
  let '(a', count') := dup_outer fuel a i count in
  length a' = length a /\ (count' <= count)%nat /\
  take count' a' = take i (take count a) ++ nub fuel (drop i (take count a)).
Proof.
  induction fuel as [|fuel IH]; intros a i count Hc Hi Hf; cbn [dup_outer nub].
  { split_and!; [done|lia|]. replace i with count by lia.
    by rewrite take_take, Nat.min_id, app_nil_r. }
  case_bool_decide as Hic.
  2:{ split_and!; [done|lia|]. replace i with count by lia.
      rewrite drop_ge by (rewrite length_take; lia).
      by rewrite take_take, Nat.min_id, app_nil_r. }
  destruct (lookup_lt_is_Some_2 a i) as [x Hx]; [lia|].
  pose proof (dup_inner_spec count a i (S i) count x) as Hin.
  destruct (dup_inner _ _ _ _ _) as [a1 c1].
  destruct Hin as (Hl1 & Hc1 & Heq1); [lia|lia|lia|done|].
  specialize (IH a1 (S i) c1).
  destruct (dup_outer _ _ _ _) as [a2 c2].
  destruct IH as (Hl2 & Hc2 & Heq2); [lia|lia|lia|].
  split_and!; [congruence|lia|].
  rewrite Heq2, Heq1.
  assert (HS : length (take (S i) (take count a)) = S i) by (rewrite !length_take; lia).
  rewrite take_app_le, take_take, Nat.min_id by lia.
  rewrite drop_app_ge, HS, Nat.sub_diag, drop_0 by lia.
  rewrite (drop_S (take count a) x i) by (rewrite lookup_take_lt by lia; done).
  rewrite (take_S_r _ _ x) by (rewrite lookup_take_lt by lia; done).
  by rewrite <- app_assoc.
Qed.

Lemma filter_length_le (p : A -> bool) l : (length (List.filter p l) <= length l)%nat.
Proof. induction l as [|x l IH]; simpl; [lia|]. destruct (p x); simpl; lia. Qed.

Lemma nub_keep_first l : forall fuel seen, (length l <= fuel)%nat ->
  nub fuel (List.filter (fun y => negb (existsb (Z.eqb (key y)) seen)) l) =
    keep_first seen l.
Proof.
  induction l as [|x r IH]; intros fuel seen Hf; simpl; [by destruct fuel|].
  destruct (existsb (Z.eqb (key x)) seen) eqn:E; cbn [negb].
  - apply IH. simpl in Hf. lia.
  - destruct fuel as [|fuel]; simpl in Hf; [lia|]. cbn [nub]. f_equal.
    rewrite <- (IH fuel (key x :: seen)) by lia. f_equal.
    assert (Hff : forall l' : list A,
      List.filter (other x)
        (List.filter (fun y => negb (existsb (Z.eqb (key y)) seen)) l') =
      List.filter (fun y => negb (existsb (Z.eqb (key y)) (key x :: seen))) l').
    { induction l' as [|y l' IHl]; simpl; [done|].
      rewrite (Z.eqb_sym (key y) (key x)).
      destruct (existsb (Z.eqb (key y)) seen); simpl.
      - by rewrite orb_true_r.
      - rewrite orb_false_r. unfold other at 1.
        destruct (key x =? key y); simpl; by rewrite IHl. }
    apply Hff.
Qed.

(** The loops compute the specification, and stay inside the array. *)
Lemma remove_dup_keep_first a count : (count <= length a)%nat ->
  let '(a', count') := remove_dup a count in
  length a' = length a /\ (count' <= count)%nat /\
  take count' a' = keep_first [] (take count a).
Proof.
  intros Hc. unfold remove_dup. pose proof (dup_outer_spec count a 0 count Hc) as H.
  destruct (dup_outer _ _ _ _) as [a' c'].
  destruct H as (Hl & Hc' & Heq); [lia|lia|].
  split_and!; [done|done|]. rewrite Heq, take_0, drop_0. simpl.
  rewrite <- (nub_keep_first _ count []) by (rewrite length_take; lia).
  f_equal. simpl. generalize (take count a) as l.
  induction l as [|y l IH]; simpl; [done|]. by f_equal.
Qed.
End RemoveDup.

(** ** Facts about the specification *)
Section KeepFirst.
Context {A : Type} (key : A -> Z).

Definition has_key (k : Z) (x : A) : bool := key x =? k.

(** The value found for a key is the first one of the input. *)
Lemma find_keep_first k l : forall seen,
  List.find (has_key k) (keep_first key seen l) =
    if existsb (Z.eqb k) seen then None else List.find (has_key k) l.
Proof.
  induction l as [|x r IH]; intros seen; simpl.
  { by destruct (existsb _ _). }
  destruct (existsb (Z.eqb (key x)) seen) eqn:E; simpl; rewrite IH; simpl.
  - destruct (existsb (Z.eqb k) seen) eqn:Ek; [done|].
    replace (has_key k x) with false; [done|]. symmetry. apply Z.eqb_neq.
    intros Hk. rewrite Hk in E. congruence.
  - destruct (has_key k x) eqn:Hk.
    + apply Z.eqb_eq in Hk as <-. by rewrite E.
    + apply Z.eqb_neq in Hk. by rewrite (proj2 (Z.eqb_neq k (key x))) by congruence.
Qed.

Lemma keep_first_keys_fresh l : forall seen x,
  x ∈ keep_first key seen l -> existsb (Z.eqb (key x)) seen = false.
Proof.
  induction l as [|y r IH]; intros seen x Hx; simpl in Hx; [by apply not_elem_of_nil in Hx|].
  destruct (existsb (Z.eqb (key y)) seen) eqn:E; [by apply IH|].
  apply elem_of_cons in Hx as [->|Hx]; [done|].
  specialize (IH _ _ Hx). simpl in IH. by apply orb_false_iff in IH as [_ IH].
Qed.

Lemma keep_first_NoDup l : forall seen, NoDup (key <$> keep_first key seen l).
Proof.
  induction l as [|x r IH]; intros seen; simpl; [constructor|].
  destruct (existsb _ _); [apply IH|]. simpl. constructor; [|apply IH].
  intros Hin. apply list_elem_of_fmap in Hin as (y & Hk & Hy).
  apply keep_first_keys_fresh in Hy. simpl in Hy.
  by rewrite Hk, Z.eqb_refl in Hy.
Qed.

Lemma keep_first_subset l : forall seen x, x ∈ keep_first key seen l -> x ∈ l.
Proof.
  induction l as [|y r IH]; intros seen x Hx; simpl in Hx; [done|].
  destruct (existsb _ _); [constructor; by eapply IH|].
  apply elem_of_cons in Hx as [->|Hx]; constructor. by eapply IH.
Qed.

Lemma keep_first_id l : forall seen, NoDup (key <$> l) ->
  (forall x, x ∈ l -> existsb (Z.eqb (key x)) seen = false) ->
  keep_first key seen l = l.
Proof.
  induction l as [|x r IH]; intros seen Hnd Hs; simpl; [done|].
  rewrite Hs by constructor. simpl in Hnd. apply NoDup_cons in Hnd as [Hx Hnd].
  f_equal. apply IH; [done|]. intros y Hy. simpl. rewrite Hs by by constructor.
  rewrite orb_false_r. apply Z.eqb_neq. intros E. apply Hx. rewrite <- E.
  by apply list_elem_of_fmap_2.
Qed.
End KeepFirst.

(** ** The operations *)

(** The entries a vector holds: the first [num_kvs] of its array. *)
Definition live {A} (n : nat) (a : option (list A)) : list A := take n (default [] a).

(** The array is there and at least as long as the count says. *)
Definition array_ok {A} (n : nat) (a : option (list A)) : bool :=
  match a with
  | Some l => bool_decide (n <= length l)%nat
  | None => bool_decide (n = 0%nat)
  end.

Definition kvs (v : key_vector) : list key_value := live (num_kvs v) (kv v).
Definition props (p : sg_prop) : list Z := live (num_values p) (values p).

Definition meta_ok (m : meta_data) : bool :=
  array_ok (num_kvs (gkv m)) (kv (gkv m)) &&
  array_ok (num_kvs (ckv m)) (kv (ckv m)) &&
  array_ok (num_values (sg_props m)) (values (sg_props m)).

(** [memcpy] of [n] elements of [src]: the [n] elements read. *)
Definition memcpy_from {A} (n : nat) (src : option (list A)) : AGM (list A) :=
  match n, src with
  | O, _ => ret []
  | _, None => crash_with NullDeref
  | _, Some l => if bool_decide (n <= length l)%nat then ret (take n l)
                 else crash_with OutOfBounds
  end.

Section Operations.
Context `{Env}.

Definition metadata_remove_dup (m : meta_data) : meta_data :=
  let '(g, ng) := remove_dup kv_key (default [] (kv (gkv m))) (num_kvs (gkv m)) in
  let '(c, nc) := remove_dup kv_key (default [] (kv (ckv m))) (num_kvs (ckv m)) in
  let '(p, np) := remove_dup id (default [] (values (sg_props m)))
                    (num_values (sg_props m)) in
  Meta (KVec ng (Some g)) (KVec nc (Some c))
    (SgProp (prop_id (sg_props m)) np (Some p)).

(** The copy loop of [metadata_merge], over the arguments that are not NULL. *)
Fixpoint merge_copy (acc : list key_value * list key_value * Z * list Z)
    (ms : list meta_data) : AGM (list key_value * list key_value * Z * list Z) :=
  match ms with
  | [] => ret acc
  | m :: ms' =>
      let '(g, c, _, p) := acc in
      let! g' := memcpy_from (num_kvs (gkv m)) (kv (gkv m)) in
      let! c' := memcpy_from (num_kvs (ckv m)) (kv (ckv m)) in
      let! p' := memcpy_from (num_values (sg_props m)) (values (sg_props m)) in
      merge_copy (g ++ g', c ++ c', prop_id (sg_props m), p ++ p') ms'
  end.

(** [metadata_merge(num, ...)]; [None] is a NULL argument or result. *)
Definition metadata_merge (args : list (option meta_data)) : AGM (option meta_data) :=
  let ms := omap id args in
  let! ok := calloc in
  if negb ok then ret None else
  let ng := sum_list (num_kvs ∘ gkv <$> ms) in
  let nc := sum_list (num_kvs ∘ ckv <$> ms) in
  let np := sum_list (num_values ∘ sg_props <$> ms) in
  let! ok_g := calloc in
  if negb ok_g then ret None else
  let! ok_c := calloc in
  if negb ok_c then ret None else
  let! ok_p := calloc in
  if negb ok_p then ret None else
  let! (g, c, pid, p) := merge_copy ([], [], 0, []) ms in
  ret (Some (metadata_remove_dup
         (Meta (KVec ng (Some g)) (KVec nc (Some c)) (SgProp pid np (Some p))))).

(** [metadata_free(&m)]: the arrays are freed and the structure zeroed. *)
Definition metadata_free (m : meta_data) : meta_data := meta_zero.

(** The inner loop of [metadata_update_cal] on one entry: every entry of the
    argument with its key overwrites the value. *)
Definition update_entry (upd : list key_value) (e : key_value) : key_value :=
  fold_left (fun e u => if kv_key e =? kv_key u then set_kv_val (kv_val u) e else e)
    upd e.

Definition metadata_update_cal (upd : list key_value) (m : meta_data) : AGM meta_data :=
  let n := num_kvs (ckv m) in
  match n, upd with
  | O, _ | _, [] => ret m
  | _, _ =>
      let! a := the NullDeref (kv (ckv m)) in
      if bool_decide (n <= length a)%nat
      then ret (set_ckv (KVec n (Some ((update_entry upd <$> take n a) ++ drop n a))) m)
      else crash_with OutOfBounds
  end.

(** *** Decoding a client's payload *)

(** A little-endian [uint32_t] read through a byte pointer. *)
Definition le32 (b : list Z) : Z :=
  match b with
  | b0 :: b1 :: b2 :: b3 :: _ => b0 + 256 * (b1 + 256 * (b2 + 256 * b3))
  | _ => 0
  end.

(** The bytes [off, off + n) of the buffer, or a read out of its bounds. *)
Definition read_bytes (buf : list Z) (off n : Z) : AGM (list Z) :=
  if (0 <=? off) && (0 <=? n) && (off + n <=? Z.of_nat (length buf))
  then ret (take (Z.to_nat n) (drop (Z.to_nat off) buf))
  else crash_with OutOfBounds.

Definition read_u32 (buf : list Z) (off : Z) : AGM Z :=
  let! b := read_bytes buf off 4 in ret (le32 b).

Fixpoint decode_u32s (n : nat) (b : list Z) : list Z :=
  match n with
  | O => []
  | S n' => le32 b :: decode_u32s n' (drop 4 b)
  end.

Fixpoint decode_kvs (n : nat) (b : list Z) : list key_value :=
  match n with
  | O => []
  | S n' => KV (le32 b) (le32 (drop 4 b)) :: decode_kvs n' (drop 8 b)
  end.

(** The [PTR_TO_*] macros, as offsets from the start of the payload. *)
Definition ptr_to_gkv : Z := 4.
Definition ptr_to_num_ckv (num_gkv : Z) : Z := 4 + num_gkv * 8.
Definition ptr_to_ckv (num_gkv : Z) : Z := ptr_to_num_ckv num_gkv + 4.
Definition ptr_to_prop_id (num_gkv num_ckv : Z) : Z := ptr_to_ckv num_gkv + num_ckv * 8.
Definition ptr_to_num_props (num_gkv num_ckv : Z) : Z := ptr_to_prop_id num_gkv num_ckv + 4.
Definition ptr_to_props (num_gkv num_ckv : Z) : Z := ptr_to_num_props num_gkv num_ckv + 4.

(** [metadata_copy(dest, size, metadata)]: the return value and [*dest]
    afterwards.  [size] is not used by the code. *)
Definition metadata_copy (dest : meta_data) (size : Z) (metadata : list Z)
  : AGM (Z * meta_data) :=
  let! ng := read_u32 metadata 0 in
  let! ok := calloc in
  if negb ok
  then ret (- ENOMEM, set_gkv (KVec (Z.to_nat ng) None) dest) else
  let! gb := read_bytes metadata ptr_to_gkv (ng * 8) in
  let g := KVec (Z.to_nat ng) (Some (decode_kvs (Z.to_nat ng) gb)) in
  let! nc := read_u32 metadata (ptr_to_num_ckv ng) in
  let! ok := calloc in
  if negb ok then ret (- ENOMEM, meta_zero) else
  let! cb := read_bytes metadata (ptr_to_ckv ng) (nc * 8) in
  let c := KVec (Z.to_nat nc) (Some (decode_kvs (Z.to_nat nc) cb)) in
  let! pid := read_u32 metadata (ptr_to_prop_id ng nc) in
  let! np := read_u32 metadata (ptr_to_num_props ng nc) in
  let! ok := calloc in
  if negb ok then ret (- ENOMEM, meta_zero) else
  let! pb := read_bytes metadata (ptr_to_props ng nc) (np * 4) in
  ret (0, Meta g c (SgProp pid (Z.to_nat np)
                      (Some (decode_u32s (Z.to_nat np) pb)))).
End Operations.

(** ** Correctness of the merge *)

(** What a merge of [ms] (in argument order) has to hold. *)
Record merged_from (ms : list meta_data) (r : meta_data) : Prop := MergedFrom {
  merged_gkv : kvs (gkv r) = keep_first kv_key [] (mjoin (kvs ∘ gkv <$> ms));
  merged_ckv : kvs (ckv r) = keep_first kv_key [] (mjoin (kvs ∘ ckv <$> ms));
  merged_props : props (sg_props r) = keep_first id [] (mjoin (props ∘ sg_props <$> ms));
  merged_prop_id : prop_id (sg_props r) =
    default 0 (last (prop_id ∘ sg_props <$> ms));
  merged_ok : meta_ok r = true
}.

Definition all_ok (ms : list meta_data) : Prop := Forall (fun m => meta_ok m = true) ms.

Lemma array_ok_live {A} n (a : option (list A)) :
  array_ok n a = true -> length (live n a) = n.
Proof.
  unfold live. destruct a as [l|]; simpl; intros Hok%bool_decide_eq_true_1.
  - rewrite length_take. lia.
  - by subst.
Qed.

Lemma meta_ok_inv m : meta_ok m = true ->
  array_ok (num_kvs (gkv m)) (kv (gkv m)) = true /\
  array_ok (num_kvs (ckv m)) (kv (ckv m)) = true /\
  array_ok (num_values (sg_props m)) (values (sg_props m)) = true.
Proof. unfold meta_ok. rewrite !andb_true_iff. tauto. Qed.

Lemma memcpy_from_ok {A} n (a : option (list A)) w :
  array_ok n a = true -> memcpy_from n a w = Ret (live n a) w.
Proof.
  unfold memcpy_from, live. destruct a as [l|]; simpl; intros Hok.
  - rewrite Hok. by destruct n.
  - apply bool_decide_eq_true_1 in Hok as ->. done.
Qed.

Section MergeProofs.
Context `{Env}.

Lemma merge_copy_ok ms : forall g c pid p w, all_ok ms ->
  merge_copy (g, c, pid, p) ms w =
    Ret (g ++ mjoin (kvs ∘ gkv <$> ms), c ++ mjoin (kvs ∘ ckv <$> ms),
         default pid (last (prop_id ∘ sg_props <$> ms)),
         p ++ mjoin (props ∘ sg_props <$> ms)) w.
Proof.
  induction ms as [|m ms IH]; intros g c pid p w Hok; cbn [merge_copy].
  { by rewrite !app_nil_r. }
  inversion_clear Hok as [|? ? Hm Hms].
  apply meta_ok_inv in Hm as (Hg & Hc & Hp).
  unfold bind. rewrite !memcpy_from_ok by done.
  rewrite IH by done. cbn [fmap list_fmap mjoin list_join].
  rewrite !app_assoc.
  assert (Hlast : default (prop_id (sg_props m)) (last (prop_id ∘ sg_props <$> ms)) =
                  default pid (last (prop_id (sg_props m) :: (prop_id ∘ sg_props <$> ms)))).
  { rewrite last_cons. by destruct (last _). }
  unfold compose in *. by rewrite Hlast.
Qed.

Lemma length_join {A} (f : meta_data -> list A) (n : meta_data -> nat) ms :
  Forall (fun m => length (f m) = n m) ms ->
  length (mjoin (f <$> ms)) = sum_list (n <$> ms).
Proof.
  induction 1 as [|m ms Hm _ IH]; [done|].
  cbn [fmap list_fmap mjoin list_join sum_list sum_list_with].
  rewrite length_app, Hm. f_equal. exact IH.
Qed.

Lemma all_ok_lengths ms : all_ok ms ->
  length (mjoin (kvs ∘ gkv <$> ms)) = sum_list (num_kvs ∘ gkv <$> ms) /\
  length (mjoin (kvs ∘ ckv <$> ms)) = sum_list (num_kvs ∘ ckv <$> ms) /\
  length (mjoin (props ∘ sg_props <$> ms)) = sum_list (num_values ∘ sg_props <$> ms).
Proof.
  intros Hok. split_and!; apply length_join; eapply Forall_impl; try exact Hok;
    intros m (Hg & Hc & Hp)%meta_ok_inv; by apply array_ok_live.
Qed.

Lemma remove_dup_live {A} (key : A -> Z) (a : list A) n : n = length a ->
  let '(a', n') := remove_dup key (default [] (Some a)) n in
  live n' (Some a') = keep_first key [] a /\ array_ok n' (Some a') = true.
Proof.
  intros ->. pose proof (remove_dup_keep_first key a (length a)) as Hk. simpl.
  destruct (remove_dup _ _ _) as [a' n']. destruct Hk as (Hl & Hn & Heq); [done|].
  rewrite firstn_all in Heq. split; [exact Heq|]. apply bool_decide_eq_true_2. lia.
Qed.

Lemma remove_dup_merged ms : all_ok ms ->
  merged_from ms (metadata_remove_dup
    (Meta (KVec (sum_list (num_kvs ∘ gkv <$> ms)) (Some (mjoin (kvs ∘ gkv <$> ms))))
          (KVec (sum_list (num_kvs ∘ ckv <$> ms)) (Some (mjoin (kvs ∘ ckv <$> ms))))
          (SgProp (default 0 (last (prop_id ∘ sg_props <$> ms)))
             (sum_list (num_values ∘ sg_props <$> ms))
             (Some (mjoin (props ∘ sg_props <$> ms)))))).
Proof.
  intros (Hg & Hc & Hp)%all_ok_lengths. unfold metadata_remove_dup.
  cbn [gkv ckv sg_props num_kvs kv num_values values prop_id].
  pose proof (remove_dup_live kv_key _ _ (eq_sym Hg)) as G.
  pose proof (remove_dup_live kv_key _ _ (eq_sym Hc)) as C.
  pose proof (remove_dup_live id _ _ (eq_sym Hp)) as P.
  destruct (remove_dup _ _ (sum_list (num_kvs ∘ gkv <$> ms))) as [g ng].
  destruct (remove_dup _ _ (sum_list (num_kvs ∘ ckv <$> ms))) as [c nc].
  destruct (remove_dup _ _ (sum_list (num_values ∘ sg_props <$> ms))) as [p np].
  destruct G as [G Gok], C as [C Cok], P as [P Pok].
  split; try done. unfold meta_ok. simpl in *. by rewrite Gok, Cok, Pok.
Qed.

(** A merge of well-formed metadata does not crash; it only consumes
    allocations; it fails exactly when one of its four allocations fails. *)
Lemma wp_metadata_merge args w : all_ok (omap id args) ->
  wp (metadata_merge args) (fun r w' =>
    (exists n, w' = set_w_allocs n w) /\
    match r with
    | Some m => merged_from (omap id args) m
    | None => exists k, (k < 4)%nat /\ env_alloc (w_allocs w + k)%nat = false
    end) w.
Proof.
  intros Hok. unfold metadata_merge.
  apply wpg_bind, wpg_calloc. intros [] E0; cbn [negb].
  2:{ apply wpg_ret. split; [by eexists|]. exists 0%nat. rewrite Nat.add_0_r. split; [lia|done]. }
  apply wpg_bind, wpg_calloc. intros [] E1; cbn [negb].
  2:{ apply wpg_ret. split; [by eexists|]. exists 1%nat. rewrite Nat.add_1_r. split; [lia|done]. }
  apply wpg_bind, wpg_calloc. intros [] E2; cbn [negb].
  2:{ apply wpg_ret. split; [by eexists|]. exists 2%nat. cbn in E2.
      replace (w_allocs w + 2)%nat with (S (S (w_allocs w))) by lia. split; [lia|done]. }
  apply wpg_bind, wpg_calloc. intros [] E3; cbn [negb].
  2:{ apply wpg_ret. split; [by eexists|]. exists 3%nat. cbn in E3.
      replace (w_allocs w + 3)%nat with (S (S (S (w_allocs w)))) by lia. split; [lia|done]. }
  apply wpg_bind. unfold wpg at 1. rewrite merge_copy_ok by done.
  apply wpg_ret. split; [by eexists|]. by apply remove_dup_merged.
Qed.
End MergeProofs.

(** ** The payload layout, written and read back *)

Definition is_u32 (z : Z) : Prop := 0 <= z < 2 ^ 32.
Definition kv_u32 (e : key_value) : Prop := is_u32 (kv_key e) /\ is_u32 (kv_val e).

Definition enc32 (z : Z) : list Z :=
  [z mod 256; z / 256 mod 256; z / 256 / 256 mod 256; z / 256 / 256 / 256 mod 256].

Definition enc_kvs (l : list key_value) : list Z :=
  mjoin ((fun e => enc32 (kv_key e) ++ enc32 (kv_val e)) <$> l).

Definition enc_u32s (l : list Z) : list Z := mjoin (enc32 <$> l).

(** The layout documented at the top of metadata.c. *)
Definition encode_metadata (g c : list key_value) (pid : Z) (p : list Z) : list Z :=
  enc32 (Z.of_nat (length g)) ++ enc_kvs g ++
  enc32 (Z.of_nat (length c)) ++ enc_kvs c ++
  enc32 pid ++ enc32 (Z.of_nat (length p)) ++ enc_u32s p.

(** The values a payload can carry. *)
Definition encodable (g c : list key_value) (pid : Z) (p : list Z) : Prop :=
  Forall kv_u32 g /\ Forall kv_u32 c /\ Forall is_u32 p /\ is_u32 pid /\
  is_u32 (Z.of_nat (length g)) /\ is_u32 (Z.of_nat (length c)) /\
  is_u32 (Z.of_nat (length p)).

Definition decoded (g c : list key_value) (pid : Z) (p : list Z) : meta_data :=
  Meta (KVec (length g) (Some g)) (KVec (length c) (Some c))
    (SgProp pid (length p) (Some p)).

Section Layout.
Context `{Env}.

Lemma le32_enc32 z r : is_u32 z -> le32 (enc32 z ++ r) = z.
Proof.
  intros [Hlo Hhi]. cbn [le32 enc32 app].
  assert (z / 256 / 256 / 256 < 256) by (repeat apply Z.div_lt_upper_bound; lia).
  assert (0 <= z / 256 / 256 / 256) by (repeat apply Z.div_pos; lia).
  rewrite (Z.mod_small (z / 256 / 256 / 256)) by lia.
  pose proof (Z.div_mod z 256). pose proof (Z.div_mod (z / 256) 256).
  pose proof (Z.div_mod (z / 256 / 256) 256). lia.
Qed.

Lemma length_enc_kvs l : Z.of_nat (length (enc_kvs l)) = Z.of_nat (length l) * 8.
Proof.
  induction l as [|e l IH]; [done|].
  change (enc_kvs (e :: l)) with ((enc32 (kv_key e) ++ enc32 (kv_val e)) ++ enc_kvs l).
  rewrite length_app, Nat2Z.inj_add, IH. cbn [length enc32 app]. lia.
Qed.

Lemma length_enc_u32s l : Z.of_nat (length (enc_u32s l)) = Z.of_nat (length l) * 4.
Proof.
  induction l as [|z l IH]; [done|].
  change (enc_u32s (z :: l)) with (enc32 z ++ enc_u32s l).
  rewrite length_app, Nat2Z.inj_add, IH. cbn [length enc32]. lia.
Qed.

Lemma decode_enc_kvs l : Forall kv_u32 l -> decode_kvs (length l) (enc_kvs l) = l.
Proof.
  induction 1 as [|[k v] l [Hk Hv] _ IH]; [done|]. simpl in Hk, Hv.
  change (enc_kvs (KV k v :: l)) with ((enc32 k ++ enc32 v) ++ enc_kvs l).
  cbn [length decode_kvs]. rewrite <- app_assoc, le32_enc32 by done. f_equal.
  - f_equal. change (drop 4 (enc32 k ++ enc32 v ++ enc_kvs l)) with (enc32 v ++ enc_kvs l).
    by apply le32_enc32.
  - exact IH.
Qed.

Lemma decode_enc_u32s l : Forall is_u32 l -> decode_u32s (length l) (enc_u32s l) = l.
Proof.
  induction 1 as [|z l Hz _ IH]; [done|].
  change (enc_u32s (z :: l)) with (enc32 z ++ enc_u32s l).
  cbn [length decode_u32s]. rewrite le32_enc32 by done. f_equal. exact IH.
Qed.

Lemma read_bytes_mid pre mid post off n w :
  off = Z.of_nat (length pre) -> n = Z.of_nat (length mid) ->
  read_bytes (pre ++ mid ++ post) off n w = Ret mid w.
Proof.
  intros -> ->. unfold read_bytes. rewrite !length_app, !Nat2Z.inj_add.
  rewrite !(proj2 (Z.leb_le _ _)) by lia. cbn [andb].
  by rewrite !Nat2Z.id, drop_app_length, take_app_length.
Qed.

Lemma read_u32_mid pre z post off w :
  off = Z.of_nat (length pre) -> is_u32 z ->
  read_u32 (pre ++ enc32 z ++ post) off w = Ret z w.
Proof.
  intros Hoff Hz. unfold read_u32, bind.
  rewrite (read_bytes_mid _ _ _ _ _ _ Hoff) by done.
  unfold ret. f_equal. rewrite <- (app_nil_r (enc32 z)). by apply le32_enc32.
Qed.

Lemma read_u32_head z post w : is_u32 z -> read_u32 (enc32 z ++ post) 0 w = Ret z w.
Proof. intros Hz. by apply (read_u32_mid []). Qed.

(** Reading what was written gives it back, whatever follows it. *)
Lemma metadata_copy_encode dest size g c pid p rest w :
  encodable g c pid p ->
  (forall k, (k < 3)%nat -> env_alloc (w_allocs w + k)%nat = true) ->
  metadata_copy dest size (encode_metadata g c pid p ++ rest) w =
    Ret (0, decoded g c pid p) (set_w_allocs (3 + w_allocs w) w).
Proof.
  intros (Hg & Hc & Hp & Hpid & Hlg & Hlc & Hlp) Hal.
  pose proof (Hal 0%nat ltac:(lia)) as A0. rewrite Nat.add_0_r in A0.
  pose proof (Hal 1%nat ltac:(lia)) as A1. rewrite Nat.add_1_r in A1.
  pose proof (Hal 2%nat ltac:(lia)) as A2.
  replace (w_allocs w + 2)%nat with (S (S (w_allocs w))) in A2 by lia.
  pose proof (length_enc_kvs g) as Eg. pose proof (length_enc_kvs c) as Ec.
  pose proof (length_enc_u32s p) as Ep.
  unfold metadata_copy, encode_metadata, ptr_to_props, ptr_to_num_props, ptr_to_prop_id,
    ptr_to_ckv, ptr_to_num_ckv, ptr_to_gkv, bind at 1.
  rewrite <- !app_assoc.
  rewrite read_u32_head by done.
  unfold bind at 1, calloc at 1. rewrite A0. cbn [negb].
  unfold bind at 1. rewrite (read_bytes_mid (enc32 _) (enc_kvs g)) by (cbn [length enc32]; lia).
  assert (D : forall l1 l2 l3 l4 : list Z, l1 ++ l2 ++ l3 ++ l4 = (l1 ++ l2) ++ l3 ++ l4)
    by (intros; by rewrite app_assoc).
  rewrite D. unfold bind at 1.
  rewrite (read_u32_mid _ (Z.of_nat (length c))) by (done || (rewrite length_app; cbn [length enc32]; lia)).
  unfold bind at 1, calloc at 1. cbn [w_allocs set_w_allocs]. rewrite A1. cbn [negb].
  rewrite D. unfold bind at 1.
  rewrite (read_bytes_mid _ (enc_kvs c)) by (rewrite ?length_app; cbn [length enc32]; lia).
  rewrite D. unfold bind at 1.
  rewrite (read_u32_mid _ pid) by (done || (rewrite !length_app; cbn [length enc32]; lia)).
  rewrite D. unfold bind at 1.
  rewrite (read_u32_mid _ (Z.of_nat (length p)))
    by (done || (rewrite !length_app; cbn [length enc32]; lia)).
  unfold bind at 1, calloc at 1. cbn [w_allocs set_w_allocs]. rewrite A2. cbn [negb].
  rewrite D. unfold bind at 1.
  rewrite (read_bytes_mid _ (enc_u32s p)) by (rewrite ?length_app; cbn [length enc32]; lia).
  unfold ret, decoded.
  by rewrite !Nat2Z.id, !decode_enc_kvs, decode_enc_u32s by done.
Qed.
End Layout.

(** ** A payload that is too short *)
Section Truncated.
Context `{Env}.

Lemma read_bytes_crash buf off n w why :
  read_bytes buf off n w = Crash why -> why = OutOfBounds.
Proof. unfold read_bytes. destruct (_ && _); [done|]. by intros [= <-]. Qed.

(** On a prefix of a buffer a read crashes or gives what it gives on the
    whole buffer, and then it ends before the cut. *)
Lemma read_bytes_take n buf off k w :
  read_bytes (take n buf) off k w = Crash OutOfBounds \/
  (0 <= k /\ off + k <= Z.of_nat n /\ exists b, read_bytes (take n buf) off k w = Ret b w /\
                                      read_bytes buf off k w = Ret b w).
Proof.
  unfold read_bytes. rewrite length_take.
  destruct ((0 <=? off) && (0 <=? k)) eqn:E0; cbn [andb]; [|by left].
  apply andb_true_iff in E0 as [E0%Z.leb_le E1%Z.leb_le].
  destruct (Z.leb_spec (off + k) (Z.of_nat (n `min` length buf))); [|by left].
  right. split; [lia|]. split; [lia|]. rewrite (proj2 (Z.leb_le _ _)) by lia.
  eexists. split; [|done]. f_equal.
  rewrite !take_drop_commute, take_take. f_equal. f_equal. lia.
Qed.

Lemma read_u32_take n buf off w :
  read_u32 (take n buf) off w = Crash OutOfBounds \/
  (off + 4 <= Z.of_nat n /\ exists z, read_u32 (take n buf) off w = Ret z w /\
                                      read_u32 buf off w = Ret z w).
Proof.
  unfold read_u32, bind.
  destruct (read_bytes_take n buf off 4 w) as [->|(_ & Hle & b & -> & ->)]; [by left|].
  right. split; [done|]. by eexists.
Qed.

Ltac decompose_cut H :=
  lazymatch type of H with
  | _ /\ _ => let H' := fresh "Hcut" in destruct H as [? H']; decompose_cut H'
  | ex _ => let H1 := fresh in let H2 := fresh in
            destruct H as (? & H1 & H2); rewrite H1, H2; clear H1 H2
  end.
Ltac cut_step L :=
  destruct L as [->|Hcut]; [by left|];
  decompose_cut Hcut.

Lemma metadata_copy_take dest size buf n w :
  (forall k, (k < 3)%nat -> env_alloc (w_allocs w + k)%nat = true) ->
  metadata_copy dest size (take n buf) w = Crash OutOfBounds \/
  exists ng nc np m w',
    metadata_copy dest size buf w = Ret (0, m) w' /\
    num_kvs (gkv m) = Z.to_nat ng /\ num_kvs (ckv m) = Z.to_nat nc /\
    num_values (sg_props m) = Z.to_nat np /\
    0 <= ng /\ 0 <= nc /\ 0 <= np /\
    16 + 8 * ng + 8 * nc + 4 * np <= Z.of_nat n.
Proof.
  intros Hal.
  pose proof (Hal 0%nat ltac:(lia)) as A0. rewrite Nat.add_0_r in A0.
  pose proof (Hal 1%nat ltac:(lia)) as A1. rewrite Nat.add_1_r in A1.
  pose proof (Hal 2%nat ltac:(lia)) as A2.
  replace (w_allocs w + 2)%nat with (S (S (w_allocs w))) in A2 by lia.
  unfold metadata_copy, ptr_to_props, ptr_to_num_props, ptr_to_prop_id,
    ptr_to_ckv, ptr_to_num_ckv, ptr_to_gkv, bind.
  cut_step (read_u32_take n buf 0 w).
  unfold calloc at 1 4. rewrite A0. cbn [negb].
  match goal with |- context [read_bytes (take n buf) 4 (?z * 8) ?w1] =>
    cut_step (read_bytes_take n buf 4 (z * 8) w1) end.
  match goal with |- context [read_u32 (take n buf) ?o ?w1] =>
    cut_step (read_u32_take n buf o w1) end.
  unfold calloc at 1 3. cbn [w_allocs set_w_allocs]. rewrite A1. cbn [negb].
  match goal with |- context [read_bytes (take n buf) ?o ?k ?w1] =>
    cut_step (read_bytes_take n buf o k w1) end.
  match goal with |- context [read_u32 (take n buf) ?o ?w1] =>
    cut_step (read_u32_take n buf o w1) end.
  match goal with |- context [read_u32 (take n buf) ?o ?w1] =>
    cut_step (read_u32_take n buf o w1) end.
  unfold calloc. cbn [w_allocs set_w_allocs]. rewrite A2. cbn [negb].
  match goal with |- context [read_bytes (take n buf) ?o ?k ?w1] =>
    cut_step (read_bytes_take n buf o k w1) end.
  right. do 5 eexists. split_and!; try reflexivity; lia.
Qed.
End Truncated.

(** ** Calibration updates *)

(** The value [metadata_update_cal] leaves for an entry: that of the last
    entry of the argument with the same key, its own when there is none. *)
Definition cal_value (upd : list key_value) (e : key_value) : Z :=
  default (kv_val e) (kv_val <$> last (List.filter (has_key kv_key (kv_key e)) upd)).

Lemma update_entry_spec upd e :
  update_entry upd e = KV (kv_key e) (cal_value upd e).
Proof.
  unfold update_entry, cal_value. revert e. induction upd as [|u upd IH]; intros [k v]; [done|].
  cbn [fold_left kv_key List.filter]. rewrite IH. change (has_key kv_key k u) with (kv_key u =? k).
  rewrite (Z.eqb_sym (kv_key u) k). destruct (k =? kv_key u); [|done].
  rewrite last_cons. unfold set_kv_val. cbn [kv_key kv_val].
  by destruct (last _).
Qed.

Lemma fmap_update_entry_keys upd (l : list key_value) : kv_key <$> (update_entry upd <$> l) = kv_key <$> l.
Proof. rewrite <- list_fmap_compose. apply list_fmap_ext. intros i e _. simpl. by rewrite update_entry_spec. Qed.

Section Properties.
Context `{Env}.

Lemma run_metadata_update_cal upd m w : meta_ok m = true ->
  exists m', metadata_update_cal upd m w = Ret m' w /\ meta_ok m' = true /\
    gkv m' = gkv m /\ sg_props m' = sg_props m /\
    kvs (ckv m') = update_entry upd <$> kvs (ckv m).
Proof.
  intros Hok. pose proof (meta_ok_inv _ Hok) as (Hg & Hc & Hp).
  unfold metadata_update_cal. destruct m as [g [n a] p]. cbn in *.
  assert (Hid : forall l : list key_value, update_entry [] <$> l = l).
  { intros l. rewrite <- (list_fmap_id l) at 2. apply list_fmap_ext. intros i [k v] _.
    by rewrite update_entry_spec. }
  destruct n as [|n]; [by eexists; split_and!|].
  destruct upd as [|u upd]; [by eexists; split_and!; rewrite ?Hid|].
  destruct a as [l|]; cbn in Hc; [|discriminate Hc]. cbn [the].
  pose proof (bool_decide_eq_true_1 _ Hc) as Hl. rewrite bind_ret_l. rewrite Hc.
  eexists. split_and!; [reflexivity| |done|done|].
  - unfold meta_ok. cbn [gkv ckv sg_props set_ckv num_kvs kv].
    rewrite Hg, Hp. cbn [andb]. rewrite andb_true_r. apply bool_decide_eq_true_2.
    rewrite length_app, length_fmap, length_take, length_drop. lia.
  - unfold kvs, live. cbn [ckv set_ckv num_kvs kv from_option]; unfold id.
    rewrite take_app_le by (rewrite length_fmap, length_take; lia).
    apply take_ge. rewrite length_fmap, length_take. lia.
Qed.

(** C20: a merge never crashes on well-formed metadata, returns NULL only when
    one of its four allocations fails, and otherwise returns exactly the
    first occurrence of every graph key, calibration key and property of its
    arguments, in their order, with the property id of the last argument. *)
Theorem metadata_merge_correct args w : all_ok (omap id args) ->
  wp (metadata_merge args) (fun r w' =>
    (exists n, w' = set_w_allocs n w) /\
    match r with
    | Some m => merged_from (omap id args) m
    | None => exists k, (k < 4)%nat /\ env_alloc (w_allocs w + k)%nat = false
    end) w.
Proof. apply wp_metadata_merge. Qed.

(** In merged metadata no graph or calibration key occurs twice, and the
    value of a key is the one of the first argument that has it: session
    metadata wins over session-interface metadata, which wins over the
    device's. *)
Theorem metadata_merge_precedence args w m w' : all_ok (omap id args) ->
  metadata_merge args w = Ret (Some m) w' ->
  NoDup (kv_key <$> kvs (gkv m)) /\ NoDup (kv_key <$> kvs (ckv m)) /\
  (forall k, List.find (has_key kv_key k) (kvs (gkv m)) =
     List.find (has_key kv_key k) (mjoin (kvs ∘ gkv <$> omap id args))) /\
  (forall k, List.find (has_key kv_key k) (kvs (ckv m)) =
     List.find (has_key kv_key k) (mjoin (kvs ∘ ckv <$> omap id args))).
Proof.
  intros Hok Hrun. pose proof (wp_metadata_merge args w Hok) as Hwp.
  apply wp_wlp in Hwp. apply (wlp_run _ _ _ _ _ Hwp) in Hrun as [_ [Hg Hc _ _ _]].
  rewrite Hg, Hc. split_and!; try apply keep_first_NoDup; intros k;
    by rewrite find_keep_first.
Qed.

(** C21: [metadata_copy] reads back exactly what the documented payload layout
    writes, whatever the previous content of the destination, the [size]
    argument and the bytes after the payload. *)
Theorem metadata_copy_roundtrip dest size g c pid p rest w :
  encodable g c pid p ->
  (forall k, (k < 3)%nat -> env_alloc (w_allocs w + k)%nat = true) ->
  metadata_copy dest size (encode_metadata g c pid p ++ rest) w =
    Ret (0, decoded g c pid p) (set_w_allocs (3 + w_allocs w) w).
Proof. apply metadata_copy_encode. Qed.

(** On any proper prefix of a payload [metadata_copy] reads out of the
    bounds of the client's buffer, even when [size] gives its true length:
    the argument is never consulted. *)
Theorem metadata_copy_overread dest g c pid p n w :
  encodable g c pid p ->
  (forall k, (k < 3)%nat -> env_alloc (w_allocs w + k)%nat = true) ->
  (n < length (encode_metadata g c pid p))%nat ->
  metadata_copy dest (Z.of_nat n) (take n (encode_metadata g c pid p)) w =
    Crash OutOfBounds.
Proof.
  intros Henc Hal Hn.
  destruct (metadata_copy_take dest (Z.of_nat n) (encode_metadata g c pid p) n w Hal)
    as [|(ng & nc & np & m & w' & Hrun & Eg & Ec & Ep & ? & ? & ? & Hle)]; [done|].
  pose proof (metadata_copy_encode dest (Z.of_nat n) g c pid p [] w Henc Hal) as Hfull.
  rewrite app_nil_r in Hfull. rewrite Hfull in Hrun. injection Hrun as <- <-.
  cbn in Eg, Ec, Ep.
  assert (Z.of_nat (length (encode_metadata g c pid p)) =
    16 + 8 * Z.of_nat (length g) + 8 * Z.of_nat (length c) + 4 * Z.of_nat (length p)).
  { unfold encode_metadata. rewrite !length_app, !Nat2Z.inj_add, !length_enc_kvs, length_enc_u32s.
    cbn [length enc32]. lia. }
  lia.
Qed.

(** A calibration update changes no key, no graph key and no property; the
    value of each calibration entry becomes the one of the last entry of the
    client's vector with that key, and stays when there is none. *)
Theorem metadata_update_cal_correct upd m w : meta_ok m = true ->
  exists m', metadata_update_cal upd m w = Ret m' w /\ meta_ok m' = true /\
    gkv m' = gkv m /\ sg_props m' = sg_props m /\
    kvs (ckv m') = (fun e => KV (kv_key e) (cal_value upd e)) <$> kvs (ckv m).
Proof.
  intros Hok. destruct (run_metadata_update_cal upd m w Hok) as (m' & E & O & G & P & C).
  exists m'. split_and!; try done. rewrite C. apply list_fmap_ext.
  intros i e _. apply update_entry_spec.
Qed.
End Properties.

(** ** The theorems at concrete inputs *)
Definition demo_meta (k v p : Z) : meta_data :=
  Meta (KVec 1 (Some [KV k v])) (KVec 1 (Some [KV 7 v])) (SgProp 9 1 (Some [p])).


Lemma metadata_merge_correct_witness :
  exists m w',
    metadata_merge (H:=ok_env) [Some (demo_meta 1 2 3); None; Some (demo_meta 1 4 5)] empty_world
      = Ret (Some m) w' /\ kvs (gkv m) = [KV 1 2].
Proof.
  pose proof (metadata_merge_correct (H:=ok_env)
    [Some (demo_meta 1 2 3); None; Some (demo_meta 1 4 5)] empty_world
    ltac:(repeat constructor)) as Hwp.
  apply wp_run in Hwp as ([m|] & w' & Hrun & _ & Hm).
  - exists m, w'. split; [exact Hrun|]. rewrite (merged_gkv _ _ Hm). reflexivity.
  - destruct Hm as (k & _ & Hk). discriminate Hk.
Defined.

Lemma metadata_merge_precedence_witness :
  exists m w', metadata_merge (H:=ok_env) [Some (demo_meta 1 2 3); Some (demo_meta 1 4 5)]
                 empty_world = Ret (Some m) w' /\
    List.find (has_key kv_key 1) (kvs (gkv m)) = Some (KV 1 2).
Proof.
  exists_run (metadata_merge (H:=ok_env) [Some (demo_meta 1 2 3); Some (demo_meta 1 4 5)] empty_world).
  split; [vm_compute; reflexivity|].
  rewrite (proj1 (proj2 (proj2 (metadata_merge_precedence (H:=ok_env)
    [Some (demo_meta 1 2 3); Some (demo_meta 1 4 5)] empty_world _ _
    ltac:(repeat constructor) ltac:(vm_compute; reflexivity))))).
  reflexivity.
Defined.

Lemma demo_encodable : encodable [KV 1 2] [KV 3 4] 5 [6; 7].
Proof. unfold encodable, kv_u32, is_u32. split_and!; repeat constructor; simpl; lia. Qed.

Lemma metadata_copy_roundtrip_witness :
  metadata_copy (H:=ok_env) meta_zero 0 (encode_metadata [KV 1 2] [KV 3 4] 5 [6; 7] ++ [255])
    empty_world = Ret (0, decoded [KV 1 2] [KV 3 4] 5 [6; 7]) (set_w_allocs 3 empty_world).
Proof. apply (metadata_copy_roundtrip (H:=ok_env)); [apply demo_encodable | done]. Defined.

Lemma metadata_copy_overread_witness :
  metadata_copy (H:=ok_env) meta_zero 39 (take 39 (encode_metadata [KV 1 2] [KV 3 4] 5 [6; 7]))
    empty_world = Crash OutOfBounds.
Proof.
  apply (metadata_copy_overread (H:=ok_env) meta_zero _ _ _ _ 39);
    [apply demo_encodable | done | vm_compute; lia].
Defined.

Lemma metadata_update_cal_correct_witness :
  exists m', metadata_update_cal [KV 7 42] (demo_meta 1 2 3) empty_world = Ret m' empty_world /\
    kvs (ckv m') = [KV 7 42].
Proof.
  destruct (metadata_update_cal_correct [KV 7 42] (demo_meta 1 2 3) empty_world eq_refl)
    as (m' & E & _ & _ & _ & C).
  exists m'. split; [exact E | rewrite C; reflexivity].
Defined.
