(* ===== verification/Utils.v ===== *)
(** * Error codes of the OSAL layer (service/src/utils.c) *)

From S2P Require Export Machine Concrete.
Open Scope Z_scope.
#[export] Set Default Goal Selector "!".

Section Utils.
Context `{Consts}.

(** [#define AR_ERR_MAX AR_ETIMEOUT + 1] *)
Definition AR_ERR_MAX : Z := AR_ETIMEOUT + 1.

(** [ar_err_code_info]: the initialisers of the table, in order. *)
Definition ar_err_code_info : list (Z * string) := [
  (0, "AR_EOK"); (- ENOTRECOVERABLE, "AR_EFAILED"); (- EINVAL, "AR_EBADPARAM");
  (- EOPNOTSUPP, "AR_EUNSUPPORTED"); (- ENOPROTOOPT, "AR_EVERSION");
  (- ENOTRECOVERABLE, "AR_EUNEXPECTED"); (- ENOTRECOVERABLE, "AR_EPANIC");
  (- ENOSPC, "AR_ENORESOURCE"); (- EBADR, "AR_EHANDLE"); (- EALREADY, "AR_EALREADY");
  (- EPERM, "AR_ENOTREADY"); (- EINPROGRESS, "AR_EPENDING"); (- EBUSY, "AR_EBUSY");
  (- ECANCELED, "AR_EABORTED"); (- EAGAIN, "AR_ECONTINUE"); (- EAGAIN, "AR_EIMMEDIATE");
  (- EAGAIN, "AR_ENOTIMPL"); (- ENODATA, "AR_ENEEDMORE"); (- ENOMEM, "AR_ENOMEMORY");
  (- ENODEV, "AR_ENOTEXIST"); (- ENODEV, "AR_ETERMINATED"); (- ETIMEDOUT, "AR_ETIMEOUT");
  (- EADV, "AR_ERR_MAX") ]%string.

(** An entry of the array [ar_err_code_info[AR_ERR_MAX+1]]: its initialiser,
    or the zeros C fills the rest of the array with. *)
Definition ar_err_entry (error : Z) : Z * string :=
  default (0, EmptyString) (ar_err_code_info !! Z.to_nat error).

(** The parameter is a [uint32_t]; callers pass an [int]. *)
Definition ar_err_get_lnx_err_code (error : Z) : Z :=
  if AR_ERR_MAX <? u32 error then fst (ar_err_entry AR_ERR_MAX)
  else fst (ar_err_entry (u32 error)).

Definition ar_err_get_err_str (error : Z) : string :=
  if AR_ERR_MAX <? u32 error then snd (ar_err_entry AR_ERR_MAX)
  else snd (ar_err_entry (u32 error)).

(** [if (ret != 0) ret = ar_err_get_lnx_err_code(ret);] *)
Definition lnx_err (ret : Z) : Z := if nz ret then ar_err_get_lnx_err_code ret else ret.

(** ** Properties *)

(** The table matches the osal header when AR_ETIMEOUT is its entry 21. *)
Lemma ar_err_in_table error : AR_ETIMEOUT = 21 ->
  exists i, (i < 23)%nat /\ ar_err_get_lnx_err_code error = fst (ar_err_entry (Z.of_nat i)) /\
    (i = 0%nat <-> u32 error = 0).
Proof.
  intros Hmax. unfold ar_err_get_lnx_err_code, AR_ERR_MAX. rewrite Hmax.
  pose proof (u32_range error). destruct (Z.ltb_spec (21 + 1) (u32 error)).
  - exists 22%nat. split_and!; [lia|done|lia].
  - exists (Z.to_nat (u32 error)). split_and!; [lia| |lia].
    by rewrite Z2Nat.id by lia.
Qed.

Lemma ar_err_entry_cases (P : nat -> Z -> Prop) :
  P 0%nat 0 -> (forall i e, (0 < i)%nat -> -131 <= e <= -1 -> P i e) ->
  forall i, (i < 23)%nat -> P i (fst (ar_err_entry (Z.of_nat i))).
Proof.
  intros H0 HS i Hi.
  do 23 (destruct i as [|i]; [first [exact H0 | apply HS; [lia | vm_compute; split; discriminate]]|]).
  lia.
Qed.

Lemma lnx_err_code_range error : AR_ETIMEOUT = 21 ->
  -131 <= ar_err_get_lnx_err_code error <= 0.
Proof.
  intros (i & Hi & -> & _)%(ar_err_in_table error). revert i Hi.
  apply (ar_err_entry_cases (fun _ e => -131 <= e <= 0)); intros; lia.
Qed.

Lemma lnx_err_code_zero error : AR_ETIMEOUT = 21 ->
  ar_err_get_lnx_err_code error = 0 <-> u32 error = 0.
Proof.
  intros (i & Hi & -> & <-)%(ar_err_in_table error). revert i Hi.
  apply (ar_err_entry_cases (fun i e => e = 0 <-> i = 0%nat)); [done|]. intros; lia.
Qed.

Lemma lnx_err_code_0 : AR_ETIMEOUT = 21 -> ar_err_get_lnx_err_code 0 = 0.
Proof. intros Hm. by apply lnx_err_code_zero. Qed.

(** On the [int] a GSL function returned, the conversion keeps success and
    failure apart. *)
Lemma lnx_err_zero a : AR_ETIMEOUT = 21 -> lnx_err (s32 a) = 0 <-> s32 a = 0.
Proof.
  intros Hm. unfold lnx_err. destruct (nz (s32 a)) eqn:E; bool_hyps; [|lia].
  rewrite lnx_err_code_zero by done. rewrite u32_s32. pose proof (s32_zero a). lia.
Qed.

Lemma lnx_err_range a : AR_ETIMEOUT = 21 -> -131 <= lnx_err (s32 a) <= 0.
Proof.
  intros Hm. unfold lnx_err. destruct (nz (s32 a)) eqn:E; bool_hyps; [|lia].
  by apply lnx_err_code_range.
Qed.

Lemma lnx_err_nz a : AR_ETIMEOUT = 21 -> s32 a <> 0 -> ar_err_get_lnx_err_code (s32 a) <> 0.
Proof.
  intros Hm Ha E. apply lnx_err_code_zero in E; [|done]. rewrite u32_s32 in E.
  by apply Ha, s32_zero.
Qed.

Lemma lnx_err_0 : lnx_err 0 = 0.
Proof. done. Qed.

(** Every 32-bit OSAL status converts to zero or to a negative error
    number of at most 131 in absolute value, and to zero exactly when it is
    AR_EOK: success is never reported for a failure, nor the reverse. *)
Theorem ar_err_conversion_sound error : AR_ETIMEOUT = 21 ->
  -131 <= ar_err_get_lnx_err_code error <= 0 /\
  (ar_err_get_lnx_err_code error = 0 <-> u32 error = 0).
Proof. intros Hm. split; [by apply lnx_err_code_range | by apply lnx_err_code_zero]. Qed.

(** Converting an error a second time, as [get_tags_with_module_info]
    does, gives -EADV for every failure: the first conversion is negative and
    is read back as a large unsigned status. *)
Theorem ar_err_converted_twice error : AR_ETIMEOUT = 21 ->
  u32 error <> 0 ->
  ar_err_get_lnx_err_code (ar_err_get_lnx_err_code error) = - EADV.
Proof.
  intros Hm Hne. pose proof (lnx_err_code_range error Hm) as Hr.
  pose proof (lnx_err_code_zero error Hm) as Hz.
  assert (Hneg : ar_err_get_lnx_err_code error < 0) by lia.
  generalize dependent (ar_err_get_lnx_err_code error). intros e Hr Hz Hneg.
  unfold ar_err_get_lnx_err_code, AR_ERR_MAX. rewrite Hm.
  assert (u32 e = e + 2 ^ 32) as ->.
  { unfold u32. rewrite <- (Z.mod_add e 1) by lia. apply Z.mod_small. lia. }
  rewrite (proj2 (Z.ltb_lt _ _)) by lia. reflexivity.
Qed.
End Utils.

Lemma ar_err_conversion_sound_witness :
  ar_err_get_lnx_err_code (H:=demo_consts) 2 = - EINVAL /\
  -131 <= ar_err_get_lnx_err_code (H:=demo_consts) 2 <= 0.
Proof. split; [reflexivity | apply (ar_err_conversion_sound (H:=demo_consts) 2 eq_refl)]. Defined.

Lemma ar_err_converted_twice_witness :
  ar_err_get_lnx_err_code (H:=demo_consts) (ar_err_get_lnx_err_code (H:=demo_consts) 18) = - EADV.
Proof. apply (ar_err_converted_twice (H:=demo_consts) 18 eq_refl). discriminate. Defined.
