(* ===== verification/HwEp.v ===== *)
(** * Hardware end-point names (service/src/device_hw_ep.c)

    A back end is named [<interface>-<lpaif>-<direction>-<index>] (or the
    shorter slimbus, display-port, USB and proxy forms); the functions here
    fill [hw_ep_info_t] from the name.  A C string is a [string]; the
    functions that write through a pointer return the new value next to their
    return code, also when they fail. *)

From S2P Require Export CString Machine Concrete.
Open Scope Z_scope.
#[export] Set Default Goal Selector "!".

(** ** The string functions the parser uses *)

(** At most [n] leading characters that satisfy [p], and the rest. *)
Fixpoint span_n (n : nat) (p : ascii -> bool) (s : string) : string * string :=
  match n, s with
  | S n', String c s' =>
      if p c then let '(t, r) := span_n n' p s' in (String c t, r) else (EmptyString, s)
  | _, _ => (EmptyString, s)
  end.

(** [sscanf(src, "%20[^-]-%60s", arg, value)]: the new [arg] and [value].  A
    conversion that fails leaves its variable as it was.  The callers that
    parse the tail pass [value] as the source too; its new content is then
    written behind the position that is read. *)
Definition sscanf_dash (src arg value : string) : string * string :=
  let '(tok, rest) := span_n 20 (fun c => negb (Ascii.eqb c dash)) src in
  match tok, rest with
  | EmptyString, _ => (arg, value)
  | _, String c r =>
      if Ascii.eqb c dash then
        let '(word, _) := span_n 60 (fun c => negb (is_space c)) (skip_spaces r) in
        match word with
        | EmptyString => (tok, value)
        | _ => (tok, word)
        end
      else (tok, value)
  | _, EmptyString => (tok, value)
  end.

(** ** The parser *)
Section HwEp.
Context `{Consts}.

Definition CODEC_RX0 := 1.
Definition CODEC_RX1 := 2.
Definition CODEC_RX2 := 3.
Definition CODEC_RX3 := 4.
Definition CODEC_RX4 := 5.

Definition PCM_INTF_IDX_PRIMARY := 0.
Definition PCM_INTF_IDX_SECONDARY := 1.
Definition PCM_INTF_IDX_TERTIARY := 2.
Definition PCM_INTF_IDX_QUATERNARY := 3.
Definition PCM_INTF_IDX_QUINARY := 4.

Definition SLIMBUS_DEVICE_1 := 0.
Definition SLIMBUS_DEVICE_2 := 1.

Definition populate_hw_ep_intf_idx (hw : hw_ep_info) (intf_idx : string) : Z * hw_ep_info :=
  let set v := (0, set_ep_word1 v hw) in
  if ep_intf hw =? CODEC_DMA then
    if intf_idx =s? "0" then set CODEC_RX0
    else if intf_idx =s? "1" then set CODEC_RX1
    else if intf_idx =s? "2" then set CODEC_RX2
    else if intf_idx =s? "3" then set CODEC_RX3
    else if intf_idx =s? "4" then set CODEC_RX4
    else (- EINVAL, hw)
  else if (ep_intf hw =? MI2S) || (ep_intf hw =? TDM) || (ep_intf hw =? AUXPCM) then
    if intf_idx =s? "PRIMARY" then set PCM_INTF_IDX_PRIMARY
    else if intf_idx =s? "SECONDARY" then set PCM_INTF_IDX_SECONDARY
    else if intf_idx =s? "TERTIARY" then set PCM_INTF_IDX_TERTIARY
    else if intf_idx =s? "QUATERNARY" then set PCM_INTF_IDX_QUATERNARY
    else if intf_idx =s? "QUINARY" then set PCM_INTF_IDX_QUINARY
    else (- EINVAL, hw)
  else (- EINVAL, hw).

Definition populate_hw_ep_intf (hw : hw_ep_info) (intf : string) : Z * hw_ep_info :=
  let set v := (0, set_ep_intf v hw) in
  if intf =s? "SLIM" then set SLIMBUS
  else if intf =s? "DISPLAY_PORT" then set DISPLAY_PORT
  else if intf =s? "USB_AUDIO" then set USB_AUDIO
  else if intf =s? "CODEC_DMA" then set CODEC_DMA
  else if intf =s? "MI2S" then set MI2S
  else if intf =s? "TDM" then set TDM
  else if intf =s? "AUXPCM" then set AUXPCM
  else if intf =s? "PCM_RT_PROXY" then set PCM_RT_PROXY
  else (- EINVAL, hw).

Definition populate_hw_ep_direction (hw : hw_ep_info) (dir : string) : Z * hw_ep_info :=
  if dir =s? "RX" then (0, set_ep_dir AUDIO_OUTPUT hw)
  else if dir =s? "TX" then (0, set_ep_dir AUDIO_INPUT hw)
  else (- EINVAL, hw).

Definition populate_pcm_rt_proxy_ep_info (hw : hw_ep_info) (value : string) : Z * hw_ep_info :=
  let '(arg, value) := sscanf_dash value EmptyString value in
  let '(ret, hw) := populate_hw_ep_direction hw arg in
  if nz ret then (ret, hw) else
  let '(arg, _) := sscanf_dash value arg value in
  (ret, set_ep_word0 (u32 (atoi arg)) hw).

Definition populate_slim_dp_usb_ep_info (hw : hw_ep_info) (value : string) : Z * hw_ep_info :=
  let direction hw value arg :=
    let '(arg, _) := sscanf_dash value arg value in populate_hw_ep_direction hw arg in
  if ep_intf hw =? SLIMBUS then
    let '(arg, value) := sscanf_dash value EmptyString value in
    if arg =s? "DEV1" then direction (set_ep_word0 SLIMBUS_DEVICE_1 hw) value arg
    else if arg =s? "DEV2" then direction (set_ep_word0 SLIMBUS_DEVICE_2 hw) value arg
    else (- EINVAL, hw)
  else direction hw value EmptyString.

Definition populate_cdc_dma_i2s_tdm_pcm_ep_info (hw : hw_ep_info) (value : string)
  : Z * hw_ep_info :=
  let '(lpaif_type, value) := sscanf_dash value EmptyString value in
  let '(dir, value) := sscanf_dash value lpaif_type value in
  let '(intf_idx, _) := sscanf_dash value dir value in
  let rest hw :=
    let '(ret, hw) := populate_hw_ep_direction hw dir in
    if nz ret then (ret, hw) else populate_hw_ep_intf_idx hw intf_idx in
  if lpaif_type =s? "LPAIF" then rest (set_ep_word0 LPAIF hw)
  else if lpaif_type =s? "LPAIF_RXTX" then rest (set_ep_word0 LPAIF_RXTX hw)
  else if lpaif_type =s? "LPAIF_WSA" then rest (set_ep_word0 LPAIF_WSA hw)
  else if lpaif_type =s? "LPAIF_VA" then rest (set_ep_word0 LPAIF_VA hw)
  else if lpaif_type =s? "LPAIF_AXI" then rest (set_ep_word0 LPAIF_AXI hw)
  else (- EINVAL, hw).

(** On the name and the end-point fields of the device object. *)
Definition populate_device_hw_ep_info (name : string) (hw : hw_ep_info) : Z * hw_ep_info :=
  let '(intf, value) := sscanf_dash name EmptyString EmptyString in
  let '(ret, hw) := populate_hw_ep_intf hw intf in
  if nz ret then (ret, hw) else
  let i := ep_intf hw in
  if (i =? CODEC_DMA) || (i =? MI2S) || (i =? TDM) || (i =? AUXPCM)
  then populate_cdc_dma_i2s_tdm_pcm_ep_info hw value
  else if (i =? SLIMBUS) || (i =? DISPLAY_PORT) || (i =? USB_AUDIO)
  then populate_slim_dp_usb_ep_info hw value
  else if i =? PCM_RT_PROXY then populate_pcm_rt_proxy_ep_info hw value
  else (- EINVAL, hw).
End HwEp.

(** ** Names and their meaning *)

Inductive cdc_intf := CdcDma | CdcMi2s | CdcTdm | CdcAuxpcm.
Inductive lpaif := L_LPAIF | L_RXTX | L_WSA | L_VA | L_AXI.
Inductive ep_direction := DirRx | DirTx.
Inductive slot := Slot0 | Slot1 | Slot2 | Slot3 | Slot4.

(** The back ends whose names the parser takes; device.h spells the device ids of
    slimbus differently in its example. *)
Inductive endpoint : Type :=
  | EpCdc (i : cdc_intf) (l : lpaif) (d : ep_direction) (s : slot)
  | EpSlim (second : bool) (d : ep_direction) (s : slot)
  | EpDisplayPort (d : ep_direction) (s : slot)
  | EpUsb (d : ep_direction) (s : slot)
  | EpProxy (d : ep_direction) (s : slot).

Definition dir_name (d : ep_direction) : string :=
  match d with DirRx => "RX" | DirTx => "TX" end%string.
Definition slot_digit (s : slot) : string :=
  match s with Slot0 => "0" | Slot1 => "1" | Slot2 => "2" | Slot3 => "3" | Slot4 => "4" end%string.
Definition slot_word (s : slot) : string :=
  match s with Slot0 => "PRIMARY" | Slot1 => "SECONDARY" | Slot2 => "TERTIARY"
             | Slot3 => "QUATERNARY" | Slot4 => "QUINARY" end%string.
Definition slot_num (s : slot) : Z :=
  match s with Slot0 => 0 | Slot1 => 1 | Slot2 => 2 | Slot3 => 3 | Slot4 => 4 end.
Definition lpaif_name (l : lpaif) : string :=
  match l with L_LPAIF => "LPAIF" | L_RXTX => "LPAIF_RXTX" | L_WSA => "LPAIF_WSA"
             | L_VA => "LPAIF_VA" | L_AXI => "LPAIF_AXI" end%string.
Definition cdc_name (i : cdc_intf) : string :=
  match i with CdcDma => "CODEC_DMA" | CdcMi2s => "MI2S" | CdcTdm => "TDM"
             | CdcAuxpcm => "AUXPCM" end%string.

Definition join (l : list string) : string := String.concat "-" l.

Definition endpoint_name (e : endpoint) : string :=
  match e with
  | EpCdc CdcDma l d s => join ["CODEC_DMA"%string; lpaif_name l; dir_name d; slot_digit s]
  | EpCdc i l d s => join [cdc_name i; lpaif_name l; dir_name d; slot_word s]
  | EpSlim b d s =>
      join ["SLIM"%string; (if b then "DEV2" else "DEV1")%string; dir_name d; slot_digit s]
  | EpDisplayPort d s => join ["DISPLAY_PORT"%string; dir_name d; slot_digit s]
  | EpUsb d s => join ["USB_AUDIO"%string; dir_name d; slot_digit s]
  | EpProxy d s => join ["PCM_RT_PROXY"%string; dir_name d; slot_digit s]
  end.

Section Meaning.
Context `{Consts}.

Definition dir_val (d : ep_direction) : Z :=
  match d with DirRx => AUDIO_OUTPUT | DirTx => AUDIO_INPUT end.
Definition lpaif_val (l : lpaif) : Z :=
  match l with L_LPAIF => LPAIF | L_RXTX => LPAIF_RXTX | L_WSA => LPAIF_WSA
             | L_VA => LPAIF_VA | L_AXI => LPAIF_AXI end.

(** The end-point information a name stands for; the words a form does not
    use keep their previous content. *)
Definition endpoint_info (old : hw_ep_info) (e : endpoint) : hw_ep_info :=
  match e with
  | EpCdc CdcDma l d s => HwEpInfo CODEC_DMA (dir_val d) (lpaif_val l) (slot_num s + 1)
  | EpCdc CdcMi2s l d s => HwEpInfo MI2S (dir_val d) (lpaif_val l) (slot_num s)
  | EpCdc CdcTdm l d s => HwEpInfo TDM (dir_val d) (lpaif_val l) (slot_num s)
  | EpCdc CdcAuxpcm l d s => HwEpInfo AUXPCM (dir_val d) (lpaif_val l) (slot_num s)
  | EpSlim b d _ => HwEpInfo SLIMBUS (dir_val d) (if b then 1 else 0) (ep_word1 old)
  | EpDisplayPort d _ => HwEpInfo DISPLAY_PORT (dir_val d) (ep_word0 old) (ep_word1 old)
  | EpUsb d _ => HwEpInfo USB_AUDIO (dir_val d) (ep_word0 old) (ep_word1 old)
  | EpProxy d s => HwEpInfo PCM_RT_PROXY (dir_val d) (slot_num s) (ep_word1 old)
  end.

(** What a successful parse guarantees of [hw_ep_info_t]. *)
Definition ep_ok (hw : hw_ep_info) : Prop :=
  (ep_dir hw = AUDIO_OUTPUT \/ ep_dir hw = AUDIO_INPUT) /\
  (ep_intf hw = CODEC_DMA /\ 1 <= ep_intf_idx hw <= 5 \/
   (ep_intf hw = MI2S \/ ep_intf hw = TDM \/ ep_intf hw = AUXPCM) /\
     0 <= ep_intf_idx hw <= 4 \/
   ep_intf hw = SLIMBUS /\ 0 <= ep_dev_id hw <= 1 \/
   ep_intf hw = DISPLAY_PORT \/ ep_intf hw = USB_AUDIO \/ ep_intf hw = PCM_RT_PROXY).

(** C22: every name spelt with the parser's own words (interface, LPAIF type or
    DEV1/DEV2, direction, slot) parses, to exactly the interface, direction, LPAIF
    type and index (or device id) it spells.  The slimbus name device.h gives as its
    example, SLIM-DEVICE_1-TX-0, is not spelt so: it is refused. *)
Theorem endpoint_name_roundtrip (old : hw_ep_info) (e : endpoint) :
  populate_device_hw_ep_info (endpoint_name e) old = (0, endpoint_info old e) /\
  populate_device_hw_ep_info "SLIM-DEVICE_1-TX-0" old = (- EINVAL, set_ep_intf SLIMBUS old).
Proof.
  split; [|by destruct old].
  destruct e as [i l d s|b d s|d s|d s|d s];
    [destruct i, l, d, s | destruct b, d, s | destruct d, s | destruct d, s | destruct d, s];
    reflexivity.
Qed.

Ltac split_tests :=
  repeat (match goal with
          | |- context [if ?b then _ else _] =>
              lazymatch b with
              | nz _ => fail
              | _ => destruct b eqn:?
              end
          end; cbn [fst snd nz negb Z.eqb]).

Lemma direction_cases hw dir :
  populate_hw_ep_direction hw dir = (- EINVAL, hw) \/
  exists v, (v = AUDIO_OUTPUT \/ v = AUDIO_INPUT) /\
    populate_hw_ep_direction hw dir = (0, set_ep_dir v hw).
Proof. unfold populate_hw_ep_direction. split_tests; eauto 6. Qed.

Lemma intf_cases hw intf :
  populate_hw_ep_intf hw intf = (- EINVAL, hw) \/
  exists v, 0 <= v <= 7 /\ populate_hw_ep_intf hw intf = (0, set_ep_intf v hw).
Proof.
  unfold populate_hw_ep_intf. split_tests; try (by left); right;
    (eexists; split; [|reflexivity]); vm_compute; split; discriminate.
Qed.

Lemma intf_idx_cases hw idx :
  populate_hw_ep_intf_idx hw idx = (- EINVAL, hw) \/
  exists v, populate_hw_ep_intf_idx hw idx = (0, set_ep_word1 v hw) /\
    (ep_intf hw = CODEC_DMA /\ 1 <= v <= 5 \/
     (ep_intf hw = MI2S \/ ep_intf hw = TDM \/ ep_intf hw = AUXPCM) /\ 0 <= v <= 4).
Proof.
  unfold populate_hw_ep_intf_idx.
  destruct (Z.eqb_spec (ep_intf hw) CODEC_DMA) as [E|_];
    [|destruct ((ep_intf hw =? MI2S) || (ep_intf hw =? TDM) || (ep_intf hw =? AUXPCM)) eqn:E;
      [|by left]];
    split_tests; try (by left); right; (eexists; split; [reflexivity|]).
  all: try (left; split; [exact E | vm_compute; split; discriminate]).
  all: right; (split; [|vm_compute; split; discriminate]).
  all: rewrite !orb_true_iff, !Z.eqb_eq in E; tauto.
Qed.

(** Every parser returns 0 or -EINVAL, and 0 only with a well-formed result. *)
Definition parse_ok (r : Z * hw_ep_info) : Prop :=
  fst r = - EINVAL \/ (fst r = 0 /\ ep_ok (snd r)).

Lemma cdc_parse_ok hw value :
  ep_intf hw = CODEC_DMA \/ ep_intf hw = MI2S \/ ep_intf hw = TDM \/ ep_intf hw = AUXPCM ->
  parse_ok (populate_cdc_dma_i2s_tdm_pcm_ep_info hw value).
Proof.
  intros Hi. unfold populate_cdc_dma_i2s_tdm_pcm_ep_info.
  destruct (sscanf_dash value _ _) as [lp v1], (sscanf_dash v1 _ _) as [dir v2],
    (sscanf_dash v2 _ _) as [idx v3].
  assert (Hrest : forall v,
    parse_ok (let '(ret, hw') := populate_hw_ep_direction (set_ep_word0 v hw) dir in
              if nz ret then (ret, hw') else populate_hw_ep_intf_idx hw' idx)).
  { intros v. destruct (direction_cases (set_ep_word0 v hw) dir) as [->|(d & Hd & ->)].
    - by left.
    - cbn [nz Z.eqb negb].
      destruct (intf_idx_cases (set_ep_dir d (set_ep_word0 v hw)) idx) as [->|(x & -> & Hx)].
      + by left.
      + right. split; [done|]. split; [exact Hd|]. simpl in Hx |- *. unfold ep_intf_idx.
        simpl. tauto. }
  split_tests; try apply Hrest. by left.
Qed.

Lemma slim_parse_ok hw value :
  ep_intf hw = SLIMBUS \/ ep_intf hw = DISPLAY_PORT \/ ep_intf hw = USB_AUDIO ->
  parse_ok (populate_slim_dp_usb_ep_info hw value).
Proof.
  intros Hi. unfold populate_slim_dp_usb_ep_info.
  destruct (Z.eqb_spec (ep_intf hw) SLIMBUS) as [Es|Es].
  - destruct (sscanf_dash value _ _) as [a v1].
    assert (Hdir : forall id a, 0 <= id <= 1 ->
      parse_ok (let '(arg, _) := sscanf_dash v1 a v1 in
                populate_hw_ep_direction (set_ep_word0 id hw) arg)).
    { intros id b Hid. destruct (sscanf_dash v1 b v1) as [arg v2].
      destruct (direction_cases (set_ep_word0 id hw) arg) as [->|(d & Hd & ->)]; [by left|].
      right. split; [done|]. split; [exact Hd|]. simpl. unfold ep_dev_id. simpl. tauto. }
    destruct (a =s? "DEV1"); [apply Hdir; vm_compute; split; discriminate|].
    destruct (a =s? "DEV2"); [apply Hdir; vm_compute; split; discriminate|]. by left.
  - destruct (sscanf_dash value _ _) as [arg v2].
    destruct (direction_cases hw arg) as [->|(d & Hd & ->)]; [by left|].
    right. split; [done|]. split; [exact Hd|]. simpl. tauto.
Qed.

Lemma proxy_parse_ok hw value :
  ep_intf hw = PCM_RT_PROXY -> parse_ok (populate_pcm_rt_proxy_ep_info hw value).
Proof.
  intros Hi. unfold populate_pcm_rt_proxy_ep_info.
  destruct (sscanf_dash value _ _) as [arg v1].
  destruct (direction_cases hw arg) as [->|(d & Hd & ->)]; [by left|].
  cbn [nz Z.eqb negb]. destruct (sscanf_dash v1 _ _) as [arg' v2].
  right. split; [done|]. split; [exact Hd|]. simpl. tauto.
Qed.

(** On every name whatsoever the parser returns 0 or -EINVAL, and when it
    returns 0 the end point has a direction, a known interface, and an index
    (or a slimbus device id) inside the range of that interface. *)
Theorem hw_ep_parse_sound (name : string) (old : hw_ep_info) :
  parse_ok (populate_device_hw_ep_info name old).
Proof.
  unfold populate_device_hw_ep_info. destruct (sscanf_dash name _ _) as [intf value].
  destruct (intf_cases old intf) as [->|(v & Hv & ->)]; [by left|].
  cbn [nz Z.eqb negb]. cbv zeta.
  change (ep_intf (set_ep_intf v old)) with v.
  destruct ((v =? CODEC_DMA) || (v =? MI2S) || (v =? TDM) || (v =? AUXPCM)) eqn:E1.
  { apply cdc_parse_ok. rewrite !orb_true_iff, !Z.eqb_eq in E1. simpl. tauto. }
  destruct ((v =? SLIMBUS) || (v =? DISPLAY_PORT) || (v =? USB_AUDIO)) eqn:E2.
  { apply slim_parse_ok. rewrite !orb_true_iff, !Z.eqb_eq in E2. simpl. tauto. }
  destruct (Z.eqb_spec v PCM_RT_PROXY) as [->|E3]; [by apply proxy_parse_ok|]. by left.
Qed.
End Meaning.
