(* ===== verification/SndCard.v ===== *)
(** * Sound card definitions (snd_parser/src/snd-card-parser.c)

    The library the plug-ins ask for the devices of a sound card.  A card is
    read from an XML file on first use and kept, with a reference count, until
    its last user puts it back.

    The XML parser (expat) is outside the repository: it calls [snd_start_tag],
    [snd_data_handler] and [snd_end_tag] on the tags and texts it finds, so a
    document is the list of these calls ([sax]).  A [void *card_node] is the
    position of the card in [sn_cards], where a freed card leaves an empty slot;
    a node (a device of a card) is the card, the kind and the position in the
    card's list of that kind. *)

From S2P Require Export CString.
Open Scope Z_scope.
#[export] Set Default Goal Selector "!".

(** ** Data *)

(** [enum snd_node_type] *)
Inductive snd_node_type := SND_NODE_TYPE_PCM | SND_NODE_TYPE_MIXER | SND_NODE_TYPE_COMPR.
Definition SND_NODE_TYPE_MAX := 3.
Definition node_type_num (t : snd_node_type) : Z :=
  match t with SND_NODE_TYPE_PCM => 0 | SND_NODE_TYPE_MIXER => 1 | SND_NODE_TYPE_COMPR => 2 end.

#[export] Instance snd_node_type_eq_dec : EqDecision snd_node_type.
Proof. solve_decision. Defined.

(** [enum snd_dev_type] *)
Definition SND_NODE_DEV_TYPE_HW := 0.
Definition SND_NODE_DEV_TYPE_PLUGIN := 1.

(** [struct snd_dev_def]; its list of [struct snd_prop_val_pair] is
    [sd_props]. *)
Record snd_dev_def : Type := SndDevDef {
  sd_node_type : snd_node_type;
  sd_device : Z;
  sd_type : Z;
  sd_name : option string;
  sd_so_name : option string;
  sd_props : list (string * string)
}.
Definition set_sd_device (v : Z) (r : snd_dev_def) : snd_dev_def :=
  SndDevDef (sd_node_type r) v (sd_type r) (sd_name r) (sd_so_name r) (sd_props r).
Definition set_sd_type (v : Z) (r : snd_dev_def) : snd_dev_def :=
  SndDevDef (sd_node_type r) (sd_device r) v (sd_name r) (sd_so_name r) (sd_props r).
Definition set_sd_name (v : option string) (r : snd_dev_def) : snd_dev_def :=
  SndDevDef (sd_node_type r) (sd_device r) (sd_type r) v (sd_so_name r) (sd_props r).
Definition set_sd_so_name (v : option string) (r : snd_dev_def) : snd_dev_def :=
  SndDevDef (sd_node_type r) (sd_device r) (sd_type r) (sd_name r) v (sd_props r).
Definition set_sd_props (v : list (string * string)) (r : snd_dev_def) : snd_dev_def :=
  SndDevDef (sd_node_type r) (sd_device r) (sd_type r) (sd_name r) (sd_so_name r) v.

(** [struct snd_dev_def_card] *)
Record snd_card : Type := SndCard {
  cd_card : Z;
  cd_name : option string;
  cd_refcnt : Z;
  cd_pcm_devs : list snd_dev_def;
  cd_mixer_devs : list snd_dev_def;
  cd_compr_devs : list snd_dev_def
}.
Definition set_cd_card (v : Z) (r : snd_card) : snd_card :=
  SndCard v (cd_name r) (cd_refcnt r) (cd_pcm_devs r) (cd_mixer_devs r) (cd_compr_devs r).
Definition set_cd_name (v : option string) (r : snd_card) : snd_card :=
  SndCard (cd_card r) v (cd_refcnt r) (cd_pcm_devs r) (cd_mixer_devs r) (cd_compr_devs r).
Definition set_cd_refcnt (v : Z) (r : snd_card) : snd_card :=
  SndCard (cd_card r) (cd_name r) v (cd_pcm_devs r) (cd_mixer_devs r) (cd_compr_devs r).

(** The list of the devices of one kind. *)
Definition cd_devs (t : snd_node_type) (c : snd_card) : list snd_dev_def :=
  match t with
  | SND_NODE_TYPE_PCM => cd_pcm_devs c
  | SND_NODE_TYPE_MIXER => cd_mixer_devs c
  | SND_NODE_TYPE_COMPR => cd_compr_devs c
  end.
Definition set_cd_devs (t : snd_node_type) (l : list snd_dev_def) (c : snd_card) : snd_card :=
  match t with
  | SND_NODE_TYPE_PCM =>
      SndCard (cd_card c) (cd_name c) (cd_refcnt c) l (cd_mixer_devs c) (cd_compr_devs c)
  | SND_NODE_TYPE_MIXER =>
      SndCard (cd_card c) (cd_name c) (cd_refcnt c) (cd_pcm_devs c) l (cd_compr_devs c)
  | SND_NODE_TYPE_COMPR =>
      SndCard (cd_card c) (cd_name c) (cd_refcnt c) (cd_pcm_devs c) (cd_mixer_devs c) l
  end.

Definition card_zero : snd_card := SndCard 0 None 0 [] [] [].

(** [snd_card_defs_xml_tags_t] *)
Inductive xml_tag := TAG_ROOT | TAG_CARD | TAG_DEVICE | TAG_PLUGIN | TAG_DEV_PROPS.

#[export] Instance xml_tag_eq_dec : EqDecision xml_tag.
Proof. solve_decision. Defined.

(** [struct xml_userdata]: [xd_buf] is what [data_buf] holds up to [offs],
    as long as [offs] is inside the buffer.  [xd_cur_dev] points into the
    lists of [xd_cur_card]. *)
Record xml_userdata : Type := XmlUserdata {
  xd_buf : string;
  xd_offs : nat;
  xd_card : Z;
  xd_card_name : option string;
  xd_cur_card : option snd_card;
  xd_cur_dev : option (snd_node_type * nat);
  xd_card_found : bool;
  xd_card_parsed : bool;
  xd_tag : xml_tag
}.
Definition set_xd_text (b : string) (o : nat) (r : xml_userdata) : xml_userdata :=
  XmlUserdata b o (xd_card r) (xd_card_name r) (xd_cur_card r) (xd_cur_dev r) (xd_card_found r) (xd_card_parsed r) (xd_tag r).
Definition set_xd_cur_card (v : option snd_card) (r : xml_userdata) : xml_userdata :=
  XmlUserdata (xd_buf r) (xd_offs r) (xd_card r) (xd_card_name r) v (xd_cur_dev r) (xd_card_found r) (xd_card_parsed r) (xd_tag r).
Definition set_xd_cur_dev (v : option (snd_node_type * nat)) (r : xml_userdata) : xml_userdata :=
  XmlUserdata (xd_buf r) (xd_offs r) (xd_card r) (xd_card_name r) (xd_cur_card r) v (xd_card_found r) (xd_card_parsed r) (xd_tag r).
Definition set_xd_card_found (v : bool) (r : xml_userdata) : xml_userdata :=
  XmlUserdata (xd_buf r) (xd_offs r) (xd_card r) (xd_card_name r) (xd_cur_card r) (xd_cur_dev r) v (xd_card_parsed r) (xd_tag r).
Definition set_xd_card_parsed (v : bool) (r : xml_userdata) : xml_userdata :=
  XmlUserdata (xd_buf r) (xd_offs r) (xd_card r) (xd_card_name r) (xd_cur_card r) (xd_cur_dev r) (xd_card_found r) v (xd_tag r).
Definition set_xd_tag (v : xml_tag) (r : xml_userdata) : xml_userdata :=
  XmlUserdata (xd_buf r) (xd_offs r) (xd_card r) (xd_card_name r) (xd_cur_card r) (xd_cur_dev r) (xd_card_found r) (xd_card_parsed r) v.

(** ** The library's state and what it reads

    [sn_readers] counts the read locks of [snd_rwlock] this thread holds: the
    write lock is never kept. *)
Record snd_state : Type := SndState {
  sn_cards : list (option snd_card);
  sn_allocs : nat;
  sn_readers : nat;
  sn_opens : nat
}.
Definition set_sn_cards (v : list (option snd_card)) (s : snd_state) : snd_state :=
  SndState v (sn_allocs s) (sn_readers s) (sn_opens s).
Definition set_sn_allocs (v : nat) (s : snd_state) : snd_state :=
  SndState (sn_cards s) v (sn_readers s) (sn_opens s).
Definition set_sn_readers (v : nat) (s : snd_state) : snd_state :=
  SndState (sn_cards s) (sn_allocs s) v (sn_opens s).
Definition set_sn_opens (v : nat) (s : snd_state) : snd_state :=
  SndState (sn_cards s) (sn_allocs s) (sn_readers s) v.

(** A call of the parser's handlers. *)
Inductive sax : Type :=
  | StartTag (name : string)
  | EndTag (name : string)
  | Text (s : string).

(** /proc/asound/card<n>/id: not there; there but not opened; empty; or the
    line [fgets] returns. *)
Inductive id_file := IdAbsent | IdUnopenable | IdEmpty | IdLine (line : string).

(** The card definition file: not opened, or the handler calls expat makes
    on it; [ok = false] when it stops with an error after these. *)
Inductive xml_file := XmlAbsent | XmlDoc (calls : list sax) (ok : bool).

(** What the [n]-th [snd_card_def_get_card] finds on disk, and which
    allocations succeed. *)
Class SndEnv : Type := {
  snd_id_file : nat -> Z -> id_file;
  snd_xml : nat -> xml_file;
  snd_alloc : nat -> bool
}.

Abbreviation SND := (M snd_state).

Section SndCard.
Context `{SndEnv}.

Definition BUF_SIZE : nat := 1024.
Definition UINT_MAX := 2 ^ 32 - 1.

Definition snd_calloc : SND bool := fun s =>
  Ret (snd_alloc (sn_allocs s)) (set_sn_allocs (S (sn_allocs s)) s).

Definition rdlock : SND unit := modify (fun s => set_sn_readers (S (sn_readers s)) s).
Definition rdunlock : SND unit := modify (fun s => set_sn_readers (pred (sn_readers s)) s).

(** [pthread_rwlock_wrlock]: this thread waits for itself when it still
    holds a read lock. *)
Definition wrlock : SND unit := fun s =>
  if (0 <? sn_readers s)%nat then Crash SelfDeadlock else Ret tt s.

Definition read_card (i : nat) : SND snd_card := fun s =>
  match sn_cards s !! i with
  | Some (Some c) => Ret c s
  | Some None => Crash DanglingPtr
  | None => Crash OutOfBounds
  end.

(** ** The XML handlers *)

Definition snd_reset_data_buf (data : xml_userdata) : xml_userdata :=
  set_xd_text EmptyString 0 data.

(** Through the pointer [cur_dev_def], when it is set. *)
Definition upd_cur_dev (f : snd_dev_def -> snd_dev_def) (data : xml_userdata) : xml_userdata :=
  match xd_cur_card data, xd_cur_dev data with
  | Some c, Some (t, i) => set_xd_cur_card (Some (set_cd_devs t (alter f i (cd_devs t c)) c)) data
  | _, _ => data
  end.

Definition snd_dev_set_type (type : Z) (data : xml_userdata) : xml_userdata :=
  upd_cur_dev (set_sd_type type) data.

Definition is_dev_tag (tag_name : string) : bool :=
  (tag_name =s? "pcm-device") || (tag_name =s? "compress-device") || (tag_name =s? "mixer").

(** [node_type] is [None] for the -1 of [snd_start_tag]. *)
Definition snd_dev_def_init (tag_name : string) (node_type : option snd_node_type)
    (data : xml_userdata) : SND xml_userdata :=
  match xd_cur_card data, node_type with
  | Some c, Some t =>
      if negb (is_dev_tag tag_name) then ret data else
      let! ok := snd_calloc in
      if negb ok then ret data else
      let dev := SndDevDef t 0 SND_NODE_DEV_TYPE_HW None None [] in
      ret (set_xd_cur_dev (Some (t, length (cd_devs t c)))
             (set_xd_cur_card (Some (set_cd_devs t (cd_devs t c ++ [dev]) c)) data))
  | _, _ => ret data
  end.

Definition snd_start_tag (tag_name : string) (data : xml_userdata) : SND xml_userdata :=
  if xd_card_parsed data then ret data else
  let data := snd_reset_data_buf data in
  let data := if tag_name =s? "card" then set_xd_tag TAG_CARD data else data in
  let '(data, node_type) :=
    if tag_name =s? "pcm-device" then (set_xd_tag TAG_DEVICE data, Some SND_NODE_TYPE_PCM)
    else if tag_name =s? "compress-device"
    then (set_xd_tag TAG_DEVICE data, Some SND_NODE_TYPE_COMPR)
    else if tag_name =s? "mixer" then (set_xd_tag TAG_DEVICE data, Some SND_NODE_TYPE_MIXER)
    else if strstr "plugin" tag_name
    then (set_xd_tag TAG_PLUGIN (snd_dev_set_type SND_NODE_DEV_TYPE_PLUGIN data), None)
    else if tag_name =s? "props" then (set_xd_tag TAG_DEV_PROPS data, None)
    else (data, None) in
  if negb (bool_decide (xd_tag data = TAG_CARD)) && negb (xd_card_found data) then ret data
  else snd_dev_def_init tag_name node_type data.

(** A text that does not fit only moves [offs]. *)
Definition snd_data_handler (s : string) (data : xml_userdata) : xml_userdata :=
  if (BUF_SIZE <=? String.length s + xd_offs data)%nat
  then set_xd_text (xd_buf data) (xd_offs data + String.length s) data
  else set_xd_text (xd_buf data ++ s)%string (xd_offs data + String.length s) data.

(** The flag tells whether the pointer returned is not NULL. *)
Definition snd_parse_initialize_card_def (data : xml_userdata) : SND (xml_userdata * bool) :=
  match xd_cur_card data with
  | Some _ => ret (data, true)
  | None =>
      let! ok := snd_calloc in
      if negb ok then ret (data, false)
      else ret (set_xd_cur_card (Some card_zero) (set_xd_card_found true data), true)
  end.

(** [strlcpy] into memory allocated for it: [None] when there is none. *)
Definition strdup (s : string) : SND (option string) :=
  let! ok := snd_calloc in ret (if ok then Some s else None).

Definition upd_cur_card (f : snd_card -> snd_card) (data : xml_userdata) : xml_userdata :=
  set_xd_cur_card (f <$> xd_cur_card data) data.

Definition set_card_name (name : string) (data : xml_userdata) : SND xml_userdata :=
  let! copy := strdup name in ret (upd_cur_card (set_cd_name copy) data).

(** The first of the comma-separated names in the file that starts with the
    name the kernel gives the card. *)
Definition snd_parse_card_properties (tag_name : string) (data : xml_userdata)
  : SND xml_userdata :=
  if tag_name =s? "id" then
    let card := u32 (atoi (xd_buf data)) in
    if card =? xd_card data then
      let! (data, ok) := snd_parse_initialize_card_def data in
      ret (if ok : bool then upd_cur_card (set_cd_card card) data else data)
    else ret data
  else if tag_name =s? "name" then
    match xd_cur_card data with
    | Some _ => set_card_name (xd_buf data) data
    | None =>
        match xd_card_name data with
        | None => ret data
        | Some card_name =>
            match List.find (strncmp_eq card_name) (tokens ", " (xd_buf data)) with
            | None => ret data
            | Some token =>
                let! (data, ok) := snd_parse_initialize_card_def data in
                if negb ok then ret data else set_card_name token data
            end
        end
    end
  else ret data.

Definition snd_parse_plugin_properties (tag_name : string) (data : xml_userdata)
  : SND xml_userdata :=
  match xd_cur_dev data with
  | None => ret data
  | Some _ =>
      if tag_name =s? "so-name" then
        let! copy := strdup (xd_buf data) in ret (upd_cur_dev (set_sd_so_name copy) data)
      else ret data
  end.

Definition snd_parse_device_properties (tag_name : string) (data : xml_userdata)
  : SND xml_userdata :=
  if is_dev_tag tag_name then ret data else
  match xd_cur_dev data with
  | None => ret data
  | Some _ =>
      if tag_name =s? "id" then
        ret (upd_cur_dev (set_sd_device (u32 (atoi (xd_buf data)))) data)
      else if tag_name =s? "name" then
        let! copy := strdup (xd_buf data) in ret (upd_cur_dev (set_sd_name copy) data)
      else ret data
  end.

Definition snd_parse_device_custom_properties (tag_name : string) (data : xml_userdata)
  : SND xml_userdata :=
  if tag_name =s? "props" then ret data else
  match xd_cur_dev data with
  | None => ret data
  | Some _ =>
      if (xd_buf data =s? "") || (tag_name =s? "") then ret data else
      let! pv_pair := snd_calloc in
      if negb pv_pair then ret data else
      let! prop := strdup tag_name in
      match prop with
      | None => ret data
      | Some prop =>
          let! val := strdup (xd_buf data) in
          match val with
          | None => ret data
          | Some val =>
              ret (upd_cur_dev (fun d => set_sd_props (sd_props d ++ [(prop, val)]) d) data)
          end
      end
  end.

(** [data_buf[offs] = 0] is written before anything is looked at. *)
Definition snd_process_data_buf (tag_name : string) (data : xml_userdata) : SND xml_userdata :=
  if (xd_offs data =? 0)%nat then ret data else
  if (BUF_SIZE <=? xd_offs data)%nat then crash_with OutOfBounds else
  if xd_card_parsed data then ret data else
  match xd_tag data with
  | TAG_ROOT => ret data
  | TAG_CARD => snd_parse_card_properties tag_name data
  | TAG_PLUGIN => snd_parse_plugin_properties tag_name data
  | TAG_DEVICE => snd_parse_device_properties tag_name data
  | TAG_DEV_PROPS => snd_parse_device_custom_properties tag_name data
  end.

Definition snd_end_tag (tag_name : string) (data : xml_userdata) : SND xml_userdata :=
  if xd_card_parsed data then ret data else
  if negb (bool_decide (xd_tag data = TAG_CARD)) && negb (xd_card_found data) then ret data else
  let! data := snd_process_data_buf tag_name data in
  let data := snd_reset_data_buf data in
  ret (if is_dev_tag tag_name then set_xd_tag TAG_CARD data
       else if strstr "plugin" tag_name || (tag_name =s? "props") then set_xd_tag TAG_DEVICE data
       else if tag_name =s? "card" then
         let data := set_xd_tag TAG_ROOT data in
         if xd_card_found data then set_xd_card_parsed true data else data
       else data).

Definition handle_sax (c : sax) (data : xml_userdata) : SND xml_userdata :=
  match c with
  | StartTag t => snd_start_tag t data
  | EndTag t => snd_end_tag t data
  | Text s => ret (snd_data_handler s data)
  end.

Fixpoint run_sax (l : list sax) (data : xml_userdata) : SND xml_userdata :=
  match l with
  | [] => ret data
  | c :: l' => let! data := handle_sax c data in run_sax l' data
  end.

(** ** Cards *)

(** [memset(&card_data, 0, ...)] with the card asked for. *)
Definition xml_init (card : Z) (card_name : option string) : xml_userdata :=
  XmlUserdata EmptyString 0 card card_name None None false false TAG_ROOT.

(** The name of the card in the kernel, and the number to look for:
    [None] when the name cannot be stored.  [fgets] on the NULL [FILE] that
    the test [file < 0] lets through is a NULL dereference. *)
Definition read_card_id (n : nat) (card : Z) : SND (option (option string * Z)) :=
  match snd_id_file n card with
  | IdAbsent => ret (Some (None, card))
  | IdUnopenable =>
      let! ok := snd_calloc in
      if negb ok then ret None else crash_with NullDeref
  | IdEmpty =>
      let! ok := snd_calloc in
      ret (if ok then Some (None, card) else None)
  | IdLine line =>
      let! ok := snd_calloc in
      ret (if ok then Some (Some (drop_last line), UINT_MAX) else None)
  end.

(** Whether the card is the one asked for. *)
Definition card_matches (card : Z) (card_name : option string) (c : snd_card) : SND bool :=
  match card_name with
  | Some name => let! n := the NullDeref (cd_name c) in ret (strncmp_eq name n)
  | None => ret (cd_card c =? card)
  end.

(** The loop over the cards in memory. *)
Definition find_card (card : Z) (card_name : option string) : SND (option nat) :=
  let! cards := gets sn_cards in
  for_idx (seq 0 (length cards)) (fun i =>
    match cards !! i with
    | Some (Some c) =>
        let! found := card_matches card card_name c in
        if negb found then ret None else
        do! modify (fun s => set_sn_cards
              (<[i := Some (set_cd_refcnt (cd_refcnt c + 1) c)]> (sn_cards s)) s) ;
        ret (Some i)
    | _ => ret None
    end).

(** What the loop variable [card_def] points to after a loop that found
    nothing: the last card in memory. *)
Fixpoint last_card (i : nat) (cards : list (option snd_card)) (acc : option nat) : option nat :=
  match cards with
  | [] => acc
  | Some _ :: l => last_card (S i) l (Some i)
  | None :: l => last_card (S i) l acc
  end.

Definition snd_card_def_get_card (card : Z) : SND (option nat) :=
  let! n := gets sn_opens in
  do! modify (fun s => set_sn_opens (S (sn_opens s)) s) ;
  let! id := read_card_id n card in
  match id with
  | None => ret None
  | Some (card_name, card) =>
      do! wrlock ;
      let! found := find_card card card_name in
      match found with
      | Some i => ret (Some i)
      | None =>
          let! cards := gets sn_cards in
          match snd_xml n with
          | XmlAbsent => ret None
          | XmlDoc calls ok =>
              let! data := run_sax calls (xml_init card card_name) in
              if negb ok then ret (last_card 0 cards None) else
              match xd_cur_card data with
              | None => ret None
              | Some c =>
                  do! modify (fun s => set_sn_cards
                        (sn_cards s ++ [Some (set_cd_refcnt (cd_refcnt c + 1) c)]) s) ;
                  ret (Some (length cards))
              end
          end
      end
  end.

(** The card is looked for in the list: a handle that was freed is ignored. *)
Definition snd_card_def_put_card (card_node : option nat) : SND unit :=
  match card_node with
  | None => ret tt
  | Some i =>
      do! wrlock ;
      let! cards := gets sn_cards in
      match cards !! i with
      | Some (Some c) =>
          let refcnt := cd_refcnt c - 1 in
          modify (set_sn_cards
            (<[i := if refcnt =? 0 then None else Some (set_cd_refcnt refcnt c)]> cards))
      | _ => ret tt
      end
  end.

(** ** Devices *)

(** A [struct snd_dev_def *]. *)
Definition snd_node : Type := nat * snd_node_type * nat.

Definition node_type_of (type : Z) : snd_node_type :=
  if type =? node_type_num SND_NODE_TYPE_PCM then SND_NODE_TYPE_PCM
  else if type =? node_type_num SND_NODE_TYPE_COMPR then SND_NODE_TYPE_COMPR
  else SND_NODE_TYPE_MIXER.

Definition read_node (n : snd_node) : SND snd_dev_def :=
  let '(i, t, j) := n in
  let! c := read_card i in the OutOfBounds (cd_devs t c !! j).

Definition snd_card_def_get_node (card_node : option nat) (id type : Z) : SND (option snd_node) :=
  match card_node with
  | None => ret None
  | Some i =>
      if SND_NODE_TYPE_MAX <=? type then ret None else
      let t := node_type_of type in
      do! rdlock ;
      let! c := read_card i in
      do! rdunlock ;
      ret ((fun p => (i, t, fst p)) <$> list_find (fun d => sd_device d = id) (cd_devs t c))
  end.

Definition snd_card_def_get_num_node (card_node : option nat) (type : Z) : SND Z :=
  match card_node with
  | None => ret 0
  | Some i =>
      if SND_NODE_TYPE_MAX <=? type then ret 0 else
      do! rdlock ;
      let! c := read_card i in
      do! rdunlock ;
      ret (Z.of_nat (length (cd_devs (node_type_of type) c)))
  end.

(** The nodes stored in [list], an array of [num_nodes].  A request for more
    devices than there are returns without releasing the read lock; the loop
    tests its bound after it has written. *)
Definition snd_card_def_get_nodes_for_type (card_node : option nat) (type num_nodes : Z)
  : SND (Z * list snd_node) :=
  match card_node with
  | None => ret (- EINVAL, [])
  | Some i =>
      if SND_NODE_TYPE_MAX <=? type then ret (- EINVAL, []) else
      let t := node_type_of type in
      do! rdlock ;
      let! c := read_card i in
      let num_devs := length (cd_devs t c) in
      if Z.of_nat num_devs <? num_nodes then ret (- EINVAL, []) else
      if (num_nodes <=? 0) && (0 <? num_devs)%nat then crash_with OutOfBounds else
      do! rdunlock ;
      ret (0, map (fun j => (i, t, j)) (seq 0 (Z.to_nat num_nodes)))
  end.

Definition find_prop (prop : string) (l : list (string * string)) : option string :=
  snd <$> List.find (fun p => fst p =s? prop) l.

(** The status and the value stored in [*val], if any. *)
Definition snd_card_def_get_int (node : option snd_node) (prop : string) : SND (Z * option Z) :=
  match node with
  | None => ret (- EINVAL, None)
  | Some n =>
      do! rdlock ;
      let! d := read_node n in
      do! rdunlock ;
      ret (if prop =s? "type" then (0, Some (sd_type d))
           else if prop =s? "id" then (0, Some (s32 (sd_device d)))
           else match find_prop prop (sd_props d) with
                | Some v => (0, Some (atoi v))
                | None => (- EINVAL, None)
                end)
  end.

Definition snd_card_def_get_str (node : option snd_node) (prop : string)
  : SND (Z * option string) :=
  match node with
  | None => ret (- EINVAL, None)
  | Some n =>
      do! rdlock ;
      let! d := read_node n in
      do! rdunlock ;
      ret (if prop =s? "so-name" then (0, sd_so_name d)
           else if prop =s? "name" then (0, sd_name d)
           else match find_prop prop (sd_props d) with
                | Some v => (0, Some v)
                | None => (- EINVAL, None)
                end)
  end.
End SndCard.
