(* ===== verification/SndCardProps.v ===== *)
(** * Sound card definitions: what the parser reads, and card handles

    [card_text] is the content of a [<card>] element and [card_elem] the
    handler calls of any way to write it down: white space between the
    elements, texts delivered in any number of pieces.  The parser run over a
    whole document is shown to give exactly the card asked for. *)

From S2P Require Export SndCard.
Open Scope Z_scope.
#[export] Set Default Goal Selector "!".

(** ** Documents *)

(** A device element: the kind, the texts of [<id>] and [<name>], the plug-in
    element and its [<so-name>], and the custom properties. *)
Record dev_text : Type := DevText {
  dt_type : snd_node_type;
  dt_id : string;
  dt_name : string;
  dt_plugin : option (string * string);
  dt_props : list (string * string)
}.

Record card_text : Type := CardText {
  ct_id : string;
  ct_name : string;
  ct_devs : list dev_text
}.

Definition concat_text (chunks : list string) : string := foldr String.append EmptyString chunks.

(** Text between two elements. *)
Definition gap (l : list sax) : Prop :=
  exists chunks, l = map Text chunks /\ (String.length (concat_text chunks) < BUF_SIZE)%nat.

(** [<tag>text</tag>] *)
Definition leaf (tag text : string) (l : list sax) : Prop :=
  exists chunks, l = StartTag tag :: map Text chunks ++ [EndTag tag] /\ concat_text chunks = text.

(** Elements one after the other, with gaps around them. *)
Inductive children : list (list sax -> Prop) -> list sax -> Prop :=
  | children_nil g : gap g -> children [] g
  | children_cons (P : list sax -> Prop) Ps g l r :
      gap g -> P l -> children Ps r -> children (P :: Ps) (g ++ l ++ r).

Definition elem (tag : string) (Ps : list (list sax -> Prop)) (l : list sax) : Prop :=
  exists body, children Ps body /\ l = StartTag tag :: body ++ [EndTag tag].

Definition dev_tag (t : snd_node_type) : string :=
  match t with
  | SND_NODE_TYPE_PCM => "pcm-device"
  | SND_NODE_TYPE_MIXER => "mixer"
  | SND_NODE_TYPE_COMPR => "compress-device"
  end.

Definition plugin_elems (d : dev_text) : list (list sax -> Prop) :=
  match dt_plugin d with
  | Some (tag, so_name) => [elem tag [leaf "so-name" so_name]]
  | None => []
  end.

Definition prop_leaf (p : string * string) : list sax -> Prop := leaf (fst p) (snd p).

Definition props_elems (d : dev_text) : list (list sax -> Prop) :=
  match dt_props d with
  | [] => []
  | ps => [elem "props" (map prop_leaf ps)]
  end.

Definition dev_elem (d : dev_text) : list sax -> Prop :=
  elem (dev_tag (dt_type d))
    ([leaf "id" (dt_id d); leaf "name" (dt_name d)] ++ plugin_elems d ++ props_elems d).

Definition card_elem (c : card_text) : list sax -> Prop :=
  elem "card" ([leaf "id" (ct_id c); leaf "name" (ct_name c)] ++ map dev_elem (ct_devs c)).

(** ** What the texts mean *)

Definition text_ok (s : string) : bool :=
  negb (s =? "")%string && (String.length s <? BUF_SIZE)%nat.

(** A property is named by a tag that is not one of the scheme. *)
Definition prop_ok (p : string * string) : bool :=
  negb (is_dev_tag (fst p)) && negb (strstr "plugin" (fst p)) && negb (fst p =? "props")%string &&
  negb (fst p =? "card")%string && negb (fst p =? "")%string && text_ok (snd p).

Definition plugin_ok (p : string * string) : bool := strstr "plugin" (fst p) && text_ok (snd p).

Definition dev_ok (d : dev_text) : bool :=
  text_ok (dt_id d) && text_ok (dt_name d) &&
  match dt_plugin d with Some p => plugin_ok p | None => true end &&
  forallb prop_ok (dt_props d).

Definition card_ok (c : card_text) : bool :=
  text_ok (ct_id c) && text_ok (ct_name c) && forallb dev_ok (ct_devs c).

(** The device the text describes. *)
Definition dev_of (d : dev_text) : snd_dev_def :=
  SndDevDef (dt_type d) (u32 (atoi (dt_id d)))
    (match dt_plugin d with Some _ => SND_NODE_DEV_TYPE_PLUGIN | None => SND_NODE_DEV_TYPE_HW end)
    (Some (dt_name d)) (snd <$> dt_plugin d) (dt_props d).

(** Whether the card is the one looked for, by number or by name, and the
    card so far. *)
Definition card_header (card : Z) (card_name : option string) (c : card_text) : option snd_card :=
  if u32 (atoi (ct_id c)) =? card
  then Some (set_cd_name (Some (ct_name c)) (set_cd_card card card_zero))
  else match card_name with
       | Some n =>
           match List.find (strncmp_eq n) (tokens ", " (ct_name c)) with
           | Some token => Some (set_cd_name (Some token) card_zero)
           | None => None
           end
       | None => None
       end.

Definition add_dev (c : snd_card) (d : dev_text) : snd_card :=
  set_cd_devs (dt_type d) (cd_devs (dt_type d) c ++ [dev_of d]) c.

(** The card the text describes: its devices, by kind, in order. *)
Definition card_of (header : snd_card) (c : card_text) : snd_card :=
  foldl add_dev header (ct_devs c).

(** ** Running the handlers *)

Abbreviation clean := snd_reset_data_buf.

(** A tag without a meaning of its own. *)
Definition plain_tag (t : string) : bool :=
  negb (t =? "card")%string && negb (is_dev_tag t) && negb (strstr "plugin" t) &&
  negb (t =? "props")%string.

(** The handlers look at what they are given. *)
Definition active (d : xml_userdata) : Prop :=
  xd_card_parsed d = false /\ (xd_tag d = TAG_CARD \/ xd_card_found d = true).

Lemma plugin_not_dev t : strstr "plugin" t = true -> is_dev_tag t = false.
Proof.
  intros Hp. unfold is_dev_tag. destruct (String.eqb_spec t "pcm-device") as [->|_]; [done|].
  destruct (String.eqb_spec t "compress-device") as [->|_]; [done|].
  by destruct (String.eqb_spec t "mixer") as [->|_].
Qed.

Lemma plugin_not_card t : strstr "plugin" t = true -> (t =? "card")%string = false.
Proof. intros Hp. by destruct (String.eqb_spec t "card") as [->|_]. Qed.

(** Evaluates the comparisons of tags that are known. *)
Ltac tag_tests :=
  repeat match goal with
  | |- context [String.eqb ?a ?b] =>
      let v := eval vm_compute in (String.eqb a b) in
      lazymatch v with true => idtac | false => idtac end;
      change (String.eqb a b) with v
  | |- context [strstr ?a ?b] =>
      let v := eval vm_compute in (strstr a b) in
      lazymatch v with true => idtac | false => idtac end;
      change (strstr a b) with v
  | |- context [is_dev_tag ?a] =>
      let v := eval vm_compute in (is_dev_tag a) in
      lazymatch v with true => idtac | false => idtac end;
      change (is_dev_tag a) with v
  end;
  cbn [orb andb negb].

Section Run.
Context `{SndEnv} (Halloc : forall n, snd_alloc n = true).

Lemma run_sax_app l1 l2 d s :
  run_sax (l1 ++ l2) d s =
  match run_sax l1 d s with Ret d' s' => run_sax l2 d' s' | Crash w => Crash w end.
Proof.
  revert d s. induction l1 as [|c l1 IH]; intros d s; [done|].
  cbn [app run_sax]. unfold bind. destruct (handle_sax c d s); [apply IH|done].
Qed.

Lemma string_app_assoc (a b c : string) : ((a ++ b) ++ c)%string = (a ++ b ++ c)%string.
Proof. induction a as [|x a IH]; [done|]. exact (f_equal (String x) IH). Qed.

Lemma string_app_nil (a : string) : (a ++ "")%string = a.
Proof. induction a as [|x a IH]; [done|]. exact (f_equal (String x) IH). Qed.

Lemma string_length_app (a b : string) :
  String.length (a ++ b) = (String.length a + String.length b)%nat.
Proof. induction a as [|x a IH]; [done|]. exact (f_equal S IH). Qed.

Lemma run_texts chunks d s :
  (xd_offs d + String.length (concat_text chunks) < BUF_SIZE)%nat ->
  run_sax (map Text chunks) d s =
  Ret (set_xd_text (xd_buf d ++ concat_text chunks)
         (xd_offs d + String.length (concat_text chunks)) d) s.
Proof.
  revert d. induction chunks as [|c l IH]; intros d Hb.
  - cbn [map run_sax concat_text foldr String.length]. rewrite string_app_nil, Nat.add_0_r.
    by destruct d.
  - cbn [map run_sax concat_text foldr] in *. unfold bind. cbn [handle_sax].
    fold (concat_text l) in *. rewrite string_length_app in Hb.
    unfold snd_data_handler at 1.
    rewrite (proj2 (Nat.leb_gt _ _)) by lia. unfold ret at 1. rewrite IH by (cbn; lia).
    cbn [set_xd_text xd_buf xd_offs]. rewrite string_app_assoc, string_length_app, Nat.add_assoc.
    by destruct d.
Qed.

(** The text before a start tag is forgotten. *)
Lemma run_gap_start g t l d s :
  gap g -> xd_card_parsed d = false ->
  run_sax (g ++ StartTag t :: l) (clean d) s = run_sax (StartTag t :: l) (clean d) s.
Proof.
  intros (chunks & -> & Hl) Hp. rewrite run_sax_app, run_texts by done.
  cbn [run_sax handle_sax]. unfold bind, snd_start_tag.
  change (xd_card_parsed (set_xd_text _ _ (clean d))) with (xd_card_parsed d).
  change (xd_card_parsed (clean d)) with (xd_card_parsed d). by rewrite Hp.
Qed.

Lemma start_plain t d s :
  plain_tag t = true -> xd_card_parsed d = false -> snd_start_tag t d s = Ret (clean d) s.
Proof.
  unfold plain_tag. intros Ht Hp. bool_hyps. unfold snd_start_tag. rewrite Hp.
  unfold is_dev_tag in *. repeat match goal with
  | E : (_ || _) = false |- _ => apply orb_false_iff in E as [? ?]
  | E : (t =? _)%string = false |- _ => rewrite E; clear E
  | E : strstr _ t = false |- _ => rewrite E; clear E
  end.
  case_match; [done|]. unfold snd_dev_def_init. by destruct (xd_cur_card _).
Qed.

(** The tag part of an end tag. *)
Definition end_state (t : string) (d : xml_userdata) : xml_userdata :=
  if is_dev_tag t then set_xd_tag TAG_CARD d
  else if strstr "plugin" t || (t =? "props")%string then set_xd_tag TAG_DEVICE d
  else if (t =? "card")%string then
    let data := set_xd_tag TAG_ROOT d in
    if xd_card_found data then set_xd_card_parsed true data else data
  else d.

Lemma end_state_clean t d : clean (end_state t d) = end_state t (clean d).
Proof.
  unfold end_state. destruct (is_dev_tag t); [done|].
  destruct (strstr "plugin" t || (t =? "props")%string); [done|].
  destruct (t =? "card")%string; [|done]. cbv zeta.
  change (xd_card_found (set_xd_tag TAG_ROOT (clean d))) with (xd_card_found d).
  change (xd_card_found (set_xd_tag TAG_ROOT d)) with (xd_card_found d).
  by destruct (xd_card_found d).
Qed.

Lemma end_active t d :
  active d ->
  snd_end_tag t d =
  bind (snd_process_data_buf t d) (fun d' => ret (end_state t (clean d'))).
Proof.
  intros [Hp Ha]. unfold snd_end_tag. rewrite Hp.
  assert (negb (bool_decide (xd_tag d = TAG_CARD)) && negb (xd_card_found d) = false) as ->;
    [|done].
  destruct Ha as [Ha| ->]; [rewrite bool_decide_true by done|rewrite andb_false_r]; done.
Qed.

Lemma leaf_run tag text l d s :
  leaf tag text l -> plain_tag tag = true -> text_ok text = true -> active d ->
  run_sax l (clean d) s =
  bind (snd_process_data_buf tag (set_xd_text text (String.length text) d))
    (fun d' => ret (clean d')) s.
Proof.
  intros (chunks & -> & <-) Ht Hk Ha. unfold text_ok in Hk. apply andb_true_iff in Hk as [_ Hk].
  apply Nat.ltb_lt in Hk.
  cbn [run_sax handle_sax]. unfold bind at 1. rewrite start_plain by (done || apply Ha).
  rewrite run_sax_app, run_texts by done.
  cbn [run_sax handle_sax]. unfold bind at 1.
  rewrite end_active by done. unfold bind.
  change (set_xd_text _ _ (clean (clean d)))
    with (set_xd_text (concat_text chunks) (String.length (concat_text chunks)) d).
  destruct (snd_process_data_buf _ _ s) as [d' s'|]; [|done]. unfold ret.
  unfold end_state, plain_tag in *. bool_hyps.
  repeat match goal with E : _ = false |- _ => rewrite E; clear E end. done.
Qed.

(** ** Elements, one after the other *)

(** The calls [l] take the parser from [d] to [d']; memory is not short, so
    that only the number of allocations changes. *)
Definition runs (l : list sax) (d d' : xml_userdata) : Prop :=
  forall s, exists n, run_sax l (clean d) s = Ret (clean d') (set_sn_allocs n s).

Lemma runs_pure l d d' : (forall s, run_sax l (clean d) s = Ret (clean d') s) -> runs l d d'.
Proof. intros Hr s. exists (sn_allocs s). rewrite Hr. by destruct s. Qed.

(** An element of the form [P] has the effect [F] on the states [J]. *)
Definition does (J : xml_userdata -> Prop) (F : xml_userdata -> xml_userdata)
    (P : list sax -> Prop) : Prop :=
  forall l d, P l -> J d -> (exists t l', l = StartTag t :: l') /\ J (F d) /\ runs l d (F d).

Definition apply_all (Fs : list (xml_userdata -> xml_userdata)) (d : xml_userdata)
  : xml_userdata := foldl (fun d F => F d) d Fs.

Lemma children_run J Fs Ps body d :
  (forall d, J d -> xd_card_parsed d = false) ->
  Forall2 (does J) Fs Ps -> children Ps body -> J d ->
  J (apply_all Fs d) /\ exists g, gap g /\ forall rest s, exists n,
    run_sax (body ++ rest) (clean d) s =
    run_sax (g ++ rest) (clean (apply_all Fs d)) (set_sn_allocs n s).
Proof.
  intros HJ. intros HF Hc. revert Fs d HF.
  induction Hc as [g Hg|P Ps g l r Hg Hl Hr IH]; intros Fs d HF Hd.
  - apply Forall2_nil_inv_r in HF as ->. split; [done|]. exists g. split; [done|].
    intros rest s. exists (sn_allocs s). by destruct s.
  - apply Forall2_cons_inv_r in HF as (F & Fs' & HP & HF & ->).
    pose proof (HP l d Hl Hd) as HP'. destruct HP' as [(t & l' & El) [HJ' Hrun]]. subst l.
    destruct (IH Fs' (F d) HF HJ') as (HJ'' & g' & Hg' & Hrest).
    split; [exact HJ''|]. exists g'. split; [done|]. intros rest s.
    rewrite <- !app_assoc. cbn [app]. rewrite run_gap_start by auto.
    change (StartTag t :: l' ++ r ++ rest) with ((StartTag t :: l') ++ (r ++ rest)).
    rewrite run_sax_app. destruct (Hrun s) as [n ->].
    destruct (Hrest rest (set_sn_allocs n s)) as [m Hm]. exists m. exact Hm.
Qed.

(** The end tag of an element that holds other elements. *)
Lemma gap_end g t d s :
  gap g -> active d ->
  (forall b o, (o < BUF_SIZE)%nat ->
     snd_process_data_buf t (set_xd_text b o d) s = Ret (set_xd_text b o d) s) ->
  run_sax (g ++ [EndTag t]) (clean d) s = Ret (clean (end_state t d)) s.
Proof.
  intros (chunks & -> & Hl) Ha Hp. rewrite run_sax_app, run_texts by done.
  cbn [run_sax handle_sax]. unfold bind at 1. rewrite end_active by exact Ha. unfold bind.
  change (set_xd_text ?b ?o (clean d)) with (set_xd_text b o d). rewrite Hp by done.
  unfold ret. by rewrite end_state_clean.
Qed.

Lemma elem_run t Ps Fs J l d d1 :
  elem t Ps l -> xd_card_parsed d = false ->
  (forall d, J d -> active d) ->
  (forall s, exists n, snd_start_tag t (clean d) s = Ret (clean d1) (set_sn_allocs n s)) ->
  J d1 -> Forall2 (does J) Fs Ps ->
  (forall b o d s, J d -> (o < BUF_SIZE)%nat ->
     snd_process_data_buf t (set_xd_text b o d) s = Ret (set_xd_text b o d) s) ->
  runs l d (end_state t (apply_all Fs d1)).
Proof.
  intros (body & Hc & ->) Hp HJa Hs HJ HF Hend s. cbn [run_sax handle_sax]. unfold bind at 1.
  destruct (Hs s) as [n ->].
  destruct (children_run J Fs Ps body d1) as (HJ' & g & Hg & Hrest); [|done..|].
  { intros d' Hd'. by apply HJa. }
  destruct (Hrest [EndTag t] (set_sn_allocs n s)) as [m ->]. exists m.
  rewrite gap_end; [done..|by apply HJa|]. intros b o Ho. by apply Hend.
Qed.

(** ** Devices *)

(** Inside a device element of the card that was found. *)
Definition inside (tag : xml_tag) (d : xml_userdata) : Prop :=
  xd_card_parsed d = false /\ xd_card_found d = true /\ xd_tag d = tag /\
  is_Some (xd_cur_card d) /\ is_Some (xd_cur_dev d).

Lemma inside_active tag d : inside tag d -> active d.
Proof. intros (Hp & Hf & _). split; [done|by right]. Qed.

Lemma inside_upd tag f d : inside tag d -> inside tag (upd_cur_dev f d).
Proof.
  intros (Hp & Hf & Ht & [c Hc] & [[t i] Hd]). unfold upd_cur_dev. rewrite Hc, Hd.
  repeat split; eauto.
Qed.

Lemma clean_upd f b o d : clean (upd_cur_dev f (set_xd_text b o d)) = clean (upd_cur_dev f d).
Proof. unfold upd_cur_dev. cbn. by destruct (xd_cur_card d), (xd_cur_dev d) as [[? ?]|]. Qed.

Lemma upd_cur_dev_twice f g d : upd_cur_dev g (upd_cur_dev f d) = upd_cur_dev (g ∘ f) d.
Proof.
  unfold upd_cur_dev. destruct (xd_cur_card d) as [c|] eqn:Ec, (xd_cur_dev d) as [[t i]|] eqn:Ed.
  all: cbn; rewrite ?Ec, ?Ed; try done.
  destruct t; cbn; by rewrite list_alter_alter_eq.
Qed.

(** A live text reaches the function its place in the document selects. *)
Definition dispatch (tag_name : string) (d : xml_userdata) : SND xml_userdata :=
  match xd_tag d with
  | TAG_ROOT => ret d
  | TAG_CARD => snd_parse_card_properties tag_name d
  | TAG_PLUGIN => snd_parse_plugin_properties tag_name d
  | TAG_DEVICE => snd_parse_device_properties tag_name d
  | TAG_DEV_PROPS => snd_parse_device_custom_properties tag_name d
  end.

Lemma process_live tag text d :
  text_ok text = true -> xd_card_parsed d = false ->
  snd_process_data_buf tag (set_xd_text text (String.length text) d) =
  dispatch tag (set_xd_text text (String.length text) d).
Proof.
  unfold text_ok. intros Ht Hp. apply andb_true_iff in Ht as [Hne Hlt]. apply Nat.ltb_lt in Hlt.
  unfold snd_process_data_buf. cbn [xd_offs set_xd_text].
  rewrite (proj2 (Nat.eqb_neq _ _)); [|by destruct text].
  rewrite (proj2 (Nat.leb_gt _ _)) by done.
  change (xd_card_parsed (set_xd_text _ _ d)) with (xd_card_parsed d). by rewrite Hp.
Qed.

Lemma runs_leaf (F : xml_userdata -> xml_userdata) tag text l d :
  leaf tag text l -> plain_tag tag = true -> text_ok text = true -> active d ->
  (forall s, exists n d', clean d' = clean (F d) /\
     dispatch tag (set_xd_text text (String.length text) d) s = Ret d' (set_sn_allocs n s)) ->
  runs l d (F d).
Proof.
  intros Hl Hp Ht Ha Hd s. rewrite (leaf_run _ _ _ _ _ Hl Hp Ht Ha). unfold bind.
  rewrite process_live by (done || apply Ha).
  destruct (Hd s) as (n & d' & E & ->). exists n. unfold ret. by rewrite E.
Qed.

Lemma leaf_starts tag text l : leaf tag text l -> exists t l', l = StartTag t :: l'.
Proof. intros (chunks & -> & _). eauto. Qed.

Lemma does_leaf J F tag text :
  plain_tag tag = true -> text_ok text = true ->
  (forall d, J d -> active d /\ J (F d)) ->
  (forall d s, J d -> exists n d', clean d' = clean (F d) /\
     dispatch tag (set_xd_text text (String.length text) d) s = Ret d' (set_sn_allocs n s)) ->
  does J F (leaf tag text).
Proof.
  intros Hp Ht HJ Hd l d Hl HJd. destruct (HJ d HJd) as [Ha HJF].
  split; [by eapply leaf_starts|]. split; [done|]. eapply runs_leaf; eauto.
Qed.

(** One allocation that succeeds. *)
Lemma strdup_ok str s : strdup str s = Ret (Some str) (set_sn_allocs (S (sn_allocs s)) s).
Proof. unfold strdup, bind, snd_calloc, ret. by rewrite Halloc. Qed.

Lemma does_dev_id text :
  text_ok text = true ->
  does (inside TAG_DEVICE) (upd_cur_dev (set_sd_device (u32 (atoi text)))) (leaf "id" text).
Proof.
  intros Ht. apply does_leaf; [done..| |].
  { intros d Hd. split; [by eapply inside_active|by apply inside_upd]. }
  intros d s (Hp & Hf & Htag & _ & [x Hx]). unfold dispatch. cbn [xd_tag set_xd_text]. rewrite Htag.
  unfold snd_parse_device_properties. cbn. rewrite Hx. exists (sn_allocs s).
  eexists. split; [apply clean_upd|]. by destruct s.
Qed.

Lemma does_dev_name text :
  text_ok text = true ->
  does (inside TAG_DEVICE) (upd_cur_dev (set_sd_name (Some text))) (leaf "name" text).
Proof.
  intros Ht. apply does_leaf; [done..| |].
  { intros d Hd. split; [by eapply inside_active|by apply inside_upd]. }
  intros d s (Hp & Hf & Htag & _ & [x Hx]). unfold dispatch. cbn [xd_tag set_xd_text]. rewrite Htag.
  unfold snd_parse_device_properties. cbn [is_dev_tag String.eqb Ascii.eqb Bool.eqb orb].
  change (xd_cur_dev (set_xd_text _ _ d)) with (xd_cur_dev d). rewrite Hx.
  cbn [String.eqb Ascii.eqb Bool.eqb]. unfold bind. rewrite strdup_ok. exists (S (sn_allocs s)).
  eexists. split; [apply clean_upd|]. done.
Qed.

Lemma does_so_name text :
  text_ok text = true ->
  does (inside TAG_PLUGIN) (upd_cur_dev (set_sd_so_name (Some text))) (leaf "so-name" text).
Proof.
  intros Ht. apply does_leaf; [done..| |].
  { intros d Hd. split; [by eapply inside_active|by apply inside_upd]. }
  intros d s (Hp & Hf & Htag & _ & [x Hx]). unfold dispatch. cbn [xd_tag set_xd_text]. rewrite Htag.
  unfold snd_parse_plugin_properties.
  change (xd_cur_dev (set_xd_text _ _ d)) with (xd_cur_dev d). rewrite Hx.
  cbn [String.eqb Ascii.eqb Bool.eqb]. unfold bind. rewrite strdup_ok. exists (S (sn_allocs s)).
  eexists. split; [apply clean_upd|]. done.
Qed.

Definition add_prop (p : string * string) (d : snd_dev_def) : snd_dev_def :=
  set_sd_props (sd_props d ++ [p]) d.

Lemma does_prop p :
  prop_ok p = true ->
  does (inside TAG_DEV_PROPS) (upd_cur_dev (add_prop p)) (prop_leaf p).
Proof.
  destruct p as [prop val]. unfold prop_ok. cbn [fst snd]. intros Hk. bool_hyps.
  apply does_leaf; cbn [fst snd].
  - unfold plain_tag. by repeat match goal with E : _ = false |- _ => rewrite E; clear E end.
  - done.
  - intros d Hd. split; [by eapply inside_active|by apply inside_upd].
  - intros d s (Hp & Hf & Htag & _ & [x Hx]). unfold dispatch. cbn [xd_tag set_xd_text].
    rewrite Htag. unfold snd_parse_device_custom_properties.
    change (xd_cur_dev (set_xd_text _ _ d)) with (xd_cur_dev d). rewrite Hx.
    cbn [xd_buf set_xd_text].
    match goal with Hv : text_ok val = true |- _ =>
      unfold text_ok in Hv; apply andb_true_iff in Hv as [Hv _]; apply negb_true_iff in Hv;
      rewrite Hv end.
    repeat match goal with E : (prop =? _)%string = false |- _ => rewrite E; clear E end.
    cbn [orb]. unfold bind at 1, snd_calloc. rewrite Halloc. cbn [negb].
    unfold bind. rewrite strdup_ok, strdup_ok. eexists _, _. split; [apply clean_upd|]. reflexivity.
Qed.

Lemma upd_clean f d : upd_cur_dev f (clean d) = clean (upd_cur_dev f d).
Proof. unfold upd_cur_dev. cbn. by destruct (xd_cur_card d), (xd_cur_dev d) as [[? ?]|]. Qed.

(** The end tag of a container means nothing to the function its place
    selects. *)
Lemma process_container t d b o s :
  active d -> (o < BUF_SIZE)%nat ->
  dispatch t (set_xd_text b o d) s = Ret (set_xd_text b o d) s ->
  snd_process_data_buf t (set_xd_text b o d) s = Ret (set_xd_text b o d) s.
Proof.
  intros [Hp _] Ho Hd. unfold snd_process_data_buf. cbn [xd_offs set_xd_text].
  destruct (o =? 0)%nat; [done|]. rewrite (proj2 (Nat.leb_gt _ _)) by done.
  change (xd_card_parsed (set_xd_text b o d)) with (xd_card_parsed d). by rewrite Hp.
Qed.

Lemma set_tag_tag a b d : set_xd_tag a (set_xd_tag b d) = set_xd_tag a d.
Proof. done. Qed.

Lemma set_tag_same d : set_xd_tag (xd_tag d) d = d.
Proof. by destruct d. Qed.

Lemma upd_set_tag f a d : upd_cur_dev f (set_xd_tag a d) = set_xd_tag a (upd_cur_dev f d).
Proof. unfold upd_cur_dev. cbn. by destruct (xd_cur_card d), (xd_cur_dev d) as [[? ?]|]. Qed.

Lemma upd_tag f d : xd_tag (upd_cur_dev f d) = xd_tag d.
Proof. unfold upd_cur_dev. by destruct (xd_cur_card d), (xd_cur_dev d) as [[? ?]|]. Qed.

Lemma inside_set_tag a b d : inside a d -> inside b (set_xd_tag b d).
Proof. intros (Hp & Hf & _ & Hc & Hd). by repeat split. Qed.

Lemma start_ok t d d1 :
  (forall s, snd_start_tag t (clean d) s = Ret (clean d1) s) ->
  forall s, exists n, snd_start_tag t (clean d) s = Ret (clean d1) (set_sn_allocs n s).
Proof. intros Hs s. exists (sn_allocs s). rewrite Hs. by destruct s. Qed.

Lemma does_plugin p :
  plugin_ok p = true ->
  does (inside TAG_DEVICE)
    (upd_cur_dev (set_sd_so_name (Some (snd p)) ∘ set_sd_type SND_NODE_DEV_TYPE_PLUGIN))
    (elem (fst p) [leaf "so-name" (snd p)]).
Proof.
  destruct p as [tag so]. unfold plugin_ok. cbn [fst snd]. intros Hk.
  apply andb_true_iff in Hk as [Hplug Hso].
  pose proof (plugin_not_dev _ Hplug) as Hdev. pose proof (plugin_not_card _ Hplug) as Hcard.
  intros l d Hl Hd. split; [|split; [by apply inside_upd|]].
  { destruct Hl as (body & _ & ->). eauto. }
  set (d1 := set_xd_tag TAG_PLUGIN (upd_cur_dev (set_sd_type SND_NODE_DEV_TYPE_PLUGIN) d)).
  assert (Hd1 : inside TAG_PLUGIN d1) by (eapply inside_set_tag, inside_upd, Hd).
  destruct Hd as (Hp & Hf & Htag & Hc & Hdv).
  replace (upd_cur_dev _ d) with (end_state tag (apply_all
    [upd_cur_dev (set_sd_so_name (Some so))] d1)).
  2:{ unfold end_state, apply_all. cbn [foldl]. rewrite Hdev, Hplug. cbn [orb]. subst d1.
      rewrite upd_set_tag, set_tag_tag, upd_cur_dev_twice.
      rewrite <- (set_tag_same (upd_cur_dev _ d)). by rewrite upd_tag, Htag. }
  eapply (elem_run tag _ _ (inside TAG_PLUGIN)); [exact Hl|done|apply inside_active| |done| |].
  - apply start_ok. intros s. unfold snd_start_tag.
    change (xd_card_parsed (clean d)) with (xd_card_parsed d). rewrite Hp, Hcard.
    unfold is_dev_tag in Hdev. apply orb_false_iff in Hdev as [Hdev ->].
    apply orb_false_iff in Hdev as [-> ->]. rewrite Hplug. unfold snd_dev_set_type.
    change (clean (clean d)) with (clean d). rewrite upd_clean.
    case_match; [done|]. unfold snd_dev_def_init. by case_match.
  - constructor; [by apply does_so_name|constructor].
  - intros b o d' s Hd' Ho. apply process_container; [by eapply inside_active|done|].
    destruct Hd' as (_ & _ & Ht' & _ & [x Hx]). unfold dispatch. cbn [xd_tag set_xd_text].
    rewrite Ht'. unfold snd_parse_plugin_properties.
    change (xd_cur_dev (set_xd_text b o d')) with (xd_cur_dev d'). rewrite Hx.
    by destruct (String.eqb_spec tag "so-name") as [->|_].
Qed.

Lemma apply_upds (fs : list (snd_dev_def -> snd_dev_def)) d :
  is_Some (xd_cur_card d) -> is_Some (xd_cur_dev d) ->
  apply_all (map upd_cur_dev fs) d = upd_cur_dev (fun x => foldl (fun x f => f x) x fs) d.
Proof.
  intros [c Hc] [[t i] Hd]. revert d c Hc Hd. induction fs as [|f fs IH]; intros d c Hc Hd.
  - unfold upd_cur_dev. rewrite Hc, Hd. cbn. destruct d, t, c; cbn in *; subst; cbn;
      by rewrite list_alter_id.
  - change (apply_all (map upd_cur_dev (f :: fs)) d)
      with (apply_all (map upd_cur_dev fs) (upd_cur_dev f d)).
    rewrite (IH _ (set_cd_devs t (alter f i (cd_devs t c)) c)).
    + by rewrite upd_cur_dev_twice.
    + unfold upd_cur_dev. by rewrite Hc, Hd.
    + unfold upd_cur_dev. by rewrite Hc, Hd.
Qed.

Lemma foldl_add_prop ps x :
  foldl (fun x f => f x) x (map add_prop ps) = set_sd_props (sd_props x ++ ps) x.
Proof.
  revert x. induction ps as [|p ps IH]; intros x; cbn.
  - rewrite app_nil_r. by destruct x.
  - rewrite IH. cbn. by rewrite <- app_assoc.
Qed.

Lemma start_props d s :
  xd_card_parsed d = false ->
  snd_start_tag "props" (clean d) s = Ret (clean (set_xd_tag TAG_DEV_PROPS d)) s.
Proof.
  intros Hp. unfold snd_start_tag. change (xd_card_parsed (clean d)) with (xd_card_parsed d).
  rewrite Hp. tag_tests.
  case_match; [done|]. unfold snd_dev_def_init. by case_match.
Qed.

Lemma does_props ps :
  forallb prop_ok ps = true ->
  does (inside TAG_DEVICE) (upd_cur_dev (fun x => set_sd_props (sd_props x ++ ps) x))
    (elem "props" (map prop_leaf ps)).
Proof.
  intros Hk l d Hl Hd. split; [|split; [by apply inside_upd|]].
  { destruct Hl as (body & _ & ->). eauto. }
  set (d1 := set_xd_tag TAG_DEV_PROPS d).
  assert (Hd1 : inside TAG_DEV_PROPS d1) by (eapply inside_set_tag, Hd).
  replace (upd_cur_dev _ d) with
    (end_state "props" (apply_all (map upd_cur_dev (map add_prop ps)) d1)).
  2:{ destruct Hd1 as (_ & _ & _ & Hc & Hdv). rewrite apply_upds by done.
      unfold end_state. tag_tests.
      subst d1. rewrite upd_set_tag, set_tag_tag. destruct Hd as (_ & _ & Htag & _ & _).
      rewrite <- (set_tag_same (upd_cur_dev (fun x => set_sd_props _ x) d)), upd_tag, Htag.
      f_equal. unfold upd_cur_dev. case_match; [|done]. case_match; [|done]. case_match.
      do 3 f_equal. apply list_alter_ext; [|done]. intros x _. apply foldl_add_prop. }
  eapply (elem_run "props" _ _ (inside TAG_DEV_PROPS)); [exact Hl|apply Hd|apply inside_active| |done| |].
  - apply start_ok. intros s. apply start_props. apply Hd.
  - rewrite map_map. apply Forall2_fmap_2, Forall_Forall2_diag, Forall_forall.
    intros p Hp. apply does_prop. rewrite forallb_forall in Hk. apply Hk.
    by apply list_elem_of_In.
  - intros b o d' s Hd' Ho. apply process_container; [by eapply inside_active|done|].
    destruct Hd' as (_ & _ & Ht' & _). unfold dispatch. cbn [xd_tag set_xd_text]. by rewrite Ht'.
Qed.

(** ** Cards *)

(** Between the devices of the card that was found. *)
Definition in_card (d : xml_userdata) : Prop :=
  xd_card_parsed d = false /\ xd_card_found d = true /\ xd_tag d = TAG_CARD /\
  is_Some (xd_cur_card d).

Lemma in_card_active d : in_card d -> active d.
Proof. intros (Hp & Hf & _). split; [done|by right]. Qed.

(** A device is appended to its list and becomes the current one. *)
Definition with_dev (t : snd_node_type) (x : snd_dev_def) (d : xml_userdata) : xml_userdata :=
  match xd_cur_card d with
  | Some c => set_xd_cur_dev (Some (t, length (cd_devs t c)))
                (set_xd_cur_card (Some (set_cd_devs t (cd_devs t c ++ [x]) c)) d)
  | None => d
  end.

Lemma list_alter_end {A} (f : A -> A) l x : alter f (length l) (l ++ [x]) = l ++ [f x].
Proof. rewrite <- (Nat.add_0_r (length l)). by rewrite alter_app_r. Qed.

Lemma upd_with_dev f t x d :
  is_Some (xd_cur_card d) -> upd_cur_dev f (with_dev t x d) = with_dev t (f x) d.
Proof.
  intros [c Hc]. unfold with_dev, upd_cur_dev. rewrite Hc. cbn.
  destruct t; cbn; rewrite list_alter_end; done.
Qed.

Definition dev_zero (t : snd_node_type) : snd_dev_def :=
  SndDevDef t 0 SND_NODE_DEV_TYPE_HW None None [].

(** What the elements of a device do to it, in order. *)
Definition dev_updates (d : dev_text) : list (snd_dev_def -> snd_dev_def) :=
  [set_sd_device (u32 (atoi (dt_id d))); set_sd_name (Some (dt_name d))] ++
  (match dt_plugin d with
   | Some p => [set_sd_so_name (Some (snd p)) ∘ set_sd_type SND_NODE_DEV_TYPE_PLUGIN]
   | None => []
   end) ++
  (match dt_props d with
   | [] => []
   | ps => [fun x => set_sd_props (sd_props x ++ ps) x]
   end).

Lemma dev_updates_of d :
  foldl (fun x f => f x) (dev_zero (dt_type d)) (dev_updates d) = dev_of d.
Proof. destruct d as [t i n [[tag so]|] [|p ps]]; reflexivity. Qed.

Lemma dev_children d :
  dev_ok d = true ->
  Forall2 (does (inside TAG_DEVICE)) (map upd_cur_dev (dev_updates d))
    ([leaf "id" (dt_id d); leaf "name" (dt_name d)] ++ plugin_elems d ++ props_elems d).
Proof.
  unfold dev_ok. intros Hk. apply andb_true_iff in Hk as [Hk Hps].
  apply andb_true_iff in Hk as [Hk Hpl]. apply andb_true_iff in Hk as [Hid Hname].
  unfold dev_updates. cbn [app map]. constructor; [by apply does_dev_id|].
  constructor; [by apply does_dev_name|]. rewrite map_app. apply Forall2_app.
  - unfold plugin_elems. destruct (dt_plugin d) as [[tag so]|]; [|constructor].
    constructor; [by apply (does_plugin (tag, so))|constructor].
  - unfold props_elems. destruct (dt_props d) as [|p ps]; [constructor|].
    constructor; [by apply does_props|constructor].
Qed.

Lemma start_dev t d s :
  in_card d ->
  snd_start_tag (dev_tag t) (clean d) s =
  Ret (clean (set_xd_tag TAG_DEVICE (with_dev t (dev_zero t) d)))
    (set_sn_allocs (S (sn_allocs s)) s).
Proof.
  intros (Hp & Hf & _ & [c Hc]). unfold snd_start_tag.
  change (xd_card_parsed (clean d)) with (xd_card_parsed d). rewrite Hp.
  unfold with_dev. rewrite Hc.
  destruct t; cbn [dev_tag]; tag_tests; cbn [xd_tag set_xd_tag];
    change (xd_card_found _) with (xd_card_found d); rewrite Hf, andb_false_r;
    unfold snd_dev_def_init; change (xd_cur_card _) with (xd_cur_card d); rewrite Hc;
    tag_tests; unfold bind, snd_calloc; rewrite Halloc; reflexivity.
Qed.

Lemma does_dev dt :
  dev_ok dt = true -> does in_card (with_dev (dt_type dt) (dev_of dt)) (dev_elem dt).
Proof.
  intros Hk l d Hl Hd. pose proof Hd as (Hp & Hf & Htag & [c Hc]).
  assert (HF : in_card (with_dev (dt_type dt) (dev_of dt) d)).
  { unfold with_dev. rewrite Hc. repeat split; eauto. }
  split; [|split; [done|]].
  { destruct Hl as (body & _ & ->). eauto. }
  set (d1 := set_xd_tag TAG_DEVICE (with_dev (dt_type dt) (dev_zero (dt_type dt)) d)).
  assert (Hd1 : inside TAG_DEVICE d1).
  { unfold d1, with_dev. rewrite Hc. repeat split; eauto. }
  replace (with_dev _ _ d) with
    (end_state (dev_tag (dt_type dt)) (apply_all (map upd_cur_dev (dev_updates dt)) d1)).
  2:{ destruct Hd1 as (_ & _ & _ & Hc1 & Hdv1). rewrite apply_upds by done.
      unfold end_state. assert (is_dev_tag (dev_tag (dt_type dt)) = true) as ->
        by (by destruct (dt_type dt)).
      unfold d1. rewrite upd_set_tag, set_tag_tag, upd_with_dev, dev_updates_of by eauto.
      rewrite <- (set_tag_same (with_dev _ (dev_of dt) d)).
      by destruct HF as (_ & _ & -> & _). }
  eapply (elem_run (dev_tag (dt_type dt)) _ _ (inside TAG_DEVICE));
    [exact Hl|done|apply inside_active| |done|by apply dev_children|].
  - intros s. exists (S (sn_allocs s)). by apply start_dev.
  - intros b o d' s Hd' Ho. apply process_container; [by eapply inside_active|done|].
    destruct Hd' as (_ & _ & Ht' & _). unfold dispatch. cbn [xd_tag set_xd_text]. rewrite Ht'.
    unfold snd_parse_device_properties. by destruct (dt_type dt).
Qed.

(** *** The card that is looked for *)

(** No card was found yet. *)
Record looking (card : Z) (card_name : option string) (d : xml_userdata) : Prop := Looking {
  lk_parsed : xd_card_parsed d = false;
  lk_found : xd_card_found d = false;
  lk_cur_card : xd_cur_card d = None;
  lk_cur_dev : xd_cur_dev d = None;
  lk_card : xd_card d = card;
  lk_name : xd_card_name d = card_name
}.

Definition found_state (c : snd_card) (d : xml_userdata) : xml_userdata :=
  set_xd_cur_card (Some c) (set_xd_card_found true d).

(** The effect of the [<id>] of a card, then of its [<name>]. *)
Definition id_effect (card : Z) (c : card_text) (d : xml_userdata) : xml_userdata :=
  if u32 (atoi (ct_id c)) =? card then found_state (set_cd_card card card_zero) d else d.

Definition header_effect (card : Z) (card_name : option string) (c : card_text)
    (d : xml_userdata) : xml_userdata :=
  match card_header card card_name c with
  | Some h => found_state h d
  | None => d
  end.

Lemma runs_card_id card nm c l d :
  looking card nm d -> xd_tag d = TAG_CARD -> text_ok (ct_id c) = true ->
  leaf "id" (ct_id c) l -> runs l d (id_effect card c d).
Proof.
  intros Hk Htag Ht Hl. apply (runs_leaf (id_effect card c) _ _ _ _ Hl); [done..| |].
  { split; [apply Hk|by left]. }
  intros s. unfold dispatch. cbn [xd_tag set_xd_text]. rewrite Htag.
  unfold snd_parse_card_properties, id_effect. tag_tests. cbn [xd_buf set_xd_text].
  change (xd_card (set_xd_text _ _ d)) with (xd_card d). rewrite (lk_card _ _ _ Hk).
  destruct (Z.eqb_spec (u32 (atoi (ct_id c))) card) as [E|_].
  - unfold bind, snd_parse_initialize_card_def.
    change (xd_cur_card (set_xd_text _ _ d)) with (xd_cur_card d).
    rewrite (lk_cur_card _ _ _ Hk). unfold bind, snd_calloc. rewrite Halloc. rewrite E.
    eexists _, _. split; [|reflexivity]. done.
  - exists (sn_allocs s). eexists. split; [|by destruct s]. done.
Qed.

Lemma runs_card_name card nm c l d :
  looking card nm d -> xd_tag d = TAG_CARD -> text_ok (ct_name c) = true ->
  leaf "name" (ct_name c) l -> runs l (id_effect card c d) (header_effect card nm c d).
Proof.
  intros Hk Htag Ht Hl.
  change (header_effect card nm c d) with ((fun _ => header_effect card nm c d) (id_effect card c d)).
  apply (runs_leaf (fun _ => header_effect card nm c d) _ _ _ _ Hl); [done..| |].
  { unfold id_effect. destruct (_ =? _); (split; [apply Hk|by left]). }
  intros s. unfold dispatch. cbn [xd_tag set_xd_text].
  assert (xd_tag (id_effect card c d) = TAG_CARD) as ->
    by (unfold id_effect; by destruct (_ =? _)).
  unfold snd_parse_card_properties, id_effect, header_effect, card_header. tag_tests.
  cbn [xd_buf set_xd_text].
  destruct (u32 (atoi (ct_id c)) =? card) eqn:E.
  - unfold found_state. cbn [xd_cur_card set_xd_cur_card set_xd_text]. unfold set_card_name, bind. rewrite strdup_ok. eexists _, _. split; [|reflexivity]. done.
  - change (xd_cur_card (set_xd_text _ _ d)) with (xd_cur_card d).
    rewrite (lk_cur_card _ _ _ Hk).
    change (xd_card_name (set_xd_text _ _ d)) with (xd_card_name d). rewrite (lk_name _ _ _ Hk).
    destruct nm as [nm|]; [|exists (sn_allocs s); eexists; split; [|destruct s; reflexivity]; done].
    destruct (List.find _ _) as [token|]; [|exists (sn_allocs s); eexists; split; [|destruct s; reflexivity]; done].
    unfold bind, snd_parse_initialize_card_def.
    change (xd_cur_card (set_xd_text _ _ d)) with (xd_cur_card d).
    rewrite (lk_cur_card _ _ _ Hk). unfold bind, snd_calloc at 1. rewrite Halloc.
    cbn [negb]. unfold ret at 1. cbn [negb]. unfold set_card_name, bind. rewrite strdup_ok.
    eexists _, _. split; [|reflexivity]. done.
Qed.

(** Two elements at the head of a list of children. *)
Lemma runs_gap g l d d' rest s :
  gap g -> (exists t l', l = StartTag t :: l') -> xd_card_parsed d = false -> runs l d d' ->
  exists n, run_sax (g ++ l ++ rest) (clean d) s = run_sax rest (clean d') (set_sn_allocs n s).
Proof.
  intros Hg (t & l' & ->) Hp Hr. cbn [app]. rewrite run_gap_start by done.
  change (StartTag t :: l' ++ rest) with ((StartTag t :: l') ++ rest). rewrite run_sax_app.
  destruct (Hr s) as [n ->]. by exists n.
Qed.

Lemma children_inv P Ps body :
  children (P :: Ps) body -> exists g l r, body = g ++ l ++ r /\ gap g /\ P l /\ children Ps r.
Proof. intros Hc. inversion Hc; subst. eauto 10. Qed.

Lemma start_card d s :
  xd_card_parsed d = false ->
  snd_start_tag "card" d s = Ret (clean (set_xd_tag TAG_CARD d)) s.
Proof.
  intros Hp. unfold snd_start_tag. rewrite Hp. tag_tests.
  case_match; [done|]. unfold snd_dev_def_init. by case_match.
Qed.

(** From the start tag of a card to its first device. *)
Lemma run_header card nm c l d s :
  looking card nm d -> card_ok c = true -> card_elem c l ->
  exists body n, children (map dev_elem (ct_devs c)) body /\
    run_sax l d s =
    run_sax (body ++ [EndTag "card"]) (clean (header_effect card nm c (set_xd_tag TAG_CARD d)))
      (set_sn_allocs n s).
Proof.
  intros Hk Hok (body & Hc & ->). unfold card_ok in Hok. apply andb_true_iff in Hok as [Hok _].
  apply andb_true_iff in Hok as [Hid Hname]. cbn [app] in Hc.
  apply children_inv in Hc as (g1 & l1 & r1 & -> & Hg1 & Hl1 & Hc).
  apply children_inv in Hc as (g2 & l2 & r2 & -> & Hg2 & Hl2 & Hc).
  cbn [run_sax handle_sax]. unfold bind at 1. rewrite start_card by apply Hk.
  set (d1 := set_xd_tag TAG_CARD d). assert (Hk1 : looking card nm d1) by (destruct Hk; by split).
  rewrite <- !app_assoc.
  destruct (runs_gap g1 l1 d1 (id_effect card c d1) (g2 ++ l2 ++ r2 ++ [EndTag "card"]) s)
    as [n1 ->]; [done|by eapply leaf_starts|apply Hk|by eapply runs_card_id|].
  destruct (runs_gap g2 l2 (id_effect card c d1) (header_effect card nm c d1)
              (r2 ++ [EndTag "card"]) (set_sn_allocs n1 s)) as [n2 ->];
    [done|by eapply leaf_starts| |by eapply runs_card_name|].
  { unfold id_effect. destruct (_ =? _); apply Hk. }
  exists r2, n2. done.
Qed.

Lemma apply_devs ds d c :
  xd_cur_card d = Some c ->
  xd_cur_card (apply_all (map (fun x => with_dev (dt_type x) (dev_of x)) ds) d) =
  Some (foldl add_dev c ds).
Proof.
  revert d c. induction ds as [|x ds IH]; intros d c Hc; [done|].
  cbn [map foldl].
  change (apply_all (?f :: ?fs) d) with (apply_all fs (f d)). apply IH.
  unfold with_dev. by rewrite Hc.
Qed.

(** The card that is looked for is read, and the parser stops looking. *)
Lemma run_card_found card nm c h l d s :
  looking card nm d -> card_ok c = true -> card_header card nm c = Some h -> card_elem c l ->
  exists d' n, run_sax l d s = Ret d' (set_sn_allocs n s) /\
    xd_card_parsed d' = true /\ xd_cur_card d' = Some (card_of h c).
Proof.
  intros Hk Hok Hh Hl.
  destruct (run_header card nm c l d s Hk Hok Hl) as (body & n & Hc & ->).
  unfold header_effect. rewrite Hh. set (d1 := found_state h (set_xd_tag TAG_CARD d)).
  assert (Hd1 : in_card d1) by (repeat split; [apply Hk|eauto]).
  destruct (children_run in_card (map (fun x => with_dev (dt_type x) (dev_of x)) (ct_devs c))
    (map dev_elem (ct_devs c)) body d1) as (HJ & g & Hg & Hrest); [by intros d' []| |done|done|].
  { unfold card_ok in Hok. apply andb_true_iff in Hok as [_ Hok]. rewrite forallb_forall in Hok.
    apply Forall2_fmap_2, Forall_Forall2_diag, Forall_forall. intros x Hx. apply does_dev, Hok.
    by apply list_elem_of_In. }
  destruct (Hrest [EndTag "card"] (set_sn_allocs n s)) as [m ->].
  rewrite gap_end; [|done|by apply in_card_active|].
  - eexists _, m. split; [reflexivity|].
    unfold end_state. tag_tests. cbv zeta.
    change (xd_card_found (set_xd_tag _ ?x)) with (xd_card_found x).
    destruct HJ as (_ & -> & _). split; [done|]. by apply apply_devs.
  - intros b o Ho. apply process_container; [by apply in_card_active|done|].
    destruct HJ as (_ & _ & Ht & _). unfold dispatch. cbn [xd_tag set_xd_text]. by rewrite Ht.
Qed.

(** *** Other cards *)

Definition no_card (l : list sax) : Prop := Forall (fun c => c <> StartTag "card") l.

Lemma no_card_texts chunks : no_card (map Text chunks).
Proof. apply Forall_fmap, Forall_forall. by intros. Qed.

Lemma no_card_children Ps body :
  children Ps body -> Forall (fun P : list sax -> Prop => forall l, P l -> no_card l) Ps ->
  no_card body.
Proof.
  induction 1 as [g (chunks & -> & _)|P Ps g l r (chunks & -> & _) Hl Hr IH]; intros HPs.
  - apply no_card_texts.
  - apply Forall_cons in HPs as [HP HPs]. apply Forall_app_2; [apply no_card_texts|].
    apply Forall_app_2; [by apply HP|by apply IH].
Qed.

Lemma no_card_elem tag Ps l :
  (tag =? "card")%string = false -> elem tag Ps l ->
  Forall (fun P : list sax -> Prop => forall l, P l -> no_card l) Ps -> no_card l.
Proof.
  intros Ht (body & Hc & ->) HPs. constructor.
  - intros [= ->]. done.
  - apply Forall_app_2; [by eapply no_card_children|]. by repeat constructor.
Qed.

Lemma no_card_leaf tag text l : (tag =? "card")%string = false -> leaf tag text l -> no_card l.
Proof.
  intros Ht (chunks & -> & _). constructor; [by intros [= ->]|].
  apply Forall_app_2; [apply no_card_texts|by repeat constructor].
Qed.

Lemma no_card_dev d l : dev_ok d = true -> dev_elem d l -> no_card l.
Proof.
  unfold dev_ok. intros Hk Hl. apply andb_true_iff in Hk as [Hk Hps].
  apply andb_true_iff in Hk as [_ Hpl].
  eapply no_card_elem; [|exact Hl|]; [by destruct (dt_type d)|].
  constructor; [by intros ?; apply no_card_leaf|]. constructor; [by intros ?; apply no_card_leaf|].
  apply Forall_app_2.
  - unfold plugin_elems. destruct (dt_plugin d) as [[tag so]|]; [|constructor].
    repeat constructor. intros l' Hl'. unfold plugin_ok in Hpl. apply andb_true_iff in Hpl as [Hpl _].
    eapply no_card_elem; [by apply plugin_not_card|exact Hl'|].
    repeat constructor. by intros ?; apply no_card_leaf.
  - unfold props_elems. destruct (dt_props d) as [|p ps]; [constructor|].
    repeat constructor. intros l' Hl'. eapply (no_card_elem "props"); [done|exact Hl'|].
    apply Forall_fmap, Forall_forall. intros q Hq l'' Hl''.
    rewrite forallb_forall in Hps. specialize (Hps q (proj1 (list_elem_of_In _ _) Hq)).
    unfold prop_ok in Hps. bool_hyps. by eapply (no_card_leaf (fst q)).
Qed.

Definition skipping (card : Z) (nm : option string) (d : xml_userdata) : Prop :=
  looking card nm d /\ xd_tag d <> TAG_CARD.

(** Nothing inside another card is looked at. *)
Lemma skip_run card nm l d s :
  skipping card nm d -> no_card l ->
  exists d', run_sax l d s = Ret d' s /\ skipping card nm d'.
Proof.
  revert d. induction l as [|c l IH]; intros d Hd Hl; [by exists d|].
  apply Forall_cons in Hl as [Hc Hl]. cbn [run_sax]. unfold bind.
  assert (exists d', handle_sax c d s = Ret d' s /\ skipping card nm d') as (d' & -> & Hd');
    [|by apply IH].
  destruct Hd as [Hk Ht]. destruct c as [t|t|x]; cbn [handle_sax].
  - assert (Hcard : (t =? "card")%string = false).
    { apply String.eqb_neq. by intros ->. }
    unfold snd_start_tag. rewrite (lk_parsed _ _ _ Hk), Hcard.
    unfold snd_dev_set_type, upd_cur_dev.
    change (xd_cur_card (clean d)) with (xd_cur_card d). rewrite (lk_cur_card _ _ _ Hk).
    repeat match goal with |- context [if ?b then (_, _) else _] => destruct b end.
    all: rewrite bool_decide_false by done; cbn [negb andb];
      change (xd_card_found _) with (xd_card_found d); rewrite (lk_found _ _ _ Hk); cbn [negb].
    all: (eexists; split; [reflexivity|]); (split; [destruct Hk; by split|done]).
  - unfold snd_end_tag. rewrite (lk_parsed _ _ _ Hk), (lk_found _ _ _ Hk).
    rewrite bool_decide_false by done. by exists d.
  - eexists. split; [reflexivity|]. unfold snd_data_handler.
    case_match; (split; [destruct Hk; by split|done]).
Qed.

Lemma run_card_skip card nm c l d s :
  looking card nm d -> card_ok c = true -> card_header card nm c = None -> card_elem c l ->
  exists d' n, run_sax l d s = Ret d' (set_sn_allocs n s) /\ looking card nm d'.
Proof.
  intros Hk Hok Hh Hl.
  destruct (run_header card nm c l d s Hk Hok Hl) as (body & n & Hc & ->).
  unfold header_effect. rewrite Hh. set (d1 := set_xd_tag TAG_CARD d).
  assert (Hk1 : looking card nm d1) by (destruct Hk; by split).
  unfold card_ok in Hok. apply andb_true_iff in Hok as [_ Hok].
  destruct (ct_devs c) as [|x ds].
  - inversion Hc as [g Hg|]; subst. rewrite gap_end; [|done|split; [apply Hk1|by left]|].
    + eexists _, n. split; [reflexivity|]. unfold end_state. tag_tests. cbv zeta.
      change (xd_card_found (set_xd_tag _ ?y)) with (xd_card_found y).
      rewrite (lk_found _ _ _ Hk1). destruct Hk; by split.
    + intros b o Ho. by apply process_container; [split; [apply Hk1|by left]|..].
  - cbn [map] in Hc. apply children_inv in Hc as (g & l1 & r & -> & Hg & Hl1 & Hr).
    cbn [forallb] in Hok. apply andb_true_iff in Hok as [Hx Hds].
    pose proof (no_card_dev _ _ Hx Hl1) as Hn1. destruct Hl1 as (b1 & Hb1 & ->).
    rewrite <- app_assoc. cbn [app]. rewrite run_gap_start by (done || apply Hk1).
    cbn [run_sax handle_sax]. unfold bind at 1.
    assert (exists d2, snd_start_tag (dev_tag (dt_type x)) (clean d1) (set_sn_allocs n s) =
        Ret d2 (set_sn_allocs n s) /\ skipping card nm d2) as (d2 & -> & Hd2).
    { unfold snd_start_tag. change (xd_card_parsed (clean d1)) with (xd_card_parsed d).
      rewrite (lk_parsed _ _ _ Hk). destruct (dt_type x); cbn [dev_tag]; tag_tests;
        (rewrite bool_decide_false by done); cbn [negb andb];
        change (xd_card_found _) with (xd_card_found d); rewrite (lk_found _ _ _ Hk); cbn [negb].
      all: (eexists; split; [reflexivity|]); (split; [destruct Hk; by split|done]). }
    destruct (skip_run card nm (((b1 ++ [EndTag (dev_tag (dt_type x))]) ++ r) ++ [EndTag "card"])
      d2 (set_sn_allocs n s) Hd2) as (d3 & -> & Hd3 & _); [|by exists d3, n].
    apply Forall_cons in Hn1 as [_ Hn1]. repeat apply Forall_app_2.
    + by apply Forall_app in Hn1 as [? _].
    + by repeat constructor.
    + eapply no_card_children; [exact Hr|]. apply Forall_fmap, Forall_forall. intros y Hy l' Hl'.
      rewrite forallb_forall in Hds. eapply no_card_dev; [|exact Hl'].
      apply Hds. by apply list_elem_of_In.
    + by repeat constructor.
Qed.

(** *** Whole documents *)

(** Cards that are not looked for, the card that is, and anything after it. *)
Definition document (pre : list card_text) (c : card_text) (l : list sax) : Prop :=
  exists root front lc rest, plain_tag root = true /\ children (map card_elem pre) front /\
    card_elem c lc /\ l = StartTag root :: front ++ lc ++ rest.

Definition other_card (card : Z) (nm : option string) (c : card_text) : Prop :=
  card_ok c = true /\ card_header card nm c = None.

Lemma run_cards_skip card nm pre front rest d s :
  looking card nm d -> Forall (other_card card nm) pre -> children (map card_elem pre) front ->
  exists d' n, run_sax (front ++ rest) d s = run_sax rest d' (set_sn_allocs n s) /\
    looking card nm d'.
Proof.
  assert (Htext : forall g rest d s, gap g -> looking card nm d ->
    exists d', run_sax (g ++ rest) d s = run_sax rest d' s /\ looking card nm d').
  { clear. intros g rest d s (chunks & -> & _). revert d.
    induction chunks as [|x l IH]; intros d Hd; [by exists d|]. cbn [map app run_sax]. unfold bind.
    apply IH. unfold snd_data_handler. case_match; destruct Hd; by split. }
  revert front d s. induction pre as [|c pre IH]; intros front d s Hd Hpre Hc.
  - inversion Hc as [g Hg|]; subst. destruct (Htext front rest d s) as (d' & -> & Hd'); [done|done|].
    exists d', (sn_allocs s). by destruct s.
  - cbn [map] in Hc. apply children_inv in Hc as (g & l & r & -> & Hg & Hl & Hr).
    apply Forall_cons in Hpre as [[Hok Hh] Hpre]. rewrite <- !app_assoc.
    destruct (Htext g (l ++ r ++ rest) d s Hg Hd) as (d1 & -> & Hd1).
    rewrite run_sax_app.
    destruct (run_card_skip card nm c l d1 s Hd1 Hok Hh Hl) as (d2 & n & -> & Hd2).
    destruct (IH r d2 (set_sn_allocs n s) Hd2 Hpre Hr) as (d3 & m & -> & Hd3). by exists d3, m.
Qed.

Lemma run_parsed l d s :
  xd_card_parsed d = true ->
  exists d', run_sax l d s = Ret d' s /\ xd_cur_card d' = xd_cur_card d.
Proof.
  revert d. induction l as [|c l IH]; intros d Hp; [by exists d|]. cbn [run_sax]. unfold bind.
  destruct c as [t|t|x]; cbn [handle_sax].
  - unfold snd_start_tag. rewrite Hp. by apply IH.
  - unfold snd_end_tag. rewrite Hp. by apply IH.
  - unfold ret. destruct (IH (snd_data_handler x d)) as (d' & -> & E).
    + unfold snd_data_handler. by case_match.
    + exists d'. split; [done|]. rewrite E. unfold snd_data_handler. by case_match.
Qed.

Lemma run_document card nm pre c h l s :
  Forall (other_card card nm) pre -> card_ok c = true -> card_header card nm c = Some h ->
  document pre c l ->
  exists d' n, run_sax l (xml_init card nm) s = Ret d' (set_sn_allocs n s) /\
    xd_cur_card d' = Some (card_of h c).
Proof.
  intros Hpre Hok Hh (root & front & lc & rest & Hroot & Hfront & Hlc & ->).
  cbn [run_sax handle_sax]. unfold bind at 1. rewrite start_plain by done.
  assert (Hk : looking card nm (clean (xml_init card nm))) by done.
  destruct (run_cards_skip card nm pre front (lc ++ rest) _ s Hk Hpre Hfront)
    as (d1 & n1 & -> & Hd1).
  rewrite run_sax_app.
  destruct (run_card_found card nm c h lc d1 (set_sn_allocs n1 s) Hd1 Hok Hh Hlc)
    as (d2 & n2 & -> & Hp & Hc2).
  destruct (run_parsed rest d2 (set_sn_allocs n2 (set_sn_allocs n1 s)) Hp) as (d3 & -> & E).
  exists d3, n2. split; [done|]. by rewrite E.
Qed.
End Run.
