(* ===== verification/SndCardRefs.v ===== *)
(** * Sound card definitions: finding cards, references and queries

    The first [snd_card_def_get_card] reads the file and gives the card as it is
    written there; every further one finds the card in memory.  Over any
    sequence of calls the reference count of a card is the number of handles
    that were given out and not put back ([cards_held]), so a handle is valid
    exactly as long as it is held. *)

From S2P Require Export SndCardProps.
From stdpp Require Export relations.
Open Scope Z_scope.
#[export] Set Default Goal Selector "!".

(** ** Finding a card in memory *)

Section Cards.
Context `{SndEnv}.

(** What [snd_card_def_get_card] looks for: the name the kernel gives the card,
    or the number when the kernel has no such card. *)
Definition sought (n : nat) (card : Z) : option (option string * Z) :=
  match snd_id_file n card with
  | IdAbsent | IdEmpty => Some (None, card)
  | IdLine line => Some (Some (drop_last line), UINT_MAX)
  | IdUnopenable => None
  end.

(** A card in memory that is not the one sought. *)
Definition unmatched (card : Z) (nm : option string) (o : option snd_card) : Prop :=
  match o with
  | None => True
  | Some c =>
      match nm with
      | Some n => exists name, cd_name c = Some name /\ strncmp_eq n name = false
      | None => cd_card c <> card
      end
  end.

Definition matched (card : Z) (nm : option string) (c : snd_card) : Prop :=
  match nm with
  | Some n => exists name, cd_name c = Some name /\ strncmp_eq n name = true
  | None => cd_card c = card
  end.

Lemma card_matches_not card nm c s :
  unmatched card nm (Some c) -> card_matches card nm c s = Ret false s.
Proof.
  unfold card_matches. cbn. destruct nm as [n|].
  - intros (name & -> & E). unfold bind. cbn. by rewrite E.
  - intros E. unfold ret. f_equal. by apply Z.eqb_neq.
Qed.

Lemma card_matches_yes card nm c s : matched card nm c -> card_matches card nm c s = Ret true s.
Proof.
  unfold card_matches. destruct nm as [n|].
  - intros (name & -> & E). unfold bind. cbn. by rewrite E.
  - intros E. unfold ret. f_equal. by apply Z.eqb_eq.
Qed.

Lemma find_card_none card nm s :
  Forall (unmatched card nm) (sn_cards s) -> find_card card nm s = Ret None s.
Proof.
  intros Hall. unfold find_card, bind at 1. cbn [gets].
  generalize (seq 0 (length (sn_cards s))). intros ix.
  induction ix as [|i ix IH]; [done|]. cbn [for_idx]. unfold bind at 1.
  destruct (sn_cards s !! i) as [[c|]|] eqn:E; [|exact IH..].
  unfold bind at 1. rewrite card_matches_not; [exact IH|].
  exact (proj1 (Forall_lookup _ _) Hall i (Some c) E).
Qed.

(** The first card that matches gets one more reference. *)
Lemma find_card_some card nm pre c post s :
  sn_cards s = pre ++ Some c :: post -> Forall (unmatched card nm) pre -> matched card nm c ->
  find_card card nm s =
    Ret (Some (length pre))
      (set_sn_cards (pre ++ Some (set_cd_refcnt (cd_refcnt c + 1) c) :: post) s).
Proof.
  intros E Hpre Hc. unfold find_card, bind at 1. cbn [gets].
  rewrite E, length_app. cbn [length]. rewrite seq_app. cbn [seq Nat.add].
  assert (Hgo : forall ix, (forall i, i ∈ ix -> (i < length pre)%nat) -> forall ix' s',
    for_idx (ix ++ ix') (fun i =>
      match (pre ++ Some c :: post) !! i with
      | Some (Some c0) =>
          let! found := card_matches card nm c0 in
          if negb found then ret None else
          do! modify (fun s => set_sn_cards
                (<[i := Some (set_cd_refcnt (cd_refcnt c0 + 1) c0)]> (sn_cards s)) s) ;
          ret (Some i)
      | _ => ret None
      end) s' = for_idx ix' (fun i =>
      match (pre ++ Some c :: post) !! i with
      | Some (Some c0) =>
          let! found := card_matches card nm c0 in
          if negb found then ret None else
          do! modify (fun s => set_sn_cards
                (<[i := Some (set_cd_refcnt (cd_refcnt c0 + 1) c0)]> (sn_cards s)) s) ;
          ret (Some i)
      | _ => ret None
      end) s').
  { induction ix as [|i ix IH]; intros Hix ix' s'; [done|]. cbn [app for_idx]. unfold bind at 1.
    pose proof (Hix i (list_elem_of_here _ _)) as Hi.
    rewrite lookup_app_l by done. destruct (pre !! i) as [[c0|]|] eqn:Ei.
    - unfold bind at 1. rewrite card_matches_not.
      + apply IH. intros. apply Hix. by constructor.
      + exact (proj1 (Forall_lookup _ _) Hpre i _ Ei).
    - apply IH. intros. apply Hix. by constructor.
    - apply IH. intros. apply Hix. by constructor. }
  rewrite Hgo by (intros i Hi; apply elem_of_seq in Hi; lia). clear Hgo.
  cbn [for_idx]. unfold bind at 1. rewrite list_lookup_middle by done.
  unfold bind at 1. rewrite card_matches_yes by done. cbn.
  rewrite E, insert_app_r_alt, Nat.sub_diag by lia. done.
Qed.

Lemma read_card_id_run n card s nm k :
  (forall n, snd_alloc n = true) -> sought n card = Some (nm, k) ->
  exists m, read_card_id n card s = Ret (Some (nm, k)) (set_sn_allocs m s).
Proof.
  unfold sought, read_card_id. intros Halloc E. destruct (snd_id_file n card); simplify_eq/=.
  - exists (sn_allocs s). by destruct s.
  - exists (S (sn_allocs s)). unfold bind, snd_calloc. by rewrite Halloc.
  - exists (S (sn_allocs s)). unfold bind, snd_calloc. by rewrite Halloc.
Qed.

(** *** References *)

(** The parser builds a card without references, and leaves the others alone. *)
Definition fresh_card (d : xml_userdata) : Prop :=
  match xd_cur_card d with Some c => cd_refcnt c = 0 | None => True end.

Lemma fresh_upd_cur_dev f d : fresh_card d -> fresh_card (upd_cur_dev f d).
Proof.
  unfold fresh_card, upd_cur_dev. destruct (xd_cur_card d) as [c|] eqn:E; [|by rewrite E].
  destruct (xd_cur_dev d) as [[t i]|]; [|by rewrite E]. by destruct t.
Qed.

Lemma fresh_upd_cur_card f d :
  (forall c, cd_refcnt (f c) = cd_refcnt c) -> fresh_card d -> fresh_card (upd_cur_card f d).
Proof.
  intros Hf. unfold fresh_card, upd_cur_card. cbn. destruct (xd_cur_card d); cbn; [|done].
  by rewrite Hf.
Qed.

(** One step of a handler, whose results [K] keep [fresh_card]. *)
Ltac fresh_step :=
  lazymatch goal with
  | |- wpg _ (bind _ _) _ _ => apply wpg_bind
  | |- wpg _ (ret _) _ _ => apply wpg_ret
  | |- wpg _ (crash_with _) _ _ => apply wpg_crash; exact I
  | |- wpg _ snd_calloc _ _ => apply run_wlp; intros ? ? [= <- <-]
  | |- wpg _ (strdup _) _ _ => unfold strdup
  | |- wpg _ (if ?b then _ else _) _ _ => destruct b eqn:?
  | |- wpg _ (match ?b with _ => _ end) _ _ => destruct b eqn:?
  | |- fresh_card (upd_cur_dev _ _) => apply fresh_upd_cur_dev
  | |- fresh_card (upd_cur_card _ _) => apply fresh_upd_cur_card; [intros []; reflexivity|]
  | |- fresh_card (if ?b then _ else _) => destruct b
  | |- fresh_card _ => first [assumption | by unfold fresh_card in *; cbn in *; simplify_eq/=]
  end.
Ltac fresh_tac := repeat fresh_step.

Lemma fresh_dev_init t ty d s :
  fresh_card d -> wlp (snd_dev_def_init t ty d) (fun d' _ => fresh_card d') s.
Proof.
  intros Hd. unfold snd_dev_def_init. fresh_tac. unfold fresh_card in *. cbn.
  rewrite Heqo in Hd. by destruct s1.
Qed.

Lemma fresh_init_card d s :
  fresh_card d ->
  wlp (snd_parse_initialize_card_def d) (fun r _ => fresh_card (fst r)) s.
Proof. intros Hd. unfold snd_parse_initialize_card_def. fresh_tac. Qed.

Lemma fresh_card_properties t d s :
  fresh_card d -> wlp (snd_parse_card_properties t d) (fun d' _ => fresh_card d') s.
Proof.
  intros Hd. unfold snd_parse_card_properties, set_card_name.
  destruct (t =s? "id").
  - cbv zeta. destruct (_ =? _); [|by fresh_tac]. apply wpg_bind.
    eapply wpg_mono; [by apply fresh_init_card|]. intros [d' ok] s' Hd'. cbn in Hd'. fresh_tac.
  - fresh_tac. eapply wpg_mono; [by apply fresh_init_card|]. intros [d' ok] s' Hd'. cbn in Hd'.
    fresh_tac.
Qed.

Lemma fresh_process t d s :
  fresh_card d -> wlp (snd_process_data_buf t d) (fun d' _ => fresh_card d') s.
Proof.
  intros Hd. unfold snd_process_data_buf.
  repeat (case_match; [by fresh_tac|]). destruct (xd_tag d).
  - by fresh_tac.
  - by apply fresh_card_properties.
  - unfold snd_parse_device_properties. fresh_tac.
  - unfold snd_parse_plugin_properties. fresh_tac.
  - unfold snd_parse_device_custom_properties. fresh_tac.
Qed.

Lemma fresh_handle_sax c d s : fresh_card d -> wlp (handle_sax c d) (fun d' _ => fresh_card d') s.
Proof.
  intros Hd. destruct c as [t|t|x]; cbn [handle_sax].
  - unfold snd_start_tag, snd_dev_set_type.
    destruct (xd_card_parsed d); [by fresh_tac|]. cbv zeta.
    assert (Hd' : fresh_card (if t =s? "card" then set_xd_tag TAG_CARD (clean d) else clean d))
      by (by destruct (t =s? "card")).
    revert Hd'. generalize (if t =s? "card" then set_xd_tag TAG_CARD (clean d) else clean d).
    intros d1 Hd1.
    assert (Hplug : fresh_card (set_xd_tag TAG_PLUGIN
      (upd_cur_dev (set_sd_type SND_NODE_DEV_TYPE_PLUGIN) d1))) by by apply fresh_upd_cur_dev.
    revert Hplug. generalize (set_xd_tag TAG_PLUGIN
      (upd_cur_dev (set_sd_type SND_NODE_DEV_TYPE_PLUGIN) d1)). intros d2 Hd2.
    repeat match goal with |- context [(if ?b then _ else _)] => destruct b end;
      first [by apply wpg_ret | by apply fresh_dev_init].
  - unfold snd_end_tag. destruct (xd_card_parsed d); [by apply wpg_ret|].
    destruct (_ && _); [by apply wpg_ret|]. apply wpg_bind.
    eapply wpg_mono; [by apply fresh_process|]. intros d' s' Hd'. apply wpg_ret. fresh_tac.
  - apply wpg_ret. unfold snd_data_handler. fresh_tac.
Qed.

Lemma fresh_run_sax l d s : fresh_card d -> wlp (run_sax l d) (fun d' _ => fresh_card d') s.
Proof.
  revert d s. induction l as [|c l IH]; intros d s Hd; [by apply wpg_ret|]. cbn [run_sax].
  apply wpg_bind. eapply wpg_mono; [by apply fresh_handle_sax|]. intros d' s' Hd'. by apply IH.
Qed.

(** ** The theorems *)

(** *** Reading a card *)

Definition keep_devs (t : snd_node_type) (l : list dev_text) : list dev_text :=
  filter (fun d => dt_type d = t) l.

Lemma foldl_add_dev_devs t l c :
  cd_devs t (foldl add_dev c l) = cd_devs t c ++ map dev_of (keep_devs t l).
Proof.
  revert c. induction l as [|d l IH]; intros c; [symmetry; apply app_nil_r|].
  cbn [foldl]. rewrite IH. unfold keep_devs, add_dev. rewrite filter_cons.
  case_decide as Ht.
  - rewrite <- Ht. cbn [map]. destruct (dt_type d); cbn; by rewrite <- app_assoc.
  - f_equal. destruct (dt_type d), t; try done; by destruct Ht.
Qed.

Lemma header_no_devs card nm c h t : card_header card nm c = Some h -> cd_devs t h = [].
Proof. unfold card_header. intros E. repeat case_match; simplify_eq/=; by destruct t. Qed.

Lemma card_of_devs card nm c h t :
  card_header card nm c = Some h -> cd_devs t (card_of h c) = map dev_of (keep_devs t (ct_devs c)).
Proof.
  intros E. unfold card_of. rewrite foldl_add_dev_devs. by rewrite (header_no_devs _ _ _ _ _ E).
Qed.

Lemma foldl_add_dev_refcnt l c : cd_refcnt (foldl add_dev c l) = cd_refcnt c.
Proof.
  revert c. induction l as [|d l IH]; intros c; cbn; [done|]. rewrite IH. unfold add_dev.
  by destruct (dt_type d).
Qed.

Lemma header_refcnt card nm c h : card_header card nm c = Some h -> cd_refcnt h = 0.
Proof. unfold card_header. intros E. by repeat case_match; simplify_eq/=. Qed.

(** Reading a card.  When the card sought (by the name the kernel has for
    it, or by number) is not in memory and the file has it behind any number of
    other cards, [snd_card_def_get_card] returns a new handle, on a card with
    one reference that is exactly what the document says, however the XML is
    laid out and in whatever pieces expat delivers the texts. *)
Theorem snd_card_get_reads card nm k pre c h l s :
  (forall n, snd_alloc n = true) ->
  sn_readers s = 0%nat ->
  sought (sn_opens s) card = Some (nm, k) ->
  Forall (unmatched k nm) (sn_cards s) ->
  snd_xml (sn_opens s) = XmlDoc l true ->
  Forall (other_card k nm) pre -> card_ok c = true -> card_header k nm c = Some h ->
  document pre c l ->
  exists s', snd_card_def_get_card card s = Ret (Some (length (sn_cards s))) s' /\
    sn_cards s' = sn_cards s ++ [Some (set_cd_refcnt 1 (card_of h c))] /\
    sn_readers s' = 0%nat.
Proof.
  intros Halloc Hr Hs Hm Hx Hpre Hok Hh Hdoc. unfold snd_card_def_get_card.
  unfold bind at 1. cbn [gets]. unfold bind at 1. cbn [modify].
  set (s1 := set_sn_opens _ s).
  destruct (read_card_id_run (sn_opens s) card s1 nm k Halloc Hs) as (m & E).
  unfold bind at 1. rewrite E. clear E. unfold bind at 1.
  unfold wrlock. cbn [sn_readers set_sn_allocs s1 set_sn_opens]. rewrite Hr. cbn [Nat.ltb Nat.leb].
  unfold bind at 1. rewrite find_card_none by exact Hm.
  unfold bind at 1. cbn [gets]. rewrite Hx. unfold bind at 1.
  destruct (run_document Halloc k nm pre c h l (set_sn_allocs m s1) Hpre Hok Hh Hdoc)
    as (d' & n & -> & Hc). cbn [negb]. rewrite Hc. unfold bind, modify, ret.
  eexists. split; [reflexivity|]. split; [|exact Hr]. cbn. repeat f_equal.
  unfold card_of. rewrite foldl_add_dev_refcnt. by rewrite (header_refcnt _ _ _ _ Hh).
Qed.
(** *** Queries *)

Lemma set_refcnt_devs t r c : cd_devs t (set_cd_refcnt r c) = cd_devs t c.
Proof. by destruct t. Qed.

Lemma node_type_of_num t : node_type_of (node_type_num t) = t.
Proof. by destruct t. Qed.

Lemma node_type_num_max t : (SND_NODE_TYPE_MAX <=? node_type_num t) = false.
Proof. by destruct t. Qed.

(** A query takes the read lock, looks, and gives it back. *)
Lemma locked_read {A B} (m : SND A) (f : A -> B) (a : A) s :
  (forall n, m (set_sn_readers n s) = Ret a (set_sn_readers n s)) ->
  (do! rdlock ; let! x := m in do! rdunlock ; ret (f x)) s = Ret (f a) s.
Proof.
  intros Hm. unfold bind at 1. cbn [rdlock modify]. unfold bind at 1. rewrite Hm.
  unfold bind, rdunlock, modify, ret. f_equal. by destruct s.
Qed.

Lemma read_card_run i c s n :
  sn_cards s !! i = Some (Some c) -> read_card i (set_sn_readers n s) = Ret c (set_sn_readers n s).
Proof. intros E. unfold read_card. cbn. by rewrite E. Qed.

Lemma read_node_run i t j c d s n :
  sn_cards s !! i = Some (Some c) -> cd_devs t c !! j = Some d ->
  read_node (i, t, j) (set_sn_readers n s) = Ret d (set_sn_readers n s).
Proof.
  intros Ec Ed. unfold read_node, bind. rewrite (read_card_run _ _ _ _ Ec). by rewrite Ed.
Qed.

Lemma list_find_first {A} (P : A -> Prop) `{!forall x, Decision (P x)} pre x post :
  P x -> Forall (fun y => ~ P y) pre -> list_find P (pre ++ x :: post) = Some (length pre, x).
Proof.
  intros Hx Hpre. apply list_find_Some. split; [by apply list_lookup_middle|]. split; [done|].
  intros j y Hj Hlt. rewrite lookup_app_l in Hj by done.
  exact (proj1 (Forall_lookup _ _) Hpre j y Hj).
Qed.

(** The answers about a card that was read are those of the document: as
    many devices of each kind as it lists, a device found by its number (the
    first with that number), its name, its library, its kind, its number and
    the first value of each of its properties; asking changes nothing. *)
Theorem snd_card_queries k nm c h r i s x pre post :
  card_header k nm c = Some h ->
  sn_cards s !! i = Some (Some (set_cd_refcnt r (card_of h c))) ->
  keep_devs (dt_type x) (ct_devs c) = pre ++ x :: post ->
  Forall (fun y => u32 (atoi (dt_id y)) <> u32 (atoi (dt_id x))) pre ->
  let id := u32 (atoi (dt_id x)) in
  let type := node_type_num (dt_type x) in
  let node := Some (i, dt_type x, length pre) in
  snd_card_def_get_num_node (Some i) type s =
    Ret (Z.of_nat (length (keep_devs (dt_type x) (ct_devs c)))) s /\
  snd_card_def_get_node (Some i) id type s = Ret node s /\
  snd_card_def_get_str node "name" s = Ret (0, Some (dt_name x)) s /\
  snd_card_def_get_str node "so-name" s = Ret (0, snd <$> dt_plugin x) s /\
  snd_card_def_get_int node "id" s = Ret (0, Some (s32 id)) s /\
  snd_card_def_get_int node "type" s =
    Ret (0, Some (match dt_plugin x with
                  | Some _ => SND_NODE_DEV_TYPE_PLUGIN
                  | None => SND_NODE_DEV_TYPE_HW
                  end)) s /\
  forall prop, prop <> "so-name"%string -> prop <> "name"%string ->
    snd_card_def_get_str node prop s =
      Ret (match find_prop prop (dt_props x) with Some v => (0, Some v) | None => (- EINVAL, None) end) s.
Proof.
  intros Hh Hi Hx Hpre id type node. set (t := dt_type x) in *.
  pose proof (card_of_devs _ _ _ _ t Hh) as Hdevs.
  set (cd := set_cd_refcnt r (card_of h c)) in *.
  assert (Hcd : cd_devs t cd = map dev_of (keep_devs t (ct_devs c))).
  { unfold cd. by rewrite set_refcnt_devs. }
  assert (Hd : cd_devs t cd !! length pre = Some (dev_of x)).
  { rewrite Hcd, Hx, map_app. cbn [map]. apply list_lookup_middle. by rewrite length_map. }
  assert (Hread : forall {B} (f : snd_dev_def -> B),
    (do! rdlock ; let! d := read_node (i, t, length pre) in do! rdunlock ; ret (f d)) s =
    Ret (f (dev_of x)) s).
  { intros B f. apply locked_read. intros n. by apply (read_node_run _ _ _ cd). }
  assert (Hcard : forall {B} (f : snd_card -> B),
    (do! rdlock ; let! d := read_card i in do! rdunlock ; ret (f d)) s = Ret (f cd) s).
  { intros B f. apply locked_read. intros n. by apply read_card_run. }
  split; [|split; [|split; [|split; [|split; [|split]]]]].
  - unfold snd_card_def_get_num_node, type. rewrite node_type_num_max, Hcard, node_type_of_num.
    by rewrite Hcd, length_map.
  - unfold snd_card_def_get_node, type. rewrite node_type_num_max, node_type_of_num. cbv zeta.
    rewrite (Hcard _ (fun c => (fun p => (i, t, fst p)) <$>
      list_find (fun d => sd_device d = id) (cd_devs t c))).
    rewrite Hcd, Hx, map_app. cbn [map]. rewrite list_find_first; [|done|].
    + cbn. by rewrite length_map.
    + apply Forall_map. exact Hpre.
  - unfold snd_card_def_get_str, node. by rewrite Hread.
  - unfold snd_card_def_get_str, node. by rewrite Hread.
  - unfold snd_card_def_get_int, node. by rewrite Hread.
  - unfold snd_card_def_get_int, node. rewrite Hread. cbn. by destruct (dt_plugin x).
  - intros prop H1 H2. unfold snd_card_def_get_str, node. rewrite Hread.
    apply String.eqb_neq in H1, H2. by rewrite H1, H2.
Qed.
(** *** Handles *)

(** A client's calls that only look. *)
Inductive snd_query : forall A, SND A -> Prop :=
  | query_node c id type : snd_query _ (snd_card_def_get_node c id type)
  | query_num c type : snd_query _ (snd_card_def_get_num_node c type)
  | query_nodes c type n : snd_query _ (snd_card_def_get_nodes_for_type c type n)
  | query_int n prop : snd_query _ (snd_card_def_get_int n prop)
  | query_str n prop : snd_query _ (snd_card_def_get_str n prop).

(** One call that returns, and the handles its clients hold. *)
Inductive snd_step : snd_state * list nat -> snd_state * list nat -> Prop :=
  | step_get card s s' held r :
      snd_card_def_get_card card s = Ret r s' ->
      snd_step (s, held) (s', match r with Some i => i :: held | None => held end)
  | step_put i s s' held held' :
      held ≡ₚ i :: held' -> snd_card_def_put_card (Some i) s = Ret tt s' ->
      snd_step (s, held) (s', held')
  | step_query {A} (m : SND A) a s s' held :
      snd_query A m -> m s = Ret a s' -> snd_step (s, held) (s', held).

Definition count (i : nat) (held : list nat) : Z := Z.of_nat (length (filter (fun j => j = i) held)).

(** The live cards are those that are held, and count their handles. *)
Definition cards_held (cards : list (option snd_card)) (held : list nat) : Prop :=
  forall i, match cards !! i with
            | Some (Some c) => cd_refcnt c = count i held /\ 0 < count i held
            | _ => count i held = 0
            end.

Lemma count_cons i j held : count i (j :: held) = count i held + if decide (j = i) then 1 else 0.
Proof.
  unfold count. rewrite filter_cons. destruct (decide (j = i)); cbn [length]; lia.
Qed.

Lemma count_perm i held held' : held ≡ₚ held' -> count i held = count i held'.
Proof. intros E. unfold count. by rewrite E. Qed.

Lemma count_zero i held : count i held = 0 <-> i ∉ held.
Proof.
  unfold count. induction held as [|j held IH]; [split; [intros _; apply not_elem_of_nil|done]|].
  rewrite filter_cons, not_elem_of_cons. case_decide; cbn [length].
  - split; [lia|]. intros [? _]. by subst.
  - rewrite IH. split; [intros ?; split; [congruence|done]|by intros []].
Qed.

Lemma count_nonneg i held : 0 <= count i held.
Proof. unfold count. lia. Qed.

#[export] Instance keeps_run_sax l d : Keeps sn_cards (run_sax l d).
Proof.
  assert (Hc : Keeps sn_cards snd_calloc) by (by intros s a s' [= _ <-]).
  assert (Hs : forall x, Keeps sn_cards (strdup x)) by (intros; unfold strdup; keeps_tac).
  assert (Hi : forall d, Keeps sn_cards (snd_parse_initialize_card_def d))
    by (intros; unfold snd_parse_initialize_card_def; keeps_tac).
  revert d. induction l as [|c l IH]; intros d; cbn [run_sax]; [apply Keeps_ret|].
  apply Keeps_bind; [|intros; apply IH]. destruct c; cbn [handle_sax].
  - unfold snd_start_tag, snd_dev_def_init. keeps_tac.
  - unfold snd_end_tag, snd_process_data_buf, snd_parse_card_properties, set_card_name,
      snd_parse_plugin_properties, snd_parse_device_properties,
      snd_parse_device_custom_properties. keeps_tac.
  - apply Keeps_ret.
Qed.

#[export] Instance keeps_query A (m : SND A) : snd_query A m -> Keeps sn_cards m.
Proof.
  assert (Hr : forall i, Keeps sn_cards (read_card i)).
  { intros i s a s'. unfold read_card. destruct (_ !! _) as [[c|]|]; congruence. }
  assert (Hn : forall n, Keeps sn_cards (read_node n)) by (intros [[]]; cbn; keeps_tac).
  assert (Hl : Keeps sn_cards rdlock) by (by apply Keeps_modify).
  assert (Hu : Keeps sn_cards rdunlock) by (by apply Keeps_modify).
  intros [].
  - unfold snd_card_def_get_node. cbv zeta. keeps_tac.
  - unfold snd_card_def_get_num_node. keeps_tac.
  - unfold snd_card_def_get_nodes_for_type. cbv zeta. keeps_tac.
  - unfold snd_card_def_get_int. keeps_tac.
  - unfold snd_card_def_get_str. keeps_tac.
Qed.

Lemma card_matches_pure card nm c s : wlp (card_matches card nm c) (fun _ s' => s' = s) s.
Proof.
  unfold card_matches. destruct nm; [|by apply wpg_ret].
  apply wpg_bind, wpg_the. destruct (cd_name c); [by apply wpg_ret|done].
Qed.

(** What a lookup in memory does: nothing, or one more reference. *)
Lemma find_card_wlp card nm s :
  wlp (find_card card nm) (fun r s' =>
    match r with
    | Some i => exists c, sn_cards s !! i = Some (Some c) /\
        sn_cards s' = <[i := Some (set_cd_refcnt (cd_refcnt c + 1) c)]> (sn_cards s)
    | None => sn_cards s' = sn_cards s
    end) s.
Proof.
  unfold find_card. apply wpg_bind, wpg_gets.
  apply (wpg_for_idx _ _ _ (fun s' => s' = s)); [done| |by intros ? ->].
  intros i s' _ ->. destruct (sn_cards s !! i) as [[c|]|] eqn:E; [|by apply wpg_ret..].
  apply wpg_bind. eapply wpg_mono; [apply card_matches_pure|]. intros b s' ->.
  destruct b; cbn [negb]; [|by apply wpg_ret].
  apply wpg_bind, wpg_modify, wpg_ret. by exists c.
Qed.

Lemma read_card_id_cards n card : Keeps sn_cards (read_card_id n card).
Proof.
  assert (Hc : Keeps sn_cards snd_calloc) by (by intros s a s' [= _ <-]).
  unfold read_card_id. keeps_tac.
Qed.

Lemma cards_held_get cards held i c :
  cards_held cards held -> cards !! i = Some (Some c) ->
  cards_held (<[i := Some (set_cd_refcnt (cd_refcnt c + 1) c)]> cards) (i :: held).
Proof.
  intros Hh Hc j. pose proof (Hh j) as Hj. rewrite count_cons. destruct (decide (i = j)) as [<-|Hne].
  - rewrite list_lookup_insert_eq by (by eapply lookup_lt_Some). rewrite Hc in Hj. cbn. lia.
  - rewrite list_lookup_insert_ne by done. by rewrite Z.add_0_r.
Qed.

Lemma cards_held_new cards held c :
  cards_held cards held -> cd_refcnt c = 1 -> cards_held (cards ++ [Some c]) (length cards :: held).
Proof.
  intros Hh Hc j. pose proof (Hh j) as Hj. rewrite count_cons.
  destruct (lt_eq_lt_dec j (length cards)) as [[Hlt|E]|Hgt].
  - rewrite lookup_app_l, decide_False by lia. by rewrite Z.add_0_r.
  - subst j. rewrite list_lookup_middle, decide_True by done.
    rewrite lookup_ge_None_2 in Hj by lia. lia.
  - rewrite lookup_ge_None_2 in Hj |- * by (rewrite ?length_app; cbn; lia).
    rewrite decide_False by lia. lia.
Qed.

Lemma cards_held_put cards held i c held' :
  cards_held cards held -> held ≡ₚ i :: held' -> cards !! i = Some (Some c) ->
  cards_held (<[i := if cd_refcnt c - 1 =? 0 then None
                     else Some (set_cd_refcnt (cd_refcnt c - 1) c)]> cards) held'.
Proof.
  intros Hh Hp Hc j. pose proof (Hh j) as Hj. pose proof (count_nonneg j held').
  rewrite (count_perm _ _ _ Hp), count_cons in Hj. destruct (decide (i = j)) as [<-|Hne].
  - rewrite list_lookup_insert_eq by (by eapply lookup_lt_Some). rewrite Hc in Hj.
    destruct (Z.eqb_spec (cd_refcnt c - 1) 0); cbn; lia.
  - rewrite list_lookup_insert_ne by done. by rewrite Z.add_0_r in Hj.
Qed.

Lemma get_card_held card s held :
  (forall n l, snd_xml n <> XmlDoc l false) -> cards_held (sn_cards s) held ->
  wlp (snd_card_def_get_card card) (fun r s' =>
    cards_held (sn_cards s') match r with Some i => i :: held | None => held end) s.
Proof.
  intros Hx Hh. unfold snd_card_def_get_card. apply wpg_bind, wpg_gets, wpg_bind, wpg_modify.
  set (n := sn_opens s). apply wpg_bind. eapply wpg_mono.
  { apply (keeps_wlp sn_cards), read_card_id_cards. }
  intros id s1 E1. change (sn_cards s1 = sn_cards s) in E1.
  destruct id as [[nm k]|]; [|by apply wpg_ret; rewrite E1].
  apply wpg_bind. unfold wpg at 1, wrlock. destruct (0 <? sn_readers s1)%nat; [done|].
  apply wpg_bind. eapply wpg_mono; [apply find_card_wlp|]. intros [i|] s2 E2.
  { apply wpg_ret. destruct E2 as (c & Hc & ->). rewrite E1 in Hc |- *. by apply cards_held_get. }
  apply wpg_bind, wpg_gets. destruct (snd_xml n) as [|l [|]] eqn:Ex.
  - apply wpg_ret. by rewrite E2, E1.
  - apply wpg_bind. apply run_wlp. intros d s3 Hrun.
    pose proof (keeps_run_sax l (xml_init k nm) _ _ _ Hrun) as E3.
    assert (Hf : fresh_card d).
    { exact (wlp_run _ _ _ _ _ (fresh_run_sax l (xml_init k nm) s2 I) Hrun). }
    unfold fresh_card in Hf. cbn [negb]. destruct (xd_cur_card d) as [c|].
    + apply wpg_bind, wpg_modify, wpg_ret. cbn. rewrite E3, E2, E1.
      apply cards_held_new; [done|]. cbn. lia.
    + apply wpg_ret. by rewrite E3, E2, E1.
  - by destruct (Hx n l).
Qed.

Lemma put_card_held i s held held' :
  cards_held (sn_cards s) held -> held ≡ₚ i :: held' ->
  wlp (snd_card_def_put_card (Some i)) (fun _ s' => cards_held (sn_cards s') held') s.
Proof.
  intros Hh Hp. unfold snd_card_def_put_card. apply wpg_bind. unfold wpg at 1, wrlock.
  destruct (0 <? sn_readers s)%nat; [done|]. apply wpg_bind, wpg_gets.
  assert (0 < count i held).
  { rewrite (count_perm _ _ _ Hp), count_cons, decide_True by done.
    pose proof (count_nonneg i held'). lia. }
  destruct (sn_cards s !! i) as [[c|]|] eqn:E.
  - cbv zeta. apply wpg_modify. by eapply cards_held_put.
  - pose proof (Hh i) as Hi. rewrite E in Hi. lia.
  - pose proof (Hh i) as Hi. rewrite E in Hi. lia.
Qed.

Lemma snd_steps_held p q :
  (forall n l, snd_xml n <> XmlDoc l false) -> rtc snd_step p q ->
  cards_held (sn_cards (fst p)) (snd p) -> cards_held (sn_cards (fst q)) (snd q).
Proof.
  intros Hx. induction 1 as [|p p1 q Hs _ IH]; [done|]. intros Hp. apply IH. clear IH.
  destruct Hs as [card s s' held r Hr | i s s' held held' Hperm Hr | A m a s s' held Hq Hr]; cbn in *.
  - exact (wlp_run _ _ _ _ _ (get_card_held card s held Hx Hp) Hr).
  - exact (wlp_run _ _ _ _ _ (put_card_held i s held held' Hp Hperm) Hr).
  - by rewrite (keeps_query _ _ Hq _ _ _ Hr).
Qed.

Definition snd_init : snd_state := SndState [] 0 0 0.

(** C25: over any sequence of calls, as long as the definition file parses, the
    cards in memory are exactly those somebody holds, and the reference count
    of each is the number of handles on it not yet put back: a handle stays
    valid until its last holder puts it back, and is freed then. *)
Theorem snd_card_handles_valid s held :
  (forall n l, snd_xml n <> XmlDoc l false) -> rtc snd_step (snd_init, []) (s, held) ->
  (forall i, i ∈ held <-> exists c, sn_cards s !! i = Some (Some c)) /\
  (forall i c, sn_cards s !! i = Some (Some c) -> cd_refcnt c = count i held).
Proof.
  intros Hx Hr. pose proof (snd_steps_held _ _ Hx Hr) as Hh. cbn in Hh.
  assert (cards_held (sn_cards s) held) as H2 by (by apply Hh; intros i; rewrite lookup_nil).
  split; intros i; specialize (H2 i).
  - assert (i ∈ held <-> count i held <> 0) as ->.
    { rewrite count_zero. destruct (decide (i ∈ held)); tauto. }
    destruct (sn_cards s !! i) as [[c|]|].
    + split; [by exists c|lia].
    + split; [lia|by intros [c ?]].
    + split; [lia|by intros [c ?]].
  - intros c E. rewrite E in H2. apply H2.
Qed.
(** *** What goes wrong *)

(** The array of devices.  A request for at most as many devices as there
    are (and for one at least) stores the first of them in order and gives the
    read lock back; a request for more returns -EINVAL with the lock still
    held, and from then on every get and every put of this thread deadlocks. *)
Theorem snd_nodes_for_type_cases i t num c s :
  sn_cards s !! i = Some (Some c) -> 0 < num ->
  let r := snd_card_def_get_nodes_for_type (Some i) (node_type_num t) num s in
  let devs := Z.of_nat (length (cd_devs t c)) in
  (num <= devs -> r = Ret (0, map (fun j => (i, t, j)) (seq 0 (Z.to_nat num))) s) /\
  (devs < num -> exists s', r = Ret (- EINVAL, []) s' /\
     snd_card_def_put_card (Some i) s' = Crash SelfDeadlock).
Proof.
  intros Hc Hn r devs. unfold r, snd_card_def_get_nodes_for_type.
  rewrite node_type_num_max, node_type_of_num. cbv zeta. fold devs.
  unfold bind, rdlock, modify. rewrite (read_card_run _ _ _ _ Hc). fold devs.
  destruct (Z.ltb_spec devs num).
  - split; [lia|]. intros _. eexists. split; [reflexivity|]. done.
  - split; [|lia]. intros _. rewrite (proj2 (Z.leb_gt num 0)) by lia. cbn [andb].
    unfold rdunlock, modify, ret. f_equal. by destruct s.
Qed.

(** A definition file that stops parsing.  A get that finds no card in
    memory and fails on the file does not return NULL but the last card in
    memory, with no reference for the new handle: putting the new handle back
    frees the card under its first holder, whose next query follows a dangling
    pointer. *)
Theorem snd_xml_error_frees_card card nm k c s prop :
  (forall n, snd_alloc n = true) -> sn_readers s = 0%nat ->
  sought (sn_opens s) card = Some (nm, k) ->
  sn_cards s = [Some c] -> cd_refcnt c = 1 -> unmatched k nm (Some c) ->
  snd_xml (sn_opens s) = XmlDoc [] false ->
  exists s1 s2,
    snd_card_def_get_card card s = Ret (Some 0%nat) s1 /\ sn_cards s1 = sn_cards s /\
    snd_card_def_put_card (Some 0%nat) s1 = Ret tt s2 /\
    snd_card_def_get_str (Some (0%nat, SND_NODE_TYPE_PCM, 0%nat)) prop s2 = Crash DanglingPtr.
Proof.
  intros Halloc Hr Hs Hcs Hc Hm Hx. unfold snd_card_def_get_card.
  unfold bind at 1. cbn [gets]. unfold bind at 1. cbn [modify]. set (s1 := set_sn_opens _ s).
  destruct (read_card_id_run (sn_opens s) card s1 nm k Halloc Hs) as (m & E).
  unfold bind at 1. rewrite E. clear E. unfold bind at 1.
  unfold wrlock at 1. cbn [sn_readers set_sn_allocs s1 set_sn_opens]. rewrite Hr.
  cbn [Nat.ltb Nat.leb]. unfold bind at 1. rewrite find_card_none.
  - unfold bind at 1. cbn [gets]. rewrite Hx. unfold bind at 1. cbn [run_sax ret negb].
    cbn [sn_cards set_sn_allocs s1 set_sn_opens]. rewrite Hcs. cbn [last_card ret].
    eexists _, _. split; [reflexivity|]. split; [exact Hcs|].
    unfold snd_card_def_put_card, bind at 1, wrlock. cbn [sn_readers set_sn_allocs s1 set_sn_opens].
    rewrite Hr. cbn [Nat.ltb Nat.leb]. unfold bind at 1. cbn [gets].
    cbn [sn_cards set_sn_allocs s1 set_sn_opens]. rewrite Hcs. cbn [lookup list_lookup]. rewrite Hc.
    split; [reflexivity|]. reflexivity.
  - cbn [sn_cards set_sn_allocs s1 set_sn_opens]. rewrite Hcs. by repeat constructor.
Qed.

(** A text that does not fit the buffer: the write of the terminating NUL is
    out of its bounds. *)
Theorem snd_long_text_overflow tag text d s :
  xd_card_parsed d = false -> (xd_tag d = TAG_CARD \/ xd_card_found d = true) ->
  (BUF_SIZE <= String.length text)%nat ->
  run_sax [Text text; EndTag tag] d s = Crash OutOfBounds.
Proof.
  intros Hp Ha Hlen. cbn [run_sax handle_sax]. unfold bind at 1. cbn [ret].
  set (d1 := snd_data_handler text d).
  assert (Hd : xd_card_parsed d1 = false /\ (xd_tag d1 = TAG_CARD \/ xd_card_found d1 = true) /\
    (BUF_SIZE <= xd_offs d1)%nat).
  { unfold d1, snd_data_handler. destruct (_ <=? _)%nat; cbn; repeat split; try done; lia. }
  destruct Hd as (Hp1 & Ha1 & Ho). unfold bind at 1, snd_end_tag. rewrite Hp1.
  assert (negb (bool_decide (xd_tag d1 = TAG_CARD)) && negb (xd_card_found d1) = false) as ->.
  { destruct Ha1 as [E|E]; rewrite E; [by rewrite bool_decide_true|by rewrite andb_comm]. }
  unfold bind at 1, snd_process_data_buf.
  rewrite (proj2 (Nat.eqb_neq _ _)) by (unfold BUF_SIZE in *; lia).
  by rewrite (proj2 (Nat.leb_le _ _)).
Qed.
End Cards.

(** ** A concrete card file *)

(** One way to write a document down: no white space, every text in one piece. *)
Definition render_leaf (tag text : string) : list sax := [StartTag tag; Text text; EndTag tag].
Definition render_elem (tag : string) (body : list sax) : list sax :=
  StartTag tag :: body ++ [EndTag tag].
Definition render_dev (d : dev_text) : list sax :=
  render_elem (dev_tag (dt_type d))
    (render_leaf "id" (dt_id d) ++ render_leaf "name" (dt_name d) ++
     match dt_plugin d with Some (tag, so) => render_elem tag (render_leaf "so-name" so) | None => [] end ++
     match dt_props d with
     | [] => []
     | ps => render_elem "props" (concat (map (fun p => render_leaf (fst p) (snd p)) ps))
     end).
Definition render_card (c : card_text) : list sax :=
  render_elem "card" (render_leaf "id" (ct_id c) ++ render_leaf "name" (ct_name c) ++
    concat (map render_dev (ct_devs c))).

Lemma string_app_nil_r s : (s ++ "")%string = s.
Proof. induction s as [|a s IH]; [done|]. exact (f_equal (String a) IH). Qed.

Lemma gap_nil : gap [].
Proof. exists []. split; [done|]. cbn. unfold BUF_SIZE. lia. Qed.

Lemma children_render Ps ls : Forall2 (fun (P : list sax -> Prop) l => P l) Ps ls -> children Ps (concat ls).
Proof.
  induction 1 as [|P l Ps ls HP _ IH]; [constructor; apply gap_nil|].
  cbn [concat]. exact (children_cons P Ps [] l (concat ls) gap_nil HP IH).
Qed.

Lemma render_leaf_ok tag text : leaf tag text (render_leaf tag text).
Proof. exists [text]. split; [done|]. apply string_app_nil_r. Qed.

Lemma render_elem_ok tag Ps ls :
  Forall2 (fun (P : list sax -> Prop) l => P l) Ps ls -> elem tag Ps (render_elem tag (concat ls)).
Proof. intros Hl. exists (concat ls). split; [by apply children_render|done]. Qed.

Lemma render_dev_ok d : dev_elem d (render_dev d).
Proof.
  unfold dev_elem, render_dev.
  set (plug := match dt_plugin d with
               | Some (tag, so) => [render_elem tag (render_leaf "so-name" so)] | None => [] end).
  set (props := match dt_props d with
                | [] => []
                | ps => [render_elem "props" (concat (map (fun p => render_leaf (fst p) (snd p)) ps))]
                end).
  replace (_ ++ _ ++ _) with
    (concat ([render_leaf "id" (dt_id d); render_leaf "name" (dt_name d)] ++ plug ++ props)).
  - apply render_elem_ok, Forall2_app; [repeat constructor; apply render_leaf_ok|].
    apply Forall2_app.
    + unfold plug, plugin_elems. destruct (dt_plugin d) as [[tag so]|]; [|constructor].
      repeat constructor. apply (render_elem_ok tag [leaf "so-name" so] [render_leaf "so-name" so]).
      repeat constructor. apply render_leaf_ok.
    + unfold props, props_elems. destruct (dt_props d) as [|q ps]; [constructor|].
      repeat constructor. apply render_elem_ok. apply Forall2_fmap_2.
      apply Forall_Forall2_diag, Forall_true. intros. apply render_leaf_ok.
  - unfold plug, props. destruct (dt_plugin d) as [[tag so]|], (dt_props d); cbn [concat app];
      by rewrite ?app_nil_r.
Qed.

Lemma render_card_ok c : card_elem c (render_card c).
Proof.
  unfold card_elem, render_card.
  replace (_ ++ _ ++ _) with
    (concat ([render_leaf "id" (ct_id c); render_leaf "name" (ct_name c)] ++ map render_dev (ct_devs c)))
    by done.
  apply render_elem_ok, Forall2_app; [repeat constructor; apply render_leaf_ok|].
  apply Forall2_fmap_2, Forall_Forall2_diag, Forall_true. apply render_dev_ok.
Qed.

Lemma render_document pre c :
  document pre c (StartTag "defs" :: concat (map render_card pre) ++ render_card c ++ []).
Proof.
  exists "defs"%string, (concat (map render_card pre)), (render_card c), [].
  split; [done|]. split; [|split; [apply render_card_ok|done]].
  apply children_render, Forall2_fmap_2, Forall_Forall2_diag, Forall_true. apply render_card_ok.
Qed.

Definition demo_pcm : dev_text :=
  DevText SND_NODE_TYPE_PCM "101" "PCM101" (Some ("plugin", "libagm_pcm_plugin.so")%string)
    [("playback", "1"); ("capture", "0"); ("session_mode", "0")]%string.
Definition demo_compr : dev_text :=
  DevText SND_NODE_TYPE_COMPR "102" "COMPR102" (Some ("plugin", "libagm_compress_plugin.so")%string)
    [("playback", "1")]%string.
Definition demo_other : card_text := CardText "7" "other" [demo_compr].
Definition demo_card : card_text := CardText "100" "virtual" [demo_compr; demo_pcm].
Definition demo_calls : list sax :=
  StartTag "defs" :: concat (map render_card [demo_other]) ++ render_card demo_card ++ [].

(** Cards the kernel does not know, in a file that parses, or not. *)
Definition demo_snd (ok : bool) : SndEnv := {|
  snd_id_file _ _ := IdAbsent;
  snd_xml _ := if ok then XmlDoc demo_calls true else XmlDoc [] false;
  snd_alloc _ := true
|}.

Definition demo_header : snd_card := set_cd_name (Some "virtual"%string) (set_cd_card 100 card_zero).

Lemma snd_card_get_reads_witness :
  exists s', @snd_card_def_get_card (demo_snd true) 100 snd_init = Ret (Some 0%nat) s' /\
    sn_cards s' = [Some (set_cd_refcnt 1 (card_of demo_header demo_card))] /\ sn_readers s' = 0%nat.
Proof.
  apply (@snd_card_get_reads (demo_snd true) 100 None 100 [demo_other] demo_card demo_header demo_calls).
  - done.
  - done.
  - done.
  - constructor.
  - done.
  - constructor; [|constructor]. split; vm_compute; reflexivity.
  - vm_compute. reflexivity.
  - vm_compute. reflexivity.
  - apply render_document.
Defined.

Definition demo_state : snd_state :=
  SndState [Some (set_cd_refcnt 1 (card_of demo_header demo_card))] 0 0 0.

Lemma snd_card_queries_witness :
  snd_card_def_get_str (Some (0%nat, SND_NODE_TYPE_PCM, 0%nat)) "session_mode" demo_state =
    Ret (0, Some "0"%string) demo_state.
Proof.
  pose proof (snd_card_queries 100 None demo_card demo_header 1 0 demo_state demo_pcm [] []) as Hq.
  by apply Hq.
Defined.

Lemma snd_card_handles_valid_witness :
  exists s, sn_cards s !! 0%nat = Some (Some (set_cd_refcnt 1 (card_of demo_header demo_card))) /\
    (0%nat ∈ [0%nat] <-> exists c, sn_cards s !! 0%nat = Some (Some c)).
Proof.
  pose (E := demo_snd true).
  let r := eval vm_compute in (@snd_card_def_get_card E 100 snd_init) in
  lazymatch r with Ret _ ?s => exists s end.
  split; [reflexivity|].
  apply (@snd_card_handles_valid E _ [0%nat]); [intros n l; discriminate|].
  apply rtc_once, (@step_get E 100 snd_init _ [] (Some 0%nat)). vm_compute. reflexivity.
Defined.

Lemma snd_nodes_for_type_cases_witness :
  snd_card_def_get_nodes_for_type (Some 0%nat) 0 1 demo_state =
    Ret (0, [(0%nat, SND_NODE_TYPE_PCM, 0%nat)]) demo_state.
Proof.
  apply (snd_nodes_for_type_cases 0 SND_NODE_TYPE_PCM 1
    (set_cd_refcnt 1 (card_of demo_header demo_card)) demo_state); [done|lia|by vm_compute].
Defined.

Lemma snd_xml_error_frees_card_witness :
  exists s1 s2,
    @snd_card_def_get_card (demo_snd false) 200 demo_state = Ret (Some 0%nat) s1 /\
    sn_cards s1 = sn_cards demo_state /\
    snd_card_def_put_card (Some 0%nat) s1 = Ret tt s2 /\
    snd_card_def_get_str (Some (0%nat, SND_NODE_TYPE_PCM, 0%nat)) "name" s2 = Crash DanglingPtr.
Proof.
  by apply (@snd_xml_error_frees_card (demo_snd false) 200 None 200
    (set_cd_refcnt 1 (card_of demo_header demo_card))).
Defined.
