(* ===== verification/Device.v ===== *)
(** * Devices (service/src/device.c)

    A device object is an ALSA back end shared by every session connected to
    it; reference counts decide when the PCM is opened, prepared, stopped and
    closed.  A [struct device_obj *] is the index of the object in
    [device_list]. *)

From S2P Require Export Metadata HwEp Concrete.
Open Scope Z_scope.
#[export] Set Default Goal Selector "!".

(** ** /proc/asound/pcm lines *)

(** One [%02u] conversion: blanks, at most two characters of a number. *)
Definition scan_u2 (s : string) : option (Z * string) :=
  let s := skip_spaces s in
  match s with
  | String c s' =>
      if Ascii.eqb c dash || Ascii.eqb c "+"%char then
        match span_n 1 is_digit s' with
        | (EmptyString, _) => None
        | (d, r) => Some (u32 (if Ascii.eqb c dash then - digits_val 0 d else digits_val 0 d), r)
        end
      else
        match span_n 2 is_digit s with
        | (EmptyString, _) => None
        | (d, r) => Some (digits_val 0 d, r)
        end
  | EmptyString => None
  end.

(** [sscanf(buffer, "%02u-%02u: %80s", &card_id, &pcm_id, name)] on zeroed
    fields. *)
Definition sscanf_pcm_line (buffer : string) : Z * Z * string :=
  match scan_u2 buffer with
  | None => (0, 0, EmptyString)
  | Some (card, r) =>
      match r with
      | String c r =>
          if Ascii.eqb c dash then
            match scan_u2 r with
            | None => (card, 0, EmptyString)
            | Some (dev, r) =>
                match r with
                | String c r =>
                    if Ascii.eqb c ":"%char
                    then (card, dev, fst (span_n 80 (fun c => negb (is_space c)) (skip_spaces r)))
                    else (card, dev, EmptyString)
                | EmptyString => (card, dev, EmptyString)
                end
            end
          else (card, 0, EmptyString)
      | EmptyString => (card, 0, EmptyString)
      end
  end.

Section Device.
Context `{Env}.

Definition MAX_DEV_NAME_LEN : nat := 80.
Definition MAX_RETRY : nat := 20.
Definition RETRY_INTERVAL := 5.
Definition DEFAULT_PERIOD_SIZE := 960.
Definition DEFAULT_PERIOD_COUNT := 2.
Definition INT_MAX := 2 ^ 31 - 1.
Definition DEVICE_ENABLE := 1.
Definition DEVICE_DISABLE := 0.
Definition AIF_NAME_MAX_LEN : nat := 28.

(** The value of an [int8_t] parameter. *)
Definition s8 (z : Z) : Z := (z + 128) mod 256 - 128.

(** ** Operations *)

Definition update_sysfs_fd (pcm_id state : Z) : AGM unit :=
  let! fd := gets w_sysfs_fd in
  if 0 <=? fd then ext (SysfsWrite fd (s8 pcm_id) (s8 state))
  else
    let! fd := ext SysfsOpen in
    do! modify (set_w_sysfs_fd fd) ;
    if 0 <=? fd then ext (SysfsWrite fd (s8 pcm_id) (s8 state)) else ret tt.

Definition agm_to_pcm_format (format : Z) : Z :=
  if format =? AGM_FORMAT_PCM_S32_LE then PCM_FORMAT_S32_LE
  else if format =? AGM_FORMAT_PCM_S8 then PCM_FORMAT_S8
  else if format =? AGM_FORMAT_PCM_S24_3LE then PCM_FORMAT_S24_3LE
  else if format =? AGM_FORMAT_PCM_S24_LE then PCM_FORMAT_S24_LE
  else PCM_FORMAT_S16_LE.

Definition upd_refcnt (f : refcount -> refcount) (d : device_obj) : device_obj :=
  set_dev_refcnt (f (dev_refcnt d)) d.

Definition inc_open (r : refcount) := set_rc_open (rc_open r + 1) r.
Definition inc_prepare (r : refcount) := set_rc_prepare (rc_prepare r + 1) r.
Definition inc_start (r : refcount) := set_rc_start (rc_start r + 1) r.

Definition device_config (d : device_obj) : pcm_config :=
  PcmConfig (mc_channels (dev_media d)) (mc_rate (dev_media d))
    (agm_to_pcm_format (mc_format (dev_media d))) DEFAULT_PERIOD_SIZE
    DEFAULT_PERIOD_COUNT (DEFAULT_PERIOD_SIZE / 4) INT_MAX.

Definition device_open (dev_obj : option nat) : AGM Z :=
  match dev_obj with
  | None => ret (- EINVAL)
  | Some i =>
      do! mutex_lock (LDev i) ;
      let! d := read_dev i in
      let! r :=
        (if nz (rc_open (dev_refcnt d)) then
           do! upd_dev i (upd_refcnt inc_open) ; ret 0
         else
           do! update_sysfs_fd (dev_pcm_id d) DEVICE_ENABLE ;
           let! pcm := ext (PcmOpen (dev_card_id d) (dev_pcm_id d) (dev_pcm_flags d)
                              (device_config d)) in
           let! ready := (if pcm =? 0 then ret 0 else ext (PcmIsReady pcm)) in
           if ready =? 0 then
             do! update_sysfs_fd (dev_pcm_id d) DEVICE_DISABLE ;
             ret (- EIO)
           else
             do! upd_dev i (fun d =>
                   upd_refcnt inc_open (set_dev_state DEV_OPENED (set_dev_pcm pcm d))) ;
             ret 0) in
      do! mutex_unlock (LDev i) ;
      ret r
  end.

Definition device_prepare (dev_obj : option nat) : AGM Z :=
  match dev_obj with
  | None => ret (- EINVAL)
  | Some i =>
      do! mutex_lock (LDev i) ;
      let! d := read_dev i in
      let! r :=
        (if nz (rc_prepare (dev_refcnt d)) then
           do! upd_dev i (upd_refcnt inc_prepare) ; ret 0
         else
           let! r := ext (PcmPrepare (dev_pcm d)) in
           if nz r then ret r
           else
             do! upd_dev i (fun d => upd_refcnt inc_prepare (set_dev_state DEV_PREPARED d)) ;
             ret r) in
      do! mutex_unlock (LDev i) ;
      ret r
  end.

Definition device_start (dev_obj : option nat) : AGM Z :=
  match dev_obj with
  | None => ret (- EINVAL)
  | Some i =>
      do! mutex_lock (LDev i) ;
      let! d := read_dev i in
      let! r :=
        (if device_state_num (dev_state d) <? device_state_num DEV_PREPARED then ret (-1)
         else if nz (rc_start (dev_refcnt d)) then
           do! upd_dev i (upd_refcnt inc_start) ; ret 0
         else
           do! upd_dev i (fun d => upd_refcnt inc_start (set_dev_state DEV_STARTED d)) ;
           ret 0) in
      do! mutex_unlock (LDev i) ;
      ret r
  end.

Definition device_stop (dev_obj : option nat) : AGM Z :=
  match dev_obj with
  | None => ret (- EINVAL)
  | Some i =>
      do! mutex_lock (LDev i) ;
      let! d := read_dev i in
      let! r :=
        (if negb (nz (rc_start (dev_refcnt d))) then ret 0
         else
           let start := rc_start (dev_refcnt d) - 1 in
           do! upd_dev i (upd_refcnt (set_rc_start start)) ;
           if start =? 0 then
             let! r := ext (PcmStop (dev_pcm d)) in
             do! upd_dev i (set_dev_state DEV_STOPPED) ;
             ret r
           else ret 0) in
      do! mutex_unlock (LDev i) ;
      ret r
  end.

Definition device_close (dev_obj : option nat) : AGM Z :=
  match dev_obj with
  | None => ret (- EINVAL)
  | Some i =>
      do! mutex_lock (LDev i) ;
      let! d := read_dev i in
      let open := rc_open (dev_refcnt d) - 1 in
      do! upd_dev i (upd_refcnt (set_rc_open open)) ;
      let! r :=
        (if open =? 0 then
           do! update_sysfs_fd (dev_pcm_id d) DEVICE_DISABLE ;
           let! r := ext (PcmClose (dev_pcm d)) in
           do! upd_dev i (fun d =>
                 upd_refcnt (fun c => set_rc_start 0 (set_rc_prepare 0 c))
                   (set_dev_state DEV_CLOSED d)) ;
           ret r
         else ret 0) in
      do! mutex_unlock (LDev i) ;
      ret r
  end.

Definition device_current_state (i : nat) : AGM device_state :=
  let! d := read_dev i in ret (dev_state d).

(** [strlcpy(dst, src, n)] *)
Definition strlcpy (n : nat) (src : string) : string := String.substring 0 (n - 1) src.

(** [device_get_aif_info_list(aif_list, &audio_intfs)]: the entries written
    to [aif_list] and the new value of [audio_intfs]. *)
Definition device_get_aif_info_list (requested : Z)
  : AGM (list (string * Z) * Z) :=
  let! num := gets w_num_intfs in
  if requested =? 0 then ret ([], num)
  else
    let copied := Z.to_nat (Z.min num (u32 requested)) in
    let fix copy (ix : list nat) : AGM (list (string * Z)) :=
      match ix with
      | [] => ret []
      | i :: ix' =>
          let! d := read_dev i in
          let! r := copy ix' in
          ret ((strlcpy AIF_NAME_MAX_LEN (dev_name d), ep_dir (dev_hw_ep d)) :: r)
      end in
    let! infos := copy (seq 0 copied) in
    ret (infos, Z.of_nat copied).

(** [device_get_obj(device_idx, &dev_obj)] *)
Definition device_get_obj (device_idx : Z) : AGM (Z * option nat) :=
  let! num := gets w_num_intfs in
  if num <? u32 device_idx then ret (- EINVAL, None)
  else
    let i := Z.to_nat (u32 device_idx) in
    let! devs := gets w_devs in
    let! slot := the OutOfBounds (devs !! i) in
    ret (0, match slot with Some _ => Some i | None => None end).

Definition device_set_media_config (dev_obj : option nat) (cfg : option media_config) : AGM Z :=
  match dev_obj, cfg with
  | Some i, Some c => do! upd_dev i (set_dev_media c) ; ret 0
  | _, _ => ret (- EINVAL)
  end.

Definition device_set_metadata (dev_obj : option nat) (size : Z) (metadata : list Z) : AGM Z :=
  let! i := the NullDeref dev_obj in
  do! upd_dev i (fun d => set_dev_meta (metadata_free (dev_meta d)) d) ;
  let! d := read_dev i in
  let! (r, m) := metadata_copy (dev_meta d) size metadata in
  do! upd_dev i (set_dev_meta m) ;
  ret r.

(** The mutex is released, not taken, on entry. *)
Definition device_set_params (dev_obj : option nat) (payload : list Z) : AGM Z :=
  let! i := the NullDeref dev_obj in
  do! mutex_unlock (LDev i) ;
  do! upd_dev i (set_dev_params None) ;
  let! ok := calloc in
  let! r := (if negb ok then ret (- EINVAL)
             else do! upd_dev i (set_dev_params (Some payload)) ; ret 0) in
  do! mutex_unlock (LDev i) ;
  ret r.

(** One line of /proc/asound/pcm: [None] when the end point does not parse.
    A name of 80 characters does not fit [char name[80]] with its NUL. *)
Definition parse_pcm_line (buffer : string) : AGM (option device_obj) :=
  let '(card, pcm, name) := sscanf_pcm_line buffer in
  if bool_decide (MAX_DEV_NAME_LEN <= String.length name)%nat then crash_with OutOfBounds
  else
    let flags := if strstr "playback"%string buffer then PCM_OUT else PCM_IN in
    let '(r, hw) := populate_device_hw_ep_info name hw_ep_zero in
    if nz r then ret None
    else ret (Some (set_dev_hw_ep hw (set_dev_pcm_flags flags (set_dev_name name
               (set_dev_pcm_id pcm (set_dev_card_id card device_zero)))))).

(** The second read of the file: the devices found, or [None] when an
    allocation failed. *)
Fixpoint parse_pcm_lines (lines : list string) : AGM (option (list device_obj)) :=
  match lines with
  | [] => ret (Some [])
  | l :: ls =>
      let! ok := calloc in
      if negb ok then ret None else
      let! d := parse_pcm_line l in
      let! r := parse_pcm_lines ls in
      ret (match r with
           | Some ds => Some (match d with Some d => d :: ds | None => ds end)
           | None => None
           end)
  end.

Definition parse_snd_card : AGM Z :=
  let! file := ext ReadPcmFile in
  match file with
  | None => ret (- ENODEV)
  | Some lines =>
      do! modify (fun w => set_w_num_intfs (u32 (w_num_intfs w + Z.of_nat (length lines))) w) ;
      let! num := gets w_num_intfs in
      let! ok := calloc in
      if negb ok then do! modify (set_w_devs []) ; ret (- ENOMEM) else
      let! r := parse_pcm_lines lines in
      match r with
      | None => do! modify (set_w_devs []) ; ret (- ENOMEM)
      | Some [] => do! modify (set_w_devs []) ; ret (- EAGAIN)
      | Some ds =>
          do! modify (set_w_devs
                ((Some <$> ds) ++ replicate (Z.to_nat num - length ds) None)) ;
          do! modify (set_w_num_intfs (Z.of_nat (length ds))) ;
          ret 0
      end
  end.

(** [device_init]: the [do ... while] with [retries] attempts left. *)
Fixpoint device_init_loop (retries : nat) : AGM Z :=
  let! r := parse_snd_card in
  if r =? - EAGAIN then
    do! ext (SleepSecs RETRY_INTERVAL) ;
    match retries with
    | S (S _ as retries') => device_init_loop retries'
    | _ => ret r
    end
  else ret r.

Definition device_init : AGM Z := device_init_loop MAX_RETRY.

Definition device_deinit : AGM unit :=
  let! num := gets w_num_intfs in
  do! for_all (seq 0 (Z.to_nat num)) (fun i => do! read_dev i ; ret tt) ;
  let! fd := gets w_sysfs_fd in
  do! (if 0 <=? fd then ext (SysfsClose fd) else ret tt) ;
  do! modify (set_w_sysfs_fd (-1)) ;
  modify (set_w_devs []).
End Device.

(** ** Abstract specification: a reference-counted PCM *)

(** Successful opens minus closes among the tinyalsa calls of a trace. *)
Fixpoint pcm_balance (t : list event) : Z :=
  match t with
  | [] => 0
  | Ev (PcmIsReady _) a :: t' => (if a =? 0 then 0 else 1) + pcm_balance t'
  | Ev (PcmClose _) _ :: t' => pcm_balance t' - 1
  | _ :: t' => pcm_balance t'
  end.

Inductive dev_op : Type := DOpen | DPrepare | DStart | DStop | DClose.

(** [dev_trans op d r d' n]: operation [op] on an object [d] may return [r],
    leave [d'] and change the balance of PCM opens by [n]. *)
Inductive dev_trans : dev_op -> device_obj -> Z -> device_obj -> Z -> Prop :=
  | open_again d :
      rc_open (dev_refcnt d) <> 0 -> dev_trans DOpen d 0 (upd_refcnt inc_open d) 0
  | open_failed d :
      rc_open (dev_refcnt d) = 0 -> dev_trans DOpen d (- EIO) d 0
  | open_first d pcm :
      rc_open (dev_refcnt d) = 0 ->
      dev_trans DOpen d 0
        (upd_refcnt inc_open (set_dev_state DEV_OPENED (set_dev_pcm pcm d))) 1
  | prepare_again d :
      rc_prepare (dev_refcnt d) <> 0 -> dev_trans DPrepare d 0 (upd_refcnt inc_prepare d) 0
  | prepare_failed d r :
      rc_prepare (dev_refcnt d) = 0 -> r <> 0 -> dev_trans DPrepare d r d 0
  | prepare_first d r :
      rc_prepare (dev_refcnt d) = 0 -> r = 0 ->
      dev_trans DPrepare d r (upd_refcnt inc_prepare (set_dev_state DEV_PREPARED d)) 0
  | start_unprepared d :
      device_state_num (dev_state d) < device_state_num DEV_PREPARED ->
      dev_trans DStart d (-1) d 0
  | start_again d :
      device_state_num DEV_PREPARED <= device_state_num (dev_state d) ->
      rc_start (dev_refcnt d) <> 0 -> dev_trans DStart d 0 (upd_refcnt inc_start d) 0
  | start_first d :
      device_state_num DEV_PREPARED <= device_state_num (dev_state d) ->
      rc_start (dev_refcnt d) = 0 ->
      dev_trans DStart d 0 (upd_refcnt inc_start (set_dev_state DEV_STARTED d)) 0
  | stop_idle d :
      rc_start (dev_refcnt d) = 0 -> dev_trans DStop d 0 d 0
  | stop_shared d :
      rc_start (dev_refcnt d) <> 0 -> rc_start (dev_refcnt d) <> 1 ->
      dev_trans DStop d 0 (upd_refcnt (set_rc_start (rc_start (dev_refcnt d) - 1)) d) 0
  | stop_last d r :
      rc_start (dev_refcnt d) = 1 ->
      dev_trans DStop d r (set_dev_state DEV_STOPPED (upd_refcnt (set_rc_start (rc_start (dev_refcnt d) - 1)) d)) 0
  | close_shared d :
      rc_open (dev_refcnt d) <> 1 ->
      dev_trans DClose d 0 (upd_refcnt (set_rc_open (rc_open (dev_refcnt d) - 1)) d) 0
  | close_last d r :
      rc_open (dev_refcnt d) = 1 ->
      dev_trans DClose d r
        (upd_refcnt (fun c => set_rc_start 0 (set_rc_prepare 0 c))
           (set_dev_state DEV_CLOSED
              (upd_refcnt (set_rc_open (rc_open (dev_refcnt d) - 1)) d))) (-1).

(** The calls of a trace but those of the sysfs node that tells a device is in use. *)
Definition is_audio (e : event) : bool :=
  match call_of e with SysfsOpen | SysfsWrite _ _ _ | SysfsClose _ => false | _ => true end.
Definition audio_events (t : list event) : list event := List.filter is_audio t.

Lemma audio_events_cons e t : audio_events (e :: t) = if is_audio e then e :: audio_events t else audio_events t.
Proof. done. Qed.

(** The calls of an operation with their answers, the newest first: a call is made for the
    first or last reference only, on the PCM of the device, and its answer decides the status. *)
Definition dev_calls `{Env} (op : dev_op) (d : device_obj) (r : Z) (d' : device_obj) (evs : list event) : Prop :=
  match op with
  | DOpen =>
      if nz (rc_open (dev_refcnt d)) then evs = []
      else exists pcm : Z,
        let opened := Ev (PcmOpen (dev_card_id d) (dev_pcm_id d) (dev_pcm_flags d) (device_config d)) pcm in
        (pcm = 0 /\ evs = [opened] /\ r = - EIO) \/
        (pcm <> 0 /\ exists ready : Z, evs = [Ev (PcmIsReady pcm) ready; opened] /\
           if ready =? 0 then r = - EIO else r = 0 /\ dev_pcm d' = pcm)
  | DPrepare =>
      if nz (rc_prepare (dev_refcnt d)) then evs = [] else evs = [Ev (PcmPrepare (dev_pcm d)) r]
  | DStart => evs = []
  | DStop => if rc_start (dev_refcnt d) =? 1 then evs = [Ev (PcmStop (dev_pcm d)) r] else evs = []
  | DClose => if rc_open (dev_refcnt d) =? 1 then evs = [Ev (PcmClose (dev_pcm d)) r] else evs = []
  end.

(** What an operation on device [i] does to the state: [d'] is the object
    afterwards, [n] the change of [pcm_balance]. *)
Definition dev_effect (i : nat) (d' : device_obj) (n : Z) (w w' : world) : Prop :=
  w_devs w' = <[i := Some d']> (w_devs w) /\
  pcm_balance (w_trace w') = n + pcm_balance (w_trace w) /\
  same_but_devs w w'.

Section Refinement.
Context `{Env}.

Definition run_dev (op : dev_op) (i : nat) : AGM Z :=
  match op with
  | DOpen => device_open (Some i)
  | DPrepare => device_prepare (Some i)
  | DStart => device_start (Some i)
  | DStop => device_stop (Some i)
  | DClose => device_close (Some i)
  end.

Lemma wpg_update_sysfs u pcm_id state Q w :
  (forall t fd, pcm_balance (t ++ w_trace w) = pcm_balance (w_trace w) ->
     audio_events (t ++ w_trace w) = audio_events (w_trace w) ->
     Q tt (set_w_sysfs_fd fd (set_w_trace (t ++ w_trace w) w))) ->
  wpg u (update_sysfs_fd pcm_id state) Q w.
Proof.
  intros HQ. unfold update_sysfs_fd. wp_steps; wsimp.
  - destruct w, a. by apply (HQ [_] _).
  - destruct a0. by apply (HQ [_; _] _).
  - by apply (HQ [_] _).
Qed.

End Refinement.

(** Symbolic execution of a device operation, and the two halves of its effect. *)
Ltac dev_wp :=
  wp_steps;
  repeat (apply wpg_update_sysfs; intros ? ? ? ?; wp_steps).

Ltac dev_side := bool_hyps; lia.

Ltac dev_done :=
  repeat match goal with E : pcm_balance _ = pcm_balance _ |- _ => progress wsimp_in E end;
  unfold dev_effect; split_and!;
  [ wsimp; rewrite ?list_insert_insert_eq; first [reflexivity | by rewrite list_insert_id]
  | wsimp; cbn [pcm_balance];
    repeat (match goal with E : pcm_balance (_ ++ _) = _ |- _ => rewrite E; clear E end;
            cbn [pcm_balance]); repeat case_match; dev_side
  | split; wsimp; by rewrite ?remove_lock_head ].

(** The calls in the trace. *)
Ltac dev_events :=
  repeat match goal with E : audio_events _ = audio_events _ |- _ => progress wsimp_in E end;
  wsimp; repeat (first [match goal with E : audio_events (_ ++ _) = _ |- _ => rewrite E; clear E end
                       |rewrite audio_events_cons; cbn [is_audio call_of]]);
  first [instantiate (1 := []); reflexivity | instantiate (1 := [_]); reflexivity | instantiate (1 := [_; _]); reflexivity].
Ltac dev_label := cbn [dev_calls]; unfold nz in *; bool_hyps.

(** ** The invariant of a device whose clients pair their calls *)

(** Zero references means closed; a prepared reference exactly in the states
    after [device_prepare]; a started reference exactly in [DEV_STARTED]. *)
Record dev_inv (d : device_obj) : Prop := DevInv {
  di_open : 0 <= rc_open (dev_refcnt d);
  di_prepare : 0 <= rc_prepare (dev_refcnt d);
  di_start : 0 <= rc_start (dev_refcnt d);
  di_closed : rc_open (dev_refcnt d) = 0 <-> dev_state d = DEV_CLOSED;
  di_prepared : rc_prepare (dev_refcnt d) = 0 <->
                (dev_state d = DEV_CLOSED \/ dev_state d = DEV_OPENED);
  di_started : rc_start (dev_refcnt d) = 0 <-> dev_state d <> DEV_STARTED
}.

(** 1 while the PCM of the device is open. *)
Definition pcm_open_now (d : device_obj) : Z := if nz (rc_open (dev_refcnt d)) then 1 else 0.

Lemma dev_trans_inv op d r d' n :
  dev_inv d -> (op = DOpen \/ 0 < rc_open (dev_refcnt d)) -> dev_trans op d r d' n ->
  dev_inv d' /\ n = pcm_open_now d' - pcm_open_now d.
Proof.
  unfold pcm_open_now. intros [Ho Hp Hs Hc Hpr Hst] Hen Ht.
  destruct Ht; destruct d as [nm card hw pid pcm' fl md mt [o p s] st pr];
    cbn in *; unfold nz in *.
  all: assert (st = DEV_CLOSED -> o = 0 /\ p = 0 /\ s = 0) as Hst0
         by (intros ->; intuition congruence).
  all: destruct Hen as [Hen|Hen]; try discriminate Hen.
  all: split; [split; cbn; destruct st; cbn in *; intuition (congruence || lia)|].
  all: repeat match goal with |- context [?a =? 0] => destruct (Z.eqb_spec a 0) end; cbn; try lia.
Qed.

Section Clients.
Context `{Env}.

(** Clients that issue [ops] in turn and never prepare, start, stop or close
    a device nobody has open. *)
Fixpoint run_client (i : nat) (ops : list dev_op) : AGM unit :=
  match ops with
  | [] => ret tt
  | op :: ops' =>
      let! d := read_dev i in
      let enabled := match op with DOpen => true | _ => 0 <? rc_open (dev_refcnt d) end in
      do! (if enabled then do! run_dev op i ; ret tt else ret tt) ;
      run_client i ops'
  end.

Lemma wp_run_dev_calls u op i d w Q :
  w_devs w !! i = Some (Some d) -> LDev i ∉ w_held w ->
  (forall r d' n evs w', dev_trans op d r d' n -> dev_effect i d' n w w' ->
     audio_events (w_trace w') = evs ++ audio_events (w_trace w) -> dev_calls op d r d' evs -> Q r w') ->
  wpg u (run_dev op i) Q w.
Proof.
  intros Hd Hl HQ. destruct op; cbn [run_dev]; unfold device_open, device_prepare,
    device_start, device_stop, device_close; dev_wp.
  all: eapply HQ; [econstructor; dev_side|dev_done|dev_events|dev_label].
  all: try done.
  all: match goal with |- context [if ?b then _ else _] => destruct b eqn:? end; cbn [negb]; bool_hyps; first [done|lia|idtac].
  all: exists a.
  all: first [left; by split_and! | right; split; [lia|]; exists a0; split; [done|]].
  all: destruct (a0 =? 0) eqn:?; bool_hyps; first [done | lia].
Qed.

Lemma wp_run_dev u op i d w Q :
  w_devs w !! i = Some (Some d) -> LDev i ∉ w_held w ->
  (forall r d' n w', dev_trans op d r d' n -> dev_effect i d' n w w' -> Q r w') ->
  wpg u (run_dev op i) Q w.
Proof. intros Hd Hl HQ. eapply wp_run_dev_calls; [done..|]. intros. by eapply HQ. Qed.

Lemma dev_effect_lookup i d d' n w w' :
  w_devs w !! i = Some (Some d) -> dev_effect i d' n w w' ->
  w_devs w' !! i = Some (Some d') /\ w_held w' = w_held w.
Proof.
  intros Hd (E & _ & Hs). rewrite E. split; [|by destruct Hs].
  apply list_lookup_insert_eq. by eapply lookup_lt_Some.
Qed.

Lemma wp_run_client i ops : forall d w,
  w_devs w !! i = Some (Some d) -> LDev i ∉ w_held w -> dev_inv d ->
  wp (run_client i ops) (fun _ w' =>
    exists d', w_devs w' !! i = Some (Some d') /\ dev_inv d' /\ w_held w' = w_held w /\
      pcm_balance (w_trace w') - pcm_balance (w_trace w) = pcm_open_now d' - pcm_open_now d) w.
Proof.
  induction ops as [|op ops IH]; intros d w Hd Hl Hi; cbn [run_client].
  { apply wpg_ret. exists d. split_and!; try done. lia. }
  wp_steps; [|by eapply IH].
  eapply wp_run_dev; [done..|]. intros r d' n w' Ht He. wp_steps.
  destruct (dev_effect_lookup _ _ _ _ _ _ Hd He) as [Hd' Hh].
  assert (op = DOpen \/ 0 < rc_open (dev_refcnt d)) as Hen
    by (destruct op; [by left|right; bool_hyps; lia..]).
  destruct (dev_trans_inv _ _ _ _ _ Hi Hen Ht) as [Hi' Hn].
  eapply wpg_mono; [apply (IH d'); [done|by rewrite Hh|done]|].
  intros _ w'' (d'' & ? & ? & Hh' & Hb). exists d''. split_and!; [done..|by rewrite Hh'|].
  destruct He as (_ & Hb' & _). lia.
Qed.
End Clients.

(** ** Start-up *)

Definition is_read (e : event) : bool := match call_of e with ReadPcmFile => true | _ => false end.
Definition is_sleep (e : event) : bool := match call_of e with SleepSecs _ => true | _ => false end.
Definition count (f : event -> bool) (t : list event) : nat := length (List.filter f t).

(** The name field of the line fits [char name\[80\]] with its terminator. *)
Definition name_fits (l : string) : Prop :=
  (String.length (snd (sscanf_pcm_line l)) < MAX_DEV_NAME_LEN)%nat.

Section Startup.
Context `{Env}.

(** A device as [parse_snd_card] leaves it. *)
Definition fresh_dev (d : device_obj) : Prop :=
  populate_device_hw_ep_info (dev_name d) hw_ep_zero = (0, dev_hw_ep d) /\
  dev_refcnt d = Refcount 0 0 0 /\ dev_state d = DEV_CLOSED.

(** [device_list] holds the devices found, then empty slots. *)
Definition dev_table (w : world) : Prop :=
  exists ds k, ds <> [] /\ Forall fresh_dev ds /\
    w_num_intfs w = Z.of_nat (length ds) /\ w_devs w = (Some <$> ds) ++ replicate k None.

Lemma wp_parse_pcm_lines u ls : Forall name_fits ls \/ u -> forall w Q,
  (forall n r, (forall ds, r = Some ds -> Forall fresh_dev ds) -> Q r (set_w_allocs n w)) ->
  wpg u (parse_pcm_lines ls) Q w.
Proof.
  intros Hf. induction ls as [|l ls IH]; intros w Q HQ; cbn [parse_pcm_lines].
  { apply wpg_ret. destruct w. apply (HQ _ (Some [])). by intros ? [= <-]. }
  wp_steps; [by apply HQ|]. unfold parse_pcm_line.
  destruct (sscanf_pcm_line l) as [[card pcm] name] eqn:El.
  case_bool_decide as Hlen.
  { apply wpg_crash. destruct Hf as [Hf|]; [|done]. apply Forall_cons in Hf as [Hf _].
    unfold name_fits in Hf. rewrite El in Hf. cbn in Hf. unfold MAX_DEV_NAME_LEN in *. lia. }
  assert (Forall name_fits ls \/ u) as Hf' by (destruct Hf as [Hf|]; [left; by inversion Hf|by right]).
  destruct (populate_device_hw_ep_info name hw_ep_zero) as [r hw] eqn:Ep.
  destruct (nz r) eqn:Er; wp_steps; apply IH; try done; intros n' ds Hds; wp_steps;
    apply HQ; intros ds' E; destruct ds as [ds|]; simplify_eq; [by apply Hds|].
  constructor; [|by apply Hds]. bool_hyps. subst. done.
Qed.

(** One attempt reads the file once and never sleeps. *)
Lemma wp_parse_snd_card u w Q :
  (forall h ls, env_answer h ReadPcmFile = Some ls -> Forall name_fits ls) \/ u ->
  (forall r w' a, w_trace w' = Ev ReadPcmFile a :: w_trace w ->
     (r = 0 -> dev_table w') -> Q r w') ->
  wpg u parse_snd_card Q w.
Proof.
  intros Hf HQ. unfold parse_snd_card. apply wpg_bind.
  refine (wpg_ext u ReadPcmFile _ w _). cbn [ext_ans]. intros file Efile. wsimp.
  destruct file as [ls|]; wp_steps; [by eapply HQ| |by eapply HQ].
  apply wp_parse_pcm_lines.
  { destruct Hf as [Hf|]; [left; by eapply Hf|by right]. }
  intros n [[|d ds]|] Hds; wp_steps; (eapply HQ; [wsimp; reflexivity|]); try discriminate.
  intros _. exists (d :: ds). eexists. split_and!; [done|by apply Hds|done|reflexivity].
Qed.
(** What [n] attempts may leave: at most [n] reads of the file, [-EAGAIN]
    only after all of them, one sleep after each failed attempt. *)
Definition init_outcome (n : nat) (w : world) (r : Z) (w' : world) : Prop :=
  exists t, w_trace w' = t ++ w_trace w /\ (1 <= count is_read t <= n)%nat /\
    (r = - EAGAIN -> count is_read t = n /\ count is_sleep t = n) /\
    (r <> - EAGAIN -> S (count is_sleep t) = count is_read t) /\
    (r = 0 -> dev_table w').

Lemma count_app f t t' : count f (t ++ t') = (count f t + count f t')%nat.
Proof. unfold count. by rewrite List.filter_app, length_app. Qed.

Lemma device_init_loop_S n : device_init_loop (S (S n)) =
  let! r := parse_snd_card in
  if r =? - EAGAIN then do! ext (SleepSecs RETRY_INTERVAL) ; device_init_loop (S n)
  else ret r.
Proof. reflexivity. Qed.

Lemma wp_device_init_loop u n w :
  (forall h ls, env_answer h ReadPcmFile = Some ls -> Forall name_fits ls) \/ u ->
  wpg u (device_init_loop (S n)) (init_outcome (S n) w) w.
Proof.
  intros Hf. revert w.
  induction n as [|n IH]; intros w; [cbn [device_init_loop] | rewrite device_init_loop_S];
    apply wpg_bind, wp_parse_snd_card; try exact Hf; intros r w1 a Et Htab.
  - wp_steps; wsimp; bool_hyps.
    + exists [Ev (SleepSecs RETRY_INTERVAL) a0; Ev ReadPcmFile a].
      rewrite Et. subst r. split_and!; try done; cbn; lia.
    + exists [Ev ReadPcmFile a]. rewrite Et. split_and!; try done; cbn; lia.
  - wp_steps; wsimp; bool_hyps.
    + eapply wpg_mono; [apply IH|]. clear IH. intros r' w' (t & E & Hc & H1 & H2 & H3).
      exists (t ++ [Ev (SleepSecs RETRY_INTERVAL) a0; Ev ReadPcmFile a]).
      rewrite !count_app, E. wsimp. split_and!.
      * by rewrite Et, <- app_assoc.
      * cbn; lia.
      * cbn; lia.
      * intros ->. destruct (H1 eq_refl). cbn; lia.
      * intros Hr. specialize (H2 Hr). cbn; lia.
      * done.
    + exists [Ev ReadPcmFile a]. rewrite Et. split_and!; try done; cbn; lia.
Qed.
End Startup.

(** ** The properties *)
Section Properties.
Context `{Env}.

(** C19: each device operation on a live object whose mutex is free returns
    (no crash, no self-deadlock, every mutex released) and does exactly one
    transition of the abstract reference-counted PCM; nothing else in the
    process changes.  But for the sysfs node, its calls are those of the transition: the PCM is opened,
    prepared, stopped and closed for the first or last reference only, with the
    configuration of the device, and what tinyalsa answers is the status. *)
Theorem device_ops_refine op i d w :
  w_devs w !! i = Some (Some d) -> LDev i ∉ w_held w ->
  wp (run_dev op i) (fun r w' =>
    exists d' n evs, dev_trans op d r d' n /\ dev_effect i d' n w w' /\
      dev_calls op d r d' evs /\ audio_events (w_trace w') = evs ++ audio_events (w_trace w)) w.
Proof. intros Hd Hl. eapply wp_run_dev_calls; [done..|]. intros. eauto 10. Qed.

(** Whatever the clients of a device do in whatever order, as long as none
    acts on a device nobody has open, the reference counts and the state stay
    consistent, and the PCM is open exactly while somebody holds a reference:
    it is never opened twice, and the last close gives it back. *)
Theorem device_lifecycle i ops d w :
  w_devs w !! i = Some (Some d) -> LDev i ∉ w_held w -> dev_inv d ->
  wp (run_client i ops) (fun _ w' =>
    exists d', w_devs w' !! i = Some (Some d') /\ dev_inv d' /\ w_held w' = w_held w /\
      pcm_balance (w_trace w') - pcm_balance (w_trace w) = pcm_open_now d' - pcm_open_now d) w.
Proof. apply wp_run_client. Qed.

(** A close of a device nobody has open makes its reference count
    negative; the next open then succeeds without opening the PCM, and the
    device stays closed. *)
Theorem device_close_unopened i d w :
  w_devs w !! i = Some (Some d) -> LDev i ∉ w_held w -> rc_open (dev_refcnt d) = 0 ->
  wp (let! _ := device_close (Some i) in device_open (Some i)) (fun r w' =>
    r = 0 /\ w_trace w' = w_trace w /\
    exists d', w_devs w' !! i = Some (Some d') /\ dev_state d' = dev_state d /\
      dev_pcm d' = dev_pcm d /\ rc_open (dev_refcnt d') = 0) w.
Proof.
  intros Hd Hl H0. pose proof (lookup_lt_Some _ _ _ Hd).
  unfold device_close, device_open.
  wp_steps; bool_hyps; unfold upd_refcnt in *;
    cbn [dev_refcnt set_dev_refcnt rc_open set_rc_open] in *; try lia; wsimp.
  split_and!; [done..|]. eexists. rewrite list_lookup_insert_eq by (by rewrite length_insert).
  split_and!; try done. cbn. lia.
Qed.

(** C24: start-up returns unless a device name overflows its 80-byte field; it
    reads the card file at most 20 times with a sleep after each failure,
    gives up with [-EAGAIN] only after all 20, and when it succeeds the
    table is not empty and starts with closed, unreferenced devices whose
    end point is the one their name spells. *)
Theorem device_init_spec w :
  (forall h ls, env_answer h ReadPcmFile = Some ls -> Forall name_fits ls) ->
  wp device_init (init_outcome MAX_RETRY w) w.
Proof. intros Hf. apply wp_device_init_loop. by left. Qed.

(** One name of 80 characters in the card file is written past the end
    of [dev_obj->name]. *)
Theorem device_name_overflow l ls w :
  (forall h, env_answer h ReadPcmFile = Some (l :: ls)) -> (forall n, env_alloc n = true) ->
  ~ name_fits l -> device_init w = Crash OutOfBounds.
Proof.
  intros Hf Ha Hl. unfold device_init, MAX_RETRY, device_init_loop, parse_snd_card, bind, ext.
  rewrite Hf. unfold modify, gets, calloc. rewrite Ha. cbn [negb parse_pcm_lines].
  unfold bind, calloc. rewrite Ha. cbn [negb]. unfold parse_pcm_line.
  unfold name_fits in Hl. destruct (sscanf_pcm_line l) as [[c p] nm]. cbn in Hl.
  by rewrite bool_decide_true by lia.
Qed.

(** In the table start-up leaves, every index below [num_audio_intfs]
    names a device and every index above is refused with [-EINVAL]. *)
Theorem device_get_obj_spec idx w :
  dev_table w -> 0 <= idx < 2 ^ 32 -> idx <> w_num_intfs w ->
  exists r o, device_get_obj idx w = Ret (r, o) w /\
    (idx < w_num_intfs w -> r = 0 /\ o = Some (Z.to_nat idx) /\
       exists d, w_devs w !! Z.to_nat idx = Some (Some d) /\ fresh_dev d) /\
    (w_num_intfs w < idx -> r = - EINVAL /\ o = None).
Proof.
  intros (ds & k & _ & Hfr & Hn & Hds) Hi Hne. unfold device_get_obj, bind, gets.
  rewrite u32_small by done. destruct (Z.ltb_spec (w_num_intfs w) idx).
  { eexists _, _. split_and!; [done|lia|done]. }
  destruct (lookup_lt_is_Some_2 ds (Z.to_nat idx)) as [d Hd]; [lia|].
  assert (w_devs w !! Z.to_nat idx = Some (Some d)) as E.
  { rewrite Hds, lookup_app_l by (rewrite length_fmap; lia). by rewrite list_lookup_fmap, Hd. }
  rewrite E. eexists _, _. split_and!; [done| |lia]. intros _. split_and!; [done..|].
  exists d. split; [done|]. by eapply Forall_lookup_1.
Qed.

(** The index [num_audio_intfs] itself passes the check: the lookup
    returns 0 with a NULL device, or reads past the end of the table. *)
Theorem device_get_obj_off_by_one w :
  dev_table w -> w_num_intfs w < 2 ^ 32 ->
  device_get_obj (w_num_intfs w) w = Ret (0, None) w \/
  device_get_obj (w_num_intfs w) w = Crash OutOfBounds.
Proof.
  intros (ds & k & _ & _ & Hn & Hds) Hi. unfold device_get_obj, bind, gets.
  rewrite u32_small by lia. rewrite Z.ltb_irrefl, Hds, Hn, Nat2Z.id.
  rewrite lookup_app_r by (rewrite length_fmap; lia). rewrite length_fmap, Nat.sub_diag.
  destruct k; [by right|by left].
Qed.

(** The function [device_set_params] releases the device mutex before it touches the
    object and again at the end: on entry the mutex is not held, so both
    releases are of a mutex this thread does not own. *)
Theorem device_set_params_unlocked i d payload w :
  w_devs w !! i = Some (Some d) -> LDev i ∉ w_held w ->
  wp (device_set_params (Some i) payload) (fun r w' =>
    w_bad_unlock w' = LDev i :: LDev i :: w_bad_unlock w /\ w_acq w' = w_acq w /\
    exists d', w_devs w' !! i = Some (Some d') /\
      (r = 0 -> dev_params d' = Some payload) /\ (r <> 0 -> dev_params d' = None)) w.
Proof.
  intros Hd Hl. pose proof (lookup_lt_Some _ _ _ Hd). unfold device_set_params.
  cbn [the]. apply wpg_bind, wpg_ret, wpg_bind.
  unfold wpg at 1, mutex_unlock. rewrite bool_decide_false by done. wp_steps.
  all: unfold wpg at 1, mutex_unlock; rewrite bool_decide_false by done; wp_steps; wsimp.
  all: split_and!; [done..|]; eexists;
    rewrite list_lookup_insert_eq by (rewrite ?length_insert; done); split_and!; done.
Qed.
End Properties.

(** ** The theorems at concrete inputs *)
Definition one_dev : world := set_w_devs [Some device_zero] empty_world.

(** The process after a successful [device_init] on [demo_pcm_lines]. *)
Definition dev_world : world :=
  match device_init (H:=ok_env) empty_world with Ret _ w => w | Crash _ => empty_world end.

Lemma device_zero_inv : dev_inv device_zero.
Proof. split; cbn; repeat split; intros; try lia; try (by auto); naive_solver. Qed.

Lemma demo_names_fit : forall h ls, env_answer (Env:=ok_env) h ReadPcmFile = Some ls -> Forall name_fits ls.
Proof.
  intros h ls [= <-]. unfold name_fits, MAX_DEV_NAME_LEN. cbn. repeat constructor; vm_compute; lia.
Qed.

Lemma device_ops_refine_witness :
  exists w', run_dev (H:=ok_env) DOpen 0 one_dev = Ret 0 w' /\ pcm_balance (w_trace w') = 1.
Proof.
  pose proof (device_ops_refine (H:=ok_env) DOpen 0 device_zero one_dev eq_refl
    ltac:(apply not_elem_of_nil)) as Hwp.
  apply wp_run in Hwp as (r & w' & Hrun & _). exists w'. revert Hrun. vm_compute.
  intros [= <- <-]. done.
Defined.

Lemma device_lifecycle_witness :
  exists w', run_client (H:=ok_env) 0 [DOpen; DOpen; DPrepare; DStart; DClose; DClose; DStop] one_dev
      = Ret tt w' /\ pcm_balance (w_trace w') = 0.
Proof.
  pose proof (device_lifecycle (H:=ok_env) 0 [DOpen; DOpen; DPrepare; DStart; DClose; DClose; DStop]
    device_zero one_dev eq_refl ltac:(apply not_elem_of_nil) device_zero_inv) as Hwp.
  apply wp_run in Hwp as ([] & w' & Hrun & _). exists w'. revert Hrun. vm_compute.
  intros [= <-]. done.
Defined.

Lemma device_close_unopened_witness :
  exists w', (let! _ := device_close (H:=ok_env) (Some 0%nat) in
              device_open (H:=ok_env) (Some 0%nat)) one_dev = Ret 0 w' /\ w_trace w' = [].
Proof.
  pose proof (device_close_unopened (H:=ok_env) 0 device_zero one_dev eq_refl
    ltac:(apply not_elem_of_nil) eq_refl) as Hwp.
  apply wp_run in Hwp as (r & w' & Hrun & -> & Ht & _). by exists w'.
Defined.

Lemma device_init_spec_witness :
  exists w', device_init (H:=ok_env) empty_world = Ret 0 w' /\ dev_table (H:=ok_env) w'.
Proof.
  pose proof (device_init_spec (H:=ok_env) empty_world demo_names_fit) as Hwp.
  apply wp_run in Hwp as (r & w' & Hrun & _ & _ & _ & _ & _ & Htab). exists w'.
  assert (r = 0) as -> by (revert Hrun; vm_compute; congruence). auto.
Defined.

(** A card file with one name of 80 characters. *)
Definition long_line : string :=
  "00-00: aaaaaaaaaaaaaaaaaaaaaaaaaaaaaaaaaaaaaaaaaaaaaaaaaaaaaaaaaaaaaaaaaaaaaaaaaaaaaaaa".
Definition long_env : Env :=
  demo_env (fun _ c => match c return option (ext_ans c) with
                       | ReadPcmFile => Some (Some [long_line]) | _ => None end) (fun _ => true).

Lemma device_name_overflow_witness : device_init (H:=long_env) empty_world = Crash OutOfBounds.
Proof.
  apply (device_name_overflow (H:=long_env) long_line []); [done..|].
  unfold name_fits. vm_compute. lia.
Defined.

Lemma dev_world_table : dev_table (H:=ok_env) dev_world.
Proof.
  unfold dev_world. destruct (device_init (H:=ok_env) empty_world) as [r w'|] eqn:E;
    [|vm_compute in E; discriminate].
  pose proof (wp_device_init_loop (H:=ok_env) False 19 empty_world (or_introl demo_names_fit)) as Hwp.
  apply wp_wlp in Hwp. apply (wlp_run _ _ _ _ _ Hwp) in E as Hq.
  destruct Hq as (_ & _ & _ & _ & _ & Htab). apply Htab.
  revert E. vm_compute. congruence.
Qed.

Lemma device_get_obj_spec_witness :
  device_get_obj 3 dev_world = Ret (0, Some 3%nat) dev_world.
Proof.
  destruct (device_get_obj_spec (H:=ok_env) 3 dev_world dev_world_table) as (r & o & E & Hlt & _);
    [lia|by vm_compute|]. rewrite E. destruct Hlt as (-> & -> & _); [by vm_compute|done].
Defined.

Lemma device_get_obj_off_by_one_witness :
  device_get_obj 4 dev_world = Ret (0, None) dev_world \/
  device_get_obj 4 dev_world = Crash OutOfBounds.
Proof. apply (device_get_obj_off_by_one (H:=ok_env) dev_world dev_world_table). by vm_compute. Defined.

Lemma device_set_params_unlocked_witness :
  exists w', device_set_params (H:=ok_env) (Some 0%nat) [1; 2] one_dev = Ret 0 w' /\
    w_bad_unlock w' = [LDev 0; LDev 0].
Proof.
  pose proof (device_set_params_unlocked (H:=ok_env) 0 device_zero [1; 2] one_dev eq_refl
    ltac:(apply not_elem_of_nil)) as Hwp.
  apply wp_run in Hwp as (r & w' & Hrun & Hb & _). exists w'. split; [|exact Hb].
  revert Hrun. vm_compute. by intros [= <- <-].
Defined.
