(* ===== verification/Gsl.v ===== *)
(** * The Graph Service Layer, as the service calls it

    [gsl_*] functions live outside the repository; each one here records the
    call, asks the environment for the answer and gives the [int] the C code
    stores in its [ret].  The second half has the rules the client components
    use: a call changes nothing but the trace. *)

From S2P Require Export Metadata Utils.
Open Scope Z_scope.
#[export] Set Default Goal Selector "!".

Section Gsl.
Context `{Env}.

Definition gsl_set_custom_config (handle : Z) (p : payload) : AGM Z :=
  let! a := ext (GslSetCustomConfig handle p) in ret (s32 a).
Definition gsl_get_custom_config (handle : Z) (p : payload) : AGM (Z * list Z) :=
  let! (a, b) := ext (GslGetCustomConfig handle p) in ret (s32 a, b).
Definition gsl_get_session_time (handle : Z) (p : payload) : AGM (Z * (Z * Z)) :=
  let! (a, b) := ext (GslGetSprSessionTime handle p) in ret (s32 a, b).
Definition gsl_get_tagged_data (gkvs : option (list key_value)) (tag : Z)
    (tkvs : list key_value) (size : Z) : AGM (Z * list Z) :=
  let! (a, b) := ext (GslGetTaggedData gkvs tag tkvs size) in ret (s32 a, b).
Definition gsl_set_config (handle : Z) (gkvs : option (list key_value)) (tag : Z)
    (tkvs : list key_value) : AGM Z :=
  let! a := ext (GslSetConfig handle gkvs tag tkvs) in ret (s32 a).
Definition gsl_set_cal (handle : Z) (gkvs ckvs : list key_value) : AGM Z :=
  let! a := ext (GslSetCal handle gkvs ckvs) in ret (s32 a).
Definition gsl_ioctl (handle : Z) (cmd : gsl_cmd) : AGM Z :=
  let! a := ext (GslIoctl handle cmd) in ret (s32 a).
Definition gsl_open (gkvs ckvs : list key_value) : AGM (Z * Z) :=
  let! (a, h) := ext (GslOpen gkvs ckvs) in ret (s32 a, h).
Definition gsl_close (handle : Z) : AGM Z :=
  let! a := ext (GslClose handle) in ret (s32 a).
Definition gsl_register_event_cb (handle : Z) (g : nat) : AGM Z :=
  let! a := ext (GslRegisterEventCb handle g) in ret (s32 a).
Definition gsl_write (handle tag : Z) (data : list Z) : AGM (Z * Z) :=
  let! (a, n) := ext (GslWrite handle tag data) in ret (s32 a, n).
(** The bytes are those GSL stores at the start of the buffer, which has [size] bytes. *)
Definition gsl_read (handle tag size : Z) : AGM (Z * (Z * Z * list Z)) :=
  let! (a, (size_read, timestamp, bytes)) := ext (GslRead handle tag size) in
  ret (s32 a, (size_read, timestamp, take (Z.to_nat size) bytes)).
Definition gsl_init (files : list string) : AGM Z :=
  let! a := ext (GslInit files) in ret (s32 a).

(** The key-value entries of a [struct gsl_key_vector]: GSL reads [num_kvps]
    entries of the array it is given. *)
Definition read_kvs (v : key_vector) : AGM (list key_value) :=
  memcpy_from (num_kvs v) (kv v).
End Gsl.

(** Each call leaves every observation of the state but the trace. *)
Create HintDb gsl.
#[export] Hint Unfold gsl_set_custom_config gsl_get_custom_config gsl_get_session_time
  gsl_get_tagged_data gsl_set_config gsl_set_cal gsl_ioctl gsl_open gsl_close
  gsl_register_event_cb gsl_write gsl_read gsl_init read_kvs : gsl.

Ltac keeps_gsl := intros; autounfold with gsl; keeps_tac.

Section GslRules.
Context `{Env} {B : Type} (f : world -> B) (Hf : forall w t, f (set_w_trace t w) = f w).

Lemma Keeps_memcpy_from {A} n (src : option (list A)) : Keeps f (memcpy_from n src).
Proof using. unfold memcpy_from. keeps_tac. Qed.

Local Ltac t := intros; autounfold with gsl; apply Keeps_bind; [by apply Keeps_ext|keeps_tac].

Lemma Keeps_gsl_set_custom_config h p : Keeps f (gsl_set_custom_config h p).
Proof using Hf. t. Qed.
Lemma Keeps_gsl_get_custom_config h p : Keeps f (gsl_get_custom_config h p).
Proof using Hf. t. Qed.
Lemma Keeps_gsl_get_session_time h p : Keeps f (gsl_get_session_time h p).
Proof using Hf. t. Qed.
Lemma Keeps_gsl_get_tagged_data g t k s : Keeps f (gsl_get_tagged_data g t k s).
Proof using Hf. t. Qed.
Lemma Keeps_gsl_set_config h g t k : Keeps f (gsl_set_config h g t k).
Proof using Hf. t. Qed.
Lemma Keeps_gsl_set_cal h g c : Keeps f (gsl_set_cal h g c).
Proof using Hf. t. Qed.
Lemma Keeps_gsl_ioctl h c : Keeps f (gsl_ioctl h c).
Proof using Hf. t. Qed.
Lemma Keeps_gsl_open g c : Keeps f (gsl_open g c).
Proof using Hf. t. Qed.
Lemma Keeps_gsl_close h : Keeps f (gsl_close h).
Proof using Hf. t. Qed.
Lemma Keeps_gsl_register_event_cb h g : Keeps f (gsl_register_event_cb h g).
Proof using Hf. t. Qed.
Lemma Keeps_gsl_write h t d : Keeps f (gsl_write h t d).
Proof using Hf. t. Qed.
Lemma Keeps_gsl_read h t d : Keeps f (gsl_read h t d).
Proof using Hf. t. Qed.
Lemma Keeps_gsl_init h : Keeps f (gsl_init h).
Proof using Hf. t. Qed.
End GslRules.

#[export] Hint Resolve Keeps_memcpy_from : keeps.
#[export] Hint Extern 0 (Keeps _ (read_kvs _)) => (apply Keeps_memcpy_from) : keeps.
#[export] Hint Extern 0 (Keeps _ (gsl_set_custom_config _ _)) =>
  (apply Keeps_gsl_set_custom_config; intros; reflexivity) : keeps.
#[export] Hint Extern 0 (Keeps _ (gsl_get_custom_config _ _)) =>
  (apply Keeps_gsl_get_custom_config; intros; reflexivity) : keeps.
#[export] Hint Extern 0 (Keeps _ (gsl_get_session_time _ _)) =>
  (apply Keeps_gsl_get_session_time; intros; reflexivity) : keeps.
#[export] Hint Extern 0 (Keeps _ (gsl_get_tagged_data _ _ _ _)) =>
  (apply Keeps_gsl_get_tagged_data; intros; reflexivity) : keeps.
#[export] Hint Extern 0 (Keeps _ (gsl_set_config _ _ _ _)) =>
  (apply Keeps_gsl_set_config; intros; reflexivity) : keeps.
#[export] Hint Extern 0 (Keeps _ (gsl_set_cal _ _ _)) =>
  (apply Keeps_gsl_set_cal; intros; reflexivity) : keeps.
#[export] Hint Extern 0 (Keeps _ (gsl_ioctl _ _)) =>
  (apply Keeps_gsl_ioctl; intros; reflexivity) : keeps.
#[export] Hint Extern 0 (Keeps _ (gsl_open _ _)) =>
  (apply Keeps_gsl_open; intros; reflexivity) : keeps.
#[export] Hint Extern 0 (Keeps _ (gsl_close _)) =>
  (apply Keeps_gsl_close; intros; reflexivity) : keeps.
#[export] Hint Extern 0 (Keeps _ (gsl_register_event_cb _ _)) =>
  (apply Keeps_gsl_register_event_cb; intros; reflexivity) : keeps.
#[export] Hint Extern 0 (Keeps _ (gsl_write _ _ _)) =>
  (apply Keeps_gsl_write; intros; reflexivity) : keeps.
#[export] Hint Extern 0 (Keeps _ (gsl_read _ _ _)) =>
  (apply Keeps_gsl_read; intros; reflexivity) : keeps.
#[export] Hint Extern 0 (Keeps _ (gsl_init _)) =>
  (apply Keeps_gsl_init; intros; reflexivity) : keeps.
