(* ===== verification/GraphModule.v ===== *)
(** * Graph modules (service/src/graph_module.c)

    The parameters each module of a graph is configured with: the payload is
    built from the session or from the device the module belongs to and handed
    to GSL.  A module is configured through its [configure] pointer, an element
    of [configure_fn]; [run_configure] is the call through it. *)

From S2P Require Export Gsl HwEp.
Open Scope Z_scope.
#[export] Set Default Goal Selector "!".

Definition TAG_STREAM_SPR := 0xC0000013.

Section ModuleTables.
Context `{Consts}.

(** ** The module tables *)

Definition module_entry (tag : Z) (configure : option configure_fn) : module_info :=
  ModuleInfo tag 0 0 false None None configure.

Definition stream_module_list : list module_info := [
  module_entry STREAM_PCM_ENCODER (Some fn_configure_output_media_format);
  module_entry STREAM_PCM_DECODER (Some fn_configure_output_media_format);
  module_entry TAG_STREAM_PLACEHOLDER_DECODER (Some fn_configure_placeholder_dec);
  module_entry STREAM_PCM_CONVERTER (Some fn_configure_output_media_format);
  module_entry STREAM_INPUT_MEDIA_FORMAT (Some fn_configure_shared_mem_ep);
  module_entry TAG_PAUSE None;
  module_entry TAG_STREAM_SPR (Some fn_configure_spr) ].

Definition hw_ep_module : list module_info := [
  module_entry DEVICE_HW_ENDPOINT_RX (Some fn_configure_hw_ep);
  module_entry DEVICE_HW_ENDPOINT_TX (Some fn_configure_hw_ep) ].
End ModuleTables.

Section GraphModule.
Context `{Env}.

Definition MONO := 1.

(** [ALIGN_PAYLOAD(x, a)] on a [size_t]. *)
Definition ALIGN_PAYLOAD (x a : Z) : Z :=
  Z.land ((x + (a - 1)) mod 2 ^ 64) (Z.lnot (a - 1)).

Definition GET_BITS_PER_SAMPLE (format bit_width : Z) : Z :=
  if format =? AGM_FORMAT_PCM_S24_LE then 32 else bit_width.
Definition GET_Q_FACTOR (format bit_width : Z) : Z :=
  if format =? AGM_FORMAT_PCM_S24_LE then 27 else bit_width - 1.

(** Writing [vals] to the first bytes of a buffer: [None] when they go past its
    end. *)
Definition store (vals buf : list Z) : option (list Z) :=
  if (length vals <=? length buf)%nat then Some (vals ++ drop (length vals) buf) else None.

(** [channel_map] is what is left of the payload from the map on. *)
Definition get_default_channel_map (channel_map : list Z) (channels : Z) : option (list Z) :=
  if channels =? 1 then store [PCM_CHANNEL_C] channel_map
  else if channels =? 2 then store [PCM_CHANNEL_L; PCM_CHANNEL_R] channel_map
  else if channels =? 3 then store [PCM_CHANNEL_L; PCM_CHANNEL_R; PCM_CHANNEL_C] channel_map
  else if channels =? 4 then
    store [PCM_CHANNEL_L; PCM_CHANNEL_R; PCM_CHANNEL_LB; PCM_CHANNEL_RB] channel_map
  else if channels =? 5 then
    store [PCM_CHANNEL_L; PCM_CHANNEL_R; PCM_CHANNEL_C; PCM_CHANNEL_LB; PCM_CHANNEL_RB]
      channel_map
  else if channels =? 6 then
    store [PCM_CHANNEL_L; PCM_CHANNEL_R; PCM_CHANNEL_C; PCM_CHANNEL_LFE; PCM_CHANNEL_LB;
           PCM_CHANNEL_RB] channel_map
  else if channels =? 7 then
    store [PCM_CHANNEL_L; PCM_CHANNEL_R; PCM_CHANNEL_C; PCM_CHANNEL_LFE; PCM_CHANNEL_LB;
           PCM_CHANNEL_RB; PCM_CHANNEL_CS] channel_map
  else if channels =? 8 then
    store [PCM_CHANNEL_L; PCM_CHANNEL_R; PCM_CHANNEL_C; PCM_CHANNEL_LFE; PCM_CHANNEL_LB;
           PCM_CHANNEL_RB; PCM_CHANNEL_LS; PCM_CHANNEL_RS] channel_map
  else Some channel_map.

Definition is_format_pcm (fmt_id : Z) : bool :=
  (AGM_FORMAT_PCM_S8 <=? fmt_id) && (fmt_id <=? AGM_FORMAT_PCM_S32_LE).

Definition is_format_bypassed (fmt_id : Z) : bool := fmt_id =? AGM_FORMAT_VORBIS.

Definition get_pcm_bit_width (fmt_id : Z) : Z :=
  if (fmt_id =? AGM_FORMAT_PCM_S24_3LE) || (fmt_id =? AGM_FORMAT_PCM_S24_LE) then 24
  else if fmt_id =? AGM_FORMAT_PCM_S32_LE then 32
  else 16.

(** The fields of the codec union, at their offsets in its bytes. *)
Definition codec_u8 (codec : list Z) (off : nat) : Z := nth off codec 0.
Definition codec_u16 (codec : list Z) (off : nat) : Z :=
  nth off codec 0 + 2 ^ 8 * nth (S off) codec 0.
Definition flac_sample_size (codec : list Z) : Z := codec_u16 codec 2.
Definition alac_bit_depth (codec : list Z) : Z := codec_u8 codec 5.
Definition ape_bit_width (codec : list Z) : Z := codec_u16 codec 20.
Definition wma_bits_per_sample (codec : list Z) : Z := codec_u16 codec 14.

Definition get_media_bit_width (sess_obj : session_obj) : Z :=
  let format := mc_format (ses_media sess_obj) in
  let codec := sc_codec (ses_stream sess_obj) in
  if is_format_pcm format then get_pcm_bit_width format
  else if format =? AGM_FORMAT_FLAC then flac_sample_size codec
  else if format =? AGM_FORMAT_ALAC then alac_bit_depth codec
  else if format =? AGM_FORMAT_APE then ape_bit_width codec
  else if format =? AGM_FORMAT_WMASTD then wma_bits_per_sample codec
  else if format =? AGM_FORMAT_WMAPRO then wma_bits_per_sample codec
  else 16.

(** *** Hardware end points *)

(** [mod->dev_obj], dereferenced. *)
Definition mod_device (md : module_info) : AGM device_obj :=
  let! i := the NullDeref (mod_dev md) in read_dev i.

Definition mod_gkvs (md : module_info) : AGM (option (list key_value)) :=
  match mod_gkv md with
  | None => ret None
  | Some v => let! l := read_kvs v in ret (Some l)
  end.

Definition graph_session (graph : nat) : AGM session_obj :=
  let! go := read_graph graph in
  let! i := the NullDeref (gr_sess go) in
  read_sess i.

(** A payload of [size] bytes is written up to byte [used]. *)
Definition payload_room (size used : Z) : AGM unit :=
  if size <? used then crash_with OutOfBounds else ret tt.

(** The body the five interface functions share: calibration data is read for
    the channel count of the device, [fill] overwrites the interface fields,
    which lie behind the header in [sizeof_cfg] bytes, and the result goes back
    as a custom configuration. *)
Definition configure_tagged_ep (sizeof_cfg : Z) (fill : hw_ep_info -> list Z -> payload)
    (md : module_info) (graph : nat) : AGM Z :=
  let! dev_obj := mod_device md in
  let payload_sz := ALIGN_PAYLOAD (sizeof_apm_module_param_data_t + sizeof_cfg) 8 in
  let! ok := calloc in
  if negb ok then ret (- ENOMEM) else
  let! ok := calloc in
  if negb ok then ret (- ENOMEM) else
  let! gkvs := mod_gkvs md in
  let! (r, data) := gsl_get_tagged_data gkvs (mod_tag md)
                      [KV CHANNELS (mc_channels (dev_media dev_obj))] payload_sz in
  if nz r then ret (ar_err_get_lnx_err_code r) else
  do! payload_room payload_sz (sizeof_apm_module_param_data_t + sizeof_cfg) ;
  let! go := read_graph graph in
  let! r := gsl_set_custom_config (gr_handle go) (fill (dev_hw_ep dev_obj) data) in
  ret (lnx_err r).

Definition fill_intf (hw : hw_ep_info) (data : list Z) : payload :=
  PayTaggedIntf data (ep_lpaif_type hw) (ep_intf_idx hw).

Definition configure_codec_dma_ep : module_info -> nat -> AGM Z :=
  configure_tagged_ep sizeof_codec_dma_intf_cfg fill_intf.
Definition configure_i2s_ep : module_info -> nat -> AGM Z :=
  configure_tagged_ep sizeof_i2s_intf_cfg fill_intf.
Definition configure_tdm_ep : module_info -> nat -> AGM Z :=
  configure_tagged_ep sizeof_tdm_intf_cfg fill_intf.
Definition configure_aux_pcm_ep : module_info -> nat -> AGM Z :=
  configure_tagged_ep sizeof_hw_pcm_intf_cfg fill_intf.

(** The statement [ret -EINVAL;] computes a value and drops it: too many
    channels leave [ret] at 0. *)
Definition configure_slimbus_ep (md : module_info) (graph : nat) : AGM Z :=
  let! dev_obj := mod_device md in
  if SB_MAX_CHAN_CNT <? mc_channels (dev_media dev_obj) then ret 0
  else configure_tagged_ep sizeof_slimbus_cfg
         (fun hw data => PayTaggedSlim data (ep_dev_id hw)) md graph.

Definition configure_hw_ep_media_config (md : module_info) (graph : nat) : AGM Z :=
  let! dev_obj := mod_device md in
  let media_config := dev_media dev_obj in
  let payload_size :=
    ALIGN_PAYLOAD (sizeof_apm_module_param_data_t + sizeof_param_id_hw_ep_mf_t) 8 in
  let! ok := calloc in
  if negb ok then ret (- ENOMEM) else
  do! payload_room payload_size (sizeof_apm_module_param_data_t + sizeof_param_id_hw_ep_mf_t) ;
  let! go := read_graph graph in
  let! r := gsl_set_custom_config (gr_handle go)
    (PayParam (ParamHeader (mod_miid md) PARAM_ID_HW_EP_MF_CFG 0 (u32 payload_size))
       (BodyHwEpMf (mc_rate media_config) (get_pcm_bit_width (mc_format media_config))
          (mc_channels media_config) (mc_data_format media_config))) in
  ret (lnx_err r).

Definition configure_hw_ep (md : module_info) (graph : nat) : AGM Z :=
  let! dev_obj := mod_device md in
  let intf := ep_intf (dev_hw_ep dev_obj) in
  let! r := (if intf =? PCM_RT_PROXY then ret 0
             else configure_hw_ep_media_config md graph) in
  if nz r then ret r
  else if intf =? CODEC_DMA then configure_codec_dma_ep md graph
  else if intf =? MI2S then configure_i2s_ep md graph
  else if intf =? AUXPCM then configure_aux_pcm_ep md graph
  else if intf =? TDM then configure_tdm_ep md graph
  else if intf =? SLIMBUS then configure_slimbus_ep md graph
  else ret r.

(** *** Stream modules *)

(** The channel map behind a fixed part of [fixed] bytes: the rest of the
    buffer, with the default map written to it. *)
Definition channel_map_of (payload_size fixed num_channels : Z) : AGM (list Z) :=
  the OutOfBounds
    (get_default_channel_map (replicate (Z.to_nat (payload_size - fixed)) 0) num_channels).

(** The size expression wraps like [size_t]: with a negative channel count
    the header no longer fits the buffer. *)
Definition configure_output_media_format (md : module_info) (graph : nat) : AGM Z :=
  let! sess_obj := graph_session graph in
  let media := ses_media sess_obj in
  let dir := sc_dir (ses_stream sess_obj) in
  let num_channels := s32 (mc_channels media) in
  let fixed := sizeof_apm_module_param_data_t + sizeof_media_format_t +
               sizeof_pcm_output_format_cfg in
  let payload_size := ALIGN_PAYLOAD (fixed + num_channels) 8 in
  let! ok := calloc in
  if negb ok then ret (- ENOMEM) else
  do! payload_room payload_size fixed ;
  let bit_width := get_media_bit_width sess_obj in
  let send bits_per_sample q_factor :=
    let! channel_map := channel_map_of payload_size fixed num_channels in
    let! go := read_graph graph in
    let! r := gsl_set_custom_config (gr_handle go)
      (PayParam
         (ParamHeader (mod_miid md) PARAM_ID_PCM_OUTPUT_FORMAT_CFG 0 (u32 payload_size))
         (BodyPcmOutput
            (MediaHdr AGM_DATA_FORMAT_FIXED_POINT MEDIA_FMT_ID_PCM
               (u32 (sizeof_pcm_output_format_cfg + num_channels)))
            (PcmFmt PCM_LITTLE_ENDIAN bit_width PCM_LSB_ALIGNED bits_per_sample q_factor
               num_channels channel_map)
            (if dir =? RX then PCM_DEINTERLEAVED_UNPACKED else PCM_INTERLEAVED))) in
    ret (lnx_err r) in
  if (dir =? TX) && is_format_pcm (mc_format media) then
    send (GET_BITS_PER_SAMPLE (mc_format media) bit_width)
         (GET_Q_FACTOR (mc_format media) bit_width)
  else if (bit_width =? 16) || (bit_width =? 32) then send bit_width (bit_width - 1)
  else if bit_width =? 24 then send 32 27
  else ret (- EINVAL).

(** The status, the payload size and the media format tag value; the value is
    left alone when the format is unknown. *)
Definition get_media_fmt_id_and_size (fmt_id real_fmt_id : Z) : Z * Z * Z :=
  let size format_size :=
    sizeof_apm_module_param_data_t + sizeof_media_format_t + format_size in
  if is_format_pcm fmt_id then (0, size sizeof_media_fmt_pcm, MEDIA_FMT_PCM)
  else if fmt_id =? AGM_FORMAT_MP3 then (0, size 0, MEDIA_FMT_MP3)
  else if fmt_id =? AGM_FORMAT_AAC then (0, size sizeof_media_fmt_aac, MEDIA_FMT_AAC)
  else if fmt_id =? AGM_FORMAT_FLAC then (0, size sizeof_media_fmt_flac, MEDIA_FMT_FLAC)
  else if fmt_id =? AGM_FORMAT_ALAC then (0, size sizeof_media_fmt_alac, MEDIA_FMT_ALAC)
  else if fmt_id =? AGM_FORMAT_APE then (0, size sizeof_media_fmt_ape, MEDIA_FMT_APE)
  else if fmt_id =? AGM_FORMAT_WMASTD then (0, size sizeof_media_fmt_wmastd, MEDIA_FMT_WMASTD)
  else if fmt_id =? AGM_FORMAT_WMAPRO then (0, size sizeof_media_fmt_wmapro, MEDIA_FMT_WMAPRO)
  else if fmt_id =? AGM_FORMAT_VORBIS then (0, size 0, MEDIA_FMT_VORBIS)
  else (- EINVAL, size 0, real_fmt_id).

(** The header and the payload written behind it, where [room] bytes are left:
    [None] for a format without an entry.  APE is announced as ALAC. *)
Definition set_compressed_media_format (fmt_id room : Z) (sess_obj : session_obj)
  : AGM (option (media_hdr * list Z)) :=
  let put id size :=
    do! payload_room room size ;
    let! codec := read_bytes (sc_codec (ses_stream sess_obj)) 0 size in
    ret (Some (MediaHdr AGM_DATA_FORMAT_RAW_COMPRESSED id (u32 size), codec)) in
  if fmt_id =? AGM_FORMAT_MP3 then put MEDIA_FMT_ID_MP3 0
  else if fmt_id =? AGM_FORMAT_AAC then put MEDIA_FMT_ID_AAC sizeof_media_fmt_aac
  else if fmt_id =? AGM_FORMAT_FLAC then put MEDIA_FMT_ID_FLAC sizeof_media_fmt_flac
  else if fmt_id =? AGM_FORMAT_ALAC then put MEDIA_FMT_ID_ALAC sizeof_media_fmt_alac
  else if fmt_id =? AGM_FORMAT_APE then put MEDIA_FMT_ID_ALAC sizeof_media_fmt_ape
  else if fmt_id =? AGM_FORMAT_WMASTD then put MEDIA_FMT_ID_WMASTD sizeof_media_fmt_wmastd
  else if fmt_id =? AGM_FORMAT_WMAPRO then put MEDIA_FMT_ID_WMAPRO sizeof_media_fmt_wmapro
  else ret None.

Definition configure_placeholder_dec (md : module_info) (graph : nat) : AGM Z :=
  let! sess_obj := graph_session graph in
  let '(r, _, real_fmt_id) := get_media_fmt_id_and_size (mc_format (ses_media sess_obj)) 0 in
  if nz r then ret 0 else
  let! ok := calloc in
  if negb ok then crash_with NullDeref else
  let! gkvs := mod_gkvs md in
  let! go := read_graph graph in
  let! r := gsl_set_config (gr_handle go) gkvs TAG_STREAM_PLACEHOLDER_DECODER
              [KV MEDIA_FMT_ID (u32 real_fmt_id)] in
  if nz r then ret (ar_err_get_lnx_err_code r)
  else configure_output_media_format md graph.

Definition configure_compress_shared_mem_ep (md : module_info) (graph : nat) : AGM Z :=
  let! sess_obj := graph_session graph in
  let format := mc_format (ses_media sess_obj) in
  if is_format_bypassed format then ret 0 else
  let '(r, payload_size, _) := get_media_fmt_id_and_size format 0 in
  if nz r then ret 0 else
  let payload_size := ALIGN_PAYLOAD payload_size 8 in
  let! ok := calloc in
  if negb ok then crash_with NullDeref else
  let fixed := sizeof_apm_module_param_data_t + sizeof_media_format_t in
  do! payload_room payload_size fixed ;
  let! m := set_compressed_media_format format (payload_size - fixed) sess_obj in
  match m with
  | None => ret (- EINVAL)
  | Some (hdr, codec) =>
      let! go := read_graph graph in
      let! r := gsl_set_custom_config (gr_handle go)
        (PayParam (ParamHeader (mod_miid md) PARAM_ID_MEDIA_FORMAT 0 (u32 payload_size))
           (BodyCompressed hdr codec)) in
      ret (lnx_err r)
  end.

Definition configure_pcm_shared_mem_ep (md : module_info) (graph : nat) : AGM Z :=
  let! sess_obj := graph_session graph in
  let media := ses_media sess_obj in
  let num_channels := s32 (mc_channels media) in
  let fixed := sizeof_apm_module_param_data_t + sizeof_media_format_t +
               sizeof_media_fmt_pcm in
  let payload_size := ALIGN_PAYLOAD (fixed + num_channels) 8 in
  let! ok := calloc in
  if negb ok then ret (- ENOMEM) else
  do! payload_room payload_size fixed ;
  let bit_width := get_media_bit_width sess_obj in
  let! channel_map := channel_map_of payload_size fixed num_channels in
  let! go := read_graph graph in
  let! r := gsl_set_custom_config (gr_handle go)
    (PayParam (ParamHeader (mod_miid md) PARAM_ID_MEDIA_FORMAT 0 (u32 payload_size))
       (BodyPcmMedia
          (MediaHdr AGM_DATA_FORMAT_FIXED_POINT MEDIA_FMT_ID_PCM
             (u32 (sizeof_media_fmt_pcm + num_channels)))
          (PcmFmt PCM_LITTLE_ENDIAN bit_width PCM_LSB_ALIGNED
             (GET_BITS_PER_SAMPLE (mc_format media) bit_width)
             (GET_Q_FACTOR (mc_format media) bit_width)
             num_channels channel_map)
          (mc_rate media))) in
  ret (lnx_err r).

Definition configure_shared_mem_ep (md : module_info) (graph : nat) : AGM Z :=
  let! sess_obj := graph_session graph in
  let! r := (if is_format_pcm (mc_format (ses_media sess_obj))
             then configure_pcm_shared_mem_ep md graph
             else configure_compress_shared_mem_ep md graph) in
  if nz r then ret r else ret 0.

(** The loop of [configure_spr] over the modules of the graph: the last call
    decides the result. *)
Fixpoint spr_loop (spr_miid handle payload_size ret_ : Z) (mods : list module_info) : AGM Z :=
  match mods with
  | [] => ret ret_
  | md :: mods' =>
      if mod_tag md =? DEVICE_HW_ENDPOINT_RX then
        do! payload_room payload_size (sizeof_apm_module_param_data_t + sizeof_spr_delay_path_end) ;
        let! r := gsl_set_custom_config handle
          (PayParam (ParamHeader spr_miid PARAM_ID_SPR_DELAY_PATH_END 0 (u32 payload_size))
             (BodySprDelay (mod_miid md))) in
        spr_loop spr_miid handle payload_size (lnx_err r) mods'
      else spr_loop spr_miid handle payload_size ret_ mods'
  end.

Definition configure_spr (spr_mod : module_info) (graph : nat) : AGM Z :=
  do! upd_graph graph (set_gr_spr_miid (mod_miid spr_mod)) ;
  let payload_size :=
    ALIGN_PAYLOAD (sizeof_apm_module_param_data_t + sizeof_spr_delay_path_end) 8 in
  let! ok := calloc in
  if negb ok then ret (- ENOMEM) else
  let! go := read_graph graph in
  do! payload_room payload_size sizeof_apm_module_param_data_t ;
  spr_loop (mod_miid spr_mod) (gr_handle go) payload_size 0 (gr_mods go).

(** [mod->configure(mod, graph_obj)] *)
Definition run_configure (f : configure_fn) : module_info -> nat -> AGM Z :=
  match f with
  | fn_configure_output_media_format => configure_output_media_format
  | fn_configure_placeholder_dec => configure_placeholder_dec
  | fn_configure_shared_mem_ep => configure_shared_mem_ep
  | fn_configure_spr => configure_spr
  | fn_configure_hw_ep => configure_hw_ep
  end.
End GraphModule.

(** ** The frame of a configuration

    A configure function calls out, allocates, and may set the [spr_miid] of
    its graph; it changes nothing else. *)

Definition spr_upd (v : option Z) (go : graph_obj) : graph_obj :=
  match v with Some v => set_gr_spr_miid v go | None => go end.

Record conf_frame (g : nat) (w w' : world) : Prop := ConfFrame {
  cf_trace : exists t, w_trace w' = t ++ w_trace w;
  cf_graphs : exists v, w_graphs w' = alter (fmap (spr_upd v)) g (w_graphs w);
  cf_devs : w_devs w' = w_devs w;
  cf_num : w_num_intfs w' = w_num_intfs w;
  cf_fd : w_sysfs_fd w' = w_sysfs_fd w;
  cf_pool : w_pool w' = w_pool w;
  cf_stream : w_stream_mods w' = w_stream_mods w;
  cf_hw : w_hw_mods w' = w_hw_mods w;
  cf_held : w_held w' = w_held w;
  cf_acq : w_acq w' = w_acq w;
  cf_bad : w_bad_unlock w' = w_bad_unlock w;
  cf_init : w_agm_initialized w' = w_agm_initialized w
}.

Lemma alter_none (g : nat) (l : list (option graph_obj)) : alter (fmap (spr_upd None)) g l = l.
Proof.
  apply list_eq. intros j. destruct (decide (j = g)) as [->|].
  - rewrite list_lookup_alter_eq. by destruct (l !! g) as [[]|].
  - by rewrite list_lookup_alter_ne.
Qed.

#[export] Instance conf_frame_preorder g : PreOrder (conf_frame g).
Proof.
  split.
  - intros w. split; try done; [by exists []|exists None; by rewrite alter_none].
  - intros w1 w2 w3 [[t Ht] [v Hv]] [[t' Ht'] [v' Hv']]. split; try congruence.
    + exists (t' ++ t). by rewrite Ht', Ht, <- app_assoc.
    + exists (match v' with Some _ => v' | None => v end). rewrite Hv', Hv.
      apply list_eq. intros j. destruct (decide (j = g)) as [->|].
      * rewrite !list_lookup_alter_eq. destruct (w_graphs w1 !! g) as [[]|]; simpl; try done.
        by destruct v', v.
      * by rewrite !list_lookup_alter_ne.
Qed.

Section Frame.
Context `{Env} (g : nat).

Lemma conf_frame_trace w t : conf_frame g w (set_w_trace (t ++ w_trace w) w).
Proof. split; try done; [by exists t|exists None; by rewrite alter_none]. Qed.
Lemma conf_frame_allocs w n : conf_frame g w (set_w_allocs n w).
Proof. split; try done; [by exists []|exists None; by rewrite alter_none]. Qed.

Lemma Steps_conf_ext c : Steps (conf_frame g) (ext c).
Proof. intros w a w' [= _ <-]. apply (conf_frame_trace w [_]). Qed.
Lemma Steps_conf_calloc : Steps (conf_frame g) calloc.
Proof. intros w a w' [= _ <-]. apply conf_frame_allocs. Qed.

Lemma Steps_pure {A} (m : AGM A) : (forall w a w', m w = Ret a w' -> w' = w) ->
  Steps (conf_frame g) m.
Proof. intros Hp w a w' ->%Hp. reflexivity. Qed.

Lemma Steps_conf_read_dev i : Steps (conf_frame g) (read_dev i).
Proof. apply Steps_pure. intros w a w'. unfold read_dev. destruct (cell _ _); congruence. Qed.
Lemma Steps_conf_read_graph i : Steps (conf_frame g) (read_graph i).
Proof. apply Steps_pure. intros w a w'. unfold read_graph. destruct (cell _ _); congruence. Qed.
Lemma Steps_conf_read_sess i : Steps (conf_frame g) (read_sess i).
Proof.
  apply Steps_pure. intros w a w'. unfold read_sess, read_pool, bind, gets.
  destruct (w_pool w) as [p|]; [|done]. cbn. by destruct (p !! i); intros [= _ <-].
Qed.
Lemma Steps_conf_memcpy {A} n (l : option (list A)) : Steps (conf_frame g) (memcpy_from n l).
Proof. unfold memcpy_from. steps_tac. Qed.
Lemma Steps_conf_read_bytes b o n : Steps (conf_frame g) (read_bytes b o n).
Proof.
  apply Steps_pure. intros w a w'. unfold read_bytes. case_match; [|done]. by intros [= _ <-].
Qed.
Lemma Steps_conf_spr v : Steps (conf_frame g) (upd_graph g (set_gr_spr_miid v)).
Proof.
  intros w a w'. unfold upd_graph, bind, read_graph, cell.
  destruct (w_graphs w !! g) as [[go|]|] eqn:E; try done. intros [= _ <-].
  split; try done; [by exists []|]. exists (Some v). cbn. apply list_eq. intros j.
  destruct (decide (j = g)) as [->|].
  - rewrite list_lookup_insert_eq by (by eapply lookup_lt_Some).
    by rewrite list_lookup_alter_eq, E.
  - by rewrite list_lookup_insert_ne, list_lookup_alter_ne.
Qed.

Lemma Steps_conf_payload_room a b : Steps (conf_frame g) (payload_room a b).
Proof. unfold payload_room. steps_tac. Qed.
Lemma Steps_conf_channel_map a b n : Steps (conf_frame g) (channel_map_of a b n).
Proof. unfold channel_map_of. steps_tac. Qed.

#[local] Hint Resolve Steps_conf_payload_room Steps_conf_channel_map : steps.
#[local] Hint Resolve Steps_conf_ext Steps_conf_calloc Steps_conf_read_dev
  Steps_conf_read_graph Steps_conf_read_sess Steps_conf_memcpy Steps_conf_read_bytes
  Steps_conf_spr : steps.

Lemma Steps_gsl_set_custom_config h p : Steps (conf_frame g) (gsl_set_custom_config h p).
Proof. unfold gsl_set_custom_config. steps_tac. Qed.
Lemma Steps_gsl_set_config h k t v : Steps (conf_frame g) (gsl_set_config h k t v).
Proof. unfold gsl_set_config. steps_tac. Qed.
Lemma Steps_gsl_get_tagged_data k t v s : Steps (conf_frame g) (gsl_get_tagged_data k t v s).
Proof. unfold gsl_get_tagged_data. steps_tac. Qed.
#[local] Hint Resolve Steps_gsl_set_custom_config Steps_gsl_set_config
  Steps_gsl_get_tagged_data : steps.

Lemma Steps_mod_device md : Steps (conf_frame g) (mod_device md).
Proof. unfold mod_device. steps_tac. Qed.
Lemma Steps_mod_gkvs md : Steps (conf_frame g) (mod_gkvs md).
Proof. unfold mod_gkvs, read_kvs. steps_tac. Qed.
Lemma Steps_graph_session i : Steps (conf_frame g) (graph_session i).
Proof. unfold graph_session. steps_tac. Qed.
#[local] Hint Resolve Steps_mod_device Steps_mod_gkvs Steps_graph_session : steps.

Lemma Steps_configure_tagged_ep sz f md : Steps (conf_frame g) (configure_tagged_ep sz f md g).
Proof. unfold configure_tagged_ep. steps_tac. Qed.
#[local] Hint Resolve Steps_configure_tagged_ep : steps.

Lemma Steps_configure_hw_ep md : Steps (conf_frame g) (configure_hw_ep md g).
Proof.
  unfold configure_hw_ep, configure_hw_ep_media_config, configure_codec_dma_ep,
    configure_i2s_ep, configure_aux_pcm_ep, configure_tdm_ep, configure_slimbus_ep.
  steps_tac.
Qed.

Lemma Steps_configure_output md : Steps (conf_frame g) (configure_output_media_format md g).
Proof. unfold configure_output_media_format. steps_tac. Qed.
#[local] Hint Resolve Steps_configure_hw_ep Steps_configure_output : steps.

Lemma Steps_set_compressed f room s : Steps (conf_frame g) (set_compressed_media_format f room s).
Proof. unfold set_compressed_media_format. steps_tac. Qed.
#[local] Hint Resolve Steps_set_compressed : steps.

Lemma Steps_configure_shared_mem_ep md : Steps (conf_frame g) (configure_shared_mem_ep md g).
Proof.
  unfold configure_shared_mem_ep, configure_pcm_shared_mem_ep,
    configure_compress_shared_mem_ep, set_compressed_media_format. steps_tac.
Qed.

Lemma Steps_spr_loop m h p mods : forall r, Steps (conf_frame g) (spr_loop m h p r mods).
Proof. induction mods; intros r; cbn [spr_loop]; steps_tac. Qed.
#[local] Hint Resolve Steps_configure_shared_mem_ep Steps_spr_loop : steps.

Lemma Steps_run_configure f md : Steps (conf_frame g) (run_configure f md g).
Proof. destruct f; cbn [run_configure]; unfold configure_placeholder_dec, configure_spr; steps_tac. Qed.
End Frame.

(** ** Absence of undefined behaviour *)

(** What the outside headers promise: the table of [utils.c] matches
    ar_osal_error.h, the codec payloads mirror the client structures, the fixed
    parts of the payloads are small, and the tags are different. *)
Class ConstsOk (C : Consts) : Prop := {
  osal_codes : AR_ETIMEOUT = 21;
  codec_sizes : Forall (fun z => 0 <= z <= 32)
    [sizeof_media_fmt_aac; sizeof_media_fmt_flac; sizeof_media_fmt_alac; sizeof_media_fmt_ape;
     sizeof_media_fmt_wmastd; sizeof_media_fmt_wmapro];
  fixed_sizes : Forall (fun z => 0 <= z <= 2 ^ 16)
    [sizeof_apm_module_param_data_t; sizeof_media_format_t; sizeof_pcm_output_format_cfg;
     sizeof_media_fmt_pcm; sizeof_param_id_hw_ep_mf_t; sizeof_codec_dma_intf_cfg;
     sizeof_i2s_intf_cfg; sizeof_tdm_intf_cfg; sizeof_hw_pcm_intf_cfg; sizeof_slimbus_cfg;
     sizeof_spr_delay_path_end];
  tags_distinct : NoDup (mod_tag <$> stream_module_list ++ hw_ep_module)
}.

#[export] Instance demo_consts_ok : ConstsOk demo_consts.
Proof.
  split; [done|repeat constructor; discriminate|repeat constructor; discriminate|].
  refine (bool_decide_unpack _ _). vm_compute. exact I.
Qed.

Lemma ALIGN_PAYLOAD_bounds x : 0 <= x < 2 ^ 63 ->
  x <= ALIGN_PAYLOAD x 8 <= x + 7 /\ ALIGN_PAYLOAD x 8 mod 8 = 0.
Proof.
  intros Hx. unfold ALIGN_PAYLOAD. rewrite Z.mod_small by lia. change (8 - 1) with 7.
  assert (Z.land (x + 7) (Z.lnot 7) = (x + 7) - (x + 7) mod 8) as ->.
  { rewrite <- Z.ldiff_land. change 7 with (Z.ones 3) at 2.
    rewrite Z.ldiff_ones_r by lia. rewrite Z.shiftl_mul_pow2, Z.shiftr_div_pow2 by lia.
    change (2 ^ 3) with 8. pose proof (Z.div_mod (x + 7) 8). lia. }
  pose proof (Z.mod_pos_bound (x + 7) 8). split; [lia|].
  rewrite Zminus_mod, Zmod_mod, Z.sub_diag. done.
Qed.

(** The client data a configuration reads: a session with a channel count that
    is a positive [int] and a full codec union. *)
Definition session_data_ok (s : session_obj) : Prop :=
  0 <= mc_channels (ses_media s) < 2 ^ 31 /\ length (sc_codec (ses_stream s)) = 32%nat.

Definition dev_live (w : world) (i : nat) : Prop := exists d, w_devs w !! i = Some (Some d).

Definition module_ok (w : world) (md : module_info) : Prop :=
  (forall i, mod_dev md = Some i -> dev_live w i) /\
  (mod_configure md = Some fn_configure_hw_ep -> is_Some (mod_dev md)) /\
  match mod_gkv md with Some v => array_ok (num_kvs v) (kv v) = true | None => True end.

(** A live graph object of a live session. *)
Definition graph_live (w : world) (g : nat) : Prop :=
  exists go i p s, w_graphs w !! g = Some (Some go) /\ gr_sess go = Some i /\
    w_pool w = Some p /\ p !! i = Some s /\ session_data_ok s.

Section Safety.
Context `{Env} `{!ConstsOk env_consts} (Halloc : forall n, env_alloc n = true).

Lemma wp_calloc_ok Q w : Q true (set_w_allocs (S (w_allocs w)) w) -> wp calloc Q w.
Proof using Halloc. intros HQ. unfold wpg, calloc. by rewrite Halloc. Qed.

Lemma wp_memcpy {A} n (src : option (list A)) Q (w : world) :
  array_ok n src = true -> Q (live n src) w -> wp (memcpy_from n src) Q w.
Proof using.
  intros Hok HQ. unfold memcpy_from, live, array_ok in *. destruct n, src; try done.
  apply bool_decide_eq_true in Hok. by rewrite bool_decide_true.
Qed.

Lemma wp_mod_gkvs md w Q : module_ok w md ->
  (forall r, Q r w) -> wp (mod_gkvs md) Q w.
Proof using.
  intros (_ & _ & Hk) HQ. unfold mod_gkvs, read_kvs. destruct (mod_gkv md) as [v|]; [|by apply wpg_ret].
  apply wpg_bind, wp_memcpy; [done|]. by apply wpg_ret.
Qed.

Lemma wpg_graph_session u g w go i p s Q :
  w_graphs w !! g = Some (Some go) -> gr_sess go = Some i ->
  w_pool w = Some p -> p !! i = Some s -> Q s w -> wpg u (graph_session g) Q w.
Proof using.
  intros Hg Hi Hp Hs HQ. unfold graph_session.
  apply wpg_bind, (wpg_read_graph _ _ _ _ _ Hg). rewrite Hi.
  apply wpg_bind, wpg_ret, (wpg_read_sess _ _ _ _ _ _ Hp Hs), HQ.
Qed.

Lemma wp_graph_session g w Q : graph_live w g ->
  (forall s, session_data_ok s -> Q s w) -> wp (graph_session g) Q w.
Proof using.
  intros (go & i & p & s & Hg & Hi & Hp & Hs & Hok) HQ. eapply wpg_graph_session; eauto.
Qed.

Lemma wp_live_graph g w Q : graph_live w g -> (forall go, Q go w) -> wp (read_graph g) Q w.
Proof using. intros (go & i & p & s & Hg & _) HQ. by eapply wpg_read_graph. Qed.

Lemma graph_live_frame g w w' : conf_frame g w w' -> graph_live w g -> graph_live w' g.
Proof using.
  intros [_ [v Hv] _ _ _ Hp _ _ _ _ _ _] (go & i & p & s & Hg & Hi & Hpo & Hs & Hok).
  exists (spr_upd v go), i, p, s. rewrite Hv, Hp, list_lookup_alter_eq, Hg.
  split_and!; try done. by destruct v.
Qed.

Lemma module_ok_frame g w w' md : conf_frame g w w' -> module_ok w md -> module_ok w' md.
Proof using. intros Hf [Hd Hk]. split; [|done]. unfold dev_live. by rewrite (cf_devs _ _ _ Hf). Qed.

(** Every structure the payloads are built from is small. *)
Lemma header_sizes : 0 <= sizeof_apm_module_param_data_t <= 2 ^ 16 /\
  0 <= sizeof_media_format_t <= 2 ^ 16.
Proof using ConstsOk0.
  pose proof fixed_sizes as Hf. rewrite !Forall_cons in Hf. by destruct Hf as (? & ? & _).
Qed.

(** A payload allocated for [used] bytes, aligned, holds them. *)
Lemma wp_payload_room x used Q w : 0 <= used <= x -> x <= 2 ^ 40 ->
  Q tt w -> wp (payload_room (ALIGN_PAYLOAD x 8) used) Q w.
Proof using.
  intros Hu Hx HQ. unfold payload_room. pose proof (ALIGN_PAYLOAD_bounds x).
  rewrite (proj2 (Z.ltb_ge _ _)) by lia. by apply wpg_ret.
Qed.

Lemma default_map_fits buf n : n <= Z.of_nat (length buf) ->
  is_Some (get_default_channel_map buf n).
Proof using.
  intros Hn. unfold get_default_channel_map, store.
  repeat match goal with |- context [n =? ?k] => destruct (Z.eqb_spec n k) end.
  all: try match goal with |- context [(?a <=? ?b)%nat] =>
    rewrite (proj2 (Nat.leb_le a b)) by (cbn [length]; lia) end; by eexists.
Qed.

(** The default map stays within a payload allocated for one byte per channel. *)
Lemma wp_channel_map_of fixed n Q w : 0 <= fixed <= 2 ^ 20 -> 0 <= n < 2 ^ 31 ->
  (forall m, Q m w) -> wp (channel_map_of (ALIGN_PAYLOAD (fixed + n) 8) fixed n) Q w.
Proof using.
  intros Hf Hn HQ. unfold channel_map_of. pose proof (ALIGN_PAYLOAD_bounds (fixed + n)).
  destruct (default_map_fits (replicate (Z.to_nat (ALIGN_PAYLOAD (fixed + n) 8 - fixed)) 0) n)
    as [m ->]; [rewrite length_replicate; lia|]. by apply wpg_ret.
Qed.

Ltac safe_step :=
  lazymatch goal with
  | |- wp (bind _ _) _ _ => apply wpg_bind
  | |- wp (ret _) _ _ => apply wpg_ret
  | |- wp calloc _ _ => apply wp_calloc_ok; cbn [negb]
  | |- wp (read_graph _) _ _ => eapply wp_live_graph; [eassumption|intros ?]
  | |- wp (graph_session _) _ _ =>
      eapply wp_graph_session; [eassumption|intros ? [? ?]]
  | |- wp (mod_gkvs _) _ _ => eapply wp_mod_gkvs; [eassumption|intros ?]
  | |- wp (payload_room _ _) _ _ => apply wp_payload_room; [lia|lia|]
  | |- wp (channel_map_of _ _ _) _ _ => apply wp_channel_map_of; [lia|lia|intros ?]
  | |- wp (gsl_set_custom_config _ _) _ _ => unfold gsl_set_custom_config
  | |- wp (gsl_set_config _ _ _ _) _ _ => unfold gsl_set_config
  | |- wp (gsl_get_tagged_data _ _ _ _) _ _ => unfold gsl_get_tagged_data
  | |- wp (ext ?c) ?Q ?w => refine (wpg_ext False c Q w _); cbn [ext_ans]; intros ? _
  | |- wp (if ?b then _ else _) _ _ => destruct b eqn:?
  | |- wp (match ?x with _ => _ end) _ _ => destruct x eqn:?
  | |- wp (let _ := _ in _) _ _ => cbv zeta
  end.
Ltac safe := repeat safe_step; try exact I.

#[local] Abbreviation safe_run m w := (wp m (fun _ _ => True) w).

Lemma safe_tagged_ep sz f md g w i d : 0 <= sz <= 2 ^ 16 ->
  mod_dev md = Some i -> w_devs w !! i = Some (Some d) -> module_ok w md -> graph_live w g ->
  safe_run (configure_tagged_ep sz f md g) w.
Proof using Halloc ConstsOk0.
  intros Hsz Hi Hd Hm Hg. unfold configure_tagged_ep, mod_device. rewrite Hi. cbn [the].
  safe_step; safe_step; safe_step; apply (wpg_read_dev _ _ _ _ _ Hd). pose proof header_sizes.
  safe.
Qed.

Lemma safe_configure_hw_ep md g w : mod_configure md = Some fn_configure_hw_ep ->
  module_ok w md -> graph_live w g -> safe_run (configure_hw_ep md g) w.
Proof using Halloc ConstsOk0.
  intros Hc Hm Hg. pose proof fixed_sizes as Hf. rewrite !Forall_cons in Hf.
  destruct_and! Hf. destruct (proj1 (proj2 Hm) Hc) as [i Hi].
  destruct (proj1 Hm i Hi) as [d Hd].
  assert (forall w' A (k : device_obj -> AGM A) Q, w_devs w' = w_devs w ->
    wp (k d) Q w' -> wp (let! x := mod_device md in k x) Q w') as Hdev.
  { intros w' A k Q E Hk. unfold mod_device. rewrite Hi. cbn [the].
    apply wpg_bind, wpg_bind, wpg_ret. eapply wpg_read_dev; [by rewrite E|done]. }
  unfold configure_hw_ep. apply Hdev; [done|].
  destruct (ep_intf (dev_hw_ep d) =? PCM_RT_PROXY) eqn:Ep.
  { bool_hyps. rewrite Ep. exact I. }
  apply wpg_bind. unfold configure_hw_ep_media_config. apply Hdev; [done|]. safe.
  all: unfold configure_codec_dma_ep, configure_i2s_ep, configure_aux_pcm_ep,
    configure_tdm_ep, configure_slimbus_ep; first [by eapply safe_tagged_ep | idtac].
  apply Hdev; [done|]. safe. by eapply safe_tagged_ep.
Qed.

Lemma fixed_pcm : 0 <= sizeof_apm_module_param_data_t + sizeof_media_format_t +
  sizeof_media_fmt_pcm <= 2 ^ 20 /\
  0 <= sizeof_apm_module_param_data_t + sizeof_media_format_t +
  sizeof_pcm_output_format_cfg <= 2 ^ 20.
Proof using ConstsOk0.
  pose proof fixed_sizes as Hf. rewrite !Forall_cons in Hf. destruct Hf as (? & ? & ? & ? & _).
  lia.
Qed.

Lemma safe_configure_output md g w : graph_live w g ->
  safe_run (configure_output_media_format md g) w.
Proof using Halloc ConstsOk0.
  intros Hg. unfold configure_output_media_format. pose proof fixed_pcm. safe_step.
  eapply wp_graph_session; [eassumption|intros s [Hs _]]. rewrite s32_small by lia. safe.
Qed.

Lemma wp_read_bytes buf n Q (w : world) : 0 <= n <= Z.of_nat (length buf) ->
  (forall l, Q l w) -> wp (read_bytes buf 0 n) Q w.
Proof using.
  intros Hn HQ. unfold read_bytes.
  rewrite (proj2 (Z.leb_le 0 n)), (proj2 (Z.leb_le (0 + n) _)) by lia. apply wpg_ret, HQ.
Qed.

(** The table of sizes leaves room for what the table of payloads copies. *)
Lemma safe_set_compressed fmt s w r size v : is_format_pcm fmt = false -> session_data_ok s ->
  get_media_fmt_id_and_size fmt 0 = (r, size, v) -> nz r = false ->
  let fixed := sizeof_apm_module_param_data_t + sizeof_media_format_t in
  fixed <= size <= 2 ^ 20 /\
  safe_run (set_compressed_media_format fmt (ALIGN_PAYLOAD size 8 - fixed) s) w.
Proof using ConstsOk0.
  intros Hp [_ Hl] E Hr fixed. pose proof codec_sizes as Hc. rewrite !Forall_cons in Hc.
  destruct_and! Hc. pose proof header_sizes as Hh.
  pose proof (ALIGN_PAYLOAD_bounds size) as Hb.
  unfold get_media_fmt_id_and_size in E. rewrite Hp in E.
  assert (fixed <= size <= 2 ^ 20) as Hsize.
  { revert E Hr. repeat case_match; intros [= <- <- <-]; subst fixed; try done; intros _; lia. }
  split; [done|]. unfold set_compressed_media_format.
  destruct Hb as [Hb _]; [subst fixed; lia|].
  repeat match goal with |- context [fmt =? ?k] => destruct (fmt =? k) end; try exact I.
  all: injection E as <- <- <-; apply wpg_bind; unfold payload_room;
    rewrite (proj2 (Z.ltb_ge _ _)) by (subst fixed; lia); apply wpg_ret, wpg_bind;
    apply wp_read_bytes; [rewrite Hl; lia|intros l; exact I].
Qed.

Lemma safe_configure_shared_mem_ep md g w : graph_live w g ->
  safe_run (configure_shared_mem_ep md g) w.
Proof using Halloc ConstsOk0.
  intros Hg. unfold configure_shared_mem_ep, configure_pcm_shared_mem_ep,
    configure_compress_shared_mem_ep. pose proof fixed_pcm.
  pose proof Hg as (go & i & p & s & Hgo & Hi & Hp & Hs & Hok).
  apply wpg_bind; eapply wpg_graph_session; [done..|]. apply wpg_bind.
  destruct (is_format_pcm _) eqn:Epcm; apply wpg_bind; (eapply wpg_graph_session; [done..|]).
  - pose proof Hok as [Hc _]. rewrite s32_small by lia. safe.
  - destruct (is_format_bypassed _); [exact I|].
    destruct (get_media_fmt_id_and_size _ 0) as [[r size] v] eqn:E. destruct (nz r) eqn:Er; [exact I|].
    do 2 safe_step. set (w1 := set_w_allocs _ w).
    destruct (safe_set_compressed _ s w1 r size v Epcm Hok E Er) as [Hsz Hrun].
    pose proof header_sizes. do 3 safe_step.
    eapply wpg_steps; [apply (Steps_set_compressed g)|right; exact Hrun|].
    intros m w' Hf. assert (graph_live w' g) as Hg' by (by eapply graph_live_frame). safe.
Qed.

Lemma safe_configure_placeholder_dec md g w : module_ok w md -> graph_live w g ->
  safe_run (configure_placeholder_dec md g) w.
Proof using Halloc ConstsOk0.
  intros Hm Hg. unfold configure_placeholder_dec. safe. by apply safe_configure_output.
Qed.

Lemma spr_sizes : 0 <= sizeof_spr_delay_path_end <= 2 ^ 16.
Proof using ConstsOk0. pose proof fixed_sizes as Hf. rewrite !Forall_cons in Hf. by destruct_and! Hf. Qed.

Lemma safe_spr_loop m h mods : forall r w,
  safe_run (spr_loop m h
    (ALIGN_PAYLOAD (sizeof_apm_module_param_data_t + sizeof_spr_delay_path_end) 8) r mods) w.
Proof using ConstsOk0.
  pose proof header_sizes. pose proof spr_sizes.
  induction mods; intros r w; cbn [spr_loop]; safe; apply IHmods.
Qed.

Lemma safe_configure_spr md g w : graph_live w g -> safe_run (configure_spr md g) w.
Proof using Halloc ConstsOk0.
  intros Hg. unfold configure_spr. apply wpg_bind.
  pose proof Hg as (go & i & p & s & Hgo & _). eapply wpg_upd_graph; [done|].
  safe_step. apply wp_calloc_ok. cbn [negb]. apply wpg_bind. eapply wpg_read_graph.
  { wsimp. rewrite list_lookup_insert_eq by (by eapply lookup_lt_Some). done. }
  pose proof header_sizes. pose proof spr_sizes. do 2 safe_step.
  apply safe_spr_loop.
Qed.

(** With memory available, a live graph and sane client data, a module is
    configured without undefined behaviour. *)
Lemma safe_run_configure f md g w : mod_configure md = Some f ->
  module_ok w md -> graph_live w g -> safe_run (run_configure f md g) w.
Proof using Halloc ConstsOk0.
  intros Hf Hm Hg. destruct f; cbn [run_configure];
    auto using safe_configure_output, safe_configure_placeholder_dec,
      safe_configure_shared_mem_ep, safe_configure_spr, safe_configure_hw_ep.
Qed.

Lemma wp_run_configure f md g w Q : mod_configure md = Some f ->
  module_ok w md -> graph_live w g -> (forall r w', conf_frame g w w' -> Q r w') ->
  wp (run_configure f md g) Q w.
Proof using Halloc ConstsOk0.
  intros. eapply wpg_steps; [apply (Steps_run_configure g)|right; by apply safe_run_configure|done].
Qed.
End Safety.

(** ** Properties *)

(** Bit width, bits per sample and Q factor of the PCM formats, as the shared
    memory end point must announce them. *)
Definition pcm_layout (format : Z) : Z * Z * Z :=
  if format =? AGM_FORMAT_PCM_S24_LE then (24, 32, 27)
  else if format =? AGM_FORMAT_PCM_S24_3LE then (24, 24, 23)
  else if format =? AGM_FORMAT_PCM_S32_LE then (32, 32, 31)
  else (16, 16, 15).

Section Properties.
Context `{Env}.

(** The channel positions tinyalsa names. *)
Definition positions : list Z :=
  [PCM_CHANNEL_C; PCM_CHANNEL_L; PCM_CHANNEL_R; PCM_CHANNEL_LB; PCM_CHANNEL_RB;
   PCM_CHANNEL_LFE; PCM_CHANNEL_CS; PCM_CHANNEL_LS; PCM_CHANNEL_RS].

Lemma default_map_shape n buf : 1 <= n <= 8 ->
  exists l, Z.of_nat (length l) = n /\ l ⊆ positions /\
    (NoDup positions -> NoDup l) /\ get_default_channel_map buf n = store l buf.
Proof using.
  intros Hn. unfold get_default_channel_map.
  assert (n = 1 \/ n = 2 \/ n = 3 \/ n = 4 \/ n = 5 \/ n = 6 \/ n = 7 \/ n = 8) as Hc by lia.
  unfold positions. destruct Hc as [->|[->|[->|[->|[->|[->|[->| ->]]]]]]]; cbn [Z.eqb Pos.eqb];
    eexists; (split; [|split; [|split; [|reflexivity]]]); try reflexivity.
  all: first [ intros x; rewrite !elem_of_cons; clear; tauto
             | rewrite !NoDup_cons, !not_elem_of_cons; clear; intros Hn; destruct_and! Hn;
               split_and!; first [done | by apply not_elem_of_nil | by apply NoDup_nil | by apply not_eq_sym] ].
Qed.

Lemma store_fits l buf : (length l <= length buf)%nat ->
  store l buf = Some (l ++ drop (length l) buf).
Proof using. intros Hl. unfold store. by rewrite (proj2 (Nat.leb_le _ _)). Qed.

Lemma default_channel_map_shape payload_size fixed n :
  1 <= n <= 8 -> fixed + n <= payload_size ->
  exists l, Z.of_nat (length l) = n /\ l ⊆ positions /\ (NoDup positions -> NoDup l) /\
    channel_map_of payload_size fixed n =
      ret (l ++ replicate (Z.to_nat (payload_size - fixed - n)) 0).
Proof using.
  intros Hn Hp. unfold channel_map_of.
  destruct (default_map_shape n (replicate (Z.to_nat (payload_size - fixed)) 0) Hn)
    as (l & Hl & Hin & Hnd & ->).
  exists l. split_and!; try done. rewrite store_fits by (rewrite length_replicate; lia).
  rewrite drop_replicate. cbn [the]. do 3 f_equal. lia.
Qed.

(** For every channel count from 1 to 8 the default channel map fills
    exactly that many bytes of the payload, names only known positions, each
    at most once, and leaves the padding zero. *)
Theorem default_channel_map_wf payload_size fixed n :
  1 <= n <= 8 -> fixed + n <= payload_size ->
  exists l, Z.of_nat (length l) = n /\ l ⊆ positions /\ (NoDup positions -> NoDup l) /\
    channel_map_of payload_size fixed n =
      ret (l ++ replicate (Z.to_nat (payload_size - fixed - n)) 0).
Proof using. exact (default_channel_map_shape payload_size fixed n). Qed.

Lemma media_layout s : is_format_pcm (mc_format (ses_media s)) = true ->
  (get_media_bit_width s, GET_BITS_PER_SAMPLE (mc_format (ses_media s)) (get_media_bit_width s),
   GET_Q_FACTOR (mc_format (ses_media s)) (get_media_bit_width s)) =
  pcm_layout (mc_format (ses_media s)).
Proof using.
  intros Hf. unfold get_media_bit_width, GET_BITS_PER_SAMPLE, GET_Q_FACTOR, pcm_layout,
    get_pcm_bit_width. rewrite Hf. generalize (mc_format (ses_media s)). intros f.
  destruct (f =? AGM_FORMAT_PCM_S24_LE) eqn:E1; bool_hyps; subst; [done|].
  destruct (f =? AGM_FORMAT_PCM_S24_3LE) eqn:E2; [done|].
  by destruct (f =? AGM_FORMAT_PCM_S32_LE).
Qed.

(** A PCM session with 1 to 8 channels configures its shared memory end
    point with one GSL call: the payload is a multiple of 8 bytes that holds
    the header and one map byte per channel, and announces the sample layout
    of the format. *)
Theorem pcm_shared_mem_payload md g w go i p s :
  let fixed := sizeof_apm_module_param_data_t + sizeof_media_format_t + sizeof_media_fmt_pcm in
  let ch := mc_channels (ses_media s) in
  let layout := pcm_layout (mc_format (ses_media s)) in
  w_graphs w !! g = Some (Some go) -> gr_sess go = Some i ->
  w_pool w = Some p -> p !! i = Some s ->
  is_format_pcm (mc_format (ses_media s)) = true -> 1 <= ch <= 8 ->
  env_alloc (w_allocs w) = true -> 0 <= fixed <= 2 ^ 20 ->
  wp (configure_shared_mem_ep md g) (fun r w' => exists (a : Z) size map,
    r = lnx_err (s32 a) /\
    w_trace w' = Ev (GslSetCustomConfig (gr_handle go)
      (PayParam (ParamHeader (mod_miid md) PARAM_ID_MEDIA_FORMAT 0 (u32 size))
        (BodyPcmMedia
          (MediaHdr AGM_DATA_FORMAT_FIXED_POINT MEDIA_FMT_ID_PCM (u32 (sizeof_media_fmt_pcm + ch)))
          (PcmFmt PCM_LITTLE_ENDIAN layout.1.1 PCM_LSB_ALIGNED layout.1.2 layout.2 ch map)
          (mc_rate (ses_media s))))) a :: w_trace w /\
    size mod 8 = 0 /\ fixed + ch <= size <= fixed + ch + 7 /\
    Z.of_nat (length map) = size - fixed) w.
Proof using.
  intros fixed ch layout Hg Hi Hp Hs Hf Hc Ha Hfix.
  destruct (ALIGN_PAYLOAD_bounds (fixed + ch)) as [Hb Hm]; [lia|].
  unfold configure_shared_mem_ep, configure_pcm_shared_mem_ep.
  apply wpg_bind; eapply wpg_graph_session; [done..|]. rewrite Hf. apply wpg_bind, wpg_bind.
  eapply wpg_graph_session; [done..|]. fold ch fixed. rewrite s32_small by lia.
  apply wpg_bind. unfold wpg at 1, calloc. rewrite Ha. cbn [negb]. apply wpg_bind.
  unfold payload_room. rewrite (proj2 (Z.ltb_ge _ _)) by lia. apply wpg_ret.
  pose proof (media_layout _ Hf) as HL. fold layout in HL.
  destruct (default_channel_map_shape (ALIGN_PAYLOAD (fixed + ch) 8) fixed ch)
    as (l & Hl & _ & _ & ->); [lia..|].
  apply wpg_bind, wpg_ret, wpg_bind. eapply wpg_read_graph; [exact Hg|].
  unfold gsl_set_custom_config. wp_steps; wsimp; bool_hyps.
  all: eexists _, (ALIGN_PAYLOAD (fixed + ch) 8), _.
  all: split_and!; [first [reflexivity|by symmetry]|by rewrite <- HL|done|lia|lia|].
  all: rewrite length_app, length_replicate; lia.
Qed.

(** A channel count that is negative as an [int] makes the size
    expression wrap: the allocation is smaller than the header written to it. *)
Theorem pcm_payload_overflow md g w go i p s :
  let fixed := sizeof_apm_module_param_data_t + sizeof_media_format_t + sizeof_media_fmt_pcm in
  w_graphs w !! g = Some (Some go) -> gr_sess go = Some i ->
  w_pool w = Some p -> p !! i = Some s ->
  env_alloc (w_allocs w) = true -> fixed <= 2 ^ 20 ->
  - fixed <= s32 (mc_channels (ses_media s)) <= -8 ->
  configure_pcm_shared_mem_ep md g w = Crash OutOfBounds.
Proof using.
  intros fixed Hg Hi Hp Hs Ha Hfix Hc. unfold configure_pcm_shared_mem_ep.
  assert (graph_session g w = Ret s w) as Hsess.
  { unfold graph_session, bind, read_graph, cell. rewrite Hg, Hi. cbn.
    unfold read_sess, read_pool, bind, gets. rewrite Hp. cbn. by rewrite Hs. }
  rewrite (bind_run _ _ _ _ _ Hsess). fold fixed. unfold bind at 1, calloc. rewrite Ha.
  cbn [negb]. destruct (ALIGN_PAYLOAD_bounds (fixed + s32 (mc_channels (ses_media s)))) as [Hb _];
    [lia|]. unfold bind, payload_room. by rewrite (proj2 (Z.ltb_lt _ _)) by lia.
Qed.

(** On every compressed format the two tables agree: a format that is
    neither PCM nor bypassed is either left to the client by both, or
    announced with the payload size that was allocated for it. *)
Theorem compressed_tables_agree fmt s w :
  is_format_pcm fmt = false -> is_format_bypassed fmt = false ->
  let '(r, size, _) := get_media_fmt_id_and_size fmt 0 in
  let room := size - sizeof_apm_module_param_data_t - sizeof_media_format_t in
  match set_compressed_media_format fmt room s w with
  | Ret (Some (hdr, codec)) w' => r = 0 /\ w' = w /\ Z.of_nat (length codec) = room /\
      mh_payload_size hdr = u32 (Z.of_nat (length codec))
  | Ret None w' => r = - EINVAL /\ w' = w
  | Crash why => why = OutOfBounds /\ ~ 0 <= room <= Z.of_nat (length (sc_codec (ses_stream s)))
  end.
Proof using.
  unfold get_media_fmt_id_and_size, set_compressed_media_format, is_format_bypassed.
  intros -> Hb. rewrite Hb. unfold bind, read_bytes, payload_room.
  repeat match goal with |- context [fmt =? ?k] => destruct (fmt =? k) end; try done.
  all: match goal with |- context [?a - ?b - ?c] =>
    replace (a - b - c) with (a - (b + c)) by lia; rewrite ?Z.add_simpl_l, ?Z.sub_diag end.
  all: cbn zeta; rewrite Z.ltb_irrefl; cbn [ret]; rewrite ?Z.add_0_l; cbn [Z.leb Z.compare andb];
    repeat match goal with |- context [?a <=? ?b] => destruct (Z.leb_spec a b) end;
    cbn [andb]; unfold ret, crash_with; cbn [mh_payload_size];
    split_and!; rewrite ?length_take, ?length_drop; try done; try lia; f_equal; lia.
Qed.

(** A slimbus device with more channels than the bus carries is reported
    as configured, without a word to GSL. *)
Theorem slimbus_too_many_channels md g i d w :
  mod_dev md = Some i -> w_devs w !! i = Some (Some d) ->
  SB_MAX_CHAN_CNT < mc_channels (dev_media d) ->
  configure_slimbus_ep md g w = Ret 0 w.
Proof using.
  intros Hi Hd Hc. unfold configure_slimbus_ep, mod_device, bind. rewrite Hi. cbn.
  unfold read_dev, cell. rewrite Hd. by rewrite (proj2 (Z.ltb_lt _ _) Hc).
Qed.

(** C23: with memory available, the structures of the outside headers small, a
    live graph of a session with fewer than 2^31 channels and a full codec
    union, configuring any module returns: no NULL or dangling pointer is
    followed, and what is written to a payload (the header and the structure
    behind it, the codec data of a compressed format, the default channel map)
    stays within the bytes allocated for it.  It only calls out, allocates and
    records the SPR instance of its graph. *)
Theorem run_configure_safe f md g w :
  ConstsOk env_consts -> (forall n, env_alloc n = true) ->
  mod_configure md = Some f -> module_ok w md -> graph_live w g ->
  wp (run_configure f md g) (fun _ w' => conf_frame g w w') w.
Proof using. intros. by apply wp_run_configure. Qed.
End Properties.

(** ** The theorems at concrete inputs *)

(** One stereo 16-bit playback session with an open graph, and one device. *)
Definition demo_session : session_obj :=
  set_ses_media (MediaConfig 48000 2 AGM_FORMAT_PCM_S16_LE 1) (session_zero 1).
Definition graph_world (s : session_obj) : world :=
  set_w_graphs [Some (set_gr_sess (Some 0%nat) (set_gr_handle 5 graph_zero))]
    (set_w_pool (Some [s]) (set_w_devs [Some device_zero] empty_world)).
Definition shmem_module : module_info :=
  ModuleInfo 118 20 21 false None None (Some fn_configure_shared_mem_ep).
Definition ep_module : module_info :=
  ModuleInfo 120 40 41 false (Some 0%nat) None (Some fn_configure_hw_ep).

Lemma default_channel_map_wf_witness :
  channel_map_of (H:=ok_env) 24 20 2 empty_world = Ret [150; 151; 0; 0] empty_world.
Proof.
  destruct (default_channel_map_wf (H:=ok_env) 24 20 2 ltac:(lia) ltac:(lia)) as (l & _ & _ & _ & E).
  exact (eq_refl : channel_map_of (H:=ok_env) 24 20 2 empty_world = _).
Defined.

Lemma pcm_shared_mem_payload_witness :
  exists w', configure_shared_mem_ep (H:=ok_env) shmem_module 0 (graph_world demo_session) = Ret 0 w' /\
    length (w_trace w') = 1%nat.
Proof.
  pose proof (pcm_shared_mem_payload (H:=ok_env) shmem_module 0 (graph_world demo_session)
    _ 0 _ demo_session eq_refl eq_refl eq_refl eq_refl eq_refl ltac:(vm_compute; split; discriminate)
    eq_refl ltac:(vm_compute; split; discriminate)) as Hwp.
  apply wp_run in Hwp as (r & w' & Hrun & a & size & map & _ & Ht & _).
  exists w'. rewrite Ht. split; [|reflexivity]. clear Ht.
  revert Hrun. generalize w'. clear. intros w'. vm_compute. by intros [= <- <-].
Defined.

Definition big_session : session_obj :=
  set_ses_media (MediaConfig 48000 (2 ^ 32 - 20) AGM_FORMAT_PCM_S16_LE 1) (session_zero 1).

Lemma pcm_payload_overflow_witness :
  configure_pcm_shared_mem_ep (H:=ok_env) shmem_module 0 (graph_world big_session) = Crash OutOfBounds.
Proof.
  apply (pcm_payload_overflow (H:=ok_env) shmem_module 0 (graph_world big_session) _ 0 _ big_session
    eq_refl eq_refl eq_refl eq_refl eq_refl); [vm_compute; discriminate|].
  vm_compute. split; discriminate.
Defined.

Lemma compressed_tables_agree_witness :
  exists hdr codec, set_compressed_media_format (H:=ok_env) AGM_FORMAT_FLAC 24 demo_session empty_world =
      Ret (Some (hdr, codec)) empty_world /\ length codec = 24%nat.
Proof.
  pose proof (compressed_tables_agree (H:=ok_env) AGM_FORMAT_FLAC demo_session empty_world
    eq_refl eq_refl) as Hag.
  vm_compute in Hag. destruct Hag as (_ & _ & Hl & _).
  do 2 eexists. split; [vm_compute; reflexivity|exact (eq_refl 24%nat)].
Defined.

Lemma slimbus_too_many_channels_witness :
  configure_slimbus_ep (H:=ok_env) ep_module 0
    (set_w_devs [Some (set_dev_media (MediaConfig 48000 9 2 1) device_zero)] empty_world) =
  Ret 0 (set_w_devs [Some (set_dev_media (MediaConfig 48000 9 2 1) device_zero)] empty_world).
Proof.
  eapply (slimbus_too_many_channels (H:=ok_env) ep_module 0 0); [reflexivity|reflexivity|].
  vm_compute. reflexivity.
Defined.

Lemma run_configure_safe_witness :
  exists w', run_configure (H:=ok_env) fn_configure_hw_ep ep_module 0 (graph_world demo_session) = Ret 0 w'
    /\ conf_frame 0 (graph_world demo_session) w'.
Proof.
  assert (module_ok (graph_world demo_session) ep_module) as Hm.
  { split; [|split; [|exact I]]; [|by intros _; exists 0%nat].
    intros i [= <-]. by exists device_zero. }
  assert (graph_live (graph_world demo_session) 0) as Hg.
  { do 4 eexists. split_and!; [reflexivity..|]. unfold session_data_ok. split; [vm_compute; split; congruence|reflexivity]. }
  pose proof (run_configure_safe (H:=ok_env) fn_configure_hw_ep ep_module 0 (graph_world demo_session)
    demo_consts_ok (fun _ => eq_refl) eq_refl Hm Hg) as Hwp.
  apply wp_run in Hwp as (r & w' & Hrun & Hf). exists w'. split; [|exact Hf].
  clear Hf. revert Hrun. vm_compute. by intros [= <- <-].
Defined.
