(* ===== verification/Graph.v ===== *)
(** * Graphs (service/src/graph.c)

    A graph object drives one GSL graph: it is opened with the merged metadata
    of a session and a device, its modules are configured once, it is prepared,
    started, stopped and closed, and device legs are added, changed or removed
    while it runs.  A [struct graph_obj *] is an index into [w_graphs];
    [None] is NULL. *)

From S2P Require Export GraphModule.
Open Scope Z_scope.
#[export] Set Default Goal Selector "!".

Section Graph.
Context `{Env}.

Definition PARAM_ID_SOFT_PAUSE_START := 0x800102e.
Definition PARAM_ID_SOFT_PAUSE_RESUME := 0x800102f.

(** ** Modules of a graph *)

Definition read_mod (g j : nat) : AGM module_info :=
  let! go := read_graph g in the OutOfBounds (gr_mods go !! j).

Definition upd_mod (g j : nat) (f : module_info -> module_info) : AGM unit :=
  upd_graph g (fun go => set_gr_mods (alter f j (gr_mods go)) go).

(** [ADD_MODULE(x, y)]: the copy is dropped silently when there is no memory. *)
Definition ADD_MODULE (g : nat) (x : module_info) (y : option nat) : AGM bool :=
  let! ok := calloc in
  if negb ok then ret false
  else
    let x := match y with Some _ => set_mod_dev y x | None => x end in
    do! upd_graph g (fun go => set_gr_mods (gr_mods go ++ [x]) go) ;
    ret true.

Definition is_hw_ep_tag (tag : Z) : bool :=
  (tag =? DEVICE_HW_ENDPOINT_RX) || (tag =? DEVICE_HW_ENDPOINT_TX).

(** [mod->dev_obj != NULL && mod->dev_obj->refcnt.start > 0] *)
Definition dev_started (md : module_info) : AGM bool :=
  match mod_dev md with
  | None => ret false
  | Some i => let! d := read_dev i in ret (0 <? rc_start (dev_refcnt d))
  end.

(** ** Start-up *)

(** The loop of [get_acdb_files_from_directory]: [i] files are in
    [acdbFiles] already; [num_files] is what [data_files->num_files] holds,
    which the loop reads and never writes. *)
Fixpoint acdb_loop (path : string) (num_files : Z) (files : list string)
    (names : list string) : AGM (Z * list string) :=
  match names with
  | [] => ret (0, files)
  | name :: names' =>
      if strstr ".acdb" name || strstr ".qwsp" name then
        if GSL_MAX_NUM_OF_ACDB_FILES <=? num_files then ret (0, files)
        else if GSL_MAX_NUM_OF_ACDB_FILES <=? Z.of_nat (length files)
        then crash_with OutOfBounds
        else
          let full := String.append path (String.append "/" name) in
          if sizeof_acdb_fileName <=? Z.of_nat (String.length full)
          then ret (- EINVAL, files)
          else acdb_loop path num_files (files ++ [full]) names'
      else acdb_loop path num_files files names'
  end.

Definition get_acdb_files_from_directory (acdb_files_path : string) (num_files : Z)
  : AGM (Z * list string) :=
  let! dir := ext ReadAcdbDir in
  match dir with
  | None => ret (EINVAL, [])
  | Some names => acdb_loop acdb_files_path num_files [] names
  end.

Definition graph_init : AGM Z :=
  let! (r, acdb_files) := get_acdb_files_from_directory ACDB_PATH 0 in
  if nz r then ret r
  else if sizeof_delta_fileName <? Z.of_nat (String.length ACDB_DELTA_FILE_PATH) + 1
  then ret (- EINVAL)
  else
    let! r := gsl_init acdb_files in
    if nz r then ret (ar_err_get_lnx_err_code r) else ret 0.

Definition graph_deinit : AGM Z := do! ext GslDeinit ; ret 0.

(** ** Events

    [cb] is the function [graph_register_cb] stored: the service only ever
    registers one. *)
Definition gsl_callback_func (cb : event_params -> Z -> AGM unit)
    (ev : option event_params) (graph_obj : option nat) : AGM unit :=
  match graph_obj, ev with
  | Some g, Some ev =>
      let! ok := calloc in
      if negb ok then ret tt
      else
        let! go := read_graph g in
        match gr_cb go with
        | Some client_data => cb ev client_data
        | None => ret tt
        end
  | _, _ => ret tt
  end.

(** ** Buffers *)

Definition configure_buffer_params (g i : nat) : AGM Z :=
  let! sess_obj := read_sess i in
  let stream := ses_stream sess_obj in
  let mode := sc_data_mode stream in
  let! go := read_graph g in
  if gr_buf_done go then ret 0 else
  let buf := ses_buffer sess_obj in
  let '(buff_size, num_buffs) :=
    if mode =? AGM_DATA_PUSH_PULL then (u32 (bc_count buf * bc_size buf), 1)
    else (u32 (bc_size buf), bc_count buf) in
  let attributes :=
    if mode =? AGM_DATA_BLOCKING then GSL_DATA_MODE_BLOCKING
    else if mode =? AGM_DATA_NON_BLOCKING then GSL_DATA_MODE_NON_BLOCKING
    else if mode =? AGM_DATA_PUSH_PULL then GSL_DATA_MODE_PUSH_PULL
    else GSL_DATA_MODE_BLOCKING in
  let buf_config := RwParams buff_size num_buffs (sc_start_threshold stream)
    (sc_stop_threshold stream) SHMEM_ENDPOINT attributes in
  let! r := gsl_ioctl (gr_handle go)
    (if sc_dir stream =? RX then GSL_CMD_CONFIGURE_WRITE_PARAMS buf_config
     else GSL_CMD_CONFIGURE_READ_PARAMS buf_config) in
  if nz r then
    let r := ar_err_get_lnx_err_code r in
    if r =? 0 then do! upd_graph g (set_gr_buf_done true) ; ret r else ret r
  else
    do! upd_graph g (set_gr_buf_config buf_config) ;
    do! upd_graph g (set_gr_buf_done true) ;
    ret r.

(** ** Tags *)

Definition graph_get_tags_with_module_info (v : key_vector) (size : option Z)
  : AGM (Z * (list Z * Z)) :=
  let! kvs := read_kvs v in
  let! (r, out) := ext (GslGetTagsRaw kvs size) in
  ret (ar_err_get_lnx_err_code (s32 r), out).

(** The status of a failed call is converted twice.  [calloc]'s result is
    not tested (the test is of the wrong pointer), so without memory the
    second call only asks for the size again. *)
Definition get_tags_with_module_info (v : key_vector)
  : AGM (Z * option (list (Z * list (Z * Z)))) :=
  let! kvs := read_kvs v in
  let! (r, size) := ext (GslGetTagsSize kvs) in
  let r := s32 r in
  if nz r then ret (ar_err_get_lnx_err_code (ar_err_get_lnx_err_code r), None) else
  let! ok := calloc in
  if ok then
    let! (r, tags) := ext (GslGetTags kvs size) in
    ret (ar_err_get_lnx_err_code (lnx_err (s32 r)), Some tags)
  else
    let! (r, _) := ext (GslGetTagsSize kvs) in
    ret (ar_err_get_lnx_err_code (lnx_err (s32 r)), None).

(** The list nodes that point to the entries of a module table. *)
Fixpoint add_to_list (module_list_count : nat) : AGM Z :=
  match module_list_count with
  | O => ret 0
  | S n =>
      let! ok := calloc in
      if negb ok then ret (- ENOMEM) else add_to_list n
  end.

(** A heap copy of a key vector. *)
Definition copy_gkv (v : key_vector) : AGM (option key_vector) :=
  let! ok := calloc in
  if negb ok then ret None else
  let! ok := calloc in
  if negb ok then ret None else
  let! l := memcpy_from (num_kvs v) (kv v) in
  ret (Some (KVec (num_kvs v) (Some l))).

(** ** Opening and closing *)

(** The first list node whose table entry has the tag. *)
Definition find_tag (table : list module_info) (nodes : list nat) (tag : Z) : option nat :=
  List.find (fun j => match table !! j with Some m => mod_tag m =? tag | None => false end) nodes.

Definition remove_node (j : nat) (nodes : list nat) : list nat :=
  List.filter (fun k => negb (Nat.eqb j k)) nodes.

Definition upd_stream_mod (j : nat) (f : module_info -> module_info) : AGM unit :=
  modify (fun w => set_w_stream_mods (alter f j (w_stream_mods w)) w).
Definition upd_hw_mod (j : nat) (f : module_info -> module_info) : AGM unit :=
  modify (fun w => set_w_hw_mods (alter f j (w_hw_mods w)) w).

Definition set_ids (e : Z * Z) (m : module_info) : module_info :=
  set_mod_mid (fst e) (set_mod_miid (snd e) m).

(** A tag entry that matches entry [j] of [stream_module_list]: [Some r] is
    the jump to [free_graph_obj] with [ret = r]. *)
Definition add_stream_module (g j : nat) (modules : list (Z * Z)) : AGM (option Z) :=
  if (1 <? length modules)%nat then ret (Some 0) else
  let! e := the OutOfBounds (head modules) in
  do! upd_stream_mod j (set_ids e) ;
  let! table := gets w_stream_mods in
  let! m := the OutOfBounds (table !! j) in
  do! ADD_MODULE g m None ;
  ret None.

(** The same for entry [j] of [hw_ep_module], with the device and the key
    vector the module belongs to. *)
Definition add_hw_module (g j : nat) (modules : list (Z * Z)) (v : key_vector) (dev : nat)
  : AGM (option Z) :=
  if (1 <? length modules)%nat then ret (Some 0) else
  let! e := the OutOfBounds (head modules) in
  do! upd_hw_mod j (set_ids e) ;
  let! copy := copy_gkv v in
  match copy with
  | None => ret (Some (- ENOMEM))
  | Some gkv =>
      do! upd_hw_mod j (set_mod_gkv (Some gkv)) ;
      let! table := gets w_hw_mods in
      let! m := the OutOfBounds (table !! j) in
      do! ADD_MODULE g m (Some dev) ;
      ret None
  end.

(** The loop of [graph_open] over the tag entries of the graph. *)
Fixpoint tag_loop (g : nat) (v : key_vector) (sess_obj dev_obj : option nat)
    (node_sess node_hw : list nat) (tags : list (Z * list (Z * Z))) : AGM (option Z) :=
  match tags with
  | [] => ret None
  | (tag_id, modules) :: tags' =>
      let! stream_table := gets w_stream_mods in
      let! hw_table := gets w_hw_mods in
      let in_stream :=
        match sess_obj with Some _ => find_tag stream_table node_sess tag_id | None => None end in
      match in_stream with
      | Some j =>
          let! r := add_stream_module g j modules in
          match r with
          | Some r => ret (Some r)
          | None => tag_loop g v sess_obj dev_obj (remove_node j node_sess) node_hw tags'
          end
      | None =>
          match dev_obj with
          | None => tag_loop g v sess_obj dev_obj node_sess node_hw tags'
          | Some dev =>
              match find_tag hw_table node_hw tag_id with
              | None => tag_loop g v sess_obj dev_obj node_sess node_hw tags'
              | Some j =>
                  let! r := add_hw_module g j modules v dev in
                  match r with
                  | Some r => ret (Some r)
                  | None => tag_loop g v sess_obj dev_obj node_sess (remove_node j node_hw) tags'
                  end
              end
          end
      end
  end.

(** [graph_open(meta_data_kv, sess_obj, dev_obj, &graph)]: the status and
    what was stored through the last argument, [None] when nothing was. *)
Definition graph_open (meta_data_kv : option meta_data) (sess_obj dev_obj : option nat)
  : AGM (Z * option nat) :=
  match meta_data_kv with
  | None => ret (- EINVAL, None)
  | Some m =>
      let! ok := calloc in
      if negb ok then ret (- ENOMEM, None) else
      let! g := new_graph graph_zero in
      let fail r := do! free_graph g ; ret (r, None) in
      let! (r, tags) := get_tags_with_module_info (gkv m) in
      if nz r then fail r else
      let! tags := the NullDeref tags in
      let! stream_table := gets w_stream_mods in
      let! r := add_to_list (length stream_table) in
      if nz r then fail r else
      let! hw_table := gets w_hw_mods in
      let! r := add_to_list (length hw_table) in
      if nz r then fail r else
      let! exit_ := tag_loop g (gkv m) sess_obj dev_obj
                     (seq 0 (length stream_table)) (seq 0 (length hw_table)) tags in
      match exit_ with
      | Some r => fail r
      | None =>
          do! upd_graph g (set_gr_sess sess_obj) ;
          let! gkvs := read_kvs (gkv m) in
          let! ckvs := read_kvs (ckv m) in
          let! (r, handle) := gsl_open gkvs ckvs in
          if nz r then fail (ar_err_get_lnx_err_code r) else
          do! upd_graph g (set_gr_handle handle) ;
          let! r := gsl_register_event_cb handle g in
          if nz r then
            do! gsl_close handle ;
            fail (ar_err_get_lnx_err_code r)
          else
            do! upd_graph g (set_gr_state OPENED) ;
            ret (r, Some g)
      end
  end.

Definition graph_close (graph_obj : option nat) : AGM Z :=
  match graph_obj with
  | None => ret (- EINVAL)
  | Some g =>
      let! r := with_lock (LGraph g)
        (let! go := read_graph g in gsl_close (gr_handle go)) in
      do! free_graph g ;
      ret (lnx_err r)
  end.

(** ** Preparing, starting, stopping *)

(** One module in the loop of [graph_prepare]: [Some r] leaves it. *)
Definition prepare_module (g j : nat) (stream : session_config) : AGM (option Z) :=
  let! md := read_mod g j in
  if mod_is_configured md then ret None
  else if (mod_tag md =? STREAM_INPUT_MEDIA_FORMAT) && sc_is_hostless stream
  then ret (Some (- EINVAL))
  else if ((mod_tag md =? STREAM_PCM_DECODER) && (sc_dir stream =? TX)) ||
          ((mod_tag md =? STREAM_PCM_ENCODER) && (sc_dir stream =? RX))
  then ret (Some (- EINVAL))
  else
    match mod_configure md with
    | None => ret None
    | Some f =>
        let! started := (if is_hw_ep_tag (mod_tag md) then dev_started md else ret false) in
        if (started : bool) then do! upd_mod g j (set_mod_is_configured true) ; ret None
        else
          let! r := run_configure f md g in
          if nz r then ret (Some r)
          else do! upd_mod g j (set_mod_is_configured true) ; ret None
    end.

Definition graph_prepare (graph_obj : option nat) : AGM Z :=
  match graph_obj with
  | None => ret (- EINVAL)
  | Some g =>
      let! go := read_graph g in
      match gr_sess go with
      | None => ret (- EINVAL)
      | Some i =>
          let! sess_obj := read_sess i in
          let stream_config := ses_stream sess_obj in
          with_lock (LGraph g)
            (let! go := read_graph g in
             if gr_state go =? PREPARED then ret 0 else
             let! exit_ := for_idx (seq 0 (length (gr_mods go)))
                            (fun j => prepare_module g j stream_config) in
             match exit_ with
             | Some r => ret r
             | None =>
                 let! r := (if sc_is_hostless stream_config then ret 0
                            else configure_buffer_params g i) in
                 if nz r then ret r else
                 let! r := gsl_ioctl (gr_handle go) GSL_CMD_PREPARE in
                 if nz r then ret (ar_err_get_lnx_err_code r)
                 else do! upd_graph g (set_gr_state PREPARED) ; ret r
             end)
      end
  end.

Definition graph_start (graph_obj : option nat) : AGM Z :=
  match graph_obj with
  | None => ret (- EINVAL)
  | Some g =>
      with_lock (LGraph g)
        (let! go := read_graph g in
         let! r := gsl_ioctl (gr_handle go) GSL_CMD_START in
         if nz r then ret (ar_err_get_lnx_err_code r)
         else do! upd_graph g (set_gr_state STARTED) ; ret r)
  end.

Definition has_state (state mask : Z) : bool := nz (Z.land state mask).

(** With metadata only the named sub graph is stopped and the state of the
    graph object stays; without, the state becomes [STOPPED] even when GSL
    fails. *)
Definition graph_stop (graph_obj : option nat) (meta : option meta_data) : AGM Z :=
  match graph_obj with
  | None => ret (- EINVAL)
  | Some g =>
      with_lock (LGraph g)
        (let! go := read_graph g in
         if has_state (gr_state go) STOPPED then ret 0
         else if negb (has_state (gr_state go) STARTED) then ret (- EINVAL)
         else
           match meta with
           | Some m =>
               let! gkvs := read_kvs (gkv m) in
               let! values := memcpy_from (num_values (sg_props m)) (values (sg_props m)) in
               let! r := gsl_ioctl (gr_handle go)
                           (GSL_CMD_STOP (Some (gkvs, prop_id (sg_props m), values))) in
               ret (lnx_err r)
           | None =>
               let! r := gsl_ioctl (gr_handle go) (GSL_CMD_STOP None) in
               do! upd_graph g (set_gr_state STOPPED) ;
               ret (lnx_err r)
           end)
  end.

(** The first soft-pause module of the graph gets the parameter; a graph
    without one reports success. *)
Definition graph_pause_resume (graph_obj : option nat) (pause : bool) : AGM Z :=
  match graph_obj with
  | None => ret (- EINVAL)
  | Some g =>
      let! go := read_graph g in
      match List.find (fun md => mod_tag md =? TAG_PAUSE) (gr_mods go) with
      | None => ret 0
      | Some md =>
          let! ok := calloc in
          if negb ok then ret (- ENOMEM) else
          with_lock (LGraph g)
            (let! r := gsl_set_custom_config (gr_handle go)
               (PayParam (ParamHeader (mod_miid md)
                  (if pause then PARAM_ID_SOFT_PAUSE_START else PARAM_ID_SOFT_PAUSE_RESUME) 0 0)
                  BodyNone) in
             ret (lnx_err r))
      end
  end.

Definition graph_pause (graph_obj : option nat) : AGM Z := graph_pause_resume graph_obj true.
Definition graph_resume (graph_obj : option nat) : AGM Z := graph_pause_resume graph_obj false.

(** ** Parameters and calibration *)

(** The body the locked GSL calls share. *)
Definition locked_call (gph_obj : option nat) (call : graph_obj -> AGM Z) : AGM Z :=
  match gph_obj with
  | None => ret (- EINVAL)
  | Some g =>
      with_lock (LGraph g)
        (let! go := read_graph g in
         let! r := call go in
         ret (lnx_err r))
  end.

Definition graph_set_config (graph_obj : option nat) (payload : list Z) : AGM Z :=
  locked_call graph_obj (fun go => gsl_set_custom_config (gr_handle go) (PayRaw payload)).

(** The status and the payload GSL wrote. *)
Definition graph_get_config (graph_obj : option nat) (payload : list Z) : AGM (Z * list Z) :=
  match graph_obj with
  | None => ret (- EINVAL, payload)
  | Some g =>
      with_lock (LGraph g)
        (let! go := read_graph g in
         let! (r, payload) := gsl_get_custom_config (gr_handle go) (PayRaw payload) in
         ret (lnx_err r, payload))
  end.

Definition graph_set_config_with_tag (graph_obj : option nat) (v : key_vector)
    (tag_id : Z) (tkv : key_vector) : AGM Z :=
  locked_call graph_obj (fun go =>
    let! gkvs := read_kvs v in
    let! tkvs := read_kvs tkv in
    gsl_set_config (gr_handle go) (Some gkvs) tag_id tkvs).

Definition graph_set_cal (graph_obj : option nat) (metadata : meta_data) : AGM Z :=
  locked_call graph_obj (fun go =>
    let! gkvs := read_kvs (gkv metadata) in
    let! ckvs := read_kvs (ckv metadata) in
    gsl_set_cal (gr_handle go) gkvs ckvs).

Definition graph_remove (graph_obj : option nat) (meta_data_kv : meta_data) : AGM Z :=
  locked_call graph_obj (fun go =>
    let! gkvs := read_kvs (gkv meta_data_kv) in
    gsl_ioctl (gr_handle go) (GSL_CMD_REMOVE_GRAPH gkvs)).

(** ** Data *)

(** The status and the new value of [*size]. *)
Definition graph_write (graph_obj : option nat) (buffer : list Z) : AGM (Z * Z) :=
  let size := Z.of_nat (length buffer) in
  match graph_obj with
  | None => ret (- EINVAL, size)
  | Some g =>
      let! go := read_graph g in
      let! (r, size_written) := gsl_write (gr_handle go) SHMEM_ENDPOINT buffer in
      if nz r then ret (ar_err_get_lnx_err_code r, size) else ret (r, size_written)
  end.

Definition graph_read (graph_obj : option nat) (size : Z) : AGM (Z * Z * list Z) :=
  match graph_obj with
  | None => ret (- EINVAL, size, [])
  | Some g =>
      let! go := with_lock (LGraph g) (read_graph g) in
      if negb (has_state (gr_state go) STARTED) then ret (- EINVAL, size, [])
      else
        let! (r, (size_read, timestamp, bytes)) := gsl_read (gr_handle go) SHMEM_ENDPOINT size in
        let r := if nz r || (size_read =? 0) then ar_err_get_lnx_err_code r else r in
        do! upd_graph g (set_gr_timestamp timestamp) ;
        ret (r, size_read, bytes)
  end.

Definition graph_get_hw_processed_buff_cnt (graph_obj : option nat) (dir : Z) : Z :=
  match graph_obj with None => 0 | Some _ => 2 end.

Definition graph_eos (graph_obj : option nat) : AGM Z :=
  match graph_obj with
  | None => ret (- EINVAL)
  | Some g =>
      let! go := read_graph g in
      let! r := gsl_ioctl (gr_handle go) GSL_CMD_EOS in
      ret (ar_err_get_lnx_err_code r)
  end.

(** The status and the value stored in [*tstamp], [None] when it is left
    alone. *)
Definition graph_get_session_time (graph_obj : option nat) : AGM (Z * option Z) :=
  match graph_obj with
  | None => ret (- EINVAL, None)
  | Some g =>
      with_lock (LGraph g)
        (let! go := read_graph g in
         if negb (has_state (gr_state go) STARTED) then ret (- EINVAL, None)
         else if gr_spr_miid go =? 0 then ret (0, None)
         else
           let payload_size :=
             ALIGN_PAYLOAD (sizeof_apm_module_param_data_t + sizeof_spr_session_time) 8 in
           let! ok := calloc in
           if negb ok then ret (0, None) else
           let! (r, (msw, lsw)) := gsl_get_session_time (gr_handle go)
             (PayParam (ParamHeader (gr_spr_miid go) PARAM_ID_SPR_SESSION_TIME 0 (u32 payload_size))
                BodySprSessionTime) in
           if nz r then ret (ar_err_get_lnx_err_code r, None)
           else ret (r, Some (Z.lor (Z.shiftl (u32 msw) 32) (u32 lsw))))
  end.

Definition graph_get_buffer_timestamp (graph_obj : option nat) : AGM (Z * option Z) :=
  match graph_obj with
  | None => ret (- EINVAL, None)
  | Some g =>
      with_lock (LGraph g)
        (let! go := read_graph g in
         if negb (has_state (gr_state go) STARTED) then ret (- EINVAL, None)
         else ret (0, Some (gr_timestamp go)))
  end.

(** ** Shared memory buffers *)

(** The status and the new content of [buf_info]. *)
Definition graph_fill_buf_info (g : nat) (info : buf_info) (cmd_id : shmem_cmd) (flag : Z)
  : AGM (Z * buf_info) :=
  let! ok := calloc in
  if negb ok then ret (- ENOMEM, info) else
  let! ok := calloc in
  if negb ok then ret (- ENOMEM, info) else
  let! go := read_graph g in
  let! (r, (size, fd)) := ext (GslShmemIoctl (gr_handle go) cmd_id) in
  let r := s32 r in
  if nz r then ret (r, info) else
  match fd with
  | None => ret (r, info)
  | Some fd =>
      if flag =? DATA_BUF then ret (r, set_data_buf_fd fd (set_data_buf_size size info))
      else ret (r, set_pos_buf_fd fd (set_pos_buf_size size info))
  end.

Definition graph_get_buf_info (graph_obj : option nat) (info : buf_info) (flag : Z)
  : AGM (Z * buf_info) :=
  let! g := the NullDeref graph_obj in
  let! go := read_graph g in
  match gr_sess go with
  | None => ret (- EINVAL, info)
  | Some i =>
      let! sess_obj := read_sess i in
      let buf := ses_buffer sess_obj in
      if (bc_count buf =? 0) || (bc_size buf =? 0) then ret (- EINVAL, info) else
      do! configure_buffer_params g i ;
      let playback := sc_dir (ses_stream sess_obj) =? RX in
      let! (r, info) :=
        (if has_state flag DATA_BUF then
           graph_fill_buf_info g info
             (if playback then GSL_CMD_GET_WRITE_BUFF_INFO else GSL_CMD_GET_READ_BUFF_INFO)
             DATA_BUF
         else ret (- EINVAL, info)) in
      if has_state flag POS_BUF then
        graph_fill_buf_info g info
          (if playback then GSL_CMD_GET_WRITE_POS_BUFF_INFO else GSL_CMD_GET_READ_POS_BUFF_INFO)
          POS_BUF
      else ret (r, info)
  end.

(** ** Callbacks *)

(** The callback is a client function: the argument tells whether it is not
    NULL. *)
Definition graph_register_cb (gph_obj : option nat) (cb : bool) (client_data : Z) : AGM Z :=
  match gph_obj with
  | None => ret (- EINVAL)
  | Some g =>
      if negb cb then ret (- EINVAL)
      else
        with_lock (LGraph g)
          (do! upd_graph g (set_gr_cb (Some client_data)) ; ret 0)
  end.

(** The payload is copied to [reg_ev_payload + sizeof(...)], a pointer to
    structures: [sizeof_apm_module_register_events_t] whole structures behind
    the start of the buffer, not as many bytes. *)
Definition graph_register_for_events (gph_obj : option nat) (cfg : option event_reg_cfg) : AGM Z :=
  match gph_obj, cfg with
  | None, _ | _, None => ret (- EINVAL)
  | Some g, Some cfg =>
      let! (r, registered) := with_lock (LGraph g)
        (let! go := read_graph g in
         if gr_handle go =? 0 then ret (- EINVAL, false)
         else
           let n := Z.of_nat (length (er_payload cfg)) in
           let payload_size := sizeof_gsl_cmd_register_custom_event + n in
           let! ok := calloc in
           if negb ok then ret (- ENOMEM, false)
           else
             let off := sizeof_gsl_cmd_register_custom_event * sizeof_apm_module_register_events_t in
             if (0 <? n) && (payload_size <? off + n) then crash_with OutOfBounds else
             let! r := gsl_ioctl (gr_handle go) (GSL_CMD_REGISTER_CUSTOM_EVENT cfg) in
             ret (lnx_err r, true)) in
      if (registered : bool) then do! upd_graph g (set_gr_timestamp 0) ; ret r else ret r
  end.

(** ** Device legs *)

(** [&hw_ep_module[0]] for playback devices, [&hw_ep_module[1]] otherwise. *)
Definition hw_ep_index (d : device_obj) : nat :=
  if ep_dir (dev_hw_ep d) =? AUDIO_OUTPUT then 0%nat else 1%nat.

(** The modules behind a tag of a graph. *)
Definition gsl_get_tagged_module_info (v : key_vector) (tag : Z) : AGM (Z * list (Z * Z)) :=
  let! kvs := read_kvs v in
  let! (r, modules) := ext (GslGetTaggedModuleInfo kvs tag) in
  ret (s32 r, modules).

(** The first module of the graph with this instance id. *)
Definition find_miid (miid : Z) (mods : list module_info) : option nat :=
  fst <$> list_find (fun md => mod_miid md = miid) mods.

(** The part of [graph_add] for a device: [Some r] is [goto done]. *)
Definition add_device_module (g : nat) (v : key_vector) (dev : nat) : AGM (option Z) :=
  let! d := read_dev dev in
  let j := hw_ep_index d in
  let! table := gets w_hw_mods in
  let! md := the OutOfBounds (table !! j) in
  let! (r, modules) := gsl_get_tagged_module_info v (mod_tag md) in
  if nz r then ret (Some (ar_err_get_lnx_err_code r)) else
  let! e := the OutOfBounds (head modules) in
  do! upd_hw_mod j (set_ids e) ;
  let! go := read_graph g in
  match find_miid (snd e) (gr_mods go) with
  | Some k => do! upd_mod g k (set_mod_is_configured false) ; ret None
  | None =>
      let! copy := copy_gkv v in
      match copy with
      | None => ret (Some (- ENOMEM))
      | Some gkv =>
          do! upd_hw_mod j (set_mod_gkv (Some gkv)) ;
          let! table := gets w_hw_mods in
          let! md := the OutOfBounds (table !! j) in
          do! ADD_MODULE g md (Some dev) ;
          ret None
      end
  end.

(** One module in the loop of [graph_add]: SPR modules are configured again
    for the new device. *)
Definition add_configure_module (g j : nat) : AGM (option Z) :=
  let! md := read_mod g j in
  if mod_is_configured md && negb (mod_tag md =? TAG_STREAM_SPR) then ret None
  else
    let! started := (if is_hw_ep_tag (mod_tag md) then dev_started md else ret false) in
    if (started : bool) then do! upd_mod g j (set_mod_is_configured true) ; ret None
    else
      match mod_configure md with
      | None => ret None
      | Some f =>
          let! r := run_configure f md g in
          if nz r then ret (Some r)
          else do! upd_mod g j (set_mod_is_configured true) ; ret None
      end.

Definition graph_add (gph_obj : option nat) (meta_data_kv : meta_data) (dev_obj : option nat)
  : AGM Z :=
  match gph_obj with
  | None => ret (- EINVAL)
  | Some g =>
      with_lock (LGraph g)
        (let! go := read_graph g in
         if gr_state go <? OPENED then ret (- EINVAL) else
         let! gkvs := read_kvs (gkv meta_data_kv) in
         let! ckvs := read_kvs (ckv meta_data_kv) in
         let! r := gsl_ioctl (gr_handle go) (GSL_CMD_ADD_GRAPH gkvs ckvs) in
         if nz r then ret (ar_err_get_lnx_err_code r) else
         let! exit_ := (match dev_obj with
                        | Some dev => add_device_module g (gkv meta_data_kv) dev
                        | None => ret None
                        end) in
         match exit_ with
         | Some r => ret r
         | None =>
             let! go := read_graph g in
             if has_state (gr_state go) (Z.lor STARTED PREPARED) then
               let! exit_ := for_idx (seq 0 (length (gr_mods go)))
                               (fun j => add_configure_module g j) in
               ret (match exit_ with Some r => r | None => 0 end)
             else ret 0
         end)
  end.

(** The part of [graph_change] for a device.  A module instance the graph
    does not have replaces every hardware end point of the list. *)
Definition change_device_module (g : nat) (v : key_vector) (dev : nat) : AGM (option Z) :=
  let! d := read_dev dev in
  let j := hw_ep_index d in
  let! table := gets w_hw_mods in
  let! md := the OutOfBounds (table !! j) in
  let! (r, modules) := gsl_get_tagged_module_info v (mod_tag md) in
  if nz r then ret (Some (ar_err_get_lnx_err_code r)) else
  let! go := read_graph g in
  let! e := (match gr_mods go with
             | [] => ret (0, 0)
             | _ => the OutOfBounds (head modules)
             end) in
  match find_miid (snd e) (gr_mods go) with
  | Some k => do! upd_mod g k (set_mod_is_configured false) ; ret None
  | None =>
      do! upd_graph g (fun go =>
            set_gr_mods (List.filter (fun md => negb (is_hw_ep_tag (mod_tag md))) (gr_mods go)) go) ;
      let! added := ADD_MODULE g md (Some dev) in
      if negb added then ret (Some (- ENOMEM)) else
      let! go := read_graph g in
      let k := pred (length (gr_mods go)) in
      let! e := the OutOfBounds (head modules) in
      do! upd_mod g k (set_ids e) ;
      let! copy := copy_gkv v in
      match copy with
      | None => ret (Some (- ENOMEM))
      | Some gkv => do! upd_mod g k (set_mod_gkv (Some gkv)) ; ret None
      end
  end.

(** One module in the loop of [graph_change]. *)
Definition change_configure_module (g j : nat) : AGM (option Z) :=
  let! md := read_mod g j in
  match mod_configure md, mod_dev md with
  | Some f, Some i =>
      if mod_is_configured md then ret None else
      let! d := read_dev i in
      if rc_start (dev_refcnt d) =? 0 then
        let! r := run_configure f md g in
        if nz r then ret (Some r)
        else do! upd_mod g j (set_mod_is_configured true) ; ret None
      else ret None
  | _, _ => ret None
  end.

Definition graph_change (gph_obj : option nat) (meta_data_kv : meta_data) (dev_obj : option nat)
  : AGM Z :=
  match gph_obj with
  | None => ret (- EINVAL)
  | Some g =>
      with_lock (LGraph g)
        (let! exit_ := (match dev_obj with
                        | Some dev => change_device_module g (gkv meta_data_kv) dev
                        | None => ret None
                        end) in
         match exit_ with
         | Some r => ret r
         | None =>
             let! gkvs := read_kvs (gkv meta_data_kv) in
             let! ckvs := read_kvs (ckv meta_data_kv) in
             let! go := read_graph g in
             let! r := gsl_ioctl (gr_handle go) (GSL_CMD_CHANGE_GRAPH gkvs ckvs) in
             if nz r then ret (ar_err_get_lnx_err_code r) else
             let! go := read_graph g in
             let! exit_ := for_idx (seq 0 (length (gr_mods go)))
                             (fun j => change_configure_module g j) in
             ret (match exit_ with Some r => r | None => 0 end)
         end)
  end.
End Graph.
