(* ===== verification/GraphSpec.v ===== *)
(** * What the graph operations promise

    First the frame: an operation on graph [g] changes the slot of [g], the two
    module tables, and nothing else that a client can see.  Then the state
    machine of a graph object, the configuration of its modules, the handles of
    GSL, and the data and event calls. *)

From S2P Require Export Graph.
Open Scope Z_scope.
#[export] Set Default Goal Selector "!".

(** ** The frame *)

Record graph_frame (g : nat) (w w' : world) : Prop := GraphFrame {
  gf_devs : w_devs w' = w_devs w;
  gf_num : w_num_intfs w' = w_num_intfs w;
  gf_fd : w_sysfs_fd w' = w_sysfs_fd w;
  gf_pool : w_pool w' = w_pool w;
  gf_bad : w_bad_unlock w' = w_bad_unlock w;
  gf_init : w_agm_initialized w' = w_agm_initialized w;
  gf_held : w_held w' = w_held w;
  gf_len : (length (w_graphs w) <= length (w_graphs w'))%nat;
  gf_graphs : forall h, h <> g -> w_graphs w' !! h = w_graphs w !! h;
  gf_trace : exists t, w_trace w' = t ++ w_trace w;
  gf_acq : exists t, w_acq w' = t ++ w_acq w /\ Forall (fun e => fst e = LGraph g) t
}.

#[export] Instance graph_frame_preorder g : PreOrder (graph_frame g).
Proof.
  split.
  - intros w. split; try done; [by exists []|by exists []].
  - intros w1 w2 w3 [] []. split; try congruence.
    + by etransitivity.
    + intros h Hh. rewrite gf_graphs1 by done. auto.
    + destruct gf_trace0 as [t Ht], gf_trace1 as [t' Ht'].
      exists (t' ++ t). by rewrite Ht', Ht, <- app_assoc.
    + destruct gf_acq0 as (t & Ht & Hf), gf_acq1 as (t' & Ht' & Hf').
      exists (t' ++ t). rewrite Ht', Ht, <- app_assoc. split; [done|by apply Forall_app].
Qed.

Lemma conf_frame_graph_frame g w w' : conf_frame g w w' -> graph_frame g w w'.
Proof.
  intros [Ht [v Hv] ? ? ? ? ? ? ? Hacq ? ?]. split; try done.
  - by rewrite Hv, length_alter.
  - intros h Hh. by rewrite Hv, list_lookup_alter_ne.
  - exists []. by rewrite Hacq.
Qed.

Section Frame.
Context `{Env} (g : nat).

Lemma Steps_of_conf {A} (m : AGM A) : Steps (conf_frame g) m -> Steps (graph_frame g) m.
Proof. intros Hm w a w' Hr. by eapply conf_frame_graph_frame, Hm. Qed.

Lemma Steps_gf_modify f :
  (forall w, graph_frame g w (f w)) -> Steps (graph_frame g) (modify f).
Proof. intros Hf w a w' [= _ <-]. apply Hf. Qed.

Lemma Steps_gf_upd_graph f : Steps (graph_frame g) (upd_graph g f).
Proof.
  intros w a w'. unfold upd_graph, bind, read_graph, cell.
  destruct (w_graphs w !! g) as [[go|]|] eqn:E; try done. intros [= _ <-].
  split; try done; [cbn; by rewrite length_insert| |by exists []|by exists []].
  intros h Hh. cbn. by rewrite list_lookup_insert_ne.
Qed.

Lemma Steps_gf_free_graph : Steps (graph_frame g) (free_graph g).
Proof.
  intros w a w'. unfold free_graph, bind, read_graph, cell.
  destruct (w_graphs w !! g) as [[go|]|] eqn:E; try done. intros [= _ <-].
  split; try done; [cbn; by rewrite length_insert| |by exists []|by exists []].
  intros h Hh. cbn. by rewrite list_lookup_insert_ne.
Qed.

(** A critical section of the graph mutex. *)
Lemma Steps_gf_locked {A} (body : AGM A) :
  Steps (graph_frame g) body ->
  Steps (graph_frame g)
    (with_lock (LGraph g) body).
Proof.
  intros Hb w a w'. unfold with_lock, mutex_lock at 1, bind at 1. case_bool_decide as Hl; [done|].
  unfold bind at 1. set (w1 := set_w_held _ _).
  destruct (body w1) as [r w2|] eqn:E; [|done].
  apply Hb in E. unfold mutex_unlock, bind, ret.
  rewrite bool_decide_true by (rewrite (gf_held _ _ _ E); by constructor).
  intros [= _ <-]. destruct E as [? ? ? ? ? ? Hh ? ? ? (t & Ha & Hf)].
  split; try done.
  - cbn. rewrite Hh. by apply remove_lock_head.
  - exists (t ++ [(LGraph g, w_held w)]). cbn. rewrite Ha. cbn.
    rewrite <- app_assoc. split; [done|]. apply Forall_app. by repeat constructor.
Qed.
End Frame.

#[export] Hint Resolve Steps_gf_upd_graph Steps_gf_free_graph : steps.
#[export] Hint Extern 0 (Steps (graph_frame _) (modify _)) =>
  (apply Steps_gf_modify; intros; split; [reflexivity..| |];
   by exists []) : steps.
#[export] Hint Extern 1 (Steps (graph_frame _) (ext _)) =>
  (apply Steps_of_conf, Steps_conf_ext) : steps.
#[export] Hint Extern 1 (Steps (graph_frame _) calloc) =>
  (apply Steps_of_conf, Steps_conf_calloc) : steps.
#[export] Hint Extern 1 (Steps (graph_frame _) (read_dev _)) =>
  (apply Steps_of_conf, Steps_conf_read_dev) : steps.
#[export] Hint Extern 1 (Steps (graph_frame _) (read_graph _)) =>
  (apply Steps_of_conf, Steps_conf_read_graph) : steps.
#[export] Hint Extern 1 (Steps (graph_frame _) (read_sess _)) =>
  (apply Steps_of_conf, Steps_conf_read_sess) : steps.
#[export] Hint Extern 1 (Steps (graph_frame _) (memcpy_from _ _)) =>
  (apply Steps_of_conf, Steps_conf_memcpy) : steps.
#[export] Hint Extern 1 (Steps (graph_frame _) (run_configure _ _ _)) =>
  (apply Steps_of_conf, Steps_run_configure) : steps.
#[export] Hint Extern 1 (Steps (graph_frame _) (with_lock _ _)) =>
  (apply Steps_gf_locked; solve [steps_tac]) : steps.
#[export] Hint Extern 2 (Steps (graph_frame _) _) =>
  progress autounfold with gsl; solve [steps_tac] : steps.

(** Frames a function defined in terms of framed ones. *)
Tactic Notation "frame_by" := steps_tac.

Section Operations.
Context `{Env} (g : nat).
#[local] Abbreviation F := (Steps (graph_frame g)).

Lemma F_read_mod j : F (read_mod g j).
Proof. unfold read_mod. frame_by. Qed.
Lemma F_upd_mod j f : F (upd_mod g j f).
Proof. unfold upd_mod. frame_by. Qed.
Lemma F_ADD_MODULE x y : F (ADD_MODULE g x y).
Proof. unfold ADD_MODULE. frame_by. Qed.
Lemma F_dev_started md : F (dev_started md).
Proof. unfold dev_started. frame_by. Qed.
Lemma F_configure_buffer_params i : F (configure_buffer_params g i).
Proof. unfold configure_buffer_params. frame_by. Qed.
Lemma F_copy_gkv v : F (copy_gkv v).
Proof. unfold copy_gkv. frame_by. Qed.
#[local] Hint Resolve F_read_mod F_upd_mod F_ADD_MODULE F_dev_started
  F_configure_buffer_params F_copy_gkv : steps.

Lemma F_prepare_module j c : F (prepare_module g j c).
Proof. unfold prepare_module. frame_by. Qed.
#[local] Hint Resolve F_prepare_module : steps.

Lemma F_add_stream_module j l : F (add_stream_module g j l).
Proof. unfold add_stream_module, upd_stream_mod. frame_by. Qed.
Lemma F_add_hw_module j l v d : F (add_hw_module g j l v d).
Proof. unfold add_hw_module, upd_hw_mod. frame_by. Qed.
Lemma F_add_to_list n : F (add_to_list n).
Proof. induction n; cbn [add_to_list]; frame_by. Qed.
Lemma F_get_tags v : F (get_tags_with_module_info v).
Proof. unfold get_tags_with_module_info. frame_by. Qed.
#[local] Hint Resolve F_add_stream_module F_add_hw_module F_add_to_list F_get_tags : steps.

Lemma F_tag_loop v s d tags : forall ns nh, F (tag_loop g v s d ns nh tags).
Proof. induction tags as [|[t l] tags IH]; intros ns nh; cbn [tag_loop]; frame_by. Qed.

Lemma F_gsl_get_tagged_module_info v t : F (gsl_get_tagged_module_info v t).
Proof. unfold gsl_get_tagged_module_info. frame_by. Qed.
Lemma F_run_mod_configure j : F (add_configure_module g j).
Proof. unfold add_configure_module. frame_by. Qed.
Lemma F_change_configure_module j : F (change_configure_module g j).
Proof. unfold change_configure_module. frame_by. Qed.
#[local] Hint Resolve F_tag_loop F_gsl_get_tagged_module_info F_run_mod_configure
  F_change_configure_module : steps.

Lemma F_add_device_module v d : F (add_device_module g v d).
Proof. unfold add_device_module, upd_hw_mod. frame_by. Qed.
Lemma F_change_device_module v d : F (change_device_module g v d).
Proof. unfold change_device_module. frame_by. Qed.
#[local] Hint Resolve F_add_device_module F_change_device_module : steps.

Lemma F_graph_close : F (graph_close (Some g)).
Proof. unfold graph_close. frame_by. Qed.
Lemma F_graph_prepare : F (graph_prepare (Some g)).
Proof. unfold graph_prepare. frame_by. Qed.
Lemma F_graph_start : F (graph_start (Some g)).
Proof. unfold graph_start. frame_by. Qed.
Lemma F_graph_stop m : F (graph_stop (Some g) m).
Proof. unfold graph_stop. frame_by. Qed.
Lemma F_graph_pause_resume b : F (graph_pause_resume (Some g) b).
Proof. unfold graph_pause_resume. frame_by. Qed.
Lemma F_locked_call call : (forall go, F (call go)) -> F (locked_call (Some g) call).
Proof. intros Hc. unfold locked_call. frame_by. Qed.
Lemma F_graph_set_config p : F (graph_set_config (Some g) p).
Proof. unfold graph_set_config. apply F_locked_call. frame_by. Qed.
Lemma F_graph_get_config p : F (graph_get_config (Some g) p).
Proof. unfold graph_get_config. frame_by. Qed.
Lemma F_graph_set_config_with_tag v t k : F (graph_set_config_with_tag (Some g) v t k).
Proof. unfold graph_set_config_with_tag. apply F_locked_call. frame_by. Qed.
Lemma F_graph_set_cal m : F (graph_set_cal (Some g) m).
Proof. unfold graph_set_cal. apply F_locked_call. frame_by. Qed.
Lemma F_graph_remove m : F (graph_remove (Some g) m).
Proof. unfold graph_remove. apply F_locked_call. frame_by. Qed.
Lemma F_graph_write b : F (graph_write (Some g) b).
Proof. unfold graph_write. frame_by. Qed.
Lemma F_graph_read n : F (graph_read (Some g) n).
Proof. unfold graph_read. frame_by. Qed.
Lemma F_graph_eos : F (graph_eos (Some g)).
Proof. unfold graph_eos. frame_by. Qed.
Lemma F_graph_get_session_time : F (graph_get_session_time (Some g)).
Proof. unfold graph_get_session_time. frame_by. Qed.
Lemma F_graph_get_buffer_timestamp : F (graph_get_buffer_timestamp (Some g)).
Proof. unfold graph_get_buffer_timestamp. frame_by. Qed.
Lemma F_graph_fill_buf_info i c k : F (graph_fill_buf_info g i c k).
Proof. unfold graph_fill_buf_info. frame_by. Qed.
#[local] Hint Resolve F_graph_fill_buf_info : steps.
Lemma F_graph_get_buf_info i k : F (graph_get_buf_info (Some g) i k).
Proof. unfold graph_get_buf_info. cbn [the]. rewrite bind_ret_l. frame_by. Qed.
Lemma F_graph_register_cb b d : F (graph_register_cb (Some g) b d).
Proof. unfold graph_register_cb. frame_by. Qed.
Lemma F_graph_register_for_events c : F (graph_register_for_events (Some g) c).
Proof. unfold graph_register_for_events. frame_by. Qed.
Lemma F_graph_add m d : F (graph_add (Some g) m d).
Proof. unfold graph_add. frame_by. Qed.
Lemma F_graph_change m d : F (graph_change (Some g) m d).
Proof. unfold graph_change. frame_by. Qed.
End Operations.

#[export] Hint Resolve F_graph_close F_graph_prepare F_graph_start F_graph_stop
  F_graph_pause_resume F_graph_set_config F_graph_get_config F_graph_set_config_with_tag
  F_graph_set_cal F_graph_remove F_graph_write F_graph_read F_graph_eos
  F_graph_get_session_time F_graph_get_buffer_timestamp F_graph_get_buf_info
  F_graph_register_cb F_graph_register_for_events F_graph_add F_graph_change : steps.

(** ** The state machine of a graph object *)

Inductive graph_op : Type :=
  | GrStart
  | GrStop (meta : option meta_data)
  | GrPause (pause : bool)
  | GrSetConfig (payload : list Z)
  | GrSetCal (m : meta_data)
  | GrRemove (m : meta_data)
  | GrRegisterCb (client_data : Z)
  | GrEos.

Section Trans.
Context `{Consts}.

Definition stop_props (m : meta_data) : list key_value * Z * list Z :=
  (kvs (gkv m), prop_id (sg_props m), props (sg_props m)).

(** The parameter a soft pause or resume sends to module [md]. *)
Definition pause_param (md : module_info) (pause : bool) : payload :=
  PayParam (ParamHeader (mod_miid md)
    (if pause then PARAM_ID_SOFT_PAUSE_START else PARAM_ID_SOFT_PAUSE_RESUME) 0 0) BodyNone.

Definition pause_module (go : graph_obj) : option module_info :=
  List.find (fun md => mod_tag md =? TAG_PAUSE) (gr_mods go).

(** [graph_trans op go r go' evs]: on an object [go] the operation may
    return [r] and leave [go'] when [evs] are its calls of GSL with their answers. *)
Inductive graph_trans : graph_op -> graph_obj -> Z -> graph_obj -> list event -> Prop :=
  | tr_start_ok go r a :
      s32 a = 0 -> r = 0 ->
      graph_trans GrStart go r (set_gr_state STARTED go) [Ev (GslIoctl (gr_handle go) GSL_CMD_START) a]
  | tr_start_failed go a :
      s32 a <> 0 ->
      graph_trans GrStart go (ar_err_get_lnx_err_code (s32 a)) go
        [Ev (GslIoctl (gr_handle go) GSL_CMD_START) a]
  | tr_stop_again go m :
      has_state (gr_state go) STOPPED = true -> graph_trans (GrStop m) go 0 go []
  | tr_stop_early go m :
      has_state (gr_state go) STOPPED = false -> has_state (gr_state go) STARTED = false ->
      graph_trans (GrStop m) go (- EINVAL) go []
  | tr_stop go a :
      has_state (gr_state go) STOPPED = false -> has_state (gr_state go) STARTED = true ->
      graph_trans (GrStop None) go (lnx_err (s32 a)) (set_gr_state STOPPED go)
        [Ev (GslIoctl (gr_handle go) (GSL_CMD_STOP None)) a]
  | tr_stop_leg go m a :
      has_state (gr_state go) STOPPED = false -> has_state (gr_state go) STARTED = true ->
      graph_trans (GrStop (Some m)) go (lnx_err (s32 a)) go
        [Ev (GslIoctl (gr_handle go) (GSL_CMD_STOP (Some (stop_props m)))) a]
  | tr_pause_none go b :
      pause_module go = None -> graph_trans (GrPause b) go 0 go []
  | tr_pause_no_memory go b md :
      pause_module go = Some md -> graph_trans (GrPause b) go (- ENOMEM) go []
  | tr_pause go b md a :
      pause_module go = Some md ->
      graph_trans (GrPause b) go (lnx_err (s32 a)) go
        [Ev (GslSetCustomConfig (gr_handle go) (pause_param md b)) a]
  | tr_set_config go p a :
      graph_trans (GrSetConfig p) go (lnx_err (s32 a)) go
        [Ev (GslSetCustomConfig (gr_handle go) (PayRaw p)) a]
  | tr_set_cal go m a :
      graph_trans (GrSetCal m) go (lnx_err (s32 a)) go
        [Ev (GslSetCal (gr_handle go) (kvs (gkv m)) (kvs (ckv m))) a]
  | tr_remove go m a :
      graph_trans (GrRemove m) go (lnx_err (s32 a)) go
        [Ev (GslIoctl (gr_handle go) (GSL_CMD_REMOVE_GRAPH (kvs (gkv m)))) a]
  | tr_register_cb go d :
      graph_trans (GrRegisterCb d) go 0 (set_gr_cb (Some d) go) []
  | tr_eos go a :
      graph_trans GrEos go (ar_err_get_lnx_err_code (s32 a)) go [Ev (GslIoctl (gr_handle go) GSL_CMD_EOS) a].

(** The metadata of the operation is well formed. *)
Definition op_ok (op : graph_op) : Prop :=
  match op with
  | GrStop (Some m) | GrSetCal m | GrRemove m => meta_ok m = true
  | _ => True
  end.
End Trans.

(** What an operation on graph [g] does to the process. *)
Definition graph_effect (g : nat) (go' : graph_obj) (evs : list event) (w w' : world) : Prop :=
  w_graphs w' = <[g := Some go']> (w_graphs w) /\ graph_frame g w w' /\ w_trace w' = evs ++ w_trace w.

Section Refinement.
Context `{Env}.

Definition run_graph (op : graph_op) (g : nat) : AGM Z :=
  match op with
  | GrStart => graph_start (Some g)
  | GrStop m => graph_stop (Some g) m
  | GrPause b => graph_pause_resume (Some g) b
  | GrSetConfig p => graph_set_config (Some g) p
  | GrSetCal m => graph_set_cal (Some g) m
  | GrRemove m => graph_remove (Some g) m
  | GrRegisterCb d => graph_register_cb (Some g) true d
  | GrEos => graph_eos (Some g)
  end.

Lemma F_run_graph op g : Steps (graph_frame g) (run_graph op g).
Proof. destruct op; cbn [run_graph]; auto with steps. Qed.

Lemma wpg_memcpy u {A} n (src : option (list A)) Q (w : world) :
  array_ok n src = true -> Q (live n src) w -> wpg u (memcpy_from n src) Q w.
Proof.
  intros Hok HQ. unfold memcpy_from, live, array_ok in *. destruct n, src; try done.
  apply bool_decide_eq_true in Hok. by rewrite bool_decide_true.
Qed.

Lemma wpg_read_kvs u v Q (w : world) :
  array_ok (num_kvs v) (kv v) = true -> Q (kvs v) w -> wpg u (read_kvs v) Q w.
Proof. apply wpg_memcpy. Qed.

Lemma meta_ok_parts m : meta_ok m = true ->
  array_ok (num_kvs (gkv m)) (kv (gkv m)) = true /\
  array_ok (num_kvs (ckv m)) (kv (ckv m)) = true /\
  array_ok (num_values (sg_props m)) (values (sg_props m)) = true.
Proof. unfold meta_ok. rewrite !andb_true_iff. tauto. Qed.
End Refinement.

(** Symbolic execution through the GSL calls. *)
Ltac gsl_step :=
  lazymatch goal with
  | |- wpg _ (read_kvs _) _ _ => apply wpg_read_kvs; [done|]
  | |- wpg _ (memcpy_from _ _) _ _ => apply wpg_memcpy; [done|]
  | |- wpg _ calloc _ _ => apply wpg_calloc; intros ? ?Halloc'; wsimp
  | |- wpg _ (match ?x with _ => _ end) _ _ => destruct x eqn:?
  | |- wpg _ _ _ _ => first [wp_step | progress (autounfold with gsl)]
  end.
Ltac gsl_steps := repeat gsl_step.

Create HintDb graph_trans.
#[export] Hint Constructors graph_trans : graph_trans.

Section GraphOps.
Context `{Env}.

(** A pause of a module that GSL is not told fails for want of memory. *)
Definition told (op : graph_op) (go : graph_obj) (evs : list event) (w : world) : Prop :=
  match op with GrPause _ => evs = [] -> is_Some (pause_module go) -> env_alloc (w_allocs w) = false | _ => True end.

Lemma wp_run_graph_told op g go w Q :
  w_graphs w !! g = Some (Some go) -> LGraph g ∉ w_held w -> op_ok op ->
  (forall r go' evs w', graph_trans op go r go' evs -> graph_effect g go' evs w w' -> told op go evs w -> Q r w') ->
  wp (run_graph op g) Q w.
Proof.
  intros Hg Hl Hok HQ. apply (wpg_frame (graph_frame g)); [apply F_run_graph|].
  destruct op as [|[m|]|b|p|m|m|d|]; cbn [run_graph op_ok] in *.
  all: try pose proof (meta_ok_parts _ Hok) as (? & ? & ?).
  all: unfold graph_start, graph_stop, graph_pause_resume, graph_set_config, graph_set_cal,
    graph_remove, graph_register_cb, graph_eos, locked_call.
  all: gsl_steps; bool_hyps; try discriminate.
  all: try (split; [reflexivity|]); intros Hf; eapply HQ.
  all: lazymatch goal with
       | |- graph_trans _ _ _ _ _ => solve [eauto 4 with graph_trans]
       | |- _ => idtac
       end.
  all: lazymatch goal with
       | |- graph_effect _ _ _ _ _ => split; [wsimp; first [reflexivity | by rewrite list_insert_id]|]
       | |- _ => idtac
       end.
  all: first [by split | cbn [told]; intros ? [md Hmd]; unfold pause_module in Hmd; congruence].
Qed.

Lemma wp_run_graph op g go w Q :
  w_graphs w !! g = Some (Some go) -> LGraph g ∉ w_held w -> op_ok op ->
  (forall r go' evs w', graph_trans op go r go' evs -> graph_effect g go' evs w w' -> Q r w') ->
  wp (run_graph op g) Q w.
Proof. intros Hg Hl Hok HQ. eapply wp_run_graph_told; [done..|]. intros. by eapply HQ. Qed.
End GraphOps.

(** ** Configuring the modules *)

(** The module before and after: it may have become configured. *)
Definition mod_conf (a b : module_info) : Prop := b = a \/ b = set_mod_is_configured true a.

#[export] Instance mod_conf_preorder : PreOrder mod_conf.
Proof.
  split; [by left|]. intros a b c [-> | ->] [-> | ->]; (by left) || by right.
Qed.

(** What configuring keeps of a graph object. *)
Record go_conf (go go' : graph_obj) : Prop := GoConf {
  gc_state : gr_state go' = gr_state go;
  gc_handle : gr_handle go' = gr_handle go;
  gc_sess : gr_sess go' = gr_sess go;
  gc_cb : gr_cb go' = gr_cb go;
  gc_mods : Forall2 mod_conf (gr_mods go) (gr_mods go')
}.

#[export] Instance go_conf_preorder : PreOrder go_conf.
Proof.
  split; [intros go; by split|].
  intros x y z [] []. split; try congruence. by etransitivity.
Qed.

(** The memory a graph operation works on: a live graph of a live session,
    whose modules point to live devices. *)
Definition graph_wf (w : world) (g : nat) (go : graph_obj) : Prop :=
  w_graphs w !! g = Some (Some go) /\ graph_live w g /\ Forall (module_ok w) (gr_mods go).

Lemma module_ok_conf w a b : mod_conf a b -> module_ok w a -> module_ok w b.
Proof. by intros [-> | ->]. Qed.

Lemma graph_live_intro w g go : w_graphs w !! g = Some (Some go) ->
  graph_live w g <-> exists i p s, gr_sess go = Some i /\ w_pool w = Some p /\ p !! i = Some s /\
                                   session_data_ok s.
Proof.
  intros Hg. split.
  - intros (go' & i & p & s & Hg' & H). rewrite Hg in Hg'. simplify_eq. eauto 10.
  - intros (i & p & s & H). exists go, i, p, s. tauto.
Qed.

Lemma graph_wf_mono w w' g go go' :
  graph_wf w g go -> w_pool w' = w_pool w -> w_devs w' = w_devs w ->
  w_graphs w' !! g = Some (Some go') -> go_conf go go' -> graph_wf w' g go'.
Proof.
  intros (Hg & Hl & Hm) Hp Hd Hg' Hc. split; [done|]. split.
  - apply (graph_live_intro _ _ _ Hg'). apply (graph_live_intro _ _ _ Hg) in Hl.
    by rewrite (gc_sess _ _ Hc), Hp.
  - assert (Forall (module_ok w') (gr_mods go)) as Hm'.
    { eapply Forall_impl; [exact Hm|]. intros md [Hdv Hr]. split; [|done].
      unfold dev_live. by rewrite Hd. }
    apply Forall_forall. intros md Hin.
    apply list_elem_of_lookup_1 in Hin as [j Hj].
    destruct (Forall2_lookup_r _ _ _ _ _ (gc_mods _ _ Hc) Hj) as (a & Ha & Hab).
    eapply module_ok_conf; [exact Hab|]. by eapply Forall_lookup_1.
Qed.

Lemma go_conf_spr v go : go_conf go (spr_upd v go).
Proof. destruct v; by split. Qed.

Lemma go_conf_mod j md go : gr_mods go !! j = Some md ->
  go_conf go (set_gr_mods (alter (set_mod_is_configured true) j (gr_mods go)) go).
Proof.
  intros Hj. split; try done. cbn. rewrite <- (list_fmap_id (gr_mods go)) at 1.
  apply Forall2_lookup. intros k. rewrite list_fmap_id.
  destruct (decide (k = j)) as [->|].
  - rewrite list_lookup_alter_eq, Hj. constructor. by right.
  - rewrite list_lookup_alter_ne by done. destruct (gr_mods go !! k); constructor. by left.
Qed.

(** The modules before position [k] that have a configuration are configured. *)
Definition configured_upto (k : nat) (go : graph_obj) : Prop :=
  forall j md, (j < k)%nat -> gr_mods go !! j = Some md -> is_Some (mod_configure md) ->
    mod_is_configured md = true.

Lemma configured_upto_conf k go go' :
  go_conf go go' -> configured_upto k go -> configured_upto k go'.
Proof.
  intros Hc Hk j md Hj Hmd Hs.
  destruct (Forall2_lookup_r _ _ _ _ _ (gc_mods _ _ Hc) Hmd) as (a & Ha & [-> | ->]); [|done].
  by eapply Hk.
Qed.

Section Prepare.
Context `{Env} `{!ConstsOk env_consts} (Halloc : forall n, env_alloc n = true).

Lemma wp_read_mod u g j go md Q w :
  w_graphs w !! g = Some (Some go) -> gr_mods go !! j = Some md -> Q md w ->
  wpg u (read_mod g j) Q w.
Proof using.
  intros Hg Hj HQ. unfold read_mod. apply wpg_bind, (wpg_read_graph _ _ _ _ _ Hg).
  by rewrite Hj.
Qed.

Lemma wp_dev_started md w Q : module_ok w md -> (forall b, Q b w) -> wp (dev_started md) Q w.
Proof using.
  intros [Hd _] HQ. unfold dev_started. destruct (mod_dev md) as [i|]; [|by apply wpg_ret].
  destruct (Hd i eq_refl) as [d E]. by apply wpg_bind, (wpg_read_dev _ _ _ _ _ E), wpg_ret.
Qed.

(** Marking module [j] configured. *)
Lemma wp_mark_configured u g j go md w Q :
  w_graphs w !! g = Some (Some go) -> gr_mods go !! j = Some md ->
  (forall w' go', graph_frame g w w' -> w_graphs w' !! g = Some (Some go') -> go_conf go go' ->
     (forall md', gr_mods go' !! j = Some md' -> mod_is_configured md' = true) -> Q tt w') ->
  wpg u (upd_mod g j (set_mod_is_configured true)) Q w.
Proof using.
  intros Hg Hj HQ. apply (wpg_frame (graph_frame g)); [apply F_upd_mod|].
  unfold upd_mod. eapply wpg_upd_graph; [done|]. intros Hf.
  eapply (HQ _ (set_gr_mods (alter (set_mod_is_configured true) j (gr_mods go)) go)); [done| | |].
  - wsimp. by rewrite list_lookup_insert_eq by (by eapply lookup_lt_Some).
  - by eapply go_conf_mod.
  - cbn. rewrite list_lookup_alter_eq, Hj. by intros ? [= <-].
Qed.

(** A configuration seen from the graph object. *)
Lemma wp_configure f md g go w Q :
  graph_wf w g go -> md ∈ gr_mods go -> mod_configure md = Some f ->
  (forall r w' go', graph_frame g w w' -> w_graphs w' !! g = Some (Some go') ->
     go_conf go go' -> gr_mods go' = gr_mods go -> Q r w') ->
  wp (run_configure f md g) Q w.
Proof using Halloc ConstsOk0.
  intros (Hg & Hl & Hm) Hin Hf HQ. apply wp_run_configure; try done.
  { rewrite Forall_forall in Hm. by apply Hm. }
  intros r w' Hc. pose proof (cf_graphs _ _ _ Hc) as [v Hv].
  eapply (HQ r w' (spr_upd v go)); [by apply conf_frame_graph_frame| |apply go_conf_spr|by destruct v].
  by rewrite Hv, list_lookup_alter_eq, Hg.
Qed.

(** What a step of a configuration loop leaves at module [j]. *)
Definition conf_step (g j : nat) (go : graph_obj) (w : world) (r : option Z) (w' : world) : Prop :=
  graph_frame g w w' /\ r <> Some 0 /\
  exists go', w_graphs w' !! g = Some (Some go') /\ go_conf go go' /\
    (r = None -> forall md', gr_mods go' !! j = Some md' -> is_Some (mod_configure md') ->
                 mod_is_configured md' = true).

Lemma conf_step_id g j go md w r : w_graphs w !! g = Some (Some go) -> gr_mods go !! j = Some md ->
  r <> Some 0 ->
  (r = None -> is_Some (mod_configure md) -> mod_is_configured md = true) ->
  conf_step g j go w r w.
Proof using.
  intros Hg Hj H0 Hr. split; [reflexivity|]. split; [done|]. exists go. split; [done|]. split; [reflexivity|].
  intros Hn md' E. rewrite Hj in E. simplify_eq. auto.
Qed.

Lemma wp_mark_step g j go md w w' go' :
  gr_mods go !! j = Some md -> graph_frame g w w' -> w_graphs w' !! g = Some (Some go') ->
  go_conf go go' -> gr_mods go' = gr_mods go ->
  wp (do! upd_mod g j (set_mod_is_configured true) ; ret None) (conf_step g j go w) w'.
Proof using.
  intros Hj Hf Hg' Hc Hms. apply wpg_bind. eapply wp_mark_configured; [done|by rewrite Hms|].
  intros w2 go2 Hf2 Hg2 Hc2 Hconf. apply wpg_ret. split; [by etransitivity|]. split; [done|].
  exists go2. split; [done|]. split; [by etransitivity|]. intros _ md' E _. eauto.
Qed.

(** The end of every configuration loop body: a started device is only
    marked, another module is configured and marked. *)
Lemma wp_configure_or_mark g j go md f w (b : bool) :
  graph_wf w g go -> gr_mods go !! j = Some md -> mod_configure md = Some f ->
  wp (if b then do! upd_mod g j (set_mod_is_configured true) ; ret None
      else let! r := run_configure f md g in if nz r then ret (Some r)
           else do! upd_mod g j (set_mod_is_configured true) ; ret None)
     (conf_step g j go w) w.
Proof using Halloc ConstsOk0.
  intros Hwf Hj Ef. pose proof Hwf as (Hg & _). destruct b; [by eapply wp_mark_step|].
  apply wpg_bind. eapply wp_configure; [done|by eapply list_elem_of_lookup_2|done|].
  intros r w' go' Hf Hg' Hc Hms. destruct (nz r) eqn:Er; [|by eapply wp_mark_step]. bool_hyps.
  apply wpg_ret. split; [done|]. split; [congruence|]. by exists go'.
Qed.

(** Whether the device of an end point module is started. *)
Lemma wp_started_test md w Q : module_ok w md -> (forall b : bool, Q b w) ->
  wp (if is_hw_ep_tag (mod_tag md) then dev_started md else ret false) Q w.
Proof using.
  intros Hm HQ. destruct (is_hw_ep_tag (mod_tag md)); [by apply wp_dev_started|by apply wpg_ret].
Qed.

Lemma wp_prepare_module g j go md stream w :
  graph_wf w g go -> gr_mods go !! j = Some md ->
  wp (prepare_module g j stream) (conf_step g j go w) w.
Proof using Halloc ConstsOk0.
  intros Hwf Hj. pose proof Hwf as (Hg & Hl & Hm).
  unfold prepare_module. apply wpg_bind. eapply wp_read_mod; [done..|].
  destruct (mod_is_configured md) eqn:Ec; [apply wpg_ret; by eapply conf_step_id|].
  repeat (match goal with |- wp (if ?b then ret _ else _) _ _ => destruct b end;
    [apply wpg_ret; by eapply conf_step_id|]).
  destruct (mod_configure md) as [f|] eqn:Ef;
    [|apply wpg_ret; eapply conf_step_id; [done..|]; intros _; rewrite Ef; by intros [? ?]].
  apply wpg_bind, wp_started_test; [by eapply Forall_lookup_1|].
  intros b. by eapply wp_configure_or_mark.
Qed.

(** A loop that configures every module it does not leave alone. *)
Lemma wp_conf_loop body g go w :
  graph_wf w g go ->
  (forall j go1 md w1, graph_wf w1 g go1 -> gr_mods go1 !! j = Some md ->
     wp (body j) (conf_step g j go1 w1) w1) ->
  wp (for_idx (seq 0 (length (gr_mods go))) body) (fun r w' =>
    graph_frame g w w' /\ r <> Some 0 /\
    exists go', w_graphs w' !! g = Some (Some go') /\ go_conf go go' /\
      (r = None -> configured_upto (length (gr_mods go)) go')) w.
Proof using.
  intros Hwf Hbody. apply (wpg_for_seq _ _ _ _ (fun k w1 =>
    graph_frame g w w1 /\ exists go1, w_graphs w1 !! g = Some (Some go1) /\ go_conf go go1 /\
      configured_upto k go1)).
  - split; [reflexivity|]. exists go. split; [apply Hwf|]. split; [reflexivity|]. intros j md Hj. lia.
  - intros k w1 Hk (Hf & go1 & Hg1 & Hc & Hup).
    assert (graph_wf w1 g go1) as Hwf1.
    { eapply graph_wf_mono; [exact Hwf|apply Hf|apply Hf|done|done]. }
    destruct (lookup_lt_is_Some_2 (gr_mods go1) k) as [md Hmd].
    { rewrite <- (Forall2_length _ _ _ (gc_mods _ _ Hc)). lia. }
    eapply wpg_mono; [by eapply Hbody|]. intros r w2 (Hf2 & H0 & go2 & Hg2 & Hc2 & Hr).
    assert (graph_frame g w w2) by (by etransitivity).
    assert (go_conf go go2) by (by etransitivity).
    destruct r as [r|]; (split; [done|]); [split; [done|]|]; exists go2; split_and!; try done.
    intros j md' Hj Hmd'. destruct (decide (j = k)) as [->|]; [by apply Hr|].
    apply (configured_upto_conf k go1 go2 Hc2 Hup j md'); [lia|done].
  - intros w1 (Hf & go1 & Hg1 & Hc & Hup). split; [done|]. split; [done|]. by exists go1.
Qed.

(** The configuration of the buffers: done once, and done when it succeeds. *)
Lemma wp_configure_buffer_params u g i go p s w Q :
  w_graphs w !! g = Some (Some go) -> w_pool w = Some p -> p !! i = Some s ->
  (forall r w' go', graph_frame g w w' -> w_graphs w' !! g = Some (Some go') -> go_conf go go' ->
     gr_mods go' = gr_mods go -> (r = 0 -> gr_buf_done go' = true) ->
     Q r w') ->
  wpg u (configure_buffer_params g i) Q w.
Proof using.
  intros Hg Hp Hs HQ. apply (wpg_frame (graph_frame g)); [apply F_configure_buffer_params|].
  unfold configure_buffer_params. apply wpg_bind, (wpg_read_sess _ _ _ _ _ _ Hp Hs).
  apply wpg_bind, (wpg_read_graph _ _ _ _ _ Hg).
  destruct (gr_buf_done go) eqn:Ed; [apply wpg_ret; intros; by eapply HQ|].
  destruct (if _ =? _ then _ else _) as [buff_size num_buffs]. gsl_steps; bool_hyps; intros Hf.
  all: eapply HQ; [exact Hf|wsimp; rewrite ?list_insert_insert_eq, ?list_lookup_insert_eq
    by (rewrite ?length_insert; by eapply lookup_lt_Some); reflexivity || exact Hg| | |]; try done.
Qed.

(** The session a graph belongs to. *)
Definition graph_session_of (w : world) (go : graph_obj) : option session_obj :=
  i ← gr_sess go; p ← w_pool w; p !! i.

(** What [graph_prepare] leaves: everything configured and [PREPARED] when it
    succeeds, the state of the object as it was when it does not. *)
Record prepared_spec (g : nat) (go : graph_obj) (s : session_obj) (w : world) (r : Z) (w' : world)
  : Prop := PreparedSpec {
  ps_frame : graph_frame g w w';
  ps_graph : exists go', w_graphs w' !! g = Some (Some go') /\
    go_conf go (set_gr_state (gr_state go) go') /\
    (r = 0 -> gr_state go' = PREPARED) /\
    (r <> 0 -> gr_state go' = gr_state go) /\
    (r = 0 -> gr_state go <> PREPARED ->
       configured_upto (length (gr_mods go)) go' /\
       (sc_is_hostless (ses_stream s) = false -> gr_buf_done go' = true) /\
       call_of <$> head (w_trace w') = Some (GslIoctl (gr_handle go) GSL_CMD_PREPARE))
}.

Lemma go_conf_restate go go' : go_conf go go' -> go_conf go (set_gr_state (gr_state go) go').
Proof using. by intros []. Qed.

(** Inside the critical section: [w0] is the state after the lock. *)
Definition prepare_post (g : nat) (go : graph_obj) (s : session_obj) (w : world) (r : Z) (w' : world)
  : Prop :=
  w_held w' = LGraph g :: w_held w /\
  (graph_frame g w (set_w_held (w_held w) w') ->
   prepared_spec g go s w r (set_w_held (w_held w) w')).

Lemma prepare_failed g go go1 s w w0 r w1 : w_held w0 = LGraph g :: w_held w ->
  graph_frame g w0 w1 -> w_graphs w1 !! g = Some (Some go1) -> go_conf go go1 -> r <> 0 ->
  prepare_post g go s w r w1.
Proof using.
  intros Hh Hf1 Hg1 Hc1 Hr. split; [by rewrite (gf_held _ _ _ Hf1)|]. intros Hf.
  split; [exact Hf|]. exists go1. split; [done|]. split; [by apply go_conf_restate|].
  split; [done|]. split; [by rewrite (gc_state _ _ Hc1)|done].
Qed.

Lemma wp_prepare_ioctl g go go2 s w w0 w2 : w_held w0 = LGraph g :: w_held w ->
  graph_frame g w0 w2 -> w_graphs w2 !! g = Some (Some go2) ->
  go_conf go go2 -> configured_upto (length (gr_mods go)) go2 ->
  (sc_is_hostless (ses_stream s) = false -> gr_buf_done go2 = true) ->
  wp (let! r := gsl_ioctl (gr_handle go) GSL_CMD_PREPARE in
      if nz r then ret (ar_err_get_lnx_err_code r)
      else do! upd_graph g (set_gr_state PREPARED) ; ret r) (prepare_post g go s w) w2.
Proof using ConstsOk0.
  intros Hh Hf2 Hg2 Hc2 Hup Hbuf. gsl_steps; bool_hyps.
  - eapply prepare_failed; [exact Hh| |exact Hg2|done|by apply lnx_err_nz; [apply osal_codes|]].
    etransitivity; [exact Hf2|]. by apply conf_frame_graph_frame, (conf_frame_trace g w2 [_]).
  - split; [wsimp; by rewrite (gf_held _ _ _ Hf2)|]. intros Hf. split; [done|].
    exists (set_gr_state PREPARED go2). wsimp.
    rewrite list_lookup_insert_eq by (by eapply lookup_lt_Some).
    split_and!; try done. by destruct Hc2; split.
Qed.

Lemma wp_graph_prepare g go s w :
  graph_wf w g go -> graph_session_of w go = Some s -> LGraph g ∉ w_held w ->
  wp (graph_prepare (Some g)) (prepared_spec g go s w) w.
Proof using Halloc ConstsOk0.
  intros Hwf Hs Hl. pose proof Hwf as (Hg & Hlive & Hm). unfold graph_session_of in Hs.
  apply bind_Some in Hs as (i & Hi & (p & Hp & Hs)%bind_Some).
  apply (wpg_frame (graph_frame g)); [apply F_graph_prepare|].
  unfold graph_prepare. apply wpg_bind, (wpg_read_graph _ _ _ _ _ Hg). rewrite Hi.
  apply wpg_bind, (wpg_read_sess _ _ _ _ _ _ Hp Hs), wpg_with_lock; [done|].
  set (w0 := set_w_held _ _). assert (Hh : w_held w0 = LGraph g :: w_held w) by done.
  apply (wpg_mono _ _ (prepare_post g go s w)); [|done].
  apply wpg_bind, (wpg_read_graph _ _ go); [done|].
  destruct (gr_state go =? PREPARED) eqn:Est; bool_hyps.
  { apply wpg_ret. split; [done|]. intros Hf. split; [done|]. exists go.
    split; [done|]. split; [by destruct go|]. done. }
  apply wpg_bind. assert (graph_wf w0 g go) as Hwf0 by (by eapply graph_wf_mono).
  eapply wpg_mono; [apply (wp_conf_loop _ _ go w0 Hwf0); intros; by eapply wp_prepare_module|].
  intros [r|] w1 (Hf1 & H0 & go1 & Hg1 & Hc1 & Hr);
    [apply wpg_ret; eapply prepare_failed; [exact Hh|done..|congruence]|].
  specialize (Hr eq_refl). apply wpg_bind. destruct (sc_is_hostless (ses_stream s)) eqn:Eh.
  { apply wpg_ret. eapply wp_prepare_ioctl; [exact Hh|done..|by rewrite Eh]. }
  eapply wp_configure_buffer_params; [exact Hg1|by rewrite (gf_pool _ _ _ Hf1)|exact Hs|].
  intros r w2 go2 Hf2 Hg2 Hc2 Hms Hb.
  assert (graph_frame g w0 w2) by (by etransitivity).
  assert (go_conf go go2) by (by etransitivity).
  destruct (nz r) eqn:Er; bool_hyps; [apply wpg_ret; eapply prepare_failed; [exact Hh|done..]|].
  eapply wp_prepare_ioctl; [exact Hh|done..|by apply (configured_upto_conf _ go1 go2 Hc2)|auto].
Qed.
End Prepare.

(** ** Opening a graph *)

(** Open GSL handles: successful opens minus closes. *)
Fixpoint gsl_balance (t : list event) : Z :=
  match t with
  | [] => 0
  | Ev (GslOpen _ _) a :: t' => (if nz (s32 (fst a)) then 0 else 1) + gsl_balance t'
  | Ev (GslClose _) _ :: t' => gsl_balance t' - 1
  | _ :: t' => gsl_balance t'
  end.

(** Tag and configure function of a module, which nothing ever changes. *)
Definition mod_kind (md : module_info) : Z * option configure_fn := (mod_tag md, mod_configure md).

(** The two module tables: the entries of the source, whose instance ids (and,
    for the end points, key vectors) are overwritten, and nothing else. *)
Record tables_ok `{Consts} (w : world) : Prop := TablesOk {
  to_stream : mod_kind <$> w_stream_mods w = mod_kind <$> stream_module_list;
  to_hw : mod_kind <$> w_hw_mods w = mod_kind <$> hw_ep_module;
  to_stream_fresh : Forall (fun md => mod_is_configured md = false /\ mod_dev md = None /\
                                      mod_gkv md = None) (w_stream_mods w);
  to_hw_fresh : Forall (fun md => mod_is_configured md = false /\ mod_dev md = None) (w_hw_mods w)
}.

(** The key vector a hardware end point is described with. *)
Definition kvec_of (v : key_vector) : key_vector := KVec (num_kvs v) (Some (kvs v)).

(** A module as [graph_open] adds it. *)
Definition fresh_module `{Consts} (v : key_vector) (sess dev : option nat) (md : module_info) : Prop :=
  mod_is_configured md = false /\
  (is_Some sess /\ mod_kind md ∈ (mod_kind <$> stream_module_list) /\ mod_dev md = None /\
     mod_gkv md = None \/
   is_Some dev /\ mod_kind md ∈ (mod_kind <$> hw_ep_module) /\ mod_dev md = dev /\
     mod_gkv md = Some (kvec_of v)).

(** A graph object as [graph_open] leaves it. *)
Record opened `{Consts} (m : meta_data) (sess dev : option nat) (handle : Z) (go : graph_obj) : Prop := Opened {
  op_state : gr_state go = OPENED;
  op_handle : gr_handle go = handle;
  op_sess : gr_sess go = sess;
  op_cb : gr_cb go = None;
  op_spr : gr_spr_miid go = 0;
  op_buf : gr_buf_done go = false;
  op_tags : NoDup (mod_tag <$> gr_mods go);
  op_mods : Forall (fresh_module (gkv m) sess dev) (gr_mods go)
}.

Section Tables.
Context `{Consts}.

Lemma tables_kind_stream w j f : (forall md, mod_kind (f md) = mod_kind md) ->
  (forall md, mod_is_configured md = false /\ mod_dev md = None /\ mod_gkv md = None ->
     mod_is_configured (f md) = false /\ mod_dev (f md) = None /\ mod_gkv (f md) = None) ->
  tables_ok w -> tables_ok (set_w_stream_mods (alter f j (w_stream_mods w)) w).
Proof.
  intros Hk Hf [H1 H2 H3 H4]. split; wsimp; try done.
  - rewrite <- H1. apply list_eq. intros k. rewrite !list_lookup_fmap.
    destruct (decide (k = j)) as [->|]; [|by rewrite list_lookup_alter_ne].
    rewrite list_lookup_alter_eq. destruct (w_stream_mods w !! j); cbn; by rewrite ?Hk.
  - apply Forall_alter; [done|]. intros md Hmd. by apply Hf.
Qed.

Lemma tables_kind_hw w j f : (forall md, mod_kind (f md) = mod_kind md) ->
  (forall md, mod_is_configured md = false /\ mod_dev md = None ->
     mod_is_configured (f md) = false /\ mod_dev (f md) = None) ->
  tables_ok w -> tables_ok (set_w_hw_mods (alter f j (w_hw_mods w)) w).
Proof.
  intros Hk Hf [H1 H2 H3 H4]. split; wsimp; try done.
  - rewrite <- H2. apply list_eq. intros k. rewrite !list_lookup_fmap.
    destruct (decide (k = j)) as [->|]; [|by rewrite list_lookup_alter_ne].
    rewrite list_lookup_alter_eq. destruct (w_hw_mods w !! j); cbn; by rewrite ?Hk.
  - apply Forall_alter; [done|]. intros md Hmd. by apply Hf.
Qed.

Lemma find_tag_Some table nodes tag j : find_tag table nodes tag = Some j ->
  j ∈ nodes /\ exists md, table !! j = Some md /\ mod_tag md = tag.
Proof.
  intros E. apply List.find_some in E as [Hin E]. split; [by apply list_elem_of_In|].
  destruct (table !! j) as [md|]; [|done]. exists md. split; [done|]. by apply Z.eqb_eq.
Qed.

Lemma elem_remove_node j k nodes : k ∈ remove_node j nodes <-> k ∈ nodes /\ k <> j.
Proof.
  unfold remove_node. rewrite !list_elem_of_In, List.filter_In, negb_true_iff, Nat.eqb_neq.
  intuition.
Qed.
End Tables.

Section TagLoop.
Context `{Env} `{!ConstsOk env_consts} (u : Prop).
Context (g : nat) (v : key_vector) (sess dev : option nat).
Context (Hv : array_ok (num_kvs v) (kv v) = true).

(** A tag of a module that was loaded: its list node is gone. *)
Definition loaded (ns nh : list nat) (t : Z) : Prop :=
  (exists j, (mod_tag <$> stream_module_list) !! j = Some t /\ j ∉ ns) \/
  (exists j, (mod_tag <$> hw_ep_module) !! j = Some t /\ j ∉ nh).

(** The invariant of the loop over the tag entries; [t] is the trace. *)
Record loading (t : list event) (ns nh : list nat) (w : world) : Prop := Loading {
  ld_tables : tables_ok w;
  ld_trace : w_trace w = t;
  ld_graph : exists mods, w_graphs w !! g = Some (Some (set_gr_mods mods graph_zero)) /\
    NoDup (mod_tag <$> mods) /\ Forall (fresh_module v sess dev) mods /\
    Forall (loaded ns nh) (mod_tag <$> mods)
}.

Lemma loaded_weaken ns nh ns' nh' t : ns' ⊆ ns -> nh' ⊆ nh -> loaded ns nh t -> loaded ns' nh' t.
Proof using. intros H1 H2 [(j & E & Hj)|(j & E & Hj)]; [left|right]; exists j; split; auto. Qed.

Lemma tables_tag_stream w j md : tables_ok w -> w_stream_mods w !! j = Some md ->
  (mod_tag <$> stream_module_list) !! j = Some (mod_tag md).
Proof using.
  intros [H1 _ _ _] E. apply (f_equal (fun l => fst <$> l !! j)) in H1.
  rewrite !list_lookup_fmap, E in H1. rewrite list_lookup_fmap.
  destruct (stream_module_list !! j); cbn in *; congruence.
Qed.

Lemma tables_tag_hw w j md : tables_ok w -> w_hw_mods w !! j = Some md ->
  (mod_tag <$> hw_ep_module) !! j = Some (mod_tag md).
Proof using.
  intros [_ H1 _ _] E. apply (f_equal (fun l => fst <$> l !! j)) in H1.
  rewrite !list_lookup_fmap, E in H1. rewrite list_lookup_fmap.
  destruct (hw_ep_module !! j); cbn in *; congruence.
Qed.

(** The node of a loaded tag is not in the lists: tags are different. *)
Lemma stream_not_loaded ns nh j t :
  (mod_tag <$> stream_module_list) !! j = Some t -> j ∈ ns -> ~ loaded ns nh t.
Proof using ConstsOk0.
  intros E Hj. pose proof tags_distinct as Hd. rewrite fmap_app in Hd.
  apply NoDup_app in Hd as (H1 & H2 & _). intros [(k & E' & Hk)|(k & E' & Hk)].
  - by rewrite (NoDup_lookup _ _ _ _ H1 E' E) in Hk.
  - apply (H2 t); by eapply list_elem_of_lookup_2.
Qed.

Lemma hw_not_loaded ns nh j t :
  (mod_tag <$> hw_ep_module) !! j = Some t -> j ∈ nh -> ~ loaded ns nh t.
Proof using ConstsOk0.
  intros E Hj. pose proof tags_distinct as Hd. rewrite fmap_app in Hd.
  apply NoDup_app in Hd as (_ & H2 & H1). intros [(k & E' & Hk)|(k & E' & Hk)].
  - apply (H2 t); by eapply list_elem_of_lookup_2.
  - by rewrite (NoDup_lookup _ _ _ _ H1 E' E) in Hk.
Qed.

Lemma remove_node_subseteq j nodes : remove_node j nodes ⊆ nodes.
Proof using. intros k Hk. by apply elem_remove_node in Hk as [? _]. Qed.

(** [ADD_MODULE] of a fresh module whose tag is new. *)
Lemma wp_add_module t ns nh ns' nh' x y w Q :
  loading t ns nh w -> ns' ⊆ ns -> nh' ⊆ nh ->
  fresh_module v sess dev (match y with Some _ => set_mod_dev y x | None => x end) ->
  ~ loaded ns nh (mod_tag x) -> loaded ns' nh' (mod_tag x) ->
  (forall b w', loading t ns' nh' w' -> Q b w') ->
  wpg u (ADD_MODULE g x y) Q w.
Proof using.
  intros [Ht Htr (mods & Hg & Hnd & Hfr & Hld)] Hns Hnh Hx Hnl Hl HQ.
  assert (Forall (loaded ns' nh') (mod_tag <$> mods)) as Hld'
    by (eapply Forall_impl; [exact Hld|]; intros z; by apply loaded_weaken).
  unfold ADD_MODULE. apply wpg_bind, wpg_calloc. intros [|] _; cbn [negb].
  - wp_steps. apply HQ. split; wsimp; [by destruct Ht|done|].
    rewrite list_lookup_insert_eq by (by eapply lookup_lt_Some).
    eexists. split; [reflexivity|]. rewrite fmap_app. cbn.
    assert (mod_tag (match y with Some _ => set_mod_dev y x | None => x end) = mod_tag x) as ->
      by (by destruct y).
    split_and!.
    + apply NoDup_app. split_and!; [done| |apply NoDup_singleton].
      intros z Hz ->%list_elem_of_singleton. apply Hnl. by eapply Forall_forall in Hz.
    + apply Forall_app. split; [done|]. by apply Forall_singleton.
    + apply Forall_app. split; [done|]. by apply Forall_singleton.
  - apply wpg_ret, HQ. split; wsimp; [by destruct Ht|done|]. by exists mods.
Qed.

Lemma loading_tables t ns nh w w' :
  loading t ns nh w -> tables_ok w' -> w_trace w' = w_trace w -> w_graphs w' = w_graphs w ->
  loading t ns nh w'.
Proof using.
  intros [Ht Htr (mods & Hg & H1)] Ht' Htr' Hg'. split; [done|congruence|].
  exists mods. by rewrite Hg'.
Qed.

Lemma loading_allocs t ns nh w n : loading t ns nh w -> loading t ns nh (set_w_allocs n w).
Proof using. intros Hl. eapply loading_tables; [done|by destruct Hl as [[] _ _]|done|done]. Qed.

(** One entry of the graph that names a stream module. *)
Lemma wp_add_stream_module t ns nh w j md modules :
  loading t ns nh w -> is_Some sess -> j ∈ ns -> w_stream_mods w !! j = Some md ->
  u \/ modules <> [] ->
  wpg u (add_stream_module g j modules) (fun r w' =>
    match r with None => loading t (remove_node j ns) nh w' | Some r => loading t ns nh w' end) w.
Proof using ConstsOk0.
  intros Hl Hs Hj Hmd Hne. unfold add_stream_module.
  destruct (1 <? length modules)%nat; [by apply wpg_ret|].
  apply wpg_bind, wpg_the. destruct modules as [|e modules]; cbn [head];
    [by destruct Hne|].
  apply wpg_bind, wpg_modify, wpg_bind, wpg_gets. wsimp. rewrite list_lookup_alter_eq, Hmd.
  apply wpg_bind, wpg_ret. pose proof Hl as [Ht _ _].
  assert (loading t ns nh (set_w_stream_mods (alter (set_ids e) j (w_stream_mods w)) w)) as Hl'.
  { eapply loading_tables; [exact Hl| |done|done]. apply tables_kind_stream; [by intros []|by intros []|done]. }
  pose proof (tables_tag_stream _ _ _ Ht Hmd) as Htag.
  apply wpg_bind. eapply (wp_add_module t ns nh (remove_node j ns) nh); [exact Hl'| | | | | |].
  - apply remove_node_subseteq.
  - done.
  - destruct (Forall_lookup_1 _ _ _ _ (to_stream_fresh _ Ht) Hmd) as (? & ? & ?).
    split; [done|]. left. split_and!; try done.
    rewrite <- (to_stream _ Ht). apply list_elem_of_fmap. exists md. split; [by destruct md|].
    by eapply list_elem_of_lookup_2.
  - by eapply (stream_not_loaded ns nh j).
  - left. exists j. split; [done|]. rewrite elem_remove_node. tauto.
  - intros b w' H'. by apply wpg_ret.
Qed.

Lemma wp_copy_gkv w Q :
  (forall r n, (r = None \/ r = Some (kvec_of v)) -> Q r (set_w_allocs n w)) ->
  wpg u (copy_gkv v) Q w.
Proof using Hv.
  intros HQ. unfold copy_gkv. gsl_steps; apply HQ; auto.
Qed.

(** One entry that names a hardware end point. *)
Lemma wp_add_hw_module t ns nh w j md modules d :
  loading t ns nh w -> dev = Some d -> j ∈ nh -> w_hw_mods w !! j = Some md ->
  u \/ modules <> [] ->
  wpg u (add_hw_module g j modules v d) (fun r w' =>
    match r with None => loading t ns (remove_node j nh) w' | Some r => loading t ns nh w' end) w.
Proof using ConstsOk0 Hv.
  intros Hl Hd Hj Hmd Hne. unfold add_hw_module.
  destruct (1 <? length modules)%nat; [by apply wpg_ret|].
  apply wpg_bind, wpg_the. destruct modules as [|e modules]; cbn [head];
    [by destruct Hne|].
  pose proof Hl as [Ht _ _]. pose proof (tables_tag_hw _ _ _ Ht Hmd) as Htag.
  destruct (Forall_lookup_1 _ _ _ _ (to_hw_fresh _ Ht) Hmd) as [Hc Hdn].
  apply wpg_bind, wpg_modify. set (w1 := set_w_hw_mods _ w).
  assert (loading t ns nh w1) as Hl1.
  { eapply loading_tables; [exact Hl| |done|done]. apply tables_kind_hw; [by intros []|by intros []|done]. }
  apply wpg_bind, wp_copy_gkv. intros r n [-> | ->]; [by apply wpg_ret, loading_allocs|].
  apply wpg_bind, wpg_modify, wpg_bind, wpg_gets. wsimp.
  subst w1. wsimp. rewrite !list_lookup_alter_eq, Hmd. cbn [fmap option_fmap option_map].
  apply wpg_bind, wpg_ret, wpg_bind.
  eapply (wp_add_module t ns nh ns (remove_node j nh)); [| | | | | |].
  - eapply loading_tables; [exact (loading_allocs _ _ _ _ n Hl1)| |done|done].
    refine (tables_kind_hw (set_w_allocs n (set_w_hw_mods (alter (set_ids e) j (w_hw_mods w)) w))
      j (set_mod_gkv (Some (kvec_of v))) _ _ _); [by intros []|by intros []|]. apply (loading_allocs _ _ _ _ n Hl1).
  - done.
  - apply remove_node_subseteq.
  - split; [by destruct md|]. right. rewrite Hd. split_and!; try done.
    rewrite <- (to_hw _ Ht). apply list_elem_of_fmap. exists md. split; [by destruct md|].
    by eapply list_elem_of_lookup_2.
  - by eapply (hw_not_loaded ns nh j).
  - right. exists j. split; [by destruct md|]. rewrite elem_remove_node. tauto.
  - intros b w' H'. by apply wpg_ret.
Qed.

End TagLoop.

Section GraphOpen.
Context `{Env} `{!ConstsOk env_consts} (u : Prop).

Lemma wp_tag_loop g v sess dev t tags :
  array_ok (num_kvs v) (kv v) = true -> u \/ Forall (fun e => snd e <> []) tags -> forall ns nh w,
  loading g v sess dev t ns nh w ->
  wpg u (tag_loop g v sess dev ns nh tags)
    (fun _ w' => exists ns' nh', loading g v sess dev t ns' nh' w') w.
Proof using ConstsOk0.
  intros Hv Hne. induction tags as [|[tag modules] tags IH]; intros ns nh w Hl; cbn [tag_loop].
  { apply wpg_ret. by exists ns, nh. }
  assert (u \/ modules <> []) as Hm by (destruct Hne as [|Hne]; [by left|right; by inversion Hne]).
  assert (IH' := IH ltac:(destruct Hne as [|Hne]; [by left|right; by inversion Hne])).
  apply wpg_bind, wpg_gets, wpg_bind, wpg_gets.
  destruct (match sess with Some _ => _ | None => _ end) as [j|] eqn:Ein.
  - assert (is_Some sess /\ find_tag (w_stream_mods w) ns tag = Some j) as [Hs Ej]
      by (by destruct sess; [split; [eexists|]|]).
    apply find_tag_Some in Ej as (Hj & md & Hmd & _). apply wpg_bind.
    eapply wpg_mono; [by eapply wp_add_stream_module|].
    intros [r|] w' Hr; [apply wpg_ret; by exists ns, nh|]. by apply IH'.
  - destruct dev as [d|]; [|by apply IH'].
    destruct (find_tag (w_hw_mods w) nh tag) as [j|] eqn:Eh; [|by apply IH'].
    apply find_tag_Some in Eh as (Hj & md & Hmd & _). apply wpg_bind.
    eapply wpg_mono; [by eapply wp_add_hw_module|].
    intros [r|] w' Hr; [apply wpg_ret; by exists ns, nh|]. by apply IH'.
Qed.

(** What [graph_open] leaves.  Without a graph object the memory and the GSL
    handle are given back, whatever the status says. *)
Record open_outcome (m : meta_data) (sess dev : option nat) (w : world)
    (res : Z * option nat) (w' : world) : Prop := OpenOutcome {
  oo_frame : graph_frame (length (w_graphs w)) w w';
  oo_tables : tables_ok w';
  oo_result : match snd res with
    | Some g => fst res = 0 /\ g = length (w_graphs w) /\
        gsl_balance (w_trace w') = 1 + gsl_balance (w_trace w) /\
        exists go handle, w_graphs w' !! g = Some (Some go) /\ opened m sess dev handle go
    | None => gsl_balance (w_trace w') = gsl_balance (w_trace w) /\
        forall go, w_graphs w' !! length (w_graphs w) <> Some (Some go)
    end
}.

(** The part of an outcome that the frame of the new slot does not give. *)
Definition open_result (m : meta_data) (sess dev : option nat) (w : world)
    (res : Z * option nat) (w' : world) : Prop :=
  tables_ok w' /\
  match snd res with
  | Some g => fst res = 0 /\ g = length (w_graphs w) /\
      gsl_balance (w_trace w') = 1 + gsl_balance (w_trace w) /\
      exists go handle, w_graphs w' !! g = Some (Some go) /\ opened m sess dev handle go
  | None => gsl_balance (w_trace w') = gsl_balance (w_trace w) /\
      forall go, w_graphs w' !! length (w_graphs w) <> Some (Some go)
  end.

Lemma tables_ok_set w w' : w_stream_mods w' = w_stream_mods w -> w_hw_mods w' = w_hw_mods w ->
  tables_ok w -> tables_ok w'.
Proof using. intros E1 E2 []. by split; rewrite ?E1, ?E2. Qed.

(** The jump to [free_graph_obj]. *)
Lemma wp_open_fail m sess dev w g r w1 go : g = length (w_graphs w) ->
  w_graphs w1 !! g = Some (Some go) -> tables_ok w1 ->
  gsl_balance (w_trace w1) = gsl_balance (w_trace w) ->
  wpg u (free_graph g) (fun _ w' => wpg u (ret (r, None)) (open_result m sess dev w) w') w1.
Proof using.
  intros -> Hg Ht Hb. eapply wpg_free_graph; [done|]. apply wpg_ret.
  split; [by destruct Ht|]. split; [done|]. wsimp. intros go'.
  by rewrite list_lookup_insert_eq by (by eapply lookup_lt_Some).
Qed.

(** From the loaded modules to the end of the function. *)
Lemma wp_open_finish m sess dev w g t ns nh w1 : meta_ok m = true -> g = length (w_graphs w) ->
  loading g (gkv m) sess dev t ns nh w1 -> gsl_balance t = gsl_balance (w_trace w) ->
  wpg u
    (do! upd_graph g (set_gr_sess sess) ;
     let! gkvs := read_kvs (gkv m) in
     let! ckvs := read_kvs (ckv m) in
     let! (r, handle) := gsl_open gkvs ckvs in
     if nz r then do! free_graph g ; ret (ar_err_get_lnx_err_code r, None) else
     do! upd_graph g (set_gr_handle handle) ;
     let! r := gsl_register_event_cb handle g in
     if nz r then
       do! gsl_close handle ;
       do! free_graph g ; ret (ar_err_get_lnx_err_code r, None)
     else
       do! upd_graph g (set_gr_state OPENED) ;
       ret (r, Some g)) (open_result m sess dev w) w1.
Proof using.
  intros Hok Hgl [Ht Htr (mods & Hg & Hnd & Hfr & _)] Hb.
  destruct (meta_ok_parts _ Hok) as (Hgk & Hck & _). pose proof (lookup_lt_Some _ _ _ Hg) as Hlt.
  gsl_steps; bool_hyps.
  - eapply (wp_open_fail m sess dev w g); wsimp; try done.
    + by rewrite list_lookup_insert_eq.
    + by destruct Ht.
    + cbn [gsl_balance]. rewrite (proj2 (nz_true _)) by done. rewrite Htr. lia.
  - eapply (wp_open_fail m sess dev w g); wsimp; try done.
    + by rewrite list_lookup_insert_eq by (by rewrite length_insert).
    + by destruct Ht.
    + cbn [gsl_balance]. rewrite (proj2 (nz_false _)) by done. rewrite Htr. lia.
  - split; [by destruct Ht|]. wsimp. cbn [fst snd gsl_balance].
    rewrite (proj2 (nz_false _)) by done. split; [done|]. split; [done|]. split; [rewrite Htr; lia|].
    rewrite !list_insert_insert_eq, list_lookup_insert_eq by done.
    eexists _, _. split; [reflexivity|]. by split.
Qed.

Lemma wp_add_to_list n w Q :
  (forall r k, Q r (set_w_allocs k w)) -> wpg u (add_to_list n) Q w.
Proof using.
  revert w Q. induction n as [|n IH]; intros w Q HQ; cbn [add_to_list].
  - apply wpg_ret. destruct w. apply (HQ _ _).
  - wp_steps; [apply HQ|]. apply IH. intros. apply (HQ _ k).
Qed.

(** The tags GSL gave: an entry has at least one module. *)
Lemma wp_get_tags v w Q :
  array_ok (num_kvs v) (kv v) = true -> u \/ (forall n, env_alloc n = true) ->
  u \/ (forall h k n, Forall (fun e => snd e <> []) (snd (env_answer h (GslGetTags k n)))) ->
  (forall r tags w', w_graphs w' = w_graphs w -> w_stream_mods w' = w_stream_mods w ->
     w_hw_mods w' = w_hw_mods w -> gsl_balance (w_trace w') = gsl_balance (w_trace w) ->
     u \/ is_Some tags \/ r <> 0 -> u \/ Forall (fun e => snd e <> []) (default [] tags) ->
     Q (r, tags) w') ->
  wpg u (get_tags_with_module_info v) Q w.
Proof using ConstsOk0.
  intros Hv Ha Ht HQ. unfold get_tags_with_module_info. apply wpg_bind, wpg_read_kvs; [done|].
  apply wpg_bind. refine (wpg_ext u (GslGetTagsSize _) _ w _). cbn [ext_ans]. intros [r size] _.
  destruct (nz (s32 r)) eqn:Er; bool_hyps.
  { apply wpg_ret, HQ; wsimp; try done; [right; right|by right].
    pose proof (lnx_err_nz r osal_codes Er). intros E.
    apply lnx_err_code_zero in E; [|apply osal_codes].
    pose proof (lnx_err_code_range (s32 r) osal_codes) as Hr. unfold u32 in E.
    apply Z.mod_divide in E as [k E]; lia. }
  apply wpg_bind. unfold wpg at 1, calloc. destruct (env_alloc _) eqn:Eal.
  - apply wpg_bind. match goal with |- wpg _ (ext ?c) ?Q ?w => refine (wpg_ext u c Q w _) end.
    cbn [ext_ans]. intros [r2 tags] E2. apply wpg_ret, HQ; wsimp; try done; [eauto|].
    destruct Ht as [|Ht]; [by left|right]. apply (f_equal snd) in E2. cbn in E2.
    cbn [default from_option]. unfold id. rewrite E2. apply Ht.
  - apply wpg_bind. match goal with |- wpg _ (ext ?c) ?Q ?w => refine (wpg_ext u c Q w _) end.
    cbn [ext_ans]. intros [r2 sz] E2. apply wpg_ret, HQ; wsimp; try done; [|by right].
    left. destruct Ha as [|Ha]; [done|]. by rewrite Ha in Eal.
Qed.

Lemma wp_graph_open m sess dev w :
  meta_ok m = true -> tables_ok w -> u \/ (forall n, env_alloc n = true) ->
  u \/ (forall h k n, Forall (fun e => snd e <> []) (snd (env_answer h (GslGetTags k n)))) ->
  wpg u (graph_open (Some m) sess dev) (open_outcome m sess dev w) w.
Proof using ConstsOk0.
  intros Hok Ht Ha Htags. destruct (meta_ok_parts _ Hok) as (Hgk & _ & _).
  unfold graph_open. apply wpg_bind, wpg_calloc. intros ok _. destruct ok; cbn [negb].
  2:{ apply wpg_ret. split; [by split; try done; exists []|by destruct Ht|].
      split; [done|]. cbn. intros go. by rewrite lookup_ge_None_2. }
  set (g := length (w_graphs w)). apply wpg_bind. set (w0 := set_w_allocs _ w).
  unfold wpg at 1, new_graph. change (length (w_graphs w0)) with g.
  set (w1 := set_w_graphs _ w0).
  assert (Hg1 : w_graphs w1 !! g = Some (Some graph_zero)).
  { unfold w1. wsimp. rewrite lookup_app_r by (unfold g; cbn; lia). unfold g. cbn.
    by rewrite Nat.sub_diag. }
  assert (Hf1 : graph_frame g w w1).
  { split; try done; [unfold w1, w0; cbn; rewrite length_app; lia| |by exists []|by exists []]. intros h Hh. unfold w1, w0. cbn.
    destruct (decide (h < g)%nat); [by rewrite lookup_app_l|].
    rewrite !lookup_ge_None_2; [done| |]; unfold g in *; rewrite ?length_app; cbn; lia. }
  assert (Ht1 : tables_ok w1) by (by destruct Ht).
  apply (wpg_frame (graph_frame g)).
  { pose proof (F_add_to_list g). pose proof (F_get_tags g). pose proof (F_tag_loop g).
    steps_tac. }
  eapply (wpg_mono _ _ (open_result m sess dev w)).
  2:{ intros r w' [HA HB] Hf. split; [by etransitivity|done|done]. }
  apply wpg_bind, wp_get_tags; [done..|]. intros r tags w2 Eg Es Eh Eb Htag Hmod.
  assert (Hg2 : w_graphs w2 !! g = Some (Some graph_zero)) by (by rewrite Eg).
  assert (Ht2 : tables_ok w2) by (by eapply tables_ok_set).
  destruct (nz r) eqn:Er; bool_hyps; [apply wpg_bind; by eapply wp_open_fail|].
  apply wpg_bind, wpg_the. destruct tags as [tags|];
    [|destruct Htag as [?|[[? ?]|?]]; done].
  apply wpg_bind, wpg_gets, wpg_bind, wp_add_to_list. intros r1 k1.
  destruct (nz r1); [apply wpg_bind; eapply wp_open_fail; try done; by destruct Ht2|].
  apply wpg_bind, wpg_gets, wpg_bind, wp_add_to_list. intros r2 k2.
  destruct (nz r2); [apply wpg_bind; eapply wp_open_fail; try done; by destruct Ht2|].
  apply wpg_bind. eapply wpg_mono; [apply (wp_tag_loop g (gkv m) sess dev (w_trace w2)); try done|].
  { split; wsimp; [by destruct Ht2|done|]. exists []. split; [by rewrite Hg2|].
    split_and!; constructor. }
  intros [r3|] w3 (ns & nh & Hl).
  - apply wpg_bind. pose proof Hl as [Ht3 Htr3 (mods & Hg3 & _)].
    eapply wp_open_fail; [done|exact Hg3|done|by rewrite Htr3].
  - by eapply wp_open_finish.
Qed.
End GraphOpen.

(** ** Closing *)
Section Closing.
Context `{Env}.

Lemma wp_graph_close g go w Q :
  w_graphs w !! g = Some (Some go) -> LGraph g ∉ w_held w ->
  (forall a w', w_graphs w' = <[g := None]> (w_graphs w) ->
     w_trace w' = Ev (GslClose (gr_handle go)) a :: w_trace w -> graph_frame g w w' ->
     Q (lnx_err (s32 a)) w') ->
  wp (graph_close (Some g)) Q w.
Proof.
  intros Hg Hl HQ. apply (wpg_frame (graph_frame g)); [apply F_graph_close|].
  unfold graph_close. apply wpg_bind, wpg_with_lock; [done|]. gsl_steps.
  split; [done|]. apply wpg_bind. eapply wpg_free_graph; [done|]. apply wpg_ret. by apply HQ.
Qed.
End Closing.
