(* ===== verification/GraphLegs.v ===== *)
(** * Device legs of a running graph

    [graph_add] and [graph_change] bring a device into a graph that may already
    be prepared or started: the end point module has to be there afterwards and
    every module has to be configured. *)

From S2P Require Export GraphSpec.
Open Scope Z_scope.
#[export] Set Default Goal Selector "!".

Section Legs.
Context `{Env} `{!ConstsOk env_consts} (Halloc : forall n, env_alloc n = true).

(** GSL names at least one module behind a tag it finds. *)
Context (Hinfo : forall h k t, snd (env_answer h (GslGetTaggedModuleInfo k t)) <> []).

Lemma find_miid_Some miid mods k : find_miid miid mods = Some k ->
  exists md, mods !! k = Some md /\ mod_miid md = miid.
Proof using.
  unfold find_miid. intros ([k' md] & Hf & ->)%fmap_Some.
  apply list_find_Some in Hf as (? & ? & _). eauto.
Qed.

Lemma find_miid_None miid mods : find_miid miid mods = None ->
  Forall (fun md => mod_miid md <> miid) mods.
Proof using. unfold find_miid. intros E%fmap_None. by apply list_find_None in E. Qed.

(** A module that is asked to be configured again is otherwise as it was. *)
Lemma module_ok_unconfigured w md : module_ok w md -> module_ok w (set_mod_is_configured false md).
Proof using. by intros (? & ? & ?). Qed.

Lemma Forall_alter_ok w k mods : Forall (module_ok w) mods ->
  Forall (module_ok w) (alter (set_mod_is_configured false) k mods).
Proof using. intros Hm. apply Forall_alter; [done|]. intros. by apply module_ok_unconfigured. Qed.

(** The end point entry of the tables for a device. *)
Lemma hw_entry w d : tables_ok w -> exists md, w_hw_mods w !! hw_ep_index d = Some md /\
  is_hw_ep_tag (mod_tag md) = true /\ mod_configure md = Some fn_configure_hw_ep /\
  mod_is_configured md = false /\ mod_dev md = None.
Proof using.
  intros Ht. pose proof (to_hw _ Ht) as E. pose proof (to_hw_fresh _ Ht) as Hf.
  apply (f_equal (fun l => l !! hw_ep_index d)) in E. rewrite !list_lookup_fmap in E.
  unfold hw_ep_index in *. destruct (_ =? _); cbn in *.
  all: destruct (w_hw_mods w !! _) as [md|] eqn:El; [|done]; exists md; split; [done|].
  all: destruct (Forall_lookup_1 _ _ _ _ Hf El) as [Hc Hd]; unfold mod_kind in E;
    cbn in E; simplify_eq; unfold is_hw_ep_tag; split_and!; try done.
  all: repeat match goal with H : mod_tag _ = _ |- _ => rewrite H end;
    by rewrite Z.eqb_refl, ?orb_true_r.
Qed.

(** A graph whose slot changed to [go'] keeps its session. *)
Lemma graph_wf_change w w' g go go' : graph_wf w g go ->
  w_pool w' = w_pool w -> w_devs w' = w_devs w -> w_graphs w' !! g = Some (Some go') ->
  gr_sess go' = gr_sess go -> Forall (module_ok w) (gr_mods go') -> graph_wf w' g go'.
Proof using.
  intros (Hg & Hl & _) Hp Hd Hg' Hs Hm. split; [done|]. split.
  - apply (graph_live_intro _ _ _ Hg'). apply (graph_live_intro _ _ _ Hg) in Hl.
    by rewrite Hs, Hp.
  - eapply Forall_impl; [exact Hm|]. intros md [Hdv Hr]. split; [|done].
    unfold dev_live. by rewrite Hd.
Qed.

(** The graph object apart from its modules. *)
Definition same_graph (go go' : graph_obj) : Prop := go' = set_gr_mods (gr_mods go') go.

Lemma wp_tagged_info u v t w Q :
  array_ok (num_kvs v) (kv v) = true ->
  (forall r e l a, Q (s32 r, e :: l) (set_w_trace (Ev (GslGetTaggedModuleInfo (kvs v) t) a :: w_trace w) w)) ->
  wpg u (gsl_get_tagged_module_info v t) Q w.
Proof using Hinfo.
  intros Hv HQ. unfold gsl_get_tagged_module_info. apply wpg_bind, wpg_read_kvs; [done|].
  apply wpg_bind.
  match goal with |- wpg _ (ext ?c) ?Q ?w => refine (wpg_ext u c Q w _) end.
  cbn [ext_ans]. intros [r l] E. apply wpg_ret.
  assert (l <> []) as Hl by (intros ->; apply (Hinfo (w_trace w) (kvs v) t); by rewrite <- E).
  destruct l as [|e l]; [done|]. apply HQ.
Qed.

(** What the device part of [graph_add] leaves. *)
Definition leg_added (g dev : nat) (go : graph_obj) (w : world) (r : option Z) (w' : world) : Prop :=
  graph_frame g w w' /\ r <> Some 0 /\ tables_ok w' /\
  exists go', graph_wf w' g go' /\ same_graph go go' /\
    (r = None -> exists d mdt, w_devs w !! dev = Some (Some d) /\
       w_hw_mods w' !! hw_ep_index d = Some mdt /\
       exists md, md ∈ gr_mods go' /\ mod_miid md = mod_miid mdt).

Lemma set_gr_mods_id go : set_gr_mods (gr_mods go) go = go.
Proof using. by destruct go. Qed.

Lemma upd_set_gr_mods m m' go : set_gr_mods m (set_gr_mods m' go) = set_gr_mods m go.
Proof using. by destruct go. Qed.

Lemma kvec_of_ok v : array_ok (num_kvs v) (kv v) = true ->
  array_ok (num_kvs (kvec_of v)) (kv (kvec_of v)) = true.
Proof using.
  intros Hv. apply bool_decide_eq_true_2. unfold kvs, live. rewrite length_take.
  unfold array_ok in Hv. destruct (kv v); cbn in *; apply bool_decide_eq_true_1 in Hv; lia.
Qed.

(** A table entry for an end point, turned into a module of the graph. *)
Lemma leg_module_ok w dev d v md : w_devs w !! dev = Some (Some d) ->
  array_ok (num_kvs v) (kv v) = true ->
  module_ok w (set_mod_dev (Some dev) (set_mod_gkv (Some (kvec_of v)) md)).
Proof using.
  intros Hd Hv. split; [|split; [by intros; eexists|by apply kvec_of_ok]].
  intros i [= <-]. by exists d.
Qed.

Lemma tables_set_hw w j f : (forall md, mod_kind (f md) = mod_kind md) ->
  (forall md, mod_is_configured (f md) = mod_is_configured md /\ mod_dev (f md) = mod_dev md) ->
  tables_ok w -> tables_ok (set_w_hw_mods (alter f j (w_hw_mods w)) w).
Proof using.
  intros Hk Hf. apply tables_kind_hw; [done|]. intros md. by destruct (Hf md) as [-> ->].
Qed.

(** Without a new module: an error, or a module of the list to refresh. *)
Lemma leg_added_same g dev go w w' r : graph_wf w g go -> graph_frame g w w' ->
  w_graphs w' !! g = Some (Some go) -> tables_ok w' -> r <> 0 ->
  leg_added g dev go w (Some r) w'.
Proof using.
  intros Hwf Hf Hg Ht Hr. split; [done|]. split; [congruence|]. split; [done|]. exists go.
  split; [eapply graph_wf_mono; [done|apply Hf|apply Hf|done|done]|].
  split; [symmetry; apply set_gr_mods_id|done].
Qed.

Lemma wp_refresh_module g dev go d w w1 mt k :
  graph_wf w g go -> w_devs w !! dev = Some (Some d) -> graph_frame g w w1 -> tables_ok w1 ->
  w_graphs w1 !! g = Some (Some go) -> w_hw_mods w1 !! hw_ep_index d = Some mt ->
  find_miid (mod_miid mt) (gr_mods go) = Some k ->
  wp (do! upd_mod g k (set_mod_is_configured false) ; ret None) (leg_added g dev go w) w1.
Proof using.
  intros Hwf Hd Hf Ht Hg Hmt (md & Hk & Hmi)%find_miid_Some.
  apply (wpg_frame (graph_frame g)); [pose proof (F_upd_mod g); steps_tac|].
  apply wpg_bind. unfold upd_mod. eapply wpg_upd_graph; [done|]. apply wpg_ret. intros Hf1.
  assert (graph_frame g w (set_w_graphs (<[g:=Some (set_gr_mods (alter (set_mod_is_configured false) k
     (gr_mods go)) go)]> (w_graphs w1)) w1)) as Hf2 by (by etransitivity).
  split; [done|]. split; [done|]. split; [by destruct Ht|].
  exists (set_gr_mods (alter (set_mod_is_configured false) k (gr_mods go)) go). split; [|split; [done|]].
  - eapply (graph_wf_change w); [done|apply Hf|apply Hf| |done|].
    + wsimp. by rewrite list_lookup_insert_eq by (by eapply lookup_lt_Some).
    + apply Forall_alter_ok. apply Hwf.
  - intros _. exists d, mt. split; [done|]. split; [done|].
    exists (set_mod_is_configured false md). split; [|by destruct md].
    eapply (list_elem_of_lookup_2 _ k). cbn. by rewrite list_lookup_alter_eq, Hk.
Qed.

Lemma wp_attach_module g v dev go d w w1 mt :
  graph_wf w g go -> w_devs w !! dev = Some (Some d) -> graph_frame g w w1 -> tables_ok w1 ->
  w_graphs w1 !! g = Some (Some go) -> w_hw_mods w1 !! hw_ep_index d = Some mt ->
  array_ok (num_kvs v) (kv v) = true ->
  wp (let! copy := copy_gkv v in
      match copy with
      | None => ret (Some (- ENOMEM))
      | Some gkv =>
          do! upd_hw_mod (hw_ep_index d) (set_mod_gkv (Some gkv)) ;
          let! table := gets w_hw_mods in
          let! md := the OutOfBounds (table !! hw_ep_index d) in
          do! ADD_MODULE g md (Some dev) ;
          ret None
      end) (leg_added g dev go w) w1.
Proof using Halloc.
  intros Hwf Hd Hf Ht Hg Hmt Hv. apply (wpg_frame (graph_frame g)).
  { pose proof (F_copy_gkv g). pose proof (F_ADD_MODULE g). unfold upd_hw_mod. steps_tac. }
  apply wpg_bind. eapply wp_copy_gkv; [exact Hv|]. intros c n [-> | ->].
  { apply wpg_ret. intros Hf1. eapply leg_added_same; [done|by etransitivity|done|by destruct Ht|done]. }
  apply wpg_bind, wpg_modify, wpg_bind, wpg_gets. wsimp. rewrite list_lookup_alter_eq, Hmt.
  apply wpg_bind, wpg_ret, wpg_bind. unfold ADD_MODULE.
  apply wpg_bind, wp_calloc_ok; [done|]. cbn [negb]. apply wpg_bind.
  eapply wpg_upd_graph; [done|]. apply wpg_ret, wpg_ret. intros Hf1.
  set (md' := set_mod_dev (Some dev) (set_mod_gkv (Some (kvec_of v)) mt)).
  split; [by etransitivity|]. split; [done|]. split.
  { pose proof (tables_set_hw w1 (hw_ep_index d) (set_mod_gkv (Some (kvec_of v)))
      ltac:(by intros []) ltac:(by intros []) Ht) as Hx. by destruct Hx. }
  exists (set_gr_mods (gr_mods go ++ [md']) go). split; [|split; [done|]].
  - eapply (graph_wf_change w); [done|apply Hf|apply Hf| |done|].
    + wsimp. by rewrite list_lookup_insert_eq by (by eapply lookup_lt_Some).
    + apply Forall_app. split; [apply Hwf|]. apply Forall_singleton. by eapply leg_module_ok.
  - intros _. exists d, (set_mod_gkv (Some (kvec_of v)) mt). split; [done|]. split.
    { wsimp. by rewrite list_lookup_alter_eq, Hmt. }
    exists md'. split; [cbn; apply elem_of_app; right; by apply list_elem_of_singleton|]. by destruct mt.
Qed.

Lemma wp_add_device_module g v dev go d w :
  graph_wf w g go -> tables_ok w -> w_devs w !! dev = Some (Some d) ->
  array_ok (num_kvs v) (kv v) = true ->
  wp (add_device_module g v dev) (leg_added g dev go w) w.
Proof using Halloc Hinfo ConstsOk0.
  intros Hwf Ht Hd Hv. pose proof Hwf as (Hg & _ & Hm).
  destruct (hw_entry w d Ht) as (mt & Hmt & Htag & Hcf & Hc0 & Hd0).
  unfold add_device_module. apply wpg_bind. eapply wpg_read_dev; [exact Hd|].
  apply wpg_bind, wpg_gets. rewrite Hmt. apply wpg_bind, wpg_ret, wpg_bind, wp_tagged_info; [done|].
  intros r e l a.
  assert (forall f, graph_frame g w (set_w_hw_mods (alter f (hw_ep_index d) (w_hw_mods w))
    (set_w_trace (Ev (GslGetTaggedModuleInfo (kvs v) (mod_tag mt)) a :: w_trace w) w))) as Hf.
  { intros f. split; try done; [by eexists [_]|by exists []]. }
  destruct (nz (s32 r)) eqn:Er; bool_hyps.
  { apply wpg_ret. eapply leg_added_same; [done| |done|by destruct Ht|by apply lnx_err_nz; [apply osal_codes|]].
    by apply conf_frame_graph_frame, (conf_frame_trace g w [_]). }
  cbn [head the]. apply wpg_bind, wpg_ret, wpg_bind, wpg_modify.
  set (w1 := set_w_hw_mods _ _). assert (tables_ok w1) as Ht1.
  { refine (tables_kind_hw (set_w_trace _ w) (hw_ep_index d) (set_ids e) _ _ _);
      [by intros []|by intros []|by destruct Ht]. }
  assert (Hmt1 : w_hw_mods w1 !! hw_ep_index d = Some (set_ids e mt)).
  { unfold w1. wsimp. by rewrite list_lookup_alter_eq, Hmt. }
  apply wpg_bind, (wpg_read_graph _ _ go); [done|].
  destruct (find_miid (snd e) (gr_mods go)) as [k|] eqn:Ek.
  - eapply wp_refresh_module; [exact Hwf|exact Hd|apply Hf|exact Ht1|done|exact Hmt1|exact Ek].
  - eapply wp_attach_module; [exact Hwf|exact Hd|apply Hf|exact Ht1|done|exact Hmt1|exact Hv].
Qed.

Lemma wp_add_configure_module g j go md w :
  graph_wf w g go -> gr_mods go !! j = Some md ->
  wp (add_configure_module g j) (conf_step g j go w) w.
Proof using Halloc ConstsOk0.
  intros Hwf Hj. pose proof Hwf as (Hg & Hl & Hm).
  unfold add_configure_module. apply wpg_bind. eapply wp_read_mod; [done..|].
  destruct (mod_is_configured md && _) eqn:Ec.
  { apply andb_true_iff in Ec as [Ec _]. apply wpg_ret. by eapply conf_step_id. }
  apply wpg_bind, wp_started_test; [by eapply Forall_lookup_1|]. intros b.
  destruct (mod_configure md) as [f|] eqn:Ef.
  - by eapply (wp_configure_or_mark Halloc g j go md f w b).
  - destruct b; [by eapply wp_mark_step|]. apply wpg_ret. eapply conf_step_id; [done..|].
    intros _. rewrite Ef. by intros [? ?].
Qed.

(** What [graph_add] leaves when it is given a device. *)
Record added_spec (g dev : nat) (go : graph_obj) (w : world) (r : Z) (w' : world) : Prop := AddedSpec {
  as_frame : graph_frame g w w';
  as_tables : tables_ok w';
  as_graph : exists go', graph_wf w' g go' /\
    gr_state go' = gr_state go /\ gr_handle go' = gr_handle go /\ gr_sess go' = gr_sess go /\
    (r = 0 -> OPENED <= gr_state go /\
      (exists d mdt md, w_devs w !! dev = Some (Some d) /\
         w_hw_mods w' !! hw_ep_index d = Some mdt /\
         md ∈ gr_mods go' /\ mod_miid md = mod_miid mdt) /\
      (has_state (gr_state go) (Z.lor STARTED PREPARED) = true ->
         configured_upto (length (gr_mods go')) go'))
}.

Lemma conf_miid go go' md : go_conf go go' -> md ∈ gr_mods go ->
  exists md', md' ∈ gr_mods go' /\ mod_miid md' = mod_miid md.
Proof using.
  intros Hc [j Hj]%list_elem_of_lookup_1.
  destruct (Forall2_lookup_l _ _ _ _ _ (gc_mods _ _ Hc) Hj) as (b & Hb & Hr).
  exists b. split; [by eapply list_elem_of_lookup_2|]. by destruct Hr as [-> | ->].
Qed.

(** Configuring touches no module table. *)
Definition tables_of (w : world) := (w_stream_mods w, w_hw_mods w).

Lemma Keeps_tables_run_configure f md g : Keeps tables_of (run_configure f md g).
Proof using.
  intros w a w' E. apply (Steps_run_configure g) in E. unfold tables_of.
  by rewrite (cf_stream _ _ _ E), (cf_hw _ _ _ E).
Qed.
#[local] Hint Resolve Keeps_tables_run_configure : keeps.

Lemma Keeps_tables_add g j : Keeps tables_of (add_configure_module g j).
Proof using. unfold add_configure_module, read_mod, dev_started, upd_mod. keeps_tac. Qed.

Lemma Keeps_tables_change g j : Keeps tables_of (change_configure_module g j).
Proof using. unfold change_configure_module, read_mod, upd_mod. keeps_tac. Qed.

Lemma tables_kept w w' : tables_of w' = tables_of w -> tables_ok w -> tables_ok w'.
Proof using. intros [= E1 E2]. by apply tables_ok_set. Qed.

Lemma wpg_keeps {B A} u (f : world -> B) (m : AGM A) Q w : Keeps f m ->
  wpg u m (fun a w' => f w' = f w -> Q a w') w -> wpg u m Q w.
Proof using.
  intros Hm. unfold wpg. destruct (m w) eqn:E; [|done]. intros HQ. apply HQ. by eapply Hm.
Qed.

Lemma wf_held w g go h : graph_wf w g go -> graph_wf (set_w_held h w) g go.
Proof using. intros Hwf. eapply graph_wf_mono; [exact Hwf|done|done|apply Hwf|reflexivity]. Qed.

(** Inside the critical section of [graph_add]. *)
Definition add_post (g dev : nat) (go : graph_obj) (w : world) (r : Z) (w' : world) : Prop :=
  w_held w' = LGraph g :: w_held w /\
  (graph_frame g w (set_w_held (w_held w) w') -> added_spec g dev go w r (set_w_held (w_held w) w')).

Lemma add_failed g dev go go1 w w0 w1 r : w_held w0 = LGraph g :: w_held w ->
  graph_frame g w0 w1 -> tables_ok w1 -> graph_wf w1 g go1 ->
  same_graph go go1 -> r <> 0 -> add_post g dev go w r w1.
Proof using.
  intros Hh Hf Ht Hg Hs Hr. split; [by rewrite (gf_held _ _ _ Hf)|]. intros Hf'.
  split; [done|by destruct Ht|]. exists go1. split; [by apply wf_held|].
  rewrite Hs. by split_and!.
Qed.

(** The configuration at the end of [graph_add]. *)
Lemma wp_add_configure g dev go go1 w w0 w1 :
  w_held w0 = LGraph g :: w_held w -> w_devs w0 = w_devs w -> graph_frame g w0 w1 -> tables_ok w1 ->
  graph_wf w1 g go1 -> same_graph go go1 -> OPENED <= gr_state go ->
  (exists d mdt md, w_devs w0 !! dev = Some (Some d) /\ w_hw_mods w1 !! hw_ep_index d = Some mdt /\
     md ∈ gr_mods go1 /\ mod_miid md = mod_miid mdt) ->
  wp (if has_state (gr_state go1) (Z.lor STARTED PREPARED) then
        let! exit_ := for_idx (seq 0 (length (gr_mods go1))) (fun j => add_configure_module g j) in
        ret (match exit_ with Some r => r | None => 0 end)
      else ret 0) (add_post g dev go w) w1.
Proof using Halloc ConstsOk0.
  intros Hh Hdv Hf Ht Hwf Hs Ho Hmd. pose proof Hwf as (Hg1 & _).
  assert (gr_state go1 = gr_state go) as Hst by (by rewrite Hs).
  rewrite Hst. destruct (has_state _ _) eqn:Eh.
  - apply wpg_bind. apply (wpg_keeps _ tables_of); [apply Keeps_for_idx, Keeps_tables_add|].
    eapply wpg_mono; [apply (wp_conf_loop _ _ go1 w1 Hwf); intros; by eapply wp_add_configure_module|].
    intros r w2 (Hf2 & H0 & go2 & Hg2 & Hc2 & Hup) Hk. apply wpg_ret.
    split; [by rewrite (gf_held _ _ _ Hf2), (gf_held _ _ _ Hf)|]. intros Hf'.
    split; [done|destruct (tables_kept _ _ Hk Ht); by split|]. exists go2.
    split; [apply wf_held; by eapply graph_wf_mono; [exact Hwf|apply Hf2|apply Hf2|..]|].
    rewrite (gc_state _ _ Hc2), (gc_handle _ _ Hc2), (gc_sess _ _ Hc2), Hs. split_and!; [done..|].
    intros Hr. destruct r as [r|]; [congruence|]. split; [done|].
    rewrite <- (Forall2_length _ _ _ (gc_mods _ _ Hc2)). split; [|by intros _; apply Hup].
    destruct Hmd as (d & mdt & md & E1 & E2 & E3 & E4).
    destruct (conf_miid _ _ _ Hc2 E3) as (md' & Hin & Hmi). exists d, mdt, md'.
    injection Hk as _ Hk. wsimp. rewrite Hk, <- Hdv, Hmi. by split_and!.
  - apply wpg_ret. split; [by rewrite (gf_held _ _ _ Hf)|]. intros Hf'.
    split; [done|by destruct Ht|]. exists go1. split; [by apply wf_held|]. rewrite Hs.
    split_and!; [done..|]. intros _. split; [done|]. split; [|congruence].
    by rewrite <- Hdv.
Qed.

Lemma wp_graph_add g m dev go d w :
  graph_wf w g go -> tables_ok w -> w_devs w !! dev = Some (Some d) -> meta_ok m = true ->
  LGraph g ∉ w_held w ->
  wp (graph_add (Some g) m (Some dev)) (added_spec g dev go w) w.
Proof using Halloc Hinfo ConstsOk0.
  intros Hwf Ht Hd Hok Hl. destruct (meta_ok_parts _ Hok) as (Hgk & Hck & _).
  apply (wpg_frame (graph_frame g)); [apply F_graph_add|].
  unfold graph_add. apply wpg_with_lock; [done|]. set (w0 := set_w_held _ _).
  assert (Hh : w_held w0 = LGraph g :: w_held w) by done.
  apply (wpg_mono _ _ (add_post g dev go w)); [|done].
  pose proof Hwf as (Hg & _). apply wpg_bind, (wpg_read_graph _ _ go); [done|].
  assert (same_graph go go) as Hself by (symmetry; apply set_gr_mods_id).
  destruct (gr_state go <? OPENED) eqn:Eo; bool_hyps.
  { apply wpg_ret. eapply add_failed; [exact Hh|reflexivity|by destruct Ht|eapply graph_wf_mono; [exact Hwf|done|done|done|reflexivity]|done|done]. }
  apply wpg_bind, wpg_read_kvs; [done|]. apply wpg_bind, wpg_read_kvs; [done|].
  apply wpg_bind. unfold gsl_ioctl. apply wpg_bind.
  match goal with |- wp (ext ?c) ?Q ?w => refine (wpg_ext False c Q w _) end. cbn [ext_ans]. intros a _.
  set (w1 := set_w_trace _ _). apply wpg_ret.
  assert (graph_frame g w0 w1) as Hf1 by apply conf_frame_graph_frame, (conf_frame_trace g w0 [_]).
  assert (graph_wf w1 g go) as Hwf1 by (by eapply graph_wf_mono).
  destruct (nz (s32 a)) eqn:Ea; bool_hyps.
  { apply wpg_ret. eapply add_failed; [exact Hh|done|by destruct Ht|done|done|by apply lnx_err_nz; [apply osal_codes|]]. }
  apply wpg_bind. eapply wpg_mono; [apply (wp_add_device_module g _ dev go d w1 Hwf1); [by destruct Ht|done|done]|].
  intros r w2 (Hf2 & H0 & Ht2 & go2 & Hwf2 & Hs2 & Hmd).
  assert (graph_frame g w0 w2) as Hf02 by (by etransitivity).
  destruct r as [r|].
  - apply wpg_ret. eapply add_failed; [exact Hh|exact Hf02|done|done|done|congruence].
  - apply wpg_bind, (wpg_read_graph _ _ go2); [apply Hwf2|].
    eapply wp_add_configure; [exact Hh|done|exact Hf02|done|done|done|done|].
    destruct (Hmd eq_refl) as (d2 & mdt & E1 & E2 & md & E3 & E4). by exists d2, mdt, md.
Qed.
End Legs.
