(* ===== verification/GraphProps.v ===== *)
(** * Properties of graphs

    The theorems about [graph.c]: the state machine of a graph object, opening
    and closing without losing a handle, preparation, device legs, buffers,
    time stamps, and the error paths that do not do what they mean to. *)

From S2P Require Export GraphLegs.
Open Scope Z_scope.
#[export] Set Default Goal Selector "!".

(** Indices of [for_idx] aside, the names the acdb loop keeps. *)
Definition acdb_name (name : string) : bool := strstr ".acdb" name || strstr ".qwsp" name.
Definition acdb_path (path name : string) : string := String.append path (String.append "/" name).

Section Helpers.
Context `{Env}.

Lemma acdb_loop_ok path names : forall files w,
  (length files + length (List.filter acdb_name names) <= Z.to_nat GSL_MAX_NUM_OF_ACDB_FILES)%nat ->
  0 < GSL_MAX_NUM_OF_ACDB_FILES ->
  Forall (fun n => Z.of_nat (String.length (acdb_path path n)) < sizeof_acdb_fileName)
    (List.filter acdb_name names) ->
  acdb_loop path 0 files names w =
    Ret (0, files ++ (acdb_path path <$> List.filter acdb_name names)) w.
Proof.
  induction names as [|n names IH]; intros files w Hlen Hmax Hfit.
  { cbn. by rewrite app_nil_r. }
  cbn [acdb_loop List.filter] in *. change (strstr ".acdb" n || strstr ".qwsp" n) with (acdb_name n).
  destruct (acdb_name n); [|by apply IH].
  cbn [length] in Hlen. apply Forall_cons in Hfit as [Hn Hfit].
  rewrite (proj2 (Z.leb_gt _ _)) by lia. rewrite (proj2 (Z.leb_gt _ _)) by lia.
  rewrite (proj2 (Z.leb_gt _ _)) by exact Hn.
  rewrite IH; [|rewrite length_app; cbn; lia|done|done].
  by rewrite <- app_assoc.
Qed.

Lemma acdb_loop_overflow path names : forall files w,
  0 < GSL_MAX_NUM_OF_ACDB_FILES ->
  (length files <= Z.to_nat GSL_MAX_NUM_OF_ACDB_FILES <
     length files + length (List.filter acdb_name names))%nat ->
  Forall (fun n => Z.of_nat (String.length (acdb_path path n)) < sizeof_acdb_fileName)
    (List.filter acdb_name names) ->
  acdb_loop path 0 files names w = Crash OutOfBounds.
Proof.
  induction names as [|n names IH]; intros files w Hmax Hlen Hfit; [cbn in Hlen; lia|].
  cbn [acdb_loop List.filter] in *. change (strstr ".acdb" n || strstr ".qwsp" n) with (acdb_name n).
  destruct (acdb_name n); [|by apply IH].
  cbn [length] in Hlen. apply Forall_cons in Hfit as [Hn Hfit].
  rewrite (proj2 (Z.leb_gt _ _)) by lia.
  destruct (Z.leb_spec GSL_MAX_NUM_OF_ACDB_FILES (Z.of_nat (length files))); [done|].
  rewrite (proj2 (Z.leb_gt _ _)) by exact Hn.
  apply IH; [done|rewrite length_app; cbn; lia|done].
Qed.
End Helpers.

Section Properties.
Context `{Env}.

(** C15: start, stop, pause, resume, configuration, calibration, removal, event
    registration and end-of-stream on a live graph whose mutex is free each
    do exactly one transition of the graph state machine, with exactly the
    GSL calls of that transition; the status and the new state are those that GSL's answer to
    the call decides, and only a pause without memory is not told to GSL.  The mutex is released,
    and no other graph, device or session changes. *)
Theorem graph_ops_refine op g go w :
  w_graphs w !! g = Some (Some go) -> LGraph g ∉ w_held w -> op_ok op ->
  wp (run_graph op g) (fun r w' => exists go' evs,
    graph_trans op go r go' evs /\ graph_effect g go' evs w w' /\ told op go evs w) w.
Proof. intros. eapply wp_run_graph_told; eauto 10. Qed.


(** Whatever GSL and the allocator answer, [graph_open] either returns 0
    with a new graph object, in state [OPENED], with a GSL handle of its own,
    and with the unconfigured modules of the graph, each tag at most once;
    or it stores no graph, frees the object and leaves no handle open. *)
Theorem graph_open_correct m sess dev w :
  ConstsOk env_consts -> meta_ok m = true -> tables_ok w ->
  wlp (graph_open (Some m) sess dev) (open_outcome m sess dev w) w.
Proof. intros. apply wp_graph_open; auto. Qed.

(** C17: with memory available, and when GSL names a module behind every tag
    it lists, [graph_open] always returns: it follows no bad pointer. *)
Theorem graph_open_safe m sess dev w :
  ConstsOk env_consts -> meta_ok m = true -> tables_ok w -> (forall n, env_alloc n = true) ->
  (forall h k n, Forall (fun e => snd e <> []) (snd (env_answer h (GslGetTags k n)))) ->
  exists res w', graph_open (Some m) sess dev w = Ret res w' /\ open_outcome m sess dev w res w'.
Proof. intros. apply wp_run, wp_graph_open; auto. Qed.

(** [graph_close] gives the GSL handle and the object back whatever GSL
    answers, and takes and releases the graph mutex. *)
Theorem graph_close_correct g go w :
  w_graphs w !! g = Some (Some go) -> LGraph g ∉ w_held w ->
  wp (graph_close (Some g)) (fun r w' => exists a,
    r = lnx_err (s32 a) /\ w_graphs w' = <[g := None]> (w_graphs w) /\
    w_trace w' = Ev (GslClose (gr_handle go)) a :: w_trace w /\
    gsl_balance (w_trace w') = gsl_balance (w_trace w) - 1 /\
    w_held w' = w_held w) w.
Proof.
  intros Hg Hl. eapply wp_graph_close; [done..|]. intros a w' Hg' Ht Hf. exists a.
  rewrite Ht. split_and!; [done..|cbn; lia|by destruct Hf].
Qed.


(** The buffers are configured at most once: once done, the function does
    nothing; otherwise it makes one call, in the direction of the session,
    that describes the client's buffers without losing a byte (one buffer for
    push-pull), and it is done exactly when GSL agrees. *)
Theorem configure_buffer_params_once g i go p s w :
  AR_ETIMEOUT = 21 ->
  w_graphs w !! g = Some (Some go) -> w_pool w = Some p -> p !! i = Some s ->
  0 <= bc_count (ses_buffer s) -> 0 <= bc_size (ses_buffer s) ->
  bc_count (ses_buffer s) * bc_size (ses_buffer s) < 2 ^ 32 -> bc_size (ses_buffer s) < 2 ^ 32 ->
  wp (configure_buffer_params g i) (fun r w' =>
    if gr_buf_done go then r = 0 /\ w' = w
    else exists cfg (a : Z) go',
      w_trace w' = Ev (GslIoctl (gr_handle go)
        (if sc_dir (ses_stream s) =? RX then GSL_CMD_CONFIGURE_WRITE_PARAMS cfg
         else GSL_CMD_CONFIGURE_READ_PARAMS cfg)) a :: w_trace w /\
      rw_buff_size cfg * rw_num_buffs cfg = bc_count (ses_buffer s) * bc_size (ses_buffer s) /\
      (sc_data_mode (ses_stream s) = AGM_DATA_PUSH_PULL -> rw_num_buffs cfg = 1) /\
      r = lnx_err (s32 a) /\
      w_graphs w' !! g = Some (Some go') /\ (r = 0 <-> gr_buf_done go' = true)) w.
Proof.
  intros Hm Hg Hp Hs H1 H2 H3 H4. pose proof (lookup_lt_Some _ _ _ Hg) as Hlt.
  unfold configure_buffer_params. apply wpg_bind, (wpg_read_sess _ _ _ _ _ _ Hp Hs).
  apply wpg_bind, (wpg_read_graph _ _ _ _ _ Hg).
  destruct (gr_buf_done go) eqn:Ed; [by apply wpg_ret|].
  set (mode := sc_data_mode (ses_stream s)).
  assert (exists bs nb, (if mode =? AGM_DATA_PUSH_PULL
      then (u32 (bc_count (ses_buffer s) * bc_size (ses_buffer s)), 1)
      else (u32 (bc_size (ses_buffer s)), bc_count (ses_buffer s))) = (bs, nb) /\
    bs * nb = bc_count (ses_buffer s) * bc_size (ses_buffer s) /\
    (mode = AGM_DATA_PUSH_PULL -> nb = 1)) as (bs & nb & -> & Hprod & Hone).
  { destruct (Z.eqb_spec mode AGM_DATA_PUSH_PULL); do 2 eexists; (split; [reflexivity|]);
      rewrite u32_small by nia; (split; [lia|done]). }
  gsl_steps; bool_hyps.
  all: try (exfalso; eapply lnx_err_nz; [exact Hm|eassumption|done]).
  all: eexists _, _, _; split; [wsimp; reflexivity|]; split; [exact Hprod|]; split; [exact Hone|].
  all: unfold lnx_err; repeat match goal with |- context [nz ?z] => destruct (nz z) eqn:? end;
    bool_hyps; try congruence; split; [done|]; wsimp; split;
    [rewrite ?list_insert_insert_eq, ?list_lookup_insert_eq by done; reflexivity || exact Hg|].
  - rewrite Ed. split; [congruence|done].
  - done.
Qed.

(** The session time is the 64-bit concatenation of the two words of the
    SPR module, below 2^64; a graph that is not started answers [-EINVAL] and
    one without SPR module answers 0, and both leave [*tstamp] alone. *)
Theorem graph_get_session_time_correct g go w :
  w_graphs w !! g = Some (Some go) -> LGraph g ∉ w_held w ->
  wp (graph_get_session_time (Some g)) (fun res w' =>
    w_held w' = w_held w /\
    (has_state (gr_state go) STARTED = false -> res = (- EINVAL, None)) /\
    (has_state (gr_state go) STARTED = true -> gr_spr_miid go = 0 -> res = (0, None)) /\
    forall t, snd res = Some t -> fst res = 0 /\ exists msw lsw,
      0 <= msw < 2 ^ 32 /\ 0 <= lsw < 2 ^ 32 /\ t = msw * 2 ^ 32 + lsw /\ 0 <= t < 2 ^ 64) w.
Proof.
  intros Hg Hl. unfold graph_get_session_time. gsl_steps; bool_hyps.
  all: split; [done|]; split; [done|]; split; [congruence|]; split; [congruence|]; try done.
  intros t [= <-]. split; [done|].
  lazymatch goal with |- context [Z.lor (Z.shiftl (u32 ?m) 32) (u32 ?l)] =>
    pose proof (u32_range m); pose proof (u32_range l);
    rewrite (lor_concat (u32 m) (u32 l) 32) by lia; exists (u32 m), (u32 l) end.
  split_and!; lia || done.
Qed.

(** [get_acdb_files_from_directory] collects the paths of the matching
    directory entries in order when they fit the array of
    [GSL_MAX_NUM_OF_ACDB_FILES]; with one more entry it writes past the array,
    because the test in the loop reads a count that is only stored after it.
    A missing directory is a positive [EINVAL]. *)
Theorem acdb_files_collected path w :
  0 < GSL_MAX_NUM_OF_ACDB_FILES ->
  (forall names, env_answer (w_trace w) ReadAcdbDir = Some names ->
     Forall (fun n => Z.of_nat (String.length (acdb_path path n)) < sizeof_acdb_fileName)
       (List.filter acdb_name names)) ->
  let w' := set_w_trace (Ev ReadAcdbDir (env_answer (w_trace w) ReadAcdbDir) :: w_trace w) w in
  get_acdb_files_from_directory path 0 w =
    match env_answer (w_trace w) ReadAcdbDir with
    | None => Ret (EINVAL, []) w'
    | Some names =>
        let found := List.filter acdb_name names in
        if (length found <=? Z.to_nat GSL_MAX_NUM_OF_ACDB_FILES)%nat
        then Ret (0, acdb_path path <$> found) w'
        else Crash OutOfBounds
    end.
Proof.
  intros Hmax Hfit w'. unfold get_acdb_files_from_directory, bind, ext.
  destruct (env_answer (w_trace w) ReadAcdbDir) as [names|] eqn:E; [|done].
  specialize (Hfit _ eq_refl). cbv zeta.
  destruct (Nat.leb_spec (length (List.filter acdb_name names)) (Z.to_nat GSL_MAX_NUM_OF_ACDB_FILES)).
  - by rewrite acdb_loop_ok by (done || cbn; lia).
  - rewrite acdb_loop_overflow by (done || cbn; lia). done.
Qed.

(** Registering for an event that carries a payload writes out of the
    bounds of the request, as soon as the offset is a whole structure off:
    the payload goes to [reg_ev_payload + sizeof], counted in structures. *)
Theorem register_for_events_overflow g go cfg w :
  w_graphs w !! g = Some (Some go) -> LGraph g ∉ w_held w ->
  gr_handle go <> 0 -> er_payload cfg <> [] -> env_alloc (w_allocs w) = true ->
  0 < sizeof_gsl_cmd_register_custom_event -> 1 < sizeof_apm_module_register_events_t ->
  graph_register_for_events (Some g) (Some cfg) w = Crash OutOfBounds.
Proof.
  intros Hg Hl Hh Hp Ha Hs1 Hs2. unfold graph_register_for_events, with_lock, mutex_lock, bind, read_graph, cell.
  rewrite bool_decide_false by done. cbn. rewrite Hg.
  rewrite (proj2 (Z.eqb_neq _ _)) by done. unfold calloc. cbn. rewrite Ha. cbn.
  destruct (er_payload cfg) as [|b l]; [done|]. cbn [length].
  rewrite (proj2 (Z.ltb_lt 0 _)) by lia. rewrite (proj2 (Z.ltb_lt _ _)); [done|nia].
Qed.

(** Without a payload the same call registers with GSL exactly once,
    reports its status, and forgets the buffer time stamp of the graph. *)
Theorem register_for_events_correct g go cfg w :
  w_graphs w !! g = Some (Some go) -> LGraph g ∉ w_held w ->
  gr_handle go <> 0 -> er_payload cfg = [] -> env_alloc (w_allocs w) = true ->
  wp (graph_register_for_events (Some g) (Some cfg)) (fun r w' => exists a,
    r = lnx_err (s32 a) /\
    w_trace w' = Ev (GslIoctl (gr_handle go) (GSL_CMD_REGISTER_CUSTOM_EVENT cfg)) a :: w_trace w /\
    w_graphs w' = <[g := Some (set_gr_timestamp 0 go)]> (w_graphs w) /\ w_held w' = w_held w) w.
Proof.
  intros Hg Hl Hh Hp Ha. unfold graph_register_for_events. apply wpg_bind, wpg_with_lock; [done|].
  apply wpg_bind. eapply wpg_read_graph; [done|].
  rewrite (proj2 (Z.eqb_neq _ _)) by done. rewrite Hp. cbn [length Z.of_nat].
  apply wpg_bind, wpg_calloc. intros b ->. wsimp. rewrite Ha. cbn [negb]. rewrite Z.ltb_irrefl.
  cbn [andb]. gsl_steps. split; [done|]. wsimp. gsl_steps. exists a. by split_and!.
Qed.
End Properties.

(** ** The theorems at concrete inputs *)

Definition play_session : session_obj :=
  set_ses_stream (SessionConfig RX false 0 0 (replicate 32 0) AGM_DATA_BLOCKING)
    (set_ses_buffer (BufferConfig 4 4096) demo_session).
Definition boot_world : world :=
  set_w_stream_mods (stream_module_list (H:=demo_consts))
    (set_w_hw_mods (hw_ep_module (H:=demo_consts))
      (set_w_pool (Some [play_session]) (set_w_devs [Some device_zero] empty_world))).
Definition demo_graph (state : Z) : graph_obj :=
  GraphObj state 5 [shmem_module; ep_module] rw_zero None (Some 0%nat) 30 0 false.
Definition live_world (state : Z) : world := set_w_graphs [Some (demo_graph state)] boot_world.

Lemma boot_tables : tables_ok (H:=demo_consts) boot_world.
Proof. split; [reflexivity..| |]; repeat constructor. Qed.

Lemma live_tables state : tables_ok (H:=demo_consts) (live_world state).
Proof. split; [reflexivity..| |]; repeat constructor. Qed.

Lemma demo_graph_wf state : graph_wf (live_world state) 0 (demo_graph state).
Proof.
  split; [done|]. split.
  - do 4 eexists. split_and!; [reflexivity..|].
    split; [vm_compute; split; congruence|reflexivity].
  - repeat constructor; try done; cbn; try (intros i [= <-]; by exists device_zero); by intros.
Qed.

Lemma graph_ops_refine_witness :
  exists w', run_graph (H:=ok_env) (GrStop None) 0 (live_world STARTED) = Ret 0 w' /\
    exists go' evs, graph_trans (H:=demo_consts) (GrStop None) (demo_graph STARTED) 0 go' evs /\
      graph_effect 0 go' evs (live_world STARTED) w' /\
      w_graphs w' = [Some (set_gr_state STOPPED (demo_graph STARTED))].
Proof.
  pose proof (graph_ops_refine (H:=ok_env) (GrStop None) 0 (demo_graph STARTED) (live_world STARTED)
    eq_refl ltac:(set_solver) I) as Hwp.
  apply wp_run in Hwp as (r & w' & Hrun & go' & calls & Ht & He & _). exists w'.
  assert (r = 0 /\ w_graphs w' = [Some (set_gr_state STOPPED (demo_graph STARTED))]) as [-> Hg].
  { revert Hrun. clear. vm_compute. by intros [= <- <-]. }
  split; [done|]. by exists go', calls.
Defined.


Lemma graph_open_correct_witness :
  exists res w', graph_open (H:=ok_env) (Some (demo_meta 1 2 3)) (Some 0%nat) (Some 0%nat) boot_world =
      Ret res w' /\ fst res = 0 /\
    open_outcome (H:=ok_env) (demo_meta 1 2 3) (Some 0%nat) (Some 0%nat) boot_world res w'.
Proof.
  pose proof (graph_open_correct (H:=ok_env) (demo_meta 1 2 3) (Some 0%nat) (Some 0%nat) boot_world
    demo_consts_ok eq_refl boot_tables) as Hwlp.
  destruct (graph_open (Some (demo_meta 1 2 3)) (Some 0%nat) (Some 0%nat) boot_world)
    as [res w'|] eqn:E.
  - exists res, w'. split; [done|]. split; [|by eapply wlp_run].
    revert E. clear. vm_compute. by intros [= <- <-].
  - exfalso. revert E. clear. vm_compute. discriminate.
Defined.

Lemma graph_open_safe_witness :
  exists res w', graph_open (H:=ok_env) (Some (demo_meta 1 2 3)) (Some 0%nat) (Some 0%nat) boot_world =
      Ret res w' /\
    open_outcome (H:=ok_env) (demo_meta 1 2 3) (Some 0%nat) (Some 0%nat) boot_world res w'.
Proof.
  apply (graph_open_safe (H:=ok_env) (demo_meta 1 2 3) (Some 0%nat) (Some 0%nat) boot_world
    demo_consts_ok eq_refl boot_tables (fun _ => eq_refl)).
  intros h k n. cbn. repeat constructor; done.
Defined.

Lemma graph_close_correct_witness :
  exists w', graph_close (H:=ok_env) (Some 0%nat) (live_world STOPPED) = Ret 0 w' /\
    w_graphs w' = [None] /\ gsl_balance (w_trace w') = -1.
Proof.
  pose proof (graph_close_correct (H:=ok_env) 0 (demo_graph STOPPED) (live_world STOPPED)
    eq_refl ltac:(set_solver)) as Hwp.
  apply wp_run in Hwp as (r & w' & Hrun & a & _ & Hg & _ & Hb & _). exists w'.
  split; [|by rewrite Hg, Hb]. revert Hrun. clear. vm_compute. by intros [= <- <-].
Defined.


Lemma configure_buffer_params_once_witness :
  exists w', configure_buffer_params (H:=ok_env) 0 0 (live_world PREPARED) = Ret 0 w' /\
    w_graphs w' = [Some (set_gr_buf_done true
      (set_gr_buf_config (RwParams 4096 4 0 0 113 159) (demo_graph PREPARED)))].
Proof.
  pose proof (configure_buffer_params_once (H:=ok_env) 0 0 (demo_graph PREPARED) [play_session]
    play_session (live_world PREPARED) eq_refl eq_refl eq_refl eq_refl ltac:(done) ltac:(done)
    ltac:(done) ltac:(done)) as Hwp.
  apply wp_run in Hwp as (r & w' & Hrun & _). exists w'. revert Hrun. clear.
  vm_compute. by intros [= <- <-].
Defined.

Lemma graph_get_session_time_correct_witness :
  exists w' t, graph_get_session_time (H:=ok_env) (Some 0%nat) (live_world STARTED) = Ret (0, Some t) w' /\
    t = 2 ^ 32 + 2 /\ 0 <= t < 2 ^ 64.
Proof.
  pose proof (graph_get_session_time_correct (H:=ok_env) 0 (demo_graph STARTED) (live_world STARTED)
    eq_refl ltac:(set_solver)) as Hwp.
  apply wp_run in Hwp as (r & w' & Hrun & _ & _ & _ & Ht). exists w', (2 ^ 32 + 2).
  assert (r = (0, Some (2 ^ 32 + 2))) as ->.
  { revert Hrun. clear. vm_compute. by intros [= <- <-]. }
  split; [done|]. split; [done|]. by destruct (Ht _ eq_refl) as (_ & m & l & _ & _ & _ & Hr).
Defined.

Lemma acdb_files_collected_witness :
  exists w', get_acdb_files_from_directory (H:=ok_env) "/etc/acdbdata" 0 empty_world =
    Ret (0, ["/etc/acdbdata/main.acdb"%string]) w'.
Proof.
  eexists. etransitivity; [eapply (acdb_files_collected (H:=ok_env)); [done|]|reflexivity].
  intros names [= <-]. vm_compute. repeat constructor.
Defined.

Definition big_dir_env : Env :=
  demo_env (fun _ c => match c as c' return option (ext_ans c') with
                       | ReadAcdbDir => Some (Some (replicate 21 "a.acdb"%string))
                       | _ => None
                       end) (fun _ => true).

(** One file more than the array holds. *)
Lemma acdb_overflow_example :
  get_acdb_files_from_directory (H:=big_dir_env) "/etc/acdbdata" 0 empty_world = Crash OutOfBounds.
Proof. vm_compute. reflexivity. Qed.

Definition demo_event (payload : list Z) : event_reg_cfg := EventRegCfg 30 7 payload 1.

Lemma register_for_events_overflow_witness :
  graph_register_for_events (H:=ok_env) (Some 0%nat) (Some (demo_event [1])) (live_world OPENED) =
    Crash OutOfBounds.
Proof.
  by apply (register_for_events_overflow (H:=ok_env) 0 (demo_graph OPENED)); try done; set_solver.
Defined.

Lemma register_for_events_correct_witness :
  exists w', graph_register_for_events (H:=ok_env) (Some 0%nat) (Some (demo_event []))
      (live_world OPENED) = Ret 0 w' /\ length (w_trace w') = 1%nat.
Proof.
  pose proof (register_for_events_correct (H:=ok_env) 0 (demo_graph OPENED) (demo_event [])
    (live_world OPENED) eq_refl ltac:(set_solver) ltac:(done) eq_refl eq_refl) as Hwp.
  apply wp_run in Hwp as (r & w' & Hrun & a & _ & Ht & _). exists w'. rewrite Ht.
  split; [|done]. clear Ht. revert Hrun. generalize w'. clear. intros w'. vm_compute.
  by intros [= <- <-].
Defined.
