(* ===== verification/Session.v ===== *)
(** * Sessions (service/src/session_obj.c)

    A session is what a client opens: it has audio interfaces ([struct aif]),
    each a device of [Device] with the metadata and cached parameters of the
    pair, and, while it is open, one graph of [Graph].  A [struct session_obj *]
    is the position of the session in [sess_pool->session_list]: sessions are
    appended and only freed all together; a [struct aif *] is a position in the
    [aif_pool] of its session, which only grows too. *)

From S2P Require Export Device Graph.
Open Scope Z_scope.
#[export] Set Default Goal Selector "!".

(** Where [session_connect_aif] jumps to. *)
Inductive connect_exit : Type :=
  | close_device (r : Z)
  | graph_cleanup (r : Z).

Section Session.
Context `{Env}.

Definition GSL_EVENT_SRC_MODULE_ID_GSL := 0x2001.

(** ** Audio interfaces *)

Definition aif_obj_get_from_pool (i : nat) (aif : Z) : AGM (option nat) :=
  let! s := read_sess i in
  ret (fst <$> list_find (fun a => aif_id a = aif) (ses_aifs s)).

(** Without a device the object comes back as [calloc] left it: id 0, no
    device. *)
Definition aif_obj_create (id : Z) : AGM (option aif) :=
  let! ok := calloc in
  if negb ok then ret None else
  let! (r, dev_obj) := device_get_obj id in
  match dev_obj with
  | Some dev =>
      if nz r then ret (Some aif_zero)
      else ret (Some (set_aif_dev (Some dev) (set_aif_id id aif_zero)))
  | None => ret (Some aif_zero)
  end.

Definition aif_obj_get (i : nat) (id : Z) : AGM (Z * option nat) :=
  let! found := aif_obj_get_from_pool i id in
  match found with
  | Some j => ret (0, Some j)
  | None =>
      let! tobj := aif_obj_create id in
      match tobj with
      | None => ret (- ENOMEM, None)
      | Some a =>
          let! s := read_sess i in
          do! upd_sess i (fun s => set_ses_aifs (ses_aifs s ++ [a]) s) ;
          ret (0, Some (length (ses_aifs s)))
      end
  end.

Definition state_matches (st : aif_state) (exact : bool) (a : aif) : bool :=
  if exact then bool_decide (aif_st a = st)
  else aif_state_num st <=? aif_state_num (aif_st a).

Definition aif_obj_get_count_with_state (i : nat) (st : aif_state) (exact : bool) : AGM Z :=
  let! s := read_sess i in
  ret (Z.of_nat (length (List.filter (state_matches st exact) (ses_aifs s)))).

Definition set_aif_state (i j : nat) (st : aif_state) : AGM unit := upd_aif i j (set_aif_st st).

(** The positions of the interfaces of a session. *)
Definition aif_idx (i : nat) : AGM (list nat) :=
  let! s := read_sess i in ret (seq 0 (length (ses_aifs s))).

(** ** Metadata of a session *)

(** [&aif_obj->dev_obj->metadata] *)
Definition aif_dev_meta (a : aif) : AGM meta_data :=
  let! dev := the NullDeref (aif_dev a) in
  let! d := read_dev dev in
  ret (dev_meta d).

Fixpoint merge_loop (args : option meta_data -> aif -> AGM (list (option meta_data)))
    (l : list aif) (temp : option meta_data) : AGM (option meta_data) :=
  match l with
  | [] => ret temp
  | a :: l' =>
      let! ms := args temp a in
      let! merged := metadata_merge ms in
      merge_loop args l' merged
  end.

Definition session_get_merged_metadata (i : nat) : AGM (option meta_data) :=
  let! s := read_sess i in
  merge_loop (fun temp a =>
    let! dm := aif_dev_meta a in
    ret [temp; Some (ses_meta s); Some (aif_meta a); Some dm]) (ses_aifs s) None.

Definition session_get_merged_metadata_without_aif (i : nat) : AGM (option meta_data) :=
  let! s := read_sess i in
  merge_loop (fun temp a => ret [temp; Some (ses_meta s); Some (aif_meta a)]) (ses_aifs s) None.

(** The metadata of one stream on one device. *)
Definition merge_sess_aif (i j : nat) : AGM (option meta_data) :=
  let! s := read_sess i in
  let! a := read_aif i j in
  let! dm := aif_dev_meta a in
  metadata_merge [Some (ses_meta s); Some (aif_meta a); Some dm].

(** ** The pool of sessions *)

Definition session_pool_init : AGM Z :=
  let! ok := calloc in
  if negb ok then do! modify (set_w_pool None) ; ret (- ENOMEM)
  else do! modify (set_w_pool (Some [])) ; ret 0.

Definition find_session (p : list session_obj) (session_id : Z) : option nat :=
  fst <$> list_find (fun s => ses_id s = session_id) p.

Definition session_obj_retrieve_from_pool (session_id : Z) : AGM (option nat) :=
  with_lock LPool (let! p := read_pool in ret (find_session p session_id)).

Definition session_obj_create (session_id : Z) : AGM (option session_obj) :=
  let! ok := calloc in
  if negb ok then ret None else ret (Some (session_zero session_id)).

Definition session_obj_get_from_pool (session_id : Z) : AGM (option nat) :=
  with_lock LPool
    (let! p := read_pool in
     match find_session p session_id with
     | Some i => ret (Some i)
     | None =>
         let! obj := session_obj_create session_id in
         match obj with
         | None => ret None
         | Some s =>
             do! modify (set_w_pool (Some (p ++ [s]))) ;
             ret (Some (length p))
         end
     end).

Definition session_obj_get (session_id : Z) : AGM (Z * option nat) :=
  let! tobj := session_obj_get_from_pool session_id in
  ret (match tobj with Some _ => 0 | None => - ENOMEM end, tobj).

(** ** Loopback and echo reference *)

(** The edge between two graphs is added or removed. *)
Definition add_or_remove (i : nat) (merged : meta_data) (enable : bool) : AGM Z :=
  let! s := read_sess i in
  if enable then graph_add (ses_graph s) merged None
  else graph_remove (ses_graph s) merged.

Definition session_set_loopback (i : nat) (pb_id : Z) (enable : bool) : AGM Z :=
  let! (r, pb_obj) := session_obj_get pb_id in
  if nz r then ret r else
  let! pb := the NullDeref pb_obj in
  let! capture_metadata := session_get_merged_metadata i in
  match capture_metadata with
  | None => ret (- ENOMEM)
  | Some capture =>
      let! playback_metadata := session_get_merged_metadata pb in
      match playback_metadata with
      | None => ret (- ENOMEM)
      | Some playback =>
          let! merged_metadata := metadata_merge [Some capture; Some playback] in
          match merged_metadata with
          | None => ret (- ENOMEM)
          | Some merged => add_or_remove i merged enable
          end
      end
  end.

Definition session_set_ec_ref (i : nat) (id : Z) (enable : bool) : AGM Z :=
  let! (r, dev_obj) := device_get_obj id in
  if nz r then ret r else
  let! capture_metadata := session_get_merged_metadata_without_aif i in
  match capture_metadata with
  | None => ret (- ENOMEM)
  | Some capture =>
      let! dev := the NullDeref dev_obj in
      let! d := read_dev dev in
      let! merged_metadata := metadata_merge [Some capture; Some (dev_meta d)] in
      match merged_metadata with
      | None => ret (- ENOMEM)
      | Some merged => add_or_remove i merged enable
      end
  end.

(** ** Connecting and disconnecting an interface *)

(** The status of stopping or removing the graph is overwritten by that of
    closing the device. *)
Definition session_disconnect_aif (i j : nat) (opened_count : Z) : AGM Z :=
  let! s := read_sess i in
  let! a := read_aif i j in
  let graph := ses_graph s in
  let! merged_metadata := merge_sess_aif i j in
  match merged_metadata with
  | None => ret (- ENOMEM)
  | Some merged =>
      if opened_count =? 1 then
        let! dm := aif_dev_meta a in
        let! merged_meta_sess_aif := metadata_merge [Some (aif_meta a); Some dm] in
        match merged_meta_sess_aif with
        | None => ret (- ENOMEM)
        | Some msa =>
            do! graph_stop graph (Some (Meta (gkv merged) (ckv merged) (sg_props msa))) ;
            device_close (aif_dev a)
        end
      else
        do! graph_remove graph merged ;
        device_close (aif_dev a)
  end.

(** Whether a registered callback wants the event. *)
Definition cb_wants (ev : event_params) (c : session_cb) : bool :=
  if (cb_evt_type c =? AGM_EVENT_DATA_PATH) &&
     (ev_source_module_id ev =? GSL_EVENT_SRC_MODULE_ID_GSL) &&
     ((ev_event_id ev =? AGM_EVENT_EOS_RENDERED) || (ev_event_id ev =? AGM_EVENT_READ_DONE) ||
      (ev_event_id ev =? AGM_EVENT_WRITE_DONE))
  then true
  else (cb_evt_type c =? AGM_EVENT_MODULE) &&
       negb (ev_source_module_id ev =? GSL_EVENT_SRC_MODULE_ID_GSL).

Fixpoint call_clients (session_id : Z) (ev : event_params) (cbs : list session_cb) : AGM unit :=
  match cbs with
  | [] => ret tt
  | c :: cbs' =>
      do! (if nz (cb_fn c) && cb_wants ev c
           then ext (ClientCb (cb_fn c) session_id ev (cb_client_data c)) else ret tt) ;
      call_clients session_id ev cbs'
  end.

Definition graph_event_cb (event_params : option event_params) (client_data : Z) : AGM unit :=
  match event_params with
  | None => ret tt
  | Some ev =>
      let! sess_obj := session_obj_retrieve_from_pool (u32 client_data) in
      match sess_obj with
      | None => ret tt
      | Some i =>
          with_lock (LSessCb i)
            (let! s := read_sess i in call_clients (ses_id s) ev (ses_cbs s))
      end
  end.

(** Step 2.b of [session_connect_aif]: the graph is opened for the first
    interface of a closed session, changed for the first of an open one, and
    extended for the others. *)
Definition connect_graph (i : nat) (dev : option nat) (merged : meta_data) (opened_count : Z)
  : AGM (option connect_exit) :=
  let! s := read_sess i in
  if opened_count =? 0 then
    if bool_decide (ses_state s = SESSION_CLOSED) then
      let! (r, opened) := graph_open (Some merged) (Some i) dev in
      do! (match opened with
           | Some g => upd_sess i (set_ses_graph (Some g))
           | None => ret tt
           end) ;
      if nz r then ret (Some (close_device r)) else
      let! s := read_sess i in
      let! r := graph_register_cb (ses_graph s) true (ses_id s) in
      ret (if nz r then Some (graph_cleanup r) else None)
    else
      let! r := graph_change (ses_graph s) merged dev in
      ret (if nz r then Some (close_device r) else None)
  else
    let! r := graph_add (ses_graph s) merged dev in
    ret (if nz r then Some (close_device r) else None).

(** Step 2.c: the cached parameters of the stream, of the pair and of the
    device.  The device mutex is released twice and never taken. *)
Definition set_stream_params (i : nat) : AGM Z :=
  let! s := read_sess i in
  match ses_params s with
  | Some p =>
      if bool_decide (ses_state s = SESSION_CLOSED) then
        let! r := graph_set_config (ses_graph s) p in
        if nz r then ret r else do! upd_sess i (set_ses_params None) ; ret 0
      else ret 0
  | None => ret 0
  end.

Definition set_aif_cached_params (i j : nat) : AGM Z :=
  let! s := read_sess i in
  let! a := read_aif i j in
  match aif_params a with
  | Some p =>
      let! r := graph_set_config (ses_graph s) p in
      if nz r then ret r else do! upd_aif i j (set_aif_params None) ; ret 0
  | None => ret 0
  end.

Definition set_dev_cached_params (i j : nat) : AGM Z :=
  let! s := read_sess i in
  let! a := read_aif i j in
  let! dev := the NullDeref (aif_dev a) in
  do! mutex_unlock (LDev dev) ;
  let! d := read_dev dev in
  let! r :=
    (match dev_params d with
     | Some p =>
         if bool_decide (dev_state d = DEV_OPENED) then
           let! r := graph_set_config (ses_graph s) p in
           if nz r then ret r else do! upd_dev dev (set_dev_params None) ; ret 0
         else ret 0
     | None => ret 0
     end) in
  do! mutex_unlock (LDev dev) ;
  ret r.

Definition set_cached_params (i j : nat) : AGM (option connect_exit) :=
  let! r := set_stream_params i in
  if nz r then ret (Some (graph_cleanup r)) else
  let! r := set_aif_cached_params i j in
  if nz r then ret (Some (graph_cleanup r)) else
  let! r := set_dev_cached_params i j in
  ret (if nz r then Some (graph_cleanup r) else None).

(** The label [graph_cleanup] does not reset [sess_obj->graph]. *)
Definition session_connect_aif (i j : nat) (opened_count : Z) : AGM Z :=
  let! a := read_aif i j in
  let! merged_metadata := merge_sess_aif i j in
  match merged_metadata with
  | None => ret (- ENOMEM)
  | Some merged =>
      let! r := device_open (aif_dev a) in
      if nz r then ret r else
      let! exit_ := connect_graph i (aif_dev a) merged opened_count in
      let! exit_ := (match exit_ with
                     | Some e => ret (Some e)
                     | None => set_cached_params i j
                     end) in
      match exit_ with
      | None => ret 0
      | Some (close_device r) => do! device_close (aif_dev a) ; ret r
      | Some (graph_cleanup r) =>
          let! s := read_sess i in
          do! (if opened_count =? 0 then graph_close (ses_graph s)
               else graph_remove (ses_graph s) merged) ;
          do! device_close (aif_dev a) ;
          ret r
      end
  end.

Definition session_open_with_first_device (i : nat) : AGM Z :=
  let! s := read_sess i in
  match list_find (fun a => aif_st a = AIF_OPEN) (ses_aifs s) with
  | None => ret (- EPIPE)
  | Some (j, _) =>
      let! r := session_connect_aif i j 0 in
      if nz r then ret r else do! set_aif_state i j AIF_OPENED ; ret 0
  end.

(** The loop over the other interfaces, with the number connected so far;
    [Some r] is [goto unwind]. *)
Fixpoint connect_rest (i : nat) (ix : list nat) (opened_count : Z) : AGM (option Z) :=
  match ix with
  | [] => ret None
  | j :: ix' =>
      let! a := read_aif i j in
      if bool_decide (aif_st a = AIF_OPEN) then
        let! r := session_connect_aif i j opened_count in
        if nz r then ret (Some r)
        else do! set_aif_state i j AIF_OPENED ; connect_rest i ix' (u32 (opened_count + 1))
      else connect_rest i ix' opened_count
  end.

(** After a failure the status is that of [graph_close], not of what failed. *)
Definition session_connect_reminder_devices (i : nat) : AGM Z :=
  let! ix := aif_idx i in
  let! exit_ := connect_rest i ix 1 in
  match exit_ with
  | None => ret 0
  | Some _ =>
      do! for_all ix (fun j =>
            let! a := read_aif i j in
            if bool_decide (aif_st a = AIF_OPENED)
            then do! session_disconnect_aif i j 1 ; set_aif_state i j AIF_OPEN
            else ret tt) ;
      let! s := read_sess i in
      let! r := graph_close (ses_graph s) in
      do! upd_sess i (set_ses_graph None) ;
      ret r
  end.

(** ** The state machine of a session *)

(** [graph_prepare] for the direction [d], unless the session runs. *)
Definition prepare_graph (i : nat) (d : Z) : AGM Z :=
  let! s := read_sess i in
  if (sc_dir (ses_stream s) =? d) && negb (bool_decide (ses_state s = SESSION_STARTED))
  then graph_prepare (ses_graph s) else ret 0.

Definition prepare_aif (i j : nat) : AGM (option Z) :=
  let! a := read_aif i j in
  if bool_decide (aif_st a = AIF_OPENED) || bool_decide (aif_st a = AIF_STOPPED) then
    let! r := device_prepare (aif_dev a) in
    if nz r then ret (Some r) else do! set_aif_state i j AIF_PREPARED ; ret None
  else ret None.

Definition session_prepare (i : nat) : AGM Z :=
  let! count := aif_obj_get_count_with_state i AIF_OPENED false in
  if count =? 0 then ret (-1) else
  let! r := prepare_graph i TX in
  if nz r then ret r else
  let! ix := aif_idx i in
  let! exit_ := for_idx ix (prepare_aif i) in
  match exit_ with
  | Some r => ret r
  | None =>
      let! r := prepare_graph i RX in
      if nz r then ret r else
      do! upd_sess i (set_ses_state SESSION_PREPARED) ;
      ret r
  end.

(** The checks of [session_start] on a capture session, and its graph:
    [Some r] is [goto done]. *)
Definition start_capture (i : nat) : AGM (option Z) :=
  let! s := read_sess i in
  let! r :=
    (if ses_lb_state s then
       let! (r, pb_obj) := session_obj_get (ses_lb_id s) in
       if nz r then ret r else
       let! pb := the NullDeref pb_obj in
       let! pb := read_sess pb in
       ret (if bool_decide (ses_state pb = SESSION_STARTED) then 0 else - EINVAL)
     else ret 0) in
  if nz r then ret (Some r) else
  let! r :=
    (if ses_ec_state s then
       let! (r, dev_obj) := device_get_obj (ses_ec_id s) in
       if nz r then ret r else
       let! dev := the NullDeref dev_obj in
       let! d := read_dev dev in
       ret (if bool_decide (dev_state d = DEV_STARTED) then 0 else - EINVAL)
     else ret 0) in
  if nz r then ret (Some r) else
  let! r := graph_start (ses_graph s) in
  ret (if nz r then Some r else None).

Definition start_aif (i j : nat) : AGM (option Z) :=
  let! a := read_aif i j in
  if bool_decide (aif_st a = AIF_OPENED) || bool_decide (aif_st a = AIF_PREPARED) ||
     bool_decide (aif_st a = AIF_STOPPED)
  then
    let! r := device_start (aif_dev a) in
    if nz r then ret (Some r) else do! set_aif_state i j AIF_STARTED ; ret None
  else ret None.

(** The label [unwind] of [session_start]. *)
Definition start_unwind (i : nat) : AGM unit :=
  let! s := read_sess i in
  do! (if sc_dir (ses_stream s) =? TX then graph_stop (ses_graph s) None else ret 0) ;
  let! ix := aif_idx i in
  for_all ix (fun j =>
    let! a := read_aif i j in
    if bool_decide (aif_st a = AIF_STARTED)
    then do! device_stop (aif_dev a) ; set_aif_state i j AIF_OPENED
    else ret tt).

Definition session_start (i : nat) : AGM Z :=
  let! count := aif_obj_get_count_with_state i AIF_OPENED false in
  if count =? 0 then ret (- EINVAL) else
  let! s := read_sess i in
  let dir := sc_dir (ses_stream s) in
  let! exit_ := (if dir =? TX then start_capture i else ret None) in
  match exit_ with
  | Some r => ret r
  | None =>
      let! ix := aif_idx i in
      let! exit_ := for_idx ix (start_aif i) in
      let! exit_ :=
        (match exit_ with
         | Some r => ret (Some r)
         | None =>
             if dir =? RX then
               let! s := read_sess i in
               let! r := graph_start (ses_graph s) in
               ret (if nz r then Some r else None)
             else ret None
         end) in
      match exit_ with
      | Some r => do! start_unwind i ; ret r
      | None => do! upd_sess i (set_ses_state SESSION_STARTED) ; ret 0
      end
  end.

(** The loop body keeps the status of the device stopped last. *)
Definition stop_aif (i j : nat) (r : Z) : AGM Z :=
  let! a := read_aif i j in
  if bool_decide (aif_st a = AIF_STARTED) then
    let! r := device_stop (aif_dev a) in
    do! set_aif_state i j AIF_STOPPED ;
    ret r
  else ret r.

Definition session_stop (i : nat) : AGM Z :=
  let! s := read_sess i in
  if negb (bool_decide (ses_state s = SESSION_STARTED)) then ret (- EINVAL) else
  let dir := sc_dir (ses_stream s) in
  let! r := (if dir =? RX then graph_stop (ses_graph s) None else ret 0) in
  if nz r then ret r else
  let! ix := aif_idx i in
  let! r := for_fold ix (stop_aif i) r in
  let! r := (if dir =? TX then
               let! s := read_sess i in graph_stop (ses_graph s) None
             else ret r) in
  do! upd_sess i (set_ses_state SESSION_STOPPED) ;
  ret r.

Definition close_aif (i j : nat) (r : Z) : AGM Z :=
  let! a := read_aif i j in
  if aif_state_num AIF_OPENED <=? aif_state_num (aif_st a) then
    let! r := device_close (aif_dev a) in
    do! set_aif_state i j AIF_CLOSED ;
    ret r
  else ret r.

Definition session_close (i : nat) : AGM Z :=
  let! s := read_sess i in
  if bool_decide (ses_state s = SESSION_CLOSED) then ret (- EALREADY) else
  do! (if bool_decide (ses_state s = SESSION_STARTED) then graph_stop (ses_graph s) None
       else ret 0) ;
  let! r := graph_close (ses_graph s) in
  do! upd_sess i (set_ses_graph None) ;
  let! ix := aif_idx i in
  let! r := for_fold ix (close_aif i) r in
  do! upd_sess i (set_ses_state SESSION_CLOSED) ;
  ret r.

(** ** Start-up and shut-down *)

(** Every session is closed; the objects and the pool are freed. *)
Definition session_pool_free : AGM unit :=
  do! mutex_lock LPool ;
  let! p := read_pool in
  do! for_all (seq 0 (length p)) (fun i =>
        do! mutex_lock (LSess i) ;
        do! session_close i ;
        mutex_unlock (LSess i)) ;
  do! mutex_unlock LPool ;
  modify (set_w_pool None).

Definition session_obj_deinit : AGM Z :=
  do! session_pool_free ;
  do! device_deinit ;
  do! graph_deinit ;
  ret 0.

Definition session_obj_init : AGM Z :=
  let! r := device_init in
  if nz r then ret r else
  let! r := graph_init in
  if nz r then do! device_deinit ; ret r else
  let! r := session_pool_init in
  if nz r then do! graph_deinit ; do! device_deinit ; ret r else
  ret r.

(** ** Operations on a session, under its mutex *)

(** A critical section of the session mutex. *)
Definition locked {A} (i : nat) (body : AGM A) : AGM A := with_lock (LSess i) body.

(** An operation that needs the graph of a session that is not closed. *)
Definition unless_closed {A} (i : nat) (closed : A) (body : option nat -> AGM A) : AGM A :=
  let! s := read_sess i in
  if bool_decide (ses_state s = SESSION_CLOSED) then ret closed else body (ses_graph s).

Definition session_obj_set_sess_metadata (i : nat) (size : Z) (metadata : list Z) : AGM Z :=
  locked i
    (do! upd_sess i (fun s => set_ses_meta (metadata_free (ses_meta s)) s) ;
     let! s := read_sess i in
     let! (r, m) := metadata_copy (ses_meta s) size metadata in
     do! upd_sess i (set_ses_meta m) ;
     ret r).

Definition session_obj_set_sess_params (i : nat) (payload : list Z) : AGM Z :=
  locked i
    (do! upd_sess i (set_ses_params None) ;
     let! ok := calloc in
     if negb ok then ret (- EINVAL) else
     do! upd_sess i (set_ses_params (Some payload)) ;
     let! s := read_sess i in
     if bool_decide (ses_state s = SESSION_CLOSED) then ret 0 else
     let! r := graph_set_config (ses_graph s) payload in
     do! upd_sess i (set_ses_params None) ;
     ret r).

(** [body] on the interface with this id, which is created when needed. *)
Definition with_aif {A} (i : nat) (id : Z) (fail : Z -> A) (body : nat -> AGM A) : AGM A :=
  let! (r, aif_obj) := aif_obj_get i id in
  match aif_obj with
  | Some j => if nz r then ret (fail r) else body j
  | None => ret (fail r)
  end.

Definition session_obj_set_sess_aif_params (i : nat) (id : Z) (payload : list Z) : AGM Z :=
  locked i (with_aif i id (fun r => r) (fun j =>
    do! upd_aif i j (set_aif_params None) ;
    let! ok := calloc in
    if negb ok then ret (- EINVAL) else
    do! upd_aif i j (set_aif_params (Some payload)) ;
    let! s := read_sess i in
    let! a := read_aif i j in
    if negb (bool_decide (ses_state s = SESSION_CLOSED)) &&
       (aif_state_num AIF_OPENED <=? aif_state_num (aif_st a))
    then
      let! r := graph_set_config (ses_graph s) payload in
      do! upd_aif i j (set_aif_params None) ;
      ret r
    else ret 0)).

(** The state test is a conjunction here and a disjunction in
    [session_obj_set_sess_aif_cal]. *)
Definition session_obj_set_sess_aif_params_with_tag (i : nat) (id : Z) (tag : Z) (tkv : key_vector)
  : AGM Z :=
  locked i (with_aif i id (fun r => r) (fun j =>
    let! s := read_sess i in
    let! a := read_aif i j in
    if bool_decide (ses_state s = SESSION_CLOSED) &&
       (aif_state_num (aif_st a) <? aif_state_num AIF_OPENED)
    then ret (- EINVAL)
    else
      let! merged_metadata := merge_sess_aif i j in
      match merged_metadata with
      | None => ret (- ENOMEM)
      | Some merged => graph_set_config_with_tag (ses_graph s) (gkv merged) tag tkv
      end)).

Definition session_obj_set_sess_aif_cal (i : nat) (id : Z) (cal : list key_value) : AGM Z :=
  locked i (with_aif i id (fun r => r) (fun j =>
    let! s := read_sess i in
    let! a := read_aif i j in
    if bool_decide (ses_state s = SESSION_CLOSED) ||
       (aif_state_num (aif_st a) <? aif_state_num AIF_OPENED)
    then ret (- EINVAL)
    else
      let! m := metadata_update_cal cal (ses_meta s) in
      do! upd_sess i (set_ses_meta m) ;
      let! m := metadata_update_cal cal (aif_meta a) in
      do! upd_aif i j (set_aif_meta m) ;
      let! dev := the NullDeref (aif_dev a) in
      let! d := read_dev dev in
      let! m := metadata_update_cal cal (dev_meta d) in
      do! upd_dev dev (set_dev_meta m) ;
      let! merged_metadata := merge_sess_aif i j in
      match merged_metadata with
      | None => ret (- ENOMEM)
      | Some merged => graph_set_cal (ses_graph s) merged
      end)).

Definition session_obj_set_sess_aif_metadata (i : nat) (id : Z) (size : Z) (metadata : list Z)
  : AGM Z :=
  locked i (with_aif i id (fun r => r) (fun j =>
    do! upd_aif i j (fun a => set_aif_meta (metadata_free (aif_meta a)) a) ;
    let! a := read_aif i j in
    let! (r, m) := metadata_copy (aif_meta a) size metadata in
    do! upd_aif i j (set_aif_meta m) ;
    ret r)).

Definition session_obj_get_sess_params (i : nat) (payload : list Z) : AGM (Z * list Z) :=
  locked i (unless_closed i (0, payload) (fun g => graph_get_config g payload)).

Definition session_obj_get_tag_with_module_info (i : nat) (id : Z) (size : option Z)
  : AGM (Z * option (list Z * Z)) :=
  locked i (with_aif i id (fun r => (r, None)) (fun j =>
    let! merged_metadata := merge_sess_aif i j in
    match merged_metadata with
    | None => ret (- ENOMEM, None)
    | Some merged =>
        let! (r, out) := graph_get_tags_with_module_info (gkv merged) size in
        ret (r, Some out)
    end)).

(** [cb = 0] removes every callback of this type and client. *)
Definition session_obj_register_cb (i : nat) (cb evt_type client_data : Z) : AGM Z :=
  with_lock (LSessCb i)
    (let! ok := calloc in
     if negb ok then ret (- ENOMEM) else
     if nz cb then
       do! upd_sess i (fun s => set_ses_cbs (ses_cbs s ++ [SessionCb cb evt_type client_data]) s) ;
       ret 0
     else
       do! upd_sess i (fun s => set_ses_cbs
             (List.filter (fun c => negb ((cb_evt_type c =? evt_type) &&
                                          (cb_client_data c =? client_data))) (ses_cbs s)) s) ;
       ret 0).

Definition session_obj_register_for_events (i : nat) (cfg : option event_reg_cfg) : AGM Z :=
  locked i (unless_closed i (- EINVAL) (fun g => graph_register_for_events g cfg)).

(** The part of [session_obj_sess_aif_connect] that attaches an interface:
    what it does beyond connecting depends on the state of the session. *)
Definition attach_aif (i j : nat) (opened_count : Z) : AGM Z :=
  let! s := read_sess i in
  let connect (next : AGM Z) :=
    let! r := session_connect_aif i j opened_count in
    if nz r then ret r else
    do! set_aif_state i j AIF_OPENED ;
    let! r := next in
    if nz r then do! session_disconnect_aif i j (u32 (opened_count + 1)) ; ret r else ret r in
  match ses_state s with
  | SESSION_OPENED => connect (ret 0)
  | SESSION_PREPARED | SESSION_STOPPED => connect (session_prepare i)
  | SESSION_STARTED =>
      connect (let! r := session_prepare i in if nz r then ret r else session_start i)
  | SESSION_CLOSED => do! set_aif_state i j AIF_OPEN ; ret 0
  end.

Definition detach_aif (i j : nat) (opened_count : Z) : AGM Z :=
  do! set_aif_state i j AIF_CLOSE ;
  let! s := read_sess i in
  let! r := (match ses_state s with
             | SESSION_CLOSED => ret 0
             | _ => session_disconnect_aif i j opened_count
             end) in
  if nz r then ret r else do! set_aif_state i j AIF_CLOSED ; ret 0.

Definition session_obj_sess_aif_connect (i : nat) (id : Z) (aif_state : bool) : AGM Z :=
  locked i (with_aif i id (fun r => r) (fun j =>
    let! a := read_aif i j in
    if (aif_state && (aif_state_num AIF_OPENED <? aif_state_num (aif_st a))) ||
       (negb aif_state && (aif_state_num (aif_st a) <? aif_state_num AIF_OPEN))
    then ret (- EALREADY)
    else
      let! opened_count := aif_obj_get_count_with_state i AIF_OPENED false in
      if aif_state then attach_aif i j opened_count else detach_aif i j opened_count)).

(** The status and the handle stored in [*session], if any. *)
Definition session_obj_open (session_id : Z) : AGM (Z * option nat) :=
  let! (r, sess_obj) := session_obj_get session_id in
  match sess_obj with
  | None => ret (r, None)
  | Some i =>
      if nz r then ret (r, None) else
      locked i
        (let! s := read_sess i in
         if negb (bool_decide (ses_state s = SESSION_CLOSED)) then ret (- EALREADY, None) else
         let! r := session_open_with_first_device i in
         if nz r then ret (r, None) else
         let! r := session_connect_reminder_devices i in
         if nz r then ret (r, None) else
         let! s := read_sess i in
         let! r := (if ses_lb_state s then session_set_loopback i (ses_lb_id s) (ses_lb_state s)
                    else ret 0) in
         if nz r then ret (r, None) else
         let! s := read_sess i in
         let! r := (if ses_ec_state s then session_set_ec_ref i (ses_ec_id s) (ses_ec_state s)
                    else ret 0) in
         if nz r then ret (r, None) else
         do! upd_sess i (set_ses_state SESSION_OPENED) ;
         ret (0, Some i))
  end.

Definition session_obj_set_config (i : nat) (stream : session_config) (media : media_config)
    (buffer : buffer_config) : AGM Z :=
  locked i
    (do! upd_sess i (fun s => set_ses_buffer buffer (set_ses_media media (set_ses_stream stream s))) ;
     ret 0).

Definition session_obj_prepare (i : nat) : AGM Z := locked i (session_prepare i).
Definition session_obj_start (i : nat) : AGM Z := locked i (session_start i).
Definition session_obj_stop (i : nat) : AGM Z := locked i (session_stop i).
Definition session_obj_close (i : nat) : AGM Z := locked i (session_close i).

Definition session_obj_pause (i : nat) : AGM Z :=
  locked i
    (let! s := read_sess i in
     if negb (bool_decide (ses_state s = SESSION_STARTED)) then ret (- EINVAL)
     else graph_pause (ses_graph s)).

Definition session_obj_resume (i : nat) : AGM Z :=
  locked i (let! s := read_sess i in graph_resume (ses_graph s)).

(** The mutex is given back before the graph is used. *)
Definition session_obj_read (i : nat) (count : Z) : AGM (Z * Z * list Z) :=
  let! s := locked i (read_sess i) in
  if bool_decide (ses_state s = SESSION_CLOSED) then ret (- EINVAL, count, []) else
  let! s := read_sess i in
  graph_read (ses_graph s) count.

Definition session_obj_write (i : nat) (buff : list Z) : AGM (Z * Z) :=
  let! s := locked i (read_sess i) in
  if bool_decide (ses_state s = SESSION_CLOSED) then ret (- EINVAL, Z.of_nat (length buff)) else
  let! s := read_sess i in
  graph_write (ses_graph s) buff.

(** An [int] returned as a [size_t]. *)
Definition size_t_of_int (z : Z) : Z := z mod 2 ^ 64.

Definition session_obj_hw_processed_buff_cnt (i : nat) (dir : Z) : AGM Z :=
  locked i
    (unless_closed i (size_t_of_int (- EINVAL)) (fun g =>
       ret (size_t_of_int (graph_get_hw_processed_buff_cnt g dir)))).

(** The common part of loopback and echo reference: [edge] adds or removes
    the edge in the graph of an open session. *)
Definition set_edge (i : nat) (edge : AGM Z) (record : session_obj -> session_obj) : AGM Z :=
  let! s := read_sess i in
  let! r := (if bool_decide (ses_state s = SESSION_CLOSED) then ret 0 else edge) in
  if nz r then ret r else do! upd_sess i record ; ret r.

Definition session_obj_set_loopback (i : nat) (pb_id : Z) (state : bool) : AGM Z :=
  locked i
    (let! s := read_sess i in
     if (pb_id =? ses_lb_id s) && Bool.eqb state (ses_lb_state s) then ret (- EALREADY)
     else set_edge i (session_set_loopback i (if state then pb_id else ses_lb_id s) state)
            (fun s => set_ses_lb_state state (set_ses_lb_id pb_id s))).

Definition session_obj_set_ec_ref (i : nat) (id : Z) (state : bool) : AGM Z :=
  locked i
    (let! s := read_sess i in
     if (id =? ses_ec_id s) && Bool.eqb state (ses_ec_state s) then ret (- EALREADY)
     else set_edge i (session_set_ec_ref i (if state then id else ses_ec_id s) state)
            (fun s => set_ses_ec_state state (set_ses_ec_id id s))).

Definition session_obj_eos (i : nat) : AGM Z :=
  locked i (unless_closed i (- EINVAL) graph_eos).

Definition session_obj_get_timestamp (i : nat) : AGM (Z * option Z) :=
  locked i (unless_closed i (- EINVAL, None) graph_get_session_time).

Definition session_obj_buffer_timestamp (i : nat) : AGM (Z * option Z) :=
  locked i
    (let! s := read_sess i in
     if negb (bool_decide (ses_state s = SESSION_STARTED)) then ret (- EINVAL, None)
     else graph_get_buffer_timestamp (ses_graph s)).

Definition session_obj_get_sess_buf_info (i : nat) (info : buf_info) (flag : Z)
  : AGM (Z * buf_info) :=
  locked i (unless_closed i (- EINVAL, info) (fun g => graph_get_buf_info g info flag)).
End Session.
