(* ===== verification/SessionSpec.v ===== *)
(** * What the session operations promise

    A session operation moves the interfaces of the session through their
    states and the devices behind them through the transitions of [Device], in
    the order of the pool, and the graph through the transitions of
    [GraphSpec].  This file has the abstract run of a device operation over
    several devices, and the loops of [session_obj.c] against it. *)

From S2P Require Export Session GraphLegs.
Open Scope Z_scope.
#[export] Set Default Goal Selector "!".

(** ** One device operation over several devices *)

(** [dev_run op l ds rs ds' n]: [op] on the devices [l] in turn takes the
    device table [ds] to [ds'], with the results [rs]; [n] is the change of the
    number of open PCMs. *)
Inductive dev_run (op : dev_op) : list nat -> list (option device_obj) -> list Z ->
    list (option device_obj) -> Z -> Prop :=
  | dev_run_nil ds : dev_run op [] ds [] ds 0
  | dev_run_cons k d r d' m l ds rs ds' n :
      ds !! k = Some (Some d) -> dev_trans op d r d' m ->
      dev_run op l (<[k := Some d']> ds) rs ds' n ->
      dev_run op (k :: l) ds (r :: rs) ds' (m + n).

Lemma dev_run_app op l1 l2 ds rs1 ds1 n1 rs2 ds2 n2 :
  dev_run op l1 ds rs1 ds1 n1 -> dev_run op l2 ds1 rs2 ds2 n2 ->
  dev_run op (l1 ++ l2) ds (rs1 ++ rs2) ds2 (n1 + n2).
Proof.
  induction 1 as [|k d r d' m l ds rs ds' n Hk Ht Hr IH]; intros H2; [done|].
  cbn. rewrite <- Z.add_assoc. econstructor; eauto.
Qed.

Lemma dev_run_one op k d r d' m ds :
  ds !! k = Some (Some d) -> dev_trans op d r d' m ->
  dev_run op [k] ds [r] (<[k := Some d']> ds) m.
Proof.
  intros Hk Ht. rewrite <- (Z.add_0_r m). econstructor; [done..|constructor].
Qed.

Lemma dev_run_length op l ds rs ds' n :
  dev_run op l ds rs ds' n -> length rs = length l /\ length ds' = length ds.
Proof.
  induction 1 as [|k d r d' m l ds rs ds' n Hk Ht Hr [IH1 IH2]]; [done|].
  rewrite length_insert in IH2. cbn. auto.
Qed.

(** Slots stay live, and slots of other devices stay as they are. *)
Definition live_slot (ds : list (option device_obj)) (k : nat) : Prop :=
  exists d, ds !! k = Some (Some d).

Lemma live_insert ds k d j : live_slot ds k -> live_slot ds j -> live_slot (<[k := Some d]> ds) j.
Proof.
  intros [d1 Hk] [d2 Hj]. destruct (decide (k = j)) as [<-|Hne].
  - exists d. apply list_lookup_insert_eq. by eapply lookup_lt_Some.
  - exists d2. by rewrite list_lookup_insert_ne.
Qed.

Lemma dev_run_live op l ds rs ds' n k :
  dev_run op l ds rs ds' n -> live_slot ds k -> live_slot ds' k.
Proof.
  induction 1 as [|j d r d' m l ds rs ds' n Hk Ht Hr IH]; [done|].
  intros Hl. apply IH, live_insert; [by exists d|done].
Qed.

Lemma dev_run_other op l ds rs ds' n k :
  dev_run op l ds rs ds' n -> k ∉ l -> ds' !! k = ds !! k.
Proof.
  induction 1 as [|j d r d' m l ds rs ds' n Hk Ht Hr IH]; [done|].
  intros [Hne Hl]%not_elem_of_cons. rewrite IH by done. by rewrite list_lookup_insert_ne.
Qed.

(** ** Interfaces *)

(** The interfaces [sel] picks go to state [st]. *)
Definition mark (sel : aif -> bool) (st : aif_state) (a : aif) : aif :=
  if sel a then set_aif_st st a else a.

(** The devices of the interfaces [sel] picks, in the order of the pool. *)
Definition targets (sel : aif -> bool) (l : list aif) : list nat :=
  omap aif_dev (List.filter sel l).

Lemma targets_snoc sel l a :
  targets sel (l ++ [a]) = targets sel l ++ (if sel a then option_list (aif_dev a) else []).
Proof.
  unfold targets. rewrite List.filter_app, omap_app. f_equal. cbn.
  destruct (sel a); [cbn; by destruct (aif_dev a)|done].
Qed.

(** The first [k] interfaces done. *)
Definition progress (sel : aif -> bool) (st : aif_state) (k : nat) (l : list aif) : list aif :=
  (mark sel st <$> take k l) ++ drop k l.

Lemma progress_0 sel st l : progress sel st 0 l = l.
Proof. done. Qed.

Lemma progress_all sel st l : progress sel st (length l) l = mark sel st <$> l.
Proof. unfold progress. by rewrite take_ge, drop_ge, app_nil_r. Qed.

Lemma progress_lookup sel st k l a : l !! k = Some a -> progress sel st k l !! k = Some a.
Proof.
  intros Hk. unfold progress. rewrite lookup_app_r; rewrite length_fmap, length_take.
  - rewrite lookup_drop, <- Hk. f_equal. apply lookup_lt_Some in Hk. lia.
  - lia.
Qed.

Lemma progress_S sel st k l a : l !! k = Some a ->
  progress sel st (S k) l = <[k := mark sel st a]> (progress sel st k l).
Proof.
  intros Hk. pose proof (lookup_lt_Some _ _ _ Hk) as Hlt. unfold progress.
  rewrite (take_S_r _ _ _ Hk), fmap_app, <- app_assoc. cbn.
  rewrite insert_app_r_alt; rewrite length_fmap, length_take; [|lia].
  replace (k - k `min` length l)%nat with 0%nat by lia.
  by rewrite (drop_S _ _ _ Hk).
Qed.

(** ** What a session operation leaves alone *)

(** The process outside devices, sessions, the trace and the lock log. *)
Record outside_same (w w' : world) : Prop := OutsideSame {
  os_num : w_num_intfs w' = w_num_intfs w;
  os_graphs : w_graphs w' = w_graphs w;
  os_stream : w_stream_mods w' = w_stream_mods w;
  os_hw : w_hw_mods w' = w_hw_mods w;
  os_allocs : w_allocs w' = w_allocs w;
  os_held : w_held w' = w_held w;
  os_bad : w_bad_unlock w' = w_bad_unlock w;
  os_init : w_agm_initialized w' = w_agm_initialized w
}.

#[export] Instance outside_same_preorder : PreOrder outside_same.
Proof.
  split; [by intros w; split|].
  intros w1 w2 w3 [] []. split; congruence.
Qed.

Lemma same_but_devs_outside w w' : same_but_devs w w' -> outside_same w w' /\ w_pool w' = w_pool w.
Proof. intros []. split; [by split|done]. Qed.

(** Every interface has a device of the table. *)
Definition aif_live (ds : list (option device_obj)) (a : aif) : Prop :=
  exists k, aif_dev a = Some k /\ live_slot ds k.

Lemma aif_live_run op l ds rs ds' n a :
  dev_run op l ds rs ds' n -> aif_live ds a -> aif_live ds' a.
Proof. intros Hr (k & Hk & Hl). exists k. split; [done|by eapply dev_run_live]. Qed.

Lemma aif_live_mark ds sel st a : aif_live ds (mark sel st a) <-> aif_live ds a.
Proof. unfold mark. by destruct (sel a). Qed.

(** No device or graph mutex is held. *)
Definition locks_free (w : world) : Prop :=
  forall l, l ∈ w_held w -> match l with LDev _ | LGraph _ => False | _ => True end.

Lemma locks_free_dev w k : locks_free w -> LDev k ∉ w_held w.
Proof. intros H Hk. exact (H _ Hk). Qed.
Lemma locks_free_graph w g : locks_free w -> LGraph g ∉ w_held w.
Proof. intros H Hk. exact (H _ Hk). Qed.

(** The state in the middle of a loop that applies [op] to the devices of the
    interfaces [sel] picks: the first [k] interfaces of the session [s] have
    changed state, the devices of the first [kd] have been operated on. *)
Record loop_at (op : dev_op) (sel : aif -> bool) (st : aif_state) (i : nat) (p : list session_obj)
    (s : session_obj) (w : world) (k kd : nat) (rs : list Z) (w' : world) : Prop := LoopAt {
  la_pool : w_pool w' =
    Some (<[i := set_ses_aifs (progress sel st k (ses_aifs s)) s]> p);
  la_devs : exists n, dev_run op (targets sel (take kd (ses_aifs s))) (w_devs w) rs (w_devs w') n /\
    pcm_balance (w_trace w') = n + pcm_balance (w_trace w);
  la_outside : outside_same w w'
}.

Lemma set_ses_aifs_id s : set_ses_aifs (ses_aifs s) s = s.
Proof. by destruct s. Qed.

Lemma loop_at_start op sel st i p s w :
  w_pool w = Some p -> p !! i = Some s -> loop_at op sel st i p s w 0 0 [] w.
Proof.
  intros Hp Hs. split; [|exists 0; split; [constructor|done]|done].
  rewrite progress_0, set_ses_aifs_id. by rewrite list_insert_id.
Qed.

Lemma loop_at_pool op sel st i p s w k kd rs w' :
  p !! i = Some s -> loop_at op sel st i p s w k kd rs w' ->
  exists p', w_pool w' = Some p' /\ p' !! i = Some (set_ses_aifs (progress sel st k (ses_aifs s)) s).
Proof.
  intros Hs [Hp _ _]. eexists. split; [exact Hp|].
  apply list_lookup_insert_eq. by eapply lookup_lt_Some.
Qed.

Section Loops.
Context (op : dev_op) (sel : aif -> bool) (st : aif_state) (i : nat) (p : list session_obj)
  (s : session_obj) (w : world) (Hs : p !! i = Some s).
#[local] Abbreviation at_ := (loop_at op sel st i p s w).

Lemma take_S_targets k a : ses_aifs s !! k = Some a ->
  targets sel (take (S k) (ses_aifs s)) =
  targets sel (take k (ses_aifs s)) ++ (if sel a then option_list (aif_dev a) else []).
Proof using. intros Hk. by rewrite (take_S_r _ _ _ Hk), targets_snoc. Qed.

(** An interface that is not picked. *)
Lemma loop_at_skip k rs w' a :
  ses_aifs s !! k = Some a -> sel a = false -> at_ k k rs w' -> at_ (S k) (S k) rs w'.
Proof using.
  intros Hk Ha [Hp (n & Hr & Hb) Ho]. split; [|exists n; split; [|done]|done].
  - rewrite (progress_S _ _ _ _ _ Hk). unfold mark. rewrite Ha.
    by rewrite (list_insert_id (progress _ _ _ _) k) by (by apply progress_lookup).
  - by rewrite (take_S_targets _ _ Hk), Ha, app_nil_r.
Qed.

(** The device of one that is: its state changes next. *)
Lemma loop_at_device k rs w1 w2 a dv d r d' m :
  ses_aifs s !! k = Some a -> sel a = true -> aif_dev a = Some dv ->
  w_devs w1 !! dv = Some (Some d) -> dev_trans op d r d' m -> dev_effect dv d' m w1 w2 ->
  at_ k k rs w1 -> at_ k (S k) (rs ++ [r]) w2.
Proof using.
  intros Hk Ha Hdv Hd Ht (Hds & Hbal & Hsame) [Hp (n & Hr & Hb) Ho].
  destruct (same_but_devs_outside _ _ Hsame) as [Ho' Hp'].
  split; [by rewrite Hp'| |by transitivity w1].
  exists (n + m). split; [|lia].
  rewrite (take_S_targets _ _ Hk), Ha, Hdv. rewrite Hds.
  eapply dev_run_app; [exact Hr|]. by eapply dev_run_one.
Qed.

Lemma loop_at_mark k rs w' a :
  ses_aifs s !! k = Some a -> sel a = true -> at_ k (S k) rs w' ->
  at_ (S k) (S k) rs
    (set_w_pool (Some (<[i := set_ses_aifs
       (<[k := set_aif_st st a]> (progress sel st k (ses_aifs s))) s]> p)) w').
Proof using.
  intros Hk Ha [Hp Hd Ho]. split; [|done|].
  - wsimp. rewrite (progress_S _ _ _ _ _ Hk). unfold mark. by rewrite Ha.
  - destruct Ho. by split.
Qed.

(** The lookups a loop body makes. *)
Lemma wpg_read_aif_at `{Env} u k kd rs w' a (Q : aif -> world -> Prop) :
  ses_aifs s !! k = Some a -> at_ k kd rs w' -> Q a w' -> wpg u (read_aif i k) Q w'.
Proof using Hs.
  intros Hk Hat HQ. destruct (loop_at_pool _ _ _ _ _ _ _ _ _ _ _ Hs Hat) as (p' & Hp' & Hi').
  eapply wpg_read_aif; [done..| |done]. cbn. by apply progress_lookup.
Qed.

Lemma wpg_mark_at `{Env} u k rs w' a Q :
  ses_aifs s !! k = Some a -> sel a = true -> at_ k (S k) rs w' ->
  (forall w'', at_ (S k) (S k) rs w'' -> Q tt w'') -> wpg u (set_aif_state i k st) Q w'.
Proof using Hs.
  intros Hk Ha Hat HQ. pose proof (la_pool _ _ _ _ _ _ _ _ _ _ _ Hat) as Hp'.
  unfold set_aif_state. eapply wpg_upd_aif; [exact Hp'| | |].
  - apply list_lookup_insert_eq. by eapply lookup_lt_Some.
  - cbn. by apply progress_lookup.
  - apply HQ. rewrite list_insert_insert_eq.
    pose proof (loop_at_mark _ _ _ _ Hk Ha Hat) as Hm.
    by destruct s.
Qed.

(** The device of an interface picked, operated on. *)
Lemma wpg_device_at `{Env} u k rs w' a dv Q :
  ses_aifs s !! k = Some a -> sel a = true -> aif_dev a = Some dv ->
  live_slot (w_devs w) dv -> locks_free w -> at_ k k rs w' ->
  (forall r w'', at_ k (S k) (rs ++ [r]) w'' -> Q r w'') -> wpg u (run_dev op dv) Q w'.
Proof using.
  intros Hk Ha Hdv Hl Hfree Hat HQ. destruct Hat as [Hp (n & Hr & Hb) Ho] eqn:E.
  destruct (dev_run_live _ _ _ _ _ _ _ Hr Hl) as [d Hd].
  eapply wp_run_dev; [exact Hd| |].
  - rewrite (os_held _ _ Ho). by apply locks_free_dev.
  - intros r d' m w'' Ht He. apply HQ. eapply loop_at_device; eauto.
Qed.
End Loops.

(** ** The loops over the interfaces *)

(** How a loop that stops at the first failure ends. *)
Definition loop_exit (op : dev_op) (sel : aif -> bool) (st : aif_state) (i : nat)
    (p : list session_obj) (s : session_obj) (w : world) (r : option Z) (w' : world) : Prop :=
  exists rs, Forall (eq 0) rs /\
    match r with
    | None => loop_at op sel st i p s w (length (ses_aifs s)) (length (ses_aifs s)) rs w'
    | Some r => r <> 0 /\ exists k a, ses_aifs s !! k = Some a /\ sel a = true /\
                  loop_at op sel st i p s w k (S k) (rs ++ [r]) w'
    end.

Section BodyLoops.
Context `{Env} (op : dev_op) (call : option nat -> AGM Z)
  (Hcall : forall dv, call (Some dv) = run_dev op dv).
Context (sel : aif -> bool) (st : aif_state) (i : nat) (p : list session_obj) (s : session_obj)
  (w : world) (Hs : p !! i = Some s) (Hlive : Forall (aif_live (w_devs w)) (ses_aifs s))
  (Hfree : locks_free w) (Hp : w_pool w = Some p).
#[local] Abbreviation at_ := (loop_at op sel st i p s w).
#[local] Abbreviation n := (length (ses_aifs s)).

Definition try_body (k : nat) : AGM (option Z) :=
  let! a := read_aif i k in
  if sel a then
    let! r := call (aif_dev a) in
    if nz r then ret (Some r) else do! set_aif_state i k st ; ret None
  else ret None.

Definition keep_body (k : nat) (r : Z) : AGM Z :=
  let! a := read_aif i k in
  if sel a then
    let! r := call (aif_dev a) in
    do! set_aif_state i k st ;
    ret r
  else ret r.

Definition drop_body (k : nat) : AGM unit :=
  let! a := read_aif i k in
  if sel a then do! call (aif_dev a) ; set_aif_state i k st else ret tt.

Lemma live_of k a : ses_aifs s !! k = Some a ->
  exists dv, aif_dev a = Some dv /\ live_slot (w_devs w) dv.
Proof using Hlive. intros Hk. exact (Forall_lookup_1 _ _ _ _ Hlive Hk). Qed.

Lemma aif_at k : (k < n)%nat -> exists a, ses_aifs s !! k = Some a.
Proof using. intros Hk. apply lookup_lt_is_Some_2 in Hk as [a Ha]. by exists a. Qed.

Lemma wp_try_loop u :
  wpg u (for_idx (seq 0 n) try_body) (loop_exit op sel st i p s w) w.
Proof using Hcall Hs Hlive Hfree Hp.
  eapply wpg_for_seq with (J := fun k w' => exists rs, Forall (eq 0) rs /\ at_ k k rs w').
  - exists []. split; [constructor|by apply loop_at_start].
  - intros k w' Hk (rs & Hz & Hat). destruct (aif_at k) as [a Ha]; [lia|].
    destruct (live_of _ _ Ha) as (dv & Hdv & Hl).
    apply wpg_bind. eapply wpg_read_aif_at; [done..|]. destruct (sel a) eqn:Hsel.
    + apply wpg_bind. rewrite Hdv, Hcall.
      eapply wpg_device_at; [done..|]. intros r w'' Hat'.
      destruct (nz r) eqn:Hr; bool_hyps.
      * apply wpg_ret. exists rs. split; [done|]. split; [done|]. by exists k, a.
      * apply wpg_bind. eapply wpg_mark_at; [done..|]. intros w3 H3. apply wpg_ret.
        exists (rs ++ [r]). split; [apply Forall_app; by repeat constructor|done].
    + apply wpg_ret. exists rs. split; [done|by eapply loop_at_skip].
  - intros w' (rs & Hz & Hat). by exists rs.
Qed.

Lemma wp_keep_loop u r0 :
  wpg u (for_fold (seq 0 n) keep_body r0)
    (fun r w' => exists rs, at_ n n rs w' /\ r = List.last rs r0) w.
Proof using Hcall Hs Hlive Hfree Hp.
  eapply wpg_for_fold with (J := fun k r w' => exists rs, at_ k k rs w' /\ r = List.last rs r0).
  - exists []. split; [by apply loop_at_start|done].
  - intros k r w' Hk (rs & Hat & Hr). destruct (aif_at k) as [a Ha]; [lia|].
    destruct (live_of _ _ Ha) as (dv & Hdv & Hl).
    apply wpg_bind. eapply wpg_read_aif_at; [done..|]. destruct (sel a) eqn:Hsel.
    + apply wpg_bind. rewrite Hdv, Hcall.
      eapply wpg_device_at; [done..|]. intros r' w'' Hat'.
      apply wpg_bind. eapply wpg_mark_at; [done..|]. intros w3 H3. apply wpg_ret.
      exists (rs ++ [r']). split; [done|]. by rewrite List.last_last.
    + apply wpg_ret. exists rs. split; [by eapply loop_at_skip|done].
  - intros r w' (rs & Hat & Hr). by exists rs.
Qed.

Lemma wp_drop_loop u :
  wpg u (for_all (seq 0 n) drop_body) (fun _ w' => exists rs, at_ n n rs w') w.
Proof using Hcall Hs Hlive Hfree Hp.
  enough (forall k m w', (k + m = n)%nat -> (exists rs, at_ k k rs w') ->
    wpg u (for_all (seq k m) drop_body) (fun _ w' => exists rs, at_ n n rs w') w') as Hgo.
  { apply (Hgo 0%nat n w); [done|]. exists []. by apply loop_at_start. }
  intros k m. revert k. induction m as [|m IH]; intros k w' Hk (rs & Hat); cbn [seq for_all].
  { apply wpg_ret. exists rs. by replace n with k by lia. }
  apply wpg_bind. destruct (aif_at k) as [a Ha]; [lia|].
  destruct (live_of _ _ Ha) as (dv & Hdv & Hl).
  apply wpg_bind. eapply wpg_read_aif_at; [done..|]. destruct (sel a) eqn:Hsel.
  - apply wpg_bind. rewrite Hdv, Hcall.
    eapply wpg_device_at; [done..|]. intros r' w'' Hat'.
    eapply wpg_mark_at; [done..|]. intros w3 H3. apply IH; [lia|by exists (rs ++ [r'])].
  - apply wpg_ret. apply IH; [lia|]. exists rs. by eapply loop_at_skip.
Qed.
End BodyLoops.

(** ** The state machine of a session *)

Definition is_state (st : aif_state) (a : aif) : bool := bool_decide (aif_st a = st).
Definition opened_aif (a : aif) : bool := aif_state_num AIF_OPENED <=? aif_state_num (aif_st a).
Definition startable (a : aif) : bool :=
  bool_decide (aif_st a = AIF_OPENED) || bool_decide (aif_st a = AIF_PREPARED) ||
  bool_decide (aif_st a = AIF_STOPPED).
Definition preparable (a : aif) : bool :=
  bool_decide (aif_st a = AIF_OPENED) || bool_decide (aif_st a = AIF_STOPPED).

(** The session with the picked interfaces in state [st]. *)
Definition mark_all (sel : aif -> bool) (st : aif_state) (s : session_obj) : session_obj :=
  set_ses_aifs (mark sel st <$> ses_aifs s) s.

Definition dir_of (s : session_obj) : Z := sc_dir (ses_stream s).

(** [session_stop] on a session [s] with graph [go] and devices [ds]. *)
Inductive sess_stop `{Consts} (s : session_obj) (go : graph_obj) (ds : list (option device_obj))
  : Z -> session_obj -> graph_obj -> list (option device_obj) -> Prop :=
  | stop_not_started :
      ses_state s <> SESSION_STARTED -> sess_stop s go ds (- EINVAL) s go ds
  | stop_rx_failed r go' calls :
      ses_state s = SESSION_STARTED -> dir_of s = RX ->
      graph_trans (GrStop None) go r go' calls -> r <> 0 -> sess_stop s go ds r s go' ds
  | stop_rx go' calls rs ds' n :
      ses_state s = SESSION_STARTED -> dir_of s = RX ->
      graph_trans (GrStop None) go 0 go' calls ->
      dev_run DStop (targets (is_state AIF_STARTED) (ses_aifs s)) ds rs ds' n ->
      sess_stop s go ds (List.last rs 0)
        (set_ses_state SESSION_STOPPED (mark_all (is_state AIF_STARTED) AIF_STOPPED s)) go' ds'
  | stop_tx r go' calls rs ds' n :
      ses_state s = SESSION_STARTED -> dir_of s = TX ->
      dev_run DStop (targets (is_state AIF_STARTED) (ses_aifs s)) ds rs ds' n ->
      graph_trans (GrStop None) go r go' calls ->
      sess_stop s go ds r
        (set_ses_state SESSION_STOPPED (mark_all (is_state AIF_STARTED) AIF_STOPPED s)) go' ds'
  | stop_no_direction rs ds' n :
      ses_state s = SESSION_STARTED -> dir_of s <> RX -> dir_of s <> TX ->
      dev_run DStop (targets (is_state AIF_STARTED) (ses_aifs s)) ds rs ds' n ->
      sess_stop s go ds (List.last rs 0)
        (set_ses_state SESSION_STOPPED (mark_all (is_state AIF_STARTED) AIF_STOPPED s)) go ds'.

(** [session_close]: the graph is gone and the PCMs of [n] closed devices too. *)
Inductive sess_close (s : session_obj) (ds : list (option device_obj))
  : Z -> session_obj -> list (option device_obj) -> Z -> Prop :=
  | close_closed :
      ses_state s = SESSION_CLOSED -> sess_close s ds (- EALREADY) s ds 0
  | close_open r rs ds' n :
      ses_state s <> SESSION_CLOSED ->
      dev_run DClose (targets opened_aif (ses_aifs s)) ds rs ds' n ->
      sess_close s ds (List.last rs r)
        (set_ses_state SESSION_CLOSED (set_ses_graph None (mark_all opened_aif AIF_CLOSED s))) ds' n.

(** A session of the pool with its graph, its devices, and the mutexes it
    needs free. *)
Record sess_ready (i : nat) (p : list session_obj) (s : session_obj) (g : nat) (go : graph_obj)
    (w : world) : Prop := SessReady {
  sr_pool : w_pool w = Some p;
  sr_sess : p !! i = Some s;
  sr_graph : ses_graph s = Some g;
  sr_obj : w_graphs w !! g = Some (Some go);
  sr_live : Forall (aif_live (w_devs w)) (ses_aifs s);
  sr_free : locks_free w
}.

(** What is the same after a session operation whatever it did. *)
Record sess_frame (w w' : world) : Prop := SessFrame {
  sf_num : w_num_intfs w' = w_num_intfs w;
  sf_held : w_held w' = w_held w;
  sf_bad : w_bad_unlock w' = w_bad_unlock w;
  sf_init : w_agm_initialized w' = w_agm_initialized w
}.

#[export] Instance sess_frame_preorder : PreOrder sess_frame.
Proof.
  split; [by intros w; split|].
  intros w1 w2 w3 [] []. split; congruence.
Qed.

Lemma outside_sess_frame w w' : outside_same w w' -> sess_frame w w'.
Proof. intros []. by split. Qed.

Lemma graph_sess_frame g w w' : graph_frame g w w' -> sess_frame w w'.
Proof. intros []. by split. Qed.

Lemma locks_free_frame w w' : sess_frame w w' -> locks_free w -> locks_free w'.
Proof. intros [_ E _ _] H l Hl. apply H. by rewrite <- E. Qed.

(** Calls to GSL open and close no PCM. *)
Lemma pcm_balance_app t t' : pcm_balance (t ++ t') = pcm_balance t + pcm_balance t'.
Proof.
  induction t as [|[c a] t IH]; [done|]. cbn [app].
  destruct c; cbn [pcm_balance]; rewrite ?IH; try lia; destruct (a =? 0); lia.
Qed.

Lemma graph_trans_no_pcm `{Consts} op go r go' evs :
  graph_trans op go r go' evs -> pcm_balance evs = 0.
Proof. intros Ht. by inversion Ht. Qed.

(** The effect of a session operation: the session is [s'], its graph object
    [go'] ([None] once freed), the devices [ds']. *)
Record sess_effect (i : nat) (p : list session_obj) (g : nat) (s' : session_obj)
    (go' : option graph_obj) (ds' : list (option device_obj)) (w w' : world) : Prop := SessEffect {
  se_pool : w_pool w' = Some (<[i := s']> p);
  se_graphs : w_graphs w' = <[g := go']> (w_graphs w);
  se_devs : w_devs w' = ds';
  se_frame : sess_frame w w'
}.

Section Transitions.
Context `{Env} (i : nat) (p : list session_obj) (s : session_obj) (g : nat) (go : graph_obj).
#[local] Abbreviation ready := (sess_ready i p s g go).

Lemma ready_refl_effect w : ready w -> sess_effect i p g s (Some go) (w_devs w) w w.
Proof.
  intros []. split; try done; by rewrite list_insert_id.
Qed.

Lemma wpg_read_ready u w Q : ready w -> Q s w -> wpg u (read_sess i) Q w.
Proof. intros [] HQ. by eapply wpg_read_sess. Qed.

Lemma wpg_aif_idx_ready u w Q : ready w -> Q (seq 0 (length (ses_aifs s))) w -> wpg u (aif_idx i) Q w.
Proof. intros Hr HQ. apply wpg_bind, wpg_read_ready; [done|]. by apply wpg_ret. Qed.

(** A graph operation: the session stays ready, with the new object. *)
Lemma wpg_graph_ready u op w Q :
  ready w -> op_ok op ->
  (forall r go' calls w', graph_trans op go r go' calls ->
     sess_ready i p s g go' w' -> w_graphs w' = <[g := Some go']> (w_graphs w) ->
     w_devs w' = w_devs w -> pcm_balance (w_trace w') = pcm_balance (w_trace w) ->
     sess_frame w w' -> Q r w') ->
  wpg u (run_graph op g) Q w.
Proof.
  intros Hr Hop HQ. destruct Hr as [Hp Hs Hg Hgo Hlive Hfree].
  apply wp_wpg. eapply wp_run_graph; [done|by apply locks_free_graph|done|].
  intros r go' calls w' Ht (Hgs & Hf & Htr).
      pose proof (graph_sess_frame _ _ _ Hf) as Hsf. destruct Hf.
  eapply HQ; [exact Ht| |done..| |done].
  - split; [congruence|done..| | |].
    + rewrite Hgs. apply list_lookup_insert_eq. by eapply lookup_lt_Some.
    + by rewrite gf_devs.
    + by eapply locks_free_frame.
  - rewrite Htr, pcm_balance_app, (graph_trans_no_pcm _ _ _ _ _ Ht). lia.
Qed.

(** The three loops on a ready session. *)
Lemma wpg_keep_ready u op call sel st r0 w Q :
  ready w -> (forall dv, call (Some dv) = run_dev op dv) ->
  (forall rs ds' n w', dev_run op (targets sel (ses_aifs s)) (w_devs w) rs ds' n ->
     sess_effect i p g (mark_all sel st s) (Some go) ds' w w' ->
     pcm_balance (w_trace w') = n + pcm_balance (w_trace w) -> Q (List.last rs r0) w') ->
  wpg u (for_fold (seq 0 (length (ses_aifs s))) (keep_body call sel st i) r0) Q w.
Proof.
  intros [Hp Hs Hg Hgo Hlive Hfree] Hc HQ.
  eapply wpg_mono; [eapply wp_keep_loop; done|].
  intros r w' (rs & [Hp' (n & Hr & Hb) Ho] & ->).
  rewrite progress_all in Hp'. rewrite take_ge in Hr by done.
  eapply HQ; [exact Hr| |done]. split; [done| |done|by apply outside_sess_frame].
  rewrite (os_graphs _ _ Ho). by rewrite list_insert_id.
Qed.

(** The session the loop left is ready again. *)
Lemma effect_ready s' ds' w w' go' :
  ready w -> sess_effect i p g s' (Some go') ds' w w' -> ses_graph s' = Some g ->
  Forall (aif_live ds') (ses_aifs s') -> sess_ready i (<[i := s']> p) s' g go' w'.
Proof.
  intros [Hp Hs Hg Hgo Hlive Hfree] [Hp' Hgs' <- Hf] Hg' Hl'. split; try done.
  - apply list_lookup_insert_eq. by eapply lookup_lt_Some.
  - rewrite Hgs'. apply list_lookup_insert_eq. by eapply lookup_lt_Some.
  - by eapply locks_free_frame.
Qed.

Lemma live_mark_all op l ds rs ds' n sel st :
  dev_run op l ds rs ds' n -> Forall (aif_live ds) (ses_aifs s) ->
  Forall (aif_live ds') (ses_aifs (mark_all sel st s)).
Proof.
  intros Hr Hl. cbn. apply Forall_fmap. eapply Forall_impl; [exact Hl|].
  intros a Ha. apply aif_live_mark. by eapply aif_live_run.
Qed.
End Transitions.

Lemma sess_effect_trans i p g s1 go1 ds1 w w1 s2 go2 ds2 w2 :
  sess_effect i p g s1 go1 ds1 w w1 -> sess_effect i (<[i := s1]> p) g s2 go2 ds2 w1 w2 ->
  sess_effect i p g s2 go2 ds2 w w2.
Proof.
  intros [] []. split; [|..].
  - by rewrite se_pool1, list_insert_insert_eq.
  - by rewrite se_graphs1, se_graphs0, list_insert_insert_eq.
  - done.
  - by transitivity w1.
Qed.

Section Stop.
Context `{Env}.

(** Storing the new state of the session. *)
Lemma wpg_upd_effect u i p g s1 go1 ds1 w w1 f Q :
  (i < length p)%nat -> sess_effect i p g s1 go1 ds1 w w1 ->
  (forall w2, sess_effect i p g (f s1) go1 ds1 w w2 -> w_trace w2 = w_trace w1 -> Q tt w2) ->
  wpg u (upd_sess i f) Q w1.
Proof.
  intros Hi [Hp Hg Hd Hf] HQ. eapply wpg_upd_sess; [done|by apply list_lookup_insert_eq|].
  apply HQ; [|done]. split; wsimp; [by rewrite list_insert_insert_eq|done..|].
  transitivity w1; [done|by split].
Qed.

Lemma wpg_read_effect u i p g s1 go1 ds1 w w1 Q :
  (i < length p)%nat -> sess_effect i p g s1 go1 ds1 w w1 -> Q s1 w1 ->
  wpg u (read_sess i) Q w1.
Proof.
  intros Hi [Hp Hg Hd Hf] HQ. eapply wpg_read_sess; [done|by apply list_lookup_insert_eq|done].
Qed.

(** Stopping devices opens and closes no PCM. *)
Lemma dev_run_stop_balance l ds rs ds' n : dev_run DStop l ds rs ds' n -> n = 0.
Proof.
  induction 1 as [|k d r d' m l ds rs ds' n Hk Ht Hr IH]; [done|].
  inversion Ht; subst; lia.
Qed.

(** The loop of [session_stop]. *)
Lemma wpg_stop_devices u i p s g go w r0 Q :
  sess_ready i p s g go w ->
  (forall rs ds' n w', let s' := mark_all (is_state AIF_STARTED) AIF_STOPPED s in
     dev_run DStop (targets (is_state AIF_STARTED) (ses_aifs s)) (w_devs w) rs ds' n ->
     sess_effect i p g s' (Some go) ds' w w' -> sess_ready i (<[i := s']> p) s' g go w' ->
     pcm_balance (w_trace w') = pcm_balance (w_trace w) -> Q (List.last rs r0) w') ->
  wpg u (aif_idx i) (fun ix => wpg u (for_fold ix (stop_aif i) r0) Q) w.
Proof.
  intros Hr HQ. eapply wpg_aif_idx_ready; [done|].
  eapply (wpg_keep_ready _ _ _ _ _ _ DStop device_stop (is_state AIF_STARTED) AIF_STOPPED); [done..|].
  intros rs ds' n w' Hrun He Hb. pose proof (dev_run_stop_balance _ _ _ _ _ Hrun) as ->.
  eapply HQ; [done|done| |by rewrite Hb].
  eapply effect_ready; [done..|by destruct Hr|]. eapply live_mark_all; [done|by destruct Hr].
Qed.

(** The end of [session_stop]: the devices, then the graph of a capture
    session, then the state. *)
Definition stop_tail (i : nat) (dir r0 : Z) : AGM Z :=
  let! ix := aif_idx i in
  let! r := for_fold ix (stop_aif i) r0 in
  let! r := (if dir =? TX then
               let! s := read_sess i in graph_stop (ses_graph s) None
             else ret r) in
  do! upd_sess i (set_ses_state SESSION_STOPPED) ;
  ret r.

Lemma wp_stop_tail u i p s g go w r0 Q :
  sess_ready i p s g go w ->
  (forall rs ds' n r go' w',
     dev_run DStop (targets (is_state AIF_STARTED) (ses_aifs s)) (w_devs w) rs ds' n ->
     (if dir_of s =? TX then exists calls, graph_trans (GrStop None) go r go' calls
      else r = List.last rs r0 /\ go' = go) ->
     sess_effect i p g
       (set_ses_state SESSION_STOPPED (mark_all (is_state AIF_STARTED) AIF_STOPPED s))
       (Some go') ds' w w' ->
     pcm_balance (w_trace w') = pcm_balance (w_trace w) -> Q r w') ->
  wpg u (stop_tail i (dir_of s) r0) Q w.
Proof.
  intros Hr HQ. pose proof (lookup_lt_Some _ _ _ (sr_sess _ _ _ _ _ _ Hr)) as Hi.
  apply wpg_bind. eapply wpg_mono; [|intros ix w'; apply wpg_bind].
  eapply wpg_stop_devices; [done|]. intros rs ds' n w1 s' Hrun He Hr1 Hb1.
  apply wpg_bind. destruct (dir_of s =? TX) eqn:Ed.
  - apply wpg_bind. eapply wpg_read_ready; [exact Hr1|]. rewrite (sr_graph _ _ _ _ _ _ Hr1).
    change (graph_stop (Some g) None) with (run_graph (GrStop None) g).
    eapply wpg_graph_ready; [exact Hr1|done|]. intros r go' calls w2 Ht Hr2 Hg2 Hd2 Hb2 Hf2.
    apply wpg_bind. eapply (wpg_upd_effect _ _ _ _ _ (Some go') ds'); [done| |].
    { eapply sess_effect_trans; [exact He|]. split; [rewrite list_insert_insert_eq; by destruct Hr2|done|by rewrite Hd2; destruct He|done]. }
    intros w3 He3 Ht3. apply wpg_ret. eapply HQ; [done|by exists calls|done|].
    by rewrite Ht3, Hb2.
  - apply wpg_ret, wpg_bind. eapply wpg_upd_effect; [done|exact He|].
    intros w2 He2 Ht2. apply wpg_ret. eapply HQ; [done|done|done|by rewrite Ht2].
Qed.

Lemma wp_session_stop u i p s g go w Q :
  sess_ready i p s g go w ->
  (forall r s' go' ds' w', sess_stop s go (w_devs w) r s' go' ds' ->
     sess_effect i p g s' (Some go') ds' w w' ->
     pcm_balance (w_trace w') = pcm_balance (w_trace w) -> Q r w') ->
  wpg u (session_stop i) Q w.
Proof.
  intros Hr HQ. unfold session_stop. apply wpg_bind. eapply wpg_read_ready; [done|].
  case_bool_decide as Hst; cbn [negb].
  2:{ apply wpg_ret. eapply HQ; [by constructor|by apply ready_refl_effect|done]. }
  apply wpg_bind. change (sc_dir (ses_stream s)) with (dir_of s).
  destruct (Z.eqb_spec (dir_of s) RX) as [Hrx|Hrx].
  - rewrite (sr_graph _ _ _ _ _ _ Hr).
    change (graph_stop (Some g) None) with (run_graph (GrStop None) g).
    eapply wpg_graph_ready; [exact Hr|done|]. intros r go1 calls w1 Ht1 Hr1 Hg1 Hd1 Hb1 Hf1.
    assert (sess_effect i p g s (Some go1) (w_devs w) w w1) as He1.
    { split; [|done..]. rewrite list_insert_id; by destruct Hr1. }
    destruct (nz r) eqn:Hnz; bool_hyps.
    { apply wpg_ret. eapply HQ; [by eapply stop_rx_failed|done|done]. }
    subst r. change (wpg u (stop_tail i (dir_of s) 0) Q w1).
    eapply wp_stop_tail; [exact Hr1|]. intros rs ds' n r go' w' Hrun Hgo He Hb.
    rewrite (proj2 (Z.eqb_neq _ _)) in Hgo by (rewrite Hrx; done). destruct Hgo as [-> ->].
    rewrite Hd1 in Hrun. eapply HQ; [by eapply stop_rx| |by rewrite Hb].
    eapply sess_effect_trans; [exact He1|]. by rewrite list_insert_id by (by destruct Hr).
  - cbn. change (wpg u (stop_tail i (dir_of s) 0) Q w).
    eapply wp_stop_tail; [exact Hr|]. intros rs ds' n r go' w' Hrun Hgo He Hb.
    destruct (Z.eqb_spec (dir_of s) TX) as [Htx|Htx].
    + destruct Hgo as [calls Ht]. eapply HQ; [by eapply stop_tx|done|done].
    + destruct Hgo as [-> ->]. eapply HQ; [by eapply stop_no_direction|done|done].
Qed.

(** ** Closing *)

Lemma sess_effect_none i p g s1 go1 ds1 w w1 s2 ds2 w2 :
  sess_effect i p g s1 (Some go1) ds1 w w1 ->
  w_pool w2 = Some (<[i := s2]> p) -> w_graphs w2 = <[g := None]> (w_graphs w1) ->
  w_devs w2 = ds2 -> sess_frame w1 w2 -> sess_effect i p g s2 None ds2 w w2.
Proof.
  intros [] Hp Hg Hd Hf. split; [done| |done|by transitivity w1].
  by rewrite Hg, se_graphs0, list_insert_insert_eq.
Qed.

(** [session_close] from the call of [graph_close] on. *)
Definition close_tail (i : nat) (g : option nat) : AGM Z :=
  let! r := graph_close g in
  do! upd_sess i (set_ses_graph None) ;
  let! ix := aif_idx i in
  let! r := for_fold ix (close_aif i) r in
  do! upd_sess i (set_ses_state SESSION_CLOSED) ;
  ret r.

Lemma wp_close_tail u i p s g go w Q :
  sess_ready i p s g go w ->
  (forall r rs ds' n w', dev_run DClose (targets opened_aif (ses_aifs s)) (w_devs w) rs ds' n ->
     sess_effect i p g
       (set_ses_state SESSION_CLOSED (set_ses_graph None (mark_all opened_aif AIF_CLOSED s)))
       None ds' w w' ->
     pcm_balance (w_trace w') = n + pcm_balance (w_trace w) -> Q (List.last rs r) w') ->
  wpg u (close_tail i (Some g)) Q w.
Proof.
  intros Hr HQ. destruct Hr as [Hp Hs Hg Hgo Hlive Hfree] eqn:E.
  pose proof (lookup_lt_Some _ _ _ Hs) as Hi.
  apply wpg_bind, wp_wpg. eapply wp_graph_close; [done|by apply locks_free_graph|].
  intros a w1 Hg1 Ht1 Hf1. pose proof (graph_sess_frame _ _ _ Hf1) as Hsf. destruct Hf1.
  apply wpg_bind. eapply wpg_upd_sess; [by rewrite gf_pool|done|].
  set (s1 := set_ses_graph None s). set (w2 := set_w_pool _ w1).
  assert (w_pool w2 = Some (<[i := s1]> p)) as Hp2 by done.
  assert (<[i := s1]> p !! i = Some s1) as Hs1 by by apply list_lookup_insert_eq.
  apply wpg_bind. apply wpg_bind. eapply wpg_read_sess; [done..|]. apply wpg_ret.
  apply wpg_bind. change (ses_aifs s1) with (ses_aifs s).
  eapply wpg_mono; [eapply (wp_keep_loop DClose device_close (fun dv => eq_refl) opened_aif AIF_CLOSED
    i (<[i := s1]> p) s1 w2); try done|].
  - cbn. by rewrite gf_devs.
  - eapply locks_free_frame; [|done]. transitivity w1; [done|by split].
  - intros r w3 (rs & [Hp3 (n & Hrun & Hb) Ho] & ->).
    change (ses_aifs s1) with (ses_aifs s) in *. rewrite progress_all in Hp3. rewrite take_ge in Hrun by done.
    rewrite list_insert_insert_eq in Hp3. change (w_devs w2) with (w_devs w1) in Hrun.
    rewrite gf_devs in Hrun.
    apply wpg_bind. eapply wpg_upd_sess; [exact Hp3|by apply list_lookup_insert_eq|].
    apply wpg_ret. eapply HQ; [exact Hrun| |].
    + eapply (sess_effect_none _ _ _ s go (w_devs w) w w); [by apply ready_refl_effect| |..].
      * wsimp. by rewrite list_insert_insert_eq.
      * wsimp. rewrite (os_graphs _ _ Ho). exact Hg1.
      * done.
      * transitivity w1; [done|]. apply outside_sess_frame in Ho. destruct Ho. by split.
    + wsimp. rewrite Hb. change (w_trace w2) with (w_trace w1). by rewrite Ht1.
Qed.

Lemma wp_session_close u i p s g go w Q :
  sess_ready i p s g go w ->
  (forall r s' ds' n w', sess_close s (w_devs w) r s' ds' n ->
     sess_effect i p g s' (if decide (ses_state s = SESSION_CLOSED) then Some go else None) ds' w w' ->
     pcm_balance (w_trace w') = n + pcm_balance (w_trace w) -> Q r w') ->
  wpg u (session_close i) Q w.
Proof.
  intros Hr HQ. unfold session_close. apply wpg_bind. eapply wpg_read_ready; [done|].
  case_bool_decide as Hst.
  { apply wpg_ret. eapply HQ; [by constructor| |done]. rewrite decide_True by done.
    by apply ready_refl_effect. }
  rewrite decide_False in HQ by done. rewrite (sr_graph _ _ _ _ _ _ Hr).
  change (graph_stop (Some g) None) with (run_graph (GrStop None) g).
  apply wpg_bind. case_bool_decide as Hst'.
  - eapply wpg_graph_ready; [exact Hr|done|]. intros r go1 calls w1 Ht1 Hr1 Hg1 Hd1 Hb1 Hf1.
    change (wpg u (close_tail i (Some g)) Q w1). eapply wp_close_tail; [exact Hr1|].
    intros r' rs ds' n w' Hrun He Hb. rewrite Hd1 in Hrun.
    eapply HQ; [by econstructor| |by rewrite Hb, Hb1].
    destruct He as [? Hg' ? ?]. split; [done| |done|by transitivity w1].
    by rewrite Hg', Hg1, list_insert_insert_eq.
  - apply wpg_ret. change (wpg u (close_tail i (Some g)) Q w). eapply wp_close_tail; [exact Hr|].
    intros r' rs ds' n w' Hrun He Hb. eapply HQ; [by econstructor|done|done].
Qed.
End Stop.
