(* ===== verification/SessionStart.v ===== *)
(** * Starting a session

    [session_start] checks the edges of a capture session, starts graph and
    devices in the order of the direction, and takes back what it did when
    something fails. *)

From S2P Require Export SessionSpec.
Open Scope Z_scope.
#[export] Set Default Goal Selector "!".

(** The loop over the devices: all started, or stopped at the first failure,
    whose interface keeps its state. *)
Inductive start_loop (s : session_obj) (ds : list (option device_obj))
  : option Z -> session_obj -> list (option device_obj) -> Prop :=
  | start_all rs ds' n :
      dev_run DStart (targets startable (ses_aifs s)) ds rs ds' n -> Forall (eq 0) rs ->
      start_loop s ds None (mark_all startable AIF_STARTED s) ds'
  | start_some k a rs r ds' n :
      ses_aifs s !! k = Some a -> startable a = true ->
      dev_run DStart (targets startable (take (S k) (ses_aifs s))) ds (rs ++ [r]) ds' n ->
      Forall (eq 0) rs -> r <> 0 ->
      start_loop s ds (Some r)
        (set_ses_aifs (progress startable AIF_STARTED k (ses_aifs s)) s) ds'.

(** The label [unwind]: the graph of a capture session is stopped, every
    started interface goes back to [AIF_OPENED]. *)
Inductive start_undo `{Consts} (s : session_obj) (go : graph_obj) (ds : list (option device_obj))
  : session_obj -> graph_obj -> list (option device_obj) -> Prop :=
  | undo_tx r go' calls rs ds' n :
      dir_of s = TX -> graph_trans (GrStop None) go r go' calls ->
      dev_run DStop (targets (is_state AIF_STARTED) (ses_aifs s)) ds rs ds' n ->
      start_undo s go ds (mark_all (is_state AIF_STARTED) AIF_OPENED s) go' ds'
  | undo_other rs ds' n :
      dir_of s <> TX ->
      dev_run DStop (targets (is_state AIF_STARTED) (ses_aifs s)) ds rs ds' n ->
      start_undo s go ds (mark_all (is_state AIF_STARTED) AIF_OPENED s) go ds'.

(** The checks on the edges of a capture session: the playback session of the
    loopback and the device of the echo reference have to be started. *)
Definition lb_started (p : list session_obj) (s : session_obj) : bool :=
  match find_session p (ses_lb_id s) with
  | Some j => match p !! j with
              | Some pb => bool_decide (ses_state pb = SESSION_STARTED)
              | None => false
              end
  | None => false
  end.
Definition ec_started (ds : list (option device_obj)) (s : session_obj) : bool :=
  match ds !! Z.to_nat (u32 (ses_ec_id s)) with
  | Some (Some d) => bool_decide (dev_state d = DEV_STARTED)
  | _ => false
  end.
Definition edges_started (p : list session_obj) (ds : list (option device_obj)) (s : session_obj)
  : bool :=
  (negb (ses_lb_state s) || lb_started p s) && (negb (ses_ec_state s) || ec_started ds s).

Inductive sess_start `{Consts} (p : list session_obj) (s : session_obj) (go : graph_obj)
    (ds : list (option device_obj))
  : Z -> session_obj -> graph_obj -> list (option device_obj) -> Prop :=
  | start_no_aif :
      List.filter opened_aif (ses_aifs s) = [] -> sess_start p s go ds (- EINVAL) s go ds
  | start_edges :
      dir_of s = TX -> edges_started p ds s = false -> sess_start p s go ds (- EINVAL) s go ds
  | start_graph_failed r go' calls :
      dir_of s = TX -> graph_trans GrStart go r go' calls -> r <> 0 ->
      sess_start p s go ds r s go' ds
  | start_tx go' calls s' ds' :
      dir_of s = TX -> edges_started p ds s = true -> graph_trans GrStart go 0 go' calls ->
      start_loop s ds None s' ds' ->
      sess_start p s go ds 0 (set_ses_state SESSION_STARTED s') go' ds'
  | start_rx go' calls s' ds' :
      dir_of s = RX -> start_loop s ds None s' ds' -> graph_trans GrStart go 0 go' calls ->
      sess_start p s go ds 0 (set_ses_state SESSION_STARTED s') go' ds'
  | start_no_direction s' ds' :
      dir_of s <> RX -> dir_of s <> TX -> start_loop s ds None s' ds' ->
      sess_start p s go ds 0 (set_ses_state SESSION_STARTED s') go ds'
  | start_tx_failed r go1 calls s1 ds1 s2 go2 ds2 :
      dir_of s = TX -> edges_started p ds s = true -> graph_trans GrStart go 0 go1 calls ->
      start_loop s ds (Some r) s1 ds1 -> start_undo s1 go1 ds1 s2 go2 ds2 ->
      sess_start p s go ds r s2 go2 ds2
  | start_device_failed r s1 ds1 s2 go2 ds2 :
      dir_of s <> TX -> start_loop s ds (Some r) s1 ds1 -> start_undo s1 go ds1 s2 go2 ds2 ->
      sess_start p s go ds r s2 go2 ds2
  | start_rx_failed r go1 calls s1 ds1 s2 go2 ds2 :
      dir_of s = RX -> start_loop s ds None s1 ds1 -> graph_trans GrStart go r go1 calls ->
      r <> 0 -> start_undo s1 go1 ds1 s2 go2 ds2 ->
      sess_start p s go ds r s2 go2 ds2.

(** What the edges of a capture session need: the playback session is in the
    pool, the device in the table. *)
Record edges_ok (p : list session_obj) (s : session_obj) (w : world) : Prop := EdgesOk {
  eo_pool : LPool ∉ w_held w;
  eo_lb : ses_lb_state s = true -> is_Some (find_session p (ses_lb_id s));
  eo_ec : ses_ec_state s = true ->
    u32 (ses_ec_id s) <= w_num_intfs w /\ live_slot (w_devs w) (Z.to_nat (u32 (ses_ec_id s)))
}.

(** ** Consequences of the specification *)

Lemma start_loop_dir s ds r s' ds' : start_loop s ds r s' ds' ->
  dir_of s' = dir_of s /\ ses_state s' = ses_state s /\ ses_graph s' = ses_graph s.
Proof. by destruct 1. Qed.

Lemma start_undo_state `{Consts} s go ds s' go' ds' : start_undo s go ds s' go' ds' ->
  ses_state s' = ses_state s /\ Forall (fun a => aif_st a <> AIF_STARTED) (ses_aifs s').
Proof.
  intros Hu. assert (s' = mark_all (is_state AIF_STARTED) AIF_OPENED s) as -> by by destruct Hu.
  split; [done|]. cbn. apply Forall_fmap, Forall_true. intros a. unfold compose, mark, is_state.
  by case_bool_decide.
Qed.

Lemma mark_startable a : opened_aif a = true -> aif_st (mark startable AIF_STARTED a) = AIF_STARTED.
Proof. destruct a as [? ? [] ? ?]; by cbn. Qed.

(** A start that reports success leaves every open interface, the session and
    its graph started; one that fails leaves the state of the session. *)
Lemma sess_start_result `{Consts} p s go ds r s' go' ds' :
  sess_start p s go ds r s' go' ds' ->
  (r = 0 -> ses_state s' = SESSION_STARTED /\
     Forall2 (fun a b => opened_aif a = true -> aif_st b = AIF_STARTED) (ses_aifs s) (ses_aifs s')) /\
  (r <> 0 -> ses_state s' = ses_state s).
Proof.
  intros Hs. split; intros Hr.
  - assert (s' = set_ses_state SESSION_STARTED (mark_all startable AIF_STARTED s)) as ->.
    { destruct Hs; try done;
        match goal with H : start_loop _ _ _ _ _ |- _ => inversion H; by subst end. }
    split; [done|]. cbn. apply Forall2_fmap_r, Forall_Forall2_diag, Forall_true.
    intros a. exact (mark_startable a).
  - destruct Hs; try done.
    all: match goal with
      | Hl : start_loop _ _ _ ?s1 _, Hu : start_undo ?s1 _ _ _ _ _ |- _ =>
          rewrite (proj1 (start_undo_state _ _ _ _ _ _ Hu));
          by destruct (start_loop_dir _ _ _ _ _ Hl) as (_ & ? & _)
      end.
Qed.

Section Start.
Context `{Env}.

Lemma ready_acq i p s g go w a : sess_ready i p s g go w -> sess_ready i p s g go (set_w_acq a w).
Proof. intros []. by split. Qed.

(** Finding a session that is in the pool. *)
Lemma wpg_session_obj_get_found u id p j w Q :
  w_pool w = Some p -> LPool ∉ w_held w -> find_session p id = Some j ->
  (forall a, Q (0, Some j) (set_w_acq a w)) -> wpg u (session_obj_get id) Q w.
Proof.
  intros Hp Hl Hf HQ. apply wpg_bind, wpg_with_lock; [done|].
  apply wpg_bind, wpg_bind. apply wpg_gets. wsimp. rewrite Hp. apply wpg_ret.
  rewrite Hf. apply wpg_ret. split; [done|]. apply wpg_ret.
  specialize (HQ ((LPool, w_held w) :: w_acq w)). by destruct w.
Qed.

Lemma wpg_device_get_obj u id w Q :
  u32 id <= w_num_intfs w -> live_slot (w_devs w) (Z.to_nat (u32 id)) ->
  Q (0, Some (Z.to_nat (u32 id))) w -> wpg u (device_get_obj id) Q w.
Proof.
  intros Hn [d Hd] HQ. unfold device_get_obj. apply wpg_bind, wpg_gets.
  rewrite (proj2 (Z.ltb_ge _ _)) by done. apply wpg_bind, wpg_gets.
  apply wpg_bind. rewrite Hd. by apply wpg_ret.
Qed.

Lemma find_session_lookup p id j : find_session p id = Some j -> is_Some (p !! j).
Proof.
  unfold find_session. intros Hf. apply fmap_Some in Hf as ((k & s) & Hf & ->).
  apply list_find_Some in Hf as (Hs & _). by exists s.
Qed.

Lemma wpg_start_capture u i p s g go w Q :
  sess_ready i p s g go w -> edges_ok p s w ->
  (forall w', edges_started p (w_devs w) s = false -> sess_effect i p g s (Some go) (w_devs w) w w' ->
     w_trace w' = w_trace w -> Q (Some (- EINVAL)) w') ->
  (forall r go' calls w', edges_started p (w_devs w) s = true -> graph_trans GrStart go r go' calls ->
     sess_ready i p s g go' w' -> sess_effect i p g s (Some go') (w_devs w) w w' ->
     pcm_balance (w_trace w') = pcm_balance (w_trace w) ->
     Q (if nz r then Some r else None) w') ->
  wpg u (start_capture i) Q w.
Proof.
  intros Hr [Hl Hlb Hec] HF HS. unfold start_capture. apply wpg_bind.
  eapply wpg_read_ready; [done|]. apply wpg_bind.
  (* the loopback *)
  enough (forall w1 r, (exists a, w1 = set_w_acq a w \/ w1 = w) ->
    r = (if negb (ses_lb_state s) || lb_started p s then 0 else - EINVAL) ->
    wpg u (if nz r then ret (Some r) else
      let! r :=
        (if ses_ec_state s then
           let! (r, dev_obj) := device_get_obj (ses_ec_id s) in
           if nz r then ret r else
           let! dev := the NullDeref dev_obj in
           let! d := read_dev dev in
           ret (if bool_decide (dev_state d = DEV_STARTED) then 0 else - EINVAL)
         else ret 0) in
      if nz r then ret (Some r) else
      let! r := graph_start (ses_graph s) in
      ret (if nz r then Some r else None)) Q w1) as Hrest.
  { destruct (ses_lb_state s) eqn:Elb.
    - destruct (Hlb eq_refl) as [j Hj]. apply wpg_bind.
      eapply wpg_session_obj_get_found; [by destruct Hr|done|done|]. intros a. cbn.
      rewrite bind_ret_l. destruct (find_session_lookup _ _ _ Hj) as [pb Hpb].
      apply wpg_bind. eapply wpg_read_sess; [by destruct Hr|done|]. apply wpg_ret.
      apply Hrest; [exists a; by left|]. unfold lb_started. by rewrite Hj, Hpb.
    - apply wpg_ret, Hrest; [exists []; by right|done]. }
  intros w1 r Hw1 ->.
  assert (sess_ready i p s g go w1) as Hr1 by (destruct Hw1 as [a [-> | ->]]; [by apply ready_acq|done]).
  assert (w_devs w1 = w_devs w /\ w_num_intfs w1 = w_num_intfs w /\ w_trace w1 = w_trace w /\
          sess_effect i p g s (Some go) (w_devs w) w w1) as (Hd1 & Hn1 & Ht1 & He1).
  { destruct Hw1 as [a [-> | ->]]; split_and!; try done; [|by apply ready_refl_effect].
    pose proof (ready_refl_effect _ _ _ _ _ _ Hr) as []. by split. }
  unfold edges_started in HF, HS.
  destruct (negb (ses_lb_state s) || lb_started p s).
  2:{ by apply wpg_ret, HF. }
  cbn [andb] in HF, HS. apply wpg_bind.
  enough (forall r, r = (if negb (ses_ec_state s) || ec_started (w_devs w) s then 0 else - EINVAL) ->
    wpg u (if nz r then ret (Some r) else
      let! r := graph_start (ses_graph s) in ret (if nz r then Some r else None)) Q w1) as Hrest.
  { destruct (ses_ec_state s) eqn:Eec; [|by apply wpg_ret, Hrest].
    destruct (Hec eq_refl) as [Hle [d Hd]]. apply wpg_bind. rewrite <- Hd1 in Hd. rewrite <- Hn1 in Hle.
    eapply wpg_device_get_obj; [done|by exists d|]. cbn. rewrite bind_ret_l.
    apply wpg_bind. eapply wpg_read_dev; [done|]. apply wpg_ret, Hrest.
    unfold ec_started. rewrite <- Hd1, Hd. done. }
  intros r ->. destruct (negb (ses_ec_state s) || ec_started (w_devs w) s).
  2:{ by apply wpg_ret, HF. }
  apply wpg_bind. rewrite (sr_graph _ _ _ _ _ _ Hr1).
  change (graph_start (Some g)) with (run_graph GrStart g).
  eapply wpg_graph_ready; [exact Hr1|done|]. intros r go' calls w2 Ht Hr2 Hg2 Hd2 Hb2 Hf2.
  apply wpg_ret. eapply HS; [done|done|done| |by rewrite Hb2, Ht1].
  destruct He1 as [? Hg1 ? ?]. split; [by rewrite list_insert_id; destruct Hr2| | |by transitivity w1].
  - by rewrite Hg2, Hg1, list_insert_insert_eq.
  - congruence.
Qed.

(** Stopping what was started. *)
Lemma wpg_start_unwind u i p s g go w Q :
  sess_ready i p s g go w ->
  (forall s' go' ds' w', start_undo s go (w_devs w) s' go' ds' ->
     sess_effect i p g s' (Some go') ds' w w' ->
     pcm_balance (w_trace w') = pcm_balance (w_trace w) -> Q tt w') ->
  wpg u (start_unwind i) Q w.
Proof.
  intros Hr HQ. unfold start_unwind. apply wpg_bind. eapply wpg_read_ready; [done|].
  enough (forall go1 w1, sess_ready i p s g go1 w1 -> sess_effect i p g s (Some go1) (w_devs w) w w1 ->
    pcm_balance (w_trace w1) = pcm_balance (w_trace w) ->
    (forall rs ds' n, dev_run DStop (targets (is_state AIF_STARTED) (ses_aifs s)) (w_devs w) rs ds' n ->
       start_undo s go (w_devs w) (mark_all (is_state AIF_STARTED) AIF_OPENED s) go1 ds') ->
    wpg u (let! ix := aif_idx i in
           for_all ix (drop_body device_stop (is_state AIF_STARTED) AIF_OPENED i)) Q w1) as Hloop.
  { apply wpg_bind. change (sc_dir (ses_stream s)) with (dir_of s).
    destruct (Z.eqb_spec (dir_of s) TX) as [Htx|Htx].
    - rewrite (sr_graph _ _ _ _ _ _ Hr). change (graph_stop (Some g) None) with (run_graph (GrStop None) g).
      eapply wpg_graph_ready; [exact Hr|done|]. intros r go1 calls w1 Ht Hr1 Hg1 Hd1 Hb1 Hf1.
      eapply Hloop; [exact Hr1| |done|].
      + split; [by rewrite list_insert_id; destruct Hr1|done..].
      + intros. by eapply undo_tx.
    - apply wpg_ret. eapply Hloop; [exact Hr|by apply ready_refl_effect|done|].
      intros. by eapply undo_other. }
  intros go1 w1 Hr1 He1 Hb1 Hundo. apply wpg_bind. eapply wpg_aif_idx_ready; [exact Hr1|].
  destruct Hr1 as [Hp1 Hs1 Hg1 Hgo1 Hlive1 Hfree1].
  eapply wpg_mono; [by eapply (wp_drop_loop DStop)|].
  intros [] w2 (rs & [Hp2 (n & Hrun & Hb2) Ho2]). rewrite progress_all in Hp2.
  rewrite take_ge in Hrun by done. pose proof (dev_run_stop_balance _ _ _ _ _ Hrun) as ->.
  rewrite (se_devs _ _ _ _ _ _ _ _ He1) in Hrun.
  eapply HQ; [by eapply Hundo| |by rewrite Hb2, Hb1].
  eapply sess_effect_trans; [exact He1|]. split; [|by rewrite (os_graphs _ _ Ho2), list_insert_id|done|].
  - by rewrite list_insert_insert_eq.
  - by apply outside_sess_frame.
Qed.

(** The loop over the devices. *)
Lemma wpg_start_devices u i p s g go w Q :
  sess_ready i p s g go w ->
  (forall r s' ds' w', start_loop s (w_devs w) r s' ds' -> sess_ready i (<[i := s']> p) s' g go w' ->
     sess_effect i p g s' (Some go) ds' w w' ->
     pcm_balance (w_trace w') = pcm_balance (w_trace w) -> Q r w') ->
  wpg u (aif_idx i) (fun ix => wpg u (for_idx ix (start_aif i)) Q) w.
Proof.
  intros Hr HQ. eapply wpg_aif_idx_ready; [done|]. pose proof Hr as [Hp Hs Hg Hgo Hlive Hfree].
  eapply wpg_mono; [by eapply (wp_try_loop DStart device_start (fun _ => eq_refl) startable AIF_STARTED)|].
  intros r w' (rs & Hz & Hexit).
  assert (forall k kd rs', loop_at DStart startable AIF_STARTED i p s w k kd rs' w' ->
    let s' := set_ses_aifs (progress startable AIF_STARTED k (ses_aifs s)) s in
    sess_effect i p g s' (Some go) (w_devs w') w w' /\ sess_ready i (<[i := s']> p) s' g go w' /\
    pcm_balance (w_trace w') = pcm_balance (w_trace w) /\
    dev_run DStart (targets startable (take kd (ses_aifs s))) (w_devs w) rs' (w_devs w') 0) as Hat.
  { intros k kd rs' [Hp' (n & Hrun & Hb) Ho] s'.
    assert (n = 0) as ->.
    { clear -Hrun. induction Hrun as [|? d r d' m l ds rs ds' n Hk Ht Hr IH]; [done|].
      inversion Ht; subst; lia. }
    assert (sess_effect i p g s' (Some go) (w_devs w') w w') as He.
    { split; [done| |done|by apply outside_sess_frame]. by rewrite (os_graphs _ _ Ho), list_insert_id. }
    split_and!; try done. eapply effect_ready; [done..|].
    unfold s', progress. cbn. apply Forall_app. split.
    - apply Forall_fmap. eapply Forall_impl; [by apply Forall_take|].
      intros a Ha. apply aif_live_mark. by eapply aif_live_run.
    - apply Forall_drop. eapply Forall_impl; [done|]. intros a Ha. by eapply aif_live_run. }
  destruct r as [r|].
  - destruct Hexit as (Hr0 & k & a & Hk & Ha & Hl). destruct (Hat _ _ _ Hl) as (He & Hr' & Hb & Hrun).
    eapply HQ; [|exact Hr'|exact He|done]. by eapply start_some.
  - destruct (Hat _ _ _ Hexit) as (He & Hr' & Hb & Hrun). rewrite take_ge in Hrun by done.
    rewrite progress_all in He, Hr'. eapply HQ; [|exact Hr'|exact He|done]. by eapply start_all.
Qed.

(** The devices, the graph of a playback session and the end of
    [session_start]. *)
Definition start_tail (i : nat) (dir : Z) : AGM Z :=
  let! ix := aif_idx i in
  let! exit_ := for_idx ix (start_aif i) in
  let! exit_ :=
    (match exit_ with
     | Some r => ret (Some r)
     | None =>
         if dir =? RX then
           let! s := read_sess i in
           let! r := graph_start (ses_graph s) in
           ret (if nz r then Some r else None)
         else ret None
     end) in
  match exit_ with
  | Some r => do! start_unwind i ; ret r
  | None => do! upd_sess i (set_ses_state SESSION_STARTED) ; ret 0
  end.

Inductive tail_spec (s : session_obj) (go : graph_obj) (ds : list (option device_obj))
  : Z -> session_obj -> graph_obj -> list (option device_obj) -> Prop :=
  | tail_ok go' s' ds' :
      start_loop s ds None s' ds' ->
      (if dir_of s =? RX then exists calls, graph_trans GrStart go 0 go' calls else go' = go) ->
      tail_spec s go ds 0 (set_ses_state SESSION_STARTED s') go' ds'
  | tail_device_failed r s1 ds1 s2 go2 ds2 :
      start_loop s ds (Some r) s1 ds1 -> start_undo s1 go ds1 s2 go2 ds2 ->
      tail_spec s go ds r s2 go2 ds2
  | tail_graph_failed r go1 calls s1 ds1 s2 go2 ds2 :
      dir_of s = RX -> start_loop s ds None s1 ds1 -> graph_trans GrStart go r go1 calls ->
      r <> 0 -> start_undo s1 go1 ds1 s2 go2 ds2 -> tail_spec s go ds r s2 go2 ds2.

Lemma wp_start_tail u i p s g go w Q :
  sess_ready i p s g go w ->
  (forall r s' go' ds' w', tail_spec s go (w_devs w) r s' go' ds' ->
     sess_effect i p g s' (Some go') ds' w w' ->
     pcm_balance (w_trace w') = pcm_balance (w_trace w) -> Q r w') ->
  wpg u (start_tail i (dir_of s)) Q w.
Proof.
  intros Hr HQ. pose proof (lookup_lt_Some _ _ _ (sr_sess _ _ _ _ _ _ Hr)) as Hi.
  apply wpg_bind. eapply wpg_mono; [|intros ix w'; apply wpg_bind].
  eapply wpg_start_devices; [done|]. intros r s1 ds1 w1 Hl Hr1 He1 Hb1.
  destruct (start_loop_dir _ _ _ _ _ Hl) as (Hdir & _ & _). apply wpg_bind.
  assert (forall r go2 w2, sess_ready i (<[i := s1]> p) s1 g go2 w2 ->
    sess_effect i p g s1 (Some go2) ds1 w w2 -> pcm_balance (w_trace w2) = pcm_balance (w_trace w) ->
    (forall s3 go3 ds3, start_undo s1 go2 ds1 s3 go3 ds3 -> tail_spec s go (w_devs w) r s3 go3 ds3) ->
    wpg u (do! start_unwind i ; ret r) Q w2) as Hundo.
  { intros r' go2 w2 Hr2 He2 Hb2 Hsp. apply wpg_bind. eapply wpg_start_unwind; [exact Hr2|].
    intros s3 go3 ds3 w3 Hu He3 Hb3. apply wpg_ret.
    rewrite (se_devs _ _ _ _ _ _ _ _ He2) in Hu.
    eapply HQ; [by apply Hsp|by eapply sess_effect_trans|by rewrite Hb3, Hb2]. }
  assert (forall go2 w2, sess_effect i p g s1 (Some go2) ds1 w w2 ->
    pcm_balance (w_trace w2) = pcm_balance (w_trace w) ->
    tail_spec s go (w_devs w) 0 (set_ses_state SESSION_STARTED s1) go2 ds1 ->
    wpg u (do! upd_sess i (set_ses_state SESSION_STARTED) ; ret 0) Q w2) as Hok.
  { intros go2 w2 He2 Hb2 Hsp. apply wpg_bind. eapply wpg_upd_effect; [done|exact He2|].
    intros w3 He3 Ht3. apply wpg_ret. eapply HQ; [exact Hsp|done|by rewrite Ht3]. }
  destruct r as [r|].
  { apply wpg_ret. eapply Hundo; [exact Hr1|done..|]. intros. by eapply tail_device_failed. }
  destruct (dir_of s =? RX) eqn:Erx.
  2:{ apply wpg_ret. eapply Hok; [exact He1|done|]. eapply tail_ok; [done|]. by rewrite Erx. }
  apply wpg_bind. eapply wpg_read_ready; [exact Hr1|]. rewrite (sr_graph _ _ _ _ _ _ Hr1).
  change (graph_start (Some g)) with (run_graph GrStart g). apply wpg_bind.
  eapply wpg_graph_ready; [exact Hr1|done|]. intros r go2 calls w2 Ht Hr2 Hg2 Hd2 Hb2 Hf2.
  assert (sess_effect i p g s1 (Some go2) ds1 w w2) as He2.
  { eapply sess_effect_trans; [exact He1|]. split; [|done|by rewrite Hd2; destruct He1|done].
    rewrite list_insert_insert_eq. by destruct Hr2. }
  apply wpg_ret. destruct (nz r) eqn:Hnz; bool_hyps.
  - eapply Hundo; [exact Hr2|exact He2|by rewrite Hb2|]. intros. by eapply tail_graph_failed; [lia|..].
  - subst r. eapply Hok; [exact He2|by rewrite Hb2|]. eapply tail_ok; [done|]. rewrite Erx. by exists calls.
Qed.

Lemma wp_session_start u i p s g go w Q :
  sess_ready i p s g go w -> (dir_of s = TX -> edges_ok p s w) ->
  (forall r s' go' ds' w', sess_start p s go (w_devs w) r s' go' ds' ->
     sess_effect i p g s' (Some go') ds' w w' ->
     pcm_balance (w_trace w') = pcm_balance (w_trace w) -> Q r w') ->
  wpg u (session_start i) Q w.
Proof.
  intros Hr Hedges HQ. unfold session_start, aif_obj_get_count_with_state.
  apply wpg_bind, wpg_bind. eapply wpg_read_ready; [done|]. apply wpg_ret.
  change (List.filter (state_matches AIF_OPENED false) (ses_aifs s)) with
    (List.filter opened_aif (ses_aifs s)).
  destruct (List.filter opened_aif (ses_aifs s)) as [|a l] eqn:Ef; cbn [length].
  { apply wpg_ret. eapply HQ; [by apply start_no_aif|by apply ready_refl_effect|done]. }
  rewrite (proj2 (Z.eqb_neq _ _)) by lia. apply wpg_bind. eapply wpg_read_ready; [done|].
  change (sc_dir (ses_stream s)) with (dir_of s). apply wpg_bind.
  destruct (Z.eqb_spec (dir_of s) TX) as [Htx|Htx].
  - eapply wpg_start_capture; [exact Hr|by apply Hedges| |].
    + intros w1 He He1 Ht1. apply wpg_ret.
      eapply HQ; [by apply start_edges|exact He1|by rewrite Ht1].
    + intros r go1 calls w1 He Ht Hr1 He1 Hb1. destruct (nz r) eqn:Hnz; bool_hyps.
      { apply wpg_ret. eapply HQ; [by eapply start_graph_failed|exact He1|done]. }
      subst r. change (wpg u (start_tail i (dir_of s)) Q w1). eapply wp_start_tail; [exact Hr1|].
      intros r s' go' ds' w' Hsp He' Hb'. rewrite (se_devs _ _ _ _ _ _ _ _ He1) in Hsp.
      eapply (HQ r s' go' ds'); [| |by rewrite Hb', Hb1].
      * destruct Hsp as [go' s' ds' Hl Hg|r s1 ds1 s2 go2 ds2 Hl Hu|r go2 calls2 s1 ds1 s2 go3 ds2 Hrx].
        -- rewrite Htx in Hg. cbn in Hg. subst go'. by eapply start_tx.
        -- by eapply start_tx_failed.
        -- by rewrite Htx in Hrx.
      * eapply sess_effect_trans; [exact He1|]. by rewrite list_insert_id by (by destruct Hr).
  - apply wpg_ret. change (wpg u (start_tail i (dir_of s)) Q w). eapply wp_start_tail; [exact Hr|].
    intros r s' go' ds' w' Hsp He' Hb'. eapply (HQ r s' go' ds'); [|exact He'|done].
    destruct Hsp as [go' s' ds' Hl Hg|r s1 ds1 s2 go2 ds2 Hl Hu|r go2 calls2 s1 ds1 s2 go3 ds2 Hrx].
    + destruct (Z.eqb_spec (dir_of s) RX).
      * destruct Hg as [calls Hg]. by eapply start_rx.
      * subst go'. by eapply start_no_direction.
    + by eapply start_device_failed.
    + by eapply start_rx_failed.
Qed.
End Start.
