(* ===== verification/SessionPrepare.v ===== *)
(** * Preparing a session

    [session_prepare] prepares the graph and the device of every open interface,
    the graph first for capture and last for playback, and leaves a running
    graph alone. *)

From S2P Require Export SessionSpec.
Open Scope Z_scope.
#[export] Set Default Goal Selector "!".

(** A ready session whose graph can be configured. *)
Record prep_ready (i : nat) (p : list session_obj) (s : session_obj) (g : nat) (go : graph_obj)
    (w : world) : Prop := PrepReady {
  pr_ready : sess_ready i p s g go w;
  pr_wf : graph_wf w g go;
  pr_sess : gr_sess go = Some i
}.

(** The part of the session that configuring reads. *)
Definition same_config (s s' : session_obj) : Prop :=
  ses_stream s' = ses_stream s /\ ses_media s' = ses_media s.

Lemma graph_wf_upd w w' i g go go' p' s' :
  graph_wf w g go -> w_graphs w' !! g = Some (Some go') -> gr_sess go = Some i ->
  gr_sess go' = Some i -> Forall2 mod_conf (gr_mods go) (gr_mods go') ->
  w_pool w' = Some p' -> p' !! i = Some s' ->
  (forall p s, w_pool w = Some p -> p !! i = Some s -> same_config s s') ->
  (forall k, live_slot (w_devs w) k -> live_slot (w_devs w') k) -> graph_wf w' g go'.
Proof.
  intros (Hg & Hl & Hm) Hg' Hi Hi' Hmods Hp' Hs' Hcfg Hdev. split; [done|]. split.
  - apply (graph_live_intro _ _ _ Hg) in Hl as (i0 & p & s & Hi0 & Hp & Hs & Hok).
    apply (graph_live_intro _ _ _ Hg'). exists i, p', s'. split_and!; [done..|].
    rewrite Hi in Hi0. injection Hi0 as <-. destruct (Hcfg _ _ Hp Hs) as [E1 E2].
    unfold session_data_ok. by rewrite E1, E2.
  - apply Forall_forall. intros md Hin. apply list_elem_of_lookup_1 in Hin as [j Hj].
    destruct (Forall2_lookup_r _ _ _ _ _ Hmods Hj) as (a & Ha & Hab).
    eapply module_ok_conf; [exact Hab|].
    destruct (Forall_lookup_1 _ _ _ _ Hm Ha) as (Hd & Hc). split; [|exact Hc].
    intros k Hk. by apply Hdev, Hd.
Qed.

Section Prepare.
Context `{Env} `{!ConstsOk env_consts} (Halloc : forall n, env_alloc n = true).

(** [prepare_graph] for one direction. *)
Lemma wp_prepare_graph i p s g go w d Q :
  prep_ready i p s g go w ->
  (forall r go' w',
     (if (dir_of s =? d) && negb (bool_decide (ses_state s = SESSION_STARTED))
      then (r = 0 -> gr_state go' = PREPARED) else r = 0 /\ go' = go) ->
     prep_ready i p s g go' w' -> w_devs w' = w_devs w -> sess_frame w w' -> Q r w') ->
  wp (prepare_graph i d) Q w.
Proof using Halloc ConstsOk0.
  intros [Hr Hwf Hi] HQ. unfold prepare_graph. apply wpg_bind. eapply wpg_read_ready; [exact Hr|].
  change (sc_dir (ses_stream s)) with (dir_of s).
  destruct ((dir_of s =? d) && negb (bool_decide (ses_state s = SESSION_STARTED))).
  2:{ apply wpg_ret. by eapply HQ. }
  destruct Hr as [Hp Hs Hg Hgo Hlive Hfree]. rewrite Hg.
  eapply wpg_mono; [eapply (wp_graph_prepare Halloc _ go s); [done| |by apply locks_free_graph]|].
  { unfold graph_session_of. rewrite Hi. cbn. by rewrite Hp. }
  intros r w' [Hf (go' & Hgo' & Hc & Hr0 & _ & _)]. pose proof (graph_sess_frame _ _ _ Hf) as Hsf.
  destruct Hf, Hc. eapply HQ; [exact Hr0| |done|done]. split; [|eapply graph_wf_upd|by rewrite <- Hi].
  - split; [by rewrite gf_pool|done..|by rewrite gf_devs|by eapply locks_free_frame].
  - exact Hwf.
  - done.
  - exact Hi.
  - by rewrite <- Hi.
  - done.
  - by rewrite gf_pool.
  - done.
  - intros p1 s1 Hp1 Hs1. by simplify_eq.
  - by rewrite gf_devs.
Qed.

(** What is known at the end: [k] interfaces marked, [kd] devices prepared. *)
Definition prepare_result (i : nat) (p : list session_obj) (s : session_obj) (g : nat)
    (w : world) (r : Z) (w' : world) : Prop :=
  exists k kd rs n st go',
    w_pool w' = Some (<[i := set_ses_state st
      (set_ses_aifs (progress preparable AIF_PREPARED k (ses_aifs s)) s)]> p) /\
    dev_run DPrepare (targets preparable (take kd (ses_aifs s))) (w_devs w) rs (w_devs w') n /\
    w_graphs w' !! g = Some (Some go') /\ sess_frame w w' /\
    (r = 0 -> st = SESSION_PREPARED /\ k = length (ses_aifs s) /\ kd = k /\ Forall (eq 0) rs /\
       ((dir_of s = RX \/ dir_of s = TX) -> ses_state s <> SESSION_STARTED ->
          gr_state go' = PREPARED)) /\
    (r <> 0 -> st = ses_state s).

Lemma set_ses_state_id s : set_ses_state (ses_state s) s = s.
Proof using. by destruct s. Qed.

Lemma prepare_nothing i p s g go w w' r :
  prep_ready i p s g go w' -> w_devs w' = w_devs w -> sess_frame w w' -> r <> 0 ->
  prepare_result i p s g w r w'.
Proof using.
  intros [Hr _ _] Hd Hf Hnz. exists 0%nat, 0%nat, [], 0, (ses_state s), go.
  rewrite progress_0, set_ses_aifs_id, set_ses_state_id. destruct Hr as [Hp Hs Hg Hgo _ _].
  rewrite list_insert_id by done. split_and!; try done. rewrite Hd. constructor.
Qed.

Lemma wp_session_prepare i p s g go w :
  prep_ready i p s g go w -> wp (session_prepare i) (prepare_result i p s g w) w.
Proof using Halloc ConstsOk0.
  intros Hpr. pose proof (pr_ready _ _ _ _ _ _ Hpr) as Hr.
  pose proof (lookup_lt_Some _ _ _ (sr_sess _ _ _ _ _ _ Hr)) as Hi.
  unfold session_prepare, aif_obj_get_count_with_state.
  apply wpg_bind, wpg_bind. eapply wpg_read_ready; [exact Hr|]. apply wpg_ret.
  destruct (_ =? 0).
  { apply wpg_ret. by eapply prepare_nothing. }
  apply wpg_bind. eapply wp_prepare_graph; [exact Hpr|]. intros r1 go1 w1 Hg1 Hpr1 Hd1 Hf1.
  destruct (nz r1) eqn:Hnz; bool_hyps.
  { apply wpg_ret. by eapply prepare_nothing. }
  subst r1. pose proof (pr_ready _ _ _ _ _ _ Hpr1) as Hr1.
  apply wpg_bind. eapply wpg_aif_idx_ready; [exact Hr1|]. destruct Hr1 as [Hp1 Hs1 Hgr1 Hgo1 Hl1 Hfree1].
  apply wpg_bind. eapply wpg_mono.
  { by eapply (wp_try_loop DPrepare device_prepare (fun _ => eq_refl) preparable AIF_PREPARED). }
  intros r2 w2 (rs & Hz & Hexit). destruct r2 as [r2|].
  { destruct Hexit as (Hnz & k & a & Hk & Ha & [Hp2 (n & Hrun & Hb) Ho]). apply wpg_ret.
    exists k, (S k), (rs ++ [r2]), n, (ses_state s), go1. rewrite Hd1 in Hrun.
    split_and!; try done.
    - by rewrite (os_graphs _ _ Ho).
    - transitivity w1; [done|by apply outside_sess_frame]. }
  destruct Hexit as [Hp2 (n & Hrun & Hb) Ho]. rewrite progress_all in Hp2.
  set (s2 := mark_all preparable AIF_PREPARED s). change (set_ses_aifs _ s) with s2 in Hp2.
  rewrite take_ge in Hrun by done.
  assert (prep_ready i (<[i := s2]> p) s2 g go1 w2) as Hpr2.
  { split; [|eapply graph_wf_upd|by destruct Hpr1].
    - split; try done.
      + by apply list_lookup_insert_eq.
      + by rewrite (os_graphs _ _ Ho).
      + eapply live_mark_all; [exact Hrun|done].
      + eapply locks_free_frame; [by apply outside_sess_frame|done].
    - by destruct Hpr1.
    - by rewrite (os_graphs _ _ Ho).
    - by destruct Hpr1.
    - by destruct Hpr1.
    - reflexivity.
    - exact Hp2.
    - by apply list_lookup_insert_eq.
    - intros p3 s3 Hp3 Hs3. by simplify_eq.
    - intros k Hk. by eapply dev_run_live. }
  apply wpg_bind. eapply wp_prepare_graph; [exact Hpr2|]. intros r3 go3 w3 Hg3 Hpr3 Hd3 Hf3.
  assert (sess_frame w w3) as Hf.
  { transitivity w1; [done|]. transitivity w2; [by apply outside_sess_frame|done]. }
  rewrite Hd1 in Hrun. destruct Hpr3 as [[Hp3 Hs3 _ Hgo3 _ _] _ _].
  assert (forall r st, (r = 0 -> st = SESSION_PREPARED /\
      ((dir_of s = RX \/ dir_of s = TX) -> ses_state s <> SESSION_STARTED -> gr_state go3 = PREPARED)) ->
    (r <> 0 -> st = ses_state s) ->
    prepare_result i p s g w r (set_w_pool (Some (<[i := set_ses_state st s2]> p)) w3)) as Hres.
  { intros r st H0 H1. exists (length (ses_aifs s)), (length (ses_aifs s)), rs, n, st, go3.
    rewrite progress_all, take_ge by done. split_and!; try done.
    - wsimp. by rewrite Hd3.
    - by destruct Hf; split.
    - intros E. destruct (H0 E). by split_and!. }
  destruct (nz r3) eqn:Hnz3; bool_hyps.
  { apply wpg_ret. specialize (Hres r3 (ses_state s)). destruct w3; cbn in *. subst.
    by apply Hres. }
  subst r3. apply wpg_bind. eapply wpg_upd_sess; [exact Hp3|exact Hs3|]. apply wpg_ret.
  rewrite list_insert_insert_eq. apply Hres; [|done]. intros _. split; [done|].
  intros Hdir Hst. change (dir_of s2) with (dir_of s) in Hg3. change (ses_state s2) with (ses_state s) in Hg3.
  rewrite bool_decide_false in Hg1, Hg3 by done. rewrite andb_true_r in Hg1, Hg3.
  destruct Hdir as [E|E]; rewrite E in Hg1, Hg3; cbn in Hg1, Hg3; [by apply Hg3|].
  destruct Hg3 as [_ ->]. by apply Hg1.
Qed.
End Prepare.
