(* ===== verification/Agm.v ===== *)
(** * The client interface (service/src/agm.c)

    Every entry point finds the device or session object it is about, which
    for sessions creates it on first use, and calls the operation of [Session]
    or [Device].  A session handle ([uint64_t]) is 0 or one more than the
    position of the session in the pool. *)

From S2P Require Export Session.
Open Scope Z_scope.
#[export] Set Default Goal Selector "!".

Section Agm.
Context `{Env}.

Definition agm_init : AGM Z :=
  let! initialized := gets w_agm_initialized in
  if initialized : bool then ret 0 else
  do! ext AtsThread ;
  let! r := session_obj_init in
  if nz r then ret r else do! modify (set_w_agm_initialized true) ; ret r.

Definition agm_deinit : AGM Z :=
  let! initialized := gets w_agm_initialized in
  if initialized : bool then
    do! ext AtsDeinit ;
    do! session_obj_deinit ;
    do! modify (set_w_agm_initialized false) ;
    ret 0
  else ret 0.

(** ** Devices *)

(** [aif_list] tells whether the pointer is not NULL; the entries written and
    the new [*num_aif_info] come with the status. *)
Definition agm_get_aif_info_list (aif_list : bool) (num_aif_info : option Z)
  : AGM (Z * option (list (string * Z) * Z)) :=
  match num_aif_info with
  | None => ret (- EINVAL, None)
  | Some num =>
      if nz num && negb aif_list then ret (- EINVAL, None)
      else let! out := device_get_aif_info_list num in ret (0, Some out)
  end.

(** [body] on the device of an interface id. *)
Definition with_device (aif_id : Z) (body : option nat -> AGM Z) : AGM Z :=
  let! (r, obj) := device_get_obj aif_id in
  if nz r then ret r else body obj.

Definition agm_aif_set_metadata (aif_id size : Z) (metadata : list Z) : AGM Z :=
  with_device aif_id (fun obj => device_set_metadata obj size metadata).
Definition agm_aif_set_media_config (aif_id : Z) (cfg : option media_config) : AGM Z :=
  with_device aif_id (fun obj => device_set_media_config obj cfg).
Definition agm_aif_set_params (aif_id : Z) (payload : list Z) : AGM Z :=
  with_device aif_id (fun obj => device_set_params obj payload).

(** ** Sessions by id *)

(** [body] on the session with this id, or the status of [session_obj_get]. *)
Definition with_session {A} (session_id : Z) (fail : Z -> A) (body : nat -> AGM A) : AGM A :=
  let! (r, obj) := session_obj_get session_id in
  match obj with
  | Some i => if nz r then ret (fail r) else body i
  | None => ret (fail r)
  end.

Definition status (r : Z) : Z := r.

Definition agm_session_set_metadata (session_id size : Z) (metadata : list Z) : AGM Z :=
  with_session session_id status (fun i => session_obj_set_sess_metadata i size metadata).
Definition agm_session_aif_set_metadata (session_id aif_id size : Z) (metadata : list Z) : AGM Z :=
  with_session session_id status (fun i => session_obj_set_sess_aif_metadata i aif_id size metadata).
Definition agm_session_aif_get_tag_module_info (session_id aif_id : Z) (size : option Z)
  : AGM (Z * option (list Z * Z)) :=
  with_session session_id (fun r => (r, None))
    (fun i => session_obj_get_tag_with_module_info i aif_id size).
Definition agm_session_aif_set_cal (session_id aif_id : Z) (cal : list key_value) : AGM Z :=
  with_session session_id status (fun i => session_obj_set_sess_aif_cal i aif_id cal).
Definition agm_session_aif_set_params (session_id aif_id : Z) (payload : list Z) : AGM Z :=
  with_session session_id status (fun i => session_obj_set_sess_aif_params i aif_id payload).
Definition agm_session_get_params (session_id : Z) (payload : list Z) : AGM (Z * list Z) :=
  with_session session_id (fun r => (r, payload)) (fun i => session_obj_get_sess_params i payload).
Definition agm_session_set_params (session_id : Z) (payload : list Z) : AGM Z :=
  with_session session_id status (fun i => session_obj_set_sess_params i payload).
Definition agm_set_params_with_tag (session_id aif_id tag : Z) (tkv : key_vector) : AGM Z :=
  with_session session_id status
    (fun i => session_obj_set_sess_aif_params_with_tag i aif_id tag tkv).
Definition agm_session_register_cb (session_id cb evt_type client_data : Z) : AGM Z :=
  with_session session_id status (fun i => session_obj_register_cb i cb evt_type client_data).
Definition agm_session_register_for_events (session_id : Z) (cfg : option event_reg_cfg) : AGM Z :=
  match cfg with
  | None => ret (- EINVAL)
  | Some _ => with_session session_id status (fun i => session_obj_register_for_events i cfg)
  end.
Definition agm_session_aif_connect (session_id aif_id : Z) (state : bool) : AGM Z :=
  with_session session_id status (fun i => session_obj_sess_aif_connect i aif_id state).
Definition agm_session_set_loopback (capture_session_id playback_session_id : Z) (state : bool)
  : AGM Z :=
  with_session capture_session_id status
    (fun i => session_obj_set_loopback i playback_session_id state).
Definition agm_session_set_ec_ref (capture_session_id aif_id : Z) (state : bool) : AGM Z :=
  with_session capture_session_id status (fun i => session_obj_set_ec_ref i aif_id state).
(** [timestamp] tells whether the pointer is not NULL. *)
Definition agm_get_buffer_timestamp (session_id : Z) (timestamp : bool) : AGM (Z * option Z) :=
  with_session session_id (fun r => (r, None)) (fun i =>
    if negb timestamp then ret (- EINVAL, None) else session_obj_buffer_timestamp i).
Definition agm_session_get_buf_info (session_id : Z) (info : buf_info) (flag : Z)
  : AGM (Z * buf_info) :=
  with_session session_id (fun r => (r, info))
    (fun i => session_obj_get_sess_buf_info i info flag).

(** ** Sessions by handle *)

Definition handle_of (i : nat) : Z := Z.of_nat i + 1.

(** [body] on the session of a handle; 0 is NULL. *)
Definition with_handle {A} (hndl : Z) (null : A) (body : nat -> AGM A) : AGM A :=
  if hndl =? 0 then ret null else body (Z.to_nat (hndl - 1)).

(** [hndl] tells whether the pointer is not NULL; the handle stored through
    it comes with the status. *)
Definition agm_session_open (session_id : Z) (hndl : bool) : AGM (Z * option Z) :=
  if negb hndl then ret (- EINVAL, None)
  else let! (r, i) := session_obj_open session_id in ret (r, handle_of <$> i).

Definition agm_session_set_config (hndl : Z) (stream : session_config) (media : media_config)
    (buffer : buffer_config) : AGM Z :=
  with_handle hndl (- EINVAL) (fun i => session_obj_set_config i stream media buffer).
Definition agm_session_prepare (hndl : Z) : AGM Z :=
  with_handle hndl (- EINVAL) session_obj_prepare.
Definition agm_session_start (hndl : Z) : AGM Z := with_handle hndl (- EINVAL) session_obj_start.
Definition agm_session_stop (hndl : Z) : AGM Z := with_handle hndl (- EINVAL) session_obj_stop.
Definition agm_session_close (hndl : Z) : AGM Z := with_handle hndl (- EINVAL) session_obj_close.
Definition agm_session_pause (hndl : Z) : AGM Z := with_handle hndl (- EINVAL) session_obj_pause.
Definition agm_session_resume (hndl : Z) : AGM Z := with_handle hndl (- EINVAL) session_obj_resume.
Definition agm_session_write (hndl : Z) (buff : list Z) : AGM (Z * Z) :=
  with_handle hndl (- EINVAL, Z.of_nat (length buff)) (fun i => session_obj_write i buff).
Definition agm_session_read (hndl count : Z) : AGM (Z * Z * list Z) :=
  with_handle hndl (- EINVAL, count, []) (fun i => session_obj_read i count).
Definition agm_get_hw_processed_buff_cnt (hndl dir : Z) : AGM Z :=
  with_handle hndl (size_t_of_int (- EINVAL)) (fun i => session_obj_hw_processed_buff_cnt i dir).
Definition agm_session_eos (handle : Z) : AGM Z := with_handle handle (- EINVAL) session_obj_eos.
Definition agm_get_session_time (handle : Z) (timestamp : bool) : AGM (Z * option Z) :=
  if negb timestamp then ret (- EINVAL, None)
  else with_handle handle (- EINVAL, None) session_obj_get_timestamp.

Definition agm_register_service_crash_callback (cb cookie : Z) : Z := - ENOSYS.
End Agm.

(** ** Finding a session *)

Lemma find_session_Some p id j : find_session p id = Some j <->
  exists s, p !! j = Some s /\ ses_id s = id /\ forall k t, p !! k = Some t -> (k < j)%nat -> ses_id t <> id.
Proof.
  unfold find_session. rewrite fmap_Some. split.
  - intros ([k s] & Hf & ->). apply list_find_Some in Hf as (Hk & Hid & Hmin). by exists s.
  - intros (s & Hj & Hid & Hmin). exists (j, s). split; [|done]. apply list_find_Some. by split_and!.
Qed.
