(* ===== verification/SessionProps.v ===== *)
(** * Properties of sessions

    The theorems about [session_obj.c]: the pool of sessions, the state machine
    (start, stop, close), events, and the error paths that do not do what they
    mean to. *)

From S2P Require Export SessionStart SessionPrepare Agm GraphProps.
Open Scope Z_scope.
#[export] Set Default Goal Selector "!".

(** ** The pool of sessions *)

(** No two sessions of the pool have the same id. *)
Definition pool_ok (p : list session_obj) : Prop := NoDup (ses_id <$> p).

Lemma find_session_None p id : find_session p id = None -> Forall (fun s => ses_id s <> id) p.
Proof. unfold find_session. intros Hf. apply fmap_None in Hf. by apply list_find_None in Hf. Qed.

Lemma pool_ok_snoc p id : pool_ok p -> find_session p id = None -> pool_ok (p ++ [session_zero id]).
Proof.
  unfold pool_ok. intros Hp Hf. rewrite fmap_app. apply NoDup_app. split; [done|]. split; [|by apply NoDup_singleton].
  intros x Hx [->|[]%not_elem_of_nil]%elem_of_cons. apply list_elem_of_fmap in Hx as (s & Hs & Hin).
  apply find_session_None in Hf. rewrite Forall_forall in Hf. by apply (Hf s).
Qed.

Section Properties.
Context `{Env}.

(** [session_obj_get] finds the session with the id or appends a new,
    closed one; the pool has one session per id before and after, no session
    changes, the pool mutex is given back, and asking again gives the same
    session without touching the pool.  Without memory the status is
    [-ENOMEM] and the pool is as it was. *)
Theorem session_obj_get_correct id p w :
  w_pool w = Some p -> pool_ok p -> LPool ∉ w_held w ->
  wp (session_obj_get id) (fun res w' => exists p',
    w_pool w' = Some p' /\ pool_ok p' /\ w_held w' = w_held w /\ w_trace w' = w_trace w /\
    match res with
    | (r, Some j) => r = 0 /\ find_session p' id = Some j /\
        p' = (if find_session p id is Some _ then p else p ++ [session_zero id])
    | (r, None) => r = - ENOMEM /\ p' = p /\ find_session p id = None
    end) w.
Proof.
  intros Hp Hok Hl. unfold session_obj_get. apply wpg_bind, wpg_with_lock; [done|].
  apply wpg_bind, wpg_bind, wpg_gets. wsimp. rewrite Hp. apply wpg_ret.
  destruct (find_session p id) as [j|] eqn:Ef.
  { apply wpg_ret. split; [done|]. apply wpg_ret. exists p. by split_and!. }
  unfold session_obj_create. apply wpg_bind, wpg_bind, wpg_calloc. intros b _. destruct b; cbn [negb].
  - apply wpg_ret, wpg_bind, wpg_modify, wpg_ret. wsimp. split; [done|]. apply wpg_ret.
    exists (p ++ [session_zero id]). split; [done|]. split; [by apply pool_ok_snoc|].
    split; [done|]. split; [done|]. split; [done|]. split; [|done]. apply find_session_Some.
    exists (session_zero id). split; [by rewrite lookup_app_r, Nat.sub_diag by lia|].
    split; [done|]. intros k t Hk Hlt. rewrite lookup_app_l in Hk by lia.
    apply find_session_None in Ef. by apply (Forall_lookup_1 _ _ _ _ Ef Hk).
  - apply wpg_ret, wpg_ret. wsimp. split; [done|]. apply wpg_ret. exists p. by split_and!.
Qed.


(** C3: [session_close] on a ready open session closes the device of every
    open interface exactly once, frees the graph object, and leaves the
    session closed with no graph; the PCMs that close are those the device
    specification counts.  A closed session is told [-EALREADY]. *)
Theorem session_close_correct i p s g go w :
  sess_ready i p s g go w ->
  wp (session_close i) (fun r w' => exists s' ds' n,
    sess_close s (w_devs w) r s' ds' n /\
    sess_effect i p g s' (if decide (ses_state s = SESSION_CLOSED) then Some go else None) ds' w w' /\
    pcm_balance (w_trace w') = n + pcm_balance (w_trace w) /\
    ses_state s' = SESSION_CLOSED) w.
Proof.
  intros Hr. eapply wp_session_close; [done|]. intros r s' ds' n w' Hs He Hb.
  exists s', ds', n. split_and!; [done..|]. by destruct Hs.
Qed.


(** C4: with memory available, [session_prepare] on a ready session whose graph
    can be configured returns.  When it reports success the session is
    prepared, the device of every interface that was opened or stopped has
    been prepared, once, in the order of the pool, and the graph is prepared
    unless the session was running; when it fails the session keeps its state
    and a prefix of the interfaces is prepared. *)
Theorem session_prepare_correct i p s g go w :
  ConstsOk env_consts -> (forall n, env_alloc n = true) -> prep_ready i p s g go w ->
  wp (session_prepare i) (prepare_result i p s g w) w.
Proof. intros. by eapply wp_session_prepare. Qed.

(** An event reaches exactly the callbacks of the session that asked for
    its kind, in the order of registration, with the id of the session; the
    mutexes are given back and no object changes.  Without such a session it
    is dropped. *)
Theorem graph_event_cb_correct ev client_data p w :
  w_pool w = Some p -> LPool ∉ w_held w -> (forall i, LSessCb i ∉ w_held w) ->
  wp (graph_event_cb (Some ev) client_data) (fun _ w' =>
    w_held w' = w_held w /\ w_pool w' = Some p /\ w_graphs w' = w_graphs w /\
    exists t, w_trace w' = t ++ w_trace w /\
      rev (call_of <$> t) =
      match find_session p (u32 client_data) with
      | None => []
      | Some j =>
          match p !! j with
          | None => []
          | Some s => (fun c => ClientCb (cb_fn c) (ses_id s) ev (cb_client_data c)) <$>
                        List.filter (fun c => nz (cb_fn c) && cb_wants ev c) (ses_cbs s)
          end
      end) w.
Proof.
  intros Hp Hl Hcb. unfold graph_event_cb, session_obj_retrieve_from_pool.
  apply wpg_bind, wpg_with_lock; [done|]. apply wpg_bind, wpg_bind, wpg_gets. wsimp. rewrite Hp.
  apply wpg_ret, wpg_ret. split; [done|].
  destruct (find_session p (u32 client_data)) as [j|] eqn:Ef.
  2:{ apply wpg_ret. split_and!; [done..|]. by exists []. }
  destruct (find_session_lookup _ _ _ Ef) as [s Hs]. rewrite Hs.
  apply wpg_with_lock; [apply Hcb|]. apply wpg_bind. eapply wpg_read_sess; [done..|].
  match goal with |- wpg _ _ _ ?w1 => generalize (eq_refl : w_trace w1 = w_trace w), (eq_refl : w_held w1 = LSessCb j :: w_held w),
    (Hp : w_pool w1 = Some p), (eq_refl : w_graphs w1 = w_graphs w); generalize w1 end.
  intros w1 Ht Hh Hp1 Hg1.
  enough (wp (call_clients (ses_id s) ev (ses_cbs s)) (fun _ w' => exists t,
    w' = set_w_trace (t ++ w_trace w1) w1 /\
    rev (call_of <$> t) = (fun c => ClientCb (cb_fn c) (ses_id s) ev (cb_client_data c)) <$>
      List.filter (fun c => nz (cb_fn c) && cb_wants ev c) (ses_cbs s)) w1) as Hcalls.
  { eapply wpg_mono; [exact Hcalls|]. intros _ w' (t & -> & Hc). split; [done|].
    split_and!; [done..|]. exists t. wsimp. by rewrite Ht. }
  clear. revert w1. induction (ses_cbs s) as [|c l IH]; intros w1; cbn [call_clients].
  { apply wpg_ret. exists []. split; [by destruct w1|done]. }
  cbn [List.filter]. destruct (nz (cb_fn c) && cb_wants ev c) eqn:Ew.
  - apply wpg_bind. refine (wpg_ext _ _ _ _ _). intros a _.
    eapply wpg_mono; [apply IH|]. intros _ w' (t & -> & Hc). eexists (t ++ [Ev _ a]). split.
    + destruct w1. cbn. by rewrite <- app_assoc.
    + rewrite fmap_app, rev_app_distr, Hc. done.
  - apply wpg_bind, wpg_ret. apply IH.
Qed.

(** [aif_obj_get] finds the interface or appends one for the device of
    that number.  For a number beyond the devices it reports success too: the
    interface it appends has id 0 and no device. *)
Theorem aif_obj_get_correct i id p s w :
  w_pool w = Some p -> p !! i = Some s ->
  (u32 id <= w_num_intfs w -> live_slot (w_devs w) (Z.to_nat (u32 id))) ->
  wp (aif_obj_get i id) (fun res w' =>
    match list_find (fun a => aif_id a = id) (ses_aifs s) with
    | Some (j, _) => res = (0, Some j) /\ w' = w
    | None =>
        if env_alloc (w_allocs w) then
          res = (0, Some (length (ses_aifs s))) /\
          let a := if w_num_intfs w <? u32 id then aif_zero
                   else Aif id (Some (Z.to_nat (u32 id))) AIF_CLOSED meta_zero None in
          w_pool w' = Some (<[i := set_ses_aifs (ses_aifs s ++ [a]) s]> p)
        else res = (- ENOMEM, None) /\ w_pool w' = Some p
    end) w.
Proof.
  intros Hp Hs Hdev. unfold aif_obj_get, aif_obj_get_from_pool.
  apply wpg_bind, wpg_bind. eapply wpg_read_sess; [done..|]. apply wpg_ret.
  destruct (list_find _ (ses_aifs s)) as [[j a]|] eqn:Ef; [by apply wpg_ret|].
  apply wpg_bind, wpg_bind, wpg_calloc. intros b ->. wsimp.
  destruct (env_alloc (w_allocs w)) eqn:Ea; cbn [negb].
  2:{ by apply wpg_ret, wpg_ret. }
  assert (forall a, wp (let! s := read_sess i in
      do! upd_sess i (fun s => set_ses_aifs (ses_aifs s ++ [a]) s) ;
      ret (0, Some (length (ses_aifs s))))
    (fun res w' => res = (0, Some (length (ses_aifs s))) /\
       w_pool w' = Some (<[i := set_ses_aifs (ses_aifs s ++ [a]) s]> p))
    (set_w_allocs (S (w_allocs w)) w)) as Happ.
  { intros a. apply wpg_bind. eapply wpg_read_sess; [done..|]. apply wpg_bind.
    eapply wpg_upd_sess; [done..|]. by apply wpg_ret. }
  apply wpg_bind. destruct (Z.ltb_spec (w_num_intfs w) (u32 id)) as [Hlt|Hge].
  - unfold device_get_obj. apply wpg_bind, wpg_gets. wsimp. rewrite (proj2 (Z.ltb_lt _ _)) by done.
    apply wpg_ret, wpg_ret, Happ.
  - eapply wpg_device_get_obj; [done|by apply Hdev|]. apply wpg_ret, Happ.
Qed.

(** When connecting a further interface fails, the status of
    [session_connect_reminder_devices] is that of closing the graph, and the
    session has no graph: [session_obj_open] goes on and reports an open
    session. *)
Theorem reminder_failure_status i ix r w w1 :
  aif_idx i w = Ret ix w -> connect_rest i ix 1 w = Ret (Some r) w1 ->
  wlp (session_connect_reminder_devices i) (fun r' w' =>
    (r' = - EINVAL \/ exists a, r' = lnx_err (s32 a)) /\
    exists p s, w_pool w' = Some p /\ p !! i = Some s /\ ses_graph s = None) w.
Proof.
  intros Hix Hrest. unfold session_connect_reminder_devices. unfold wpg at 1.
  rewrite (bind_run _ _ _ _ _ Hix), (bind_run _ _ _ _ _ Hrest).
  match goal with |- match ?m w1 with _ => _ end => change (wlp m (fun r' w' =>
    (r' = - EINVAL \/ exists a, r' = lnx_err (s32 a)) /\
    exists p s, w_pool w' = Some p /\ p !! i = Some s /\ ses_graph s = None) w1) end.
  apply wpg_bind, run_wlp. intros [] w2 _. apply wpg_bind, run_wlp. intros s w3 _.
  apply wpg_bind.
  assert (wlp (graph_close (ses_graph s))
    (fun r' _ => r' = - EINVAL \/ exists a, r' = lnx_err (s32 a)) w3) as Hclose.
  { unfold graph_close. destruct (ses_graph s) as [g|]; [|apply wpg_ret; by left].
    unfold with_lock. apply wpg_bind, wpg_bind, wlp_mutex_lock, wpg_bind, wpg_bind, wlp_read_graph.
    intros go _. unfold gsl_close. apply wpg_bind. refine (wpg_ext _ _ _ _ _). intros a _.
    apply wpg_ret, wpg_bind, run_wlp. intros [] w4 _. apply wpg_ret, wpg_bind, run_wlp.
    intros [] w5 _. apply wpg_ret. right. by exists a. }
  eapply wpg_mono; [exact Hclose|]. intros r' w4 Hr'. apply wpg_bind.
  unfold upd_sess. apply wpg_bind, wpg_bind, wpg_gets.
  destruct (w_pool w4) as [p|] eqn:Hp; [|done]. apply wpg_ret, wpg_bind.
  destruct (p !! i) as [s4|] eqn:Hs; [|done]. apply wpg_ret, wpg_modify, wpg_ret.
  split; [done|]. exists (<[i := set_ses_graph None s4]> p), (set_ses_graph None s4).
  split; [done|]. split; [|done]. apply list_lookup_insert_eq. by eapply lookup_lt_Some.
Qed.
End Properties.

(** ** What a closed session refuses *)

Inductive closed_op : Type :=
  | CRead (count : Z)
  | CWrite (buff : list Z)
  | CEos
  | CTimestamp
  | CBufferTimestamp
  | CBufInfo (info : buf_info) (flag : Z)
  | CEvents (cfg : option event_reg_cfg)
  | CStop
  | CPause
  | CClose.

Section Closed.
Context `{Env}.

(** The status of the operation. *)
Definition run_closed (op : closed_op) (i : nat) : AGM Z :=
  match op with
  | CRead n => let! (r, _, _) := session_obj_read i n in ret r
  | CWrite b => let! (r, _) := session_obj_write i b in ret r
  | CEos => session_obj_eos i
  | CTimestamp => let! (r, _) := session_obj_get_timestamp i in ret r
  | CBufferTimestamp => let! (r, _) := session_obj_buffer_timestamp i in ret r
  | CBufInfo info flag => let! (r, _) := session_obj_get_sess_buf_info i info flag in ret r
  | CEvents cfg => session_obj_register_for_events i cfg
  | CStop => session_obj_stop i
  | CPause => session_obj_pause i
  | CClose => session_obj_close i
  end.

(** On a closed session, data, time, event and state operations are
    refused without a call to the outside; only the session mutex is taken
    and given back.  Closing again is [-EALREADY], the rest [-EINVAL]. *)
Theorem closed_session_refuses op i p s w :
  w_pool w = Some p -> p !! i = Some s -> ses_state s = SESSION_CLOSED -> LSess i ∉ w_held w ->
  run_closed op i w =
    Ret (match op with CClose => - EALREADY | _ => - EINVAL end)
      (set_w_acq ((LSess i, w_held w) :: w_acq w) w).
Proof.
  intros Hp Hs Hst Hl.
  assert (forall A (body : AGM A) (r : A),
    body (set_w_held (LSess i :: w_held w) (set_w_acq ((LSess i, w_held w) :: w_acq w) w)) =
      Ret r (set_w_held (LSess i :: w_held w) (set_w_acq ((LSess i, w_held w) :: w_acq w) w)) ->
    locked i body w = Ret r (set_w_acq ((LSess i, w_held w) :: w_acq w) w)) as Hlock.
  { intros A body r Hb. unfold locked, with_lock, mutex_lock. unfold bind at 1.
    rewrite bool_decide_false by done. rewrite (bind_run _ _ _ _ _ Hb). unfold mutex_unlock, bind.
    rewrite bool_decide_true by by constructor. wsimp. rewrite remove_lock_head by done.
    by destruct w. }
  assert (forall w', w_pool w' = w_pool w -> read_sess i w' = Ret s w') as Hread.
  { intros w' E. unfold read_sess, read_pool, bind, gets. rewrite E, Hp. cbn. by rewrite Hs. }
  assert (forall A (r : A) k,
    (let! s := locked i (read_sess i) in
     if bool_decide (ses_state s = SESSION_CLOSED) then ret r else k s) w =
    Ret r (set_w_acq ((LSess i, w_held w) :: w_acq w) w)) as Htest.
  { intros A r k. erewrite bind_run by (apply Hlock, Hread; reflexivity). by rewrite Hst. }
  destruct op; cbn [run_closed]; unfold session_obj_read, session_obj_write, session_obj_eos,
    session_obj_get_timestamp, session_obj_buffer_timestamp, session_obj_get_sess_buf_info,
    session_obj_register_for_events, session_obj_stop, session_obj_pause, session_obj_close,
    unless_closed, session_stop, session_close.
  all: repeat first
    [ erewrite bind_run by apply Htest
    | erewrite bind_run by (apply Hlock; erewrite bind_run by (apply Hread; reflexivity);
        rewrite Hst; reflexivity)
    | apply Hlock; erewrite bind_run by (apply Hread; reflexivity); rewrite Hst; reflexivity
    | erewrite bind_run by reflexivity | rewrite Hst ]; try reflexivity.
Qed.
End Closed.

(** ** The theorems at concrete inputs *)

(** One playback session with one interface on one device. *)
Definition one_aif (st : aif_state) : aif := Aif 0 (Some 0%nat) st meta_zero None.
Definition run_session (st : session_state) (ast : aif_state) : session_obj :=
  set_ses_graph (Some 0%nat) (set_ses_state st (set_ses_aifs [one_aif ast] play_session)).
Definition run_world (st : session_state) (ast : aif_state) (gst : Z) (dst : device_state) : world :=
  set_w_pool (Some [run_session st ast])
    (set_w_devs [Some (set_dev_refcnt (Refcount 1 1 1) (set_dev_state dst device_zero))]
      (set_w_num_intfs 1 (live_world gst))).

Lemma run_ready st ast gst dst :
  sess_ready 0 [run_session st ast] (run_session st ast) 0 (demo_graph gst) (run_world st ast gst dst).
Proof.
  split; try done.
  - repeat constructor. exists 0%nat. split; [done|]. by eexists.
  - intros l Hl. by apply elem_of_nil in Hl.
Qed.

Lemma run_prep_ready st ast gst dst :
  prep_ready 0 [run_session st ast] (run_session st ast) 0 (demo_graph gst) (run_world st ast gst dst).
Proof.
  split; [apply run_ready| |done]. split; [done|]. split.
  - do 4 eexists. split_and!; [reflexivity..|].
    split; [vm_compute; split; congruence|reflexivity].
  - repeat constructor; try done; cbn; try (intros i [= <-]; by eexists); by intros.
Qed.

Lemma session_obj_get_correct_witness :
  exists w', session_obj_get (H:=ok_env) 7 boot_world = Ret (0, Some 1%nat) w' /\
    w_pool w' = Some [play_session; session_zero 7].
Proof.
  pose proof (session_obj_get_correct (H:=ok_env) 7 [play_session] boot_world eq_refl
    ltac:(apply NoDup_singleton) ltac:(set_solver)) as Hwp.
  apply wp_run in Hwp as ([r [j|]] & w' & Hrun & p' & Hp & _ & _ & _ & Hr).
  - destruct Hr as (-> & _ & ->). exists w'. cbn in Hp. split; [|exact Hp].
    clear Hp. revert Hrun. vm_compute. by intros [= <- <-].
  - exfalso. revert Hrun. clear. vm_compute. discriminate.
Defined.


Lemma session_close_correct_witness :
  exists w', session_close (H:=ok_env) 0 (run_world SESSION_STOPPED AIF_STOPPED STOPPED DEV_STOPPED) =
      Ret 0 w' /\ w_graphs w' = [None] /\ pcm_balance (w_trace w') = -1.
Proof.
  pose proof (session_close_correct (H:=ok_env) _ _ _ _ _ _
    (run_ready SESSION_STOPPED AIF_STOPPED STOPPED DEV_STOPPED)) as Hwp.
  apply wp_run in Hwp as (r & w' & Hrun & _). exists w'. revert Hrun. clear.
  vm_compute. by intros [= <- <-].
Defined.


Lemma session_prepare_correct_witness :
  exists w', session_prepare (H:=ok_env) 0 (run_world SESSION_OPENED AIF_OPENED OPENED DEV_OPENED) =
      Ret 0 w' /\ w_pool w' = Some [run_session SESSION_PREPARED AIF_PREPARED].
Proof.
  pose proof (session_prepare_correct (H:=ok_env) _ _ _ _ _ _ demo_consts_ok (fun _ => eq_refl)
    (run_prep_ready SESSION_OPENED AIF_OPENED OPENED DEV_OPENED)) as Hwp.
  apply wp_run in Hwp as (r & w' & Hrun & _). exists w'. revert Hrun. clear.
  vm_compute. by intros [= <- <-].
Defined.

(** Two callbacks, one for data path events and one for module events. *)
Definition cb_session : session_obj :=
  set_ses_cbs [SessionCb 100 AGM_EVENT_DATA_PATH 5; SessionCb 101 AGM_EVENT_MODULE 6] play_session.
Definition cb_world : world := set_w_pool (Some [cb_session]) boot_world.
Definition module_event : event_params := EventParams 30 7 [].

Lemma graph_event_cb_correct_witness :
  exists w', graph_event_cb (H:=ok_env) (Some module_event) 1 cb_world = Ret tt w' /\
    call_of <$> w_trace w' = [ClientCb 101 1 module_event 6].
Proof.
  pose proof (graph_event_cb_correct (H:=ok_env) module_event 1 [cb_session] cb_world eq_refl
    ltac:(set_solver) ltac:(set_solver)) as Hwp.
  apply wp_run in Hwp as (r & w' & Hrun & _). exists w'. revert Hrun. clear.
  vm_compute. by intros [= <- <-].
Defined.

(** Two devices; the client names a third. *)
Lemma aif_obj_get_correct_witness :
  exists w', aif_obj_get (H:=ok_env) 0 9 (run_world SESSION_CLOSED AIF_CLOSED OPENED DEV_CLOSED) =
      Ret (0, Some 1%nat) w' /\
    w_pool w' = Some [set_ses_aifs [one_aif AIF_CLOSED; aif_zero] (run_session SESSION_CLOSED AIF_CLOSED)].
Proof.
  pose proof (aif_obj_get_correct (H:=ok_env) 0 9 _ _ (run_world SESSION_CLOSED AIF_CLOSED OPENED DEV_CLOSED)
    eq_refl eq_refl ltac:(by vm_compute)) as Hwp.
  apply wp_run in Hwp as (r & w' & Hrun & _). exists w'. revert Hrun. clear.
  vm_compute. by intros [= <- <-].
Defined.

(** Such an interface crashes the session that is opened with it. *)
Example open_without_device :
  (let! _ := agm_session_aif_connect (H:=ok_env) 1 9 true in session_obj_open (H:=ok_env) 1)
    (run_world SESSION_CLOSED AIF_CLOSED OPENED DEV_CLOSED) = Crash NullDeref.
Proof. vm_compute. reflexivity. Qed.

(** Two interfaces to connect, and a GSL that refuses to add the second. *)
Definition no_add_env : Env :=
  demo_env (fun _ c => match c as c' return option (ext_ans c') with
                       | GslIoctl _ (GSL_CMD_ADD_GRAPH _ _) => Some 2
                       | _ => None
                       end) (fun _ => true).
Definition two_aifs (first : aif_state) (g : option nat) : session_obj :=
  set_ses_graph g (set_ses_aifs
    [one_aif first; Aif 1 (Some 1%nat) AIF_OPEN meta_zero None] play_session).
Definition two_world (first : aif_state) (g : option nat) : world :=
  set_w_pool (Some [two_aifs first g])
    (set_w_devs [Some device_zero; Some device_zero] (set_w_num_intfs 2 (live_world OPENED))).

Lemma reminder_failure_status_witness :
  exists w', session_connect_reminder_devices (H:=no_add_env) 0 (two_world AIF_OPENED (Some 0%nat)) =
      Ret 0 w' /\ exists p s, w_pool w' = Some p /\ p !! 0%nat = Some s /\ ses_graph s = None.
Proof.
  destruct (connect_rest (H:=no_add_env) 0 [0; 1]%nat 1 (two_world AIF_OPENED (Some 0%nat)))
    as [r w1|] eqn:E1; [|exfalso; revert E1; clear; vm_compute; discriminate].
  destruct r as [r|]; [|exfalso; revert E1; clear; vm_compute; discriminate].
  pose proof (reminder_failure_status (H:=no_add_env) 0 [0; 1]%nat r (two_world AIF_OPENED (Some 0%nat))
    w1 eq_refl E1) as Hwlp.
  destruct (session_connect_reminder_devices (H:=no_add_env) 0 (two_world AIF_OPENED (Some 0%nat)))
    as [r' w'|] eqn:E2.
  - destruct (wlp_run _ _ _ _ _ Hwlp E2) as [_ Hp]. exists w'. split; [|exact Hp].
    clear Hp Hwlp E1. revert E2. vm_compute. by intros [= <- <-].
  - exfalso. revert E2. clear. vm_compute. discriminate.
Defined.

(** The client of that session is given a handle, and the session has no graph. *)
Example open_without_graph :
  exists w', session_obj_open (H:=no_add_env) 1 (two_world AIF_OPEN None) = Ret (0, Some 0%nat) w' /\
    (s ← (p ← w_pool w'; p !! 0%nat); Some (ses_state s, ses_graph s)) = Some (SESSION_OPENED, None).
Proof.
  destruct (session_obj_open (H:=no_add_env) 1 (two_world AIF_OPEN None)) as [r w'|] eqn:E.
  - exists w'. revert E. vm_compute. by intros [= <- <-].
  - exfalso. revert E. vm_compute. discriminate.
Qed.

Lemma closed_session_refuses_witness :
  exists w', run_closed (H:=ok_env) (CRead 64) 0 boot_world = Ret (- EINVAL) w' /\ w_trace w' = [].
Proof.
  eexists. split.
  - apply (closed_session_refuses (H:=ok_env) (CRead 64) 0 [play_session] play_session boot_world
      eq_refl eq_refl eq_refl). set_solver.
  - reflexivity.
Defined.
