(* ===== verification/SessionLocks.v ===== *)
(** * The order of the mutexes

    [w_acq] logs every mutex taken with the mutexes held at that moment.  The
    shut-down path takes a session mutex under the mutex of the pool; the
    loopback path of an open session takes the mutex of the pool under a session
    mutex. *)

From S2P Require Export SessionProps.
Open Scope Z_scope.
#[export] Set Default Goal Selector "!".

(** The log only grows. *)
Definition acq_grows (w w' : world) : Prop := exists t, w_acq w' = t ++ w_acq w.

#[export] Instance acq_grows_preorder : PreOrder acq_grows.
Proof.
  split; [by intros w; exists []|].
  intros w1 w2 w3 [t1 H1] [t2 H2]. exists (t2 ++ t1). by rewrite H2, H1, app_assoc.
Qed.

Section Grows.
Context `{Env}.
#[local] Abbreviation A_ := (Steps acq_grows).

Lemma A_keeps {A} (m : AGM A) : Keeps w_acq m -> A_ m.
Proof. intros Hk w a w' Hr. exists []. by eapply Hk. Qed.

Lemma A_ext c : A_ (ext c).
Proof. apply A_keeps. apply Keeps_ext. reflexivity. Qed.

Lemma A_lock l : A_ (mutex_lock l).
Proof.
  intros w a w'. unfold mutex_lock. case_bool_decide; [done|]. intros [= _ <-].
  by exists [(l, w_held w)].
Qed.

Lemma A_with_lock {A} l (body : AGM A) : A_ body -> A_ (with_lock l body).
Proof.
  intros Hb. unfold with_lock. apply Steps_bind; [apply _|apply A_lock|intros _].
  apply Steps_bind; [apply _|done|intros r].
  apply Steps_bind; [apply _|apply A_keeps; keeps_tac|intros _]. apply Steps_ret. apply _.
Qed.

Lemma A_graph g {A} (m : AGM A) : Steps (graph_frame g) m -> A_ m.
Proof. intros Hm w a w' Hr. destruct (gf_acq _ _ _ (Hm _ _ _ Hr)) as (t & Ht & _). by exists t. Qed.
End Grows.

#[export] Hint Resolve A_lock : steps.
#[export] Hint Extern 1 (Steps acq_grows (with_lock _ _)) => (apply A_with_lock; solve [steps_tac]) : steps.
#[export] Hint Extern 3 (Steps acq_grows _) =>
  (match goal with |- @Steps _ _ _ (ext ?c) => exact (A_ext c) end) : steps.
#[export] Hint Extern 4 (Steps acq_grows _) => (apply A_keeps; solve [keeps_tac]) : steps.

Section Operations.
Context `{Env}.
#[local] Abbreviation A_ := (Steps acq_grows).

Ltac graph_op := intros o; intros; destruct o as [g|];
  [eapply (A_graph g); auto with steps | apply Steps_ret; apply _].

Lemma A_graph_stop o m : A_ (graph_stop o m).
Proof. revert m. revert o. graph_op. Qed.
Lemma A_graph_close o : A_ (graph_close o).
Proof. revert o. graph_op. Qed.
Lemma A_graph_add o m d : A_ (graph_add o m d).
Proof. revert m d. revert o. graph_op. Qed.
Lemma A_graph_remove o m : A_ (graph_remove o m).
Proof. revert m. revert o. graph_op. Qed.

Lemma A_update_sysfs a b : A_ (update_sysfs_fd a b).
Proof. unfold update_sysfs_fd. steps_tac. Qed.
#[local] Hint Resolve A_graph_stop A_graph_close A_graph_add A_graph_remove A_update_sysfs : steps.

Lemma A_device_close o : A_ (device_close o).
Proof. unfold device_close. steps_tac. Qed.
#[local] Hint Resolve A_device_close : steps.

Lemma A_set_aif_state i j st : A_ (set_aif_state i j st).
Proof. unfold set_aif_state. steps_tac. Qed.
Lemma A_aif_idx i : A_ (aif_idx i).
Proof. unfold aif_idx. steps_tac. Qed.
#[local] Hint Resolve A_set_aif_state A_aif_idx : steps.

Lemma A_close_aif i j r : A_ (close_aif i j r).
Proof. unfold close_aif. steps_tac. Qed.
#[local] Hint Resolve A_close_aif : steps.
Lemma A_session_close i : A_ (session_close i).
Proof. unfold session_close. steps_tac. Qed.

Lemma A_merge_copy acc ms : A_ (merge_copy acc ms).
Proof.
  revert acc. induction ms as [|m ms IH]; intros acc; cbn [merge_copy]; [steps_tac|].
  destruct acc as [[[g c] i] p]. unfold memcpy_from. steps_tac.
Qed.
#[local] Hint Resolve A_merge_copy : steps.
Lemma A_metadata_merge l : A_ (metadata_merge l).
Proof. unfold metadata_merge. steps_tac. Qed.
#[local] Hint Resolve A_metadata_merge : steps.
Lemma A_merge_loop args l t : (forall t a, A_ (args t a)) -> A_ (merge_loop args l t).
Proof. intros Ha. revert t. induction l as [|a l IH]; intros t; cbn [merge_loop]; steps_tac. Qed.
Lemma A_merged i : A_ (session_get_merged_metadata i).
Proof.
  unfold session_get_merged_metadata, aif_dev_meta.
  apply Steps_bind; [apply _|steps_tac|intros s]. apply A_merge_loop. steps_tac.
Qed.
#[local] Hint Resolve A_merged : steps.
Lemma A_add_or_remove i m b : A_ (add_or_remove i m b).
Proof. unfold add_or_remove. steps_tac. Qed.
#[local] Hint Resolve A_add_or_remove : steps.

(** What is in the log stays there. *)
Lemma wlp_logged {A} (m : AGM A) e w : A_ m -> e ∈ w_acq w -> wlp m (fun _ w' => e ∈ w_acq w') w.
Proof.
  intros Hm He. apply run_wlp. intros a w' Hr. destruct (Hm _ _ _ Hr) as [t ->].
  apply elem_of_app. by right.
Qed.

(** After taking the mutex [l] under the mutexes [h], the log says so for good. *)
Lemma wlp_lock_logged {A} l (k : unit -> AGM A) w :
  (forall t, A_ (k t)) -> wlp (bind (mutex_lock l) k) (fun _ w' => (l, w_held w) ∈ w_acq w') w.
Proof.
  intros Hk. apply wpg_bind, wlp_mutex_lock. apply wlp_logged; [apply Hk|]. constructor.
Qed.

Lemma wlp_bind_logged {A B} (m : AGM A) (k : A -> AGM B) e w :
  wlp m (fun _ w' => e ∈ w_acq w') w -> (forall a, A_ (k a)) ->
  wlp (bind m k) (fun _ w' => e ∈ w_acq w') w.
Proof. intros Hm Hk. apply wpg_bind. eapply wpg_mono; [exact Hm|]. intros a w' He. by apply wlp_logged. Qed.

(** The two orders.  Shutting down with a session in the pool takes a
    session mutex while the mutex of the pool is held; setting a new loopback
    on an open session takes the mutex of the pool while the session mutex is
    held: two threads doing so can wait for each other for ever. *)
Theorem lock_order_inversion :
  (forall p w, w_pool w = Some p -> p <> [] ->
     wlp session_pool_free (fun _ w' => exists h, (LSess 0, h) ∈ w_acq w' /\ LPool ∈ h) w) /\
  (forall i p s pb_id w, w_pool w = Some p -> p !! i = Some s -> ses_state s <> SESSION_CLOSED ->
     ses_lb_state s = false ->
     wlp (session_obj_set_loopback i pb_id true)
       (fun _ w' => exists h, (LPool, h) ∈ w_acq w' /\ LSess i ∈ h) w).
Proof.
  split.
  - intros p w Hp Hne. unfold session_pool_free. apply wpg_bind, wlp_mutex_lock.
    set (w1 := set_w_held _ _). apply wpg_bind, wpg_bind, wpg_gets. change (w_pool w1) with (w_pool w).
    rewrite Hp. apply wpg_ret. destruct p as [|s p]; [done|]. cbn [length seq for_all].
    eapply wpg_mono with (Q := fun _ w' => (LSess 0, LPool :: w_held w) ∈ w_acq w').
    2:{ intros _ w' Hw'. eexists. split; [exact Hw'|by constructor]. }
    pose proof A_session_close.
    apply wlp_bind_logged; [|steps_tac]. apply wlp_bind_logged; [|steps_tac].
    apply (wlp_lock_logged (LSess 0) _ w1). steps_tac.
  - intros i p s pb_id w Hp Hs Hst Hlb. unfold session_obj_set_loopback, locked, with_lock.
    apply wpg_bind, wlp_mutex_lock. set (w1 := set_w_held _ _).
    eapply wpg_mono with (Q := fun _ w' => (LPool, LSess i :: w_held w) ∈ w_acq w').
    2:{ intros _ w' Hw'. eexists. split; [exact Hw'|by constructor]. }
    apply wlp_bind_logged; [|steps_tac]. apply wpg_bind. eapply wpg_read_sess; [done..|].
    rewrite Hlb, andb_false_r.
    unfold set_edge. apply wpg_bind. eapply wpg_read_sess; [done..|]. apply wlp_bind_logged; [|steps_tac].
    rewrite bool_decide_false by done. unfold session_set_loopback. apply wlp_bind_logged; [|steps_tac].
    unfold session_obj_get. apply wlp_bind_logged; [|steps_tac].
    apply (wlp_lock_logged LPool _ w1). unfold session_obj_create. steps_tac.
Qed.
End Operations.

(** ** The theorem at a concrete input *)

Lemma lock_order_inversion_witness :
  (exists w' h, session_pool_free (H:=ok_env) boot_world = Ret tt w' /\ (LSess 0, h) ∈ w_acq w' /\ LPool ∈ h) /\
  (exists r w' h, session_obj_set_loopback (H:=ok_env) 0 7 true
       (run_world SESSION_OPENED AIF_OPENED OPENED DEV_OPENED) = Ret r w' /\
     (LPool, h) ∈ w_acq w' /\ LSess 0 ∈ h).
Proof.
  destruct (lock_order_inversion (H:=ok_env)) as [H1 H2]. split.
  - destruct (session_pool_free (H:=ok_env) boot_world) as [[] w'|] eqn:E;
      [|exfalso; revert E; clear; vm_compute; discriminate].
    destruct (wlp_run _ _ _ _ _ (H1 [play_session] boot_world eq_refl ltac:(done)) E) as (h & Ha & Hb).
    by exists w', h.
  - destruct (session_obj_set_loopback (H:=ok_env) 0 7 true
      (run_world SESSION_OPENED AIF_OPENED OPENED DEV_OPENED)) as [r w'|] eqn:E;
      [|exfalso; revert E; clear; vm_compute; discriminate].
    destruct (wlp_run _ _ _ _ _ (H2 0%nat _ _ 7 (run_world SESSION_OPENED AIF_OPENED OPENED DEV_OPENED)
      eq_refl eq_refl ltac:(done) eq_refl) E) as (h & Ha & Hb).
    by exists r, w', h.
Defined.
