(* ===== verification/SessionOpen.v ===== *)
(** * Opening a session

    [session_obj_open] opens the devices of the attached interfaces one after the
    other, the first with the graph of the session.  [opening] is the invariant on
    the way: each device has as many more references as interfaces opened on it. *)

From S2P Require Export SessionProps.
Open Scope Z_scope.
#[export] Set Default Goal Selector "!".

(** ** References by interfaces *)

Definition opened_on_dev (a : aif) (k : nat) : bool :=
  bool_decide (aif_st a = AIF_OPENED) && bool_decide (aif_dev a = Some k).
Definition one_if (b : bool) : Z := if b then 1 else 0.

(** How many of the interfaces are opened on device [k]. *)
Fixpoint opened_on (l : list aif) (k : nat) : Z :=
  match l with
  | [] => 0
  | a :: l => one_if (opened_on_dev a k) + opened_on l k
  end.

Lemma opened_on_pos l k : 0 <= opened_on l k.
Proof. induction l as [|a l IH]; cbn; [done|]. destruct (opened_on_dev a k); cbn; lia. Qed.

Lemma opened_on_insert l j a b k : l !! j = Some a ->
  opened_on (<[j := b]> l) k = opened_on l k - one_if (opened_on_dev a k) + one_if (opened_on_dev b k).
Proof.
  revert j. induction l as [|c l IH]; intros [|j] Hj; try done; simpl in *; [simplify_eq; lia|]. rewrite (IH j Hj). lia.
Qed.

Lemma opened_on_lookup l j a k : l !! j = Some a -> opened_on_dev a k = true -> 1 <= opened_on l k.
Proof.
  revert j. induction l as [|c l IH]; intros [|j] Hj Ha; try done; cbn in *.
  - simplify_eq. rewrite Ha. pose proof (opened_on_pos l k). cbn. lia.
  - pose proof (IH j Hj Ha). destruct (opened_on_dev c k); cbn; lia.
Qed.

Lemma opened_on_none l k : Forall (fun a => aif_st a <> AIF_OPENED) l -> opened_on l k = 0.
Proof.
  induction 1 as [|a l Ha _ IH]; [done|]. cbn. rewrite IH. unfold opened_on_dev. by rewrite bool_decide_false.
Qed.

(** [n k] references more on each device [k] than in [ds]. *)
Definition refs_plus (n : nat -> Z) (ds ds' : list (option device_obj)) : Prop :=
  forall k d, ds !! k = Some (Some d) -> exists d', ds' !! k = Some (Some d') /\ dev_inv d' /\ dev_meta d' = dev_meta d /\
    dev_refcnt d' = Refcount (rc_open (dev_refcnt d) + n k) (rc_prepare (dev_refcnt d)) (rc_start (dev_refcnt d)).

Lemma refs_plus_ext n n' ds ds' : (forall k, n k = n' k) -> refs_plus n ds ds' -> refs_plus n' ds ds'.
Proof. intros He Hr k d Hk. rewrite <- He. by apply Hr. Qed.

Lemma dev_open_refs d0 d n r d' m :
  dev_inv d -> dev_refcnt d = Refcount (rc_open (dev_refcnt d0) + n) (rc_prepare (dev_refcnt d0)) (rc_start (dev_refcnt d0)) ->
  dev_trans DOpen d r d' m ->
  dev_inv d' /\ dev_meta d' = dev_meta d /\
  dev_refcnt d' = Refcount (rc_open (dev_refcnt d0) + (n + one_if (negb (nz r)))) (rc_prepare (dev_refcnt d0))
    (rc_start (dev_refcnt d0)).
Proof.
  intros Hi Hr Ht. destruct (dev_trans_inv _ _ _ _ _ Hi (or_introl eq_refl) Ht) as [Hi' _]. split; [exact Hi'|].
  inversion Ht; subst; cbn; (split; [done|]); rewrite Hr;
    try change (nz (- EIO)) with true; try change (nz 0) with false; unfold inc_open, set_rc_open; cbn; f_equal; lia.
Qed.

Lemma dev_close_refs d0 d n r d' m :
  dev_inv d0 -> dev_inv d -> 1 <= n ->
  dev_refcnt d = Refcount (rc_open (dev_refcnt d0) + n) (rc_prepare (dev_refcnt d0)) (rc_start (dev_refcnt d0)) ->
  dev_trans DClose d r d' m ->
  dev_inv d' /\ dev_meta d' = dev_meta d /\
  dev_refcnt d' = Refcount (rc_open (dev_refcnt d0) + (n - 1)) (rc_prepare (dev_refcnt d0)) (rc_start (dev_refcnt d0)).
Proof.
  intros Hi0 Hi Hn Hr Ht. pose proof (di_open _ Hi0).
  assert (Hpos : DClose = DOpen \/ 0 < rc_open (dev_refcnt d)) by (right; rewrite Hr; cbn; lia).
  destruct (dev_trans_inv _ _ _ _ _ Hi Hpos Ht) as [Hi' _]. split; [exact Hi'|].
  inversion Ht; subst; cbn; (split; [done|]); rewrite Hr; unfold set_rc_open, set_rc_start, set_rc_prepare; cbn.
  - f_equal; lia.
  - match goal with E : rc_open (dev_refcnt d) = 1 |- _ => rewrite Hr in E; cbn in E end.
    assert (Hc : dev_state d0 = DEV_CLOSED) by (apply (di_closed _ Hi0); lia).
    assert (Hp : rc_prepare (dev_refcnt d0) = 0) by (apply (di_prepared _ Hi0); by left).
    assert (Hst : rc_start (dev_refcnt d0) = 0) by (apply (di_started _ Hi0); by rewrite Hc).
    rewrite Hp, Hst. f_equal. lia.
Qed.

(** ** The invariant on the way *)

(** What opening keeps of an interface and of a session; the state of an interface
    may go from [AIF_OPEN] to [AIF_OPENED]. *)
Record aif_moved (a b : aif) : Prop := AifMoved {
  am_id : aif_id b = aif_id a;
  am_dev : aif_dev b = aif_dev a;
  am_meta : aif_meta b = aif_meta a;
  am_st : aif_st b = aif_st a \/ aif_st a = AIF_OPEN /\ aif_st b = AIF_OPENED
}.
#[export] Instance aif_moved_preorder : PreOrder aif_moved.
Proof.
  split; [intros a; by split; [..|left]|]. intros a b c [] []. split; try congruence.
  destruct am_st0 as [E|[E1 E2]], am_st1 as [F|[F1 F2]]; try (left; congruence); right; split; congruence.
Qed.

Record ses_moved (s t : session_obj) : Prop := SesMoved {
  sm_id : ses_id t = ses_id s;
  sm_state : ses_state t = ses_state s;
  sm_meta : ses_meta t = ses_meta s;
  sm_stream : ses_stream t = ses_stream s;
  sm_media : ses_media t = ses_media s;
  sm_lb : ses_lb_state t = ses_lb_state s;
  sm_ec : ses_ec_state t = ses_ec_state s;
  sm_aifs : Forall2 aif_moved (ses_aifs s) (ses_aifs t)
}.
#[export] Instance ses_moved_preorder : PreOrder ses_moved.
Proof.
  split; [intros s; by split|]. intros s t v [] []. split; try congruence. by etransitivity.
Qed.

Section Opening.
Context `{Env} `{!ConstsOk env_consts} (Halloc : forall n, env_alloc n = true).
Context (Hinfo : forall h k t, snd (env_answer h (GslGetTaggedModuleInfo k t)) <> []).
Context (Htags : forall h k n, Forall (fun e => snd e <> []) (snd (env_answer h (GslGetTags k n)))).

(** The session [s] in pool [p] before the open, and the process then. *)
Context (i : nat) (p : list session_obj) (s : session_obj) (w0 : world).

(** Its data and metadata are well formed, and those of the devices behind it. *)
Record open_base : Prop := OpenBase {
  ob_sess : p !! i = Some s;
  ob_data : session_data_ok s;
  ob_meta : meta_ok (ses_meta s) = true;
  ob_aifs : Forall (fun a => meta_ok (aif_meta a) = true /\ aif_live (w_devs w0) a) (ses_aifs s);
  ob_devs : forall k d, w_devs w0 !! k = Some (Some d) -> dev_inv d /\ meta_ok (dev_meta d) = true;
  ob_free : locks_free w0
}.
Context (Hb : open_base).

(** The graph, and the state of it: that of this open when the session was closed. *)
Context (G : nat) (gst : Z).
Definition fresh_graph : Prop := G = length (w_graphs w0) /\ gst = OPENED.

Record opening (t : session_obj) (n : nat -> Z) (w : world) : Prop := Opening {
  og_pool : w_pool w = Some (<[i := t]> p);
  og_moved : ses_moved s t;
  og_refs : refs_plus n (w_devs w0) (w_devs w);
  og_tables : tables_ok w;
  og_held : w_held w = w_held w0;
  og_graphs : forall h, h <> G -> w_graphs w !! h = w_graphs w0 !! h
}.

(** The graph of this open is there; it is not. *)
Definition has_graph (t : session_obj) (w : world) : Prop :=
  exists go, ses_graph t = Some G /\ w_graphs w !! G = Some (Some go) /\ gr_sess go = Some i /\ gr_state go = gst /\
    Forall (module_ok w) (gr_mods go).
Definition no_graph (w : world) : Prop := forall go, w_graphs w !! G <> Some (Some go).

Lemma opening_sess t n w : opening t n w -> exists q, w_pool w = Some q /\ q !! i = Some t.
Proof using Hb.
  intros Ho. eexists. split; [apply Ho|]. apply list_lookup_insert_eq. by eapply lookup_lt_Some, ob_sess.
Qed.

Lemma wp_read_opening u t n w Q : opening t n w -> Q t w -> wpg u (read_sess i) Q w.
Proof using Hb. intros Ho HQ. destruct (opening_sess _ _ _ Ho) as (q & Hq & Ht). by eapply wpg_read_sess. Qed.
Lemma wp_aif_opening u t n w j a Q : opening t n w -> ses_aifs t !! j = Some a -> Q a w -> wpg u (read_aif i j) Q w.
Proof using Hb. intros Ho Ha HQ. destruct (opening_sess _ _ _ Ho) as (q & Hq & Ht). by eapply wpg_read_aif. Qed.

Lemma opening_free t n w : opening t n w -> locks_free w.
Proof using Hb. intros Ho l. rewrite (og_held _ _ _ Ho). apply (ob_free Hb). Qed.

(** The interface before the open, its metadata and its device now. *)
Lemma opening_aif t n w j b : opening t n w -> ses_aifs t !! j = Some b ->
  exists a dv d0 d, ses_aifs s !! j = Some a /\ aif_moved a b /\ aif_dev b = Some dv /\
    w_devs w0 !! dv = Some (Some d0) /\ w_devs w !! dv = Some (Some d) /\
    meta_ok (aif_meta b) = true /\ meta_ok (dev_meta d) = true.
Proof using Hb.
  intros Ho Hj. destruct (Forall2_lookup_r _ _ _ _ _ (sm_aifs _ _ (og_moved _ _ _ Ho)) Hj) as (a & Ha & Hm).
  destruct (Forall_lookup_1 _ _ _ _ (ob_aifs Hb) Ha) as [Hok (dv & Hdv & d0 & Hd0)].
  destruct (og_refs _ _ _ Ho _ _ Hd0) as (d & Hd & _ & Hmd & _). exists a, dv, d0, d.
  rewrite (am_dev _ _ Hm), (am_meta _ _ Hm), Hmd. split_and!; try done. by apply (ob_devs Hb dv).
Qed.

(** Steps that leave sessions and devices alone. *)
Lemma opening_graph t n w w' : opening t n w -> graph_frame G w w' -> tables_ok w' -> opening t n w'.
Proof using.
  intros [H1 H2 H3 H4 H5 H6] Hf Ht. split; [by rewrite (gf_pool _ _ _ Hf)|done|by rewrite (gf_devs _ _ _ Hf)|done| |].
  - by rewrite (gf_held _ _ _ Hf).
  - intros h Hh. rewrite (gf_graphs _ _ _ Hf) by done. by apply H6.
Qed.
Lemma opening_allocs t n w k : opening t n w -> opening t n (set_w_allocs k w).
Proof using. intros [H1 H2 H3 [] H5 H6]. by split. Qed.
Lemma opening_ext t n n' w : (forall k, n k = n' k) -> opening t n w -> opening t n' w.
Proof using. intros He [H1 H2 H3 H4 H5 H6]. split; try done. by eapply refs_plus_ext. Qed.

Lemma module_ok_live w w' md : (forall k, live_slot (w_devs w) k -> live_slot (w_devs w') k) ->
  module_ok w md -> module_ok w' md.
Proof using. intros Hl (Hd & Hc). split; [|exact Hc]. intros k Hk. by apply Hl, Hd. Qed.

Lemma has_graph_live t t' w w' : has_graph t w -> ses_graph t' = ses_graph t -> w_graphs w' = w_graphs w ->
  (forall k, live_slot (w_devs w) k -> live_slot (w_devs w') k) -> has_graph t' w'.
Proof using.
  intros (go & H1 & H2 & H3 & H4 & H5) Ht Hg Hd. exists go. rewrite Ht, Hg. split_and!; try done.
  eapply Forall_impl; [exact H5|]. intros md. by apply module_ok_live.
Qed.

Lemma has_graph_wf t n w : opening t n w -> has_graph t w ->
  exists go, ses_graph t = Some G /\ graph_wf w G go /\ gr_sess go = Some i /\ gr_state go = gst.
Proof using Hb.
  intros Ho (go & H1 & H2 & H3 & H4 & H5). exists go. split; [done|]. split; [|done]. split; [done|]. split; [|done].
  apply (graph_live_intro _ _ _ H2). destruct (opening_sess _ _ _ Ho) as (q & Hq & Ht). exists i, q, t.
  split_and!; try done. pose proof (og_moved _ _ _ Ho) as Hm. unfold session_data_ok.
  rewrite (sm_media _ _ Hm), (sm_stream _ _ Hm). apply (ob_data Hb).
Qed.

(** ** Steps on the way *)

(** An update of the session that keeps its interfaces' devices and the rest. *)
Lemma wp_upd_from u t n w f Q :
  opening t n w -> ses_moved s (f t) ->
  (forall w', opening (f t) n w' -> w_graphs w' = w_graphs w -> w_devs w' = w_devs w -> Q tt w') ->
  wpg u (upd_sess i f) Q w.
Proof using Hb.
  intros Ho Hm HQ. destruct (opening_sess _ _ _ Ho) as (q & Hq & Ht). eapply wpg_upd_sess; [done..|].
  apply HQ; [|done..]. destruct Ho as [H1 H2 H3 [] H5 H6]. split; wsimp; try done.
  rewrite H1 in Hq. injection Hq as <-. by rewrite list_insert_insert_eq.
Qed.

Lemma wp_upd_opening u t n w f Q :
  opening t n w -> ses_moved t (f t) ->
  (forall w', opening (f t) n w' -> w_graphs w' = w_graphs w -> w_devs w' = w_devs w -> Q tt w') ->
  wpg u (upd_sess i f) Q w.
Proof using Hb. intros Ho Hm. apply wp_upd_from; [done|]. etransitivity; [apply Ho|done]. Qed.

Lemma wp_upd_aif_opening u t n w j b f Q :
  opening t n w -> ses_aifs t !! j = Some b -> aif_moved b (f b) ->
  (forall w', opening (set_ses_aifs (<[j := f b]> (ses_aifs t)) t) n w' -> w_graphs w' = w_graphs w ->
     w_devs w' = w_devs w -> Q tt w') ->
  wpg u (upd_aif i j f) Q w.
Proof using Hb.
  intros Ho Hj Hm HQ. unfold upd_aif. apply wpg_bind. eapply wp_read_opening; [done|]. rewrite Hj. apply wpg_bind, wpg_ret.
  eapply (wp_upd_opening _ t n w (set_ses_aifs (<[j:=f b]> (ses_aifs t)))); [done| |done]. split; try done. cbn.
  rewrite <- (list_insert_id (ses_aifs t) j b) at 1 by done. apply Forall2_insert; [reflexivity|done].
Qed.

(** Opening and closing the device of an interface. *)
Lemma devs_live_insert ds k d' : live_slot ds k -> forall j, live_slot ds j -> live_slot (<[k := Some d']> ds) j.
Proof using. intros Hk j. by apply live_insert. Qed.

Lemma opening_dev t n w k d0 d d' m w' n' :
  opening t n w -> w_devs w0 !! k = Some (Some d0) -> w_devs w !! k = Some (Some d) -> dev_effect k d' m w w' ->
  dev_inv d' -> dev_meta d' = dev_meta d ->
  dev_refcnt d' = Refcount (rc_open (dev_refcnt d0) + n' k) (rc_prepare (dev_refcnt d0)) (rc_start (dev_refcnt d0)) ->
  (forall j, j <> k -> n' j = n j) -> opening t n' w' /\ w_graphs w' = w_graphs w /\
  forall j, live_slot (w_devs w) j -> live_slot (w_devs w') j.
Proof using.
  intros [H1 H2 H3 H4 H5 H6] Hk0 Hk (Hds & _ & Hsame) Hi Hm Hr Hn. split; [|split; [apply Hsame|]].
  2:{ rewrite Hds. apply devs_live_insert. by exists d. }
  split; [by rewrite (sbd_pool _ _ Hsame)|done| | |by rewrite (sbd_held _ _ Hsame)|by rewrite (sbd_graphs _ _ Hsame)].
  2:{ eapply tables_ok_set; [apply Hsame|apply Hsame|done]. }
  intros j e Hj. rewrite Hds. destruct (decide (k = j)) as [<-|Hne].
  - exists d'. rewrite list_lookup_insert_eq by (by eapply lookup_lt_Some). replace e with d0 by congruence.
    split_and!; try done. destruct (H3 k d0 Hk0) as (d2 & Hd2 & _ & E & _). congruence.
  - rewrite list_lookup_insert_ne, Hn by done. by apply H3.
Qed.

Lemma wp_open_dev t n w k d0 d Q :
  opening t n w -> w_devs w0 !! k = Some (Some d0) -> w_devs w !! k = Some (Some d) ->
  (forall r w', opening t (fun j => n j + one_if (bool_decide (j = k) && negb (nz r))) w' -> w_graphs w' = w_graphs w ->
     (forall j, live_slot (w_devs w) j -> live_slot (w_devs w') j) -> Q r w') ->
  wp (device_open (Some k)) Q w.
Proof using Hb.
  intros Ho Hk0 Hk HQ. change (device_open (Some k)) with (run_dev DOpen k).
  eapply wp_run_dev; [exact Hk|by eapply locks_free_dev, opening_free|]. intros r d' m w' Ht He.
  destruct (og_refs _ _ _ Ho _ _ Hk0) as (d2 & Hd2 & Hi & Hm & Hr). assert (d2 = d) as -> by congruence.
  destruct (dev_open_refs _ _ _ _ _ _ Hi Hr Ht) as (Hi' & Hm' & Hr').
  edestruct (opening_dev t n w k d0 d d' m w' (fun j => n j + one_if (bool_decide (j = k) && negb (nz r))) Ho Hk0 Hk He
    Hi' Hm') as (? & ? & ?).
  - by rewrite bool_decide_true.
  - intros j Hne. rewrite bool_decide_false by done. cbn. lia.
  - by apply HQ.
Qed.

Lemma wp_close_dev t n w k d0 d Q :
  opening t n w -> w_devs w0 !! k = Some (Some d0) -> w_devs w !! k = Some (Some d) -> 1 <= n k ->
  (forall r w', opening t (fun j => n j - one_if (bool_decide (j = k))) w' -> w_graphs w' = w_graphs w ->
     (forall j, live_slot (w_devs w) j -> live_slot (w_devs w') j) -> Q r w') ->
  wp (device_close (Some k)) Q w.
Proof using Hb.
  intros Ho Hk0 Hk Hn HQ. change (device_close (Some k)) with (run_dev DClose k).
  eapply wp_run_dev; [exact Hk|by eapply locks_free_dev, opening_free|]. intros r d' m w' Ht He.
  destruct (og_refs _ _ _ Ho _ _ Hk0) as (d2 & Hd2 & Hi & Hm & Hr). assert (d2 = d) as -> by congruence.
  destruct (dev_close_refs _ _ _ _ _ _ (proj1 (ob_devs Hb _ _ Hk0)) Hi Hn Hr Ht) as (Hi' & Hm' & Hr').
  edestruct (opening_dev t n w k d0 d d' m w' (fun j => n j - one_if (bool_decide (j = k))) Ho Hk0 Hk He
    Hi' Hm') as (? & ? & ?).
  - by rewrite bool_decide_true.
  - intros j Hne. rewrite bool_decide_false by done. cbn. lia.
  - by apply HQ.
Qed.

(** Merging takes memory only. *)
Lemma wp_merge_live args w Q :
  all_ok (omap id args) ->
  (forall m k, merged_from (omap id args) m -> Q (Some m) (set_w_allocs k w)) -> wp (metadata_merge args) Q w.
Proof using Halloc.
  intros Hok HQ. eapply wpg_mono; [by apply wp_metadata_merge|]. intros [m|] w' ((k & ->) & Hr).
  - by apply HQ.
  - destruct Hr as (j & _ & Hj). by rewrite Halloc in Hj.
Qed.

Lemma wp_merge_opening args w Q :
  all_ok (omap id args) -> (forall m k, meta_ok m = true -> Q (Some m) (set_w_allocs k w)) -> wp (metadata_merge args) Q w.
Proof using Halloc. intros Hok HQ. apply wp_merge_live; [done|]. intros m k Hm. apply HQ, Hm. Qed.

Lemma wp_merge_sess_aif t n w j b Q :
  opening t n w -> ses_aifs t !! j = Some b ->
  (forall m k, meta_ok m = true -> Q (Some m) (set_w_allocs k w)) -> wp (merge_sess_aif i j) Q w.
Proof using Hb Halloc.
  intros Ho Hj HQ. destruct (opening_aif _ _ _ _ _ Ho Hj) as (a & dv & d0 & d & Ha & Hm & Hdv & Hd0 & Hd & Hok1 & Hok2).
  unfold merge_sess_aif. apply wpg_bind. eapply wp_read_opening; [done|]. apply wpg_bind. eapply wp_aif_opening; [done..|].
  apply wpg_bind. unfold aif_dev_meta. rewrite Hdv. apply wpg_bind, wpg_ret, wpg_bind. eapply wpg_read_dev; [done|]. apply wpg_ret.
  apply wp_merge_opening; [|done]. cbn. repeat constructor; try done.
  rewrite (sm_meta _ _ (og_moved _ _ _ Ho)). apply (ob_meta Hb).
Qed.

(** The operations on the graph that leave its modules alone. *)
Definition quiet (op : graph_op) : Prop :=
  match op with GrStop (Some _) | GrSetConfig _ | GrRemove _ | GrRegisterCb _ => True | _ => False end.

Lemma quiet_trans op go r go' calls : quiet op -> graph_trans op go r go' calls ->
  gr_sess go' = gr_sess go /\ gr_state go' = gr_state go /\ gr_mods go' = gr_mods go.
Proof using. intros Hq Ht. destruct Ht; by cbn in *. Qed.

Lemma Keeps_tables_quiet op g : quiet op -> Keeps tables_of (run_graph op g).
Proof using.
  destruct op as [|[m|]|b|pl|m|m|d|]; intros Hq; try done; cbn [run_graph];
    unfold graph_stop, graph_set_config, graph_remove, graph_register_cb, locked_call, with_lock;
    autounfold with gsl; unfold memcpy_from; keeps_tac.
Qed.

Lemma wp_graph_opening t n w op g Q :
  opening t n w -> has_graph t w -> ses_graph t = Some g -> quiet op -> op_ok op ->
  (forall r w', opening t n w' -> has_graph t w' -> (match op with GrRegisterCb _ => r = 0 | _ => True end) -> Q r w') ->
  wp (run_graph op g) Q w.
Proof using Hb.
  intros Ho (go & H1 & H2 & H3 & H4 & H5) Hg Hq Hop HQ. assert (g = G) as -> by congruence.
  apply (wpg_keeps _ tables_of); [by apply Keeps_tables_quiet|].
  eapply wp_run_graph; [done|by eapply locks_free_graph, opening_free|done|]. intros r go' calls w' Ht (Hgs & Hf & _) Hk.
  destruct (quiet_trans _ _ _ _ _ Hq Ht) as (E1 & E2 & E3). apply HQ.
  - eapply opening_graph; [done|done|]. eapply tables_kept; [done|by destruct Ho].
  - exists go'. rewrite Hgs, list_lookup_insert_eq by (by eapply lookup_lt_Some). rewrite E1, E2, E3. split_and!; try done.
    eapply Forall_impl; [exact H5|]. intros md. apply module_ok_live. by rewrite (gf_devs _ _ _ Hf).
  - by destruct Ht.
Qed.

(** ** The graph of an interface *)

(** The first interface finds no graph, the others that of the first. *)
Definition graph_stage (first : bool) (t : session_obj) (w : world) : Prop :=
  if first then fresh_graph /\ ses_graph t = None /\ ses_state t = SESSION_CLOSED /\ w_graphs w = w_graphs w0 else has_graph t w.
(** What is left of it when connecting fails. *)
Definition stage_failed (first : bool) (t : session_obj) (w : world) : Prop :=
  if first then no_graph w else has_graph t w.

Lemma fresh_module_ok v dev md w : array_ok (num_kvs v) (kv v) = true -> live_slot (w_devs w) dev ->
  fresh_module v (Some i) (Some dev) md -> module_ok w md.
Proof using.
  intros Hv [d Hd] [_ [(_ & Hk & Hdev & Hg)|(_ & _ & Hdev & Hg)]].
  - split; [intros k; by rewrite Hdev|]. rewrite Hg. split; [|done]. intros Hc. exfalso.
    apply list_elem_of_fmap in Hk as (e & He & Hin). unfold mod_kind in He. rewrite Hc in He. injection He as _ He.
    unfold stream_module_list in Hin. repeat (apply elem_of_cons in Hin as [->|Hin]; [discriminate He|]).
    by apply not_elem_of_nil in Hin.
  - split; [intros k; rewrite Hdev; intros [= <-]; by exists d|]. rewrite Hg, Hdev. split; [by eexists|by apply kvec_of_ok].
Qed.

Lemma opened_has_graph m dev h go t n w :
  gst = OPENED -> opening t n w -> ses_graph t = Some G -> meta_ok m = true -> w_graphs w !! G = Some (Some go) ->
  live_slot (w_devs w) dev -> opened m (Some i) (Some dev) h go -> has_graph t w.
Proof using.
  intros Hgst Ho Hg Hm Hgo Hdev Hop. exists go. split_and!; [done|done|apply Hop|rewrite Hgst; apply Hop|].
  eapply Forall_impl; [apply Hop|]. intros md. by apply fresh_module_ok; [apply (meta_ok_parts _ Hm)|].
Qed.

(** How [connect_graph] exits. *)
Definition connect_post (first : bool) (t : session_obj) (n : nat -> Z) (e : option connect_exit) (w : world) : Prop :=
  exists t', opening t' n w /\ ses_aifs t' = ses_aifs t /\
    match e with
    | None => has_graph t' w
    | Some (close_device r) => r <> 0 /\ stage_failed first t' w
    | Some (graph_cleanup r) => r <> 0 /\ if first then (ses_graph t' = None /\ no_graph w \/ has_graph t' w) else has_graph t' w
    end.

Lemma wp_register_opening t n w id Q :
  opening t n w -> has_graph t w ->
  (forall w', opening t n w' -> has_graph t w' -> Q 0 w') -> wp (graph_register_cb (ses_graph t) true id) Q w.
Proof using Hb.
  intros Ho Hg HQ. pose proof Hg as (go & E & _). rewrite E.
  change (graph_register_cb (Some G) true id) with (run_graph (GrRegisterCb id) G).
  eapply wp_graph_opening; [done..|]. intros r w' Ho' Hg' ->. by apply HQ.
Qed.

Lemma wp_connect_first t n w dev m :
  opening t n w -> graph_stage true t w -> meta_ok m = true -> live_slot (w_devs w) dev ->
  wp (connect_graph i (Some dev) m 0) (connect_post true t n) w.
Proof using Hb Htags ConstsOk0 Halloc.
  intros Ho ([HG Hgst] & Hgr & Hst & Hw) Hm Hdev. unfold connect_graph. apply wpg_bind. eapply wp_read_opening; [done|].
  change (0 =? 0) with true. cbv iota. rewrite bool_decide_true by done. apply wpg_bind.
  eapply wpg_mono; [apply wp_graph_open; [done|by destruct Ho|by right|right; intros; apply Htags]|].
  intros [r o] w1 [Hf Ht Hres]. rewrite Hw, <- HG in Hf, Hres. cbn [fst snd] in Hres.
  assert (Ho1 : opening t n w1) by (by eapply opening_graph).
  assert (Hd1 : live_slot (w_devs w1) dev) by (by rewrite (gf_devs _ _ _ Hf)).
  destruct o as [g|].
  - destruct Hres as (-> & -> & _ & go & h & Hgo & Hop). apply wpg_bind.
    eapply (wp_upd_opening _ t n w1 (set_ses_graph (Some G))); [done|by split|]. intros w2 Ho2 Eg Ed.
    change (nz 0) with false. cbv iota. apply wpg_bind. eapply wp_read_opening; [done|]. apply wpg_bind.
    assert (Hg2 : has_graph (set_ses_graph (Some G) t) w2)
      by (eapply opened_has_graph; [done|done|done|exact Hm|by rewrite Eg|by rewrite Ed|done]).
    eapply wp_register_opening; [done..|]. intros w3 Ho3 Hg3. apply wpg_ret. by exists (set_ses_graph (Some G) t).
  - destruct Hres as [_ Hno]. apply wpg_bind, wpg_ret. destruct (nz r) eqn:Er; bool_hyps.
    { apply wpg_ret. exists t. by split_and!. }
    apply wpg_bind. eapply wp_read_opening; [done|]. rewrite Hgr. apply wpg_bind, wpg_ret, wpg_ret.
    change (nz (- EINVAL)) with true. exists t. split_and!; try done. by left.
Qed.

Lemma wp_connect_more t n w dev m c :
  opening t n w -> has_graph t w -> c <> 0 -> meta_ok m = true -> live_slot (w_devs w) dev ->
  wp (connect_graph i (Some dev) m c) (connect_post false t n) w.
Proof using Hb Halloc Hinfo ConstsOk0.
  intros Ho Hg Hc Hm [d Hd]. unfold connect_graph. apply wpg_bind. eapply wp_read_opening; [done|].
  rewrite (proj2 (Z.eqb_neq _ _)) by done. destruct (has_graph_wf _ _ _ Ho Hg) as (go & E & Hwf & Hs & Hst). rewrite E.
  apply wpg_bind. eapply wpg_mono; [eapply wp_graph_add; [done|done|exact Hwf|by destruct Ho|exact Hd|done|
    by eapply locks_free_graph, opening_free]|].
  intros r w' [Hf Ht (go' & (Hgo' & _ & Hmods) & E1 & _ & E2 & _)]. apply wpg_ret.
  assert (Hg' : has_graph t w') by (exists go'; rewrite E1, E2; by split_and!).
  exists t. split; [by eapply opening_graph|]. split; [done|]. destruct (nz r) eqn:Er; bool_hyps; by try split.
Qed.

(** ** The cached parameters *)

(** The session apart from cached parameters and graph. *)
Record same_aifs (t t' : session_obj) : Prop := SameAifs {
  sa_graph : ses_graph t' = ses_graph t;
  sa_st : aif_st <$> ses_aifs t' = aif_st <$> ses_aifs t;
  sa_moved : Forall2 aif_moved (ses_aifs t) (ses_aifs t')
}.
#[local] Instance same_aifs_preorder : PreOrder same_aifs.
Proof.
  split; [intros t; by split|]. intros t1 t2 t3 [] []. split; try congruence. by etransitivity.
Qed.

Definition cached_post (t : session_obj) (n : nat -> Z) (r : Z) (w : world) : Prop :=
  exists t', opening t' n w /\ same_aifs t t' /\ has_graph t' w.

Lemma wp_config_opening t n w pl Q :
  opening t n w -> has_graph t w -> (forall r w', opening t n w' -> has_graph t w' -> Q r w') ->
  wp (graph_set_config (ses_graph t) pl) Q w.
Proof using Hb.
  intros Ho Hg HQ. pose proof Hg as (go & E & _). rewrite E.
  change (graph_set_config (Some G) pl) with (run_graph (GrSetConfig pl) G).
  eapply wp_graph_opening; [done..|]. intros. by apply HQ.
Qed.

Lemma cached_same t n r w : opening t n w -> has_graph t w -> cached_post t n r w.
Proof using. intros Ho Hg. by exists t. Qed.

Lemma wp_stream_params t n w : opening t n w -> has_graph t w -> wp (set_stream_params i) (cached_post t n) w.
Proof using Hb.
  intros Ho Hg. unfold set_stream_params. apply wpg_bind. eapply wp_read_opening; [done|].
  destruct (ses_params t) as [pl|]; [|by apply wpg_ret, cached_same].
  case_bool_decide; [|by apply wpg_ret, cached_same].
  apply wpg_bind. eapply wp_config_opening; [done..|]. intros r w' Ho' Hg'.
  destruct (nz r); [by apply wpg_ret, cached_same|]. apply wpg_bind.
  eapply (wp_upd_opening _ t n w' (set_ses_params None)); [done|by split|]. intros w2 Ho2 Eg Ed. apply wpg_ret.
  exists (set_ses_params None t). split_and!; [done|by split|]. eapply (has_graph_live t); [done|done|done|by rewrite Ed].
Qed.

Lemma wp_aif_params t n w j b :
  opening t n w -> has_graph t w -> ses_aifs t !! j = Some b -> wp (set_aif_cached_params i j) (cached_post t n) w.
Proof using Hb.
  intros Ho Hg Hj. unfold set_aif_cached_params. apply wpg_bind. eapply wp_read_opening; [done|].
  apply wpg_bind. eapply wp_aif_opening; [done..|]. destruct (aif_params b) as [pl|]; [|by apply wpg_ret, cached_same].
  apply wpg_bind. eapply wp_config_opening; [done..|]. intros r w' Ho' Hg'.
  destruct (nz r); [by apply wpg_ret, cached_same|]. apply wpg_bind.
  eapply (wp_upd_aif_opening _ t n w' j b); [done|done|by split; [..|left]|]. intros w2 Ho2 Eg Ed. apply wpg_ret.
  eexists. split_and!; [exact Ho2| |eapply (has_graph_live t); [done|done|done|by rewrite Ed]].
  split; [done| |].
  - cbn. rewrite list_fmap_insert. cbn. apply list_insert_id. by rewrite list_lookup_fmap, Hj.
  - cbn. rewrite <- (list_insert_id (ses_aifs t) j b) at 1 by done. apply Forall2_insert; [reflexivity|by split; [..|left]].
Qed.

(** Releasing the mutex of a device that was not taken changes nothing else. *)
Lemma wp_unlock_opening u t n w k Q :
  opening t n w -> has_graph t w ->
  (forall w', opening t n w' -> has_graph t w' -> w_devs w' = w_devs w -> Q tt w') -> wpg u (mutex_unlock (LDev k)) Q w.
Proof using Hb.
  intros Ho Hg HQ. unfold wpg, mutex_unlock.
  rewrite bool_decide_false by (by eapply locks_free_dev, opening_free). apply HQ; [|by apply (has_graph_live t t w)|done].
  destruct Ho as [H1 H2 H3 [] H5 H6]. by split.
Qed.

Lemma wp_dev_params t n w j b :
  opening t n w -> has_graph t w -> ses_aifs t !! j = Some b -> wp (set_dev_cached_params i j) (cached_post t n) w.
Proof using Hb.
  intros Ho Hg Hj. destruct (opening_aif _ _ _ _ _ Ho Hj) as (a & dv & d0 & d & Ha & Hm & Hdv & Hd0 & Hd & _).
  unfold set_dev_cached_params. apply wpg_bind. eapply wp_read_opening; [done|]. apply wpg_bind.
  eapply wp_aif_opening; [done..|]. rewrite Hdv. apply wpg_bind, wpg_ret, wpg_bind.
  eapply wp_unlock_opening; [done..|]. intros w1 Ho1 Hg1 Ed1. apply wpg_bind. eapply wpg_read_dev; [by rewrite Ed1|].
  assert (Hend : forall r w2, opening t n w2 -> has_graph t w2 ->
    wp (do! mutex_unlock (LDev dv) ; ret r) (cached_post t n) w2).
  { intros r w2 Ho2 Hg2. apply wpg_bind. eapply wp_unlock_opening; [done..|]. intros w3 Ho3 Hg3 _.
    by apply wpg_ret, cached_same. }
  apply wpg_bind. destruct (dev_params d) as [pl|]; [|by apply wpg_ret, Hend].
  case_bool_decide; [|by apply wpg_ret, Hend].
  apply wpg_bind. eapply wp_config_opening; [done..|]. intros r w2 Ho2 Hg2.
  destruct (nz r); [by apply wpg_ret, Hend|].
  destruct (og_refs _ _ _ Ho2 _ _ Hd0) as (d2 & Hd2 & Hi2 & Hm2 & Hr2). apply wpg_bind.
  eapply wpg_upd_dev; [exact Hd2|]. apply wpg_ret. apply Hend.
  - destruct Ho2 as [H1 H2 H3 [] H5 H6]. split; wsimp; try done. intros k e Hk.
    destruct (decide (dv = k)) as [<-|Hne].
    + exists (set_dev_params None d2). rewrite list_lookup_insert_eq by (by eapply lookup_lt_Some).
      replace e with d0 by congruence. split_and!; [done| |done|done]. by destruct Hi2.
    + rewrite list_lookup_insert_ne by done. by apply H3.
  - apply (has_graph_live t t w2); [done|done|done|]. intros k. cbn. apply live_insert. by exists d2.
Qed.

Lemma wp_cached_params t n w j b :
  opening t n w -> has_graph t w -> ses_aifs t !! j = Some b ->
  wp (set_cached_params i j) (fun e w' => exists t', opening t' n w' /\ same_aifs t t' /\ has_graph t' w' /\
    match e with None => True | Some (close_device _) => False | Some (graph_cleanup r) => r <> 0 end) w.
Proof using Hb.
  intros Ho Hg Hj. unfold set_cached_params.
  apply wpg_bind. eapply wpg_mono; [by eapply wp_stream_params|]. intros r1 w1 (t1 & Ho1 & Hs1 & Hg1).
  destruct (nz r1) eqn:E1; bool_hyps; [by apply wpg_ret; exists t1|].
  destruct (Forall2_lookup_l _ _ _ _ _ (sa_moved _ _ Hs1) Hj) as (b1 & Hj1 & _).
  apply wpg_bind. eapply wpg_mono; [by eapply wp_aif_params|]. intros r2 w2 (t2 & Ho2 & Hs2 & Hg2).
  assert (Hs : same_aifs t t2) by (by etransitivity).
  destruct (nz r2) eqn:E2; bool_hyps; [by apply wpg_ret; exists t2|].
  destruct (Forall2_lookup_l _ _ _ _ _ (sa_moved _ _ Hs) Hj) as (b2 & Hj2 & _).
  apply wpg_bind. eapply wpg_mono; [by eapply wp_dev_params|]. intros r3 w3 (t3 & Ho3 & Hs3 & Hg3).
  apply wpg_ret. exists t3. split_and!; [done|by etransitivity|done|]. by destruct (nz r3) eqn:E3; bool_hyps.
Qed.

(** ** Connecting an interface *)

Definition plus_dev (n : nat -> Z) (dv : nat) (k : nat) : Z := n k + one_if (bool_decide (k = dv)).
Definition minus_dev (n : nat -> Z) (dv : nat) (k : nat) : Z := n k - one_if (bool_decide (k = dv)).

Lemma plus_minus n dv k : minus_dev (plus_dev n dv) dv k = n k.
Proof using. unfold minus_dev, plus_dev. lia. Qed.

Record same_states (t t' : session_obj) : Prop := SameStates {
  ss_st : aif_st <$> ses_aifs t' = aif_st <$> ses_aifs t;
  ss_moved : Forall2 aif_moved (ses_aifs t) (ses_aifs t')
}.
Lemma same_states_eq t t' : ses_aifs t' = ses_aifs t -> same_states t t'.
Proof using. intros E. split; by rewrite E. Qed.
Lemma same_states_trans t1 t2 t3 : same_states t1 t2 -> same_states t2 t3 -> same_states t1 t3.
Proof using. intros [] []. split; [congruence|by etransitivity]. Qed.

Lemma same_opened_on t t' k : same_states t t' -> opened_on (ses_aifs t') k = opened_on (ses_aifs t) k.
Proof using.
  intros [Hs Hm]. revert Hs. induction Hm as [|a b l l' Hab _ IH]; [done|]. intros E. injection E as E1 E2. cbn.
  rewrite IH by done. unfold opened_on_dev. by rewrite E1, (am_dev _ _ Hab).
Qed.

(** What connecting an interface of device [dv] leaves. *)
Definition connected (first : bool) (t : session_obj) (n : nat -> Z) (dv : nat) (r : Z) (w : world) : Prop :=
  exists t', same_states t t' /\
    if nz r then opening t' n w /\ stage_failed first t' w else opening t' (plus_dev n dv) w /\ has_graph t' w.

Lemma Keeps_tables_close g : Keeps tables_of (graph_close (Some g)).
Proof using. unfold graph_close, with_lock, free_graph. autounfold with gsl. keeps_tac. Qed.

Lemma wp_close_opening t n w Q :
  opening t n w -> has_graph t w -> (forall r w', opening t n w' -> no_graph w' -> Q r w') ->
  wp (graph_close (ses_graph t)) Q w.
Proof using Hb.
  intros Ho (go & E & Hgo & _) HQ. rewrite E. apply (wpg_keeps _ tables_of); [apply Keeps_tables_close|].
  eapply wp_graph_close; [done|by eapply locks_free_graph, opening_free|]. intros a w' Hgs _ Hf Hk. apply HQ.
  - eapply opening_graph; [done|done|]. eapply tables_kept; [done|by destruct Ho].
  - intros go'. rewrite Hgs, list_lookup_insert_eq by (by eapply lookup_lt_Some). done.
Qed.

(** The device of a failed connection is closed again. *)
Lemma wp_undo_dev first t t' n w dv d0 r :
  (forall k, 0 <= n k) -> same_states t t' -> opening t' (plus_dev n dv) w -> stage_failed first t' w -> r <> 0 ->
  w_devs w0 !! dv = Some (Some d0) ->
  wp (do! device_close (Some dv) ; ret r) (connected first t n dv) w.
Proof using Hb.
  intros Hn Hs Ho Hst Hr Hd0. destruct (og_refs _ _ _ Ho _ _ Hd0) as (d & Hd & _). apply wpg_bind.
  eapply wp_close_dev; [done..| |].
  { unfold plus_dev. rewrite bool_decide_true by done. cbn. pose proof (Hn dv). lia. }
  intros r' w' Ho' Eg Hl. apply wpg_ret. exists t'. split; [done|].
  replace (nz r) with true by (symmetry; by apply nz_true). split.
  - eapply opening_ext; [apply (plus_minus n dv)|exact Ho'].
  - unfold stage_failed in *. destruct first; [|by apply (has_graph_live t' t' w)]. unfold no_graph. by rewrite Eg.
Qed.

Lemma wp_connect_graph first t n w dv m c :
  opening t n w -> graph_stage first t w -> (if first then c = 0 else c <> 0) -> meta_ok m = true ->
  live_slot (w_devs w) dv -> wp (connect_graph i (Some dv) m c) (connect_post first t n) w.
Proof using Hb Halloc Hinfo Htags ConstsOk0.
  intros Ho Hg Hc Hm Hl. destruct first; [subst c; by apply wp_connect_first|by apply wp_connect_more].
Qed.

(** The label [graph_cleanup]. *)
Lemma wp_graph_cleanup (first : bool) t n w m c Q :
  opening t n w -> (if first then ses_graph t = None /\ no_graph w \/ has_graph t w else has_graph t w) ->
  (if first then c = 0 else c <> 0) -> meta_ok m = true ->
  (forall r w', opening t n w' -> stage_failed first t w' -> Q r w') ->
  wp (if c =? 0 then graph_close (ses_graph t) else graph_remove (ses_graph t) m) Q w.
Proof using Hb.
  intros Ho Hg Hc Hm HQ. destruct first; [subst c; cbn [Z.eqb]|rewrite (proj2 (Z.eqb_neq _ _)) by done].
  - destruct Hg as [[E Hno]|Hg].
    + rewrite E. apply wpg_ret. by apply HQ.
    + eapply wp_close_opening; [done..|]. intros r w' Ho' Hno. by apply HQ.
  - pose proof Hg as (go & E & _). rewrite E. change (graph_remove (Some G) m) with (run_graph (GrRemove m) G).
    eapply wp_graph_opening; [done..|]. intros r w' Ho' Hg' _. by apply HQ.
Qed.

Lemma connected_done first t t' n dv w :
  same_states t t' -> opening t' (plus_dev n dv) w -> has_graph t' w -> connected first t n dv 0 w.
Proof using. intros Hs Ho Hg. by exists t'. Qed.

Lemma wp_connect_aif first t n w j b dv c :
  opening t n w -> (forall k, 0 <= n k) -> graph_stage first t w -> (if first then c = 0 else c <> 0) ->
  ses_aifs t !! j = Some b -> aif_dev b = Some dv -> wp (session_connect_aif i j c) (connected first t n dv) w.
Proof using Hb Halloc Hinfo Htags ConstsOk0.
  intros Ho Hn Hg Hc Hj Hdv.
  destruct (opening_aif _ _ _ _ _ Ho Hj) as (a & dv' & d0 & d & Ha & Hm & Hdv' & Hd0 & Hd & _).
  assert (dv' = dv) as -> by congruence.
  assert (Hgmono : forall w', w_graphs w' = w_graphs w -> (forall k, live_slot (w_devs w) k -> live_slot (w_devs w') k) ->
    graph_stage first t w').
  { intros w' Eg El. unfold graph_stage in *. destruct first; [by rewrite Eg|by apply (has_graph_live t t w)]. }
  unfold session_connect_aif. apply wpg_bind. eapply wp_aif_opening; [done..|]. rewrite Hdv.
  apply wpg_bind. eapply wp_merge_sess_aif; [done..|]. intros m na Hmok.
  apply wpg_bind. eapply wp_open_dev; [by apply opening_allocs|exact Hd0|exact Hd|].
  intros r w1 Ho1 Eg1 Hl1. destruct (nz r) eqn:Er.
  { apply wpg_ret. exists t. split; [by apply same_states_eq|]. rewrite Er. split.
    - eapply opening_ext; [|exact Ho1]. intros k. cbn [negb]. rewrite andb_false_r. cbn. lia.
    - unfold stage_failed, graph_stage in *. destruct first; [|by apply Hgmono].
      destruct Hg as ([HG _] & _ & _ & Hw). intros go. rewrite Eg1. cbn. rewrite Hw, lookup_ge_None_2 by lia. done. }
  assert (Ho1' : opening t (plus_dev n dv) w1).
  { eapply opening_ext; [|exact Ho1]. intros k. unfold plus_dev. cbn [negb]. by rewrite andb_true_r. }
  apply wpg_bind. eapply wpg_mono; [apply (wp_connect_graph first t); [done|by apply Hgmono|done|done|apply Hl1; by exists d]|].
  intros e w2 (t2 & Ho2 & Ea2 & He). apply wpg_bind.
  assert (Hs2 : same_states t t2) by (by apply same_states_eq).
  assert (Hclean : forall t3 w3 r3, same_states t t3 -> opening t3 (plus_dev n dv) w3 -> r3 <> 0 ->
    (if first then ses_graph t3 = None /\ no_graph w3 \/ has_graph t3 w3 else has_graph t3 w3) ->
    wp (let! s := read_sess i in
        do! (if c =? 0 then graph_close (ses_graph s) else graph_remove (ses_graph s) m) ;
        do! device_close (Some dv) ; ret r3) (connected first t n dv) w3).
  { intros t3 w3 r3 Hs3 Ho3 Hr3 Hg3. apply wpg_bind. eapply wp_read_opening; [done|].
    apply wpg_bind. eapply (wp_graph_cleanup first t3); [done..|]. intros r' w' Ho' Hst'.
    by eapply (wp_undo_dev first t t3). }
  destruct e as [[r2|r2]|].
  - destruct He as [Hr2 Hst]. apply wpg_ret. by eapply (wp_undo_dev first t t2).
  - destruct He as [Hr2 Hst]. apply wpg_ret. by apply (Hclean t2 w2 r2).
  - assert (Hj2 : ses_aifs t2 !! j = Some b) by (by rewrite Ea2).
    eapply wpg_mono; [by eapply wp_cached_params|]. intros e w3 (t3 & Ho3 & [_ Hs3 Hm3] & Hg3 & He3).
    assert (Hs : same_states t t3) by (eapply same_states_trans; [exact Hs2|by split]).
    destruct e as [[r3|r3]|]; [done| |].
    + apply (Hclean t3 w3 r3); try done. destruct first; [by right|done].
    + apply wpg_ret. by eapply connected_done.
Qed.

(** ** The first interface and the others *)

Definition set_aif_at (j : nat) (b : aif) (t : session_obj) : session_obj := set_ses_aifs (<[j := b]> (ses_aifs t)) t.

(** The state of the open: the references are those of the opened interfaces. *)
Definition counted (t : session_obj) (w : world) : Prop := opening t (opened_on (ses_aifs t)) w.

(** The interface counts as opened once it is marked. *)
Lemma wp_mark_opened t t' w j b dv Q :
  ses_aifs t !! j = Some b -> aif_st b = AIF_OPEN -> aif_dev b = Some dv -> same_states t t' ->
  opening t' (plus_dev (opened_on (ses_aifs t)) dv) w -> has_graph t' w ->
  (forall b' w', ses_aifs t' !! j = Some b' -> aif_moved b b' ->
     counted (set_aif_at j (set_aif_st AIF_OPENED b') t') w' -> has_graph (set_aif_at j (set_aif_st AIF_OPENED b') t') w' -> Q tt w') ->
  wp (set_aif_state i j AIF_OPENED) Q w.
Proof using Hb.
  intros Hj Hst Hdv Hs Ho Hg HQ. destruct (Forall2_lookup_l _ _ _ _ _ (ss_moved _ _ Hs) Hj) as (b' & Hj' & Hm).
  assert (Hst' : aif_st b' = AIF_OPEN).
  { pose proof (f_equal (fun l => l !! j) (ss_st _ _ Hs)) as E. cbn in E. rewrite !list_lookup_fmap, Hj, Hj' in E. cbn in E.
    congruence. }
  unfold set_aif_state. eapply wp_upd_aif_opening; [exact Ho|exact Hj'|by split; [..|right]|].
  intros w' Ho' Eg Ed. eapply HQ; [exact Hj'|exact Hm| |eapply (has_graph_live t'); [done|done|done|by rewrite Ed]].
  eapply opening_ext; [|exact Ho']. intros k. cbn. rewrite (opened_on_insert _ _ _ _ _ Hj'), (same_opened_on _ _ _ Hs).
  unfold plus_dev, opened_on_dev. cbn [aif_st aif_dev set_aif_st]. rewrite Hst', (am_dev _ _ Hm), Hdv.
  rewrite (bool_decide_false (AIF_OPEN = AIF_OPENED)), (bool_decide_true (AIF_OPENED = AIF_OPENED)) by done.
  rewrite (bool_decide_ext (Some dv = Some k) (k = dv)) by (split; congruence). cbn. lia.
Qed.

(** Connecting an interface that waits for it, and marking it. *)
Lemma wp_connect_and_mark {B} (fail : Z -> B) first t w j b c (Q : B -> world -> Prop) (k : AGM B) :
  counted t w -> graph_stage first t w -> (if first then c = 0 else c <> 0) -> ses_aifs t !! j = Some b ->
  aif_st b = AIF_OPEN ->
  (forall r t' w', r <> 0 -> same_states t t' -> counted t' w' -> stage_failed first t' w' ->
     Q (fail r) w') ->
  (forall t' w', Forall2 aif_moved (ses_aifs t) (ses_aifs t') -> (exists b', ses_aifs t' !! j = Some b' /\ aif_st b' = AIF_OPENED) ->
     counted t' w' -> has_graph t' w' -> wp k Q w') ->
  wp (let! r := session_connect_aif i j c in if nz r then ret (fail r) else do! set_aif_state i j AIF_OPENED ; k) Q w.
Proof using Hb Halloc Hinfo Htags ConstsOk0.
  intros Ho Hg Hc Hj Hst HF HK. destruct (opening_aif _ _ _ _ _ Ho Hj) as (a & dv & d0 & d & _ & _ & Hdv & _).
  apply wpg_bind. eapply wpg_mono; [eapply (wp_connect_aif first); [exact Ho|intros; apply opened_on_pos|done..]|].
  intros r w1 (t1 & Hs1 & Hr). destruct (nz r) eqn:Er; bool_hyps.
  - apply wpg_ret. destruct Hr as [Ho1 Hg1]. eapply HF; [done|exact Hs1| |done].
    eapply opening_ext; [|exact Ho1]. intros l. by rewrite (same_opened_on _ _ _ Hs1).
  - destruct Hr as [Ho1 Hg1]. apply wpg_bind. eapply wp_mark_opened; [done..|].
    intros b' w2 Hj' Hm Ho2 Hg2. eapply HK; [| |exact Ho2|exact Hg2].
    + cbn. etransitivity; [apply (ss_moved _ _ Hs1)|].
      rewrite <- (list_insert_id (ses_aifs t1) j b') at 1 by done. apply Forall2_insert; [reflexivity|].
      split; [done..|]. right. split; [|done].
      pose proof (f_equal (fun l => l !! j) (ss_st _ _ Hs1)) as E. cbn in E. rewrite !list_lookup_fmap, Hj, Hj' in E. cbn in E.
      congruence.
    + exists (set_aif_st AIF_OPENED b'). split; [|done]. cbn. apply list_lookup_insert_eq. by eapply lookup_lt_Some.
Qed.

(** The first interface that waits, if there is one. *)
Lemma wp_open_first t w (Q : Z -> world -> Prop) :
  counted t w -> graph_stage true t w ->
  (forall r t' w', r <> 0 -> same_states t t' -> counted t' w' -> no_graph w' -> Q r w') ->
  (forall t' w', Forall2 aif_moved (ses_aifs t) (ses_aifs t') -> counted t' w' -> has_graph t' w' -> Q 0 w') ->
  wp (session_open_with_first_device i) Q w.
Proof using Hb Halloc Hinfo Htags ConstsOk0.
  intros Ho Hg HF HK. unfold session_open_with_first_device. apply wpg_bind. eapply wp_read_opening; [exact Ho|].
  destruct (list_find _ (ses_aifs t)) as [[j b]|] eqn:E.
  - apply list_find_Some in E as (Hj & Hst & _).
    eapply (wp_connect_and_mark id true t w j b 0 Q (ret 0)); try done. intros t' w' Hm _ Ho' Hg'. apply wpg_ret.
    by eapply HK.
  - apply wpg_ret. eapply HF; [done|by apply same_states_eq|exact Ho|]. destruct Hg as ([HG _] & _ & _ & Hw). intros go.
    rewrite Hw, lookup_ge_None_2 by lia. done.
Qed.

(** The interfaces at [ix] no longer wait. *)
Definition none_waits (ix : list nat) (t : session_obj) : Prop :=
  Forall (fun j => forall b, ses_aifs t !! j = Some b -> aif_st b <> AIF_OPEN) ix.

Lemma none_waits_moved ix t t' :
  Forall2 aif_moved (ses_aifs t) (ses_aifs t') -> none_waits ix t -> none_waits ix t'.
Proof using.
  intros Hm Hn. eapply Forall_impl; [exact Hn|]. intros j Hj b' Hb'.
  destruct (Forall2_lookup_r _ _ _ _ _ Hm Hb') as (b & Hb0 & Hab). pose proof (Hj b Hb0).
  destruct (am_st _ _ Hab) as [->|[? _]]; congruence.
Qed.

(** The loop over the others: with one interface connected the graph is there,
    and is not opened a second time as long as the counter does not wrap. *)
Lemma wp_connect_rest ix : forall c t w,
  0 < c -> c + Z.of_nat (length ix) < 2 ^ 32 -> Forall (fun j => j < length (ses_aifs t))%nat ix ->
  counted t w -> has_graph t w ->
  wp (connect_rest i ix c) (fun e w' => exists t', Forall2 aif_moved (ses_aifs t) (ses_aifs t') /\
    counted t' w' /\ has_graph t' w' /\ match e with None => none_waits ix t' | Some _ => True end) w.
Proof using Hb Halloc Hinfo Htags ConstsOk0.
  induction ix as [|j ix IH]; intros c t w Hc Hlen Hix Ho Hg; cbn [connect_rest].
  { apply wpg_ret. exists t. split_and!; [reflexivity|done|done|by constructor]. }
  cbn [length] in Hlen. apply Forall_cons in Hix as [Hjl Hix]. destruct (lookup_lt_is_Some_2 _ _ Hjl) as [b Hj].
  assert (Hrest : forall c' t1 w1, 0 < c' -> c' + Z.of_nat (length ix) < 2 ^ 32 ->
    Forall2 aif_moved (ses_aifs t) (ses_aifs t1) -> (exists b1, ses_aifs t1 !! j = Some b1 /\ aif_st b1 <> AIF_OPEN) ->
    counted t1 w1 -> has_graph t1 w1 ->
    wp (connect_rest i ix c') (fun e w' => exists t', Forall2 aif_moved (ses_aifs t) (ses_aifs t') /\
      counted t' w' /\ has_graph t' w' /\ match e with None => none_waits (j :: ix) t' | Some _ => True end) w1).
  { intros c' t1 w1 Hc' Hl' Hm (b1 & Hb1 & Hs1) Ho1 Hg1. eapply wpg_mono; [apply (IH c' t1 w1); try done|].
    - by rewrite <- (Forall2_length _ _ _ Hm).
    - intros e w2 (t2 & Hm2 & Ho2 & Hg2 & He). exists t2. split_and!; [by etransitivity|done..|]. destruct e; [done|].
      constructor; [|done]. intros b2 Hb2. destruct (Forall2_lookup_lr _ _ _ _ _ _ Hm2 Hb1 Hb2).
      destruct am_st0 as [->|[? _]]; congruence. }
  apply wpg_bind. eapply wp_aif_opening; [exact Ho|exact Hj|]. case_bool_decide as Hst.
  - eapply (wp_connect_and_mark Some false t w j b c); [done|done|lia|done|done| |].
    + intros r t1 w1 _ Hs Ho1 Hg1. exists t1. split_and!; [apply Hs|done|done|done].
    + intros t1 w1 Hm (b1 & Hb1 & Hs1) Ho1 Hg1. rewrite u32_small by lia.
      eapply (Hrest (c + 1)); [lia|lia|done| |done|done]. exists b1. by rewrite Hs1.
  - eapply Hrest; [done|lia|reflexivity|by exists b|done|done].
Qed.

(** ** Undoing the connections *)

Lemma meta_ok_mix m m' : meta_ok m = true -> meta_ok m' = true ->
  meta_ok (Meta (gkv m) (ckv m) (sg_props m')) = true.
Proof using.
  intros (H1 & H2 & _)%meta_ok_parts (_ & _ & H3)%meta_ok_parts. unfold meta_ok. cbn. by rewrite H1, H2, H3.
Qed.

Lemma wp_disconnect t n w j b dv (Q : Z -> world -> Prop) :
  opening t n w -> has_graph t w -> ses_aifs t !! j = Some b -> aif_dev b = Some dv -> 1 <= n dv ->
  (forall r w', opening t (minus_dev n dv) w' -> has_graph t w' -> Q r w') ->
  wp (session_disconnect_aif i j 1) Q w.
Proof using Hb Halloc.
  intros Ho Hg Hj Hdv Hn HQ. destruct (opening_aif _ _ _ _ _ Ho Hj) as (a & dv' & d0 & d & _ & _ & Hdv' & Hd0 & Hd & Hok1 & Hok2).
  assert (dv' = dv) as -> by congruence. unfold session_disconnect_aif.
  apply wpg_bind. eapply wp_read_opening; [exact Ho|]. apply wpg_bind. eapply wp_aif_opening; [exact Ho|exact Hj|].
  apply wpg_bind. eapply wp_merge_sess_aif; [exact Ho|exact Hj|]. intros m k1 Hm.
  change (1 =? 1) with true. cbv iota. apply wpg_bind. unfold aif_dev_meta. rewrite Hdv.
  apply wpg_bind, wpg_ret, wpg_bind. eapply wpg_read_dev; [exact Hd|]. apply wpg_ret, wpg_bind.
  apply wp_merge_opening; [cbn; by repeat constructor|]. intros m' k2 Hm'. apply wpg_bind.
  pose proof Hg as (go & E & _). rewrite E.
  change (graph_stop (Some G) (Some ?x)) with (run_graph (GrStop (Some x)) G).
  eapply (wp_graph_opening t n); [by do 2 apply opening_allocs|by apply (has_graph_live t t w)|exact E|done| |].
  { by apply meta_ok_mix. }
  intros r w1 Ho1 Hg1 _. destruct (og_refs _ _ _ Ho1 _ _ Hd0) as (d1 & Hd1 & _).
  eapply wp_close_dev; [exact Ho1|exact Hd0|exact Hd1|exact Hn|]. intros r' w2 Ho2 Eg Hl.
  apply HQ; [exact Ho2|]. by eapply (has_graph_live t).
Qed.

(** Its interfaces at [ix] are not opened. *)
Definition none_opened (ix : list nat) (t : session_obj) : Prop :=
  Forall (fun j => forall b, ses_aifs t !! j = Some b -> aif_st b <> AIF_OPENED) ix.

Context (Hno : Forall (fun a => aif_st a <> AIF_OPENED) (ses_aifs s)).

Definition undo_aif (j : nat) : AGM unit :=
  let! a := read_aif i j in
  if bool_decide (aif_st a = AIF_OPENED) then do! session_disconnect_aif i j 1 ; set_aif_state i j AIF_OPEN else ret tt.

Lemma wp_undo_aif t w j (Q : unit -> world -> Prop) :
  counted t w -> has_graph t w -> (j < length (ses_aifs t))%nat ->
  (forall t' w', counted t' w' -> has_graph t' w' -> length (ses_aifs t') = length (ses_aifs t) ->
     (forall b, ses_aifs t' !! j = Some b -> aif_st b <> AIF_OPENED) ->
     (forall l, none_opened l t -> none_opened l t') -> Q tt w') ->
  wp (undo_aif j) Q w.
Proof using Hb Halloc Hno.
  intros Ho Hg Hl HQ. destruct (lookup_lt_is_Some_2 _ _ Hl) as [b Hj]. unfold undo_aif.
  destruct (opening_aif _ _ _ _ _ Ho Hj) as (a & dv & d0 & d & Ha & Hm & Hdv & _).
  apply wpg_bind. eapply wp_aif_opening; [exact Ho|exact Hj|]. case_bool_decide as Hst.
  2:{ apply wpg_ret. apply (HQ t w); try done. intros b'. congruence. }
  assert (Hone : opened_on_dev b dv = true) by (unfold opened_on_dev; by rewrite !bool_decide_true).
  apply wpg_bind. eapply (wp_disconnect t _ w j b dv); [exact Ho|done..|by eapply opened_on_lookup|].
  intros r w1 Ho1 Hg1. unfold set_aif_state, upd_aif. apply wpg_bind. eapply wp_read_opening; [exact Ho1|]. rewrite Hj.
  apply wpg_bind, wpg_ret.
  assert (Hsa : aif_st a = AIF_OPEN).
  { destruct (am_st _ _ Hm) as [E|[E _]]; [|done]. destruct (Forall_lookup_1 _ _ _ _ Hno Ha). congruence. }
  eapply (wp_upd_from _ t _ w1 (set_ses_aifs (<[j := set_aif_st AIF_OPEN b]> (ses_aifs t)))); [exact Ho1| |].
  { destruct (og_moved _ _ _ Ho1) as [S1 S2 S3 S4 S5 S6 S7 S8]. split; try done. cbn.
    rewrite <- (list_insert_id (ses_aifs s) j a) by done. apply Forall2_insert; [done|].
    destruct Hm. split; try done. by left. }
  intros w2 Ho2 Eg Ed. apply (HQ (set_aif_at j (set_aif_st AIF_OPEN b) t)); [| |cbn; apply length_insert| |].
  - eapply opening_ext; [|exact Ho2]. intros k. cbn. rewrite (opened_on_insert _ _ _ _ _ Hj). unfold minus_dev, opened_on_dev.
    cbn [aif_st aif_dev set_aif_st]. rewrite Hst, Hdv.
    rewrite (bool_decide_false (AIF_OPEN = AIF_OPENED)), (bool_decide_true (AIF_OPENED = AIF_OPENED)) by done.
    rewrite (bool_decide_ext (Some dv = Some k) (k = dv)) by (split; congruence). cbn. lia.
  - eapply (has_graph_live t); [done|done|done|by rewrite Ed].
  - cbn. intros b'. rewrite list_lookup_insert_eq by done. by intros [= <-].
  - intros l Hln. eapply Forall_impl; [exact Hln|]. intros k Hk b'. cbn. destruct (decide (j = k)) as [<-|Hne].
    + rewrite list_lookup_insert_eq by done. by intros [= <-].
    + rewrite list_lookup_insert_ne by done. apply Hk.
Qed.

Lemma wp_undo_all ix : forall l t w,
  counted t w -> has_graph t w -> Forall (fun j => j < length (ses_aifs t))%nat ix -> none_opened l t ->
  wp (for_all ix undo_aif) (fun _ w' => exists t', counted t' w' /\ has_graph t' w' /\ none_opened (l ++ ix) t') w.
Proof using Hb Halloc Hno.
  induction ix as [|j ix IH]; intros l t w Ho Hg Hix Hl.
  { apply wpg_ret. exists t. by rewrite app_nil_r. }
  apply Forall_cons in Hix as [Hj Hix]. apply wpg_bind. eapply wp_undo_aif; [exact Ho|exact Hg|exact Hj|].
  intros t1 w1 Ho1 Hg1 Hlen Hj1 Hk1. eapply wpg_mono; [apply (IH (l ++ [j]) t1); [done|done|by rewrite Hlen|]|].
  - apply Forall_app. split; [by apply Hk1|by constructor].
  - intros [] w2 H2. by rewrite <- app_assoc in H2.
Qed.

Lemma undone_states t :
  Forall2 aif_moved (ses_aifs s) (ses_aifs t) -> none_opened (seq 0 (length (ses_aifs t))) t -> same_states s t.
Proof using.
  intros Hm Hn. split; [|exact Hm]. apply list_eq. intros j. rewrite !list_lookup_fmap.
  destruct (ses_aifs t !! j) as [b|] eqn:Hj.
  - destruct (Forall2_lookup_r _ _ _ _ _ Hm Hj) as (a & Ha & Hab). rewrite Ha. cbn. f_equal.
    destruct (am_st _ _ Hab) as [E|[_ E]]; [done|]. exfalso. unfold none_opened in Hn. rewrite Forall_forall in Hn.
    eapply Hn; [|exact Hj|exact E]. apply elem_of_seq. pose proof (lookup_lt_Some _ _ _ Hj). lia.
  - apply lookup_ge_None in Hj. rewrite <- (Forall2_length _ _ _ Hm) in Hj. by rewrite (lookup_ge_None_2 _ _ Hj).
Qed.

Lemma none_waits_all t : none_waits (seq 0 (length (ses_aifs t))) t -> Forall (fun a => aif_st a <> AIF_OPEN) (ses_aifs t).
Proof using.
  intros Hn. apply Forall_lookup_2. intros j b Hj. unfold none_waits in Hn. rewrite Forall_forall in Hn.
  eapply Hn; [|exact Hj]. apply elem_of_seq. pose proof (lookup_lt_Some _ _ _ Hj). lia.
Qed.

(** The other interfaces: all of them, or none with the graph closed; the status
    after a failure is that of [graph_close]. *)
Lemma wp_reminder t w :
  Z.of_nat (length (ses_aifs s)) < 2 ^ 32 - 1 -> counted t w -> has_graph t w ->
  wp (session_connect_reminder_devices i) (fun r w' => exists t', counted t' w' /\
    (r = 0 /\ has_graph t' w' /\ Forall (fun a => aif_st a <> AIF_OPEN) (ses_aifs t') \/
     ses_graph t' = None /\ no_graph w' /\ same_states s t')) w.
Proof using Hb Halloc Hinfo Htags ConstsOk0 Hno.
  intros Hlen Ho Hg. unfold session_connect_reminder_devices, aif_idx.
  assert (Hl : length (ses_aifs t) = length (ses_aifs s)).
  { symmetry. apply (Forall2_length _ _ _ (sm_aifs _ _ (og_moved _ _ _ Ho))). }
  assert (Hix : Forall (fun j => j < length (ses_aifs t))%nat (seq 0 (length (ses_aifs t)))).
  { apply Forall_forall. intros j Hj%elem_of_seq. lia. }
  apply wpg_bind, wpg_bind. eapply wp_read_opening; [exact Ho|]. apply wpg_ret, wpg_bind.
  eapply wpg_mono; [apply (wp_connect_rest (seq 0 (length (ses_aifs t))) 1 t w); [lia| |done..]|].
  { rewrite length_seq, Hl. lia. }
  intros e w1 (t1 & Hm1 & Ho1 & Hg1 & He). destruct e as [r1|].
  2:{ apply wpg_ret. exists t1. split; [done|]. left. split_and!; [done|done|]. apply none_waits_all.
      by rewrite <- (Forall2_length _ _ _ Hm1). }
  apply wpg_bind. change (fun j : nat => let! a := read_aif i j in _) with undo_aif.
  eapply wpg_mono; [apply (wp_undo_all (seq 0 (length (ses_aifs t))) [] t1); [done|done| |by constructor]|].
  { by rewrite <- (Forall2_length _ _ _ Hm1). }
  intros [] w2 (t2 & Ho2 & Hg2 & Hn2). apply wpg_bind. eapply wp_read_opening; [exact Ho2|].
  apply wpg_bind. eapply wp_close_opening; [exact Ho2|exact Hg2|]. intros r w3 Ho3 Hno3.
  assert (Hs : same_states s t2).
  { apply undone_states; [apply (sm_aifs _ _ (og_moved _ _ _ Ho2))|].
    by rewrite <- (Forall2_length _ _ _ (sm_aifs _ _ (og_moved _ _ _ Ho2))), <- Hl. }
  apply wpg_bind. eapply (wp_upd_opening _ t2 _ w3 (set_ses_graph None)); [exact Ho3|by split|].
  intros w4 Ho4 Eg4 Ed4. apply wpg_ret. exists (set_ses_graph None t2). split; [exact Ho4|]. right.
  split_and!; [done|unfold no_graph; by rewrite Eg4|]. destruct Hs. by split.
Qed.

(** ** The whole open *)

(** All interfaces that waited are opened, each with a reference on its device,
    and the graph is there; or the open fails and nothing is left of it; or it
    fails after the first interface and is reported as done. *)
Inductive open_end : Z * option nat -> world -> Prop :=
| open_complete t w' :
    ses_moved s t -> Forall (fun a => aif_st a <> AIF_OPEN) (ses_aifs t) ->
    w_pool w' = Some (<[i := set_ses_state SESSION_OPENED t]> p) ->
    refs_plus (opened_on (ses_aifs t)) (w_devs w0) (w_devs w') ->
    (forall h, h <> G -> w_graphs w' !! h = w_graphs w0 !! h) -> has_graph t w' ->
    open_end (0, Some i) w'
| open_refused r t w' :
    r <> 0 -> ses_moved s t -> aif_st <$> ses_aifs t = aif_st <$> ses_aifs s ->
    w_pool w' = Some (<[i := t]> p) -> refs_plus (fun _ => 0) (w_devs w0) (w_devs w') ->
    (forall h, h <> G -> w_graphs w' !! h = w_graphs w0 !! h) -> no_graph w' ->
    open_end (r, None) w'
| open_lost t w' :
    ses_moved s t -> aif_st <$> ses_aifs t = aif_st <$> ses_aifs s ->
    w_pool w' = Some (<[i := set_ses_state SESSION_OPENED t]> p) -> refs_plus (fun _ => 0) (w_devs w0) (w_devs w') ->
    (forall h, h <> G -> w_graphs w' !! h = w_graphs w0 !! h) -> no_graph w' -> ses_graph t = None ->
    open_end (0, Some i) w'.

Lemma counted_none t w : counted t w -> same_states s t -> refs_plus (fun _ => 0) (w_devs w0) (w_devs w).
Proof using Hno.
  intros Ho Hs. eapply refs_plus_ext; [|apply (og_refs _ _ _ Ho)]. intros k.
  rewrite (same_opened_on _ _ _ Hs). by apply opened_on_none.
Qed.

Definition open_locked : AGM (Z * option nat) :=
  let! s := read_sess i in
  if negb (bool_decide (ses_state s = SESSION_CLOSED)) then ret (- EALREADY, None) else
  let! r := session_open_with_first_device i in
  if nz r then ret (r, None) else
  let! r := session_connect_reminder_devices i in
  if nz r then ret (r, None) else
  let! s := read_sess i in
  let! r := (if ses_lb_state s then session_set_loopback i (ses_lb_id s) (ses_lb_state s) else ret 0) in
  if nz r then ret (r, None) else
  let! s := read_sess i in
  let! r := (if ses_ec_state s then session_set_ec_ref i (ses_ec_id s) (ses_ec_state s) else ret 0) in
  if nz r then ret (r, None) else
  do! upd_sess i (set_ses_state SESSION_OPENED) ;
  ret (0, Some i).

Lemma wp_open_locked :
  fresh_graph ->
  w_pool w0 = Some p -> tables_ok w0 -> Z.of_nat (length (ses_aifs s)) < 2 ^ 32 - 1 ->
  ses_state s = SESSION_CLOSED -> ses_graph s = None -> ses_lb_state s = false -> ses_ec_state s = false ->
  wp open_locked (fun a w' => open_end a w' /\ w_held w' = w_held w0) w0.
Proof using Hb Halloc Hinfo Htags ConstsOk0 Hno.
  intros Hfr Hp Htab Hlen Hst Hgr Hlb Hec. assert (Ho : counted s w0).
  { split; try done. { by rewrite Hp, list_insert_id by apply (ob_sess Hb). }
    intros k d Hd. exists d. rewrite opened_on_none by done. destruct (ob_devs Hb _ _ Hd). split_and!; try done.
    destruct (dev_refcnt d). cbn. f_equal. lia. }
  assert (Hrefuse : forall r t w, r <> 0 -> counted t w -> same_states s t -> no_graph w ->
    open_end (r, None) w /\ w_held w = w_held w0).
  { intros r t w Hr Ho1 Hs Hn. split; [|apply (og_held _ _ _ Ho1)].
    apply (open_refused r t w); try done; [apply Ho1|apply Hs|apply Ho1|by eapply counted_none|apply Ho1]. }
  unfold open_locked. apply wpg_bind. eapply wp_read_opening; [exact Ho|]. rewrite bool_decide_true by done. cbn [negb].
  apply wpg_bind. eapply (wp_open_first s); [exact Ho|by split| |].
  { intros r t w Hr Hs Ho1 Hn. rewrite (proj2 (nz_true r)) by done. apply wpg_ret. by eapply Hrefuse. }
  intros t w Hm Ho1 Hg1. change (nz 0) with false. cbv iota. apply wpg_bind.
  eapply wpg_mono; [by apply (wp_reminder t w)|]. intros r w1 (t1 & Ho2 & Hr). pose proof (og_moved _ _ _ Ho2) as Hm2.
  destruct (nz r) eqn:Er; bool_hyps.
  { apply wpg_ret. destruct Hr as [[? _]|(_ & Hn & Hs)]; [done|]. by eapply Hrefuse. }
  apply wpg_bind. eapply wp_read_opening; [exact Ho2|]. rewrite (sm_lb _ _ Hm2), Hlb. apply wpg_bind, wpg_ret.
  change (nz 0) with false. cbv iota. apply wpg_bind. eapply wp_read_opening; [exact Ho2|].
  rewrite (sm_ec _ _ Hm2), Hec. apply wpg_bind, wpg_ret. change (nz 0) with false. cbv iota. apply wpg_bind.
  destruct (opening_sess _ _ _ Ho2) as (q & Hq & Ht). eapply wpg_upd_sess; [done..|]. apply wpg_ret.
  pose proof Ho2 as [P1 P2 P3 P4 P5 P6].
  assert (Hpool : Some (<[i := set_ses_state SESSION_OPENED t1]> q) = Some (<[i := set_ses_state SESSION_OPENED t1]> p)).
  { rewrite P1 in Hq. injection Hq as <-. by rewrite list_insert_insert_eq. }
  split; [|exact P5]. destruct Hr as [(_ & Hg & Hnone)|(Hg & Hn & Hs)].
  - by apply (open_complete t1).
  - apply (open_lost t1); first [done | apply Hs | exact (counted_none _ _ Ho2 Hs)].
Qed.
End Opening.

(** ** The theorem *)

(** A closed session without a graph, in a process with nothing running on it. *)
Record open_ready `{Env} (i : nat) (p : list session_obj) (s : session_obj) (w : world) : Prop := OpenReady {
  or_base : open_base i p s w;
  or_pool : w_pool w = Some p;
  or_tables : tables_ok w;
  or_state : ses_state s = SESSION_CLOSED;
  or_graph : ses_graph s = None;
  or_lb : ses_lb_state s = false;
  or_ec : ses_ec_state s = false;
  or_none : Forall (fun a => aif_st a <> AIF_OPENED) (ses_aifs s);
  or_few : Z.of_nat (length (ses_aifs s)) < 2 ^ 32 - 1
}.

Section Props.
Context `{Env}.

(** C5: opening a closed session that has no graph and no loopback or echo
    reference set, none of whose interfaces is open, with memory available, its
    metadata and devices well formed, no mutex held, fewer than 2^32 - 1
    interfaces, and a GSL that names a module for every tag it reports.  The call
    returns, with the session mutex released, and in one of
    three ways.  Either the graph is there, no interface waits any more and every
    device has one reference more for each interface opened on it; or an error
    is reported, no interface is opened, no device has a reference more and no graph
    is left; or only the status differs from the second: an interface after the
    first fails, everything is taken back, and the session is reported open.
    (With a loopback set there is a fourth: see [failed_loopback_leaks].) *)
Theorem session_open_correct id i p s w :
  ConstsOk env_consts -> (forall n, env_alloc n = true) ->
  (forall h k t, snd (env_answer h (GslGetTaggedModuleInfo k t)) <> []) ->
  (forall h k n, Forall (fun e => snd e <> []) (snd (env_answer h (GslGetTags k n)))) ->
  open_ready i p s w -> find_session p id = Some i -> LPool ∉ w_held w -> LSess i ∉ w_held w ->
  wp (session_obj_open id) (fun a w' => open_end i p s w (length (w_graphs w)) OPENED a w' /\ w_held w' = w_held w) w.
Proof.
  intros Hc Ha Hi Ht [[B1 B2 B3 B4 B5 B6] Hp Htab Hst Hg Hlb Hec Hno Hfew] Hid Hlp Hls. unfold session_obj_open.
  apply wpg_bind. eapply wpg_session_obj_get_found; [exact Hp|exact Hlp|exact Hid|]. intros acq. change (nz 0) with false. cbv iota.
  apply wpg_with_lock; [exact Hls|].
  set (w1 := set_w_held _ _).
  assert (Hb : open_base i p s w1).
  { split; try done. intros l [->|Hl]%elem_of_cons; [done|]. by apply B6. }
  eapply wpg_mono; [apply (wp_open_locked Ha Hi Ht i p s w1 Hb (length (w_graphs w)) OPENED); try done; by destruct Htab|].
  intros a w' [Hend Hh]. split; [exact Hh|]. split; [|done].
  destruct Hend as [t w' H1 H2 H3 H4 H5 H6|r t w' H1 H2 H3 H4 H5 H6 H7|t w' H1 H2 H3 H4 H5 H6 H7].
  - by apply (open_complete _ _ _ _ _ _ t).
  - by apply (open_refused _ _ _ _ _ _ r t).
  - by apply (open_lost _ _ _ _ _ _ t).
Qed.
End Props.

(** ** A session with two interfaces *)

Definition open_session : session_obj := two_aifs AIF_OPEN None.
Definition open_world : world := two_world AIF_OPEN None.

Lemma open_world_ready : open_ready (H:=ok_env) 0 [open_session] open_session open_world.
Proof.
  split; try done; [|by destruct (live_tables OPENED)|by repeat constructor]. split; try done.
  - repeat constructor; [exists 0%nat|exists 1%nat]; (split; [done|by eexists]).
  - intros [|[|k]] d; try done; intros [= <-]; (split; [apply device_zero_inv|done]).
  - intros l. by intros ?%elem_of_nil.
Qed.

Definition open_view (s : session_obj) := (ses_state s, ses_graph s, map aif_st (ses_aifs s)).

Lemma session_open_correct_witness :
  exists w', session_obj_open (H:=ok_env) 1 open_world = Ret (0, Some 0%nat) w' /\
    map open_view <$> w_pool w' = Some [(SESSION_OPENED, Some 1%nat, [AIF_OPENED; AIF_OPENED])] /\
    map (option_map dev_refcnt) (w_devs w') = [Some (Refcount 1 0 0); Some (Refcount 1 0 0)].
Proof.
  pose proof (session_open_correct (H:=ok_env) 1 0 [open_session] open_session open_world demo_consts_ok
    (fun _ => eq_refl) (fun _ _ _ => ltac:(discriminate)) (fun _ _ _ => ltac:(by repeat constructor)) open_world_ready eq_refl
    ltac:(set_solver) ltac:(set_solver)) as Hwp.
  apply wp_run in Hwp as (r & w' & Hrun & _). exists w'. revert Hrun. clear.
  vm_compute. by intros [= <- <-].
Defined.

(** Cached parameters that GSL refuses. *)
Definition no_params_env : Env :=
  demo_env (fun _ c => match c as c' return option (ext_ans c') with
                       | GslSetCustomConfig _ _ => Some 2
                       | _ => None
                       end) (fun _ => true).
Definition cached_session : session_obj :=
  set_ses_aifs [Aif 0 (Some 0%nat) AIF_OPEN meta_zero (Some [1])] open_session.
Definition cached_world : world := set_w_pool (Some [cached_session]) open_world.

(** The first interface fails after its graph was opened: the graph is freed and the
    session keeps the pointer, which [session_obj_resume] follows in any state. *)
Example failed_open_dangles :
  match session_obj_open (H:=no_params_env) 1 cached_world with
  | Ret (r, None) w' => nz r = true /\ (s ← (p ← w_pool w'; p !! 0%nat); Some (ses_state s, ses_graph s)) = Some (SESSION_CLOSED, Some 1%nat) /\
      w_graphs w' !! 1%nat = Some None /\ session_obj_resume (H:=no_params_env) 0 w' = Crash DanglingPtr
  | _ => False
  end.
Proof. vm_compute. repeat split. Qed.

(** Opened with a loopback that GSL refuses, a session stays closed while its graph, its interface
    and the device stay open; opening it again finds no interface to open. *)
Definition looped_session : session_obj :=
  set_ses_lb_state true (set_ses_lb_id 1 (set_ses_aifs [one_aif AIF_OPEN] open_session)).

Example failed_loopback_leaks :
  match session_obj_open (H:=no_add_env) 1 (set_w_pool (Some [looped_session]) open_world) with
  | Ret (r, None) w' => nz r = true /\
      map open_view <$> w_pool w' = Some [(SESSION_CLOSED, Some 1%nat, [AIF_OPENED])] /\
      map (option_map dev_refcnt) (w_devs w') = [Some (Refcount 1 0 0); Some (Refcount 0 0 0)] /\
      match session_obj_open (H:=no_add_env) 1 w' with Ret a _ => a = (- EPIPE, None) | Crash _ => False end
  | _ => False
  end.
Proof. vm_compute. repeat split. Qed.
