(* ===== verification/SessionAttach.v ===== *)
(** * Interfaces of a session that is open

    [session_obj_sess_aif_connect] on a session that was opened: an interface is
    connected to the graph that is there, or taken out of it. *)

From S2P Require Export SessionOpen.
Open Scope Z_scope.
#[export] Set Default Goal Selector "!".

Lemma audio_events_app t t' : audio_events (t ++ t') = audio_events t ++ audio_events t'.
Proof. apply List.filter_app. Qed.

Lemma graph_trans_audio `{Consts} op go r go' evs : graph_trans op go r go' evs -> audio_events evs = evs.
Proof. intros Ht. by inversion Ht. Qed.

(** What the graph is told when an interface leaves: the last opened one stops its
    leg, the others are removed. *)
Definition leg_op (c : Z) (merged props : meta_data) : graph_op :=
  if c =? 1 then GrStop (Some (Meta (gkv merged) (ckv merged) (sg_props props))) else GrRemove merged.

(** The number of interfaces opened or further. *)
Definition opened_count (s : session_obj) : Z := Z.of_nat (length (List.filter (state_matches AIF_OPENED false) (ses_aifs s))).

Section Detach.
Context `{Env} (Halloc : forall n, env_alloc n = true).

(** Its leg leaves the graph, then its device is closed. *)
Lemma wp_session_disconnect i j c p s a g go dv d w (Q : Z -> world -> Prop) :
  w_pool w = Some p -> p !! i = Some s -> ses_aifs s !! j = Some a -> ses_graph s = Some g ->
  w_graphs w !! g = Some (Some go) -> aif_dev a = Some dv -> w_devs w !! dv = Some (Some d) ->
  all_ok [ses_meta s; aif_meta a; dev_meta d] -> locks_free w ->
  (forall merged props r1 go' evs r d' m pevs w',
     merged_from [ses_meta s; aif_meta a; dev_meta d] merged -> (c = 1 -> merged_from [aif_meta a; dev_meta d] props) ->
     graph_trans (leg_op c merged props) go r1 go' evs -> dev_trans DClose d r d' m -> dev_calls DClose d r d' pevs ->
     audio_events (w_trace w') = pevs ++ evs ++ audio_events (w_trace w) ->
     w_pool w' = Some p -> w_graphs w' = <[g := Some go']> (w_graphs w) -> w_devs w' = <[dv := Some d']> (w_devs w) ->
     w_held w' = w_held w -> Q r w') ->
  wp (session_disconnect_aif i j c) Q w.
Proof using Halloc.
  intros Hp Hs Ha Hg Hgo Hdv Hd Hok Hfree HQ. unfold session_disconnect_aif.
  apply wpg_bind. eapply wpg_read_sess; [done..|]. apply wpg_bind. eapply wpg_read_aif; [done..|].
  assert (Hmeta : forall w' (R : meta_data -> world -> Prop), w_devs w' = w_devs w -> R (dev_meta d) w' -> wp (aif_dev_meta a) R w').
  { intros w' R E HR. unfold aif_dev_meta. rewrite Hdv. apply wpg_bind, wpg_ret, wpg_bind.
    eapply wpg_read_dev; [by rewrite E|]. by apply wpg_ret. }
  apply wpg_bind. unfold merge_sess_aif. apply wpg_bind. eapply wpg_read_sess; [done..|]. apply wpg_bind.
  eapply wpg_read_aif; [done..|]. apply wpg_bind, Hmeta; [done|]. apply (wp_merge_live Halloc); [done|]. intros merged k Hm.
  (* the device, once the graph was told *)
  assert (Hend : forall props r1 go' calls k1 w1, (c = 1 -> merged_from [aif_meta a; dev_meta d] props) ->
    graph_trans (leg_op c merged props) go r1 go' calls -> graph_effect g go' calls (set_w_allocs k1 w) w1 ->
    wp (device_close (aif_dev a)) Q w1).
  { intros props r1 go' calls k1 w1 Hpr Ht (Hgs & Hf & Htr). rewrite Hdv.
    change (device_close (Some dv)) with (run_dev DClose dv).
    eapply wp_run_dev_calls; [rewrite (gf_devs _ _ _ Hf); exact Hd| |].
    { rewrite (gf_held _ _ _ Hf). by apply locks_free_dev. }
    intros r d' m pevs w2 Hdt (Hds & _ & Hsame) Hev Hcalls. eapply HQ; [exact Hm|exact Hpr|exact Ht|exact Hdt|exact Hcalls|..].
    - rewrite Hev, Htr, audio_events_app. by rewrite (graph_trans_audio _ _ _ _ _ Ht).
    - rewrite (sbd_pool _ _ Hsame), (gf_pool _ _ _ Hf). exact Hp.
    - rewrite (sbd_graphs _ _ Hsame). exact Hgs.
    - rewrite Hds, (gf_devs _ _ _ Hf). done.
    - rewrite (sbd_held _ _ Hsame), (gf_held _ _ _ Hf). done. }
  rewrite Hg. destruct (c =? 1) eqn:Ec.
  - apply wpg_bind, Hmeta; [done|]. apply wpg_bind, (wp_merge_live Halloc); [by inversion Hok|]. intros props k2 Hpr.
    apply wpg_bind. change (graph_stop (Some g) (Some ?x)) with (run_graph (GrStop (Some x)) g).
    eapply wp_run_graph; [exact Hgo|by apply locks_free_graph| |].
    { apply meta_ok_mix; [apply Hm|apply Hpr]. }
    intros r1 go' calls w1 Ht He. eapply (Hend props); [done| |exact He]. unfold leg_op. rewrite Ec. exact Ht.
  - apply wpg_bind. change (graph_remove (Some g) merged) with (run_graph (GrRemove merged) g).
    eapply wp_run_graph; [exact Hgo|by apply locks_free_graph| |].
    { apply Hm. }
    intros r1 go' calls w1 Ht He. eapply (Hend meta_zero); [lia| |exact He]. unfold leg_op. rewrite Ec. exact Ht.
Qed.

(** Detaching interface [j] with device [dv] takes its leg out of the graph and one
    reference from the device; the interface is closed, or left on the way when the device
    reports an error. *)
Definition detached (i : nat) (p : list session_obj) (s : session_obj) (j : nat) (a : aif) (g : nat) (go : graph_obj)
    (dv : nat) (d : device_obj) (w : world) (r : Z) (w' : world) : Prop :=
  exists merged props r1 go' evs d' m pevs,
    merged_from [ses_meta s; aif_meta a; dev_meta d] merged /\
    (opened_count s = 1 -> merged_from [aif_meta a; dev_meta d] props) /\
    graph_trans (leg_op (opened_count s) merged props) go r1 go' evs /\ dev_trans DClose d r d' m /\
    dev_calls DClose d r d' pevs /\ audio_events (w_trace w') = pevs ++ evs ++ audio_events (w_trace w) /\
    w_pool w' = Some (<[i := set_aif_at j (set_aif_st (if nz r then AIF_CLOSE else AIF_CLOSED) a) s]> p) /\
    w_graphs w' = <[g := Some go']> (w_graphs w) /\ w_devs w' = <[dv := Some d']> (w_devs w) /\ w_held w' = w_held w.

Lemma wp_detach_aif i j p s a g go dv d w :
  w_pool w = Some p -> p !! i = Some s -> ses_aifs s !! j = Some a -> ses_graph s = Some g ->
  w_graphs w !! g = Some (Some go) -> aif_dev a = Some dv -> w_devs w !! dv = Some (Some d) ->
  all_ok [ses_meta s; aif_meta a; dev_meta d] -> locks_free w -> ses_state s <> SESSION_CLOSED ->
  wp (detach_aif i j (opened_count s)) (detached i p s j a g go dv d w) w.
Proof using Halloc.
  intros Hp Hs Ha Hg Hgo Hdv Hd Hok Hfree Hst. unfold detach_aif, set_aif_state.
  pose proof (lookup_lt_Some _ _ _ Hs) as Hi. pose proof (lookup_lt_Some _ _ _ Ha) as Hj.
  set (s1 := set_aif_at j (set_aif_st AIF_CLOSE a) s). set (p1 := <[i := s1]> p).
  apply wpg_bind. eapply wpg_upd_aif; [done..|]. fold s1 p1.
  assert (Hs1 : p1 !! i = Some s1) by (by apply list_lookup_insert_eq).
  assert (Ha1 : ses_aifs s1 !! j = Some (set_aif_st AIF_CLOSE a)) by (by apply list_lookup_insert_eq).
  apply wpg_bind. eapply wpg_read_sess; [done..|]. change (ses_state s1) with (ses_state s).
  assert (Hdis : wp (session_disconnect_aif i j (opened_count s)) (fun r w' => wp
     (if nz r then ret r else do! upd_aif i j (set_aif_st AIF_CLOSED) ; ret 0) (detached i p s j a g go dv d w) w')
     (set_w_pool (Some p1) w)).
  { eapply (wp_session_disconnect i j _ p1 s1 (set_aif_st AIF_CLOSE a) g go dv d); try done.
    intros merged props r1 go' evs r d' m pevs w1 Hm Hpr Ht Hdt Hdc Hev Hp1 Hg1 Hd1 Hh1. destruct (nz r) eqn:Er; bool_hyps.
    - apply wpg_ret. exists merged, props, r1, go', evs, d', m, pevs. rewrite (proj2 (nz_true r)) by done. by split_and!.
    - subst r. apply wpg_bind. eapply wpg_upd_aif; [done..|]. apply wpg_ret. exists merged, props, r1, go', evs, d', m, pevs.
      split_and!; try done. cbn. unfold p1, s1, set_aif_at. rewrite list_insert_insert_eq. cbn. by rewrite list_insert_insert_eq. }
  apply wpg_bind. by destruct (ses_state s).
Qed.
End Detach.

Section Attach.
Context `{Env}.

(** The handler, for an interface the session has and a request that its state allows. *)
Lemma wp_sess_aif_connect i id (b : bool) p s j a w (Q : Z -> world -> Prop) :
  w_pool w = Some p -> p !! i = Some s -> list_find (fun a => aif_id a = id) (ses_aifs s) = Some (j, a) ->
  LSess i ∉ w_held w ->
  (if b then aif_state_num (aif_st a) <= aif_state_num AIF_OPENED else aif_state_num AIF_OPEN <= aif_state_num (aif_st a)) ->
  wp (if b then attach_aif i j (opened_count s) else detach_aif i j (opened_count s))
    (fun r w' => w_held w' = LSess i :: w_held w /\ Q r (set_w_held (w_held w) w'))
    (set_w_held (LSess i :: w_held w) (set_w_acq ((LSess i, w_held w) :: w_acq w) w)) ->
  wp (session_obj_sess_aif_connect i id b) Q w.
Proof.
  intros Hp Hs Hf Hl Hst Hbody. unfold session_obj_sess_aif_connect. apply wpg_with_lock; [done|].
  unfold with_aif, aif_obj_get, aif_obj_get_from_pool. apply wpg_bind, wpg_bind, wpg_bind.
  eapply wpg_read_sess; [done..|]. apply wpg_ret. rewrite Hf. cbn [fmap option_fmap option_map fst]. apply wpg_ret.
  change (nz 0) with false. cbv iota. apply wpg_bind. eapply wpg_read_aif; [done..|by apply list_find_Some in Hf as [? _]|].
  assert ((b && (aif_state_num AIF_OPENED <? aif_state_num (aif_st a)) ||
    negb b && (aif_state_num (aif_st a) <? aif_state_num AIF_OPEN)) = false) as ->.
  { destruct b; cbn [andb orb negb]; rewrite ?orb_false_r; by apply Z.ltb_ge. }
  apply wpg_bind. unfold aif_obj_get_count_with_state. apply wpg_bind. eapply wpg_read_sess; [done..|]. by apply wpg_ret.
Qed.

(** Attaching interface [j] with device [dv]: the interface is opened with a reference on its device; or
    nothing changes but cached parameters.  The graph stays. *)
Inductive attached (i : nat) (p : list session_obj) (s : session_obj) (j dv g : nat) (gst : Z) (w : world) : Z -> world -> Prop :=
| attach_done t b w' :
    ses_moved s t -> same_states s t -> ses_aifs t !! j = Some b ->
    w_pool w' = Some (<[i := set_aif_at j (set_aif_st AIF_OPENED b) t]> p) ->
    refs_plus (plus_dev (fun _ => 0) dv) (w_devs w) (w_devs w') ->
    (forall h, h <> g -> w_graphs w' !! h = w_graphs w !! h) -> has_graph i g gst t w' ->
    attached i p s j dv g gst w 0 w'
| attach_refused r t w' :
    r <> 0 -> ses_moved s t -> same_states s t -> w_pool w' = Some (<[i := t]> p) ->
    refs_plus (fun _ => 0) (w_devs w) (w_devs w') ->
    (forall h, h <> g -> w_graphs w' !! h = w_graphs w !! h) -> has_graph i g gst t w' ->
    attached i p s j dv g gst w r w'.

(** An opened session with its graph, one of its interfaces opened. *)
Record attach_ready (i : nat) (p : list session_obj) (s : session_obj) (g : nat) (go : graph_obj) (w : world) : Prop := AttachReady {
  ar_base : open_base i p s w;
  ar_pool : w_pool w = Some p;
  ar_tables : tables_ok w;
  ar_state : ses_state s = SESSION_OPENED;
  ar_graph : ses_graph s = Some g;
  ar_obj : w_graphs w !! g = Some (Some go);
  ar_sess : gr_sess go = Some i;
  ar_mods : Forall (module_ok w) (gr_mods go);
  ar_count : opened_count s <> 0
}.

Lemma wp_attach_aif i p s g go j a dv w :
  ConstsOk env_consts -> (forall n, env_alloc n = true) ->
  (forall h k t, snd (env_answer h (GslGetTaggedModuleInfo k t)) <> []) ->
  (forall h k n, Forall (fun e => snd e <> []) (snd (env_answer h (GslGetTags k n)))) ->
  attach_ready i p s g go w -> ses_aifs s !! j = Some a -> aif_dev a = Some dv ->
  wp (attach_aif i j (opened_count s)) (fun r w' => attached i p s j dv g (gr_state go) w r w' /\ w_held w' = w_held w) w.
Proof.
  intros Hc Hal Hi Ht [Hb Hp Htab Hst Hg Hgo Hsess Hmods Hcount] Ha Hdv.
  assert (Ho : opening i p s w g s (fun _ => 0) w).
  { split; try done. { by rewrite Hp, list_insert_id by apply (ob_sess _ _ _ _ Hb). }
    intros k d Hd. exists d. destruct (ob_devs _ _ _ _ Hb _ _ Hd). split_and!; try done.
    destruct (dev_refcnt d). cbn. f_equal. lia. }
  assert (Hgr : has_graph i g (gr_state go) s w) by (exists go; by split_and!).
  unfold attach_aif. apply wpg_bind. eapply wp_read_opening; [done..|]. rewrite Hst. cbv iota zeta.
  apply wpg_bind. eapply wpg_mono; [by eapply (wp_connect_aif Hal Hi Ht i p s w Hb g (gr_state go) false s (fun _ => 0))|].
  intros r w1 (t & Hs & Hr). destruct (nz r) eqn:Er; bool_hyps; destruct Hr as [Ho1 Hg1];
    pose proof Ho1 as [P1 P2 P3 P4 P5 P6].
  - apply wpg_ret. split; [|done]. by apply (attach_refused _ _ _ _ _ _ _ _ r t).
  - destruct (Forall2_lookup_l _ _ _ _ _ (ss_moved _ _ Hs) Ha) as (b & Hb' & _).
    destruct (opening_sess _ _ _ _ Hb _ _ _ _ Ho1) as (q & Hq & Hqi).
    apply wpg_bind. unfold set_aif_state. eapply wpg_upd_aif; [done..|]. apply wpg_bind, wpg_ret. change (nz 0) with false.
    cbv iota. apply wpg_ret. split; [|done].
    assert (q = <[i := t]> p) as -> by congruence.
    apply (attach_done _ _ _ _ _ _ _ _ t b); try done. cbn. by rewrite list_insert_insert_eq.
Qed.
End Attach.

(** ** The theorems *)
Section Props.
Context `{Env}.


(** C7: detaching an attached interface of a session that is not closed, its graph, device
    and metadata in place and memory available, returns with the session mutex released.  GSL is
    called as the specification of the graph says, to stop the leg of the last opened interface
    (unless the graph does not run) or to remove that of any other, with the merged metadata of
    session, interface and device; then the device makes the transition of a close, with its
    tinyalsa call for the last reference; no other call is made.  The status is that of the device, and the
    interface is closed when it is 0. *)
Theorem session_detach_correct i id p s g go j a dv d w :
  (forall n, env_alloc n = true) -> w_pool w = Some p -> p !! i = Some s -> ses_state s <> SESSION_CLOSED ->
  list_find (fun a => aif_id a = id) (ses_aifs s) = Some (j, a) -> aif_state_num AIF_OPEN <= aif_state_num (aif_st a) ->
  ses_graph s = Some g -> w_graphs w !! g = Some (Some go) -> aif_dev a = Some dv -> w_devs w !! dv = Some (Some d) ->
  all_ok [ses_meta s; aif_meta a; dev_meta d] -> locks_free w -> LSess i ∉ w_held w ->
  wp (session_obj_sess_aif_connect i id false) (detached i p s j a g go dv d w) w.
Proof.
  intros Hal Hp Hs Hst Hf Hnum Hg Hgo Hdv Hd Hok Hfree Hl.
  eapply wp_sess_aif_connect; [exact Hp|exact Hs|exact Hf|exact Hl|exact Hnum|]. cbv iota.
  pose proof Hf as (Ha & _ & _)%list_find_Some.
  eapply wpg_mono; [eapply (wp_detach_aif Hal i j p s a g go dv d); try done|].
  - intros l [->|Hl']%elem_of_cons; [done|]. by apply Hfree.
  - intros r w' (merged & props & r1 & go' & evs & d' & m & pevs & H1 & H2 & H3 & H4 & H5 & H6 & H7 & H8 & H9 & H10). split; [exact H10|].
    exists merged, props, r1, go', evs, d', m, pevs. by split_and!.
Qed.
End Props.

(** ** A session with one interface opened, another to attach *)

Definition attach_session : session_obj :=
  set_ses_state SESSION_OPENED (set_ses_graph (Some 0%nat)
    (set_ses_aifs [one_aif AIF_OPENED; Aif 1 (Some 1%nat) AIF_CLOSED meta_zero None] play_session)).
Definition open_dev : device_obj := set_dev_refcnt (Refcount 1 0 0) (set_dev_state DEV_OPENED device_zero).
Definition attach_world : world :=
  set_w_pool (Some [attach_session]) (set_w_devs [Some open_dev; Some device_zero] (set_w_num_intfs 2 (live_world OPENED))).

Lemma open_dev_inv : dev_inv open_dev.
Proof. split; cbn; split_and?; try lia; intuition (try lia; try discriminate). Qed.

Lemma attach_world_ready : attach_ready (H:=ok_env) 0 [attach_session] attach_session 0 (demo_graph OPENED) attach_world.
Proof.
  split; try done; [|by destruct (live_tables OPENED)|].
  - split; try done.
    + repeat constructor; [exists 0%nat|exists 1%nat]; (split; [done|by eexists]).
    + intros [|[|k]] d; try done; intros [= <-]; (split; [first [apply open_dev_inv|apply device_zero_inv]|done]).
    + intros l. by intros ?%elem_of_nil.
  - repeat constructor; try done; cbn; try (intros i [= <-]; by exists open_dev); by intros.
Qed.

Definition attach_view (w : world) := (map open_view <$> w_pool w, map (option_map dev_refcnt) (w_devs w)).


(** The only interface leaves a session that runs: its leg is stopped. *)
Lemma session_detach_correct_witness :
  exists w', session_obj_sess_aif_connect (H:=ok_env) 0 0 false (run_world SESSION_STARTED AIF_STARTED STARTED DEV_STARTED) =
      Ret 0 w' /\
    attach_view w' = (Some [(SESSION_STARTED, Some 0%nat, [AIF_CLOSED])], [Some (Refcount 0 0 0)]) /\
    GslIoctl 5 (GSL_CMD_STOP (Some ([], 0, []))) ∈ call_of <$> w_trace w'.
Proof.
  pose proof (session_detach_correct (H:=ok_env) 0 0 [run_session SESSION_STARTED AIF_STARTED] _ 0 (demo_graph STARTED) 0 _ 0 _
    (run_world SESSION_STARTED AIF_STARTED STARTED DEV_STARTED) (fun _ => eq_refl) eq_refl eq_refl ltac:(discriminate) eq_refl
    ltac:(by vm_compute) eq_refl eq_refl eq_refl eq_refl ltac:(by repeat constructor)
    ltac:(intros l; by intros ?%elem_of_nil) ltac:(set_solver)) as Hwp.
  apply wp_run in Hwp as (r & w' & Hrun & _). exists w'. revert Hrun. clear.
  vm_compute. intros [= <- <-]. repeat split. repeat first [by left|right].
Defined.

(** Attaching an interface that is opened is not refused: its device is opened again for it. *)
Example attach_twice :
  match session_obj_sess_aif_connect (H:=ok_env) 0 0 true attach_world with
  | Ret r w' => r = 0 /\ attach_view w' = (Some [(SESSION_OPENED, Some 0%nat, [AIF_OPENED; AIF_CLOSED])],
                      [Some (Refcount 2 0 0); Some (Refcount 0 0 0)])
  | Crash _ => False
  end.
Proof. vm_compute. repeat split. Qed.

(** A GSL that prepares no graph: the interface stays marked as prepared after its device was closed. *)
Definition no_prepare_env : Env :=
  demo_env (fun _ c => match c as c' return option (ext_ans c') with
                       | GslIoctl _ GSL_CMD_PREPARE => Some 2
                       | _ => None
                       end) (fun _ => true).

Example attach_unwind_keeps_state :
  match session_obj_sess_aif_connect (H:=no_prepare_env) 0 1 true
          (set_w_pool (Some [set_ses_state SESSION_PREPARED attach_session]) attach_world) with
  | Ret r w' => nz r = true /\ attach_view w' = (Some [(SESSION_PREPARED, Some 0%nat, [AIF_PREPARED; AIF_PREPARED])],
                      [Some (Refcount 1 1 0); Some (Refcount 0 0 0)])
  | Crash _ => False
  end.
Proof. vm_compute. repeat split. Qed.
