(* ===== verification/Plugin.v ===== *)
(** * What the tinyalsa plug-ins run on

    A plug-in is a client library: it holds one instance for an open PCM, compress
    device or mixer, asks [SndCard] for its card, and drives the service through
    [Agm].  [host] puts these together: the process of the service, the card
    definitions, and the instance ([None] before open and after close, so a call on
    a closed instance follows a dangling pointer).  [h_tick] numbers what the
    plug-in gets from outside (memory, the clock, the memory shared with the DSP,
    [mmap]), so that each of these may be different every time.  Calls into
    the service are direct; [BinderProps.binder_transparent] is about the calls through
    Binder. *)

From S2P Require Export Agm SndCardRefs.
Open Scope Z_scope.
#[export] Set Default Goal Selector "!".

(** ** The combined state *)

Record host (I : Type) : Type := Host {
  h_agm : world;
  h_snd : snd_state;
  h_inst : option I;
  h_tick : nat;
  h_errno : Z
}.
Arguments Host {I} _ _ _ _ _.
Arguments h_agm {I} _.
Arguments h_snd {I} _.
Arguments h_inst {I} _.
Arguments h_tick {I} _.
Arguments h_errno {I} _.

Definition set_h_agm {I} (v : world) (h : host I) : host I :=
  Host v (h_snd h) (h_inst h) (h_tick h) (h_errno h).
Definition set_h_snd {I} (v : snd_state) (h : host I) : host I :=
  Host (h_agm h) v (h_inst h) (h_tick h) (h_errno h).
Definition set_h_inst {I} (v : option I) (h : host I) : host I :=
  Host (h_agm h) (h_snd h) v (h_tick h) (h_errno h).
Definition set_h_tick {I} (v : nat) (h : host I) : host I :=
  Host (h_agm h) (h_snd h) (h_inst h) v (h_errno h).
Definition set_h_errno {I} (v : Z) (h : host I) : host I :=
  Host (h_agm h) (h_snd h) (h_inst h) (h_tick h) v.

Definition tick_at (k : nat) {I} (h : host I) : host I := set_h_tick (k + h_tick h) h.

(** What the plug-ins get from outside besides the service: which
    allocations succeed and the address the [n]-th [mmap] returns. *)
Class PlugEnv : Type := {
  plug_alloc : nat -> bool;
  plug_mmap : nat -> Z -> Z -> Z;
  plug_clock : nat -> Z
}.

(** tinyalsa, ALSA and poll constants; the values are in headers outside the
    repository. *)
Class Alsa : Type := {
  SNDRV_PCM_HW_PARAM_FIRST_MASK : Z; SNDRV_PCM_HW_PARAM_LAST_MASK : Z;
  SNDRV_PCM_HW_PARAM_FIRST_INTERVAL : Z; SNDRV_PCM_HW_PARAM_LAST_INTERVAL : Z;
  SNDRV_PCM_HW_PARAM_FORMAT : Z; SNDRV_PCM_HW_PARAM_CHANNELS : Z; SNDRV_PCM_HW_PARAM_RATE : Z;
  SNDRV_PCM_HW_PARAM_PERIOD_SIZE : Z; SNDRV_PCM_HW_PARAM_PERIODS : Z;
  SNDRV_PCM_FORMAT_S8 : Z; SNDRV_PCM_FORMAT_S16_LE : Z; SNDRV_PCM_FORMAT_S24_LE : Z;
  SNDRV_PCM_FORMAT_S24_3LE : Z; SNDRV_PCM_FORMAT_S32_LE : Z;
  SNDRV_PCM_ACCESS_RW_INTERLEAVED : Z; SNDRV_PCM_ACCESS_RW_NONINTERLEAVED : Z;
  SNDRV_PCM_SYNC_PTR_HWSYNC : Z; SNDRV_PCM_SYNC_PTR_APPL : Z; SNDRV_PCM_SYNC_PTR_AVAIL_MIN : Z;
  PCM_MMAP : Z; PCM_NOIRQ : Z; COMPRESS_IN : Z;
  POLLIN : Z; POLLOUT : Z
}.

(** ** Calls into the libraries *)

Section Lift.
Context {I : Type}.

Definition lift_agm {A} (m : AGM A) : M (host I) A := fun h =>
  match m (h_agm h) with
  | Ret a w => Ret a (set_h_agm w h)
  | Crash why => Crash why
  end.

Definition lift_snd {A} (m : SND A) : M (host I) A := fun h =>
  match m (h_snd h) with
  | Ret a s => Ret a (set_h_snd s h)
  | Crash why => Crash why
  end.

(** The instance behind [plugin]. *)
Definition the_inst : M (host I) I := fun h =>
  match h_inst h with
  | Some i => Ret i h
  | None => Crash DanglingPtr
  end.

Definition upd_inst (f : I -> I) : M (host I) unit :=
  let! i := the_inst in modify (set_h_inst (Some (f i))).

(** The number of the next thing asked from outside. *)
Definition next_tick : M (host I) nat := fun h => Ret (h_tick h) (tick_at 1 h).

Definition plug_calloc `{PlugEnv} : M (host I) bool := let! n := next_tick in ret (plug_alloc n).

Definition set_errno (e : Z) : M (host I) unit := modify (set_h_errno e).

(** [errno = ret; return ret;] *)
Definition ret_errno (r : Z) : M (host I) Z := do! set_errno r ; ret r.

(** *** Rules *)

Lemma wpg_lift_agm {A} u (m : AGM A) Q h :
  wpg u m (fun a w => Q a (set_h_agm w h)) (h_agm h) -> wpg u (lift_agm m) Q h.
Proof. unfold wpg, lift_agm. by destruct (m (h_agm h)). Qed.

Lemma wpg_lift_snd {A} u (m : SND A) Q h :
  wpg u m (fun a s => Q a (set_h_snd s h)) (h_snd h) -> wpg u (lift_snd m) Q h.
Proof. unfold wpg, lift_snd. by destruct (m (h_snd h)). Qed.

Lemma wpg_the_inst u i Q h : h_inst h = Some i -> Q i h -> wpg u the_inst Q h.
Proof. unfold wpg, the_inst. by intros ->. Qed.

Lemma wlp_the_inst Q h : (forall i, h_inst h = Some i -> Q i h) -> wlp the_inst Q h.
Proof. unfold wpg, the_inst. destruct (h_inst h); auto. Qed.

Lemma wpg_upd_inst u f i Q h :
  h_inst h = Some i -> Q tt (set_h_inst (Some (f i)) h) -> wpg u (upd_inst f) Q h.
Proof. intros E HQ. by apply wpg_bind, (wpg_the_inst _ _ _ _ E). Qed.

Lemma wpg_next_tick u Q h : Q (h_tick h) (tick_at 1 h) -> wpg u next_tick Q h.
Proof. exact id. Qed.

Lemma wpg_plug_calloc `{PlugEnv} u Q h :
  Q (plug_alloc (h_tick h)) (tick_at 1 h) -> wpg u plug_calloc Q h.
Proof. exact id. Qed.

Lemma lift_agm_run {A} (m : AGM A) h a w : m (h_agm h) = Ret a w -> lift_agm m h = Ret a (set_h_agm w h).
Proof. unfold lift_agm. by intros ->. Qed.

Lemma Keeps_lift_agm {A B} (f : host I -> B) (m : AGM A) :
  (forall h w, f (set_h_agm w h) = f h) -> Keeps f (lift_agm m).
Proof. intros Hf h a h'. unfold lift_agm. destruct (m (h_agm h)); intros [= _ <-]. apply Hf. Qed.

Lemma Keeps_lift_snd {A B} (f : host I -> B) (m : SND A) :
  (forall h s, f (set_h_snd s h) = f h) -> Keeps f (lift_snd m).
Proof. intros Hf h a h'. unfold lift_snd. destruct (m (h_snd h)); intros [= _ <-]. apply Hf. Qed.

Lemma Keeps_the_inst {B} (f : host I -> B) : Keeps f the_inst.
Proof. intros h a h'. unfold the_inst. destruct (h_inst h); congruence. Qed.

Lemma Keeps_upd_inst {B} (f : host I -> B) g :
  (forall h i, f (set_h_inst i h) = f h) -> Keeps f (upd_inst g).
Proof.
  intros Hf. apply Keeps_bind; [apply Keeps_the_inst|]. intros i. apply Keeps_modify. intros. apply Hf.
Qed.

Lemma Keeps_next_tick {B} (f : host I -> B) :
  (forall h n, f (set_h_tick n h) = f h) -> Keeps f next_tick.
Proof. intros Hf h a h' [= _ <-]. apply Hf. Qed.
End Lift.

#[export] Hint Extern 0 (Keeps _ (lift_agm _)) => (apply Keeps_lift_agm; intros; reflexivity) : keeps.
#[export] Hint Extern 0 (Keeps _ (lift_snd _)) => (apply Keeps_lift_snd; intros; reflexivity) : keeps.
#[export] Hint Extern 0 (Keeps _ (upd_inst _)) => (apply Keeps_upd_inst; intros; reflexivity) : keeps.
#[export] Hint Extern 0 (Keeps _ next_tick) => (apply Keeps_next_tick; intros; reflexivity) : keeps.
#[export] Hint Resolve Keeps_the_inst : keeps.

Ltac hsimp := cbn [h_agm h_snd h_inst h_tick h_errno set_h_agm set_h_snd set_h_inst set_h_tick set_h_errno tick_at].

(** One step of symbolic execution of a plug-in. *)
Ltac hp_step :=
  lazymatch goal with
  | |- wpg _ (bind _ _) _ _ => apply wpg_bind
  | |- wpg _ (ret _) _ _ => apply wpg_ret; hsimp
  | |- wpg _ (gets _) _ _ => apply wpg_gets; hsimp
  | |- wpg _ (modify _) _ _ => apply wpg_modify; hsimp
  | |- wpg _ (crash_with _) _ _ => apply wpg_crash
  | |- wpg _ (the _ _) _ _ => apply wpg_the
  | |- wpg _ next_tick _ _ => apply wpg_next_tick; hsimp
  | |- wpg _ plug_calloc _ _ => apply wpg_plug_calloc; hsimp
  | |- wpg _ (set_errno _) _ _ => apply wpg_modify; hsimp
  | |- wpg _ (ret_errno _) _ _ => unfold ret_errno
  | |- wpg _ the_inst _ _ => eapply wpg_the_inst; [hsimp; eassumption || reflexivity|hsimp]
  | |- wpg _ (upd_inst _) _ _ => eapply wpg_upd_inst; [hsimp; eassumption || reflexivity|hsimp]
  | |- wpg _ (if ?b then _ else _) _ _ => destruct b eqn:?
  | |- wpg _ (let _ := _ in _) _ _ => cbv zeta
  end.
Ltac hp_steps := repeat hp_step.

(** *** Rules about the libraries *)

(** The value a device of a card has for a property. *)
Definition prop_int (prop : string) (d : snd_dev_def) : Z :=
  match find_prop prop (sd_props d) with Some v => atoi v | None => 0 end.

Lemma lift_put_held `{SndEnv} {I} i (h : host I) held held' :
  cards_held (sn_cards (h_snd h)) held -> held ≡ₚ i :: held' ->
  wlp (lift_snd (snd_card_def_put_card (Some i)))
    (fun _ h' => cards_held (sn_cards (h_snd h')) held' /\ h_inst h' = h_inst h) h.
Proof.
  intros Hh Hp. apply wpg_lift_snd. eapply wpg_mono; [by eapply put_card_held|].
  intros ? s' Hs. by split.
Qed.

Lemma session_open_handle `{Env} device w r hd w' :
  agm_session_open device true w = Ret (r, Some hd) w' -> 0 < hd.
Proof.
  unfold agm_session_open, bind, handle_of. cbn [negb]. destruct (session_obj_open device w) as [[r' i] w1|]; [|done].
  intros [= _ Hi _]. destruct i as [i|]; [|done]. injection Hi as <-. unfold handle_of. lia.
Qed.

(** ** Integers of 64 bits *)

(** [unsigned long] and [long], [size_t] and [int64_t]. *)
Definition u64 (z : Z) : Z := z mod 2 ^ 64.
Definition s64 (z : Z) : Z := (z + 2 ^ 63) mod 2 ^ 64 - 2 ^ 63.

Lemma u64_small z : 0 <= z < 2 ^ 64 -> u64 z = z.
Proof. apply Z.mod_small. Qed.

Lemma u64_range z : 0 <= u64 z < 2 ^ 64.
Proof. apply Z.mod_pos_bound. lia. Qed.

Lemma s64_small z : - 2 ^ 63 <= z < 2 ^ 63 -> s64 z = z.
Proof. intros H. unfold s64. rewrite Z.mod_small; lia. Qed.

(** ** Formats *)

Section Formats.
Context `{Alsa}.

Definition agm_format_to_bits (format : Z) : Z :=
  if (format =? AGM_FORMAT_PCM_S32_LE) || (format =? AGM_FORMAT_PCM_S24_LE) then 32
  else if format =? AGM_FORMAT_PCM_S24_3LE then 24
  else 16.

Definition alsa_to_agm_format (format : Z) : Z :=
  if format =? SNDRV_PCM_FORMAT_S32_LE then AGM_FORMAT_PCM_S32_LE
  else if format =? SNDRV_PCM_FORMAT_S8 then AGM_FORMAT_PCM_S8
  else if format =? SNDRV_PCM_FORMAT_S24_3LE then AGM_FORMAT_PCM_S24_3LE
  else if format =? SNDRV_PCM_FORMAT_S24_LE then AGM_FORMAT_PCM_S24_LE
  else AGM_FORMAT_PCM_S16_LE.
End Formats.

(** One set of values for the constants. *)
Definition linux_alsa : Alsa := {|
  SNDRV_PCM_HW_PARAM_FIRST_MASK := 0; SNDRV_PCM_HW_PARAM_LAST_MASK := 2;
  SNDRV_PCM_HW_PARAM_FIRST_INTERVAL := 8; SNDRV_PCM_HW_PARAM_LAST_INTERVAL := 19;
  SNDRV_PCM_HW_PARAM_FORMAT := 1; SNDRV_PCM_HW_PARAM_CHANNELS := 10; SNDRV_PCM_HW_PARAM_RATE := 11;
  SNDRV_PCM_HW_PARAM_PERIOD_SIZE := 13; SNDRV_PCM_HW_PARAM_PERIODS := 15;
  SNDRV_PCM_FORMAT_S8 := 0; SNDRV_PCM_FORMAT_S16_LE := 2; SNDRV_PCM_FORMAT_S24_LE := 6;
  SNDRV_PCM_FORMAT_S24_3LE := 32; SNDRV_PCM_FORMAT_S32_LE := 10;
  SNDRV_PCM_ACCESS_RW_INTERLEAVED := 3; SNDRV_PCM_ACCESS_RW_NONINTERLEAVED := 4;
  SNDRV_PCM_SYNC_PTR_HWSYNC := 1; SNDRV_PCM_SYNC_PTR_APPL := 2; SNDRV_PCM_SYNC_PTR_AVAIL_MIN := 4;
  PCM_MMAP := 1; PCM_NOIRQ := 2; COMPRESS_IN := 268435456;
  POLLIN := 1; POLLOUT := 4
|}.

Definition plain_plug : PlugEnv := {|
  plug_alloc _ := true; plug_mmap n _ _ := 4096 * (1 + Z.of_nat n); plug_clock n := Z.of_nat n
|}.

Definition demo_media : media_config := MediaConfig 48000 2 AGM_FORMAT_PCM_S16_LE 0.
