(* ===== verification/PcmPlugin.v ===== *)
(** * The PCM plug-in (plugins/tinyalsa/src/agm_pcm_plugin.c): operations

    The operations tinyalsa calls on a PCM whose device the card definitions
    describe as a plug-in.  [agm_pcm_priv] holds the configuration, the session
    handle and, in NOIRQ mode, the position the DSP reports in a buffer it shares
    with the client.  That buffer is volatile: [pos_mem n] is what it holds when
    the plug-in makes its [n]-th access.

    [snd_pcm_uframes_t] is 64 bits wide and [unsigned int] 32; both wrap. *)

From S2P Require Export Plugin.
Open Scope Z_scope.
#[export] Set Default Goal Selector "!".

(** ** Data *)

(** [struct agm_shared_pos_buffer] *)
Record shared_pos : Type := SharedPos {
  frame_counter : Z;
  read_index : Z;
  wall_clock_us_lsw : Z;
  wall_clock_us_msw : Z
}.

Class PosMem : Type := { pos_mem : nat -> shared_pos }.

(** [struct pcm_plugin_pos_buf_info]; [clock_gettime] gives [pb_tstamp]. *)
Record pos_buf_info : Type := PosBufInfo {
  pb_addr : Z;
  pb_boundary : Z;
  pb_hw_ptr : Z;
  pb_hw_ptr_base : Z;
  pb_tstamp : Z;
  pb_appl_ptr : Z;
  pb_avail_min : Z
}.
Definition set_pb_hw (hw base ts : Z) (r : pos_buf_info) : pos_buf_info :=
  PosBufInfo (pb_addr r) (pb_boundary r) hw base ts (pb_appl_ptr r) (pb_avail_min r).
Definition set_pb_appl_ptr (v : Z) (r : pos_buf_info) : pos_buf_info :=
  PosBufInfo (pb_addr r) (pb_boundary r) (pb_hw_ptr r) (pb_hw_ptr_base r) (pb_tstamp r) v (pb_avail_min r).
Definition set_pb_avail_min (v : Z) (r : pos_buf_info) : pos_buf_info :=
  PosBufInfo (pb_addr r) (pb_boundary r) (pb_hw_ptr r) (pb_hw_ptr_base r) (pb_tstamp r) (pb_appl_ptr r) v.

(** [struct agm_pcm_priv] *)
Record agm_pcm_priv : Type := AgmPcmPriv {
  pp_media : media_config;
  pp_buffer : buffer_config;
  pp_session : session_config;
  pp_buf_info : option buf_info;
  pp_pos_buf : option pos_buf_info;
  pp_handle : Z;
  pp_card_node : option nat;
  pp_session_id : Z;
  pp_period_size : Z;
  pp_total_size_frames : Z
}.
Definition set_pp_config (m : media_config) (b : buffer_config) (c : session_config)
    (period total : Z) (r : agm_pcm_priv) : agm_pcm_priv :=
  AgmPcmPriv m b c (pp_buf_info r) (pp_pos_buf r) (pp_handle r) (pp_card_node r) (pp_session_id r) period total.
Definition set_pp_session (v : session_config) (r : agm_pcm_priv) : agm_pcm_priv :=
  AgmPcmPriv (pp_media r) (pp_buffer r) v (pp_buf_info r) (pp_pos_buf r) (pp_handle r) (pp_card_node r) (pp_session_id r) (pp_period_size r) (pp_total_size_frames r).
Definition set_pp_buf_info (v : option buf_info) (r : agm_pcm_priv) : agm_pcm_priv :=
  AgmPcmPriv (pp_media r) (pp_buffer r) (pp_session r) v (pp_pos_buf r) (pp_handle r) (pp_card_node r) (pp_session_id r) (pp_period_size r) (pp_total_size_frames r).
Definition set_pp_pos_buf (v : option pos_buf_info) (r : agm_pcm_priv) : agm_pcm_priv :=
  AgmPcmPriv (pp_media r) (pp_buffer r) (pp_session r) (pp_buf_info r) v (pp_handle r) (pp_card_node r) (pp_session_id r) (pp_period_size r) (pp_total_size_frames r).

(** [struct pcm_plugin_hw_constraints]: the two masks [open] sets, and the
    ranges. *)
Record hw_constraints : Type := HwConstraints {
  hc_access : Z; hc_format : Z;
  hc_bit_width : Z * Z; hc_channels : Z * Z; hc_rate : Z * Z; hc_periods : Z * Z; hc_period_bytes : Z * Z
}.

(** [struct pcm_plugin] with its private data; the state of the instance. *)
Record pcm_plugin : Type := PcmPlugin {
  pl_card : Z;
  pl_node : snd_node;
  pl_mode : Z;
  pl_constraints : hw_constraints;
  pl_priv : agm_pcm_priv
}.
Definition upd_pl_priv (f : agm_pcm_priv -> agm_pcm_priv) (r : pcm_plugin) : pcm_plugin :=
  PcmPlugin (pl_card r) (pl_node r) (pl_mode r) (pl_constraints r) (f (pl_priv r)).

(** [struct snd_interval], as far as it is read, and [struct snd_pcm_hw_params]:
    an interval, or the words of a mask, for each parameter. *)
Record snd_interval : Type := SndInterval { si_max : Z; si_integer : bool }.
Record hw_params : Type := HwParams {
  hp_intervals : nat -> snd_interval;
  hp_masks : nat -> list Z
}.

(** [struct snd_pcm_sync_ptr] *)
Record sync_ptr : Type := SyncPtr {
  sy_flags : Z; sy_appl_ptr : Z; sy_avail_min : Z; sy_hw_ptr : Z; sy_tstamp : Z
}.

Abbreviation PCM := (M (host pcm_plugin)).

(** ** Parameters *)

Section Params.
Context `{Alsa}.

Definition has_flag (mode flag : Z) : bool := nz (Z.land mode flag).

Definition param_is_interval (p : Z) : bool :=
  (SNDRV_PCM_HW_PARAM_FIRST_INTERVAL <=? p) && (p <=? SNDRV_PCM_HW_PARAM_LAST_INTERVAL).

Definition param_get_int (p : hw_params) (n : Z) : Z :=
  if param_is_interval n then
    let i := hp_intervals p (Z.to_nat (n - SNDRV_PCM_HW_PARAM_FIRST_INTERVAL)) in
    if si_integer i then si_max i else 0
  else 0.

Definition param_is_mask (p : Z) : bool :=
  (SNDRV_PCM_HW_PARAM_FIRST_MASK <=? p) && (p <=? SNDRV_PCM_HW_PARAM_LAST_MASK).

(** [ffs]: one more than the position of the lowest bit. *)
Fixpoint ffs_from (fuel : nat) (i word : Z) : Z :=
  match fuel with
  | O => 0
  | S fuel => if Z.testbit word i then i + 1 else ffs_from fuel (i + 1) word
  end.
Definition ffs (word : Z) : Z := ffs_from 32 0 word.

Definition PCM_MASK_SIZE : nat := 2.

Fixpoint mask_loop (i : Z) (bits : list Z) : Z :=
  match bits with
  | [] => 0
  | w :: bits' => if nz w then ffs w + Z.shiftl i 5 - 1 else mask_loop (i + 1) bits'
  end.
Definition snd_mask_val (bits : list Z) : Z := mask_loop 0 (take PCM_MASK_SIZE bits).

Definition param_get_mask_val (p : hw_params) (n : Z) : Z :=
  if param_is_mask n
  then alsa_to_agm_format
         (snd_mask_val (hp_masks p (Z.to_nat (n - SNDRV_PCM_HW_PARAM_FIRST_MASK))))
  else 0.

(** Sizes, in [unsigned int] arithmetic. *)
Definition agm_pcm_frames_to_bytes (config : media_config) (frames : Z) : Z :=
  u32 (u32 (frames * mc_channels config) * Z.shiftr (agm_format_to_bits (mc_format config)) 3).

(** [None]: the division by zero of a configuration without channels. *)
Definition agm_pcm_bytes_to_frames (bytes : Z) (config : media_config) : option Z :=
  let frame_bits := u32 (mc_channels config * agm_format_to_bits (mc_format config)) in
  if frame_bits =? 0 then None else Some (u32 (bytes * 8) / frame_bits).

(** [frames * (channels * bits / 8)], the product in 64 bits. *)
Definition xfer_bytes (config : media_config) (frames : Z) : Z :=
  u64 (frames * (u32 (mc_channels config * agm_format_to_bits (mc_format config)) / 8)).
End Params.

Section PcmPlugin.
Context `{Env, Alsa, SndEnv, PlugEnv, PosMem}.

(** ** The session handle *)

(** [body] with the session's handle.  The private data of an open plug-in
    are never NULL. *)
Definition with_handle_of {A} (fail : Z -> A) (body : pcm_plugin -> Z -> PCM A) : PCM A :=
  let! p := the_inst in
  let handle := pp_handle (pl_priv p) in
  if handle =? 0 then ret (fail (- EINVAL)) else body p handle.

(** ** The position *)

(** One access to the shared memory. *)
Definition read_pos {A} (field : shared_pos -> A) : PCM A :=
  let! n := next_tick in ret (field (pos_mem n)).

Definition AGM_PULL_PUSH_IDX_RETRY_COUNT : nat := 2.
Definition AGM_PULL_PUSH_FRAME_CNT_RETRY_COUNT : nat := 5.
Definition MAP_FAILED : Z := -1.

(** Reads the counter until it is not zero, at most [n] times. *)
Fixpoint poll_counter (n : nat) (last : Z) : PCM Z :=
  match n with
  | O => ret last
  | S n => let! c := read_pos frame_counter in if nz c then ret c else poll_counter n c
  end.

(** The outer loop: [None] is [-EAGAIN]; the result is the index and the
    two words of the clock. *)
Fixpoint shared_pos_loop (n : nat) : PCM (option (Z * Z * Z)) :=
  match n with
  | O => ret None
  | S n =>
      let! frame_cnt1 := poll_counter AGM_PULL_PUSH_FRAME_CNT_RETRY_COUNT 0 in
      let! msw := read_pos wall_clock_us_msw in
      let! lsw := read_pos wall_clock_us_lsw in
      let! index := read_pos read_index in
      let! frame_cnt2 := read_pos frame_counter in
      if negb (frame_cnt1 =? frame_cnt2) then shared_pos_loop n else ret (Some (index, msw, lsw))
  end.

(** Through the address [mmap] returned, which nobody tested. *)
Definition agm_pcm_plugin_get_shared_pos (pos : pos_buf_info) : PCM (option (Z * Z * Z)) :=
  if pb_addr pos =? MAP_FAILED then crash_with OutOfBounds
  else shared_pos_loop AGM_PULL_PUSH_IDX_RETRY_COUNT.

(** [do ... while (ret == -EAGAIN && --retries)] *)
Fixpoint retry_shared_pos (retries : nat) (pos : pos_buf_info) : PCM (option (Z * Z * Z)) :=
  match retries with
  | O => ret None
  | S n =>
      let! r := agm_pcm_plugin_get_shared_pos pos in
      match r with
      | Some v => ret (Some v)
      | None => retry_shared_pos n pos
      end
  end.

(** The new [hw_ptr] and its base, from the position inside the buffer. *)
Definition next_hw_ptr (total boundary old_hw_ptr hw_base pos : Z) : Z * Z :=
  let new_hw_ptr := u64 (hw_base + pos) in
  if new_hw_ptr <? old_hw_ptr then
    let hw_base := u64 (hw_base + total) in
    let hw_base := if boundary <=? hw_base then 0 else hw_base in
    (u64 (hw_base + pos), hw_base)
  else (new_hw_ptr, hw_base).

Definition agm_pcm_plugin_update_hw_ptr : PCM Z :=
  let! p := the_inst in
  let priv := pl_priv p in
  let! pos_buf := the NullDeref (pp_pos_buf priv) in
  let! r := retry_shared_pos 10 pos_buf in
  match r with
  | None => ret (- EAGAIN)
  | Some (index, _, _) =>
      let! circ_buf_pos := the DivByZero (agm_pcm_bytes_to_frames index (pp_media priv)) in
      let period_size := pp_period_size priv in
      if period_size =? 0 then crash_with DivByZero else
      let pos := circ_buf_pos / period_size * period_size in
      let '(hw, base) := next_hw_ptr (pp_total_size_frames priv) (pb_boundary pos_buf)
                           (pb_hw_ptr pos_buf) (pb_hw_ptr_base pos_buf) pos in
      let! n := next_tick in
      do! upd_inst (upd_pl_priv (set_pp_pos_buf (Some (set_pb_hw hw base (plug_clock n) pos_buf)))) ;
      ret 0
  end.

(** ** Configuration *)

Definition agm_pcm_hw_params (params : hw_params) : PCM Z :=
  with_handle_of id (fun p handle =>
    let priv := pl_priv p in
    let media := MediaConfig (param_get_int params SNDRV_PCM_HW_PARAM_RATE)
                   (param_get_int params SNDRV_PCM_HW_PARAM_CHANNELS)
                   (param_get_mask_val params SNDRV_PCM_HW_PARAM_FORMAT)
                   (mc_data_format (pp_media priv)) in
    let count := param_get_int params SNDRV_PCM_HW_PARAM_PERIODS in
    let period_size := param_get_int params SNDRV_PCM_HW_PARAM_PERIOD_SIZE in
    let buffer := BufferConfig count (agm_pcm_frames_to_bytes media period_size) in
    let total := u32 (count * period_size) in
    let! (_, hostless) := lift_snd (snd_card_def_get_int (Some (pl_node p)) "hostless") in
    let is_hostless := match hostless with Some v => v | None => 0 end in
    let sc := pp_session priv in
    let session := SessionConfig (if has_flag (pl_mode p) PCM_IN then TX else RX) (nz is_hostless)
                     (sc_start_threshold sc) (sc_stop_threshold sc) (sc_codec sc)
                     (if has_flag (pl_mode p) PCM_MMAP && has_flag (pl_mode p) PCM_NOIRQ
                      then AGM_DATA_PUSH_PULL else sc_data_mode sc) in
    do! upd_inst (upd_pl_priv (set_pp_config media buffer session period_size total)) ;
    lift_agm (agm_session_set_config handle session media buffer)).

(** The thresholds are [unsigned long], cut to 32 bits. *)
Definition agm_pcm_sw_params (start_threshold stop_threshold : Z) : PCM Z :=
  with_handle_of id (fun p handle =>
    let priv := pl_priv p in
    let sc := pp_session priv in
    let session := SessionConfig (sc_dir sc) (sc_is_hostless sc) (u32 start_threshold)
                     (u32 stop_threshold) (sc_codec sc) (sc_data_mode sc) in
    do! upd_inst (upd_pl_priv (set_pp_session session)) ;
    lift_agm (agm_session_set_config handle session (pp_media priv) (pp_buffer priv))).

(** ** Pointers *)

Definition upd_pos (f : pos_buf_info -> pos_buf_info) : PCM unit :=
  let! p := the_inst in
  let! pos := the NullDeref (pp_pos_buf (pl_priv p)) in
  upd_inst (upd_pl_priv (set_pp_pos_buf (Some (f pos)))).

Definition get_pos {A} (f : pos_buf_info -> A) : PCM A :=
  let! p := the_inst in
  let! pos := the NullDeref (pp_pos_buf (pl_priv p)) in ret (f pos).

Definition agm_pcm_sync_ptr (sync : sync_ptr) : PCM (Z * sync_ptr) :=
  let! p := the_inst in
  if negb (has_flag (pl_mode p) PCM_NOIRQ) then ret (- EOPNOTSUPP, sync) else
  with_handle_of (fun r => (r, sync)) (fun p handle =>
    match pp_buf_info (pl_priv p) with
    | None => ret (- EINVAL, sync)
    | Some _ =>
        let! r := (if has_flag (sy_flags sync) SNDRV_PCM_SYNC_PTR_HWSYNC
                   then agm_pcm_plugin_update_hw_ptr else ret 0) in
        if r <? 0 then ret (r, sync) else
        let! appl_ptr :=
          (if negb (has_flag (sy_flags sync) SNDRV_PCM_SYNC_PTR_APPL)
           then do! upd_pos (set_pb_appl_ptr (sy_appl_ptr sync)) ; ret (sy_appl_ptr sync)
           else get_pos pb_appl_ptr) in
        let! avail_min :=
          (if negb (has_flag (sy_flags sync) SNDRV_PCM_SYNC_PTR_AVAIL_MIN)
           then do! upd_pos (set_pb_avail_min (sy_avail_min sync)) ; ret (sy_avail_min sync)
           else get_pos pb_avail_min) in
        let! hw_ptr := get_pos pb_hw_ptr in
        let! tstamp := get_pos pb_tstamp in
        ret (r, SyncPtr (sy_flags sync) appl_ptr avail_min hw_ptr tstamp)
    end).

(** ** Data *)

(** The first [count] bytes of the caller's buffer. *)
Definition xfer_buf (buf : list Z) (count : Z) : PCM (list Z) :=
  if Z.of_nat (length buf) <? count then crash_with OutOfBounds
  else ret (take (Z.to_nat count) buf).

Definition agm_pcm_writei_frames (buf : list Z) (frames : Z) : PCM Z :=
  with_handle_of id (fun p handle =>
    let! data := xfer_buf buf (xfer_bytes (pp_media (pl_priv p)) frames) in
    let! (r, _) := lift_agm (agm_session_write handle data) in
    ret_errno r).

Definition agm_pcm_readi_frames (frames : Z) : PCM Z :=
  with_handle_of id (fun p handle =>
    let! (r, _, _) := lift_agm (agm_session_read handle (xfer_bytes (pp_media (pl_priv p)) frames)) in
    ret_errno r).

Definition agm_pcm_ttstamp : PCM Z := with_handle_of id (fun _ _ => ret 0).

(** ** Session control *)

Definition agm_pcm_prepare : PCM Z :=
  with_handle_of id (fun _ handle => let! r := lift_agm (agm_session_prepare handle) in ret_errno r).
Definition agm_pcm_start : PCM Z :=
  with_handle_of id (fun _ handle => let! r := lift_agm (agm_session_start handle) in ret_errno r).
Definition agm_pcm_drop : PCM Z :=
  with_handle_of id (fun _ handle => let! r := lift_agm (agm_session_stop handle) in ret_errno r).

Definition agm_pcm_close : PCM Z :=
  with_handle_of id (fun p handle =>
    let! r := lift_agm (agm_session_close handle) in
    do! set_errno r ;
    do! lift_snd (snd_card_def_put_card (pp_card_node (pl_priv p))) ;
    do! modify (set_h_inst None) ;
    ret r).

(** ** Waiting for room or data *)

(** [snd_pcm_sframes_t] of the [unsigned long] expressions. *)
Definition avail_out (hw_ptr total appl_ptr boundary : Z) : Z :=
  let avail := s64 (hw_ptr + total - appl_ptr) in
  if avail <? 0 then avail + boundary
  else if boundary <=? avail then avail - boundary else avail.

Definition avail_in (hw_ptr appl_ptr boundary : Z) : Z :=
  let avail := s64 (hw_ptr - appl_ptr) in
  if avail <? 0 then avail + boundary else avail.

Definition agm_pcm_get_avail : PCM Z :=
  let! p := the_inst in
  if has_flag (pl_mode p) PCM_OUT then
    get_pos (fun pos => avail_out (pb_hw_ptr pos) (pp_total_size_frames (pl_priv p))
                          (pb_appl_ptr pos) (pb_boundary pos))
  else if has_flag (pl_mode p) PCM_IN then
    get_pos (fun pos => avail_in (pb_hw_ptr pos) (pb_appl_ptr pos) (pb_boundary pos))
  else ret 0.

(** [pfd->revents] (when it is set) and the result; [usleep] is a tick. *)
Definition agm_pcm_poll : PCM (option Z * Z) :=
  let! p := the_inst in
  let period_size := pp_period_size (pl_priv p) in
  let! avail := agm_pcm_get_avail in
  let! avail :=
    (if avail <? period_size then
       let! _ := next_tick in
       let! r := agm_pcm_plugin_update_hw_ptr in
       if r =? 0 then agm_pcm_get_avail else ret avail
     else ret avail) in
  ret (if period_size <=? avail then
         if has_flag (pl_mode p) PCM_IN then (Some (Z.lor POLLIN POLLOUT), POLLIN)
         else (Some POLLOUT, POLLOUT)
       else (None, 0)).

(** ** Mapping the buffers *)

(** [while (boundary * 2 <= 0x7fffffffUL - total) boundary *= 2]: the product
    has 32 bits, the difference 64.  [None]: the fuel ran out. *)
Fixpoint boundary_loop (fuel : nat) (total boundary : Z) : option Z :=
  if u32 (boundary * 2) <=? u64 (0x7fffffff - total) then
    match fuel with
    | O => None
    | S fuel => boundary_loop fuel total (u32 (boundary * 2))
    end
  else Some boundary.

(** [None] is [MAP_FAILED]. *)
Definition get_buf_info : PCM (option buf_info) :=
  let! p := the_inst in
  match pp_buf_info (pl_priv p) with
  | Some info => ret (Some info)
  | None =>
      let! ok := plug_calloc in
      if negb ok then ret None else
      let flag := if has_flag (pl_mode p) PCM_NOIRQ then Z.lor DATA_BUF POS_BUF else DATA_BUF in
      let! (r, info) := lift_agm (agm_session_get_buf_info (pp_session_id (pl_priv p))
                                    (BufInfo 0 0 0 0) flag) in
      if nz r then ret None
      else do! upd_inst (upd_pl_priv (set_pp_buf_info (Some info))) ; ret (Some info)
  end.

(** The position buffer, when there is none yet; [false] is [MAP_FAILED].
    The boundary of at most 31 doublings is found with fuel 32. *)
Definition map_pos_buf (info : buf_info) : PCM bool :=
  let! p := the_inst in
  match pp_pos_buf (pl_priv p) with
  | Some _ => ret true
  | None =>
      let! ok := plug_calloc in
      if negb ok then ret false else
      let! n := next_tick in
      let addr := plug_mmap n (pos_buf_size info) (pos_buf_fd info) in
      let total := pp_total_size_frames (pl_priv p) in
      let! boundary := the Diverges (boundary_loop 32 total (u32 total)) in
      do! upd_inst (upd_pl_priv (set_pp_pos_buf (Some (PosBufInfo addr boundary 0 0 0 0 0)))) ;
      ret true
  end.

Definition agm_pcm_mmap (length offset : Z) : PCM Z :=
  if nz offset then ret MAP_FAILED else
  with_handle_of (fun _ => MAP_FAILED) (fun p handle =>
    let! info := get_buf_info in
    match info with
    | None => ret MAP_FAILED
    | Some info =>
        let! ok := (if has_flag (pl_mode p) PCM_NOIRQ then map_pos_buf info else ret true) in
        if negb ok then ret MAP_FAILED else
        if u64 (data_buf_size info) <? length then ret MAP_FAILED else
        let! n := next_tick in
        ret (plug_mmap n length (data_buf_fd info))
    end).

(** [munmap] is a tick; its result is the caller's. *)
Definition agm_pcm_munmap : PCM unit :=
  let! p := the_inst in
  do! (if has_flag (pl_mode p) PCM_NOIRQ then
         match pp_pos_buf (pl_priv p) with
         | Some _ =>
             do! the NullDeref (pp_buf_info (pl_priv p)) ;
             let! _ := next_tick in
             upd_inst (upd_pl_priv (set_pp_pos_buf None))
         | None => ret tt
         end
       else ret tt) ;
  let! _ := next_tick in ret tt.

(** ** Opening *)

Definition PCM_FORMAT_BIT (x : Z) : Z := u32 (Z.shiftl 1 x).

Definition agm_pcm_constrs : hw_constraints :=
  HwConstraints
    (Z.lor (PCM_FORMAT_BIT SNDRV_PCM_ACCESS_RW_INTERLEAVED)
       (PCM_FORMAT_BIT SNDRV_PCM_ACCESS_RW_NONINTERLEAVED))
    (Z.lor (PCM_FORMAT_BIT SNDRV_PCM_FORMAT_S16_LE)
       (Z.lor (PCM_FORMAT_BIT SNDRV_PCM_FORMAT_S24_LE)
          (Z.lor (PCM_FORMAT_BIT SNDRV_PCM_FORMAT_S24_3LE) (PCM_FORMAT_BIT SNDRV_PCM_FORMAT_S32_LE))))
    (16, 32) (1, 8) (8000, 384000) (1, 8) (96, 122880).

(** All of [n] allocations; the first that fails ends it. *)
Fixpoint callocs (n : nat) : PCM bool :=
  match n with
  | O => ret true
  | S n => let! ok := plug_calloc in if ok : bool then callocs n else ret false
  end.

(** A positive status is negated on the way out. *)
Definition open_status (r : Z) : Z := if r <? 0 then r else - r.

Definition agm_pcm_plugin_open (card device mode : Z) : PCM Z :=
  let! ok := callocs 5 in
  if negb ok then ret (- ENOMEM) else
  let! card_node := lift_snd (snd_card_def_get_card card) in
  match card_node with
  | None => ret (- EINVAL)
  | Some i =>
      let err_card_put r := do! lift_snd (snd_card_def_put_card (Some i)) ; ret (open_status r) in
      let! pcm_node := lift_snd (snd_card_def_get_node (Some i) device
                                   (node_type_num SND_NODE_TYPE_PCM)) in
      match pcm_node with
      | None => err_card_put (- EINVAL)
      | Some node =>
          let! (r, handle) := lift_agm (agm_session_open device true) in
          do! set_errno r ;
          if nz r then err_card_put r else
          let! handle := the NullDeref handle in
          let priv := AgmPcmPriv media_zero buffer_zero session_config_zero None None handle
                        (Some i) device 0 0 in
          do! modify (set_h_inst (Some (PcmPlugin card node mode agm_pcm_constrs priv))) ;
          ret 0
      end
  end.
End PcmPlugin.
