(* ===== verification/PcmProps.v ===== *)
(** * The PCM plug-in: what its operations do

    The position the plug-in reports in NOIRQ mode follows the DSP as long as it
    is asked at least once per buffer; reading it from the shared memory gives
    one consistent snapshot and ends after a bounded number of accesses; the
    boundary where positions wrap is the largest doubling of the buffer that fits.
    Opening never loses a reference to the card. *)

From S2P Require Export PcmPlugin.
Open Scope Z_scope.
#[export] Set Default Goal Selector "!".

(** ** Frames and bytes *)

Section Sizes.
Context `{Alsa}.

Definition frame_bytes (c : media_config) : Z := mc_channels c * (agm_format_to_bits (mc_format c) / 8).

Lemma bits_cases f : agm_format_to_bits f = 16 \/ agm_format_to_bits f = 24 \/ agm_format_to_bits f = 32.
Proof. unfold agm_format_to_bits. repeat case_match; auto. Qed.

(** While the sizes stay below 2^32 bits, frames and bytes convert back and
    forth exactly, and a transfer of [frames] frames is [frames] times the size of a
    frame; nothing is lost to the 32-bit arithmetic. *)
Lemma pcm_frames_bytes c frames :
  0 < mc_channels c -> 0 <= frames -> frames * frame_bytes c * 8 < 2 ^ 32 ->
  mc_channels c * 32 < 2 ^ 32 ->
  agm_pcm_frames_to_bytes c frames = frames * frame_bytes c /\
  xfer_bytes c frames = frames * frame_bytes c /\
  agm_pcm_bytes_to_frames (frames * frame_bytes c) c = Some frames.
Proof.
  intros Hc Hf Hs Hb. unfold agm_pcm_frames_to_bytes, xfer_bytes, agm_pcm_bytes_to_frames, frame_bytes in *.
  set (bits := agm_format_to_bits (mc_format c)) in *. set (n := mc_channels c) in *.
  assert (Hbits : exists k, bits = 8 * k /\ 2 <= k <= 4).
  { unfold bits. destruct (bits_cases (mc_format c)) as [->|[->| ->]];
      [exists 2|exists 3|exists 4]; lia. }
  destruct Hbits as (k & -> & Hk). rewrite Z.shiftr_div_pow2 by lia.
  replace (8 * k / 2 ^ 3) with k by (rewrite Z.mul_comm; symmetry; apply Z.div_mul; lia).
  replace (8 * k / 8) with k in * by (rewrite Z.mul_comm; symmetry; apply Z.div_mul; lia).
  assert (0 <= frames * n) by nia. assert (frames * n <= frames * (n * k)) by nia.
  assert (n * (8 * k) <= n * 32) by nia.
  rewrite (u32_small (frames * n)) by lia. rewrite (u32_small (n * (8 * k))) by nia.
  replace (n * (8 * k)) with (n * k * 8) by lia. rewrite Z.div_mul by lia. split; [|split].
  - rewrite u32_small; lia.
  - rewrite u64_small; lia.
  - destruct (Z.eqb_spec (n * k * 8) 0); [nia|]. rewrite u32_small by lia.
    replace (frames * (n * k) * 8) with (frames * (n * k * 8)) by lia. by rewrite Z.div_mul.
Qed.
End Sizes.

(** ** The boundary *)

Section Boundary.

Lemma boundary_step fuel total b :
  0 < b -> b * 2 < 2 ^ 32 -> 0 < total <= 0x7fffffff ->
  boundary_loop fuel total b =
    if b * 2 <=? 0x7fffffff - total
    then match fuel with O => None | S fuel => boundary_loop fuel total (b * 2) end
    else Some b.
Proof.
  intros Hb H2 Ht. destruct fuel; cbn [boundary_loop]; rewrite u32_small, u64_small by lia; done.
Qed.

Lemma boundary_loop_finds fuel total b :
  0 < total <= 0x7fffffff -> 0 < b <= 0x7fffffff -> 0x7fffffff < b * 2 ^ Z.of_nat fuel ->
  exists k, 0 <= k /\ boundary_loop fuel total b = Some (b * 2 ^ k) /\
    (0 < k -> b * 2 ^ k + total <= 0x7fffffff) /\ 0x7fffffff < b * 2 ^ (k + 1) + total.
Proof.
  intros Ht. revert b. induction fuel as [|fuel IH]; intros b Hb Hf.
  { cbn in Hf. lia. }
  rewrite boundary_step by lia. destruct (Z.leb_spec (b * 2) (0x7fffffff - total)).
  - destruct (IH (b * 2)) as (k & Hk & -> & H1 & H2).
    + lia.
    + rewrite Nat2Z.inj_succ, Z.pow_succ_r in Hf by lia. lia.
    + assert (Ek : forall j, 0 <= j -> b * 2 ^ (j + 1) = b * 2 * 2 ^ j).
      { intros j Hj. rewrite Z.pow_add_r by lia. lia. }
      exists (k + 1). split; [lia|]. rewrite Ek by lia. split; [done|]. split.
      * intros _. destruct (Z.eq_dec k 0) as [->|]; [lia|]. apply H1. lia.
      * rewrite Ek by lia. done.
  - exists 0. split; [lia|]. rewrite Z.mul_1_r. split; [done|]. split; lia.
Qed.

(** Out of these sizes the loop condition stays true for ever. *)
Lemma boundary_loop_diverges fuel total b :
  total = 0 /\ b = 0 \/ 2 ^ 31 <= total < 2 ^ 32 -> boundary_loop fuel total b = None.
Proof.
  revert b. induction fuel as [|fuel IH]; intros b Hb; cbn [boundary_loop].
  all: assert ((u32 (b * 2) <=? u64 (0x7fffffff - total)) = true) as ->.
  1, 3: apply Z.leb_le; destruct Hb as [[-> ->]|Hb]; [done|].
  1, 2: pose proof (u32_range (b * 2)); unfold u64;
    rewrite <- (Z.mod_unique (0x7fffffff - total) (2 ^ 64) (-1) (2 ^ 64 + (0x7fffffff - total))) by lia;
    lia.
  - done.
  - apply IH. destruct Hb as [[-> ->]|Hb]; [by left|by right].
Qed.

(** The boundary of the positions.  For a buffer of 1 to 2^31 - 1 frames the
    loop ends within the fuel of the model on the buffer size times a power of two,
    the largest for which a position and one more buffer fit in an [int] (the
    buffer itself when not even twice it fits); for an empty buffer, or one of
    2^31 frames or more, it never ends. *)
Theorem pcm_boundary total :
  0 <= total < 2 ^ 32 ->
  (0 < total <= 0x7fffffff -> exists k, 0 <= k /\
     boundary_loop 32 total (u32 total) = Some (total * 2 ^ k) /\
     (0 < k -> total * 2 ^ k + total <= 0x7fffffff) /\ 0x7fffffff < total * 2 ^ (k + 1) + total) /\
  (total = 0 \/ 2 ^ 31 <= total -> forall fuel, boundary_loop fuel total (u32 total) = None).
Proof.
  intros Hr. rewrite u32_small by lia. split.
  - intros Ht. apply boundary_loop_finds; lia.
  - intros Ht fuel. apply boundary_loop_diverges. lia.
Qed.
End Boundary.

Lemma pcm_boundary_witness :
  exists k, 0 <= k /\ boundary_loop 32 960 (u32 960) = Some (960 * 2 ^ k) /\
     (0 < k -> 960 * 2 ^ k + 960 <= 0x7fffffff) /\ 0x7fffffff < 960 * 2 ^ (k + 1) + 960.
Proof. apply (pcm_boundary 960); lia. Defined.

(** ** The shared position *)

Section Shared.
Context `{Env, Alsa, SndEnv, PlugEnv, PosMem}.

(** The DSP changes its counter whenever it changes the position: as long as
    the counter reads the same, and not 0, nothing was written in between. *)
Definition dsp_protocol : Prop :=
  forall i j, (i <= j)%nat -> frame_counter (pos_mem i) = frame_counter (pos_mem j) ->
    frame_counter (pos_mem i) <> 0 -> forall k, (i <= k <= j)%nat -> pos_mem k = pos_mem i.

(** What the buffer held at access [k]. *)
Definition held_at (k : nat) : Z * Z * Z :=
  (read_index (pos_mem k), wall_clock_us_msw (pos_mem k), wall_clock_us_lsw (pos_mem k)).

(** What a successful read gives, whatever the DSP does: the clock and the index
    of three accesses in a row, between two accesses that saw the same counter. *)
Definition seen_between (from to : nat) (v : Z * Z * Z) : Prop :=
  exists k, (from <= k)%nat /\ (k + 4 < to)%nat /\
    frame_counter (pos_mem k) = frame_counter (pos_mem (k + 4)) /\
    v = (read_index (pos_mem (k + 3)), wall_clock_us_msw (pos_mem (k + 1)),
         wall_clock_us_lsw (pos_mem (k + 2))).

(** The buffer as it was at one moment [k] of the read, unless the counter
    stayed 0 in all attempts to see it. *)
Definition snapshot_of (from to : nat) (v : Z * Z * Z) : Prop :=
  exists k, (from <= k < to)%nat /\ (frame_counter (pos_mem k) <> 0 -> v = held_at k).

Lemma seen_snapshot from to v : dsp_protocol -> seen_between from to v -> snapshot_of from to v.
Proof.
  intros Hp (k & Hf & Ht & Ec & ->). exists k. split; [lia|]. intros Hz. unfold held_at.
  rewrite (Hp k (k + 4)%nat ltac:(lia) Ec Hz (k + 1)%nat),
    (Hp k (k + 4)%nat ltac:(lia) Ec Hz (k + 2)%nat),
    (Hp k (k + 4)%nat ltac:(lia) Ec Hz (k + 3)%nat) by lia. done.
Qed.

Lemma seen_between_wider from to from' to' v : (from' <= from)%nat -> (to <= to')%nat ->
  seen_between from to v -> seen_between from' to' v.
Proof. intros Hf Ht (k & ? & ? & ?). exists k. split; [lia|]. by split; [lia|]. Qed.

Lemma run_read_pos {A} (f : shared_pos -> A) h : read_pos f h = Ret (f (pos_mem (h_tick h))) (tick_at 1 h).
Proof. reflexivity. Qed.

Lemma tick_at_add {I} a b (h : host I) : tick_at a (tick_at b h) = tick_at (a + b) h.
Proof. unfold tick_at, set_h_tick. cbn. f_equal. lia. Qed.

Lemma poll_counter_S n last h :
  poll_counter (S n) last h =
    (let c := frame_counter (pos_mem (h_tick h)) in if nz c then ret c else poll_counter n c) (tick_at 1 h).
Proof. reflexivity. Qed.

Lemma h_tick_at {I} k (h : host I) : h_tick (tick_at k h) = (k + h_tick h)%nat.
Proof. reflexivity. Qed.

(** The first loop ends on a counter that is not 0, or after all attempts. *)
Lemma poll_counter_run n last h :
  exists m, (1 <= m <= S n)%nat /\
    poll_counter (S n) last h = Ret (frame_counter (pos_mem (h_tick h + m - 1))) (tick_at m h).
Proof.
  revert last h. induction n as [|n IH]; intros last h.
  all: assert (E1 : (h_tick h + 1 - 1 = h_tick h)%nat) by lia.
  all: rewrite poll_counter_S; cbv zeta; destruct (nz (frame_counter (pos_mem (h_tick h)))).
  1-3: exists 1%nat; rewrite E1; split; [lia|reflexivity].
  destruct (IH (frame_counter (pos_mem (h_tick h))) (tick_at 1 h)) as (m & Hm & ->).
  exists (S m). rewrite tick_at_add. cbn [tick_at h_tick set_h_tick] in *.
  replace (h_tick h + S m - 1)%nat with (1 + h_tick h + m - 1)%nat by lia.
  split; [lia|]. by replace (m + 1)%nat with (S m) by lia.
Qed.

(** A run of at most [n] accesses, and what it may return. *)
Definition reads_within (n : nat) (m : PCM (option (Z * Z * Z))) (h : host pcm_plugin) : Prop :=
  exists k r, (k <= n)%nat /\ m h = Ret r (tick_at k h) /\
    match r with
    | Some v => seen_between (h_tick h) (h_tick h + k) v
    | None => True
    end.

(** One round: at most nine accesses. *)
Lemma shared_pos_loop_run n h : reads_within (9 * n) (shared_pos_loop n) h.
Proof.
  revert h. induction n as [|n IH]; intros h.
  { exists 0%nat, None. split; [lia|]. split; [by destruct h|done]. }
  unfold reads_within. cbn [shared_pos_loop]. unfold AGM_PULL_PUSH_FRAME_CNT_RETRY_COUNT.
  destruct (poll_counter_run 4 0 h) as (m & Hm & E). set (k := (h_tick h + m - 1)%nat) in *.
  unfold bind at 1. rewrite E. unfold bind. rewrite !run_read_pos, !tick_at_add, !h_tick_at.
  destruct (frame_counter (pos_mem k) =? frame_counter (pos_mem _)) eqn:Ec; cbn [negb]; bool_hyps.
  - eexists (4 + m)%nat, _. split; [lia|]. split; [reflexivity|]. exists k.
    split; [unfold k; lia|]. split; [unfold k; lia|]. split.
    + rewrite Ec. do 2 f_equal. unfold k. lia.
    + f_equal; [f_equal|]; do 2 f_equal; unfold k; lia.
  - set (h4 := tick_at _ _). destruct (IH h4) as (m' & r & Hm' & -> & Hr).
    exists (m' + (4 + m))%nat, r. split; [lia|]. split.
    + unfold h4. rewrite !tick_at_add. do 2 f_equal; lia.
    + destruct r as [v|]; [|done]. revert Hr. unfold h4. rewrite !h_tick_at.
      apply seen_between_wider; lia.
Qed.

Lemma get_shared_pos_run pos h : pb_addr pos <> MAP_FAILED ->
  reads_within 18 (agm_pcm_plugin_get_shared_pos pos) h.
Proof.
  intros Ha%Z.eqb_neq. unfold agm_pcm_plugin_get_shared_pos. rewrite Ha.
  apply (shared_pos_loop_run AGM_PULL_PUSH_IDX_RETRY_COUNT).
Qed.

Lemma retry_shared_pos_run n pos h : pb_addr pos <> MAP_FAILED ->
  reads_within (18 * n) (retry_shared_pos n pos) h.
Proof.
  intros Ha. revert h. induction n as [|n IH]; intros h.
  { exists 0%nat, None. split; [lia|]. by destruct h. }
  unfold reads_within. cbn [retry_shared_pos]. unfold bind.
  destruct (get_shared_pos_run pos h Ha) as (m & r & Hm & -> & Hr). destruct r as [v|].
  - exists m, (Some v). split; [lia|]. by split.
  - destruct (IH (tick_at m h)) as (m' & r & Hm' & -> & Hr').
    exists (m' + m)%nat, r. rewrite tick_at_add. split; [lia|]. split; [done|].
    destruct r as [v|]; [|done]. revert Hr'. rewrite h_tick_at. apply seen_between_wider; lia.
Qed.

(** A DSP whose counter does not change, and is not 0, is read in one round. *)
Lemma shared_pos_quiet pos h :
  pb_addr pos <> MAP_FAILED ->
  (forall k, (h_tick h <= k < h_tick h + 5)%nat -> pos_mem k = pos_mem (h_tick h)) ->
  frame_counter (pos_mem (h_tick h)) <> 0 ->
  retry_shared_pos 10 pos h =
    Ret (Some (read_index (pos_mem (h_tick h)), wall_clock_us_msw (pos_mem (h_tick h)),
               wall_clock_us_lsw (pos_mem (h_tick h)))) (tick_at 5 h).
Proof.
  intros Ha Hq Hz. cbn [retry_shared_pos]. unfold bind at 1, agm_pcm_plugin_get_shared_pos.
  apply Z.eqb_neq in Ha. rewrite Ha. unfold AGM_PULL_PUSH_IDX_RETRY_COUNT. cbn [shared_pos_loop].
  unfold bind at 1, AGM_PULL_PUSH_FRAME_CNT_RETRY_COUNT. rewrite poll_counter_S. cbv zeta.
  apply nz_true in Hz. rewrite Hz. unfold ret at 1, bind. rewrite !run_read_pos, !tick_at_add, !h_tick_at.
  cbn [Nat.add]. set (t := h_tick h) in *.
  rewrite (Hq (S t)), (Hq (S (S t))), (Hq (S (S (S t)))), (Hq (S (S (S (S t))))) by lia.
  by rewrite Z.eqb_refl.
Qed.

(** C27: reading the shared position through an address that was mapped.
    Whatever the DSP writes meanwhile, an attempt ends after at most 18 accesses and
    the ten retries after at most 180, and what they return are the clock and the
    index of three accesses in a row, between two that saw the same counter.  If
    the DSP keeps the protocol of such a buffer (while the counter reads the
    same, and not 0, the rest is unchanged), a position that was not read under
    a counter of 0 is one the buffer held, clock included, at one moment of
    the read; without that protocol it can be a mixture.  And when the DSP does
    not write during the first five accesses and its counter is not 0, the first
    attempt succeeds. *)
Theorem pcm_shared_pos_consistent pos h :
  pb_addr pos <> MAP_FAILED ->
  reads_within 18 (agm_pcm_plugin_get_shared_pos pos) h /\
  reads_within 180 (retry_shared_pos 10 pos) h /\
  (dsp_protocol -> forall v h', retry_shared_pos 10 pos h = Ret (Some v) h' ->
     snapshot_of (h_tick h) (h_tick h') v) /\
  ((forall k, (h_tick h <= k < h_tick h + 5)%nat -> pos_mem k = pos_mem (h_tick h)) ->
   frame_counter (pos_mem (h_tick h)) <> 0 ->
   retry_shared_pos 10 pos h = Ret (Some (held_at (h_tick h))) (tick_at 5 h)).
Proof.
  intros Ha. split; [by apply get_shared_pos_run|]. split; [by apply (retry_shared_pos_run 10)|].
  split; [|by apply shared_pos_quiet]. intros Hp v h' E.
  destruct (retry_shared_pos_run 10 pos h Ha) as (m & r & _ & Er & Hr).
  rewrite Er in E. injection E as -> <-. rewrite h_tick_at, Nat.add_comm. by apply seen_snapshot.
Qed.

(** *** Following the DSP *)

(** The configuration of a stream: sizes that fit. *)
Record stream_ok (priv : agm_pcm_priv) (boundary : Z) : Prop := StreamOk {
  so_channels : 0 < mc_channels (pp_media priv);
  so_chan_max : mc_channels (pp_media priv) * 32 < 2 ^ 32;
  so_period : 0 < pp_period_size priv;
  so_total : exists count, 0 < count /\ pp_total_size_frames priv = count * pp_period_size priv;
  so_bytes : pp_total_size_frames priv * frame_bytes (pp_media priv) * 8 < 2 ^ 32;
  so_boundary : exists k, 0 <= k /\ boundary = pp_total_size_frames priv * 2 ^ k;
  so_int : boundary < 2 ^ 31
}.

Definition whole_periods (period frames : Z) : Z := frames / period * period.

(** The position after [played] frames, in whole periods: the hardware pointer
    modulo the boundary, and the start of the buffer round it is in. *)
Definition tracks (priv : agm_pcm_priv) (pos : pos_buf_info) (played : Z) : Prop :=
  let total := pp_total_size_frames priv in
  let p := whole_periods (pp_period_size priv) played in
  pb_hw_ptr pos = p mod pb_boundary pos /\
  pb_hw_ptr_base pos = (p - p mod total) mod pb_boundary pos.

(** A buffer round inside the boundary. *)
Lemma base_mod total m x :
  0 < total -> 0 < m -> 0 <= x ->
  exists q, 0 <= q < m /\ (x - x mod total) mod (total * m) = q * total /\
    x mod (total * m) = q * total + x mod total.
Proof.
  intros Ht Hm Hx. exists ((x / total) mod m).
  pose proof (Z.mod_pos_bound (x / total) m Hm). split; [done|].
  pose proof (Z.div_mod x total ltac:(lia)).
  replace (x - x mod total) with (total * (x / total)) by lia. split.
  - rewrite Z.mul_mod_distr_l by lia. lia.
  - rewrite Z.rem_mul_r by lia. lia.
Qed.

Lemma whole_periods_mod period count played :
  0 < period -> 0 < count -> 0 <= played ->
  played mod (count * period) / period * period = whole_periods period played mod (count * period).
Proof.
  intros Hp Hc Hx. unfold whole_periods. rewrite (Z.mul_comm count period).
  rewrite (Z.rem_mul_r played period count) by lia.
  rewrite (Z.mul_comm period (_ mod count)), Z.div_add, Z.div_small by (try apply Z.mod_pos_bound; lia).
  rewrite (Z.mul_comm (played / period)), Z.mul_mod_distr_l by lia. lia.
Qed.

(** The pointer arithmetic: from the position after [x] frames to the one
    after [y], less than a buffer later. *)
Lemma next_hw_ptr_tracks total m x y :
  0 < total -> 0 < m -> 0 <= x <= y -> y < x + total -> total * m < 2 ^ 31 ->
  next_hw_ptr total (total * m) (x mod (total * m)) ((x - x mod total) mod (total * m)) (y mod total) =
    (y mod (total * m), (y - y mod total) mod (total * m)).
Proof.
  intros Ht Hm Hxy Hlt Hb. assert (Hround : forall a, 0 <= a -> 0 <= a mod total < total).
  { intros. by apply Z.mod_pos_bound. }
  destruct (base_mod total m x Ht Hm ltac:(lia)) as (qx & Hqx & Ebx & Ex).
  destruct (base_mod total m y Ht Hm ltac:(lia)) as (qy & Hqy & Eby & Ey).
  pose proof (Hround x ltac:(lia)) as Rx. pose proof (Hround y ltac:(lia)) as Ry.
  unfold next_hw_ptr. rewrite Ebx, Ex, Eby, Ey.
  assert (0 <= qx * total <= (m - 1) * total) by (split; apply Z.mul_nonneg_nonneg || apply Z.mul_le_mono_nonneg_r; lia).
  assert (0 <= qy * total <= (m - 1) * total) by (split; apply Z.mul_nonneg_nonneg || apply Z.mul_le_mono_nonneg_r; lia).
  assert (total <= total * m) by nia.
  rewrite (u64_small (qx * total + y mod total)) by lia.
  pose proof (Z.div_mod x total ltac:(lia)) as Dx. pose proof (Z.div_mod y total ltac:(lia)) as Dy.
  set (ax := x / total) in *. set (ay := y / total) in *.
  assert (Eq : qx = ax mod m /\ qy = ay mod m).
  { split.
    - apply (Z.mul_cancel_r _ _ total); [lia|]. rewrite <- Ebx.
      replace (x - x mod total) with (total * ax) by lia. rewrite Z.mul_mod_distr_l by lia. lia.
    - apply (Z.mul_cancel_r _ _ total); [lia|]. rewrite <- Eby.
      replace (y - y mod total) with (total * ay) by lia. rewrite Z.mul_mod_distr_l by lia. lia. }
  destruct Eq as [Eqx Eqy]. assert (Ha : ay = ax \/ ay = ax + 1) by nia.
  destruct (Z.ltb_spec (qx * total + y mod total) (qx * total + x mod total)) as [Hw|Hw].
  - assert (ay = ax + 1) as Ea by nia. rewrite Ea in Eqy.
    rewrite (u64_small (qx * total + total)) by lia. rewrite <- (Z.add_mod_idemp_l ax 1 m), <- Eqx in Eqy by lia.
    destruct (Z.leb_spec (total * m) (qx * total + total)).
    + assert (qx + 1 = m) as Em by nia. rewrite Em, Z.mod_same in Eqy by lia. subst qy.
      rewrite u64_small by lia. done.
    + rewrite Z.mod_small in Eqy by nia. subst qy. rewrite u64_small by lia. f_equal; lia.
  - assert (ay = ax) as Ea by nia. rewrite Ea, <- Eqx in Eqy. by subst qy.
Qed.
(** C26: following the DSP.  [played n] frames were played when the plug-in makes
    its [n]-th access, and the DSP reports their offset in the buffer.  If the
    plug-in's pointer stands for [played0] frames, and less than one buffer (in
    whole periods) was played since, then an update either fails with -EAGAIN and
    changes nothing, or leaves a pointer that stands for the frames played at
    some moment during the update, modulo the boundary. *)
Theorem pcm_hw_ptr_tracks p pos played played0 h :
  let priv := pl_priv p in
  let period := pp_period_size priv in
  let total := pp_total_size_frames priv in
  h_inst h = Some p -> pp_pos_buf priv = Some pos -> pb_addr pos <> MAP_FAILED ->
  stream_ok priv (pb_boundary pos) -> 0 <= played0 -> tracks priv pos played0 ->
  (forall n, read_index (pos_mem n) = (played n mod total) * frame_bytes (pp_media priv)) ->
  (forall n, (h_tick h <= n < h_tick h + 180)%nat -> played0 <= played n /\
     whole_periods period (played n) < whole_periods period played0 + total) ->
  exists r h', agm_pcm_plugin_update_hw_ptr h = Ret r h' /\
    ((r = - EAGAIN /\ h_inst h' = h_inst h) \/
     (r = 0 /\ exists n pos', (h_tick h <= n < h_tick h')%nat /\
        h_inst h' = Some (upd_pl_priv (set_pp_pos_buf (Some pos')) p) /\
        tracks priv pos' (played n) /\ pb_boundary pos' = pb_boundary pos)).
Proof.
  intros priv period total Hi Hpos Haddr Hok Hp0 Htr Hidx Hwin.
  destruct Hok as [Hch Hcm Hper (count & Hcount & Htot) Hbytes (k & Hk & Hbound) Hint].
  fold total period in Htot, Hper, Hbytes, Hbound.
  destruct (retry_shared_pos_run 10 pos h Haddr) as (m & r & Hm & Erun & Hr).
  unfold agm_pcm_plugin_update_hw_ptr, bind, the_inst. rewrite Hi. fold priv. rewrite Hpos. cbn [the].
  unfold ret at 1. rewrite Erun. destruct r as [[[index msw] lsw]|].
  2: { eexists _, _. split; [reflexivity|]. left. by rewrite <- Hi. }
  assert (exists n, (h_tick h <= n < h_tick h + m)%nat /\ index = read_index (pos_mem n)) as (n & Hn & ->).
  { destruct Hr as (j & Hj & Hj4 & _ & E). exists (j + 3)%nat. split; [lia|congruence]. }
  destruct (Hwin n ltac:(lia)) as [Hge Hlt]. rewrite Hidx.
  assert (0 < total) by nia. pose proof (Z.mod_pos_bound (played n) total ltac:(lia)) as Hmod.
  assert (0 <= frame_bytes (pp_media priv)) as Hfb.
  { apply Z.mul_nonneg_nonneg; [lia|]. by destruct (bits_cases (mc_format (pp_media priv))) as [->|[->| ->]]. }
  assert (played n mod total * frame_bytes (pp_media priv) <= total * frame_bytes (pp_media priv))
    by (apply Z.mul_le_mono_nonneg_r; lia).
  destruct (pcm_frames_bytes (pp_media priv) (played n mod total)) as (_ & _ & ->); [done|lia|lia|done|].
  cbn [the]. unfold ret at 1. fold period. destruct (Z.eqb_spec period 0); [lia|]. cbn.
  destruct Htr as [Hhw Hbase]. fold total period in Hhw, Hbase.
  set (x := whole_periods period played0) in *.
  set (y := whole_periods period (played n)) in *.
  assert (Hpos' : played n mod total / period * period = y mod total).
  { unfold y. rewrite Htot. apply whole_periods_mod; lia. }
  rewrite Hpos', Hhw, Hbase. fold total. rewrite Hbound.
  assert (0 <= x) by (unfold x, whole_periods; apply Z.mul_nonneg_nonneg; [apply Z.div_pos|]; lia).
  assert (x <= y).
  { unfold x, y, whole_periods. apply Z.mul_le_mono_nonneg_r; [lia|]. apply Z.div_le_mono; lia. }
  rewrite next_hw_ptr_tracks by (try apply Z.pow_pos_nonneg; lia).
  eexists _, _. split.
  { unfold upd_inst, bind, the_inst, modify, ret. cbn. rewrite Hi. reflexivity. }
  right. split; [done|]. exists n. eexists. split; [cbn; lia|]. split; [reflexivity|].
  split; [|done]. split; cbn; fold total period y; by rewrite Hbound.
Qed.
End Shared.
