(* ===== verification/PcmSession.v ===== *)
(** * The PCM plug-in: room, opening and configuration

    How much can be written or read, what [poll] makes of it, and the two places
    where the plug-in meets other components: the card references of [SndCardRefs]
    over open and close, and the configuration that reaches the session object. *)

From S2P Require Export PcmProps.
Open Scope Z_scope.
#[export] Set Default Goal Selector "!".

(** ** Room and data *)

Lemma mod_diff h a T :
  0 < T -> 0 <= h - a < T -> h mod T - a mod T = h - a \/ h mod T - a mod T = h - a - T.
Proof.
  intros HT Hd. pose proof (Z.div_mod h T ltac:(lia)). pose proof (Z.div_mod a T ltac:(lia)).
  pose proof (Z.mod_pos_bound h T HT). pose proof (Z.mod_pos_bound a T HT).
  assert (h / T = a / T \/ h / T = a / T + 1) as [E|E] by nia; rewrite E in *; [left|right]; lia.
Qed.

(** Frames to read, frames of room.  From pointers modulo the boundary the
    plug-in recovers the exact number of frames the DSP recorded and the client
    has not read; and, for playback, the exact room left in the buffer, provided
    the boundary is more than one buffer. *)
Theorem pcm_avail_correct hw appl total boundary :
  0 < total <= boundary -> boundary < 2 ^ 31 -> 0 <= hw -> 0 <= appl ->
  (0 <= hw - appl < boundary ->
     avail_in (hw mod boundary) (appl mod boundary) boundary = hw - appl) /\
  (0 <= appl - hw <= total -> total < boundary ->
     avail_out (hw mod boundary) total (appl mod boundary) boundary = total - (appl - hw)).
Proof.
  intros Ht Hb Hhw Happl. pose proof (Z.mod_pos_bound hw boundary ltac:(lia)) as Mh.
  pose proof (Z.mod_pos_bound appl boundary ltac:(lia)) as Ma. split.
  - intros Hd. unfold avail_in. rewrite s64_small by lia.
    destruct (mod_diff hw appl boundary) as [E|E]; try lia; rewrite E.
    + destruct (Z.ltb_spec (hw - appl) 0); lia.
    + destruct (Z.ltb_spec (hw - appl - boundary) 0); lia.
  - intros Hd Hlt. unfold avail_out. rewrite s64_small by lia.
    assert (hw mod boundary + total - appl mod boundary = total - (appl mod boundary - hw mod boundary))
      as -> by lia.
    destruct (mod_diff appl hw boundary) as [E|E]; try lia; rewrite E.
    + rewrite (proj2 (Z.ltb_ge _ _)), (proj2 (Z.leb_gt _ _)); lia.
    + rewrite (proj2 (Z.ltb_ge _ _)), (proj2 (Z.leb_le _ _)); lia.
Qed.

Section PcmSession.
Context `{Env, Alsa, SndEnv, PlugEnv, PosMem}.

#[export] Instance keeps_inst_const {B} (f : host pcm_plugin -> B) n :
  (forall h k, f (set_h_tick k h) = f h) -> Keeps f (shared_pos_loop n).
Proof.
  intros Hf. assert (Ht : Keeps f next_tick) by (by apply Keeps_next_tick).
  assert (Hr : forall A (g : shared_pos -> A), Keeps f (read_pos g)) by (intros; unfold read_pos; keeps_tac).
  assert (Hp : forall n l, Keeps f (poll_counter n l)).
  { induction n0 as [|k IH]; intros l; cbn [poll_counter]; keeps_tac. }
  induction n as [|n IH]; cbn [shared_pos_loop]; keeps_tac.
Qed.

(** The mode is fixed at open. *)
Definition inst_mode (h : host pcm_plugin) : option (Z * Z) :=
  (fun p => (pl_mode p, pp_period_size (pl_priv p))) <$> h_inst h.

Lemma update_hw_ptr_mode : Keeps inst_mode agm_pcm_plugin_update_hw_ptr.
Proof.
  intros h r h'. unfold agm_pcm_plugin_update_hw_ptr, bind at 1, the_inst at 1.
  destruct (h_inst h) as [p|] eqn:Ep; [|done]. cbv zeta. unfold bind at 1.
  destruct (pp_pos_buf (pl_priv p)) as [pos|]; [|done]. cbn [the ret]. unfold bind at 1.
  assert (Hk : forall n, Keeps h_inst (retry_shared_pos n pos)).
  { induction n as [|n IH]; cbn [retry_shared_pos]; [apply Keeps_ret|].
    apply Keeps_bind; [|intros []; [apply Keeps_ret|exact IH]].
    unfold agm_pcm_plugin_get_shared_pos. destruct (_ =? _); [apply Keeps_crash|].
    by apply keeps_inst_const. }
  destruct (retry_shared_pos 10 pos h) as [v h1|] eqn:E1; [|done].
  pose proof (Hk _ _ _ _ E1) as E2. rewrite Ep in E2. destruct v as [[[idx msw] lsw]|].
  2: { intros [= _ Eh]. unfold inst_mode. by rewrite <- Eh, E2, Ep. }
  unfold bind at 1. destruct (agm_pcm_bytes_to_frames idx (pp_media (pl_priv p))); [|done].
  cbn [the ret]. destruct (_ =? 0); [done|]. cbv zeta.
  destruct (next_hw_ptr _ _ _ _ _) as [hw base].
  unfold next_tick, upd_inst, the_inst, modify, ret, bind. hsimp. rewrite E2. intros [= _ <-].
  unfold inst_mode. by rewrite Ep.
Qed.

(** Waiting to play.  tinyalsa's [PCM_OUT] is 0, so no mode has it: the room
    of a playback stream is always reported as 0, and [poll] times out however
    empty the buffer is. *)
Theorem pcm_playback_poll_times_out p h :
  PCM_OUT = 0 -> h_inst h = Some p -> has_flag (pl_mode p) PCM_IN = false ->
  0 < pp_period_size (pl_priv p) ->
  wlp agm_pcm_poll (fun r _ => r = (None, 0)) h.
Proof.
  intros Hout Hp Hin Hper.
  assert (Hav : forall h, inst_mode h = Some (pl_mode p, pp_period_size (pl_priv p)) ->
    agm_pcm_get_avail h = Ret 0 h).
  { intros h0 Hm. unfold inst_mode in Hm. destruct (h_inst h0) as [q|] eqn:Eq; [|done].
    cbn in Hm. injection Hm as Em _. unfold agm_pcm_get_avail, bind, the_inst. rewrite Eq.
    rewrite Hout, Em, Hin. unfold has_flag. by rewrite Z.land_0_r. }
  assert (Hm : inst_mode h = Some (pl_mode p, pp_period_size (pl_priv p))) by (unfold inst_mode; by rewrite Hp).
  unfold agm_pcm_poll. apply wpg_bind, (wpg_the_inst _ _ _ _ Hp). cbv zeta.
  apply wpg_bind. unfold wpg at 1. rewrite (Hav _ Hm). rewrite (proj2 (Z.ltb_lt _ _) Hper).
  apply wpg_bind, wpg_bind, wpg_next_tick, wpg_bind.
  eapply wpg_mono; [apply (keeps_wlp inst_mode), update_hw_ptr_mode|]. intros r h1 E1.
  change (inst_mode (tick_at 1 h)) with (inst_mode h) in E1. rewrite Hm in E1.
  assert (Hr : wpg True (ret (if pp_period_size (pl_priv p) <=? 0
       then if has_flag (pl_mode p) PCM_IN then (Some (Z.lor POLLIN POLLOUT), POLLIN)
            else (Some POLLOUT, POLLOUT) else (None, 0))) (fun r0 _ => r0 = (@None Z, 0)) h1).
  { apply wpg_ret. by rewrite (proj2 (Z.leb_gt _ _) Hper). }
  destruct (r =? 0); [|exact Hr]. unfold wpg at 1. by rewrite (Hav _ E1).
Qed.

(** ** Opening and closing *)

Lemma callocs_keeps {B} (f : host pcm_plugin -> B) n :
  (forall h k, f (set_h_tick k h) = f h) -> Keeps f (callocs n).
Proof.
  intros Hf. assert (Ht : Keeps f next_tick) by (by apply Keeps_next_tick).
  induction n as [|n IH]; cbn [callocs]; [apply Keeps_ret|]. unfold plug_calloc. keeps_tac.
Qed.

(** What an open leaves behind. *)
Definition opened_or_not (h h' : host pcm_plugin) (held : list nat) (mode r : Z) : Prop :=
  (r = 0 /\ exists p i, h_inst h' = Some p /\ pp_card_node (pl_priv p) = Some i /\ pl_mode p = mode /\
     0 < pp_handle (pl_priv p) /\ cards_held (sn_cards (h_snd h')) (i :: held)) \/
  (r < 0 /\ h_inst h' = h_inst h /\ cards_held (sn_cards (h_snd h')) held).

Lemma open_status_neg r : r <> 0 -> open_status r < 0.
Proof. unfold open_status. destruct (Z.ltb_spec r 0); lia. Qed.

(** Whatever fails while a PCM is opened (memory, the card, the device in
    its card, the session), the result is negative, no instance is left, and the
    reference to the card that was taken is given back; an open that succeeds
    holds exactly one more. *)
Lemma pcm_open_references card device mode held h :
  (forall n l, snd_xml n <> XmlDoc l false) -> cards_held (sn_cards (h_snd h)) held ->
  wlp (agm_pcm_plugin_open card device mode) (fun r h' => opened_or_not h h' held mode r) h.
Proof.
  intros Hx Hh. unfold agm_pcm_plugin_open. apply wpg_bind.
  eapply wpg_mono.
  { apply (keeps_wlp (fun h => (h_inst h, h_snd h))). by apply callocs_keeps. }
  intros ok h1 [= E1 E2]. destruct ok; cbn [negb].
  2: { apply wpg_ret. right. rewrite E1, E2. done. }
  apply wpg_bind, wpg_lift_snd. eapply wpg_mono.
  { apply (get_card_held _ _ held Hx). by rewrite E2. }
  intros [i|] s1 Hs1.
  2: { apply wpg_ret. by right. }
  assert (Hput : forall r h2, r <> 0 -> h_inst h2 = h_inst h ->
    cards_held (sn_cards (h_snd h2)) (i :: held) ->
    wlp (do! lift_snd (snd_card_def_put_card (Some i)) ; ret (open_status r))
      (fun r h' => opened_or_not h h' held mode r) h2).
  { intros r h2 Hr Hi2 Hc2. apply wpg_bind. eapply wpg_mono; [by eapply lift_put_held|].
    intros ? h3 [Hc3 Hi3]. apply wpg_ret. right. split; [by apply open_status_neg|].
    split; [congruence|done]. }
  apply wpg_bind, wpg_lift_snd. eapply wpg_mono.
  { apply (keeps_wlp sn_cards). apply (keeps_query _ _ (query_node _ _ _)). }
  intros node s2 E3. destruct node as [node|]; [|by apply Hput; hsimp; [..|rewrite E3]].
  apply wpg_bind, wpg_lift_agm, run_wlp. intros [r handle] w Hopen. apply wpg_bind, wpg_modify.
  destruct (nz r) eqn:Er.
  { apply nz_true in Er. apply Hput; hsimp; [done|done|by rewrite E3]. }
  apply wpg_bind, wpg_the. destruct handle as [hd|]; [|done].
  apply wpg_bind, wpg_modify, wpg_ret. left. split; [done|]. eexists _, i. hsimp.
  split; [reflexivity|]. split; [done|]. split; [done|].
  split; [by eapply session_open_handle|by rewrite E3].
Qed.

(** Open and close are balanced.  An open that fails, for whatever reason
    (memory, the card, the device in its card, the session), and an open that
    succeeds followed by a close, both leave no instance and exactly the card
    references of before, whatever the service answers to the close. *)
Theorem pcm_open_close card device mode held h :
  (forall n l, snd_xml n <> XmlDoc l false) -> cards_held (sn_cards (h_snd h)) held -> h_inst h = None ->
  wlp (let! r := agm_pcm_plugin_open card device mode in
       if nz r then ret r else agm_pcm_close)
    (fun _ h' => h_inst h' = None /\ cards_held (sn_cards (h_snd h')) held) h.
Proof.
  intros Hx Hh Hn. apply wpg_bind. eapply wpg_mono; [by apply pcm_open_references|].
  intros r h1 [(-> & p & i & Hi & Hcard & _ & Hhd & Hc)|(Hr & Hi & Hc)].
  2: { rewrite (proj2 (nz_true r)) by lia. apply wpg_ret. by rewrite Hi. }
  change (nz 0) with false. unfold agm_pcm_close, with_handle_of.
  apply wpg_bind, (wpg_the_inst _ _ _ _ Hi). cbv zeta. rewrite (proj2 (Z.eqb_neq _ _)) by lia.
  apply wpg_bind, wpg_lift_agm, run_wlp. intros r w _. apply wpg_bind, wpg_modify, wpg_bind. rewrite Hcard.
  eapply wpg_mono; [by eapply lift_put_held|]. intros ? h2 [Hc2 _].
  apply wpg_bind, wpg_modify, wpg_ret. by split.
Qed.
(** ** Configuration *)

(** The parameters of a configuration space narrowed to one choice. *)
Record describes (params : hw_params) (rate channels format period count : Z) : Prop := Describes {
  ds_rate : param_get_int params SNDRV_PCM_HW_PARAM_RATE = rate;
  ds_channels : param_get_int params SNDRV_PCM_HW_PARAM_CHANNELS = channels;
  ds_period : param_get_int params SNDRV_PCM_HW_PARAM_PERIOD_SIZE = period;
  ds_count : param_get_int params SNDRV_PCM_HW_PARAM_PERIODS = count;
  ds_mask : param_is_mask SNDRV_PCM_HW_PARAM_FORMAT = true;
  ds_format : hp_masks params (Z.to_nat (SNDRV_PCM_HW_PARAM_FORMAT - SNDRV_PCM_HW_PARAM_FIRST_MASK)) =
    [if format <? 32 then 2 ^ format else 0; if format <? 32 then 0 else 2 ^ (format - 32)]
}.

(** A mask with one bit gives the number of the bit. *)
Lemma snd_mask_val_single f :
  0 <= f < 64 ->
  snd_mask_val [if f <? 32 then 2 ^ f else 0; if f <? 32 then 0 else 2 ^ (f - 32)] = f.
Proof.
  intros Hf. assert (Hall : forallb (fun n => let f := Z.of_nat n in
    snd_mask_val [if f <? 32 then 2 ^ f else 0; if f <? 32 then 0 else 2 ^ (f - 32)] =? f)
    (seq 0 64) = true) by (vm_compute; reflexivity).
  rewrite forallb_forall in Hall. specialize (Hall (Z.to_nat f)). cbv zeta in Hall.
  rewrite Z2Nat.id in Hall by lia. apply Z.eqb_eq, Hall, in_seq. lia.
Qed.

Lemma describes_mask params rate channels format period count :
  describes params rate channels format period count -> 0 <= format < 64 ->
  param_get_mask_val params SNDRV_PCM_HW_PARAM_FORMAT = alsa_to_agm_format format.
Proof.
  intros [_ _ _ _ Hm Hf] Hr. unfold param_get_mask_val. rewrite Hm, Hf.
  by rewrite snd_mask_val_single.
Qed.

Lemma session_set_config_run i s pool stream media buffer w :
  w_pool w = Some pool -> pool !! i = Some s -> LSess i ∉ w_held w ->
  exists w', agm_session_set_config (handle_of i) stream media buffer w = Ret 0 w' /\
    w_pool w' = Some (<[i := set_ses_buffer buffer (set_ses_media media (set_ses_stream stream s))]> pool) /\
    w_held w' = w_held w.
Proof.
  intros Hp Hs Hl. unfold agm_session_set_config, with_handle, handle_of.
  rewrite (proj2 (Z.eqb_neq _ _)) by lia. replace (Z.to_nat (Z.of_nat i + 1 - 1)) with i by lia.
  destruct (wp_run (session_obj_set_config i stream media buffer) (fun r w' => r = 0 /\
    w_pool w' = Some (<[i := set_ses_buffer buffer (set_ses_media media (set_ses_stream stream s))]> pool) /\
    w_held w' = w_held w) w) as (r & w' & E & -> & Hw); [|by exists w'].
  unfold session_obj_set_config, locked. wp_steps.
  eapply wpg_upd_sess; [wsimp; eassumption..|]. wp_steps. by repeat split.
Qed.

(** [hw_params] on an open PCM always succeeds, and the session behind the
    handle then holds exactly the stream tinyalsa described: rate, channels and
    format, as many buffers as periods, each of one period in bytes, the direction
    of the open mode, push-pull mode for a mapped NOIRQ stream, and the hostless
    property of the device in its card; nothing else of the pool changes. *)
Theorem pcm_hw_params_configures params rate channels format period count p h i s pool k t j c d :
  describes params rate channels format period count ->
  0 <= format < 64 -> 0 < channels -> channels * 32 < 2 ^ 32 -> 0 <= period ->
  h_inst h = Some p -> pp_handle (pl_priv p) = handle_of i ->
  w_pool (h_agm h) = Some pool -> pool !! i = Some s -> LSess i ∉ w_held (h_agm h) ->
  pl_node p = (k, t, j) -> sn_cards (h_snd h) !! k = Some (Some c) -> cd_devs t c !! j = Some d ->
  let media := MediaConfig rate channels (alsa_to_agm_format format) (mc_data_format (pp_media (pl_priv p))) in
  let buffer := BufferConfig count (period * frame_bytes media) in
  let old := pp_session (pl_priv p) in
  let stream := SessionConfig (if has_flag (pl_mode p) PCM_IN then TX else RX) (nz (prop_int "hostless" d))
    (sc_start_threshold old) (sc_stop_threshold old) (sc_codec old)
    (if has_flag (pl_mode p) PCM_MMAP && has_flag (pl_mode p) PCM_NOIRQ then AGM_DATA_PUSH_PULL
     else sc_data_mode old) in
  period * frame_bytes media * 8 < 2 ^ 32 -> 0 <= count -> count * period < 2 ^ 32 ->
  exists h', agm_pcm_hw_params params h = Ret 0 h' /\
    w_pool (h_agm h') = Some (<[i := set_ses_buffer buffer (set_ses_media media (set_ses_stream stream s))]> pool) /\
    h_inst h' = Some (upd_pl_priv (set_pp_config media buffer stream period (count * period)) p) /\
    h_snd h' = h_snd h /\ w_held (h_agm h') = w_held (h_agm h).
Proof.
  intros Hd Hf Hch Hcm Hper Hi Hhd Hpool Hs Hl Hnode Hc Hdev media buffer old stream Hbytes Hcnt Htot.
  pose proof (describes_mask _ _ _ _ _ _ Hd Hf) as Hmask. destruct Hd as [Hrate Hchn Hperiod Hcount _ _].
  unfold agm_pcm_hw_params, with_handle_of, bind at 1, the_inst. rewrite Hi. cbv zeta.
  rewrite Hhd, (proj2 (Z.eqb_neq _ _)) by (unfold handle_of; lia).
  rewrite Hrate, Hchn, Hperiod, Hcount, Hmask. fold media old.
  destruct (pcm_frames_bytes media period) as (-> & _); [done|done|done|done|]. fold buffer.
  rewrite (u32_small (count * period)) by nia.
  assert (Hget : snd_card_def_get_int (Some (pl_node p)) "hostless" (h_snd h) =
    Ret (match find_prop "hostless" (sd_props d) with
         | Some v => (0, Some (atoi v)) | None => (- EINVAL, None) end) (h_snd h)).
  { unfold snd_card_def_get_int. rewrite (locked_read _ _ d (h_snd h)); [done|].
    intros n. rewrite Hnode. by apply (read_node_run _ _ _ c). }
  unfold bind at 1, lift_snd. rewrite Hget.
  destruct (session_set_config_run i s pool stream media buffer (h_agm h) Hpool Hs Hl)
    as (w' & Erun & Hw & Hheld).
  assert (Hset : forall v st, st = stream -> v = h_snd h ->
    (do! upd_inst (upd_pl_priv (set_pp_config media buffer st period (count * period))) ;
     lift_agm (agm_session_set_config (handle_of i) st media buffer)) (set_h_snd v h) =
    Ret 0 (set_h_agm w' (set_h_inst (Some (upd_pl_priv (set_pp_config media buffer stream period
      (count * period)) p)) (set_h_snd v h)))).
  { intros v st -> ->. unfold upd_inst, the_inst, modify, lift_agm, bind. hsimp. rewrite Hi. hsimp.
    by rewrite Erun. }
  assert (Hval : (match (match find_prop "hostless" (sd_props d) with
         | Some v => (0, Some (atoi v)) | None => (- EINVAL, None) end).2 with
         | Some v => v | None => 0 end) = prop_int "hostless" d).
  { unfold prop_int. by destruct (find_prop _ _). }
  destruct (match find_prop "hostless" (sd_props d) with
            | Some v => (0, Some (atoi v)) | None => (- EINVAL, None) end) as [st hl].
  cbn in Hval. rewrite Hval, (Hset (h_snd h)) by done.
  eexists. split; [reflexivity|]. by hsimp.
Qed.
End PcmSession.

(** ** Concrete streams *)

(** A DSP that stands still after 120 frames of 4 bytes. *)
Definition still_dsp : PosMem := {| pos_mem _ := SharedPos 1 480 0 0 |}.

Definition demo_pos : pos_buf_info := PosBufInfo 4096 (240 * 2 ^ 21) 60 0 0 0 0.
Definition demo_priv : agm_pcm_priv :=
  AgmPcmPriv demo_media (BufferConfig 4 240) session_config_zero None (Some demo_pos) 1 (Some 0%nat) 101 60 240.
Definition demo_plugin (mode : Z) : pcm_plugin :=
  @PcmPlugin 100 (0%nat, SND_NODE_TYPE_PCM, 0%nat) mode (@agm_pcm_constrs linux_alsa) demo_priv.
Definition demo_host (w : world) (mode : Z) : host pcm_plugin :=
  Host w demo_state (Some (demo_plugin mode)) 0 0.
Definition closed_host : host pcm_plugin := Host empty_world snd_init None 0 0.

(** A DSP that changes the clock and leaves the counter: the position that is
    returned was never in the buffer. *)
Definition torn_dsp : PosMem := {| pos_mem n := SharedPos 1 (Z.of_nat n) (Z.of_nat n) (Z.of_nat n) |}.
Example torn_shared_pos :
  @retry_shared_pos torn_dsp 10 demo_pos (demo_host empty_world 0) =
    Ret (Some (3, 1, 2)) (tick_at 5 (demo_host empty_world 0)).
Proof. reflexivity. Qed.

Lemma pcm_shared_pos_consistent_witness :
  @retry_shared_pos still_dsp 10 demo_pos (demo_host empty_world 0) =
    Ret (Some (480, 0, 0)) (tick_at 5 (demo_host empty_world 0)).
Proof.
  destruct (@pcm_shared_pos_consistent still_dsp demo_pos (demo_host empty_world 0))
    as (_ & _ & _ & Hq); [done|]. by apply Hq.
Defined.

Lemma pcm_hw_ptr_tracks_witness :
  exists r h', @agm_pcm_plugin_update_hw_ptr plain_plug still_dsp (demo_host empty_world 0) = Ret r h' /\
    ((r = - EAGAIN /\ h_inst h' = Some (demo_plugin 0)) \/
     (r = 0 /\ exists n pos', (0 <= n < h_tick h')%nat /\
        h_inst h' = Some (upd_pl_priv (set_pp_pos_buf (Some pos')) (demo_plugin 0)) /\
        tracks demo_priv pos' 120 /\ pb_boundary pos' = 240 * 2 ^ 21)).
Proof.
  apply (@pcm_hw_ptr_tracks plain_plug still_dsp (demo_plugin 0) demo_pos (fun _ => 120) 60
           (demo_host empty_world 0)).
  - done.
  - done.
  - done.
  - split; try done; [exists 4|exists 21]; by vm_compute.
  - done.
  - by vm_compute.
  - done.
  - by vm_compute.
Defined.

Lemma pcm_avail_correct_witness :
  avail_in (1000 mod 960) (900 mod 960) 960 = 100.
Proof. apply (pcm_avail_correct 1000 900 240 960); lia. Defined.

Lemma pcm_playback_poll_times_out_witness :
  wlp (@agm_pcm_poll ok_env linux_alsa plain_plug still_dsp) (fun r _ => r = (None, 0)) (demo_host empty_world 0).
Proof. by apply (@pcm_playback_poll_times_out ok_env linux_alsa plain_plug still_dsp (demo_plugin 0)). Defined.

Lemma demo_held : @cards_held [] [].
Proof. intros i. by rewrite lookup_nil. Qed.

Lemma pcm_open_close_witness :
  wlp (let! r := @agm_pcm_plugin_open ok_env linux_alsa (demo_snd true) plain_plug 100 101 0 in
       if nz r then ret r else @agm_pcm_close ok_env)
    (fun _ h' => h_inst h' = None /\ cards_held (sn_cards (h_snd h')) []) closed_host.
Proof.
  apply (@pcm_open_close ok_env linux_alsa (demo_snd true) plain_plug); [intros n l; discriminate|apply demo_held|done].
Defined.

Definition demo_params : hw_params :=
  HwParams (fun n => SndInterval (nth n [0; 0; 2; 48000; 0; 240; 0; 4] 0) true) (fun _ => [4; 0]).
Definition demo_world : world := set_w_pool (Some [session_zero 101]) empty_world.

Lemma pcm_hw_params_configures_witness :
  exists h', @agm_pcm_hw_params ok_env linux_alsa demo_params (demo_host demo_world 0) = Ret 0 h' /\
    w_pool (h_agm h') =
      Some [set_ses_buffer (BufferConfig 4 960) (set_ses_media demo_media (set_ses_stream
              (SessionConfig RX false 0 0 (replicate 32 0) 0) (session_zero 101)))].
Proof.
  edestruct (@pcm_hw_params_configures ok_env linux_alsa demo_params 48000 2 2 240 4 (demo_plugin 0)
    (demo_host demo_world 0) 0%nat (session_zero 101) [session_zero 101] 0%nat SND_NODE_TYPE_PCM 0%nat
    (set_cd_refcnt 1 (card_of demo_header demo_card)) (dev_of demo_pcm)) as (h' & E & Hw & _).
  1-16: first [done | by split | apply not_elem_of_nil].
  exists h'. split; [exact E|exact Hw].
Defined.
