(* ===== verification/ComprPlugin.v ===== *)
(** * The compress plug-in (plugins/tinyalsa/src/agm_compress_plugin.c): operations

    The operations tinycompress calls for compressed streams, and the callback the
    service calls when the DSP has consumed or filled a fragment.  [cp_avail] counts
    the bytes the client may write (or read); every write takes whole fragments from
    it and every WRITE_DONE event gives one back.

    The callback runs on another thread.  Each operation is one step here, and an
    operation that waits on a condition takes what other threads do meanwhile as an
    argument; the number of signals on each condition is counted in
    [compr_signals], and a drain returns only when the condition it waits on was
    signalled (a wake-up without a signal, which POSIX allows and the code does not
    expect, is left out).  The mutexes of the plug-in guard these steps and are not
    modelled further. *)

From S2P Require Export Plugin.
Open Scope Z_scope.
#[export] Set Default Goal Selector "!".

(** ** Data *)

(** tinycompress, compress_params.h and the two addresses the service is
    given; [SND_COMPRESS_DEC_HDR] is the build option. *)
Class Compr : Type := {
  SND_AUDIOCODEC_MP3 : Z; SND_AUDIOCODEC_AAC : Z; SND_AUDIOCODEC_FLAC : Z; SND_AUDIOCODEC_ALAC : Z;
  SND_AUDIOCODEC_APE : Z; SND_AUDIOCODEC_WMA : Z; SND_AUDIOCODEC_WMA_PRO : Z; SND_AUDIOCODEC_VORBIS : Z;
  SND_AUDIOSTREAMFORMAT_MP4LATM : Z; SND_AUDIOSTREAMFORMAT_ADIF : Z; SND_AUDIOSTREAMFORMAT_MP4ADTS : Z;
  SND_COMPRESS_PLAYBACK : Z;
  SND_COMPRESS_DEC_HDR : bool;
  addr_agm_compress_event_cb : Z; addr_plugin : Z
}.

(** [struct snd_compr_caps] *)
Record compr_caps : Type := ComprCaps {
  cc_num_codecs : Z; cc_direction : Z;
  cc_min_fragment_size : Z; cc_max_fragment_size : Z; cc_min_fragments : Z; cc_max_fragments : Z;
  cc_codecs : list Z
}.
Definition caps_zero : compr_caps := ComprCaps 0 0 0 0 0 0 [].

(** [struct snd_compr_params]; [cm_options] reads a member of the union
    [snd_codec_options] by its name. *)
Record compr_params : Type := ComprParams {
  cm_fragment_size : Z; cm_fragments : Z;
  cm_id : Z; cm_ch_in : Z; cm_ch_out : Z; cm_sample_rate : Z; cm_format : Z;
  cm_options : string -> Z
}.

(** [struct snd_compr_tstamp], as far as it is written. *)
Record compr_tstamp : Type := ComprTstamp {
  ts_copied_total : Z; ts_pcm_io_frames : Z; ts_sampling_rate : Z
}.

Record compr_signals : Type := ComprSignals { sg_drain : nat; sg_eos : nat; sg_poll : nat }.

(** [struct agm_compress_priv] *)
Record compr_priv : Type := ComprPriv {
  cp_media : media_config;
  cp_buffer : buffer_config;
  cp_session : session_config;
  cp_caps : compr_caps;
  cp_handle : Z;
  cp_prepared : bool;
  cp_bytes_copied : Z;
  cp_total : Z;
  cp_avail : Z;
  cp_bytes_received : Z;
  cp_bytes_read : Z;
  cp_start_drain : bool;
  cp_eos : bool;
  cp_card_node : option nat;
  cp_session_id : Z;
  cp_signals : compr_signals
}.
Definition set_cp_config (m : media_config) (b : buffer_config) (c : session_config) (total avail : Z)
    (r : compr_priv) : compr_priv :=
  ComprPriv m b c (cp_caps r) (cp_handle r) (cp_prepared r) (cp_bytes_copied r) total avail (cp_bytes_received r) (cp_bytes_read r) (cp_start_drain r) (cp_eos r) (cp_card_node r) (cp_session_id r) (cp_signals r).
Definition set_cp_prepared (v : bool) (r : compr_priv) : compr_priv :=
  ComprPriv (cp_media r) (cp_buffer r) (cp_session r) (cp_caps r) (cp_handle r) v (cp_bytes_copied r) (cp_total r) (cp_avail r) (cp_bytes_received r) (cp_bytes_read r) (cp_start_drain r) (cp_eos r) (cp_card_node r) (cp_session_id r) (cp_signals r).
Definition set_cp_bytes_copied (v : Z) (r : compr_priv) : compr_priv :=
  ComprPriv (cp_media r) (cp_buffer r) (cp_session r) (cp_caps r) (cp_handle r) (cp_prepared r) v (cp_total r) (cp_avail r) (cp_bytes_received r) (cp_bytes_read r) (cp_start_drain r) (cp_eos r) (cp_card_node r) (cp_session_id r) (cp_signals r).
Definition set_cp_avail (v : Z) (r : compr_priv) : compr_priv :=
  ComprPriv (cp_media r) (cp_buffer r) (cp_session r) (cp_caps r) (cp_handle r) (cp_prepared r) (cp_bytes_copied r) (cp_total r) v (cp_bytes_received r) (cp_bytes_read r) (cp_start_drain r) (cp_eos r) (cp_card_node r) (cp_session_id r) (cp_signals r).
Definition set_cp_bytes_received (v : Z) (r : compr_priv) : compr_priv :=
  ComprPriv (cp_media r) (cp_buffer r) (cp_session r) (cp_caps r) (cp_handle r) (cp_prepared r) (cp_bytes_copied r) (cp_total r) (cp_avail r) v (cp_bytes_read r) (cp_start_drain r) (cp_eos r) (cp_card_node r) (cp_session_id r) (cp_signals r).
Definition set_cp_bytes_read (v : Z) (r : compr_priv) : compr_priv :=
  ComprPriv (cp_media r) (cp_buffer r) (cp_session r) (cp_caps r) (cp_handle r) (cp_prepared r) (cp_bytes_copied r) (cp_total r) (cp_avail r) (cp_bytes_received r) v (cp_start_drain r) (cp_eos r) (cp_card_node r) (cp_session_id r) (cp_signals r).
Definition set_cp_eos (v : bool) (r : compr_priv) : compr_priv :=
  ComprPriv (cp_media r) (cp_buffer r) (cp_session r) (cp_caps r) (cp_handle r) (cp_prepared r) (cp_bytes_copied r) (cp_total r) (cp_avail r) (cp_bytes_received r) (cp_bytes_read r) (cp_start_drain r) v (cp_card_node r) (cp_session_id r) (cp_signals r).
Definition set_cp_signals (v : compr_signals) (r : compr_priv) : compr_priv :=
  ComprPriv (cp_media r) (cp_buffer r) (cp_session r) (cp_caps r) (cp_handle r) (cp_prepared r) (cp_bytes_copied r) (cp_total r) (cp_avail r) (cp_bytes_received r) (cp_bytes_read r) (cp_start_drain r) (cp_eos r) (cp_card_node r) (cp_session_id r) v.

Definition signal_drain (r : compr_priv) : compr_priv :=
  let s := cp_signals r in set_cp_signals (ComprSignals (S (sg_drain s)) (sg_eos s) (sg_poll s)) r.
Definition signal_eos (r : compr_priv) : compr_priv :=
  let s := cp_signals r in set_cp_signals (ComprSignals (sg_drain s) (S (sg_eos s)) (sg_poll s)) r.
Definition signal_poll (r : compr_priv) : compr_priv :=
  let s := cp_signals r in set_cp_signals (ComprSignals (sg_drain s) (sg_eos s) (S (sg_poll s))) r.

(** [struct compress_plugin] with its private data. *)
Record compress_plugin : Type := ComprPlugin {
  cl_card : Z;
  cl_node : snd_node;
  cl_priv : compr_priv
}.
Definition upd_cl_priv (f : compr_priv -> compr_priv) (r : compress_plugin) : compress_plugin :=
  ComprPlugin (cl_card r) (cl_node r) (f (cl_priv r)).

Abbreviation COMPR := (M (host compress_plugin)).

(** ** The codec union *)

(** A little-endian word of [n] bytes at an offset of the union. *)
Fixpoint put_word (n off : nat) (v : Z) (l : list Z) : list Z :=
  match n with
  | O => l
  | S n => put_word n (S off) (v / 256) (<[off := v mod 256]> l)
  end.

Fixpoint get_word (n off : nat) (l : list Z) : Z :=
  match n with
  | O => 0
  | S n => nth off l 0 + 256 * get_word n (S off) l
  end.

(** A field of the union: width, offset, value. *)
Definition codec_field : Type := nat * nat * Z.

Definition put_fields (fs : list codec_field) (l : list Z) : list Z :=
  fold_left (fun l f => put_word (fst (fst f)) (snd (fst f)) (snd f) l) fs l.

Section ComprPlugin.
Context `{Env, Alsa, SndEnv, PlugEnv, Compr}.

Definition upd_priv (f : compr_priv -> compr_priv) : COMPR unit := upd_inst (upd_cl_priv f).

Definition with_compr {A} (fail : Z -> A) (body : compr_priv -> Z -> COMPR A) : COMPR A :=
  let! p := the_inst in
  let handle := cp_handle (cl_priv p) in
  if handle =? 0 then ret (fail (- EINVAL)) else body (cl_priv p) handle.

(** ** Events *)

(** When an EOS waits: wake it. *)
Definition wake_eos (r : compr_priv) : compr_priv :=
  if cp_eos r then set_cp_eos false (signal_eos r) else r.

(** [bytes_avail > total_buf_size] compares as [uint64_t]. *)
Definition compress_event (ev : event_params) (priv : compr_priv) : compr_priv :=
  let size := bc_size (cp_buffer priv) in
  if ev_event_id ev =? AGM_EVENT_WRITE_DONE then
    let priv := set_cp_avail (s64 (cp_avail priv + size)) priv in
    if cp_total priv <? u64 (cp_avail priv) then priv
    else signal_poll
           (if cp_start_drain priv && (u64 (cp_avail priv) =? cp_total priv)
            then signal_drain priv else priv)
  else if ev_event_id ev =? AGM_EVENT_READ_DONE then
    signal_poll
      (set_cp_bytes_received (u64 (cp_bytes_received priv + size))
         (set_cp_avail (s64 (cp_avail priv + size)) priv))
  else if ev_event_id ev =? AGM_EVENT_EOS_RENDERED then signal_poll (wake_eos priv)
  else signal_poll priv.

(** The client data is the plug-in; the parameters may be NULL. *)
Definition agm_compress_event_cb (event_params : option event_params) : COMPR unit :=
  let! _ := the_inst in
  match event_params with
  | None => ret tt
  | Some ev => upd_priv (compress_event ev)
  end.

(** ** Data *)

(** The number of fragments that hold [size] bytes; [None] is the division
    by zero of a plug-in that was not configured. *)
Definition fragments (size fragment : Z) : option Z :=
  if fragment =? 0 then None
  else Some (size / fragment + (if size mod fragment =? 0 then 0 else 1)).

Definition agm_compress_write (buff : list Z) : COMPR Z :=
  with_compr id (fun priv handle =>
    let count := Z.of_nat (length buff) in
    if cp_total priv <? count then ret (- EINVAL) else
    let! r := (if cp_prepared priv then ret 0
               else let! r := lift_agm (agm_session_prepare handle) in
                    if nz r then ret r else do! upd_priv (set_cp_prepared true) ; ret 0) in
    if nz r then ret r else
    let! (r, size) := lift_agm (agm_session_write handle buff) in
    if nz r then ret r else
    let! p := the_inst in
    let priv := cl_priv p in
    let fragment := bc_size (cp_buffer priv) in
    let! buf_cnt := the DivByZero (fragments size fragment) in
    let avail := s64 (cp_avail priv - buf_cnt * fragment) in
    do! upd_priv (set_cp_avail avail) ;
    if avail <? 0 then ret (- EINVAL) else
    do! upd_priv (set_cp_bytes_copied (u64 (cp_bytes_copied priv + size))) ;
    ret (s32 size)).

(** [count > bytes_avail] compares as [size_t]; [buf_cnt] is an [int]. *)
Definition agm_compress_read (count : Z) : COMPR Z :=
  with_compr id (fun priv handle =>
    if u64 (cp_avail priv) <? count then ret (- EINVAL) else
    let! (r, count, _) := lift_agm (agm_session_read handle count) in
    if r <? 0 then ret r else
    let! p := the_inst in
    let priv := cl_priv p in
    let fragment := bc_size (cp_buffer priv) in
    let! buf_cnt := the DivByZero (fragments count fragment) in
    do! upd_priv (fun priv =>
          set_cp_bytes_read (u64 (cp_bytes_read priv + count))
            (set_cp_avail (s64 (cp_avail priv - s32 buf_cnt * fragment)) priv)) ;
    ret 0).

(** The frames played, from microseconds and the sample rate. *)
Definition io_frames (timestamp rate : Z) : Z := u32 (u64 (timestamp * rate) / 1000000).

(** What is stored through the pointer comes with the status. *)
Definition agm_compress_tstamp (tstamp : compr_tstamp) : COMPR (Z * compr_tstamp) :=
  with_compr (fun r => (r, tstamp)) (fun priv handle =>
    let rate := mc_rate (cp_media priv) in
    let tstamp := ComprTstamp (u32 (cp_bytes_copied priv)) (ts_pcm_io_frames tstamp) rate in
    let! (r, timestamp) := lift_agm (agm_get_session_time handle true) in
    if nz r then ret (r, tstamp) else
    let timestamp := match timestamp with Some t => t | None => 0 end in
    ret (0, ComprTstamp (ts_copied_total tstamp) (io_frames timestamp rate) rate)).

(** The new [avail->avail], [None] when it is not written. *)
Definition agm_compress_avail (tstamp : compr_tstamp) : COMPR (Z * (option Z * compr_tstamp)) :=
  with_compr (fun r => (r, (None, tstamp))) (fun _ _ =>
    let! (_, tstamp) := agm_compress_tstamp tstamp in
    let! p := the_inst in
    ret (0, (Some (u64 (cp_avail (cl_priv p))), tstamp))).

(** [caps] tells whether the pointer is not NULL. *)
Definition agm_compress_get_caps (caps : bool) : COMPR (Z * option compr_caps) :=
  with_compr (fun r => (r, None)) (fun priv _ =>
    ret (if caps then (0, Some (cp_caps priv)) else (- EINVAL, None))).

(** ** Parameters *)

Definition aac_fmt_flag (format : Z) : Z :=
  if format =? SND_AUDIOSTREAMFORMAT_MP4LATM then 4
  else if format =? SND_AUDIOSTREAMFORMAT_ADIF then 2
  else if format =? SND_AUDIOSTREAMFORMAT_MP4ADTS then 0
  else 3.

(** Fields that only a build with [SND_COMPRESS_DEC_HDR] sets. *)
Definition dec_hdr (fs : list codec_field) : list codec_field :=
  if SND_COMPRESS_DEC_HDR then fs else [].

(** The format of a codec and the fields of the union it sets; offsets are
    those of the structures of agm_api.h.  [None]: the format is left alone. *)
Definition codec_fields (params : compr_params) : option Z * list codec_field :=
  let o := cm_options params in
  let ch_in := cm_ch_in params in
  let rate := cm_sample_rate params in
  let id := cm_id params in
  if id =? SND_AUDIOCODEC_MP3 then (Some AGM_FORMAT_MP3, [])
  else if id =? SND_AUDIOCODEC_AAC then
    (Some AGM_FORMAT_AAC,
     [(2, 0, aac_fmt_flag (cm_format params)); (2, 4, ch_in); (4, 8, rate)]%nat ++
     dec_hdr [(2, 2, o "aac_dec.audio_obj_type"); (2, 6, o "aac_dec.pce_bits_size")]%nat)
  else if id =? SND_AUDIOCODEC_FLAC then
    (Some AGM_FORMAT_FLAC,
     [(2, 0, ch_in); (4, 8, rate)]%nat ++
     dec_hdr [(2, 2, o "flac_dec.sample_size"); (2, 4, o "flac_dec.min_blk_size");
              (2, 6, o "flac_dec.max_blk_size"); (4, 12, o "flac_dec.min_frame_size");
              (4, 16, o "flac_dec.max_frame_size")]%nat)
  else if id =? SND_AUDIOCODEC_ALAC then
    (Some AGM_FORMAT_ALAC,
     [(1, 9, ch_in); (4, 20, rate)]%nat ++
     dec_hdr [(4, 0, o "alac_dec.frame_length"); (1, 4, o "alac_dec.compatible_version");
              (1, 5, o "alac_dec.bit_depth"); (1, 6, o "alac_dec.pb"); (1, 7, o "alac_dec.mb");
              (1, 8, o "alac_dec.kb"); (2, 10, o "alac_dec.max_run");
              (4, 12, o "alac_dec.max_frame_bytes"); (4, 16, o "alac_dec.avg_bit_rate");
              (4, 24, o "alac_dec.channel_layout_tag")]%nat)
  else if id =? SND_AUDIOCODEC_APE then
    (Some AGM_FORMAT_APE,
     [(2, 22, ch_in); (4, 24, rate)]%nat ++
     dec_hdr [(2, 20, o "ape_dec.bits_per_sample"); (2, 0, o "ape_dec.compatible_version");
              (2, 2, o "ape_dec.compression_level"); (4, 4, o "ape_dec.format_flags");
              (4, 8, o "ape_dec.blocks_per_frame"); (4, 12, o "ape_dec.final_frame_blocks");
              (4, 16, o "ape_dec.total_frames"); (4, 28, o "ape_dec.seek_table_present")]%nat)
  else if id =? SND_AUDIOCODEC_WMA then
    (Some AGM_FORMAT_WMASTD,
     [(2, 0, cm_format params); (2, 2, ch_in); (4, 4, rate)]%nat ++
     dec_hdr [(4, 8, (o "wma_dec.avg_bit_rate" / 8)%Z); (2, 12, o "wma_dec.super_block_align");
              (2, 14, o "wma_dec.bits_per_sample"); (4, 16, o "wma_dec.channelmask");
              (2, 20, o "wma_dec.encodeopt")]%nat)
  else if id =? SND_AUDIOCODEC_WMA_PRO then
    (Some AGM_FORMAT_WMAPRO,
     [(2, 0, cm_format params); (2, 2, ch_in); (4, 4, rate)]%nat ++
     dec_hdr [(4, 8, (o "wma_dec.avg_bit_rate" / 8)%Z); (2, 12, o "wma_dec.super_block_align");
              (2, 14, o "wma_dec.bits_per_sample"); (4, 16, o "wma_dec.channelmask");
              (2, 20, o "wma_dec.encodeopt"); (2, 22, o "wma_dec.encodeopt1");
              (4, 24, o "wma_dec.encodeopt2")]%nat)
  else if id =? SND_AUDIOCODEC_VORBIS then (Some AGM_FORMAT_VORBIS, [])
  else (None, []).

Definition agm_session_update_codec_config (params : compr_params) (media : media_config)
    (session : session_config) : media_config * session_config :=
  let '(format, fields) := codec_fields params in
  (MediaConfig (cm_sample_rate params) (cm_ch_out params)
     (match format with Some f => f | None => mc_format media end) (mc_data_format media),
   SessionConfig (sc_dir session) (sc_is_hostless session) (sc_start_threshold session)
     (sc_stop_threshold session) (put_fields fields (sc_codec session)) (sc_data_mode session)).

Definition agm_compress_set_params (params : compr_params) : COMPR Z :=
  with_compr id (fun priv handle =>
    let buffer := BufferConfig (cm_fragments params) (cm_fragment_size params) in
    let total := u64 (bc_size buffer * bc_count buffer) in
    let sc := cp_session priv in
    let avail := if sc_dir sc =? RX then s64 total else 0 in
    let session := SessionConfig (sc_dir sc) (sc_is_hostless sc) 0 0 (sc_codec sc) AGM_DATA_NON_BLOCKING in
    let '(media, session) := agm_session_update_codec_config params (cp_media priv) session in
    do! upd_priv (set_cp_config media buffer session total avail) ;
    lift_agm (agm_session_set_config handle session media buffer)).

(** ** Session control *)

Definition agm_compress_start : COMPR Z :=
  with_compr id (fun _ handle => lift_agm (agm_session_start handle)).

Definition agm_compress_stop : COMPR Z :=
  with_compr id (fun _ handle =>
    do! upd_priv (fun priv => signal_poll (wake_eos priv)) ;
    let! r := lift_agm (agm_session_stop handle) in
    if nz r then ret r else
    do! upd_priv (fun priv => set_cp_bytes_copied 0 (set_cp_avail (s64 (cp_total priv)) priv)) ;
    ret r).

Definition agm_compress_pause : COMPR Z :=
  with_compr id (fun _ handle => lift_agm (agm_session_pause handle)).
Definition agm_compress_resume : COMPR Z :=
  with_compr id (fun _ handle => lift_agm (agm_session_resume handle)).

(** The events other threads deliver while a wait lasts. *)
Fixpoint events_during (evs : list event_params) : COMPR unit :=
  match evs with
  | [] => ret tt
  | ev :: evs => do! agm_compress_event_cb (Some ev) ; events_during evs
  end.

Definition agm_compress_partial_drain : COMPR Z := with_compr id (fun _ _ => ret 0).
Definition agm_compress_next_track : COMPR Z := with_compr id (fun _ _ => ret 0).

(** [timed_out]: the timed wait ended with ETIMEDOUT, which an infinite wait
    never does.  [revents] is or-ed with the flag, when it is set. *)
Definition agm_compress_poll (timeout : Z) (timed_out : bool) (during : list event_params)
  : COMPR (Z * option Z) :=
  with_compr (fun r => (r, None)) (fun _ _ =>
    let! _ := next_tick in
    do! events_during during ;
    ret (if timed_out && (0 <=? timeout) then (0, None) else (POLLOUT, Some POLLOUT))).

(** Everything of the close up to the [free] at its end, and whether that is
    reached.  The status of the service is only logged. *)
Definition agm_compress_closing : COMPR bool :=
  with_compr (fun _ => false) (fun priv handle =>
    let! _ := lift_agm (agm_session_register_cb (cp_session_id priv) 0 AGM_EVENT_DATA_PATH addr_plugin) in
    let! _ := lift_agm (agm_session_close handle) in
    do! lift_snd (snd_card_def_put_card (cp_card_node priv)) ;
    do! upd_priv (fun priv => signal_poll (wake_eos priv)) ;
    ret true).

Definition agm_compress_close : COMPR unit :=
  let! closed := agm_compress_closing in
  if closed then modify (set_h_inst None) else ret tt.

(** *** Draining *)

(** What other threads do to the stream while a drain waits: the callback of the
    service, a stop, a close that has not freed the plug-in yet, and one that has. *)
Inductive meanwhile : Type :=
  | Delivered (ev : event_params)
  | Stopped
  | Closing
  | Closed.

Definition other_thread (m : meanwhile) : COMPR unit :=
  match m with
  | Delivered ev => agm_compress_event_cb (Some ev)
  | Stopped => let! _ := agm_compress_stop in ret tt
  | Closing => let! _ := agm_compress_closing in ret tt
  | Closed => agm_compress_close
  end.

(** [pthread_cond_wait] on [eos_cond]: the wait ends with the first signal after
    the [seen] ones before it, and when nobody signals it never does.  Waking
    up, it takes [eos_lock] back, which the plug-in holds. *)
Fixpoint wait_eos (seen : nat) (during : list meanwhile) : COMPR unit :=
  let! p := the_inst in
  if (seen <? sg_eos (cp_signals (cl_priv p)))%nat then ret tt
  else match during with
       | [] => crash_with Diverges
       | m :: during => do! other_thread m ; wait_eos seen during
       end.

(** The drain up to its wait. *)
Definition agm_compress_drain_request : COMPR Z :=
  with_compr id (fun _ handle =>
    do! upd_priv (set_cp_eos true) ;
    lift_agm (agm_session_eos handle)).

Definition agm_compress_drain (during : list meanwhile) : COMPR Z :=
  let! r := agm_compress_drain_request in
  if nz r then ret r else
  let! p := the_inst in
  do! wait_eos (sg_eos (cp_signals (cl_priv p))) during ;
  ret 0.

(** ** Opening *)

Definition agm_populate_codec_caps : compr_caps :=
  ComprCaps 7 SND_COMPRESS_PLAYBACK (8 * 1024) (128 * 1024) 4 16
    [SND_AUDIOCODEC_MP3; SND_AUDIOCODEC_AAC; SND_AUDIOCODEC_WMA; SND_AUDIOCODEC_FLAC;
     SND_AUDIOCODEC_VORBIS; SND_AUDIOCODEC_ALAC; SND_AUDIOCODEC_APE].

(** A required property of the device. *)
Definition node_int (node : snd_node) (prop : string) (fail : Z -> COMPR Z) (k : Z -> COMPR Z) : COMPR Z :=
  let! (r, v) := lift_snd (snd_card_def_get_int (Some node) prop) in
  if nz r then fail r else k (match v with Some v => v | None => 0 end).

Definition negated_status (r : Z) : Z := if r <? 0 then r else - r.

Definition agm_compress_plugin_open (card device flags : Z) : COMPR Z :=
  let! ok1 := plug_calloc in
  if negb ok1 then ret (- ENOMEM) else
  let! ok2 := plug_calloc in
  if negb ok2 then ret (- ENOMEM) else
  let! card_node := lift_snd (snd_card_def_get_card card) in
  match card_node with
  | None => ret (- EINVAL)
  | Some i =>
      let err_card_put r := do! lift_snd (snd_card_def_put_card (Some i)) ; ret (negated_status r) in
      let! compr_node := lift_snd (snd_card_def_get_node (Some i) device
                                     (node_type_num SND_NODE_TYPE_COMPR)) in
      match compr_node with
      | None => err_card_put (- EINVAL)
      | Some node =>
          node_int node "playback" err_card_put (fun is_playback =>
          node_int node "capture" err_card_put (fun is_capture =>
          node_int node "hostless" err_card_put (fun is_hostless =>
          let dir := if nz (Z.land flags COMPRESS_IN) then RX else TX in
          let session := SessionConfig dir (nz is_hostless) 0 0 (sc_codec session_config_zero) 0 in
          if (dir =? RX) && (is_playback =? 0) then err_card_put 0 else
          if (dir =? TX) && (is_capture =? 0) then err_card_put 0 else
          let! (r, handle) := lift_agm (agm_session_open device true) in
          if nz r then err_card_put r else
          let! handle := the NullDeref handle in
          let! r := lift_agm (agm_session_register_cb device addr_agm_compress_event_cb
                                AGM_EVENT_DATA_PATH addr_plugin) in
          if nz r then do! lift_agm (agm_session_close handle) ; err_card_put r else
          do! modify (set_h_inst (Some (ComprPlugin card node
                (ComprPriv media_zero buffer_zero session agm_populate_codec_caps handle false 0 0 0 0 0
                   false false (Some i) device (ComprSignals 0 0 0))))) ;
          ret 0)))
      end
  end.
End ComprPlugin.
