(* ===== verification/ComprProps.v ===== *)
(** * The compress plug-in: accounting, codec configuration, waiting, opening

    [compr_step] is one call or event of a playback stream with the number of
    fragments the DSP holds; the bytes the plug-in reports as available are exactly
    the fragments it does not hold, over any sequence of steps ([compr_accounting]). *)

From S2P Require Export ComprPlugin.
Open Scope Z_scope.
#[export] Set Default Goal Selector "!".

(** ** The codec union *)

Lemma put_word_length n off v l : length (put_word n off v l) = length l.
Proof. revert off v l. induction n as [|n IH]; intros; cbn [put_word]; [done|]. by rewrite IH, length_insert. Qed.

Lemma put_word_outside n off v l i :
  (i < off \/ off + n <= i)%nat -> put_word n off v l !! i = l !! i.
Proof.
  revert off v l. induction n as [|n IH]; intros off v l Hi; cbn [put_word]; [done|].
  rewrite IH by lia. apply list_lookup_insert_ne. lia.
Qed.

Lemma get_word_ext n off l l' :
  (forall i, (off <= i < off + n)%nat -> l !! i = l' !! i) -> get_word n off l = get_word n off l'.
Proof.
  revert off. induction n as [|n IH]; intros off Hl; cbn [get_word]; [done|].
  rewrite !nth_lookup, Hl by lia. f_equal. f_equal. apply IH. intros i Hi. apply Hl. lia.
Qed.

Lemma get_put_word n off v l :
  (off + n <= length l)%nat -> get_word n off (put_word n off v l) = v mod 256 ^ Z.of_nat n.
Proof.
  revert off v l. induction n as [|n IH]; intros off v l Hlen; [by rewrite Z.mod_1_r|].
  cbn [put_word get_word]. rewrite IH by (rewrite length_insert; lia).
  rewrite nth_lookup, put_word_outside, list_lookup_insert_eq by lia. cbn [default].
  rewrite Nat2Z.inj_succ, Z.pow_succ_r by lia. rewrite Z.rem_mul_r by (try apply Z.pow_pos_nonneg; lia).
  done.
Qed.

(** Fields that do not overlap, inside a union of [size] bytes. *)
Definition field_disjoint (f g : codec_field) : bool :=
  let '(n, off, _) := f in let '(m, off', _) := g in
  (off + n <=? off')%nat || (off' + m <=? off)%nat.

Fixpoint fields_ok (size : nat) (fs : list codec_field) : bool :=
  match fs with
  | [] => true
  | f :: fs => (snd (fst f) + fst (fst f) <=? size)%nat && forallb (field_disjoint f) fs && fields_ok size fs
  end.

Definition get_field (f : codec_field) (l : list Z) : Z := get_word (fst (fst f)) (snd (fst f)) l.

Lemma get_field_other f fs l :
  forallb (field_disjoint f) fs = true -> get_field f (put_fields fs l) = get_field f l.
Proof.
  revert l. induction fs as [|g fs IH]; intros l Hd; [done|].
  cbn [forallb] in Hd. apply andb_true_iff in Hd as [Hg Hd]. cbn [put_fields fold_left].
  etransitivity; [exact (IH _ Hd)|]. destruct f as [[n off] v], g as [[m off'] v']. unfold get_field. cbn in *.
  apply get_word_ext. intros i Hi. apply put_word_outside.
  apply orb_true_iff in Hg as [E|E]; apply Nat.leb_le in E; lia.
Qed.

Lemma get_put_fields size fs l f :
  length l = size -> fields_ok size fs = true -> f ∈ fs ->
  get_field f (put_fields fs l) = snd f mod 256 ^ Z.of_nat (fst (fst f)).
Proof.
  revert l. induction fs as [|g fs IH]; intros l Hl Hok Hf; [by apply not_elem_of_nil in Hf|].
  cbn [fields_ok] in Hok. apply andb_true_iff in Hok as [Hok Hfs]. apply andb_true_iff in Hok as [Hlen Hd].
  change (put_fields (g :: fs) l) with
    (put_fields fs (put_word (fst (fst g)) (snd (fst g)) (snd g) l)).
  apply elem_of_cons in Hf as [->|Hf].
  - rewrite get_field_other by done. apply get_put_word. apply Nat.leb_le in Hlen. lia.
  - apply IH; [by rewrite put_word_length|done|done].
Qed.

Lemma put_fields_outside fs l i :
  Forall (fun f => (i < snd (fst f) \/ snd (fst f) + fst (fst f) <= i)%nat) fs ->
  put_fields fs l !! i = l !! i.
Proof.
  revert l. induction fs as [|g fs IH]; intros l Hf; [done|]. apply Forall_cons in Hf as [Hg Hfs].
  etransitivity; [exact (IH _ Hfs)|]. by apply put_word_outside.
Qed.

Section ComprProps.
Context `{Env, Alsa, SndEnv, PlugEnv, Compr}.

(** The codec configuration.  For every codec id and both builds, each
    field the plug-in sets in the codec union reads back as the value the client
    gave, cut to the width of the field; no field overwrites another one and the
    bytes of the union outside the fields stay as they were. *)
Theorem compr_codec_fields params media session :
  length (sc_codec session) = 32%nat ->
  let '(media', session') := agm_session_update_codec_config params media session in
  let fs := snd (codec_fields params) in
  (forall f, f ∈ fs -> get_field f (sc_codec session') = snd f mod 256 ^ Z.of_nat (fst (fst f))) /\
  (forall i, Forall (fun f => (i < snd (fst f) \/ snd (fst f) + fst (fst f) <= i)%nat) fs ->
     sc_codec session' !! i = sc_codec session !! i) /\
  mc_rate media' = cm_sample_rate params /\ mc_channels media' = cm_ch_out params /\
  mc_format media' = match fst (codec_fields params) with Some f => f | None => mc_format media end /\
  session' = SessionConfig (sc_dir session) (sc_is_hostless session) (sc_start_threshold session)
    (sc_stop_threshold session) (sc_codec session') (sc_data_mode session).
Proof.
  intros Hlen. assert (Hok : fields_ok 32 (snd (codec_fields params)) = true).
  { unfold codec_fields, dec_hdr. cbv zeta.
    repeat match goal with |- context [(if ?b then _ else _)] => destruct b end; reflexivity. }
  unfold agm_session_update_codec_config. destruct (codec_fields params) as [fmt fs]. cbn [fst snd] in *.
  cbn [sc_codec mc_rate mc_channels mc_format]. repeat split.
  - intros f Hf. by apply (get_put_fields 32).
  - intros i Hi. by apply put_fields_outside.
Qed.

(** ** Accounting *)

(** GSL never takes more bytes than it is given. *)
Definition gsl_consumes : Prop :=
  forall tr handle tag data,
    0 <= snd (env_answer tr (GslWrite handle tag data)) <= Z.of_nat (length data).

Lemma agm_session_write_size handle buff w r size w' :
  gsl_consumes -> agm_session_write handle buff w = Ret (r, size) w' ->
  0 <= size <= Z.of_nat (length buff).
Proof.
  intros Hg. apply (wlp_run _ (fun p _ => 0 <= snd p <= Z.of_nat (length buff)) w (r, size) w').
  unfold agm_session_write, with_handle. destruct (handle =? 0); [apply wpg_ret; cbn; lia|].
  unfold session_obj_write. apply wpg_bind, wlp_any. intros s w1.
  destruct (bool_decide _); [apply wpg_ret; cbn; lia|].
  apply wpg_bind, wlp_any. intros s' w2. unfold graph_write. cbv zeta.
  destruct (ses_graph s') as [g|]; [|apply wpg_ret; cbn; lia].
  apply wpg_bind, wlp_any. intros go w3. apply wpg_bind. unfold gsl_write.
  apply wpg_bind, wpg_ext. intros [r' n] E.
  pose proof (Hg (w_trace w3) (gr_handle go) SHMEM_ENDPOINT buff) as Hn.
  rewrite <- E in Hn. cbn in Hn. apply wpg_ret. destruct (nz (s32 r')); apply wpg_ret; cbn; lia.
Qed.

(** What the service does with a write: [Some size] when it prepared the
    session, if needed, and took [size] bytes. *)
Definition service_write (prepared : bool) (handle : Z) (buff : list Z) (w : world) : option Z :=
  match (if prepared then Ret 0 w else agm_session_prepare handle w) with
  | Ret r w1 =>
      if nz r then None else
      match agm_session_write handle buff w1 with
      | Ret (r, size) _ => if nz r then None else Some size
      | Crash _ => None
      end
  | Crash _ => None
  end.

(** Fragments that hold [size] bytes. *)
Definition frags (size fragment : Z) : Z :=
  size / fragment + (if size mod fragment =? 0 then 0 else 1).

Lemma frags_bound size fragment room :
  0 < fragment -> 0 <= size <= fragment * room -> 0 <= frags size fragment <= room.
Proof.
  intros Hf Hs. unfold frags. pose proof (Z.div_mod size fragment ltac:(lia)).
  pose proof (Z.mod_pos_bound size fragment Hf). destruct (Z.eqb_spec (size mod fragment) 0); nia.
Qed.

(** The stream with fragments of [frag] bytes, [n] in all, of which the DSP
    holds [out]. *)
Record accounts (frag n : Z) (priv : compr_priv) (out : Z) : Prop := Accounts {
  ac_frag : bc_size (cp_buffer priv) = frag;
  ac_total : cp_total priv = frag * n;
  ac_avail : cp_avail priv = frag * (n - out);
  ac_out : 0 <= out <= n
}.

(** The parts of the state the accounting does not read. *)
Lemma accounts_same frag n priv priv' out :
  accounts frag n priv out -> cp_buffer priv' = cp_buffer priv -> cp_total priv' = cp_total priv ->
  cp_avail priv' = cp_avail priv -> accounts frag n priv' out.
Proof. intros [] E1 E2 E3. split; congruence. Qed.

Definition sizes_ok (frag n : Z) : Prop := 0 < frag /\ 0 <= n /\ frag * n < 2 ^ 31.

(** A write that fits: what the plug-in does is decided by the service. *)
Lemma compr_write_run frag n out buff p h r h' :
  gsl_consumes -> sizes_ok frag n -> h_inst h = Some p -> accounts frag n (cl_priv p) out ->
  Z.of_nat (length buff) <= cp_avail (cl_priv p) -> cp_handle (cl_priv p) <> 0 ->
  agm_compress_write buff h = Ret r h' ->
  exists p', h_inst h' = Some p' /\ cp_handle (cl_priv p') = cp_handle (cl_priv p) /\
    match service_write (cp_prepared (cl_priv p)) (cp_handle (cl_priv p)) buff (h_agm h) with
    | Some size => 0 <= size <= Z.of_nat (length buff) /\ r = size /\
                   accounts frag n (cl_priv p') (out + frags size frag)
    | None => r <> 0 /\ accounts frag n (cl_priv p') out
    end.
Proof.
  intros Hg (Hf & Hn & Hmax) Hp Hac Hfit Hhd. pose proof Hac as [Ef Et Ea Ho].
  unfold agm_compress_write, with_compr, bind at 1, the_inst at 1. rewrite Hp. cbv zeta.
  rewrite (proj2 (Z.eqb_neq _ _) Hhd).
  assert ((cp_total (cl_priv p) <? Z.of_nat (length buff)) = false) as ->.
  { apply Z.ltb_ge. rewrite Et, Ea in *. nia. }
  unfold bind at 1. unfold service_write.
  (* the session is prepared, and the instance only remembers it *)
  assert (Hprep : match (if cp_prepared (cl_priv p) then ret 0
      else (let! r := lift_agm (agm_session_prepare (cp_handle (cl_priv p))) in
            if nz r then ret r else (do! upd_priv (set_cp_prepared true) ; ret 0))) h with
    | Ret r1 h1 => exists p1 w1, h_inst h1 = Some p1 /\ h_agm h1 = w1 /\
        (if cp_prepared (cl_priv p) then Ret 0 (h_agm h)
         else agm_session_prepare (cp_handle (cl_priv p)) (h_agm h)) = Ret r1 w1 /\
        (p1 = p \/ p1 = upd_cl_priv (set_cp_prepared true) p)
    | Crash why => True
    end).
  { destruct (cp_prepared (cl_priv p)) eqn:Epr.
    - exists p, (h_agm h). unfold ret. repeat split; auto.
    - unfold bind at 1, lift_agm. destruct (agm_session_prepare _ _) as [r1 w1|]; [|done].
      destruct (nz r1) eqn:Er1.
      + exists p, w1. repeat split; auto.
      + apply nz_false in Er1. subst r1. unfold bind, upd_priv, upd_inst, bind, the_inst. hsimp. rewrite Hp.
        eexists _, w1. repeat split; auto. }
  destruct ((if cp_prepared (cl_priv p) then ret 0 else _) h) as [r1 h1|]; [|done].
  destruct Hprep as (p1 & w1 & Hp1 & <- & -> & Hcase).
  assert (Hsame : cp_handle (cl_priv p1) = cp_handle (cl_priv p) /\ accounts frag n (cl_priv p1) out).
  { destruct Hcase as [->| ->]; [done|]. split; [done|]. by eapply accounts_same. }
  destruct Hsame as [Hh1 Hac1]. destruct (nz r1) eqn:Er1.
  { apply nz_true in Er1. intros [= <- <-]. exists p1. done. }
  unfold bind at 1, lift_agm at 1.
  destruct (agm_session_write (cp_handle (cl_priv p)) buff (h_agm h1)) as [[r2 size] w2|] eqn:Ew; [|done].
  pose proof (agm_session_write_size _ _ _ _ _ _ Hg Ew) as Hsize.
  destruct (nz r2) eqn:Er2.
  { apply nz_true in Er2. intros [= <- <-]. exists p1. done. }
  pose proof Hac1 as [Ef1 Et1 Ea1 _]. unfold bind at 1, the_inst at 1. hsimp. rewrite Hp1. cbv zeta.
  rewrite Ef1. unfold fragments. rewrite (proj2 (Z.eqb_neq frag 0)) by lia. cbn [the].
  change (size / frag + (if size mod frag =? 0 then 0 else 1)) with (frags size frag).
  assert (Hroom : size <= frag * (n - out)) by (rewrite <- Ea; lia).
  destruct (frags_bound size frag (n - out) Hf ltac:(lia)) as [F0 F1].
  unfold bind at 1, ret at 1. rewrite Ea1.
  assert (0 <= frag * (n - out) - frags size frag * frag <= frag * n) by nia.
  rewrite s64_small by lia. unfold bind at 1, upd_priv at 1, upd_inst at 1, bind at 1, the_inst at 1. hsimp.
  rewrite Hp1. cbn [modify]. rewrite (proj2 (Z.ltb_ge _ _)) by lia.
  unfold bind, upd_priv, upd_inst, bind, the_inst, modify, ret. hsimp. intros [= <- <-].
  eexists. split; [reflexivity|]. split; [exact Hh1|]. split; [done|].
  split; [apply s32_small; lia|]. split; cbn; [done|done|lia|lia].
Qed.
(** What the accounting looks at. *)
Definition acc_view (h : host compress_plugin) : option (buffer_config * Z * Z * Z) :=
  (fun p => (cp_buffer (cl_priv p), cp_total (cl_priv p), cp_avail (cl_priv p), cp_handle (cl_priv p)))
    <$> h_inst h.

Lemma Keeps_upd_priv f :
  (forall q, (cp_buffer (f q), cp_total (f q), cp_avail (f q), cp_handle (f q)) =
             (cp_buffer q, cp_total q, cp_avail q, cp_handle q)) -> Keeps acc_view (upd_priv f).
Proof.
  intros Hf h a h'. unfold upd_priv, upd_inst, bind, the_inst. destruct (h_inst h) as [p|] eqn:E; [|done].
  intros [= _ <-]. unfold acc_view. cbn. rewrite E. cbn. by rewrite Hf.
Qed.

(** Calls that leave the accounting alone.  A call that waits is the part before
    its wait; what other threads do meanwhile are steps of their own. *)
Inductive compr_control : forall A, COMPR A -> Prop :=
  | control_start : compr_control _ agm_compress_start
  | control_pause : compr_control _ agm_compress_pause
  | control_resume : compr_control _ agm_compress_resume
  | control_drain : compr_control _ agm_compress_drain_request
  | control_partial_drain : compr_control _ agm_compress_partial_drain
  | control_next_track : compr_control _ agm_compress_next_track
  | control_poll timeout timed_out : compr_control _ (agm_compress_poll timeout timed_out [])
  | control_tstamp ts : compr_control _ (agm_compress_tstamp ts)
  | control_avail ts : compr_control _ (agm_compress_avail ts)
  | control_caps caps : compr_control _ (agm_compress_get_caps caps).

Lemma keeps_control A (m : COMPR A) : compr_control A m -> Keeps acc_view m.
Proof.
  assert (Ht : forall ts, Keeps acc_view (agm_compress_tstamp ts))
    by (intros; unfold agm_compress_tstamp, with_compr; cbv zeta; keeps_tac).
  assert (He : Keeps acc_view (upd_priv (set_cp_eos true))) by (by apply Keeps_upd_priv).
  intros []; unfold agm_compress_start, agm_compress_pause, agm_compress_resume, agm_compress_drain_request,
    agm_compress_partial_drain, agm_compress_next_track, agm_compress_poll, agm_compress_avail,
    agm_compress_get_caps, with_compr, events_during; try apply Ht; cbv zeta; keeps_tac.
Qed.

(** One step of a playback stream: a call that returns, or an event. *)
Inductive compr_step (frag : Z) : host compress_plugin * Z -> host compress_plugin * Z -> Prop :=
  | cs_write buff p h h' out r :
      h_inst h = Some p -> Z.of_nat (length buff) <= cp_avail (cl_priv p) ->
      agm_compress_write buff h = Ret r h' ->
      compr_step frag (h, out)
        (h', out + match service_write (cp_prepared (cl_priv p)) (cp_handle (cl_priv p)) buff (h_agm h) with
                   | Some size => frags size frag
                   | None => 0
                   end)
  | cs_write_done ev h h' out :
      ev_event_id ev = AGM_EVENT_WRITE_DONE -> 0 < out ->
      agm_compress_event_cb (Some ev) h = Ret tt h' -> compr_step frag (h, out) (h', out - 1)
  | cs_event ev h h' out :
      ev_event_id ev <> AGM_EVENT_WRITE_DONE -> ev_event_id ev <> AGM_EVENT_READ_DONE ->
      agm_compress_event_cb (Some ev) h = Ret tt h' -> compr_step frag (h, out) (h', out)
  | cs_stop h h' out r :
      agm_compress_stop h = Ret r h' -> compr_step frag (h, out) (h', if nz r then out else 0)
  | cs_control {A} (m : COMPR A) a h h' out :
      compr_control A m -> m h = Ret a h' -> compr_step frag (h, out) (h', out).

Definition accounted (frag n : Z) (s : host compress_plugin * Z) : Prop :=
  exists p, h_inst (fst s) = Some p /\ cp_handle (cl_priv p) <> 0 /\ accounts frag n (cl_priv p) (snd s).

Lemma accounted_view frag n h h' out :
  acc_view h' = acc_view h -> accounted frag n (h, out) -> accounted frag n (h', out).
Proof.
  intros E (p & Hp & Hh & [Ef Et Ea Ho]). cbn in *. unfold acc_view in E. rewrite Hp in E.
  destruct (h_inst h') as [p'|] eqn:Hp'; [|done]. cbn in E. injection E as E1 E2 E3 E4.
  exists p'. cbn. split; [done|]. split; [congruence|]. split; congruence.
Qed.

Lemma event_run ev h p :
  h_inst h = Some p ->
  agm_compress_event_cb (Some ev) h =
    Ret tt (set_h_inst (Some (upd_cl_priv (compress_event ev) p)) h).
Proof.
  intros Hp. unfold agm_compress_event_cb, upd_priv, upd_inst, bind, the_inst. rewrite Hp.
  unfold modify. by rewrite Hp.
Qed.

Lemma accounted_step frag n s s' :
  gsl_consumes -> sizes_ok frag n -> compr_step frag s s' -> accounted frag n s -> accounted frag n s'.
Proof.
  intros Hg Hs Hstep (q & Hq & Hhd & Hac). pose proof Hs as (Hf & Hn & Hmax).
  destruct Hstep as [buff p h h' out r Hp Hfit Hrun | ev h h' out Hev Hout Hrun
                    | ev h h' out Hev1 Hev2 Hrun | h h' out r Hrun | A m a h h' out Hm Hrun]; cbn in Hq, Hac.
  - assert (p = q) as -> by congruence. destruct (compr_write_run frag n out buff q h r h' Hg Hs Hq Hac Hfit Hhd Hrun)
      as (p' & Hp' & Hh' & Hcase). exists p'. split; [done|]. split; [by rewrite Hh'|]. cbn.
    destruct (service_write _ _ _ _); [apply Hcase|]. rewrite Z.add_0_r. apply Hcase.
  - rewrite (event_run _ _ _ Hq) in Hrun. injection Hrun as <-. eexists. split; [reflexivity|].
    destruct Hac as [Ef Et Ea Ho]. unfold upd_cl_priv, compress_event. cbn. rewrite Hev. cbn.
    rewrite Ef, Ea, Et. assert (0 <= frag * (n - out) + frag <= frag * n) by nia.
    rewrite s64_small, u64_small by lia. rewrite (proj2 (Z.ltb_ge _ _)) by lia.
    assert (Hac' : forall priv, cp_buffer priv = cp_buffer (cl_priv q) -> cp_total priv = cp_total (cl_priv q) ->
      cp_avail priv = frag * (n - out) + frag -> accounts frag n priv (out - 1)).
    { intros priv E1 E2 E3. split; [congruence|congruence|lia|lia]. }
    destruct (_ && _); split; try done; by apply Hac'.
  - rewrite (event_run _ _ _ Hq) in Hrun. injection Hrun as <-. eexists. split; [reflexivity|].
    apply Z.eqb_neq in Hev1, Hev2. unfold upd_cl_priv, compress_event. cbv zeta. rewrite Hev1, Hev2.
    unfold wake_eos. destruct (ev_event_id ev =? AGM_EVENT_EOS_RENDERED); [destruct (cp_eos (cl_priv q))|];
      (split; [exact Hhd|by eapply accounts_same]).
  - unfold agm_compress_stop, with_compr in Hrun. unfold bind at 1, the_inst at 1 in Hrun.
    rewrite Hq in Hrun. cbv zeta in Hrun. rewrite (proj2 (Z.eqb_neq _ _) Hhd) in Hrun.
    set (f := fun priv => signal_poll (wake_eos priv)) in Hrun.
    assert (Hv : forall priv, accounts frag n priv out -> accounts frag n (f priv) out).
    { intros priv Ha. unfold f, wake_eos. destruct (cp_eos priv); by eapply accounts_same. }
    assert (Hh : forall priv, cp_handle (f priv) = cp_handle priv).
    { intros priv. unfold f, wake_eos. by destruct (cp_eos priv). }
    clearbody f.
    unfold bind at 1, upd_priv at 1, upd_inst at 1, bind at 1, the_inst at 1 in Hrun. rewrite Hq in Hrun.
    cbn [modify] in Hrun. unfold bind at 1, lift_agm in Hrun.
    destruct (agm_session_stop _ _) as [r' w|]; [|done]. destruct (nz r') eqn:Er.
    + injection Hrun as <- <-. rewrite Er. eexists. split; [reflexivity|]. cbn. rewrite Hh. split; [done|by apply Hv].
    + unfold bind, upd_priv, upd_inst, bind, the_inst, modify, ret in Hrun. injection Hrun as <- <-.
      rewrite Er. eexists. split; [reflexivity|]. cbn. rewrite Hh. split; [done|].
      destruct (Hv _ Hac) as [Ef Et Ea Ho]. split; cbn; [done|done| |lia].
      rewrite Et, s64_small by nia. lia.
  - eapply accounted_view; [by apply (keeps_control _ _ Hm _ _ _ Hrun)|]. by exists q.
Qed.

(** C28: accounting.  From a configured playback stream, over any sequence of
    writes that fit, events, stops and other calls, with any behaviour of the
    service and of GSL (which takes no more than it is given, and reports done
    only what it holds), the bytes reported as available are exactly the
    fragments the DSP does not hold: never negative, never more than the buffer. *)
Theorem compr_accounting frag n h0 h out ts r a ts' h' :
  gsl_consumes -> sizes_ok frag n -> accounted frag n (h0, 0) ->
  rtc (compr_step frag) (h0, 0) (h, out) ->
  agm_compress_avail ts h = Ret (r, (Some a, ts')) h' ->
  a = frag * (n - out) /\ 0 <= out <= n.
Proof.
  intros Hg Hs H0' Hr Hav.
  assert (Hacc : accounted frag n (h, out)).
  { revert H0'. generalize dependent (h0, 0). intros s Hr. generalize dependent (h, out). intros s' Hr.
    induction Hr as [|s1 s2 s3 Hst _ IH]; [done|]. intros Ha. apply IH. by eapply accounted_step. }
  assert (Hacc' : accounted frag n (h', out)).
  { eapply accounted_view; [|exact Hacc]. by apply (keeps_control _ _ (control_avail ts) _ _ _ Hav). }
  destruct Hacc' as (p' & Hp' & _ & [Ef Et Ea Ho]). cbn in *. split; [|done].
  revert Hav. unfold agm_compress_avail, with_compr, bind at 1, the_inst at 1.
  destruct (h_inst h) as [p|]; [|done]. cbv zeta. destruct (_ =? 0); [done|]. unfold bind at 1.
  destruct (agm_compress_tstamp ts h) as [[r1 ts1] h1|]; [|done].
  unfold bind, the_inst. destruct (h_inst h1) as [p1|] eqn:Ep1; [|done].
  intros [= <- <- <- <-]. simplify_eq. rewrite Ea. apply u64_small. destruct Hs as (? & ? & ?). nia.
Qed.
End ComprProps.
