(* ===== verification/ComprSession.v ===== *)
(** * The compress plug-in: waiting for the end, overruns, opening

    The signals a drain waits for, what a write beyond the room leaves behind, and
    the card references over open and close. *)

From S2P Require Export ComprProps.
Open Scope Z_scope.
#[export] Set Default Goal Selector "!".

Section ComprSession.
Context `{Env, Alsa, SndEnv, PlugEnv, Compr}.

(** ** Draining *)

Definition is_eos (ev : event_params) : bool := ev_event_id ev =? AGM_EVENT_EOS_RENDERED.

Lemma event_eos ev priv :
  sg_eos (cp_signals (compress_event ev priv)) =
    (sg_eos (cp_signals priv) + if cp_eos priv && is_eos ev then 1 else 0)%nat /\
  cp_eos (compress_event ev priv) = cp_eos priv && negb (is_eos ev).
Proof.
  unfold compress_event, is_eos. cbv zeta.
  destruct (Z.eqb_spec (ev_event_id ev) AGM_EVENT_WRITE_DONE) as [E|_].
  { rewrite E. rewrite andb_false_r, andb_true_r, Nat.add_0_r.
    destruct (_ <? _); [done|]. destruct (_ && _); done. }
  destruct (Z.eqb_spec (ev_event_id ev) AGM_EVENT_READ_DONE) as [E|_].
  { rewrite E. by rewrite andb_false_r, andb_true_r, Nat.add_0_r. }
  destruct (_ =? AGM_EVENT_EOS_RENDERED).
  - rewrite !andb_true_r, andb_false_r. unfold wake_eos. destruct (cp_eos priv) eqn:E; cbn; [split; [lia|done]|].
    by rewrite E, Nat.add_0_r.
  - by rewrite andb_false_r, andb_true_r, Nat.add_0_r.
Qed.

(** A plug-in that waits for the end of its stream, with [n] signals so far. *)
Record waits (p : compress_plugin) (n : nat) (h : host compress_plugin) (w : world) (s : snd_state)
    : Prop := Waits {
  wt_world : h_agm h = w;
  wt_cards : h_snd h = s;
  wt_inst : exists p', h_inst h = Some p' /\ cp_eos (cl_priv p') = true /\
    sg_eos (cp_signals (cl_priv p')) = n /\ cp_handle (cl_priv p') = cp_handle (cl_priv p) /\
    cp_card_node (cl_priv p') = cp_card_node (cl_priv p) /\
    cp_session_id (cl_priv p') = cp_session_id (cl_priv p)
}.

(** It was woken: one signal more, and the request is cleared. *)
Definition woken (p : compress_plugin) (o : outcome (host compress_plugin) Z) (w : world) : Prop :=
  exists h' p', o = Ret 0 h' /\ h_agm h' = w /\ h_inst h' = Some p' /\
    sg_eos (cp_signals (cl_priv p')) = S (sg_eos (cp_signals (cl_priv p))) /\
    cp_eos (cl_priv p') = false.

Lemma event_frame ev priv :
  cp_handle (compress_event ev priv) = cp_handle priv /\
  cp_card_node (compress_event ev priv) = cp_card_node priv /\
  cp_session_id (compress_event ev priv) = cp_session_id priv.
Proof. unfold compress_event, wake_eos. cbv zeta. by repeat case_match. Qed.

(** The wait goes on over events that do not report the end. *)
Lemma wait_events p n evs rest h w s :
  existsb is_eos evs = false -> waits p n h w s ->
  exists h', wait_eos n (map Delivered evs ++ rest) h = wait_eos n rest h' /\ waits p n h' w s.
Proof.
  revert h. induction evs as [|ev evs IH]; intros h Hev Hw; [by exists h|].
  cbn [existsb] in Hev. apply orb_false_iff in Hev as [Hev Hevs].
  destruct Hw as [Ha Hs (p' & Hp & He & Hn & Hh & Hc & Hi)].
  destruct (event_eos ev (cl_priv p')) as [Hsg Hpe]. rewrite He, Hev in Hsg, Hpe.
  destruct (event_frame ev (cl_priv p')) as (Fh & Fc & Fi).
  destruct (IH (set_h_inst (Some (upd_cl_priv (compress_event ev) p')) h) Hevs) as (h' & E & Hw').
  { split; [done|done|]. eexists. split; [reflexivity|]. cbn [upd_cl_priv cl_priv].
    split_and!; [done|cbn in Hsg; lia|congruence..]. }
  exists h'. split; [|done]. rewrite <- E. cbn [map app wait_eos]. unfold bind at 1, the_inst at 1. rewrite Hp.
  rewrite Hn, Nat.ltb_irrefl. unfold bind at 1. cbn [other_thread]. by rewrite (event_run _ _ _ Hp).
Qed.

Lemma wait_over n during h p : h_inst h = Some p -> (n < sg_eos (cp_signals (cl_priv p)))%nat ->
  wait_eos n during h = Ret tt h.
Proof.
  intros Hp Hn. destruct during; cbn [wait_eos]; unfold bind at 1, the_inst at 1; rewrite Hp;
    by rewrite (proj2 (Nat.ltb_lt _ _)).
Qed.

Lemma wait_step p n m during h w s : waits p n h w s ->
  wait_eos n (m :: during) h = (do! other_thread m ; wait_eos n during) h.
Proof.
  intros [_ _ (p' & Hp & _ & Hn & _)]. cbn [wait_eos]. unfold bind at 1, the_inst at 1. rewrite Hp.
  by rewrite Hn, Nat.ltb_irrefl.
Qed.

(** Up to its wait, a drain that the service accepts. *)
Lemma drain_waits p h w during :
  h_inst h = Some p -> cp_handle (cl_priv p) <> 0 ->
  agm_session_eos (cp_handle (cl_priv p)) (h_agm h) = Ret 0 w ->
  let n := sg_eos (cp_signals (cl_priv p)) in
  exists h', agm_compress_drain during h = (do! wait_eos n during ; ret 0) h' /\
    waits p n h' w (h_snd h).
Proof.
  intros Hp Hhd Heos n. unfold agm_compress_drain, agm_compress_drain_request, with_compr.
  unfold bind at 1, bind at 1, the_inst at 1. rewrite Hp. cbv zeta. rewrite (proj2 (Z.eqb_neq _ _) Hhd).
  unfold bind at 1, upd_priv, upd_inst, bind at 1, the_inst at 1. rewrite Hp. cbn [modify].
  unfold lift_agm. hsimp. rewrite Heos. change (nz 0) with false. cbv iota.
  unfold bind at 1, the_inst at 1. hsimp. eexists. split; [reflexivity|].
  split; [done|done|]. eexists. split; [reflexivity|]. done.
Qed.

Lemma woken_by p n h1 w s m during o :
  n = sg_eos (cp_signals (cl_priv p)) -> waits p n h1 w s ->
  (forall h2, waits p n h2 w s -> h_inst h2 = h_inst h1 -> exists h3 p3, other_thread m h2 = Ret tt h3 /\
     h_agm h3 = o /\ h_inst h3 = Some p3 /\ sg_eos (cp_signals (cl_priv p3)) = S n /\
     cp_eos (cl_priv p3) = false) ->
  woken p ((do! wait_eos n (m :: during) ; ret 0) h1) o.
Proof.
  intros -> Hw Hm. destruct (Hm h1 Hw eq_refl) as (h3 & p3 & E & Ha & Hp3 & Hsg & He).
  exists h3, p3. split; [|by rewrite Hsg]. unfold bind at 1. rewrite (wait_step _ _ _ _ _ _ _ Hw).
  unfold bind at 1. rewrite E. erewrite wait_over; [done|exact Hp3|]. rewrite Hsg. lia.
Qed.

(** The three ends of a wait. *)
Lemma eos_wakes p n h w s ev : waits p n h w s -> is_eos ev = true ->
  exists h' p', other_thread (Delivered ev) h = Ret tt h' /\ h_agm h' = w /\ h_inst h' = Some p' /\
    sg_eos (cp_signals (cl_priv p')) = S n /\ cp_eos (cl_priv p') = false.
Proof.
  intros [Ha _ (p' & Hp & He & Hn & _)] Hev. cbn [other_thread]. rewrite (event_run _ _ _ Hp).
  eexists _, _. split; [reflexivity|]. hsimp. split; [done|]. split; [reflexivity|]. cbn [upd_cl_priv cl_priv].
  destruct (event_eos ev (cl_priv p')) as [-> ->]. rewrite He, Hev, Hn. split; [cbn; lia|done].
Qed.

Lemma stop_wakes p n h w s rs w' : cp_handle (cl_priv p) <> 0 -> waits p n h w s ->
  agm_session_stop (cp_handle (cl_priv p)) w = Ret rs w' ->
  exists h' p', other_thread Stopped h = Ret tt h' /\ h_agm h' = w' /\ h_inst h' = Some p' /\
    sg_eos (cp_signals (cl_priv p')) = S n /\ cp_eos (cl_priv p') = false.
Proof.
  intros Hhd [Ha _ (p' & Hp & He & Hn & Hh & _)] Hst.
  cbn [other_thread]. unfold agm_compress_stop, with_compr, bind at 1 2, the_inst at 1. rewrite Hp.
  cbv zeta. rewrite Hh, (proj2 (Z.eqb_neq _ _) Hhd).
  unfold bind at 1, upd_priv at 1, upd_inst at 1, bind at 1, the_inst at 1. rewrite Hp. cbn [modify].
  unfold bind at 1, lift_agm. hsimp. rewrite Ha, Hst.
  assert (Hwake : sg_eos (cp_signals (signal_poll (wake_eos (cl_priv p')))) = S n /\
    cp_eos (signal_poll (wake_eos (cl_priv p'))) = false).
  { unfold wake_eos. rewrite He. cbn. by rewrite Hn. }
  destruct (nz rs).
  - eexists _, _. split; [reflexivity|]. hsimp. split; [done|]. by split; [reflexivity|].
  - eexists _, _. split; [reflexivity|]. hsimp. split; [done|]. by split; [reflexivity|].
Qed.

Lemma close_wakes p n h w s w1 w2 s' r1 r2 : cp_handle (cl_priv p) <> 0 -> waits p n h w s ->
  agm_session_register_cb (cp_session_id (cl_priv p)) 0 AGM_EVENT_DATA_PATH addr_plugin w = Ret r1 w1 ->
  agm_session_close (cp_handle (cl_priv p)) w1 = Ret r2 w2 ->
  snd_card_def_put_card (cp_card_node (cl_priv p)) s = Ret tt s' ->
  exists h' p', agm_compress_closing h = Ret true h' /\ h_agm h' = w2 /\ h_inst h' = Some p' /\
    sg_eos (cp_signals (cl_priv p')) = S n /\ cp_eos (cl_priv p') = false.
Proof.
  intros Hhd [Ha Hs (p' & Hp & He & Hn & Hh & Hc & Hi)] Hrc Hcl Hput.
  unfold agm_compress_closing, with_compr, bind at 1, the_inst at 1. rewrite Hp.
  cbv zeta. rewrite Hh, Hc, Hi, (proj2 (Z.eqb_neq _ _) Hhd).
  unfold bind at 1, lift_agm at 1. rewrite Ha, Hrc.
  unfold bind at 1, lift_agm at 1. hsimp. rewrite Hcl.
  unfold bind at 1, lift_snd at 1. hsimp. rewrite Hs, Hput.
  unfold bind at 1, upd_priv at 1, upd_inst at 1, bind at 1, the_inst at 1. hsimp. rewrite Hp. cbn [modify].
  eexists _, _. split; [reflexivity|]. hsimp. split; [done|]. split; [reflexivity|]. cbn [upd_cl_priv cl_priv].
  unfold wake_eos. rewrite He. cbn. by rewrite Hn.
Qed.

(** C29: a drain is woken, and only then returns.  When the service refuses the
    end of the stream, its status is returned at once.  Once it has accepted it,
    the drain waits over any events that do not report the end: for ever, if
    nothing else comes; and it returns 0, having been signalled once and with
    the request cleared, as soon as the end is reported, another thread stops the
    stream, whatever the service says to that, or a close has signalled it and
    not freed the plug-in yet.  A close that frees the plug-in first leaves the
    drain with a mutex in freed memory. *)
Theorem compr_drain_wakes p h evs rest r w :
  h_inst h = Some p -> cp_handle (cl_priv p) <> 0 -> existsb is_eos evs = false ->
  agm_session_eos (cp_handle (cl_priv p)) (h_agm h) = Ret r w ->
  let drain during := agm_compress_drain (map Delivered evs ++ during) h in
  (r <> 0 -> exists h', drain rest = Ret r h' /\ h_agm h' = w) /\
  (r = 0 ->
     drain [] = Crash Diverges /\
     (forall ev, is_eos ev = true -> woken p (drain (Delivered ev :: rest)) w) /\
     (forall rs w', agm_session_stop (cp_handle (cl_priv p)) w = Ret rs w' ->
        woken p (drain (Stopped :: rest)) w') /\
     (forall w1 w2 s' r1 r2,
        agm_session_register_cb (cp_session_id (cl_priv p)) 0 AGM_EVENT_DATA_PATH addr_plugin w = Ret r1 w1 ->
        agm_session_close (cp_handle (cl_priv p)) w1 = Ret r2 w2 ->
        snd_card_def_put_card (cp_card_node (cl_priv p)) (h_snd h) = Ret tt s' ->
        woken p (drain (Closing :: rest)) w2 /\ drain (Closed :: rest) = Crash DanglingPtr)).
Proof.
  intros Hp Hhd Hev Heos drain. split.
  { intros Hr%nz_true. unfold drain, agm_compress_drain, agm_compress_drain_request, with_compr.
    unfold bind at 1, bind at 1, the_inst at 1. rewrite Hp. cbv zeta. rewrite (proj2 (Z.eqb_neq _ _) Hhd).
    unfold bind at 1, upd_priv, upd_inst, bind at 1, the_inst at 1. rewrite Hp. cbn [modify].
    unfold lift_agm. hsimp. rewrite Heos, Hr. by eexists. }
  intros ->. set (n := sg_eos (cp_signals (cl_priv p))).
  assert (Hd : forall during, exists h', drain during = (do! wait_eos n during ; ret 0) h' /\
    waits p n h' w (h_snd h)).
  { intros during. destruct (drain_waits p h w (map Delivered evs ++ during) Hp Hhd Heos) as (h1 & E & Hw).
    fold n in E, Hw.
    destruct (wait_events p n evs during h1 w (h_snd h) Hev Hw) as (h2 & E2 & Hw2).
    exists h2. split; [|done]. unfold drain. rewrite E. unfold bind. by rewrite E2. }
  split; [|split; [|split]].
  - destruct (Hd []) as (h1 & -> & [_ _ (p' & Hp' & _ & Hn & _)]). unfold bind. cbn [wait_eos].
    unfold bind, the_inst. by rewrite Hp', Hn, Nat.ltb_irrefl.
  - intros ev He. destruct (Hd (Delivered ev :: rest)) as (h1 & -> & Hw).
    eapply woken_by; [done|exact Hw|]. intros h2 Hw2 _. by eapply eos_wakes.
  - intros rs w' Hst. destruct (Hd (Stopped :: rest)) as (h1 & -> & Hw).
    eapply woken_by; [done|exact Hw|]. intros h2 Hw2 _. by eapply stop_wakes.
  - intros w1 w2 s' r1 r2 Hrc Hcl Hput. split.
    + destruct (Hd (Closing :: rest)) as (h1 & -> & Hw).
      eapply woken_by; [done|exact Hw|]. intros h2 Hw2 _.
      destruct (close_wakes p n h2 w (h_snd h) w1 w2 s' r1 r2 Hhd Hw2 Hrc Hcl Hput)
        as (h3 & p3 & E & H'). exists h3, p3. split; [|exact H'].
      cbn [other_thread]. unfold bind. by rewrite E.
    + destruct (Hd (Closed :: rest)) as (h1 & -> & Hw). unfold bind at 1.
      rewrite (wait_step _ _ _ _ _ _ _ Hw). cbn [other_thread]. unfold agm_compress_close.
      destruct (close_wakes p n h1 w (h_snd h) w1 w2 s' r1 r2 Hhd Hw Hrc Hcl Hput)
        as (h3 & p3 & E & _). unfold bind at 1, bind at 1. rewrite E. cbn [modify].
      destruct rest; cbn [wait_eos]; unfold bind, the_inst; hsimp; done.
Qed.

(** ** Overruns *)

(** A write beyond the room.  The room is compared only after the service
    took the data: the client is told -EINVAL for data that will be played, the
    copied total does not count it, and the room stays negative; while it is, the
    events that give fragments back do not wake a poll. *)
Theorem compr_write_overrun p h buff size w :
  let priv := cl_priv p in
  let frag := bc_size (cp_buffer priv) in
  h_inst h = Some p -> cp_handle priv <> 0 -> cp_prepared priv = true ->
  Z.of_nat (length buff) <= cp_total priv -> cp_total priv < 2 ^ 31 ->
  0 <= size <= cp_total priv -> 0 < frag < 2 ^ 31 -> 0 <= cp_avail priv < frags size frag * frag ->
  agm_session_write (cp_handle priv) buff (h_agm h) = Ret (0, size) w ->
  exists h' p', agm_compress_write buff h = Ret (- EINVAL) h' /\ h_agm h' = w /\ h_inst h' = Some p' /\
    cp_avail (cl_priv p') = cp_avail priv - frags size frag * frag /\ cp_avail (cl_priv p') < 0 /\
    cp_bytes_copied (cl_priv p') = cp_bytes_copied priv /\
    forall ev, ev_event_id ev = AGM_EVENT_WRITE_DONE -> cp_avail (cl_priv p') + frag < 0 ->
      sg_poll (cp_signals (compress_event ev (cl_priv p'))) = sg_poll (cp_signals priv).
Proof.
  intros priv frag Hp Hhd Hprep Hlen Htot Hsize Hfrag Hav Hw.
  unfold agm_compress_write, with_compr, bind at 1, the_inst at 1. rewrite Hp. fold priv. cbv zeta.
  rewrite (proj2 (Z.eqb_neq _ _) Hhd), (proj2 (Z.ltb_ge _ _) Hlen), Hprep.
  unfold bind at 1, ret at 1. change (nz 0) with false. unfold bind at 1, lift_agm at 1. rewrite Hw.
  change (nz 0) with false. unfold bind at 1, the_inst at 1. hsimp. rewrite Hp. fold priv frag. cbv zeta.
  unfold fragments. rewrite (proj2 (Z.eqb_neq frag 0)) by lia. cbn [the].
  change (size / frag + (if size mod frag =? 0 then 0 else 1)) with (frags size frag).
  assert (Hf : 0 <= frags size frag * frag <= size + frag).
  { unfold frags. pose proof (Z.div_mod size frag ltac:(lia)). pose proof (Z.mod_pos_bound size frag ltac:(lia)).
    pose proof (Z.div_pos size frag ltac:(lia) ltac:(lia)). destruct (_ =? 0); nia. }
  unfold bind at 1, ret at 1. rewrite s64_small by lia.
  unfold bind at 1, upd_priv at 1, upd_inst at 1, bind at 1, the_inst at 1. hsimp. rewrite Hp. cbn [modify].
  rewrite (proj2 (Z.ltb_lt _ _)) by lia.
  eexists _, _. split; [reflexivity|]. hsimp. split; [done|]. split; [reflexivity|].
  cbn [upd_cl_priv cl_priv]. fold priv. cbn [cp_avail set_cp_avail cp_bytes_copied].
  split; [done|]. split; [lia|]. split; [done|].
  intros ev Hev Hneg. unfold compress_event. cbv zeta. rewrite Hev, Z.eqb_refl.
  cbn [cp_avail set_cp_avail cp_buffer cp_total]. fold frag. rewrite s64_small by lia.
  assert ((cp_total priv <? u64 (cp_avail priv - frags size frag * frag + frag)) = true) as ->; [|done].
  apply Z.ltb_lt. unfold u64.
  rewrite <- (Z.mod_unique (cp_avail priv - frags size frag * frag + frag) (2 ^ 64) (-1)
    (2 ^ 64 + (cp_avail priv - frags size frag * frag + frag))) by lia. lia.
Qed.
(** ** Opening and closing *)

(** An open that stored no plug-in; its status need not be negative. *)
Definition compr_outcome (h h' : host compress_plugin) (held : list nat) (r : Z) : Prop :=
  (r = 0 /\ exists p i, h_inst h' = Some p /\ cp_card_node (cl_priv p) = Some i /\
     0 < cp_handle (cl_priv p) /\ cards_held (sn_cards (h_snd h')) (i :: held)) \/
  (r <= 0 /\ h_inst h' = h_inst h /\ cards_held (sn_cards (h_snd h')) held).

(** With one more reference, and still no plug-in. *)
Definition mid_open (h : host compress_plugin) (i : nat) (held : list nat) (h2 : host compress_plugin) : Prop :=
  h_inst h2 = h_inst h /\ cards_held (sn_cards (h_snd h2)) (i :: held).

Lemma compr_put h i held r h2 :
  mid_open h i held h2 ->
  wlp (do! lift_snd (snd_card_def_put_card (Some i)) ; ret (negated_status r))
    (fun r' h' => r' = negated_status r /\ h_inst h' = h_inst h /\ cards_held (sn_cards (h_snd h')) held) h2.
Proof.
  intros [Hi Hc]. apply wpg_bind, wpg_lift_snd. eapply wpg_mono; [by eapply put_card_held|].
  intros ? s Hs. apply wpg_ret. split; [done|]. by split.
Qed.

Lemma negated_status_le r : negated_status r <= 0.
Proof. unfold negated_status. destruct (Z.ltb_spec r 0); lia. Qed.

Lemma compr_fail h i held r h2 :
  mid_open h i held h2 ->
  wlp (do! lift_snd (snd_card_def_put_card (Some i)) ; ret (negated_status r))
    (fun r' h' => compr_outcome h h' held r') h2.
Proof.
  intros Hm. eapply wpg_mono; [by apply compr_put|]. intros r' h' (-> & Hi & Hc). right.
  split; [apply negated_status_le|done].
Qed.

Lemma compr_node_int h i held node prop k h2 :
  mid_open h i held h2 ->
  (forall v h3, mid_open h i held h3 -> wlp (k v) (fun r h' => compr_outcome h h' held r) h3) ->
  wlp (node_int node prop
         (fun r => do! lift_snd (snd_card_def_put_card (Some i)) ; ret (negated_status r)) k)
    (fun r h' => compr_outcome h h' held r) h2.
Proof.
  intros [Hi Hc] Hk. unfold node_int. apply wpg_bind, wpg_lift_snd. eapply wpg_mono.
  { apply (keeps_wlp sn_cards). apply (keeps_query _ _ (query_int _ _)). }
  intros [r v] s E. assert (Hm : mid_open h i held (set_h_snd s h2)) by (split; [done|hsimp; by rewrite E]).
  destruct (nz r); [by apply compr_fail|by apply Hk].
Qed.

Lemma compr_open_outcome card device flags held h :
  (forall n l, snd_xml n <> XmlDoc l false) -> cards_held (sn_cards (h_snd h)) held ->
  wlp (agm_compress_plugin_open card device flags) (fun r h' => compr_outcome h h' held r) h.
Proof.
  intros Hx Hh. unfold agm_compress_plugin_open.
  assert (Hno : forall r h', r < 0 -> h_inst h' = h_inst h -> h_snd h' = h_snd h -> compr_outcome h h' held r).
  { intros r h' Hr E1 E2. right. split; [lia|]. by rewrite E1, E2. }
  hp_step. hp_step. hp_step; [by apply wpg_ret, Hno|]. hp_step. hp_step.
  hp_step; [by apply wpg_ret, Hno|].
  apply wpg_bind, wpg_lift_snd. eapply wpg_mono; [by apply (get_card_held _ _ held Hx)|].
  intros [i|] s1 Hs1; [|apply wpg_ret; right; split; [unfold EINVAL; lia|done]].
  cbv zeta. apply wpg_bind, wpg_lift_snd. eapply wpg_mono.
  { apply (keeps_wlp sn_cards). apply (keeps_query _ _ (query_node _ _ _)). }
  intros node s2 E3. destruct node as [node|].
  2: { apply compr_fail. split; [done|]. hsimp. by rewrite E3. }
  apply compr_node_int; [split; [done|]; hsimp; by rewrite E3|]. intros playback h3 Hm3.
  apply compr_node_int; [done|]. intros capture h4 Hm4.
  apply compr_node_int; [done|]. intros hostless h5 Hm5. cbv zeta.
  set (dir := if nz (Z.land flags COMPRESS_IN) then RX else TX).
  destruct ((dir =? RX) && (playback =? 0)); [by apply compr_fail|].
  destruct ((dir =? TX) && (capture =? 0)); [by apply compr_fail|].
  apply wpg_bind, wpg_lift_agm, run_wlp. intros [r hd] w Hopen.
  assert (Hm6 : forall w, mid_open h i held (set_h_agm w h5)) by (intros; destruct Hm5; by split).
  destruct (nz r) eqn:Er; [by apply compr_fail|]. apply wpg_bind, wpg_the. destruct hd as [hd|]; [|done].
  apply wpg_bind, wpg_lift_agm, wlp_any. intros r2 w2. hsimp. destruct (nz r2).
  - apply wpg_bind, wpg_lift_agm, wlp_any. intros r3 w3. by apply compr_fail; destruct Hm5.
  - apply wpg_bind, wpg_modify, wpg_ret. left. split; [done|]. eexists _, i. hsimp.
    split; [reflexivity|]. split; [done|]. split; [by eapply session_open_handle|by destruct Hm5].
Qed.

(** Open and close of a compress device are balanced.  After an open, and a
    close if a plug-in was stored, there is no plug-in and the cards have exactly
    the references of before, wherever the open stopped and whatever the service
    answers. *)
Theorem compr_open_close card device flags held h :
  (forall n l, snd_xml n <> XmlDoc l false) -> cards_held (sn_cards (h_snd h)) held -> h_inst h = None ->
  wlp (let! _ := agm_compress_plugin_open card device flags in
       let! p := gets h_inst in
       match p with Some _ => agm_compress_close | None => ret tt end)
    (fun _ h' => h_inst h' = None /\ cards_held (sn_cards (h_snd h')) held) h.
Proof.
  intros Hx Hh Hn. apply wpg_bind. eapply wpg_mono; [by apply compr_open_outcome|].
  intros r h1 [(-> & p & i & Hi & Hcard & Hhd & Hc)|(_ & Hi & Hc)]; apply wpg_bind, wpg_gets; rewrite Hi.
  2: { rewrite Hn. apply wpg_ret. split; [congruence|done]. }
  unfold agm_compress_close, agm_compress_closing, with_compr.
  apply wpg_bind, wpg_bind, (wpg_the_inst _ _ _ _ Hi). cbv zeta.
  rewrite (proj2 (Z.eqb_neq _ _)) by lia.
  apply wpg_bind, wpg_lift_agm, wlp_any. intros r1 w1. apply wpg_bind, wpg_lift_agm, wlp_any. intros r2 w2.
  apply wpg_bind. rewrite Hcard. eapply wpg_mono; [by eapply lift_put_held|]. intros ? h2 [Hc2 Hi2].
  apply wpg_bind. unfold upd_priv. eapply wpg_upd_inst; [rewrite Hi2; hsimp; exact Hi|].
  apply wpg_ret, wpg_modify. by split.
Qed.
Lemma node_int_run node prop fail k v h :
  snd_card_def_get_int (Some node) prop (h_snd h) = Ret (0, Some v) (h_snd h) ->
  node_int node prop fail k h = k v h.
Proof. intros E. unfold node_int, bind, lift_snd. rewrite E. by destruct h. Qed.

(** Opening for a direction the device does not have.  The card reference is
    given back and no plug-in is stored, but the result is 0, success: the caller
    goes on with a plug-in pointer that was never set. *)
Theorem compr_open_unsupported card device flags i node v s1 s2 s3 h :
  (forall n, plug_alloc n = true) ->
  snd_card_def_get_card card (h_snd h) = Ret (Some i) s1 ->
  snd_card_def_get_node (Some i) device (node_type_num SND_NODE_TYPE_COMPR) s1 = Ret (Some node) s2 ->
  (forall prop, prop ∈ ["playback"; "capture"; "hostless"]%string ->
     snd_card_def_get_int (Some node) prop s2 = Ret (0, Some (v prop)) s2) ->
  (if nz (Z.land flags COMPRESS_IN) then v "playback"%string = 0 else v "capture"%string = 0) ->
  snd_card_def_put_card (Some i) s2 = Ret tt s3 ->
  exists h', agm_compress_plugin_open card device flags h = Ret 0 h' /\
    h_inst h' = h_inst h /\ h_agm h' = h_agm h /\ h_snd h' = s3.
Proof.
  intros Ha Hcard Hnode Hprops Hdir Hput. unfold agm_compress_plugin_open, plug_calloc, next_tick.
  unfold bind at 1 2. unfold ret at 1. rewrite Ha. cbn [negb]. unfold bind at 1 2. unfold ret at 1.
  rewrite Ha. cbn [negb]. unfold bind at 1, lift_snd at 1. hsimp. rewrite Hcard. cbv zeta.
  unfold bind at 1, lift_snd at 1. hsimp. rewrite Hnode.
  set (h2 := set_h_snd s2 _).
  rewrite !(node_int_run _ _ _ _ _ h2) by (apply Hprops; set_solver).
  assert (Hend : (do! lift_snd (snd_card_def_put_card (Some i)) ; ret (negated_status 0)) h2 =
    Ret 0 (set_h_snd s3 h2)).
  { unfold bind, lift_snd. unfold h2 at 1. hsimp. by rewrite Hput. }
  destruct (nz (Z.land flags COMPRESS_IN)); rewrite Hdir.
  - change ((RX =? RX) && (0 =? 0)) with true. cbv iota. rewrite Hend. eexists. split; [reflexivity|]. done.
  - change ((TX =? RX) && _) with false. change ((TX =? TX) && (0 =? 0)) with true. cbv iota.
    rewrite Hend. eexists. split; [reflexivity|]. done.
Qed.
End ComprSession.

(** ** Concrete streams *)

Definition demo_compr_consts : Compr := {|
  SND_AUDIOCODEC_MP3 := 2; SND_AUDIOCODEC_AAC := 11; SND_AUDIOCODEC_FLAC := 12; SND_AUDIOCODEC_ALAC := 15;
  SND_AUDIOCODEC_APE := 16; SND_AUDIOCODEC_WMA := 6; SND_AUDIOCODEC_WMA_PRO := 17; SND_AUDIOCODEC_VORBIS := 9;
  SND_AUDIOSTREAMFORMAT_MP4LATM := 5; SND_AUDIOSTREAMFORMAT_ADIF := 3; SND_AUDIOSTREAMFORMAT_MP4ADTS := 1;
  SND_COMPRESS_PLAYBACK := 0; SND_COMPRESS_DEC_HDR := true;
  addr_agm_compress_event_cb := 1048576; addr_plugin := 2097152
|}.

(** Four fragments of 8192 bytes, the session prepared and its graph open. *)
Definition demo_compr_priv : compr_priv :=
  ComprPriv demo_media (BufferConfig 4 8192) session_config_zero caps_zero 1 true 0 32768 32768 0 0 false false
    (Some 0%nat) 102 (ComprSignals 0 0 0).
Definition demo_compr_plugin (priv : compr_priv) : compress_plugin :=
  ComprPlugin 100 (0%nat, SND_NODE_TYPE_COMPR, 0%nat) priv.
Definition demo_compr_world : world :=
  set_w_graphs [Some graph_zero]
    (set_w_pool (Some [set_ses_graph (Some 0%nat) (set_ses_state SESSION_STARTED (session_zero 102))]) empty_world).
Definition demo_compr_host (priv : compr_priv) : host compress_plugin :=
  Host demo_compr_world demo_state (Some (demo_compr_plugin priv)) 0 0.

Definition eos_event : event_params := EventParams 1 AGM_EVENT_EOS_RENDERED [].
Definition done_event : event_params := EventParams 1 AGM_EVENT_WRITE_DONE [].

Lemma demo_gsl_consumes : @gsl_consumes ok_env.
Proof. intros tr handle tag data. cbn. lia. Qed.

Lemma compr_codec_fields_witness :
  get_field (2%nat, 4%nat, 2)
    (sc_codec (snd (@agm_session_update_codec_config demo_compr_consts
       (ComprParams 8192 4 11 2 2 48000 1 (fun _ => 0)) demo_media session_config_zero))) = 2.
Proof.
  pose proof (@compr_codec_fields demo_compr_consts (ComprParams 8192 4 11 2 2 48000 1 (fun _ => 0))
    demo_media session_config_zero eq_refl) as Hc.
  cbv beta iota zeta delta [agm_session_update_codec_config] in Hc |- *. apply Hc.
Defined.

Definition demo_buff : list Z := replicate 10 7.

Lemma compr_accounting_witness :
  exists h ts' h', @agm_compress_avail ok_env (ComprTstamp 0 0 0) h = Ret (0, (Some 24576, ts')) h' /\
    24576 = 8192 * (4 - 1) /\ 0 <= 1 <= 4.
Proof.
  let r := eval vm_compute in (@agm_compress_write ok_env demo_buff (demo_compr_host demo_compr_priv)) in
  lazymatch r with Ret _ ?h => pose (h1 := h) end.
  let r := eval vm_compute in (@agm_compress_avail ok_env (ComprTstamp 0 0 0) h1) in
  lazymatch r with Ret (_, (_, ?ts')) ?h' => exists h1, ts', h' end.
  split; [vm_compute; reflexivity|].
  eapply (@compr_accounting ok_env linux_alsa 8192 4 (demo_compr_host demo_compr_priv) h1 1 (ComprTstamp 0 0 0)).
  - apply demo_gsl_consumes.
  - done.
  - eexists. split; [reflexivity|]. by split.
  - apply rtc_once.
    refine (eq_rect _ (fun k => @compr_step ok_env linux_alsa 8192 (demo_compr_host demo_compr_priv, 0) (h1, k))
      (@cs_write ok_env linux_alsa 8192 demo_buff (demo_compr_plugin demo_compr_priv)
         (demo_compr_host demo_compr_priv) h1 0 10 eq_refl _ _) 1 _).
    + done.
    + vm_compute. reflexivity.
    + vm_compute. reflexivity.
  - vm_compute. reflexivity.
Defined.

Lemma compr_drain_wakes_witness :
  exists w, woken (demo_compr_plugin demo_compr_priv)
    (@agm_compress_drain ok_env demo_compr_consts [Delivered done_event; Stopped] (demo_compr_host demo_compr_priv)) w.
Proof.
  edestruct (@compr_drain_wakes ok_env demo_compr_consts (demo_compr_plugin demo_compr_priv)
    (demo_compr_host demo_compr_priv) [done_event] [] 0) as (_ & Hok).
  - reflexivity.
  - done.
  - reflexivity.
  - vm_compute. reflexivity.
  - destruct (Hok eq_refl) as (_ & _ & Hstop & _). eexists. eapply Hstop. vm_compute. reflexivity.
Defined.

(** One fragment left, and a write of two. *)
Definition demo_full_priv : compr_priv := set_cp_avail 4 (set_cp_config demo_media (BufferConfig 4 4) session_config_zero 16 16 demo_compr_priv).

Lemma compr_write_overrun_witness :
  exists h' p', @agm_compress_write ok_env (replicate 8 7) (demo_compr_host demo_full_priv) = Ret (- EINVAL) h' /\
    h_inst h' = Some p' /\ cp_avail (cl_priv p') = -4.
Proof.
  edestruct (@compr_write_overrun ok_env (demo_compr_plugin demo_full_priv) (demo_compr_host demo_full_priv)
    (replicate 8 7) 8) as (h' & p' & E & _ & Hp & Ha & _).
  1-8: first [done | by vm_compute].
  - vm_compute. reflexivity.
  - exists h', p'. split; [exact E|]. split; [exact Hp|]. rewrite Ha. by vm_compute.
Defined.

Lemma compr_open_close_witness :
  wlp (let! _ := @agm_compress_plugin_open ok_env linux_alsa (demo_snd true) plain_plug demo_compr_consts 100 102 0 in
       let! p := gets h_inst in
       match p with Some _ => @agm_compress_close ok_env demo_compr_consts | None => ret tt end)
    (fun _ h' => h_inst h' = None /\ cards_held (sn_cards (h_snd h')) []) (Host empty_world snd_init None 0 0).
Proof.
  apply (@compr_open_close ok_env linux_alsa (demo_snd true) plain_plug demo_compr_consts).
  - intros n l. discriminate.
  - intros i. reflexivity.
  - done.
Defined.

Definition prop_int_of (d : snd_dev_def) (prop : string) : Z :=
  match find_prop prop (sd_props d) with Some v => atoi v | None => 0 end.

(** A device for capture only. *)
Definition capture_dev : snd_dev_def :=
  SndDevDef SND_NODE_TYPE_COMPR 103 SND_NODE_DEV_TYPE_PLUGIN (Some "COMPR103"%string) None
    [("playback", "0"); ("capture", "1"); ("hostless", "0")]%string.
Definition capture_state : snd_state := SndState [Some (SndCard 100 None 1 [] [] [capture_dev])] 0 0 0.

Lemma compr_open_unsupported_witness :
  exists h', @agm_compress_plugin_open ok_env linux_alsa (demo_snd true) plain_plug demo_compr_consts 100 103 268435456
      (Host empty_world capture_state None 0 0) = Ret 0 h' /\ h_inst h' = None.
Proof.
  pose (s1 := SndState [Some (SndCard 100 None 2 [] [] [capture_dev])] 0 0 1).
  edestruct (@compr_open_unsupported ok_env linux_alsa (demo_snd true) plain_plug demo_compr_consts 100 103 268435456
    0%nat (0%nat, SND_NODE_TYPE_COMPR, 0%nat) (prop_int_of capture_dev) s1 s1
    (set_sn_opens 1 capture_state) (Host empty_world capture_state None 0 0)) as (h' & E & Hi & _).
  - done.
  - vm_compute. reflexivity.
  - vm_compute. reflexivity.
  - intros prop Hp. repeat (apply elem_of_cons in Hp as [->|Hp]; [vm_compute; reflexivity|]).
    by apply not_elem_of_nil in Hp.
  - vm_compute. reflexivity.
  - vm_compute. reflexivity.
  - exists h'. by split; [exact E|].
Defined.
