(* ===== verification/MixerPlugin.v ===== *)
(** * The mixer plug-in (plugins/tinyalsa/src/agm_mixer_plugin.c): discovery and controls

    The mixer plug-in shows the audio interfaces of the service (back ends) and the
    PCMs of a card as mixer controls.  Opening it asks the service for its
    interfaces and the card definitions for their PCM and compress devices, sorts
    both by direction into four [amp_dev_info] and makes one fixed-size array of
    controls.  This file holds the data, the discovery and the construction of the
    controls; [MixerCtl] the handlers of the controls, the events, open and close.

    The four [amp_dev_info] are members of [amp_priv]: a pointer to one, such as a
    control's [private_data] or the enumeration [&adi->dev_enum], is its name
    [adi_id].  [h_inst] is the block [open] allocates. *)

From S2P Require Export Plugin.
Open Scope Z_scope.
#[export] Set Default Goal Selector "!".

(** ** Data *)

(** What headers outside the repository define, and the two addresses the
    service is given. *)
Class Mixer : Type := {
  SNDRV_CTL_EVENT_ELEM : Z;
  sizeof_snd_ctl_event : Z;
  SIZEOF_ELEM_ID_NAME : nat;
  addr_amp_event_cb : Z;
  addr_amp : Z
}.

Inductive adi_id := RX_BE | TX_BE | RX_PCM | TX_PCM.
#[export] Instance adi_id_eq_dec : EqDecision adi_id.
Proof. solve_decision. Defined.

(** [struct amp_dev_info]; [dev_enum.texts] is [names], and [ad_items] is
    [dev_enum.items].  An array is [None] while its pointer is NULL. *)
Record amp_dev_info : Type := AmpDevInfo {
  ad_names : option (list (option string));
  ad_idx_arr : option (list Z);
  ad_count : Z;
  ad_items : Z;
  ad_dir : Z;
  ad_mtd_ctl : option (list Z);
  ad_param : option (list Z);
  ad_param_size : Z
}.
Definition adi_zero : amp_dev_info := AmpDevInfo None None 0 0 0 None None 0.
Definition set_ad_names (v : option (list (option string))) (r : amp_dev_info) : amp_dev_info :=
  AmpDevInfo v (ad_idx_arr r) (ad_count r) (ad_items r) (ad_dir r) (ad_mtd_ctl r) (ad_param r) (ad_param_size r).
Definition set_ad_idx_arr (v : option (list Z)) (r : amp_dev_info) : amp_dev_info :=
  AmpDevInfo (ad_names r) v (ad_count r) (ad_items r) (ad_dir r) (ad_mtd_ctl r) (ad_param r) (ad_param_size r).
Definition set_ad_count (v : Z) (r : amp_dev_info) : amp_dev_info :=
  AmpDevInfo (ad_names r) (ad_idx_arr r) v (ad_items r) (ad_dir r) (ad_mtd_ctl r) (ad_param r) (ad_param_size r).
Definition set_ad_items (v : Z) (r : amp_dev_info) : amp_dev_info :=
  AmpDevInfo (ad_names r) (ad_idx_arr r) (ad_count r) v (ad_dir r) (ad_mtd_ctl r) (ad_param r) (ad_param_size r).
Definition set_ad_dir (v : Z) (r : amp_dev_info) : amp_dev_info :=
  AmpDevInfo (ad_names r) (ad_idx_arr r) (ad_count r) (ad_items r) v (ad_mtd_ctl r) (ad_param r) (ad_param_size r).
Definition set_ad_mtd_ctl (v : option (list Z)) (r : amp_dev_info) : amp_dev_info :=
  AmpDevInfo (ad_names r) (ad_idx_arr r) (ad_count r) (ad_items r) (ad_dir r) v (ad_param r) (ad_param_size r).
Definition set_ad_param (v : option (list Z)) (r : amp_dev_info) : amp_dev_info :=
  AmpDevInfo (ad_names r) (ad_idx_arr r) (ad_count r) (ad_items r) (ad_dir r) (ad_mtd_ctl r) v (ad_param_size r).
Definition set_ad_param_size (v : Z) (r : amp_dev_info) : amp_dev_info :=
  AmpDevInfo (ad_names r) (ad_idx_arr r) (ad_count r) (ad_items r) (ad_dir r) (ad_mtd_ctl r) (ad_param r) v.

(** The pair of functions behind a control. *)
Inductive ctl_fns :=
  | BE_MEDIA_FMT | BE_METADATA | BE_SET_PARAM
  | AIF_CONNECT | MTD_CONTROL | PCM_METADATA | PCM_SET_PARAM | PCM_TAG_INFO | PCM_EVENT
  | PCM_CALIBRATION | PCM_GET_PARAM | PCM_BUF_INFO
  | PCM_LOOPBACK | PCM_ECHOREF | PCM_BUF_TSTAMP | PCM_SIDETONE.

(** The kinds of value: an enumeration over the names of an [amp_dev_info],
    integers (count, range, step), and byte arrays of a maximal size. *)
Inductive ctl_value :=
  | VALUE_ENUM (e : adi_id)
  | VALUE_INTEGER (count min max step : Z)
  | VALUE_BYTES (size : Z)
  | VALUE_TLV_BYTES (size : Z).

(** [struct snd_control], with the name it points to. *)
Record snd_control : Type := SndControl {
  sc_name : string;
  sc_value : ctl_value;
  sc_fns : ctl_fns;
  sc_private_value : Z;
  sc_private_data : adi_id
}.

(** [struct snd_ctl_event], as far as it is written. *)
Record snd_ctl_event : Type := SndCtlEvent { se_type : Z; se_name : string }.

(** The four members of [struct amp_priv] with this type. *)
Record amp_devs : Type := AmpDevs {
  rx_be_devs : amp_dev_info; tx_be_devs : amp_dev_info;
  rx_pcm_devs : amp_dev_info; tx_pcm_devs : amp_dev_info
}.
Definition dev_at (d : adi_id) (r : amp_devs) : amp_dev_info :=
  match d with
  | RX_BE => rx_be_devs r | TX_BE => tx_be_devs r | RX_PCM => rx_pcm_devs r | TX_PCM => tx_pcm_devs r
  end.
Definition set_dev_at (d : adi_id) (v : amp_dev_info) (r : amp_devs) : amp_devs :=
  match d with
  | RX_BE => AmpDevs v (tx_be_devs r) (rx_pcm_devs r) (tx_pcm_devs r)
  | TX_BE => AmpDevs (rx_be_devs r) v (rx_pcm_devs r) (tx_pcm_devs r)
  | RX_PCM => AmpDevs (rx_be_devs r) (tx_be_devs r) v (tx_pcm_devs r)
  | TX_PCM => AmpDevs (rx_be_devs r) (tx_be_devs r) (rx_pcm_devs r) v
  end.

(** [struct amp_priv]; the arrays [ctls] and [ctl_names] are one array of
    controls, and a list head that was never initialised is [None]. *)
Record amp_priv : Type := AmpPriv {
  am_card : Z;
  am_card_node : option nat;
  am_aif_list : option (list (string * Z));
  am_events : option (list snd_ctl_event);
  am_params : option (list (Z * event_params));
  am_devs : amp_devs;
  am_ctls : option (list (option snd_control));
  am_ctl_count : Z;
  am_media : media_config;
  am_event_cb : Z
}.
Definition set_am_card (c : Z) (n : option nat) (r : amp_priv) : amp_priv :=
  AmpPriv c n (am_aif_list r) (am_events r) (am_params r) (am_devs r) (am_ctls r) (am_ctl_count r) (am_media r) (am_event_cb r).
Definition set_am_aif_list (v : option (list (string * Z))) (r : amp_priv) : amp_priv :=
  AmpPriv (am_card r) (am_card_node r) v (am_events r) (am_params r) (am_devs r) (am_ctls r) (am_ctl_count r) (am_media r) (am_event_cb r).
Definition set_am_events (v : option (list snd_ctl_event)) (r : amp_priv) : amp_priv :=
  AmpPriv (am_card r) (am_card_node r) (am_aif_list r) v (am_params r) (am_devs r) (am_ctls r) (am_ctl_count r) (am_media r) (am_event_cb r).
Definition set_am_params (v : option (list (Z * event_params))) (r : amp_priv) : amp_priv :=
  AmpPriv (am_card r) (am_card_node r) (am_aif_list r) (am_events r) v (am_devs r) (am_ctls r) (am_ctl_count r) (am_media r) (am_event_cb r).
Definition upd_am_adi (d : adi_id) (f : amp_dev_info -> amp_dev_info) (r : amp_priv) : amp_priv :=
  AmpPriv (am_card r) (am_card_node r) (am_aif_list r) (am_events r) (am_params r)
    (set_dev_at d (f (dev_at d (am_devs r))) (am_devs r)) (am_ctls r) (am_ctl_count r) (am_media r) (am_event_cb r).
Definition set_am_ctls (v : option (list (option snd_control))) (r : amp_priv) : amp_priv :=
  AmpPriv (am_card r) (am_card_node r) (am_aif_list r) (am_events r) (am_params r) (am_devs r) v (am_ctl_count r) (am_media r) (am_event_cb r).
Definition set_am_ctl_count (v : Z) (r : amp_priv) : amp_priv :=
  AmpPriv (am_card r) (am_card_node r) (am_aif_list r) (am_events r) (am_params r) (am_devs r) (am_ctls r) v (am_media r) (am_event_cb r).
Definition set_am_media (v : media_config) (r : amp_priv) : amp_priv :=
  AmpPriv (am_card r) (am_card_node r) (am_aif_list r) (am_events r) (am_params r) (am_devs r) (am_ctls r) (am_ctl_count r) v (am_event_cb r).
Definition set_am_event_cb (v : Z) (r : amp_priv) : amp_priv :=
  AmpPriv (am_card r) (am_card_node r) (am_aif_list r) (am_events r) (am_params r) (am_devs r) (am_ctls r) (am_ctl_count r) (am_media r) v.
Definition am_adi (d : adi_id) (r : amp_priv) : amp_dev_info := dev_at d (am_devs r).
Definition amp_zero : amp_priv :=
  AmpPriv 0 None None None None (AmpDevs adi_zero adi_zero adi_zero adi_zero) None 0 media_zero 0.

(** [struct mixer_plugin]: [mx_subscribed] is set by tinyalsa;
    [mx_notified] counts the calls of tinyalsa's [event_callback]. *)
Record mixer_plugin : Type := MixerPlugin {
  mx_num_controls : Z;
  mx_subscribed : bool;
  mx_notified : nat;
  mx_priv : amp_priv
}.
Definition upd_mx_priv (f : amp_priv -> amp_priv) (r : mixer_plugin) : mixer_plugin :=
  MixerPlugin (mx_num_controls r) (mx_subscribed r) (mx_notified r) (f (mx_priv r)).
Definition set_mx_num_controls (v : Z) (r : mixer_plugin) : mixer_plugin :=
  MixerPlugin v (mx_subscribed r) (mx_notified r) (mx_priv r).
Definition set_mx_notified (v : nat) (r : mixer_plugin) : mixer_plugin :=
  MixerPlugin (mx_num_controls r) (mx_subscribed r) v (mx_priv r).

Abbreviation AMP := (M (host mixer_plugin)).

(** ** Access *)

Definition get_amp : AMP amp_priv := let! p := the_inst in ret (mx_priv p).
Definition upd_amp (f : amp_priv -> amp_priv) : AMP unit := upd_inst (upd_mx_priv f).
Definition get_adi (d : adi_id) : AMP amp_dev_info := let! a := get_amp in ret (am_adi d a).
Definition upd_adi (d : adi_id) (f : amp_dev_info -> amp_dev_info) : AMP unit := upd_amp (upd_am_adi d f).

(** [p[i]], and [p[i] = v] as the new contents of the array. *)
Definition at_idx {S A} (p : option (list A)) (i : Z) : M S A :=
  let! l := the NullDeref p in
  if i <? 0 then crash_with OutOfBounds else the OutOfBounds (l !! Z.to_nat i).

Definition store_idx {S A} (p : option (list A)) (i : Z) (v : A) : M S (option (list A)) :=
  let! l := the NullDeref p in
  if (0 <=? i) && (i <? Z.of_nat (length l)) then ret (Some (<[Z.to_nat i := v]> l))
  else crash_with OutOfBounds.

Definition store_name (d : adi_id) (i : Z) (v : option string) : AMP unit :=
  let! a := get_adi d in let! l := store_idx (ad_names a) i v in upd_adi d (set_ad_names l).
Definition store_id (d : adi_id) (i : Z) (v : Z) : AMP unit :=
  let! a := get_adi d in let! l := store_idx (ad_idx_arr a) i v in upd_adi d (set_ad_idx_arr l).

(** ** Freeing *)

Section Mixer.
Context `{Env, SndEnv, PlugEnv, Mixer}.

Definition amp_get_be_adi (dir : Z) : option adi_id :=
  if dir =? RX then Some RX_BE else if dir =? TX then Some TX_BE else None.

Definition amp_free_dev_info (d : adi_id) : AMP unit :=
  do! upd_adi d (set_ad_names None) ;
  do! upd_adi d (set_ad_idx_arr None) ;
  do! upd_adi d (set_ad_mtd_ctl None) ;
  do! upd_adi d (set_ad_param None) ;
  upd_adi d (set_ad_count 0).

Definition amp_free_be_dev_info : AMP unit :=
  do! amp_free_dev_info RX_BE ;
  do! amp_free_dev_info TX_BE ;
  upd_amp (set_am_aif_list None).

Definition amp_free_pcm_dev_info : AMP unit :=
  do! amp_free_dev_info RX_PCM ; amp_free_dev_info TX_PCM.

Definition amp_free_ctls : AMP unit :=
  do! upd_amp (set_am_ctls None) ; upd_amp (set_am_ctl_count 0).

(** ** Back ends *)

(** The loop of [amp_copy_be_names_from_aif_list], from [be_idx]: the
    interfaces of one direction, and the final [be_idx]. *)
Fixpoint copy_be_names (aif_list : list (string * Z)) (i : Z) (d : adi_id) (dir be_idx : Z) : AMP Z :=
  match aif_list with
  | [] => ret be_idx
  | (aif_name, aif_dir) :: aif_list' =>
      if negb (aif_dir =? dir) then copy_be_names aif_list' (i + 1) d dir be_idx else
      do! store_name d be_idx (Some aif_name) ;
      do! store_id d be_idx i ;
      copy_be_names aif_list' (i + 1) d dir (be_idx + 1)
  end.

Definition amp_copy_be_names_from_aif_list (aif_list : list (string * Z)) (d : adi_id) (dir : Z)
  : AMP unit :=
  do! store_name d 0 (Some "ZERO"%string) ;
  do! store_id d 0 0 ;
  let! be_idx := copy_be_names aif_list 0 d dir 1 in
  do! upd_adi d (set_ad_count be_idx) ;
  upd_adi d (set_ad_items be_idx).

(** The loop that counts the back ends. *)
Fixpoint count_be (aif_list : list (string * Z)) : AMP unit :=
  match aif_list with
  | [] => ret tt
  | (_, dir) :: aif_list' =>
      do! (if dir =? RX then upd_adi RX_BE (fun a => set_ad_count (ad_count a + 1) a)
           else if dir =? TX then upd_adi TX_BE (fun a => set_ad_count (ad_count a + 1) a)
           else ret tt) ;
      count_be aif_list'
  end.

(** [adi->names = calloc(adi->count + 1, ...); adi->idx_arr = calloc(...)] and
    whether both succeeded. *)
Definition alloc_dev_info (d : adi_id) : AMP bool :=
  let! a := get_adi d in
  let n := Z.to_nat (ad_count a + 1) in
  let! ok1 := plug_calloc in
  do! upd_adi d (set_ad_names (if ok1 then Some (replicate n None) else None)) ;
  let! ok2 := plug_calloc in
  do! upd_adi d (set_ad_idx_arr (if ok2 then Some (replicate n 0) else None)) ;
  ret (ok1 && ok2).

Definition amp_get_be_info : AMP Z :=
  let! (r, out) := lift_agm (agm_get_aif_info_list false (Some 0)) in
  let be_count := match out with Some (_, n) => n | None => 0 end in
  if nz r || (be_count =? 0) then ret (- EINVAL) else
  let! ok := plug_calloc in
  if negb ok then ret (- ENOMEM) else
  let! (r, out) := lift_agm (agm_get_aif_info_list true (Some be_count)) in
  if nz r then do! amp_free_be_dev_info ; ret r else
  let aif_list := match out with Some (l, _) => l | None => [] end in
  do! upd_adi RX_BE (set_ad_count 0) ;
  do! upd_adi TX_BE (set_ad_count 0) ;
  do! count_be aif_list ;
  let! rx_ok := alloc_dev_info RX_BE in
  let! tx_ok := alloc_dev_info TX_BE in
  if negb (rx_ok && tx_ok) then do! amp_free_be_dev_info ; ret (- ENOMEM) else
  do! amp_copy_be_names_from_aif_list aif_list RX_BE RX ;
  do! amp_copy_be_names_from_aif_list aif_list TX_BE TX ;
  do! upd_amp (set_am_aif_list (Some aif_list)) ;
  ret 0.

(** ** PCMs *)

(** The loop of [amp_create_pcm_info_from_card].  [val] keeps the value of the
    node before when a node has no property [dir]. *)
Fixpoint pcm_info_loop (d : adi_id) (dir : string) (pcm_node_list : list snd_node) (val idx : Z)
  : AMP (Z * Z) :=
  match pcm_node_list with
  | [] => ret (0, idx)
  | pcm_node :: nodes =>
      let! (_, v) := lift_snd (snd_card_def_get_int (Some pcm_node) dir) in
      let val := default val v in
      if val =? 0 then pcm_info_loop d dir nodes val idx else
      let! (r, name) := lift_snd (snd_card_def_get_str (Some pcm_node) "name") in
      if nz r then ret (- EINVAL, idx) else
      do! store_name d idx name ;
      let! (r, id) := lift_snd (snd_card_def_get_int (Some pcm_node) "id") in
      if nz r then ret (- EINVAL, idx) else
      do! store_id d idx (default 0 id) ;
      pcm_info_loop d dir nodes val (idx + 1)
  end.

Definition amp_create_pcm_info_from_card (d : adi_id) (dir : string) (pcm_node_list : list snd_node)
  : AMP Z :=
  do! store_name d 0 (Some "ZERO"%string) ;
  do! store_id d 0 0 ;
  let! (r, idx) := pcm_info_loop d dir pcm_node_list 0 1 in
  if nz r then ret r else
  do! upd_adi d (set_ad_count idx) ;
  ret 0.

(** The two loops that count the PCMs of a direction. *)
Fixpoint count_pcms (d : adi_id) (dir : string) (pcm_node_list : list snd_node) (val : Z) : AMP unit :=
  match pcm_node_list with
  | [] => ret tt
  | pcm_node :: nodes =>
      let! (_, v) := lift_snd (snd_card_def_get_int (Some pcm_node) dir) in
      let val := default val v in
      do! (if val =? 1 then upd_adi d (fun a => set_ad_count (ad_count a + 1) a) else ret tt) ;
      count_pcms d dir nodes val
  end.

(** [num] nodes of a kind, when there are any. *)
Definition get_nodes (card_node : option nat) (type : snd_node_type) (num : Z) : AMP (Z * list snd_node) :=
  if 0 <? num then lift_snd (snd_card_def_get_nodes_for_type card_node (node_type_num type) num)
  else ret (0, []).

Definition amp_get_pcm_info : AMP Z :=
  let! amp := get_amp in
  let card_node := am_card_node amp in
  let! num_pcms := lift_snd (snd_card_def_get_num_node card_node (node_type_num SND_NODE_TYPE_PCM)) in
  let! num_compr := lift_snd (snd_card_def_get_num_node card_node (node_type_num SND_NODE_TYPE_COMPR)) in
  if (num_pcms <=? 0) && (num_compr <=? 0) then ret (- EINVAL) else
  let num_compr := if (0 <=? num_pcms) && (num_compr <? 0) then 0 else num_compr in
  let num_pcms := if num_pcms <? 0 then 0 else num_pcms in
  let! ok := plug_calloc in
  if negb ok then ret (- ENOMEM) else
  let! (r, pcms) := get_nodes card_node SND_NODE_TYPE_PCM num_pcms in
  if nz r then ret r else
  let! (r, comprs) := get_nodes card_node SND_NODE_TYPE_COMPR num_compr in
  if nz r then ret r else
  let pcm_node_list := pcms ++ comprs in
  do! count_pcms RX_PCM "playback" pcm_node_list 0 ;
  do! count_pcms TX_PCM "capture" pcm_node_list 0 ;
  let! rx_ok := alloc_dev_info RX_PCM in
  let! tx_ok := alloc_dev_info TX_PCM in
  if negb (rx_ok && tx_ok) then do! amp_free_pcm_dev_info ; ret (- ENOMEM) else
  let! r := amp_create_pcm_info_from_card RX_PCM "playback" pcm_node_list in
  if nz r then do! amp_free_pcm_dev_info ; ret r else
  let! r := amp_create_pcm_info_from_card TX_PCM "capture" pcm_node_list in
  if nz r then do! amp_free_pcm_dev_info ; ret r else
  do! upd_adi RX_PCM (fun a => set_ad_items (ad_count a) a) ;
  do! upd_adi TX_PCM (fun a => set_ad_items (ad_count a) a) ;
  ret 0.

(** ** Controls *)

Definition amp_be_ctl_name_extn : list string := ["rate ch fmt"; "metadata"; "setParam"].
Definition amp_pcm_ctl_name_extn : list string :=
  ["connect"; "disconnect"; "control"; "metadata"; "setParam"; "setParamTag"; "getTaggedInfo";
   "event"; "setCalibration"; "getParam"; "getBufInfo"].
Definition amp_pcm_tx_ctl_names : list string := ["loopback"; "echoReference"; "bufTimestamp"].
Definition amp_pcm_rx_ctl_names : list string := ["sidetone"].

(** The enumerations that index these arrays. *)
Definition BE_CTL_NAME_MEDIA_CONFIG : nat := 0.
Definition BE_CTL_NAME_METADATA : nat := 1.
Definition BE_CTL_NAME_SET_PARAM : nat := 2.
Definition PCM_CTL_NAME_CONNECT : nat := 0.
Definition PCM_CTL_NAME_DISCONNECT : nat := 1.
Definition PCM_CTL_NAME_MTD_CONTROL : nat := 2.
Definition PCM_CTL_NAME_METADATA : nat := 3.
Definition PCM_CTL_NAME_SET_PARAM : nat := 4.
Definition PCM_CTL_NAME_SET_PARAM_TAG : nat := 5.
Definition PCM_CTL_NAME_GET_TAG_INFO : nat := 6.
Definition PCM_CTL_NAME_EVENT : nat := 7.
Definition PCM_CTL_NAME_SET_CALIBRATION : nat := 8.
Definition PCM_CTL_NAME_GET_PARAM : nat := 9.
Definition PCM_CTL_NAME_BUF_INFO : nat := 10.
Definition PCM_TX_CTL_NAME_LOOPBACK : nat := 0.
Definition PCM_TX_CTL_NAME_ECHOREF : nat := 1.
Definition PCM_CTL_NAME_BUF_TSTAMP : nat := 2.
Definition PCM_RX_CTL_NAME_SIDETONE : nat := 0.

Definition amp_get_be_ctl_count : AMP Z :=
  let! rx_adi := get_adi RX_BE in
  let! tx_adi := get_adi TX_BE in
  let ctl_per_be := Z.of_nat (length amp_be_ctl_name_extn) in
  ret ((ad_count rx_adi - 1) * ctl_per_be + (ad_count tx_adi - 1) * ctl_per_be).

Definition amp_get_pcm_ctl_count : AMP Z :=
  let! rx_adi := get_adi RX_PCM in
  let! tx_adi := get_adi TX_PCM in
  let ctl_per_pcm := Z.of_nat (length amp_pcm_ctl_name_extn) in
  let count := (ad_count rx_adi - 1) * ctl_per_pcm + (ad_count tx_adi - 1) * ctl_per_pcm in
  let count := count + (ad_count tx_adi - 1) * Z.of_nat (length amp_pcm_tx_ctl_names) in
  ret (count + (ad_count rx_adi - 1) * Z.of_nat (length amp_pcm_rx_ctl_names)).

(** The size of a name in [ctl_names], and
    [snprintf(ctl_name, AIF_NAME_MAX_LEN + 16, "%s %s", pname, extn)]. *)
Definition CTL_NAME_LEN : nat := AIF_NAME_MAX_LEN + 16.
Definition ctl_name (pname extn : string) : string :=
  String.substring 0 (CTL_NAME_LEN - 1) (pname ++ String " " extn).

(** [snprintf] into the name [ctl_idx], and [INIT_SND_CONTROL_*] of the
    control [ctl_idx]. *)
Definition init_control (ctl_idx : Z) (pname : option string) (extn : string) (value : ctl_value)
    (fns : ctl_fns) (pval : Z) (pdata : adi_id) : AMP unit :=
  let! amp := get_amp in
  let! pname := the NullDeref pname in
  let! ctls := store_idx (am_ctls amp) ctl_idx
                 (Some (SndControl (ctl_name pname extn) value fns pval pdata)) in
  upd_amp (set_am_ctls ctls).

Definition extn_at (names : list string) (i : nat) : string := nth i names EmptyString.

Definition amp_create_connect_ctl (pname : option string) (ctl_idx : Z) (e : adi_id) (pval : Z)
    (pdata : adi_id) : AMP unit :=
  init_control ctl_idx pname (extn_at amp_pcm_ctl_name_extn PCM_CTL_NAME_CONNECT)
    (VALUE_ENUM e) AIF_CONNECT pval pdata.
Definition amp_create_disconnect_ctl (pname : option string) (ctl_idx : Z) (e : adi_id) (pval : Z)
    (pdata : adi_id) : AMP unit :=
  init_control ctl_idx pname (extn_at amp_pcm_ctl_name_extn PCM_CTL_NAME_DISCONNECT)
    (VALUE_ENUM e) AIF_CONNECT pval pdata.
Definition amp_create_mtd_control_ctl (pname : option string) (ctl_idx : Z) (e : adi_id) (pval : Z)
    (pdata : adi_id) : AMP unit :=
  init_control ctl_idx pname (extn_at amp_pcm_ctl_name_extn PCM_CTL_NAME_MTD_CONTROL)
    (VALUE_ENUM e) MTD_CONTROL pval pdata.
Definition amp_create_pcm_event_ctl (name : option string) (ctl_idx pval : Z) (pdata : adi_id)
  : AMP unit :=
  init_control ctl_idx name (extn_at amp_pcm_ctl_name_extn PCM_CTL_NAME_EVENT)
    (VALUE_BYTES (512 - 16)) PCM_EVENT pval pdata.
Definition amp_create_pcm_metadata_ctl (name : option string) (ctl_idx pval : Z) (pdata : adi_id)
  : AMP unit :=
  init_control ctl_idx name (extn_at amp_pcm_ctl_name_extn PCM_CTL_NAME_METADATA)
    (VALUE_TLV_BYTES 1024) PCM_METADATA pval pdata.
Definition amp_create_pcm_set_param_ctl (name : option string) (ctl_idx pval : Z) (pdata : adi_id)
    (istagged_setparam : bool) : AMP unit :=
  if negb istagged_setparam then
    init_control ctl_idx name (extn_at amp_pcm_ctl_name_extn PCM_CTL_NAME_SET_PARAM)
      (VALUE_TLV_BYTES (128 * 1024)) PCM_SET_PARAM pval pdata
  else
    init_control ctl_idx name (extn_at amp_pcm_ctl_name_extn PCM_CTL_NAME_SET_PARAM_TAG)
      (VALUE_TLV_BYTES 1024) PCM_SET_PARAM pval pdata.
Definition amp_create_pcm_get_param_ctl (name : option string) (ctl_idx pval : Z) (pdata : adi_id)
  : AMP unit :=
  init_control ctl_idx name (extn_at amp_pcm_ctl_name_extn PCM_CTL_NAME_GET_PARAM)
    (VALUE_TLV_BYTES (128 * 1024)) PCM_GET_PARAM pval pdata.
Definition amp_create_pcm_get_tag_info_ctl (name : option string) (ctl_idx pval : Z) (pdata : adi_id)
  : AMP unit :=
  init_control ctl_idx name (extn_at amp_pcm_ctl_name_extn PCM_CTL_NAME_GET_TAG_INFO)
    (VALUE_TLV_BYTES 1024) PCM_TAG_INFO pval pdata.
Definition amp_create_pcm_loopback_ctl (pname : option string) (ctl_idx : Z) (e : adi_id) (pval : Z)
    (pdata : adi_id) : AMP unit :=
  init_control ctl_idx pname (extn_at amp_pcm_tx_ctl_names PCM_TX_CTL_NAME_LOOPBACK)
    (VALUE_ENUM e) PCM_LOOPBACK pval pdata.
Definition amp_create_pcm_echoref_ctl (pname : option string) (ctl_idx : Z) (e : adi_id) (pval : Z)
    (pdata : adi_id) : AMP unit :=
  init_control ctl_idx pname (extn_at amp_pcm_tx_ctl_names PCM_TX_CTL_NAME_ECHOREF)
    (VALUE_ENUM e) PCM_ECHOREF pval pdata.
Definition amp_create_pcm_sidetone_ctl (pname : option string) (ctl_idx : Z) (e : adi_id) (pval : Z)
    (pdata : adi_id) : AMP unit :=
  init_control ctl_idx pname (extn_at amp_pcm_rx_ctl_names PCM_RX_CTL_NAME_SIDETONE)
    (VALUE_ENUM e) PCM_SIDETONE pval pdata.
Definition amp_create_pcm_calibration_ctl (name : option string) (ctl_idx pval : Z) (pdata : adi_id)
  : AMP unit :=
  init_control ctl_idx name (extn_at amp_pcm_ctl_name_extn PCM_CTL_NAME_SET_CALIBRATION)
    (VALUE_BYTES (512 - 16)) PCM_CALIBRATION pval pdata.
Definition amp_create_pcm_buf_tstamp_ctl (name : option string) (ctl_idx pval : Z) (pdata : adi_id)
  : AMP unit :=
  init_control ctl_idx name (extn_at amp_pcm_tx_ctl_names PCM_CTL_NAME_BUF_TSTAMP)
    (VALUE_BYTES (512 - 16)) PCM_BUF_TSTAMP pval pdata.
Definition amp_create_pcm_bufinfo_ctl (name : option string) (ctl_idx pval : Z) (pdata : adi_id)
  : AMP unit :=
  init_control ctl_idx name (extn_at amp_pcm_ctl_name_extn PCM_CTL_NAME_BUF_INFO)
    (VALUE_BYTES (512 - 16)) PCM_BUF_INFO pval pdata.
Definition amp_create_metadata_ctl (be_name : option string) (ctl_idx pval : Z) (pdata : adi_id)
  : AMP unit :=
  init_control ctl_idx be_name (extn_at amp_be_ctl_name_extn BE_CTL_NAME_METADATA)
    (VALUE_TLV_BYTES 1024) BE_METADATA pval pdata.
Definition amp_create_media_fmt_ctl (be_name : option string) (ctl_idx pval : Z) (pdata : adi_id)
  : AMP unit :=
  init_control ctl_idx be_name (extn_at amp_be_ctl_name_extn BE_CTL_NAME_MEDIA_CONFIG)
    (VALUE_INTEGER 4 0 384000 1) BE_MEDIA_FMT pval pdata.
Definition amp_create_be_set_param_ctl (be_name : option string) (ctl_idx pval : Z) (pdata : adi_id)
  : AMP unit :=
  init_control ctl_idx be_name (extn_at amp_be_ctl_name_extn BE_CTL_NAME_SET_PARAM)
    (VALUE_TLV_BYTES (64 * 1024)) BE_SET_PARAM pval pdata.

(** [for (i = 1; i < adi->count; i++)] over the name and the index of each
    entry, with the running [ctl_idx]. *)
Definition for_devs (d : adi_id) (ctl_idx : Z) (body : Z -> option string -> Z -> Z -> AMP Z) : AMP Z :=
  let! adi := get_adi d in
  for_fold (seq 1 (Z.to_nat (ad_count adi - 1))) (fun i ctl_idx =>
    let! adi := get_adi d in
    let! name := at_idx (ad_names adi) (Z.of_nat i) in
    let! idx := at_idx (ad_idx_arr adi) (Z.of_nat i) in
    body (Z.of_nat i) name idx ctl_idx) ctl_idx.

Definition form_be_ctls_of (d : adi_id) (ctl_idx : Z) : AMP Z :=
  for_devs d ctl_idx (fun _ name idx ctl_idx =>
    do! amp_create_media_fmt_ctl name ctl_idx idx d ;
    do! amp_create_metadata_ctl name (ctl_idx + 1) idx d ;
    do! amp_create_be_set_param_ctl name (ctl_idx + 2) idx d ;
    ret (ctl_idx + 3)).

Definition amp_form_be_ctls (ctl_idx ctl_cnt : Z) : AMP Z :=
  let! ctl_idx := form_be_ctls_of RX_BE ctl_idx in
  let! _ := form_be_ctls_of TX_BE ctl_idx in
  ret 0.

(** The status and the new [*ctl_idx]. *)
Definition amp_form_common_pcm_ctls (ctl_idx : Z) (pcm_adi be_adi : adi_id) : AMP (Z * Z) :=
  let! adi := get_adi pcm_adi in
  let! ok := plug_calloc in
  do! upd_adi pcm_adi (set_ad_mtd_ctl
        (if ok then Some (replicate (Z.to_nat (ad_count adi)) 0) else None)) ;
  if negb ok then ret (- ENOMEM, ctl_idx) else
  let! ctl_idx := for_devs pcm_adi ctl_idx (fun i name idx k =>
    do! amp_create_connect_ctl name k be_adi idx pcm_adi ;
    do! amp_create_disconnect_ctl name (k + 1) be_adi idx pcm_adi ;
    do! amp_create_mtd_control_ctl name (k + 2) be_adi i pcm_adi ;
    do! amp_create_pcm_metadata_ctl name (k + 3) idx pcm_adi ;
    do! amp_create_pcm_set_param_ctl name (k + 4) idx pcm_adi false ;
    do! amp_create_pcm_set_param_ctl name (k + 5) idx pcm_adi true ;
    do! amp_create_pcm_get_tag_info_ctl name (k + 6) idx pcm_adi ;
    do! amp_create_pcm_event_ctl name (k + 7) idx pcm_adi ;
    do! amp_create_pcm_calibration_ctl name (k + 8) idx pcm_adi ;
    do! amp_create_pcm_get_param_ctl name (k + 9) idx pcm_adi ;
    do! amp_create_pcm_bufinfo_ctl name (k + 10) idx pcm_adi ;
    ret (k + 11)) in
  ret (0, ctl_idx).

Definition amp_form_tx_pcm_ctls (ctl_idx : Z) : AMP (Z * Z) :=
  let! ctl_idx := for_devs TX_PCM ctl_idx (fun _ name idx k =>
    do! amp_create_pcm_loopback_ctl name k RX_PCM idx TX_PCM ;
    do! amp_create_pcm_echoref_ctl name (k + 1) RX_BE idx TX_PCM ;
    do! amp_create_pcm_buf_tstamp_ctl name (k + 2) idx TX_PCM ;
    ret (k + 3)) in
  ret (0, ctl_idx).

Definition amp_form_rx_pcm_ctls (ctl_idx : Z) : AMP (Z * Z) :=
  let! ctl_idx := for_devs RX_PCM ctl_idx (fun _ name idx k =>
    do! amp_create_pcm_sidetone_ctl name k TX_BE idx RX_PCM ;
    ret (k + 1)) in
  ret (0, ctl_idx).

Definition amp_form_pcm_ctls (ctl_idx ctl_cnt : Z) : AMP Z :=
  let! (r, ctl_idx) := amp_form_common_pcm_ctls ctl_idx RX_PCM RX_BE in
  if nz r then ret r else
  let! (r, ctl_idx) := amp_form_rx_pcm_ctls ctl_idx in
  if nz r then ret r else
  let! (r, ctl_idx) := amp_form_common_pcm_ctls ctl_idx TX_PCM TX_BE in
  if nz r then ret r else
  let! (r, _) := amp_form_tx_pcm_ctls ctl_idx in
  ret r.
End Mixer.
