(* ===== verification/MixerCtl.v ===== *)
(** * The mixer plug-in: handlers, events, open and close

    A control is written or read by the function in its [sc_fns]; a handler takes
    the control and the value tinyalsa passes, by the member of the union it uses:
    the [item] of an enumeration, the array [integer.value], the bytes of
    [bytes.data], or a [snd_ctl_tlv].  A handler that fills the value returns
    the new one with its status. *)

From S2P Require Export MixerPlugin.
From stdpp Require Import pretty.
Open Scope Z_scope.
#[export] Set Default Goal Selector "!".

(** [struct snd_ctl_tlv]: [length] is the client's, the data what follows it
    in memory. *)
Record snd_ctl_tlv : Type := SndCtlTlv { tlv_length : Z; tlv_data : list Z }.

Section MixerCtl.
Context `{Env, Alsa, SndEnv, PlugEnv, Mixer}.

Definition alsa_to_agm_fmt (fmt : Z) : Z :=
  if fmt =? SNDRV_PCM_FORMAT_S8 then AGM_FORMAT_PCM_S8
  else if fmt =? SNDRV_PCM_FORMAT_S16_LE then AGM_FORMAT_PCM_S16_LE
  else if fmt =? SNDRV_PCM_FORMAT_S24_LE then AGM_FORMAT_PCM_S24_LE
  else if fmt =? SNDRV_PCM_FORMAT_S24_3LE then AGM_FORMAT_PCM_S24_3LE
  else if fmt =? SNDRV_PCM_FORMAT_S32_LE then AGM_FORMAT_PCM_S32_LE
  else AGM_FORMAT_INVALID.

(** The first [n] bytes at a pointer, and [memcpy] to the start of a buffer. *)
Definition bytes_at (data : list Z) (n : Z) : AMP (list Z) := lift_agm (read_bytes data 0 n).
Definition copy_to (data src : list Z) : AMP (list Z) :=
  if (length src <=? length data)%nat then ret (src ++ drop (length src) data)
  else crash_with OutOfBounds.

(** [if (ret == -EALREADY) ret = 0;] *)
Definition ignore_already (r : Z) : Z := if r =? - EALREADY then 0 else r.

(** The loop that looks for [pcm_idx]. *)
Definition find_pcm (adi : amp_dev_info) (pcm_idx : Z) : AMP (option nat) :=
  for_idx (seq 1 (Z.to_nat (ad_count adi - 1))) (fun mtd_idx =>
    let! v := at_idx (ad_idx_arr adi) (Z.of_nat mtd_idx) in
    ret (if pcm_idx =? v then Some mtd_idx else None)).

Definition amp_pcm_get_control_value (pcm_idx : Z) (pcm_adi : adi_id) : AMP Z :=
  let! adi := get_adi pcm_adi in
  let! found := find_pcm adi pcm_idx in
  match found with
  | None => ret (- EINVAL)
  | Some mtd_idx => at_idx (ad_mtd_ctl adi) (Z.of_nat mtd_idx)
  end.

(** [be_adi->idx_arr[i]] for the back ends of the direction of a PCM, or a
    NULL [be_adi]. *)
Definition be_idx_at (pcm_adi : adi_id) (i : Z) : AMP Z :=
  let! adi := get_adi pcm_adi in
  let! be_adi := the NullDeref (amp_get_be_adi (ad_dir adi)) in
  let! be := get_adi be_adi in
  at_idx (ad_idx_arr be) i.

(** ** Back ends *)

Definition amp_be_media_fmt_get (ctl : snd_control) (value : list Z) : AMP Z := ret 0.

Definition amp_be_media_fmt_put (ctl : snd_control) (value : list Z) : AMP Z :=
  let! v0 := the OutOfBounds (value !! 0%nat) in
  let! v1 := the OutOfBounds (value !! 1%nat) in
  let! v2 := the OutOfBounds (value !! 2%nat) in
  let! v3 := the OutOfBounds (value !! 3%nat) in
  let media := MediaConfig (u32 v0) (u32 v1) (alsa_to_agm_fmt (s32 v2)) (u32 v3) in
  do! upd_amp (set_am_media media) ;
  lift_agm (agm_aif_set_media_config (u32 (sc_private_value ctl)) (Some media)).

Definition amp_be_set_param_get (ctl : snd_control) (tlv : snd_ctl_tlv) : AMP Z := ret 0.

Definition amp_be_set_param_put (ctl : snd_control) (tlv : snd_ctl_tlv) : AMP Z :=
  let! payload := bytes_at (tlv_data tlv) (tlv_length tlv) in
  lift_agm (agm_aif_set_params (u32 (sc_private_value ctl)) payload).

Definition amp_be_metadata_get (ctl : snd_control) (tlv : snd_ctl_tlv) : AMP Z := ret 0.

Definition amp_be_metadata_put (ctl : snd_control) (tlv : snd_ctl_tlv) : AMP Z :=
  let! r := lift_agm (agm_aif_set_metadata (u32 (sc_private_value ctl)) (tlv_length tlv) (tlv_data tlv)) in
  ret (ignore_already r).

(** ** PCMs *)

(** The value is the bytes of a [struct agm_buf_info]. *)
Definition amp_pcm_buf_info_get (ctl : snd_control) (buf_info : buf_info) : AMP (Z * Types.buf_info) :=
  lift_agm (agm_session_get_buf_info (u32 (sc_private_value ctl)) buf_info DATA_BUF).
Definition amp_pcm_buf_info_put (ctl : snd_control) (data : list Z) : AMP Z := ret 0.

Definition amp_pcm_aif_connect_get (ctl : snd_control) (item : Z) : AMP Z := ret 0.

(** One function for the controls "connect" and "disconnect", told apart by
    the name; the status of the service is dropped. *)
Definition amp_pcm_aif_connect_put (ctl : snd_control) (item : Z) : AMP Z :=
  let! pcm_adi := get_adi (sc_private_data ctl) in
  match amp_get_be_adi (ad_dir pcm_adi) with
  | None => ret (- EINVAL)
  | Some be_adi =>
      if item =? 0 then ret 0 else
      let state := negb (strstr "disconnect" (sc_name ctl)) in
      let! be := get_adi be_adi in
      let! be_idx := at_idx (ad_idx_arr be) item in
      let! _ := lift_agm (agm_session_aif_connect (u32 (sc_private_value ctl)) (u32 be_idx) state) in
      ret 0
  end.

Definition amp_pcm_mtd_control_get (ctl : snd_control) (item : Z) : AMP (Z * Z) :=
  let! pcm_adi := get_adi (sc_private_data ctl) in
  let! v := at_idx (ad_mtd_ctl pcm_adi) (sc_private_value ctl) in
  ret (0, u32 v).

Definition amp_pcm_mtd_control_put (ctl : snd_control) (item : Z) : AMP Z :=
  let! pcm_adi := get_adi (sc_private_data ctl) in
  let! l := store_idx (ad_mtd_ctl pcm_adi) (sc_private_value ctl) (s32 item) in
  do! upd_adi (sc_private_data ctl) (set_ad_mtd_ctl l) ;
  ret 0.

(** A [struct agm_event_cb_params] as bytes. *)
Definition event_bytes (ev : event_params) : list Z :=
  enc32 (ev_source_module_id ev) ++ enc32 (ev_event_id ev) ++
  enc32 (Z.of_nat (length (ev_payload ev))) ++ ev_payload ev.

(** The oldest event of the session in [events_paramlist]. *)
Definition amp_pcm_event_get (ctl : snd_control) (data : list Z) : AMP (Z * list Z) :=
  let! amp := get_amp in
  let! l := the NullDeref (am_params amp) in
  match list_find (fun e => fst e = u32 (sc_private_value ctl)) l with
  | None => ret (0, data)
  | Some (i, (_, eparams)) =>
      let! data := copy_to data (event_bytes eparams) in
      do! upd_amp (set_am_params (Some (delete i l))) ;
      ret (0, data)
  end.

(** The [struct agm_event_reg_cfg] behind [data]. *)
Definition event_cfg_at (data : list Z) : AMP event_reg_cfg :=
  lift_agm
    (let! miid := read_u32 data 0 in
     let! event_id := read_u32 data 4 in
     let! size := read_u32 data 8 in
     let! is_register := read_bytes data 12 1 in
     let! payload := read_bytes data 13 size in
     ret (EventRegCfg miid event_id payload (nth 0 is_register 0))).

Definition amp_pcm_event_put (ctl : snd_control) (data : list Z) : AMP Z :=
  let! evt_reg_cfg := event_cfg_at data in
  let! r := lift_agm (agm_session_register_for_events (u32 (sc_private_value ctl)) (Some evt_reg_cfg)) in
  ret (ignore_already r).

Definition amp_pcm_metadata_get (ctl : snd_control) (tlv : snd_ctl_tlv) : AMP Z := ret 0.

Definition amp_pcm_metadata_put (ctl : snd_control) (tlv : snd_ctl_tlv) : AMP Z :=
  let pcm_idx := sc_private_value ctl in
  let! pcm_control := amp_pcm_get_control_value pcm_idx (sc_private_data ctl) in
  if pcm_control <? 0 then ret pcm_control else
  if pcm_control =? 0 then
    let! r := lift_agm (agm_session_set_metadata (u32 pcm_idx) (tlv_length tlv) (tlv_data tlv)) in
    ret (ignore_already r)
  else
    let! be_idx := be_idx_at (sc_private_data ctl) pcm_control in
    let! r := lift_agm (agm_session_aif_set_metadata (u32 pcm_idx) (u32 be_idx) (tlv_length tlv) (tlv_data tlv)) in
    ret (ignore_already r).

Definition amp_pcm_buf_tstamp_get (ctl : snd_control) : AMP (Z * option Z) :=
  lift_agm (agm_get_buffer_timestamp (u32 (sc_private_value ctl)) true).
Definition amp_pcm_buf_tstamp_put (ctl : snd_control) (data : list Z) : AMP Z := ret 0.

Definition amp_pcm_calibration_get (ctl : snd_control) (data : list Z) : AMP Z := ret 0.

(** The key vector of [num] pairs at an offset. *)
Definition kvs_at (data : list Z) (off num : Z) : AMP (list key_value) :=
  let! b := lift_agm (read_bytes data off (num * 8)) in ret (decode_kvs (Z.to_nat num) b).

(** The [struct agm_cal_config] is decoded here, so a count past the end of
    the value is an access out of bounds before the service reads it.  A back
    end is looked up even when none is selected: entry 0 is interface 0. *)
Definition amp_pcm_calibration_put (ctl : snd_control) (data : list Z) : AMP Z :=
  let pcm_idx := sc_private_value ctl in
  let! pcm_control := amp_pcm_get_control_value pcm_idx (sc_private_data ctl) in
  if pcm_control <? 0 then ret pcm_control else
  let! pcm_adi := get_adi (sc_private_data ctl) in
  match amp_get_be_adi (ad_dir pcm_adi) with
  | None => ret (- EINVAL)
  | Some be_adi =>
      let! be := get_adi be_adi in
      let! be_idx := at_idx (ad_idx_arr be) pcm_control in
      let! num_ckvs := lift_agm (read_u32 data 0) in
      let! cal := kvs_at data 4 num_ckvs in
      lift_agm (agm_session_aif_set_cal (u32 pcm_idx) (u32 be_idx) cal)
  end.

Definition amp_pcm_set_param_get (ctl : snd_control) (tlv : snd_ctl_tlv) : AMP Z := ret 0.

(** The controls "setParam" and "setParamTag"; the tag's payload is a
    [struct agm_tag_config]. *)
Definition amp_pcm_set_param_put (ctl : snd_control) (tlv : snd_ctl_tlv) : AMP Z :=
  let is_param_tag := strstr "setParamTag" (sc_name ctl) in
  let pcm_idx := sc_private_value ctl in
  let! pcm_control := amp_pcm_get_control_value pcm_idx (sc_private_data ctl) in
  if pcm_control <? 0 then ret pcm_control else
  if pcm_control =? 0 then
    if is_param_tag then ret (- EINVAL) else
    let! payload := bytes_at (tlv_data tlv) (tlv_length tlv) in
    lift_agm (agm_session_set_params (u32 pcm_idx) payload)
  else
    let! be_idx := be_idx_at (sc_private_data ctl) pcm_control in
    let! r := (if is_param_tag then
                 let! tag := lift_agm (read_u32 (tlv_data tlv) 0) in
                 let! num_tkvs := lift_agm (read_u32 (tlv_data tlv) 4) in
                 let! tkv := kvs_at (tlv_data tlv) 8 num_tkvs in
                 lift_agm (agm_set_params_with_tag (u32 pcm_idx) (u32 be_idx) tag
                             (KVec (Z.to_nat num_tkvs) (Some tkv)))
               else
                 let! payload := bytes_at (tlv_data tlv) (tlv_length tlv) in
                 lift_agm (agm_session_aif_set_params (u32 pcm_idx) (u32 be_idx) payload)) in
    ret (ignore_already r).

(** Reading needs a payload that [put] has left: it is copied over the value,
    sent to the service, and freed whatever the answer. *)
Definition amp_pcm_get_param_get (ctl : snd_control) (tlv : snd_ctl_tlv) : AMP (Z * snd_ctl_tlv) :=
  let d := sc_private_data ctl in
  let! pcm_adi := get_adi d in
  match ad_param pcm_adi with
  | None => ret (- EINVAL, tlv)
  | Some param =>
      if tlv_length tlv <? u64 (ad_param_size pcm_adi) then ret (- EINVAL, tlv) else
      let! src := bytes_at param (u64 (ad_param_size pcm_adi)) in
      let! data := copy_to (tlv_data tlv) src in
      let! payload := bytes_at data (tlv_length tlv) in
      let! (r, payload) := lift_agm (agm_session_get_params (u32 (sc_private_value ctl)) payload) in
      do! upd_adi d (set_ad_param None) ;
      do! upd_adi d (set_ad_param_size 0) ;
      ret (ignore_already r, SndCtlTlv (tlv_length tlv) (payload ++ drop (length payload) data))
  end.

Definition amp_pcm_get_param_put (ctl : snd_control) (tlv : snd_ctl_tlv) : AMP Z :=
  let d := sc_private_data ctl in
  let size := s32 (tlv_length tlv) in
  do! upd_adi d (set_ad_param None) ;
  do! upd_adi d (set_ad_param_size size) ;
  let! ok := plug_calloc in
  if negb ok then ret (- ENOMEM) else
  let! payload := bytes_at (tlv_data tlv) (u64 size) in
  do! upd_adi d (set_ad_param (Some payload)) ;
  ret 0.

Definition amp_pcm_tag_info_get (ctl : snd_control) (tlv : snd_ctl_tlv) : AMP (Z * snd_ctl_tlv) :=
  let pcm_idx := sc_private_value ctl in
  let! pcm_control := amp_pcm_get_control_value pcm_idx (sc_private_data ctl) in
  if pcm_control <? 0 then ret (pcm_control, tlv) else
  if pcm_control =? 0 then ret (- EINVAL, tlv) else
  let! be_idx := be_idx_at (sc_private_data ctl) pcm_control in
  let! (r, out) := lift_agm (agm_session_aif_get_tag_module_info (u32 pcm_idx) (u32 be_idx) (Some 0)) in
  let get_size := match out with Some (_, n) => n | None => 0 end in
  if nz r || (get_size =? 0) || (tlv_length tlv <? get_size) then ret (- EINVAL, tlv) else
  let! (r, out) := lift_agm (agm_session_aif_get_tag_module_info (u32 pcm_idx) (u32 be_idx) (Some get_size)) in
  let! data := copy_to (tlv_data tlv) (match out with Some (b, _) => b | None => [] end) in
  ret (r, SndCtlTlv (tlv_length tlv) data).
Definition amp_pcm_tag_info_put (ctl : snd_control) (tlv : snd_ctl_tlv) : AMP Z := ret 0.

Definition amp_pcm_loopback_get (ctl : snd_control) (item : Z) : AMP Z := ret 0.

Definition amp_pcm_loopback_put (ctl : snd_control) (item : Z) : AMP Z :=
  let! rx_pcm_idx :=
    (if item =? 0 then ret 0
     else let! pcm_rx_adi := get_adi RX_PCM in at_idx (ad_idx_arr pcm_rx_adi) item) in
  let! _ := lift_agm (agm_session_set_loopback (u32 (sc_private_value ctl)) (u32 rx_pcm_idx) (nz item)) in
  ret 0.

Definition amp_pcm_echoref_get (ctl : snd_control) (item : Z) : AMP Z := ret 0.

Definition amp_pcm_echoref_put (ctl : snd_control) (item : Z) : AMP Z :=
  match amp_get_be_adi RX with
  | None => ret (- EINVAL)
  | Some be_adi =>
      let! be := get_adi be_adi in
      let! be_idx := at_idx (ad_idx_arr be) item in
      let! _ := lift_agm (agm_session_set_ec_ref (u32 (sc_private_value ctl)) (u32 be_idx) (nz item)) in
      ret 0
  end.

Definition amp_pcm_sidetone_get (ctl : snd_control) (item : Z) : AMP Z := ret 0.
Definition amp_pcm_sidetone_put (ctl : snd_control) (item : Z) : AMP Z := ret 0.

(** ** Events *)

Definition amp_add_event_params (session_id : Z) (event_params : event_params) : AMP unit :=
  let! ok := plug_calloc in
  if negb ok then ret tt else
  let! amp := get_amp in
  let! l := the NullDeref (am_params amp) in
  upd_amp (set_am_params (Some (l ++ [(session_id, event_params)]))).

(** The size of the string: "PCM", 4, "event" and the terminator. *)
Definition EVENT_NAME_LEN : nat := 3 + 4 + 5 + 1.
(** [snprintf(mixer_str, ctl_len, "%s%d %s", "PCM", session_id, "event")] *)
Definition event_name (session_id : Z) : string :=
  String.substring 0 (EVENT_NAME_LEN - 1) ("PCM" ++ pretty (s32 session_id) ++ " event").

(** The callback the service calls for an event of a module; the plug-in may
    be closed. *)
Definition amp_event_cb (session_id : Z) (event_params : event_params) (client_data : Z) : AMP unit :=
  if client_data =? 0 then ret tt else
  let! plugin := the_inst in
  if negb (mx_subscribed plugin) then ret tt else
  do! amp_add_event_params session_id event_params ;
  let! ok := plug_calloc in
  if negb ok then ret tt else
  let name := String.substring 0 (SIZEOF_ELEM_ID_NAME - 1) (event_name session_id) in
  let! ok := plug_calloc in
  if negb ok then ret tt else
  let! amp := get_amp in
  let! l := the NullDeref (am_events amp) in
  do! upd_amp (set_am_events (Some (l ++ [SndCtlEvent SNDRV_CTL_EVENT_ELEM name]))) ;
  if nz (am_event_cb amp) then upd_inst (fun p => set_mx_notified (S (mx_notified p)) p) else ret tt.

Definition amp_register_event_callback (enable : bool) : AMP unit :=
  let cb := if enable then addr_amp_event_cb else 0 in
  let register (d : adi_id) : AMP unit :=
    let! adi := get_adi d in
    for_all (seq 1 (Z.to_nat (ad_count adi - 1))) (fun idx =>
      let! session_id := at_idx (ad_idx_arr adi) (Z.of_nat idx) in
      let! _ := lift_agm (agm_session_register_cb (u32 session_id) cb AGM_EVENT_MODULE addr_amp) in
      ret tt) in
  do! register RX_PCM ; register TX_PCM.

(** The loop over the queued events; [avail] bytes lie behind [ev], and what is
    written comes with its distance from the start of the buffer.  The pointer
    moves by [sizeof(struct snd_ctl_event)] structures, not bytes. *)
Fixpoint read_events (l : list snd_ctl_event) (avail off size result : Z)
  : AMP (Z * list (Z * snd_ctl_event)) :=
  if size <? sizeof_snd_ctl_event then ret (result, []) else
  match l with
  | [] => ret (result, [])
  | ev :: l' =>
      if avail <? off + sizeof_snd_ctl_event then crash_with OutOfBounds else
      do! upd_amp (set_am_events (Some l')) ;
      let! (result, written) := read_events l' avail
        (off + sizeof_snd_ctl_event * sizeof_snd_ctl_event) (size - sizeof_snd_ctl_event)
        (result + sizeof_snd_ctl_event) in
      ret (result, (off, ev) :: written)
  end.

(** [size] is the size of the buffer [ev]. *)
Definition amp_read_event (size : Z) : AMP (Z * list (Z * snd_ctl_event)) :=
  if size <? sizeof_snd_ctl_event then ret (0, []) else
  let! amp := get_amp in
  let! l := the NullDeref (am_events amp) in
  read_events l size 0 size 0.

Definition amp_subscribe_events (event_cb : Z) : AMP Z :=
  do! upd_amp (set_am_event_cb event_cb) ;
  if event_cb =? 0 then
    let! amp := get_amp in
    let! _ := the NullDeref (am_params amp) in
    do! upd_amp (set_am_params (Some [])) ;
    let! _ := the NullDeref (am_events amp) in
    do! upd_amp (set_am_events (Some [])) ;
    ret 0
  else ret 0.

(** ** Open and close *)

Definition amp_close : AMP unit :=
  do! amp_register_event_callback false ;
  let! _ := amp_subscribe_events 0 in
  let! amp := get_amp in
  do! lift_snd (snd_card_def_put_card (am_card_node amp)) ;
  do! amp_free_pcm_dev_info ;
  do! amp_free_be_dev_info ;
  do! amp_free_ctls ;
  modify (set_h_inst None).

(** From [err_get_be_info] on: the card is put back, both blocks are freed and
    every failure is reported as [-ENOMEM]. *)
Definition open_fail : AMP Z :=
  let! amp := get_amp in
  do! lift_snd (snd_card_def_put_card (am_card_node amp)) ;
  do! modify (set_h_inst None) ;
  ret (- ENOMEM).

Definition err_ctls_alloc : AMP Z :=
  do! amp_free_ctls ;
  do! amp_free_pcm_dev_info ;
  do! amp_free_be_dev_info ;
  open_fail.

(** [amp_priv->ctls = calloc(...); amp_priv->ctl_names = calloc(...)] and both
    groups of controls; a status that is not 0 leads to [err_ctls_alloc]. *)
Definition form_ctls (be_ctl_cnt pcm_ctl_cnt : Z) : AMP Z :=
  let total_ctl_cnt := be_ctl_cnt + pcm_ctl_cnt in
  let! ok1 := plug_calloc in
  do! upd_amp (set_am_ctls (if ok1 then Some (replicate (Z.to_nat total_ctl_cnt) None) else None)) ;
  let! ok2 := plug_calloc in
  if negb (ok1 && ok2) then ret (- ENOMEM) else
  let! r := amp_form_be_ctls 0 be_ctl_cnt in
  if nz r then ret r else amp_form_pcm_ctls be_ctl_cnt pcm_ctl_cnt.

(** The end of [open], from the registration of the controls on. *)
Definition publish (total_ctl_cnt : Z) : AMP Z :=
  do! (if 0 <? total_ctl_cnt then
         do! upd_amp (set_am_ctl_count total_ctl_cnt) ;
         upd_inst (set_mx_num_controls total_ctl_cnt)
       else ret tt) ;
  do! amp_register_event_callback true ;
  do! upd_amp (set_am_params (Some [])) ;
  do! upd_amp (set_am_events (Some [])) ;
  ret 0.

(** [agm_mixer_plugin_open]: the status, with the plug-in in [h_inst]. *)
Definition agm_mixer_plugin_open (card : Z) : AMP Z :=
  let! ok := plug_calloc in
  if negb ok then ret (- ENOMEM) else
  let! ok := plug_calloc in
  if negb ok then ret (- ENOMEM) else
  do! modify (set_h_inst (Some (MixerPlugin 0 false 0 amp_zero))) ;
  let! card_node := lift_snd (snd_card_def_get_card card) in
  do! upd_amp (set_am_card card card_node) ;
  match card_node with
  | None => do! modify (set_h_inst None) ; ret (- ENOMEM)
  | Some _ =>
      do! upd_adi RX_BE (set_ad_dir RX) ;
      do! upd_adi TX_BE (set_ad_dir TX) ;
      do! upd_adi RX_PCM (set_ad_dir RX) ;
      do! upd_adi TX_PCM (set_ad_dir TX) ;
      let! r := amp_get_be_info in
      if nz r then open_fail else
      let! r := amp_get_pcm_info in
      if nz r then do! amp_free_be_dev_info ; open_fail else
      let! be_ctl_cnt := amp_get_be_ctl_count in
      let! pcm_ctl_cnt := amp_get_pcm_ctl_count in
      let total_ctl_cnt := be_ctl_cnt + pcm_ctl_cnt in
      let! r := form_ctls be_ctl_cnt pcm_ctl_cnt in
      if nz r then err_ctls_alloc else
      publish total_ctl_cnt
  end.
End MixerCtl.
