(* ===== verification/MixerProps.v ===== *)
(** * The mixer plug-in: discovery and the array of controls

    What is discovered is stated by [adi_wf]: the arrays of an [amp_dev_info] are
    the entry "ZERO" and a list of names and numbers.  The controls are compared
    with reference lists, [all_ctls]; the array has room for exactly these. *)

From S2P Require Export MixerCtl.
Open Scope Z_scope.
#[export] Set Default Goal Selector "!".

(** ** Reference lists *)

Definition be_block (d : adi_id) (e : string * Z) : list snd_control :=
  let '(name, idx) := e in
  [SndControl (ctl_name name "rate ch fmt") (VALUE_INTEGER 4 0 384000 1) BE_MEDIA_FMT idx d;
   SndControl (ctl_name name "metadata") (VALUE_TLV_BYTES 1024) BE_METADATA idx d;
   SndControl (ctl_name name "setParam") (VALUE_TLV_BYTES 65536) BE_SET_PARAM idx d].

(** The [i]-th entry of a PCM list is the [i + 1]-st of its arrays. *)
Definition common_block (d be : adi_id) (i : nat) (e : string * Z) : list snd_control :=
  let '(name, idx) := e in
  [SndControl (ctl_name name "connect") (VALUE_ENUM be) AIF_CONNECT idx d;
   SndControl (ctl_name name "disconnect") (VALUE_ENUM be) AIF_CONNECT idx d;
   SndControl (ctl_name name "control") (VALUE_ENUM be) MTD_CONTROL (Z.of_nat (S i)) d;
   SndControl (ctl_name name "metadata") (VALUE_TLV_BYTES 1024) PCM_METADATA idx d;
   SndControl (ctl_name name "setParam") (VALUE_TLV_BYTES 131072) PCM_SET_PARAM idx d;
   SndControl (ctl_name name "setParamTag") (VALUE_TLV_BYTES 1024) PCM_SET_PARAM idx d;
   SndControl (ctl_name name "getTaggedInfo") (VALUE_TLV_BYTES 1024) PCM_TAG_INFO idx d;
   SndControl (ctl_name name "event") (VALUE_BYTES 496) PCM_EVENT idx d;
   SndControl (ctl_name name "setCalibration") (VALUE_BYTES 496) PCM_CALIBRATION idx d;
   SndControl (ctl_name name "getParam") (VALUE_TLV_BYTES 131072) PCM_GET_PARAM idx d;
   SndControl (ctl_name name "getBufInfo") (VALUE_BYTES 496) PCM_BUF_INFO idx d].

Definition rx_block (e : string * Z) : list snd_control :=
  let '(name, idx) := e in
  [SndControl (ctl_name name "sidetone") (VALUE_ENUM TX_BE) PCM_SIDETONE idx RX_PCM].

Definition tx_block (e : string * Z) : list snd_control :=
  let '(name, idx) := e in
  [SndControl (ctl_name name "loopback") (VALUE_ENUM RX_PCM) PCM_LOOPBACK idx TX_PCM;
   SndControl (ctl_name name "echoReference") (VALUE_ENUM RX_BE) PCM_ECHOREF idx TX_PCM;
   SndControl (ctl_name name "bufTimestamp") (VALUE_BYTES 496) PCM_BUF_TSTAMP idx TX_PCM].

Definition be_ctls (rx_be tx_be : list (string * Z)) : list snd_control :=
  concat (be_block RX_BE <$> rx_be) ++ concat (be_block TX_BE <$> tx_be).
Definition pcm_ctls (rx tx : list (string * Z)) : list snd_control :=
  concat (imap (common_block RX_PCM RX_BE) rx) ++ concat (rx_block <$> rx) ++
  concat (imap (common_block TX_PCM TX_BE) tx) ++ concat (tx_block <$> tx).
Definition all_ctls (rx_be tx_be rx tx : list (string * Z)) : list snd_control :=
  be_ctls rx_be tx_be ++ pcm_ctls rx tx.

(** The entries of an [amp_dev_info] behind "ZERO". *)
Record adi_wf (a : amp_dev_info) (l : list (string * Z)) : Prop := AdiWf {
  wf_count : ad_count a = Z.of_nat (S (length l));
  wf_names : ad_names a = Some (Some "ZERO"%string :: (Some ∘ fst <$> l));
  wf_idx : ad_idx_arr a = Some (0 :: (snd <$> l))
}.

Definition be_of (d : adi_id) : adi_id :=
  match d with RX_PCM => RX_BE | TX_PCM => TX_BE | d => d end.
Definition dir_of (d : adi_id) : Z := match d with RX_PCM | RX_BE => RX | _ => TX end.

(** The tables behind the controls of the PCMs of a direction. *)
Record pcm_tables (p : mixer_plugin) (d : adi_id) (l lb : list (string * Z)) (mtd : list Z) : Prop := PcmTables {
  pt_dir : ad_dir (am_adi d (mx_priv p)) = dir_of d;
  pt_pcms : adi_wf (am_adi d (mx_priv p)) l;
  pt_bes : adi_wf (am_adi (be_of d) (mx_priv p)) lb;
  pt_mtd : ad_mtd_ctl (am_adi d (mx_priv p)) = Some mtd;
  pt_len : length mtd = S (length l)
}.

(** The tables and controls of an open mixer. *)
Record mixer_wf (rx_be tx_be rx tx : list (string * Z)) (p : mixer_plugin) : Prop := MixerWf {
  mw_rx : exists mtd, pcm_tables p RX_PCM rx rx_be mtd;
  mw_tx : exists mtd, pcm_tables p TX_PCM tx tx_be mtd;
  mw_ctls : am_ctls (mx_priv p) = Some (map Some (all_ctls rx_be tx_be rx tx))
}.

(** ** Running the constructors *)

(** The plug-in with [l] controls made and [m] to come. *)
Definition with_ctls (l : list snd_control) (m : nat) (p : mixer_plugin) : mixer_plugin :=
  upd_mx_priv (set_am_ctls (Some (map Some l ++ replicate m None))) p.
Definition ctls_host (h : host mixer_plugin) (l : list snd_control) (m : nat) (p : mixer_plugin)
  : host mixer_plugin := set_h_inst (Some (with_ctls l m p)) h.

Section MixerProps.
Context `{Env, Alsa, SndEnv, PlugEnv, Mixer}.

Lemma get_amp_run p h : h_inst h = Some p -> get_amp h = Ret (mx_priv p) h.
Proof. unfold get_amp, the_inst, bind, ret. by intros ->. Qed.

Lemma get_adi_run d p h :
  h_inst h = Some p -> get_adi d h = Ret (am_adi d (mx_priv p)) h.
Proof. unfold get_adi, get_amp, the_inst, bind, ret. by intros ->. Qed.

Lemma upd_adi_run d f p h :
  h_inst h = Some p -> upd_adi d f h = Ret tt (set_h_inst (Some (upd_mx_priv (upd_am_adi d f) p)) h).
Proof. unfold upd_adi, upd_amp, upd_inst, the_inst, modify, bind. by intros ->. Qed.

Lemma at_idx_run {S A} (l : list A) i x (s : S) :
  l !! i = Some x -> at_idx (Some l) (Z.of_nat i) s = Ret x s.
Proof.
  intros E. unfold at_idx, bind. cbn [the ret].
  rewrite (proj2 (Z.ltb_ge _ _)), Nat2Z.id by lia. by rewrite E.
Qed.

Lemma at_idx_out {S A} (l : list A) i (s : S) :
  Z.of_nat (length l) <= i -> at_idx (Some l) i s = Crash OutOfBounds.
Proof.
  intros Hi. unfold at_idx, bind. cbn [the ret]. destruct (i <? 0); [done|].
  by rewrite lookup_ge_None_2 by lia.
Qed.

Lemma store_idx_run {S A} (l : list A) i x (s : S) :
  (i < length l)%nat -> store_idx (Some l) (Z.of_nat i) x s = Ret (Some (<[i := x]> l)) s.
Proof.
  intros Hi. unfold store_idx, bind. cbn [the ret].
  rewrite (proj2 (Z.leb_le _ _)), (proj2 (Z.ltb_lt _ _)), Nat2Z.id by lia. done.
Qed.

Lemma store_idx_out {S A} (l : list A) i x (s : S) :
  Z.of_nat (length l) <= i -> store_idx (Some l) i x s = Crash OutOfBounds.
Proof.
  intros Hi. unfold store_idx, bind. cbn [the ret].
  by rewrite (proj2 (Z.ltb_ge _ _)), andb_false_r by lia.
Qed.

Lemma init_control_run k n extn v f pv pd done m p h :
  k = Z.of_nat (length done) ->
  init_control k (Some n) extn v f pv pd (ctls_host h done (S m) p) =
    Ret tt (ctls_host h (done ++ [SndControl (ctl_name n extn) v f pv pd]) m p).
Proof.
  intros ->. unfold init_control, get_amp, the_inst. unfold bind at 1 2, ctls_host at 1. hsimp.
  unfold bind at 1. cbn [the ret]. unfold bind at 1.
  change (am_ctls (mx_priv (with_ctls done (S m) p))) with (Some (map Some done ++ replicate (S m) None)).
  rewrite store_idx_run by (rewrite length_app, length_map, length_replicate; lia).
  rewrite insert_app_r_alt by (rewrite length_map; lia). rewrite length_map, Nat.sub_diag.
  unfold ctls_host, with_ctls. rewrite map_app, <- app_assoc. done.
Qed.

(** One block of controls after the other. *)
Lemma block_run {A} (m1 : AMP unit) (k : AMP A) h1 h2 :
  m1 h1 = Ret tt h2 -> (do! m1 ; k) h1 = k h2.
Proof. intros E. unfold bind. by rewrite E. Qed.

Ltac run_block :=
  unfold amp_create_media_fmt_ctl, amp_create_metadata_ctl, amp_create_be_set_param_ctl,
    amp_create_connect_ctl, amp_create_disconnect_ctl, amp_create_mtd_control_ctl,
    amp_create_pcm_metadata_ctl, amp_create_pcm_set_param_ctl, amp_create_pcm_get_tag_info_ctl,
    amp_create_pcm_event_ctl, amp_create_pcm_calibration_ctl, amp_create_pcm_get_param_ctl,
    amp_create_pcm_bufinfo_ctl, amp_create_pcm_loopback_ctl, amp_create_pcm_echoref_ctl,
    amp_create_pcm_buf_tstamp_ctl, amp_create_pcm_sidetone_ctl; cbn [negb];
  repeat (erewrite block_run; [|apply init_control_run; rewrite ?length_app; cbn [length]; lia]);
  rewrite <- ?app_assoc; unfold ret; cbn [app]; f_equal; rewrite ?length_app; cbn [length]; lia.

(** A body that makes one block of controls for an entry. *)
Definition makes_block (body : Z -> option string -> Z -> Z -> AMP Z)
    (block : nat -> string * Z -> list snd_control) (p : mixer_plugin) (h : host mixer_plugin) : Prop :=
  forall i n idx done m,
    body (Z.of_nat (S i)) (Some n) idx (Z.of_nat (length done))
      (ctls_host h done (length (block i (n, idx)) + m) p) =
    Ret (Z.of_nat (length done + length (block i (n, idx))))
      (ctls_host h (done ++ block i (n, idx)) m p).

Lemma for_devs_run d l body block p h done m k :
  adi_wf (am_adi d (mx_priv p)) l -> makes_block body block p h -> k = Z.of_nat (length done) ->
  for_devs d k body (ctls_host h done (length (concat (imap block l)) + m) p) =
    Ret (Z.of_nat (length (done ++ concat (imap block l))))
      (ctls_host h (done ++ concat (imap block l)) m p).
Proof.
  intros [Hc Hn Hi] Hb ->. unfold for_devs. unfold bind at 1.
  rewrite (get_adi_run d (with_ctls done (length (concat (imap block l)) + m) p)) by done.
  change (am_adi d (mx_priv (with_ctls done (length (concat (imap block l)) + m) p)))
    with (am_adi d (mx_priv p)).
  rewrite Hc. replace (Z.to_nat (Z.of_nat (S (length l)) - 1)) with (length l) by lia.
  set (B := fun (i : nat) (ctl_idx : Z) => _).
  assert (Hgen : forall pre suf done m, l = pre ++ suf ->
    for_fold (seq (S (length pre)) (length suf)) B (Z.of_nat (length done))
      (ctls_host h done (length (concat (imap (fun i => block (length pre + i)%nat) suf)) + m) p) =
    Ret (Z.of_nat (length (done ++ concat (imap (fun i => block (length pre + i)%nat) suf))))
      (ctls_host h (done ++ concat (imap (fun i => block (length pre + i)%nat) suf)) m p)).
  { clear done m. intros pre suf. revert pre. induction suf as [|[n idx] suf IH]; intros pre done m El.
    - cbn. by rewrite app_nil_r.
    - cbn [seq length for_fold]. unfold bind at 1. unfold B at 1. unfold bind at 1.
      rewrite (get_adi_run d _) by reflexivity.
      lazymatch goal with |- context [am_adi d (mx_priv ?q)] =>
        change (am_adi d (mx_priv q)) with (am_adi d (mx_priv p)) end.
      rewrite Hn, Hi. unfold bind at 1.
      rewrite (at_idx_run _ (S (length pre)) (Some n)).
      2: { rewrite lookup_cons. cbv beta iota. by rewrite list_lookup_fmap, El, list_lookup_middle. }
      unfold bind at 1. rewrite (at_idx_run _ (S (length pre)) idx).
      2: { rewrite lookup_cons. cbv beta iota. by rewrite list_lookup_fmap, El, list_lookup_middle. }
      cbn [imap concat]. rewrite length_app, <- Nat.add_assoc.
      replace (length pre + 0)%nat with (length pre) by lia. rewrite Hb. rewrite <- length_app.
      specialize (IH (pre ++ [(n, idx)]) (done ++ block (length pre) (n, idx)) m).
      rewrite length_app in IH. cbn [length] in IH. rewrite Nat.add_1_r in IH.
      assert (Eb : imap (fun i => block (S (length pre) + i)%nat) suf =
                   imap ((fun i => block (length pre + i)%nat) ∘ S) suf).
      { apply imap_ext. intros. cbn. by rewrite Nat.add_succ_r. }
      rewrite Eb in IH. rewrite IH by (by rewrite <- app_assoc). by rewrite <- app_assoc. }
  apply (Hgen [] l done m). done.
Qed.

(** *** The blocks of the program *)

Lemma be_makes d p h :
  makes_block (fun _ name idx ctl_idx =>
    do! amp_create_media_fmt_ctl name ctl_idx idx d ;
    do! amp_create_metadata_ctl name (ctl_idx + 1) idx d ;
    do! amp_create_be_set_param_ctl name (ctl_idx + 2) idx d ;
    ret (ctl_idx + 3)) (fun _ => be_block d) p h.
Proof. intros i n idx done m. cbn [be_block length Nat.add]. run_block. Qed.

Lemma rx_makes p h :
  makes_block (fun _ name idx k =>
    do! amp_create_pcm_sidetone_ctl name k TX_BE idx RX_PCM ; ret (k + 1)) (fun _ => rx_block) p h.
Proof. intros i n idx done m. cbn [rx_block length Nat.add]. run_block. Qed.

Lemma tx_makes p h :
  makes_block (fun _ name idx k =>
    do! amp_create_pcm_loopback_ctl name k RX_PCM idx TX_PCM ;
    do! amp_create_pcm_echoref_ctl name (k + 1) RX_BE idx TX_PCM ;
    do! amp_create_pcm_buf_tstamp_ctl name (k + 2) idx TX_PCM ;
    ret (k + 3)) (fun _ => tx_block) p h.
Proof. intros i n idx done m. cbn [tx_block length Nat.add]. run_block. Qed.

Lemma common_makes d be p h :
  makes_block (fun i name idx k =>
    do! amp_create_connect_ctl name k be idx d ;
    do! amp_create_disconnect_ctl name (k + 1) be idx d ;
    do! amp_create_mtd_control_ctl name (k + 2) be i d ;
    do! amp_create_pcm_metadata_ctl name (k + 3) idx d ;
    do! amp_create_pcm_set_param_ctl name (k + 4) idx d false ;
    do! amp_create_pcm_set_param_ctl name (k + 5) idx d true ;
    do! amp_create_pcm_get_tag_info_ctl name (k + 6) idx d ;
    do! amp_create_pcm_event_ctl name (k + 7) idx d ;
    do! amp_create_pcm_calibration_ctl name (k + 8) idx d ;
    do! amp_create_pcm_get_param_ctl name (k + 9) idx d ;
    do! amp_create_pcm_bufinfo_ctl name (k + 10) idx d ;
    ret (k + 11)) (common_block d be) p h.
Proof. intros i n idx done m. cbn [common_block length Nat.add]. run_block. Qed.

(** ** All controls *)

Definition with_mtd (d : adi_id) (n : nat) (p : mixer_plugin) : mixer_plugin :=
  upd_mx_priv (upd_am_adi d (set_ad_mtd_ctl (Some (replicate n 0)))) p.

Lemma wf_with_mtd d' n d p l :
  adi_wf (am_adi d (mx_priv p)) l -> adi_wf (am_adi d (mx_priv (with_mtd d' n p))) l.
Proof. intros []. by destruct d, d'; constructor. Qed.

(** Nothing but the plug-in changed. *)
Definition same_libs (h h' : host mixer_plugin) : Prop := h_agm h' = h_agm h /\ h_snd h' = h_snd h.

(** The plug-in after a failure: its card is still known. *)
Definition failed (p : mixer_plugin) (h' : host mixer_plugin) : Prop :=
  exists p', h_inst h' = Some p' /\ am_card_node (mx_priv p') = am_card_node (mx_priv p).

(** A step that fails for want of memory, or makes [l] and changes the
    plug-in from [p] to [p']. *)
Definition made (h : host mixer_plugin) (l : list snd_control) (m : nat) (p' : mixer_plugin)
    (r : Z) (h' : host mixer_plugin) : Prop :=
  same_libs h h' /\
  ((r = - ENOMEM /\ (exists n, plug_alloc n = false) /\ failed p' h') \/
   (r = 0 /\ exists k, h' = ctls_host (tick_at k h) l m p')).

Lemma common_made d be l p h done m k :
  adi_wf (am_adi d (mx_priv p)) l -> k = Z.of_nat (length done) ->
  let block := concat (imap (common_block d be) l) in
  wp (amp_form_common_pcm_ctls k d be)
    (fun r h' => made h (done ++ block) m (with_mtd d (S (length l)) p) (fst r) h' /\
       (fst r = 0 -> snd r = Z.of_nat (length (done ++ block))))
    (ctls_host h done (length block + m) p).
Proof.
  intros Hwf Hk block. unfold amp_form_common_pcm_ctls. apply wpg_bind. unfold wpg at 1.
  rewrite (get_adi_run d (with_ctls done (length block + m) p)) by done.
  change (am_adi d (mx_priv (with_ctls done (length block + m) p))) with (am_adi d (mx_priv p)).
  rewrite (wf_count _ _ Hwf), Nat2Z.id. hp_step. hp_step. apply wpg_bind. unfold wpg at 1.
  erewrite upd_adi_run by reflexivity. destruct (plug_alloc _) eqn:Ea; cbn [negb].
  2: { apply wpg_ret. split; [|by intros]. split; [done|]. left. split; [done|]. split; [by eexists|]. by eexists. }
  apply wpg_bind. unfold wpg at 1.
  change (set_h_inst (Some (upd_mx_priv (upd_am_adi d (set_ad_mtd_ctl (Some (replicate (S (length l)) 0))))
            (with_ctls done (length block + m) p))) (tick_at 1 (ctls_host h done (length block + m) p)))
    with (ctls_host (tick_at 1 h) done (length block + m) (with_mtd d (S (length l)) p)).
  erewrite (for_devs_run d l _ (common_block d be)); [|by apply wf_with_mtd|apply common_makes|done].
  apply wpg_ret. split; [|done]. split; [done|]. right. split; [done|]. by exists 1%nat.
Qed.

(** The loops that only make controls. *)
Lemma for_devs_made d l body block p h done m k :
  adi_wf (am_adi d (mx_priv p)) l -> makes_block body (fun _ => block) p h -> k = Z.of_nat (length done) ->
  for_devs d k body (ctls_host h done (length (concat (block <$> l)) + m) p) =
    Ret (Z.of_nat (length (done ++ concat (block <$> l)))) (ctls_host h (done ++ concat (block <$> l)) m p).
Proof. intros Hwf Hb Hk. rewrite <- (imap_const block l). by apply for_devs_run. Qed.

Definition ready (rx tx : list (string * Z)) (p : mixer_plugin) : mixer_plugin :=
  with_mtd TX_PCM (S (length tx)) (with_mtd RX_PCM (S (length rx)) p).

Lemma same_libs_tick k h h' : same_libs (tick_at k h) h' -> same_libs h h'.
Proof. done. Qed.

Lemma pcm_ctls_made rx tx p h done cnt k :
  adi_wf (am_adi RX_PCM (mx_priv p)) rx -> adi_wf (am_adi TX_PCM (mx_priv p)) tx ->
  k = Z.of_nat (length done) ->
  wp (amp_form_pcm_ctls k cnt)
    (fun r h' => made h (done ++ pcm_ctls rx tx) 0 (ready rx tx p) r h')
    (ctls_host h done (length (pcm_ctls rx tx)) p).
Proof.
  intros Hrx Htx Hk. unfold amp_form_pcm_ctls, pcm_ctls. rewrite !length_app.
  apply wpg_bind. eapply wpg_mono; [by apply common_made|].
  intros [r k1] h1 Hm; cbn [fst snd] in Hm; destruct Hm as [[Hl [(-> & Ha & Hs)|(-> & t1 & ->)]] Hk1].
  { change (nz (- ENOMEM)) with true. cbv iota. apply wpg_ret. split; [done|]. by left. }
  specialize (Hk1 eq_refl). change (nz 0) with false. cbv iota. apply wpg_bind.
  unfold amp_form_rx_pcm_ctls. apply wpg_bind. unfold wpg at 1.
  rewrite (for_devs_made RX_PCM rx _ rx_block); [|by apply wf_with_mtd|apply rx_makes|done].
  apply wpg_ret. change (nz 0) with false. cbv iota. apply wpg_bind.
  rewrite <- (Nat.add_0_r (length (concat (tx_block <$> tx)))).
  eapply wpg_mono; [apply common_made; [by apply wf_with_mtd|done]|].
  intros [r k2] h2 Hm; cbn [fst snd] in Hm; destruct Hm as [[Hl2 [(-> & Ha & Hs)|(-> & t2 & ->)]] Hk2].
  { change (nz (- ENOMEM)) with true. cbv iota. apply wpg_ret. split; [done|]. by left. }
  specialize (Hk2 eq_refl). change (nz 0) with false. cbv iota. apply wpg_bind.
  unfold amp_form_tx_pcm_ctls. apply wpg_bind. unfold wpg at 1.
  rewrite (for_devs_made TX_PCM tx _ tx_block); [|by do 2 apply wf_with_mtd|apply tx_makes|done].
  apply wpg_ret, wpg_ret. split; [done|]. right. split; [done|]. exists (t2 + t1)%nat.
  rewrite <- !app_assoc. unfold ctls_host, tick_at. hsimp. by rewrite Nat.add_assoc.
Qed.

Lemma form_ctls_made rx_be tx_be rx tx p h be pcm :
  h_inst h = Some p ->
  adi_wf (am_adi RX_BE (mx_priv p)) rx_be -> adi_wf (am_adi TX_BE (mx_priv p)) tx_be ->
  adi_wf (am_adi RX_PCM (mx_priv p)) rx -> adi_wf (am_adi TX_PCM (mx_priv p)) tx ->
  be = Z.of_nat (length (be_ctls rx_be tx_be)) -> pcm = Z.of_nat (length (pcm_ctls rx tx)) ->
  wp (form_ctls be pcm)
    (fun r h' => made h (all_ctls rx_be tx_be rx tx) 0 (ready rx tx p) r h') h.
Proof.
  intros Hp Hrb Htb Hrx Htx -> ->. unfold form_ctls. hp_step. hp_step.
  apply wpg_bind. eapply wpg_upd_inst; [exact Hp|]. hp_step. hp_step.
  destruct (plug_alloc (h_tick h)) eqn:E1; cbn [andb negb].
  2: { apply wpg_ret. split; [done|]. left. split; [done|]. split; by eexists. }
  destruct (plug_alloc (1 + h_tick h)) eqn:E2; cbn [negb].
  2: { apply wpg_ret. split; [done|]. left. split; [done|]. split; by eexists. }
  rewrite <- Nat2Z.inj_add, Nat2Z.id.
  change (wpg False ?m ?Q _) with (wpg False m Q (ctls_host (tick_at 2 h) []
    (length (be_ctls rx_be tx_be) + length (pcm_ctls rx tx)) p)).
  unfold amp_form_be_ctls, form_be_ctls_of.
  assert (Eb : length (be_ctls rx_be tx_be) =
    (length (concat (be_block RX_BE <$> rx_be)) + length (concat (be_block TX_BE <$> tx_be)))%nat)
    by apply length_app.
  rewrite Eb, <- Nat.add_assoc. apply wpg_bind, wpg_bind. unfold wpg at 1.
  rewrite (for_devs_made RX_BE rx_be _ (be_block RX_BE)); [|done|apply be_makes|done].
  apply wpg_bind. unfold wpg at 1.
  rewrite (for_devs_made TX_BE tx_be _ (be_block TX_BE)); [|done|apply be_makes|done].
  apply wpg_ret. change (nz 0) with false. cbv iota. cbn [app].
  eapply wpg_mono; [apply pcm_ctls_made; [done|done|by rewrite length_app]|].
  intros r h' [Hl Hr]. split; [done|]. destruct Hr as [?|(-> & k & ->)]; [by left|].
  right. split; [done|]. exists (k + 2)%nat. unfold ctls_host, tick_at, all_ctls, be_ctls. hsimp.
  by rewrite Nat.add_assoc.
Qed.

Lemma length_blocks {A B} (f : nat -> A -> list B) n l :
  (forall i x, length (f i x) = n) -> length (concat (imap f l)) = (n * length l)%nat.
Proof.
  intros Hf. revert f Hf. induction l as [|x l IH]; intros f Hf; cbn [imap concat length]; [lia|].
  rewrite length_app, Hf, (IH (f ∘ S)); [lia|]. intros. apply Hf.
Qed.

Lemma length_const_blocks {A B} (f : A -> list B) n l :
  (forall x, length (f x) = n) -> length (concat (f <$> l)) = (n * length l)%nat.
Proof. intros Hf. rewrite <- imap_const. by apply length_blocks. Qed.

Lemma be_ctl_count_run rx_be tx_be p h :
  h_inst h = Some p ->
  adi_wf (am_adi RX_BE (mx_priv p)) rx_be -> adi_wf (am_adi TX_BE (mx_priv p)) tx_be ->
  amp_get_be_ctl_count h = Ret (Z.of_nat (length (be_ctls rx_be tx_be))) h.
Proof.
  intros Hp [Cr _ _] [Ct _ _]. unfold amp_get_be_ctl_count, be_ctls.
  unfold bind at 1. rewrite (get_adi_run _ _ _ Hp). unfold bind at 1. rewrite (get_adi_run _ _ _ Hp).
  unfold ret. f_equal. rewrite Cr, Ct, length_app.
  rewrite !(length_const_blocks _ 3) by (by intros []). cbn [length amp_be_ctl_name_extn]. lia.
Qed.

Lemma pcm_ctl_count_run rx tx p h :
  h_inst h = Some p ->
  adi_wf (am_adi RX_PCM (mx_priv p)) rx -> adi_wf (am_adi TX_PCM (mx_priv p)) tx ->
  amp_get_pcm_ctl_count h = Ret (Z.of_nat (length (pcm_ctls rx tx))) h.
Proof.
  intros Hp [Cr _ _] [Ct _ _]. unfold amp_get_pcm_ctl_count, pcm_ctls.
  unfold bind at 1. rewrite (get_adi_run _ _ _ Hp). unfold bind at 1. rewrite (get_adi_run _ _ _ Hp).
  unfold ret. f_equal. rewrite Cr, Ct, !length_app, !(length_blocks _ 11) by (by intros ? []).
  rewrite (length_const_blocks rx_block 1), (length_const_blocks tx_block 3) by (by intros []).
  cbn [length amp_pcm_ctl_name_extn amp_pcm_tx_ctl_names amp_pcm_rx_ctl_names]. lia.
Qed.

(** The array of controls.  From the discovered devices the two counts and
    the construction, which find their positions independently, agree: unless
    memory runs out, every slot of the array is filled, exactly once and in
    bounds, and the result is the reference list: three controls for each back end,
    then eleven for each playback PCM and its "sidetone", eleven for each
    capture PCM and its three, each with the number of its device (and the position
    of its PCM for "control"). *)
Theorem amp_controls_formed rx_be tx_be rx tx p h :
  h_inst h = Some p ->
  adi_wf (am_adi RX_BE (mx_priv p)) rx_be -> adi_wf (am_adi TX_BE (mx_priv p)) tx_be ->
  adi_wf (am_adi RX_PCM (mx_priv p)) rx -> adi_wf (am_adi TX_PCM (mx_priv p)) tx ->
  exists r h', (let! be := amp_get_be_ctl_count in let! pcm := amp_get_pcm_ctl_count in
                form_ctls be pcm) h = Ret r h' /\
    h_agm h' = h_agm h /\ h_snd h' = h_snd h /\
    ((r = - ENOMEM /\ exists n, plug_alloc n = false) \/
     (r = 0 /\ exists p', h_inst h' = Some p' /\
        am_ctls (mx_priv p') = Some (map Some (all_ctls rx_be tx_be rx tx)))).
Proof.
  intros Hp Hrb Htb Hrx Htx.
  unfold bind at 1. rewrite (be_ctl_count_run _ _ _ _ Hp Hrb Htb).
  unfold bind at 1. rewrite (pcm_ctl_count_run _ _ _ _ Hp Hrx Htx).
  destruct (wp_run _ _ _ (form_ctls_made _ _ _ _ _ _ _ _ Hp Hrb Htb Hrx Htx eq_refl eq_refl))
    as (r & h' & E & [Ha Hs] & Hr).
  exists r, h'. split; [exact E|]. split; [done|]. split; [done|].
  destruct Hr as [(-> & Hn & _)|(-> & k & ->)]; [by left|]. right. split; [done|].
  eexists. split; [reflexivity|]. cbn. by rewrite app_nil_r.
Qed.
End MixerProps.
