(* ===== verification/MixerOpen.v ===== *)
(** * The mixer plug-in: discovery and opening

    What [amp_get_be_info] and [amp_get_pcm_info] find, against functions of the
    service's device table ([be_entries]) and of the card ([pcm_entries]); then the
    composition in [open]: the controls are those of the back ends and PCMs there
    are, and the card is held exactly as long as the plug-in is open. *)

From S2P Require Export MixerProps.
Open Scope Z_scope.
#[export] Set Default Goal Selector "!".

(** ** What there is to discover *)

(** The interfaces of one direction, with their numbers from [i] on. *)
Fixpoint be_from (i : Z) (dir : Z) (l : list (string * Z)) : list (string * Z) :=
  match l with
  | [] => []
  | (name, d) :: l' =>
      if d =? dir then (name, i) :: be_from (i + 1) dir l' else be_from (i + 1) dir l'
  end.
Definition be_entries := be_from 0.

(** The table of the service. *)
Definition intfs (devs : list device_obj) (w : world) : Prop :=
  w_num_intfs w = Z.of_nat (length devs) /\ Z.of_nat (length devs) < 2 ^ 32 /\
  forall i d, devs !! i = Some d -> w_devs w !! i = Some (Some d).
Definition aif_infos (devs : list device_obj) : list (string * Z) :=
  (fun d => (strlcpy AIF_NAME_MAX_LEN (dev_name d), ep_dir (dev_hw_ep d))) <$> devs.

(** The value the code uses for a property of a device: that of the device
    before, [v], when it has none. *)
Definition carried (dir : string) (v : Z) (d : snd_dev_def) : Z :=
  match find_prop dir (sd_props d) with Some s => atoi s | None => v end.
Definition dev_entry (d : snd_dev_def) : string * Z :=
  (default EmptyString (sd_name d), s32 (sd_device d)).
Fixpoint pcm_from (dir : string) (v : Z) (l : list snd_dev_def) : list (string * Z) :=
  match l with
  | [] => []
  | d :: l' =>
      let v := carried dir v d in
      if v =? 0 then pcm_from dir v l' else dev_entry d :: pcm_from dir v l'
  end.
Definition pcm_entries (dir : string) := pcm_from dir 0.

(** How many of the values are 1. *)
Fixpoint ones (dir : string) (v : Z) (l : list snd_dev_def) : nat :=
  match l with
  | [] => 0
  | d :: l' => let v := carried dir v d in ((if (v =? 1)%Z then 1 else 0) + ones dir v l')%nat
  end.
(** Every value used is 0 or 1. *)
Fixpoint flags (dir : string) (v : Z) (l : list snd_dev_def) : bool :=
  match l with
  | [] => true
  | d :: l' => let v := carried dir v d in ((v =? 0) || (v =? 1)) && flags dir v l'
  end.

Lemma flags_ones dir v l : flags dir v l = true -> ones dir v l = length (pcm_from dir v l).
Proof.
  revert v. induction l as [|d l IH]; intros v; [done|]. cbn [flags ones pcm_from]. cbv zeta.
  intros Hf. apply andb_true_iff in Hf as [Hv Hf]. rewrite (IH _ Hf).
  apply orb_true_iff in Hv as [Hv|Hv]; apply Z.eqb_eq in Hv; rewrite Hv; done.
Qed.

(** With every property written out, the entries are the devices that have it. *)
Lemma pcm_from_filter dir v l :
  Forall (fun d => is_Some (find_prop dir (sd_props d))) l ->
  pcm_from dir v l = dev_entry <$> filter (fun d => prop_int dir d <> 0) l.
Proof.
  revert v. induction l as [|d l IH]; intros v Hl; [done|]. cbn [pcm_from]. cbv zeta.
  apply Forall_cons in Hl as [[s Hs] Hl]. rewrite filter_cons.
  assert (carried dir v d = prop_int dir d) as -> by (unfold carried, prop_int; by rewrite Hs).
  rewrite (IH _ Hl). destruct (Z.eqb_spec (prop_int dir d) 0) as [E|E].
  - by rewrite decide_False by (intros Hn; by apply Hn).
  - by rewrite decide_True.
Qed.

(** ** The arrays of a direction *)

(** [l] stored behind "ZERO", and room for [m] more. *)
Definition filled (d : adi_id) (l : list (string * Z)) (m : nat) (p : mixer_plugin) : mixer_plugin :=
  upd_mx_priv (upd_am_adi d (fun a =>
    set_ad_idx_arr (Some (0 :: (snd <$> l) ++ replicate m 0))
      (set_ad_names (Some (Some "ZERO"%string :: (Some ∘ fst <$> l) ++ replicate m None)) a))) p.
(** Arrays of [n] entries that were just allocated. *)
Definition blank (d : adi_id) (n : nat) (p : mixer_plugin) : mixer_plugin :=
  upd_mx_priv (upd_am_adi d (fun a =>
    set_ad_idx_arr (Some (replicate n 0)) (set_ad_names (Some (replicate n None)) a))) p.
Definition add_count (d : adi_id) (n : Z) (p : mixer_plugin) : mixer_plugin :=
  upd_mx_priv (upd_am_adi d (fun a => set_ad_count (ad_count a + n) a)) p.
(** The finished list. *)
Definition listed (d : adi_id) (l : list (string * Z)) (p : mixer_plugin) : mixer_plugin :=
  upd_mx_priv (upd_am_adi d (fun a =>
    set_ad_items (Z.of_nat (S (length l))) (set_ad_count (Z.of_nat (S (length l)))
      (set_ad_idx_arr (Some (0 :: (snd <$> l)))
        (set_ad_names (Some (Some "ZERO"%string :: (Some ∘ fst <$> l))) a))))) p.

Abbreviation at_inst h p := (set_h_inst (Some p) h).

Section Discovery.
Context `{Env, Alsa, SndEnv, PlugEnv, Mixer}.

Lemma store_name_run d i v p h l :
  h_inst h = Some p -> ad_names (am_adi d (mx_priv p)) = Some l -> (i < length l)%nat ->
  store_name d (Z.of_nat i) v h =
    Ret tt (at_inst h (upd_mx_priv (upd_am_adi d (set_ad_names (Some (<[i := v]> l)))) p)).
Proof.
  intros Hp Hl Hi. unfold store_name, bind at 1. rewrite (get_adi_run _ _ _ Hp), Hl.
  unfold bind. rewrite store_idx_run by done. by apply upd_adi_run.
Qed.

Lemma store_id_run d i v p h l :
  h_inst h = Some p -> ad_idx_arr (am_adi d (mx_priv p)) = Some l -> (i < length l)%nat ->
  store_id d (Z.of_nat i) v h =
    Ret tt (at_inst h (upd_mx_priv (upd_am_adi d (set_ad_idx_arr (Some (<[i := v]> l)))) p)).
Proof.
  intros Hp Hl Hi. unfold store_id, bind at 1. rewrite (get_adi_run _ _ _ Hp), Hl.
  unfold bind. rewrite store_idx_run by done. by apply upd_adi_run.
Qed.

Lemma names_filled d l m p :
  ad_names (am_adi d (mx_priv (filled d l m p))) =
    Some (Some "ZERO"%string :: (Some ∘ fst <$> l) ++ replicate m None).
Proof. by destruct d. Qed.
Lemma idx_filled d l m p :
  ad_idx_arr (am_adi d (mx_priv (filled d l m p))) = Some (0 :: (snd <$> l) ++ replicate m 0).
Proof. by destruct d. Qed.

(** One more entry. *)
Lemma store_entry {A} d k l m n i p h (rest : AMP A) :
  k = Z.of_nat (S (length l)) ->
  (do! store_name d k (Some n) ; do! store_id d k i ; rest) (at_inst h (filled d l (S m) p)) =
    rest (at_inst h (filled d (l ++ [(n, i)]) m p)).
Proof.
  intros ->.
  assert (Hins : forall {B} (f : string * Z -> B) (x y z : B),
    <[S (length l) := x]> (z :: (f <$> l) ++ replicate (S m) y) = z :: (f <$> l) ++ x :: replicate m y).
  { intros B f x y z.
    change (z :: <[length l := x]> ((f <$> l) ++ y :: replicate m y) = z :: (f <$> l) ++ x :: replicate m y).
    rewrite insert_app_r_alt by (by rewrite length_fmap). by rewrite length_fmap, Nat.sub_diag. }
  unfold bind at 1.
  erewrite store_name_run; [|reflexivity|apply names_filled|cbn [length]; rewrite length_app, length_fmap, length_replicate; lia].
  unfold bind at 1.
  erewrite store_id_run; [|reflexivity|by destruct d|cbn [length]; rewrite length_app, length_fmap, length_replicate; lia].
  rewrite !Hins. unfold filled. rewrite !fmap_app, <- !app_assoc. by destruct d.
Qed.

(** The entry "ZERO" of new arrays. *)
Lemma store_zero {A} d m p h (rest : AMP A) :
  (do! store_name d 0 (Some "ZERO"%string) ; do! store_id d 0 0 ; rest) (at_inst h (blank d (S m) p)) =
    rest (at_inst h (filled d [] m p)).
Proof.
  unfold bind at 1. change 0 with (Z.of_nat 0).
  erewrite (store_name_run d 0); [|reflexivity|by destruct d|cbn; lia].
  unfold bind at 1.
  erewrite (store_id_run d 0); [|reflexivity|by destruct d|cbn; lia].
  by destruct d.
Qed.

Lemma alloc_run d p h n :
  h_inst h = Some p -> ad_count (am_adi d (mx_priv p)) = Z.of_nat n ->
  exists b p', alloc_dev_info d h = Ret b (at_inst (tick_at 2 h) p') /\
    (b = true -> p' = blank d (S n) p) /\ (b = false -> exists k, plug_alloc k = false) /\
    (exists f, p' = upd_mx_priv (upd_am_adi d f) p).
Proof.
  intros Hp Hn. unfold alloc_dev_info. unfold bind at 1. rewrite (get_adi_run _ _ _ Hp), Hn.
  replace (Z.to_nat (Z.of_nat n + 1)) with (S n) by lia.
  unfold bind at 1, plug_calloc at 1, next_tick at 1, bind at 1, ret at 1.
  unfold bind at 1. erewrite upd_adi_run by exact Hp.
  unfold bind at 1, plug_calloc at 1, next_tick at 1, bind at 1, ret at 1.
  unfold bind at 1. erewrite upd_adi_run by reflexivity. unfold ret.
  eexists _, _. split; [reflexivity|]. split; [|split].
  - intros Hb. apply andb_true_iff in Hb as [-> ->]. by destruct d.
  - intros Hb. apply andb_false_iff in Hb as [?|?]; by eexists.
  - eexists (fun a => set_ad_idx_arr _ (set_ad_names _ a)). by destruct d.
Qed.

(** Both directions; a failure leaves the card known. *)
Lemma alloc_both d1 d2 p h n1 n2 :
  d1 <> d2 -> h_inst h = Some p ->
  ad_count (am_adi d1 (mx_priv p)) = Z.of_nat n1 -> ad_count (am_adi d2 (mx_priv p)) = Z.of_nat n2 ->
  exists b1 b2 h1 h2, alloc_dev_info d1 h = Ret b1 h1 /\ alloc_dev_info d2 h1 = Ret b2 h2 /\
    (b1 && b2 = true -> h2 = at_inst (tick_at 4 h) (blank d2 (S n2) (blank d1 (S n1) p))) /\
    (b1 && b2 = false -> exists k, plug_alloc k = false) /\ same_libs h h2 /\ failed p h2.
Proof.
  intros Hd Hp H1' H2'. destruct (alloc_run d1 p h n1 Hp H1') as (b1 & p1 & E1 & T1 & F1 & f1 & U1).
  destruct (alloc_run d2 p1 (at_inst (tick_at 2 h) p1) n2) as (b2 & p2 & E2 & T2 & F2 & f2 & U2).
  - done.
  - rewrite U1. destruct d1, d2; done.
  - exists b1, b2, (at_inst (tick_at 2 h) p1), (at_inst (tick_at 2 (at_inst (tick_at 2 h) p1)) p2).
    repeat split; try done.
    + intros Hb. apply andb_true_iff in Hb as [Hb1 Hb2]. rewrite (T2 Hb2), (T1 Hb1). done.
    + intros Hb. apply andb_false_iff in Hb as [Hb|Hb]; auto.
    + exists p2. rewrite U2, U1. by destruct d1, d2.
Qed.

(** *** Freeing *)

Lemma free_run d p h :
  h_inst h = Some p ->
  exists p', amp_free_dev_info d h = Ret tt (at_inst h p') /\
    am_card_node (mx_priv p') = am_card_node (mx_priv p).
Proof.
  intros Hp. unfold amp_free_dev_info. erewrite block_run; [|by apply upd_adi_run].
  do 3 (erewrite block_run; [|by apply upd_adi_run]). erewrite upd_adi_run by done.
  eexists. split; [reflexivity|]. by destruct d.
Qed.

Lemma free_be_run p h :
  h_inst h = Some p ->
  exists p', amp_free_be_dev_info h = Ret tt (at_inst h p') /\
    am_card_node (mx_priv p') = am_card_node (mx_priv p).
Proof.
  intros Hp. unfold amp_free_be_dev_info.
  destruct (free_run RX_BE p h Hp) as (p1 & E1 & C1). erewrite block_run by exact E1.
  destruct (free_run TX_BE p1 (at_inst h p1)) as (p2 & E2 & C2); [done|]. erewrite block_run by exact E2.
  eexists. split; [reflexivity|]. cbn. by rewrite C2.
Qed.

Lemma free_pcm_run p h :
  h_inst h = Some p ->
  exists p', amp_free_pcm_dev_info h = Ret tt (at_inst h p') /\
    am_card_node (mx_priv p') = am_card_node (mx_priv p).
Proof.
  intros Hp. unfold amp_free_pcm_dev_info.
  destruct (free_run RX_PCM p h Hp) as (p1 & E1 & C1). erewrite block_run by exact E1.
  destruct (free_run TX_PCM p1 (at_inst h p1)) as (p2 & E2 & C2); [done|]. rewrite E2.
  eexists. split; [reflexivity|]. by rewrite C2.
Qed.

(** *** Back ends *)

Lemma copy_be_names_run d dir l i k acc p h :
  k = Z.of_nat (S (length acc)) ->
  copy_be_names l i d dir k (at_inst h (filled d acc (length (be_from i dir l)) p)) =
    Ret (Z.of_nat (S (length (acc ++ be_from i dir l)))) (at_inst h (filled d (acc ++ be_from i dir l) 0 p)).
Proof.
  revert i k acc. induction l as [|[n dd] l IH]; intros i k acc Hk; cbn [copy_be_names be_from].
  - rewrite app_nil_r, Hk. done.
  - destruct (dd =? dir); cbn [negb]; [|by apply IH]. cbn [length].
    rewrite (store_entry _ _ _ _ _ _ _ _ _ Hk).
    rewrite (IH (i + 1) (k + 1) (acc ++ [(n, i)])) by (rewrite length_app; cbn [length]; lia).
    by rewrite <- app_assoc.
Qed.

(** The back ends of one direction are listed. *)
Lemma copy_be_run d dir l p h :
  amp_copy_be_names_from_aif_list l d dir (at_inst h (blank d (S (length (be_entries dir l))) p)) =
    Ret tt (at_inst h (listed d (be_entries dir l) p)).
Proof.
  unfold amp_copy_be_names_from_aif_list. rewrite store_zero. unfold bind at 1.
  unfold be_entries. rewrite (copy_be_names_run d dir l 0 1 []) by done. cbn [app].
  unfold bind. erewrite upd_adi_run by reflexivity. erewrite upd_adi_run by reflexivity.
  unfold filled, listed. cbn [replicate]. rewrite !app_nil_r. by destruct d.
Qed.

Lemma add_count_0 d p : add_count d 0 p = p.
Proof.
  destruct p as [nc sub nt [c cn al ev pa [[] [] [] []] ct cc me cb]]. unfold add_count, upd_mx_priv, upd_am_adi, set_dev_at, set_ad_count.
  destruct d; cbn; by rewrite Z.add_0_r.
Qed.
Lemma add_count_add d n m p : add_count d n (add_count d m p) = add_count d (m + n) p.
Proof.
  destruct p as [nc sub nt [c cn al ev pa [[] [] [] []] ct cc me cb]]. unfold add_count, upd_mx_priv, upd_am_adi, set_dev_at, set_ad_count.
  destruct d; cbn; by rewrite Z.add_assoc.
Qed.
Lemma add_count_comm d d' n m p : add_count d n (add_count d' m p) = add_count d' m (add_count d n p).
Proof.
  destruct p as [nc sub nt [c cn al ev pa [[] [] [] []] ct cc me cb]]. unfold add_count, upd_mx_priv, upd_am_adi, set_dev_at, set_ad_count.
  destruct d, d'; cbn; rewrite <- ?Z.add_assoc, ?(Z.add_comm m n); done.
Qed.
Lemma at_inst_id (h : host mixer_plugin) p : h_inst h = Some p -> at_inst h p = h.
Proof. by destruct h; intros [= ->]. Qed.

Lemma count_be_run l p h i :
  h_inst h = Some p ->
  count_be l h = Ret tt (at_inst h (add_count TX_BE (Z.of_nat (length (be_from i TX l)))
                                     (add_count RX_BE (Z.of_nat (length (be_from i RX l))) p))).
Proof.
  revert p h i. induction l as [|[n dd] l IH]; intros p h i Hp; cbn [count_be be_from].
  - cbn [length]. by rewrite !add_count_0, at_inst_id.
  - unfold bind. destruct (Z.eqb_spec dd RX) as [->|Hr].
    + erewrite upd_adi_run by exact Hp. erewrite (IH _ _ (i + 1)) by reflexivity.
      change (RX =? TX) with false. cbv iota. cbn [length]. rewrite Nat2Z.inj_succ, <- Z.add_1_l.
      by rewrite <- add_count_add.
    + destruct (Z.eqb_spec dd TX) as [->|Ht].
      * erewrite upd_adi_run by exact Hp. erewrite (IH _ _ (i + 1)) by reflexivity.
        cbn [length]. rewrite Nat2Z.inj_succ, <- Z.add_1_l, <- add_count_add.
        by rewrite (add_count_comm TX_BE RX_BE).
      * unfold ret. by rewrite (IH p h (i + 1)).
Qed.

(** What the service answers. *)
Lemma set_agm_id (h : host mixer_plugin) : set_h_agm (h_agm h) h = h.
Proof. by destruct h. Qed.

Lemma aif_list_size w :
  agm_get_aif_info_list false (Some 0) w = Ret (0, Some ([], w_num_intfs w)) w.
Proof. done. Qed.

Lemma aif_list_run devs w :
  intfs devs w -> devs <> [] ->
  agm_get_aif_info_list true (Some (w_num_intfs w)) w =
    Ret (0, Some (aif_infos devs, w_num_intfs w)) w.
Proof.
  intros (Hn & Hb & Hd) Hne. unfold agm_get_aif_info_list. rewrite andb_false_r.
  assert (Hc : forall n j, (j + n <= length devs)%nat ->
    (fix copy (ix : list nat) : AGM (list (string * Z)) :=
       match ix with
       | [] => ret []
       | i :: ix' =>
           let! d := read_dev i in
           let! r := copy ix' in
           ret ((strlcpy AIF_NAME_MAX_LEN (dev_name d), ep_dir (dev_hw_ep d)) :: r)
       end) (seq j n) w = Ret (aif_infos (take n (drop j devs))) w).
  { induction n as [|n IH]; intros j Hj; cbn [seq]; [done|].
    destruct (lookup_lt_is_Some_2 devs j) as [d Ed]; [lia|].
    unfold bind at 1, read_dev, cell. rewrite (Hd _ _ Ed). unfold bind at 1. rewrite IH by lia.
    rewrite (drop_S _ _ _ Ed). done. }
  unfold device_get_aif_info_list, bind at 1 2, gets. rewrite Hn.
  rewrite (proj2 (Z.eqb_neq _ _)) by (destruct devs; [done|cbn; lia]).
  rewrite u32_small, Z.min_id, Nat2Z.id by lia. unfold bind. rewrite Hc by lia.
  rewrite drop_0, take_ge by done. done.
Qed.

(** [amp_get_be_info] lists the interfaces of each direction; it fails only when
    there is none or memory runs out. *)
Definition with_backends (l : list (string * Z)) (p : mixer_plugin) : mixer_plugin :=
  upd_mx_priv (set_am_aif_list (Some l))
    (listed TX_BE (be_entries TX l) (listed RX_BE (be_entries RX l) p)).

Lemma be_info_found devs p h :
  h_inst h = Some p -> intfs devs (h_agm h) ->
  wp amp_get_be_info (fun r h' => same_libs h h' /\
      ((r < 0 /\ failed p h' /\ (devs = [] \/ exists n, plug_alloc n = false)) \/
       (r = 0 /\ exists k, h' = at_inst (tick_at k h) (with_backends (aif_infos devs) p)))) h.
Proof.
  intros Hp Hi. pose proof Hi as (Hn & Hb & _). unfold amp_get_be_info.
  apply wpg_bind. unfold wpg at 1. rewrite (lift_agm_run _ _ _ _ (aif_list_size (h_agm h))), set_agm_id.
  destruct (decide (devs = [])) as [->|Hne].
  { rewrite Hn. apply wpg_ret. split; [done|]. left. split; [done|]. split; [by exists p|by left]. }
  change (nz 0) with false. cbn [orb].
  rewrite (proj2 (Z.eqb_neq _ _)) by (rewrite Hn; destruct devs; [done|cbn; lia]).
  apply wpg_bind, wpg_plug_calloc. destruct (plug_alloc (h_tick h)) eqn:Ea; cbn [negb].
  2: { apply wpg_ret. split; [done|]. left. split; [done|]. split; [by exists p|right; by eexists]. }
  apply wpg_bind. unfold wpg at 1.
  rewrite (lift_agm_run _ (tick_at 1 h) _ _ (aif_list_run devs (h_agm h) Hi Hne)).
  change (h_agm h) with (h_agm (tick_at 1 h)). rewrite set_agm_id.
  change (nz 0) with false. cbv iota. set (l := aif_infos devs).
  unfold wpg. erewrite block_run; [|apply upd_adi_run; exact Hp].
  erewrite block_run; [|by apply upd_adi_run]. erewrite block_run; [|eapply (count_be_run l _ _ 0); reflexivity].
  set (p2 := add_count _ _ _). fold (be_entries RX l) (be_entries TX l) in p2.
  destruct (alloc_both RX_BE TX_BE p2 (at_inst (tick_at 1 h) p2) (length (be_entries RX l))
    (length (be_entries TX l))) as (b1 & b2 & h1 & h2 & E1 & E2 & Ht & Hf & Hl & Hfail); [done..|].
  unfold bind at 1. change (set_h_inst (Some p2) _) with (at_inst (tick_at 1 h) p2) at 1. rewrite E1.
  unfold bind at 1. rewrite E2. destruct (b1 && b2) eqn:Eb; cbn [negb].
  - rewrite (Ht eq_refl). clear Ht Hf Hfail Hl E2.
    change (blank TX_BE ?n (blank RX_BE ?m p2)) with (blank RX_BE m (blank TX_BE n p2)).
    rewrite (block_run _ _ _ _ (copy_be_run RX_BE RX l _ _)).
    change (listed RX_BE ?m (blank TX_BE ?n p2)) with (blank TX_BE n (listed RX_BE m p2)).
    rewrite (block_run _ _ _ _ (copy_be_run TX_BE TX l _ _)).
    unfold upd_amp, upd_inst, the_inst, modify, bind. hsimp. unfold ret. split; [done|]. right.
    split; [done|]. by exists 5%nat.
  - destruct Hfail as (p3 & Hp3 & Hc3).
    destruct (free_be_run p3 h2 Hp3) as (p4 & E4 & Hc4). unfold bind. rewrite E4. unfold ret.
    split; [done|]. left. split; [done|]. split; [|right; by apply Hf].
    exists p4. split; [done|]. by rewrite Hc4, Hc3.
Qed.
End Discovery.

(** ** PCMs *)

(** The devices behind a list of nodes. *)
Definition node_dev (s : snd_state) (n : snd_node) (d : snd_dev_def) : Prop :=
  exists c, sn_cards s !! (fst (fst n)) = Some (Some c) /\ cd_devs (snd (fst n)) c !! snd n = Some d.

(** The nodes of a card, and its devices in the same order. *)
Definition card_nodes (i : nat) (c : snd_card) : list snd_node :=
  map (fun j => (i, SND_NODE_TYPE_PCM, j)) (seq 0 (length (cd_devs SND_NODE_TYPE_PCM c))) ++
  map (fun j => (i, SND_NODE_TYPE_COMPR, j)) (seq 0 (length (cd_devs SND_NODE_TYPE_COMPR c))).
Definition card_pcms (c : snd_card) : list snd_dev_def :=
  cd_devs SND_NODE_TYPE_PCM c ++ cd_devs SND_NODE_TYPE_COMPR c.

(** The card's PCMs are in the tables of the plug-in. *)
Definition with_pcms (devs : list snd_dev_def) (p : mixer_plugin) : mixer_plugin :=
  listed TX_PCM (pcm_entries "capture" devs) (listed RX_PCM (pcm_entries "playback" devs) p).

Section Pcms.
Context `{Env, Alsa, SndEnv, PlugEnv, Mixer}.

Lemma set_snd_id (h : host mixer_plugin) : set_h_snd (h_snd h) h = h.
Proof. by destruct h. Qed.

(** A query leaves the card definitions alone. *)
Lemma lift_query {A} (m : SND A) a (h : host mixer_plugin) :
  m (h_snd h) = Ret a (h_snd h) -> lift_snd m h = Ret a h.
Proof. intros E. unfold lift_snd. by rewrite E, set_snd_id. Qed.

Lemma read_node_dev s n d k :
  node_dev s n d -> read_node n (set_sn_readers k s) = Ret d (set_sn_readers k s).
Proof. destruct n as [[i t] j]. intros (c & Hc & Hd). by apply (read_node_run i t j c). Qed.

Lemma get_prop_run s n d prop :
  node_dev s n d -> (prop =s? "type") = false -> (prop =s? "id") = false ->
  snd_card_def_get_int (Some n) prop s =
    Ret (match find_prop prop (sd_props d) with
         | Some v => (0, Some (atoi v)) | None => (- EINVAL, None) end) s.
Proof.
  intros Hn H1' H2'. unfold snd_card_def_get_int.
  rewrite (locked_read _ _ d s) by (intros; by apply read_node_dev). by rewrite H1', H2'.
Qed.

Lemma get_id_run s n d :
  node_dev s n d -> snd_card_def_get_int (Some n) "id" s = Ret (0, Some (s32 (sd_device d))) s.
Proof.
  intros Hn. unfold snd_card_def_get_int.
  by rewrite (locked_read _ _ d s) by (intros; by apply read_node_dev).
Qed.

Lemma get_name_run s n d :
  node_dev s n d -> snd_card_def_get_str (Some n) "name" s = Ret (0, sd_name d) s.
Proof.
  intros Hn. unfold snd_card_def_get_str.
  by rewrite (locked_read _ _ d s) by (intros; by apply read_node_dev).
Qed.

Lemma card_nodes_devs i c s :
  sn_cards s !! i = Some (Some c) -> Forall2 (node_dev s) (card_nodes i c) (card_pcms c).
Proof.
  intros Hc.
  assert (Ht : forall t, Forall2 (node_dev s) (map (fun j => (i, t, j)) (seq 0 (length (cd_devs t c)))) (cd_devs t c)).
  { intros t. apply Forall2_fmap_l, Forall2_same_length_lookup_2; [by rewrite length_seq|].
    intros j x d Hj Hd. apply lookup_seq in Hj as [-> _]. by exists c. }
  by apply Forall2_app.
Qed.

Lemma num_node_run i c t s :
  sn_cards s !! i = Some (Some c) ->
  snd_card_def_get_num_node (Some i) (node_type_num t) s = Ret (Z.of_nat (length (cd_devs t c))) s.
Proof.
  intros Hc. unfold snd_card_def_get_num_node. rewrite node_type_num_max, node_type_of_num.
  by rewrite (locked_read (read_card i) (fun c => Z.of_nat (length (cd_devs t c))) c s)
    by (intros; by apply read_card_run).
Qed.

Lemma get_nodes_run i c t (h : host mixer_plugin) :
  sn_cards (h_snd h) !! i = Some (Some c) ->
  get_nodes (Some i) t (Z.of_nat (length (cd_devs t c))) h =
    Ret (0, map (fun j => (i, t, j)) (seq 0 (length (cd_devs t c)))) h.
Proof.
  intros Hc. unfold get_nodes. destruct (Z.ltb_spec 0 (Z.of_nat (length (cd_devs t c)))) as [Hl|Hl].
  - apply lift_query. unfold snd_card_def_get_nodes_for_type.
    rewrite node_type_num_max, node_type_of_num. unfold bind at 1. cbn [rdlock modify].
    unfold bind at 1. rewrite (read_card_run _ _ _ _ Hc). rewrite Z.ltb_irrefl.
    rewrite (proj2 (Z.leb_gt _ _)) by done. cbn [andb].
    unfold rdunlock, bind, modify, ret. rewrite Nat2Z.id. f_equal. by destruct (h_snd h).
  - by destruct (cd_devs t c).
Qed.

(** Between storing a name and its number the number is asked for. *)
Lemma store_then_ask {A B} d k v (m : SND A) a (rest : A -> AMP B) h :
  m (h_snd h) = Ret a (h_snd h) ->
  (do! store_name d k v ; let! x := lift_snd m in rest x) h = (do! store_name d k v ; rest a) h.
Proof.
  intros E. unfold bind at 1 3. destruct (store_name d k v h) as [[] h1|] eqn:E1; [|done].
  assert (Hk : Keeps h_snd (store_name d k v)).
  { unfold store_name, get_adi, get_amp, upd_adi, upd_amp, store_idx. keeps_tac. }
  pose proof (Hk _ _ _ E1) as E2. unfold bind. rewrite lift_query with (a := a); [done|]. by rewrite E2.
Qed.

Definition plain_prop (dir : string) : Prop := (dir =s? "type") = false /\ (dir =s? "id") = false.

Lemma carried_run (h : host mixer_plugin) n d dir v :
  node_dev (h_snd h) n d -> plain_prop dir ->
  exists r x, lift_snd (snd_card_def_get_int (Some n) dir) h = Ret (r, x) h /\ default v x = carried dir v d.
Proof.
  intros Hn [Ht Hi]. unfold carried.
  rewrite (lift_query _ _ h (get_prop_run _ _ _ _ Hn Ht Hi)).
  destruct (find_prop dir (sd_props d)); by eexists _, _.
Qed.

Lemma pcm_info_run d dir nodes devs v acc m k p h :
  Forall2 (node_dev (h_snd h)) nodes devs -> plain_prop dir ->
  Forall (fun x => is_Some (sd_name x)) devs -> k = Z.of_nat (S (length acc)) ->
  pcm_info_loop d dir nodes v k (at_inst h (filled d acc (length (pcm_from dir v devs) + m) p)) =
    Ret (0, Z.of_nat (S (length (acc ++ pcm_from dir v devs))))
      (at_inst h (filled d (acc ++ pcm_from dir v devs) m p)).
Proof.
  intros Hn Hdir. revert v acc k. induction Hn as [|n x nodes devs Hnx Hn IH]; intros v acc k Hnames Hk.
  - cbn. by rewrite app_nil_r, Hk.
  - apply Forall_cons in Hnames as [[name Hname] Hnames]. cbn [pcm_info_loop pcm_from]. cbv zeta.
    set (h1 := at_inst h _).
    destruct (carried_run h1 n x dir v Hnx Hdir) as (r & y & E & Ey).
    unfold bind at 1. rewrite E, Ey. clear E Ey r y. unfold h1. clear h1.
    destruct (carried dir v x =? 0); [by apply IH|].
    unfold bind at 1. rewrite (lift_query _ (0, sd_name x)) by by apply get_name_run.
    change (nz 0) with false. cbv iota. rewrite Hname.
    rewrite (store_then_ask _ _ _ _ (0, Some (s32 (sd_device x)))) by by apply get_id_run.
    change (nz 0) with false. cbv iota. cbn [default length Nat.add].
    assert (dev_entry x = (name, s32 (sd_device x))) as Ee by (unfold dev_entry; by rewrite Hname).
    change (default 0 (Some (s32 (sd_device x)))) with (s32 (sd_device x)).
    rewrite (store_entry d k acc _ name (s32 (sd_device x)) p h _ Hk), <- Ee.
    rewrite (IH (carried dir v x) (acc ++ [dev_entry x]) (k + 1) Hnames) by (rewrite length_app; cbn [length]; lia).
    by rewrite <- app_assoc.
Qed.

Lemma count_pcms_run s d dir nodes devs v p (h : host mixer_plugin) :
  Forall2 (node_dev s) nodes devs -> plain_prop dir -> s = h_snd h -> h_inst h = Some p ->
  count_pcms d dir nodes v h = Ret tt (at_inst h (add_count d (Z.of_nat (ones dir v devs)) p)).
Proof.
  intros Hn Hdir. revert v p h. induction Hn as [|n x nodes devs Hnx Hn IH]; intros v p h -> Hp;
    cbn [count_pcms ones].
  - by rewrite add_count_0, at_inst_id.
  - cbv zeta. destruct (carried_run h n x dir v Hnx Hdir) as (r & y & E & Ey).
    unfold bind at 1. rewrite E, Ey. destruct (carried dir v x =? 1).
    + erewrite block_run; [|by apply upd_adi_run]. erewrite IH by done.
      rewrite Nat2Z.inj_add. by rewrite <- add_count_add.
    + unfold bind, ret. by erewrite IH by done.
Qed.

(** The first PCM more than the arrays have room for is out of bounds. *)
Lemma pcm_info_overflow d dir nodes devs v acc m k p h :
  Forall2 (node_dev (h_snd h)) nodes devs -> plain_prop dir ->
  Forall (fun x => is_Some (sd_name x)) devs -> k = Z.of_nat (S (length acc)) ->
  (m < length (pcm_from dir v devs))%nat ->
  pcm_info_loop d dir nodes v k (at_inst h (filled d acc m p)) = Crash OutOfBounds.
Proof.
  intros Hn Hdir. revert v acc m k. induction Hn as [|n x nodes devs Hnx Hn IH]; intros v acc m k Hnames Hk.
  - cbn. lia.
  - apply Forall_cons in Hnames as [[name Hname] Hnames]. cbn [pcm_info_loop pcm_from]. cbv zeta.
    set (h1 := at_inst h _).
    destruct (carried_run h1 n x dir v Hnx Hdir) as (r & y & E & Ey).
    unfold bind at 1. rewrite E, Ey. clear E Ey r y. unfold h1. clear h1.
    destruct (carried dir v x =? 0); [by apply IH|]. intros Hm.
    unfold bind at 1. rewrite (lift_query _ (0, sd_name x)) by by apply get_name_run.
    change (nz 0) with false. cbv iota. rewrite Hname. destruct m as [|m].
    + unfold bind at 1, store_name at 1. unfold bind at 1. erewrite get_adi_run by reflexivity.
      rewrite names_filled. unfold bind at 1.
      rewrite store_idx_out; [done|]. cbn [length replicate]. rewrite app_nil_r, length_fmap. lia.
    + rewrite (store_then_ask _ _ _ _ (0, Some (s32 (sd_device x)))) by by apply get_id_run.
      change (nz 0) with false. cbv iota. cbn [default].
      change (default 0 (Some (s32 (sd_device x)))) with (s32 (sd_device x)).
      rewrite (store_entry d k acc _ name (s32 (sd_device x)) p h _ Hk).
      apply IH; [done|rewrite length_app; cbn [length]; lia|cbn [length] in Hm; lia].
Qed.

(** *** The function *)

Definition no_pcms (p : mixer_plugin) : Prop :=
  ad_count (am_adi RX_PCM (mx_priv p)) = 0 /\ ad_count (am_adi TX_PCM (mx_priv p)) = 0.

(** Up to the allocation of the arrays. *)
Definition counted (devs : list snd_dev_def) (p : mixer_plugin) : mixer_plugin :=
  add_count TX_PCM (Z.of_nat (ones "capture" 0 devs)) (add_count RX_PCM (Z.of_nat (ones "playback" 0 devs)) p).
Definition fill_pcms (nodes : list snd_node) : AMP Z :=
  let! rx_ok := alloc_dev_info RX_PCM in
  let! tx_ok := alloc_dev_info TX_PCM in
  if negb (rx_ok && tx_ok) then do! amp_free_pcm_dev_info ; ret (- ENOMEM) else
  let! r := amp_create_pcm_info_from_card RX_PCM "playback" nodes in
  if nz r then do! amp_free_pcm_dev_info ; ret r else
  let! r := amp_create_pcm_info_from_card TX_PCM "capture" nodes in
  if nz r then do! amp_free_pcm_dev_info ; ret r else
  do! upd_adi RX_PCM (fun a => set_ad_items (ad_count a) a) ;
  do! upd_adi TX_PCM (fun a => set_ad_items (ad_count a) a) ;
  ret 0.

Lemma get_pcm_info_start i c p h :
  h_inst h = Some p -> am_card_node (mx_priv p) = Some i -> sn_cards (h_snd h) !! i = Some (Some c) ->
  amp_get_pcm_info h =
    if bool_decide (card_pcms c = []) then Ret (- EINVAL) h
    else if plug_alloc (h_tick h)
    then fill_pcms (card_nodes i c) (at_inst (tick_at 1 h) (counted (card_pcms c) p))
    else Ret (- ENOMEM) (tick_at 1 h).
Proof.
  intros Hp Hcard Hc. unfold amp_get_pcm_info. rewrite (bind_run _ _ _ _ _ (get_amp_run _ _ Hp)). rewrite Hcard. cbv zeta.
  unfold bind at 1. rewrite (lift_query _ _ h (num_node_run i c SND_NODE_TYPE_PCM (h_snd h) Hc)).
  unfold bind at 1. rewrite (lift_query _ _ h (num_node_run i c SND_NODE_TYPE_COMPR (h_snd h) Hc)).
  destruct (bool_decide_reflect (card_pcms c = [])) as [E|E].
  { apply app_eq_nil in E as [-> ->]. done. }
  set (n1 := length (cd_devs SND_NODE_TYPE_PCM c)). set (n2 := length (cd_devs SND_NODE_TYPE_COMPR c)).
  assert ((Z.of_nat n1 <=? 0) && (Z.of_nat n2 <=? 0) = false) as ->.
  { apply andb_false_iff. rewrite !Z.leb_gt. unfold card_pcms in E. unfold n1, n2.
    destruct (cd_devs SND_NODE_TYPE_PCM c); cbn [length]; [|lia].
    destruct (cd_devs SND_NODE_TYPE_COMPR c); [done|cbn [length]; lia]. }
  rewrite (proj2 (Z.ltb_ge (Z.of_nat n2) 0)), andb_false_r, (proj2 (Z.ltb_ge (Z.of_nat n1) 0)) by lia.
  cbv zeta. unfold bind at 1, plug_calloc, next_tick, bind at 1, ret at 1.
  destruct (plug_alloc (h_tick h)); [|done]. cbn [negb]. subst n1 n2.
  unfold bind at 1. rewrite (get_nodes_run i c SND_NODE_TYPE_PCM (tick_at 1 h) Hc).
  change (nz 0) with false. cbv iota.
  unfold bind at 1. rewrite (get_nodes_run i c SND_NODE_TYPE_COMPR (tick_at 1 h) Hc).
  change (nz 0) with false. cbv iota. fold (card_nodes i c).
  pose proof (card_nodes_devs i c (h_snd h) Hc) as Hnd.
  erewrite block_run; [|by eapply (count_pcms_run _ RX_PCM _ _ _ 0 p (tick_at 1 h) Hnd)].
  erewrite block_run; [|by eapply (count_pcms_run _ TX_PCM _ _ _ 0 _ _ Hnd)]. done.
Qed.

(** One direction. *)
Lemma create_pcm_run d dir nodes devs p h :
  Forall2 (node_dev (h_snd h)) nodes devs -> plain_prop dir ->
  Forall (fun x => is_Some (sd_name x)) devs ->
  amp_create_pcm_info_from_card d dir nodes
    (at_inst h (blank d (S (length (pcm_from dir 0 devs))) p)) =
  Ret 0 (at_inst h (upd_mx_priv (upd_am_adi d (set_ad_count (Z.of_nat (S (length (pcm_from dir 0 devs))))))
                      (filled d (pcm_from dir 0 devs) 0 p))).
Proof.
  intros Hn Hdir Hnames. unfold amp_create_pcm_info_from_card. rewrite store_zero. unfold bind at 1.
  rewrite <- (Nat.add_0_r (length (pcm_from dir 0 devs))) at 1.
  rewrite (pcm_info_run d dir nodes devs 0 [] 0 1 p h) by done. cbn [app].
  change (nz 0) with false. cbv iota. by erewrite block_run by (by apply upd_adi_run).
Qed.

Lemma blank_swap d1 d2 n1 n2 p :
  d1 <> d2 -> blank d2 n2 (blank d1 n1 p) = blank d1 n1 (blank d2 n2 p).
Proof. by destruct d1, d2. Qed.

Lemma fill_pcms_found devs nodes p q h :
  Forall2 (node_dev (h_snd h)) nodes devs -> Forall (fun x => is_Some (sd_name x)) devs ->
  no_pcms p -> flags "playback" 0 devs = true -> flags "capture" 0 devs = true ->
  q = counted devs p -> h_inst h = Some q ->
  wp (fill_pcms nodes) (fun r h' => same_libs h h' /\
    ((r < 0 /\ failed p h' /\ exists n, plug_alloc n = false) \/
     (r = 0 /\ exists k, h' = at_inst (tick_at k h) (with_pcms devs p)))) h.
Proof.
  intros Hn Hnames [Hrx0 Htx0] Frx Ftx Eq Hq. unfold fill_pcms, wpg.
  destruct (alloc_both RX_PCM TX_PCM q h (ones "playback" 0 devs) (ones "capture" 0 devs))
    as (b1 & b2 & h1 & h2 & E1 & E2 & Ht & Hf & Hl & Hfail); [done|done|subst q; cbn in *; lia..|].
  unfold bind at 1. rewrite E1. unfold bind at 1. rewrite E2. destruct (b1 && b2) eqn:Eb; cbn [negb].
  - rewrite (Ht eq_refl). clear Ht Hf Hfail Hl E2 E1.
    rewrite (flags_ones _ _ _ Frx), (flags_ones _ _ _ Ftx). rewrite blank_swap by done.
    rewrite (bind_run _ _ _ _ _ (create_pcm_run RX_PCM "playback" nodes devs
      (blank TX_PCM _ q) (tick_at 4 h) Hn (conj eq_refl eq_refl) Hnames)).
    change (nz 0) with false. cbv iota. set (l := pcm_from "playback" 0 devs).
    change (upd_mx_priv (upd_am_adi RX_PCM ?f) (filled RX_PCM l 0 (blank TX_PCM ?n q)))
      with (blank TX_PCM n (upd_mx_priv (upd_am_adi RX_PCM f) (filled RX_PCM l 0 q))).
    rewrite (bind_run _ _ _ _ _ (create_pcm_run TX_PCM "capture" nodes devs
      _ (tick_at 4 h) Hn (conj eq_refl eq_refl) Hnames)).
    change (nz 0) with false. cbv iota.
    erewrite block_run; [|by apply upd_adi_run]. erewrite block_run; [|by apply upd_adi_run].
    unfold ret. split; [done|]. right. split; [done|]. exists 4%nat. subst q.
    unfold with_pcms, listed, filled. cbn [replicate]. rewrite !app_nil_r. done.
  - destruct Hfail as (p3 & Hp3 & Hc3). destruct (free_pcm_run p3 h2 Hp3) as (p4 & E4 & Hc4).
    unfold bind. rewrite E4. unfold ret. split; [done|]. left. split; [done|].
    split; [|by apply Hf]. exists p4. split; [done|]. rewrite Hc4, Hc3. by subst q.
Qed.

Lemma pcm_info_found i c p h :
  h_inst h = Some p -> am_card_node (mx_priv p) = Some i -> sn_cards (h_snd h) !! i = Some (Some c) ->
  no_pcms p -> Forall (fun x => is_Some (sd_name x)) (card_pcms c) ->
  flags "playback" 0 (card_pcms c) = true -> flags "capture" 0 (card_pcms c) = true ->
  wp amp_get_pcm_info (fun r h' => same_libs h h' /\
    ((r < 0 /\ failed p h' /\ (card_pcms c = [] \/ exists n, plug_alloc n = false)) \/
     (r = 0 /\ exists k, h' = at_inst (tick_at k h) (with_pcms (card_pcms c) p)))) h.
Proof.
  intros Hp Hcard Hc Hno Hnames Frx Ftx. unfold wpg at 1. rewrite (get_pcm_info_start _ _ _ _ Hp Hcard Hc).
  destruct (bool_decide_reflect (card_pcms c = [])) as [E|E].
  { split; [done|]. left. split; [done|]. split; [by exists p|by left]. }
  destruct (plug_alloc (h_tick h)) eqn:Ea.
  2: { split; [done|]. left. split; [done|]. split; [by exists p|right; by eexists]. }
  assert (Hw : wp (fill_pcms (card_nodes i c)) (fun r h' => same_libs h h' /\
    ((r < 0 /\ failed p h' /\ (card_pcms c = [] \/ exists n, plug_alloc n = false)) \/
     (r = 0 /\ exists k, h' = at_inst (tick_at k h) (with_pcms (card_pcms c) p))))
    (at_inst (tick_at 1 h) (counted (card_pcms c) p))).
  2: { unfold wpg in Hw. exact Hw. }
  eapply wpg_mono.
  { by apply (fill_pcms_found (card_pcms c) (card_nodes i c) p (counted (card_pcms c) p)); [apply card_nodes_devs|..]. }
  intros r h' [Hl [(Hr & Hf & Hn)|(-> & k & ->)]]; (split; [exact Hl|]).
  - left. split; [done|]. split; [done|]. by right.
  - right. split; [done|]. exists (k + 1)%nat. unfold tick_at. hsimp. by rewrite Nat.add_assoc.
Qed.

Lemma listed_wf d l p : adi_wf (am_adi d (mx_priv (listed d l p))) l.
Proof. by destruct d; constructor. Qed.

(** Finding the PCMs.  When the devices of the card say of themselves whether
    they play and whether they capture, with 0 or 1, the plug-in's tables hold
    exactly those that do, with name and number, the PCMs before the compress
    devices, each in the order of the card; the arrays that were allocated from a
    first count are exactly filled.  Nothing else can go wrong but a card without
    devices or the lack of memory, and asking changes neither the card nor the
    service. *)
Theorem amp_pcm_info_correct i c p h :
  h_inst h = Some p -> am_card_node (mx_priv p) = Some i -> sn_cards (h_snd h) !! i = Some (Some c) ->
  no_pcms p -> Forall (fun x => is_Some (sd_name x)) (card_pcms c) ->
  (forall dir x, dir = "playback"%string \/ dir = "capture"%string -> x ∈ card_pcms c ->
     is_Some (find_prop dir (sd_props x)) /\ (prop_int dir x = 0 \/ prop_int dir x = 1)) ->
  exists r h', amp_get_pcm_info h = Ret r h' /\ h_agm h' = h_agm h /\ h_snd h' = h_snd h /\
    ((r < 0 /\ (card_pcms c = [] \/ exists n, plug_alloc n = false)) \/
     (r = 0 /\ exists p', h_inst h' = Some p' /\
        adi_wf (am_adi RX_PCM (mx_priv p')) (dev_entry <$> filter (fun x => prop_int "playback" x = 1) (card_pcms c)) /\
        adi_wf (am_adi TX_PCM (mx_priv p')) (dev_entry <$> filter (fun x => prop_int "capture" x = 1) (card_pcms c)))).
Proof.
  intros Hp Hcard Hc Hno Hnames Hprops.
  assert (Hfl : forall dir v, dir = "playback"%string \/ dir = "capture"%string ->
    flags dir v (card_pcms c) = true /\
    pcm_from dir v (card_pcms c) = dev_entry <$> filter (fun x => prop_int dir x = 1) (card_pcms c)).
  { intros dir v Hdir. assert (Hp' : forall x, x ∈ card_pcms c ->
      is_Some (find_prop dir (sd_props x)) /\ (prop_int dir x = 0 \/ prop_int dir x = 1)) by (intros; by apply Hprops).
    revert v. clear - Hp'. induction (card_pcms c) as [|x l IH]; intros v; [done|].
    destruct (Hp' x) as [[y Hy] H01]; [by constructor|]. cbn [flags pcm_from]. cbv zeta.
    assert (carried dir v x = prop_int dir x) as -> by (unfold carried, prop_int; by rewrite Hy).
    assert (Hl : forall x0, x0 ∈ l -> is_Some (find_prop dir (sd_props x0)) /\
      (prop_int dir x0 = 0 \/ prop_int dir x0 = 1)) by (intros; apply Hp'; by constructor).
    destruct (IH Hl (prop_int dir x)) as [-> ->]. rewrite filter_cons.
    destruct H01 as [->| ->]; by case_decide. }
  destruct (Hfl "playback"%string 0) as [F1 L1]; [by left|].
  destruct (Hfl "capture"%string 0) as [F2 L2]; [by right|].
  pose proof (pcm_info_found i c p h Hp Hcard Hc Hno Hnames F1 F2) as Hw.
  destruct (wp_run _ _ _ Hw) as (r & h' & E & [Ha Hs] & Hr). exists r, h'.
  split; [exact E|]. split; [done|]. split; [done|]. destruct Hr as [(Hr & _ & Hn)|(-> & k & ->)].
  - by left.
  - right. split; [done|]. eexists. split; [reflexivity|]. unfold with_pcms, pcm_entries.
    rewrite L1, L2. split; [exact (listed_wf RX_PCM _ p)|exact (listed_wf TX_PCM _ _)].
Qed.

(** A value other than 0 and 1.  The arrays are allocated for the devices
    whose value is 1 and filled with those whose value is not 0: a card with a
    device that gives "playback" as 2, say, writes past the end of the array. *)
Theorem amp_pcm_value_overflow i c p h :
  h_inst h = Some p -> am_card_node (mx_priv p) = Some i -> sn_cards (h_snd h) !! i = Some (Some c) ->
  no_pcms p -> Forall (fun x => is_Some (sd_name x)) (card_pcms c) ->
  (forall n, plug_alloc n = true) ->
  (ones "playback" 0 (card_pcms c) < length (pcm_entries "playback" (card_pcms c)))%nat ->
  amp_get_pcm_info h = Crash OutOfBounds.
Proof.
  intros Hp Hcard Hc [Hr0 Ht0] Hnames Ha Hlt. rewrite (get_pcm_info_start _ _ _ _ Hp Hcard Hc).
  rewrite bool_decide_false by (intros E; rewrite E in Hlt; cbn in Hlt; lia). rewrite Ha.
  set (q := counted (card_pcms c) p). unfold fill_pcms.
  destruct (alloc_both RX_PCM TX_PCM q (at_inst (tick_at 1 h) q) (ones "playback" 0 (card_pcms c))
    (ones "capture" 0 (card_pcms c))) as (b1 & b2 & h1 & h2 & E1 & E2 & Ht & Hf & _);
    [done|done|unfold q; cbn in *; lia..|].
  unfold bind at 1. rewrite E1. unfold bind at 1. rewrite E2. destruct (b1 && b2); cbn [negb].
  2: { destruct (Hf eq_refl) as [n Hn]. by rewrite Ha in Hn. }
  rewrite (Ht eq_refl), blank_swap by done. unfold bind at 1, amp_create_pcm_info_from_card.
  rewrite store_zero. unfold bind at 1.
  rewrite (pcm_info_overflow RX_PCM "playback" (card_nodes i c) (card_pcms c) 0 []); [done|..].
  - by apply card_nodes_devs.
  - done.
  - done.
  - done.
  - exact Hlt.
Qed.
End Pcms.
