(* ===== verification/MixerSession.v ===== *)
(** * The mixer plug-in: opening, controls at work, events

    Opening composes the discovery and the construction of [MixerOpen] and
    [MixerProps]; the reference to the card is followed through every path of open
    and close.  Then what writing the controls does: the name that tells "connect"
    from "disconnect", the selection by "control", and the two queues of events. *)

From S2P Require Export MixerOpen.
From stdpp Require Import pretty.
Open Scope Z_scope.
#[export] Set Default Goal Selector "!".

Section MixerSession.
Context `{Env, Alsa, SndEnv, PlugEnv, Mixer}.

(** ** The card through open and close *)

(** The card the plug-in holds, and the cards in memory. *)
Definition card_view (h : host mixer_plugin) : option (option nat) * list (option snd_card) :=
  ((fun p => am_card_node (mx_priv p)) <$> h_inst h, sn_cards (h_snd h)).

#[local] Instance keeps_upd_amp f :
  (forall a, am_card_node (f a) = am_card_node a) -> Keeps card_view (upd_amp f).
Proof.
  intros Hf h a h'. unfold upd_amp, upd_inst, the_inst, modify, bind.
  destruct (h_inst h) as [p|] eqn:E; [|done]. intros [= _ <-]. unfold card_view. hsimp. rewrite E. cbn.
  by rewrite Hf.
Qed.

#[local] Instance keeps_upd_inst_view f :
  (forall p, mx_priv (f p) = mx_priv p) -> Keeps card_view (upd_inst f).
Proof.
  intros Hf h a h'. unfold upd_inst, the_inst, modify, bind.
  destruct (h_inst h) as [p|] eqn:E; [|done]. intros [= _ <-]. unfold card_view. hsimp. rewrite E. cbn.
  by rewrite Hf.
Qed.

#[local] Instance keeps_lift_query {A} (m : SND A) : snd_query A m -> Keeps card_view (lift_snd m).
Proof.
  intros Hq h a h'. unfold lift_snd. destruct (m (h_snd h)) as [x s|] eqn:E; [|done]. intros [= _ <-].
  unfold card_view. hsimp. by rewrite (keeps_query _ _ Hq _ _ _ E).
Qed.

#[local] Hint Extern 0 (Keeps _ (upd_amp _)) => (apply keeps_upd_amp; intros; reflexivity) : keeps.
#[local] Hint Extern 0 (Keeps _ (upd_adi _ _)) => (apply keeps_upd_amp; intros; reflexivity) : keeps.
#[local] Hint Extern 0 (Keeps _ (upd_inst (set_mx_num_controls _))) =>
  (apply keeps_upd_inst_view; intros; reflexivity) : keeps.
#[local] Hint Extern 0 (Keeps _ (lift_snd _)) => (apply keeps_lift_query; constructor) : keeps.
#[local] Hint Extern 0 (Keeps _ plug_calloc) =>
  (unfold plug_calloc; apply Keeps_bind; [apply Keeps_next_tick; intros; reflexivity|intros; apply Keeps_ret]) : keeps.

Lemma keeps_get_adi d : Keeps card_view (get_adi d).
Proof. unfold get_adi, get_amp. keeps_tac. Qed.
Lemma keeps_get_amp : Keeps card_view get_amp.
Proof. unfold get_amp. keeps_tac. Qed.
Lemma keeps_at_idx {A} (l : option (list A)) i : Keeps card_view (at_idx l i).
Proof. unfold at_idx. keeps_tac. Qed.
Lemma keeps_store_idx {A} (l : option (list A)) i v : Keeps card_view (store_idx l i v).
Proof. unfold store_idx. keeps_tac. Qed.
#[local] Hint Resolve keeps_get_adi keeps_get_amp keeps_at_idx keeps_store_idx : keeps.
Lemma keeps_store_name d i v : Keeps card_view (store_name d i v).
Proof. unfold store_name. keeps_tac. Qed.
Lemma keeps_store_id d i v : Keeps card_view (store_id d i v).
Proof. unfold store_id. keeps_tac. Qed.
#[local] Hint Resolve keeps_store_name keeps_store_id : keeps.

Lemma keeps_free d : Keeps card_view (amp_free_dev_info d).
Proof. unfold amp_free_dev_info. keeps_tac. Qed.
#[local] Hint Resolve keeps_free : keeps.
Lemma keeps_free_be : Keeps card_view amp_free_be_dev_info.
Proof. unfold amp_free_be_dev_info. keeps_tac. Qed.
Lemma keeps_free_pcm : Keeps card_view amp_free_pcm_dev_info.
Proof. unfold amp_free_pcm_dev_info. keeps_tac. Qed.
Lemma keeps_free_ctls : Keeps card_view amp_free_ctls.
Proof. unfold amp_free_ctls. keeps_tac. Qed.
Lemma keeps_alloc d : Keeps card_view (alloc_dev_info d).
Proof. unfold alloc_dev_info. keeps_tac. Qed.
#[local] Hint Resolve keeps_free_be keeps_free_pcm keeps_free_ctls keeps_alloc : keeps.

Lemma keeps_copy_be l i d dir k : Keeps card_view (copy_be_names l i d dir k).
Proof. revert i k. induction l as [|[n dd] l IH]; intros i k; cbn [copy_be_names]; keeps_tac; apply IH. Qed.
Lemma keeps_count_be l : Keeps card_view (count_be l).
Proof. induction l as [|[n dd] l IH]; cbn [count_be]; keeps_tac. Qed.
#[local] Hint Resolve keeps_copy_be keeps_count_be : keeps.
Lemma keeps_be_info : Keeps card_view amp_get_be_info.
Proof. unfold amp_get_be_info, amp_copy_be_names_from_aif_list. keeps_tac. Qed.

Lemma keeps_info_loop d dir l v k : Keeps card_view (pcm_info_loop d dir l v k).
Proof. revert v k. induction l as [|n l IH]; intros v k; cbn [pcm_info_loop]; cbv zeta; keeps_tac; apply IH. Qed.
Lemma keeps_count_pcms d dir l v : Keeps card_view (count_pcms d dir l v).
Proof. revert v. induction l as [|n l IH]; intros v; cbn [count_pcms]; cbv zeta; keeps_tac; apply IH. Qed.
#[local] Hint Resolve keeps_info_loop keeps_count_pcms : keeps.
Lemma keeps_pcm_info : Keeps card_view amp_get_pcm_info.
Proof. unfold amp_get_pcm_info, get_nodes, amp_create_pcm_info_from_card. cbv zeta. keeps_tac. Qed.

Lemma keeps_init_control k n extn v f pv pd : Keeps card_view (init_control k n extn v f pv pd).
Proof. unfold init_control. keeps_tac. Qed.
#[local] Hint Resolve keeps_init_control : keeps.
#[local] Hint Extern 1 (Keeps _ (_ _)) => progress unfold
  amp_create_media_fmt_ctl, amp_create_metadata_ctl, amp_create_be_set_param_ctl,
    amp_create_connect_ctl, amp_create_disconnect_ctl, amp_create_mtd_control_ctl,
    amp_create_pcm_metadata_ctl, amp_create_pcm_set_param_ctl, amp_create_pcm_get_tag_info_ctl,
    amp_create_pcm_event_ctl, amp_create_pcm_calibration_ctl, amp_create_pcm_get_param_ctl,
    amp_create_pcm_bufinfo_ctl, amp_create_pcm_loopback_ctl, amp_create_pcm_echoref_ctl,
    amp_create_pcm_buf_tstamp_ctl, amp_create_pcm_sidetone_ctl : keeps.
Lemma keeps_set_param_ctl n k pv pd b : Keeps card_view (amp_create_pcm_set_param_ctl n k pv pd b).
Proof. unfold amp_create_pcm_set_param_ctl. keeps_tac. Qed.
#[local] Hint Resolve keeps_set_param_ctl : keeps.

Lemma keeps_for_devs d k body :
  (forall i n idx k, Keeps card_view (body i n idx k)) -> Keeps card_view (for_devs d k body).
Proof. intros Hb. unfold for_devs. keeps_tac. Qed.

Lemma keeps_form_ctls be pcm : Keeps card_view (form_ctls be pcm).
Proof.
  assert (H1' : forall d k, Keeps card_view (form_be_ctls_of d k)).
  { intros. unfold form_be_ctls_of. apply keeps_for_devs. keeps_tac. }
  assert (H2' : forall k d b, Keeps card_view (amp_form_common_pcm_ctls k d b)).
  { intros. unfold amp_form_common_pcm_ctls. keeps_tac. apply keeps_for_devs. keeps_tac. }
  assert (H3' : forall k, Keeps card_view (amp_form_rx_pcm_ctls k)).
  { intros. unfold amp_form_rx_pcm_ctls. keeps_tac. apply keeps_for_devs. keeps_tac. }
  assert (H4' : forall k, Keeps card_view (amp_form_tx_pcm_ctls k)).
  { intros. unfold amp_form_tx_pcm_ctls. keeps_tac. apply keeps_for_devs. keeps_tac. }
  unfold form_ctls, amp_form_be_ctls, amp_form_pcm_ctls. cbv zeta. keeps_tac.
Qed.

Lemma keeps_register enable : Keeps card_view (amp_register_event_callback enable).
Proof. unfold amp_register_event_callback. cbv zeta. keeps_tac. Qed.

#[local] Hint Resolve keeps_be_info keeps_pcm_info keeps_form_ctls keeps_register : keeps.

(** An open plug-in holds its card. *)
Definition holds_card (h : host mixer_plugin) (held : list nat) : Prop :=
  exists p i, h_inst h = Some p /\ am_card_node (mx_priv p) = Some i /\
    cards_held (sn_cards (h_snd h)) (i :: held).

Lemma holds_card_view h h' held : card_view h' = card_view h -> holds_card h held -> holds_card h' held.
Proof.
  unfold card_view, holds_card. intros [= E1 E2] (p & i & Hp & Hi & Hc). rewrite Hp in E1. cbn in E1.
  destruct (h_inst h') as [p'|]; [|done]. injection E1 as E1. exists p', i. rewrite E1, E2. by split.
Qed.

Lemma wlp_holds {A} (m : AMP A) (Q : A -> host mixer_plugin -> Prop) h held :
  Keeps card_view m -> holds_card h held ->
  (forall a h', holds_card h' held -> Q a h') -> wlp m Q h.
Proof.
  intros Hk Hh HQ. eapply wpg_mono; [by apply (keeps_wlp card_view)|].
  intros a h' E. by apply HQ, (holds_card_view h).
Qed.

Definition balanced (held : list nat) (r : Z) (h' : host mixer_plugin) : Prop :=
  (r = 0 /\ holds_card h' held) \/
  (r < 0 /\ h_inst h' = None /\ cards_held (sn_cards (h_snd h')) held).

Lemma open_fail_balanced held h :
  holds_card h held -> wlp open_fail (fun r h' => balanced held r h') h.
Proof.
  intros (p & i & Hp & Hi & Hc). unfold open_fail. apply wpg_bind. unfold wpg at 1.
  rewrite (get_amp_run _ _ Hp), Hi. apply wpg_bind. eapply wpg_mono; [by eapply lift_put_held|].
  intros ? h1 [Hc1 _]. apply wpg_bind, wpg_modify, wpg_ret. right. by split.
Qed.

(** A call that keeps the reference to the card. *)
#[local] Ltac hold :=
  apply wpg_bind; eapply wlp_holds; [keeps_tac|eassumption|]; intros ? ? ?.

Lemma open_balanced card held h :
  (forall n l, snd_xml n <> XmlDoc l false) -> cards_held (sn_cards (h_snd h)) held -> h_inst h = None ->
  wlp (agm_mixer_plugin_open card) (fun r h' => balanced held r h') h.
Proof.
  intros Hx Hh Hn. unfold agm_mixer_plugin_open.
  assert (Hno : forall k, balanced held (- ENOMEM) (tick_at k h)) by (intros; right; by split).
  apply wpg_bind, wpg_plug_calloc. hp_step; [by apply wpg_ret, Hno|].
  apply wpg_bind, wpg_plug_calloc. hp_step; [by apply wpg_ret, (Hno 2%nat)|].
  apply wpg_bind, wpg_modify, wpg_bind, wpg_lift_snd.
  eapply wpg_mono; [by apply (get_card_held card _ held Hx)|]. intros [i|] s1 Hs1; apply wpg_bind.
  2: { unfold upd_amp. eapply wpg_upd_inst; [reflexivity|]. apply wpg_bind, wpg_modify, wpg_ret. right. by split. }
  unfold upd_amp. eapply wpg_upd_inst; [reflexivity|].
  assert (Hh1 : holds_card (set_h_inst (Some (upd_mx_priv (set_am_card card (Some i)) (MixerPlugin 0 false 0 amp_zero)))
    (set_h_snd s1 (set_h_inst (Some (MixerPlugin 0 false 0 amp_zero)) (tick_at 1 (tick_at 1 h))))) held).
  { eexists _, i. split; [reflexivity|]. by split. }
  do 4 hold. hold. hp_step; [by apply open_fail_balanced|].
  hold. hp_step; [hold; by apply open_fail_balanced|].
  apply wpg_bind. eapply wlp_holds; [unfold amp_get_be_ctl_count; keeps_tac|eassumption|]. intros be ? ?.
  apply wpg_bind. eapply wlp_holds; [unfold amp_get_pcm_ctl_count; keeps_tac|eassumption|]. intros pcm ? ?.
  cbv zeta. hold. hp_step.
  { unfold err_ctls_alloc. do 3 hold. by apply open_fail_balanced. }
  do 4 hold. apply wpg_ret. by left.
Qed.

(** Open and close of a mixer are balanced.  An open that fails, at whatever
    point and for whatever reason, reports an error, frees the plug-in and puts the
    card back; an open that succeeds followed by a close leaves no plug-in and
    exactly the references of before, whatever the service answers. *)
Theorem amp_open_close card held h :
  (forall n l, snd_xml n <> XmlDoc l false) -> cards_held (sn_cards (h_snd h)) held -> h_inst h = None ->
  wlp (let! r := agm_mixer_plugin_open card in
       if nz r then ret r else do! amp_close ; ret r)
    (fun r h' => r <= 0 /\ h_inst h' = None /\ cards_held (sn_cards (h_snd h')) held) h.
Proof.
  intros Hx Hh Hn. apply wpg_bind. eapply wpg_mono; [by apply open_balanced|].
  intros r h1 [(-> & Hc)|(Hr & Hi & Hc)].
  2: { rewrite (proj2 (nz_true r)) by lia. apply wpg_ret. split; [lia|done]. }
  change (nz 0) with false. cbv iota. apply wpg_bind. unfold amp_close.
  apply wpg_bind. eapply wlp_holds; [keeps_tac|eassumption|]. intros ? h2 H2'.
  apply wpg_bind. eapply wlp_holds; [unfold amp_subscribe_events; keeps_tac|eassumption|]. intros ? h3 (p & i & Hp & Hi & Hc3).
  apply wpg_bind. unfold wpg at 1. rewrite (get_amp_run _ _ Hp), Hi.
  apply wpg_bind. eapply wpg_mono; [by eapply lift_put_held|]. intros ? h4 [Hc4 Hi4].
  assert (Hkeep : forall (m k : AMP unit) h5 (Q : unit -> host mixer_plugin -> Prop), Keeps card_view m ->
    sn_cards (h_snd h5) = sn_cards (h_snd h4) ->
    (forall h6, sn_cards (h_snd h6) = sn_cards (h_snd h4) -> wlp k Q h6) -> wlp (do! m ; k) Q h5).
  { intros m k h5 Q Hm E5 Hk. apply wpg_bind. eapply wpg_mono; [by apply (keeps_wlp card_view)|].
    intros ? h6 [= _ E6]. apply Hk. by rewrite E6. }
  apply Hkeep; [keeps_tac|done|]. intros h5 E5. apply Hkeep; [keeps_tac|done|]. intros h6 E6.
  apply Hkeep; [keeps_tac|done|]. intros h7 E7. apply wpg_modify, wpg_ret. split; [done|]. split; [done|].
  change (cards_held (sn_cards (h_snd h7)) held). by rewrite E7.
Qed.

(** ** The controls of an open mixer *)

(** The service has its pool of sessions, and the thread holds none of its
    mutexes. *)
Definition idle (w : world) : Prop := w_held w = [] /\ is_Some (w_pool w).

Lemma wp_register_cb id cb evt cd w :
  idle w -> wp (agm_session_register_cb id cb evt cd) (fun _ w' => idle w') w.
Proof.
  intros [Hh [p Hp]]. unfold agm_session_register_cb, with_session. apply wpg_bind.
  apply (wpg_mono _ _ (fun res w' => w_held w' = [] /\ exists p', w_pool w' = Some p' /\
    (forall j, res.2 = Some j -> is_Some (p' !! j)))).
  - unfold session_obj_get. apply wpg_bind, wpg_with_lock; [rewrite Hh; by apply not_elem_of_nil|].
    apply wpg_bind, wpg_bind, wpg_gets. wsimp. rewrite Hp. apply wpg_ret.
    destruct (find_session p id) as [j|] eqn:Ef.
    + apply wpg_ret. split; [done|]. apply wpg_ret. split; [done|]. exists p. split; [done|].
      intros k [= <-]. apply find_session_Some in Ef as (s & Hs & _). by eexists.
    + unfold session_obj_create. apply wpg_bind, wpg_bind, wpg_calloc. intros [] _; cbn [negb].
      * apply wpg_ret, wpg_bind, wpg_modify, wpg_ret. wsimp. split; [done|]. apply wpg_ret.
        split; [done|]. eexists. split; [done|]. intros k [= <-].
        rewrite lookup_app_r, Nat.sub_diag by lia. by eexists.
      * apply wpg_ret, wpg_ret. wsimp. split; [done|]. apply wpg_ret. split; [done|]. by exists p.
  - intros [r [j|]] w1 (Hh1 & p1 & Hp1 & Hj); [|apply wpg_ret; split; [done|by eexists]].
    destruct (Hj j eq_refl) as [s Hs]. destruct (nz r); [apply wpg_ret; split; [done|by eexists]|].
    unfold session_obj_register_cb. apply wpg_with_lock; [rewrite Hh1; by apply not_elem_of_nil|].
    apply wpg_bind, wpg_calloc. intros [] _; cbn [negb]; [|apply wpg_ret; wsimp; split; [by rewrite Hh1|]; split; [done|by eexists]].
    destruct (nz cb); apply wpg_bind; (eapply wpg_upd_sess; [wsimp; exact Hp1|exact Hs|]); apply wpg_ret; wsimp;
      (split; [by rewrite Hh1|]); (split; [done|by eexists]).
Qed.

(** Registering for the events of the PCMs in well-formed tables. *)
Lemma wpg_register_callbacks (u : Prop) enable p rx tx h :
  h_inst h = Some p -> adi_wf (am_adi RX_PCM (mx_priv p)) rx -> adi_wf (am_adi TX_PCM (mx_priv p)) tx ->
  u \/ idle (h_agm h) ->
  wpg u (amp_register_event_callback enable) (fun _ h' => h_inst h' = h_inst h) h.
Proof.
  intros Hp Wr Wt Hu. unfold amp_register_event_callback. cbv zeta.
  set (J := fun h' => h_inst h' = h_inst h /\ (u \/ idle (h_agm h'))).
  assert (Hreg : forall d l h1 Q, adi_wf (am_adi d (mx_priv p)) l -> J h1 -> (forall h2, J h2 -> Q tt h2) ->
    wpg u (let! adi := get_adi d in
      for_all (seq 1 (Z.to_nat (ad_count adi - 1))) (fun idx =>
        let! session_id := at_idx (ad_idx_arr adi) (Z.of_nat idx) in
        let! _ := lift_agm (agm_session_register_cb (u32 session_id)
          (if enable then addr_amp_event_cb else 0) AGM_EVENT_MODULE addr_amp) in
        ret tt)) Q h1).
  { intros d l h1 Q [Wc _ Wi] [Hi1 Hu1] HQ. apply wpg_bind. unfold wpg at 1.
    rewrite (get_adi_run d p) by congruence. rewrite Wc, Wi.
    apply (wpg_for_all _ _ _ J); [done| |done]. intros i h2 [Hlo Hhi]%elem_of_seq [Hi2 Hu2].
    destruct (lookup_lt_is_Some_2 (0 :: (snd <$> l)) i) as [x Hx]; [cbn [length]; rewrite length_fmap; lia|].
    apply wpg_bind. unfold wpg at 1. rewrite (at_idx_run _ _ _ _ Hx).
    apply wpg_bind, wpg_lift_agm. destruct Hu2 as [Hu2|Hu2].
    - unfold wpg. destruct (agm_session_register_cb _ _ _ _ _); [|done]. split; [done|by left].
    - eapply wpg_mono; [apply wp_wpg, wp_register_cb, Hu2|]. intros ? w' Hw. split; [done|by right]. }
  apply wpg_bind. apply (Hreg _ rx); [done|done|]. intros h2 HJ. apply (Hreg _ tx); [done|done|].
  by intros h3 [? _].
Qed.

(** Giving a card back, when its lock can be taken. *)
Lemma wpg_put_card (u : Prop) node (Q : unit -> host mixer_plugin -> Prop) h :
  u \/ sn_readers (h_snd h) = 0%nat -> (forall s, Q tt (set_h_snd s h)) ->
  wpg u (lift_snd (snd_card_def_put_card node)) Q h.
Proof.
  intros Hu HQ. unfold wpg, lift_snd, snd_card_def_put_card. destruct node as [i|]; [|apply HQ].
  unfold bind at 1, wrlock. destruct Hu as [Hu| ->].
  - destruct (_ <? _)%nat; [done|]. unfold bind, gets. destruct (_ !! i) as [[c|]|]; apply HQ.
  - cbn. destruct (_ !! i) as [[c|]|]; apply HQ.
Qed.

(** Everything open leaves alone once the tables are made. *)
Lemma wf_same_priv rb tb rx tx p p' :
  am_devs (mx_priv p') = am_devs (mx_priv p) -> am_ctls (mx_priv p') = am_ctls (mx_priv p) ->
  mixer_wf rb tb rx tx p -> mixer_wf rb tb rx tx p'.
Proof.
  intros Ed Ec [[m1 [A1 B1 C1 D1 E1]] [m2 [A2 B2 C2 D2 E2]] Hc]. unfold am_adi in *. split.
  - exists m1. by split; unfold am_adi; rewrite ?Ed.
  - exists m2. by split; unfold am_adi; rewrite ?Ed.
  - by rewrite Ec.
Qed.

(** The controls for the interfaces of the service and the devices of a card. *)
Definition mixer_ctls (devs : list device_obj) (c : snd_card) : list snd_control :=
  all_ctls (be_entries RX (aif_infos devs)) (be_entries TX (aif_infos devs))
    (pcm_entries "playback" (card_pcms c)) (pcm_entries "capture" (card_pcms c)).

(** The plug-in when its controls are to be made. *)
Definition discovered (devs : list device_obj) (c : snd_card) (p : mixer_plugin) : mixer_plugin :=
  with_pcms (card_pcms c) (with_backends (aif_infos devs) p).

Lemma discovered_wf devs c p :
  let q := discovered devs c p in
  adi_wf (am_adi RX_BE (mx_priv q)) (be_entries RX (aif_infos devs)) /\
  adi_wf (am_adi TX_BE (mx_priv q)) (be_entries TX (aif_infos devs)) /\
  adi_wf (am_adi RX_PCM (mx_priv q)) (pcm_entries "playback" (card_pcms c)) /\
  adi_wf (am_adi TX_PCM (mx_priv q)) (pcm_entries "capture" (card_pcms c)).
Proof. by repeat split. Qed.

(** What an open that got its card comes to. *)
Definition open_result (devs : list device_obj) (c : snd_card) (r : Z) (h' : host mixer_plugin) : Prop :=
  (r < 0 /\ (devs = [] \/ card_pcms c = [] \/ exists n, plug_alloc n = false)) \/
  (r = 0 /\ exists p', h_inst h' = Some p' /\
     mixer_wf (be_entries RX (aif_infos devs)) (be_entries TX (aif_infos devs))
       (pcm_entries "playback" (card_pcms c)) (pcm_entries "capture" (card_pcms c)) p' /\
     mx_num_controls p' = Z.of_nat (length (mixer_ctls devs c)) /\
     am_events (mx_priv p') = Some [] /\ am_params (mx_priv p') = Some []).

Lemma fail_result (u : Prop) devs c p h :
  u \/ sn_readers (h_snd h) = 0%nat ->
  failed p h -> (devs = [] \/ card_pcms c = [] \/ exists n, plug_alloc n = false) ->
  wpg u open_fail (fun r h' => open_result devs c r h') h.
Proof.
  intros Hu (p' & Hp & _) Hw. unfold open_fail. apply wpg_bind. unfold wpg at 1.
  rewrite (get_amp_run _ _ Hp). apply wpg_bind, wpg_put_card; [done|]. intros s1.
  apply wpg_bind, wpg_modify, wpg_ret. by left.
Qed.

(** Once the controls are made, open succeeds. *)
Lemma publish_result (u : Prop) devs c total p h :
  u \/ idle (h_agm h) -> h_inst h = Some p ->
  mixer_wf (be_entries RX (aif_infos devs)) (be_entries TX (aif_infos devs))
    (pcm_entries "playback" (card_pcms c)) (pcm_entries "capture" (card_pcms c)) p ->
  mx_num_controls p = 0 -> total = Z.of_nat (length (mixer_ctls devs c)) ->
  wpg u (publish total) (fun r h' => open_result devs c r h') h.
Proof.
  intros Hu Hp Hw Hn ->. unfold publish. apply wpg_bind.
  eapply (wpg_mono _ _ (fun _ h' => h_agm h' = h_agm h /\ exists p', h_inst h' = Some p' /\
    am_devs (mx_priv p') = am_devs (mx_priv p) /\ am_ctls (mx_priv p') = am_ctls (mx_priv p) /\
    mx_num_controls p' = Z.of_nat (length (mixer_ctls devs c)))).
  { destruct (Z.ltb_spec 0 (Z.of_nat (length (mixer_ctls devs c)))).
    - apply wpg_bind. eapply wpg_upd_inst; [exact Hp|]. eapply wpg_upd_inst; [reflexivity|].
      split; [done|]. eexists. split; [reflexivity|]. by split.
    - apply wpg_ret. split; [done|]. exists p. repeat (split; [done|]). lia. }
  intros _ h1 (Ha1 & p1 & Hp1 & Hd1 & Hc1 & Hn1). apply wpg_bind.
  assert (Hw1 : mixer_wf (be_entries RX (aif_infos devs)) (be_entries TX (aif_infos devs))
    (pcm_entries "playback" (card_pcms c)) (pcm_entries "capture" (card_pcms c)) p1)
    by by apply (wf_same_priv _ _ _ _ p).
  pose proof Hw1 as [[m1 [_ Wr _ _ _]] [m2 [_ Wt _ _ _]] _].
  eapply wpg_mono; [apply (wpg_register_callbacks u true p1 _ _ h1 Hp1 Wr Wt); by rewrite Ha1|].
  intros ? h2 E2. rewrite Hp1 in E2.
  apply wpg_bind. eapply wpg_upd_inst; [exact E2|]. apply wpg_bind. eapply wpg_upd_inst; [reflexivity|].
  apply wpg_ret. right. split; [done|]. eexists. split; [reflexivity|].
  split; [by apply (wf_same_priv _ _ _ _ p1)|]. by repeat split.
Qed.

Lemma open_outcome (u : Prop) devs card i c s1 h :
  u \/ (sn_readers s1 = 0%nat /\ idle (h_agm h)) ->
  intfs devs (h_agm h) -> snd_card_def_get_card card (h_snd h) = Ret (Some i) s1 ->
  sn_cards s1 !! i = Some (Some c) -> Forall (fun x => is_Some (sd_name x)) (card_pcms c) ->
  flags "playback" 0 (card_pcms c) = true -> flags "capture" 0 (card_pcms c) = true ->
  wpg u (agm_mixer_plugin_open card) (fun r h' => open_result devs c r h') h.
Proof.
  intros Hu Hi Hget Hc Hnames Frx Ftx. unfold agm_mixer_plugin_open.
  assert (Hno : forall n, plug_alloc n = false -> devs = [] \/ card_pcms c = [] \/ exists n, plug_alloc n = false)
    by (intros n ?; right; right; by exists n).
  assert (Hput : forall h' : host mixer_plugin, h_snd h' = s1 -> u \/ sn_readers (h_snd h') = 0%nat)
    by (intros h' ->; destruct Hu as [?|[? _]]; auto).
  apply wpg_bind, wpg_plug_calloc. hp_step; bool_hyps; [apply wpg_ret; left; split; [done|by eapply Hno]|].
  apply wpg_bind, wpg_plug_calloc. hp_step; bool_hyps; [apply wpg_ret; left; split; [done|by eapply Hno]|].
  apply wpg_bind, wpg_modify, wpg_bind, wpg_lift_snd. unfold wpg at 1. hsimp. rewrite Hget.
  apply wpg_bind. unfold upd_amp. eapply wpg_upd_inst; [reflexivity|].
  do 4 (apply wpg_bind; unfold upd_adi, upd_amp; eapply wpg_upd_inst; [reflexivity|]).
  set (h1 := set_h_inst _ _). set (p1 := upd_mx_priv (upd_am_adi TX_PCM (set_ad_dir TX)) _) in h1.
  assert (Hp1 : h_inst h1 = Some p1) by done.
  apply wpg_bind. eapply wpg_mono; [apply wp_wpg, (be_info_found devs p1 h1 Hp1 Hi)|].
  intros r h2 [Hl2 [(Hr & Hf & Hw)|(-> & k2 & ->)]].
  { rewrite (proj2 (nz_true r)) by lia. destruct Hl2 as [_ Hl2].
    apply (fail_result u devs c p1); [by apply Hput|done|]. destruct Hw; auto. }
  change (nz 0) with false. cbv iota. set (p2 := with_backends (aif_infos devs) p1).
  apply wpg_bind. eapply wpg_mono; [apply wp_wpg, (pcm_info_found i c p2)|]; [done..|].
  intros r h3 [Hl3 [(Hr & Hf & Hw)|(-> & k3 & ->)]].
  { rewrite (proj2 (nz_true r)) by lia. destruct Hf as (p3 & Hp3 & Hc3). apply wpg_bind.
    destruct (free_be_run p3 h3 Hp3) as (p4 & E4 & _). unfold wpg at 1. rewrite E4.
    destruct Hl3 as [_ Hl3].
    apply (fail_result u devs c p4); [by apply Hput|by exists p4|]. destruct Hw; auto. }
  change (nz 0) with false. cbv iota.
  change (with_pcms (card_pcms c) p2) with (discovered devs c p1).
  destruct (discovered_wf devs c p1) as (Wrb & Wtb & Wrx & Wtx). set (p3 := discovered devs c p1) in *.
  set (h3 := set_h_inst _ _). assert (Hp3 : h_inst h3 = Some p3) by done.
  apply wpg_bind. unfold wpg at 1. rewrite (be_ctl_count_run _ _ _ _ Hp3 Wrb Wtb).
  apply wpg_bind. unfold wpg at 1. rewrite (pcm_ctl_count_run _ _ _ _ Hp3 Wrx Wtx). cbv zeta.
  apply wpg_bind. eapply wpg_mono; [apply wp_wpg, (form_ctls_made _ _ _ _ p3 h3 _ _ Hp3 Wrb Wtb Wrx Wtx eq_refl eq_refl)|].
  intros r h4 [Hl4 [(-> & Hn & p4 & Hp4 & _)|(-> & k4 & ->)]].
  - change (nz (- ENOMEM)) with true. cbv iota. unfold err_ctls_alloc. apply wpg_bind.
    unfold amp_free_ctls. apply wpg_bind. eapply wpg_upd_inst; [exact Hp4|]. eapply wpg_upd_inst; [reflexivity|].
    set (h5 := set_h_inst _ _).
    destruct (free_pcm_run _ h5 eq_refl) as (p6 & E6 & _). apply wpg_bind. unfold wpg at 1. rewrite E6.
    destruct (free_be_run p6 (at_inst h5 p6) eq_refl) as (p7 & E7 & _). apply wpg_bind. unfold wpg at 1. rewrite E7.
    destruct Hl4 as [_ Hl4]. apply (fail_result u devs c p7); [by apply Hput|by exists p7|]. auto.
  - change (nz 0) with false. cbv iota.
    eapply publish_result; [destruct Hu as [?|[_ ?]]; [by left|by right]|reflexivity| |done|].
    + destruct Wrx, Wtx. split.
      * eexists. split; try done. by rewrite length_replicate.
      * eexists. split; try done. by rewrite length_replicate.
      * cbn. by rewrite app_nil_r.
    + unfold mixer_ctls, all_ctls. by rewrite length_app, Nat2Z.inj_add.
Qed.

(** C30: the controls of an open mixer.  A card is found whose devices have names
    and say 0 or 1 of playback and capture, nobody reads the card definitions, and
    the service has its pool of sessions and none of its mutexes is held by this
    thread.  Then opening returns: it fails, with an error, only without memory,
    back ends or PCMs, and else shows exactly the reference controls: those of
    the interfaces the service has, by direction, and of the PCMs and compress
    devices of the card, counted right; no event is queued. *)
Theorem amp_open_controls devs card i c s1 h :
  intfs devs (h_agm h) -> snd_card_def_get_card card (h_snd h) = Ret (Some i) s1 ->
  sn_cards s1 !! i = Some (Some c) -> Forall (fun x => is_Some (sd_name x)) (card_pcms c) ->
  flags "playback" 0 (card_pcms c) = true -> flags "capture" 0 (card_pcms c) = true ->
  sn_readers s1 = 0%nat -> idle (h_agm h) ->
  wp (agm_mixer_plugin_open card) (fun r h' => open_result devs c r h') h.
Proof. intros. apply (open_outcome False devs card i c s1); auto. Qed.
End MixerSession.
