(* ===== verification/MixerCalls.v ===== *)
(** * The mixer plug-in: controls at work and events

    What writing a control does to the service: the name that tells "connect" from
    "disconnect", and the selection of a back end by "control" for the controls that
    follow it.  Then the events: one queue for each session, the names under which
    they are announced, and reading them. *)

From S2P Require Export MixerSession.
From stdpp Require Import pretty.
Open Scope Z_scope.
#[export] Set Default Goal Selector "!".

(** ** Searching a name *)

Section Names.

Definition no_space (s : string) : bool := negb (strstr " " s).

Lemma prefix_space sub x b :
  no_space sub = true -> String.prefix sub (x ++ String " " b) = String.prefix sub x.
Proof.
  revert x. induction sub as [|c sub IH]; intros x Hs; [by destruct x|].
  assert (Hc : c <> " "%char /\ no_space sub = true).
  { unfold no_space in *. cbn [strstr] in Hs. apply negb_true_iff, orb_false_iff in Hs as [Hp Hs].
    split; [|by rewrite Hs]. intros ->. by destruct sub. }
  destruct Hc as [Hc Hs']. destruct x as [|d x].
  - change ((EmptyString ++ String " " b)%string) with (String " " b). cbn [String.prefix].
    by destruct (ascii_dec c " ").
  - change ((String d x ++ String " " b)%string) with (String d (x ++ String " " b)). cbn [String.prefix].
    destruct (ascii_dec c d); [|done]. by apply IH.
Qed.

(** A match without a space lies on one side of a space. *)
Lemma strstr_space sub x b :
  no_space sub = true -> strstr sub (x ++ String " " b) = strstr sub x || strstr sub b.
Proof.
  intros Hs. induction x as [|c x IH].
  - change ((EmptyString ++ String " " b)%string) with (String " " b). cbn [strstr].
    change (String " " b) with ((EmptyString ++ String " " b)%string). rewrite prefix_space by done.
    by rewrite orb_false_r.
  - change ((String c x ++ String " " b)%string) with (String c (x ++ String " " b)). cbn [strstr].
    change (String c (x ++ String " " b)) with ((String c x ++ String " " b)%string).
    rewrite prefix_space by done. rewrite IH. by rewrite orb_assoc.
Qed.

Lemma strstr_refl sub : strstr sub sub = true.
Proof.
  assert (Hp : forall s, String.prefix s s = true).
  { induction s as [|c s IH]; [done|]. cbn. by destruct (ascii_dec c c). }
  destruct sub; cbn [strstr]; by rewrite Hp.
Qed.

Lemma strstr_short sub s : (String.length s < String.length sub)%nat -> strstr sub s = false.
Proof.
  assert (Hp : forall sub s, (String.length s < String.length sub)%nat -> String.prefix sub s = false).
  { clear. induction sub as [|c sub IH]; intros [|d s] Hl; cbn in *; try done; try lia.
    destruct (ascii_dec c d); [apply IH; lia|done]. }
  intros Hl. induction s as [|d s IH]; cbn [strstr]; rewrite Hp by done; [done|].
  cbn in Hl |- *. apply IH. lia.
Qed.

Lemma strstr_substring sub k s : strstr sub s = false -> strstr sub (String.substring 0 k s) = false.
Proof.
  assert (Hp : forall sub k s, String.prefix sub (String.substring 0 k s) = true -> String.prefix sub s = true).
  { clear. induction sub as [|c sub IH]; intros k s; [by destruct s|].
    destruct k as [|k], s as [|d s]; cbn [String.substring String.prefix]; try done.
    destruct (ascii_dec c d); [apply IH|done]. }
  revert k. induction s as [|d s IH]; intros k Hs.
  - by destruct k.
  - cbn [strstr] in Hs. apply orb_false_iff in Hs as [Hs1 Hs2].
    destruct k as [|k]; cbn [String.substring strstr].
    + apply orb_false_iff. split; [|done]. destruct (String.prefix sub EmptyString) eqn:E; [|done].
      specialize (Hp sub 0%nat (String d s)). cbn [String.substring] in Hp.
      by rewrite (Hp E) in Hs1.
    + apply orb_false_iff. split; [|by apply IH].
      destruct (String.prefix sub (String d (String.substring 0 k s))) eqn:E; [|done].
      specialize (Hp sub (S k) (String d s)). cbn [String.substring] in Hp.
      by rewrite (Hp E) in Hs1.
Qed.

Lemma substring_append a b k :
  (String.length a <= k)%nat ->
  String.substring 0 k (a ++ b) = (a ++ String.substring 0 (k - String.length a) b)%string.
Proof.
  revert k. induction a as [|c a IH]; intros k Hk.
  - cbn [String.length]. by rewrite Nat.sub_0_r.
  - destruct k as [|k]; [cbn in Hk; lia|].
    change ((String c a ++ b)%string) with (String c (a ++ b)). cbn [String.substring String.length Nat.sub].
    rewrite IH by (cbn in Hk; lia). done.
Qed.

Lemma substring_short a b k :
  (k <= String.length a)%nat -> String.substring 0 k (a ++ b) = String.substring 0 k a.
Proof.
  revert k. induction a as [|c a IH]; intros k Hk.
  - assert (k = 0)%nat as -> by (cbn in Hk; lia). by destruct b.
  - destruct k as [|k]; [done|].
    change ((String c a ++ b)%string) with (String c (a ++ b)). cbn [String.substring].
    by rewrite IH by (cbn in Hk; lia).
Qed.

Lemma substring_length k s : (String.length (String.substring 0 k s) <= k)%nat.
Proof. revert k. induction s as [|c s IH]; intros [|k]; cbn; [lia..|]. specialize (IH k). lia. Qed.

(** Room for a name and what follows it. *)
Lemma ctl_name_fits n extn :
  (String.length n + 1 + String.length extn < CTL_NAME_LEN)%nat ->
  ctl_name n extn = (n ++ String " " extn)%string.
Proof.
  intros Hl. unfold ctl_name. rewrite substring_append by lia. f_equal.
  assert (Hall : forall s k, (String.length s <= k)%nat -> String.substring 0 k s = s).
  { clear. induction s as [|c s IH]; intros [|k] Hk; cbn in *; try done; [lia|]. by rewrite IH by lia. }
  apply Hall. cbn [String.length]. lia.
Qed.

(** What can be found in the name of a control, which may be cut short. *)
Lemma ctl_name_seen sub n extn :
  no_space sub = true -> strstr sub n = false ->
  strstr sub (ctl_name n extn) =
    strstr sub (String.substring 0 (CTL_NAME_LEN - 2 - String.length n) extn).
Proof.
  intros Hs Hn. unfold ctl_name. destruct (Nat.le_gt_cases (String.length n) (CTL_NAME_LEN - 2)) as [Hl|Hl].
  - rewrite substring_append by lia.
    replace (CTL_NAME_LEN - 1 - String.length n)%nat with (S (CTL_NAME_LEN - 2 - String.length n))
      by (unfold CTL_NAME_LEN, AIF_NAME_MAX_LEN in *; lia).
    change (String.substring 0 (S ?k) (String " " extn)) with (String " " (String.substring 0 k extn)).
    by rewrite strstr_space, Hn by done.
  - rewrite substring_short by lia. rewrite strstr_substring by done.
    replace (CTL_NAME_LEN - 2 - String.length n)%nat with 0%nat by lia.
    assert (String.substring 0 0 extn = EmptyString) as -> by (by destruct extn).
    symmetry. destruct sub; [by destruct n|done].
Qed.
End Names.

(** ** The back end a control chooses *)

(** The number of the back end an item of an enumeration stands for; item 0 is
    "ZERO". *)
Definition chosen (lb : list (string * Z)) (j : nat) : option Z :=
  match j with O => None | S j => snd <$> lb !! j end.

Section MixerCalls.
Context `{Env, Alsa, SndEnv, PlugEnv, Mixer}.

Lemma amp_get_be_adi_dir d : d = RX_PCM \/ d = TX_PCM -> amp_get_be_adi (dir_of d) = Some (be_of d).
Proof. by intros [-> | ->]. Qed.

Lemma wf_idx_at {S} a l j b (s : S) :
  adi_wf a l -> chosen l j = Some b -> at_idx (ad_idx_arr a) (Z.of_nat j) s = Ret b s.
Proof.
  intros [_ _ Hi] Hj. rewrite Hi. destruct j as [|j]; [done|]. apply at_idx_run.
  rewrite lookup_cons. cbv beta iota. by rewrite list_lookup_fmap.
Qed.

Lemma disconnect_short n :
  strstr "disconnect" n = false ->
  strstr "disconnect" (ctl_name n "disconnect") = (String.length n <=? 32)%nat.
Proof.
  intros Hn. rewrite ctl_name_seen by done.
  destruct (Nat.leb_spec (String.length n) 32) as [Hl|Hl].
  - unfold CTL_NAME_LEN, AIF_NAME_MAX_LEN.
    replace (28 + 16 - 2 - String.length n)%nat with (10 + (32 - String.length n))%nat by lia.
    by destruct (32 - String.length n)%nat.
  - apply strstr_short. eapply Nat.le_lt_trans; [apply substring_length|].
    unfold CTL_NAME_LEN, AIF_NAME_MAX_LEN. cbn [String.length]. lia.
Qed.

Lemma connect_no_disconnect n :
  strstr "disconnect" n = false -> strstr "disconnect" (ctl_name n "connect") = false.
Proof. intros Hn. rewrite ctl_name_seen by done. by apply strstr_substring. Qed.

(** Connect and disconnect.  Item [j] of the two controls of a PCM attaches to,
    or detaches from, the [j]-th back end of the PCM's direction the session with
    the number of the PCM, and "ZERO" does nothing; the status is always 0,
    whatever the service answered.  The two controls differ only by name, and the
    name is cut to 43 characters: for a PCM whose name is longer than 32 characters
    the control "disconnect" connects. *)
Theorem amp_connect_by_name p h d l lb mtd n idx be j b :
  h_inst h = Some p -> d = RX_PCM \/ d = TX_PCM -> pcm_tables p d l lb mtd ->
  strstr "disconnect" n = false -> chosen lb j = Some b ->
  let ctl extn := SndControl (ctl_name n extn) (VALUE_ENUM be) AIF_CONNECT idx d in
  let call state := (let! _ := lift_agm (agm_session_aif_connect (u32 idx) (u32 b) state) in ret 0) in
  (forall extn, amp_pcm_aif_connect_put (ctl extn) 0 h = Ret 0 h) /\
  amp_pcm_aif_connect_put (ctl "connect"%string) (Z.of_nat j) h = call true h /\
  amp_pcm_aif_connect_put (ctl "disconnect"%string) (Z.of_nat j) h = call (32 <? String.length n)%nat h.
Proof.
  intros Hp Hd [Hdir _ Hbe _ _] Hn Hj ctl call.
  assert (Hrun : forall extn item, amp_pcm_aif_connect_put (ctl extn) item h =
    if item =? 0 then Ret 0 h else
    (let! be_idx := at_idx (ad_idx_arr (am_adi (be_of d) (mx_priv p))) item in
     let! _ := lift_agm (agm_session_aif_connect (u32 idx) (u32 be_idx) (negb (strstr "disconnect" (ctl_name n extn)))) in
     ret 0) h).
  { intros extn item. unfold amp_pcm_aif_connect_put. unfold bind at 1. cbn [sc_private_data ctl].
    rewrite (get_adi_run _ _ _ Hp), Hdir, amp_get_be_adi_dir by done. destruct (item =? 0); [done|].
    unfold bind at 1. by rewrite (get_adi_run _ _ _ Hp). }
  split; [intros; apply Hrun|]. rewrite !Hrun.
  assert ((Z.of_nat j =? 0) = false) as -> by (destruct j; [done|apply Z.eqb_neq; lia]).
  split; (rewrite (bind_run _ _ _ _ _ (wf_idx_at _ _ _ _ h Hbe Hj))).
  - by rewrite connect_no_disconnect.
  - rewrite disconnect_short by done. by rewrite <- Nat.ltb_antisym.
Qed.

(** *** Selection *)

Lemma find_pcm_run {B} a l k n idx (K : option nat -> AMP B) h :
  adi_wf a l -> l !! k = Some (n, idx) -> (forall j n', (j < k)%nat -> l !! j <> Some (n', idx)) ->
  bind (find_pcm a idx) K h = K (Some (S k)) h.
Proof.
  intros [Hc _ Hi] Hk Hfirst. unfold find_pcm. rewrite Hc, Hi.
  replace (Z.to_nat (Z.of_nat (S (length l)) - 1)) with (length l) by lia.
  assert (Hgen : forall m j, (j + m = length l)%nat -> (j <= k)%nat ->
    for_idx (seq (S j) m) (fun mtd_idx =>
      let! v := at_idx (Some (0 :: (snd <$> l))) (Z.of_nat mtd_idx) in
      ret (if idx =? v then Some mtd_idx else None)) h = Ret (Some (S k)) h).
  { induction m as [|m IH]; intros j Hjm Hjk.
    { apply lookup_lt_Some in Hk. lia. }
    cbn [seq for_idx]. destruct (lookup_lt_is_Some_2 l j) as [[n' v] Ej]; [lia|]. unfold bind at 1 2.
    rewrite (at_idx_run _ (S j) v) by (rewrite lookup_cons; cbv beta iota; by rewrite list_lookup_fmap, Ej).
    unfold ret. destruct (Z.eqb_spec idx v) as [->|Hne].
    - destruct (decide (j = k)) as [->|Hd]; [done|]. by destruct (Hfirst j n'); [lia|].
    - apply IH; [lia|]. destruct (decide (j = k)) as [->|]; [congruence|lia]. }
  apply bind_run, (Hgen (length l) 0%nat); lia.
Qed.

Lemma control_value_run d l lb mtd p k n idx v h :
  h_inst h = Some p -> pcm_tables p d l lb mtd -> l !! k = Some (n, idx) ->
  (forall j n', (j < k)%nat -> l !! j <> Some (n', idx)) -> mtd !! S k = Some v ->
  amp_pcm_get_control_value idx d h = Ret v h.
Proof.
  intros Hp [_ Hl _ Hm _] Hk Hfirst Hv. unfold amp_pcm_get_control_value. unfold bind at 1.
  rewrite (get_adi_run _ _ _ Hp). rewrite (find_pcm_run _ _ _ _ _ _ _ Hl Hk Hfirst), Hm.
  by apply at_idx_run.
Qed.

Lemma be_idx_run d l lb mtd p j b h :
  h_inst h = Some p -> d = RX_PCM \/ d = TX_PCM -> pcm_tables p d l lb mtd -> chosen lb j = Some b ->
  be_idx_at d (Z.of_nat j) h = Ret b h.
Proof.
  intros Hp Hd [Hdir _ Hbe _ _] Hj. unfold be_idx_at. unfold bind at 1. rewrite (get_adi_run _ _ _ Hp), Hdir.
  rewrite amp_get_be_adi_dir by done. unfold bind at 1. cbn [the ret].
  unfold bind at 1. rewrite (get_adi_run _ _ _ Hp). by apply (wf_idx_at _ lb).
Qed.

(** What a written payload becomes: the session's own, or that of the session
    with a back end. *)
Definition sent_metadata (idx : Z) (b : option Z) (tlv : snd_ctl_tlv) : AMP Z :=
  let! r := lift_agm
    (match b with
     | None => agm_session_set_metadata (u32 idx) (tlv_length tlv) (tlv_data tlv)
     | Some b => agm_session_aif_set_metadata (u32 idx) (u32 b) (tlv_length tlv) (tlv_data tlv)
     end) in
  ret (ignore_already r).
Definition sent_params (idx : Z) (b : option Z) (tlv : snd_ctl_tlv) : AMP Z :=
  let payload := take (Z.to_nat (tlv_length tlv)) (tlv_data tlv) in
  match b with
  | None => lift_agm (agm_session_set_params (u32 idx) payload)
  | Some b =>
      let! r := lift_agm (agm_session_aif_set_params (u32 idx) (u32 b) payload) in ret (ignore_already r)
  end.

Lemma bytes_at_run data n h :
  0 <= n <= Z.of_nat (length data) -> bytes_at data n h = Ret (take (Z.to_nat n) data) h.
Proof.
  intros Hn. unfold bytes_at, lift_agm, read_bytes. cbn [Z.leb andb].
  rewrite (proj2 (Z.leb_le 0 n)), (proj2 (Z.leb_le (0 + n) _)) by lia. cbn. unfold ret. by rewrite set_agm_id.
Qed.

Lemma no_tag n : strstr "setParamTag" n = false -> strstr "setParamTag" (ctl_name n "setParam") = false.
Proof. intros Hn. rewrite ctl_name_seen by done. by apply strstr_substring. Qed.

(** Selecting a back end.  The control "control" of a PCM stores item [j] for
    that PCM alone; from then on "metadata" and "setParam" of the PCM reach the
    session with the [j]-th back end of the PCM's direction, or for "ZERO" the session
    by itself; a tag without a back end is refused. *)
Theorem amp_control_selects d l lb mtd k n idx j p h tlv name be :
  h_inst h = Some p -> d = RX_PCM \/ d = TX_PCM -> pcm_tables p d l lb mtd ->
  l !! k = Some (n, idx) -> (forall i n', (i < k)%nat -> l !! i <> Some (n', idx)) ->
  (j <= length lb)%nat -> Z.of_nat j < 2 ^ 31 -> strstr "setParamTag" n = false ->
  0 <= tlv_length tlv <= Z.of_nat (length (tlv_data tlv)) ->
  let h' := set_h_inst (Some (upd_mx_priv (upd_am_adi d (set_ad_mtd_ctl (Some (<[S k := Z.of_nat j]> mtd)))) p)) h in
  let ctl extn value fns := SndControl (ctl_name n extn) value fns idx d in
  amp_pcm_mtd_control_put (SndControl name be MTD_CONTROL (Z.of_nat (S k)) d) (Z.of_nat j) h = Ret 0 h' /\
  amp_pcm_metadata_put (ctl "metadata"%string (VALUE_TLV_BYTES 1024) PCM_METADATA) tlv h' =
    sent_metadata idx (chosen lb j) tlv h' /\
  amp_pcm_set_param_put (ctl "setParam"%string (VALUE_TLV_BYTES 131072) PCM_SET_PARAM) tlv h' =
    sent_params idx (chosen lb j) tlv h' /\
  (j = 0%nat -> (String.length n <= 31)%nat ->
   amp_pcm_set_param_put (ctl "setParamTag"%string (VALUE_TLV_BYTES 1024) PCM_SET_PARAM) tlv h' = Ret (- EINVAL) h').
Proof.
  intros Hp Hd Ht Hk Hfirst Hj Hj31 Hn Htlv h' ctl. pose proof Ht as [Hdir Hl Hbe Hm Hlen].
  set (p' := upd_mx_priv _ p) in h'. assert (Hp' : h_inst h' = Some p') by done.
  assert (Hkl : (S k < length mtd)%nat) by (apply lookup_lt_Some in Hk; lia).
  assert (Ht' : pcm_tables p' d l lb (<[S k := Z.of_nat j]> mtd)).
  { destruct Hl, Hbe, Hd as [-> | ->]; constructor; try done; by rewrite length_insert. }
  assert (Hv : <[S k := Z.of_nat j]> mtd !! S k = Some (Z.of_nat j)) by (by apply list_lookup_insert_eq).
  pose proof (control_value_run d l lb _ p' k n idx _ h' Hp' Ht' Hk Hfirst Hv) as Hval.
  assert (Hneg : (Z.of_nat j <? 0) = false) by (apply Z.ltb_ge; lia).
  assert (Hsel : (Z.of_nat j =? 0) = match j with O => true | _ => false end)
    by (destruct j; [done|apply Z.eqb_neq; lia]).
  assert (Hbe' : j <> 0%nat -> exists b, chosen lb j = Some b /\ be_idx_at d (Z.of_nat j) h' = Ret b h').
  { intros Hj0. destruct j as [|j]; [done|]. destruct (lookup_lt_is_Some_2 lb j) as [[bn b] Eb]; [lia|].
    exists b. assert (Hc : chosen lb (S j) = Some b) by (cbn; by rewrite Eb). split; [done|].
    exact (be_idx_run d l lb _ p' _ b h' Hp' Hd Ht' Hc). }
  split; [|split; [|split]].
  - unfold amp_pcm_mtd_control_put. unfold bind at 1. cbn [sc_private_data sc_private_value].
    rewrite (get_adi_run _ _ _ Hp), Hm. unfold bind at 1.
    rewrite store_idx_run by lia. rewrite s32_small by lia.
    unfold bind. by rewrite (upd_adi_run _ _ _ _ Hp).
  - unfold amp_pcm_metadata_put. cbv zeta. cbn [sc_private_data sc_private_value ctl].
    rewrite (bind_run _ _ _ _ _ Hval), Hneg, Hsel. unfold sent_metadata. destruct j as [|j]; [done|].
    destruct (Hbe' ltac:(done)) as (b & -> & Eb). by rewrite (bind_run _ _ _ _ _ Eb).
  - unfold amp_pcm_set_param_put. cbv zeta. cbn [sc_private_data sc_private_value sc_name ctl].
    rewrite (bind_run _ _ _ _ _ Hval), Hneg, Hsel, no_tag by done. unfold sent_params.
    destruct j as [|j]; [by rewrite (bind_run _ _ _ _ _ (bytes_at_run _ _ _ Htlv))|].
    destruct (Hbe' ltac:(done)) as (b & -> & Eb). rewrite (bind_run _ _ _ _ _ Eb).
    unfold bind at 1 2. by rewrite (bytes_at_run _ _ _ Htlv).
  - intros -> Hshort. unfold amp_pcm_set_param_put. cbv zeta. cbn [sc_private_data sc_private_value sc_name ctl].
    rewrite (bind_run _ _ _ _ _ Hval), Hneg, Hsel, ctl_name_seen by done.
    unfold CTL_NAME_LEN, AIF_NAME_MAX_LEN.
    replace (28 + 16 - 2 - String.length n)%nat with (11 + (31 - String.length n))%nat by lia.
    by destruct (31 - String.length n)%nat.
Qed.

(** ** Events *)

(** The events of a session not yet read, oldest first. *)
Definition queue (l : list (Z * event_params)) (s : Z) : list event_params :=
  snd <$> filter (fun e => fst e = s) l.

Lemma queue_app l l' s : queue (l ++ l') s = queue l s ++ queue l' s.
Proof. unfold queue. by rewrite filter_app, fmap_app. Qed.

Lemma queue_single s ev s' : queue [(s, ev)] s' = if decide (s' = s) then [ev] else [].
Proof.
  unfold queue. rewrite filter_cons. cbn [fst]. repeat case_decide; try done; congruence.
Qed.

(** Taking the first entry of a session leaves the other queues alone. *)
Lemma queue_take l s i s0 ev :
  list_find (fun e => fst e = s) l = Some (i, (s0, ev)) ->
  s0 = s /\ forall s', queue l s' = (if decide (s' = s) then [ev] else []) ++ queue (delete i l) s'.
Proof.
  intros Hf. apply list_find_Some in Hf as (Hi & Hs & Hfirst). cbn in Hs. subst s0. split; [done|].
  intros s'. rewrite <- (take_drop_middle l i _ Hi) at 1. rewrite delete_take_drop.
  change ((s, ev) :: drop (S i) l) with ([(s, ev)] ++ drop (S i) l). rewrite !queue_app, queue_single.
  assert (Hn : queue (take i l) s = []).
  { unfold queue. destruct (filter (fun e => fst e = s) (take i l)) as [|x r] eqn:E; [done|].
    assert (Hx : x ∈ filter (fun e => fst e = s) (take i l)) by (rewrite E; constructor).
    apply list_elem_of_filter in Hx as [Hx1 Hx2]. apply list_elem_of_lookup in Hx2 as [j Hj].
    pose proof (lookup_lt_Some _ _ _ Hj) as Hlt. rewrite length_take in Hlt.
    rewrite lookup_take_lt in Hj by lia. destruct (Hfirst j x Hj); [lia|done]. }
  case_decide as Hd; [|done]. subst s'. by rewrite Hn.
Qed.

Lemma queue_none l s : list_find (fun e => fst e = s) l = None -> queue l s = [].
Proof.
  intros Hf. apply list_find_None in Hf. unfold queue.
  induction l as [|x l IH]; [done|]. apply Forall_cons in Hf as [Hx Hl].
  rewrite filter_cons, decide_False by done. by apply IH.
Qed.

Definition with_events (q : list snd_ctl_event) (l : list (Z * event_params)) (p : mixer_plugin) : mixer_plugin :=
  upd_mx_priv (fun a => set_am_events (Some q) (set_am_params (Some l) a)) p.

(** C32: the queues of events, with memory available.  To its readers the plug-in is one queue of
    events for each session.  While tinyalsa is subscribed, an event the service
    delivers is appended to the queue of its session and announced; reading the
    control "event" of a session takes its oldest event, and leaves the
    others; with nothing queued the value stays as it was; unsubscribing empties
    all queues. *)
Theorem amp_events_refine p h l q :
  h_inst h = Some p -> am_params (mx_priv p) = Some l -> am_events (mx_priv p) = Some q ->
  (forall n, plug_alloc n = true) -> addr_amp <> 0 ->
  (forall s ev, mx_subscribed p = true -> exists h' p' l', amp_event_cb s ev addr_amp h = Ret tt h' /\
     h_inst h' = Some p' /\ am_params (mx_priv p') = Some l' /\
     (forall s', queue l' s' = queue l s' ++ (if decide (s' = s) then [ev] else [])) /\
     (exists e, am_events (mx_priv p') = Some (q ++ [e])) /\
     mx_notified p' = if nz (am_event_cb (mx_priv p)) then S (mx_notified p) else mx_notified p) /\
  (forall ctl data, let s := u32 (sc_private_value ctl) in
     match queue l s with
     | [] => amp_pcm_event_get ctl data h = Ret (0, data) h
     | ev :: rest =>
         if bool_decide (length (event_bytes ev) <= length data)%nat then
           exists h' p' l', amp_pcm_event_get ctl data h =
               Ret (0, event_bytes ev ++ drop (length (event_bytes ev)) data) h' /\
             h_inst h' = Some p' /\ am_params (mx_priv p') = Some l' /\
             (forall s', queue l' s' = if decide (s' = s) then rest else queue l s')
         else amp_pcm_event_get ctl data h = Crash OutOfBounds
     end) /\
  (exists h' p', amp_subscribe_events 0 h = Ret 0 h' /\ h_inst h' = Some p' /\
     am_params (mx_priv p') = Some [] /\ am_events (mx_priv p') = Some []).
Proof.
  intros Hp Hl Hq Ha Haddr. split; [|split].
  - intros s ev Hsub. unfold amp_event_cb. rewrite (proj2 (Z.eqb_neq _ _)) by done.
    unfold bind at 1, the_inst at 1. rewrite Hp, Hsub. cbn [negb].
    destruct p as [nc sub nt [c cn al evs pa ds ct cc me cb]]. cbn in Hl, Hq, Hsub. subst evs pa sub.
    unfold amp_add_event_params, plug_calloc, next_tick, get_amp, upd_amp, upd_inst, the_inst, modify, bind, ret.
    destruct h as [hw hs hi ht he]. cbn in Hp. subst hi. cbn. rewrite Ha. cbn. rewrite Ha. cbn. rewrite Ha. cbn.
    destruct (nz cb).
    all: eexists _, _, _; split; [reflexivity|]; split; [reflexivity|]; split; [reflexivity|].
    all: split; [intros; by rewrite queue_app, queue_single|]; split; [by eexists|done].
  - intros ctl data s. unfold amp_pcm_event_get. rewrite (bind_run _ _ _ _ _ (get_amp_run _ _ Hp)), Hl.
    cbn [the]. rewrite bind_ret_l. fold s.
    destruct (list_find (fun e => fst e = s) l) as [[i [s0 ev]]|] eqn:Ef.
    2: { by rewrite (queue_none _ _ Ef). }
    destruct (queue_take _ _ _ _ _ Ef) as [-> Hqt]. rewrite (Hqt s), decide_True by done. cbn [app].
    unfold copy_to. case_bool_decide as Hb.
    + rewrite (proj2 (Nat.leb_le _ _) Hb).
      unfold upd_amp, upd_inst, the_inst, modify, bind, ret. rewrite Hp.
      eexists _, _, _. split; [reflexivity|]. split; [reflexivity|]. split; [reflexivity|].
      intros s'. case_decide as Hd; [by subst s'|]. rewrite (Hqt s'). by rewrite decide_False.
    + by rewrite (proj2 (Nat.leb_gt _ _)) by lia.
  - unfold amp_subscribe_events, upd_amp, upd_inst, get_amp, the_inst, modify, bind, ret. rewrite Hp. cbn.
    rewrite Hl. cbn. rewrite Hq. cbn. eexists _, _. split; [reflexivity|]. by split.
Qed.

(** C33: reading two events at once.  The pointer into the buffer moves by the
    square of the size of an event: with two events queued and a buffer of at least
    two, but less than that square and one, the second is written outside. *)
Theorem amp_read_event_second p h e1 e2 q size :
  h_inst h = Some p -> am_events (mx_priv p) = Some (e1 :: e2 :: q) ->
  0 < sizeof_snd_ctl_event -> 2 * sizeof_snd_ctl_event <= size ->
  size < sizeof_snd_ctl_event * sizeof_snd_ctl_event + sizeof_snd_ctl_event ->
  amp_read_event size h = Crash OutOfBounds.
Proof.
  intros Hp Hq Hz Hs1 Hs2. unfold amp_read_event. rewrite (proj2 (Z.ltb_ge _ _)) by lia.
  rewrite (bind_run _ _ _ _ _ (get_amp_run _ _ Hp)), Hq. unfold bind at 1. cbn [the ret].
  cbn [read_events]. rewrite (proj2 (Z.ltb_ge size _)), (proj2 (Z.ltb_ge size _)) by lia.
  unfold bind at 1. unfold upd_amp, upd_inst, the_inst, modify, bind at 1. rewrite Hp.
  unfold bind at 1. rewrite (proj2 (Z.ltb_ge _ _)) by lia. by rewrite (proj2 (Z.ltb_lt _ _)) by lia.
Qed.

(** The names events are announced under.  For sessions below 1000 the name
    is that of the control, "PCM<id> event"; from 1000 on there is no room for
    the last character, and no control has that name. *)
Theorem amp_event_names s :
  0 <= s < 2000 ->
  event_name s = if s <? 1000 then ("PCM" ++ pretty s ++ " event")%string
                 else ("PCM" ++ pretty s ++ " even")%string.
Proof.
  intros Hs.
  assert (Hall : forallb (fun n => let s := Z.of_nat n in
    String.eqb (event_name s) (if s <? 1000 then ("PCM" ++ pretty s ++ " event")%string
                      else ("PCM" ++ pretty s ++ " even")%string)) (seq 0 2000) = true)
    by (vm_compute; reflexivity).
  rewrite forallb_forall in Hall. specialize (Hall (Z.to_nat s)). cbv zeta in Hall.
  rewrite Z2Nat.id in Hall by lia. apply String.eqb_eq, Hall, in_seq. lia.
Qed.
End MixerCalls.

(** ** A concrete mixer *)

Definition demo_mixer : Mixer := {|
  SNDRV_CTL_EVENT_ELEM := 0; sizeof_snd_ctl_event := 72; SIZEOF_ELEM_ID_NAME := 44;
  addr_amp_event_cb := 1048576; addr_amp := 2097152
|}.

(** A speaker and a microphone. *)
Definition demo_aif (name : string) (dir : Z) : device_obj :=
  set_dev_name name (set_dev_hw_ep (set_ep_dir dir hw_ep_zero) device_zero).
Definition demo_devs : list device_obj := [demo_aif "CODEC_DMA-LPAIF_WSA-RX-0" RX; demo_aif "CODEC_DMA-LPAIF_VA-TX-0" TX].
Definition mixer_world : world :=
  set_w_pool (Some []) (set_w_num_intfs 2 (set_w_devs (Some <$> demo_devs) empty_world)).

(** A card with a PCM for each direction; [play] is what the first says of
    playback. *)
Definition mixer_card (play : string) : snd_card :=
  set_cd_refcnt 1 (set_cd_devs SND_NODE_TYPE_PCM
    [SndDevDef SND_NODE_TYPE_PCM 100 1 (Some "PCM100"%string) None [("playback", play); ("capture", "0")]%string;
     SndDevDef SND_NODE_TYPE_PCM 101 1 (Some "PCM101"%string) None [("playback", "0"); ("capture", "1")]%string] demo_header).
Definition mixer_snd (play : string) : snd_state := SndState [Some (mixer_card play)] 0 0 0.

(** The plug-in before its PCMs are looked for, and an open one. *)
Definition new_mixer : mixer_plugin :=
  MixerPlugin 0 false 0 (set_am_card 100 (Some 0%nat) amp_zero).
Definition mixer_host (play : string) (p : option mixer_plugin) : host mixer_plugin :=
  Host mixer_world (mixer_snd play) p 0 0.
Definition found_mixer : mixer_plugin :=
  upd_mx_priv (upd_am_adi TX_PCM (set_ad_dir TX)) (upd_mx_priv (upd_am_adi RX_PCM (set_ad_dir RX))
    (discovered demo_devs (mixer_card "1") new_mixer)).
Definition open_mixer (q : list snd_ctl_event) (l : list (Z * event_params)) : mixer_plugin :=
  let p := with_events q l (ready [("PCM100"%string, 100)] [("PCM101"%string, 101)] found_mixer) in
  MixerPlugin (mx_num_controls p) true (mx_notified p) (mx_priv p).

Lemma demo_intfs : intfs demo_devs mixer_world.
Proof. split; [done|]. split; [done|]. by intros [|[|i]] d; intros [= <-]. Qed.

Lemma demo_tables : pcm_tables (open_mixer [] []) RX_PCM [("PCM100"%string, 100)]
  [("CODEC_DMA-LPAIF_WSA-RX-0"%string, 0)] [0; 0].
Proof. by repeat split. Qed.

Lemma amp_controls_formed_witness :
  exists r h', (let! be := amp_get_be_ctl_count in let! pcm := amp_get_pcm_ctl_count in
                @form_ctls plain_plug be pcm) (mixer_host "1" (Some found_mixer)) = Ret r h' /\
    ((r = - ENOMEM /\ exists n, @plug_alloc plain_plug n = false) \/
     (r = 0 /\ exists p', h_inst h' = Some p' /\
        am_ctls (mx_priv p') = Some (map Some (mixer_ctls demo_devs (mixer_card "1"))))).
Proof.
  edestruct (@amp_controls_formed plain_plug (be_entries RX (aif_infos demo_devs)) (be_entries TX (aif_infos demo_devs))
    [("PCM100"%string, 100)] [("PCM101"%string, 101)] found_mixer (mixer_host "1" (Some found_mixer)))
    as (r & h' & E & _ & _ & Hr); [done|by repeat split..|].
  exists r, h'. split; [exact E|exact Hr].
Defined.

Lemma amp_pcm_info_correct_witness :
  exists r h', @amp_get_pcm_info plain_plug (mixer_host "1" (Some new_mixer)) = Ret r h' /\
    ((r < 0 /\ (card_pcms (mixer_card "1") = [] \/ exists n, @plug_alloc plain_plug n = false)) \/
     (r = 0 /\ exists p', h_inst h' = Some p' /\
        adi_wf (am_adi RX_PCM (mx_priv p')) [("PCM100"%string, 100)] /\
        adi_wf (am_adi TX_PCM (mx_priv p')) [("PCM101"%string, 101)])).
Proof.
  destruct (@amp_pcm_info_correct plain_plug 0 (mixer_card "1") new_mixer
    (mixer_host "1" (Some new_mixer)) eq_refl eq_refl eq_refl) as (r & h' & E & _ & _ & Hr).
  - by split.
  - repeat constructor; by eexists.
  - intros dir x Hdir Hx. cbn in Hx. rewrite !elem_of_cons in Hx.
    destruct Hdir as [-> | ->], Hx as [-> | [-> | Hx]];
      first [by apply not_elem_of_nil in Hx | split; [by eexists|vm_compute; tauto]].
  - exists r, h'. split; [exact E|exact Hr].
Defined.

Lemma amp_pcm_value_overflow_witness :
  @amp_get_pcm_info plain_plug (mixer_host "2" (Some new_mixer)) = Crash OutOfBounds.
Proof.
  apply (@amp_pcm_value_overflow plain_plug 0 (mixer_card "2") new_mixer); try done.
  - by repeat constructor.
  - vm_compute. lia.
Defined.

Lemma amp_open_close_witness :
  wlp (let! r := @agm_mixer_plugin_open ok_env (demo_snd true) plain_plug demo_mixer 100 in
       if nz r then ret r else do! @amp_close ok_env demo_mixer ; ret r)
    (fun r h' => r <= 0 /\ h_inst h' = None /\ cards_held (sn_cards (h_snd h')) [])
    (Host mixer_world snd_init None 0 0).
Proof.
  apply (@amp_open_close ok_env (demo_snd true) plain_plug demo_mixer); [intros n l; discriminate|change (cards_held [] []); intros i; by rewrite lookup_nil|done].
Defined.

(** Opening shows six controls for the back ends and 26 for the two PCMs. *)
Lemma amp_open_controls_witness :
  exists h' p', @agm_mixer_plugin_open ok_env (demo_snd true) plain_plug demo_mixer 100 (mixer_host "1" None) = Ret 0 h' /\
    h_inst h' = Some p' /\ mx_num_controls p' = 32 /\
    am_ctls (mx_priv p') = Some (map Some (mixer_ctls demo_devs (mixer_card "1"))).
Proof.
  let r := eval vm_compute in
    (@agm_mixer_plugin_open ok_env (demo_snd true) plain_plug demo_mixer 100 (mixer_host "1" None)) in
  lazymatch r with Ret _ ?h =>
    assert (E : @agm_mixer_plugin_open ok_env (demo_snd true) plain_plug demo_mixer 100 (mixer_host "1" None) = Ret 0 h)
      by (vm_compute; reflexivity)
  end.
  let r := eval vm_compute in (@snd_card_def_get_card (demo_snd true) 100 (mixer_snd "1")) in
  lazymatch r with Ret _ ?s => assert (Eg : @snd_card_def_get_card (demo_snd true) 100 (mixer_snd "1") = Ret (Some 0%nat) s)
    by (vm_compute; reflexivity) end.
  destruct (wlp_run _ _ _ _ _ (wp_wpg _ _ _ _ (@amp_open_controls ok_env (demo_snd true) plain_plug demo_mixer
    demo_devs 100 0 (set_cd_refcnt 2 (mixer_card "1")) _ (mixer_host "1" None) demo_intfs Eg eq_refl
    ltac:(repeat constructor; by eexists) eq_refl eq_refl eq_refl
    (conj eq_refl (ex_intro _ _ eq_refl)))) E) as [(Hr & _)|(_ & p' & Hp & Hw & Hn & _)]; [done|].
  eexists _, p'. split; [exact E|]. split; [exact Hp|]. split; [|exact (mw_ctls _ _ _ _ _ Hw)]. rewrite Hn. vm_compute. reflexivity.
Defined.

Definition connect_ctl (n extn : string) : snd_control :=
  SndControl (ctl_name n extn) (VALUE_ENUM RX_BE) AIF_CONNECT 100 RX_PCM.

Lemma amp_connect_by_name_witness :
  let h := mixer_host "1" (Some (open_mixer [] [])) in
  @amp_pcm_aif_connect_put ok_env (connect_ctl "a_pcm_with_a_name_of_33_characters" "disconnect") 1 h =
    (let! _ := lift_agm (@agm_session_aif_connect ok_env 100 0 true) in ret 0) h.
Proof.
  apply (@amp_connect_by_name ok_env (open_mixer [] []) (mixer_host "1" (Some (open_mixer [] []))) RX_PCM
    [("PCM100"%string, 100)] [("CODEC_DMA-LPAIF_WSA-RX-0"%string, 0)] [0; 0]
    "a_pcm_with_a_name_of_33_characters" 100 RX_BE 1 0); [done|by left|apply demo_tables|done|done].
Defined.

Lemma amp_control_selects_witness :
  exists h', amp_pcm_mtd_control_put (SndControl "PCM100 control" (VALUE_ENUM RX_BE) MTD_CONTROL 1 RX_PCM) 1
      (mixer_host "1" (Some (open_mixer [] []))) = Ret 0 h' /\
    @amp_pcm_metadata_put ok_env (SndControl "PCM100 metadata" (VALUE_TLV_BYTES 1024) PCM_METADATA 100 RX_PCM)
      (SndCtlTlv 0 []) h' = @sent_metadata ok_env 100 (Some 0) (SndCtlTlv 0 []) h'.
Proof.
  edestruct (@amp_control_selects ok_env RX_PCM [("PCM100"%string, 100)] [("CODEC_DMA-LPAIF_WSA-RX-0"%string, 0)] [0; 0]
    0 "PCM100" 100 1 (open_mixer [] []) (mixer_host "1" (Some (open_mixer [] []))) (SndCtlTlv 0 [])
    "PCM100 control" (VALUE_ENUM RX_BE)) as (E1 & E2 & _).
  1-3: first [done | by left | apply demo_tables].
  1-6: first [done | cbn; lia | intros i n' Hi; lia].
  eexists. split; [exact E1|exact E2].
Defined.

Definition demo_event : event_params := EventParams 1 2 [3; 4].

Lemma amp_events_refine_witness :
  let p := open_mixer [] [] in
  exists h' p' l', @amp_event_cb plain_plug demo_mixer 100 demo_event 2097152 (mixer_host "1" (Some p)) = Ret tt h' /\
    h_inst h' = Some p' /\ am_params (mx_priv p') = Some l' /\ queue l' 100 = [demo_event].
Proof.
  destruct (@amp_events_refine plain_plug demo_mixer (open_mixer [] []) (mixer_host "1" (Some (open_mixer [] []))) [] [])
    as (Hd & _); [done..|].
  destruct (Hd 100 demo_event) as (h' & p' & l' & E & Hp & Hl & Hq & _); [done|].
  exists h', p', l'. split; [exact E|]. split; [done|]. split; [done|]. apply Hq.
Defined.

Lemma amp_read_event_second_witness :
  @amp_read_event demo_mixer 144 (mixer_host "1" (Some (open_mixer
    [SndCtlEvent 0 "PCM100 event"; SndCtlEvent 0 "PCM101 event"] []))) = Crash OutOfBounds.
Proof.
  by apply (@amp_read_event_second demo_mixer (open_mixer [SndCtlEvent 0 "PCM100 event"; SndCtlEvent 0 "PCM101 event"] [])
    _ (SndCtlEvent 0 "PCM100 event") (SndCtlEvent 0 "PCM101 event") []).
Defined.

Lemma amp_event_names_witness : event_name 1000 = "PCM1000 even"%string.
Proof. by apply (amp_event_names 1000). Defined.
