(* ===== verification/MixerInv.v ===== *)
(** * The mixer plug-in: the tables and the controls stay as they were made

    Whatever controls are read and written, and whatever events arrive, the tables
    behind the controls keep their shape ([table_view]): entries, directions and the
    size of the array of selections.  So a control made by open goes on to find its
    entries; [mixer_call] lists every operation of an open mixer. *)

From S2P Require Export MixerCalls.
From stdpp Require Export relations.
Open Scope Z_scope.
#[export] Set Default Goal Selector "!".

(** What does not change about a table: everything but the selections and the
    payload kept for "getParam". *)
Definition adi_view (a : amp_dev_info) :=
  (ad_names a, ad_idx_arr a, ad_count a, ad_items a, ad_dir a, length <$> ad_mtd_ctl a).
Definition amp_view (a : amp_priv) :=
  (adi_view (am_adi RX_BE a), adi_view (am_adi TX_BE a), adi_view (am_adi RX_PCM a),
   adi_view (am_adi TX_PCM a), am_ctls a).
Definition table_view (h : host mixer_plugin) := (fun p => amp_view (mx_priv p)) <$> h_inst h.

Section MixerInv.
Context `{Env, Alsa, SndEnv, PlugEnv, Mixer}.

(** The operations of an open mixer. *)
Inductive mixer_call : forall A, AMP A -> Prop :=
  | call_media_fmt_put c v : mixer_call Z (amp_be_media_fmt_put c v)
  | call_be_set_param_put c t : mixer_call Z (amp_be_set_param_put c t)
  | call_be_metadata_put c t : mixer_call Z (amp_be_metadata_put c t)
  | call_buf_info_get c b : mixer_call (Z * buf_info) (amp_pcm_buf_info_get c b)
  | call_connect_put c i : mixer_call Z (amp_pcm_aif_connect_put c i)
  | call_mtd_control_get c i : mixer_call (Z * Z) (amp_pcm_mtd_control_get c i)
  | call_mtd_control_put c i : mixer_call Z (amp_pcm_mtd_control_put c i)
  | call_event_get c d : mixer_call (Z * list Z) (amp_pcm_event_get c d)
  | call_event_put c d : mixer_call Z (amp_pcm_event_put c d)
  | call_metadata_put c t : mixer_call Z (amp_pcm_metadata_put c t)
  | call_buf_tstamp_get c : mixer_call (Z * option Z) (amp_pcm_buf_tstamp_get c)
  | call_calibration_put c d : mixer_call Z (amp_pcm_calibration_put c d)
  | call_set_param_put c t : mixer_call Z (amp_pcm_set_param_put c t)
  | call_get_param_get c t : mixer_call (Z * snd_ctl_tlv) (amp_pcm_get_param_get c t)
  | call_get_param_put c t : mixer_call Z (amp_pcm_get_param_put c t)
  | call_tag_info_get c t : mixer_call (Z * snd_ctl_tlv) (amp_pcm_tag_info_get c t)
  | call_loopback_put c i : mixer_call Z (amp_pcm_loopback_put c i)
  | call_echoref_put c i : mixer_call Z (amp_pcm_echoref_put c i)
  | call_event_cb s e d : mixer_call unit (amp_event_cb s e d)
  | call_read_event n : mixer_call (Z * list (Z * snd_ctl_event)) (amp_read_event n)
  | call_subscribe cb : mixer_call Z (amp_subscribe_events cb)
  | call_service A (m : AGM A) : mixer_call A (lift_agm m).

Definition mixer_step (h h' : host mixer_plugin) : Prop :=
  exists A (m : AMP A) a, mixer_call A m /\ m h = Ret a h'.

Lemma step_call A (m : AMP A) a h h' : mixer_call A m -> m h = Ret a h' -> mixer_step h h'.
Proof. intros Hm E. by exists A, m, a. Qed.

Lemma view_upd_amp f :
  (forall a, amp_view (f a) = amp_view a) -> Keeps table_view (upd_amp f).
Proof.
  intros Hf h a h'. unfold upd_amp, upd_inst, the_inst, modify, bind.
  destruct (h_inst h) as [p|] eqn:E; [|done]. intros [= _ <-]. unfold table_view. hsimp. rewrite E. cbn.
  by rewrite Hf.
Qed.

Lemma view_upd_adi d f :
  (forall a, adi_view (f a) = adi_view a) -> Keeps table_view (upd_adi d f).
Proof.
  intros Hf. apply view_upd_amp. intros [c cn al ev pa [r1 t1 r2 t2] ct cc me cb].
  destruct d; unfold amp_view; cbn; by rewrite Hf.
Qed.

#[local] Hint Extern 0 (Keeps _ (upd_amp _)) => (apply view_upd_amp; intros; reflexivity) : keeps.
#[local] Hint Extern 0 (Keeps _ (upd_adi _ _)) => (apply view_upd_adi; intros; reflexivity) : keeps.
#[local] Hint Extern 0 (Keeps _ plug_calloc) =>
  (unfold plug_calloc; apply Keeps_bind; [apply Keeps_next_tick; intros; reflexivity|intros; apply Keeps_ret]) : keeps.

Lemma view_upd_notified f :
  (forall p, mx_priv (f p) = mx_priv p) -> Keeps table_view (upd_inst f).
Proof.
  intros Hf h a h'. unfold upd_inst, the_inst, modify, bind.
  destruct (h_inst h) as [p|] eqn:E; [|done]. intros [= _ <-]. unfold table_view. hsimp. rewrite E. cbn.
  by rewrite Hf.
Qed.

Lemma view_get_adi d : Keeps table_view (get_adi d).
Proof. unfold get_adi, get_amp. keeps_tac. Qed.
Lemma view_get_amp : Keeps table_view get_amp.
Proof. unfold get_amp. keeps_tac. Qed.
Lemma view_at_idx {A} (l : option (list A)) i : Keeps table_view (at_idx l i).
Proof. unfold at_idx. keeps_tac. Qed.
#[local] Hint Resolve view_get_adi view_get_amp view_at_idx : keeps.
Lemma view_control_value i d : Keeps table_view (amp_pcm_get_control_value i d).
Proof. unfold amp_pcm_get_control_value, find_pcm. keeps_tac. Qed.
Lemma view_be_idx d i : Keeps table_view (be_idx_at d i).
Proof. unfold be_idx_at. keeps_tac. Qed.
#[local] Hint Resolve view_control_value view_be_idx : keeps.

(** Selecting writes one entry of an array that keeps its size. *)
Lemma view_mtd_control_put c i : Keeps table_view (amp_pcm_mtd_control_put c i).
Proof.
  intros h r h'. unfold amp_pcm_mtd_control_put. unfold bind at 1.
  unfold get_adi, get_amp, the_inst, bind at 1 2, ret at 1 2.
  destruct (h_inst h) as [p|] eqn:E; [|done]. set (d := sc_private_data c).
  unfold bind at 1, store_idx. destruct (ad_mtd_ctl (am_adi d (mx_priv p))) as [l|] eqn:El; [|done].
  unfold bind at 1. cbn [the ret]. destruct (_ && _); [|done]. unfold ret at 1.
  unfold bind. erewrite upd_adi_run by exact E. intros [= _ <-]. unfold table_view. hsimp. rewrite E. cbn.
  f_equal. destruct p as [nc sub nt [c0 cn al ev pa [r1 t1 r2 t2] ct cc me cb]].
  destruct d; unfold amp_view, adi_view; cbn in *; rewrite El; cbn; by rewrite length_insert.
Qed.
#[local] Hint Resolve view_mtd_control_put : keeps.

Lemma view_read_events l avail off size result : Keeps table_view (read_events l avail off size result).
Proof.
  revert off size result. induction l as [|e l IH]; intros off size result; cbn [read_events]; keeps_tac.
Qed.
#[local] Hint Resolve view_read_events : keeps.

Lemma view_call A (m : AMP A) : mixer_call A m -> Keeps table_view m.
Proof.
  destruct 1.
  all: unfold amp_be_media_fmt_put, amp_be_set_param_put, amp_be_metadata_put, amp_pcm_buf_info_get,
    amp_pcm_aif_connect_put, amp_pcm_mtd_control_get, amp_pcm_event_get, amp_pcm_event_put,
    amp_pcm_metadata_put, amp_pcm_buf_tstamp_get, amp_pcm_calibration_put, amp_pcm_set_param_put,
    amp_pcm_get_param_get, amp_pcm_get_param_put, amp_pcm_tag_info_get, amp_pcm_loopback_put,
    amp_pcm_echoref_put, amp_event_cb, amp_add_event_params, amp_read_event, amp_subscribe_events,
    bytes_at, copy_to, event_cfg_at, kvs_at; cbv zeta; keeps_tac.
  all: apply view_upd_notified; intros; reflexivity.
Qed.

Lemma pcm_tables_view p p' d l lb mtd :
  amp_view (mx_priv p') = amp_view (mx_priv p) -> pcm_tables p d l lb mtd ->
  exists mtd', pcm_tables p' d l lb mtd'.
Proof.
  unfold amp_view, adi_view. intros [= N1 I1 C1 M1 D1 L1 N2 I2 C2 M2 D2 L2 N3 I3 C3 M3 D3 L3 N4 I4 C4 M4 D4 L4 _] [Hd [W1 W2 W3] [W4 W5 W6] Hm Hl].
  assert (Hlen : length <$> ad_mtd_ctl (am_adi d (mx_priv p')) = length <$> ad_mtd_ctl (am_adi d (mx_priv p)))
    by (by destruct d).
  rewrite Hm in Hlen. destruct (ad_mtd_ctl (am_adi d (mx_priv p'))) as [mtd'|] eqn:Em; [|done].
  injection Hlen as Hlen. exists mtd'. unfold am_adi, dev_at in *.
  destruct d; cbn [be_of] in *; constructor; try constructor; unfold am_adi, dev_at, be_of; congruence.
Qed.

Lemma wf_view rb tb rx tx p p' :
  amp_view (mx_priv p') = amp_view (mx_priv p) -> mixer_wf rb tb rx tx p -> mixer_wf rb tb rx tx p'.
Proof.
  intros E [[m1 H1'] [m2 H2'] Hc]. split.
  - by apply (pcm_tables_view p p' _ _ _ m1).
  - by apply (pcm_tables_view p p' _ _ _ m2).
  - rewrite <- Hc. unfold amp_view in E. by injection E.
Qed.

Lemma steps_view h h' : rtc mixer_step h h' -> table_view h' = table_view h.
Proof.
  induction 1 as [|h h1 h2 (A & m & a & Hm & E) _ IH]; [done|]. rewrite IH. by apply (view_call A m Hm _ a).
Qed.

(** An entry of the table for each "control". *)
Lemma in_blocks {A B} (f : nat -> A -> list B) l y :
  y ∈ concat (imap f l) -> exists i x, l !! i = Some x /\ y ∈ f i x.
Proof.
  intros Hy. apply list_elem_of_In, in_concat in Hy as (b & Hb & Hy). apply list_elem_of_In in Hb.
  apply elem_of_lookup_imap in Hb as (i & x & -> & Hx). exists i, x. split; [done|]. by apply list_elem_of_In.
Qed.

Lemma in_const_blocks {A B} (f : A -> list B) l y :
  y ∈ concat (f <$> l) -> exists x, x ∈ l /\ y ∈ f x.
Proof.
  rewrite <- imap_const. intros Hy. apply in_blocks in Hy as (i & x & Hx & Hy). exists x.
  split; [by eapply list_elem_of_lookup_2|done].
Qed.

Lemma control_in_range rb tb rx tx c :
  c ∈ all_ctls rb tb rx tx -> sc_fns c = MTD_CONTROL ->
  exists k, sc_private_value c = Z.of_nat (S k) /\
    ((sc_private_data c = RX_PCM /\ (k < length rx)%nat) \/ (sc_private_data c = TX_PCM /\ (k < length tx)%nat)).
Proof.
  intros Hc Hf. unfold all_ctls, be_ctls, pcm_ctls in Hc. rewrite !elem_of_app in Hc.
  assert (Hcommon : forall d be l, c ∈ concat (imap (common_block d be) l) ->
    exists k, sc_private_value c = Z.of_nat (S k) /\ sc_private_data c = d /\ (k < length l)%nat).
  { intros d be l Hl. apply in_blocks in Hl as (i & [n x] & Hx & Hl). exists i.
    unfold common_block in Hl. rewrite !elem_of_cons in Hl. apply lookup_lt_Some in Hx.
    destruct_or! Hl; try (by apply not_elem_of_nil in Hl); subst c; done. }
  assert (Hnone : forall (f : string * Z -> list snd_control) l, c ∈ concat (f <$> l) ->
    (forall e, c ∈ f e -> sc_fns c <> MTD_CONTROL) -> False).
  { intros f l Hl Hn. apply in_const_blocks in Hl as (e & _ & He). by apply (Hn e). }
  assert (Hb : forall d e, c ∈ be_block d e -> sc_fns c <> MTD_CONTROL).
  { intros d [n x] Hl. unfold be_block in Hl. rewrite !elem_of_cons in Hl.
    destruct_or! Hl; try (by apply not_elem_of_nil in Hl); by subst. }
  assert (Hr : forall e, c ∈ rx_block e -> sc_fns c <> MTD_CONTROL).
  { intros [n x] Hl. unfold rx_block in Hl. rewrite !elem_of_cons in Hl.
    destruct_or! Hl; try (by apply not_elem_of_nil in Hl); by subst. }
  assert (Ht : forall e, c ∈ tx_block e -> sc_fns c <> MTD_CONTROL).
  { intros [n x] Hl. unfold tx_block in Hl. rewrite !elem_of_cons in Hl.
    destruct_or! Hl; try (by apply not_elem_of_nil in Hl); by subst. }
  destruct_or! Hc.
  - destruct (Hnone _ _ Hc (Hb RX_BE)).
  - destruct (Hnone _ _ Hc (Hb TX_BE)).
  - destruct (Hcommon _ _ _ Hc) as (k & E & Hd & Hk). exists k. auto.
  - destruct (Hnone _ _ Hc Hr).
  - destruct (Hcommon _ _ _ Hc) as (k & E & Hd & Hk). exists k. auto.
  - destruct (Hnone _ _ Hc Ht).
Qed.

(** C31: the tables of an open mixer are well formed for as long as it is used.
    After a successful open and any sequence of calls of its handlers, events, and
    other calls to the service, the four tables still hold the entries found at
    open, the controls are still those that were made, and each "control" addresses
    an entry of the array of selections, so that reading it cannot fail. *)
Theorem amp_tables_well_formed devs card i c s1 h h1 h2 :
  intfs devs (h_agm h) -> snd_card_def_get_card card (h_snd h) = Ret (Some i) s1 ->
  sn_cards s1 !! i = Some (Some c) -> Forall (fun x => is_Some (sd_name x)) (card_pcms c) ->
  flags "playback" 0 (card_pcms c) = true -> flags "capture" 0 (card_pcms c) = true ->
  agm_mixer_plugin_open card h = Ret 0 h1 -> rtc mixer_step h1 h2 ->
  exists p, h_inst h2 = Some p /\
    mixer_wf (be_entries RX (aif_infos devs)) (be_entries TX (aif_infos devs))
      (pcm_entries "playback" (card_pcms c)) (pcm_entries "capture" (card_pcms c)) p /\
    forall ctl item, ctl ∈ mixer_ctls devs c -> sc_fns ctl = MTD_CONTROL ->
      exists v, amp_pcm_mtd_control_get ctl item h2 = Ret (0, v) h2.
Proof.
  intros Hi Hget Hc Hnames Frx Ftx Hopen Hsteps.
  pose proof (open_outcome True devs card i c s1 h (or_introl Logic.I) Hi Hget Hc Hnames Frx Ftx) as Hw.
  destruct (wlp_run _ _ _ _ _ Hw Hopen) as [(Hr & _)|(_ & p1 & Hp1 & Hwf & _)]; [done|].
  pose proof (steps_view _ _ Hsteps) as Hv. unfold table_view in Hv. rewrite Hp1 in Hv.
  destruct (h_inst h2) as [p|] eqn:Hp; [|done]. apply (inj Some) in Hv.
  exists p. split; [done|]. pose proof (wf_view _ _ _ _ _ p Hv Hwf) as Hwf2. split; [done|].
  intros ctl item Hctl Hf. destruct (control_in_range _ _ _ _ _ Hctl Hf) as (k & Ek & Hd).
  unfold amp_pcm_mtd_control_get. rewrite (bind_run _ _ _ _ _ (get_adi_run _ _ _ Hp)), Ek.
  destruct Hwf2 as [[m1 [_ _ _ Em1 El1]] [m2 [_ _ _ Em2 El2]] _].
  destruct Hd as [[-> Hk]|[-> Hk]].
  - destruct (lookup_lt_is_Some_2 m1 (S k)) as [v Ev]; [lia|]. rewrite Em1.
    rewrite (bind_run _ _ _ _ _ (at_idx_run _ _ _ _ Ev)). by exists (u32 v).
  - destruct (lookup_lt_is_Some_2 m2 (S k)) as [v Ev]; [lia|]. rewrite Em2.
    rewrite (bind_run _ _ _ _ _ (at_idx_run _ _ _ _ Ev)). by exists (u32 v).
Qed.
End MixerInv.

Lemma amp_tables_well_formed_witness :
  exists h1 h2 p, @agm_mixer_plugin_open ok_env (demo_snd true) plain_plug demo_mixer 100 (mixer_host "1" None) = Ret 0 h1 /\
    @amp_pcm_mtd_control_put (SndControl "PCM100 control" (VALUE_ENUM RX_BE) MTD_CONTROL 1 RX_PCM) 1 h1 = Ret 0 h2 /\
    h_inst h2 = Some p /\
    mixer_wf (be_entries RX (aif_infos demo_devs)) (be_entries TX (aif_infos demo_devs))
      [("PCM100"%string, 100)] [("PCM101"%string, 101)] p.
Proof.
  let r := eval vm_compute in
    (@agm_mixer_plugin_open ok_env (demo_snd true) plain_plug demo_mixer 100 (mixer_host "1" None)) in
  lazymatch r with Ret _ ?h =>
    assert (E : @agm_mixer_plugin_open ok_env (demo_snd true) plain_plug demo_mixer 100 (mixer_host "1" None) = Ret 0 h)
      by (vm_compute; reflexivity);
    let r2 := eval vm_compute in
      (amp_pcm_mtd_control_put (SndControl "PCM100 control" (VALUE_ENUM RX_BE) MTD_CONTROL 1 RX_PCM) 1 h) in
    lazymatch r2 with Ret _ ?h2 =>
      assert (E2 : amp_pcm_mtd_control_put (SndControl "PCM100 control" (VALUE_ENUM RX_BE) MTD_CONTROL 1 RX_PCM) 1 h = Ret 0 h2)
        by (vm_compute; reflexivity)
    end
  end.
  let r := eval vm_compute in (@snd_card_def_get_card (demo_snd true) 100 (mixer_snd "1")) in
  lazymatch r with Ret _ ?s => assert (Eg : @snd_card_def_get_card (demo_snd true) 100 (mixer_snd "1") = Ret (Some 0%nat) s)
    by (vm_compute; reflexivity) end.
  destruct (@amp_tables_well_formed ok_env linux_alsa (demo_snd true) plain_plug demo_mixer demo_devs 100 0
    (set_cd_refcnt 2 (mixer_card "1")) _ (mixer_host "1" None) _ _ demo_intfs Eg eq_refl
    ltac:(repeat constructor; by eexists) eq_refl eq_refl E
    (rtc_once _ _ (step_call _ _ _ _ _ (call_mtd_control_put _ _) E2)))
    as (p & Hp & Hw & _).
  eexists _, _, p. split; [exact E|]. split; [exact E2|]. split; [exact Hp|exact Hw].
Defined.
