(* ===== verification/Parcel.v ===== *)
(** * Parcels: the arguments and results of a call between two processes

    Binder (outside the repository) carries a call as a parcel, into which the caller
    writes values one after the other and from which the callee reads them
    back.  [Parcel] is what the code uses of it, [ParcelLaws] what it
    relies on: reads in the order of the writes, with the kinds and sizes of
    the writes, give the values back.  [byte_parcel] is an implementation over
    bytes that satisfies the laws.  The structures that travel as their bytes (a
    [memcpy] into a blob) are laid out here as the compiler does. *)

From S2P Require Export Plugin.
Open Scope Z_scope.
#[export] Set Default Goal Selector "!".

(** What is written: the 32 and 64 bit integers (signed or not: their bits),
    plain bytes ([Parcel::write], padded to 4), a blob, an object of a process
    ([writeStrongBinder]) and the token of an interface. *)
Inductive item :=
  | Int32 (v : Z)
  | Int64 (v : Z)
  | Raw (b : list Z)
  | Blob (b : list Z)
  | Strong (binder : Z)
  | Token.

Class Parcel : Type := {
  parcel : Type;
  parcel_new : parcel;
  parcel_write : parcel -> item -> parcel;
  parcel_int32 : parcel -> Z * parcel;
  parcel_int64 : parcel -> Z * parcel;
  parcel_raw : nat -> parcel -> option (list Z) * parcel;
  parcel_blob : Z -> parcel -> option (list Z) * parcel;
  parcel_strong : parcel -> Z * parcel;
  parcel_check : parcel -> parcel
}.

(** The bytes a [bool] or a pointer is written as. *)
Definition bool_bytes (b : bool) : list Z := [if b then 1 else 0].

Class ParcelLaws (P : Parcel) : Type := {
  holds : parcel -> list item -> Prop;
  holds_new : holds parcel_new [];
  holds_write p l i : holds p l -> holds (parcel_write p i) (l ++ [i]);
  int32_holds p v l : holds p (Int32 v :: l) ->
    exists p', parcel_int32 p = (s32 v, p') /\ holds p' l;
  int32_bool p b l : holds p (Raw (bool_bytes b) :: l) ->
    exists p', parcel_int32 p = (Z.b2z b, p') /\ holds p' l;
  int32_end p : holds p [] -> exists p', parcel_int32 p = (0, p') /\ holds p' [];
  int64_holds p v l : holds p (Int64 v :: l) ->
    exists p', parcel_int64 p = (s64 v, p') /\ holds p' l;
  int64_end p : holds p [] -> exists p', parcel_int64 p = (0, p') /\ holds p' [];
  raw_holds p b l : holds p (Raw b :: l) ->
    exists p', parcel_raw (length b) p = (Some b, p') /\ holds p' l;
  blob_holds p b l : holds p (Blob b :: l) ->
    exists p', parcel_blob (Z.of_nat (length b)) p = (Some b, p') /\ holds p' l;
  blob_end p n : holds p [] -> 0 < n -> exists p', parcel_blob n p = (None, p') /\ holds p' [];
  strong_holds p o l : holds p (Strong o :: l) ->
    exists p', parcel_strong p = (s64 o, p') /\ holds p' l;
  check_holds p l : holds p (Token :: l) -> holds (parcel_check p) l
}.

(** ** The calls of the code *)

Section Calls.
Context `{P : Parcel} {S : Type}.

Definition writeInterfaceToken (p : parcel) : parcel := parcel_write p Token.
Definition writeUint32 (p : parcel) (v : Z) : parcel := parcel_write p (Int32 v).
Definition writeInt32 (p : parcel) (v : Z) : parcel := parcel_write p (Int32 v).
Definition writeInt64 (p : parcel) (v : Z) : parcel := parcel_write p (Int64 v).
Definition writeUint64 (p : parcel) (v : Z) : parcel := parcel_write p (Int64 v).
Definition writeRaw (p : parcel) (b : list Z) : parcel := parcel_write p (Raw b).
Definition writeBlob (p : parcel) (b : list Z) : parcel := parcel_write p (Blob b).
Definition writeStrongBinder (p : parcel) (o : Z) : parcel := parcel_write p (Strong o).

Definition readInt32 (p : parcel) : M S (Z * parcel) := ret (parcel_int32 p).
Definition readUint32 (p : parcel) : M S (Z * parcel) :=
  let! (v, p) := readInt32 p in ret (u32 v, p).
Definition readInt64 (p : parcel) : M S (Z * parcel) := ret (parcel_int64 p).
Definition readUint64 (p : parcel) : M S (Z * parcel) :=
  let! (v, p) := readInt64 p in ret (u64 v, p).
Definition readStrongBinder (p : parcel) : M S (Z * parcel) := ret (parcel_strong p).

(** [data.read(dst, n)], which leaves [dst] alone when it fails. *)
Definition readRaw (n : nat) (dst : list Z) (p : parcel) : M S (list Z * parcel) :=
  let '(b, p) := parcel_raw n p in ret (default dst b, p).

(** [readBlob(n, &blob)]: [None] leaves [blob.data()] NULL. *)
Definition readBlob (n : Z) (p : parcel) : M S (option (list Z) * parcel) := ret (parcel_blob n p).

(** [memcpy(dst, blob.data(), n)] *)
Definition blob_data (n : Z) (blob : option (list Z)) : M S (list Z) :=
  match blob with
  | Some b => ret b
  | None => if n =? 0 then ret [] else crash_with NullDeref
  end.

(** [data.writeBlob(n, false, &blob)] and [memcpy(blob.data(), src, n)] from a
    buffer of the caller: a blob is smaller than 2 GiB, otherwise
    [blob.data()] is NULL. *)
Definition BLOB_MAX : Z := 2 ^ 31 - 1.
Definition blob_of (src : list Z) (n : Z) : M S (list Z) :=
  if (n <? 0) || (BLOB_MAX <? n) then crash_with NullDeref
  else if Z.of_nat (length src) <? n then crash_with OutOfBounds
  else ret (take (Z.to_nat n) src).

(** *** Rules *)

Context `{!ParcelLaws P} (u : Prop).

Lemma wpg_readInt32 (Q : Z * parcel -> S -> Prop) p v l s :
  holds p (Int32 v :: l) -> (forall p', holds p' l -> Q (s32 v, p') s) -> wpg u (readInt32 p) Q s.
Proof. intros Hp HQ. apply int32_holds in Hp as (p' & E & Hp). unfold readInt32. rewrite E. by apply HQ. Qed.

Lemma wpg_readUint32 (Q : Z * parcel -> S -> Prop) p v l s :
  holds p (Int32 v :: l) -> (forall p', holds p' l -> Q (u32 v, p') s) -> wpg u (readUint32 p) Q s.
Proof.
  intros Hp HQ. apply wpg_bind. eapply wpg_readInt32; [done|]. intros p' Hp'. apply wpg_ret.
  rewrite u32_s32. by apply HQ.
Qed.

Lemma wpg_readBool (Q : Z * parcel -> S -> Prop) p b l s :
  holds p (Raw (bool_bytes b) :: l) -> (forall p', holds p' l -> Q (Z.b2z b, p') s) ->
  wpg u (readUint32 p) Q s.
Proof.
  intros Hp HQ. apply int32_bool in Hp as (p' & E & Hp). unfold readUint32, readInt32. rewrite E.
  apply wpg_bind, wpg_ret, wpg_ret. rewrite u32_small by (by destruct b). by apply HQ.
Qed.

Lemma wpg_readInt32_end (Q : Z * parcel -> S -> Prop) p s :
  holds p [] -> (forall p', holds p' [] -> Q (0, p') s) -> wpg u (readInt32 p) Q s.
Proof. intros Hp HQ. apply int32_end in Hp as (p' & E & Hp). unfold readInt32. rewrite E. by apply HQ. Qed.

Lemma u64_s64 v : u64 (s64 v) = u64 v.
Proof.
  unfold u64, s64. rewrite Zminus_mod_idemp_l. f_equal. lia.
Qed.

Lemma wpg_readInt64 (Q : Z * parcel -> S -> Prop) p v l s :
  holds p (Int64 v :: l) -> (forall p', holds p' l -> Q (s64 v, p') s) -> wpg u (readInt64 p) Q s.
Proof. intros Hp HQ. apply int64_holds in Hp as (p' & E & Hp). unfold readInt64. rewrite E. by apply HQ. Qed.

Lemma wpg_readUint64 (Q : Z * parcel -> S -> Prop) p v l s :
  holds p (Int64 v :: l) -> (forall p', holds p' l -> Q (u64 v, p') s) -> wpg u (readUint64 p) Q s.
Proof.
  intros Hp HQ. apply wpg_bind. eapply wpg_readInt64; [done|]. intros p' Hp'. apply wpg_ret.
  rewrite u64_s64. by apply HQ.
Qed.

Lemma wpg_readStrong (Q : Z * parcel -> S -> Prop) p o l s :
  holds p (Strong o :: l) -> (forall p', holds p' l -> Q (s64 o, p') s) -> wpg u (readStrongBinder p) Q s.
Proof. intros Hp HQ. apply strong_holds in Hp as (p' & E & Hp). unfold readStrongBinder. rewrite E. by apply HQ. Qed.

Lemma wpg_readRaw (Q : list Z * parcel -> S -> Prop) p n b dst l s :
  holds p (Raw b :: l) -> n = length b -> (forall p', holds p' l -> Q (b, p') s) ->
  wpg u (readRaw n dst p) Q s.
Proof. intros Hp -> HQ. apply raw_holds in Hp as (p' & E & Hp). unfold readRaw. rewrite E. by apply HQ. Qed.

Lemma wpg_readBlob (Q : option (list Z) * parcel -> S -> Prop) p n b l s :
  holds p (Blob b :: l) -> n = Z.of_nat (length b) -> (forall p', holds p' l -> Q (Some b, p') s) ->
  wpg u (readBlob n p) Q s.
Proof. intros Hp -> HQ. apply blob_holds in Hp as (p' & E & Hp). unfold readBlob. rewrite E. by apply HQ. Qed.

Lemma wpg_blob_data (Q : list Z -> S -> Prop) n b s : Q b s -> wpg u (blob_data n (Some b)) Q s.
Proof. exact id. Qed.

Lemma wpg_blob_of (Q : list Z -> S -> Prop) src n s :
  n <= BLOB_MAX -> n = Z.of_nat (length src) -> Q src s -> wpg u (blob_of src n) Q s.
Proof.
  intros Hn -> HQ. unfold blob_of. rewrite !(proj2 (Z.ltb_ge _ _)) by lia. cbn [orb].
  rewrite Nat2Z.id, take_ge by lia. by apply wpg_ret.
Qed.

Lemma wpg_blob_part (Q : list Z -> S -> Prop) src n s :
  0 <= n <= BLOB_MAX -> n <= Z.of_nat (length src) -> Q (take (Z.to_nat n) src) s -> wpg u (blob_of src n) Q s.
Proof. intros Hn Hl HQ. unfold blob_of. rewrite !(proj2 (Z.ltb_ge _ _)) by lia. by apply wpg_ret. Qed.
End Calls.

(** ** Memory of a process *)

Section Memory.
Context {S : Type}.

(** The address of the [i]-th object of a process; 0 is NULL. *)
Definition addr_of (i : nat) : Z := Z.of_nat i + 1.
Definition deref {A} (p : Z) (heap : list A) : M S A :=
  if p =? 0 then crash_with NullDeref
  else the DanglingPtr (if p <? 0 then None else heap !! Z.to_nat (p - 1)).

(** [memcpy(dst, src, n)] *)
Definition memcpy (dst src : list Z) (n : Z) : M S (list Z) :=
  let n := Z.to_nat n in
  if (length src <? n)%nat || (length dst <? n)%nat then crash_with OutOfBounds
  else ret (take n src ++ drop n dst).

Lemma deref_run {A} p (heap : list A) x s : 0 < p -> heap !! Z.to_nat (p - 1) = Some x -> deref p heap s = Ret x s.
Proof.
  intros Hp Hx. unfold deref. rewrite (proj2 (Z.eqb_neq p 0)), (proj2 (Z.ltb_ge p 0)) by lia. by rewrite Hx.
Qed.

Lemma wpg_deref {A} u p (heap : list A) x (Q : A -> S -> Prop) s :
  0 < p -> heap !! Z.to_nat (p - 1) = Some x -> Q x s -> wpg u (deref p heap) Q s.
Proof. intros Hp Hx HQ. unfold wpg. by rewrite (deref_run _ _ x). Qed.

Lemma addr_of_at {A} (l : list A) x : (l ++ [x]) !! Z.to_nat (addr_of (length l) - 1) = Some x.
Proof. unfold addr_of. replace (Z.to_nat _) with (length l) by lia. by rewrite lookup_app_r, Nat.sub_diag by lia. Qed.

Lemma wpg_memcpy_bytes u dst src n (Q : list Z -> S -> Prop) s :
  (Z.to_nat n <= length src)%nat -> (Z.to_nat n <= length dst)%nat ->
  Q (take (Z.to_nat n) src ++ drop (Z.to_nat n) dst) s -> wpg u (memcpy dst src n) Q s.
Proof. intros Hs Hd HQ. unfold memcpy. rewrite !(proj2 (Nat.ltb_ge _ _)) by done. exact HQ. Qed.

(** The whole of [src]. *)
Lemma wpg_memcpy_all u dst src n (Q : list Z -> S -> Prop) s :
  n = Z.of_nat (length src) -> length dst = length src -> Q src s -> wpg u (memcpy dst src n) Q s.
Proof.
  intros -> Hd HQ. apply wpg_memcpy_bytes; rewrite Nat2Z.id; [lia|lia|].
  by rewrite firstn_all, drop_ge, app_nil_r by lia.
Qed.
End Memory.

(** ** Structures as bytes

    [memcpy] of a structure: its members at the offsets the compiler gives them
    (the enumerations are [unsigned int]), padding 0. *)

Definition enc64 (z : Z) : list Z := enc32 (u64 z mod 2 ^ 32) ++ enc32 (u64 z / 2 ^ 32).
Definition le64 (b : list Z) : Z := le32 b + 2 ^ 32 * le32 (drop 4 b).
Definition word_at (b : list Z) (off : nat) : Z := le32 (drop off b).

(** A buffer after bytes were stored at its start. *)
Definition overwrite (stored buf : list Z) : list Z := stored ++ drop (length stored) buf.

(** The first [n] bytes of what was received, the rest 0: [memset] and [memscpy]. *)
Definition fit (n : nat) (b : list Z) : list Z := take n b ++ replicate (n - length b) 0.

Definition sizeof_media_config : nat := 16.
Definition media_bytes (c : media_config) : list Z :=
  enc32 (mc_rate c) ++ enc32 (mc_channels c) ++ enc32 (mc_format c) ++ enc32 (mc_data_format c).
Definition media_of (b : list Z) : media_config :=
  MediaConfig (word_at b 0) (word_at b 4) (word_at b 8) (word_at b 12).

Definition sizeof_codec : nat := 32.
Definition sizeof_session_config : nat := 52.
Definition session_bytes (c : session_config) : list Z :=
  enc32 (sc_dir c) ++ (bool_bytes (sc_is_hostless c) ++ [0; 0; 0]) ++ enc32 (sc_start_threshold c) ++
  enc32 (sc_stop_threshold c) ++ sc_codec c ++ enc32 (sc_data_mode c).
Definition session_of (b : list Z) : session_config :=
  SessionConfig (word_at b 0) (negb (word_at b 4 =? 0)) (word_at b 8) (word_at b 12)
    (take sizeof_codec (drop 16 b)) (word_at b 48).

Definition sizeof_buffer_config : nat := 16.
Definition buffer_bytes (c : buffer_config) : list Z := enc32 (bc_count c) ++ [0; 0; 0; 0] ++ enc64 (bc_size c).
Definition buffer_of (b : list Z) : buffer_config := BufferConfig (word_at b 0) (le64 (drop 8 b)).

Definition byte_of (c : ascii) : Z := Z.of_N (N_of_ascii c).
Definition char_of (z : Z) : ascii := ascii_of_N (Z.to_N z).
Definition name_bytes (n : nat) (s : string) : list Z := fit n (byte_of <$> String.list_ascii_of_string s).
(** The characters before the first NUL. *)
Fixpoint name_of (b : list Z) : string :=
  match b with
  | [] => EmptyString
  | z :: b => if z =? 0 then EmptyString else String (char_of z) (name_of b)
  end.

Definition sizeof_aif_info : nat := 32.
Definition aif_bytes (a : string * Z) : list Z := name_bytes AIF_NAME_MAX_LEN a.1 ++ enc32 a.2.
Definition aif_of (b : list Z) : string * Z := (name_of (take AIF_NAME_MAX_LEN b), word_at b AIF_NAME_MAX_LEN).
Definition aifs_bytes (l : list (string * Z)) : list Z := mjoin (aif_bytes <$> l).
Fixpoint aifs_of (n : nat) (b : list Z) : list (string * Z) :=
  match n with
  | O => []
  | S n => aif_of b :: aifs_of n (drop sizeof_aif_info b)
  end.

(** The values these members have. *)
Definition media_fits (c : media_config) : Prop :=
  is_u32 (mc_rate c) /\ is_u32 (mc_channels c) /\ is_u32 (mc_format c) /\ is_u32 (mc_data_format c).
Definition session_fits (c : session_config) : Prop :=
  is_u32 (sc_dir c) /\ is_u32 (sc_start_threshold c) /\ is_u32 (sc_stop_threshold c) /\
  length (sc_codec c) = sizeof_codec /\ is_u32 (sc_data_mode c).
Definition buffer_fits (c : buffer_config) : Prop := is_u32 (bc_count c) /\ 0 <= bc_size c < 2 ^ 64.
Definition no_nul (s : string) : Prop := Forall (fun c => c <> Ascii.zero) (String.list_ascii_of_string s).
Definition aif_fits (a : string * Z) : Prop :=
  (String.length a.1 < AIF_NAME_MAX_LEN)%nat /\ no_nul a.1 /\ is_u32 a.2.

Section Layouts.
Lemma fit_id b n : length b = n -> fit n b = b.
Proof. intros <-. unfold fit. by rewrite Nat.sub_diag, app_nil_r, firstn_all. Qed.

Lemma length_fit n b : length (fit n b) = n.
Proof. unfold fit. rewrite length_app, length_take, length_replicate. lia. Qed.

Lemma length_enc32 z : length (enc32 z) = 4%nat.
Proof. done. Qed.
Lemma length_enc64 z : length (enc64 z) = 8%nat.
Proof. done. Qed.

(** A member at its offset. *)
Lemma word_at_mid pre z post off : length pre = off -> is_u32 z -> word_at (pre ++ enc32 z ++ post) off = z.
Proof. intros <- Hz. unfold word_at. rewrite drop_app_length. by apply le32_enc32. Qed.

Lemma le64_enc64 z r : 0 <= z < 2 ^ 64 -> le64 (enc64 z ++ r) = z.
Proof.
  intros Hz. unfold le64, enc64. rewrite u64_small by done. rewrite <- app_assoc.
  assert (0 <= z / 2 ^ 32 < 2 ^ 32) by (split; [apply Z.div_pos; lia|apply Z.div_lt_upper_bound; lia]).
  pose proof (Z.mod_pos_bound z (2 ^ 32)) as Hm.
  change 4%nat with (length (enc32 (z mod 2 ^ 32))). rewrite drop_app_length.
  rewrite !le32_enc32 by (unfold is_u32; lia). pose proof (Z.div_mod z (2 ^ 32)). lia.
Qed.

Lemma media_roundtrip c : media_fits c -> media_of (fit sizeof_media_config (media_bytes c)) = c.
Proof.
  intros (H1 & H2 & H3 & H4). rewrite fit_id by done. destruct c as [r ch f d]. unfold media_of, media_bytes. cbn [mc_rate mc_channels mc_format mc_data_format] in *.
  f_equal.
  - by apply (word_at_mid []).
  - by apply (word_at_mid (enc32 r)).
  - by apply (word_at_mid (enc32 r ++ enc32 ch)).
  - rewrite <- (app_nil_r (enc32 d)). by apply (word_at_mid (enc32 r ++ enc32 ch ++ enc32 f)).
Qed.

Lemma length_session_bytes c : session_fits c -> length (session_bytes c) = sizeof_session_config.
Proof. intros (_ & _ & _ & Hc & _). unfold session_bytes. rewrite !length_app, Hc. done. Qed.

Lemma session_roundtrip c : session_fits c -> session_of (fit sizeof_session_config (session_bytes c)) = c.
Proof.
  intros Hf. rewrite fit_id by (by apply length_session_bytes). destruct Hf as (H1 & H2 & H3 & H4 & H5).
  destruct c as [d h a o k m]. unfold session_of, session_bytes. cbn [sc_dir sc_is_hostless sc_start_threshold
    sc_stop_threshold sc_codec sc_data_mode] in *.
  set (pre := enc32 d ++ (bool_bytes h ++ [0; 0; 0]) ++ enc32 a ++ enc32 o).
  assert (Epre : forall r, enc32 d ++ (bool_bytes h ++ [0; 0; 0]) ++ enc32 a ++ enc32 o ++ r = pre ++ r)
    by (intros; unfold pre; by rewrite <- !app_assoc).
  f_equal.
  - by apply (word_at_mid []).
  - unfold word_at. rewrite <- app_assoc. change 4%nat with (length (enc32 d)). rewrite drop_app_length. by destruct h.
  - apply (word_at_mid (enc32 d ++ bool_bytes h ++ [0; 0; 0])); done.
  - apply (word_at_mid (enc32 d ++ (bool_bytes h ++ [0; 0; 0]) ++ enc32 a)); done.
  - rewrite Epre. change 16%nat with (length pre). rewrite drop_app_length, <- H4. apply take_app_length.
  - rewrite Epre, <- (app_nil_r (enc32 m)), app_assoc. apply word_at_mid; [|done].
    rewrite length_app, H4. done.
Qed.

Lemma buffer_roundtrip c : buffer_fits c -> buffer_of (fit sizeof_buffer_config (buffer_bytes c)) = c.
Proof.
  intros [H1 H2]. rewrite fit_id by done. destruct c as [n z]. unfold buffer_of, buffer_bytes. cbn [bc_count bc_size] in *.
  f_equal; [by apply (word_at_mid [])|]. change 8%nat with (length (enc32 n ++ [0; 0; 0; 0])).
  rewrite app_assoc, drop_app_length, <- (app_nil_r (enc64 z)). by apply le64_enc64.
Qed.

Lemma char_of_byte c : char_of (byte_of c) = c.
Proof. unfold char_of, byte_of. by rewrite N2Z.id, ascii_N_embedding. Qed.

Lemma name_of_bytes s r : no_nul s -> name_of ((byte_of <$> String.list_ascii_of_string s) ++ 0 :: r) = s.
Proof.
  unfold no_nul. induction s as [|c s IH]; [done|]. cbn [String.list_ascii_of_string fmap list_fmap app name_of].
  intros Hf. apply Forall_cons in Hf as [Hc Hs]. destruct (byte_of c =? 0) eqn:E.
  - destruct Hc. apply Z.eqb_eq in E. rewrite <- (char_of_byte c), E. done.
  - by rewrite char_of_byte, IH.
Qed.

Lemma length_chars s : length (String.list_ascii_of_string s) = String.length s.
Proof. induction s as [|c s IH]; [done|]. cbn. by rewrite IH. Qed.

Lemma length_name_bytes n s : (String.length s <= n)%nat -> length (name_bytes n s) = n.
Proof.
  intros Hn. unfold name_bytes, fit. rewrite length_app, length_take, length_replicate, length_fmap, length_chars. lia.
Qed.

Lemma name_roundtrip n s : (String.length s < n)%nat -> no_nul s -> name_of (name_bytes n s) = s.
Proof.
  intros Hn Hs. unfold name_bytes, fit. rewrite take_ge by (rewrite length_fmap, length_chars; lia).
  rewrite length_fmap, length_chars. destruct (n - String.length s)%nat as [|k] eqn:E; [lia|].
  cbn [replicate]. by apply name_of_bytes.
Qed.

Lemma length_aif_bytes a : aif_fits a -> length (aif_bytes a) = sizeof_aif_info.
Proof. intros (H1 & _ & _). unfold aif_bytes. rewrite length_app, length_name_bytes by lia. done. Qed.

Lemma aif_roundtrip a r : aif_fits a -> aif_of (aif_bytes a ++ r) = a.
Proof.
  intros (H1 & H2 & H3). destruct a as [s d]. unfold aif_of, aif_bytes. cbn [fst snd] in *. rewrite <- app_assoc.
  pose proof (length_name_bytes AIF_NAME_MAX_LEN s ltac:(lia)) as El. f_equal.
  - rewrite take_app_length' by done. by apply name_roundtrip.
  - by apply word_at_mid.
Qed.

Lemma length_aifs_bytes l : Forall aif_fits l -> length (aifs_bytes l) = (length l * sizeof_aif_info)%nat.
Proof.
  induction 1 as [|a l Ha _ IH]; [done|]. change (aifs_bytes (a :: l)) with (aif_bytes a ++ aifs_bytes l).
  rewrite length_app, IH, length_aif_bytes by done. done.
Qed.

Lemma aifs_roundtrip l : Forall aif_fits l -> aifs_of (length l) (aifs_bytes l) = l.
Proof.
  induction 1 as [|a l Ha _ IH]; [done|]. change (aifs_bytes (a :: l)) with (aif_bytes a ++ aifs_bytes l).
  cbn [length aifs_of]. rewrite aif_roundtrip by done. f_equal.
  rewrite drop_app_length' by (by rewrite length_aif_bytes). exact IH.
Qed.
End Layouts.

(** ** Parcels as bytes *)

(** The padding of [n] bytes to a multiple of 4. *)
Definition padding (n : nat) : nat := ((4 - n mod 4) mod 4)%nat.
Definition padded (b : list Z) : list Z := b ++ replicate (padding (length b)) 0.

Definition item_bytes (i : item) : list Z :=
  match i with
  | Int32 v => enc32 (u32 v)
  | Int64 v | Strong v => enc64 v
  | Raw b => padded b
  | Blob b => enc32 0 ++ padded b
  | Token => enc32 0
  end.

(** The next [n] bytes, if there are that many. *)
Definition next_bytes (n : nat) (p : list Z) : option (list Z) * list Z :=
  if (n <=? length p)%nat then (Some (take n p), drop n p) else (None, p).

Definition byte_blob (n : Z) (p : list Z) : option (list Z) * list Z :=
  let k := Z.to_nat n in
  let '(b, p') := next_bytes (4 + (k + padding k)) p in ((fun b => take k (drop 4 b)) <$> b, p').

#[export] Instance byte_parcel : Parcel := {|
  parcel := list Z;
  parcel_new := [];
  parcel_write p i := p ++ item_bytes i;
  parcel_int32 p := let '(b, p') := next_bytes 4 p in (from_option (fun b => s32 (le32 b)) 0 b, p');
  parcel_int64 p := let '(b, p') := next_bytes 8 p in (from_option (fun b => s64 (le64 b)) 0 b, p');
  parcel_raw n p := let '(b, p') := next_bytes (n + padding n) p in (take n <$> b, p');
  parcel_blob := byte_blob;
  parcel_strong p := let '(b, p') := next_bytes 8 p in (from_option (fun b => s64 (le64 b)) 0 b, p');
  parcel_check := drop 4
|}.

Lemma next_bytes_app b l n : length b = n -> next_bytes n (b ++ l) = (Some b, l).
Proof.
  intros <-. unfold next_bytes. rewrite length_app, (proj2 (Nat.leb_le _ _)) by lia.
  by rewrite take_app_length, drop_app_length.
Qed.

Lemma s32_u32 v : s32 (u32 v) = s32 v.
Proof. unfold s32, u32. by rewrite Zplus_mod_idemp_l. Qed.

Lemma s64_u64 v : s64 (u64 v) = s64 v.
Proof. unfold s64, u64. by rewrite Zplus_mod_idemp_l. Qed.

Lemma le32_next v : le32 (enc32 (u32 v)) = u32 v.
Proof. rewrite <- (app_nil_r (enc32 _)). apply le32_enc32, u32_range. Qed.

Lemma le64_next v : le64 (enc64 v) = u64 v.
Proof.
  replace (enc64 v) with (enc64 (u64 v) ++ []) by (rewrite app_nil_r; unfold enc64; by rewrite (u64_small (u64 v)) by apply u64_range).
  apply le64_enc64, u64_range.
Qed.

Lemma length_padded b : length (padded b) = (length b + padding (length b))%nat.
Proof. unfold padded. by rewrite length_app, length_replicate. Qed.

#[export] Instance byte_parcel_laws : ParcelLaws byte_parcel.
Proof.
  refine {| holds := fun p l => p = mjoin (item_bytes <$> l) |}; cbn [parcel parcel_new parcel_write parcel_int32
    parcel_int64 parcel_raw parcel_blob parcel_strong parcel_check byte_parcel].
  - done.
  - intros p l i ->. rewrite fmap_app. cbn. rewrite join_app. cbn. by rewrite app_nil_r.
  - intros p v l ->. rewrite fmap_cons. cbn [mjoin list_join]. rewrite next_bytes_app by done. eexists. split; [|done].
    cbn [from_option item_bytes]. by rewrite le32_next, s32_u32.
  - intros p b l ->. rewrite fmap_cons. cbn [mjoin list_join]. rewrite next_bytes_app by (by destruct b).
    eexists. split; [|done]. by destruct b.
  - intros p ->. by eexists.
  - intros p v l ->. rewrite fmap_cons. cbn [mjoin list_join]. rewrite next_bytes_app by done. eexists. split; [|done].
    cbn [from_option item_bytes]. by rewrite le64_next, s64_u64.
  - intros p ->. by eexists.
  - intros p b l ->. rewrite fmap_cons. cbn [mjoin list_join]. rewrite next_bytes_app by apply length_padded. eexists. split; [|done].
    cbn [item_bytes fmap option_fmap option_map]. unfold padded. by rewrite take_app_length.
  - intros p b l ->. rewrite fmap_cons. cbn [mjoin list_join]. unfold byte_blob. rewrite Nat2Z.id.
    rewrite next_bytes_app by (cbn [item_bytes]; rewrite length_app, length_padded; done). eexists. split; [|done].
    cbn [item_bytes fmap option_fmap option_map]. change 4%nat with (length (enc32 0)). rewrite drop_app_length.
    unfold padded. by rewrite take_app_length.
  - intros p n -> Hn. exists []. split; [|done]. unfold byte_blob, next_bytes. cbn [fmap list_fmap mjoin list_join length].
    by rewrite (proj2 (Nat.leb_gt _ _)) by lia.
  - intros p o l ->. rewrite fmap_cons. cbn [mjoin list_join]. rewrite next_bytes_app by done. eexists. split; [|done].
    cbn [from_option item_bytes]. by rewrite le64_next, s64_u64.
  - intros p l ->. rewrite fmap_cons. cbn [mjoin list_join item_bytes]. by rewrite drop_app_length'.
Defined.
