(* ===== verification/BinderState.v ===== *)
(** * The two ends of the Binder connection: state

    ipc/SwBinders puts the service into a process of its own.  [sys] is a client
    process and the server process together: the service, what the server keeps
    about its clients (agm_death_notifier.h, agm_callback.h), the client's proxy,
    and the calls of client callbacks.  Other clients act on the server through
    [onTransact] with their own pid. *)

From S2P Require Export Parcel.
Open Scope Z_scope.
#[export] Set Default Goal Selector "!".

(** ** The server's tables *)

(** [client_info]: a registered client and the handles of its sessions
    ([agm_client_hndl_list]). *)
Record client_info : Type := ClientInfo {
  ci_binder : Z;
  ci_pid : Z;
  ci_notifier : bool;
  ci_handles : list Z
}.
Definition set_ci_handles (v : list Z) (r : client_info) : client_info :=
  ClientInfo (ci_binder r) (ci_pid r) (ci_notifier r) v.

(** [clbk_data]: a callback a client asked for. *)
Record clbk_data : Type := ClbkData {
  kb_session_id : Z;
  kb_binder : Z;
  kb_func : Z;
  kb_client_data : Z
}.

(** A call of a client's callback, in the process of the object [dl_binder]. *)
Record delivery : Type := Delivery {
  dl_binder : Z;
  dl_func : Z;
  dl_session : Z;
  dl_params : event_params;
  dl_client_data : Z
}.

Inductive ipc_lock := LClientList | LClbkList.
#[export] Instance ipc_lock_eq_dec : EqDecision ipc_lock.
Proof. solve_decision. Defined.

(** [y_clients] and [y_cbs] are [None] until [list_init]; [y_client] is the
    client's [agm_client], [None] before the first call, with the object it
    registered. *)
Record sys : Type := Sys {
  y_agm : world;
  y_clients : option (list client_info);
  y_cbs : option (list clbk_data);
  y_client : option Z;
  y_server_died : bool;
  y_delivered : list delivery;
  y_held : list ipc_lock;
  y_bad_unlock : list ipc_lock;
  y_tick : nat
}.

Definition set_y_agm (v : world) (y : sys) : sys :=
  Sys v (y_clients y) (y_cbs y) (y_client y) (y_server_died y) (y_delivered y) (y_held y) (y_bad_unlock y) (y_tick y).
Definition set_y_clients (v : option (list client_info)) (y : sys) : sys :=
  Sys (y_agm y) v (y_cbs y) (y_client y) (y_server_died y) (y_delivered y) (y_held y) (y_bad_unlock y) (y_tick y).
Definition set_y_cbs (v : option (list clbk_data)) (y : sys) : sys :=
  Sys (y_agm y) (y_clients y) v (y_client y) (y_server_died y) (y_delivered y) (y_held y) (y_bad_unlock y) (y_tick y).
Definition set_y_client (v : option Z) (y : sys) : sys :=
  Sys (y_agm y) (y_clients y) (y_cbs y) v (y_server_died y) (y_delivered y) (y_held y) (y_bad_unlock y) (y_tick y).
Definition set_y_server_died (v : bool) (y : sys) : sys :=
  Sys (y_agm y) (y_clients y) (y_cbs y) (y_client y) v (y_delivered y) (y_held y) (y_bad_unlock y) (y_tick y).
Definition set_y_delivered (v : list delivery) (y : sys) : sys :=
  Sys (y_agm y) (y_clients y) (y_cbs y) (y_client y) (y_server_died y) v (y_held y) (y_bad_unlock y) (y_tick y).
Definition set_y_held (v : list ipc_lock) (y : sys) : sys :=
  Sys (y_agm y) (y_clients y) (y_cbs y) (y_client y) (y_server_died y) (y_delivered y) v (y_bad_unlock y) (y_tick y).
Definition set_y_bad_unlock (v : list ipc_lock) (y : sys) : sys :=
  Sys (y_agm y) (y_clients y) (y_cbs y) (y_client y) (y_server_died y) (y_delivered y) (y_held y) v (y_tick y).
Definition set_y_tick (v : nat) (y : sys) : sys :=
  Sys (y_agm y) (y_clients y) (y_cbs y) (y_client y) (y_server_died y) (y_delivered y) (y_held y) (y_bad_unlock y) v.

Abbreviation SYS := (M sys).

(** What comes from outside: which allocations of the two processes succeed, the
    objects they create, whether the service manager knows the service, what a
    read puts into the buffer; the pid of the client and the address of
    [ipc_cb] in the server. *)
Class Binder : Type := {
  bn_alloc : nat -> bool;
  bn_object : nat -> Z;
  bn_found : bool;
  client_pid : Z;
  addr_ipc_cb : Z
}.

(** ** Steps *)

Section Steps.
Context `{Binder}.

(** A call of the service in the server. *)
Definition lift_srv {A} (m : AGM A) : SYS A := fun y =>
  match m (y_agm y) with
  | Ret a w => Ret a (set_y_agm w y)
  | Crash why => Crash why
  end.

Definition ipc_tick : SYS nat := fun y => Ret (y_tick y) (set_y_tick (S (y_tick y)) y).
Definition ipc_calloc : SYS bool := let! n := ipc_tick in ret (bn_alloc n).
Definition new_object : SYS Z := let! n := ipc_tick in ret (bn_object n).

Definition ipc_lock_acquire (l : ipc_lock) : SYS unit := fun y =>
  if bool_decide (l ∈ y_held y) then Crash SelfDeadlock else Ret tt (set_y_held (l :: y_held y) y).

(** Releasing a mutex that is not held is recorded. *)
Definition ipc_lock_release (l : ipc_lock) : SYS unit := fun y =>
  if bool_decide (l ∈ y_held y)
  then Ret tt (set_y_held (list_difference (y_held y) [l]) y)
  else Ret tt (set_y_bad_unlock (l :: y_bad_unlock y) y).

(** *** Rules *)

Lemma wpg_lift_srv {A} u (m : AGM A) Q y :
  wpg u m (fun a w => Q a (set_y_agm w y)) (y_agm y) -> wpg u (lift_srv m) Q y.
Proof. unfold wpg, lift_srv. by destruct (m (y_agm y)). Qed.

Lemma lift_srv_run {A} (m : AGM A) y a w : m (y_agm y) = Ret a w -> lift_srv m y = Ret a (set_y_agm w y).
Proof. unfold lift_srv. by intros ->. Qed.

(** A call whose outcome is known. *)
Lemma wpg_srv_run {A} u (m : AGM A) Q y a w :
  m (y_agm y) = Ret a w -> Q a (set_y_agm w y) -> wpg u (lift_srv m) Q y.
Proof. intros E HQ. unfold wpg. by rewrite (lift_srv_run _ _ _ _ E). Qed.

Lemma wpg_ipc_tick u Q y : Q (y_tick y) (set_y_tick (S (y_tick y)) y) -> wpg u ipc_tick Q y.
Proof. exact id. Qed.

Lemma wpg_ipc_calloc u Q y :
  Q (bn_alloc (y_tick y)) (set_y_tick (S (y_tick y)) y) -> wpg u ipc_calloc Q y.
Proof. exact id. Qed.

Lemma wpg_new_object u Q y :
  Q (bn_object (y_tick y)) (set_y_tick (S (y_tick y)) y) -> wpg u new_object Q y.
Proof. exact id. Qed.

Lemma wpg_acquire u l Q y : l ∉ y_held y -> Q tt (set_y_held (l :: y_held y) y) -> wpg u (ipc_lock_acquire l) Q y.
Proof. intros Hl HQ. unfold wpg, ipc_lock_acquire. by rewrite bool_decide_eq_false_2. Qed.

Lemma wpg_release u l ls Q y :
  y_held y = l :: ls -> l ∉ ls -> Q tt (set_y_held ls y) -> wpg u (ipc_lock_release l) Q y.
Proof.
  intros E Hl HQ. unfold wpg, ipc_lock_release. rewrite E. rewrite bool_decide_eq_true_2 by left.
  replace (list_difference (l :: ls) [l]) with ls; [done|]. cbn.
  destruct (decide_rel _ l [l]) as [_|Hn]; [|by destruct Hn; left].
  clear E HQ. induction ls as [|x ls IH]; [done|]. apply not_elem_of_cons in Hl as [Hx Hl].
  cbn. destruct (decide_rel _ x [l]) as [Hin|_]; [by apply list_elem_of_singleton in Hin|]. f_equal. by apply IH.
Qed.
End Steps.
