(* ===== verification/DeathNotifier.v ===== *)
(** * The server's clients and callbacks

    agm_death_notifier.cpp: the list of registered clients with the handles
    of their sessions, which are closed when a client dies.  agm_callback.cpp and
    [ipc_cb] of ipc_proxy_server.cpp: an event goes from the service in the
    server to the function of the client, through a parcel. *)

From S2P Require Export BinderState.
Open Scope Z_scope.
#[export] Set Default Goal Selector "!".

Section DeathNotifier.
Context `{Env, Parcel, Binder}.

(** ** agm_death_notifier.cpp *)

(** [g_client_list]; walking it before [list_init] follows its NULL [next]. *)
Definition client_list : SYS (list client_info) :=
  let! l := gets y_clients in the NullDeref l.

Definition get_client_handle_from_list (pid : Z) : SYS (option nat) :=
  do! ipc_lock_acquire LClientList ;
  let! l := client_list in
  do! ipc_lock_release LClientList ;
  ret (fst <$> list_find (fun c => ci_pid c = pid) l).

Definition agm_register_client (pid binder : Z) : SYS unit :=
  if binder =? 0 then crash_with NullDeref else
  let! clients := gets y_clients in
  do! match clients with
      | None => modify (set_y_clients (Some []))
      | Some _ => ret tt
      end ;
  let! ok := ipc_calloc in
  if negb ok then ret tt else
  do! ipc_lock_acquire LClientList ;
  let! l := client_list in
  do! modify (set_y_clients (Some (l ++ [ClientInfo binder pid true []]))) ;
  ipc_lock_release LClientList.

Definition agm_add_session_obj_handle (pid handle : Z) : SYS unit :=
  let! client_handle := get_client_handle_from_list pid in
  match client_handle with
  | None => ipc_lock_release LClientList
  | Some i =>
      do! ipc_lock_acquire LClientList ;
      let! ok := ipc_calloc in
      do! (if ok : bool then
             modify (fun y => set_y_clients (alter (fun c => set_ci_handles (ci_handles c ++ [handle]) c) i <$> y_clients y) y)
           else ret tt) ;
      ipc_lock_release LClientList
  end.

(** The loop of [agm_remove_session_obj_handle]: the first entry with this
    handle goes. *)
Fixpoint remove_handle (handle : Z) (l : list Z) : list Z :=
  match l with
  | [] => []
  | h :: l => if h =? handle then l else h :: remove_handle handle l
  end.

Definition agm_remove_session_obj_handle (pid handle : Z) : SYS unit :=
  let! client_handle := get_client_handle_from_list pid in
  match client_handle with
  | None => ret tt
  | Some i =>
      do! ipc_lock_acquire LClientList ;
      do! modify (fun y => set_y_clients (alter (fun c => set_ci_handles (remove_handle handle (ci_handles c)) c) i <$> y_clients y) y) ;
      ipc_lock_release LClientList
  end.

(** Every entry of the process goes; its handles are neither closed nor freed. *)
Definition agm_unregister_client (pid binder : Z) : SYS unit :=
  do! ipc_lock_acquire LClientList ;
  let! l := client_list in
  do! (if (binder =? 0) && existsb (fun c => (ci_pid c =? pid) && ci_notifier c) l
       then crash_with NullDeref else ret tt) ;
  do! modify (set_y_clients (Some (List.filter (fun c => negb (ci_pid c =? pid)) l))) ;
  ipc_lock_release LClientList.

(** The inner loop of [binderDied]. *)
Fixpoint close_handles (l : list Z) : SYS unit :=
  match l with
  | [] => ret tt
  | h :: l =>
      do! (if h =? 0 then ret tt else let! _ := lift_srv (agm_session_close h) in ret tt) ;
      close_handles l
  end.

(** The outer loop: the clients that stay. *)
Fixpoint bury (who : Z) (l : list client_info) : SYS (list client_info) :=
  match l with
  | [] => ret []
  | c :: l =>
      if ci_binder c =? who then do! close_handles (ci_handles c) ; bury who l
      else let! rest := bury who l in ret (c :: rest)
  end.

(** [client_death_notifier::binderDied] *)
Definition binderDied (who : Z) : SYS unit :=
  do! ipc_lock_acquire LClientList ;
  let! l := client_list in
  let! rest := bury who l in
  do! modify (set_y_clients (Some rest)) ;
  ipc_lock_release LClientList.

(** ** agm_callback.cpp *)

Definition sizeof_ptr : nat := 8.
Definition ptr_bytes (p : Z) : list Z := enc64 p.
Definition ptr_of (b : list Z) : Z := le64 b.

(** [BnCallback::event_cb], in the client's process. *)
Definition BnCallback_event_cb (binder session_id : Z) (event_params : event_params)
    (client_data cb_func : Z) : SYS Z :=
  if cb_func =? 0 then crash_with NullDeref else
  do! modify (fun y => set_y_delivered (y_delivered y ++
        [Delivery binder cb_func session_id event_params client_data]) y) ;
  ret 0.

(** [BnCallback::onTransact]; the code is not looked at.  [cb_func] is not
    initialised: 0 stands for what it holds when the read fails. *)
Definition BnCallback_onTransact (binder : Z) (data : parcel) : SYS Z :=
  let data := parcel_check data in
  let! (session_id, data) := readUint32 data in
  let! (source_module_id, data) := readUint32 data in
  let! (event_id, data) := readUint32 data in
  let! (event_payload_size, data) := readUint32 data in
  let! ok := ipc_calloc in
  if negb ok then ret (- ENOMEM) else
  let! (blob, data) := readBlob event_payload_size data in
  let! payload := blob_data event_payload_size blob in
  let! (client_data, data) := readInt64 data in
  let! (cb_func, data) := readRaw sizeof_ptr (ptr_bytes 0) data in
  BnCallback_event_cb binder session_id (EventParams source_module_id event_id payload)
    (u64 client_data) (ptr_of cb_func).

(** [BpCallback::event_cb], in the server. *)
Definition BpCallback_event_cb (binder session_id : Z) (event_params : event_params)
    (client_data cb_func : Z) : SYS Z :=
  let param_size := u32 (Z.of_nat (length (ev_payload event_params))) in
  let data := writeInterfaceToken parcel_new in
  let data := writeUint32 data session_id in
  let data := writeUint32 data (ev_source_module_id event_params) in
  let data := writeUint32 data (ev_event_id event_params) in
  let data := writeUint32 data param_size in
  let! payload := blob_of (ev_payload event_params) param_size in
  let data := writeBlob data payload in
  let data := writeInt64 data client_data in
  let data := writeRaw data (ptr_bytes cb_func) in
  BnCallback_onTransact binder data.

(** ** [ipc_cb] *)

(** The entry the loop ends with: the one found, or the last one looked at. *)
Fixpoint find_clbk (session_id client_data : Z) (last : option clbk_data) (l : list clbk_data)
  : bool * option clbk_data :=
  match l with
  | [] => (false, last)
  | k :: l =>
      if (kb_session_id k =? session_id) && (kb_client_data k =? client_data) then (true, Some k)
      else find_clbk session_id client_data (Some k) l
  end.

(** The mutex is released in the loop and again after it. *)
Definition ipc_cb (session_id : Z) (event_params : event_params) (client_data : Z) : SYS unit :=
  do! ipc_lock_acquire LClbkList ;
  let! l := gets y_cbs in
  let! l := the NullDeref l in
  let '(found, handle) := find_clbk session_id client_data None l in
  do! (if found : bool then ipc_lock_release LClbkList else ret tt) ;
  do! ipc_lock_release LClbkList ;
  match handle with
  | None => ret tt
  | Some k =>
      if kb_binder k =? 0 then ret tt
      else let! _ := BpCallback_event_cb (kb_binder k) session_id event_params (kb_client_data k) (kb_func k) in
           ret tt
  end.
End DeathNotifier.
