(* ===== verification/AgmService.v ===== *)
(** * The server: agm_server_wrapper.cpp and BnAgmService

    [AgmService] passes each call on to the service; [onTransact]
    (ipc_proxy_server.cpp) reads the arguments of a transaction from its parcel,
    makes the call and writes the results into the reply, one definition for
    each [case].  A status that is not 0 is what [onTransact] itself returned. *)

From S2P Require Export DeathNotifier.
Open Scope Z_scope.
#[export] Set Default Goal Selector "!".

Section AgmService.
Context `{Env, Parcel, Binder}.

(** ** agm_server_wrapper.cpp *)

Definition ipc_agm_session_read (handle count : Z) : SYS (Z * Z * list Z) :=
  lift_srv (agm_session_read handle count).
Definition ipc_agm_session_write (handle : Z) (buff : list Z) : SYS (Z * Z) :=
  lift_srv (agm_session_write handle buff).
Definition ipc_agm_init : SYS Z := ret 0.
Definition ipc_agm_audio_intf_set_metadata (audio_intf size : Z) (metadata : list Z) : SYS Z :=
  lift_srv (agm_aif_set_metadata audio_intf size metadata).
Definition ipc_agm_session_set_metadata (session_id size : Z) (metadata : list Z) : SYS Z :=
  lift_srv (agm_session_set_metadata session_id size metadata).
Definition ipc_agm_session_audio_inf_set_metadata (session_id audio_intf size : Z) (metadata : list Z) : SYS Z :=
  lift_srv (agm_session_aif_set_metadata session_id audio_intf size metadata).
Definition ipc_agm_session_close (handle : Z) : SYS Z := lift_srv (agm_session_close handle).
Definition ipc_agm_session_prepare (handle : Z) : SYS Z := lift_srv (agm_session_prepare handle).
Definition ipc_agm_session_start (handle : Z) : SYS Z := lift_srv (agm_session_start handle).
Definition ipc_agm_session_stop (handle : Z) : SYS Z := lift_srv (agm_session_stop handle).
Definition ipc_agm_session_pause (handle : Z) : SYS Z := lift_srv (agm_session_pause handle).
Definition ipc_agm_session_resume (handle : Z) : SYS Z := lift_srv (agm_session_resume handle).
Definition ipc_agm_session_set_loopback (capture_session_id playback_session_id : Z) (state : bool) : SYS Z :=
  lift_srv (agm_session_set_loopback capture_session_id playback_session_id state).
Definition ipc_agm_get_hw_processed_buff_cnt (handle dir : Z) : SYS Z :=
  lift_srv (agm_get_hw_processed_buff_cnt handle dir).
Definition ipc_agm_get_aif_info_list (aif_list : bool) (num_aif_info : Z)
  : SYS (Z * option (list (string * Z) * Z)) :=
  lift_srv (agm_get_aif_info_list aif_list (Some num_aif_info)).
Definition ipc_agm_session_aif_get_tag_module_info (session_id aif_id : Z) (payload : bool) (size : Z)
  : SYS (Z * option (list Z * Z)) :=
  lift_srv (agm_session_aif_get_tag_module_info session_id aif_id (if payload then Some size else None)).
Definition ipc_agm_aif_set_params (aif_id : Z) (payload : list Z) : SYS Z :=
  lift_srv (agm_aif_set_params aif_id payload).
Definition ipc_agm_session_aif_set_params (session_id aif_id : Z) (payload : list Z) : SYS Z :=
  lift_srv (agm_session_aif_set_params session_id aif_id payload).
Definition ipc_agm_session_set_params (session_id : Z) (payload : list Z) : SYS Z :=
  lift_srv (agm_session_set_params session_id payload).
Definition ipc_agm_set_params_with_tag (session_id aif_id tag : Z) (tkv : key_vector) : SYS Z :=
  lift_srv (agm_set_params_with_tag session_id aif_id tag tkv).
Definition ipc_agm_session_open (session_id : Z) : SYS (Z * option Z) :=
  lift_srv (agm_session_open session_id true).
Definition ipc_agm_session_set_config (handle : Z) (session_config : session_config)
    (media_config : media_config) (buffer_config : buffer_config) : SYS Z :=
  lift_srv (agm_session_set_config handle session_config media_config buffer_config).
Definition ipc_agm_session_audio_inf_connect (session_id audio_intf : Z) (state : bool) : SYS Z :=
  lift_srv (agm_session_aif_connect session_id audio_intf state).
Definition ipc_agm_audio_intf_set_media_config (audio_intf : Z) (media_config : media_config) : SYS Z :=
  lift_srv (agm_aif_set_media_config audio_intf (Some media_config)).
Definition ipc_agm_session_register_for_events (session_id : Z) (evt_reg_cfg : event_reg_cfg) : SYS Z :=
  lift_srv (agm_session_register_for_events session_id (Some evt_reg_cfg)).
Definition ipc_agm_session_register_cb (session_id cb event client_data : Z) : SYS Z :=
  lift_srv (agm_session_register_cb session_id cb event client_data).
Definition ipc_agm_session_set_ec_ref (capture_session_id aif_id : Z) (state : bool) : SYS Z :=
  lift_srv (agm_session_set_ec_ref capture_session_id aif_id state).
Definition ipc_agm_session_aif_set_cal (session_id audio_intf : Z) (cal_config : list key_value) : SYS Z :=
  lift_srv (agm_session_aif_set_cal session_id audio_intf cal_config).
Definition ipc_agm_session_eos (handle : Z) : SYS Z := lift_srv (agm_session_eos handle).
Definition ipc_agm_get_session_time (handle : Z) : SYS (Z * option Z) :=
  lift_srv (agm_get_session_time handle true).
Definition ipc_agm_session_get_params (session_id : Z) (payload : list Z) : SYS (Z * list Z) :=
  lift_srv (agm_session_get_params session_id payload).
Definition ipc_agm_get_buffer_timestamp (session_id : Z) : SYS (Z * option Z) :=
  lift_srv (agm_get_buffer_timestamp session_id true).

(** ** BnAgmService::onTransact *)

Inductive transaction :=
  | OPEN | REG_CLIENT | UNREG_CLIENT | SET_MEDIA_CONFIG | INIT | AUDIO_INTF_SET_META
  | SESSION_SET_META | SESSION_AUDIO_INTF_SET_META | SESSION_SET_CONFIG | CLOSE | PREPARE
  | START | STOP | PAUSE | RESUME | CONNECT | READ | WRITE | LOOPBACK | GET_BUFF_CNT
  | GET_AIF_LIST | REG_EVENT | REG_CB | GET_TAG_MODULE_INFO | SESSION_AIF_SET_PARAMS
  | SESSION_SET_PARAMS | SET_PARAMS_WITH_TAG | SET_ECREF | SET_CALIBRATION | EOS
  | GET_SESSION_TIME | GET_PARAMS | BUF_TSTAMP | AIF_SET_PARAMS.

(** The end of most cases: the status is written and 0 returned. *)
Definition reply_status (reply : parcel) (rc : Z) : SYS (Z * parcel) := ret (0, writeInt32 reply rc).

Definition bn_REG_CLIENT (pid : Z) (data reply : parcel) : SYS (Z * parcel) :=
  let! (binder, _) := readStrongBinder data in
  do! agm_register_client pid binder ; ret (0, reply).

Definition bn_UNREG_CLIENT (pid : Z) (data reply : parcel) : SYS (Z * parcel) :=
  let! (binder, _) := readStrongBinder data in
  do! agm_unregister_client pid binder ; ret (0, reply).

Definition bn_OPEN (pid : Z) (data reply : parcel) : SYS (Z * parcel) :=
  let! (session_id, _) := readUint32 data in
  let! (rc, out) := ipc_agm_session_open session_id in
  let handle := default 0 out in
  do! (if nz handle then agm_add_session_obj_handle pid handle else ret tt) ;
  reply_status (writeInt64 reply handle) rc.

(** The payload of [count] bytes the three metadata cases and the three params cases read. *)
Definition read_payload (data : parcel) : SYS (Z * option (list Z)) :=
  let! (count, data) := readUint32 data in
  let! (blob, _) := readBlob count data in
  let! ok := ipc_calloc in
  if negb ok then ret (count, None) else
  let! bn_payload := blob_data count blob in
  ret (count, Some bn_payload).

Definition bn_SESSION_SET_META (data reply : parcel) : SYS (Z * parcel) :=
  let! (session_id, data) := readUint32 data in
  let! (count, payload) := read_payload data in
  let! rc := (match payload with
              | None => ret (- ENOMEM)
              | Some bn_payload => ipc_agm_session_set_metadata session_id count bn_payload
              end) in
  reply_status reply rc.

Definition bn_SESSION_AUDIO_INTF_SET_META (data reply : parcel) : SYS (Z * parcel) :=
  let! (session_id, data) := readUint32 data in
  let! (audio_intf, data) := readUint32 data in
  let! (count, payload) := read_payload data in
  let! rc := (match payload with
              | None => ret (- ENOMEM)
              | Some bn_payload => ipc_agm_session_audio_inf_set_metadata session_id audio_intf count bn_payload
              end) in
  reply_status reply rc.

Definition bn_INIT (data reply : parcel) : SYS (Z * parcel) :=
  let! rc := ipc_agm_init in reply_status reply rc.

Definition bn_GET_BUFF_CNT (data reply : parcel) : SYS (Z * parcel) :=
  let! (handle, data) := readInt64 data in
  let! (dir, _) := readUint32 data in
  let! n := ipc_agm_get_hw_processed_buff_cnt (u64 handle) dir in
  reply_status reply (u32 n).

Definition bn_AUDIO_INTF_SET_META (data reply : parcel) : SYS (Z * parcel) :=
  let! (audio_intf, data) := readUint32 data in
  let! (count, payload) := read_payload data in
  let! rc := (match payload with
              | None => ret (- ENOMEM)
              | Some bn_payload => ipc_agm_audio_intf_set_metadata audio_intf count bn_payload
              end) in
  reply_status reply rc.

Definition bn_LOOPBACK (data reply : parcel) : SYS (Z * parcel) :=
  let! (capture_session_id, data) := readUint32 data in
  let! (playback_session_id, data) := readUint32 data in
  let! (state, _) := readUint32 data in
  let! rc := ipc_agm_session_set_loopback capture_session_id playback_session_id (nz state) in
  reply_status reply rc.

Definition bn_CLOSE (pid : Z) (data reply : parcel) : SYS (Z * parcel) :=
  let! (handle, _) := readInt64 data in
  let! rc := ipc_agm_session_close (u64 handle) in
  do! agm_remove_session_obj_handle pid (u64 handle) ;
  reply_status reply rc.

(** PREPARE, START, STOP, PAUSE, RESUME and EOS. *)
Definition bn_on_handle (call : Z -> SYS Z) (data reply : parcel) : SYS (Z * parcel) :=
  let! (handle, _) := readInt64 data in
  let! rc := call (u64 handle) in
  reply_status reply rc.

Definition bn_CONNECT (data reply : parcel) : SYS (Z * parcel) :=
  let! (session_id, data) := readUint32 data in
  let! (audio_intf, data) := readUint32 data in
  let! (state, _) := readUint32 data in
  let! rc := ipc_agm_session_audio_inf_connect session_id audio_intf (nz state) in
  reply_status reply rc.

(** A structure sent as its size and its bytes. *)
Definition read_struct (size : nat) (data : parcel) : SYS (list Z * parcel) :=
  let! (blob_size, data) := readUint32 data in
  let! (blob, data) := readBlob blob_size data in
  let! b := blob_data blob_size blob in
  ret (fit size b, data).

Definition bn_SET_MEDIA_CONFIG (data reply : parcel) : SYS (Z * parcel) :=
  let! (audio_intf, data) := readUint32 data in
  let! (media_config, _) := read_struct sizeof_media_config data in
  let! rc := ipc_agm_audio_intf_set_media_config audio_intf (media_of media_config) in
  reply_status reply rc.

Definition bn_SESSION_SET_CONFIG (data reply : parcel) : SYS (Z * parcel) :=
  let! (handle, data) := readInt64 data in
  let! (session_config, data) := read_struct sizeof_session_config data in
  let! (media_config, data) := read_struct sizeof_media_config data in
  let! (buffer_config, _) := read_struct sizeof_buffer_config data in
  let! rc := ipc_agm_session_set_config (u64 handle) (session_of session_config) (media_of media_config)
               (buffer_of buffer_config) in
  reply_status reply rc.

(** The buffer is zero but for the bytes the service stored. *)
Definition bn_READ (data reply : parcel) : SYS (Z * parcel) :=
  let! (handle, data) := readInt64 data in
  let! (size, _) := readUint32 data in
  let! ok := ipc_calloc in
  if negb ok then reply_status reply (- ENOMEM) else
  let! (rc, byte_count, stored) := ipc_agm_session_read (u64 handle) size in
  let buf := fit (Z.to_nat size) stored in
  let reply := writeInt32 reply rc in
  if nz (s32 rc) then ret (0, reply) else
  let reply := writeUint32 reply byte_count in
  let! b := blob_of buf byte_count in
  ret (0, writeBlob reply b).

(** Without memory only the status is written, and not the count before it. *)
Definition bn_WRITE (data reply : parcel) : SYS (Z * parcel) :=
  let! (handle, data) := readInt64 data in
  let! (byte_count, data) := readUint32 data in
  let! ok := ipc_calloc in
  if negb ok then reply_status reply (- ENOMEM) else
  let! (blob, _) := readBlob byte_count data in
  let! buf := blob_data byte_count blob in
  let! (rc, byte_count) := ipc_agm_session_write (u64 handle) buf in
  reply_status (writeUint32 reply byte_count) rc.

Definition bn_GET_AIF_LIST (data reply : parcel) : SYS (Z * parcel) :=
  let! (count, data) := readUint32 data in
  if count =? 0 then
    let! (aif_list, _) := readInt64 data in
    let! (rc, out) := ipc_agm_get_aif_info_list (nz aif_list) count in
    reply_status (writeInt32 reply (from_option snd count out)) rc
  else
    let! ok := ipc_calloc in
    if negb ok then ret (- ENOMEM, reply) else
    let! (rc, out) := ipc_agm_get_aif_info_list true count in
    let aif_list_bn := fit (Z.to_nat count * sizeof_aif_info) (from_option (fun o => aifs_bytes o.1) [] out) in
    let total_bytecnt := s32 (from_option snd count out * Z.of_nat sizeof_aif_info) in
    let! b := blob_of aif_list_bn total_bytecnt in
    reply_status (writeBlob reply b) rc.

(** The configuration is not freed. *)
Definition bn_REG_EVENT (data reply : parcel) : SYS (Z * parcel) :=
  let! (session_id, data) := readUint32 data in
  let! (module_instance_id, data) := readUint32 data in
  let! (event_id, data) := readUint32 data in
  let! (payload_size, data) := readUint32 data in
  let! (is_register, data) := readUint32 data in
  let! ok := ipc_calloc in
  if negb ok then ret (- ENOMEM, reply) else
  let! (blob_size, data) := readUint32 data in
  let! (blob, _) := readBlob blob_size data in
  let! b := blob_data blob_size blob in
  let! rc := ipc_agm_session_register_for_events session_id
    (EventRegCfg module_instance_id event_id (fit (Z.to_nat payload_size) b) (is_register mod 256)) in
  reply_status reply rc.

(** [ipc_cb] is registered whatever the client's function is, NULL too. *)
Definition bn_REG_CB (data reply : parcel) : SYS (Z * parcel) :=
  let! cbs := gets y_cbs in
  do! match cbs with
      | None => modify (set_y_cbs (Some []))
      | Some _ => ret tt
      end ;
  let! ok := ipc_calloc in
  if negb ok then ret (- ENOMEM, reply) else
  do! ipc_lock_acquire LClbkList ;
  let! (session_id, data) := readUint32 data in
  let! (cb_func, data) := readRaw sizeof_ptr (ptr_bytes 0) data in
  let! (evnt, data) := readUint32 data in
  let! (client_data, data) := readInt64 data in
  let! (binder, _) := readStrongBinder data in
  let clbk_data_obj := ClbkData session_id binder (ptr_of cb_func) (u64 client_data) in
  do! modify (fun y => set_y_cbs ((fun l => l ++ [clbk_data_obj]) <$> y_cbs y) y) ;
  do! ipc_lock_release LClbkList ;
  let! rc := ipc_agm_session_register_cb session_id addr_ipc_cb evnt (u64 client_data) in
  reply_status reply rc.

Definition bn_GET_TAG_MODULE_INFO (data reply : parcel) : SYS (Z * parcel) :=
  let! (bn_payload, data) := readInt64 data in
  let! (count, data) := readUint32 data in
  let! (pcm_idx, data) := readUint32 data in
  let! (be_idx, _) := readUint32 data in
  if bn_payload =? 0 then
    let! (rc, out) := ipc_agm_session_aif_get_tag_module_info pcm_idx be_idx false count in
    reply_status (writeInt32 reply (from_option snd count out)) rc
  else if nz count then
    let! ok := ipc_calloc in
    if negb ok then ret (- ENOMEM, reply) else
    let! (rc, out) := ipc_agm_session_aif_get_tag_module_info pcm_idx be_idx true count in
    let! b := blob_of (fit (Z.to_nat count) (from_option fst [] out)) (from_option snd count out) in
    reply_status (writeBlob reply b) rc
  else ret (0, reply).

Definition bn_SESSION_AIF_SET_PARAMS (data reply : parcel) : SYS (Z * parcel) :=
  let! (pcm_idx, data) := readUint32 data in
  let! (be_idx, data) := readUint32 data in
  let! (_, payload) := read_payload data in
  match payload with
  | None => ret (- ENOMEM, writeInt32 reply (- ENOMEM))
  | Some bn_payload =>
      let! rc := ipc_agm_session_aif_set_params pcm_idx be_idx bn_payload in reply_status reply rc
  end.

Definition bn_AIF_SET_PARAMS (data reply : parcel) : SYS (Z * parcel) :=
  let! (be_idx, data) := readUint32 data in
  let! (_, payload) := read_payload data in
  match payload with
  | None => ret (- ENOMEM, writeInt32 reply (- ENOMEM))
  | Some bn_payload => let! rc := ipc_agm_aif_set_params be_idx bn_payload in reply_status reply rc
  end.

Definition bn_SESSION_SET_PARAMS (data reply : parcel) : SYS (Z * parcel) :=
  let! (pcm_idx, data) := readUint32 data in
  let! (_, payload) := read_payload data in
  let! rc := (match payload with
              | None => ret (- ENOMEM)
              | Some bn_payload => ipc_agm_session_set_params pcm_idx bn_payload
              end) in
  reply_status reply rc.

Definition sizeof_key_value : Z := 8.

(** The entries of an array of [num] whose bytes were received. *)
Definition kvs_of (num : Z) (b : list Z) : list key_value :=
  decode_kvs (Z.to_nat num) (fit (Z.to_nat (num * sizeof_key_value)) b).

Definition bn_SET_PARAMS_WITH_TAG (data reply : parcel) : SYS (Z * parcel) :=
  let! (pcm_idx, data) := readUint32 data in
  let! (be_idx, data) := readUint32 data in
  let! (tag, data) := readUint32 data in
  let! (num_tkv, data) := readUint32 data in
  let tkv_blob_size := u32 (num_tkv * sizeof_key_value) in
  let! ok := ipc_calloc in
  if negb ok then reply_status reply (- ENOMEM) else
  let! (tkv_blob, _) := readBlob tkv_blob_size data in
  let! b := blob_data tkv_blob_size tkv_blob in
  let! rc := ipc_agm_set_params_with_tag pcm_idx be_idx tag
               (KVec (Z.to_nat num_tkv) (Some (kvs_of num_tkv b))) in
  reply_status reply rc.

Definition bn_SET_ECREF (data reply : parcel) : SYS (Z * parcel) :=
  let! (cap_sess_id, data) := readUint32 data in
  let! (aif_id, data) := readUint32 data in
  let! (state, _) := readUint32 data in
  let! rc := ipc_agm_session_set_ec_ref cap_sess_id aif_id (nz state) in
  reply_status reply rc.

(** The size of the array is kept in 32 bits: if it wraps, the array is shorter
    than [num_ckv] entries, which the service then reads. *)
Definition bn_SET_CALIBRATION (data reply : parcel) : SYS (Z * parcel) :=
  let! (session_id, data) := readUint32 data in
  let! (audio_intf, data) := readUint32 data in
  let! (num_ckv, data) := readUint32 data in
  let ckv_blob_size := u32 (num_ckv * sizeof_key_value) in
  let! ok := ipc_calloc in
  if negb ok then reply_status reply (- ENOMEM) else
  let! (ckv_blob, _) := readBlob ckv_blob_size data in
  let! b := blob_data ckv_blob_size ckv_blob in
  if ckv_blob_size <? num_ckv * sizeof_key_value then crash_with OutOfBounds else
  let! rc := ipc_agm_session_aif_set_cal session_id audio_intf (kvs_of num_ckv b) in
  reply_status reply rc.

Definition bn_GET_SESSION_TIME (data reply : parcel) : SYS (Z * parcel) :=
  let! (handle, data) := readInt64 data in
  let! (ts, _) := readUint64 data in
  let! (rc, out) := ipc_agm_get_session_time (u64 handle) in
  reply_status (writeUint64 reply (default ts out)) rc.

Definition bn_GET_PARAMS (data reply : parcel) : SYS (Z * parcel) :=
  let! (pcm_idx, data) := readUint32 data in
  let! (count, payload) := read_payload data in
  match payload with
  | None => reply_status reply (- ENOMEM)
  | Some bn_payload =>
      let! (rc, bn_payload) := ipc_agm_session_get_params pcm_idx bn_payload in
      let! b := blob_of bn_payload count in
      reply_status (writeBlob reply b) rc
  end.

Definition bn_BUF_TSTAMP (data reply : parcel) : SYS (Z * parcel) :=
  let! (pcm_idx, _) := readUint32 data in
  let! (rc, out) := ipc_agm_get_buffer_timestamp pcm_idx in
  reply_status (writeUint64 reply (default 0 out)) rc.

(** [switch (code)] *)
Definition bn_switch (pid : Z) (code : transaction) (data reply : parcel) : SYS (Z * parcel) :=
  match code with
  | REG_CLIENT => bn_REG_CLIENT pid data reply
  | UNREG_CLIENT => bn_UNREG_CLIENT pid data reply
  | OPEN => bn_OPEN pid data reply
  | SESSION_SET_META => bn_SESSION_SET_META data reply
  | SESSION_AUDIO_INTF_SET_META => bn_SESSION_AUDIO_INTF_SET_META data reply
  | INIT => bn_INIT data reply
  | GET_BUFF_CNT => bn_GET_BUFF_CNT data reply
  | AUDIO_INTF_SET_META => bn_AUDIO_INTF_SET_META data reply
  | LOOPBACK => bn_LOOPBACK data reply
  | CLOSE => bn_CLOSE pid data reply
  | PREPARE => bn_on_handle ipc_agm_session_prepare data reply
  | START => bn_on_handle ipc_agm_session_start data reply
  | STOP => bn_on_handle ipc_agm_session_stop data reply
  | PAUSE => bn_on_handle ipc_agm_session_pause data reply
  | RESUME => bn_on_handle ipc_agm_session_resume data reply
  | CONNECT => bn_CONNECT data reply
  | SET_MEDIA_CONFIG => bn_SET_MEDIA_CONFIG data reply
  | SESSION_SET_CONFIG => bn_SESSION_SET_CONFIG data reply
  | READ => bn_READ data reply
  | WRITE => bn_WRITE data reply
  | GET_AIF_LIST => bn_GET_AIF_LIST data reply
  | REG_EVENT => bn_REG_EVENT data reply
  | REG_CB => bn_REG_CB data reply
  | GET_TAG_MODULE_INFO => bn_GET_TAG_MODULE_INFO data reply
  | SESSION_AIF_SET_PARAMS => bn_SESSION_AIF_SET_PARAMS data reply
  | AIF_SET_PARAMS => bn_AIF_SET_PARAMS data reply
  | SESSION_SET_PARAMS => bn_SESSION_SET_PARAMS data reply
  | SET_PARAMS_WITH_TAG => bn_SET_PARAMS_WITH_TAG data reply
  | SET_ECREF => bn_SET_ECREF data reply
  | SET_CALIBRATION => bn_SET_CALIBRATION data reply
  | EOS => bn_on_handle ipc_agm_session_eos data reply
  | GET_SESSION_TIME => bn_GET_SESSION_TIME data reply
  | GET_PARAMS => bn_GET_PARAMS data reply
  | BUF_TSTAMP => bn_BUF_TSTAMP data reply
  end.

(** [BnAgmService::onTransact]; the result of [checkInterface] is not looked at. *)
Definition onTransact (pid : Z) (code : transaction) (data : parcel) : SYS (Z * parcel) :=
  bn_switch pid code (parcel_check data) parcel_new.
End AgmService.
