(* ===== verification/BpAgmService.v ===== *)
(** * The proxy: BpAgmService (ipc_proxy_server.cpp)

    Each method writes its arguments into a parcel, has the server carry out
    the transaction, and reads the results from the reply.  When [onTransact]
    returns a status that is not 0, Binder delivers no reply: every read finds
    the end of the parcel.  The status of [transact] is not looked at. *)

From S2P Require Export AgmService.
Open Scope Z_scope.
#[export] Set Default Goal Selector "!".

Section BpAgmService.
Context `{Env, Parcel, Binder}.

(** [remote()->transact(code, data, &reply)] *)
Definition transact (code : transaction) (data : parcel) : SYS parcel :=
  let! (st, reply) := onTransact client_pid code data in
  ret (if nz st then parcel_new else reply).

(** [Parcel data; data.writeInterfaceToken(...)] *)
Definition new_data : parcel := writeInterfaceToken parcel_new.

(** [return reply.readInt32()] *)
Definition read_status (reply : parcel) : SYS Z := let! (rc, _) := readInt32 reply in ret rc.

(** The constructor: the object that stands for the client. *)
Definition BpAgmService_new : SYS Z :=
  let! clt_binder := new_object in
  let! _ := transact REG_CLIENT (writeStrongBinder new_data clt_binder) in
  ret clt_binder.

(** The destructor. *)
Definition BpAgmService_delete (clt_binder : Z) : SYS unit :=
  let! _ := transact UNREG_CLIENT (writeStrongBinder new_data clt_binder) in ret tt.

Definition ipc_agm_audio_intf_set_media_config (audio_intf : Z) (media_config : media_config) : SYS Z :=
  let data := writeUint32 new_data audio_intf in
  let data := writeUint32 data (Z.of_nat sizeof_media_config) in
  let data := writeBlob data (media_bytes media_config) in
  let! reply := transact SET_MEDIA_CONFIG data in
  read_status reply.

Definition ipc_agm_session_set_config (handle : Z) (session_config : session_config)
    (media_config : media_config) (buffer_config : buffer_config) : SYS Z :=
  let data := writeInt64 new_data handle in
  let data := writeUint32 data (Z.of_nat sizeof_session_config) in
  let data := writeBlob data (session_bytes session_config) in
  let data := writeUint32 data (Z.of_nat sizeof_media_config) in
  let data := writeBlob data (media_bytes media_config) in
  let data := writeUint32 data (Z.of_nat sizeof_buffer_config) in
  let data := writeBlob data (buffer_bytes buffer_config) in
  let! reply := transact SESSION_SET_CONFIG data in
  read_status reply.

Definition ipc_agm_init : SYS Z :=
  let! reply := transact INIT new_data in read_status reply.

Definition ipc_agm_session_set_loopback (capture_session_id playback_session_id : Z) (state : bool) : SYS Z :=
  let data := writeUint32 new_data capture_session_id in
  let data := writeUint32 data playback_session_id in
  let data := writeRaw data (bool_bytes state) in
  let! reply := transact LOOPBACK data in
  read_status reply.

Definition ipc_agm_audio_intf_set_metadata (audio_intf size : Z) (metadata : list Z) : SYS Z :=
  let data := writeUint32 new_data audio_intf in
  let data := writeUint32 data size in
  let! blob := blob_of metadata size in
  let data := writeBlob data blob in
  let! reply := transact AUDIO_INTF_SET_META data in
  read_status reply.

Definition ipc_agm_session_set_metadata (session_id size : Z) (metadata : list Z) : SYS Z :=
  let data := writeUint32 new_data session_id in
  let data := writeUint32 data size in
  let! blob := blob_of metadata size in
  let data := writeBlob data blob in
  let! reply := transact SESSION_SET_META data in
  read_status reply.

Definition ipc_agm_session_audio_inf_set_metadata (session_id audio_intf size : Z) (metadata : list Z) : SYS Z :=
  let data := writeUint32 new_data session_id in
  let data := writeUint32 data audio_intf in
  let data := writeUint32 data size in
  let! blob := blob_of metadata size in
  let data := writeBlob data blob in
  let! reply := transact SESSION_AUDIO_INTF_SET_META data in
  read_status reply.

(** The status and [*handle]. *)
Definition ipc_agm_session_open (session_id : Z) : SYS (Z * Z) :=
  let data := writeUint32 new_data session_id in
  let! reply := transact OPEN data in
  let! (handle, reply) := readInt64 reply in
  let! rc := read_status reply in
  ret (rc, u64 handle).

(** The methods with a handle only. *)
Definition call_on_handle (code : transaction) (handle : Z) : SYS Z :=
  let data := writeInt64 new_data handle in
  let! reply := transact code data in
  read_status reply.

Definition ipc_agm_session_close (handle : Z) : SYS Z := call_on_handle CLOSE handle.
Definition ipc_agm_session_prepare (handle : Z) : SYS Z := call_on_handle PREPARE handle.
Definition ipc_agm_session_start (handle : Z) : SYS Z := call_on_handle START handle.
Definition ipc_agm_session_stop (handle : Z) : SYS Z := call_on_handle STOP handle.
Definition ipc_agm_session_pause (handle : Z) : SYS Z := call_on_handle PAUSE handle.
Definition ipc_agm_session_resume (handle : Z) : SYS Z := call_on_handle RESUME handle.

Definition ipc_agm_session_audio_inf_connect (session_id audio_intf : Z) (state : bool) : SYS Z :=
  let data := writeUint32 new_data session_id in
  let data := writeUint32 data audio_intf in
  let data := writeRaw data (bool_bytes state) in
  let! reply := transact CONNECT data in
  read_status reply.

(** An [int] returned as a [size_t]. *)
Definition ipc_agm_get_hw_processed_buff_cnt (handle dir : Z) : SYS Z :=
  let data := writeInt64 new_data handle in
  let data := writeUint32 data dir in
  let! reply := transact GET_BUFF_CNT data in
  let! rc := read_status reply in
  ret (size_t_of_int rc).

(** The status, [*count] and the bytes stored in [buff], which has room for
    [count] bytes. *)
Definition ipc_agm_session_read (session_handle count : Z) : SYS (Z * Z * list Z) :=
  let data := writeInt64 new_data session_handle in
  let data := writeUint32 data count in
  let! reply := transact READ data in
  let! (rc, reply) := readInt32 reply in
  if nz rc then ret (rc, count, []) else
  let! (count', reply) := readUint32 reply in
  let! (blob, _) := readBlob count' reply in
  let! b := blob_data count' blob in
  if count <? count' then crash_with OutOfBounds else ret (rc, count', b).

(** The status and [*count]. *)
Definition ipc_agm_session_write (session_handle : Z) (buff : list Z) : SYS (Z * Z) :=
  let count := Z.of_nat (length buff) in
  let data := writeInt64 new_data session_handle in
  let data := writeUint32 data count in
  let! blob := blob_of buff count in
  let data := writeBlob data blob in
  let! reply := transact WRITE data in
  let! (count, reply) := readUint32 reply in
  let! rc := read_status reply in
  ret (rc, count).

(** [aif_list] is the pointer; the status, the entries stored and
    [*num_aif_info]. *)
Definition ipc_agm_get_aif_info_list (aif_list num_aif_info : Z) : SYS (Z * list (string * Z) * Z) :=
  let count := s32 num_aif_info in
  if (aif_list =? 0) && (count =? 0) then
    let data := writeUint32 new_data count in
    let data := writeInt64 data aif_list in
    let! reply := transact GET_AIF_LIST data in
    let! (num, reply) := readInt32 reply in
    let! rc := read_status reply in
    ret (rc, [], u64 num)
  else if nz aif_list && nz count then
    let total_bytecnt := u32 (count * Z.of_nat sizeof_aif_info) in
    let data := writeUint32 new_data count in
    let data := writeInt64 data aif_list in
    let! reply := transact GET_AIF_LIST data in
    let! (blob, reply) := readBlob total_bytecnt reply in
    let! b := blob_data total_bytecnt blob in
    let! rc := read_status reply in
    ret (rc, aifs_of (Z.to_nat (total_bytecnt / Z.of_nat sizeof_aif_info)) b, num_aif_info)
  else ret (- EINVAL, [], num_aif_info).

Definition ipc_agm_session_register_for_events (session_id : Z) (evt_reg_cfg : event_reg_cfg) : SYS Z :=
  let param_size := u32 (Z.of_nat (length (er_payload evt_reg_cfg))) in
  let data := writeUint32 new_data session_id in
  let data := writeUint32 data (er_module_instance_id evt_reg_cfg) in
  let data := writeUint32 data (er_event_id evt_reg_cfg) in
  let data := writeUint32 data param_size in
  let data := writeUint32 data (er_is_register evt_reg_cfg) in
  let data := writeUint32 data param_size in
  let! blob := blob_of (er_payload evt_reg_cfg) param_size in
  let data := writeBlob data blob in
  let! reply := transact REG_EVENT data in
  read_status reply.

Definition ipc_agm_session_register_cb (session_id cb event client_data : Z) : SYS Z :=
  let data := writeUint32 new_data session_id in
  let data := writeRaw data (ptr_bytes cb) in
  let data := writeUint32 data event in
  let data := writeInt64 data client_data in
  let! binder := new_object in
  let data := writeStrongBinder data binder in
  let! reply := transact REG_CB data in
  read_status reply.

(** [payload] is the pointer; the status, the bytes stored and [*size]. *)
Definition ipc_agm_session_aif_get_tag_module_info (session_id aif_id payload size : Z)
  : SYS (Z * list Z * Z) :=
  let count := s32 size in
  let data := writeInt64 new_data payload in
  let data := writeUint32 data count in
  let data := writeUint32 data session_id in
  let data := writeUint32 data aif_id in
  if payload =? 0 then
    let! reply := transact GET_TAG_MODULE_INFO data in
    let! (size, reply) := readInt32 reply in
    let! rc := read_status reply in
    ret (rc, [], u64 size)
  else if nz count then
    let! reply := transact GET_TAG_MODULE_INFO data in
    let! (blob, reply) := readBlob (u64 count) reply in
    let! b := blob_data (u64 count) blob in
    let! rc := read_status reply in
    ret (rc, b, size)
  else ret (- EINVAL, [], size).

Definition ipc_agm_session_aif_set_params (session_id aif_id : Z) (payload : list Z) : SYS Z :=
  let count := Z.of_nat (length payload) in
  let data := writeUint32 new_data session_id in
  let data := writeUint32 data aif_id in
  let data := writeUint32 data count in
  let! blob := blob_of payload count in
  let data := writeBlob data blob in
  let! reply := transact SESSION_AIF_SET_PARAMS data in
  read_status reply.

Definition ipc_agm_aif_set_params (aif_id : Z) (payload : list Z) : SYS Z :=
  let count := Z.of_nat (length payload) in
  let data := writeUint32 new_data aif_id in
  let data := writeUint32 data count in
  let! blob := blob_of payload count in
  let data := writeBlob data blob in
  let! reply := transact AIF_SET_PARAMS data in
  read_status reply.

Definition ipc_agm_session_set_params (session_id : Z) (payload : list Z) : SYS Z :=
  let count := Z.of_nat (length payload) in
  let data := writeUint32 new_data session_id in
  let data := writeUint32 data count in
  let! blob := blob_of payload count in
  let data := writeBlob data blob in
  let! reply := transact SESSION_SET_PARAMS data in
  read_status reply.

(** The bytes of an array of [num] key values, from its pointer. *)
Definition kv_blob (num : Z) (kvs : option (list key_value)) : SYS (list Z) :=
  let size := u32 (sizeof_key_value * num) in
  match kvs with
  | None => if size =? 0 then ret [] else crash_with NullDeref
  | Some l => blob_of (enc_kvs l) size
  end.

Definition ipc_agm_set_params_with_tag (session_id aif_id tag : Z) (tkv : key_vector) : SYS Z :=
  let num_tkvs := Z.of_nat (num_kvs tkv) in
  let data := writeUint32 new_data session_id in
  let data := writeUint32 data aif_id in
  let data := writeUint32 data tag in
  let data := writeUint32 data num_tkvs in
  let! tkv_blob := kv_blob num_tkvs (kv tkv) in
  let data := writeBlob data tkv_blob in
  let! reply := transact SET_PARAMS_WITH_TAG data in
  read_status reply.

Definition ipc_agm_session_eos (handle : Z) : SYS Z := call_on_handle EOS handle.

(** The status and [*timestamp]. *)
Definition ipc_agm_get_session_time (handle timestamp : Z) : SYS (Z * Z) :=
  let data := writeInt64 new_data handle in
  let data := writeUint64 data timestamp in
  let! reply := transact GET_SESSION_TIME data in
  let! (ts, reply) := readUint64 reply in
  let! rc := read_status reply in
  ret (rc, ts).

Definition ipc_agm_session_set_ec_ref (capture_session_id aif_id : Z) (state : bool) : SYS Z :=
  let data := writeUint32 new_data capture_session_id in
  let data := writeUint32 data aif_id in
  let data := writeRaw data (bool_bytes state) in
  let! reply := transact SET_ECREF data in
  read_status reply.

Definition ipc_agm_session_aif_set_cal (session_id audio_intf : Z) (cal_config : list key_value) : SYS Z :=
  let num_ckvs := Z.of_nat (length cal_config) in
  let data := writeUint32 new_data session_id in
  let data := writeUint32 data audio_intf in
  let data := writeUint32 data num_ckvs in
  let! ckv_blob := kv_blob num_ckvs (Some cal_config) in
  let data := writeBlob data ckv_blob in
  let! reply := transact SET_CALIBRATION data in
  read_status reply.

(** The status and the payload. *)
Definition ipc_agm_session_get_params (session_id : Z) (payload : list Z) : SYS (Z * list Z) :=
  let count := Z.of_nat (length payload) in
  let data := writeUint32 new_data session_id in
  let data := writeUint32 data count in
  let! blob := blob_of payload count in
  let data := writeBlob data blob in
  let! reply := transact GET_PARAMS data in
  let! (blob, reply) := readBlob count reply in
  let! payload := blob_data count blob in
  let! rc := read_status reply in
  ret (rc, payload).

Definition ipc_agm_get_buffer_timestamp (session_id : Z) : SYS (Z * Z) :=
  let data := writeUint32 new_data session_id in
  let! reply := transact BUF_TSTAMP data in
  let! (ts, reply) := readUint64 reply in
  let! rc := read_status reply in
  ret (rc, ts).
End BpAgmService.
