(* ===== verification/AgmClient.v ===== *)
(** * The client library of the Binder connection (agm_client_wrapper.cpp)

    The client interface of agm_api.h in the client's process: each function
    finds the service ([get_agm_server] makes the proxy, which registers the
    client) and calls its method, unless the server has died. *)

From S2P Require Export BpAgmService.
Open Scope Z_scope.
#[export] Set Default Goal Selector "!".

Section AgmClient.
Context `{Env, Parcel, Binder}.

(** [interface_cast] of the NULL the service manager returns is NULL, and
    [linkToDeath] is called on it. *)
Definition get_agm_server : SYS unit :=
  let! agm_client := gets y_client in
  match agm_client with
  | Some _ => ret tt
  | None =>
      if bn_found then
        let! clt_binder := BpAgmService_new in
        modify (set_y_client (Some clt_binder))
      else crash_with NullDeref
  end.

(** [server_death_notifier::binderDied] *)
Definition server_died : SYS unit := modify (set_y_server_died true).

(** [if (!agm_server_died) { ... }]; [dead] is what is returned otherwise. *)
Definition if_alive {A} (dead : A) (body : SYS A) : SYS A :=
  let! agm_server_died := gets y_server_died in
  if agm_server_died : bool then ret dead else do! get_agm_server ; body.

Definition agm_init : SYS Z := ret 0.
Definition agm_deinit : SYS Z := ret 0.

Definition agm_aif_set_media_config (audio_intf : Z) (media_config : media_config) : SYS Z :=
  if_alive (- EAGAIN) (ipc_agm_audio_intf_set_media_config audio_intf media_config).
Definition agm_session_set_config (handle : Z) (session_config : session_config)
    (media_config : media_config) (buffer_config : buffer_config) : SYS Z :=
  if_alive (- EAGAIN) (ipc_agm_session_set_config handle session_config media_config buffer_config).
Definition agm_aif_set_metadata (audio_intf size : Z) (metadata : list Z) : SYS Z :=
  if_alive (- EAGAIN) (ipc_agm_audio_intf_set_metadata audio_intf size metadata).
Definition agm_session_set_metadata (session_id size : Z) (metadata : list Z) : SYS Z :=
  if_alive (- EAGAIN) (ipc_agm_session_set_metadata session_id size metadata).
Definition agm_session_aif_set_metadata (session_id audio_intf size : Z) (metadata : list Z) : SYS Z :=
  if_alive (- EAGAIN) (ipc_agm_session_audio_inf_set_metadata session_id audio_intf size metadata).
Definition agm_session_close (handle : Z) : SYS Z :=
  if_alive (- EAGAIN) (ipc_agm_session_close handle).
Definition agm_session_prepare (handle : Z) : SYS Z :=
  if_alive (- EAGAIN) (ipc_agm_session_prepare handle).
Definition agm_session_start (handle : Z) : SYS Z :=
  if_alive (- EAGAIN) (ipc_agm_session_start handle).
Definition agm_session_stop (handle : Z) : SYS Z :=
  if_alive (- EAGAIN) (ipc_agm_session_stop handle).
Definition agm_session_pause (handle : Z) : SYS Z :=
  if_alive (- EAGAIN) (ipc_agm_session_pause handle).
Definition agm_session_resume (handle : Z) : SYS Z :=
  if_alive (- EAGAIN) (ipc_agm_session_resume handle).
Definition agm_session_aif_connect (session_id audio_intf : Z) (state : bool) : SYS Z :=
  if_alive (- EAGAIN) (ipc_agm_session_audio_inf_connect session_id audio_intf state).
Definition agm_session_set_loopback (capture_session_id playback_session_id : Z) (state : bool) : SYS Z :=
  if_alive (- EAGAIN) (ipc_agm_session_set_loopback capture_session_id playback_session_id state).
Definition agm_aif_set_params (aif_id : Z) (payload : list Z) : SYS Z :=
  if_alive (- EAGAIN) (ipc_agm_aif_set_params aif_id payload).
Definition agm_session_aif_set_params (session_id aif_id : Z) (payload : list Z) : SYS Z :=
  if_alive (- EAGAIN) (ipc_agm_session_aif_set_params session_id aif_id payload).
Definition agm_session_set_params (session_id : Z) (payload : list Z) : SYS Z :=
  if_alive (- EAGAIN) (ipc_agm_session_set_params session_id payload).
Definition agm_set_params_with_tag (session_id aif_id tag : Z) (tkv : key_vector) : SYS Z :=
  if_alive (- EAGAIN) (ipc_agm_set_params_with_tag session_id aif_id tag tkv).
Definition agm_session_register_for_events (session_id : Z) (evt_reg_cfg : event_reg_cfg) : SYS Z :=
  if_alive (- EAGAIN) (ipc_agm_session_register_for_events session_id evt_reg_cfg).
Definition agm_session_register_cb (session_id cb event client_data : Z) : SYS Z :=
  if_alive (- EAGAIN) (ipc_agm_session_register_cb session_id cb event client_data).
Definition agm_session_set_ec_ref (capture_session_id aif_id : Z) (state : bool) : SYS Z :=
  if_alive (- EAGAIN) (ipc_agm_session_set_ec_ref capture_session_id aif_id state).
Definition agm_session_aif_set_cal (session_id aif_id : Z) (cal_config : list key_value) : SYS Z :=
  if_alive (- EAGAIN) (ipc_agm_session_aif_set_cal session_id aif_id cal_config).
Definition agm_session_eos (handle : Z) : SYS Z :=
  if_alive (- EAGAIN) (ipc_agm_session_eos handle).

(** The results that are stored through pointers come with the status; the
    caller's values stay when nothing is called. *)
Definition agm_session_open (session_id handle : Z) : SYS (Z * Z) :=
  if_alive (- EAGAIN, handle) (ipc_agm_session_open session_id).
Definition agm_session_read (handle byte_count : Z) : SYS (Z * Z * list Z) :=
  if_alive (- EAGAIN, byte_count, [])
    (if handle =? 0 then ret (- EINVAL, byte_count, []) else ipc_agm_session_read handle byte_count).
Definition agm_session_write (handle : Z) (buf : list Z) : SYS (Z * Z) :=
  if_alive (- EAGAIN, Z.of_nat (length buf))
    (if handle =? 0 then ret (- EINVAL, Z.of_nat (length buf)) else ipc_agm_session_write handle buf).
Definition agm_get_hw_processed_buff_cnt (handle dir : Z) : SYS Z :=
  if_alive (size_t_of_int (- EAGAIN)) (ipc_agm_get_hw_processed_buff_cnt handle dir).
Definition agm_get_aif_info_list (aif_list num_aif_info : Z) : SYS (Z * list (string * Z) * Z) :=
  if_alive (- EAGAIN, [], num_aif_info) (ipc_agm_get_aif_info_list aif_list num_aif_info).
Definition agm_session_aif_get_tag_module_info (session_id aif_id payload size : Z) : SYS (Z * list Z * Z) :=
  if_alive (- EAGAIN, [], size) (ipc_agm_session_aif_get_tag_module_info session_id aif_id payload size).
Definition agm_get_session_time (handle timestamp : Z) : SYS (Z * Z) :=
  if_alive (- EAGAIN, timestamp) (ipc_agm_get_session_time handle timestamp).
Definition agm_session_get_params (session_id : Z) (payload : list Z) : SYS (Z * list Z) :=
  if_alive (- EAGAIN, payload) (ipc_agm_session_get_params session_id payload).
Definition agm_get_buffer_timestamp (session_id timestamp : Z) : SYS (Z * Z) :=
  if_alive (- EAGAIN, timestamp) (ipc_agm_get_buffer_timestamp session_id).
End AgmClient.
