(* ===== verification/AgmCalls.v ===== *)
(** * The calls of agm_api.h that go to another process

    [call A B] is a call with the results of the service, [A], and those its
    client gets, [B]; [direct] is the call of the service itself. *)

From S2P Require Export Agm.
Open Scope Z_scope.
#[export] Set Default Goal Selector "!".

Inductive call : Type -> Type -> Type :=
  | SetMediaConfig (audio_intf : Z) (cfg : media_config) : call Z Z
  | SetConfig (handle : Z) (s : session_config) (m : media_config) (b : buffer_config) : call Z Z
  | AifSetMetadata (audio_intf : Z) (metadata : list Z) : call Z Z
  | SetMetadata (session_id : Z) (metadata : list Z) : call Z Z
  | SessionAifSetMetadata (session_id audio_intf : Z) (metadata : list Z) : call Z Z
  | Prepare (handle : Z) : call Z Z
  | Start (handle : Z) : call Z Z
  | Stop (handle : Z) : call Z Z
  | Pause (handle : Z) : call Z Z
  | Resume (handle : Z) : call Z Z
  | Eos (handle : Z) : call Z Z
  | Connect (session_id audio_intf : Z) (state : bool) : call Z Z
  | Loopback (capture_id playback_id : Z) (state : bool) : call Z Z
  | EcRef (capture_id aif_id : Z) (state : bool) : call Z Z
  | AifSetParams (aif_id : Z) (payload : list Z) : call Z Z
  | SessionAifSetParams (session_id aif_id : Z) (payload : list Z) : call Z Z
  | SetParams (session_id : Z) (payload : list Z) : call Z Z
  | SetParamsWithTag (session_id aif_id tag : Z) (kvs : list key_value) : call Z Z
  | SetCal (session_id aif_id : Z) (cal : list key_value) : call Z Z
  | RegisterForEvents (session_id : Z) (cfg : event_reg_cfg) : call Z Z
  | GetBuffCnt (handle dir : Z) : call Z Z
  | Open (session_id : Z) : call (Z * option Z) (Z * Z)
  | Close (handle : Z) : call Z Z
  | Read (handle count : Z) : call (Z * Z * list Z) (Z * Z * list Z)
  | Write (handle : Z) (buff : list Z) : call (Z * Z) (Z * Z)
  | AifCount : call (Z * option (list (string * Z) * Z)) (Z * list (string * Z) * Z)
  | AifList (ptr num : Z) : call (Z * option (list (string * Z) * Z)) (Z * list (string * Z) * Z)
  | TagInfoSize (session_id aif_id size : Z) : call (Z * option (list Z * Z)) (Z * list Z * Z)
  | TagInfo (session_id aif_id ptr size : Z) : call (Z * option (list Z * Z)) (Z * list Z * Z)
  | SessionTime (handle timestamp : Z) : call (Z * option Z) (Z * Z)
  | GetParams (session_id : Z) (payload : list Z) : call (Z * list Z) (Z * list Z)
  | BufTimestamp (session_id timestamp : Z) : call (Z * option Z) (Z * Z).

Section Direct.
Context `{Env}.

(** The call of the service itself. *)
Definition direct {A B} (c : call A B) : AGM A :=
  match c with
  | SetMediaConfig i cfg => agm_aif_set_media_config i (Some cfg)
  | SetConfig h s m b => agm_session_set_config h s m b
  | AifSetMetadata i b => agm_aif_set_metadata i (Z.of_nat (length b)) b
  | SetMetadata i b => agm_session_set_metadata i (Z.of_nat (length b)) b
  | SessionAifSetMetadata i a b => agm_session_aif_set_metadata i a (Z.of_nat (length b)) b
  | Prepare h => agm_session_prepare h
  | Start h => agm_session_start h
  | Stop h => agm_session_stop h
  | Pause h => agm_session_pause h
  | Resume h => agm_session_resume h
  | Eos h => agm_session_eos h
  | Connect i a st => agm_session_aif_connect i a st
  | Loopback i j st => agm_session_set_loopback i j st
  | EcRef i a st => agm_session_set_ec_ref i a st
  | AifSetParams a p => agm_aif_set_params a p
  | SessionAifSetParams i a p => agm_session_aif_set_params i a p
  | SetParams i p => agm_session_set_params i p
  | SetParamsWithTag i a t l => agm_set_params_with_tag i a t (KVec (length l) (Some l))
  | SetCal i a l => agm_session_aif_set_cal i a l
  | RegisterForEvents i cfg => agm_session_register_for_events i (Some cfg)
  | GetBuffCnt h d => agm_get_hw_processed_buff_cnt h d
  | Open i => agm_session_open i true
  | Close h => agm_session_close h
  | Read h n => agm_session_read h n
  | Write h b => agm_session_write h b
  | AifCount => agm_get_aif_info_list false (Some 0)
  | AifList _ n => agm_get_aif_info_list true (Some n)
  | TagInfoSize i a _ => agm_session_aif_get_tag_module_info i a None
  | TagInfo i a _ n => agm_session_aif_get_tag_module_info i a (Some n)
  | SessionTime h _ => agm_get_session_time h true
  | GetParams i p => agm_session_get_params i p
  | BufTimestamp i _ => agm_get_buffer_timestamp i true
  end.

(** The sessions are closed one after the other, whatever the statuses. *)
Fixpoint close_all (hs : list Z) : AGM unit :=
  match hs with
  | [] => ret tt
  | h :: hs => let! _ := agm_session_close h in close_all hs
  end.

Lemma close_all_app a b w : close_all (a ++ b) w = (do! close_all a ; close_all b) w.
Proof.
  revert w. induction a as [|h a IH]; intros w; [done|]. cbn [app close_all]. unfold bind in *.
  destruct (agm_session_close h w); [by rewrite IH|done].
Qed.

(** A successful open stores a handle. *)
Lemma open_stores i w r o w' : agm_session_open i true w = Ret (r, o) w' -> nz r = false -> exists h, o = Some h /\ h <> 0.
Proof.
  intros E Hr.
  assert (Hw : wlp (session_obj_open i) (fun a _ => nz a.1 = false -> is_Some a.2) w).
  { unfold session_obj_open. apply wpg_bind. unfold session_obj_get. apply wpg_bind, wlp_any. intros [j|] ?; apply wpg_ret.
    2: { apply wpg_ret. by cbn. }
    change (nz 0) with false. cbv iota. unfold locked, with_lock. apply wpg_bind, wlp_any. intros _ ?.
    apply wpg_bind. eapply wpg_mono with (Q := fun a _ => nz a.1 = false -> is_Some a.2).
    2: { intros [r1 o1] w1 Ha. apply wpg_bind, wlp_any. intros _ ?. by apply wpg_ret. }
    repeat first
      [ match goal with |- wlp (if ?b then _ else _) _ _ => destruct b eqn:? end
      | apply wpg_ret; cbn; first [done | congruence]
      | apply wpg_bind, wlp_any; intros ? ? ]. }
  unfold agm_session_open, bind, ret in E. cbn [negb] in E. unfold wpg in Hw.
  destruct (session_obj_open i w) as [[r' k] w1|]; [|done]. injection E as <- <- <-. cbn in Hw.
  destruct (Hw Hr) as [k' ->]. exists (handle_of k'). split; [done|]. unfold handle_of. lia.
Qed.
End Direct.
