(* ===== verification/Service.v ===== *)
(** * The service as a whole

    What every call of the service keeps, whatever its arguments and whatever
    the code around it answers: the identity of sessions, of their interfaces and of
    the devices, that no two sessions have one graph, and that every mutex is given
    back.  [svc_step] relates the state before and after; [svc_ok] is the invariant. *)

From S2P Require Export SessionProps.
Open Scope Z_scope.
#[export] Set Default Goal Selector "!".

(** ** What does not change *)

Definition dev_same (d d' : device_obj) : Prop :=
  dev_name d' = dev_name d /\ dev_card_id d' = dev_card_id d /\ dev_pcm_id d' = dev_pcm_id d /\
  dev_pcm_flags d' = dev_pcm_flags d /\ dev_hw_ep d' = dev_hw_ep d.
Definition devs_same (l l' : list (option device_obj)) : Prop :=
  forall k d, l !! k = Some (Some d) -> exists d', l' !! k = Some (Some d') /\ dev_same d d'.

Definition aif_same (a a' : aif) : Prop := aif_id a' = aif_id a /\ aif_dev a' = aif_dev a.
Definition aifs_grow (l l' : list aif) : Prop :=
  forall j a, l !! j = Some a -> exists a', l' !! j = Some a' /\ aif_same a a'.
Definition pool_grows (p p' : list session_obj) : Prop :=
  forall i s, p !! i = Some s ->
    exists s', p' !! i = Some s' /\ ses_id s' = ses_id s /\ aifs_grow (ses_aifs s) (ses_aifs s').

(** ** The invariant *)

(** An interface with a device has that of its number, which is there. *)
Definition aif_ok (w : world) (a : aif) : Prop :=
  forall k, aif_dev a = Some k -> k = Z.to_nat (u32 (aif_id a)) /\ live_slot (w_devs w) k.
Definition aifs_distinct (l : list aif) : Prop :=
  forall j k a b, l !! j = Some a -> l !! k = Some b -> is_Some (aif_dev a) -> is_Some (aif_dev b) ->
    aif_id a = aif_id b -> j = k.
Definition aifs_ok (w : world) (l : list aif) : Prop := Forall (aif_ok w) l /\ aifs_distinct l.

(** A graph belongs to one session. *)
Definition graphs_owned (n : nat) (p : list session_obj) : Prop :=
  (forall i s g, p !! i = Some s -> ses_graph s = Some g -> (g < n)%nat) /\
  (forall i j s t g, p !! i = Some s -> p !! j = Some t -> ses_graph s = Some g -> ses_graph t = Some g -> i = j).

Definition svc_ok (w : world) : Prop :=
  forall p, w_pool w = Some p ->
    pool_ok p /\ Forall (fun s => aifs_ok w (ses_aifs s)) p /\ graphs_owned (length (w_graphs w)) p.

Definition not_dev (l : lock) : Prop := match l with LDev _ => False | _ => True end.

Record svc_step (w w' : world) : Prop := SvcStep {
  sv_num : w_num_intfs w' = w_num_intfs w;
  sv_init : w_agm_initialized w' = w_agm_initialized w;
  sv_devs : devs_same (w_devs w) (w_devs w');
  sv_graphs : (length (w_graphs w) <= length (w_graphs w'))%nat;
  sv_held : Forall not_dev (w_held w) -> w_held w' = w_held w;
  sv_pool : forall p, w_pool w = Some p -> exists p', w_pool w' = Some p' /\ pool_grows p p';
  sv_ok : svc_ok w -> svc_ok w'
}.

(** ** The preorders *)

Lemma devs_same_refl l : devs_same l l.
Proof. intros k d Hd. by exists d. Qed.
Lemma devs_same_trans l1 l2 l3 : devs_same l1 l2 -> devs_same l2 l3 -> devs_same l1 l3.
Proof.
  intros H1 H2 k d Hd. destruct (H1 k d Hd) as (d2 & Hd2 & E1). destruct (H2 k d2 Hd2) as (d3 & Hd3 & E2).
  exists d3. split; [done|]. unfold dev_same in *. intuition congruence.
Qed.

Lemma aifs_grow_refl l : aifs_grow l l.
Proof. intros j a Ha. by exists a. Qed.
Lemma aifs_grow_trans l1 l2 l3 : aifs_grow l1 l2 -> aifs_grow l2 l3 -> aifs_grow l1 l3.
Proof.
  intros H1 H2 j a Ha. destruct (H1 j a Ha) as (a2 & Ha2 & E1). destruct (H2 j a2 Ha2) as (a3 & Ha3 & E2).
  exists a3. split; [done|]. unfold aif_same in *. intuition congruence.
Qed.

Lemma pool_grows_refl p : pool_grows p p.
Proof. intros i s Hs. exists s. split_and!; [done..|apply aifs_grow_refl]. Qed.
Lemma pool_grows_trans p1 p2 p3 : pool_grows p1 p2 -> pool_grows p2 p3 -> pool_grows p1 p3.
Proof.
  intros H1 H2 i s Hs. destruct (H1 i s Hs) as (s2 & Hs2 & E1 & A1). destruct (H2 i s2 Hs2) as (s3 & Hs3 & E2 & A2).
  exists s3. split; [done|]. split; [congruence|by eapply aifs_grow_trans].
Qed.

#[export] Instance pool_grows_preorder : PreOrder pool_grows.
Proof. split; [intros p; apply pool_grows_refl|intros p1 p2 p3; apply pool_grows_trans]. Qed.

#[export] Instance svc_step_preorder : PreOrder svc_step.
Proof.
  split.
  - intros w. split; try done; [apply devs_same_refl|]. intros p Hp. exists p. split; [done|apply pool_grows_refl].
  - intros w1 w2 w3 [A1 A2 A3 A4 A5 A6 A7] [B1 B2 B3 B4 B5 B6 B7]. split; try congruence.
    + by eapply devs_same_trans.
    + lia.
    + intros Hd. rewrite <- (A5 Hd) in Hd |- *. by apply B5.
    + intros p Hp. destruct (A6 p Hp) as (p2 & Hp2 & G1). destruct (B6 p2 Hp2) as (p3 & Hp3 & G2).
      exists p3. split; [done|by eapply pool_grows_trans].
    + auto.
Qed.

(** ** How the invariant survives *)

Lemma live_same l l' k : devs_same l l' -> live_slot l k -> live_slot l' k.
Proof. intros Hs [d Hd]. destruct (Hs k d Hd) as (d' & Hd' & _). by exists d'. Qed.

Lemma aifs_ok_same w w' l : devs_same (w_devs w) (w_devs w') -> aifs_ok w l -> aifs_ok w' l.
Proof.
  intros Hd [Hl Hn]. split; [|done]. eapply Forall_impl; [exact Hl|]. intros a Ha k Hk.
  destruct (Ha k Hk). split; [done|]. by eapply live_same.
Qed.

(** Devices and graphs may change, the pool stays. *)
Lemma svc_ok_same w w' :
  devs_same (w_devs w) (w_devs w') -> (length (w_graphs w) <= length (w_graphs w'))%nat -> w_pool w' = w_pool w ->
  svc_ok w -> svc_ok w'.
Proof.
  intros Hd Hg Hp Hok p Hp'. rewrite Hp in Hp'. destruct (Hok p Hp') as (H1 & H2 & H3 & H4). split; [done|]. split.
  - eapply Forall_impl; [exact H2|]. intros s. by apply aifs_ok_same.
  - split; [|done]. intros i s g Hs Hgr. pose proof (H3 i s g Hs Hgr). lia.
Qed.

(** Work on a graph. *)
Lemma svc_step_graph g w w' : graph_frame g w w' -> svc_step w w'.
Proof.
  intros [E1 E2 _ E3 _ E4 E5 E6 _ _ _].
  assert (Hd : devs_same (w_devs w) (w_devs w')) by (rewrite E1; apply devs_same_refl).
  split; try done.
  - intros p Hp. exists p. split; [congruence|apply pool_grows_refl].
  - by apply svc_ok_same.
Qed.

(** ** Steps *)

Section Rules.
Context `{Env}.
#[local] Abbreviation V := (Steps svc_step).

(** What the invariant looks at. *)
Definition svc_view (w : world) :=
  (w_num_intfs w, w_agm_initialized w, w_devs w, w_graphs w, w_held w, w_pool w).

Lemma V_keeps {A} (m : AGM A) : Keeps svc_view m -> V m.
Proof.
  intros Hk w a w' Hr. pose proof (Hk w a w' Hr) as E. unfold svc_view in E. injection E as E1 E2 E3 E4 E5 E6.
  split; try congruence.
  - rewrite E3. apply devs_same_refl.
  - rewrite E4. lia.
  - intros p Hp. exists p. split; [congruence|apply pool_grows_refl].
  - apply svc_ok_same; [rewrite E3; apply devs_same_refl|rewrite E4; lia|done].
Qed.

Lemma V_ext c : V (ext c).
Proof. apply V_keeps, Keeps_ext. reflexivity. Qed.

Lemma V_graph g {A} (m : AGM A) : Steps (graph_frame g) m -> V m.
Proof. intros Hm w a w' Hr. eapply svc_step_graph. by eapply Hm. Qed.

Lemma V_upd_dev k f : (forall d, dev_same d (f d)) -> V (upd_dev k f).
Proof.
  intros Hf w a w'. unfold upd_dev, bind, read_dev, cell. destruct (w_devs w !! k) as [[d|]|] eqn:E; [|done..].
  intros [= _ <-].
  assert (Hd : devs_same (w_devs w) (<[k := Some (f d)]> (w_devs w))).
  { intros j e Hj. destruct (decide (k = j)) as [<-|Hne].
    - exists (f d). rewrite list_lookup_insert_eq by (by eapply lookup_lt_Some). split; [done|].
      replace e with d by congruence. apply Hf.
    - exists e. by rewrite list_lookup_insert_ne. }
  split; try done.
  - intros p Hp. exists p. split; [done|apply pool_grows_refl].
  - by apply svc_ok_same.
Qed.

(** A mutex that is not of a device, around steps. *)
Lemma V_with_lock {A} l (body : AGM A) : not_dev l -> V body -> V (with_lock l body).
Proof.
  intros Hl Hb w a w'. unfold with_lock, mutex_lock at 1, bind at 1. case_bool_decide as Hn; [done|].
  set (w1 := set_w_held _ _). unfold bind at 1. destruct (body w1) as [r w2|] eqn:E; [|done].
  destruct (Hb _ _ _ E) as [S1 S2 S3 S4 S5 S6 S7]. unfold mutex_unlock, bind, ret.
  assert (Hh : Forall not_dev (w_held w) -> w_held w2 = l :: w_held w).
  { intros Hd. apply S5. by constructor. }
  assert (Hgo : forall h b, (Forall not_dev (w_held w) -> h = w_held w) -> svc_step w (set_w_held h (set_w_bad_unlock b w2)))
    by (intros h b Hhb; by split).
  case_bool_decide as Hin; intros [= _ <-].
  - apply (Hgo _ (w_bad_unlock w2)). intros Hd. rewrite (Hh Hd). by apply remove_lock_head.
  - apply (Hgo (w_held w2) _). intros Hd. destruct Hin. rewrite (Hh Hd). by left.
Qed.

(** Releasing a mutex of a device that was not taken. *)
Lemma V_unlock_dev k : V (mutex_unlock (LDev k)).
Proof.
  intros w a w'. unfold mutex_unlock. intros Hr.
  assert (E : exists h b, w' = set_w_held h (set_w_bad_unlock b w) /\ (LDev k ∉ w_held w -> h = w_held w)).
  { case_bool_decide as Hin; injection Hr as <-.
    - exists (remove lock_eq_dec (LDev k) (w_held w)), (w_bad_unlock w). by destruct w.
    - exists (w_held w), (LDev k :: w_bad_unlock w). by destruct w. }
  destruct E as (h & b & -> & Hh). split; try done.
  - apply devs_same_refl.
  - intros Hd. apply Hh. intros Hin. rewrite Forall_forall in Hd. exact (Hd _ Hin).
  - intros p Hp. exists p. split; [done|apply pool_grows_refl].
Qed.

(** A critical section of a device's mutex. *)
Lemma Keeps_held_with_lock {A} l (body : AGM A) : Keeps w_held body -> Keeps w_held (with_lock l body).
Proof.
  intros Hb w a w'. unfold with_lock, mutex_lock at 1, bind at 1. case_bool_decide as Hn; [done|].
  set (w1 := set_w_held _ _). unfold bind at 1. destruct (body w1) as [r w2|] eqn:E; [|done].
  pose proof (Hb _ _ _ E) as Hh. unfold mutex_unlock, bind, ret. rewrite Hh. cbn.
  rewrite bool_decide_true by (by left). intros [= _ <-]. by apply remove_lock_head.
Qed.
End Rules.

(** ** Changes of a session *)

(** What an update may do to a session: with [n] graphs so far, it may also get the one with
    number [n]. *)
Record sess_change (w : world) (fresh : nat -> Prop) (s s' : session_obj) : Prop := SessChange {
  sc_id : ses_id s' = ses_id s;
  sc_aifs : aifs_grow (ses_aifs s) (ses_aifs s');
  sc_ok : aifs_ok w (ses_aifs s) -> aifs_ok w (ses_aifs s');
  sc_graph : ses_graph s' = ses_graph s \/ ses_graph s' = None \/ exists g, ses_graph s' = Some g /\ fresh g
}.

Lemma graphs_owned_insert w n p i s s' (fresh : nat -> Prop) :
  p !! i = Some s -> sess_change w fresh s s' ->
  (forall g, fresh g -> (g < n)%nat /\ forall j t, p !! j = Some t -> ses_graph t <> Some g) ->
  graphs_owned n p -> graphs_owned n (<[i := s']> p).
Proof.
  intros Hi [_ _ _ Hg] Hf [H1 H2].
  assert (Hown : forall g, ses_graph s' = Some g ->
    (g < n)%nat /\ forall j t, j <> i -> p !! j = Some t -> ses_graph t <> Some g).
  { intros g Hg'. destruct Hg as [E|[E|(g' & E & Hfr)]].
    - rewrite E in Hg'. split; [by eapply H1|]. intros j t Hne Ht Htg. by apply Hne, (H2 _ _ _ _ _ Ht Hi Htg).
    - congruence.
    - replace g with g' by congruence. destruct (Hf g' Hfr) as [Hlt Hno]. split; [done|]. intros j t _. apply Hno. }
  split.
  - intros j t g. intros [(<- & <- & _)|[Hne Hj]]%list_lookup_insert_Some Htg; [by apply Hown|by eapply H1].
  - intros j k t u g [(<- & <- & _)|[Hj Ht]]%list_lookup_insert_Some [(<- & <- & _)|[Hk Hu]]%list_lookup_insert_Some Gt Gu.
    + done.
    + exfalso. apply (proj2 (Hown g Gt) k u); done.
    + exfalso. apply (proj2 (Hown g Gu) j t); done.
    + by eapply H2.
Qed.

Lemma pool_ids_insert p i s s' : p !! i = Some s -> ses_id s' = ses_id s -> pool_ok p -> pool_ok (<[i := s']> p).
Proof.
  intros Hi Hid Hp. unfold pool_ok in *. rewrite list_fmap_insert, list_insert_id; [done|].
  by rewrite list_lookup_fmap, Hi, Hid.
Qed.

(** The pool with one session changed, [w0] being a state before: with respect to it the
    graph is new. *)
Lemma svc_step_sess w0 w p i s s' fresh :
  svc_step w0 w -> w_pool w = Some p -> p !! i = Some s -> sess_change w fresh s s' ->
  (forall g, fresh g -> (g < length (w_graphs w))%nat /\
     (svc_ok w0 -> forall j t, p !! j = Some t -> ses_graph t <> Some g)) ->
  svc_step w0 (set_w_pool (Some (<[i := s']> p)) w).
Proof.
  intros [S1 S2 S3 S4 S5 S6 S7] Hp Hi Hc Hf. split; try done.
  - intros q0 Hq. destruct (S6 q0 Hq) as (q & Eq & Hg). replace q with p in Hg by congruence.
    eexists. split; [done|]. etransitivity; [exact Hg|]. intros j t Hj.
    destruct (decide (i = j)) as [<-|Hne].
    + exists s'. rewrite list_lookup_insert_eq by (by eapply lookup_lt_Some). replace t with s by congruence.
      by destruct Hc.
    + exists t. rewrite list_lookup_insert_ne by done. split_and!; [done..|apply aifs_grow_refl].
  - intros Hok q [= <-]. destruct (S7 Hok p Hp) as (H1 & H2 & H3). split; [|split].
    + eapply pool_ids_insert; [done|apply Hc|done].
    + apply Forall_insert; [done|]. apply Hc. by apply (Forall_lookup_1 _ _ _ _ H2 Hi).
    + eapply graphs_owned_insert; [done|done| |done]. intros g Hg. destruct (Hf g Hg) as [Hlt Hno]. split; [exact Hlt|by apply Hno].
Qed.

Lemma sess_change_keep w s s' :
  ses_id s' = ses_id s -> ses_aifs s' = ses_aifs s -> ses_graph s' = ses_graph s \/ ses_graph s' = None ->
  sess_change w (fun _ => False) s s'.
Proof. intros E1 E2 E3. split; [done|rewrite E2; apply aifs_grow_refl|by rewrite E2|tauto]. Qed.

(** One interface changed, but neither its id nor its device. *)
Lemma aifs_grow_insert l j a a' : l !! j = Some a -> aif_same a a' -> aifs_grow l (<[j := a']> l).
Proof.
  intros Hj Ha k b Hb. destruct (decide (j = k)) as [<-|Hne].
  - exists a'. rewrite list_lookup_insert_eq by (by eapply lookup_lt_Some). by replace b with a by congruence.
  - exists b. by rewrite list_lookup_insert_ne.
Qed.

Lemma aifs_ok_insert w l j a a' : l !! j = Some a -> aif_same a a' -> aifs_ok w l -> aifs_ok w (<[j := a']> l).
Proof.
  intros Hj [Hid Hdev] [Hl Hn]. split.
  - apply Forall_insert; [done|]. intros k. rewrite Hdev, Hid. apply (Forall_lookup_1 _ _ _ _ Hl Hj).
  - assert (Hback : forall k b, <[j := a']> l !! k = Some b ->
      exists c, l !! k = Some c /\ aif_id b = aif_id c /\ aif_dev b = aif_dev c).
    { intros k b [(<- & <- & _)|[Hne Hk]]%list_lookup_insert_Some; [by exists a|by exists b]. }
    intros k1 k2 b1 b2 (c1 & Hc1 & E1 & D1)%Hback (c2 & Hc2 & E2 & D2)%Hback. rewrite E1, D1, E2, D2. by apply Hn.
Qed.

Section SessionRules.
Context `{Env}.
#[local] Abbreviation V := (Steps svc_step).

Lemma V_upd_sess i f :
  (forall s, ses_id (f s) = ses_id s /\ ses_aifs (f s) = ses_aifs s /\
     (ses_graph (f s) = ses_graph s \/ ses_graph (f s) = None)) -> V (upd_sess i f).
Proof.
  intros Hf w a w'. unfold upd_sess, read_pool, bind, gets. destruct (w_pool w) as [p|] eqn:Hp; [|done]. cbn [the].
  unfold ret. destruct (p !! i) as [s|] eqn:Hi; [|done]. intros [= _ <-].
  destruct (Hf s) as (E1 & E2 & E3). eapply svc_step_sess; [reflexivity|done|done|by apply sess_change_keep|done].
Qed.

Lemma V_upd_aif i j f : (forall a, aif_same a (f a)) -> V (upd_aif i j f).
Proof.
  intros Hf w a w'. unfold upd_aif, upd_sess, read_sess, read_pool, bind, gets.
  destruct (w_pool w) as [p|] eqn:Hp; [|done]. cbn [the]. unfold ret. destruct (p !! i) as [s|] eqn:Hi; [|done]. cbn [the].
  unfold ret. destruct (ses_aifs s !! j) as [x|] eqn:Hj; [|done]. cbn [the]. unfold ret. rewrite Hp. cbn [the]. unfold ret.
  rewrite Hi. intros [= _ <-]. eapply (svc_step_sess _ _ _ _ _ _ (fun _ => False)); [reflexivity|done|done| |done].
  split; [done|by eapply aifs_grow_insert|by eapply aifs_ok_insert|by left].
Qed.
End SessionRules.
