(* ===== verification/ServiceSteps.v ===== *)
(** * Every operation of the service is a step *)

From S2P Require Export Service.
Open Scope Z_scope.
#[export] Set Default Goal Selector "!".

#[export] Hint Resolve V_unlock_dev : steps.
#[export] Hint Extern 1 (Steps svc_step (with_lock _ _)) => (apply V_with_lock; [exact I|solve [steps_tac]]) : steps.
#[export] Hint Extern 1 (Steps svc_step (upd_dev _ _)) =>
  (apply V_upd_dev; intros; unfold dev_same; split_and!; reflexivity) : steps.
#[export] Hint Extern 1 (Steps svc_step (upd_aif _ _ _)) => (apply V_upd_aif; intros; split; reflexivity) : steps.
#[export] Hint Extern 1 (Steps svc_step (upd_sess _ _)) =>
  (apply V_upd_sess; intros; split_and!; [reflexivity|reflexivity|first [left; reflexivity|right; reflexivity]]) : steps.
#[export] Hint Extern 3 (Steps svc_step _) =>
  (match goal with |- @Steps _ _ _ (ext ?c) => exact (V_ext c) end) : steps.
#[export] Hint Extern 4 (Steps svc_step _) => (apply V_keeps; solve [keeps_tac]) : steps.

Section Devices.
Context `{Env}.
#[local] Abbreviation V := (Steps svc_step).

(** *** Metadata *)

Lemma V_merge_copy acc ms : V (merge_copy acc ms).
Proof.
  revert acc. induction ms as [|m ms IH]; intros acc; cbn [merge_copy]; [steps_tac|].
  destruct acc as [[[g c] i] p]. unfold memcpy_from. steps_tac.
Qed.
#[local] Hint Resolve V_merge_copy : steps.
Lemma V_metadata_merge l : V (metadata_merge l).
Proof. unfold metadata_merge. steps_tac. Qed.
Lemma V_read_bytes b o n : V (read_bytes b o n).
Proof. unfold read_bytes. steps_tac. Qed.
#[local] Hint Resolve V_read_bytes : steps.
Lemma V_metadata_copy d n b : V (metadata_copy d n b).
Proof. unfold metadata_copy, read_u32. steps_tac. Qed.
Lemma V_update_cal l m : V (metadata_update_cal l m).
Proof. unfold metadata_update_cal. steps_tac. Qed.
#[local] Hint Resolve V_metadata_merge V_metadata_copy V_update_cal : steps.

(** *** Devices *)

Lemma V_sysfs a b : V (update_sysfs_fd a b).
Proof. unfold update_sysfs_fd. steps_tac. Qed.
#[local] Hint Resolve V_sysfs : steps.

(** The critical section of a device operation, as the code writes it. *)
Lemma dev_section {A B} l (m : AGM A) (k : A -> AGM B) w :
  (do! mutex_lock l ; let! a := m in let! r := k a in do! mutex_unlock l ; ret r) w =
  with_lock l (let! a := m in k a) w.
Proof. unfold with_lock, bind. destruct (mutex_lock l w) as [? w1|]; [|done]. by destruct (m w1). Qed.

(** It is a step when what it does is one that leaves the mutexes alone. *)
Lemma V_dev_section {A B} k (m : AGM A) (f : A -> AGM B) :
  V m -> (forall a, V (f a)) -> Keeps w_held m -> (forall a, Keeps w_held (f a)) ->
  V (do! mutex_lock (LDev k) ; let! a := m in let! r := f a in do! mutex_unlock (LDev k) ; ret r).
Proof.
  intros Hm Hf Km Kf w a w' Hr. rewrite dev_section in Hr.
  assert (Hb : V (let! a := m in f a)) by steps_tac.
  assert (Kb : Keeps w_held (let! a := m in f a)) by (by apply Keeps_bind).
  pose proof (Keeps_held_with_lock (LDev k) _ Kb w a w' Hr) as Hh.
  unfold with_lock, mutex_lock at 1, bind at 1 in Hr. case_bool_decide as Hn; [done|].
  unfold bind at 1 in Hr. set (w1 := set_w_held _ _) in Hr. fold (bind m f) in Hr.
  destruct (bind m f w1) as [r w2|] eqn:E; [|done]. destruct (Hb w1 r w2 E) as [S1 S2 S3 S4 S5 S6 S7].
  assert (E' : exists h b, w' = set_w_held h (set_w_bad_unlock b w2)).
  { unfold mutex_unlock, bind, ret in Hr. case_bool_decide; injection Hr as _ <-;
      [by eexists _, (w_bad_unlock w2)|by eexists (w_held w2), _]. }
  destruct E' as (h & b & ->). by split.
Qed.

(** The type of an answer hides the primitive from the hint for it. *)
#[local] Hint Extern 3 (Keeps w_held _) =>
  (match goal with |- @Keeps _ _ _ _ (ext ?c) => refine (Keeps_ext w_held c _); reflexivity end) : keeps.

Lemma Keeps_held_sysfs a b : Keeps w_held (update_sysfs_fd a b).
Proof. unfold update_sysfs_fd. keeps_tac. Qed.
#[local] Hint Resolve Keeps_held_sysfs : keeps.

Lemma Steps_ext {A} (R : world -> world -> Prop) (m m' : AGM A) : (forall w, m w = m' w) -> Steps R m' -> Steps R m.
Proof. intros He Hm w a w'. rewrite He. apply Hm. Qed.

Ltac dev_op := intros [k|]; [|steps_tac]; apply V_dev_section; [steps_tac|steps_tac|keeps_tac|keeps_tac].

Lemma V_device_open o : V (device_open o).
Proof. unfold device_open. revert o. dev_op. Qed.
Lemma V_device_prepare o : V (device_prepare o).
Proof. unfold device_prepare. revert o. dev_op. Qed.
Lemma V_device_start o : V (device_start o).
Proof. unfold device_start. revert o. dev_op. Qed.
Lemma V_device_stop o : V (device_stop o).
Proof. unfold device_stop. revert o. dev_op. Qed.
Lemma V_device_close o : V (device_close o).
Proof.
  destruct o as [k|]; [|unfold device_close; steps_tac].
  eapply Steps_ext; [|eapply (V_dev_section k (read_dev k) (fun d =>
    let open := rc_open (dev_refcnt d) - 1 in
    do! upd_dev k (upd_refcnt (set_rc_open open)) ;
    (if open =? 0 then
       do! update_sysfs_fd (dev_pcm_id d) DEVICE_DISABLE ;
       let! r := ext (PcmClose (dev_pcm d)) in
       do! upd_dev k (fun d =>
             upd_refcnt (fun c => set_rc_start 0 (set_rc_prepare 0 c))
               (set_dev_state DEV_CLOSED d)) ;
       ret r
     else ret 0))); [steps_tac|steps_tac|keeps_tac|intros; cbv zeta; keeps_tac]].
  intros w. unfold device_close. cbv zeta. unfold bind. destruct (mutex_lock _ _) as [[] w1|]; [|done].
  destruct (read_dev k w1) as [d w2|]; [|done]. by destruct (upd_dev _ _ w2).
Qed.

Lemma V_device_get_obj id : V (device_get_obj id).
Proof. unfold device_get_obj. steps_tac. Qed.
Lemma V_device_get_aif_info_list n : V (device_get_aif_info_list n).
Proof.
  unfold device_get_aif_info_list. apply Steps_bind; [apply _|steps_tac|intros num]. destruct (n =? 0); [steps_tac|].
  apply Steps_bind; [apply _| |steps_tac]. generalize (seq 0 (Z.to_nat (Z.min num (u32 n)))).
  intros l. induction l as [|i l IH]; steps_tac.
Qed.
Lemma V_device_set_media_config o c : V (device_set_media_config o c).
Proof. unfold device_set_media_config. steps_tac. Qed.
Lemma V_device_set_metadata o n b : V (device_set_metadata o n b).
Proof. unfold device_set_metadata. steps_tac. Qed.
Lemma V_device_set_params o b : V (device_set_params o b).
Proof. unfold device_set_params. steps_tac. Qed.
End Devices.

#[export] Hint Resolve V_metadata_merge V_metadata_copy V_update_cal V_device_open V_device_prepare V_device_start
  V_device_stop V_device_close V_device_get_obj V_device_get_aif_info_list V_device_set_media_config
  V_device_set_metadata V_device_set_params : steps.

(** *** Graphs: the frame of [GraphSpec] *)

Section Graphs.
Context `{Env}.
#[local] Abbreviation V := (Steps svc_step).

Ltac graph_op := intros o; intros; destruct o as [g|];
  [eapply (V_graph g); auto with steps | apply Steps_ret; apply _].

Lemma V_graph_prepare o : V (graph_prepare o).
Proof. revert o. graph_op. Qed.
Lemma V_graph_start o : V (graph_start o).
Proof. revert o. graph_op. Qed.
Lemma V_graph_stop o m : V (graph_stop o m).
Proof. revert m. revert o. graph_op. Qed.
Lemma V_graph_close o : V (graph_close o).
Proof. revert o. graph_op. Qed.
Lemma V_graph_pause_resume o b : V (graph_pause_resume o b).
Proof. revert b. revert o. graph_op. Qed.
Lemma V_graph_set_config o p : V (graph_set_config o p).
Proof. revert p. revert o. graph_op. Qed.
Lemma V_graph_get_config o p : V (graph_get_config o p).
Proof. revert p. revert o. graph_op. Qed.
Lemma V_graph_set_config_with_tag o v t k : V (graph_set_config_with_tag o v t k).
Proof. revert v t k. revert o. graph_op. Qed.
Lemma V_graph_set_cal o m : V (graph_set_cal o m).
Proof. revert m. revert o. graph_op. Qed.
Lemma V_graph_add o m d : V (graph_add o m d).
Proof. revert m d. revert o. graph_op. Qed.
Lemma V_graph_change o m d : V (graph_change o m d).
Proof. revert m d. revert o. graph_op. Qed.
Lemma V_graph_remove o m : V (graph_remove o m).
Proof. revert m. revert o. graph_op. Qed.
Lemma V_graph_write o b : V (graph_write o b).
Proof. revert b. revert o. graph_op. Qed.
Lemma V_graph_read o n : V (graph_read o n).
Proof. revert n. revert o. graph_op. Qed.
Lemma V_graph_eos o : V (graph_eos o).
Proof. revert o. graph_op. Qed.
Lemma V_graph_get_session_time o : V (graph_get_session_time o).
Proof. revert o. graph_op. Qed.
Lemma V_graph_get_buffer_timestamp o : V (graph_get_buffer_timestamp o).
Proof. revert o. graph_op. Qed.
Lemma V_graph_register_cb o b d : V (graph_register_cb o b d).
Proof. revert b d. revert o. graph_op. Qed.
Lemma V_graph_register_for_events o c : V (graph_register_for_events o c).
Proof. revert c. revert o. graph_op. Qed.
Lemma V_graph_get_buf_info o i k : V (graph_get_buf_info o i k).
Proof.
  destruct o as [g|]; [eapply (V_graph g); auto with steps|]. by intros w a w'.
Qed.
Lemma V_graph_get_tags v n : V (graph_get_tags_with_module_info v n).
Proof. unfold graph_get_tags_with_module_info, read_kvs, memcpy_from. steps_tac. Qed.
End Graphs.

#[export] Hint Resolve V_graph_prepare V_graph_start V_graph_stop V_graph_close V_graph_pause_resume V_graph_set_config
  V_graph_get_config V_graph_set_config_with_tag V_graph_set_cal V_graph_add V_graph_change V_graph_remove
  V_graph_write V_graph_read V_graph_eos V_graph_get_session_time V_graph_get_buffer_timestamp V_graph_register_cb
  V_graph_register_for_events V_graph_get_buf_info V_graph_get_tags : steps.

(** *** Sessions *)

Section Sessions.
Context `{Env}.
#[local] Abbreviation V := (Steps svc_step).

Lemma V_get_from_pool id : V (session_obj_get_from_pool id).
Proof.
  unfold session_obj_get_from_pool. apply V_with_lock; [exact I|]. intros w a w'.
  unfold read_pool, bind at 1 2, gets. destruct (w_pool w) as [p|] eqn:Hp; [|done]. cbn [the]. unfold ret at 1.
  destruct (find_session p id) as [i|] eqn:Ef; [by intros [= _ <-]|].
  unfold session_obj_create, calloc, bind, ret, modify. destruct (env_alloc _); cbn [negb]; intros [= _ <-].
  2:{ split; try done; [apply devs_same_refl|]. intros q Hq. exists q. split; [done|apply pool_grows_refl]. }
  assert (Hback : forall j t, (p ++ [session_zero id]) !! j = Some t -> p !! j = Some t \/ t = session_zero id).
  { intros j t [Hj|[_ Hj]]%lookup_app_Some; [by left|]. right. apply list_lookup_singleton_Some in Hj as [_ Hj]. done. }
  split; try done; [apply devs_same_refl| |].
  - intros q Hq. replace q with p by (cbn in Hq; congruence). eexists. split; [done|]. intros j t Hj. exists t.
    split; [by apply lookup_app_l_Some|]. split; [done|apply aifs_grow_refl].
  - intros Hok q [= <-]. destruct (Hok p Hp) as (H1 & H2 & H3 & H4). split; [by apply pool_ok_snoc|]. split.
    + apply Forall_app. split; [exact H2|]. constructor; [|constructor]. split; [constructor|]. by intros j k b1 b2 Hb.
    + split.
      * intros j t g [Hj| ->]%Hback Hg; [by eapply H3|done].
      * intros j k t u g [Hj| ->]%Hback [Hk| ->]%Hback Gt Gu; [by eapply H4|done..].
Qed.
#[local] Hint Resolve V_get_from_pool : steps.
Lemma V_session_obj_get id : V (session_obj_get id).
Proof. unfold session_obj_get. steps_tac. Qed.
Lemma V_retrieve id : V (session_obj_retrieve_from_pool id).
Proof. unfold session_obj_retrieve_from_pool. steps_tac. Qed.
End Sessions.

#[export] Hint Resolve V_session_obj_get V_retrieve : steps.
