(* ===== verification/ServiceSessions.v ===== *)
(** * Every operation on a session is a step of the service *)

From S2P Require Export ServiceSteps.
Open Scope Z_scope.
#[export] Set Default Goal Selector "!".

(** ** Interfaces and metadata *)

Section Interfaces.
Context `{Env}.
#[local] Abbreviation V := (Steps svc_step).

(** A run split at a [bind]. *)
Lemma bind_inv {A B} (m : AGM A) (k : A -> AGM B) w b w' :
  bind m k w = Ret b w' -> exists a w1, m w = Ret a w1 /\ k a w1 = Ret b w'.
Proof. unfold bind. destruct (m w) as [a w1|]; [eauto|done]. Qed.

Lemma read_sess_inv i w s w' :
  read_sess i w = Ret s w' -> w' = w /\ exists p, w_pool w = Some p /\ p !! i = Some s.
Proof.
  unfold read_sess, read_pool, bind, gets. destruct (w_pool w) as [p|]; [|done]. cbn [the]. unfold ret.
  destruct (p !! i) as [t|] eqn:E; [|done]. cbn [the]. intros [= <- <-]. eauto.
Qed.

Lemma device_get_obj_inv id w r o w' :
  device_get_obj id w = Ret (r, o) w' ->
  w' = w /\ forall k, o = Some k -> k = Z.to_nat (u32 id) /\ live_slot (w_devs w) k.
Proof.
  unfold device_get_obj, bind, gets. destruct (w_num_intfs w <? u32 id); [by intros [= _ <- <-]|].
  destruct (w_devs w !! Z.to_nat (u32 id)) as [slot|] eqn:E; [|done]. cbn [the]. intros [= _ <- <-].
  split; [done|]. destruct slot as [d|]; [|done]. intros k [= <-]. split; [done|]. by exists d.
Qed.

(** A new interface is one without a device, or that of a device that is there. *)
Lemma aif_obj_create_spec id w o w' :
  aif_obj_create id w = Ret o w' ->
  svc_step w w' /\ w_pool w' = w_pool w /\
  forall a, o = Some a -> aif_dev a = None \/
    (aif_id a = id /\ exists k, aif_dev a = Some k /\ k = Z.to_nat (u32 id) /\ live_slot (w_devs w') k).
Proof.
  intros Hr. split; [|split].
  - refine ((_ : V (aif_obj_create id)) _ _ _ Hr). unfold aif_obj_create. steps_tac.
  - refine ((_ : Keeps w_pool (aif_obj_create id)) _ _ _ Hr). unfold aif_obj_create, device_get_obj. keeps_tac.
  - intros a ->. unfold aif_obj_create in Hr. apply bind_inv in Hr as (ok & w1 & _ & Hr).
    destruct ok; cbn [negb] in Hr; [|done]. apply bind_inv in Hr as ([r o] & w2 & Hd & Hr).
    apply device_get_obj_inv in Hd as [-> Hd].
    assert (Hz : forall v v' : world, ret (Some aif_zero) v = Ret (Some a) v' -> aif_dev a = None)
      by (by intros v v' [= <- _]).
    destruct o as [k|]; [|left; by eapply Hz]. destruct (nz r); [left; by eapply Hz|].
    inversion Hr; subst. right. split; [done|]. exists k. split; [done|by apply Hd].
Qed.

Lemma aifs_snoc w l a :
  (aif_dev a = None \/ (exists k, aif_dev a = Some k /\ k = Z.to_nat (u32 (aif_id a)) /\ live_slot (w_devs w) k) /\
    forall j b, l !! j = Some b -> aif_id b <> aif_id a) ->
  aifs_ok w l -> aifs_ok w (l ++ [a]).
Proof.
  intros Ha [Hl Hn]. split.
  - apply Forall_app. split; [done|]. constructor; [|constructor]. intros k Hk.
    destruct Ha as [E|[(k' & E & -> & Hlive) _]]; [congruence|]. by replace k with (Z.to_nat (u32 (aif_id a))) by congruence.
  - intros j k b c [Hj|[Hj Ej]]%lookup_app_Some [Hk|[Hk Ek]]%lookup_app_Some Hb Hc Hid.
    + by eapply Hn.
    + apply list_lookup_singleton_Some in Ek as [_ <-]. destruct Ha as [E|[_ Hno]]; [rewrite E in Hc; by destruct Hc|].
      by destruct (Hno j b Hj).
    + apply list_lookup_singleton_Some in Ej as [_ <-]. destruct Ha as [E|[_ Hno]]; [rewrite E in Hb; by destruct Hb|].
      by destruct (Hno k c Hk).
    + apply list_lookup_singleton_Some in Ej as [E1 _], Ek as [E2 _]. lia.
Qed.

Lemma aifs_grow_snoc l a : aifs_grow l (l ++ [a]).
Proof. intros j b Hj. exists b. split; [by apply lookup_app_l_Some|done]. Qed.

Lemma V_aif_obj_get i id : V (aif_obj_get i id).
Proof.
  intros w r w' (found & w1 & Hf & Hk)%bind_inv. apply bind_inv in Hf as (s & w2 & Hs & Hf).
  apply read_sess_inv in Hs as (-> & p & Hp & Hi). injection Hf as <- <-.
  destruct (list_find _ _) as [[j a]|] eqn:Ef; cbn in Hk; [by injection Hk as _ <-|].
  apply bind_inv in Hk as (o & w1 & Ho & Hk). destruct (aif_obj_create_spec _ _ _ _ Ho) as (Hst & Hpool & Ha).
  destruct o as [a|]; [|by injection Hk as _ <-].
  apply bind_inv in Hk as (s' & w2 & Hs & Hk). apply read_sess_inv in Hs as (-> & p' & Hp' & Hi').
  apply bind_inv in Hk as ([] & w2 & Hu & Hk). injection Hk as _ <-.
  assert (p' = p) as -> by congruence. assert (s' = s) as -> by congruence.
  revert Hu. unfold upd_sess, read_pool, bind, gets. rewrite Hp'. cbn [the]. unfold ret. rewrite Hi. intros [= <-].
  eapply (svc_step_sess _ _ _ _ _ _ (fun _ => False)); [done|done|done| |done].
  split; [done|apply aifs_grow_snoc| |by left]. apply aifs_snoc.
  destruct (Ha a eq_refl) as [E|(E & k & Hdev & Hk & Hlive)]; [by left|right]. split; [exists k; by rewrite E|].
  intros j b Hj Hb. rewrite list_find_None in Ef. apply (Forall_lookup_1 _ _ _ _ Ef Hj). congruence.
Qed.

Lemma V_set_aif_state i j st : V (set_aif_state i j st).
Proof. unfold set_aif_state. steps_tac. Qed.
Lemma V_aif_idx i : V (aif_idx i).
Proof. unfold aif_idx. steps_tac. Qed.
Lemma V_count i st b : V (aif_obj_get_count_with_state i st b).
Proof. unfold aif_obj_get_count_with_state. steps_tac. Qed.
Lemma V_aif_dev_meta a : V (aif_dev_meta a).
Proof. unfold aif_dev_meta. steps_tac. Qed.
#[local] Hint Resolve V_aif_dev_meta : steps.
Lemma V_merge_loop args l t : (forall t a, V (args t a)) -> V (merge_loop args l t).
Proof. intros Ha. revert t. induction l as [|a l IH]; intros t; cbn [merge_loop]; steps_tac. Qed.
Lemma V_merged i : V (session_get_merged_metadata i).
Proof.
  unfold session_get_merged_metadata. apply Steps_bind; [apply _|steps_tac|intros s]. apply V_merge_loop. steps_tac.
Qed.
Lemma V_merged_without i : V (session_get_merged_metadata_without_aif i).
Proof.
  unfold session_get_merged_metadata_without_aif. apply Steps_bind; [apply _|steps_tac|intros s]. apply V_merge_loop.
  steps_tac.
Qed.
Lemma V_merge_sess_aif i j : V (merge_sess_aif i j).
Proof. unfold merge_sess_aif. steps_tac. Qed.
End Interfaces.

#[export] Hint Resolve V_aif_obj_get V_set_aif_state V_aif_idx V_count V_aif_dev_meta V_merged V_merged_without
  V_merge_sess_aif : steps.

(** ** Opening a graph *)

Section Opening.
Context `{Env}.
#[local] Abbreviation V := (Steps svc_step).

Lemma new_graph_frame go w : graph_frame (length (w_graphs w)) w (set_w_graphs (w_graphs w ++ [Some go]) w).
Proof.
  split; try done; [cbn; rewrite length_app; lia| |by exists []|by exists []]. intros h Hh. cbn.
  destruct (decide (h < length (w_graphs w))%nat); [by rewrite lookup_app_l|].
  rewrite !lookup_ge_None_2; [done|lia|rewrite length_app; cbn; lia].
Qed.

(** What [graph_open] stores is the number of a graph that was not there. *)
Lemma graph_open_fresh m sess dev w r o w' :
  graph_open m sess dev w = Ret (r, o) w' ->
  svc_step w w' /\ w_pool w' = w_pool w /\
  forall g, o = Some g -> g = length (w_graphs w) /\ (g < length (w_graphs w'))%nat.
Proof.
  set (g0 := length (w_graphs w)).
  assert (Hend : forall w1, graph_frame g0 w w1 -> svc_step w w1 /\ w_pool w1 = w_pool w)
    by (intros w1 Hf; split; [by eapply svc_step_graph|by apply gf_pool in Hf]).
  enough (Hgo : wlp (graph_open m sess dev) (fun a w1 => graph_frame g0 w w1 /\
    forall g, a.2 = Some g -> g = g0 /\ (g < length (w_graphs w1))%nat) w).
  { intros Hr. destruct (wlp_run _ _ _ _ _ Hgo Hr) as [Hf Hg]. destruct (Hend _ Hf). split_and!; [done..|exact Hg]. }
  unfold graph_open. destruct m as [m|]; [|by apply wpg_ret].
  apply wpg_bind, wpg_calloc. intros ok _. destruct ok; cbn [negb].
  2:{ apply wpg_ret. split; [|done]. by split; try done; exists []. }
  apply wpg_bind. set (w0 := set_w_allocs _ w). unfold wpg at 1, new_graph. change (length (w_graphs w0)) with g0.
  assert (Hf1 : graph_frame g0 w (set_w_graphs (w_graphs w0 ++ [Some graph_zero]) w0)).
  { etransitivity; [|apply (new_graph_frame graph_zero w0)]. by split; try done; exists []. }
  assert (Hlen : (g0 < length (w_graphs (set_w_graphs (w_graphs w0 ++ [Some graph_zero]) w0)))%nat)
    by (cbn; rewrite length_app; cbn; unfold g0; lia).
  revert Hf1 Hlen. generalize (set_w_graphs (w_graphs w0 ++ [Some graph_zero]) w0). intros w1 Hf1 Hlen.
  apply (wpg_frame (graph_frame g0)).
  { pose proof (F_add_to_list g0). pose proof (F_get_tags g0). pose proof (F_tag_loop g0). steps_tac. }
  eapply (wpg_mono _ _ (fun a _ => a.2 = None \/ a.2 = Some g0)).
  2:{ intros a w2 Ha Hf2. split; [by etransitivity|]. intros g Hg. split; [destruct Ha; congruence|].
      destruct Ha as [Ha|Ha]; [congruence|]. replace g with g0 by congruence. apply gf_len in Hf2. lia. }
  repeat first [apply wlp_any; intros; cbn; auto; fail
    | apply wpg_bind, wlp_any; intros ? ? | case_match | progress cbv zeta
    | apply wpg_ret; cbn; auto; fail].
Qed.
End Opening.

(** ** Connecting *)

Section Connecting.
Context `{Env}.
#[local] Abbreviation V := (Steps svc_step).

(** The graph that [graph_open] gives becomes that of the session. *)
Lemma V_open_store i m sess dev :
  V (let! (r, opened) := graph_open m sess dev in
     do! (match opened with Some g => upd_sess i (set_ses_graph (Some g)) | None => ret tt end) ; ret r).
Proof.
  intros w r w' ([r1 o] & w1 & Ho & Hk)%bind_inv. destruct (graph_open_fresh _ _ _ _ _ _ _ Ho) as (Hst & Hpool & Hg).
  apply bind_inv in Hk as ([] & w2 & Hu & Hk). injection Hk as _ <-. destruct o as [g|]; [|by injection Hu as <-].
  destruct (Hg g eq_refl) as [Eg Hlt]. revert Hu. unfold upd_sess, read_pool, bind, gets.
  destruct (w_pool w1) as [p|] eqn:Hp; [|done]. cbn [the]. unfold ret. destruct (p !! i) as [s|] eqn:Hi; [|done].
  intros [= <-]. eapply (svc_step_sess _ _ _ _ _ _ (fun h => h = g)); [done|done|done| |].
  - split; [done|apply aifs_grow_refl|done|]. right. right. by exists g.
  - intros h ->. split; [done|]. intros Hok j t Hj Hgr. destruct (Hok p) as (_ & _ & Hown & _); [congruence|].
    pose proof (Hown j t g Hj Hgr). lia.
Qed.

Lemma bind_assoc {A B C} (m : AGM A) (k : A -> AGM B) (h : B -> AGM C) w :
  bind (bind m k) h w = bind m (fun a => bind (k a) h) w.
Proof. unfold bind. by destruct (m w). Qed.

Lemma V_open_then {B} i m sess dev (k : Z -> AGM B) :
  (forall r, V (k r)) ->
  V (let! (r, opened) := graph_open m sess dev in
     do! (match opened with Some g => upd_sess i (set_ses_graph (Some g)) | None => ret tt end) ; k r).
Proof.
  intros Hk. eapply Steps_ext; [|apply Steps_bind; [apply _|apply (V_open_store i m sess dev)|exact Hk]].
  intros w. rewrite bind_assoc. unfold bind. destruct (graph_open m sess dev w) as [[r o] w1|]; [|done].
  destruct o; [|done]. by destruct (upd_sess _ _ w1).
Qed.

Lemma V_add_or_remove i m b : V (add_or_remove i m b).
Proof. unfold add_or_remove. steps_tac. Qed.
#[local] Hint Resolve V_add_or_remove : steps.
Lemma V_set_loopback i id b : V (session_set_loopback i id b).
Proof. unfold session_set_loopback. steps_tac. Qed.
Lemma V_set_ec_ref i id b : V (session_set_ec_ref i id b).
Proof. unfold session_set_ec_ref. steps_tac. Qed.
Lemma V_disconnect i j n : V (session_disconnect_aif i j n).
Proof. unfold session_disconnect_aif. steps_tac. Qed.

Lemma V_call_clients id ev cbs : V (call_clients id ev cbs).
Proof. induction cbs as [|c cbs IH]; cbn [call_clients]; steps_tac. Qed.
#[local] Hint Resolve V_call_clients : steps.
Lemma V_graph_event_cb ev d : V (graph_event_cb ev d).
Proof. unfold graph_event_cb. steps_tac. Qed.

Lemma V_connect_graph i dev m n : V (connect_graph i dev m n).
Proof.
  unfold connect_graph. apply Steps_bind; [apply _|steps_tac|intros s].
  destruct (n =? 0); [|steps_tac]. case_bool_decide; [|steps_tac].
  apply V_open_then. steps_tac.
Qed.
#[local] Hint Resolve V_connect_graph : steps.
Lemma V_set_stream_params i : V (set_stream_params i).
Proof. unfold set_stream_params. steps_tac. Qed.
Lemma V_set_aif_cached_params i j : V (set_aif_cached_params i j).
Proof. unfold set_aif_cached_params. steps_tac. Qed.
Lemma V_set_dev_cached_params i j : V (set_dev_cached_params i j).
Proof. unfold set_dev_cached_params. steps_tac. Qed.
#[local] Hint Resolve V_set_stream_params V_set_aif_cached_params V_set_dev_cached_params : steps.
Lemma V_set_cached_params i j : V (set_cached_params i j).
Proof. unfold set_cached_params. steps_tac. Qed.
#[local] Hint Resolve V_set_cached_params : steps.
Lemma V_connect_aif i j n : V (session_connect_aif i j n).
Proof. unfold session_connect_aif. steps_tac. Qed.
#[local] Hint Resolve V_connect_aif V_disconnect : steps.
Lemma V_open_first i : V (session_open_with_first_device i).
Proof. unfold session_open_with_first_device. steps_tac. Qed.
Lemma V_connect_rest i ix n : V (connect_rest i ix n).
Proof. revert n. induction ix as [|j ix IH]; intros n; cbn [connect_rest]; steps_tac. Qed.
#[local] Hint Resolve V_connect_rest : steps.
Lemma V_reminder i : V (session_connect_reminder_devices i).
Proof. unfold session_connect_reminder_devices. steps_tac. Qed.
End Connecting.

#[export] Hint Resolve V_set_loopback V_set_ec_ref V_disconnect V_graph_event_cb V_connect_aif V_open_first
  V_reminder : steps.

(** ** The state machine of a session *)

Section Machine.
Context `{Env}.
#[local] Abbreviation V := (Steps svc_step).

Lemma V_prepare_graph i d : V (prepare_graph i d).
Proof. unfold prepare_graph. steps_tac. Qed.
Lemma V_prepare_aif i j : V (prepare_aif i j).
Proof. unfold prepare_aif. steps_tac. Qed.
#[local] Hint Resolve V_prepare_graph V_prepare_aif : steps.
Lemma V_session_prepare i : V (session_prepare i).
Proof. unfold session_prepare. steps_tac. Qed.
Lemma V_start_capture i : V (start_capture i).
Proof. unfold start_capture. steps_tac. Qed.
Lemma V_start_aif i j : V (start_aif i j).
Proof. unfold start_aif. steps_tac. Qed.
Lemma V_start_unwind i : V (start_unwind i).
Proof. unfold start_unwind. steps_tac. Qed.
#[local] Hint Resolve V_start_capture V_start_aif V_start_unwind : steps.
Lemma V_session_start i : V (session_start i).
Proof. unfold session_start. steps_tac. Qed.
Lemma V_stop_aif i j r : V (stop_aif i j r).
Proof. unfold stop_aif. steps_tac. Qed.
Lemma V_close_aif i j r : V (close_aif i j r).
Proof. unfold close_aif. steps_tac. Qed.
#[local] Hint Resolve V_stop_aif V_close_aif : steps.
Lemma V_session_stop i : V (session_stop i).
Proof. unfold session_stop. steps_tac. Qed.
Lemma V_session_close i : V (session_close i).
Proof. unfold session_close. steps_tac. Qed.
End Machine.

#[export] Hint Resolve V_session_prepare V_session_start V_session_stop V_session_close : steps.
