(* ===== verification/ServiceCalls.v ===== *)
(** * The calls of the service, in any order

    [api_op] is a call of a client, or an event that GSL reports; [serves] relates a
    state of the initialized service to what any sequence of them leaves. *)

From stdpp Require Import relations.
From S2P Require Export ServiceSessions AgmCalls.
Open Scope Z_scope.
#[export] Set Default Goal Selector "!".

(** ** Operations under the session mutex *)

Section Operations.
Context `{Env}.
#[local] Abbreviation V := (Steps svc_step).

Ltac op := unfold locked, unless_closed, with_aif; steps_tac.

Lemma V_so_set_sess_metadata i n b : V (session_obj_set_sess_metadata i n b).
Proof. unfold session_obj_set_sess_metadata. op. Qed.
Lemma V_so_set_sess_params i b : V (session_obj_set_sess_params i b).
Proof. unfold session_obj_set_sess_params. op. Qed.
Lemma V_so_set_sess_aif_params i a b : V (session_obj_set_sess_aif_params i a b).
Proof. unfold session_obj_set_sess_aif_params. op. Qed.
Lemma V_so_set_sess_aif_params_with_tag i a t k : V (session_obj_set_sess_aif_params_with_tag i a t k).
Proof. unfold session_obj_set_sess_aif_params_with_tag. op. Qed.
Lemma V_so_set_sess_aif_cal i a l : V (session_obj_set_sess_aif_cal i a l).
Proof. unfold session_obj_set_sess_aif_cal. op. Qed.
Lemma V_so_set_sess_aif_metadata i a n b : V (session_obj_set_sess_aif_metadata i a n b).
Proof. unfold session_obj_set_sess_aif_metadata. op. Qed.
Lemma V_so_get_sess_params i b : V (session_obj_get_sess_params i b).
Proof. unfold session_obj_get_sess_params. op. Qed.
Lemma V_so_get_tag i a n : V (session_obj_get_tag_with_module_info i a n).
Proof. unfold session_obj_get_tag_with_module_info. op. Qed.
Lemma V_so_register_cb i c e d : V (session_obj_register_cb i c e d).
Proof. unfold session_obj_register_cb. op. Qed.
Lemma V_so_register_for_events i c : V (session_obj_register_for_events i c).
Proof. unfold session_obj_register_for_events. op. Qed.
Lemma V_attach i j n : V (attach_aif i j n).
Proof. unfold attach_aif. op. Qed.
Lemma V_detach i j n : V (detach_aif i j n).
Proof. unfold detach_aif. op. Qed.
#[local] Hint Resolve V_attach V_detach : steps.
Lemma V_so_connect i a b : V (session_obj_sess_aif_connect i a b).
Proof. unfold session_obj_sess_aif_connect. op. Qed.
Lemma V_so_open id : V (session_obj_open id).
Proof. unfold session_obj_open. op. Qed.
Lemma V_so_set_config i s m b : V (session_obj_set_config i s m b).
Proof. unfold session_obj_set_config. op. Qed.
Lemma V_so_prepare i : V (session_obj_prepare i).
Proof. unfold session_obj_prepare. op. Qed.
Lemma V_so_start i : V (session_obj_start i).
Proof. unfold session_obj_start. op. Qed.
Lemma V_so_stop i : V (session_obj_stop i).
Proof. unfold session_obj_stop. op. Qed.
Lemma V_so_close i : V (session_obj_close i).
Proof. unfold session_obj_close. op. Qed.
Lemma V_so_pause i : V (session_obj_pause i).
Proof. unfold session_obj_pause, graph_pause. op. Qed.
Lemma V_so_resume i : V (session_obj_resume i).
Proof. unfold session_obj_resume, graph_resume. op. Qed.
Lemma V_so_read i n : V (session_obj_read i n).
Proof. unfold session_obj_read. op. Qed.
Lemma V_so_write i b : V (session_obj_write i b).
Proof. unfold session_obj_write. op. Qed.
Lemma V_so_buff_cnt i d : V (session_obj_hw_processed_buff_cnt i d).
Proof. unfold session_obj_hw_processed_buff_cnt. op. Qed.
Lemma V_so_set_loopback i p b : V (session_obj_set_loopback i p b).
Proof. unfold session_obj_set_loopback, set_edge. op. Qed.
Lemma V_so_set_ec_ref i p b : V (session_obj_set_ec_ref i p b).
Proof. unfold session_obj_set_ec_ref, set_edge. op. Qed.
Lemma V_so_eos i : V (session_obj_eos i).
Proof. unfold session_obj_eos. op. Qed.
Lemma V_so_get_timestamp i : V (session_obj_get_timestamp i).
Proof. unfold session_obj_get_timestamp. op. Qed.
Lemma V_so_buffer_timestamp i : V (session_obj_buffer_timestamp i).
Proof. unfold session_obj_buffer_timestamp. op. Qed.
Lemma V_so_get_sess_buf_info i f k : V (session_obj_get_sess_buf_info i f k).
Proof. unfold session_obj_get_sess_buf_info. op. Qed.
End Operations.

#[export] Hint Resolve V_so_set_sess_metadata V_so_set_sess_params V_so_set_sess_aif_params
  V_so_set_sess_aif_params_with_tag V_so_set_sess_aif_cal V_so_set_sess_aif_metadata V_so_get_sess_params V_so_get_tag
  V_so_register_cb V_so_register_for_events V_so_connect V_so_open V_so_set_config V_so_prepare V_so_start V_so_stop
  V_so_close V_so_pause V_so_resume V_so_read V_so_write V_so_buff_cnt V_so_set_loopback V_so_set_ec_ref V_so_eos
  V_so_get_timestamp V_so_buffer_timestamp V_so_get_sess_buf_info : steps.

(** ** What reaches the service *)

(** Besides the calls that go to another process: metadata of any length and tags with
    any key vector, callbacks, buffer information, and an event of GSL. *)
Inductive api_op : Type :=
  | ApiCall {A B} (c : call A B)
  | ApiAifSetMetadata (aif_id size : Z) (metadata : list Z)
  | ApiSetMetadata (session_id size : Z) (metadata : list Z)
  | ApiSessionAifSetMetadata (session_id aif_id size : Z) (metadata : list Z)
  | ApiSetParamsWithTag (session_id aif_id tag : Z) (tkv : key_vector)
  | ApiRegisterCb (session_id cb evt_type client_data : Z)
  | ApiGetBufInfo (session_id : Z) (info : buf_info) (flag : Z)
  | ApiEvent (ev : event_params) (client_data : Z).

Section Calls.
Context `{Env}.
#[local] Abbreviation V := (Steps svc_step).

Definition run_op (op : api_op) : AGM unit :=
  match op with
  | ApiCall c => let! _ := direct c in ret tt
  | ApiAifSetMetadata a n b => let! _ := agm_aif_set_metadata a n b in ret tt
  | ApiSetMetadata i n b => let! _ := agm_session_set_metadata i n b in ret tt
  | ApiSessionAifSetMetadata i a n b => let! _ := agm_session_aif_set_metadata i a n b in ret tt
  | ApiSetParamsWithTag i a t v => let! _ := agm_set_params_with_tag i a t v in ret tt
  | ApiRegisterCb i c e d => let! _ := agm_session_register_cb i c e d in ret tt
  | ApiGetBufInfo i f k => let! _ := agm_session_get_buf_info i f k in ret tt
  | ApiEvent ev d => graph_event_cb (Some ev) d
  end.

Definition serves (w w' : world) : Prop := rtc (fun w w' => exists op, run_op op w = Ret tt w') w w'.

Lemma V_with_session {A} id f (body : nat -> AGM A) : (forall i, V (body i)) -> V (with_session id f body).
Proof. intros Hb. unfold with_session. steps_tac. Qed.
Lemma V_with_handle {A} h n (body : nat -> AGM A) : (forall i, V (body i)) -> V (with_handle h n body).
Proof. intros Hb. unfold with_handle. steps_tac. Qed.
Lemma V_with_device a body : (forall o, V (body o)) -> V (with_device a body).
Proof. intros Hb. unfold with_device. steps_tac. Qed.

Lemma V_direct {A B} (c : call A B) : V (direct c).
Proof.
  destruct c; cbn [direct];
    unfold agm_aif_set_media_config, agm_aif_set_metadata, agm_aif_set_params, agm_session_open, agm_get_session_time,
      agm_get_aif_info_list, agm_get_buffer_timestamp; cbn [negb andb];
    first [apply V_with_session; steps_tac | apply V_with_handle; steps_tac | apply V_with_device; steps_tac | steps_tac].
Qed.
#[local] Hint Resolve V_direct : steps.

Lemma V_run_op op : V (run_op op).
Proof.
  destruct op; cbn [run_op]; [..|apply V_graph_event_cb];
    unfold agm_session_set_metadata, agm_session_aif_set_metadata, agm_set_params_with_tag, agm_session_register_cb,
      agm_session_get_buf_info, agm_aif_set_metadata;
    try (apply Steps_bind; [apply _|first [apply V_with_session|apply V_with_device|idtac]; steps_tac|]); steps_tac.
Qed.

Lemma serves_step w w' : serves w w' -> svc_step w w'.
Proof.
  induction 1 as [w|w w1 w2 [op Hop] _ IH]; [reflexivity|]. transitivity w1; [by eapply V_run_op|done].
Qed.

(** ** Start-up *)

#[local] Hint Extern 3 (Keeps w_held _) =>
  (match goal with |- @Keeps _ _ _ _ (ext ?c) => refine (Keeps_ext w_held c _); reflexivity end) : keeps.

Lemma K_parse_lines ls : Keeps w_held (parse_pcm_lines ls).
Proof.
  induction ls as [|l ls IH]; cbn [parse_pcm_lines]; [keeps_tac|]. unfold parse_pcm_line.
  keeps_tac; cbv zeta; keeps_tac.
Qed.
#[local] Hint Resolve K_parse_lines : keeps.
Lemma K_parse : Keeps w_held parse_snd_card.
Proof. unfold parse_snd_card. keeps_tac. Qed.
#[local] Hint Resolve K_parse : keeps.
Lemma K_device_init : Keeps w_held device_init.
Proof.
  unfold device_init. generalize MAX_RETRY. intros n. induction n as [|n IH]; cbn [device_init_loop]; keeps_tac.
Qed.
Lemma K_acdb_loop path n fs ns : Keeps w_held (acdb_loop path n fs ns).
Proof. revert fs. induction ns as [|x ns IH]; intros fs; cbn [acdb_loop]; cbv zeta; keeps_tac. Qed.
#[local] Hint Resolve K_device_init K_acdb_loop : keeps.
Lemma K_graph_init : Keeps w_held graph_init.
Proof. unfold graph_init, get_acdb_files_from_directory. autounfold with gsl. keeps_tac. Qed.
#[local] Hint Resolve K_graph_init : keeps.
Lemma K_session_obj_init : Keeps w_held session_obj_init.
Proof. unfold session_obj_init, device_deinit, graph_deinit, session_pool_init. keeps_tac. Qed.
#[local] Hint Resolve K_session_obj_init : keeps.

(** A successful start leaves no session and no mutex taken. *)
Lemma agm_init_done w w1 :
  w_agm_initialized w = false -> agm_init w = Ret 0 w1 ->
  w_pool w1 = Some [] /\ w_held w1 = w_held w /\ w_agm_initialized w1 = true.
Proof.
  intros Hi Hr. split; [|split].
  - assert (Hw : wlp agm_init (fun r w' => r = 0 -> w_pool w' = Some []) w); [|by eapply (wlp_run _ _ _ _ _ Hw)].
    unfold agm_init. apply wpg_bind, wpg_gets. rewrite Hi. apply wpg_bind, wlp_any. intros _ w2.
    apply wpg_bind. eapply (wpg_mono _ _ (fun r w' => r = 0 -> w_pool w' = Some [])).
    2:{ intros r w3 Hp. destruct (nz r) eqn:Er; [by apply wpg_ret|].
        apply wpg_bind, wpg_modify, wpg_ret. wsimp. intros. by apply Hp. }
    unfold session_obj_init. apply wpg_bind, wlp_any. intros r w3.
    destruct (nz r) eqn:Er; [apply wpg_ret; intros ->; discriminate Er|].
    apply wpg_bind, wlp_any. intros r2 w4. destruct (nz r2) eqn:Er2.
    { apply wpg_bind, wlp_any. intros _ w5. apply wpg_ret. intros ->. discriminate Er2. }
    apply wpg_bind. unfold session_pool_init. apply wpg_bind, wpg_calloc. intros b _. destruct b; cbn [negb].
    + apply wpg_bind, wpg_modify, wpg_ret. change (nz 0) with false. cbv iota. by apply wpg_ret.
    + apply wpg_bind, wpg_modify, wpg_ret. change (nz (- ENOMEM)) with true. cbv iota.
      apply wpg_bind, wlp_any. intros _ w5. apply wpg_bind, wlp_any. intros _ w6. by apply wpg_ret.
  - refine ((_ : Keeps w_held agm_init) _ _ _ Hr). unfold agm_init. keeps_tac.
  - assert (Hw : wlp agm_init (fun r w' => r = 0 -> w_agm_initialized w' = true) w); [|by eapply (wlp_run _ _ _ _ _ Hw)].
    unfold agm_init. apply wpg_bind, wpg_gets. rewrite Hi. apply wpg_bind, wlp_any. intros _ w2.
    apply wpg_bind, wlp_any. intros r w3. destruct (nz r) eqn:Er; [apply wpg_ret; intros ->; discriminate Er|].
    by apply wpg_bind, wpg_modify, wpg_ret.
Qed.

Lemma svc_ok_start w : w_pool w = Some [] -> svc_ok w.
Proof. intros Hp p Hp'. replace p with (@nil session_obj) by congruence. 
  split; [by apply NoDup_nil_2|]. split; [by apply Forall_nil_2|]. by split. Qed.

(** ** The handle of a session *)

(** What an open returns, if anything, is the session it found or made. *)
Lemma session_obj_open_same id w r i w' :
  w_held w = [] -> svc_ok w -> session_obj_open id w = Ret (r, Some i) w' ->
  exists p s, w_pool w' = Some p /\ p !! i = Some s /\ ses_id s = id.
Proof.
  intros Hh Hok Hr. pose proof Hr as Hr'. apply bind_inv in Hr' as ([r1 o] & w1 & Hg & Hk).
  destruct (w_pool w) as [p|] eqn:Hp.
  2:{ revert Hg. unfold session_obj_get, session_obj_get_from_pool, with_lock, mutex_lock, bind, read_pool, gets.
      case_bool_decide; [done|]. cbn. by rewrite Hp. }
  assert (HP : wp (session_obj_get id) (fun res w1 => forall j, res.2 = Some j ->
    exists p s, w_pool w1 = Some p /\ p !! j = Some s /\ ses_id s = id) w).
  { eapply wpg_mono; [apply (session_obj_get_correct id p); [done|by apply Hok|rewrite Hh; by apply not_elem_of_nil]|].
    intros [r2 [j2|]] w2 (p' & Hp' & _ & _ & _ & Hj) j [= <-]. destruct Hj as (_ & Hf & _).
    apply find_session_Some in Hf as (s & Hs & Hid & _). by exists p', s. }
  apply wp_wlp in HP. pose proof (wlp_run _ _ _ _ _ HP Hg) as Hj. cbn in Hj. destruct o as [j|]; [|done].
  destruct (nz r1); [done|].
  lazymatch type of Hk with ?m w1 = _ => assert (Hst : V m) by (unfold locked; steps_tac);
    assert (Hi : wlp m (fun res _ => res.2 = None \/ res.2 = Some j) w1) end.
  { unfold locked, with_lock. apply wpg_bind, wlp_any. intros _ w2.
    apply wpg_bind. eapply wpg_mono with (Q := fun res _ => res.2 = None \/ res.2 = Some j).
    2:{ intros res w3 Ha. apply wpg_bind, wlp_any. intros _ w4. by apply wpg_ret. }
    repeat first
      [ match goal with |- wlp (if ?b then _ else _) _ _ => destruct b end
      | apply wpg_ret; cbn; auto; fail
      | apply wpg_bind, wlp_any; intros ? ? ]. }
  destruct (wlp_run _ _ _ _ _ Hi Hk) as [E|E]; cbn in E; [done|]. injection E as ->.
  destruct (Hj j eq_refl) as (p1 & s & Hp1 & Hs & Hid). destruct (sv_pool _ _ (Hst _ _ _ Hk) p1 Hp1) as (p2 & Hp2 & Hgr).
  destruct (Hgr j s Hs) as (s2 & Hs2 & Hid2 & _). exists p2, s2. split_and!; [done..|congruence].
Qed.
End Calls.
