(* ===== verification/ServiceProps.v ===== *)
(** * The service serves: what holds whatever its clients do *)

From stdpp Require Import relations.
From S2P Require Export ServiceCalls Concrete.
Open Scope Z_scope.
#[export] Set Default Goal Selector "!".

Section Properties.
Context `{Env}.

(** C8: once [agm_init] has succeeded, after any number of calls with any arguments and
    of events, whatever GSL, tinyalsa and the allocator answered: no mutex is left
    taken; the devices are those found at the start, with their names, numbers and
    end points; no two sessions have one id; an interface that has a device has that
    of its own id, and no two interfaces of a session have one device id; and no two
    sessions share a graph. *)
Theorem service_invariant w w1 w2 :
  w_agm_initialized w = false -> w_held w = [] -> agm_init w = Ret 0 w1 -> serves w1 w2 ->
  w_held w2 = [] /\ w_agm_initialized w2 = true /\ w_num_intfs w2 = w_num_intfs w1 /\
  devs_same (w_devs w1) (w_devs w2) /\ is_Some (w_pool w2) /\ svc_ok w2.
Proof.
  intros Hi Hh Hr Hs. destruct (agm_init_done _ _ Hi Hr) as (Hp & Hh1 & Hi1).
  destruct (serves_step _ _ Hs) as [S1 S2 S3 _ S5 S6 S7]. rewrite Hh1, Hh in S5.
  split_and!; [by apply S5|congruence|done|done| |by apply S7, svc_ok_start].
  destruct (S6 _ Hp) as (p' & Hp' & _). by exists p'.
Qed.

(** C9: a handle that a session's open has stored names the session with that id, the
    only one, as long as the service is not shut down, whatever is called meanwhile. *)
Theorem session_handle_stable w w1 w2 w3 w4 id r h :
  w_agm_initialized w = false -> w_held w = [] -> agm_init w = Ret 0 w1 -> serves w1 w2 ->
  agm_session_open id true w2 = Ret (r, Some h) w3 -> serves w3 w4 ->
  0 < h /\ exists p s, w_pool w4 = Some p /\ p !! Z.to_nat (h - 1) = Some s /\ ses_id s = id /\
    forall j t, p !! j = Some t -> ses_id t = id -> j = Z.to_nat (h - 1).
Proof.
  intros Hi Hh Hr Hs Ho Hs2. destruct (agm_init_done _ _ Hi Hr) as (Hp & Hh1 & _).
  destruct (serves_step _ _ Hs) as [_ _ _ _ S5 _ S7]. rewrite Hh1, Hh in S5.
  assert (Hok2 : svc_ok w2) by (by apply S7, svc_ok_start).
  apply bind_inv in Ho as ([r1 o] & w3' & Ho & Hk). assert (Hst : svc_step w2 w3') by (by eapply V_so_open).
  destruct o as [i|]; [|discriminate Hk]. injection Hk as _ <- <-.
  destruct (session_obj_open_same _ _ _ _ _ (S5 (Forall_nil_2 _)) Hok2 Ho) as (p & s & Hp3 & Hs3 & Hid).
  pose proof (serves_step _ _ Hs2) as Hst4. destruct (sv_pool _ _ Hst4 p Hp3) as (p4 & Hp4 & Hgr).
  destruct (Hgr i s Hs3) as (s4 & Hs4 & Hid4 & _). unfold handle_of. split; [lia|].
  replace (Z.to_nat (Z.of_nat i + 1 - 1)) with i by lia. exists p4, s4. split_and!; [done..|congruence|].
  intros j t Ht Htid. destruct (sv_ok _ _ Hst4 (sv_ok _ _ Hst Hok2) p4 Hp4) as (Hnd & _).
  unfold pool_ok in Hnd. eapply (NoDup_lookup _ _ _ (ses_id t)); [exact Hnd|by rewrite list_lookup_fmap, Ht|].
  rewrite list_lookup_fmap, Hs4. cbn. congruence.
Qed.
End Properties.

(** ** The theorems at concrete inputs *)

(** The process as it is loaded. *)
Definition process_world : world :=
  set_w_stream_mods (stream_module_list (H:=demo_consts)) (set_w_hw_mods (hw_ep_module (H:=demo_consts)) empty_world).

Fixpoint run_ops `{Env} (l : list api_op) : AGM unit :=
  match l with
  | [] => ret tt
  | op :: l => do! run_op op ; run_ops l
  end.

Lemma run_ops_serves `{Env} l w w' : run_ops l w = Ret tt w' -> serves w w'.
Proof.
  revert w. induction l as [|op l IH]; intros w; cbn [run_ops]; [by intros [= <-]; apply rtc_refl|].
  intros ([] & w1 & Hop & Hl)%bind_inv. eapply rtc_l; [by exists op|by apply IH].
Qed.

(** Two sessions are attached, opened, one is started and an event comes for it. *)
Definition demo_ops : list api_op :=
  [ ApiCall (Connect 7 1 true); ApiCall (Open 7); ApiRegisterCb 7 5 AGM_EVENT_MODULE 0; ApiCall (Connect 9 2 true);
    ApiCall (Open 9); ApiCall (SetConfig 1 (SessionConfig RX false 0 0 (replicate 32 0) AGM_DATA_BLOCKING)
      (MediaConfig 48000 2 2 AGM_DATA_BLOCKING) (BufferConfig 4 4096));
    ApiCall (Prepare 1); ApiCall (Start 1); ApiEvent (EventParams 1 2 []) 7 ].

Definition session_view (s : session_obj) := (ses_id s, ses_graph s, ses_state s, (fun a => (aif_id a, aif_dev a)) <$> ses_aifs s).

Lemma service_invariant_witness :
  exists w1 w2, agm_init (H:=ok_env) process_world = Ret 0 w1 /\ run_ops (H:=ok_env) demo_ops w1 = Ret tt w2 /\
    w_held w2 = [] /\ svc_ok w2 /\
    map session_view <$> w_pool w2 = Some [(7, Some 0%nat, SESSION_STARTED, [(1, Some 1%nat)]);
                                           (9, Some 1%nat, SESSION_OPENED, [(2, Some 2%nat)])].
Proof.
  assert (Hv : match agm_init (H:=ok_env) process_world with
    | Ret r w1 => r = 0 /\ match run_ops (H:=ok_env) demo_ops w1 with
        | Ret _ w2 => map session_view <$> w_pool w2 = Some [(7, Some 0%nat, SESSION_STARTED, [(1, Some 1%nat)]);
                                           (9, Some 1%nat, SESSION_OPENED, [(2, Some 2%nat)])]
        | Crash _ => False end
    | Crash _ => False end) by (vm_compute; auto).
  destruct (agm_init (H:=ok_env) process_world) as [r w1|] eqn:E1; [|destruct Hv]. destruct Hv as [-> Hv].
  destruct (run_ops (H:=ok_env) demo_ops w1) as [[] w2|] eqn:E2; [|destruct Hv]. exists w1, w2.
  destruct (service_invariant (H:=ok_env) process_world w1 w2 eq_refl eq_refl E1 (run_ops_serves _ _ _ E2))
    as (H1 & _ & _ & _ & _ & H2).
  exact (conj eq_refl (conj E2 (conj H1 (conj H2 Hv)))).
Defined.

(** A session is opened, closed and opened again while another comes. *)
Definition demo_before : list api_op := [ApiCall (Connect 7 1 true)].
Definition demo_after : list api_op :=
  [ ApiCall (Close 1); ApiCall (Connect 9 2 true); ApiCall (Open 9); ApiCall (Connect 7 1 true); ApiCall (Open 7) ].

Lemma session_handle_stable_witness :
  exists w4 p s, w_pool w4 = Some p /\ p !! 0%nat = Some s /\ ses_id s = 7 /\ length p = 2%nat.
Proof.
  assert (Hv : match agm_init (H:=ok_env) process_world with
    | Ret r w1 => r = 0 /\ match run_ops (H:=ok_env) demo_before w1 with
        | Ret _ w2 => match agm_session_open (H:=ok_env) 7 true w2 with
          | Ret a w3 => a = (0, Some 1) /\ match run_ops (H:=ok_env) demo_after w3 with
             | Ret _ w4 => length <$> w_pool w4 = Some 2%nat | Crash _ => False end
          | Crash _ => False end
        | Crash _ => False end
    | Crash _ => False end) by (vm_compute; auto).
  destruct (agm_init (H:=ok_env) process_world) as [r w1|] eqn:E1; [|destruct Hv]. destruct Hv as [-> Hv].
  destruct (run_ops (H:=ok_env) demo_before w1) as [[] w2|] eqn:E2; [|destruct Hv].
  destruct (agm_session_open (H:=ok_env) 7 true w2) as [a w3|] eqn:E3; [|destruct Hv]. destruct Hv as [-> Hv].
  destruct (run_ops (H:=ok_env) demo_after w3) as [[] w4|] eqn:E4; [|destruct Hv].
  destruct (session_handle_stable (H:=ok_env) process_world w1 w2 w3 w4 7 0 1 eq_refl eq_refl E1 (run_ops_serves _ _ _ E2)
    E3 (run_ops_serves _ _ _ E4)) as (_ & p & s & Hp & Hs & Hid & _).
  exists w4, p, s. rewrite Hp in Hv. injection Hv as Hv. exact (conj Hp (conj Hs (conj Hid Hv))).
Defined.
