(* ===== verification/BinderRules.v ===== *)
(** * The rules of a call through Binder

    [ipc_step] takes the next operation of the client, of the transaction or of
    the server; what the parcels hold is followed with [holds]. *)

From S2P Require Export AgmClient.
Open Scope Z_scope.
#[export] Set Default Goal Selector "!".

(** Sizes a blob can carry, and handles. *)
Definition blob_size (n : Z) : Prop := 0 <= n <= BLOB_MAX.
Definition is_u64 (z : Z) : Prop := 0 <= z < 2 ^ 64.

(** The client has its proxy, and the server knows the client as the [i]-th of
    its list; no lock is held. *)
Record connected `{Binder} (y : sys) (l : list client_info) (i : nat) : Prop := Connected {
  cn_proxy : is_Some (y_client y);
  cn_alive : y_server_died y = false;
  cn_held : y_held y = [];
  cn_list : y_clients y = Some l;
  cn_found : fst <$> list_find (fun c => ci_pid c = client_pid) l = Some i
}.

Section BinderRules.
Context `{Env, Binder} {P : Parcel} `{!ParcelLaws P}.

Lemma holds_step p l l' i : holds p l -> l ++ [i] = l' -> holds (parcel_write p i) l'.
Proof. intros Hp <-. by apply holds_write. Qed.

Lemma wpg_transact u (Q : parcel -> sys -> Prop) code data l y :
  holds data (Token :: l) ->
  (forall p, holds p l -> wpg u (bn_switch client_pid code p parcel_new)
    (fun a y => Q (if nz a.1 then parcel_new else a.2) y) y) ->
  wpg u (transact code data) Q y.
Proof.
  intros Hd Hk. apply wpg_bind. apply check_holds in Hd. eapply wpg_mono; [by apply (Hk _ Hd)|].
  intros [st r] y' HQ. by apply wpg_ret.
Qed.

Lemma u64_s64_small z : is_u64 z -> u64 (s64 z) = z.
Proof. intros Hz. rewrite u64_s64. by apply u64_small. Qed.

Lemma nz_b2z b : nz (Z.b2z b) = b.
Proof. by destruct b. Qed.

Lemma blob_size_u32 n : blob_size n -> is_u32 n.
Proof. unfold blob_size, BLOB_MAX, is_u32. lia. Qed.

Lemma alive {A} u (dead : A) body Q y l i :
  connected y l i -> wpg u body Q y -> wpg u (if_alive dead body) Q y.
Proof.
  intros [[b Hb] Ha _ _ _] HQ. unfold if_alive. apply wpg_bind, wpg_gets. rewrite Ha. apply wpg_bind.
  unfold get_agm_server. apply wpg_bind, wpg_gets. rewrite Hb. by apply wpg_ret.
Qed.

Lemma kvs_roundtrip l : Forall kv_u32 l -> kvs_of (Z.of_nat (length l)) (enc_kvs l) = l.
Proof.
  intros Hl. unfold kvs_of. pose proof (length_enc_kvs l). unfold sizeof_key_value.
  rewrite fit_id, Nat2Z.id by lia. by apply decode_enc_kvs.
Qed.

Lemma kv_size (l : list key_value) : blob_size (Z.of_nat (length l) * 8) -> is_u32 (Z.of_nat (length l)).
Proof. unfold blob_size, BLOB_MAX, is_u32. lia. Qed.

Lemma wpg_kv_blob u (Q : list Z -> sys -> Prop) l y :
  blob_size (Z.of_nat (length l) * 8) -> Q (enc_kvs l) y -> wpg u (kv_blob (Z.of_nat (length l)) (Some l)) Q y.
Proof.
  intros Hl HQ. unfold kv_blob, sizeof_key_value. pose proof (length_enc_kvs l). apply blob_size_u32 in Hl as Hu.
  rewrite Z.mul_comm, u32_small by done. apply wpg_blob_of; [unfold blob_size in Hl; lia|lia|done].
Qed.

Lemma run_wp {S A} (m : M S A) s a s' : wp m (fun b t => b = a /\ t = s') s -> m s = Ret a s'.
Proof. unfold wpg. destruct (m s); [|done]. by intros [-> ->]. Qed.
End BinderRules.

(** ** Tactics *)

(** What was written, in order. *)
Ltac holds_writes :=
  first [apply holds_new | apply check_holds; holds_writes | eapply holds_step; [holds_writes|cbn [app]; reflexivity]].
Ltac holds_data :=
  unfold new_data, writeInterfaceToken, writeUint32, writeInt32, writeInt64, writeUint64, writeRaw, writeBlob,
    writeStrongBinder; holds_writes.

(** The rule for the first operation of a call; [E] is the outcome of the call
    of the service. *)
Ltac args :=
  unfold sizeof_key_value;
  repeat first
    [ match goal with
      | Hx : is_u32 ?x |- context [u32 ?x] => rewrite (u32_small x Hx)
      | Hx : blob_size ?x |- context [u32 ?x] => rewrite (u32_small x (blob_size_u32 x Hx))
      | Hx : is_u64 ?x |- context [u64 (s64 ?x)] => rewrite (u64_s64_small x Hx)
      | Hx : is_u64 ?x |- context [u64 ?x] => rewrite (u64_small x Hx)
      | Hx : media_fits ?x |- context [media_of (fit _ (media_bytes ?x))] => rewrite (media_roundtrip x Hx)
      | Hx : session_fits ?x |- context [session_of (fit _ (session_bytes ?x))] => rewrite (session_roundtrip x Hx)
      | Hx : buffer_fits ?x |- context [buffer_of (fit _ (buffer_bytes ?x))] => rewrite (buffer_roundtrip x Hx)
      | Hx : Forall kv_u32 ?x |- context [kvs_of _ (enc_kvs ?x)] => rewrite (kvs_roundtrip x Hx)
      end
    | rewrite nz_b2z | rewrite Nat2Z.id | rewrite Z.ltb_irrefl | rewrite s32_u32 ].
Ltac read_rule r := first [eapply r; [eassumption|intros ? ?] | eapply r; [holds_data|intros ? ?]].
Ltac blob_len :=
  first [done | rewrite length_session_bytes by assumption; done | rewrite length_enc_kvs; done].
Ltac ipc_step E M :=
  cbv beta iota zeta; cbn [kv num_kvs];
  lazymatch goal with
  | |- wpg _ (bind _ _) _ _ => apply wpg_bind
  | |- wpg _ (ret _) _ _ => apply wpg_ret
  | |- wpg _ (readUint32 _) _ _ => first [read_rule wpg_readUint32 | read_rule wpg_readBool]; args
  | |- wpg _ (readInt32 _) _ _ => read_rule wpg_readInt32
  | |- wpg _ (readInt64 _) _ _ => read_rule wpg_readInt64
  | |- wpg _ (readUint64 _) _ _ => read_rule wpg_readUint64
  | |- wpg _ (readStrongBinder _) _ _ => read_rule wpg_readStrong
  | |- wpg _ new_object _ _ => apply wpg_new_object
  | |- wpg _ (readRaw _ _ _) _ _ => eapply wpg_readRaw; [eassumption|done|intros ? ?]
  | |- wpg _ (readBlob _ _) _ _ =>
      first [eapply wpg_readBlob; [eassumption|blob_len|intros ? ?]
            | eapply wpg_readBlob; [holds_data|blob_len|intros ? ?]]
  | |- wpg _ (transact _ _) _ _ => eapply wpg_transact; [holds_data|intros ? ?; cbn [bn_switch]]
  | |- wpg _ ipc_tick _ _ => apply wpg_ipc_tick
  | |- wpg _ ipc_calloc _ _ => apply wpg_ipc_calloc; rewrite M; cbn [negb]
  | |- wpg _ (blob_data _ (Some _)) _ _ => apply wpg_blob_data
  | |- wpg _ (blob_of _ _) _ _ => apply wpg_blob_of; [unfold blob_size in *; lia|done|]
  | |- wpg _ (kv_blob _ (Some _)) _ _ => apply wpg_kv_blob; [assumption|]
  | |- wpg _ (lift_srv _) _ _ => args; eapply wpg_srv_run; [exact E|]
  | |- wpg _ (if_alive _ _) _ _ => eapply alive; [eassumption|]
  | |- wpg _ ?m _ _ => let h := head_of m in unfold h
  end.




Ltac call_run E M := repeat ipc_step E M; cbv beta iota; cbn [fst snd].
