(* ===== verification/BinderProps.v ===== *)
(** * A call through Binder is a call of the service

    For every [call]: the function of the client library ([remote])
    and what the client gets of the service's results ([seen]). *)

From S2P Require Export AgmCalls BinderRules.
Open Scope Z_scope.
#[export] Set Default Goal Selector "!".

Section Calls.
Context `{Env, Parcel, Binder}.

(** The function of the client library. *)
Definition remote {A B} (c : call A B) : SYS B :=
  match c with
  | SetMediaConfig i cfg => agm_aif_set_media_config i cfg
  | SetConfig h s m b => agm_session_set_config h s m b
  | AifSetMetadata i b => agm_aif_set_metadata i (Z.of_nat (length b)) b
  | SetMetadata i b => agm_session_set_metadata i (Z.of_nat (length b)) b
  | SessionAifSetMetadata i a b => agm_session_aif_set_metadata i a (Z.of_nat (length b)) b
  | Prepare h => agm_session_prepare h
  | Start h => agm_session_start h
  | Stop h => agm_session_stop h
  | Pause h => agm_session_pause h
  | Resume h => agm_session_resume h
  | Eos h => agm_session_eos h
  | Connect i a st => agm_session_aif_connect i a st
  | Loopback i j st => agm_session_set_loopback i j st
  | EcRef i a st => agm_session_set_ec_ref i a st
  | AifSetParams a p => agm_aif_set_params a p
  | SessionAifSetParams i a p => agm_session_aif_set_params i a p
  | SetParams i p => agm_session_set_params i p
  | SetParamsWithTag i a t l => agm_set_params_with_tag i a t (KVec (length l) (Some l))
  | SetCal i a l => agm_session_aif_set_cal i a l
  | RegisterForEvents i cfg => agm_session_register_for_events i cfg
  | GetBuffCnt h d => agm_get_hw_processed_buff_cnt h d
  | Open i => agm_session_open i 0
  | Close h => agm_session_close h
  | Read h n => agm_session_read h n
  | Write h b => agm_session_write h b
  | AifCount => agm_get_aif_info_list 0 0
  | AifList p n => agm_get_aif_info_list p n
  | TagInfoSize i a n => agm_session_aif_get_tag_module_info i a 0 n
  | TagInfo i a p n => agm_session_aif_get_tag_module_info i a p n
  | SessionTime h t => agm_get_session_time h t
  | GetParams i p => agm_session_get_params i p
  | BufTimestamp i t => agm_get_buffer_timestamp i t
  end.

(** Arguments within their C types, buffers a blob can carry. *)
Definition fits {A B} (c : call A B) : Prop :=
  match c with
  | SetMediaConfig i cfg => is_u32 i /\ media_fits cfg
  | SetConfig h s m b => is_u64 h /\ session_fits s /\ media_fits m /\ buffer_fits b
  | AifSetMetadata i b | SetMetadata i b | AifSetParams i b | SetParams i b | GetParams i b =>
      is_u32 i /\ blob_size (Z.of_nat (length b))
  | SessionAifSetMetadata i a b | SessionAifSetParams i a b =>
      is_u32 i /\ is_u32 a /\ blob_size (Z.of_nat (length b))
  | Prepare h | Start h | Stop h | Pause h | Resume h | Eos h | Close h => is_u64 h
  | Connect i a _ | Loopback i a _ | EcRef i a _ => is_u32 i /\ is_u32 a
  | SetParamsWithTag i a t l =>
      is_u32 i /\ is_u32 a /\ is_u32 t /\ Forall kv_u32 l /\ blob_size (Z.of_nat (length l) * 8)
  | SetCal i a l => is_u32 i /\ is_u32 a /\ Forall kv_u32 l /\ blob_size (Z.of_nat (length l) * 8)
  | RegisterForEvents i cfg =>
      is_u32 i /\ is_u32 (er_module_instance_id cfg) /\ is_u32 (er_event_id cfg) /\
      blob_size (Z.of_nat (length (er_payload cfg))) /\ 0 <= er_is_register cfg < 256
  | GetBuffCnt h d => is_u64 h /\ is_u32 d
  | Open i | BufTimestamp i _ => is_u32 i
  | Read h n => is_u64 h /\ blob_size n
  | Write h b => is_u64 h /\ blob_size (Z.of_nat (length b))
  | AifCount => True
  | AifList p n => p <> 0 /\ 0 < n /\ blob_size (n * 32)
  | TagInfoSize i a n => is_u32 i /\ is_u32 a /\ is_u32 n
  | TagInfo i a p n => is_u32 i /\ is_u32 a /\ - 2 ^ 63 <= p < 2 ^ 63 /\ p <> 0 /\ 0 < n /\ blob_size n
  | SessionTime h t => is_u64 h /\ is_u64 t
  end.

(** Where the client relies on the service: a read does not give more than was
    asked for, and the lists have the length that was asked for. *)
Definition within {A B} (c : call A B) : A -> Prop :=
  match c with
  | Open _ => fun a => from_option is_u64 True a.2
  | Read _ n => fun a => 0 <= a.1.2 <= n
  | AifList _ n => fun a => exists l, a.2 = Some (l, n) /\ Z.of_nat (length l) = n /\ Forall aif_fits l
  | TagInfo _ _ _ n => fun a => from_option snd n a.2 = n
  | GetParams _ p => fun a => length a.2 = length p
  | _ => fun _ => True
  end.

(** What the client gets. *)
Definition seen {A B} (c : call A B) : A -> B :=
  match c with
  | Open _ => fun a => (s32 a.1, default 0 a.2)
  | Read _ n => fun a => let '(r, n', bytes) := a in
      if nz (s32 r) then (s32 r, n, []) else (s32 r, n', take (Z.to_nat n') (fit (Z.to_nat n) bytes))
  | Write _ _ => fun a => (s32 a.1, u32 a.2)
  | GetBuffCnt _ _ => fun n => size_t_of_int (s32 n)
  | AifCount => fun a => (s32 a.1, [], u64 (s32 (from_option snd 0 a.2)))
  | AifList _ n => fun a => (s32 a.1, from_option fst [] a.2, n)
  | TagInfoSize _ _ n => fun a => (s32 a.1, [], u64 (s32 (from_option snd n a.2)))
  | TagInfo _ _ _ n => fun a => (s32 a.1, fit (Z.to_nat n) (from_option fst [] a.2), n)
  | SessionTime _ t => fun a => (s32 a.1, u64 (default t a.2))
  | GetParams _ _ => fun a => (s32 a.1, a.2)
  | BufTimestamp _ _ => fun a => (s32 a.1, u64 (default 0 a.2))
  | _ => s32
  end.

(** What changes in the server besides the service: the handles of the client's
    sessions. *)
Definition tracked {A B} (c : call A B) : A -> list Z -> list Z :=
  match c with
  | Open _ => fun a l => if nz (default 0 a.2) then l ++ [default 0 a.2] else l
  | Close h => fun _ l => remove_handle h l
  | _ => fun _ l => l
  end.
End Calls.

(** ** Running a call *)

Section Run.
Context `{Env, Binder} {P : Parcel} `{!ParcelLaws P}.
Context (Hmem : forall n, bn_alloc n = true).

(** The system after a call: what the call of the service did, the handles, and a
    number of allocations. *)
Definition after {A B} (c : call A B) (a : A) (w : world) (l : list client_info) (i : nat) (y y' : sys) : Prop :=
  exists t, y' = set_y_tick t (set_y_clients (Some (alter (fun k => set_ci_handles (tracked c a (ci_handles k)) k) i l))
    (set_y_agm w y)).

Lemma after_same {A B} (c : call A B) a w l i y t :
  (forall x, tracked c a x = x) -> y_clients y = Some l -> after c a w l i y (set_y_tick t (set_y_agm w y)).
Proof.
  intros Ht Hl. exists t. f_equal.
  assert (alter (fun k => set_ci_handles (tracked c a (ci_handles k)) k) i l = l) as ->.
  { apply list_alter_id. intros []. cbn. by rewrite Ht. }
  destruct y; cbn in *. by rewrite <- Hl.
Qed.

Ltac call_same :=
  match goal with |- after ?c _ _ _ _ _ _ => apply (after_same c); [done|by eapply cn_list] end.


(** The client gets what it is meant to see, and the server is as after the call of the service. *)
Definition runs {A B} (c : call A B) (a : A) (w : world) (l : list client_info) (i : nat) (y : sys) : Prop :=
  wp (remote c) (fun b y' => b = seen c a /\ after c a w l i y y') y.


Lemma run_tag i a t kvs r w y l j :
  let c := SetParamsWithTag i a t kvs in
  direct c (y_agm y) = Ret r w -> fits c -> connected y l j -> runs c r w l j y.
Proof.
  cbv zeta. intros E Hf Hc. cbn [fits direct] in *. destruct Hf as (Hi & Ha & Ht & Hk & Hn). unfold runs. cbn [remote].
  pose proof (kv_size _ Hn). call_run E Hmem. split; [done|call_same].
Qed.

Lemma run_cal i a kvs r w y l j :
  let c := SetCal i a kvs in
  direct c (y_agm y) = Ret r w -> fits c -> connected y l j -> runs c r w l j y.
Proof.
  cbv zeta. intros E Hf Hc. cbn [fits direct] in *. destruct Hf as (Hi & Ha & Hk & Hn). unfold runs. cbn [remote].
  pose proof (kv_size _ Hn). call_run E Hmem. args. call_run E Hmem. split; [done|call_same].
Qed.

Lemma run_events i cfg r w y l j :
  let c := RegisterForEvents i cfg in
  direct c (y_agm y) = Ret r w -> fits c -> connected y l j -> runs c r w l j y.
Proof.
  cbv zeta. intros E Hf Hc. cbn [fits direct] in *. destruct Hf as (Hi & Hm & He & Hn & Hr). unfold runs. cbn [remote].
  destruct cfg as [m e p reg]. cbn [er_module_instance_id er_event_id er_payload er_is_register] in *.
  assert (is_u32 reg) by (unfold is_u32; lia). apply blob_size_u32 in Hn as Hu.
  unfold agm_session_register_for_events. ipc_step E Hmem. unfold ipc_agm_session_register_for_events.
  cbn [er_module_instance_id er_event_id er_payload er_is_register]. rewrite u32_small by done. call_run E Hmem.
  rewrite fit_id, Z.mod_small by done. call_run E Hmem. split; [done|call_same].
Qed.

Lemma after_none {A B} (c : call A B) a w l i y :
  (forall x, tracked c a x = x) -> connected y l i -> y_agm y = w -> after c a w l i y y.
Proof.
  intros Ht Hc <-. replace y with (set_y_tick (y_tick y) (set_y_agm (y_agm y) y)) at 3 by (by destruct y).
  apply after_same; [done|by eapply cn_list].
Qed.

Lemma run_read h n r w y l j :
  direct (Read h n) (y_agm y) = Ret r w -> fits (Read h n) -> within (Read h n) r -> connected y l j ->
  runs (Read h n) r w l j y.
Proof.
  intros E [Hh Hn] Hw Hc. cbn [fits within direct] in *. unfold runs. cbn [remote]. destruct r as [[r n'] bytes]. cbn [fst snd] in Hw.
  unfold agm_session_read. ipc_step E Hmem. destruct (h =? 0) eqn:E0.
  { unfold Agm.agm_session_read, with_handle in E. rewrite E0 in E. injection E as <- <- <- <-. ipc_step E Hmem.
    split; [done|by apply after_none]. }
  assert (Hn' : blob_size n') by (unfold blob_size in *; lia). call_run E Hmem.
  destruct (nz (s32 r)) eqn:Er.
  { ipc_step E Hmem. cbn [fst snd nz]. ipc_step E Hmem. ipc_step E Hmem. cbv beta iota. rewrite Er. call_run E Hmem.
    split; [|call_same]. cbn [seen fst snd]. by rewrite Er. }
  ipc_step E Hmem. apply wpg_blob_part; [done|rewrite length_fit; unfold blob_size in *; lia|].
  ipc_step E Hmem. cbn [fst snd nz]. do 2 ipc_step E Hmem. cbv beta iota. rewrite Er. repeat ipc_step E Hmem. eapply wpg_readBlob; [eassumption| |intros ? ?].
  { rewrite length_take, length_fit. unfold blob_size in *. lia. }
  call_run E Hmem. rewrite (proj2 (Z.ltb_ge n n')) by lia. call_run E Hmem.
  split; [|call_same]. cbn [seen fst snd]. by rewrite Er.
Qed.

Lemma run_write h b r w y l j :
  direct (Write h b) (y_agm y) = Ret r w -> fits (Write h b) -> connected y l j -> runs (Write h b) r w l j y.
Proof.
  intros E [Hh Hn] Hc. cbn [fits within direct] in *. unfold runs. cbn [remote]. destruct r as [r n'].
  pose proof (blob_size_u32 _ Hn) as Hu.
  unfold agm_session_write. do 1 ipc_step E Hmem. destruct (h =? 0) eqn:E0.
  { unfold Agm.agm_session_write, with_handle in E. rewrite E0 in E. injection E as <- <- <-. do 1 ipc_step E Hmem.
    split; [|by apply after_none]. cbn [seen fst snd]. by rewrite u32_small. }
  call_run E Hmem. split; [done|call_same].
Qed.

Lemma run_aif_count r w y l j :
  direct AifCount (y_agm y) = Ret r w -> connected y l j -> runs AifCount r w l j y.
Proof.
  intros E Hc. cbn [direct] in *. unfold runs. cbn [remote]. destruct r as [r out].
  do 3 ipc_step E Hmem. change (s32 0) with 0. cbn [Z.eqb andb]. call_run E Hmem. change (u32 0 =? 0) with true.
  call_run E Hmem. split; [done|call_same].
Qed.

Lemma run_aif_list p n r w y l j :
  direct (AifList p n) (y_agm y) = Ret r w -> fits (AifList p n) -> within (AifList p n) r -> connected y l j ->
  runs (AifList p n) r w l j y.
Proof.
  intros E (Hp & Hn & Hb) (la & Ho & Hl & Hf) Hc. cbn [direct] in *. unfold runs. cbn [remote]. destruct r as [r out].
  cbn [snd] in Ho. subst out. unfold blob_size, BLOB_MAX in Hb. pose proof (length_aifs_bytes _ Hf) as Hlen.
  assert (Hu : is_u32 n) by (unfold is_u32; lia). assert (Hz : nz n = true) by (apply nz_true; lia).
  do 3 ipc_step E Hmem. rewrite s32_small by lia. rewrite (proj2 (Z.eqb_neq p 0)) by done.
  rewrite (proj2 (nz_true p)), Hz by done. cbn [andb]. change (Z.of_nat sizeof_aif_info) with 32.
  rewrite (u32_small (n * 32)) by lia. rewrite Z.div_mul by done.
  call_run E Hmem. rewrite (proj2 (Z.eqb_neq n 0)) by lia. call_run E Hmem.
  cbn [from_option fst snd]. change (Z.of_nat sizeof_aif_info) with 32. rewrite s32_small by lia.
  rewrite fit_id by (rewrite Hlen; lia).
  assert (Hsize : n * 32 = Z.of_nat (length (aifs_bytes la))) by (rewrite Hlen; unfold sizeof_aif_info; lia).
  apply wpg_blob_of; [unfold BLOB_MAX; lia|exact Hsize|]. call_run E Hmem.
  split; [|call_same]. cbn [seen fst snd from_option]. rewrite <- Hl, Nat2Z.id. by rewrite aifs_roundtrip.
Qed.

Lemma run_tag_size i a n r w y l j :
  direct (TagInfoSize i a n) (y_agm y) = Ret r w -> fits (TagInfoSize i a n) -> connected y l j ->
  runs (TagInfoSize i a n) r w l j y.
Proof.
  intros E (Hi & Ha & Hn) Hc. cbn [direct] in *. unfold runs. cbn [remote]. destruct r as [r out].
  do 3 ipc_step E Hmem. cbn [Z.eqb]. call_run E Hmem. change (s64 0 =? 0) with true. cbv iota. rewrite u32_s32. call_run E Hmem.
  split; [done|call_same].
Qed.

Lemma run_tag_info i a p n r w y l j :
  direct (TagInfo i a p n) (y_agm y) = Ret r w -> fits (TagInfo i a p n) -> within (TagInfo i a p n) r ->
  connected y l j -> runs (TagInfo i a p n) r w l j y.
Proof.
  intros E (Hi & Ha & Hp & Hp0 & Hn & Hb) Hw Hc. cbn [direct within] in *. unfold runs. cbn [remote]. destruct r as [r out].
  cbn [snd] in Hw. assert (Hz : nz n = true) by (apply nz_true; lia).
  assert (Hs : s32 n = n) by (apply s32_small; unfold blob_size, BLOB_MAX in Hb; lia).
  do 3 ipc_step E Hmem. rewrite Hs, (proj2 (Z.eqb_neq p 0)), Hz by done. call_run E Hmem.
  rewrite s64_small, (proj2 (Z.eqb_neq p 0)) by done. rewrite Hz. call_run E Hmem. cbn [snd] in *. rewrite Hw.
  rewrite u64_small by (unfold blob_size, BLOB_MAX in Hb; lia).
  apply wpg_blob_of; [unfold blob_size in Hb; lia|rewrite length_fit; lia|]. call_run E Hmem.
  eapply wpg_readBlob; [holds_data|rewrite length_fit; lia|intros ? ?]. call_run E Hmem.
  split; [done|call_same].
Qed.

Lemma run_time h t r w y l j :
  direct (SessionTime h t) (y_agm y) = Ret r w -> fits (SessionTime h t) -> connected y l j ->
  runs (SessionTime h t) r w l j y.
Proof.
  intros E [Hh Ht] Hc. cbn [direct] in *. unfold runs. cbn [remote]. destruct r as [r out].
  call_run E Hmem. split; [done|call_same].
Qed.

Lemma run_params i p r w y l j :
  direct (GetParams i p) (y_agm y) = Ret r w -> fits (GetParams i p) -> within (GetParams i p) r -> connected y l j ->
  runs (GetParams i p) r w l j y.
Proof.
  intros E [Hi Hp] Hw Hc. cbn [direct within] in *. unfold runs. cbn [remote]. destruct r as [r out]. cbn [snd] in Hw.
  call_run E Hmem. apply wpg_blob_of; [unfold blob_size in Hp; lia|lia|]. call_run E Hmem.
  eapply wpg_readBlob; [holds_data|lia|intros ? ?]. call_run E Hmem. split; [done|call_same].
Qed.

Lemma run_tstamp i t r w y l j :
  direct (BufTimestamp i t) (y_agm y) = Ret r w -> fits (BufTimestamp i t) -> connected y l j ->
  runs (BufTimestamp i t) r w l j y.
Proof.
  intros E Hi Hc. cbn [direct fits] in *. unfold runs. cbn [remote]. destruct r as [r out].
  call_run E Hmem. split; [done|call_same].
Qed.

(** *** Open and close: the client's handles *)

Lemma connected_srv y l i w t : connected y l i -> connected (set_y_tick t (set_y_agm w y)) l i.
Proof. intros []. by constructor. Qed.

Lemma wpg_get_client u (Q : option nat -> sys -> Prop) y l i :
  connected y l i -> Q (Some i) y -> wpg u (get_client_handle_from_list client_pid) Q y.
Proof.
  intros [_ _ Hh Hl Hf] HQ. unfold get_client_handle_from_list, client_list. apply wpg_bind, wpg_acquire.
  { rewrite Hh. apply not_elem_of_nil. }
  apply wpg_bind, wpg_bind, wpg_gets. cbn [y_clients set_y_held]. rewrite Hl. apply wpg_ret, wpg_bind.
  eapply wpg_release; [cbn; by rewrite Hh|apply not_elem_of_nil|]. apply wpg_ret. rewrite Hf.
  replace (set_y_held [] _) with y; [done|]. destruct y; cbn in *. by rewrite Hh.
Qed.

(** The handles of the client after a change under the lock. *)
Definition with_handles (f : list Z -> list Z) (i : nat) (l : list client_info) (y : sys) : sys :=
  set_y_clients (Some (alter (fun k => set_ci_handles (f (ci_handles k)) k) i l)) y.

Lemma wpg_add_handle u (Q : unit -> sys -> Prop) y l i h :
  connected y l i -> Q tt (set_y_tick (S (y_tick y)) (with_handles (fun k => k ++ [h]) i l y)) ->
  wpg u (agm_add_session_obj_handle client_pid h) Q y.
Proof.
  intros Hc HQ. unfold agm_add_session_obj_handle. apply wpg_bind. eapply wpg_get_client; [done|].
  destruct Hc as [_ _ Hh Hl _]. apply wpg_bind, wpg_acquire; [rewrite Hh; apply not_elem_of_nil|].
  apply wpg_bind, wpg_ipc_calloc. rewrite Hmem. apply wpg_bind, wpg_modify.
  eapply wpg_release; [cbn; by rewrite Hh|apply not_elem_of_nil|].
  unfold with_handles in HQ. destruct y; cbn in *. rewrite Hh, Hl in *. exact HQ.
Qed.

Lemma wpg_remove_handle u (Q : unit -> sys -> Prop) y l i h :
  connected y l i -> Q tt (with_handles (remove_handle h) i l y) ->
  wpg u (agm_remove_session_obj_handle client_pid h) Q y.
Proof.
  intros Hc HQ. unfold agm_remove_session_obj_handle. apply wpg_bind. eapply wpg_get_client; [done|].
  destruct Hc as [_ _ Hh Hl _]. apply wpg_bind, wpg_acquire; [rewrite Hh; apply not_elem_of_nil|].
  apply wpg_bind, wpg_modify. eapply wpg_release; [cbn; by rewrite Hh|apply not_elem_of_nil|].
  unfold with_handles in HQ. destruct y; cbn in *. rewrite Hh, Hl in *. exact HQ.
Qed.

Lemma run_close h r w y l j :
  direct (Close h) (y_agm y) = Ret r w -> fits (Close h) -> connected y l j -> runs (Close h) r w l j y.
Proof.
  intros E Hh Hc. cbn [direct fits] in *. unfold runs. cbn [remote]. do 8 ipc_step E Hmem. do 4 ipc_step E Hmem.
  apply wpg_bind. eapply wpg_remove_handle; [by apply (connected_srv _ _ _ _ (y_tick y))|]. call_run E Hmem.
  split; [done|by exists (y_tick y)].
Qed.

Lemma run_open i r w y l j :
  direct (Open i) (y_agm y) = Ret r w -> fits (Open i) -> within (Open i) r -> connected y l j ->
  runs (Open i) r w l j y.
Proof.
  intros E Hi Hw Hc. cbn [direct fits within] in *. unfold runs. cbn [remote]. destruct r as [r out]. cbn [snd] in Hw.
  assert (Hu : is_u64 (default 0 out)) by (destruct out; [done|by split]).
  do 12 ipc_step E Hmem. cbv beta iota zeta.
  destruct (nz (default 0 out)) eqn:Eh.
  - eapply wpg_add_handle; [by apply (connected_srv _ _ _ _ (y_tick y))|]. call_run E Hmem. args. split; [done|].
    exists (S (y_tick y)). cbn [tracked snd]. by rewrite Eh.
  - call_run E Hmem. args. split; [done|]. apply (after_same (Open i)); [|by eapply cn_list]. intros x. cbn [tracked snd]. by rewrite Eh.
Qed.

Lemma run_plain {A B} (c : call A B) a w y l i :
  match c with
  | SetParamsWithTag _ _ _ _ | SetCal _ _ _ | RegisterForEvents _ _ | Open _ | Close _ | Read _ _ | Write _ _
  | AifCount | AifList _ _ | TagInfoSize _ _ _ | TagInfo _ _ _ _ | SessionTime _ _ | GetParams _ _
  | BufTimestamp _ _ => False
  | _ => True
  end ->
  direct c (y_agm y) = Ret a w -> fits c -> connected y l i -> runs c a w l i y.
Proof.
  intros Hk E Hf Hc. destruct c; try done; cbn [fits direct] in *; destruct_and?; unfold runs; cbn [remote].
  all: call_run E Hmem; args; split; [reflexivity|call_same].
Qed.

Lemma run_call {A B} (c : call A B) a w y l i :
  direct c (y_agm y) = Ret a w -> fits c -> within c a -> connected y l i -> runs c a w l i y.
Proof.
  intros E Hf Hw Hc. destruct c; try (by eapply run_plain).
  - by apply run_tag.
  - by apply run_cal.
  - by apply run_events.
  - by apply run_open.
  - by apply run_close.
  - by apply run_read.
  - by apply run_write.
  - by apply run_aif_count.
  - by apply run_aif_list.
  - by apply run_tag_size.
  - by apply run_tag_info.
  - by apply run_time.
  - by apply run_params.
  - by apply run_tstamp.
Qed.
End Run.

(** ** A call through Binder is a call of the service *)

Section Transparent.
Context `{Env, Binder} {P : Parcel} `{!ParcelLaws P}.

(** C10: calls through Binder, to a server with memory, from a client it knows.
    Every function of the client library but [agm_init], [agm_deinit] and the
    registration of a callback makes, in the server, exactly the call of the service
    with the same arguments: the service ends in the same state, the client gets the
    status and the values the call gave (as far as they fit the types they are sent
    as), the bytes of a read among them, up to the count the service reports; and besides the service
    only the list of the client's session handles changes, by an open or a close.
    A failed read gives the status alone.  The arguments are within their C types,
    the buffers smaller than 2 GiB, and the results have the sizes the client asked
    for. *)
Theorem binder_transparent {A B} (c : call A B) a w y l i :
  (forall n, bn_alloc n = true) ->
  direct c (y_agm y) = Ret a w -> fits c -> within c a -> connected y l i ->
  exists t, remote c y = Ret (seen c a)
    (set_y_tick t (set_y_clients (Some (alter (fun k => set_ci_handles (tracked c a (ci_handles k)) k) i l))
      (set_y_agm w y))).
Proof.
  intros Hmem E Hf Hw Hc. pose proof (run_call Hmem c a w y l i E Hf Hw Hc) as Hr.
  apply wp_run in Hr as (b & y' & E' & -> & t & ->). by exists t.
Qed.
End Transparent.
