(* ===== verification/BinderSession.v ===== *)
(** * Clients of the server: death and events *)

From S2P Require Export BinderProps.
Open Scope Z_scope.
#[export] Set Default Goal Selector "!".

(** ** A client that dies *)

Section Death.
Context `{Env, Binder} {P : Parcel} `{!ParcelLaws P}.

(** The calls a client makes, with its open handles before and after. *)
Inductive used : sys -> list Z -> sys -> list Z -> Prop :=
  | used_nil y hs : used y hs y hs
  | used_call {A B} (c : call A B) a w y hs y1 y2 hs2 :
      direct c (y_agm y) = Ret a w -> fits c -> within c a ->
      remote c y = Ret (seen c a) y1 -> used y1 (tracked c a hs) y2 hs2 -> used y hs y2 hs2.

Lemma find_alter (p : client_info -> bool) f i (l : list client_info) :
  (forall k, p (f k) = p k) ->
  fst <$> list_find (fun k => p k = true) (alter f i l) = fst <$> list_find (fun k => p k = true) l.
Proof.
  intros Hp. revert i. induction l as [|k l IH]; intros i; [by destruct i|]. destruct i as [|i]; cbn.
  - destruct (decide (p (f k) = true)) as [E|E], (decide (p k = true)) as [E'|E']; rewrite Hp in E; done.
  - destruct (decide (p k = true)); [done|]. specialize (IH i).
    change (list_alter f i l) with (alter f i l).
    destruct (list_find _ (alter f i l)) as [[]|], (list_find _ l) as [[]|]; simpl in *; by simplify_eq.
Qed.

Lemma connected_handles y l i f t w :
  connected y l i ->
  connected (set_y_tick t (set_y_clients (Some (alter (fun k => set_ci_handles (f (ci_handles k)) k) i l)) (set_y_agm w y)))
    (alter (fun k => set_ci_handles (f (ci_handles k)) k) i l) i.
Proof.
  intros [Hb Ha Hh Hl Hf]. constructor; try done. rewrite <- Hf.
  pose proof (find_alter (fun k => ci_pid k =? client_pid) (fun k => set_ci_handles (f (ci_handles k)) k) i l
    ltac:(done)) as Hx.
  assert (forall m : list client_info, list_find (fun k => (ci_pid k =? client_pid) = true) m =
    list_find (fun c => ci_pid c = client_pid) m) as Heq.
  { intros m. apply list_find_ext. intros k. apply Z.eqb_eq. }
  by rewrite !Heq in Hx.
Qed.

Lemma alter_at {A} (f : A -> A) i (l : list A) k : l !! i = Some k -> alter f i l = <[i := f k]> l.
Proof.
  revert i. induction l as [|x l IH]; intros [|i]; [done|done|by intros [= ->]|].
  intros Hk. cbn. f_equal. by apply IH.
Qed.

Lemma used_handles y hs y' hs' l i k :
  (forall n, bn_alloc n = true) ->
  used y hs y' hs' -> connected y l i -> l !! i = Some k -> ci_handles k = hs ->
  connected y' (<[i := set_ci_handles hs' k]> l) i.
Proof.
  intros Hmem Hu. revert l k. induction Hu as [y hs|A B c a w y hs y1 y2 hs2 E Hf Hw Hr _ IH]; intros l k Hc Hk Hh.
  - rewrite list_insert_id; [done|]. rewrite Hk. f_equal. by destruct k; cbn in *; subst.
  - pose proof (run_call Hmem c a w y l i E Hf Hw Hc) as Hr'. unfold runs, wpg in Hr'. rewrite Hr in Hr'.
    destruct Hr' as [_ [t ->]].
    pose proof (connected_handles y l i (tracked c a) t w Hc) as Hc1.
    rewrite (alter_at _ _ _ _ Hk), Hh in *. specialize (IH _ (set_ci_handles (tracked c a hs) k) Hc1).
    rewrite list_insert_insert, decide_True in IH by done. apply IH; [|done].
    apply list_lookup_insert_eq. by eapply lookup_lt_Some.
Qed.

Lemma tracked_nonzero {A B} (c : call A B) a hs :
  Forall (fun h => h <> 0) hs -> Forall (fun h => h <> 0) (tracked c a hs).
Proof.
  intros Hs. destruct c; try done; cbn [tracked].
  - destruct (nz _) eqn:E; [|done]. apply Forall_app. split; [done|]. repeat constructor. by apply nz_true.
  - clear a. induction Hs as [|h l Hh Hs IH]; [done|]. cbn. destruct (h =? handle); [done|]. by constructor.
Qed.

Lemma used_nonzero y hs y' hs' : used y hs y' hs' -> Forall (fun h => h <> 0) hs -> Forall (fun h => h <> 0) hs'.
Proof. induction 1; [done|]. intros Hs. by apply IHused, tracked_nonzero. Qed.

Lemma close_handles_run hs y :
  Forall (fun h => h <> 0) hs ->
  close_handles hs y = lift_srv (close_all hs) y.
Proof.
  intros Hs. revert y. induction Hs as [|h hs Hh _ IH]; intros y; [by destruct y|].
  cbn [close_handles close_all]. rewrite (proj2 (Z.eqb_neq h 0)) by done.
  unfold lift_srv, bind, ret in *. destruct (Agm.agm_session_close h (y_agm y)) as [r w|]; [|done].
  rewrite IH. cbn [y_agm set_y_agm]. by destruct (close_all hs w).
Qed.

Lemma bury_others who l y : Forall (fun k => ci_binder k <> who) l -> bury who l y = Ret l y.
Proof.
  induction 1 as [|k l Hk _ IH]; [done|]. cbn [bury]. rewrite (proj2 (Z.eqb_neq _ _)) by done.
  unfold bind. by rewrite IH.
Qed.

Lemma bury_one who l1 k l2 y :
  Forall (fun k => ci_binder k <> who) (l1 ++ l2) -> ci_binder k = who ->
  bury who (l1 ++ k :: l2) y = (do! close_handles (ci_handles k) ; ret (l1 ++ l2)) y.
Proof.
  intros [H1 H2]%Forall_app Hk. induction H1 as [|x l1 Hx _ IH].
  - cbn [bury app]. rewrite (proj2 (Z.eqb_eq _ _)) by done. unfold bind. destruct (close_handles _ y) as [[] y'|]; [|done].
    by rewrite bury_others.
  - cbn [bury app]. rewrite (proj2 (Z.eqb_neq _ _)) by done. unfold bind in *. rewrite IH.
    by destruct (close_handles _ y).
Qed.

(** C11: the sessions of a client that dies.  After any calls through Binder, the
    death of the client closes exactly the sessions the client opened and did not
    close, in the order it opened them, and forgets the client; the other clients stay as
    they are.  A close that fails does not stop the others. *)
Theorem client_death y y' hs l1 k l2 :
  (forall n, bn_alloc n = true) ->
  connected y (l1 ++ k :: l2) (length l1) -> ci_handles k = [] ->
  Forall (fun c => ci_binder c <> ci_binder k) (l1 ++ l2) ->
  used y [] y' hs ->
  binderDied (ci_binder k) y' =
    match close_all hs (y_agm y') with
    | Ret _ w => Ret tt (set_y_clients (Some (l1 ++ l2)) (set_y_agm w y'))
    | Crash why => Crash why
    end.
Proof.
  intros Hmem Hc Hk Ho Hu.
  pose proof (used_handles _ _ _ _ _ _ k Hmem Hu Hc (list_lookup_middle _ _ _ _ eq_refl) Hk) as [_ _ Hh Hl _].
  rewrite insert_app_r_alt, Nat.sub_diag in Hl by done. cbn [list_insert insert] in Hl.
  unfold binderDied, ipc_lock_acquire, client_list, bind, gets, modify.
  rewrite Hh, bool_decide_eq_false_2 by apply not_elem_of_nil. cbn [y_clients set_y_held the ret]. rewrite Hl.
  cbn [the]. unfold ret at 1. rewrite bury_one by done. unfold bind. cbn [ci_handles set_ci_handles].
  rewrite close_handles_run by (by eapply used_nonzero). unfold lift_srv. cbn [y_agm set_y_held].
  destruct (close_all hs (y_agm y')) as [[] w|]; [|done]. unfold ret, ipc_lock_release.
  destruct y'; cbn in *. by rewrite Hh.
Qed.
End Death.

(** ** Events *)

Section Events.
Context `{Env, Binder} {P : Parcel} `{!ParcelLaws P}.
Context (Hmem : forall n, bn_alloc n = true).

Definition event_fits (ev : event_params) : Prop :=
  is_u32 (ev_source_module_id ev) /\ is_u32 (ev_event_id ev) /\ blob_size (Z.of_nat (length (ev_payload ev))).
Definition clbk_fits (k : clbk_data) : Prop :=
  kb_binder k <> 0 /\ kb_func k <> 0 /\ is_u64 (kb_func k) /\ is_u64 (kb_client_data k).
Definition is_for (sid cd : Z) (k : clbk_data) : Prop := kb_session_id k = sid /\ kb_client_data k = cd.

Lemma ptr_roundtrip p : is_u64 p -> ptr_of (ptr_bytes p) = p.
Proof. intros Hp. unfold ptr_of, ptr_bytes. rewrite le64_next. by apply u64_small. Qed.

(** An event on its way to the function of the client. *)
Lemma event_cb_run sid ev k y :
  is_u32 sid -> event_fits ev -> clbk_fits k ->
  BpCallback_event_cb (kb_binder k) sid ev (kb_client_data k) (kb_func k) y =
    Ret 0 (set_y_delivered (y_delivered y ++ [Delivery (kb_binder k) (kb_func k) sid ev (kb_client_data k)])
      (set_y_tick (S (y_tick y)) y)).
Proof.
  intros Hs (Hm & He & Hp) (Hb & Hf & Hfu & Hcd). pose proof (blob_size_u32 _ Hp) as Hpu.
  apply run_wp. unfold BpCallback_event_cb. call_run (eq_refl 0) Hmem.
  args. call_run (eq_refl 0) Hmem.
  rewrite ptr_roundtrip, u64_s64_small, (proj2 (Z.eqb_neq _ _)) by done.
  apply wpg_bind, wpg_modify, wpg_ret. split; [done|]. by destruct ev.
Qed.

Lemma find_clbk_found sid cd l1 k l2 last :
  Forall (fun k => ~ is_for sid cd k) l1 -> is_for sid cd k ->
  find_clbk sid cd last (l1 ++ k :: l2) = (true, Some k).
Proof.
  intros H1 [Hs Hd]. revert last. induction H1 as [|x l1 Hx _ IH]; intros last; cbn [find_clbk app].
  - by rewrite Hs, Hd, !Z.eqb_refl.
  - destruct (_ && _) eqn:E; [|done]. destruct Hx. apply andb_true_iff in E as [E1 E2].
    split; by apply Z.eqb_eq.
Qed.

Lemma find_clbk_none sid cd l k last :
  Forall (fun k => ~ is_for sid cd k) (l ++ [k]) -> find_clbk sid cd last (l ++ [k]) = (false, Some k).
Proof.
  revert last. induction l as [|x l IH]; intros last Hl; apply Forall_cons in Hl as [Hx Hl]; cbn [find_clbk app].
  - destruct (_ && _) eqn:E; [|done]. destruct Hx. apply andb_true_iff in E as [E1 E2]. split; by apply Z.eqb_eq.
  - destruct (_ && _) eqn:E; [|by apply IH]. destruct Hx. apply andb_true_iff in E as [E1 E2].
    split; by apply Z.eqb_eq.
Qed.

(** What [ipc_cb] does with the entry [k] it ends with; [bad] are the mutexes
    released without being held. *)
Definition delivered (k : clbk_data) (sid : Z) (ev : event_params) (bad : list ipc_lock) (y : sys) : sys :=
  set_y_bad_unlock (bad ++ y_bad_unlock y)
    (set_y_delivered (y_delivered y ++ [Delivery (kb_binder k) (kb_func k) sid ev (kb_client_data k)])
      (set_y_tick (S (y_tick y)) y)).

Lemma release_held l y : ipc_lock_release l (set_y_held [l] y) = Ret tt (set_y_held [] y).
Proof. by destruct l. Qed.

Lemma release_free l y : y_held y = [] -> ipc_lock_release l y = Ret tt (set_y_bad_unlock (l :: y_bad_unlock y) y).
Proof. intros Hh. unfold ipc_lock_release. by rewrite Hh. Qed.

Lemma ipc_cb_run sid ev cd l found k y :
  is_u32 sid -> event_fits ev -> clbk_fits k -> y_cbs y = Some l -> y_held y = [] ->
  find_clbk sid cd None l = (found, Some k) ->
  ipc_cb sid ev cd y = Ret tt (delivered k sid ev (if found : bool then [LClbkList] else []) y).
Proof.
  intros Hs He Hk Hl Hh Hf. unfold ipc_cb, ipc_lock_acquire, bind at 1. rewrite Hh.
  rewrite bool_decide_eq_false_2 by apply not_elem_of_nil. unfold gets, bind at 1. cbn [y_cbs set_y_held]. rewrite Hl.
  unfold the, ret at 1, bind at 1. rewrite Hf.
  assert (Hz : (kb_binder k =? 0) = false) by (destruct Hk as [Hb _]; by apply Z.eqb_neq).
  destruct found; unfold bind, ret; rewrite release_held; [rewrite release_free by done|];
    rewrite Hz, event_cb_run by done; unfold delivered; destruct y; cbn in *; by rewrite Hh.
Qed.
End Events.

Section EventProps.
Context `{Env, Binder} {P : Parcel} `{!ParcelLaws P}.

(** C34: where an event goes.  An event for a session and client data goes to the
    first entry a client registered for them: its function is called in its
    process, with the session, the event and its payload as the service gave them,
    and the client data.  The mutex of the table is then released twice.  When no entry is for
    the event, it is not dropped: the last entry of the table gets it, with its
    own client data. *)
Theorem binder_event_delivered sid ev cd l k y :
  (forall n, bn_alloc n = true) ->
  is_u32 sid -> event_fits ev -> clbk_fits k -> y_cbs y = Some l -> y_held y = [] ->
  (forall l1 l2, l = l1 ++ k :: l2 -> Forall (fun k => ~ is_for sid cd k) l1 -> is_for sid cd k ->
    ipc_cb sid ev cd y = Ret tt (delivered k sid ev [LClbkList] y)) /\
  (forall l1, l = l1 ++ [k] -> Forall (fun k => ~ is_for sid cd k) l ->
    ipc_cb sid ev cd y = Ret tt (delivered k sid ev [] y)).
Proof.
  intros Hmem Hs He Hk Hl Hh. split.
  - intros l1 l2 -> H1 H2. apply (ipc_cb_run Hmem sid ev cd _ true k y Hs He Hk Hl Hh). by apply find_clbk_found.
  - intros l1 -> H1. apply (ipc_cb_run Hmem sid ev cd _ false k y Hs He Hk Hl Hh). by apply find_clbk_none.
Qed.

(** Registering a callback.  The service gets [ipc_cb], and the function of
    the client goes into a new entry of the server's table, which is never
    taken out.  This is so for NULL too, with which a client means to take its
    callback back: [ipc_cb] is registered once more. *)
Theorem binder_register_cb sid cb evt cd r w y l i :
  (forall n, bn_alloc n = true) ->
  is_u32 sid -> is_u64 cb -> is_u32 evt -> is_u64 cd -> connected y l i ->
  Agm.agm_session_register_cb sid addr_ipc_cb evt cd (y_agm y) = Ret r w ->
  AgmClient.agm_session_register_cb sid cb evt cd y =
    Ret (s32 r) (set_y_tick (2 + y_tick y)
      (set_y_cbs (Some (default [] (y_cbs y) ++ [ClbkData sid (s64 (bn_object (y_tick y))) cb cd])) (set_y_agm w y))).
Proof.
  intros Hmem Hs Hcb He Hcd Hc E. apply run_wp. do 5 ipc_step E Hmem.
  call_run E Hmem. apply (wpg_gets _ y_cbs). apply wpg_bind.
  assert (Hg : forall Q, Q tt (set_y_cbs (Some (default [] (y_cbs y))) (set_y_tick (S (y_tick y)) y)) ->
    wp (match y_cbs y with None => modify (set_y_cbs (Some [])) | Some _ => ret tt end) Q
      (set_y_tick (S (y_tick y)) y)).
  { intros Q. destruct y as [? ? [k|] ? ? ? ? ? ?]; exact id. }
  apply Hg. clear Hg. do 2 ipc_step E Hmem. destruct Hc as [_ _ Hh _ _].
  apply wpg_bind, wpg_acquire; [cbn; rewrite Hh; apply not_elem_of_nil|].
  do 10 ipc_step E Hmem. rewrite ptr_roundtrip by done. args. apply wpg_bind, wpg_modify, wpg_bind.
  eapply wpg_release; [cbn; by rewrite Hh|apply not_elem_of_nil|].
  call_run E Hmem. split; [done|]. destruct y; cbn in *. by rewrite Hh.
Qed.
End EventProps.
