(* ===== verification/BinderMemory.v ===== *)
(** * The Binder connection when the server has no memory *)

From S2P Require Export BinderSession.
Open Scope Z_scope.
#[export] Set Default Goal Selector "!".

(** What the client then gets from the calls for which the server allocates:
    [Some None] when it does not get a result at all. *)
Definition no_memory {A B} (c : call A B) : option (option B) :=
  match c with
  | AifSetMetadata _ _ | SetMetadata _ _ | SessionAifSetMetadata _ _ _ | SetParams _ _ | SetParamsWithTag _ _ _ _
  | SetCal _ _ _ => Some (Some (- ENOMEM))
  | AifSetParams _ _ | SessionAifSetParams _ _ _ | RegisterForEvents _ _ => Some (Some 0)
  | Read h n => if h =? 0 then None else Some (Some (- ENOMEM, n, []))
  | Write h _ => if h =? 0 then None else Some (Some (0, 2 ^ 32 - ENOMEM))
  | AifList _ _ | TagInfo _ _ _ _ => Some None
  | _ => None
  end.

Section NoMemory.
Context `{Env, Binder} {P : Parcel} `{!ParcelLaws P}.
Context (Hmem : forall n, bn_alloc n = false).

(** A reply that was not written. *)
Lemma wpg_int32_end u (Q : Z * parcel -> sys -> Prop) y :
  (forall p', Q (0, p') y) -> wpg u (readInt32 parcel_new) Q y.
Proof. intros HQ. eapply wpg_readInt32_end; [apply holds_new|]. intros p' _. apply HQ. Qed.

Lemma wpg_blob_end u (Q : option (list Z) * parcel -> sys -> Prop) n y :
  0 < n -> (forall p', Q (None, p') y) -> wpg u (readBlob n parcel_new) Q y.
Proof.
  intros Hn HQ. destruct (blob_end _ n holds_new Hn) as (p' & E & _). unfold readBlob. rewrite E. apply wpg_ret, HQ.
Qed.

Lemma wpg_blob_null (Q : list Z -> sys -> Prop) n y : 0 < n -> wpg True (blob_data n None) Q y.
Proof. intros Hn. unfold blob_data. by rewrite (proj2 (Z.eqb_neq n 0)) by lia. Qed.

Definition unserved {A B} (c : call A B) (y : sys) : Prop :=
  match no_memory c with
  | Some (Some b) => wp (remote c) (fun b' y' => b' = b /\ exists t, y' = set_y_tick t y) y
  | Some None => wpg True (remote c) (fun _ _ => False) y
  | None => True
  end.

Lemma tick_same (y : sys) : exists t, y = set_y_tick t y.
Proof. exists (y_tick y). by destruct y. Qed.

Lemma unserved_plain {A B} (c : call A B) y l i :
  match c with
  | AifSetMetadata _ _ | SetMetadata _ _ | SessionAifSetMetadata _ _ _ | SetParams _ _ => True
  | _ => False
  end -> fits c -> connected y l i -> unserved c y.
Proof.
  intros Hk Hf Hc. destruct c; try done; cbn [fits] in *; destruct_and?; unfold unserved; cbn [no_memory remote].
  all: call_run (eq_refl 0) Hmem; args; split; [reflexivity|by eexists].
Qed.

Lemma unserved_kvs {A B} (c : call A B) y l i :
  match c with SetParamsWithTag _ _ _ _ | SetCal _ _ _ => True | _ => False end ->
  fits c -> connected y l i -> unserved c y.
Proof.
  intros Hk Hf Hc. destruct c; try done; cbn [fits] in *; destruct_and?; unfold unserved; cbn [no_memory remote].
  all: match goal with Hn : blob_size (Z.of_nat (length ?l) * 8) |- _ => pose proof (kv_size _ Hn) end.
  all: call_run (eq_refl 0) Hmem; args; call_run (eq_refl 0) Hmem; split; [reflexivity|by eexists].
Qed.

Lemma unserved_params {A B} (c : call A B) y l i :
  match c with AifSetParams _ _ | SessionAifSetParams _ _ _ => True | _ => False end ->
  fits c -> connected y l i -> unserved c y.
Proof.
  intros Hk Hf Hc. destruct c; try done; cbn [fits] in *; destruct_and?; unfold unserved; cbn [no_memory remote].
  all: call_run (eq_refl 0) Hmem; args; call_run (eq_refl 0) Hmem.
  all: apply wpg_int32_end; intros ?; apply wpg_ret; split; [reflexivity|by eexists].
Qed.

Lemma unserved_events sid cfg y l i :
  fits (RegisterForEvents sid cfg) -> connected y l i -> unserved (RegisterForEvents sid cfg) y.
Proof.
  intros Hf Hc. cbn [fits] in *. destruct_and?. unfold unserved; cbn [no_memory remote].
  match goal with Hn : blob_size _ |- _ => pose proof (blob_size_u32 _ Hn) end.
  unfold agm_session_register_for_events. ipc_step (eq_refl 0) Hmem. unfold ipc_agm_session_register_for_events.
  rewrite u32_small by done. call_run (eq_refl 0) Hmem.
  apply wpg_int32_end; intros ?; apply wpg_ret; split; [reflexivity|by eexists].
Qed.

Lemma unserved_read h n y l i : fits (Read h n) -> connected y l i -> unserved (Read h n) y.
Proof.
  intros [Hh Hn] Hc. unfold unserved; cbn [no_memory remote]. destruct (h =? 0) eqn:E0; [done|].
  unfold agm_session_read. ipc_step (eq_refl 0) Hmem. rewrite E0. call_run (eq_refl 0) Hmem.
  change (nz (s32 (- ENOMEM))) with true. cbv iota. call_run (eq_refl 0) Hmem. split; [done|by eexists].
Qed.

Lemma unserved_write h b y l i : fits (Write h b) -> connected y l i -> unserved (Write h b) y.
Proof.
  intros [Hh Hn] Hc. unfold unserved; cbn [no_memory remote]. destruct (h =? 0) eqn:E0; [done|].
  pose proof (blob_size_u32 _ Hn) as Hu.
  unfold agm_session_write. do 1 ipc_step (eq_refl 0) Hmem. rewrite E0. call_run (eq_refl 0) Hmem.
  eapply wpg_readInt32_end; [eassumption|]. intros ? _. do 2 apply wpg_ret. split; [reflexivity|by eexists].
Qed.

Lemma unserved_aifs p n y l i : fits (AifList p n) -> connected y l i -> unserved (AifList p n) y.
Proof.
  intros (Hp & Hn & Hb) Hc. unfold unserved; cbn [no_memory remote]. unfold blob_size, BLOB_MAX in Hb.
  assert (Hu : is_u32 n) by (unfold is_u32; lia). assert (Hz : nz n = true) by (apply nz_true; lia).
  do 3 ipc_step (eq_refl 0) Hmem. rewrite s32_small by lia. rewrite (proj2 (Z.eqb_neq p 0)) by done.
  rewrite (proj2 (nz_true p)), Hz by done. cbn [andb]. change (Z.of_nat sizeof_aif_info) with 32.
  rewrite (u32_small (n * 32)) by lia.
  call_run (eq_refl 0) Hmem. rewrite (proj2 (Z.eqb_neq n 0)) by lia. call_run (eq_refl 0) Hmem.
  apply wpg_blob_end; [lia|]. intros ?. apply wpg_bind, wpg_blob_null. lia.
Qed.

Lemma unserved_tag_info sid a p n y l i :
  fits (TagInfo sid a p n) -> connected y l i -> unserved (TagInfo sid a p n) y.
Proof.
  intros (Hi & Ha & Hp & Hp0 & Hn & Hb) Hc. unfold unserved; cbn [no_memory remote].
  assert (Hz : nz n = true) by (apply nz_true; lia).
  assert (Hs : s32 n = n) by (apply s32_small; unfold blob_size, BLOB_MAX in Hb; lia).
  do 3 ipc_step (eq_refl 0) Hmem. rewrite Hs, (proj2 (Z.eqb_neq p 0)), Hz by done. call_run (eq_refl 0) Hmem.
  rewrite s64_small, (proj2 (Z.eqb_neq p 0)) by done. rewrite Hz. call_run (eq_refl 0) Hmem.
  apply wpg_blob_end; [rewrite u64_small; unfold blob_size, BLOB_MAX in Hb; lia|].
  intros ?. apply wpg_bind, wpg_blob_null. rewrite u64_small; unfold blob_size, BLOB_MAX in Hb; lia.
Qed.

Lemma unserved_call {A B} (c : call A B) y l i : fits c -> connected y l i -> unserved c y.
Proof.
  intros Hf Hc. destruct c; try done.
  all: first [by eapply unserved_plain|by eapply unserved_kvs|by eapply unserved_params|by eapply unserved_events
             |by eapply unserved_read|by eapply unserved_write|by eapply unserved_aifs|by eapply unserved_tag_info].
Qed.
End NoMemory.

Section NoMemoryProps.
Context `{Env, Binder} {P : Parcel} `{!ParcelLaws P}.

(** C35: a server without memory.  The service is not called and nothing changes.  The client is
    told -ENOMEM by the metadata, calibration and tag calls, by
    [agm_session_set_params] and by a read; it is told 0 by
    [agm_aif_set_params], [agm_session_aif_set_params] and
    [agm_session_register_for_events], since the status [onTransact] returns makes
    Binder drop the reply, and by a write, which reads -ENOMEM as the number of
    bytes written; [agm_get_aif_info_list] and
    [agm_session_aif_get_tag_module_info] crash the client, which copies from a blob
    that did not come. *)
Theorem binder_out_of_memory {A B} (c : call A B) out y l i :
  (forall n, bn_alloc n = false) -> fits c -> connected y l i -> no_memory c = Some out ->
  match out with
  | Some b => exists t, remote c y = Ret b (set_y_tick t y)
  | None => exists why, remote c y = Crash why
  end.
Proof.
  intros Hmem Hf Hc Ho. pose proof (unserved_call Hmem c y l i Hf Hc) as Hu. unfold unserved in Hu. rewrite Ho in Hu.
  destruct out as [b|].
  - apply wp_run in Hu as (b' & y' & E & -> & t & ->). by exists t.
  - unfold wpg in Hu. destruct (remote c y) as [b y'|why]; [done|by exists why].
Qed.
End NoMemoryProps.
