(* ===== verification/BinderWitness.v ===== *)
(** * The theorems of the Binder connection at work

    A client (pid 5, object 100) of a server that has another client too, over
    parcels of bytes; the service has one session with an interface that can be
    opened. *)

From S2P Require Import GraphProps SessionProps.
From S2P Require Export BinderMemory.
Open Scope Z_scope.
#[export] Set Default Goal Selector "!".

Definition demo_binder (memory : bool) : Binder := {|
  bn_alloc _ := memory;
  bn_object n := 100 + Z.of_nat n;
  bn_found := true;
  client_pid := 5;
  addr_ipc_cb := 900
|}.

Definition other_client : client_info := ClientInfo 99 4 true [].
Definition demo_client : client_info := ClientInfo 100 5 true [].
Definition demo_cb : clbk_data := ClbkData 7 101 300 400.
Definition open_world : world :=
  set_w_graphs [] (set_w_pool (Some [set_ses_graph None (run_session SESSION_CLOSED AIF_OPEN)])
    (run_world SESSION_CLOSED AIF_OPEN 0 DEV_CLOSED)).
Definition demo_sys : sys :=
  Sys open_world (Some [other_client; demo_client]) (Some [demo_cb]) (Some 100) false [] [] [] 1.

Lemma demo_connected m : @connected (demo_binder m) demo_sys [other_client; demo_client] 1.
Proof. by constructor. Qed.

(** The client opens session 1. *)
Lemma binder_transparent_witness :
  exists y, @remote ok_env byte_parcel (demo_binder true) _ _ (Open 1) demo_sys = Ret (0, 1) y /\
    y_clients y = Some [other_client; ClientInfo 100 5 true [1]].
Proof.
  pose proof (@binder_transparent ok_env (demo_binder true) byte_parcel byte_parcel_laws _ _ (Open 1) (0, Some 1)
    (match Agm.agm_session_open (H:=ok_env) 1 true open_world with Ret _ w => w | Crash _ => open_world end)
    demo_sys [other_client; demo_client] 1 (fun _ => eq_refl) ltac:(vm_compute; reflexivity)
    ltac:(by split) ltac:(by split) (demo_connected true)) as [t Ht].
  eexists. split; [exact Ht|]. vm_compute. reflexivity.
Defined.

(** After the client opened session 1. *)
Definition demo_opened : sys :=
  match @remote ok_env byte_parcel (demo_binder true) _ _ (Open 1) demo_sys with Ret _ y => y | Crash _ => demo_sys end.

Lemma demo_used : @used ok_env (demo_binder true) byte_parcel demo_sys [] demo_opened [1].
Proof.
  eapply (used_call (Open 1) (0, Some 1)); [vm_compute; reflexivity|by split|by split|vm_compute; reflexivity|].
  apply used_nil.
Qed.

(** It dies: the session is closed. *)
Lemma client_death_witness :
  exists w, @binderDied ok_env 100 demo_opened = Ret tt (set_y_clients (Some [other_client]) (set_y_agm w demo_opened)) /\
    w_graphs w = [None].
Proof.
  pose proof (@client_death ok_env (demo_binder true) byte_parcel byte_parcel_laws demo_sys demo_opened [1] [other_client]
    demo_client [] (fun _ => eq_refl) (demo_connected true) eq_refl ltac:(by repeat constructor) demo_used) as Hd.
  change (ci_binder demo_client) with 100 in Hd. rewrite Hd. clear Hd.
  destruct (close_all (H:=ok_env) [1] (y_agm demo_opened)) as [[] w|] eqn:E; revert E; vm_compute; [|done].
  intros [= <-]. eexists. by split.
Defined.

Definition client_event : event_params := EventParams 40 9 [1; 2; 3].

(** The entry for session 7 gets the event; an event for another session too. *)
Lemma binder_event_delivered_witness :
  let cb sid cd := @ipc_cb byte_parcel (demo_binder true) sid client_event cd demo_sys in
  cb 7 400 = Ret tt (delivered demo_cb 7 client_event [LClbkList] demo_sys) /\
  cb 8 500 = Ret tt (delivered demo_cb 8 client_event [] demo_sys).
Proof.
  pose proof (fun sid cd Hs => @binder_event_delivered (demo_binder true) byte_parcel byte_parcel_laws
    sid client_event cd [demo_cb] demo_cb demo_sys (fun _ => eq_refl) Hs ltac:(by repeat split)
    ltac:(by repeat split) eq_refl eq_refl) as Hd.
  split.
  - apply (proj1 (Hd 7 400 ltac:(by split)) [] []); by repeat constructor.
  - apply (proj2 (Hd 8 500 ltac:(by split)) []); [done|]. repeat constructor. by intros [].
Defined.

(** A NULL callback makes a new entry. *)
Lemma binder_register_cb_witness :
  exists w, @AgmClient.agm_session_register_cb ok_env byte_parcel (demo_binder true) 7 0 0 400 demo_sys =
    Ret 0 (set_y_tick 3 (set_y_cbs (Some [demo_cb; ClbkData 7 101 0 400]) (set_y_agm w demo_sys))).
Proof.
  eexists. apply (@binder_register_cb ok_env (demo_binder true) byte_parcel byte_parcel_laws 7 0 0 400 0 _ demo_sys
    [other_client; demo_client] 1 (fun _ => eq_refl) ltac:(by split) ltac:(by split) ltac:(by split) ltac:(by split)
    (demo_connected true)).
  vm_compute. reflexivity.
Defined.

(** A write of three bytes succeeds, and wrote 4294967284. *)
Lemma binder_out_of_memory_witness :
  exists t, @AgmClient.agm_session_write ok_env byte_parcel (demo_binder false) 1 [1; 2; 3] demo_sys =
    Ret (0, 4294967284) (set_y_tick t demo_sys).
Proof.
  apply (@binder_out_of_memory ok_env (demo_binder false) byte_parcel byte_parcel_laws _ _ (Write 1 [1; 2; 3])
    (Some (0, 4294967284)) demo_sys [other_client; demo_client] 1 (fun _ => eq_refl) ltac:(by repeat split)
    (demo_connected false) eq_refl).
Defined.
