(* ===== verification/Hidl.v ===== *)
(** * The two ends of the hwbinder connection: values and state

    ipc/HwBinders puts the service behind a HIDL interface (interfaces/AGMIPC):
    a call carries [hidl_vec]s, which the transport (outside the repository)
    copies element by element.  The code uses them as buffers: it makes
    [sizeof(struct)] elements to hold one structure, and reaches the
    key values behind it with the arithmetic of a pointer to the elements.
    [hsys] is a client process and the server process together. *)

From S2P Require Export Parcel.
Open Scope Z_scope.
#[export] Set Default Goal Selector "!".

(** ** State *)

(** [client_info] (agm_server_wrapper.h): a process and the handles it opened. *)
Record hw_client : Type := HwClient { hc_pid : Z; hc_handles : list Z }.
Definition set_hc_handles (v : list Z) (c : hw_client) : hw_client := HwClient (hc_pid c) v.

(** [SrvrClbk]: what the server keeps for a callback.  Its address is what the
    service gets as client data. *)
Record srvr_clbk : Type := SrvrClbk {
  sk_session_id : Z;
  sk_clbk_binder : Z;
  sk_event : Z;
  sk_clnt_data : Z;
  sk_pid : Z
}.

(** [clbk_data]: the client's own data, and the address of the [SrvrClbk]. *)
Record hw_clbk : Type := HwClbk { hk_clt_data : Z; hk_srv : Z }.

(** [ClntClbk]: what the client library keeps, at an address of its own. *)
Record clnt_clbk : Type := ClntClbk {
  ck_session_id : Z;
  ck_func : Z;
  ck_event : Z;
  ck_clnt_data : Z
}.

(** A call of a client's function. *)
Record hw_delivery : Type := HwDelivery {
  hd_func : Z;
  hd_session : Z;
  hd_params : event_params;
  hd_client_data : Z
}.

Inductive hw_lock := HClients | HClbks | HInit.
#[export] Instance hw_lock_eq_dec : EqDecision hw_lock.
Proof. solve_decision. Defined.

(** The lists [client_list] and [clbk_data_list] are [None] before [list_init];
    objects made with [new] are never freed: [hs_srvr], [hs_clnt]; [hs_links] are the
    pids [linkToDeath] was called with, in the server.  The client's library: whether it has the proxy, its death notifier (function and cookie),
    whether the server died, the cookies its crash function was called with, the
    calls of callbacks, its open file descriptors. *)
Record hsys : Type := HSys {
  hs_agm : world;
  hs_clients : option (list hw_client);
  hs_cbs : option (list hw_clbk);
  hs_srvr : list srvr_clbk;
  hs_clnt : list clnt_clbk;
  hs_links : list Z;
  hs_proxy : bool;
  hs_notifier : option (Z * Z);
  hs_died : bool;
  hs_crash_calls : list Z;
  hs_delivered : list hw_delivery;
  hs_fds : list Z;
  hs_held : list hw_lock;
  hs_tick : nat
}.

Definition set_hs_agm (v : world) (y : hsys) : hsys :=
  HSys v (hs_clients y) (hs_cbs y) (hs_srvr y) (hs_clnt y) (hs_links y) (hs_proxy y) (hs_notifier y) (hs_died y) (hs_crash_calls y) (hs_delivered y) (hs_fds y) (hs_held y) (hs_tick y).
Definition set_hs_clients (v : option (list hw_client)) (y : hsys) : hsys :=
  HSys (hs_agm y) v (hs_cbs y) (hs_srvr y) (hs_clnt y) (hs_links y) (hs_proxy y) (hs_notifier y) (hs_died y) (hs_crash_calls y) (hs_delivered y) (hs_fds y) (hs_held y) (hs_tick y).
Definition set_hs_cbs (v : option (list hw_clbk)) (y : hsys) : hsys :=
  HSys (hs_agm y) (hs_clients y) v (hs_srvr y) (hs_clnt y) (hs_links y) (hs_proxy y) (hs_notifier y) (hs_died y) (hs_crash_calls y) (hs_delivered y) (hs_fds y) (hs_held y) (hs_tick y).
Definition set_hs_srvr (v : list srvr_clbk) (y : hsys) : hsys :=
  HSys (hs_agm y) (hs_clients y) (hs_cbs y) v (hs_clnt y) (hs_links y) (hs_proxy y) (hs_notifier y) (hs_died y) (hs_crash_calls y) (hs_delivered y) (hs_fds y) (hs_held y) (hs_tick y).
Definition set_hs_clnt (v : list clnt_clbk) (y : hsys) : hsys :=
  HSys (hs_agm y) (hs_clients y) (hs_cbs y) (hs_srvr y) v (hs_links y) (hs_proxy y) (hs_notifier y) (hs_died y) (hs_crash_calls y) (hs_delivered y) (hs_fds y) (hs_held y) (hs_tick y).
Definition set_hs_links (v : list Z) (y : hsys) : hsys :=
  HSys (hs_agm y) (hs_clients y) (hs_cbs y) (hs_srvr y) (hs_clnt y) v (hs_proxy y) (hs_notifier y) (hs_died y) (hs_crash_calls y) (hs_delivered y) (hs_fds y) (hs_held y) (hs_tick y).
Definition set_hs_proxy (v : bool) (y : hsys) : hsys :=
  HSys (hs_agm y) (hs_clients y) (hs_cbs y) (hs_srvr y) (hs_clnt y) (hs_links y) v (hs_notifier y) (hs_died y) (hs_crash_calls y) (hs_delivered y) (hs_fds y) (hs_held y) (hs_tick y).
Definition set_hs_notifier (v : option (Z * Z)) (y : hsys) : hsys :=
  HSys (hs_agm y) (hs_clients y) (hs_cbs y) (hs_srvr y) (hs_clnt y) (hs_links y) (hs_proxy y) v (hs_died y) (hs_crash_calls y) (hs_delivered y) (hs_fds y) (hs_held y) (hs_tick y).
Definition set_hs_died (v : bool) (y : hsys) : hsys :=
  HSys (hs_agm y) (hs_clients y) (hs_cbs y) (hs_srvr y) (hs_clnt y) (hs_links y) (hs_proxy y) (hs_notifier y) v (hs_crash_calls y) (hs_delivered y) (hs_fds y) (hs_held y) (hs_tick y).
Definition set_hs_crash_calls (v : list Z) (y : hsys) : hsys :=
  HSys (hs_agm y) (hs_clients y) (hs_cbs y) (hs_srvr y) (hs_clnt y) (hs_links y) (hs_proxy y) (hs_notifier y) (hs_died y) v (hs_delivered y) (hs_fds y) (hs_held y) (hs_tick y).
Definition set_hs_delivered (v : list hw_delivery) (y : hsys) : hsys :=
  HSys (hs_agm y) (hs_clients y) (hs_cbs y) (hs_srvr y) (hs_clnt y) (hs_links y) (hs_proxy y) (hs_notifier y) (hs_died y) (hs_crash_calls y) v (hs_fds y) (hs_held y) (hs_tick y).
Definition set_hs_fds (v : list Z) (y : hsys) : hsys :=
  HSys (hs_agm y) (hs_clients y) (hs_cbs y) (hs_srvr y) (hs_clnt y) (hs_links y) (hs_proxy y) (hs_notifier y) (hs_died y) (hs_crash_calls y) (hs_delivered y) v (hs_held y) (hs_tick y).
Definition set_hs_held (v : list hw_lock) (y : hsys) : hsys :=
  HSys (hs_agm y) (hs_clients y) (hs_cbs y) (hs_srvr y) (hs_clnt y) (hs_links y) (hs_proxy y) (hs_notifier y) (hs_died y) (hs_crash_calls y) (hs_delivered y) (hs_fds y) v (hs_tick y).
Definition set_hs_tick (v : nat) (y : hsys) : hsys :=
  HSys (hs_agm y) (hs_clients y) (hs_cbs y) (hs_srvr y) (hs_clnt y) (hs_links y) (hs_proxy y) (hs_notifier y) (hs_died y) (hs_crash_calls y) (hs_delivered y) (hs_fds y) (hs_held y) v.

Abbreviation HSYS := (M hsys).

(** What comes from outside: which allocations succeed, whether the service
    manager knows the service, the pid of the client, the bytes of new memory
    and of variables without a value, the data a read gives, the descriptors the
    client gets for the ones sent and from [dup], the objects a process makes, the
    address of [ipc_callback] in the server. *)
Class HwBinder : Type := {
  hw_alloc : nat -> bool;
  hw_found : bool;
  hw_pid : Z;
  hw_junk : Z;
  hw_fd : nat -> Z;
  hw_object : nat -> Z;
  addr_ipc_callback : Z
}.

(** ** Steps *)

Section Steps.
Context `{HwBinder}.

(** A call of the service in the server. *)
Definition hw_srv {A} (m : AGM A) : HSYS A := fun y =>
  match m (hs_agm y) with
  | Ret a w => Ret a (set_hs_agm w y)
  | Crash why => Crash why
  end.

Definition hw_tick : HSYS nat := fun y => Ret (hs_tick y) (set_hs_tick (S (hs_tick y)) y).
Definition hw_calloc : HSYS bool := let! n := hw_tick in ret (hw_alloc n).

Definition hw_acquire (l : hw_lock) : HSYS unit := fun y =>
  if bool_decide (l ∈ hs_held y) then Crash SelfDeadlock else Ret tt (set_hs_held (l :: hs_held y) y).
Definition hw_release (l : hw_lock) : HSYS unit :=
  modify (fun y => set_hs_held (list_difference (hs_held y) [l]) y).

(** ** [hidl_vec] *)

(** [v.resize(n)]: more than 2^32 - 1 elements are refused. *)
Definition hidl_resize {T} (fresh : T) (n : Z) (v : list T) : HSYS (list T) :=
  if 2 ^ 32 <=? n then crash_with Aborted
  else ret (take (Z.to_nat n) v ++ replicate (Z.to_nat n - length v) fresh).

(** [v.data()[i]], or [*(v.data() + i)] *)
Definition hidl_at {T} (i : nat) (v : list T) : HSYS T :=
  match v with
  | [] => crash_with NullDeref
  | _ => the OutOfBounds (v !! i)
  end.
Definition hidl_put {T} (i : nat) (f : T -> T) (v : list T) : HSYS (list T) :=
  let! x := hidl_at i v in ret (<[i := f x]> v).

(** [hidl_vec<uint8_t> v; v.resize(n); memcpy(v.data(), src, n)] *)
Definition hidl_bytes (src : list Z) (n : Z) : HSYS (list Z) :=
  let! v := hidl_resize hw_junk n [] in memcpy v src n.
End Steps.

(** ** The structures of types.hal

    Members of a type [hidl_vec] travel with the element; the members and the
    padding before them are the words of the element. *)

Section Types.
Context `{HwBinder}.

(** [AgmMediaConfig] *)
Definition media_fresh : media_config := MediaConfig hw_junk hw_junk hw_junk hw_junk.

(** [AgmSessionConfig]: [AgmSessionCodec] is a structure, where the codec of the
    service is a union; 160 bytes. *)
Definition sizeof_AgmSessionConfig : nat := 160.
Definition session_fresh : list Z := replicate sizeof_AgmSessionConfig hw_junk.

(** [AgmBufferConfig], with 32 bits for the size. *)
Record hidl_buffer : Type := HidlBuffer { hb_count : Z; hb_size : Z }.
Definition buffer_fresh : hidl_buffer := HidlBuffer hw_junk hw_junk.

(** [AgmTagConfig]: two words and a vector. *)
Record hidl_tag : Type := HidlTag { ht_tag : Z; ht_num_tkvs : Z; ht_kv : list key_value }.
Definition tag_fresh : hidl_tag := HidlTag hw_junk hw_junk [].
Definition sizeof_agm_tag_config : nat := 8.

(** [AgmCalConfig]: a word, a word of padding, and a vector. *)
Record hidl_cal : Type := HidlCal { hl_num_ckvs : Z; hl_pad : Z; hl_kv : list key_value }.
Definition cal_fresh : hidl_cal := HidlCal hw_junk hw_junk [].
Definition sizeof_agm_cal_config : nat := 4.
Definition sizeof_AgmCalConfig : nat := 24.
Definition sizeof_AgmKeyValue : nat := 8.

(** [AgmEventRegCfg] *)
Record hidl_reg : Type := HidlReg {
  hr_module_instance_id : Z;
  hr_event_id : Z;
  hr_payload_size : Z;
  hr_is_register : Z;
  hr_payload : list Z
}.
Definition reg_fresh : hidl_reg := HidlReg hw_junk hw_junk hw_junk hw_junk [].
Definition sizeof_agm_event_reg_cfg : Z := 16.

(** [AgmEventCbParams] *)
Record hidl_event : Type := HidlEvent {
  he_source_module_id : Z;
  he_event_id : Z;
  he_payload_size : Z;
  he_payload : list Z
}.
Definition event_fresh : hidl_event := HidlEvent hw_junk hw_junk hw_junk [].
Definition sizeof_agm_event_cb_params : Z := 12.

(** [AifInfo] *)
Definition aif_fresh : string * Z := (EmptyString, hw_junk).

(** [((AgmKeyValue* )p)->key] and [->value]: the first two words of the element. *)
Definition tag_kv (t : hidl_tag) : key_value := KV (ht_tag t) (ht_num_tkvs t).
Definition set_tag_kv (k : key_value) (t : hidl_tag) : hidl_tag := HidlTag (kv_key k) (kv_val k) (ht_kv t).
Definition cal_kv (c : hidl_cal) : key_value := KV (hl_num_ckvs c) (hl_pad c).
Definition set_cal_kv (k : key_value) (c : hidl_cal) : hidl_cal := HidlCal (kv_key k) (kv_val k) (hl_kv c).
End Types.

(** ** Key values behind the first element *)

Section KeyValues.
Context `{HwBinder} {T : Type}.

(** The loops over [i]: the element [base + sizeof(AgmKeyValue) * i]. *)
Fixpoint put_kvs (put : key_value -> T -> T) (at_ : nat) (l : list key_value) (v : list T) : HSYS (list T) :=
  match l with
  | [] => ret v
  | k :: l =>
      let! v := hidl_put at_ (put k) v in
      put_kvs put (at_ + sizeof_AgmKeyValue) l v
  end.

Fixpoint get_kvs (get : T -> key_value) (at_ n : nat) (v : list T) : HSYS (list key_value) :=
  match n with
  | O => ret []
  | S n =>
      let! x := hidl_at at_ v in
      let! l := get_kvs get (at_ + sizeof_AgmKeyValue) n v in
      ret (get x :: l)
  end.
End KeyValues.
