(* ===== verification/HwServer.v ===== *)
(** * The hwbinder server (ipc/HwBinders/agm_ipc_service/src/agm_server_wrapper.cpp)

    [AGM] copies the arguments of a call out of their [hidl_vec]s, calls the
    service and returns the results, which the C++ hands to [_hidl_cb].  The
    server keeps the handles each process opened, and its callbacks, for the death of the
    process.  What [calloc] gives is never freed. *)

From S2P Require Export Hidl.
Open Scope Z_scope.
#[export] Set Default Goal Selector "!".

Section HwServer.
Context `{Env, HwBinder}.

(** ** Clients *)

(** [client_list], walked; before [list_init] its NULL [next] is followed. *)
Definition hw_clients : HSYS (list hw_client) := let! l := gets hs_clients in the NullDeref l.
Definition hw_clbks : HSYS (list hw_clbk) := let! l := gets hs_cbs in the NullDeref l.

(** The loop of [add_handle_to_list]: [None] when no entry has the pid; [ok] is
    whether the handle's node was allocated. *)
Fixpoint add_to_client (pid handle : Z) (ok : bool) (l : list hw_client) : option (list hw_client) :=
  match l with
  | [] => None
  | c :: l =>
      if hc_pid c =? pid then Some ((if ok then set_hc_handles (hc_handles c ++ [handle]) c else c) :: l)
      else (fun l => c :: l) <$> add_to_client pid handle ok l
  end.

(** The entry made first is only used for a new client. *)
Definition add_handle_to_list (pid handle : Z) : HSYS unit :=
  let! l := gets hs_clients in
  do! modify (set_hs_clients (Some (default [] l))) ;
  let! client_handle := hw_calloc in
  if negb client_handle then ret tt else
  do! hw_acquire HClients ;
  let! l := hw_clients in
  let! hndl := hw_calloc in
  let l := match add_to_client pid handle hndl l with
           | Some l => l
           | None => l ++ [HwClient pid (if hndl then [handle] else [])]
           end in
  do! modify (set_hs_clients (Some l)) ;
  hw_release HClients.

(** The loops of [serviceDied]. *)
Fixpoint unregister_callbacks (cookie : Z) (l : list hw_clbk) : HSYS (list hw_clbk) :=
  match l with
  | [] => ret []
  | k :: l =>
      let! heap := gets hs_srvr in
      let! s := deref (hk_srv k) heap in
      if sk_pid s =? cookie then
        do! hw_srv (agm_session_register_cb (sk_session_id s) 0 (sk_event s) (hk_srv k)) ;
        unregister_callbacks cookie l
      else let! rest := unregister_callbacks cookie l in ret (k :: rest)
  end.

Fixpoint hw_close_handles (l : list Z) : HSYS unit :=
  match l with
  | [] => ret tt
  | h :: l =>
      do! (if h =? 0 then ret tt else let! _ := hw_srv (agm_session_close h) in ret tt) ;
      hw_close_handles l
  end.

Fixpoint hw_bury (cookie : Z) (l : list hw_client) : HSYS (list hw_client) :=
  match l with
  | [] => ret []
  | c :: l =>
      if hc_pid c =? cookie then do! hw_close_handles (hc_handles c) ; hw_bury cookie l
      else let! rest := hw_bury cookie l in ret (c :: rest)
  end.

(** [client_death_notifier::serviceDied] *)
Definition serviceDied (cookie : Z) : HSYS unit :=
  let! cbs := gets hs_cbs in
  do! match cbs with
      | None => ret tt
      | Some _ =>
          do! hw_acquire HClbks ;
          let! l := hw_clbks in
          let! l := unregister_callbacks cookie l in
          do! modify (set_hs_cbs (Some l)) ;
          hw_release HClbks
      end ;
  do! hw_acquire HClients ;
  let! clients := gets hs_clients in
  do! match clients with
      | None => ret tt
      | Some l => let! l := hw_bury cookie l in modify (set_hs_clients (Some l))
      end ;
  hw_release HClients.

(** ** Events *)

(** [AGMCallback::event_callback], in the client. *)
Definition event_callback (session_id : Z) (event_params : list hidl_event) (clbk_data : Z) : HSYS Z :=
  let! e := hidl_at 0 event_params in
  let! ok := hw_calloc in
  if negb ok then crash_with NullDeref else
  let n := he_payload_size e in
  let! payload := memcpy (replicate (Z.to_nat n) 0) (he_payload e) n in
  let! heap := gets hs_clnt in
  let! cl := deref clbk_data heap in
  if ck_func cl =? 0 then crash_with NullDeref else
  do! modify (fun y => set_hs_delivered (hs_delivered y ++
        [HwDelivery (ck_func cl) session_id
           (EventParams (he_source_module_id e) (he_event_id e) payload) (ck_clnt_data cl)]) y) ;
  ret 0.

(** [ipc_callback], in the server. *)
Definition ipc_callback (session_id : Z) (evt_param : event_params) (client_data : Z) : HSYS unit :=
  let n := u32 (Z.of_nat (length (ev_payload evt_param))) in
  let! evt_param_l := hidl_resize event_fresh (sizeof_agm_event_cb_params + n) [] in
  let! payload := hidl_bytes (ev_payload evt_param) n in
  let! evt_param_l := hidl_put 0 (fun _ =>
    HidlEvent (ev_source_module_id evt_param) (ev_event_id evt_param) n payload) evt_param_l in
  let! heap := gets hs_srvr in
  let! sr_clbk_dat := deref client_data heap in
  if sk_clbk_binder sr_clbk_dat =? 0 then crash_with NullDeref else
  let! _ := event_callback session_id evt_param_l (sk_clnt_data sr_clbk_dat) in
  ret tt.

(** ** The methods of AGM *)

Definition ipc_agm_init : HSYS Z := ret 0.
Definition ipc_agm_deinit : HSYS Z := ret 0.

Definition ipc_agm_aif_set_media_config (aif_id : Z) (media_config : list media_config) : HSYS Z :=
  let! ok := hw_calloc in
  if negb ok then ret (- ENOMEM) else
  let! med_config_l := hidl_at 0 media_config in
  hw_srv (agm_aif_set_media_config aif_id (Some med_config_l)).

(** [calloc(1, size)] and [memcpy] from a vector: [None] without memory. *)
Definition copy_in (size : Z) (v : list Z) : HSYS (option (list Z)) :=
  let! ok := hw_calloc in
  if negb ok then ret None else
  let! b := memcpy (replicate (Z.to_nat size) 0) v size in
  ret (Some b).

Definition ipc_agm_aif_set_metadata (aif_id size : Z) (metadata : list Z) : HSYS Z :=
  let! metadata_l := copy_in size metadata in
  match metadata_l with
  | None => ret (- ENOMEM)
  | Some b => hw_srv (agm_aif_set_metadata aif_id size b)
  end.
Definition ipc_agm_session_set_metadata (session_id size : Z) (metadata : list Z) : HSYS Z :=
  let! metadata_l := copy_in size metadata in
  match metadata_l with
  | None => ret (- ENOMEM)
  | Some b => hw_srv (agm_session_set_metadata session_id size b)
  end.
Definition ipc_agm_session_aif_set_metadata (session_id aif_id size : Z) (metadata : list Z) : HSYS Z :=
  let! metadata_l := copy_in size metadata in
  match metadata_l with
  | None => ret (- ENOMEM)
  | Some b => hw_srv (agm_session_aif_set_metadata session_id aif_id size b)
  end.
Definition ipc_agm_session_aif_connect (session_id aif_id : Z) (state : bool) : HSYS Z :=
  hw_srv (agm_session_aif_connect session_id aif_id state).

(** The status, the payload and its size.  The service writes at most [size]
    bytes, the rest of the buffer is 0; it gets NULL when [size] is 0. *)
Definition ipc_agm_session_aif_get_tag_module_info (session_id aif_id size : Z) : HSYS (Z * list Z * Z) :=
  let! ok := (if nz size then hw_calloc else ret true) in
  if negb ok then ret (- ENOMEM, [], size) else
  let! (r, out) := hw_srv (agm_session_aif_get_tag_module_info session_id aif_id
                             (if nz size then Some size else None)) in
  let size_local := from_option snd size out in
  let! payload_hidl := (if nz size
    then hidl_bytes (fit (Z.to_nat size) (from_option fst [] out)) size_local
    else hidl_resize hw_junk size_local []) in
  ret (r, payload_hidl, u32 size_local).

Definition ipc_agm_session_get_params (session_id size : Z) (buff : list Z) : HSYS (Z * list Z) :=
  let! payload_local := copy_in size buff in
  match payload_local with
  | None => ret (- ENOMEM, [])
  | Some b =>
      let! payload_hidl := hidl_resize hw_junk size [] in
      let! (r, b) := hw_srv (agm_session_get_params session_id b) in
      if nz r then ret (r, payload_hidl)
      else let! payload_hidl := memcpy payload_hidl b size in ret (r, payload_hidl)
  end.

Definition ipc_agm_aif_set_params (aif_id : Z) (payload : list Z) (size : Z) : HSYS Z :=
  let! payload_local := copy_in size payload in
  match payload_local with
  | None => ret (- ENOMEM)
  | Some b => hw_srv (agm_aif_set_params aif_id b)
  end.
Definition ipc_agm_session_aif_set_params (session_id aif_id : Z) (payload : list Z) (size : Z) : HSYS Z :=
  let! payload_local := copy_in size payload in
  match payload_local with
  | None => ret (- ENOMEM)
  | Some b => hw_srv (agm_session_aif_set_params session_id aif_id b)
  end.
Definition ipc_agm_session_set_params (session_id : Z) (payload : list Z) (size : Z) : HSYS Z :=
  let! payload_local := copy_in size payload in
  match payload_local with
  | None => ret (- ENOMEM)
  | Some b => hw_srv (agm_session_set_params session_id b)
  end.

Definition ipc_agm_session_aif_set_cal (session_id aif_id : Z) (cal_config : list hidl_cal) : HSYS Z :=
  let! c := hidl_at 0 cal_config in
  let! ok := hw_calloc in
  if negb ok then ret (- ENOMEM) else
  let! kvs := get_kvs cal_kv sizeof_agm_cal_config (Z.to_nat (hl_num_ckvs c)) cal_config in
  hw_srv (agm_session_aif_set_cal session_id aif_id kvs).

Definition ipc_agm_set_params_with_tag (session_id aif_id : Z) (tag_config : list hidl_tag) : HSYS Z :=
  let! t := hidl_at 0 tag_config in
  let! ok := hw_calloc in
  if negb ok then ret (- ENOMEM) else
  let! kvs := get_kvs tag_kv sizeof_agm_tag_config (Z.to_nat (ht_num_tkvs t)) tag_config in
  hw_srv (agm_set_params_with_tag session_id aif_id (ht_tag t) (KVec (length kvs) (Some kvs))).

(** The payload is read byte by byte from the vector in the element. *)
Definition ipc_agm_session_register_for_events (session_id : Z) (evt_reg_cfg : list hidl_reg) : HSYS Z :=
  let! e := hidl_at 0 evt_reg_cfg in
  let! ok := hw_calloc in
  if negb ok then ret (- ENOMEM) else
  let n := hr_payload_size e in
  let! payload := memcpy (replicate (Z.to_nat n) 0) (hr_payload e) n in
  hw_srv (agm_session_register_for_events session_id
    (Some (EventRegCfg (hr_module_instance_id e) (hr_event_id e) payload (hr_is_register e)))).

(** The handle of a session that was not opened is not initialised.  The handle is
    added after the results were handed over. *)
Definition ipc_agm_session_open (pid session_id : Z) : HSYS (Z * list Z) :=
  let! (r, out) := hw_srv (agm_session_open session_id true) in
  let handle := default hw_junk out in
  let! handle_ret := hidl_resize hw_junk 8 [] in
  let! handle_ret := hidl_put 0 (fun _ => handle) handle_ret in
  do! (if nz r then ret tt else add_handle_to_list pid handle) ;
  ret (r, handle_ret).

Definition ipc_agm_session_set_config (hndl : Z) (session_config : list (list Z))
    (media_config : list media_config) (buffer_config : list hidl_buffer) : HSYS Z :=
  let! ok := hw_calloc in
  if negb ok then ret (- ENOMEM) else
  let! media_config_local := hidl_at 0 media_config in
  let! ok := hw_calloc in
  if negb ok then ret (- ENOMEM) else
  let! s := hidl_at 0 session_config in
  let! session_config_local := memcpy (replicate sizeof_session_config 0) s (Z.of_nat sizeof_session_config) in
  let! ok := hw_calloc in
  if negb ok then ret (- ENOMEM) else
  let! b := hidl_at 0 buffer_config in
  hw_srv (agm_session_set_config hndl (session_of session_config_local) media_config_local
            (BufferConfig (hb_count b) (hb_size b))).

(** The handle goes from every client that has it, and a client without handles goes. *)
Definition drop_handle (hndl : Z) (l : list hw_client) : list hw_client :=
  List.filter (fun c => negb (bool_decide (hc_handles c = [])))
    ((fun c => set_hc_handles (List.filter (fun h => negb (h =? hndl)) (hc_handles c)) c) <$> l).

Definition ipc_agm_session_close (hndl : Z) : HSYS Z :=
  do! hw_acquire HClients ;
  let! l := hw_clients in
  do! modify (set_hs_clients (Some (drop_handle hndl l))) ;
  do! hw_release HClients ;
  hw_srv (agm_session_close hndl).

Definition ipc_agm_session_prepare (hndl : Z) : HSYS Z := hw_srv (agm_session_prepare hndl).
Definition ipc_agm_session_start (hndl : Z) : HSYS Z := hw_srv (agm_session_start hndl).
Definition ipc_agm_session_stop (hndl : Z) : HSYS Z := hw_srv (agm_session_stop hndl).
Definition ipc_agm_session_pause (hndl : Z) : HSYS Z := hw_srv (agm_session_pause hndl).
Definition ipc_agm_session_resume (hndl : Z) : HSYS Z := hw_srv (agm_session_resume hndl).
Definition ipc_agm_session_eos (hndl : Z) : HSYS Z := hw_srv (agm_session_eos hndl).

(** The status, the buffer and the count; the buffer is zero but for the bytes the service stored. *)
Definition ipc_agm_session_read (hndl count : Z) : HSYS (Z * list Z * Z) :=
  let! ok := hw_calloc in
  if negb ok then ret (- ENOMEM, [], count) else
  let! (r, cnt, stored) := hw_srv (agm_session_read hndl count) in
  let! buff_ret := hidl_bytes (fit (Z.to_nat count) stored) count in
  ret (r, buff_ret, u32 cnt).

Definition ipc_agm_session_write (hndl : Z) (buff : list Z) (count : Z) : HSYS (Z * Z) :=
  let! buffer := copy_in count buff in
  match buffer with
  | None => ret (- ENOMEM, count)
  | Some b => let! (r, cnt) := hw_srv (agm_session_write hndl b) in ret (r, u32 cnt)
  end.

(** A [size_t] returned as [int32_t]. *)
Definition ipc_agm_get_hw_processed_buff_cnt (hndl dir : Z) : HSYS Z :=
  let! n := hw_srv (agm_get_hw_processed_buff_cnt hndl dir) in ret (s32 n).

(** The entries the service does not write are 0.  The status is overwritten. *)
Definition ipc_agm_get_aif_info_list (num_aif_info : Z) : HSYS (Z * list (string * Z) * Z) :=
  let! ok := (if nz num_aif_info then hw_calloc else ret true) in
  if negb ok then ret (- ENOMEM, [], num_aif_info) else
  let! (_, out) := hw_srv (agm_get_aif_info_list (nz num_aif_info) (Some num_aif_info)) in
  let! aif_list_ret := hidl_resize aif_fresh (Z.of_nat sizeof_aif_info * num_aif_info) [] in
  let n := Z.to_nat num_aif_info in
  let infos := from_option fst [] out in
  let aif_list := infos ++ replicate (n - length infos) (EmptyString, 0) in
  ret (0, take n aif_list ++ drop n aif_list_ret, u32 (from_option snd num_aif_info out)).

Definition ipc_agm_session_set_loopback (capture_session_id playback_session_id : Z) (state : bool) : HSYS Z :=
  hw_srv (agm_session_set_loopback capture_session_id playback_session_id state).
Definition ipc_agm_session_set_ec_ref (capture_session_id aif_id : Z) (state : bool) : HSYS Z :=
  hw_srv (agm_session_set_ec_ref capture_session_id aif_id state).

(** The loop that looks for a registration to take back: the last one that
    matches.  [found] is the address known so far. *)
Fixpoint find_registration (session_id evt_type clnt_data : Z) (found : Z) (heap : list srvr_clbk)
    (l : list hw_clbk) : HSYS Z :=
  match l with
  | [] => ret found
  | k :: l =>
      let! s := deref (hk_srv k) heap in
      let found := if (sk_session_id s =? session_id) && (sk_event s =? evt_type) && (hk_clt_data k =? clnt_data)
                   then hk_srv k else found in
      find_registration session_id evt_type clnt_data found heap l
  end.

(** [cb] is the client's object, 0 for none.  Without one, [sr_clbk_data] is not
    initialised. *)
Definition ipc_agm_session_register_callback (pid session_id cb evt_type ipc_client_data clnt_data : Z) : HSYS Z :=
  let! reg := (if nz cb then
      do! modify (fun y => set_hs_links (hs_links y ++ [pid]) y) ;
      let! heap := gets hs_srvr in
      let sr_clbk_data := addr_of (length heap) in
      do! modify (set_hs_srvr (heap ++ [SrvrClbk session_id cb evt_type ipc_client_data pid])) ;
      let! l := gets hs_cbs in
      do! modify (set_hs_cbs (Some (default [] l))) ;
      let! ok := hw_calloc in
      if negb ok then ret None else
      do! hw_acquire HClbks ;
      let! l := hw_clbks in
      do! modify (set_hs_cbs (Some (l ++ [HwClbk clnt_data sr_clbk_data]))) ;
      do! hw_release HClbks ;
      ret (Some (addr_ipc_callback, sr_clbk_data))
    else
      do! hw_acquire HClbks ;
      let! l := hw_clbks in
      let! heap := gets hs_srvr in
      let! sr_clbk_data := find_registration session_id evt_type clnt_data hw_junk heap l in
      do! hw_release HClbks ;
      ret (Some (0, sr_clbk_data))) in
  match reg with
  | None => ret (- ENOMEM)
  | Some (ipc_cb, sr_clbk_data) =>
      if sr_clbk_data =? 0 then ret (- ENOMEM)
      else hw_srv (agm_session_register_cb session_id ipc_cb evt_type sr_clbk_data)
  end.

(** [ts] is not initialised. *)
Definition ipc_agm_get_session_time (hndl : Z) : HSYS (Z * Z) :=
  let! (r, out) := hw_srv (agm_get_session_time hndl true) in ret (r, default hw_junk out).
Definition ipc_agm_get_buffer_timestamp (session_id : Z) : HSYS (Z * Z) :=
  let! (r, out) := hw_srv (agm_get_buffer_timestamp session_id true) in ret (r, default 0 out).

(** [MmapBufInfo]: descriptor and size of the two buffers, where they are asked for. *)
Definition mmap_buf_info : Type := (option (Z * Z) * option (Z * Z))%type.
Definition ipc_agm_session_get_buf_info (session_id flag : Z) : HSYS (Z * mmap_buf_info) :=
  let! (r, info) := hw_srv (agm_session_get_buf_info session_id (BufInfo hw_junk hw_junk hw_junk hw_junk) flag) in
  if nz r then ret (r, (None, None)) else
  ret (r, (if nz (Z.land flag DATA_BUF) then Some (data_buf_fd info, data_buf_size info) else None,
           if nz (Z.land flag POS_BUF) then Some (pos_buf_fd info, pos_buf_size info) else None)).

(** [AGM()] *)
Definition AGM_new : HSYS bool := let! r := hw_srv agm_init in ret (r =? 0).
End HwServer.
