(* ===== verification/HwClient.v ===== *)
(** * The hwbinder client library (ipc/HwBinders/agm_ipc_client/src/agm_client_wrapper.cpp)

    The functions of agm_api.h in the client's process: each finds the service,
    copies its arguments into [hidl_vec]s, and calls the method of [AGM].  The
    functions the code passes for the results run before the method returns. *)

From S2P Require Export HwServer.
Open Scope Z_scope.
#[export] Set Default Goal Selector "!".

Section HwClient.
Context `{Env, HwBinder}.

(** [get_agm_server]: whether it found the service. *)
Definition get_agm_server : HSYS bool :=
  do! hw_acquire HInit ;
  let! agm_client := gets hs_proxy in
  let! found := (if agm_client : bool then ret true
    else if hw_found then
      do! modify (set_hs_proxy true) ;
      let! notifier := gets hs_notifier in
      do! match notifier with
          | Some _ => ret tt
          | None => modify (set_hs_notifier (Some (0, 0)))
          end ;
      ret true
    else ret false) in
  do! hw_release HInit ;
  ret found.

(** [server_death_notifier::serviceDied], with the calls of the crash function
    recorded by their cookie. *)
Definition server_serviceDied : HSYS unit :=
  do! modify (set_hs_died true) ;
  let! notifier := gets hs_notifier in
  match notifier with
  | Some (cb, cookie) =>
      if nz cb then modify (fun y => set_hs_crash_calls (hs_crash_calls y ++ [cookie]) y) else ret tt
  | None => ret tt
  end.

(** The status -ESRCH is computed and 0 returned. *)
Definition agm_register_service_crash_callback (cb cookie : Z) : HSYS Z :=
  do! hw_acquire HInit ;
  let! agm_client := gets hs_proxy in
  let! found := (if agm_client : bool then ret true
    else if hw_found then do! modify (set_hs_proxy true) ; ret true else ret false) in
  do! (if found : bool then modify (set_hs_notifier (Some (cb, cookie))) else ret tt) ;
  do! hw_release HInit ;
  ret 0.

(** [if (!agm_server_died) { ... agm_client->...}]; [dead] is what is returned otherwise. *)
Definition if_served {A} (dead : A) (body : HSYS A) : HSYS A :=
  let! agm_server_died := gets hs_died in
  if agm_server_died : bool then ret dead else
  let! agm_client := get_agm_server in
  if agm_client : bool then body else crash_with NullDeref.

Definition agm_init : HSYS Z := ret 0.
Definition agm_deinit : HSYS Z := ret 0.

(** [hidl_vec<T> v; v.resize(n); *v.data() = x] *)
Definition hidl_of {T} (fresh : T) (n : Z) (x : T) : HSYS (list T) :=
  let! v := hidl_resize fresh n [] in hidl_put 0 (fun _ => x) v.

Definition agm_aif_set_media_config (audio_intf : Z) (media_config : media_config) : HSYS Z :=
  if_served (- EINVAL)
    (let! media_config_hidl := hidl_of media_fresh (Z.of_nat sizeof_media_config) media_config in
     ipc_agm_aif_set_media_config audio_intf media_config_hidl).

Definition agm_session_set_config (handle : Z) (session_config : session_config)
    (media_config : media_config) (buffer_config : buffer_config) : HSYS Z :=
  if_served (- EINVAL)
    (let! session_config_hidl := hidl_resize session_fresh (Z.of_nat sizeof_session_config) [] in
     let! s := memcpy session_fresh (session_bytes session_config) (Z.of_nat sizeof_session_config) in
     let! session_config_hidl := hidl_put 0 (fun _ => s) session_config_hidl in
     let! media_config_hidl := hidl_of media_fresh (Z.of_nat sizeof_media_config) media_config in
     let! buffer_config_hidl := hidl_of buffer_fresh (Z.of_nat sizeof_buffer_config)
                                  (HidlBuffer (bc_count buffer_config) (u32 (bc_size buffer_config))) in
     ipc_agm_session_set_config handle session_config_hidl media_config_hidl buffer_config_hidl).

Definition agm_aif_set_metadata (audio_intf size : Z) (metadata : list Z) : HSYS Z :=
  if_served (- EINVAL)
    (let! metadata_hidl := hidl_bytes metadata size in
     ipc_agm_aif_set_metadata audio_intf size metadata_hidl).
Definition agm_session_set_metadata (session_id size : Z) (metadata : list Z) : HSYS Z :=
  if_served (- EINVAL)
    (let! metadata_hidl := hidl_bytes metadata size in
     ipc_agm_session_set_metadata session_id size metadata_hidl).
Definition agm_session_aif_set_metadata (session_id audio_intf size : Z) (metadata : list Z) : HSYS Z :=
  if_served (- EINVAL)
    (let! metadata_hidl := hidl_bytes metadata size in
     ipc_agm_session_aif_set_metadata session_id audio_intf size metadata_hidl).

Definition agm_session_close (handle : Z) : HSYS Z := if_served (- EINVAL) (ipc_agm_session_close handle).
Definition agm_session_prepare (handle : Z) : HSYS Z := if_served (- EINVAL) (ipc_agm_session_prepare handle).
Definition agm_session_start (handle : Z) : HSYS Z := if_served (- EINVAL) (ipc_agm_session_start handle).
Definition agm_session_stop (handle : Z) : HSYS Z := if_served (- EINVAL) (ipc_agm_session_stop handle).
Definition agm_session_pause (handle : Z) : HSYS Z := if_served (- EINVAL) (ipc_agm_session_pause handle).
Definition agm_session_resume (handle : Z) : HSYS Z := if_served (- EINVAL) (ipc_agm_session_resume handle).
Definition agm_session_eos (handle : Z) : HSYS Z := if_served (- EINVAL) (ipc_agm_session_eos handle).

(** The status and [*handle]. *)
Definition agm_session_open (session_id handle : Z) : HSYS (Z * Z) :=
  if_served (- EINVAL, handle)
    (let! (r, handle_hidl) := ipc_agm_session_open hw_pid session_id in
     let! h := hidl_at 0 handle_hidl in
     ret (r, h)).

Definition agm_session_aif_connect (session_id audio_intf : Z) (state : bool) : HSYS Z :=
  if_served (- EINVAL) (ipc_agm_session_aif_connect session_id audio_intf state).

(** The status, [*byte_count] and the bytes stored in [buf]. *)
Definition agm_session_read (handle byte_count : Z) : HSYS (Z * Z * list Z) :=
  if_served (- EINVAL, byte_count, [])
    (if handle =? 0 then ret (- EINVAL, byte_count, []) else
     let! (r, buff_hidl, cnt) := ipc_agm_session_read handle (u32 byte_count) in
     if r =? - ENOMEM then ret (r, byte_count, []) else
     let! buf := memcpy (replicate (Z.to_nat byte_count) 0) buff_hidl byte_count in
     ret (r, cnt, buf)).

Definition agm_session_write (handle : Z) (buf : list Z) : HSYS (Z * Z) :=
  let byte_count := Z.of_nat (length buf) in
  if_served (- EINVAL, byte_count)
    (if handle =? 0 then ret (- EINVAL, byte_count) else
     let! buf_hidl := hidl_bytes buf byte_count in
     let! (r, cnt) := ipc_agm_session_write handle buf_hidl (u32 byte_count) in
     ret (r, if r =? - ENOMEM then byte_count else cnt)).

Definition agm_session_set_loopback (capture_session_id playback_session_id : Z) (state : bool) : HSYS Z :=
  if_served (- EINVAL) (ipc_agm_session_set_loopback capture_session_id playback_session_id state).
Definition agm_get_hw_processed_buff_cnt (handle dir : Z) : HSYS Z :=
  if_served (size_t_of_int (- EINVAL))
    (let! n := ipc_agm_get_hw_processed_buff_cnt handle dir in ret (size_t_of_int n)).

(** [aif_list] is the pointer, with room for [room] entries: the entries stored and
    [*num_aif_info]. *)
Definition agm_get_aif_info_list (aif_list : Z) (num_aif_info : Z) : HSYS (Z * list (string * Z) * Z) :=
  if_served (- EINVAL, [], num_aif_info)
    (let! (r, aif_list_ret_hidl, num_aif_info_hidl) := ipc_agm_get_aif_info_list (u32 num_aif_info) in
     if r =? - ENOMEM then ret (r, [], num_aif_info) else
     if aif_list =? 0 then ret (r, [], num_aif_info_hidl) else
     if (Z.of_nat (length aif_list_ret_hidl) <? num_aif_info_hidl) || (num_aif_info <? num_aif_info_hidl)
     then crash_with OutOfBounds
     else ret (r, (fun a => (strlcpy AIF_NAME_MAX_LEN a.1, a.2)) <$> take (Z.to_nat num_aif_info_hidl) aif_list_ret_hidl,
               num_aif_info_hidl)).

(** [payload] is the pointer, with room for [size] bytes. *)
Definition agm_session_aif_get_tag_module_info (session_id aif_id payload size : Z) : HSYS (Z * list Z * Z) :=
  if_served (- EINVAL, [], size)
    (let! (r, payload_ret, size_ret) := ipc_agm_session_aif_get_tag_module_info session_id aif_id (u32 size) in
     if r =? - ENOMEM then ret (r, [], size) else
     if payload =? 0 then ret (r, [], size_ret) else
     let! b := memcpy (replicate (Z.to_nat size) 0) payload_ret size_ret in
     ret (r, take (Z.to_nat size_ret) b, size_ret)).

Definition agm_session_get_params (session_id : Z) (payload : list Z) : HSYS (Z * list Z) :=
  let size := Z.of_nat (length payload) in
  if_served (- EINVAL, payload)
    (let! buf_hidl := hidl_bytes payload size in
     let! (r, payload_ret) := ipc_agm_session_get_params session_id (u32 size) buf_hidl in
     if nz r then ret (r, payload)
     else let! payload := memcpy payload payload_ret size in ret (r, payload)).

(** The sizes are cut to 32 bits. *)
Definition agm_aif_set_params (aif_id : Z) (payload : list Z) : HSYS Z :=
  if_served (- EINVAL)
    (let size_hidl := u32 (Z.of_nat (length payload)) in
     let! payload_hidl := hidl_bytes payload size_hidl in
     ipc_agm_aif_set_params aif_id payload_hidl size_hidl).
Definition agm_session_aif_set_params (session_id aif_id : Z) (payload : list Z) : HSYS Z :=
  if_served (- EINVAL)
    (let size_hidl := u32 (Z.of_nat (length payload)) in
     let! payload_hidl := hidl_bytes payload size_hidl in
     ipc_agm_session_aif_set_params session_id aif_id payload_hidl size_hidl).
Definition agm_session_set_params (session_id : Z) (payload : list Z) : HSYS Z :=
  if_served (- EINVAL)
    (let size_hidl := u32 (Z.of_nat (length payload)) in
     let! payload_hidl := hidl_bytes payload size_hidl in
     ipc_agm_session_set_params session_id payload_hidl size_hidl).

(** The key values go into the elements behind the first one. *)
Definition agm_set_params_with_tag (session_id aif_id tag : Z) (tkvs : list key_value) : HSYS Z :=
  if_served (- EINVAL)
    (let num_tkvs := Z.of_nat (length tkvs) in
     let! tag_cfg_hidl := hidl_of tag_fresh
       (Z.of_nat sizeof_agm_tag_config + num_tkvs * Z.of_nat sizeof_AgmKeyValue) (HidlTag tag num_tkvs []) in
     let! tag_cfg_hidl := put_kvs set_tag_kv sizeof_agm_tag_config tkvs tag_cfg_hidl in
     ipc_agm_set_params_with_tag session_id aif_id tag_cfg_hidl).

Definition agm_session_aif_set_cal (session_id aif_id : Z) (cal_config : list key_value) : HSYS Z :=
  if_served (- EINVAL)
    (let num_ckvs := Z.of_nat (length cal_config) in
     let! cal_cfg_hidl := hidl_of cal_fresh
       (Z.of_nat sizeof_AgmCalConfig + num_ckvs * Z.of_nat sizeof_AgmKeyValue) (HidlCal num_ckvs hw_junk []) in
     let! cal_cfg_hidl := put_kvs set_cal_kv sizeof_agm_cal_config cal_config cal_cfg_hidl in
     ipc_agm_session_aif_set_cal session_id aif_id cal_cfg_hidl).

(** [v[i] = b[i]] for every byte of [b]; the vector of the element was never resized. *)
Fixpoint store_bytes (i : nat) (b v : list Z) : HSYS (list Z) :=
  match b with
  | [] => ret v
  | x :: b => let! v := hidl_put i (fun _ => x) v in store_bytes (S i) b v
  end.

Definition agm_session_register_for_events (session_id : Z) (evt_reg_cfg : event_reg_cfg) : HSYS Z :=
  if_served (- EINVAL)
    (let n := Z.of_nat (length (er_payload evt_reg_cfg)) in
     let! v := hidl_resize reg_fresh (sizeof_agm_event_reg_cfg + n) [] in
     let! e := hidl_at 0 v in
     let! payload := store_bytes 0 (er_payload evt_reg_cfg) (hr_payload e) in
     let! v := hidl_put 0 (fun _ => HidlReg (er_module_instance_id evt_reg_cfg) (er_event_id evt_reg_cfg) n
                            (er_is_register evt_reg_cfg) payload) v in
     ipc_agm_session_register_for_events session_id v).

Definition agm_session_set_ec_ref (capture_session_id aif_id : Z) (state : bool) : HSYS Z :=
  if_served (- EINVAL) (ipc_agm_session_set_ec_ref capture_session_id aif_id state).

(** [cb] is the client's function, 0 for NULL. *)
Definition agm_session_register_cb (session_id cb evt_type client_data : Z) : HSYS Z :=
  if_served (- EINVAL)
    (if nz cb then
       let! heap := gets hs_clnt in
       do! modify (set_hs_clnt (heap ++ [ClntClbk session_id cb evt_type client_data])) ;
       let! n := hw_tick in
       ipc_agm_session_register_callback hw_pid session_id (hw_object n) evt_type (addr_of (length heap)) client_data
     else ipc_agm_session_register_callback hw_pid session_id 0 evt_type 0 client_data).

(** The status of the call is dropped. *)
Definition agm_get_session_time (handle timestamp : Z) : HSYS (Z * Z) :=
  if_served (- EINVAL, timestamp)
    (let! (_, ts) := ipc_agm_get_session_time handle in ret (- EINVAL, ts)).
Definition agm_get_buffer_timestamp (session_id timestamp : Z) : HSYS (Z * Z) :=
  if_served (- EINVAL, timestamp) (ipc_agm_get_buffer_timestamp session_id).

(** The descriptors that came are closed when the function for the results is
    left; the one of the data buffer is duplicated before. *)
Definition agm_session_get_buf_info (session_id : Z) (buf_info : buf_info) (flag : Z) : HSYS (Z * Types.buf_info) :=
  if_served (- EINVAL, buf_info)
    (let! (r, (dataSharedMemory, posSharedMemory)) := ipc_agm_session_get_buf_info session_id flag in
     if nz r then ret (r, buf_info) else
     let! buf_info := match dataSharedMemory with
       | None => ret buf_info
       | Some (_, data_size) =>
           let! n := hw_tick in
           do! modify (fun y => set_hs_fds (hw_fd n :: hs_fds y) y) ;
           ret (set_data_buf_size data_size (set_data_buf_fd (hw_fd n) buf_info))
       end in
     let! buf_info := match posSharedMemory with
       | None => ret buf_info
       | Some (_, pos_size) =>
           let! n := hw_tick in ret (set_pos_buf_size pos_size (set_pos_buf_fd (hw_fd n) buf_info))
       end in
     ret (r, buf_info)).
End HwClient.
