(* ===== verification/HwProps.v ===== *)
(** * A call through hwbinder is a call of the service, for most calls

    As for Binder, for every [call]: the function of the client library
    ([hw_remote]) and what the client gets ([hw_seen]). *)

From S2P Require Export AgmCalls HwClient.
Open Scope Z_scope.
#[export] Set Default Goal Selector "!".

(** ** Rules *)

(** The client has found the service, and no lock is held. *)
Record served (y : hsys) : Prop := Served {
  sv_proxy : hs_proxy y = true;
  sv_alive : hs_died y = false;
  sv_held : hs_held y = []
}.

Section HwRules.
Context `{Env, HwBinder} (u : Prop).

Lemma wpg_hw_srv {A} (m : AGM A) Q y a w :
  m (hs_agm y) = Ret a w -> Q a (set_hs_agm w y) -> wpg u (hw_srv m) Q y.
Proof. intros E HQ. unfold wpg, hw_srv. by rewrite E. Qed.

Lemma wpg_hw_tick Q y : Q (hs_tick y) (set_hs_tick (S (hs_tick y)) y) -> wpg u hw_tick Q y.
Proof. exact id. Qed.

Lemma wpg_hw_calloc Q y : Q (hw_alloc (hs_tick y)) (set_hs_tick (S (hs_tick y)) y) -> wpg u hw_calloc Q y.
Proof. exact id. Qed.

Lemma wpg_hw_acquire l Q y : hs_held y = [] -> Q tt (set_hs_held [l] y) -> wpg u (hw_acquire l) Q y.
Proof. intros Hh HQ. unfold wpg, hw_acquire. by rewrite Hh, bool_decide_eq_false_2 by apply not_elem_of_nil. Qed.

Lemma wpg_hw_release l Q y : hs_held y = [l] -> Q tt (set_hs_held [] y) -> wpg u (hw_release l) Q y.
Proof. intros Hh HQ. unfold wpg, hw_release, modify. rewrite Hh. by destruct l. Qed.

Lemma wpg_hw_clients l Q y : hs_clients y = Some l -> Q l y -> wpg u hw_clients Q y.
Proof. intros Hl HQ. unfold hw_clients. apply wpg_bind, wpg_gets. rewrite Hl. exact HQ. Qed.

Lemma wpg_hw_clbks l Q y : hs_cbs y = Some l -> Q l y -> wpg u hw_clbks Q y.
Proof. intros Hl HQ. unfold hw_clbks. apply wpg_bind, wpg_gets. rewrite Hl. exact HQ. Qed.

Lemma wpg_served {A} (dead : A) body Q y : served y -> wpg u body Q y -> wpg u (if_served dead body) Q y.
Proof.
  intros [Hp Ha Hh] HQ. unfold if_served. apply wpg_bind, wpg_gets. rewrite Ha. apply wpg_bind.
  unfold get_agm_server, wpg, hw_acquire, hw_release, bind, gets, modify, ret. rewrite Hh.
  rewrite bool_decide_eq_false_2 by apply not_elem_of_nil.
  destruct y as [? ? ? ? ? ? px ? ? ? ? ? h ?]. cbn in *. subst. cbn. exact HQ.
Qed.

Lemma wpg_resize {T} (fresh : T) n v Q y :
  n < 2 ^ 32 -> Q (take (Z.to_nat n) v ++ replicate (Z.to_nat n - length v) fresh) y ->
  wpg u (hidl_resize fresh n v) Q y.
Proof. intros Hn HQ. unfold hidl_resize. rewrite (proj2 (Z.leb_gt _ _)) by done. by apply wpg_ret. Qed.

Lemma wpg_put {T} i (f : T -> T) v x Q y : v !! i = Some x -> Q (<[i := f x]> v) y -> wpg u (hidl_put i f v) Q y.
Proof. intros Hx HQ. unfold hidl_put, hidl_at. destruct v; [done|]. rewrite Hx. exact HQ. Qed.

Lemma wpg_at {T} i (v : list T) x Q y : v !! i = Some x -> Q x y -> wpg u (hidl_at i v) Q y.
Proof. intros Hx HQ. unfold hidl_at. destruct v; [done|]. rewrite Hx. exact HQ. Qed.

Lemma wpg_hidl_bytes src n Q y :
  n = Z.of_nat (length src) -> n < 2 ^ 32 -> Q src y -> wpg u (hidl_bytes src n) Q y.
Proof.
  intros -> Hn HQ. apply wpg_bind, wpg_resize; [done|]. rewrite Nat2Z.id.
  apply wpg_memcpy_all; [done| |done]. rewrite length_app, length_take, length_replicate. cbn [length]. lia.
Qed.

(** A vector made for one structure: the first element is it. *)
Lemma wpg_hidl_of {T} (fresh x : T) n Q y :
  0 < n < 2 ^ 32 -> (forall v, length v = Z.to_nat n -> v !! 0%nat = Some x -> Q v y) -> wpg u (hidl_of fresh n x) Q y.
Proof.
  intros Hn HQ. apply wpg_bind, wpg_resize; [lia|]. cbn [length]. rewrite take_nil, Nat.sub_0_r. cbn [app].
  destruct (Z.to_nat n) as [|k] eqn:E; [lia|]. eapply wpg_put; [done|]. apply HQ; [|done].
  cbn. by rewrite length_replicate.
Qed.

(** [copy_in] of the bytes of the vector. *)
Lemma wpg_copy_in n v Q y :
  (forall k, hw_alloc k = true) -> n = Z.of_nat (length v) ->
  Q (Some v) (set_hs_tick (S (hs_tick y)) y) -> wpg u (copy_in n v) Q y.
Proof.
  intros Hm Hn HQ. apply wpg_bind, wpg_hw_calloc. rewrite Hm. cbn [negb]. apply wpg_bind, wpg_memcpy_all; [done| |done].
  rewrite length_replicate. lia.
Qed.
End HwRules.

(** ** Key values behind the first element *)

Section KeyValues.
Context `{HwBinder} {T : Type} (u : Prop) (put : key_value -> T -> T) (get : T -> key_value).
Context (put_get : forall k x, get (put k x) = k).

(** They do not overlap, since a key value is written to every eighth element. *)
Lemma wpg_put_kvs l at_ v Q y :
  (at_ + length l * sizeof_AgmKeyValue <= length v + 7)%nat ->
  (forall v', length v' = length v -> (forall i, (i < at_)%nat -> v' !! i = v !! i) ->
    (forall i k, l !! i = Some k -> exists x, v' !! (at_ + i * sizeof_AgmKeyValue)%nat = Some (put k x)) -> Q v' y) ->
  wpg u (put_kvs put at_ l v) Q y.
Proof.
  revert at_ v. induction l as [|k l IH]; intros at_ v Hl HQ; cbn [put_kvs].
  - apply wpg_ret, HQ; done.
  - unfold sizeof_AgmKeyValue in *. cbn [length] in Hl.
    destruct (lookup_lt_is_Some_2 v at_ ltac:(lia)) as [x Hx].
    apply wpg_bind. eapply wpg_put; [exact Hx|]. apply IH.
    { rewrite length_insert. lia. }
    intros v' Hv' Hlow Hhigh. rewrite length_insert in Hv'. apply HQ; [done| |].
    + intros i Hi. rewrite Hlow by lia. apply list_lookup_insert_ne. lia.
    + intros [|i] k' Hk'.
      * injection Hk' as <-. exists x. rewrite Nat.add_0_r, Hlow by lia. apply list_lookup_insert_eq. by eapply lookup_lt_Some.
      * destruct (Hhigh i k' Hk') as [x' Hx']. exists x'. rewrite <- Hx'. f_equal. lia.
Qed.

Lemma wpg_get_kvs l at_ v Q y :
  (forall i k, l !! i = Some k -> exists x, v !! (at_ + i * sizeof_AgmKeyValue)%nat = Some (put k x)) ->
  Q l y -> wpg u (get_kvs get at_ (length l) v) Q y.
Proof.
  revert at_ Q. induction l as [|k l IH]; intros at_ Q Hl HQ; cbn [get_kvs length].
  - by apply wpg_ret.
  - destruct (Hl 0%nat k eq_refl) as [x Hx]. rewrite Nat.add_0_r in Hx.
    apply wpg_bind. eapply wpg_at; [exact Hx|]. apply wpg_bind, IH.
    + intros i k' Hk'. destruct (Hl (S i) k' Hk') as [x' Hx']. exists x'. rewrite <- Hx'. f_equal. unfold sizeof_AgmKeyValue. lia.
    + apply wpg_ret. by rewrite put_get.
Qed.
End KeyValues.

(** ** Calls *)

Section Calls.
Context `{Env, HwBinder}.

(** The function of the client library. *)
Definition hw_remote {A B} (c : call A B) : HSYS B :=
  match c with
  | SetMediaConfig i cfg => HwClient.agm_aif_set_media_config i cfg
  | SetConfig h s m b => HwClient.agm_session_set_config h s m b
  | AifSetMetadata i b => HwClient.agm_aif_set_metadata i (Z.of_nat (length b)) b
  | SetMetadata i b => HwClient.agm_session_set_metadata i (Z.of_nat (length b)) b
  | SessionAifSetMetadata i a b => HwClient.agm_session_aif_set_metadata i a (Z.of_nat (length b)) b
  | Prepare h => HwClient.agm_session_prepare h
  | Start h => HwClient.agm_session_start h
  | Stop h => HwClient.agm_session_stop h
  | Pause h => HwClient.agm_session_pause h
  | Resume h => HwClient.agm_session_resume h
  | Eos h => HwClient.agm_session_eos h
  | Connect i a st => HwClient.agm_session_aif_connect i a st
  | Loopback i j st => HwClient.agm_session_set_loopback i j st
  | EcRef i a st => HwClient.agm_session_set_ec_ref i a st
  | AifSetParams a p => HwClient.agm_aif_set_params a p
  | SessionAifSetParams i a p => HwClient.agm_session_aif_set_params i a p
  | SetParams i p => HwClient.agm_session_set_params i p
  | SetParamsWithTag i a t l => HwClient.agm_set_params_with_tag i a t l
  | SetCal i a l => HwClient.agm_session_aif_set_cal i a l
  | RegisterForEvents i cfg => HwClient.agm_session_register_for_events i cfg
  | GetBuffCnt h d => HwClient.agm_get_hw_processed_buff_cnt h d
  | Open i => HwClient.agm_session_open i 0
  | Close h => HwClient.agm_session_close h
  | Read h n => HwClient.agm_session_read h n
  | Write h b => HwClient.agm_session_write h b
  | AifCount => HwClient.agm_get_aif_info_list 0 0
  | AifList p n => HwClient.agm_get_aif_info_list p n
  | TagInfoSize i a n => HwClient.agm_session_aif_get_tag_module_info i a 0 n
  | TagInfo i a p n => HwClient.agm_session_aif_get_tag_module_info i a p n
  | SessionTime h t => HwClient.agm_get_session_time h t
  | GetParams i p => HwClient.agm_session_get_params i p
  | BufTimestamp i t => HwClient.agm_get_buffer_timestamp i t
  end.

(** Buffers a vector can carry; the sizes of types.hal; an event without a payload,
    and a query of a size that says 0. *)
Definition vec_size (n : Z) : Prop := 0 <= n < 2 ^ 32.
Definition hw_fits {A B} (c : call A B) : Prop :=
  match c with
  | SetConfig _ s _ b => session_fits s /\ vec_size (bc_size b)
  | AifSetMetadata _ b | SetMetadata _ b | AifSetParams _ b | SetParams _ b | GetParams _ b
  | SessionAifSetMetadata _ _ b | SessionAifSetParams _ _ b | Write _ b => vec_size (Z.of_nat (length b))
  | SetParamsWithTag _ _ _ l | SetCal _ _ l => vec_size (Z.of_nat (length l) * 8 + 24)
  | RegisterForEvents _ cfg => er_payload cfg = []
  | Read _ n => vec_size n
  | AifList p n => p <> 0 /\ 0 < n /\ vec_size (n * 32)
  | TagInfoSize _ _ n => n = 0
  | TagInfo _ _ p n => p <> 0 /\ 0 < n /\ vec_size n
  | _ => True
  end.

(** Where the client relies on the service: what it gives fits into what was asked for. *)
Definition hw_within {A B} (c : call A B) : A -> Prop :=
  match c with
  | AifList _ n => fun a => exists l, a.2 = Some (l, Z.of_nat (length l)) /\ Z.of_nat (length l) <= n /\
      Forall aif_fits l
  | AifCount => fun a => from_option (fun o => vec_size o.2) True a.2
  | TagInfoSize _ _ _ => fun a => from_option (fun o => vec_size o.2) True a.2
  | TagInfo _ _ _ n => fun a => from_option (fun o => 0 <= o.2 <= n) True a.2
  | GetParams _ p => fun a => length a.2 = length p
  | _ => fun _ => True
  end.

(** What the client gets: never the status of [agm_get_session_time] and
    [agm_get_aif_info_list], nothing but the status when that is -ENOMEM, and
    what a variable without a value holds where the service gave nothing. *)
Definition unless_nomem {B} (r : Z) (nomem b : B) : B := if r =? - ENOMEM then nomem else b.
Definition hw_seen {A B} (c : call A B) : A -> B :=
  match c with
  | Open _ => fun a => (a.1, default hw_junk a.2)
  | Read h n => fun a => let '(r, n', bytes) := a in
      if (h =? 0) || (r =? - ENOMEM) then (r, n, []) else (r, u32 n', fit (Z.to_nat n) bytes)
  | Write _ b => fun a => (a.1, unless_nomem a.1 (Z.of_nat (length b)) (u32 a.2))
  | GetBuffCnt _ _ => fun n => size_t_of_int (s32 n)
  | AifCount => fun a => (0, [], from_option snd 0 a.2)
  | AifList _ n => fun a => (0, from_option fst [] a.2, from_option snd n a.2)
  | TagInfoSize _ _ n => fun a => (a.1, [], unless_nomem a.1 n (from_option snd n a.2))
  | TagInfo _ _ _ n => fun a =>
      let size := from_option snd n a.2 in
      unless_nomem a.1 (a.1, [], n) (a.1, take (Z.to_nat size) (fit (Z.to_nat n) (from_option fst [] a.2)), size)
  | SessionTime _ _ => fun a => (- EINVAL, default hw_junk a.2)
  | GetParams _ p => fun a => (a.1, if nz a.1 then p else a.2)
  | BufTimestamp _ _ => fun a => (a.1, default 0 a.2)
  | _ => id
  end.

(** What changes in the server besides the service: the handles of the clients. *)
Definition add_handle (pid h : Z) (l : list hw_client) : list hw_client :=
  default (l ++ [HwClient pid [h]]) (add_to_client pid h true l).
Definition hw_tracked {A B} (c : call A B) : A -> list hw_client -> list hw_client :=
  match c with
  | Open _ => fun a l => if nz a.1 then l else add_handle hw_pid (default hw_junk a.2) l
  | Close h => fun _ l => drop_handle h l
  | _ => fun _ l => l
  end.
End Calls.

(** ** Running a call *)

Section Run.
Context `{Env, HwBinder}.
Context (Hmem : forall n, hw_alloc n = true).

(** The call makes the call of the service, and changes the list of clients as tracked. *)
Definition hw_runs {A B} (c : call A B) (a : A) (w : world) (l : list hw_client) (y : hsys) : Prop :=
  wp (hw_remote c) (fun b y' => b = hw_seen c a /\
    exists t, y' = set_hs_tick t (set_hs_clients (Some (hw_tracked c a l)) (set_hs_agm w y))) y.

Lemma hw_same (y : hsys) l t w :
  hs_clients y = Some l ->
  exists t', set_hs_tick t (set_hs_agm w y) = set_hs_tick t' (set_hs_clients (Some l) (set_hs_agm w y)).
Proof. intros Hl. exists t. destruct y; cbn in *. by subst. Qed.

Lemma hw_none (y : hsys) l w :
  hs_clients y = Some l ->
  exists t', set_hs_agm w y = set_hs_tick t' (set_hs_clients (Some l) (set_hs_agm w y)).
Proof. intros Hl. exists (hs_tick y). destruct y; cbn in *. by subst. Qed.

Lemma hw_idle (y : hsys) l :
  hs_clients y = Some l -> exists t', y = set_hs_tick t' (set_hs_clients (Some l) (set_hs_agm (hs_agm y) y)).
Proof. intros Hl. exists (hs_tick y). destruct y; cbn in *. by subst. Qed.

(** [hw_step E]: the rule for the next operation; [E] is the outcome of the call of the service. *)
Ltac hw_step E :=
  cbn [negb]; cbv beta iota zeta;
  lazymatch goal with
  | |- wpg _ (bind _ _) _ _ => apply wpg_bind
  | |- wpg _ (ret _) _ _ => apply wpg_ret
  | |- wpg _ hw_tick _ _ => apply wpg_hw_tick
  | |- wpg _ hw_calloc _ _ => apply wpg_hw_calloc; rewrite Hmem; cbn [negb]
  | |- wpg _ (hw_srv _) _ _ => eapply wpg_hw_srv; [exact E|]
  | |- wpg _ (if_served _ _) _ _ => apply wpg_served; [assumption|]
  | |- wpg _ (copy_in _ _) _ _ => apply wpg_copy_in; [assumption|done|]
  | |- wpg _ (hidl_bytes _ _) _ _ => apply wpg_hidl_bytes; [done|unfold vec_size in *; lia|]
  | |- wpg _ (hidl_of _ _ _) _ _ => apply wpg_hidl_of; [done|intros ? ? ?]
  | |- wpg _ (hidl_at 0 _) _ _ => eapply wpg_at; [eassumption|]
  | |- wpg _ (memcpy _ _ _) _ _ => fail
  | |- wpg _ (hidl_resize _ _ _) _ _ => fail
  | |- wpg _ (hidl_put _ _ _) _ _ => fail
  | |- wpg _ ?m _ _ => let h := head_of m in unfold h
  end.
Ltac hw_run E := repeat hw_step E; cbv beta iota; cbn [fst snd].
Ltac hw_done := split; [reflexivity|first [by apply hw_same|by apply hw_none]].

Lemma hw_plain {A B} (c : call A B) a w y l :
  match c with
  | SetMediaConfig _ _ | AifSetMetadata _ _ | SetMetadata _ _ | SessionAifSetMetadata _ _ _ | Prepare _ | Start _
  | Stop _ | Pause _ | Resume _ | Eos _ | Connect _ _ _ | Loopback _ _ _ | EcRef _ _ _ | GetBuffCnt _ _
  | SessionTime _ _ | BufTimestamp _ _ => True
  | _ => False
  end ->
  direct c (hs_agm y) = Ret a w -> hw_fits c -> served y -> hs_clients y = Some l -> hw_runs c a w l y.
Proof.
  intros Hk E Hf Hs Hl. destruct c; try done; cbn [hw_fits direct] in *; unfold hw_runs; cbn [hw_remote].
  all: hw_run E; try hw_done.
  all: destruct a as [r out]; hw_run E; hw_done.
Qed.

Lemma hw_params {A B} (c : call A B) a w y l :
  match c with AifSetParams _ _ | SessionAifSetParams _ _ _ | SetParams _ _ => True | _ => False end ->
  direct c (hs_agm y) = Ret a w -> hw_fits c -> served y -> hs_clients y = Some l -> hw_runs c a w l y.
Proof.
  intros Hk E Hf Hs Hl. destruct c; try done; cbn [hw_fits direct] in *; unfold hw_runs; cbn [hw_remote].
  all: unfold HwClient.agm_aif_set_params, HwClient.agm_session_aif_set_params, HwClient.agm_session_set_params.
  all: hw_step E; rewrite u32_small by done; hw_run E; hw_done.
Qed.

Lemma hw_set_config h s m b r w y l :
  let c := SetConfig h s m b in
  direct c (hs_agm y) = Ret r w -> hw_fits c -> served y -> hs_clients y = Some l -> hw_runs c r w l y.
Proof.
  cbv zeta. destruct b as [n z]. intros E [Hf Hb] Hs Hl. cbn [direct bc_size] in *. unfold hw_runs. cbn [hw_remote].
  pose proof (length_session_bytes s Hf) as Hlen. unfold HwClient.agm_session_set_config.
  do 2 hw_step E. apply wpg_resize; [done|]. hw_step E.
  apply wpg_memcpy_bytes; rewrite Nat2Z.id; [rewrite Hlen; lia|unfold session_fresh; rewrite length_replicate; apply Nat.leb_le; reflexivity|].
  rewrite take_ge by (rewrite Hlen; lia).
  hw_step E. eapply wpg_put; [done|]. cbn [bc_count bc_size]. rewrite (u32_small z) by done. hw_run E.
  eapply wpg_at; [done|]. hw_step E.
  apply wpg_memcpy_bytes; rewrite Nat2Z.id; [rewrite length_app, Hlen; lia|rewrite length_replicate; lia|].
  rewrite take_app_length' by done. rewrite drop_ge, app_nil_r by (rewrite length_replicate; lia).
  rewrite <- (fit_id (session_bytes s) _ Hlen), session_roundtrip by done. hw_run E. hw_done.
Qed.

Lemma hw_tag i a t kvs r w y l :
  let c := SetParamsWithTag i a t kvs in
  direct c (hs_agm y) = Ret r w -> hw_fits c -> served y -> hs_clients y = Some l -> hw_runs c r w l y.
Proof.
  cbv zeta. intros E Hn Hs Hl. cbn [direct hw_fits] in *. unfold hw_runs, vec_size in *. cbn [hw_remote].
  unfold HwClient.agm_set_params_with_tag. do 2 hw_step E.
  apply wpg_hidl_of; [unfold sizeof_agm_tag_config, sizeof_AgmKeyValue; lia|]. intros v Hv H0v. hw_step E.
  apply wpg_put_kvs; [unfold sizeof_agm_tag_config, sizeof_AgmKeyValue in *; lia|]. intros v' _ Hlow Hkvs.
  pose proof (Hlow 0%nat ltac:(unfold sizeof_agm_tag_config; lia)) as Hfst. rewrite H0v in Hfst.
  hw_run E. cbn [ht_num_tkvs]. rewrite Nat2Z.id. apply (wpg_get_kvs _ set_tag_kv); [by intros []|done|].
  hw_run E. hw_done.
Qed.

Lemma hw_cal i a kvs r w y l :
  let c := SetCal i a kvs in
  direct c (hs_agm y) = Ret r w -> hw_fits c -> served y -> hs_clients y = Some l -> hw_runs c r w l y.
Proof.
  cbv zeta. intros E Hn Hs Hl. cbn [direct hw_fits] in *. unfold hw_runs, vec_size in *. cbn [hw_remote].
  unfold HwClient.agm_session_aif_set_cal. do 2 hw_step E.
  apply wpg_hidl_of; [unfold sizeof_AgmCalConfig, sizeof_AgmKeyValue; lia|]. intros v Hv H0v. hw_step E.
  apply wpg_put_kvs; [unfold sizeof_agm_cal_config, sizeof_AgmCalConfig, sizeof_AgmKeyValue in *; lia|].
  intros v' _ Hlow Hkvs.
  pose proof (Hlow 0%nat ltac:(unfold sizeof_agm_cal_config; lia)) as Hfst. rewrite H0v in Hfst.
  hw_run E. cbn [hl_num_ckvs]. rewrite Nat2Z.id. apply (wpg_get_kvs _ set_cal_kv); [by intros []|done|].
  hw_run E. hw_done.
Qed.

Lemma hw_events i cfg r w y l :
  let c := RegisterForEvents i cfg in
  direct c (hs_agm y) = Ret r w -> hw_fits c -> served y -> hs_clients y = Some l -> hw_runs c r w l y.
Proof.
  cbv zeta. destruct cfg as [m e p g]. intros E Hp Hs Hl. cbn [direct hw_fits er_payload] in *. subst p. unfold hw_runs. cbn [hw_remote].
  unfold HwClient.agm_session_register_for_events. cbn [er_payload length store_bytes er_module_instance_id er_event_id er_is_register].
  do 2 hw_step E. apply wpg_resize; [done|]. hw_step E. eapply wpg_at; [done|]. hw_run E.
  eapply wpg_put; [done|]. hw_run E. eapply wpg_at; [done|]. hw_run E.
  apply wpg_memcpy_all; [done|done|]. hw_run E. hw_done.
Qed.

Lemma hw_read h n r w y l :
  direct (Read h n) (hs_agm y) = Ret r w -> hw_fits (Read h n) -> served y -> hs_clients y = Some l ->
  hw_runs (Read h n) r w l y.
Proof.
  intros E Hn Hs Hl. cbn [direct hw_fits] in *. unfold hw_runs. cbn [hw_remote]. destruct r as [[r n'] bytes].
  unfold HwClient.agm_session_read. hw_step E. destruct (h =? 0) eqn:E0.
  { unfold Agm.agm_session_read, with_handle in E. rewrite E0 in E. injection E as <- <- <- <-. hw_run I.
    split; [cbn [hw_seen]; by rewrite E0|by apply hw_idle]. }
  rewrite u32_small by done. hw_run E.
  apply wpg_hidl_bytes; [rewrite length_fit; unfold vec_size in Hn; lia|apply Hn|]. hw_run E.
  cbn [hw_seen]. rewrite E0. cbn [orb]. destruct (r =? - ENOMEM) eqn:Er.
  - hw_run E. hw_done.
  - hw_step E. apply wpg_memcpy_all; [rewrite length_fit; unfold vec_size in Hn; lia|by rewrite length_replicate, length_fit|].
    hw_run E. hw_done.
Qed.

Lemma hw_write h b r w y l :
  direct (Write h b) (hs_agm y) = Ret r w -> hw_fits (Write h b) -> served y -> hs_clients y = Some l ->
  hw_runs (Write h b) r w l y.
Proof.
  intros E Hn Hs Hl. cbn [direct hw_fits] in *. unfold hw_runs. cbn [hw_remote]. destruct r as [r n'].
  unfold HwClient.agm_session_write. do 1 hw_step E. destruct (h =? 0) eqn:E0.
  { unfold Agm.agm_session_write, with_handle in E. rewrite E0 in E. injection E as <- <- <-. hw_run I.
    split; [cbn [hw_seen fst snd]; unfold unless_nomem; by rewrite u32_small|by apply hw_idle]. }
  rewrite u32_small by done. hw_run E. hw_done.
Qed.

Lemma hw_get_params i p r w y l :
  direct (GetParams i p) (hs_agm y) = Ret r w -> hw_fits (GetParams i p) -> hw_within (GetParams i p) r ->
  served y -> hs_clients y = Some l -> hw_runs (GetParams i p) r w l y.
Proof.
  intros E Hn Hw Hs Hl. cbn [direct hw_fits hw_within] in *. unfold hw_runs. cbn [hw_remote]. destruct r as [r b].
  cbn [snd] in Hw. unfold HwClient.agm_session_get_params. do 3 hw_step E. rewrite u32_small by done. hw_run E.
  apply wpg_resize; [apply Hn|]. hw_run E. cbn [hw_seen fst snd]. destruct (nz r) eqn:Er.
  - hw_run E. rewrite Er. hw_run E. split; [done|by apply hw_same].
  - hw_step E. apply wpg_memcpy_all; [by rewrite Hw|rewrite length_app, length_take, length_replicate; cbn [length]; lia|].
    hw_run E. rewrite Er. hw_step E. apply wpg_memcpy_all; [by rewrite Hw|done|]. hw_run E.
    split; [done|by apply hw_same].
Qed.

Lemma hw_aif_count r w y l :
  direct AifCount (hs_agm y) = Ret r w -> hw_within AifCount r -> served y -> hs_clients y = Some l ->
  hw_runs AifCount r w l y.
Proof.
  intros E Hw Hs Hl. cbn [direct hw_within] in *. unfold hw_runs. cbn [hw_remote]. destruct r as [r out]. cbn [snd] in Hw.
  unfold HwClient.agm_get_aif_info_list. do 2 hw_step E. change (u32 0) with 0.
  unfold ipc_agm_get_aif_info_list. change (nz 0) with false. hw_run E.
  apply wpg_resize; [done|]. hw_run E. change (0 =? - ENOMEM) with false. cbv iota. change (0 =? 0) with true. hw_run E.
  split; [|by apply hw_same]. cbn [hw_seen snd]. destruct out as [[? c]|]; [|done]. cbn [from_option snd] in *.
  by rewrite u32_small.
Qed.

Lemma strlcpy_small n s : (String.length s < n)%nat -> strlcpy n s = s.
Proof.
  intros Hn. unfold strlcpy. assert (String.length s <= n - 1)%nat as Hle by lia. clear Hn. revert Hle.
  generalize (n - 1)%nat as k. induction s as [|c s IH]; intros [|k] Hk; cbn in *; try done; try lia.
  f_equal. apply IH. lia.
Qed.

Lemma hw_aif_list p n r w y l :
  direct (AifList p n) (hs_agm y) = Ret r w -> hw_fits (AifList p n) -> hw_within (AifList p n) r -> served y ->
  hs_clients y = Some l -> hw_runs (AifList p n) r w l y.
Proof.
  intros E (Hp & Hn & Hv) (la & Ho & Hla & Hf) Hs Hl. cbn [direct] in *. unfold hw_runs, vec_size in *. cbn [hw_remote].
  destruct r as [r out]. cbn [snd] in Ho. subst out. assert (Hz : nz n = true) by (apply nz_true; lia).
  unfold HwClient.agm_get_aif_info_list. do 2 hw_step E. rewrite (u32_small n) by lia.
  unfold ipc_agm_get_aif_info_list. rewrite Hz. hw_run E.
  apply wpg_resize; [unfold sizeof_aif_info; lia|]. hw_run E. cbn [from_option fst snd]. change (0 =? - ENOMEM) with false. cbv iota.
  rewrite (proj2 (Z.eqb_neq p 0)) by done. rewrite (u32_small (Z.of_nat (length la))) by lia.
  rewrite take_ge by (rewrite length_app, length_replicate; lia). rewrite (proj2 (Z.ltb_ge n _)) by lia.
  rewrite (proj2 (Z.ltb_ge _ _)) by (rewrite !length_app; lia). cbn [orb]. hw_run E.
  split; [|by apply hw_same]. cbn [hw_seen snd from_option fst]. repeat f_equal.
  rewrite Nat2Z.id, <- app_assoc, take_app_length. clear -Hf. induction Hf as [|a la (Hs & _) _ IH]; [done|].
  cbn. rewrite IH, strlcpy_small by done. by destruct a.
Qed.

Lemma hw_tag_size i a n r w y l :
  direct (TagInfoSize i a n) (hs_agm y) = Ret r w -> hw_fits (TagInfoSize i a n) -> hw_within (TagInfoSize i a n) r ->
  served y -> hs_clients y = Some l -> hw_runs (TagInfoSize i a n) r w l y.
Proof.
  intros E Hn Hw Hs Hl. cbn [direct hw_fits hw_within] in *. subst n. unfold hw_runs. cbn [hw_remote].
  destruct r as [r out]. cbn [snd] in Hw. unfold HwClient.agm_session_aif_get_tag_module_info. do 2 hw_step E.
  change (u32 0) with 0. unfold ipc_agm_session_aif_get_tag_module_info. change (nz 0) with false. hw_run E.
  assert (Hv : vec_size (from_option snd 0 out)) by (by destruct out).
  apply wpg_resize; [apply Hv|]. hw_run E. cbn [hw_seen fst snd]. unfold unless_nomem.
  rewrite u32_small by done. destruct (r =? - ENOMEM); [hw_run E; hw_done|]. hw_run E. hw_done.
Qed.

Lemma hw_tag_info i a p n r w y l :
  direct (TagInfo i a p n) (hs_agm y) = Ret r w -> hw_fits (TagInfo i a p n) -> hw_within (TagInfo i a p n) r ->
  served y -> hs_clients y = Some l -> hw_runs (TagInfo i a p n) r w l y.
Proof.
  intros E (Hp & Hn & Hv) Hw Hs Hl. cbn [direct hw_within] in *. unfold hw_runs. cbn [hw_remote].
  destruct r as [r out]. cbn [snd] in Hw. unfold HwClient.agm_session_aif_get_tag_module_info. do 2 hw_step E.
  assert (Hz : nz n = true) by (apply nz_true; lia). rewrite (u32_small n) by done.
  unfold ipc_agm_session_aif_get_tag_module_info. rewrite Hz. hw_run E.
  set (size := from_option snd n out). set (b := fit _ _).
  assert (Hsz : 0 <= size <= n) by (unfold size; destruct out; cbn in *; lia).
  assert (Hb : length b = Z.to_nat n) by apply length_fit. unfold vec_size in Hv.
  unfold hidl_bytes. hw_step E. apply wpg_resize; [lia|]. rewrite take_nil. cbn [length app]. rewrite Nat.sub_0_r.
  apply wpg_memcpy_bytes; [lia|by rewrite length_replicate|]. rewrite drop_ge, app_nil_r by (by rewrite length_replicate).
  hw_run E. rewrite (u32_small size) by lia. cbn [hw_seen fst snd]. fold size b. unfold unless_nomem.
  destruct (r =? - ENOMEM); [hw_run E; hw_done|]. rewrite (proj2 (Z.eqb_neq p 0)) by done. hw_step E.
  apply wpg_memcpy_bytes; [rewrite length_take; lia|rewrite length_replicate; lia|]. hw_step E.
  split; [|by apply hw_same]. do 2 f_equal.
  rewrite (take_take _ (Z.to_nat size)), Nat.min_id. by apply take_app_length'; rewrite length_take; lia.
Qed.

Lemma wpg_add_handle_to_list u (Q : unit -> hsys -> Prop) pid h l y :
  hs_held y = [] -> hs_clients y = Some l ->
  Q tt (set_hs_tick (2 + hs_tick y) (set_hs_clients (Some (add_handle pid h l)) y)) ->
  wpg u (add_handle_to_list pid h) Q y.
Proof.
  intros Hh Hl HQ. unfold add_handle_to_list. apply wpg_bind, wpg_gets, wpg_bind, wpg_modify, wpg_bind, wpg_hw_calloc.
  rewrite Hmem, Hl. cbn [negb default]. apply wpg_bind, wpg_hw_acquire; [done|].
  apply wpg_bind. eapply wpg_hw_clients; [done|]. apply wpg_bind, wpg_hw_calloc. rewrite Hmem.
  apply wpg_bind, wpg_modify, wpg_hw_release; [done|].
  unfold add_handle in HQ. destruct y. cbn in *. subst. by destruct (add_to_client pid h true l).
Qed.

Lemma hw_open i r w y l :
  direct (Open i) (hs_agm y) = Ret r w -> served y -> hs_clients y = Some l -> hw_runs (Open i) r w l y.
Proof.
  intros E Hs Hl. cbn [direct] in *. unfold hw_runs. cbn [hw_remote]. destruct r as [r out].
  hw_run E. apply wpg_resize; [done|]. hw_step E. eapply wpg_put; [done|]. hw_step E.
  cbn [hw_seen hw_tracked fst snd]. destruct (nz r) eqn:Er.
  - hw_run E. eapply wpg_at; [done|]. hw_run E. split; [done|by apply hw_none].
  - eapply wpg_add_handle_to_list; [apply Hs|done|]. hw_run E. eapply wpg_at; [done|]. hw_run E.
    split; [done|]. by eexists.
Qed.

Lemma hw_close h r w y l :
  direct (Close h) (hs_agm y) = Ret r w -> served y -> hs_clients y = Some l -> hw_runs (Close h) r w l y.
Proof.
  intros E Hs Hl. cbn [direct] in *. unfold hw_runs. cbn [hw_remote]. unfold HwClient.agm_session_close. hw_step E.
  destruct Hs as [_ _ Hh]. unfold ipc_agm_session_close. apply wpg_bind, wpg_hw_acquire; [done|].
  apply wpg_bind. eapply wpg_hw_clients; [done|]. apply wpg_bind, wpg_modify, wpg_bind, wpg_hw_release; [done|].
  eapply wpg_hw_srv; [exact E|]. split; [done|]. exists (hs_tick y). destruct y. cbn in *. by subst.
Qed.

Lemma hw_call {A B} (c : call A B) a w y l :
  direct c (hs_agm y) = Ret a w -> hw_fits c -> hw_within c a -> served y -> hs_clients y = Some l ->
  hw_runs c a w l y.
Proof.
  intros E Hf Hw Hs Hl. destruct c.
  all: first [by apply hw_plain|by apply hw_params|by apply hw_set_config|by apply hw_tag|by apply hw_cal|by apply hw_events
    |by apply hw_open|by apply hw_close|by apply hw_read|by apply hw_write|by apply hw_aif_count|by apply hw_aif_list
    |by apply hw_tag_size|by apply hw_tag_info|by apply hw_get_params].
Qed.
End Run.

Section Transparent.
Context `{Env, HwBinder}.

(** C12: calls through hwbinder, to a server with memory.  Every function of the
    client library but [agm_init], [agm_deinit], [agm_session_get_buf_info] and the
    registrations of callbacks makes, in the server, the call of the service with the same
    arguments (the key values that travel in the elements behind the structure arrive,
    and so does the session configuration although types.hal lays it out
    differently): the service ends in the same state, and besides it only the handles
    of the clients change, by an open or a close.  The client gets what the service gave,
    the bytes of a read included, except that: the statuses of [agm_get_session_time]
    (always -EINVAL) and [agm_get_aif_info_list] (always 0) are lost; with a status
    of -ENOMEM a read, a write and a query of tagged modules give that status
    alone, and so does a read with a null handle; a read with any other status copies the
    whole buffer; a failed [agm_session_get_params] leaves the client's payload
    alone; the counts of reads and writes come back in 32 bits; and where the
    service stored nothing (a failed open, a failed query of the time) the client gets
    an uninitialised variable.  This is for events without a payload, sizes of less
    than 2^32, a size query that passes 0, and results no larger than asked for. *)
Theorem hw_transparent {A B} (c : call A B) a w y l :
  (forall n, hw_alloc n = true) ->
  direct c (hs_agm y) = Ret a w -> hw_fits c -> hw_within c a -> served y -> hs_clients y = Some l ->
  exists t, hw_remote c y = Ret (hw_seen c a)
    (set_hs_tick t (set_hs_clients (Some (hw_tracked c a l)) (set_hs_agm w y))).
Proof.
  intros Hmem E Hf Hw Hs Hl. pose proof (hw_call Hmem c a w y l E Hf Hw Hs Hl) as Hr.
  apply wp_run in Hr as (b & y' & E' & -> & t & ->). by exists t.
Qed.
End Transparent.
