(* ===== verification/HwSession.v ===== *)
(** * Clients of the hwbinder server: death and callbacks *)

From S2P Require Export HwProps.
Open Scope Z_scope.
#[export] Set Default Goal Selector "!".

(** ** A client that dies *)

(** The handles the server keeps for a process. *)
Definition handles_of (pid : Z) (l : list hw_client) : list Z :=
  mjoin (hc_handles <$> List.filter (fun c => hc_pid c =? pid) l).
Definition others (pid : Z) (l : list hw_client) : list hw_client := List.filter (fun c => negb (hc_pid c =? pid)) l.

Section Death.
Context `{Env, HwBinder}.

(** Calls of the service in the server, with their state. *)
Lemma hw_srv_bind {A B} (m : AGM A) (k : A -> HSYS B) y :
  (let! a := hw_srv m in k a) y =
    match m (hs_agm y) with Ret a w => k a (set_hs_agm w y) | Crash why => Crash why end.
Proof. unfold bind, hw_srv. by destruct (m (hs_agm y)). Qed.

Lemma hw_close_handles_run hs y :
  Forall (fun h => h <> 0) hs ->
  hw_close_handles hs y =
    match close_all hs (hs_agm y) with Ret _ w => Ret tt (set_hs_agm w y) | Crash why => Crash why end.
Proof.
  intros Hs. revert y. induction Hs as [|h hs Hh _ IH]; intros y; [by destruct y|].
  cbn [hw_close_handles close_all]. rewrite (proj2 (Z.eqb_neq h 0)) by done.
  unfold hw_srv, bind, ret in *. destruct (Agm.agm_session_close h (hs_agm y)) as [r w|]; [|done].
  rewrite IH. cbn [hs_agm set_hs_agm]. by destruct (close_all hs w).
Qed.

Lemma hw_bury_run pid l y :
  Forall (fun h => h <> 0) (handles_of pid l) ->
  hw_bury pid l y =
    match close_all (handles_of pid l) (hs_agm y) with
    | Ret _ w => Ret (others pid l) (set_hs_agm w y)
    | Crash why => Crash why
    end.
Proof.
  revert y. induction l as [|c l IH]; intros y Hl; [by destruct y|].
  unfold handles_of, others in *. cbn [List.filter hw_bury] in *. destruct (hc_pid c =? pid) eqn:E; cbn [negb].
  - rewrite fmap_cons in *. cbn [mjoin list_join] in *. apply Forall_app in Hl as [Hc Hl].
    rewrite close_all_app. unfold bind in *. rewrite hw_close_handles_run by done.
    destruct (close_all (hc_handles c) (hs_agm y)) as [[] w|]; [|done]. by rewrite IH.
  - unfold bind in *. rewrite IH by done. by destruct (close_all _ _) as [[] w|].
Qed.

(** The callbacks of a process are taken back one after the other. *)
Fixpoint take_back (ks : list (Z * srvr_clbk)) : AGM unit :=
  match ks with
  | [] => ret tt
  | (p, s) :: ks => let! _ := Agm.agm_session_register_cb (sk_session_id s) 0 (sk_event s) p in take_back ks
  end.

(** The entries of the list of callbacks, each with what it points to. *)
Definition points (heap : list srvr_clbk) (k : hw_clbk * srvr_clbk) : Prop :=
  0 < hk_srv k.1 /\ heap !! Z.to_nat (hk_srv k.1 - 1) = Some k.2.
Definition clbks_of (pid : Z) (ks : list (hw_clbk * srvr_clbk)) : list (Z * srvr_clbk) :=
  (fun k => (hk_srv k.1, k.2)) <$> List.filter (fun k => sk_pid k.2 =? pid) ks.
Definition other_clbks (pid : Z) (ks : list (hw_clbk * srvr_clbk)) : list hw_clbk :=
  fst <$> List.filter (fun k => negb (sk_pid k.2 =? pid)) ks.

Lemma unregister_run pid ks y :
  Forall (points (hs_srvr y)) ks ->
  unregister_callbacks pid (fst <$> ks) y =
    match take_back (clbks_of pid ks) (hs_agm y) with
    | Ret _ w => Ret (other_clbks pid ks) (set_hs_agm w y)
    | Crash why => Crash why
    end.
Proof.
  intros Hks. remember (hs_srvr y) as heap eqn:Ey. revert y Ey. induction Hks as [|[k s] ks [Hp Hk] _ IH]; intros y Ey; [by destruct y|].
  cbn [fst snd] in *. rewrite fmap_cons. cbn [unregister_callbacks fst]. unfold clbks_of, other_clbks in *. cbn [List.filter snd].
  unfold bind at 1, gets. rewrite <- Ey. unfold bind at 1. rewrite (deref_run _ _ s) by done.
  destruct (sk_pid s =? pid) eqn:E; cbn [negb].
  - rewrite fmap_cons. cbn [take_back fst snd]. rewrite hw_srv_bind. unfold bind.
    destruct (Agm.agm_session_register_cb _ _ _ _ _) as [r w|]; [|done]. by rewrite IH.
  - unfold bind in *. rewrite IH by done. by destruct (take_back _ _) as [[] w|].
Qed.

(** The death of a process, from any state of the lists. *)
Lemma serviceDied_run pid ks l y :
  hs_held y = [] -> hs_cbs y = Some (fst <$> ks) -> Forall (points (hs_srvr y)) ks -> hs_clients y = Some l ->
  Forall (fun h => h <> 0) (handles_of pid l) ->
  serviceDied pid y =
    match (do! take_back (clbks_of pid ks) ; close_all (handles_of pid l)) (hs_agm y) with
    | Ret _ w => Ret tt (set_hs_cbs (Some (other_clbks pid ks)) (set_hs_clients (Some (others pid l)) (set_hs_agm w y)))
    | Crash why => Crash why
    end.
Proof.
  intros Hh Hks Hp Hl Hz. unfold serviceDied, hw_acquire, hw_clbks, bind, gets, modify, ret. rewrite Hks, Hh.
  rewrite bool_decide_eq_false_2 by apply not_elem_of_nil. cbn [hs_cbs set_hs_held]. rewrite Hks. cbn [the].
  unfold ret. rewrite (unregister_run pid ks) by done. cbn [hs_agm set_hs_held].
  destruct (take_back _ _) as [[] w|]; [|done]. unfold hw_release, modify. cbn [hs_held set_hs_held set_hs_cbs set_hs_agm].
  change (list_difference [HClbks] [HClbks]) with (@nil hw_lock).
  rewrite bool_decide_eq_false_2 by apply not_elem_of_nil. cbn [hs_clients set_hs_held set_hs_cbs set_hs_agm]. rewrite Hl.
  rewrite (hw_bury_run pid l) by done. cbn [hs_agm set_hs_held set_hs_cbs set_hs_agm].
  destruct (close_all _ w) as [[] w'|]; [|done]. destruct y. cbn in *. by subst.
Qed.

(** *** The handles of a process over its calls *)

(** The sessions a client has open, from its own point of view. *)
Definition opened {A B} (c : call A B) : A -> list Z -> list Z :=
  match c with
  | Open _ => fun a hs => if nz a.1 then hs else hs ++ [default hw_junk a.2]
  | Close h => fun _ hs => List.filter (fun x => negb (x =? h)) hs
  | _ => fun _ hs => hs
  end.

Lemma add_to_client_split pid h l :
  match add_to_client pid h true l with
  | Some l' => exists l1 c l2, l = l1 ++ c :: l2 /\ hc_pid c = pid /\
      l' = l1 ++ set_hc_handles (hc_handles c ++ [h]) c :: l2
  | None => Forall (fun c => hc_pid c <> pid) l
  end.
Proof.
  induction l as [|c l IH]; [by constructor|]. cbn [add_to_client]. destruct (hc_pid c =? pid) eqn:E.
  - exists [], c, l. apply Z.eqb_eq in E. done.
  - destruct (add_to_client pid h true l) as [l'|]; cbn [fmap option_fmap option_map].
    + destruct IH as (l1 & c' & l2 & -> & Hc & ->). by exists (c :: l1), c', l2.
    + constructor; [|done]. by apply Z.eqb_neq.
Qed.

Lemma handles_of_app pid a b : handles_of pid (a ++ b) = handles_of pid a ++ handles_of pid b.
Proof. unfold handles_of. by rewrite List.filter_app, fmap_app, join_app. Qed.

Lemma handles_of_cons pid c l :
  handles_of pid (c :: l) = (if hc_pid c =? pid then hc_handles c else []) ++ handles_of pid l.
Proof. unfold handles_of. cbn [List.filter]. by destruct (hc_pid c =? pid). Qed.

Lemma handles_of_none pid l : Forall (fun c => hc_pid c <> pid) l -> handles_of pid l = [].
Proof. induction 1 as [|c l Hc _ IH]; [done|]. by rewrite handles_of_cons, IH, (proj2 (Z.eqb_neq _ _)). Qed.

Lemma handles_of_add pid h l :
  NoDup (hc_pid <$> l) ->
  handles_of pid (add_handle pid h l) = handles_of pid l ++ [h] /\ NoDup (hc_pid <$> add_handle pid h l).
Proof.
  intros Hd. unfold add_handle. pose proof (add_to_client_split pid h l) as Hs.
  destruct (add_to_client pid h true l) as [l'|]; cbn [default from_option]; unfold id.
  - destruct Hs as (l1 & c & l2 & -> & <- & ->). split.
    2: { revert Hd. by rewrite !fmap_app, !fmap_cons. }
    rewrite !handles_of_app, !handles_of_cons. cbn [hc_pid set_hc_handles hc_handles]. rewrite Z.eqb_refl.
    assert (handles_of (hc_pid c) l2 = []) as ->; [|by rewrite !app_nil_r, app_assoc].
    apply handles_of_none, Forall_forall. intros c' Hc' Heq. rewrite fmap_app, fmap_cons in Hd.
    apply NoDup_app in Hd as (_ & _ & Hd). apply NoDup_cons in Hd as [Hd _]. apply Hd. rewrite <- Heq.
    by apply list_elem_of_fmap_2.
  - split; [by rewrite handles_of_app, handles_of_cons, Z.eqb_refl|].
    rewrite fmap_app. apply NoDup_app. split; [done|]. split; [|apply NoDup_singleton].
    intros p Hp Hin. apply list_elem_of_singleton in Hin as ->. apply list_elem_of_fmap in Hp as (c & Hpc & Hc).
    rewrite Forall_forall in Hs. by apply (Hs c Hc).
Qed.

Lemma handles_of_drop pid h l :
  NoDup (hc_pid <$> l) ->
  handles_of pid (drop_handle h l) = List.filter (fun x => negb (x =? h)) (handles_of pid l) /\
  NoDup (hc_pid <$> drop_handle h l).
Proof.
  intros Hd. split.
  - clear Hd. induction l as [|c l IH]; [done|]. rewrite handles_of_cons, List.filter_app. rewrite <- IH. unfold drop_handle.
    rewrite fmap_cons. cbn [List.filter set_hc_handles hc_handles].
    set (k := List.filter (fun x => negb (x =? h)) (hc_handles c)). destruct (decide (k = [])) as [Ek|Ek].
    + rewrite bool_decide_eq_true_2 by done. cbn [negb]. destruct (hc_pid c =? pid); [|done]. fold k. by rewrite Ek.
    + rewrite bool_decide_eq_false_2 by done. cbn [negb]. rewrite handles_of_cons. cbn [hc_pid hc_handles set_hc_handles]. by destruct (hc_pid c =? pid).
  - eapply sublist_NoDup; [exact Hd|]. unfold drop_handle. clear Hd. induction l as [|c l IH]; [constructor|].
    rewrite fmap_cons. cbn [List.filter]. destruct (negb _); rewrite ?fmap_cons; [by apply sublist_skip|by apply sublist_cons].
Qed.

Lemma tracked_handles {A B} (c : call A B) a l :
  NoDup (hc_pid <$> l) ->
  handles_of hw_pid (hw_tracked c a l) = opened c a (handles_of hw_pid l) /\ NoDup (hc_pid <$> hw_tracked c a l).
Proof.
  intros Hd. destruct c; try done; cbn [hw_tracked opened].
  - destruct (nz _); [done|]. by apply handles_of_add.
  - by apply handles_of_drop.
Qed.

(** The calls a client makes, with the sessions it has open before and after. *)
Inductive hw_used : hsys -> list Z -> hsys -> list Z -> Prop :=
  | hw_used_nil y hs : hw_used y hs y hs
  | hw_used_call {A B} (c : call A B) a w y hs y1 y2 hs2 :
      direct c (hs_agm y) = Ret a w -> hw_fits c -> hw_within c a ->
      hw_remote c y = Ret (hw_seen c a) y1 -> hw_used y1 (opened c a hs) y2 hs2 -> hw_used y hs y2 hs2.

Lemma opened_nonzero {A B} (c : call A B) a w w' hs :
  direct c w = Ret a w' -> Forall (fun h => h <> 0) hs -> Forall (fun h => h <> 0) (opened c a hs).
Proof.
  intros E Hs. destruct c; try done; cbn [opened direct] in *.
  - destruct a as [r o]. cbn [fst snd]. destruct (nz r) eqn:Er; [done|]. destruct (open_stores _ _ _ _ _ E Er) as (h & -> & Hh).
    apply Forall_app. by repeat constructor.
  - rewrite Forall_forall in *. intros x Hx%list_elem_of_In%List.filter_In. apply Hs, list_elem_of_In, Hx.
Qed.

(** What holds of the server while the client calls. *)
Lemma hw_used_keeps y hs y' hs' l :
  (forall n, hw_alloc n = true) ->
  hw_used y hs y' hs' -> served y -> hs_clients y = Some l -> NoDup (hc_pid <$> l) -> handles_of hw_pid l = hs ->
  Forall (fun h => h <> 0) hs ->
  exists l', served y' /\ hs_clients y' = Some l' /\ handles_of hw_pid l' = hs' /\ Forall (fun h => h <> 0) hs' /\
    hs_cbs y' = hs_cbs y /\ hs_srvr y' = hs_srvr y /\ hs_links y' = hs_links y.
Proof.
  intros Hmem Hu. revert l. induction Hu as [y hs|A B c a w y hs y1 y2 hs2 E Hf Hw Hr _ IH]; intros l Hs Hl Hd Hh Hz; [by exists l|].
  pose proof (hw_call Hmem c a w y l E Hf Hw Hs Hl) as Hr'. unfold hw_runs, wpg in Hr'. rewrite Hr in Hr'.
  destruct Hr' as [_ [t ->]]. destruct (tracked_handles c a l Hd) as [Ht Hd']. rewrite Hh in Ht.
  destruct (IH (hw_tracked c a l)) as (l' & ?); [by destruct Hs|done|done|done|by eapply opened_nonzero|].
  by exists l'.
Qed.
End Death.

(** The death of a process: the transport calls [serviceDied] once for every link. *)
Section Dies.
Context `{Env, HwBinder}.
Fixpoint notified (n : nat) (pid : Z) : HSYS unit :=
  match n with
  | O => ret tt
  | S n => do! serviceDied pid ; notified n pid
  end.
Definition client_dies (pid : Z) : HSYS unit :=
  let! links := gets hs_links in notified (length (List.filter (Z.eqb pid) links)) pid.

Lemma others_forgotten pid l : handles_of pid (others pid l) = [] /\ others pid (others pid l) = others pid l.
Proof.
  unfold handles_of, others. induction l as [|c l [IH1 IH2]]; [done|]. cbn [List.filter].
  destruct (hc_pid c =? pid) eqn:E; cbn [negb]; [done|]. cbn [List.filter]. rewrite E. cbn [negb]. by rewrite IH2.
Qed.

Lemma other_clbks_forgotten pid ks :
  let ks' := List.filter (fun k => negb (sk_pid k.2 =? pid)) ks in
  clbks_of pid ks' = [] /\ other_clbks pid ks' = fst <$> ks'.
Proof.
  cbv zeta. unfold clbks_of, other_clbks. induction ks as [|k ks [IH1 IH2]]; [done|]. cbn [List.filter].
  destruct (sk_pid k.2 =? pid) eqn:E; cbn [negb]; [done|]. cbn [List.filter]. rewrite E. cbn [negb].
  split; [done|]. by rewrite !fmap_cons, IH2.
Qed.

(** Once it is forgotten, another call does nothing. *)
Lemma notified_again n pid ks l y :
  hs_held y = [] -> hs_cbs y = Some (other_clbks pid ks) -> Forall (points (hs_srvr y)) ks ->
  hs_clients y = Some (others pid l) -> notified n pid y = Ret tt y.
Proof.
  intros Hh Hc Hp Hl. induction n as [|n IH]; [done|]. cbn [notified].
  destruct (others_forgotten pid l) as [H1 H2]. destruct (other_clbks_forgotten pid ks) as [H3 H4].
  rewrite (bind_run _ _ _ tt y); [done|]. rewrite (serviceDied_run pid (List.filter (fun k => negb (sk_pid k.2 =? pid)) ks) (others pid l)).
  - rewrite H1, H2, H3, H4. cbn [take_back close_all]. unfold bind, ret. destruct y. cbn in *. by subst.
  - done.
  - done.
  - apply Forall_forall. intros k Hk%list_elem_of_In%List.filter_In. rewrite Forall_forall in Hp. apply Hp, list_elem_of_In, Hk.
  - done.
  - by rewrite H1.
Qed.

Lemma client_dies_run pid y : client_dies pid y = notified (length (List.filter (Z.eqb pid) (hs_links y))) pid y.
Proof. done. Qed.

Lemma filter_links pid (links : list Z) :
  (pid ∈ links -> exists n, length (List.filter (Z.eqb pid) links) = S n) /\
  (pid ∉ links -> length (List.filter (Z.eqb pid) links) = 0%nat).
Proof.
  induction links as [|p links [IH1 IH2]]; [by split; [intros ?%elem_of_nil|]|]. rewrite elem_of_cons. cbn [List.filter].
  destruct (Z.eqb_spec pid p) as [->|Hne]; cbn [length]; split; intros; [by eexists|tauto|apply IH1; tauto|apply IH2; tauto].
Qed.
End Dies.

Section DeathProps.
Context `{Env, HwBinder}.

(** C13: the death of a client.  The server learns of it only when the client once
    registered a callback; otherwise its sessions stay open.  Then, after any calls through
    hwbinder, the death first takes back exactly the callbacks it registered, in the order of the
    registrations, and then closes exactly the sessions it opened and did not close,
    in the order of the opens; then nothing of it is left in the two lists, and
    the entries of the other processes are as they were.  Failures do not
    stop it. *)
Theorem hw_client_death y y' hs l ks :
  (forall n, hw_alloc n = true) ->
  served y -> hs_clients y = Some l -> NoDup (hc_pid <$> l) -> handles_of hw_pid l = [] ->
  hs_cbs y = Some (fst <$> ks) -> Forall (points (hs_srvr y)) ks ->
  hw_used y [] y' hs ->
  (hw_pid ∉ hs_links y -> client_dies hw_pid y' = Ret tt y') /\
  exists l', hs_clients y' = Some l' /\ (hw_pid ∈ hs_links y ->
  client_dies hw_pid y' =
    match (do! take_back (clbks_of hw_pid ks) ; close_all hs) (hs_agm y') with
    | Ret _ w => Ret tt (set_hs_cbs (Some (other_clbks hw_pid ks))
                          (set_hs_clients (Some (others hw_pid l')) (set_hs_agm w y')))
    | Crash why => Crash why
    end).
Proof.
  intros Hmem Hs Hl Hd Hh Hks Hp Hu.
  destruct (hw_used_keeps y [] y' hs l Hmem Hu Hs Hl Hd Hh ltac:(constructor)) as (l' & [_ _ Hh'] & Hl' & <- & Hz & Hc & Hr & Hk).
  assert (Hrun := serviceDied_run hw_pid ks l' y' Hh' ltac:(by rewrite Hc) ltac:(by rewrite Hr) Hl' Hz).
  split.
  - intros Hn. by rewrite client_dies_run, Hk, (proj2 (filter_links _ _)).
  - exists l'. split; [done|]. intros Hin. rewrite client_dies_run, Hk.
    destruct (proj1 (filter_links _ _) Hin) as [n ->]. cbn [notified]. unfold bind at 1. rewrite Hrun.
    destruct ((do! _ ; _) (hs_agm y')) as [[] w|]; [|done]. apply (notified_again _ _ ks l'); [done|done| |done]. by rewrite <- Hr in Hp.
Qed.
End DeathProps.

(** ** Callbacks *)

(** The service's client data [p] stands for the client's function [cb] with data [cd]. *)
Definition stands_for `{HwBinder} (p sid cb evt cd : Z) (y : hsys) : Prop :=
  exists b q, b <> 0 /\ 0 < p /\ 0 < q /\
    hs_srvr y !! Z.to_nat (p - 1) = Some (SrvrClbk sid b evt q hw_pid) /\
    hs_clnt y !! Z.to_nat (q - 1) = Some (ClntClbk sid cb evt cd).

(** An entry for this session, event and client data. *)
Definition same_registration (sid evt cd : Z) (k : hw_clbk * srvr_clbk) : bool :=
  (sk_session_id k.2 =? sid) && (sk_event k.2 =? evt) && (hk_clt_data k.1 =? cd).

Section Callbacks.
Context `{Env, HwBinder}.
Context (Hmem : forall n, hw_alloc n = true).

(** Registering: the system after it. *)
Definition after_register (sid cb evt cd : Z) (w : world) (y : hsys) : hsys :=
  set_hs_tick (2 + hs_tick y)
    (set_hs_cbs (Some (default [] (hs_cbs y) ++ [HwClbk cd (addr_of (length (hs_srvr y)))]))
      (set_hs_srvr (hs_srvr y ++ [SrvrClbk sid (hw_object (hs_tick y)) evt (addr_of (length (hs_clnt y))) hw_pid])
        (set_hs_links (hs_links y ++ [hw_pid]) (set_hs_clnt (hs_clnt y ++ [ClntClbk sid cb evt cd]) (set_hs_agm w y))))).

Lemma register_run sid cb evt cd r w y :
  served y -> cb <> 0 -> hw_object (hs_tick y) <> 0 ->
  Agm.agm_session_register_cb sid addr_ipc_callback evt (addr_of (length (hs_srvr y))) (hs_agm y) = Ret r w ->
  HwClient.agm_session_register_cb sid cb evt cd y = Ret r (after_register sid cb evt cd w y).
Proof.
  intros Hs Hcb Hb E. assert (Hr : wp (HwClient.agm_session_register_cb sid cb evt cd)
    (fun b t => b = r /\ t = after_register sid cb evt cd w y) y).
  { apply wpg_served; [done|]. rewrite (proj2 (nz_true cb)) by done.
    apply wpg_bind, wpg_gets, wpg_bind, wpg_modify, wpg_bind, wpg_hw_tick.
    unfold ipc_agm_session_register_callback. rewrite (proj2 (nz_true _)) by done.
    apply wpg_bind, wpg_bind, wpg_modify, wpg_bind, wpg_gets, wpg_bind, wpg_modify, wpg_bind, wpg_gets, wpg_bind, wpg_modify.
    apply wpg_bind, wpg_hw_calloc.
    rewrite Hmem. cbn [negb]. destruct Hs as [_ _ Hh]. apply wpg_bind, wpg_hw_acquire; [done|].
    apply wpg_bind. eapply wpg_hw_clbks; [done|]. apply wpg_bind, wpg_modify, wpg_bind, wpg_hw_release; [done|].
    apply wpg_ret. cbn [hs_srvr set_hs_tick set_hs_clnt].
    rewrite (proj2 (Z.eqb_neq (addr_of _) 0)) by (unfold addr_of; lia).
    eapply wpg_hw_srv; [exact E|]. split; [done|]. destruct y. cbn in *. by subst. }
  unfold wpg in Hr. destruct (HwClient.agm_session_register_cb _ _ _ _ _) as [b t|]; [|done]. by destruct Hr as [-> ->].
Qed.

Lemma after_register_stands sid cb evt cd w y :
  hw_object (hs_tick y) <> 0 -> stands_for (addr_of (length (hs_srvr y))) sid cb evt cd (after_register sid cb evt cd w y).
Proof.
  intros Hb. exists (hw_object (hs_tick y)), (addr_of (length (hs_clnt y))). split; [done|].
  split; [unfold addr_of; lia|]. split; [unfold addr_of; lia|]. split; apply addr_of_at.
Qed.

(** An event for the client data. *)
Lemma callback_run sid' ev p sid cb evt cd y :
  stands_for p sid cb evt cd y -> cb <> 0 -> vec_size (12 + Z.of_nat (length (ev_payload ev))) ->
  ipc_callback sid' ev p y =
    Ret tt (set_hs_tick (S (hs_tick y)) (set_hs_delivered (hs_delivered y ++ [HwDelivery cb sid' ev cd]) y)).
Proof.
  intros (b & q & Hb & Hp & Hq & Hsr & Hcl) Hcb [_ Hn].
  assert (Hr : wp (ipc_callback sid' ev p) (fun _ t => t =
    set_hs_tick (S (hs_tick y)) (set_hs_delivered (hs_delivered y ++ [HwDelivery cb sid' ev cd]) y)) y).
  { unfold ipc_callback, sizeof_agm_event_cb_params. rewrite u32_small by lia.
    apply wpg_bind, wpg_resize; [done|]. apply wpg_bind, wpg_hidl_bytes; [done|lia|].
    apply wpg_bind. eapply wpg_put. { rewrite take_nil. cbn [app length]. rewrite Nat.sub_0_r.
      apply lookup_replicate_2. lia. }
    apply wpg_bind, wpg_gets, wpg_bind. eapply wpg_deref; [done|exact Hsr|]. cbn [sk_clbk_binder sk_clnt_data].
    rewrite (proj2 (Z.eqb_neq b 0)) by done. apply wpg_bind. unfold event_callback.
    apply wpg_bind. eapply wpg_at. { apply list_lookup_insert_eq. rewrite length_app, length_take, length_replicate; cbn [length]; lia. }
    apply wpg_bind, wpg_hw_calloc. rewrite Hmem. cbn [negb he_payload_size he_payload].
    apply wpg_bind, wpg_memcpy_all; [done|rewrite length_replicate; lia|].
    apply wpg_bind, wpg_gets, wpg_bind. eapply wpg_deref; [done|exact Hcl|]. cbn [ck_func ck_clnt_data].
    rewrite (proj2 (Z.eqb_neq cb 0)) by done. apply wpg_bind, wpg_modify, wpg_ret, wpg_ret. by destruct ev. }
  unfold wpg in Hr. destruct (ipc_callback _ _ _ _) as [[] t|]; [|done]. by rewrite Hr.
Qed.

(** The search for a registration ends with the last that matches. *)
Lemma find_registration_run sid evt cd found ks y :
  Forall (points (hs_srvr y)) ks ->
  find_registration sid evt cd found (hs_srvr y) (fst <$> ks) y =
    Ret (foldl (fun f k => if same_registration sid evt cd k then hk_srv k.1 else f) found ks) y.
Proof.
  intros Hk. remember (hs_srvr y) as heap eqn:Ey. clear Ey. revert found. induction Hk as [|[k s] ks [Hp Hs] _ IH]; intros found; [done|].
  rewrite fmap_cons. cbn [find_registration fst snd foldl] in *. unfold bind. rewrite (deref_run _ _ s) by done. by rewrite IH.
Qed.

Lemma foldl_last {A B} (f : B -> A -> B) (l1 l2 : list A) x b v :
  (forall b, f b x = v) -> Forall (fun y => forall b, f b y = b) l2 -> foldl f b (l1 ++ x :: l2) = v.
Proof. intros Hx Hl. rewrite foldl_app. cbn [foldl]. rewrite Hx. by induction Hl as [|y l2 Hy _ IH]; [|cbn; rewrite Hy]. Qed.

Lemma unregister_run_cb sid evt cd p ks1 s ks2 r w y :
  served y -> hs_cbs y = Some (fst <$> ks1 ++ (HwClbk cd p, s) :: ks2) ->
  Forall (points (hs_srvr y)) (ks1 ++ (HwClbk cd p, s) :: ks2) -> sk_session_id s = sid -> sk_event s = evt ->
  Forall (fun k => same_registration sid evt cd k = false) ks2 ->
  Agm.agm_session_register_cb sid 0 evt p (hs_agm y) = Ret r w ->
  HwClient.agm_session_register_cb sid 0 evt cd y = Ret r (set_hs_agm w y).
Proof.
  intros Hs Hcbs Hpts Hsid Hevt Hlast E. assert (Hr : wp (HwClient.agm_session_register_cb sid 0 evt cd)
    (fun b t => b = r /\ t = set_hs_agm w y) y).
  { apply wpg_served; [done|]. change (nz 0) with false. cbv iota. unfold ipc_agm_session_register_callback.
    change (nz 0) with false. cbv iota. apply wpg_bind, wpg_bind. destruct Hs as [_ _ Hh]. apply wpg_hw_acquire; [done|].
    apply wpg_bind. eapply wpg_hw_clbks; [exact Hcbs|]. apply wpg_bind, wpg_gets, wpg_bind.
    unfold wpg at 1. cbn [hs_srvr set_hs_held].
    rewrite (find_registration_run sid evt cd hw_junk _ (set_hs_held [HClbks] y)) by done.
    rewrite (foldl_last _ _ _ _ _ p).
    2: { intros ?. unfold same_registration. cbn [fst snd hk_clt_data]. by rewrite Hsid, Hevt, !Z.eqb_refl. }
    2: { eapply Forall_impl; [exact Hlast|]. intros k Hk ?. by rewrite Hk. }
    apply wpg_bind, wpg_hw_release; [done|]. apply wpg_ret.
    assert (Hp : 0 < p). { apply Forall_app in Hpts as [_ Hpts]. apply Forall_cons in Hpts as [[Hp _] _]. done. }
    rewrite (proj2 (Z.eqb_neq p 0)) by lia. eapply wpg_hw_srv; [exact E|]. split; [done|].
    destruct y. cbn in *. by subst. }
  unfold wpg in Hr. destruct (HwClient.agm_session_register_cb _ _ _ _ _) as [b t|]; [|done]. by destruct Hr as [-> ->].
Qed.
End Callbacks.

Section CallbackProps.
Context `{Env, HwBinder}.

(** C36: a callback over hwbinder, from registration to its end.  Registering gives the
    service [ipc_callback] and a new address, which stands for the client's
    function and data from then on; an event the service gives for that address
    reaches that function, in the client, with the session, the event with its
    payload and the client's data; and a registration of NULL for the same
    session, event and data takes exactly that address back from the service. *)
Theorem hw_callback_lifetime sid cb evt cd r w y :
  (forall n, hw_alloc n = true) -> served y -> cb <> 0 -> hw_object (hs_tick y) <> 0 ->
  let p := addr_of (length (hs_srvr y)) in
  Agm.agm_session_register_cb sid addr_ipc_callback evt p (hs_agm y) = Ret r w ->
  (exists y1, HwClient.agm_session_register_cb sid cb evt cd y = Ret r y1 /\
     hs_agm y1 = w /\ hs_cbs y1 = Some (default [] (hs_cbs y) ++ [HwClbk cd p]) /\ stands_for p sid cb evt cd y1) /\
  (forall sid' ev y2, stands_for p sid cb evt cd y2 -> vec_size (12 + Z.of_nat (length (ev_payload ev))) ->
     ipc_callback sid' ev p y2 =
       Ret tt (set_hs_tick (S (hs_tick y2)) (set_hs_delivered (hs_delivered y2 ++ [HwDelivery cb sid' ev cd]) y2))) /\
  (forall ks1 s ks2 r2 w2 y2, served y2 -> hs_cbs y2 = Some (fst <$> ks1 ++ (HwClbk cd p, s) :: ks2) ->
     Forall (points (hs_srvr y2)) (ks1 ++ (HwClbk cd p, s) :: ks2) -> stands_for p sid cb evt cd y2 ->
     Forall (fun k => same_registration sid evt cd k = false) ks2 ->
     Agm.agm_session_register_cb sid 0 evt p (hs_agm y2) = Ret r2 w2 ->
     HwClient.agm_session_register_cb sid 0 evt cd y2 = Ret r2 (set_hs_agm w2 y2)).
Proof.
  intros Hmem Hs Hcb Hb p E. split; [|split].
  - exists (after_register sid cb evt cd w y). split; [by apply register_run|]. by split_and!; [..|apply after_register_stands].
  - intros sid' ev y2 Hst Hv. by eapply callback_run.
  - intros ks1 s ks2 r2 w2 y2 Hs2 Hc Hpts (b & q & _ & Hp & _ & Hsr & _) Hl E2.
    assert (s = SrvrClbk sid b evt q hw_pid) as ->.
    { apply Forall_app in Hpts as [_ Hpts]. apply Forall_cons in Hpts as [[_ Hx] _]. cbn [fst snd hk_srv] in Hx. congruence. }
    by eapply unregister_run_cb.
Qed.
End CallbackProps.
