(* ===== verification/HwWitness.v ===== *)
(** * The hwbinder connection: what it loses, and its theorems at work *)

From S2P Require BinderWitness.
From S2P Require Import GraphProps SessionProps.
From S2P Require Export HwSession.
Open Scope Z_scope.
#[export] Set Default Goal Selector "!".

Section Losses.
Context `{Env, HwBinder}.

(** An event registration with a payload ends the client: the payload is stored
    into a vector that was never resized. *)
Theorem hw_event_config_crash sid cfg y :
  served y -> er_payload cfg <> [] -> vec_size (16 + Z.of_nat (length (er_payload cfg))) ->
  HwClient.agm_session_register_for_events sid cfg y = Crash NullDeref.
Proof.
  intros Hs Hp [_ Hn]. unfold HwClient.agm_session_register_for_events.
  set (body := bind (hidl_resize _ _ _) _).
  assert (Hb : forall y, body y = Crash NullDeref).
  { intros y'. unfold body, hidl_resize, sizeof_agm_event_reg_cfg. rewrite (proj2 (Z.leb_gt _ _)) by done.
    rewrite take_nil. cbn [length app]. rewrite Nat.sub_0_r.
    replace (Z.to_nat (16 + _)) with (S (Z.to_nat (15 + Z.of_nat (length (er_payload cfg))))) by lia.
    cbn [replicate]. unfold bind, ret, hidl_at at 1. cbn [lookup list_lookup the].
    unfold ret. by destruct (er_payload cfg). }
  destruct Hs as [Hpx Ha Hh]. unfold if_served, get_agm_server, hw_acquire, hw_release, bind, gets, modify, ret.
  rewrite Ha, Hh, bool_decide_eq_false_2 by apply not_elem_of_nil. cbn [hs_proxy set_hs_held]. rewrite Hpx. apply Hb.
Qed.

(** The shared buffers of a session.  The client gets the sizes the service
    gave, and a descriptor for the data that is open; the descriptor of the positions is that
    of the message, which is closed with it. *)
Theorem hw_buf_info_descriptors sid info0 info w y :
  served y ->
  Agm.agm_session_get_buf_info sid (BufInfo hw_junk hw_junk hw_junk hw_junk) (Z.lor DATA_BUF POS_BUF) (hs_agm y) =
    Ret (0, info) w ->
  hw_fd (S (hs_tick y)) ∉ hs_fds y -> hw_fd (S (hs_tick y)) <> hw_fd (hs_tick y) ->
  exists y', HwClient.agm_session_get_buf_info sid info0 (Z.lor DATA_BUF POS_BUF) y =
    Ret (0, BufInfo (hw_fd (hs_tick y)) (data_buf_size info) (hw_fd (S (hs_tick y))) (pos_buf_size info)) y' /\
    hw_fd (hs_tick y) ∈ hs_fds y' /\ hw_fd (S (hs_tick y)) ∉ hs_fds y'.
Proof.
  intros Hs E Hf Hne. change (Z.lor DATA_BUF POS_BUF) with 3 in *.
  assert (Hw : wp (HwClient.agm_session_get_buf_info sid info0 3) (fun a y' =>
    a = (0, BufInfo (hw_fd (hs_tick y)) (data_buf_size info) (hw_fd (S (hs_tick y))) (pos_buf_size info)) /\
    hw_fd (hs_tick y) ∈ hs_fds y' /\ hw_fd (S (hs_tick y)) ∉ hs_fds y') y).
  { apply wpg_served; [done|]. apply wpg_bind. unfold ipc_agm_session_get_buf_info. apply wpg_bind.
    eapply wpg_hw_srv; [exact E|]. apply wpg_ret. change (nz 0) with false. cbv iota.
    change (nz (Z.land 3 DATA_BUF)) with true. change (nz (Z.land 3 POS_BUF)) with true. cbv iota.
    apply wpg_bind, wpg_bind, wpg_hw_tick, wpg_bind, wpg_modify, wpg_ret, wpg_bind, wpg_bind, wpg_hw_tick, wpg_ret, wpg_ret.
    split; [done|]. split; [by left|]. cbn. apply not_elem_of_cons. by split. }
  apply wp_run in Hw as (a & y' & Hr & -> & Hy). by exists y'.
Qed.
End Losses.

(** ** Witnesses

    A client (pid 5) of a server that has another client (pid 4) with one session
    and one callback each. *)

Definition demo_hw : HwBinder := {|
  hw_alloc _ := true;
  hw_found := true;
  hw_pid := 5;
  hw_junk := 0;
  hw_fd n := 20 + Z.of_nat n;
  hw_object n := 100 + Z.of_nat n;
  addr_ipc_callback := 900
|}.

Definition hw_other : hw_client := HwClient 4 [77].
Definition hw_demo_sys (w : world) : hsys :=
  HSys w (Some [hw_other]) (Some [HwClbk 400 1; HwClbk 400 2]) [SrvrClbk 1 100 2 1 5; SrvrClbk 1 101 2 2 4]
    [ClntClbk 1 300 2 400] [5; 4] true None false [] [] [] [] 1.
Definition demo_clbks : list (hw_clbk * srvr_clbk) :=
  [(HwClbk 400 1, SrvrClbk 1 100 2 1 5); (HwClbk 400 2, SrvrClbk 1 101 2 2 4)].
Definition hw_sys : hsys := hw_demo_sys BinderWitness.open_world.

Lemma hw_sys_served w : served (hw_demo_sys w).
Proof. by constructor. Qed.

Lemma demo_points : Forall (points (hs_srvr hw_sys)) demo_clbks.
Proof. by repeat constructor. Qed.

(** The client opens session 1. *)
Lemma hw_transparent_witness :
  exists y, @hw_remote ok_env demo_hw _ _ (Open 1) hw_sys = Ret (0, 1) y /\ hs_clients y = Some [hw_other; HwClient 5 [1]].
Proof.
  pose proof (@hw_transparent ok_env demo_hw _ _ (Open 1) (0, Some 1)
    (match Agm.agm_session_open (H:=ok_env) 1 true BinderWitness.open_world with Ret _ w => w | Crash _ => BinderWitness.open_world end)
    hw_sys [hw_other] (fun _ => eq_refl) ltac:(vm_compute; reflexivity) I I (hw_sys_served _) eq_refl) as [t Ht].
  eexists. split; [exact Ht|]. vm_compute. reflexivity.
Defined.

Definition hw_sys_opened : hsys :=
  match @hw_remote ok_env demo_hw _ _ (Open 1) hw_sys with Ret _ y => y | Crash _ => hw_sys end.

Lemma demo_hw_used : @hw_used ok_env demo_hw hw_sys [] hw_sys_opened [1].
Proof.
  eapply (hw_used_call (Open 1) (0, Some 1)); [vm_compute; reflexivity|done|done|vm_compute; reflexivity|].
  apply hw_used_nil.
Qed.

(** It dies: its callback is taken back, its session closed, and it is forgotten. *)
Lemma hw_client_death_witness :
  exists y, @client_dies ok_env 5 hw_sys_opened = Ret tt y /\
    hs_clients y = Some [hw_other] /\ hs_cbs y = Some [HwClbk 400 2] /\ w_graphs (hs_agm y) = [None].
Proof.
  destruct (@hw_client_death ok_env demo_hw hw_sys hw_sys_opened [1] [hw_other] demo_clbks (fun _ => eq_refl)
    (hw_sys_served _) eq_refl ltac:(apply NoDup_singleton) eq_refl eq_refl demo_points demo_hw_used) as (_ & l & Hl & Hd).
  revert Hl. vm_compute (hs_clients hw_sys_opened). intros [= <-]. specialize (Hd ltac:(by left)).
  change (@hw_pid demo_hw) with 5 in Hd. rewrite Hd. clear Hd. vm_compute.
  eexists. by split_and!.
Defined.

Definition hw_event : event_params := EventParams 40 9 [1; 2; 3].

(** A second registration by the client, an event for it, and its end. *)
Lemma hw_callback_lifetime_witness :
  exists y1 y3, @HwClient.agm_session_register_cb ok_env demo_hw 1 301 3 401 hw_sys = Ret 0 y1 /\
    @ipc_callback demo_hw 1 hw_event 3 y1 =
      Ret tt (set_hs_tick (S (hs_tick y1)) (set_hs_delivered [HwDelivery 301 1 hw_event 401] y1)) /\
    @HwClient.agm_session_register_cb ok_env demo_hw 1 0 3 401 y1 = Ret 0 y3.
Proof.
  destruct (@hw_callback_lifetime ok_env demo_hw 1 301 3 401 0
    (match @Agm.agm_session_register_cb ok_env 1 900 3 3 BinderWitness.open_world with Ret _ w => w | Crash _ => BinderWitness.open_world end)
    hw_sys (fun _ => eq_refl) (hw_sys_served _) ltac:(done) ltac:(done) ltac:(vm_compute; reflexivity))
    as ((y1 & Hr & _ & _ & Hst) & Hev & Hun).
  assert (Ey : @HwClient.agm_session_register_cb ok_env demo_hw 1 301 3 401 hw_sys = Ret 0 y1) by exact Hr.
  vm_compute in Ey. injection Ey as Ey.
  eexists y1, _. split; [exact Hr|]. split.
  - assert (Hd : hs_delivered y1 = []) by (by rewrite <- Ey).
    pose proof (Hev 1 hw_event y1 Hst ltac:(by split)) as Hy. by rewrite Hd in Hy.
  - apply (Hun demo_clbks (SrvrClbk 1 101 3 2 5) [] 0
      (match @Agm.agm_session_register_cb ok_env 1 0 3 3 (hs_agm y1) with Ret _ w => w | Crash _ => BinderWitness.open_world end) y1);
      [|..|exact Hst|constructor|]; rewrite <- Ey; [by constructor|reflexivity|by repeat constructor|vm_compute; reflexivity].
Defined.

(** An event with a payload of one byte. *)
Lemma hw_event_config_crash_witness :
  @HwClient.agm_session_register_for_events ok_env demo_hw 1 (EventRegCfg 4 5 [1] 1) hw_sys = Crash NullDeref.
Proof. apply (@hw_event_config_crash ok_env demo_hw); [apply hw_sys_served|done|by split]. Defined.

(** Session 1 with its graph open; the service gives descriptor 7 for both buffers. *)
Definition hw_live_sys : hsys := hw_demo_sys (run_world SESSION_OPENED AIF_OPENED OPENED DEV_OPENED).

Lemma hw_buf_info_descriptors_witness :
  exists y, @HwClient.agm_session_get_buf_info ok_env demo_hw 1 (BufInfo 0 0 0 0) 3 hw_live_sys =
    Ret (0, BufInfo 21 4096 22 4096) y /\ 21 ∈ hs_fds y /\ 22 ∉ hs_fds y.
Proof.
  destruct (@hw_buf_info_descriptors ok_env demo_hw 1 (BufInfo 0 0 0 0) (BufInfo 7 4096 7 4096)
    (match @Agm.agm_session_get_buf_info ok_env 1 (BufInfo 0 0 0 0) 3 (hs_agm hw_live_sys) with Ret _ w => w | Crash _ => hs_agm hw_live_sys end)
    hw_live_sys (hw_sys_served _) ltac:(vm_compute; reflexivity) ltac:(by intros ?%list_elem_of_In) ltac:(done)) as (y & Hy).
  by exists y.
Defined.
