(* ===== verification/Dbus.v ===== *)
(** * The two ends of the D-Bus connection: messages and state

    ipc/DBus puts the service on the system bus.  The server answers method calls on
    two interfaces: that of the module, at [AGM_OBJECT_PATH], and one at an object of
    its own for every session; an event is a signal of the session's object.  The
    client library (GDBus) and the server (libdbus) exchange typed
    values, [dval]; the bus, which is not in the repository, carries them unchanged.
    [dsys] is a client process and the server process together.

    The server only compiles where [size_t] is [unsigned int] (it passes a
    [uint32_t *] for a [size_t *]), so in these files a [size_t] has 32 bits. *)

From stdpp Require Import gmap strings pretty.
From S2P Require Export Parcel.
Open Scope Z_scope.
#[export] Set Default Goal Selector "!".

(** ** Messages *)

#[warnings="-register-all"]
Inductive dval : Type :=
  | DUint32 (n : Z)
  | DInt32 (n : Z)
  | DUint64 (n : Z)
  | DBoolean (b : bool)
  | DByte (n : Z)
  | DString (s : string)
  | DObjectPath (s : string)
  | DBytes (b : list Z)
  | DStruct (l : list dval)
  | DArray (element : string) (l : list dval).

(** [dbus_message_get_signature] *)
Fixpoint type_of (v : dval) : string :=
  match v with
  | DUint32 _ => "u"
  | DInt32 _ => "i"
  | DUint64 _ => "t"
  | DBoolean _ => "b"
  | DByte _ => "y"
  | DString _ => "s"
  | DObjectPath _ => "o"
  | DBytes _ => "ay"
  | DStruct l => "(" ++ (fix types l := match l with [] => "" | v :: l => type_of v ++ types l end) l ++ ")"
  | DArray element _ => "a" ++ element
  end%string.
Definition signature (l : list dval) : string := foldr (fun v s => type_of v ++ s)%string EmptyString l.

(** ** The tables of methods *)

(** The entries of [agm_dbus_module_methods] and [agm_dbus_session_methods]. *)
Inductive agm_method : Type :=
  | AgmAifSetMediaConfig | AgmAifSetMetadata | AgmSessionAifSetMetadata | AgmSessionSetMetadata
  | AgmSessionSetLoopback | AgmSetParamsWithTag | AgmGetAifInfoListSize | AgmGetAifInfoList
  | AgmSessionSetParams | AgmSessionRegisterForEvents | AgmSessionRegisterCb | AgmSessionDeRegisterCb
  | AgmSessionSetEcRef | AgmSessionAifConnect | AgmSessionAifGetTagModuleInfo
  | AgmSessionAifGetTagModuleInfoSize | AgmSessionAifSetParams | AgmSessionAifSetCal | AgmSessionGetParams
  | AgmGetBufferTimestamp | AgmSessionOpen
  | AgmSessionClose | AgmSessionPrepare | AgmSessionStart | AgmSessionStop | AgmSessionPause
  | AgmSessionResume | AgmSessionRead | AgmSessionWrite | AgmSessionSetConfig | AgmSessionEos
  | AgmSessionGetTime | AgmGetHwProcessedBufCount.

(** [agm_dbus_method]: name, signature, handler. *)
Record dbus_method : Type := DbusMethod { dm_name : string; dm_signature : string; dm_func : agm_method }.

Definition agm_dbus_module_methods : list dbus_method := [
  DbusMethod "AgmAifSetMediaConfig" "u(uui)" AgmAifSetMediaConfig;
  DbusMethod "AgmAifSetMetadata" "uuay" AgmAifSetMetadata;
  DbusMethod "AgmSessionAifSetMetadata" "uuuay" AgmSessionAifSetMetadata;
  DbusMethod "AgmSessionSetMetadata" "uuay" AgmSessionSetMetadata;
  DbusMethod "AgmSessionSetLoopback" "uub" AgmSessionSetLoopback;
  DbusMethod "AgmSetParamsWithTag" "uu(uua(uu))" AgmSetParamsWithTag;
  DbusMethod "AgmGetAifInfoListSize" "" AgmGetAifInfoListSize;
  DbusMethod "AgmGetAifInfoList" "u" AgmGetAifInfoList;
  DbusMethod "AgmSessionSetParams" "uuay" AgmSessionSetParams;
  DbusMethod "AgmSessionRegisterForEvents" "u(uuuyay)" AgmSessionRegisterForEvents;
  DbusMethod "AgmSessionRegisterCb" "uut" AgmSessionRegisterCb;
  DbusMethod "AgmSessionDeRegisterCb" "uut" AgmSessionDeRegisterCb;
  DbusMethod "AgmSessionSetEcRef" "uub" AgmSessionSetEcRef;
  DbusMethod "AgmSessionAifConnect" "uub" AgmSessionAifConnect;
  DbusMethod "AgmSessionAifGetTagModuleInfo" "uuu" AgmSessionAifGetTagModuleInfo;
  DbusMethod "AgmSessionAifGetTagModuleInfoSize" "uuu" AgmSessionAifGetTagModuleInfoSize;
  DbusMethod "AgmSessionAifSetParams" "uuuay" AgmSessionAifSetParams;
  DbusMethod "AgmSessionAifSetCal" "uuuay" AgmSessionAifSetCal;
  DbusMethod "AgmSessionGetParams" "uuay" AgmSessionGetParams;
  DbusMethod "AgmGetBufferTimestamp" "u" AgmGetBufferTimestamp;
  DbusMethod "AgmSessionOpen" "u" AgmSessionOpen
].

Definition agm_dbus_session_methods : list dbus_method := [
  DbusMethod "AgmSessionClose" "" AgmSessionClose;
  DbusMethod "AgmSessionPrepare" "" AgmSessionPrepare;
  DbusMethod "AgmSessionStart" "" AgmSessionStart;
  DbusMethod "AgmSessionStop" "" AgmSessionStop;
  DbusMethod "AgmSessionPause" "" AgmSessionPause;
  DbusMethod "AgmSessionResume" "" AgmSessionResume;
  DbusMethod "AgmSessionRead" "u" AgmSessionRead;
  DbusMethod "AgmSessionWrite" "uay" AgmSessionWrite;
  DbusMethod "AgmSessionSetConfig" "(uuu)(uu)ay" AgmSessionSetConfig;
  DbusMethod "AgmSessionEos" "" AgmSessionEos;
  DbusMethod "AgmSessionGetTime" "" AgmSessionGetTime;
  DbusMethod "AgmGetHwProcessedBufCount" "u" AgmGetHwProcessedBufCount
].

Definition AGM_OBJECT_PATH : string := "/org/qti/agm".
Definition AGM_MODULE_IFACE : string := "org.Qti.Agm".
Definition AGM_SESSION_IFACE : string := "org.Qti.Agm.Session".

(** [agm_dbus_interface_info], without the signals, which are sent by name. *)
Record interface_info : Type := InterfaceInfo { ii_name : string; ii_methods : list dbus_method }.
Definition module_interface_info : interface_info := InterfaceInfo AGM_MODULE_IFACE agm_dbus_module_methods.
Definition session_interface_info : interface_info := InterfaceInfo AGM_SESSION_IFACE agm_dbus_session_methods.

(** ** State *)

(** The [userdata] of an interface: the module's data, or those of the session at an
    index of [ds_ses]. *)
Inductive user_data : Type := ModuleData | SessionData (p : nat).

(** [agm_dbus_interface] *)
Record dbus_interface : Type := DbusInterface { di_methods : gmap string dbus_method; di_userdata : user_data }.

(** [agm_session_data] of the server; [sd_callbacks] are the session, event type and
    client data of each callback, the last one first. *)
Record agm_session_data : Type := SesData {
  sd_session_id : Z;
  sd_handle : Z;
  sd_obj_path : string;
  sd_callbacks : list (Z * Z * Z)
}.
Definition set_sd_handle (v : Z) (d : agm_session_data) : agm_session_data :=
  SesData (sd_session_id d) v (sd_obj_path d) (sd_callbacks d).
Definition set_sd_callbacks (v : list (Z * Z * Z)) (d : agm_session_data) : agm_session_data :=
  SesData (sd_session_id d) (sd_handle d) (sd_obj_path d) v.

(** [agm_client_session_data]; [cs_proxy]: the proxy is not NULL; [cs_thread]: there is
    a thread that runs a main loop; the callbacks by their index in [ds_cbs]. *)
Record agm_client_session_data : Type := CSesData {
  cs_obj_path : string;
  cs_proxy : bool;
  cs_session_id : Z;
  cs_thread : bool;
  cs_callbacks : list nat
}.
Definition set_cs_callbacks (v : list nat) (d : agm_client_session_data) : agm_client_session_data :=
  CSesData (cs_obj_path d) (cs_proxy d) (cs_session_id d) (cs_thread d) v.

(** [agm_callback_data] of the client *)
Record agm_callback_data : Type := CallbackData {
  cc_session_id : Z;
  cc_client_data : Z;
  cc_cb : Z;
  cc_evt_type : Z;
  cc_sub_id : Z
}.

(** A subscription of the client to the signal [AgmEventCb] of an object. *)
Record subscription : Type := Subscription { sb_id : Z; sb_path : string; sb_data : nat }.

(** A call of a client's function. *)
Record dbus_delivery : Type := DbusDelivery {
  dd_func : Z;
  dd_session : Z;
  dd_params : event_params;
  dd_client_data : Z
}.

(** The server: the service, [conn->objects], [mdata->sessions] into the session data,
    [None] once freed, the sessions with a filter, whether [mdata] is set.  The client:
    whether it has [mdata], its hash table of sessions, their data, those of the
    callbacks, the subscriptions, the signals that arrived for them, the number of main loops
    that run, the calls of callbacks. *)
Record dsys : Type := DSys {
  ds_agm : world;
  ds_objects : gmap string (gmap string dbus_interface);
  ds_sessions : gmap Z nat;
  ds_ses : list (option agm_session_data);
  ds_filters : list nat;
  ds_started : bool;
  ds_mdata : bool;
  ds_table : gmap Z nat;
  ds_cses : list (option agm_client_session_data);
  ds_cbs : list (option agm_callback_data);
  ds_subs : list subscription;
  ds_queue : list (Z * list dval);
  ds_loops : nat;
  ds_delivered : list dbus_delivery;
  ds_tick : nat
}.
Definition set_ds_agm (v : world) (y : dsys) : dsys :=
  DSys v (ds_objects y) (ds_sessions y) (ds_ses y) (ds_filters y) (ds_started y) (ds_mdata y) (ds_table y) (ds_cses y) (ds_cbs y) (ds_subs y) (ds_queue y) (ds_loops y) (ds_delivered y) (ds_tick y).
Definition set_ds_objects (v : gmap string (gmap string dbus_interface)) (y : dsys) : dsys :=
  DSys (ds_agm y) v (ds_sessions y) (ds_ses y) (ds_filters y) (ds_started y) (ds_mdata y) (ds_table y) (ds_cses y) (ds_cbs y) (ds_subs y) (ds_queue y) (ds_loops y) (ds_delivered y) (ds_tick y).
Definition set_ds_sessions (v : gmap Z nat) (y : dsys) : dsys :=
  DSys (ds_agm y) (ds_objects y) v (ds_ses y) (ds_filters y) (ds_started y) (ds_mdata y) (ds_table y) (ds_cses y) (ds_cbs y) (ds_subs y) (ds_queue y) (ds_loops y) (ds_delivered y) (ds_tick y).
Definition set_ds_ses (v : list (option agm_session_data)) (y : dsys) : dsys :=
  DSys (ds_agm y) (ds_objects y) (ds_sessions y) v (ds_filters y) (ds_started y) (ds_mdata y) (ds_table y) (ds_cses y) (ds_cbs y) (ds_subs y) (ds_queue y) (ds_loops y) (ds_delivered y) (ds_tick y).
Definition set_ds_filters (v : list nat) (y : dsys) : dsys :=
  DSys (ds_agm y) (ds_objects y) (ds_sessions y) (ds_ses y) v (ds_started y) (ds_mdata y) (ds_table y) (ds_cses y) (ds_cbs y) (ds_subs y) (ds_queue y) (ds_loops y) (ds_delivered y) (ds_tick y).
Definition set_ds_started (v : bool) (y : dsys) : dsys :=
  DSys (ds_agm y) (ds_objects y) (ds_sessions y) (ds_ses y) (ds_filters y) v (ds_mdata y) (ds_table y) (ds_cses y) (ds_cbs y) (ds_subs y) (ds_queue y) (ds_loops y) (ds_delivered y) (ds_tick y).
Definition set_ds_mdata (v : bool) (y : dsys) : dsys :=
  DSys (ds_agm y) (ds_objects y) (ds_sessions y) (ds_ses y) (ds_filters y) (ds_started y) v (ds_table y) (ds_cses y) (ds_cbs y) (ds_subs y) (ds_queue y) (ds_loops y) (ds_delivered y) (ds_tick y).
Definition set_ds_table (v : gmap Z nat) (y : dsys) : dsys :=
  DSys (ds_agm y) (ds_objects y) (ds_sessions y) (ds_ses y) (ds_filters y) (ds_started y) (ds_mdata y) v (ds_cses y) (ds_cbs y) (ds_subs y) (ds_queue y) (ds_loops y) (ds_delivered y) (ds_tick y).
Definition set_ds_cses (v : list (option agm_client_session_data)) (y : dsys) : dsys :=
  DSys (ds_agm y) (ds_objects y) (ds_sessions y) (ds_ses y) (ds_filters y) (ds_started y) (ds_mdata y) (ds_table y) v (ds_cbs y) (ds_subs y) (ds_queue y) (ds_loops y) (ds_delivered y) (ds_tick y).
Definition set_ds_cbs (v : list (option agm_callback_data)) (y : dsys) : dsys :=
  DSys (ds_agm y) (ds_objects y) (ds_sessions y) (ds_ses y) (ds_filters y) (ds_started y) (ds_mdata y) (ds_table y) (ds_cses y) v (ds_subs y) (ds_queue y) (ds_loops y) (ds_delivered y) (ds_tick y).
Definition set_ds_subs (v : list subscription) (y : dsys) : dsys :=
  DSys (ds_agm y) (ds_objects y) (ds_sessions y) (ds_ses y) (ds_filters y) (ds_started y) (ds_mdata y) (ds_table y) (ds_cses y) (ds_cbs y) v (ds_queue y) (ds_loops y) (ds_delivered y) (ds_tick y).
Definition set_ds_queue (v : list (Z * list dval)) (y : dsys) : dsys :=
  DSys (ds_agm y) (ds_objects y) (ds_sessions y) (ds_ses y) (ds_filters y) (ds_started y) (ds_mdata y) (ds_table y) (ds_cses y) (ds_cbs y) (ds_subs y) v (ds_loops y) (ds_delivered y) (ds_tick y).
Definition set_ds_loops (v : nat) (y : dsys) : dsys :=
  DSys (ds_agm y) (ds_objects y) (ds_sessions y) (ds_ses y) (ds_filters y) (ds_started y) (ds_mdata y) (ds_table y) (ds_cses y) (ds_cbs y) (ds_subs y) (ds_queue y) v (ds_delivered y) (ds_tick y).
Definition set_ds_delivered (v : list dbus_delivery) (y : dsys) : dsys :=
  DSys (ds_agm y) (ds_objects y) (ds_sessions y) (ds_ses y) (ds_filters y) (ds_started y) (ds_mdata y) (ds_table y) (ds_cses y) (ds_cbs y) (ds_subs y) (ds_queue y) (ds_loops y) v (ds_tick y).
Definition set_ds_tick (v : nat) (y : dsys) : dsys :=
  DSys (ds_agm y) (ds_objects y) (ds_sessions y) (ds_ses y) (ds_filters y) (ds_started y) (ds_mdata y) (ds_table y) (ds_cses y) (ds_cbs y) (ds_subs y) (ds_queue y) (ds_loops y) (ds_delivered y) v.

Abbreviation DSYS := (M dsys).

(** What comes from outside: which allocations succeed, whether the bus, a proxy, a
    thread, the name on the bus and an object path can be had, whether the variable
    [agm_free_session] reads before it has a value is NULL, the value of the other
    variables without one, what a buffer of a read holds before, the
    ids of subscriptions, the address of [agmevent_cb]. *)
Class DBus : Type := {
  db_alloc : nat -> bool;
  db_bus : bool;
  db_proxy : nat -> bool;
  db_thread : nat -> bool;
  db_owner : bool;
  db_setup : bool;
  db_register : nat -> bool;
  db_stale_null : bool;
  db_junk : Z;
  db_buffer : nat -> list Z;
  db_sub : nat -> Z;
  addr_agmevent_cb : Z
}.

(** ** Steps *)

Section Steps.
Context `{DBus}.

(** A call of the service in the server. *)
Definition db_srv {A} (m : AGM A) : DSYS A := fun y =>
  match m (ds_agm y) with
  | Ret a w => Ret a (set_ds_agm w y)
  | Crash why => Crash why
  end.

Definition db_tick : DSYS nat := fun y => Ret (ds_tick y) (set_ds_tick (S (ds_tick y)) y).

(** [malloc] or [calloc] whose result is not compared with NULL. *)
Definition malloc : DSYS unit := let! n := db_tick in if db_alloc n then ret tt else crash_with NullDeref.

(** [g_malloc0]: the process ends when there is no memory. *)
Definition g_malloc0 : DSYS unit := let! n := db_tick in if db_alloc n then ret tt else crash_with Aborted.

Definition g_assert (b : bool) : DSYS unit := if b then ret tt else crash_with Aborted.

(** ** Reading the arguments of a message

    An iterator is the list of the values not read yet; each function gives the value
    and the iterator after [dbus_message_iter_next]. *)

Definition get_uint32 (i : list dval) : DSYS (Z * list dval) :=
  match i with DUint32 n :: i => ret (n, i) | _ => crash_with OutOfBounds end.
Definition get_int32 (i : list dval) : DSYS (Z * list dval) :=
  match i with DInt32 n :: i => ret (n, i) | _ => crash_with OutOfBounds end.
Definition get_uint64 (i : list dval) : DSYS (Z * list dval) :=
  match i with DUint64 n :: i => ret (n, i) | _ => crash_with OutOfBounds end.
Definition get_boolean (i : list dval) : DSYS (bool * list dval) :=
  match i with DBoolean b :: i => ret (b, i) | _ => crash_with OutOfBounds end.
Definition get_byte (i : list dval) : DSYS (Z * list dval) :=
  match i with DByte n :: i => ret (n, i) | _ => crash_with OutOfBounds end.
Definition get_string (i : list dval) : DSYS (string * list dval) :=
  match i with DString s :: i => ret (s, i) | _ => crash_with OutOfBounds end.
Definition get_object_path (i : list dval) : DSYS (string * list dval) :=
  match i with DObjectPath s :: i => ret (s, i) | _ => crash_with OutOfBounds end.
(** [recurse] and [get_fixed_array]: the bytes and [n_elements], their number. *)
Definition get_fixed_array (i : list dval) : DSYS (list Z * list dval) :=
  match i with DBytes b :: i => ret (b, i) | _ => crash_with OutOfBounds end.
Definition recurse_struct (i : list dval) : DSYS (list dval * list dval) :=
  match i with DStruct l :: i => ret (l, i) | _ => crash_with OutOfBounds end.
Definition recurse_array (i : list dval) : DSYS (list dval * list dval) :=
  match i with DArray _ l :: i => ret (l, i) | _ => crash_with OutOfBounds end.

(** The array of the first [n] bytes at [b]. *)
Definition fixed_array (b : list Z) (n : Z) : DSYS dval :=
  if Z.of_nat (length b) <? n then crash_with OutOfBounds else ret (DBytes (take (Z.to_nat n) b)).
End Steps.
