(* ===== verification/DbusServer.v ===== *)
(** * The D-Bus server (ipc/DBus/agm_server/src)

    [agm_dbus_add_interface], [agm_dbus_remove_interface] and
    [server_message_handler] are agm-dbus-utils.cpp; the rest is
    agm_server_wrapper_dbus.cpp.  A handler gives the values of its reply, or [None]
    for an error message.  A service function whose status is not 0 makes an error:
    the status itself is not sent. *)

From stdpp Require Import gmap strings pretty.
From S2P Require Export Dbus.
Open Scope Z_scope.
#[export] Set Default Goal Selector "!".

Section DbusServer.
Context `{Env, DBus}.

Definition reply (l : list dval) : DSYS (option (list dval)) := ret (Some l).
Definition agm_dbus_send_error : DSYS (option (list dval)) := ret None.

(** The reply of a call that only has a status. *)
Definition status_reply (r : Z) : DSYS (option (list dval)) :=
  if nz r then agm_dbus_send_error else reply [].

(** ** Objects and interfaces *)

Definition make_interface (info : interface_info) (userdata : user_data) : dbus_interface :=
  DbusInterface (list_to_map ((fun m => (dm_name m, m)) <$> ii_methods info)) userdata.

(** An interface the object has already keeps its user data. *)
Definition agm_dbus_add_interface (dbus_obj_path : string) (info : interface_info) (userdata : user_data) : DSYS Z :=
  let! objects := gets ds_objects in
  match objects !! dbus_obj_path with
  | None =>
      do! modify (set_ds_objects (<[dbus_obj_path := {[ii_name info := make_interface info userdata]}]> objects)) ;
      let! n := db_tick in
      ret (if db_register n then 0 else - EINVAL)
  | Some interfaces =>
      do! match interfaces !! ii_name info with
          | Some _ => ret tt
          | None => modify (set_ds_objects
              (<[dbus_obj_path := <[ii_name info := make_interface info userdata]> interfaces]> objects))
          end ;
      ret 0
  end.

(** The [gboolean] of [g_hash_table_remove] is used as the pointer to the interface:
    it is dereferenced when it is 1. *)
Definition agm_dbus_remove_interface (dbus_obj_path interface_path : string) : DSYS Z :=
  let! objects := gets ds_objects in
  match objects !! dbus_obj_path with
  | None => ret (- 1)
  | Some interfaces =>
      match interfaces !! interface_path with
      | None => ret (- 1)
      | Some _ =>
          do! modify (set_ds_objects (<[dbus_obj_path := delete interface_path interfaces]> objects)) ;
          crash_with DanglingPtr
      end
  end.

(** ** Sessions *)

(** The session data at an index of [ds_ses]. *)
Definition ses_at (p : nat) : DSYS agm_session_data :=
  let! ses := gets ds_ses in the DanglingPtr (mjoin (ses !! p)).
Definition upd_ses (p : nat) (f : agm_session_data -> agm_session_data) : DSYS unit :=
  let! _ := ses_at p in modify (fun y => set_ds_ses (alter (fmap f) p (ds_ses y)) y).

(** It reads its local variable, which has no value, and not its argument. *)
Definition agm_free_session : DSYS unit := if db_stale_null then ret tt else crash_with DanglingPtr.

(** The length is that of the id as an unsigned number, the text that of a signed one,
    which [snprintf] cuts off. *)
Definition session_path (session_id : Z) : string :=
  (AGM_OBJECT_PATH ++ "/session_" ++
   String.substring 0 (String.length (pretty session_id)) (pretty (s32 session_id)))%string.

(** [None] is NULL, which no caller expects. *)
Definition get_session_data (session_id : Z) : DSYS (option nat) :=
  let! sessions := gets ds_sessions in
  match sessions !! session_id with
  | Some p => ret (Some p)
  | None =>
      do! malloc ;
      do! malloc ;
      let path := session_path session_id in
      let! ses := gets ds_ses in
      let p := length ses in
      do! modify (set_ds_ses (ses ++ [Some (SesData session_id db_junk path [])])) ;
      let! rc := agm_dbus_add_interface path session_interface_info (SessionData p) in
      if nz rc then
        do! modify (fun y => set_ds_ses (<[p := None]> (ds_ses y)) y) ;
        ret None
      else
        do! modify (fun y => set_ds_sessions (<[session_id := p]> (ds_sessions y)) y) ;
        ret (Some p)
  end.

(** The address the service gets as client data. *)
Definition ses_addr (ses_data : option nat) : Z := from_option addr_of 0 ses_data.

(** [agm_session_register_cb(cb_data->session_id, NULL, ...)] for each entry. *)
Fixpoint deregister_all (p : nat) (callbacks : list (Z * Z * Z)) : DSYS unit :=
  match callbacks with
  | [] => ret tt
  | (session_id, event_type, _) :: callbacks =>
      let! _ := db_srv (agm_session_register_cb session_id 0 event_type (addr_of p)) in
      deregister_all p callbacks
  end.

(** For the signal [Disconnected] of the server's own connection; the errors it sends
    have no call to answer. *)
Definition disconnection_filter_cb (p : nat) : DSYS unit :=
  let! ses_data := ses_at p in
  do! deregister_all p (sd_callbacks ses_data) ;
  do! modify (fun y => set_ds_filters (List.filter (fun q => negb (q =? p)%nat) (ds_filters y)) y) ;
  let! _ := db_srv (agm_session_close (sd_handle ses_data)) in
  let! _ := agm_dbus_remove_interface (sd_obj_path ses_data) (ii_name session_interface_info) in
  do! modify (fun y => set_ds_sessions (delete (sd_session_id ses_data) (ds_sessions y)) y) ;
  agm_free_session.

(** ** Events *)

(** The transport: a signal of an object waits for every subscription to it. *)
Definition agm_dbus_send_signal (path : string) (args : list dval) : DSYS unit :=
  modify (fun y => set_ds_queue (ds_queue y ++
    ((fun s => (sb_id s, args)) <$> List.filter (fun s => String.eqb (sb_path s) path) (ds_subs y))) y).

Definition agmevent_cb (session_id : Z) (event_params : event_params) (client_data : Z) : DSYS unit :=
  let n := u32 (Z.of_nat (length (ev_payload event_params))) in
  do! malloc ;
  let! buf := memcpy (replicate (Z.to_nat n) 0) (ev_payload event_params) n in
  let! ses := gets ds_ses in
  let! ses_data := deref client_data ses in
  let! ses_data := the DanglingPtr ses_data in
  let! array := fixed_array buf n in
  agm_dbus_send_signal (sd_obj_path ses_data)
    [DUint32 (ev_source_module_id event_params); DUint32 (ev_event_id event_params); DUint32 n; array].

(** ** Handlers of the module *)

(** [dbus_message_iter_init] and the comparison of the signature. *)
Definition with_args (sig : string) (msg : list dval) (body : list dval -> DSYS (option (list dval)))
  : DSYS (option (list dval)) :=
  match msg with
  | [] => agm_dbus_send_error
  | _ => if negb (String.eqb (signature msg) sig) then agm_dbus_send_error else body msg
  end.

(** [malloc(n_elements)] and [memcpy]: the bytes, of which the service is told that
    there are [size]; it may read all of them, so more than were copied are out of bounds. *)
Definition copy_bytes (value : list Z) (size : Z) : DSYS (list Z) :=
  do! malloc ;
  if Z.of_nat (length value) <? size then crash_with OutOfBounds else ret (take (Z.to_nat size) value).

Definition ipc_agm_session_deregister_cb (msg : list dval) : DSYS (option (list dval)) :=
  with_args "uut" msg (fun arg_i =>
    let! (session_id, arg_i) := get_uint32 arg_i in
    let! (evt_type, arg_i) := get_uint32 arg_i in
    let! (client_data, _) := get_uint64 arg_i in
    let! ses_data := get_session_data session_id in
    let! r := db_srv (agm_session_register_cb session_id 0 evt_type (ses_addr ses_data)) in
    if nz r then do! agm_free_session ; agm_dbus_send_error else
    do! malloc ;
    let! p := the NullDeref ses_data in
    let! d := ses_at p in
    (* g_list_find compares the new entry's address: it finds nothing *)
    reply [DObjectPath (sd_obj_path d)]).

Definition ipc_agm_session_register_cb (msg : list dval) : DSYS (option (list dval)) :=
  with_args "uut" msg (fun arg_i =>
    let! (session_id, arg_i) := get_uint32 arg_i in
    let! (evt_type, arg_i) := get_uint32 arg_i in
    let! (client_data, _) := get_uint64 arg_i in
    let! ses_data := get_session_data session_id in
    let! r := db_srv (agm_session_register_cb session_id addr_agmevent_cb evt_type (ses_addr ses_data)) in
    if nz r then do! agm_free_session ; agm_dbus_send_error else
    do! malloc ;
    let! p := the NullDeref ses_data in
    do! upd_ses p (fun d => set_sd_callbacks ((session_id, evt_type, client_data) :: sd_callbacks d) d) ;
    let! d := ses_at p in
    reply [DObjectPath (sd_obj_path d)]).

(** The bytes go to a block of [event_config_payload_size] bytes. *)
Definition ipc_agm_session_register_for_events (msg : list dval) : DSYS (option (list dval)) :=
  with_args "u(uuuyay)" msg (fun arg_i =>
    let! (session_id, arg_i) := get_uint32 arg_i in
    let! (struct_i, _) := recurse_struct arg_i in
    let! (module_instance_id, struct_i) := get_uint32 struct_i in
    let! (event_id, struct_i) := get_uint32 struct_i in
    let! (event_config_payload_size, struct_i) := get_uint32 struct_i in
    let! (is_register, struct_i) := get_byte struct_i in
    let! (value, _) := get_fixed_array struct_i in
    do! malloc ;
    let! payload := memcpy (replicate (Z.to_nat event_config_payload_size) 0) value (Z.of_nat (length value)) in
    let! r := db_srv (agm_session_register_for_events session_id
                        (Some (EventRegCfg module_instance_id event_id payload is_register))) in
    status_reply r).

Definition ipc_agm_session_get_params (msg : list dval) : DSYS (option (list dval)) :=
  with_args "uuay" msg (fun arg_i =>
    let! (session_id, arg_i) := get_uint32 arg_i in
    let! (size, arg_i) := get_uint32 arg_i in
    let! (value, _) := get_fixed_array arg_i in
    let! payload := copy_bytes value size in
    let! (r, payload) := db_srv (agm_session_get_params session_id payload) in
    if nz r then agm_dbus_send_error else
    let! array := fixed_array payload size in
    reply [array]).

(** The key values of [value]: [num_ckv] of them are copied, and read by the service.
    Their size is computed in 32 bits. *)
Definition ipc_agm_session_aif_set_cal (msg : list dval) : DSYS (option (list dval)) :=
  with_args "uuuay" msg (fun arg_i =>
    let! (session_id, arg_i) := get_uint32 arg_i in
    let! (aif_id, arg_i) := get_uint32 arg_i in
    let! (num_ckv, arg_i) := get_uint32 arg_i in
    let! (value, _) := get_fixed_array arg_i in
    do! malloc ;
    let! kv := memcpy (replicate (Z.to_nat (u32 (4 + num_ckv * 8) - 4)) 0) value (u32 (num_ckv * 8)) in
    if Z.of_nat (length kv) <? num_ckv * 8 then crash_with OutOfBounds else
    let! r := db_srv (agm_session_aif_set_cal session_id aif_id (decode_kvs (Z.to_nat num_ckv) kv)) in
    status_reply r).

Definition ipc_agm_session_aif_set_params (msg : list dval) : DSYS (option (list dval)) :=
  with_args "uuuay" msg (fun arg_i =>
    let! (session_id, arg_i) := get_uint32 arg_i in
    let! (aif_id, arg_i) := get_uint32 arg_i in
    let! (size, arg_i) := get_uint32 arg_i in
    let! (value, _) := get_fixed_array arg_i in
    let! buf := copy_bytes value size in
    let! r := db_srv (agm_session_aif_set_params session_id aif_id buf) in
    status_reply r).

Definition ipc_agm_session_aif_get_tag_module_info_size (msg : list dval) : DSYS (option (list dval)) :=
  with_args "uuu" msg (fun arg_i =>
    let! (session_id, arg_i) := get_uint32 arg_i in
    let! (aif_id, arg_i) := get_uint32 arg_i in
    let! (size, _) := get_uint32 arg_i in
    let! (r, out) := db_srv (agm_session_aif_get_tag_module_info session_id aif_id None) in
    if nz r then agm_dbus_send_error else
    reply [DUint32 (u32 (from_option snd size out))]).

Definition ipc_agm_session_aif_get_tag_module_info (msg : list dval) : DSYS (option (list dval)) :=
  with_args "uuu" msg (fun arg_i =>
    let! (session_id, arg_i) := get_uint32 arg_i in
    let! (aif_id, arg_i) := get_uint32 arg_i in
    let! (size, _) := get_uint32 arg_i in
    do! malloc ;
    let! (r, out) := db_srv (agm_session_aif_get_tag_module_info session_id aif_id (Some size)) in
    if nz r then agm_dbus_send_error else
    let buf := fit (Z.to_nat size) (from_option fst [] out) in
    let size := u32 (from_option snd size out) in
    let! array := fixed_array buf size in
    reply [DUint32 size; array]).

Definition ipc_agm_session_audio_inf_connect (msg : list dval) : DSYS (option (list dval)) :=
  with_args "uub" msg (fun arg_i =>
    let! (session_id, arg_i) := get_uint32 arg_i in
    let! (aif_id, arg_i) := get_uint32 arg_i in
    let! (state, _) := get_boolean arg_i in
    let! r := db_srv (agm_session_aif_connect session_id aif_id state) in
    status_reply r).

Definition ipc_agm_session_set_ec_ref (msg : list dval) : DSYS (option (list dval)) :=
  with_args "uub" msg (fun arg_i =>
    let! (capture_session_id, arg_i) := get_uint32 arg_i in
    let! (aif_id, arg_i) := get_uint32 arg_i in
    let! (state, _) := get_boolean arg_i in
    let! r := db_srv (agm_session_set_ec_ref capture_session_id aif_id state) in
    status_reply r).

Definition ipc_agm_session_set_params (msg : list dval) : DSYS (option (list dval)) :=
  with_args "uuay" msg (fun arg_i =>
    let! (session_id, arg_i) := get_uint32 arg_i in
    let! (size, arg_i) := get_uint32 arg_i in
    let! (value, _) := get_fixed_array arg_i in
    let! payload := copy_bytes value size in
    let! r := db_srv (agm_session_set_params session_id payload) in
    status_reply r).

Definition ipc_agm_get_aif_info_list_size (msg : list dval) : DSYS (option (list dval)) :=
  let! (r, out) := db_srv (agm_get_aif_info_list false (Some 0)) in
  if nz r then agm_dbus_send_error else
  reply [DUint32 (u32 (from_option snd 0 out))].

Definition ipc_agm_get_aif_info_list (msg : list dval) : DSYS (option (list dval)) :=
  with_args "u" msg (fun arg_i =>
    let! (num_aif_info, _) := get_uint32 arg_i in
    do! malloc ;
    let! (r, out) := db_srv (agm_get_aif_info_list true (Some num_aif_info)) in
    if nz r then agm_dbus_send_error else
    let infos := from_option fst [] out in
    let aifinfo := infos ++ replicate (Z.to_nat num_aif_info - length infos) (EmptyString, 0) in
    let num_aif_info := u32 (from_option snd num_aif_info out) in
    if Z.of_nat (length aifinfo) <? num_aif_info then crash_with OutOfBounds else
    reply [DArray "(us)" ((fun a => DStruct [DUint32 a.2; DString a.1]) <$> take (Z.to_nat num_aif_info) aifinfo)]).

(** The loop over the array of key values, at most [n] of them. *)
Fixpoint read_tkvs (n : nat) (array_i : list dval) : DSYS (list key_value) :=
  match n with
  | O => ret []
  | S n =>
      match array_i with
      | [] => ret []
      | _ =>
          let! (struct_ii, array_i) := recurse_struct array_i in
          let! (key, struct_ii) := get_uint32 struct_ii in
          let! (value, _) := get_uint32 struct_ii in
          let! l := read_tkvs n array_i in
          ret (KV key value :: l)
      end
  end.

(** The size of the structure is computed in 32 bits. *)
Definition ipc_agm_set_params_with_tag (msg : list dval) : DSYS (option (list dval)) :=
  with_args "uu(uua(uu))" msg (fun arg_i =>
    let! (session_id, arg_i) := get_uint32 arg_i in
    let! (aif_id, arg_i) := get_uint32 arg_i in
    let! (struct_i, _) := recurse_struct arg_i in
    let! (tag, struct_i) := get_uint32 struct_i in
    let! (num_tkvs, struct_i) := get_uint32 struct_i in
    let size_local := u32 (8 + num_tkvs * 8) in
    do! malloc ;
    let! (array_i, _) := recurse_array struct_i in
    let! kvs := read_tkvs (Z.to_nat num_tkvs) array_i in
    if size_local <? 8 + num_tkvs * 8 then crash_with OutOfBounds else
    let kv := kvs ++ replicate (Z.to_nat num_tkvs - length kvs) (KV 0 0) in
    let! r := db_srv (agm_set_params_with_tag session_id aif_id tag (KVec (Z.to_nat num_tkvs) (Some kv))) in
    status_reply r).

Definition ipc_agm_session_set_loopback (msg : list dval) : DSYS (option (list dval)) :=
  with_args "uub" msg (fun arg_i =>
    let! (capture_session_id, arg_i) := get_uint32 arg_i in
    let! (playback_session_id, arg_i) := get_uint32 arg_i in
    let! (flag, _) := get_boolean arg_i in
    let! r := db_srv (agm_session_set_loopback capture_session_id playback_session_id flag) in
    status_reply r).

Definition ipc_agm_session_set_metadata (msg : list dval) : DSYS (option (list dval)) :=
  with_args "uuay" msg (fun arg_i =>
    let! (session_id, arg_i) := get_uint32 arg_i in
    let! (size, arg_i) := get_uint32 arg_i in
    let! (value, _) := get_fixed_array arg_i in
    do! malloc ;
    let! r := db_srv (agm_session_set_metadata session_id size value) in
    status_reply r).

Definition ipc_agm_session_audio_inf_set_metadata (msg : list dval) : DSYS (option (list dval)) :=
  with_args "uuuay" msg (fun arg_i =>
    let! (session_id, arg_i) := get_uint32 arg_i in
    let! (aif_id, arg_i) := get_uint32 arg_i in
    let! (size, arg_i) := get_uint32 arg_i in
    let! (value, _) := get_fixed_array arg_i in
    do! malloc ;
    let! r := db_srv (agm_session_aif_set_metadata session_id aif_id size value) in
    status_reply r).

Definition ipc_agm_audio_intf_set_metadata (msg : list dval) : DSYS (option (list dval)) :=
  with_args "uuay" msg (fun arg_i =>
    let! (aif_id, arg_i) := get_uint32 arg_i in
    let! (size, arg_i) := get_uint32 arg_i in
    let! (value, _) := get_fixed_array arg_i in
    do! malloc ;
    let! r := db_srv (agm_aif_set_metadata aif_id size value) in
    status_reply r).

(** [media_config.data_format] is not initialised. *)
Definition ipc_agm_audio_intf_set_media_config (msg : list dval) : DSYS (option (list dval)) :=
  with_args "u(uui)" msg (fun arg_i =>
    let! (aif_id, arg_i) := get_uint32 arg_i in
    let! (struct_i, _) := recurse_struct arg_i in
    let! (rate, struct_i) := get_uint32 struct_i in
    let! (channels, struct_i) := get_uint32 struct_i in
    let! (format, _) := get_int32 struct_i in
    let! r := db_srv (agm_aif_set_media_config aif_id (Some (MediaConfig rate channels (u32 format) db_junk))) in
    status_reply r).

Definition ipc_agm_get_buffer_timestamp (msg : list dval) : DSYS (option (list dval)) :=
  with_args "u" msg (fun arg_i =>
    let! (session_id, _) := get_uint32 arg_i in
    let! (r, out) := db_srv (agm_get_buffer_timestamp session_id true) in
    if nz r then agm_dbus_send_error else
    reply [DUint64 (default 0 out)]).

Definition ipc_agm_session_open (msg : list dval) : DSYS (option (list dval)) :=
  with_args "u" msg (fun arg_i =>
    let! (session_id, _) := get_uint32 arg_i in
    let! ses_data := get_session_data session_id in
    let! (r, out) := db_srv (agm_session_open session_id true) in
    do! match out with
        | None => ret tt
        | Some handle =>
            let! p := the NullDeref ses_data in
            upd_ses p (set_sd_handle handle)
        end ;
    if nz r then do! agm_free_session ; agm_dbus_send_error else
    let! p := the NullDeref ses_data in
    do! modify (fun y => set_ds_filters (ds_filters y ++ [p]) y) ;
    let! d := ses_at p in
    reply [DObjectPath (sd_obj_path d)]).

(** ** Handlers of a session, at index [p] *)

(** [f] on the handle of the session. *)
Definition on_session (p : nat) (f : Z -> AGM Z) : DSYS (option (list dval)) :=
  let! d := ses_at p in
  let! r := db_srv (f (sd_handle d)) in
  status_reply r.

Definition ipc_agm_session_prepare (p : nat) (msg : list dval) : DSYS (option (list dval)) := on_session p agm_session_prepare.
Definition ipc_agm_session_start (p : nat) (msg : list dval) : DSYS (option (list dval)) := on_session p agm_session_start.
Definition ipc_agm_session_stop (p : nat) (msg : list dval) : DSYS (option (list dval)) := on_session p agm_session_stop.
Definition ipc_agm_session_pause (p : nat) (msg : list dval) : DSYS (option (list dval)) := on_session p agm_session_pause.
Definition ipc_agm_session_resume (p : nat) (msg : list dval) : DSYS (option (list dval)) := on_session p agm_session_resume.
Definition ipc_agm_session_eos (p : nat) (msg : list dval) : DSYS (option (list dval)) := on_session p agm_session_eos.

Definition ipc_agm_get_hw_processed_buff_cnt (p : nat) (msg : list dval) : DSYS (option (list dval)) :=
  with_args "u" msg (fun arg_i =>
    let! (direction, _) := get_uint32 arg_i in
    let! d := ses_at p in
    let! buf_count := db_srv (agm_get_hw_processed_buff_cnt (sd_handle d) direction) in
    reply [DInt32 (s32 buf_count)]).

Definition ipc_agm_get_session_time (p : nat) (msg : list dval) : DSYS (option (list dval)) :=
  let! d := ses_at p in
  let! (r, out) := db_srv (agm_get_session_time (sd_handle d) true) in
  if nz r then agm_dbus_send_error else
  reply [DUint64 (default db_junk out)].

(** The bytes go to the structure on the stack, as many as there are. *)
Definition ipc_agm_session_set_config (p : nat) (msg : list dval) : DSYS (option (list dval)) :=
  with_args "(uuu)(uu)ay" msg (fun arg_i =>
    let! (struct_i, arg_i) := recurse_struct arg_i in
    let! (rate, struct_i) := get_uint32 struct_i in
    let! (channels, struct_i) := get_uint32 struct_i in
    let! (format, _) := get_uint32 struct_i in
    let! (struct_ii, arg_i) := recurse_struct arg_i in
    let! (count, struct_ii) := get_uint32 struct_ii in
    let! (size, _) := get_uint32 struct_ii in
    let! (value, _) := get_fixed_array arg_i in
    let! session_config := memcpy (replicate sizeof_session_config db_junk) value (Z.of_nat (length value)) in
    let! d := ses_at p in
    let! r := db_srv (agm_session_set_config (sd_handle d) (session_of session_config)
                        (MediaConfig rate channels format db_junk) (BufferConfig count size)) in
    status_reply r).

Definition ipc_agm_session_write (p : nat) (msg : list dval) : DSYS (option (list dval)) :=
  with_args "uay" msg (fun arg_i =>
    let! (buf_size, arg_i) := get_uint32 arg_i in
    let! (value, _) := get_fixed_array arg_i in
    let! buf := copy_bytes value buf_size in
    let! d := ses_at p in
    let! (r, buf_size) := db_srv (agm_session_write (sd_handle d) buf) in
    if nz r then agm_dbus_send_error else
    reply [DUint32 (u32 buf_size)]).

Definition ipc_agm_session_read (p : nat) (msg : list dval) : DSYS (option (list dval)) :=
  with_args "u" msg (fun arg_i =>
    let! (buf_size, _) := get_uint32 arg_i in
    do! malloc ;
    let! n := db_tick in
    let! d := ses_at p in
    let! (r, count, stored) := db_srv (agm_session_read (sd_handle d) buf_size) in
    if nz r then agm_dbus_send_error else
    let buf := overwrite stored (fit (Z.to_nat buf_size) (db_buffer n)) in
    let! array := fixed_array buf (u32 count) in
    reply [array]).

Definition ipc_agm_session_close (p : nat) (msg : list dval) : DSYS (option (list dval)) :=
  do! modify (fun y => set_ds_filters (List.filter (fun q => negb (q =? p)%nat) (ds_filters y)) y) ;
  let! d := ses_at p in
  let! r := db_srv (agm_session_close (sd_handle d)) in
  if nz r then agm_dbus_send_error else
  let! rc := agm_dbus_remove_interface (sd_obj_path d) (ii_name session_interface_info) in
  if nz rc then agm_dbus_send_error else
  do! modify (fun y => set_ds_sessions (delete (sd_session_id d) (ds_sessions y)) y) ;
  do! agm_free_session ;
  reply [].

(** ** Dispatch *)

(** The [cb_func] of a method. *)
Definition run_method (m : agm_method) (userdata : user_data) (msg : list dval) : DSYS (option (list dval)) :=
  let session h := match userdata with SessionData p => h p msg | ModuleData => crash_with DanglingPtr end in
  match m with
  | AgmAifSetMediaConfig => ipc_agm_audio_intf_set_media_config msg
  | AgmAifSetMetadata => ipc_agm_audio_intf_set_metadata msg
  | AgmSessionAifSetMetadata => ipc_agm_session_audio_inf_set_metadata msg
  | AgmSessionSetMetadata => ipc_agm_session_set_metadata msg
  | AgmSessionSetLoopback => ipc_agm_session_set_loopback msg
  | AgmSetParamsWithTag => ipc_agm_set_params_with_tag msg
  | AgmGetAifInfoListSize => ipc_agm_get_aif_info_list_size msg
  | AgmGetAifInfoList => ipc_agm_get_aif_info_list msg
  | AgmSessionSetParams => ipc_agm_session_set_params msg
  | AgmSessionRegisterForEvents => ipc_agm_session_register_for_events msg
  | AgmSessionRegisterCb => ipc_agm_session_register_cb msg
  | AgmSessionDeRegisterCb => ipc_agm_session_deregister_cb msg
  | AgmSessionSetEcRef => ipc_agm_session_set_ec_ref msg
  | AgmSessionAifConnect => ipc_agm_session_audio_inf_connect msg
  | AgmSessionAifGetTagModuleInfo => ipc_agm_session_aif_get_tag_module_info msg
  | AgmSessionAifGetTagModuleInfoSize => ipc_agm_session_aif_get_tag_module_info_size msg
  | AgmSessionAifSetParams => ipc_agm_session_aif_set_params msg
  | AgmSessionAifSetCal => ipc_agm_session_aif_set_cal msg
  | AgmSessionGetParams => ipc_agm_session_get_params msg
  | AgmGetBufferTimestamp => ipc_agm_get_buffer_timestamp msg
  | AgmSessionOpen => ipc_agm_session_open msg
  | AgmSessionClose => session ipc_agm_session_close
  | AgmSessionPrepare => session ipc_agm_session_prepare
  | AgmSessionStart => session ipc_agm_session_start
  | AgmSessionStop => session ipc_agm_session_stop
  | AgmSessionPause => session ipc_agm_session_pause
  | AgmSessionResume => session ipc_agm_session_resume
  | AgmSessionRead => session ipc_agm_session_read
  | AgmSessionWrite => session ipc_agm_session_write
  | AgmSessionSetConfig => session ipc_agm_session_set_config
  | AgmSessionEos => session ipc_agm_session_eos
  | AgmSessionGetTime => session ipc_agm_get_session_time
  | AgmGetHwProcessedBufCount => session ipc_agm_get_hw_processed_buff_cnt
  end.

(** A call nobody handles is answered with an error by libdbus. *)
Definition server_message_handler (path interface member : string) (msg : list dval) : DSYS (option (list dval)) :=
  let! objects := gets ds_objects in
  match objects !! path with
  | None => agm_dbus_send_error
  | Some interfaces =>
      match interfaces !! interface with
      | None => agm_dbus_send_error
      | Some i =>
          match di_methods i !! member with
          | None => agm_dbus_send_error
          | Some method => run_method (dm_func method) (di_userdata i) msg
          end
      end
  end.

(** ** Start-up *)

(** A connection that cannot be made is NULL, and dereferenced. *)
Definition ipc_agm_init : DSYS Z :=
  do! malloc ;
  do! malloc ;
  do! malloc ;
  if negb db_bus then crash_with NullDeref else
  if negb db_owner then ret (- EINVAL) else
  if negb db_setup then ret (- EINVAL) else
  do! modify (set_ds_objects ∅) ;
  let! rc := agm_dbus_add_interface AGM_OBJECT_PATH module_interface_info ModuleData in
  if nz rc then do! modify (set_ds_objects ∅) ; ret (- EINVAL) else
  do! modify (set_ds_sessions ∅) ;
  let! rc := db_srv agm_init in
  if nz rc then do! modify (set_ds_objects ∅) ; ret rc else
  do! modify (set_ds_started true) ;
  ret rc.

(** The test of [mdata] is inverted: NULL is dereferenced. *)
Definition ipc_agm_deinit : DSYS unit :=
  let! started := gets ds_started in
  if negb started then crash_with NullDeref else
  let! rc := agm_dbus_remove_interface AGM_OBJECT_PATH (ii_name module_interface_info) in
  do! modify (set_ds_objects ∅) ;
  do! modify (set_ds_started false) ;
  let! _ := db_srv agm_deinit in
  ret tt.
End DbusServer.
