(* ===== verification/DbusClient.v ===== *)
(** * The D-Bus client library (ipc/DBus/agm_client/src/agm_client_wrapper_dbus.cpp)

    The functions of agm_api.h in the client's process: each makes the values of its
    arguments, calls the method of the module's or the session's object, and takes the
    results out of the reply.  An error reply, whatever its cause, becomes -EINVAL.
    A handle of the client is the address of its own session data. *)

From stdpp Require Import gmap strings pretty.
From S2P Require Export DbusServer.
Open Scope Z_scope.
#[export] Set Default Goal Selector "!".

Section DbusClient.
Context `{Env, DBus}.

(** ** Connections *)

(** [initialize_module_data]; the proxy is that of the module's object. *)
Definition initialize_module_data : DSYS Z :=
  do! g_malloc0 ;
  if negb db_bus then ret (- EINVAL) else
  let! n := db_tick in
  if negb (db_proxy n) then ret (- EINVAL) else
  do! modify (set_ds_mdata true) ;
  do! modify (set_ds_table ∅) ;
  ret 0.

(** [if (mdata == NULL) ...]; [fail] is what is returned with a status. *)
Definition with_mdata {A} (fail : Z -> A) (body : DSYS A) : DSYS A :=
  let! mdata := gets ds_mdata in
  if mdata : bool then body else
  let! rc := initialize_module_data in
  if nz rc then ret (fail rc) else body.

(** [g_dbus_proxy_call_sync] on the module's proxy; [body] gets the values of the reply. *)
Definition module_call {A} (member : string) (argument : list dval) (fail : Z -> A) (body : list dval -> DSYS A) : DSYS A :=
  with_mdata fail
    (let! result := server_message_handler AGM_OBJECT_PATH AGM_MODULE_IFACE member argument in
     match result with
     | None => ret (fail (- EINVAL))
     | Some result => body result
     end).

(** The session data at an address. *)
Definition cses_at (handle : Z) : DSYS agm_client_session_data :=
  let! ses := gets ds_cses in
  let! d := deref handle ses in the DanglingPtr d.

(** [g_dbus_proxy_call_sync] on the proxy of a session. *)
Definition session_call {A} (handle : Z) (member : string) (argument : list dval) (fail : Z -> A)
    (body : list dval -> DSYS A) : DSYS A :=
  do! g_assert (nz handle) ;
  let! ses_data := cses_at handle in
  do! g_assert (cs_proxy ses_data) ;
  let! result := server_message_handler (cs_obj_path ses_data) AGM_SESSION_IFACE member argument in
  match result with
  | None => ret (fail (- EINVAL))
  | Some result => body result
  end.

(** The status of a call, and nothing else. *)
Definition as_status (r : Z) : Z := r.
Definition status_of (result : list dval) : DSYS Z := ret 0.

(** ** Calls of the module *)

(** [data_format] is not sent. *)
Definition agm_aif_set_media_config (aif_id : Z) (media_config : media_config) : DSYS Z :=
  module_call "AgmAifSetMediaConfig"
    [DUint32 aif_id; DStruct [DUint32 (mc_rate media_config); DUint32 (mc_channels media_config); DInt32 (s32 (mc_format media_config))]]
    as_status status_of.

Definition agm_aif_set_metadata (aif_id size : Z) (metadata : list Z) : DSYS Z :=
  let! array := fixed_array metadata size in
  module_call "AgmAifSetMetadata" [DUint32 aif_id; DUint32 size; array] as_status status_of.
Definition agm_session_aif_set_metadata (session_id aif_id size : Z) (metadata : list Z) : DSYS Z :=
  let! array := fixed_array metadata size in
  module_call "AgmSessionAifSetMetadata" [DUint32 session_id; DUint32 aif_id; DUint32 size; array] as_status status_of.
Definition agm_session_set_metadata (session_id size : Z) (metadata : list Z) : DSYS Z :=
  let! array := fixed_array metadata size in
  module_call "AgmSessionSetMetadata" [DUint32 session_id; DUint32 size; array] as_status status_of.

Definition agm_session_set_loopback (capture_session_id playback_session_id : Z) (state : bool) : DSYS Z :=
  module_call "AgmSessionSetLoopback" [DUint32 capture_session_id; DUint32 playback_session_id; DBoolean state]
    as_status status_of.
Definition agm_session_set_ec_ref (capture_session_id aif_id : Z) (state : bool) : DSYS Z :=
  module_call "AgmSessionSetEcRef" [DUint32 capture_session_id; DUint32 aif_id; DBoolean state] as_status status_of.
Definition agm_session_aif_connect (session_id aif_id : Z) (state : bool) : DSYS Z :=
  module_call "AgmSessionAifConnect" [DUint32 session_id; DUint32 aif_id; DBoolean state] as_status status_of.

Definition agm_set_params_with_tag (session_id aif_id tag : Z) (tkvs : list key_value) : DSYS Z :=
  module_call "AgmSetParamsWithTag"
    [DUint32 session_id; DUint32 aif_id;
     DStruct [DUint32 tag; DUint32 (Z.of_nat (length tkvs));
              DArray "(uu)" ((fun k => DStruct [DUint32 (kv_key k); DUint32 (kv_val k)]) <$> tkvs)]]
    as_status status_of.

(** The key values are sent as their bytes. *)
Definition agm_session_aif_set_cal (session_id aif_id : Z) (cal_config : list key_value) : DSYS Z :=
  let num_ckvs := Z.of_nat (length cal_config) in
  let! array := fixed_array (enc_kvs cal_config) (u32 (num_ckvs * 8)) in
  module_call "AgmSessionAifSetCal" [DUint32 session_id; DUint32 aif_id; DUint32 num_ckvs; array] as_status status_of.

Definition agm_session_aif_set_params (session_id aif_id : Z) (payload : list Z) : DSYS Z :=
  let size := Z.of_nat (length payload) in
  let! array := fixed_array payload size in
  module_call "AgmSessionAifSetParams" [DUint32 session_id; DUint32 aif_id; DUint32 size; array] as_status status_of.
Definition agm_session_set_params (session_id : Z) (payload : list Z) : DSYS Z :=
  let size := Z.of_nat (length payload) in
  let! array := fixed_array payload size in
  module_call "AgmSessionSetParams" [DUint32 session_id; DUint32 size; array] as_status status_of.

Definition agm_session_register_for_events (session_id : Z) (evt_reg_cfg : event_reg_cfg) : DSYS Z :=
  let size := Z.of_nat (length (er_payload evt_reg_cfg)) in
  let! value_arr := fixed_array (er_payload evt_reg_cfg) size in
  module_call "AgmSessionRegisterForEvents"
    [DUint32 session_id;
     DStruct [DUint32 (er_module_instance_id evt_reg_cfg); DUint32 (er_event_id evt_reg_cfg); DUint32 size;
              DByte (er_is_register evt_reg_cfg); value_arr]]
    as_status status_of.

(** The status and the bytes at [payload]. *)
Definition agm_session_get_params (session_id : Z) (payload : list Z) : DSYS (Z * list Z) :=
  let size := Z.of_nat (length payload) in
  let! array := fixed_array payload size in
  module_call "AgmSessionGetParams" [DUint32 session_id; DUint32 size; array] (fun r => (r, payload)) (fun result =>
    let! (value, _) := get_fixed_array result in
    let n_elements := Z.of_nat (length value) in
    if n_elements <=? size then let! payload := memcpy payload value n_elements in ret (0, payload)
    else ret (- ENOMEM, payload)).

(** The status, the bytes stored and [*size]; without a payload only the size. *)
Definition agm_session_aif_get_tag_module_info_size (session_id aif_id size : Z) : DSYS (Z * list Z * Z) :=
  module_call "AgmSessionAifGetTagModuleInfoSize" [DUint32 session_id; DUint32 aif_id; DUint32 size]
    (fun r => (r, [], size)) (fun result =>
    let! (size, _) := get_uint32 result in ret (0, [], size)).

(** [payload] is the pointer, with room for [size] bytes. *)
Definition agm_session_aif_get_tag_module_info (session_id aif_id payload size : Z) : DSYS (Z * list Z * Z) :=
  if payload =? 0 then agm_session_aif_get_tag_module_info_size session_id aif_id size else
  module_call "AgmSessionAifGetTagModuleInfo" [DUint32 session_id; DUint32 aif_id; DUint32 size]
    (fun r => (r, [], size)) (fun result =>
    let! (size_ret, arg_i) := get_uint32 result in
    let! (value, _) := get_fixed_array arg_i in
    let! b := memcpy (replicate (Z.to_nat size) 0) value (Z.of_nat (length value)) in
    ret (0, take (length value) b, size_ret)).

Definition agm_get_aif_info_list_size (num_aif_info : Z) : DSYS (Z * list (string * Z) * Z) :=
  module_call "AgmGetAifInfoListSize" [] (fun r => (r, [], num_aif_info)) (fun result =>
    let! (num_aif_info, _) := get_uint32 result in ret (0, [], num_aif_info)).

(** The loop over [*num_aif_info] entries: it reads that many, although the reply may
    have fewer, where [g_variant_iter_next_value] gives NULL.  A name is
    copied whole. *)
Fixpoint read_aifs (n : nat) (array_i : list dval) : DSYS (list (string * Z)) :=
  match n with
  | O => ret []
  | S n =>
      match array_i with
      | [] => crash_with NullDeref
      | _ =>
          let! (struct_i, array_i) := recurse_struct array_i in
          let! (dir, struct_i) := get_uint32 struct_i in
          let! (name, _) := get_string struct_i in
          if (AIF_NAME_MAX_LEN <? String.length name + 1)%nat then crash_with OutOfBounds else
          let! l := read_aifs n array_i in
          ret ((name, dir) :: l)
      end
  end.

(** [aif_list] is the pointer: the status, the entries stored and [*num_aif_info]. *)
Definition agm_get_aif_info_list (aif_list num_aif_info : Z) : DSYS (Z * list (string * Z) * Z) :=
  if num_aif_info =? 0 then agm_get_aif_info_list_size num_aif_info else
  do! g_assert (nz aif_list) ;
  module_call "AgmGetAifInfoList" [DUint32 num_aif_info] (fun r => (r, [], num_aif_info)) (fun result =>
    let! (array_i, _) := recurse_array result in
    let! l := read_aifs (Z.to_nat num_aif_info) array_i in
    ret (0, l, num_aif_info)).

Definition agm_get_buffer_timestamp (session_id timestamp : Z) : DSYS (Z * Z) :=
  module_call "AgmGetBufferTimestamp" [DUint32 session_id] (fun r => (r, timestamp)) (fun result =>
    let! (timestamp, _) := get_uint64 result in ret (0, timestamp)).

(** ** Calls of a session *)

Definition agm_session_prepare (handle : Z) : DSYS Z := session_call handle "AgmSessionPrepare" [] as_status status_of.
Definition agm_session_start (handle : Z) : DSYS Z := session_call handle "AgmSessionStart" [] as_status status_of.
Definition agm_session_stop (handle : Z) : DSYS Z := session_call handle "AgmSessionStop" [] as_status status_of.
Definition agm_session_pause (handle : Z) : DSYS Z := session_call handle "AgmSessionPause" [] as_status status_of.
Definition agm_session_resume (handle : Z) : DSYS Z := session_call handle "AgmSessionResume" [] as_status status_of.
Definition agm_session_eos (handle : Z) : DSYS Z := session_call handle "AgmSessionEos" [] as_status status_of.

Definition agm_get_hw_processed_buff_cnt (handle dir : Z) : DSYS Z :=
  session_call handle "AgmGetHwProcessedBufCount" [DUint32 dir] u32 (fun result =>
    let! (bufCount, _) := get_int32 result in ret (u32 bufCount)).

Definition agm_get_session_time (handle timestamp : Z) : DSYS (Z * Z) :=
  session_call handle "AgmSessionGetTime" [] (fun r => (r, timestamp)) (fun result =>
    let! (timestamp, _) := get_uint64 result in ret (0, timestamp)).

Definition agm_session_set_config (handle : Z) (session_config : session_config)
    (media_config : media_config) (buffer_config : buffer_config) : DSYS Z :=
  do! g_assert (nz handle) ;
  let! arr := fixed_array (session_bytes session_config) (Z.of_nat sizeof_session_config) in
  session_call handle "AgmSessionSetConfig"
    [DStruct [DUint32 (mc_rate media_config); DUint32 (mc_channels media_config); DUint32 (mc_format media_config)];
     DStruct [DUint32 (bc_count buffer_config); DUint32 (u32 (bc_size buffer_config))];
     arr]
    as_status status_of.

(** The reference to [arr] went to the argument of the call, and with it: the
    [g_variant_unref] at the end is of a value that was freed. *)
Definition agm_session_write (handle : Z) (buf : list Z) : DSYS (Z * Z) :=
  let byte_count := Z.of_nat (length buf) in
  do! g_assert (nz handle) ;
  let! arr := fixed_array buf byte_count in
  session_call handle "AgmSessionWrite" [DUint32 byte_count; arr] (fun r => (r, byte_count)) (fun result =>
    let! (byte_count, _) := get_uint32 result in crash_with DanglingPtr).

(** The status, [*byte_count] and the bytes stored in [buf]. *)
Definition agm_session_read (handle byte_count : Z) : DSYS (Z * Z * list Z) :=
  session_call handle "AgmSessionRead" [DUint32 byte_count] (fun r => (r, byte_count, [])) (fun result =>
    let! (value, _) := get_fixed_array result in
    let n_elements := Z.of_nat (length value) in
    if n_elements <=? byte_count then ret (0, n_elements, value) else ret (- ENOMEM, byte_count, [])).

(** ** Opening, closing and callbacks *)

(** A new entry of [ds_cses]: its address. *)
Definition new_cses (d : agm_client_session_data) : DSYS Z :=
  let! ses := gets ds_cses in
  do! modify (set_ds_cses (ses ++ [Some d])) ;
  ret (addr_of (length ses)).
Definition put_cses (handle : Z) (d : option agm_client_session_data) : DSYS unit :=
  modify (fun y => set_ds_cses (<[Z.to_nat (handle - 1) := d]> (ds_cses y)) y).

(** The status and [*handle]. *)
Definition agm_session_open (session_id handle : Z) : DSYS (Z * Z) :=
  module_call "AgmSessionOpen" [DUint32 session_id] (fun r => (r, handle)) (fun result =>
    let! table := gets ds_table in
    match table !! session_id with
    | Some i => ret (0, addr_of i)
    | None =>
        do! g_malloc0 ;
        let! (obj_path, _) := get_object_path result in
        let! n := db_tick in
        let! h := new_cses (CSesData obj_path (db_proxy n) session_id false []) in
        if negb (db_proxy n) then do! put_cses h None ; ret (- EINVAL, h) else
        do! modify (fun y => set_ds_table (<[session_id := Z.to_nat (h - 1)]> (ds_table y)) y) ;
        ret (0, h)
    end).

Definition g_dbus_connection_signal_unsubscribe (id : Z) : DSYS unit :=
  modify (fun y => set_ds_subs (List.filter (fun s => negb (sb_id s =? id)) (ds_subs y)) y).

(** The callback data at an index of [ds_cbs]. *)
Definition cb_at (k : nat) : DSYS agm_callback_data := let! cbs := gets ds_cbs in the DanglingPtr (mjoin (cbs !! k)).
Definition free_cb (k : nat) : DSYS unit := modify (fun y => set_ds_cbs (<[k := None]> (ds_cbs y)) y).

Fixpoint free_callbacks (callbacks : list nat) : DSYS unit :=
  match callbacks with
  | [] => ret tt
  | k :: callbacks =>
      let! cb_data := cb_at k in
      do! g_dbus_connection_signal_unsubscribe (cc_sub_id cb_data) ;
      do! free_cb k ;
      free_callbacks callbacks
  end.

(** [ses_data->proxy] is read after [ses_data] was freed. *)
Definition agm_session_close (handle : Z) : DSYS Z :=
  session_call handle "AgmSessionClose" [] as_status (fun _ =>
    let! ses_data := cses_at handle in
    do! free_callbacks (cs_callbacks ses_data) ;
    do! (if cs_thread ses_data then modify (fun y => set_ds_loops (ds_loops y - 1) y) else ret tt) ;
    do! modify (fun y => set_ds_table (delete (cs_session_id ses_data) (ds_table y)) y) ;
    do! put_cses handle None ;
    let! ses_data := cses_at handle in
    ret 0).

(** [signal_threadloop] *)
Definition signal_threadloop : DSYS unit := modify (fun y => set_ds_loops (S (ds_loops y)) y).

(** The loop over the callbacks: the first that equals [cb_data] is taken out. *)
Fixpoint find_callback (cb_data : agm_callback_data) (callbacks : list nat) : DSYS (option nat) :=
  match callbacks with
  | [] => ret None
  | k :: callbacks =>
      let! node_data := cb_at k in
      if (cc_session_id node_data =? cc_session_id cb_data) && (cc_evt_type node_data =? cc_evt_type cb_data) &&
         (cc_sub_id node_data =? cc_sub_id cb_data)
      then ret (Some k) else find_callback cb_data callbacks
  end.

Definition upd_cses (handle : Z) (f : agm_client_session_data -> agm_client_session_data) : DSYS unit :=
  let! d := cses_at handle in put_cses handle (Some (f d)).

Definition subscribe_callback_event (handle : Z) (subscribe : bool) (cb_data : agm_callback_data) : DSYS Z :=
  let! ses_data := cses_at handle in
  do! (if subscribe then
         let! n := db_tick in
         let! cbs := gets ds_cbs in
         let k := length cbs in
         do! modify (set_ds_cbs (cbs ++ [Some (CallbackData (cc_session_id cb_data) (cc_client_data cb_data) (cc_cb cb_data)
                                                 (cc_evt_type cb_data) (db_sub n))])) ;
         do! modify (fun y => set_ds_subs (ds_subs y ++ [Subscription (db_sub n) (cs_obj_path ses_data) k]) y) ;
         upd_cses handle (fun d => set_cs_callbacks (k :: cs_callbacks d) d)
       else
         let! node := find_callback cb_data (cs_callbacks ses_data) in
         match node with
         | None => ret tt
         | Some k =>
             do! g_dbus_connection_signal_unsubscribe (cc_sub_id cb_data) ;
             do! upd_cses handle (fun d => set_cs_callbacks (List.filter (fun j => negb (j =? k)%nat) (cs_callbacks d)) d) ;
             free_cb k
         end) ;
  ret 0.

(** [evt_type] and [sub_id_callback_event] of the entry it looks for have no value. *)
Definition agm_session_deregister_cb (session_id evt_type client_data : Z) : DSYS Z :=
  module_call "AgmSessionDeRegisterCb" [DUint32 session_id; DUint32 evt_type; DUint64 client_data] as_status (fun result =>
    let! table := gets ds_table in
    let! ses_data := match table !! session_id with
      | Some i => ret (Some (addr_of i))
      | None =>
          do! g_malloc0 ;
          let! (obj_path, _) := get_object_path result in
          let! n := db_tick in
          let! h := new_cses (CSesData obj_path (db_proxy n) session_id false []) in
          if negb (db_proxy n) then do! put_cses h None ; ret None else
          do! modify (fun y => set_ds_table (<[session_id := Z.to_nat (h - 1)]> (ds_table y)) y) ;
          ret (Some h)
      end in
    match ses_data with
    | None => ret (- EINVAL)
    | Some h =>
        do! malloc ;
        let! _ := subscribe_callback_event h false (CallbackData session_id client_data 0 db_junk db_junk) in
        ret 0
    end).

(** A thread with a main loop is made with the session data only. *)
Definition agm_session_register_cb (session_id cb evt_type client_data : Z) : DSYS Z :=
  if cb =? 0 then agm_session_deregister_cb session_id evt_type client_data else
  module_call "AgmSessionRegisterCb" [DUint32 session_id; DUint32 evt_type; DUint64 client_data] as_status (fun result =>
    let! table := gets ds_table in
    let! ses_data := match table !! session_id with
      | Some i => ret (Some (addr_of i))
      | None =>
          do! g_malloc0 ;
          let! (obj_path, _) := get_object_path result in
          let! n := db_tick in
          let! t := db_tick in
          let! h := new_cses (CSesData obj_path (db_proxy n) session_id (db_thread t) []) in
          if negb (db_proxy n) then do! put_cses h None ; ret None else
          if negb (db_thread t) then do! put_cses h None ; ret None else
          do! signal_threadloop ;
          do! modify (fun y => set_ds_table (<[session_id := Z.to_nat (h - 1)]> (ds_table y)) y) ;
          ret (Some h)
      end in
    match ses_data with
    | None => ret (- EINVAL)
    | Some h =>
        do! malloc ;
        let! _ := subscribe_callback_event h true (CallbackData session_id client_data cb evt_type db_junk) in
        ret 0
    end).

Definition on_emit_signal_callback (k : nat) (parameters : list dval) : DSYS unit :=
  let! (source_module_id, arg_i) := get_uint32 parameters in
  let! (event_id, arg_i) := get_uint32 arg_i in
  let! (event_payload_size, arg_i) := get_uint32 arg_i in
  do! malloc ;
  let! (value, _) := get_fixed_array arg_i in
  let! payload := memcpy (replicate (Z.to_nat event_payload_size) 0) value (Z.of_nat (length value)) in
  let! cb_data := cb_at k in
  modify (fun y => set_ds_delivered (ds_delivered y ++
    [DbusDelivery (cc_cb cb_data) (cc_session_id cb_data) (EventParams source_module_id event_id payload)
       (cc_client_data cb_data)]) y).

(** One round of a main loop, if one runs: the next signal goes to its subscription,
    unless that is gone. *)
Definition main_loop_round : DSYS unit :=
  let! loops := gets ds_loops in
  let! queue := gets ds_queue in
  match loops, queue with
  | S _, (id, parameters) :: queue =>
      do! modify (set_ds_queue queue) ;
      let! subs := gets ds_subs in
      match List.find (fun s => sb_id s =? id) subs with
      | Some s => on_emit_signal_callback (sb_data s) parameters
      | None => ret tt
      end
  | _, _ => ret tt
  end.

Definition agm_init : DSYS Z := with_mdata as_status (ret 0).
(** It has no [return]. *)
Definition agm_deinit : DSYS Z := ret db_junk.
End DbusClient.
