(* ===== verification/DbusProps.v ===== *)
(** * A call through D-Bus is a call of the service, with less of the result

    As for Binder and hwbinder, for every [call]: the function of the client library
    ([dbus_remote]), what reaches the service ([dbus_sent]) and what the
    client gets ([dbus_seen]). *)

From stdpp Require Import gmap strings pretty.
From S2P Require Export AgmCalls DbusClient.
Open Scope Z_scope.
#[export] Set Default Goal Selector "!".

(** ** Rules *)

Section DbusRules.
Context `{Env, DBus} (u : Prop).

Lemma wpg_db_srv {A} (m : AGM A) Q y a w :
  m (ds_agm y) = Ret a w -> Q a (set_ds_agm w y) -> wpg u (db_srv m) Q y.
Proof. intros E HQ. unfold wpg, db_srv. by rewrite E. Qed.

Lemma wpg_db_tick Q y : Q (ds_tick y) (set_ds_tick (S (ds_tick y)) y) -> wpg u db_tick Q y.
Proof. exact id. Qed.

Lemma wpg_fixed_array b n (Q : dval -> dsys -> Prop) y :
  n = Z.of_nat (length b) -> Q (DBytes b) y -> wpg u (fixed_array b n) Q y.
Proof. intros -> HQ. unfold fixed_array. rewrite Z.ltb_irrefl, Nat2Z.id, firstn_all. exact HQ. Qed.

Context (Hmem : forall n, db_alloc n = true).

Lemma wpg_malloc Q y : Q tt (set_ds_tick (S (ds_tick y)) y) -> wpg u malloc Q y.
Proof. intros HQ. unfold wpg, malloc, bind, db_tick. by rewrite Hmem. Qed.

Lemma wpg_g_malloc0 Q y : Q tt (set_ds_tick (S (ds_tick y)) y) -> wpg u g_malloc0 Q y.
Proof. intros HQ. unfold wpg, g_malloc0, bind, db_tick. by rewrite Hmem. Qed.

Lemma wpg_copy_bytes value size Q y :
  size = Z.of_nat (length value) -> Q value (set_ds_tick (S (ds_tick y)) y) -> wpg u (copy_bytes value size) Q y.
Proof.
  intros -> HQ. apply wpg_bind, wpg_malloc. rewrite Z.ltb_irrefl. apply wpg_ret. by rewrite Nat2Z.id, firstn_all.
Qed.
End DbusRules.

(** ** The tables *)

Section Tables.
Context `{Env, DBus} (u : Prop).

Lemma method_lookup info userdata m :
  NoDup (dm_name <$> ii_methods info) -> m ∈ ii_methods info ->
  di_methods (make_interface info userdata) !! dm_name m = Some m.
Proof.
  intros Hd Hm. apply elem_of_list_to_map.
  - by rewrite <- list_fmap_compose.
  - apply list_elem_of_fmap. by exists m.
Qed.

Lemma module_methods_nodup : NoDup (dm_name <$> agm_dbus_module_methods).
Proof. apply (bool_decide_unpack _). vm_compute. exact I. Qed.
Lemma session_methods_nodup : NoDup (dm_name <$> agm_dbus_session_methods).
Proof. apply (bool_decide_unpack _). vm_compute. exact I. Qed.

(** The object at [path] has the interface. *)
Definition served_at (path : string) (info : interface_info) (userdata : user_data) (y : dsys) : Prop :=
  exists interfaces, ds_objects y !! path = Some interfaces /\
    interfaces !! ii_name info = Some (make_interface info userdata).

Lemma handler_run path info userdata m msg y :
  served_at path info userdata y -> NoDup (dm_name <$> ii_methods info) -> m ∈ ii_methods info ->
  server_message_handler path (ii_name info) (dm_name m) msg y = run_method (dm_func m) userdata msg y.
Proof.
  intros (interfaces & Ho & Hi) Hd Hm. unfold server_message_handler, bind, gets.
  by rewrite Ho, Hi, method_lookup.
Qed.

Lemma wpg_with_args sig msg body Q y :
  msg <> [] -> signature msg = sig -> wpg u (body msg) Q y -> wpg u (with_args sig msg body) Q y.
Proof. intros Hn <- HQ. unfold with_args. rewrite String.eqb_refl. by destruct msg. Qed.

(** The client is connected, and the server has started. *)
Record dbus_ready (y : dsys) : Prop := Ready {
  rd_mdata : ds_mdata y = true;
  rd_module : served_at AGM_OBJECT_PATH module_interface_info ModuleData y
}.

Lemma wpg_module_call {A} name sig func msg (fail : Z -> A) body Q y :
  dbus_ready y -> DbusMethod name sig func ∈ agm_dbus_module_methods ->
  wpg u (run_method func ModuleData msg)
    (fun res y' => wpg u (match res with None => ret (fail (- EINVAL)) | Some result => body result end) Q y') y ->
  wpg u (module_call name msg fail body) Q y.
Proof.
  intros [Hm Hs] Hin HQ. unfold module_call, with_mdata. apply wpg_bind, wpg_gets. rewrite Hm. apply wpg_bind.
  unfold wpg at 1. by rewrite (handler_run _ module_interface_info _ (DbusMethod name sig func) _ _ Hs module_methods_nodup Hin).
Qed.

(** The handle [ch] of the client is for the session with handle [h], whose data are at [p]. *)
Definition linked_at (y : dsys) (ch h : Z) (p : nat) : Prop :=
  exists d sd, 0 < ch /\ ds_cses y !! Z.to_nat (ch - 1) = Some (Some d) /\ cs_proxy d = true /\
    served_at (cs_obj_path d) session_interface_info (SessionData p) y /\
    ds_ses y !! p = Some (Some sd) /\ sd_handle sd = h.
Definition linked (y : dsys) (ch h : Z) : Prop := exists p, linked_at y ch h p.

Lemma wpg_cses_at ch d Q y :
  0 < ch -> ds_cses y !! Z.to_nat (ch - 1) = Some (Some d) -> Q d y -> wpg u (cses_at ch) Q y.
Proof. intros Hc Hd HQ. unfold cses_at. apply wpg_bind, wpg_gets, wpg_bind. eapply wpg_deref; [done|exact Hd|]. by apply wpg_ret. Qed.

(** What becomes of the reply. *)
Definition on_reply {A} (fail : Z -> A) (body : list dval -> DSYS A) (res : option (list dval)) : DSYS A :=
  match res with None => ret (fail (- EINVAL)) | Some result => body result end.

Lemma session_call_run {A} name sig func msg (fail : Z -> A) body y ch h p :
  linked_at y ch h p -> DbusMethod name sig func ∈ agm_dbus_session_methods ->
  session_call ch name msg fail body y = (let! res := run_method func (SessionData p) msg in on_reply fail body res) y.
Proof.
  intros (d & sd & Hc & Hd & Hp & Hs & _) Hin. unfold session_call, g_assert, cses_at, bind, gets, ret.
  rewrite (proj2 (nz_true ch)) by lia. rewrite (deref_run _ _ _ _ Hc Hd). cbn [the]. unfold ret. rewrite Hp.
  by rewrite (handler_run _ session_interface_info _ (DbusMethod name sig func) _ _ Hs session_methods_nodup Hin).
Qed.

Lemma wpg_session_call {A} name sig func msg (fail : Z -> A) body Q y ch h p :
  linked_at y ch h p -> DbusMethod name sig func ∈ agm_dbus_session_methods ->
  wpg u (run_method func (SessionData p) msg) (fun res y' => wpg u (on_reply fail body res) Q y') y ->
  wpg u (session_call ch name msg fail body) Q y.
Proof. intros Hl Hin HQ. unfold wpg at 1. rewrite (session_call_run _ _ _ _ _ _ _ _ _ _ Hl Hin). by apply wpg_bind. Qed.

Lemma wpg_ses_at p sd Q y : ds_ses y !! p = Some (Some sd) -> Q sd y -> wpg u (ses_at p) Q y.
Proof. intros Hp HQ. unfold ses_at. apply wpg_bind, wpg_gets. by rewrite Hp. Qed.
End Tables.

(** ** Calls *)

Section Calls.
Context `{Env, DBus}.

(** The function of the client library, on the client's handle [ch]. *)
Definition dbus_remote {A B} (ch : Z) (c : call A B) : DSYS B :=
  match c with
  | SetMediaConfig i cfg => DbusClient.agm_aif_set_media_config i cfg
  | SetConfig _ s m b => DbusClient.agm_session_set_config ch s m b
  | AifSetMetadata i b => DbusClient.agm_aif_set_metadata i (Z.of_nat (length b)) b
  | SetMetadata i b => DbusClient.agm_session_set_metadata i (Z.of_nat (length b)) b
  | SessionAifSetMetadata i a b => DbusClient.agm_session_aif_set_metadata i a (Z.of_nat (length b)) b
  | Prepare _ => DbusClient.agm_session_prepare ch
  | Start _ => DbusClient.agm_session_start ch
  | Stop _ => DbusClient.agm_session_stop ch
  | Pause _ => DbusClient.agm_session_pause ch
  | Resume _ => DbusClient.agm_session_resume ch
  | Eos _ => DbusClient.agm_session_eos ch
  | Connect i a st => DbusClient.agm_session_aif_connect i a st
  | Loopback i j st => DbusClient.agm_session_set_loopback i j st
  | EcRef i a st => DbusClient.agm_session_set_ec_ref i a st
  (* D-Bus has no function for it: [dbus_fits] leaves it out *)
  | AifSetParams a p => ret (- ENOSYS)
  | SessionAifSetParams i a p => DbusClient.agm_session_aif_set_params i a p
  | SetParams i p => DbusClient.agm_session_set_params i p
  | SetParamsWithTag i a t l => DbusClient.agm_set_params_with_tag i a t l
  | SetCal i a l => DbusClient.agm_session_aif_set_cal i a l
  | RegisterForEvents i cfg => DbusClient.agm_session_register_for_events i cfg
  | GetBuffCnt _ d => DbusClient.agm_get_hw_processed_buff_cnt ch d
  | Open i => DbusClient.agm_session_open i 0
  | Close _ => DbusClient.agm_session_close ch
  | Read _ n => DbusClient.agm_session_read ch n
  | Write _ b => DbusClient.agm_session_write ch b
  | AifCount => DbusClient.agm_get_aif_info_list 0 0
  | AifList p n => DbusClient.agm_get_aif_info_list p n
  | TagInfoSize i a n => DbusClient.agm_session_aif_get_tag_module_info i a 0 n
  | TagInfo i a p n => DbusClient.agm_session_aif_get_tag_module_info i a p n
  | SessionTime _ t => DbusClient.agm_get_session_time ch t
  | GetParams i p => DbusClient.agm_session_get_params i p
  | BufTimestamp i t => DbusClient.agm_get_buffer_timestamp i t
  end.

(** The handle a call is about. *)
Definition call_handle {A B} (c : call A B) : option Z :=
  match c with
  | SetConfig h _ _ _ | Prepare h | Start h | Stop h | Pause h | Resume h | Eos h | GetBuffCnt h _ | Close h
  | Read h _ | Write h _ | SessionTime h _ => Some h
  | _ => None
  end.

(** What reaches the service: the data format of a media configuration does not. *)
Definition sent_media (m : media_config) : media_config :=
  MediaConfig (mc_rate m) (mc_channels m) (mc_format m) db_junk.
Definition dbus_sent {A B} (c : call A B) : call A B :=
  match c with
  | SetMediaConfig i cfg => SetMediaConfig i (sent_media cfg)
  | SetConfig h s m b => SetConfig h s (sent_media m) b
  | c => c
  end.

(** Sizes of 32 bits; the calls D-Bus has, without those of the life of a session and
    [agm_session_write]. *)
Definition dbus_fits {A B} (c : call A B) : Prop :=
  match c with
  | SetMediaConfig _ cfg => is_u32 (mc_format cfg)
  | SetConfig _ s _ b => session_fits s /\ is_u32 (bc_size b)
  | SetParamsWithTag _ _ _ l => 8 + Z.of_nat (length l) * 8 < 2 ^ 32
  | SetCal _ _ l => 4 + Z.of_nat (length l) * 8 < 2 ^ 32 /\ Forall kv_u32 l
  | Read _ n => 0 <= n
  | AifList p n => p <> 0 /\ 0 < n
  | TagInfo _ _ p n => p <> 0 /\ 0 <= n
  | AifSetParams _ _ | Open _ | Close _ | Write _ _ => False
  | _ => True
  end.

(** Where the two ends rely on the service: a read and a query give at most what was asked
    for, and as many interfaces as were asked for. *)
Definition dbus_within {A B} (c : call A B) : A -> Prop :=
  match c with
  | Read _ n => fun a => nz a.1.1 = false -> 0 <= a.1.2 <= n /\ a.1.2 < 2 ^ 32 /\ a.1.2 <= Z.of_nat (length a.2)
  | AifList _ n => fun a => nz a.1 = false -> exists l, a.2 = Some (l, n) /\ Z.of_nat (length l) = n /\ n < 2 ^ 32 /\
      Forall (fun i => (String.length i.1 < AIF_NAME_MAX_LEN)%nat) l
  | TagInfo _ _ _ n => fun a => nz a.1 = false -> 0 <= from_option snd n a.2 <= n /\ from_option snd n a.2 < 2 ^ 32
  | GetParams _ p => fun a => length a.2 = length p
  | _ => fun _ => True
  end.

(** What the client gets: every error is -EINVAL. *)
Definition status_seen (r : Z) : Z := if nz r then - EINVAL else 0.
Definition result_seen {B} (r : Z) (failed b : B) : B := if nz r then failed else b.
Definition dbus_seen {A B} (c : call A B) : A -> B :=
  match c with
  | GetBuffCnt _ _ => u32
  | Open _ => fun a => (status_seen a.1, 0)
  | Read _ n => fun a => let '(r, n', bytes) := a in
      (status_seen r, result_seen r n n', result_seen r [] (take (Z.to_nat n') bytes))
  | Write _ b => fun a => (status_seen a.1, 0)
  | AifCount => fun a => (status_seen a.1, [], result_seen a.1 0 (u32 (from_option snd 0 a.2)))
  | AifList _ n => fun a => (status_seen a.1, result_seen a.1 [] (from_option fst [] a.2), n)
  | TagInfoSize _ _ n => fun a => (status_seen a.1, [], result_seen a.1 n (u32 (from_option snd n a.2)))
  | TagInfo _ _ _ n => fun a =>
      let size := from_option snd n a.2 in
      (status_seen a.1, result_seen a.1 [] (take (Z.to_nat size) (fit (Z.to_nat n) (from_option fst [] a.2))),
       result_seen a.1 n size)
  | SessionTime _ t => fun a => (status_seen a.1, result_seen a.1 t (default db_junk a.2))
  | GetParams _ p => fun a => (status_seen a.1, result_seen a.1 p a.2)
  | BufTimestamp _ t => fun a => (status_seen a.1, result_seen a.1 t (default 0 a.2))
  | _ => status_seen
  end.
End Calls.

(** ** Running a call *)

(** A row of one of the tables. *)
Ltac in_table := apply list_elem_of_In; cbn [In agm_dbus_module_methods agm_dbus_session_methods];
  repeat first [left; reflexivity|right].

Section Run.
Context `{Env, DBus}.
Context (Hmem : forall n, db_alloc n = true).

(** The call makes the call of the service, which alone changes. *)
Definition dbus_runs {A B} (ch : Z) (c : call A B) (a : A) (w : world) (y : dsys) : Prop :=
  wp (dbus_remote ch c) (fun b y' => b = dbus_seen c a /\ exists t, y' = set_ds_tick t (set_ds_agm w y)) y.

Lemma db_same (y : dsys) w : exists t, set_ds_agm w y = set_ds_tick t (set_ds_agm w y).
Proof. by exists (ds_tick y). Qed.

Lemma db_ticked (y : dsys) t w : exists t', set_ds_agm w (set_ds_tick t y) = set_ds_tick t' (set_ds_agm w y).
Proof. by exists t. Qed.

Lemma wpg_status (Q : Z -> dsys -> Prop) r y :
  Q (status_seen r) y ->
  wp (status_reply r) (fun res y' =>
    wp (match res with None => ret (as_status (- EINVAL)) | Some result => status_of result end) Q y') y.
Proof. intros HQ. unfold status_reply, status_seen in *. by destruct (nz r). Qed.

(** [db_step E]: the rule for the next operation; [E] is the outcome of the call of the service. *)
Ltac db_step E :=
  cbn [negb]; cbv beta iota zeta;
  lazymatch goal with
  | |- wpg _ (bind _ _) _ _ => apply wpg_bind
  | |- wpg _ (ret _) _ _ => apply wpg_ret
  | |- wpg _ db_tick _ _ => apply wpg_db_tick
  | |- wpg _ malloc _ _ => apply (wpg_malloc _ Hmem)
  | |- wpg _ (copy_bytes _ _) _ _ => apply (wpg_copy_bytes _ Hmem); [done|]
  | |- wpg _ (db_srv _) _ _ => eapply wpg_db_srv; [exact E|]
  | |- wpg _ (fixed_array _ _) _ _ => apply wpg_fixed_array; [done|]
  | |- wpg _ (module_call _ _ _ _) _ _ => eapply wpg_module_call; [assumption|in_table|]
  | |- wpg _ (session_call _ _ _ _ _) _ _ => eapply wpg_session_call; [eassumption|in_table|]; cbn [run_method]
  | |- wpg _ (with_args _ _ _) _ _ => apply wpg_with_args; [done|reflexivity|]
  | |- wpg _ (ses_at _) _ _ => eapply wpg_ses_at; [eassumption|]
  | |- wpg _ (status_reply _) _ _ => apply wpg_status
  | |- wpg _ (memcpy _ _ _) _ _ => fail
  | |- wpg _ (read_tkvs _ _) _ _ => fail
  | |- wpg _ (read_aifs _ _) _ _ => fail
  | |- wpg _ (if _ then _ else _) _ _ => fail
  | |- wpg _ ?m _ _ => let h := head_of m in unfold h
  end.
Ltac db_run E := repeat db_step E; cbv beta iota; cbn [fst snd].
Ltac db_done := split; [reflexivity|first [by apply db_same|by apply db_ticked|eexists; reflexivity]].
(** A reply with results: the two statuses. *)
Ltac db_result r E := destruct (nz r) eqn:Er; [db_run E; split; [cbn; unfold status_seen, result_seen; by rewrite ?Er|first [by apply db_same|by apply db_ticked|eexists; reflexivity]]|db_run E].
Ltac db_seen := split; [cbn; unfold status_seen, result_seen|first [by apply db_same|by apply db_ticked|eexists; reflexivity]].

Lemma db_module {A B} (c : call A B) ch a w y :
  match c with
  | SetMediaConfig _ _ | AifSetMetadata _ _ | SetMetadata _ _ | SessionAifSetMetadata _ _ _
  | Connect _ _ _ | Loopback _ _ _ | EcRef _ _ _ | SessionAifSetParams _ _ _ | SetParams _ _ | BufTimestamp _ _ => True
  | _ => False
  end ->
  direct (dbus_sent c) (ds_agm y) = Ret a w -> dbus_fits c -> dbus_ready y -> dbus_runs ch c a w y.
Proof.
  intros Hk E Hf Hr. destruct c; try done; cbn [dbus_fits direct dbus_sent] in *; unfold dbus_runs; cbn [dbus_remote].
  { unfold sent_media in E. rewrite <- (u32_small (mc_format cfg)), <- (u32_s32 (mc_format cfg)) in E by done. db_run E. db_done. }
  all: db_run E; try db_done.
  destruct a as [r out]. db_result r E. db_seen. by rewrite Er.
Qed.

Lemma db_session {A B} (c : call A B) ch h p a w y :
  match c with
  | Prepare _ | Start _ | Stop _ | Pause _ | Resume _ | Eos _ | GetBuffCnt _ _ | SessionTime _ _ => True
  | _ => False
  end ->
  direct (dbus_sent c) (ds_agm y) = Ret a w -> call_handle c = Some h -> linked_at y ch h p -> dbus_runs ch c a w y.
Proof.
  intros Hk E Hc Hl. assert (Hs := Hl). destruct Hs as (d & sd & _ & _ & _ & _ & Hsd & <-).
  destruct c; try done; injection Hc as ->; cbn [direct dbus_sent] in E; unfold dbus_runs; cbn [dbus_remote].
  all: db_run E; try db_done.
  - split; [cbn; by rewrite u32_s32|by apply db_same].
  - destruct a as [r out]. db_result r E. db_seen. by rewrite Er.
Qed.

Lemma db_set_config h s m b ch p r w y :
  let c := SetConfig h s m b in
  direct (dbus_sent c) (ds_agm y) = Ret r w -> dbus_fits c -> linked_at y ch h p -> dbus_runs ch c r w y.
Proof.
  cbv zeta. destruct b as [n z]. intros E [Hf Hz] Hl. assert (Hs := Hl). destruct Hs as (d & sd & Hc & _ & _ & _ & Hsd & <-).
  cbn [direct dbus_sent bc_size] in *. unfold dbus_runs. cbn [dbus_remote]. unfold DbusClient.agm_session_set_config, g_assert.
  pose proof (length_session_bytes s Hf) as Hlen. rewrite (proj2 (nz_true ch)) by lia. do 2 db_step E. db_step E.
  apply wpg_fixed_array; [by rewrite Hlen|]. cbn [bc_size bc_count]. rewrite (u32_small z) by done. db_run E.
  apply wpg_memcpy_all; [done|by rewrite Hlen, length_replicate|]. db_step E. db_step E.
  rewrite <- (fit_id (session_bytes s) _ Hlen), session_roundtrip by done. unfold sent_media in E. db_run E. db_done.
Qed.

Lemma wpg_read_tkvs u l (Q : list key_value -> dsys -> Prop) y :
  Q l y -> wpg u (read_tkvs (length l) ((fun k => DStruct [DUint32 (kv_key k); DUint32 (kv_val k)]) <$> l)) Q y.
Proof.
  revert Q. induction l as [|[k v] l IH]; intros Q HQ; [done|]. rewrite fmap_cons. cbn [read_tkvs length].
  do 3 apply wpg_bind, wpg_ret. apply wpg_bind, IH. exact HQ.
Qed.

Lemma db_tag i a t kvs ch r w y :
  let c := SetParamsWithTag i a t kvs in
  direct (dbus_sent c) (ds_agm y) = Ret r w -> dbus_fits c -> dbus_ready y -> dbus_runs ch c r w y.
Proof.
  cbv zeta. intros E Hn Hr. cbn [direct dbus_sent dbus_fits] in *. unfold dbus_runs. cbn [dbus_remote].
  db_run E. rewrite Nat2Z.id. apply wpg_read_tkvs. rewrite u32_small by lia. rewrite Z.ltb_irrefl.
  rewrite Nat.sub_diag, app_nil_r. db_run E. db_done.
Qed.

Lemma db_cal i a kvs ch r w y :
  let c := SetCal i a kvs in
  direct (dbus_sent c) (ds_agm y) = Ret r w -> dbus_fits c -> dbus_ready y -> dbus_runs ch c r w y.
Proof.
  cbv zeta. intros E [Hn Hk] Hr. cbn [direct dbus_sent] in *. unfold dbus_runs. cbn [dbus_remote].
  unfold DbusClient.agm_session_aif_set_cal. cbv zeta. pose proof (length_enc_kvs kvs) as Hl. rewrite (u32_small (_ * 8)) by lia.
  db_step E. apply wpg_fixed_array; [lia|]. db_run E. rewrite !u32_small by lia.
  apply wpg_memcpy_all; [lia|rewrite length_replicate; lia|]. rewrite (proj2 (Z.ltb_ge _ _)) by lia.
  rewrite Nat2Z.id, decode_enc_kvs by done. db_run E. db_done.
Qed.

Lemma db_events i cfg ch r w y :
  let c := RegisterForEvents i cfg in
  direct (dbus_sent c) (ds_agm y) = Ret r w -> dbus_ready y -> dbus_runs ch c r w y.
Proof.
  cbv zeta. destruct cfg as [m e p g]. intros E Hr. cbn [direct dbus_sent] in *. unfold dbus_runs. cbn [dbus_remote].
  db_run E. cbn [er_payload]. apply wpg_memcpy_all; [done|rewrite length_replicate; lia|]. cbn [er_module_instance_id er_event_id er_is_register].
  db_run E. db_done.
Qed.

Lemma wpg_fixed_part u b n (Q : dval -> dsys -> Prop) y :
  n <= Z.of_nat (length b) -> Q (DBytes (take (Z.to_nat n) b)) y -> wpg u (fixed_array b n) Q y.
Proof. intros Hn HQ. unfold fixed_array. by rewrite (proj2 (Z.ltb_ge _ _)). Qed.

Lemma db_read h n a ch p w y :
  let c := Read h n in
  direct (dbus_sent c) (ds_agm y) = Ret a w -> dbus_fits c -> dbus_within c a -> linked_at y ch h p -> dbus_runs ch c a w y.
Proof.
  cbv zeta. intros E Hn Hw Hl. assert (Hs := Hl). destruct Hs as (d & sd & _ & _ & _ & _ & Hsd & <-).
  cbn [direct dbus_sent dbus_fits dbus_within] in *. unfold dbus_runs. cbn [dbus_remote]. destruct a as [[r m] bytes]. cbn [fst snd] in Hw.
  db_run E. db_result r E. destruct (Hw eq_refl) as (Hm & Hm32 & Hb). rewrite u32_small by lia.
  apply wpg_fixed_part; [unfold overwrite; rewrite length_app; lia|]. db_run E. unfold overwrite. rewrite take_app_le by lia.
  rewrite length_take. rewrite (proj2 (Z.leb_le _ _)) by lia. db_run E. db_seen. rewrite Er. repeat f_equal. lia.
Qed.

Lemma db_get_params i p ch a w y :
  let c := GetParams i p in
  direct (dbus_sent c) (ds_agm y) = Ret a w -> dbus_within c a -> dbus_ready y -> dbus_runs ch c a w y.
Proof.
  cbv zeta. intros E Hw Hr. cbn [direct dbus_sent dbus_within] in *. unfold dbus_runs. cbn [dbus_remote].
  destruct a as [r b]. cbn [snd] in Hw. db_run E. db_result r E. apply wpg_fixed_array; [by rewrite Hw|]. db_run E.
  rewrite Hw, Z.leb_refl. db_step E. apply wpg_memcpy_all; [by rewrite Hw|by rewrite Hw|]. db_run E. db_seen. by rewrite Er.
Qed.

Lemma db_aif_count ch a w y :
  direct AifCount (ds_agm y) = Ret a w -> dbus_ready y -> dbus_runs ch AifCount a w y.
Proof.
  intros E Hr. cbn [direct] in *. unfold dbus_runs. cbn [dbus_remote].
  unfold DbusClient.agm_get_aif_info_list. change (0 =? 0) with true. cbv iota. destruct a as [r out].
  db_run E. db_result r E. db_seen. by rewrite Er.
Qed.

Lemma wpg_read_aifs u l (Q : list (string * Z) -> dsys -> Prop) y :
  Forall (fun i => (String.length i.1 < AIF_NAME_MAX_LEN)%nat) l ->
  Q l y -> wpg u (read_aifs (length l) ((fun a => DStruct [DUint32 a.2; DString a.1]) <$> l)) Q y.
Proof.
  intros Hl. revert Q. induction Hl as [|[n d] l Hn _ IH]; intros Q HQ; [done|]. rewrite fmap_cons. cbn [read_aifs length].
  do 3 apply wpg_bind, wpg_ret. cbn [fst snd] in *. rewrite (proj2 (Nat.ltb_ge _ _)) by lia. apply wpg_bind, IH. exact HQ.
Qed.

Lemma db_aif_list p n ch a w y :
  let c := AifList p n in
  direct c (ds_agm y) = Ret a w -> dbus_fits c -> dbus_within c a -> dbus_ready y -> dbus_runs ch c a w y.
Proof.
  cbv zeta. intros E [Hp Hn] Hw Hr. cbn [direct dbus_within] in *. unfold dbus_runs. cbn [dbus_remote].
  unfold DbusClient.agm_get_aif_info_list, g_assert. rewrite (proj2 (Z.eqb_neq n 0)) by lia. rewrite (proj2 (nz_true p)) by done.
  destruct a as [r out]. cbn [fst snd] in Hw. db_run E. db_result r E.
  destruct (Hw eq_refl) as (l & -> & Hl & Hn32 & Hf). cbn [from_option fst snd]. rewrite u32_small by lia.
  rewrite length_app, length_replicate, (proj2 (Z.ltb_ge _ _)) by lia. db_run E.
  replace (Z.to_nat n) with (length l) by lia. rewrite take_app_length. apply wpg_read_aifs; [done|]. db_run E. db_seen.
  by rewrite Er.
Qed.

Lemma db_tag_size i a n ch r w y :
  direct (TagInfoSize i a n) (ds_agm y) = Ret r w -> dbus_ready y -> dbus_runs ch (TagInfoSize i a n) r w y.
Proof.
  intros E Hr. cbn [direct] in *. unfold dbus_runs. cbn [dbus_remote]. unfold DbusClient.agm_session_aif_get_tag_module_info.
  change (0 =? 0) with true. cbv iota. destruct r as [r out]. db_run E. db_result r E. db_seen. by rewrite Er.
Qed.

Lemma db_tag_info i a p n ch r w y :
  let c := TagInfo i a p n in
  direct c (ds_agm y) = Ret r w -> dbus_fits c -> dbus_within c r -> dbus_ready y -> dbus_runs ch c r w y.
Proof.
  cbv zeta. intros E [Hp Hn] Hw Hr. cbn [direct dbus_within] in *. unfold dbus_runs. cbn [dbus_remote].
  unfold DbusClient.agm_session_aif_get_tag_module_info. rewrite (proj2 (Z.eqb_neq p 0)) by done.
  destruct r as [r out]. cbn [fst snd] in Hw. db_run E. db_result r E. destruct (Hw eq_refl) as [Hs Hs32].
  set (size := from_option snd n out) in *. set (b := fit _ _). assert (Hb : length b = Z.to_nat n) by apply length_fit.
  rewrite u32_small by lia. apply wpg_fixed_part; [lia|]. db_run E. rewrite length_take, Hb.
  apply wpg_memcpy_bytes; [rewrite length_take; lia|rewrite length_replicate; lia|]. db_run E. db_seen. rewrite Er.
  fold size. do 2 f_equal. rewrite Nat2Z.id, take_app_length' by (rewrite !length_take; lia). fold b.
  by rewrite take_ge by (rewrite length_take; lia).
Qed.

Lemma dbus_call {A B} (c : call A B) ch a w y :
  dbus_ready y -> (forall h, call_handle c = Some h -> linked y ch h) ->
  direct (dbus_sent c) (ds_agm y) = Ret a w -> dbus_fits c -> dbus_within c a -> dbus_runs ch c a w y.
Proof.
  intros Hr Hl E Hf Hw.
  assert (Hp : forall h, call_handle c = Some h -> exists p, linked_at y ch h p) by exact Hl. clear Hl.
  destruct c; try (destruct (Hp _ eq_refl) as [p Hl]).
  all: first [done|by apply db_module|by eapply db_session|by eapply db_set_config|by apply db_tag|by apply db_cal|by apply db_events
    |by eapply db_read|by apply db_get_params|by apply db_aif_count|by apply db_aif_list|by apply db_tag_size|by apply db_tag_info].
Qed.
End Run.

Section Transparent.
Context `{Env, DBus}.

(** C14: calls through D-Bus, to a server with memory that serves the module and,
    for a call on a session, an object for it.  The functions of the client
    library but [agm_init], [agm_deinit], the open, close and write of a session and the
    registration of callbacks make, in the server, the call of the service with the
    same arguments and, for a session, with the handle the service gave for it: the
    service ends in the same state, and nothing else changes ([agm_aif_set_params] has
    no function here).  What the client gets is what the service gave, the bytes of
    a read included, but for what is lost: the data format of a media configuration and,
    of a failed call, everything but that it failed: its status becomes -EINVAL.
    This is for sizes of 32 bits, for a read of which the service stores as many bytes as
    it reports, no more than asked for, and for a query that asks for as many
    interfaces as there are. *)
Theorem dbus_transparent {A B} (c : call A B) ch a w y :
  (forall n, db_alloc n = true) ->
  dbus_ready y -> (forall h, call_handle c = Some h -> linked y ch h) ->
  direct (dbus_sent c) (ds_agm y) = Ret a w -> dbus_fits c -> dbus_within c a ->
  exists t, dbus_remote ch c y = Ret (dbus_seen c a) (set_ds_tick t (set_ds_agm w y)).
Proof.
  intros Hmem Hr Hl E Hf Hw. pose proof (dbus_call Hmem c ch a w y Hr Hl E Hf Hw) as Hrun.
  apply wp_run in Hrun as (b & y' & E' & -> & t & ->). by exists t.
Qed.
End Transparent.

(** ** Signatures *)

Section Signatures.
Context `{Env, DBus}.

(** The user data an interface is registered with. *)
Definition fits_interface (info : interface_info) (userdata : user_data) : Prop :=
  (info = module_interface_info /\ userdata = ModuleData) \/
  (info = session_interface_info /\ exists p, userdata = SessionData p).

Lemma with_args_other sig msg body y : sig <> EmptyString -> signature msg <> sig -> with_args sig msg body y = Ret None y.
Proof. intros Hs Hm. unfold with_args. destruct msg; [done|]. by rewrite (proj2 (String.eqb_neq _ _)). Qed.

Lemma methods_nodup info userdata : fits_interface info userdata -> NoDup (dm_name <$> ii_methods info).
Proof. intros [[-> _]|[-> _]]; [exact module_methods_nodup|exact session_methods_nodup]. Qed.

(** C39: the table and the handlers agree on signatures.  A call of a method with
    arguments of another signature than its entry of the table has gets an error, and
    neither the service nor the server's state is touched; a method whose entry has no
    signature never looks at what it is sent. *)
Theorem dbus_signature_checked path info userdata m msg y :
  fits_interface info userdata -> served_at path info userdata y -> m ∈ ii_methods info ->
  (dm_signature m <> EmptyString -> signature msg <> dm_signature m ->
     server_message_handler path (ii_name info) (dm_name m) msg y = Ret None y) /\
  (dm_signature m = EmptyString -> forall msg',
     server_message_handler path (ii_name info) (dm_name m) msg y =
     server_message_handler path (ii_name info) (dm_name m) msg' y).
Proof.
  intros Hfit Hser Hin. pose proof (methods_nodup _ _ Hfit) as Hnd. split.
  - intros Hs Hm. rewrite (handler_run _ _ _ _ _ _ Hser Hnd Hin). apply list_elem_of_In in Hin.
    destruct Hfit as [[-> ->]|[-> [p ->]]]; cbn [ii_methods module_interface_info session_interface_info] in Hin;
      repeat destruct Hin as [<-|Hin]; try destruct Hin; cbn [dm_signature dm_func] in *;
      first [done|by apply with_args_other].
  - intros Hs msg'. rewrite !(handler_run _ _ _ _ _ _ Hser Hnd Hin). apply list_elem_of_In in Hin.
    destruct Hfit as [[-> ->]|[-> [p ->]]]; cbn [ii_methods module_interface_info session_interface_info] in Hin;
      repeat destruct Hin as [<-|Hin]; try destruct Hin; first [discriminate Hs|done].
Qed.
End Signatures.
