(* ===== verification/DbusSession.v ===== *)
(** * Sessions over D-Bus: opening, closing, callbacks *)

From stdpp Require Import gmap strings pretty.
From S2P Require Export DbusProps.
Open Scope Z_scope.
#[export] Set Default Goal Selector "!".

(** ** Object paths *)

(** The session ids for which there is one: the path of another has a sign, which D-Bus
    does not allow in an object path. *)
Definition small_id (i : Z) : Prop := 0 <= i < 2 ^ 31.

Lemma substring_all s : String.substring 0 (String.length s) s = s.
Proof. induction s as [|c s IH]; [done|]. cbn [String.length String.substring]. by rewrite IH. Qed.

Lemma session_path_small i : small_id i -> session_path i = (AGM_OBJECT_PATH ++ "/session_" ++ pretty i)%string.
Proof. intros Hi. unfold session_path, small_id in *. by rewrite s32_small, substring_all by lia. Qed.

Lemma session_path_inj i j : small_id i -> small_id j -> session_path i = session_path j -> i = j.
Proof.
  intros Hi Hj He. rewrite !session_path_small in He by done.
  apply (inj (String.append _)), (inj (String.append _)) in He. exact (inj pretty _ _ He).
Qed.

Lemma session_path_module i : session_path i <> AGM_OBJECT_PATH.
Proof.
  intros He.
  assert (He' : (AGM_OBJECT_PATH ++ "/session_" ++ String.substring 0 (String.length (pretty i)) (pretty (s32 i)) = AGM_OBJECT_PATH ++ "")%string) by exact He.
  apply (inj (String.append _)) in He'. discriminate He'.
Qed.

(** ** Invariant

    What holds between the two tables of sessions, the objects on the bus and the data
    they are for. *)

Section Invariant.
Context `{Env, DBus}.

Record dbus_wf (y : dsys) : Prop := DbusWf {
  wf_ready : dbus_ready y;
  wf_sessions : forall i p, ds_sessions y !! i = Some p ->
    small_id i /\ served_at (session_path i) session_interface_info (SessionData p) y /\
    exists sd, ds_ses y !! p = Some (Some sd) /\ sd_session_id sd = i /\ sd_obj_path sd = session_path i;
  wf_fresh : forall i, small_id i -> ds_sessions y !! i = None -> ds_objects y !! session_path i = None;
  wf_table : forall i k, ds_table y !! i = Some k ->
    small_id i /\ is_Some (ds_sessions y !! i) /\
    exists d, ds_cses y !! k = Some (Some d) /\ cs_proxy d = true /\ cs_session_id d = i /\ cs_obj_path d = session_path i
}.

(** The handle [ch] of the client names session [i], whose handle in the service is [h]. *)
Definition names (y : dsys) (ch i h : Z) : Prop := exists p, ds_sessions y !! i = Some p /\ linked_at y ch h p.

(** The state of the client is the same. *)
Record same_client (y y' : dsys) : Prop := SameClient {
  sc_mdata : ds_mdata y' = ds_mdata y;
  sc_table : ds_table y' = ds_table y;
  sc_cses : ds_cses y' = ds_cses y;
  sc_cbs : ds_cbs y' = ds_cbs y;
  sc_subs : ds_subs y' = ds_subs y;
  sc_queue : ds_queue y' = ds_queue y;
  sc_loops : ds_loops y' = ds_loops y;
  sc_delivered : ds_delivered y' = ds_delivered y
}.

Lemma served_insert path info ud path' x y y' :
  served_at path info ud y -> ds_objects y !! path' = None -> ds_objects y' = <[path' := x]> (ds_objects y) ->
  served_at path info ud y'.
Proof.
  intros (ifs & Ho & Hi) Hn He. exists ifs. split; [|done]. rewrite He, lookup_insert_ne; [done|congruence].
Qed.

(** A session the server does not know gets data and an object. *)
Definition with_session_data (i : Z) (y : dsys) : dsys :=
  let p := length (ds_ses y) in
  set_ds_tick (3 + ds_tick y)
    (set_ds_sessions (<[i := p]> (ds_sessions y))
      (set_ds_objects (<[session_path i := {[AGM_SESSION_IFACE := make_interface session_interface_info (SessionData p)]}]> (ds_objects y))
        (set_ds_ses (ds_ses y ++ [Some (SesData i db_junk (session_path i) [])]) y))).

Lemma with_session_data_wf i y :
  dbus_wf y -> small_id i -> ds_sessions y !! i = None -> dbus_wf (with_session_data i y).
Proof.
  intros [[Hm Hr] Hs Hf Ht] Hi Hn. pose proof (Hf i Hi Hn) as Hp. split.
  - split; [done|]. by eapply served_insert.
  - intros j q. cbn [with_session_data ds_sessions set_ds_tick set_ds_sessions]. intros [[<- <-]|[Hne Hj]]%lookup_insert_Some.
    + split; [done|]. split.
      * eexists. split; [apply lookup_insert_eq|apply lookup_singleton_eq].
      * eexists. split; [cbn; rewrite lookup_app_r, Nat.sub_diag by lia; done|done].
    + destruct (Hs j q Hj) as (Hju & Hser & sd & Hsd & Hsi & Hsp). split; [done|]. split.
      * by eapply served_insert.
      * exists sd. split; [|done]. cbn. by apply lookup_app_l_Some.
  - intros j Hj. cbn [with_session_data ds_sessions ds_objects set_ds_tick set_ds_sessions set_ds_objects].
    intros [Hne Hjn]%lookup_insert_None. rewrite lookup_insert_ne; [by apply Hf|]. by intros ?%session_path_inj.
  - intros j k Hj. destruct (Ht j k Hj) as (Hju & [q Hq] & d & Hd). split; [done|]. split; [|by exists d].
    cbn. destruct (decide (i = j)) as [->|Hne]; [by rewrite lookup_insert_eq|by rewrite lookup_insert_ne].
Qed.

Lemma with_session_data_linked i y ch h p :
  dbus_wf y -> small_id i -> ds_sessions y !! i = None -> linked_at y ch h p -> linked_at (with_session_data i y) ch h p.
Proof.
  intros Hwf Hi Hn (d & sd & Hc & Hd & Hp & Hs & Hsd & Hh). exists d, sd. split_and!; try done.
  - eapply served_insert; [done|by apply (wf_fresh y)|done].
  - cbn. by apply lookup_app_l_Some.
Qed.

Context (Hmem : forall n, db_alloc n = true) (Hreg : forall n, db_register n = true).

Lemma get_session_data_run i y :
  dbus_wf y -> small_id i ->
  get_session_data i y = match ds_sessions y !! i with
    | Some p => Ret (Some p) y
    | None => Ret (Some (length (ds_ses y))) (with_session_data i y)
    end.
Proof.
  intros Hwf Hi. unfold get_session_data, bind at 1, gets at 1. destruct (ds_sessions y !! i) as [p|] eqn:E; [done|].
  unfold malloc, agm_dbus_add_interface, db_tick, bind, gets, modify, ret. rewrite !Hmem.
  cbn [ds_objects set_ds_tick set_ds_ses ds_ses]. rewrite (wf_fresh y Hwf i Hi E). rewrite Hreg. change (nz 0) with false. by destruct y.
Qed.

Lemma names_session_data i y ch j h :
  dbus_wf y -> small_id i -> ds_sessions y !! i = None -> names y ch j h -> names (with_session_data i y) ch j h.
Proof.
  intros Hwf Hi Hn (p & Hp & Hl). exists p. split; [|by apply with_session_data_linked].
  cbn. rewrite lookup_insert_ne; [done|congruence].
Qed.

(** Where the data of a session are, or will be. *)
Definition session_at (i : Z) (y : dsys) : nat := default (length (ds_ses y)) (ds_sessions y !! i).

Lemma wpg_get_session_data u i (Q : option nat -> dsys -> Prop) y :
  dbus_wf y -> small_id i ->
  (forall y1, dbus_wf y1 -> ds_sessions y1 !! i = Some (session_at i y) -> same_client y y1 -> ds_agm y1 = ds_agm y ->
     (forall ch j h, names y ch j h -> names y1 ch j h) -> Q (Some (session_at i y)) y1) ->
  wpg u (get_session_data i) Q y.
Proof.
  intros Hwf Hi HQ. unfold wpg, session_at in *. rewrite get_session_data_run by done. destruct (ds_sessions y !! i) as [p|] eqn:E.
  - by apply HQ.
  - apply HQ; [by apply with_session_data_wf|apply lookup_insert_eq|done|done|]. intros. by apply names_session_data.
Qed.

(** What the invariant is about. *)
Lemma wf_ext y y' :
  ds_mdata y' = ds_mdata y -> ds_objects y' = ds_objects y -> ds_sessions y' = ds_sessions y ->
  ds_ses y' = ds_ses y -> ds_table y' = ds_table y -> ds_cses y' = ds_cses y -> dbus_wf y -> dbus_wf y'.
Proof.
  intros E1 E2 E3 E4 E5 E6 [[Hm Hr] Hs Hf Ht]. unfold served_at in *.
  split; [split; unfold served_at|..]; unfold served_at; rewrite ?E1, ?E2, ?E3, ?E4, ?E5, ?E6; done.
Qed.

Lemma names_ext y y' ch i h :
  ds_objects y' = ds_objects y -> ds_sessions y' = ds_sessions y -> ds_ses y' = ds_ses y -> ds_cses y' = ds_cses y ->
  names y ch i h -> names y' ch i h.
Proof. intros E2 E3 E4 E6. unfold names, linked_at, served_at. by rewrite E2, E3, E4, E6. Qed.

(** An update of the data of a session that keeps its identity. *)
Definition upd_data (p : nat) (f : agm_session_data -> agm_session_data) (y : dsys) : dsys :=
  set_ds_ses (alter (fmap f) p (ds_ses y)) y.

Lemma upd_data_wf p f y :
  (forall d, sd_session_id (f d) = sd_session_id d /\ sd_obj_path (f d) = sd_obj_path d) ->
  dbus_wf y -> dbus_wf (upd_data p f y).
Proof.
  intros Hf [[Hm Hr] Hs Hfr Ht]. split; [by split| |done|done].
  intros i q Hi. destruct (Hs i q Hi) as (Hu & Hser & sd & Hsd & Hid & Hpath). split; [done|]. split; [done|].
  cbn. destruct (decide (p = q)) as [->|Hne].
  - exists (f sd). rewrite list_lookup_alter_eq, Hsd. destruct (Hf sd) as [-> ->]. done.
  - exists sd. by rewrite list_lookup_alter_ne.
Qed.

Lemma upd_data_names p f y ch i h :
  dbus_wf y -> (forall j, ds_sessions y !! j = Some p -> j <> i) -> names y ch i h -> names (upd_data p f y) ch i h.
Proof.
  intros Hwf Hne (q & Hq & d & sd & Hc & Hd & Hp & Hs & Hsd & Hh). exists q. split; [done|].
  exists d, sd. split_and!; try done. cbn. rewrite list_lookup_alter_ne; [done|]. intros <-. by apply (Hne i).
Qed.

(** ... and its handle: every handle of the client stays what it was. *)
Lemma upd_data_names_all p f y ch i h :
  (forall d, sd_handle (f d) = sd_handle d) -> names y ch i h -> names (upd_data p f y) ch i h.
Proof.
  intros Hf (q & Hq & d & sd & Hc & Hd & Hp & Hs & Hsd & Hh). exists q. split; [done|]. exists d. cbn.
  destruct (decide (p = q)) as [->|Hne].
  - exists (f sd). rewrite list_lookup_alter_eq, Hsd, Hf. done.
  - exists sd. by rewrite list_lookup_alter_ne.
Qed.

Lemma alter_lookup_fmap (l : list (option agm_session_data)) p sd f :
  l !! p = Some (Some sd) -> alter (fmap f) p l !! p = Some (Some (f sd)).
Proof. intros Hp. by rewrite list_lookup_alter_eq, Hp. Qed.

Lemma upd_ses_run p f y sd : ds_ses y !! p = Some (Some sd) -> upd_ses p f y = Ret tt (upd_data p f y).
Proof. intros Hp. unfold upd_ses, ses_at, bind, gets, modify, ret. by rewrite Hp. Qed.

(** One datum, one session. *)
Lemma session_inj y i j p : dbus_wf y -> ds_sessions y !! i = Some p -> ds_sessions y !! j = Some p -> i = j.
Proof.
  intros Hwf Hi Hj. destruct (wf_sessions y Hwf i p Hi) as (_ & _ & sd & Hsd & <- & _).
  destruct (wf_sessions y Hwf j p Hj) as (_ & _ & sd' & Hsd' & <- & _). congruence.
Qed.
End Invariant.

(** ** Opening *)

Section Open.
Context `{Env, DBus}.
Context (Hmem : forall n, db_alloc n = true) (Hreg : forall n, db_register n = true).
Context (Hproxy : forall n, db_proxy n = true).

(** The other sessions keep their handles. *)
Definition others_named (i : Z) (y y' : dsys) : Prop := forall ch j h, j <> i -> names y ch j h -> names y' ch j h.

(** The server: the session's data have the handle.  After a failed open it gets past
    [agm_free_session] only when the variable read there is NULL. *)
Lemma wpg_open_server (u : Prop) i r out w (Q : option (list dval) -> dsys -> Prop) y :
  dbus_wf y -> small_id i -> Agm.agm_session_open i true (ds_agm y) = Ret (r, out) w ->
  (nz r = false -> is_Some out) -> (nz r = true -> db_stale_null = true \/ u) ->
  (forall p y', (nz r = true -> db_stale_null = true) -> dbus_wf y' -> ds_agm y' = w -> same_client y y' -> others_named i y y' -> ds_sessions y' !! i = Some p ->
     (forall h, out = Some h -> exists sd, ds_ses y' !! p = Some (Some sd) /\ sd_handle sd = h) ->
     Q (if nz r then None else Some [DObjectPath (session_path i)]) y') ->
  wpg u (run_method AgmSessionOpen ModuleData [DUint32 i]) Q y.
Proof.
  intros Hwf Hi E Hout Hnull HQ.
  assert (Hfree : forall y', nz r = true -> (db_stale_null = true -> Q None y') ->
    wpg u (do! agm_free_session ; agm_dbus_send_error) Q y').
  { intros y' Hr HQ'. unfold agm_free_session. destruct db_stale_null eqn:En.
    - by apply wpg_bind, wpg_ret, wpg_ret, HQ'.
    - apply wpg_bind, wpg_crash. by destruct (Hnull Hr). }
  cbn [run_method]. apply wpg_with_args; [done|reflexivity|].
  apply wpg_bind, wpg_ret, wpg_bind, (wpg_get_session_data Hmem Hreg); [done|done|].
  intros y1 Hwf1 Hp Hcl Ha Hn. set (p := session_at i y) in *. apply wpg_bind. eapply wpg_db_srv; [by rewrite Ha|].
  set (y2 := set_ds_agm w y1). assert (Hwf2 : dbus_wf y2) by (by apply (wf_ext y1)).
  destruct (wf_sessions y2 Hwf2 i p Hp) as (_ & _ & sd & Hsd & _ & Hpath).
  assert (Hlast : forall h, out = Some h -> nz r = true \/ nz r = false ->
    let y3 := upd_data p (set_sd_handle h) y2 in
    dbus_wf y3 /\ ds_agm y3 = w /\ same_client y y3 /\ others_named i y y3 /\ ds_sessions y3 !! i = Some p /\
    ds_ses y3 !! p = Some (Some (set_sd_handle h sd))).
  { intros h _ _. cbv zeta. split; [by apply upd_data_wf|]. split; [done|]. split; [by destruct Hcl|].
    split; [|split; [done|exact (alter_lookup_fmap (ds_ses y2) p sd _ Hsd)]].
    intros ch j k Hne Hnm. apply upd_data_names; [done|intros j' Hj'; by rewrite (session_inj y2 j' i p)|].
    apply (names_ext y1); try done. by apply Hn. }
  destruct out as [h|].
  - destruct (Hlast h eq_refl ltac:(destruct (nz r); auto)) as (H1 & H2 & H3 & H4 & H5 & H6).
    set (y3 := upd_data p (set_sd_handle h) y2) in *. apply wpg_bind, wpg_bind, wpg_ret.
    unfold wpg at 1. rewrite (upd_ses_run _ _ _ sd) by done. fold y3.
    assert (HQ3 : forall y', (nz r = true -> db_stale_null = true) -> dbus_wf y' -> ds_agm y' = w -> same_client y y' -> others_named i y y' -> ds_sessions y' !! i = Some p ->
      ds_ses y' = ds_ses y3 -> Q (if nz r then None else Some [DObjectPath (session_path i)]) y').
    { intros y' W0 W1 W2 W3 W4 W5 W6. apply (HQ p); try done. intros h' [= <-]. exists (set_sd_handle h sd). by rewrite W6. }
    destruct (nz r).
    + apply Hfree; [done|]. intros Hn0. by apply HQ3.
    + apply wpg_bind, wpg_ret, wpg_bind, wpg_modify, wpg_bind. eapply wpg_ses_at; [exact H6|].
      cbn [sd_obj_path set_sd_handle]. rewrite Hpath. apply HQ3; try done; [by apply (wf_ext y3)|by destruct H3].
  - apply wpg_bind, wpg_ret. destruct (nz r); [|by destruct (Hout eq_refl)].
    apply Hfree; [done|]. intros Hn0. apply (HQ p y2); try done; [by destruct Hcl|].
    intros ch j k Hne Hnm. apply (names_ext y1); try done. by apply Hn.
Qed.
(** The client: a new entry of its table. *)
Definition with_client_data (thread : bool) (i : Z) (y : dsys) : dsys :=
  set_ds_table (<[i := length (ds_cses y)]> (ds_table y))
    (set_ds_cses (ds_cses y ++ [Some (CSesData (session_path i) true i thread [])]) y).

Lemma wpg_client_data u i (Q : Z * Z -> dsys -> Prop) y :
  Q (0, addr_of (length (ds_cses y))) (with_client_data false i y) ->
  wpg u (let! h := new_cses (CSesData (session_path i) true i false []) in
         do! modify (fun y => set_ds_table (<[i := Z.to_nat (h - 1)]> (ds_table y)) y) ;
         ret (0, h)) Q y.
Proof.
  intros HQ. apply wpg_bind, wpg_bind, wpg_gets, wpg_bind, wpg_modify, wpg_ret, wpg_bind, wpg_modify, wpg_ret.
  unfold addr_of at 2. by replace (Z.to_nat _) with (length (ds_cses y)) by lia.
Qed.

Lemma with_client_data_wf thread i y :
  dbus_wf y -> small_id i -> is_Some (ds_sessions y !! i) -> dbus_wf (with_client_data thread i y).
Proof.
  intros [[Hm Hr] Hs Hf Ht] Hi Hp. split; [done|done|done|]. intros j k. cbn [with_client_data ds_table set_ds_table].
  intros [[<- <-]|[Hne Hj]]%lookup_insert_Some.
  - split; [done|]. split; [done|]. eexists. split; [cbn; rewrite lookup_app_r, Nat.sub_diag by lia; done|done].
  - destruct (Ht j k Hj) as (Hju & Hjp & d & Hd & Hd'). split; [done|]. split; [done|]. exists d. split; [|done].
    cbn. by apply lookup_app_l_Some.
Qed.

Lemma names_client_data thread i y ch j h : names y ch j h -> names (with_client_data thread i y) ch j h.
Proof.
  intros (p & Hp & d & sd & Hc & Hd & Hx). exists p. split; [done|]. exists d, sd. split; [done|]. split; [|done].
  cbn. by apply lookup_app_l_Some.
Qed.

(** The handle of an entry of the table. *)
Lemma names_table y i k p sd :
  dbus_wf y -> ds_table y !! i = Some k -> ds_sessions y !! i = Some p -> ds_ses y !! p = Some (Some sd) ->
  names y (addr_of k) i (sd_handle sd).
Proof.
  intros Hwf Ht Hp Hsd. destruct (wf_table y Hwf i k Ht) as (_ & _ & d & Hd & Hpr & _ & Hpath).
  destruct (wf_sessions y Hwf i p Hp) as (_ & Hser & _). exists p. split; [done|]. exists d, sd.
  unfold addr_of. replace (Z.to_nat _) with k by lia. rewrite Hpath. split_and!; try done. lia.
Qed.

(** What opening comes to. *)
Definition opens (i handle r : Z) (out : option Z) (w : world) (y : dsys) (ch : Z) (y' : dsys) : Prop :=
  ds_agm y' = w /\ dbus_wf y' /\ others_named i y y' /\
  if nz r then ch = handle else exists h, out = Some h /\ names y' ch i h.

Lemma dbus_open_run i handle r out w y :
  dbus_wf y -> small_id i -> Agm.agm_session_open i true (ds_agm y) = Ret (r, out) w ->
  (nz r = true -> db_stale_null = true) ->
  wp (DbusClient.agm_session_open i handle) (fun o y' => exists ch, o = (status_seen r, ch) /\ opens i handle r out w y ch y') y.
Proof.
  intros Hwf Hi E Hnull.
  unfold DbusClient.agm_session_open. eapply wpg_module_call; [apply Hwf|in_table|].
  apply (wpg_open_server _ i r out w); [done|done|done|intros Er; by destruct (open_stores _ _ _ _ _ E Er) as (h & -> & _)
    |by intros; left; apply Hnull|].
  intros p y' _ Hwf' Hw Hcl Hn Hp Hsd. unfold status_seen. destruct (nz r) eqn:Er.
  { apply wpg_ret. exists handle. unfold opens. by rewrite Er. }
  destruct (open_stores _ _ _ _ _ E Er) as (h & Hout & _). destruct (Hsd h Hout) as (sd & Hsd' & <-).
  apply wpg_bind, wpg_gets. destruct (ds_table y' !! i) as [k|] eqn:Et.
  { apply wpg_ret. exists (addr_of k). unfold opens. rewrite Er. split_and!; try done. exists (sd_handle sd). split; [done|]. by eapply names_table. }
  apply wpg_bind, (wpg_g_malloc0 _ Hmem), wpg_bind, wpg_ret, wpg_bind, wpg_db_tick. rewrite Hproxy. cbn [negb].
  apply wpg_client_data. set (y2 := set_ds_tick _ _). unfold opens. rewrite Er. eexists. split; [done|]. split; [done|].
  assert (Hwf2 : dbus_wf (with_client_data false i y2)) by (apply with_client_data_wf; [by apply (wf_ext y')|done|by exists p]).
  split; [done|]. split.
  - intros ch j h Hne Hnm. by apply names_client_data, (names_ext y'), Hn.
  - exists (sd_handle sd). split; [done|]. eapply names_table; [done|apply lookup_insert_eq|exact Hp|exact Hsd'].
Qed.

(** The variable is not NULL: the server does not get past a failed open. *)
Lemma dbus_open_stale i handle r out w y :
  dbus_wf y -> small_id i -> Agm.agm_session_open i true (ds_agm y) = Ret (r, out) w -> nz r = true -> db_stale_null = false ->
  wlp (DbusClient.agm_session_open i handle) (fun _ _ => False) y.
Proof.
  intros Hwf Hi E Hr Hnull. unfold DbusClient.agm_session_open. eapply wpg_module_call; [apply Hwf|in_table|].
  apply (wpg_open_server _ i r out w); [done|done|done|by rewrite Hr|by right|].
  intros p y' Hn. rewrite Hn in Hnull; done.
Qed.
End Open.

Section Opening.
Context `{Env, DBus}.

(** C37: opening through D-Bus, with memory, for a session id below 2^31, when the server can
    register the object of the session and the client gets a proxy of it.  When the service refuses, and the local
    variable that [agm_free_session] reads without a value is not NULL, the server
    crashes.  Otherwise the client gets the status of the service's open, 0 or
    -EINVAL; after an open that succeeded its handle is for the session it asked for, in
    the server and, with the handle the service gave, in the service; every handle of
    another session stays what it was, and the tables of both ends stay consistent. *)
Theorem dbus_open_names i handle r out w y :
  (forall n, db_alloc n = true) -> (forall n, db_register n = true) -> (forall n, db_proxy n = true) ->
  dbus_wf y -> small_id i -> Agm.agm_session_open i true (ds_agm y) = Ret (r, out) w ->
  if nz r && negb db_stale_null then exists why, DbusClient.agm_session_open i handle y = Crash why
  else exists ch y', DbusClient.agm_session_open i handle y = Ret (status_seen r, ch) y' /\
    ds_agm y' = w /\ dbus_wf y' /\ others_named i y y' /\
    if nz r then ch = handle else exists h, out = Some h /\ names y' ch i h.
Proof.
  intros Hmem Hreg Hproxy Hwf Hi E. destruct (nz r && negb db_stale_null) eqn:Ec.
  - apply andb_true_iff in Ec as [Er En%negb_true_iff].
    pose proof (dbus_open_stale Hmem Hreg i handle r out w y Hwf Hi E Er En) as Hw. unfold wpg in Hw.
    destruct (DbusClient.agm_session_open i handle y) as [? ?|why]; [done|by exists why].
  - assert (Hnull : nz r = true -> db_stale_null = true).
    { intros Er. rewrite Er in Ec. by destruct db_stale_null. }
    destruct (wp_run _ _ _ (dbus_open_run Hmem Hreg Hproxy i handle r out w y Hwf Hi E Hnull)) as (o & y' & E' & ch & -> & Hx).
    by exists ch, y'.
Qed.
End Opening.

(** ** Closing and writing *)

Section Endings.
Context `{Env, DBus}.

(** The session's data no longer watch for a disconnection. *)
Definition without_filter (p : nat) (y : dsys) : dsys :=
  set_ds_filters (List.filter (fun q => negb (q =? p)%nat) (ds_filters y)) y.

(** C38: closing through D-Bus ends the server.  For a handle the client got from an open,
    the service closes the session; when that fails the client gets -EINVAL and keeps
    its handle, but a close that succeeds is followed by the access through the [gboolean]
    that [agm_dbus_remove_interface] takes for an interface: no close ever returns 0. *)
Theorem dbus_close_crashes ch i h r w y :
  dbus_wf y -> names y ch i h -> Agm.agm_session_close h (ds_agm y) = Ret r w ->
  DbusClient.agm_session_close ch y =
    if nz r then Ret (- EINVAL) (from_option (fun p => set_ds_agm w (without_filter p y)) y (ds_sessions y !! i))
    else Crash DanglingPtr.
Proof.
  intros Hwf (p & Hi & Hl) E. destruct (wf_sessions y Hwf i p Hi) as (_ & (ifs & Hifs & Hif) & _).
  destruct (wf_sessions y Hwf i p Hi) as (_ & _ & sd' & Hsd' & _ & Hpath).
  assert (Hs := Hl). destruct Hs as (d & sd & _ & _ & _ & _ & Hsd & <-). rewrite Hi. cbn [from_option].
  unfold DbusClient.agm_session_close. erewrite session_call_run; [|exact Hl|in_table].
  cbn [run_method]. unfold ipc_agm_session_close, ses_at, bind, modify, gets, db_srv.
  cbn [ds_ses set_ds_filters]. rewrite Hsd. cbn [mjoin option_join the ds_agm set_ds_filters]. unfold ret. cbn [ds_agm set_ds_filters]. rewrite E.
  destruct (nz r); [done|]. unfold agm_dbus_remove_interface, bind, gets, modify. cbn [ds_objects set_ds_agm set_ds_filters].
  replace sd with sd' by congruence. by rewrite Hpath, Hifs, Hif.
Qed.

(** Writing through D-Bus.  The buffer reaches the service with the handle of the
    session; a write that fails gives -EINVAL and the number of bytes that were asked for,
    but after one that succeeds the client drops a reference it has given away: no
    write ever returns 0. *)
Theorem dbus_write_crashes ch h b r n w y :
  (forall n, db_alloc n = true) -> linked y ch h -> Agm.agm_session_write h b (ds_agm y) = Ret (r, n) w ->
  if nz r
  then DbusClient.agm_session_write ch b y =
         Ret (- EINVAL, Z.of_nat (length b)) (set_ds_agm w (set_ds_tick (S (ds_tick y)) y))
  else DbusClient.agm_session_write ch b y = Crash DanglingPtr.
Proof.
  intros Hmem [p Hl] E. assert (Hs := Hl). destruct Hs as (d & sd & Hc & _ & _ & _ & Hsd & <-).
  assert (Hrun : DbusClient.agm_session_write ch b y =
    (if nz r then Ret (- EINVAL, Z.of_nat (length b)) (set_ds_agm w (set_ds_tick (S (ds_tick y)) y)) else Crash DanglingPtr)).
  { unfold DbusClient.agm_session_write, g_assert, fixed_array, bind at 1 2. rewrite (proj2 (nz_true ch)) by lia. unfold ret at 1.
    rewrite Z.ltb_irrefl, Nat2Z.id, firstn_all. unfold ret at 1. erewrite session_call_run; [|exact Hl|in_table].
    cbn [run_method]. unfold ipc_agm_session_write, with_args.
    change (negb (signature [DUint32 (Z.of_nat (length b)); DBytes b] =? "uay")%string) with false. cbv iota.
    unfold get_uint32, get_fixed_array, copy_bytes, malloc, db_tick, ses_at, bind, gets, ret, db_srv. rewrite !Hmem.
    rewrite Z.ltb_irrefl, Nat2Z.id, firstn_all. cbn [ds_ses set_ds_tick ds_tick fst snd]. rewrite Hsd. cbn [mjoin option_join the ds_agm set_ds_tick].
    unfold ret. cbn [ds_agm set_ds_tick]. rewrite E. by destruct (nz r). }
  by destruct (nz r).
Qed.
End Endings.

(** ** Start *)

Section Start.
Context `{Env, DBus}.

(** A server that starts and a client that connects make the tables consistent. *)
Lemma dbus_start y w :
  (forall n, db_alloc n = true) -> (forall n, db_register n = true) -> (forall n, db_proxy n = true) ->
  db_bus = true -> db_owner = true -> db_setup = true -> ds_mdata y = false ->
  Agm.agm_init (ds_agm y) = Ret 0 w ->
  exists y', (let! rc := ipc_agm_init in if nz rc then ret rc else DbusClient.agm_init) y = Ret 0 y' /\
    dbus_wf y' /\ ds_agm y' = w /\ ds_started y' = true.
Proof.
  intros Hmem Hreg Hproxy Hbus Hown Hset Hm E. eexists. split.
  - unfold ipc_agm_init, DbusClient.agm_init, with_mdata, initialize_module_data, agm_dbus_add_interface, malloc, g_malloc0,
      db_tick, bind, gets, modify, ret. rewrite Hbus, Hown, Hset, !Hmem. cbn [negb ds_objects set_ds_objects set_ds_tick ds_tick].
    rewrite lookup_empty, Hreg. change (nz 0) with false. cbv iota. unfold db_srv.
    cbn [ds_agm set_ds_objects set_ds_tick set_ds_sessions]. rewrite E. do 3 (change (nz 0) with false; cbv iota beta).
    cbn [ds_mdata set_ds_objects set_ds_tick set_ds_sessions set_ds_agm set_ds_started]. rewrite Hm, !Hmem, Hproxy. reflexivity.
  - split; [|done]. split.
    + split; [done|]. eexists. split; [apply lookup_insert_eq|apply lookup_singleton_eq].
    + intros i p Hi. cbn in Hi. by rewrite lookup_empty in Hi.
    + intros i Hi _. cbn. rewrite lookup_insert_ne; [apply lookup_empty|]. intros He. by apply (session_path_module i).
    + intros i k Hi. cbn in Hi. by rewrite lookup_empty in Hi.
Qed.
End Start.
