(* ===== verification/DbusEvents.v ===== *)
(** * Callbacks over D-Bus: registration, and events as signals *)

From stdpp Require Import gmap strings pretty.
From S2P Require Export DbusSession.
Open Scope Z_scope.
#[export] Set Default Goal Selector "!".

(** ** Registration *)

Section Registration.
Context `{Env, DBus}.

(** Data of the client's sessions may change in what they are not found by. *)
Record kept (y y' : dsys) : Prop := Kept {
  kp_mdata : ds_mdata y' = ds_mdata y;
  kp_objects : ds_objects y' = ds_objects y;
  kp_sessions : ds_sessions y' = ds_sessions y;
  kp_ses : ds_ses y' = ds_ses y;
  kp_table : ds_table y' = ds_table y;
  kp_cses : forall k d, ds_cses y !! k = Some (Some d) -> exists d', ds_cses y' !! k = Some (Some d') /\
    cs_proxy d' = cs_proxy d /\ cs_session_id d' = cs_session_id d /\ cs_obj_path d' = cs_obj_path d
}.

Lemma kept_wf y y' : kept y y' -> dbus_wf y -> dbus_wf y'.
Proof.
  intros [E1 E2 E3 E4 E5 Hk] [[Hm Hr] Hs Hf Ht].
  split; [split; unfold served_at|..]; unfold served_at in *; rewrite ?E1, ?E2, ?E3, ?E4, ?E5; try done.
  intros i k Hi. destruct (Ht i k Hi) as (Hu & Hp & d & Hd & Hx). split; [done|]. split; [done|].
  destruct (Hk k d Hd) as (d' & Hd' & H1 & H2 & H3). exists d'. rewrite H1, H2, H3. done.
Qed.

Lemma kept_names y y' ch i h : kept y y' -> names y ch i h -> names y' ch i h.
Proof.
  intros [E1 E2 E3 E4 E5 Hk] (p & Hp & d & sd & Hc & Hd & Hpr & Hs & Hx). exists p. rewrite E3. split; [done|].
  destruct (Hk _ d Hd) as (d' & Hd' & H1 & _ & H3). exists d', sd. unfold served_at in *. rewrite E2, E4, H1, H3. done.
Qed.

Context (Hmem : forall n, db_alloc n = true).

(** A callback gets a subscription, and its session the callback. *)
Definition with_callback (cb_data : agm_callback_data) (path : string) (y y' : dsys) : Prop :=
  exists n, ds_subs y' = ds_subs y ++ [Subscription (db_sub n) path (length (ds_cbs y))] /\
    ds_cbs y' = ds_cbs y ++ [Some (CallbackData (cc_session_id cb_data) (cc_client_data cb_data) (cc_cb cb_data)
                                     (cc_evt_type cb_data) (db_sub n))].

Lemma wpg_subscribe u k d cb_data (Q : Z -> dsys -> Prop) y :
  ds_cses y !! k = Some (Some d) ->
  (forall y', kept y y' -> ds_agm y' = ds_agm y -> ds_loops y' = ds_loops y -> with_callback cb_data (cs_obj_path d) y y' -> Q 0 y') ->
  wpg u (subscribe_callback_event (addr_of k) true cb_data) Q y.
Proof.
  intros Hd HQ. assert (Hk : Z.to_nat (addr_of k - 1) = k) by (unfold addr_of; lia).
  assert (Hp : 0 < addr_of k) by (unfold addr_of; lia). unfold subscribe_callback_event.
  apply wpg_bind, (wpg_cses_at _ _ d); [done|by rewrite Hk|].
  apply wpg_bind, wpg_bind, wpg_db_tick, wpg_bind, wpg_gets, wpg_bind, wpg_modify, wpg_bind, wpg_modify.
  unfold upd_cses. apply wpg_bind, (wpg_cses_at _ _ d); [done|by rewrite Hk|]. apply wpg_modify, wpg_ret.
  apply HQ; [|done|done|by exists (ds_tick y)]. split; try done. intros j x Hj. cbn. rewrite Hk.
  destruct (decide (k = j)) as [->|Hne].
  - eexists. rewrite list_lookup_insert_eq by (by eapply lookup_lt_Some). split; [done|]. by simplify_eq.
  - exists x. by rewrite list_lookup_insert_ne.
Qed.
Context (Hreg : forall n, db_register n = true) (Hnull : db_stale_null = true).

(** The handles of the client stay what they were. *)
Definition all_named (y y' : dsys) : Prop := forall ch j h, names y ch j h -> names y' ch j h.

Lemma wpg_register_server u i evt cd r w (Q : option (list dval) -> dsys -> Prop) y :
  dbus_wf y -> small_id i ->
  Agm.agm_session_register_cb i addr_agmevent_cb evt (addr_of (session_at i y)) (ds_agm y) = Ret r w ->
  (forall y', dbus_wf y' -> ds_agm y' = w -> same_client y y' -> all_named y y' -> is_Some (ds_sessions y' !! i) ->
     Q (if nz r then None else Some [DObjectPath (session_path i)]) y') ->
  wpg u (run_method AgmSessionRegisterCb ModuleData [DUint32 i; DUint32 evt; DUint64 cd]) Q y.
Proof.
  intros Hwf Hi E HQ. cbn [run_method]. apply wpg_with_args; [done|reflexivity|].
  do 3 apply wpg_bind, wpg_ret. apply wpg_bind, (wpg_get_session_data Hmem Hreg); [done|done|].
  intros y1 Hwf1 Hp Hcl Ha Hn. set (p := session_at i y) in *. apply wpg_bind. eapply wpg_db_srv; [by rewrite Ha|].
  set (y2 := set_ds_agm w y1). assert (Hwf2 : dbus_wf y2) by (by apply (wf_ext y1)).
  assert (Hn2 : all_named y y2) by (intros ch j h Hnm; by apply (names_ext y1), Hn).
  destruct (wf_sessions y2 Hwf2 i p Hp) as (_ & _ & sd & Hsd & _ & Hpath).
  destruct (nz r).
  - unfold agm_free_session. rewrite Hnull. apply wpg_bind, wpg_ret. apply (HQ y2); try done. by destruct Hcl.
  - apply wpg_bind, (wpg_malloc _ Hmem), wpg_bind, wpg_ret, wpg_bind. set (y3 := set_ds_tick _ y2).
    set (f := fun d => set_sd_callbacks ((i, evt, cd) :: sd_callbacks d) d). unfold wpg at 1. rewrite (upd_ses_run _ f y3 sd) by done.
    assert (Hwf4 : dbus_wf (upd_data p f y3)) by (apply upd_data_wf; [done|by apply (wf_ext y2)]).
    apply wpg_bind. eapply wpg_ses_at; [exact (alter_lookup_fmap (ds_ses y3) p sd f Hsd)|]. cbn [sd_obj_path f set_sd_callbacks].
    rewrite Hpath. apply HQ; try done; [by destruct Hcl|].
    intros ch j h Hnm. apply upd_data_names_all; [done|]. by apply (names_ext y2), Hn2.
Qed.

Context (Hproxy : forall n, db_proxy n = true) (Hthread : forall n, db_thread n = true).

(** What registering a callback comes to. *)
Definition registered (i cb evt cd r : Z) (w : world) (y y' : dsys) : Prop :=
  ds_agm y' = w /\ dbus_wf y' /\ all_named y y' /\
  if nz r then same_client y y' else
    with_callback (CallbackData i cd cb evt 0) (session_path i) y y' /\
    ds_loops y' = match ds_table y !! i with Some _ => ds_loops y | None => S (ds_loops y) end.

(** The last part, in a state where the session is in the client's table. *)
Lemma wpg_register_last i cb evt cd r k w y y1 :
  dbus_wf y1 -> ds_agm y1 = w -> all_named y y1 -> ds_subs y1 = ds_subs y -> ds_cbs y1 = ds_cbs y ->
  ds_table y1 !! i = Some k -> nz r = false ->
  ds_loops y1 = match ds_table y !! i with Some _ => ds_loops y | None => S (ds_loops y) end ->
  wp (let! _ := subscribe_callback_event (addr_of k) true (CallbackData i cd cb evt db_junk) in ret 0)
    (fun s y' => s = 0 /\ registered i cb evt cd r w y y') y1.
Proof.
  intros Hwf Hw Hn Hs Hc Et Er Hl. destruct (wf_table y1 Hwf i k Et) as (_ & _ & d & Hd & _ & _ & Hpath).
  apply wpg_bind. eapply wpg_subscribe; [exact Hd|]. intros y2 Hk Ha Hl2 (n & Hs2 & Hc2). apply wpg_ret.
  rewrite Hpath in Hs2. unfold registered. rewrite Er, Hl2, Ha. split_and!; try done.
  - by eapply kept_wf.
  - intros ch j h Hnm. eapply kept_names; [exact Hk|]. by apply Hn.
  - exists n. by rewrite Hs2, Hc2, Hs, Hc.
Qed.

Lemma dbus_register_run i cb evt cd r w y :
  dbus_wf y -> small_id i -> cb <> 0 ->
  Agm.agm_session_register_cb i addr_agmevent_cb evt (addr_of (session_at i y)) (ds_agm y) = Ret r w ->
  wp (DbusClient.agm_session_register_cb i cb evt cd) (fun s y' => s = status_seen r /\ registered i cb evt cd r w y y') y.
Proof.
  intros Hwf Hi Hcb E. unfold DbusClient.agm_session_register_cb. rewrite (proj2 (Z.eqb_neq cb 0)) by done.
  eapply wpg_module_call; [apply Hwf|in_table|]. eapply wpg_register_server; [done|done|exact E|].
  intros y' Hwf' Hw Hcl Hn Hp. unfold status_seen. destruct (nz r) eqn:Er.
  { apply wpg_ret. unfold registered. by rewrite Er. }
  apply wpg_bind, wpg_gets. rewrite (sc_table _ _ Hcl). destruct Hcl as [_ Ht _ Hcb' Hs _ Hlo _].
  destruct (ds_table y !! i) as [k|] eqn:Et.
  - apply wpg_bind, wpg_ret, wpg_bind, (wpg_malloc _ Hmem). apply wpg_register_last; try done; cbn.
    + by apply (wf_ext y').
    + by rewrite Ht.
    + by rewrite Et.
  - apply wpg_bind, wpg_bind, (wpg_g_malloc0 _ Hmem), wpg_bind, wpg_ret, wpg_bind, wpg_db_tick, wpg_bind, wpg_db_tick.
    rewrite Hproxy, Hthread. cbn [negb]. set (y2 := set_ds_tick _ _).
    apply wpg_bind, wpg_bind, wpg_gets, wpg_bind, wpg_modify, wpg_ret, wpg_bind, wpg_modify, wpg_bind, wpg_modify.
    assert (Hk : Z.to_nat (addr_of (length (ds_cses y2)) - 1) = length (ds_cses y2)) by (unfold addr_of; lia). rewrite Hk.
    apply wpg_ret, wpg_bind, (wpg_malloc _ Hmem).
    assert (Hwf2 : dbus_wf (with_client_data true i y2)) by (apply with_client_data_wf; [by apply (wf_ext y')|done|done]).
    apply wpg_register_last; try done; cbn.
    + by apply (wf_ext (with_client_data true i y2)).
    + intros ch j h Hnm. by apply (names_ext (with_client_data true i y2)), names_client_data, (names_ext y'), Hn.
    + by rewrite lookup_insert_eq.
    + by rewrite Et, Hlo.
Qed.
End Registration.

Section Events.
Context `{Env, DBus}.
Context (Hmem : forall n, db_alloc n = true).

(** The values of the signal of an event. *)
Definition event_args (ev : event_params) : list dval :=
  [DUint32 (ev_source_module_id ev); DUint32 (ev_event_id ev); DUint32 (Z.of_nat (length (ev_payload ev)));
   DBytes (ev_payload ev)].

Definition subs_of (path : string) (y : dsys) : list subscription :=
  List.filter (fun s => String.eqb (sb_path s) path) (ds_subs y).

Lemma subs_of_in path y : subs_of path y ⊆ ds_subs y.
Proof. intros s. unfold subs_of. rewrite !list_elem_of_In, filter_In. tauto. Qed.

Definition payload_fits (ev : event_params) : Prop := Z.of_nat (length (ev_payload ev)) < 2 ^ 32.

Lemma agmevent_cb_run sid ev p sd y :
  ds_ses y !! p = Some (Some sd) -> payload_fits ev ->
  agmevent_cb sid ev (addr_of p) y =
    Ret tt (set_ds_queue (ds_queue y ++ ((fun s => (sb_id s, event_args ev)) <$> subs_of (sd_obj_path sd) y))
      (set_ds_tick (S (ds_tick y)) y)).
Proof.
  intros Hsd Hf. unfold payload_fits in Hf.
  assert (Hr : wp (agmevent_cb sid ev (addr_of p)) (fun _ t => t =
    set_ds_queue (ds_queue y ++ ((fun s => (sb_id s, event_args ev)) <$> subs_of (sd_obj_path sd) y))
      (set_ds_tick (S (ds_tick y)) y)) y).
  { unfold agmevent_cb. cbv zeta. rewrite u32_small by lia. apply wpg_bind, (wpg_malloc _ Hmem), wpg_bind.
    apply wpg_memcpy_all; [done|rewrite length_replicate; lia|]. apply wpg_bind, wpg_gets, wpg_bind.
    eapply wpg_deref with (x := Some sd); [unfold addr_of; lia|unfold addr_of; replace (Z.to_nat _) with p by lia; exact Hsd|].
    apply wpg_bind, wpg_ret, wpg_bind, wpg_fixed_array; [done|]. apply wpg_modify. done. }
  apply wp_run in Hr as ([] & t & E & ->). exact E.
Qed.

(** Every subscription has an id of its own, and its data. *)
Definition subs_live (y : dsys) : Prop :=
  NoDup (sb_id <$> ds_subs y) /\ Forall (fun s => exists d, ds_cbs y !! sb_data s = Some (Some d)) (ds_subs y).

(** The call a subscription makes of an event. *)
Definition signal_delivery (ev : event_params) (y : dsys) (s : subscription) : list dbus_delivery :=
  match ds_cbs y !! sb_data s with
  | Some (Some d) => [DbusDelivery (cc_cb d) (cc_session_id d) ev (cc_client_data d)]
  | _ => []
  end.

Fixpoint main_loop (rounds : nat) : DSYS unit :=
  match rounds with
  | O => ret tt
  | S rounds => do! main_loop_round ; main_loop rounds
  end.

Lemma find_sub l s : NoDup (sb_id <$> l) -> s ∈ l -> List.find (fun x => sb_id x =? sb_id s) l = Some s.
Proof.
  induction l as [|x l IH]; intros Hd Hs; [by apply not_elem_of_nil in Hs|]. rewrite fmap_cons in Hd.
  apply NoDup_cons in Hd as [Hx Hd]. cbn [List.find]. apply elem_of_cons in Hs as [->|Hs]; [by rewrite Z.eqb_refl|].
  rewrite (proj2 (Z.eqb_neq _ _)); [by apply IH|]. intros He. apply Hx. rewrite He. by apply list_elem_of_fmap_2.
Qed.

(** A round with a signal at the head of the queue. *)
Lemma main_loop_round_run ev s q y :
  subs_live y -> s ∈ ds_subs y -> ds_loops y <> O -> ds_queue y = (sb_id s, event_args ev) :: q -> payload_fits ev ->
  main_loop_round y =
    Ret tt (set_ds_delivered (ds_delivered y ++ signal_delivery ev y s) (set_ds_tick (S (ds_tick y)) (set_ds_queue q y))).
Proof.
  intros [Hd Hl] Hs Hn Hq Hf.
  destruct (proj1 (Forall_forall _ _) Hl s Hs) as (d & Hcb). destruct ev as [m e b]. cbn [ev_payload] in Hf.
  assert (Hr : wp main_loop_round (fun _ t => t =
    set_ds_delivered (ds_delivered y ++ signal_delivery (EventParams m e b) y s) (set_ds_tick (S (ds_tick y)) (set_ds_queue q y))) y).
  { unfold main_loop_round. apply wpg_bind, wpg_gets, wpg_bind, wpg_gets. rewrite Hq. destruct (ds_loops y) as [|n] eqn:En; [done|].
    apply wpg_bind, wpg_modify, wpg_bind, wpg_gets. cbn [ds_subs set_ds_queue]. rewrite find_sub by done.
    do 3 apply wpg_bind, wpg_ret. apply wpg_bind, (wpg_malloc _ Hmem), wpg_bind, wpg_ret, wpg_bind.
    apply wpg_memcpy_all; [done|rewrite length_replicate; lia|]. unfold cb_at. apply wpg_bind, wpg_bind, wpg_gets.
    cbn [ds_cbs set_ds_tick set_ds_queue]. rewrite Hcb. cbn [mjoin option_join the]. apply wpg_ret, wpg_modify.
    unfold signal_delivery. by rewrite Hcb. }
  apply wp_run in Hr as ([] & t & E & ->). exact E.
Qed.

Lemma main_loop_run ev l y :
  subs_live y -> l ⊆ ds_subs y -> ds_loops y <> O -> payload_fits ev ->
  ds_queue y = (fun s => (sb_id s, event_args ev)) <$> l ->
  exists t, main_loop (length l) y =
    Ret tt (set_ds_tick t (set_ds_delivered (ds_delivered y ++ mjoin (signal_delivery ev y <$> l)) (set_ds_queue [] y))).
Proof.
  revert y. induction l as [|s l IH]; intros y Hl Hin Hn Hf Hq.
  { exists (ds_tick y). cbn [length main_loop fmap list_fmap mjoin list_join]. rewrite app_nil_r. destruct y. cbn in *. by subst. }
  rewrite fmap_cons in Hq. cbn [length main_loop]. unfold bind at 1.
  rewrite (main_loop_round_run ev s _ y) by first [done|apply Hin; apply list_elem_of_here].
  set (y1 := set_ds_delivered _ _). destruct (IH y1) as [t ->].
  { exact Hl. } { intros x Hx. apply Hin. by apply list_elem_of_further. } { done. } { done. } { done. }
  exists t. rewrite fmap_cons. cbn [mjoin list_join]. rewrite app_assoc. by destruct y.
Qed.

Lemma main_loop_idle n y : ds_loops y = O -> main_loop n y = Ret tt y.
Proof.
  intros Hl. induction n as [|n IH]; [done|]. cbn [main_loop]. unfold bind at 1.
  assert (main_loop_round y = Ret tt y) as -> by (unfold main_loop_round, bind, gets; by rewrite Hl). exact IH.
Qed.
End Events.

Section EventProps.
Context `{Env, DBus}.

(** Registering over D-Bus.  The service gets [agmevent_cb] and the address of the
    session's data in the server, which are made if need be; the client gets 0 or -EINVAL and,
    on success, a subscription to the signals of the session's object with its function
    and data.  The tables of both ends stay consistent and no handle changes its meaning.
    A main loop only starts when the client had no data for the session: a callback
    registered after the session was opened comes with none. *)
Theorem dbus_register_cb i cb evt cd r w y :
  (forall n, db_alloc n = true) -> (forall n, db_register n = true) -> db_stale_null = true ->
  (forall n, db_proxy n = true) -> (forall n, db_thread n = true) ->
  dbus_wf y -> small_id i -> cb <> 0 ->
  Agm.agm_session_register_cb i addr_agmevent_cb evt (addr_of (session_at i y)) (ds_agm y) = Ret r w ->
  exists y', DbusClient.agm_session_register_cb i cb evt cd y = Ret (status_seen r) y' /\ registered i cb evt cd r w y y'.
Proof.
  intros Hmem Hreg Hnull Hproxy Hthread Hwf Hi Hcb E.
  destruct (wp_run _ _ _ (dbus_register_run Hmem Hreg Hnull Hproxy Hthread i cb evt cd r w y Hwf Hi Hcb E)) as (s & y' & E' & -> & Hr).
  by exists y'.
Qed.

(** C40: events over D-Bus.  An event the service gives for the data of a session
    becomes one signal of the session's object.  Where the client runs a main loop, a round
    per subscription calls every callback registered for the session, in the order of registration,
    each with its own data and the whole event, whatever event type it was registered
    for; where it runs none, nothing is ever called. *)
Theorem dbus_events sid ev p sd y :
  (forall n, db_alloc n = true) -> ds_ses y !! p = Some (Some sd) -> payload_fits ev -> subs_live y -> ds_queue y = [] ->
  let subs := subs_of (sd_obj_path sd) y in
  exists y1, agmevent_cb sid ev (addr_of p) y = Ret tt y1 /\
    (ds_loops y <> O -> exists t, main_loop (length subs) y1 =
       Ret tt (set_ds_tick t (set_ds_delivered (ds_delivered y ++ mjoin (signal_delivery ev y <$> subs)) y))) /\
    (ds_loops y = O -> forall n, main_loop n y1 = Ret tt y1).
Proof.
  intros Hmem Hsd Hf Hl Hq subs. eexists. split; [by apply agmevent_cb_run|]. rewrite Hq, app_nil_l. fold subs. split.
  - intros Hn. eassert (Hrun := main_loop_run Hmem ev subs (set_ds_queue _ (set_ds_tick (S (ds_tick y)) y))).
    destruct Hrun as [t Hrun]; [exact Hl|exact (subs_of_in _ y)|done|done|reflexivity|].
    exists t. rewrite Hrun. destruct y. cbn in *. by subst.
  - intros Hn n. by apply main_loop_idle.
Qed.
End EventProps.
