(* ===== verification/DbusWitness.v ===== *)
(** * The theorems on D-Bus at work *)

From stdpp Require Import gmap strings pretty.
From S2P Require BinderWitness.
From S2P Require Import GraphProps SessionProps.
From S2P Require Export DbusEvents.
Open Scope Z_scope.
#[export] Set Default Goal Selector "!".

(** Whatever is asked for can be had. *)
Definition demo_dbus : DBus := {|
  db_alloc _ := true;
  db_bus := true;
  db_proxy _ := true;
  db_thread _ := true;
  db_owner := true;
  db_setup := true;
  db_register _ := true;
  db_stale_null := true;
  db_junk := 0;
  db_buffer _ := [];
  db_sub n := 50 + Z.of_nat n;
  addr_agmevent_cb := 900
|}.

(** A server that has started, and a client that is connected. *)
Definition dbus_fresh : dsys :=
  DSys BinderWitness.open_world
    {[AGM_OBJECT_PATH := {[AGM_MODULE_IFACE := make_interface module_interface_info ModuleData]}]}
    ∅ [] [] true true ∅ [] [] [] [] 0 [] 0.

Lemma dbus_fresh_wf : dbus_wf dbus_fresh.
Proof.
  split.
  - split; [done|]. eexists. split; [apply lookup_singleton_eq|apply lookup_singleton_eq].
  - intros i p Hi. cbn in Hi. by rewrite lookup_empty in Hi.
  - intros i Hi _. cbn [ds_objects dbus_fresh]. apply lookup_singleton_ne. intros He. by apply (session_path_module i).
  - intros i k Hi. cbn in Hi. by rewrite lookup_empty in Hi.
Qed.

(** The state after a call. *)
Definition after_dbus {A} (m : DSYS A) (y : dsys) : dsys := match m y with Ret _ y' => y' | Crash _ => y end.
Definition opened_world : world :=
  match Agm.agm_session_open (H:=ok_env) 1 true BinderWitness.open_world with Ret _ w => w | Crash _ => BinderWitness.open_world end.

Lemma demo_service_open : @Agm.agm_session_open ok_env 1 true BinderWitness.open_world = Ret (0, Some 1) opened_world.
Proof. vm_compute. reflexivity. Qed.

(** The client opens session 1: its first handle, for the first of the service. *)
Lemma dbus_open_names_witness :
  exists y, @DbusClient.agm_session_open ok_env demo_dbus 1 0 dbus_fresh = Ret (0, 1) y /\
    dbus_wf y /\ names y 1 1 1 /\ ds_agm y = opened_world /\ ds_loops y = O.
Proof.
  destruct (@dbus_open_names ok_env demo_dbus 1 0 0 (Some 1) opened_world
    dbus_fresh (fun _ => eq_refl) (fun _ => eq_refl) (fun _ => eq_refl) dbus_fresh_wf ltac:(by vm_compute) demo_service_open) as (ch & y' & E & Hw & Hwf & _ & h & [= <-] & Hn).
  assert (Hv : match @DbusClient.agm_session_open ok_env demo_dbus 1 0 dbus_fresh with
      Ret o y => (o.2, ds_loops y) | Crash _ => (0, O) end = (1, O)) by (vm_compute; reflexivity).
  rewrite E in Hv. injection Hv as -> Hl. exists y'. exact (conj E (conj Hwf (conj Hn (conj Hw Hl)))).
Defined.

Definition dbus_opened : dsys := after_dbus (@DbusClient.agm_session_open ok_env demo_dbus 1 0) dbus_fresh.

Lemma dbus_opened_facts : dbus_wf dbus_opened /\ names dbus_opened 1 1 1.
Proof.
  pose proof (@dbus_open_run ok_env demo_dbus (fun _ => eq_refl) (fun _ => eq_refl) (fun _ => eq_refl) 1 0 0 (Some 1) opened_world
    dbus_fresh dbus_fresh_wf ltac:(by vm_compute) demo_service_open (fun _ => eq_refl)) as Hr.
  destruct (wp_run _ _ _ Hr) as (o & y' & E & ch & -> & _ & Hwf & _ & h & [= <-] & Hn).
  assert (Hv : match @DbusClient.agm_session_open ok_env demo_dbus 1 0 dbus_fresh with
      Ret o _ => o.2 | Crash _ => 0 end = 1) by (vm_compute; reflexivity).
  rewrite E in Hv. cbn [snd] in Hv. unfold dbus_opened, after_dbus. rewrite E. rewrite Hv in Hn. exact (conj Hwf Hn).
Qed.

(** It starts the session, which the service refuses with -1. *)
Lemma dbus_transparent_witness :
  exists t, @dbus_remote ok_env demo_dbus _ _ 1 (Start 1) dbus_opened = Ret (- EINVAL) t.
Proof.
  destruct dbus_opened_facts as [Hwf (p & _ & Hl)].
  assert (E : exists r w, @direct ok_env _ _ (Start 1) (ds_agm dbus_opened) = Ret r w /\ status_seen r = - EINVAL)
    by (eexists _, _; split; vm_compute; reflexivity).
  destruct E as (r & w & E & Hr).
  destruct (@dbus_transparent ok_env demo_dbus _ _ (Start 1) 1 r w dbus_opened (fun _ => eq_refl) (wf_ready _ Hwf)
    ltac:(intros h [= <-]; by exists p) E I I) as [t Ht].
  eexists. rewrite Ht. cbn [dbus_seen]. rewrite Hr. reflexivity.
Defined.

(** It closes the session. *)
Lemma dbus_close_crashes_witness : @DbusClient.agm_session_close ok_env demo_dbus 1 dbus_opened = Crash DanglingPtr.
Proof.
  destruct dbus_opened_facts as [Hwf Hn].
  assert (E : exists w, @Agm.agm_session_close ok_env 1 (ds_agm dbus_opened) = Ret 0 w) by (eexists; vm_compute; reflexivity).
  destruct E as [w E]. exact (@dbus_close_crashes ok_env demo_dbus 1 1 1 0 w dbus_opened Hwf Hn E).
Defined.

(** A session id that is not unsigned. *)
Lemma dbus_signature_checked_witness :
  @server_message_handler ok_env demo_dbus AGM_OBJECT_PATH AGM_MODULE_IFACE "AgmSessionOpen" [DInt32 1] dbus_fresh =
    Ret None dbus_fresh.
Proof.
  apply (proj1 (@dbus_signature_checked ok_env demo_dbus AGM_OBJECT_PATH module_interface_info ModuleData
    (DbusMethod "AgmSessionOpen" "u" AgmSessionOpen) [DInt32 1] dbus_fresh ltac:(by left)
    (rd_module _ (wf_ready _ dbus_fresh_wf)) ltac:(in_table))); discriminate.
Defined.

(** A callback, registered before the session is opened or after it. *)
Definition dbus_register : DSYS Z := @DbusClient.agm_session_register_cb ok_env demo_dbus 1 301 3 401.
Definition dbus_first : dsys := after_dbus dbus_register dbus_fresh.
Definition dbus_late : dsys := after_dbus dbus_register dbus_opened.

Lemma dbus_register_cb_witness :
  exists y, dbus_register dbus_opened = Ret 0 y /\ ds_loops y = O /\ length (ds_subs y) = 1%nat.
Proof.
  destruct dbus_opened_facts as [Hwf _].
  assert (E : exists w, @Agm.agm_session_register_cb ok_env 1 (@addr_agmevent_cb demo_dbus) 3 (addr_of (session_at 1 dbus_opened)) (ds_agm dbus_opened) = Ret 0 w)
    by (eexists; vm_compute; reflexivity).
  assert (Hu : small_id 1) by (by vm_compute). assert (Hc : 301 <> 0) by discriminate.
  destruct E as [w E].
  destruct (@dbus_register_cb ok_env demo_dbus 1 301 3 401 0 w dbus_opened (fun _ => eq_refl) (fun _ => eq_refl) eq_refl
    (fun _ => eq_refl) (fun _ => eq_refl) Hwf Hu Hc E) as (y & Hr & _ & _ & _ & (n & Hs & _) & Hl).
  exists y. split; [exact Hr|]. rewrite Hs, Hl. vm_compute. split; reflexivity.
Defined.

(** An event of another type for it: the callback that came first is called, the late one
    never. *)
Definition dbus_event : event_params := EventParams 40 9 [1; 2; 3].
Definition dbus_sd : agm_session_data := SesData 1 0 (session_path 1) [(1, 3, 401)].

Lemma dbus_events_witness :
  (exists y1 t, @agmevent_cb demo_dbus 1 dbus_event 1 dbus_first = Ret tt y1 /\
     @main_loop demo_dbus 1 y1 =
       Ret tt (set_ds_tick t (set_ds_delivered [DbusDelivery 301 1 dbus_event 401] dbus_first))) /\
  (exists y1, @agmevent_cb demo_dbus 1 dbus_event 1 dbus_late = Ret tt y1 /\
     forall n, @main_loop demo_dbus n y1 = Ret tt y1).
Proof.
  assert (Hlive : forall y s d, ds_subs y = [s] -> ds_cbs y !! sb_data s = Some (Some d) -> subs_live y).
  { intros y s d Hs Hd. split; rewrite Hs; [apply NoDup_singleton|]. constructor; [by exists d|constructor]. }
  split.
  - destruct (@dbus_events demo_dbus 1 dbus_event O dbus_sd dbus_first (fun _ => eq_refl) ltac:(vm_compute; reflexivity) ltac:(by vm_compute)
      ltac:(eapply Hlive; vm_compute; reflexivity) ltac:(vm_compute; reflexivity)) as (y1 & E & Hd & _).
    destruct (Hd ltac:(by vm_compute)) as [t Ht]. exists y1, t. exact (conj E Ht).
  - destruct (@dbus_events demo_dbus 1 dbus_event O (set_sd_handle 1 dbus_sd) dbus_late (fun _ => eq_refl) ltac:(vm_compute; reflexivity) ltac:(by vm_compute)
      ltac:(eapply Hlive; vm_compute; reflexivity) ltac:(vm_compute; reflexivity)) as (y1 & E & _ & Hd).
    exists y1. exact (conj E (Hd ltac:(vm_compute; reflexivity))).
Defined.
